(* ===== verification/_CoqProject ===== *)
-Q . S2P
Prelude.v
Prog.v
Te.v
Bytes.v
CString.v
NetDrvTs.v
Phy.v
Locals.v
AgentRpc.v
DataFlow.v
CommonRss.v
XdpSocks.v
RssPrologue.v
Double.v
LibPtp.v
Prologue.v
Capture.v
Resources.v
RxCommon.v
RxUsecs.v
RxFrames.v
TxCoalesce.v
Tso.v
Holding.v
RxFcs.v
Mtu.v
MtuUdp.v
MtuTcp.v
RxOffload.v
AutonegAdvertise.v
RawFramePerf.v
TcpUdpPerf.v
Usage.v
Traffic.v
RssTests.v
RssTrace.v
ChangeChannels.v
RxRules.v
HashKey.v
RxRuleTests.v
AfXdp.v
DriverUnload.v
Judging.v
NicFilter.v
BasicTests.v
EthtoolReset.v
PtpTests.v
PtpTools.v
EthtoolRuns.v
EthtoolFeatures.v
LinkModes.v
BasicRuns.v
Devlink.v
RxHeadroom.v
