(* ===== verification/Prelude.v ===== *)
(** * Verification of net-drv-ts

    net-drv-ts is a suite of tests for network drivers.  A test is a C program
    that runs on a test engine and drives two hosts: the IUT, whose driver is
    tested, and the tester.  It reaches them through the OKTET Labs Test
    Environment (TE): remote procedure calls (RPCs) to processes on the hosts,
    a configuration tree (the configurator), packet capture and generation
    (CSAPs).  TE is not part of the repository.

    ** Parts of the program and how they interact

    - The library of the suite, src/net-drv-ts/lib: [net_drv_ts.c] (data
      checks, interface features, MAC and MTU, driver loading, waiting for the
      neighbour tables, PHY link parameters), [net_drv_phy.c] (saving, changing
      and restoring the PHY configuration), [net_drv_data_flow.c] (connections
      and flows of data run by forked RPC servers), [net_drv_ptp.c],
      [net_drv_ethtool.c].  Tests call it.
    - The agent's own RPCs, src/talib_net_drv_ts/rpc.c, run on the hosts; the
      Rx coalescing tests and a test of RSS call them.
    - prologue.c prepares a run of the suite; rss/prologue.c a run of the RSS
      package, with the API of rss/common_rss.c.
    - The tests: a [main] each, with a body that a failed check leaves by a
      jump to [cleanup], and a cleanup that gives back what the body took.

    ** How the program is modelled

    A C function is a tree of calls: it ends or performs one call of TE and
    goes on with the answer ([Prog.prog]).  What a call does is not defined
    here: [Te.te_call] is the signature of the calls the suite makes (arguments
    and type of the answer), and theorems speak of every environment, or of
    every environment that obeys a documented promise ([Prog.watch_if]), or of
    a concrete device (handlers, executable, in the modules named after them).
    A call may jump (TEST_FAIL and its kin, an RPC that fails unexpectedly), a
    run may meet undefined behaviour of C ([Prog.Undef]: a null or an
    uninitialised value used, an array left), and a loop without a bound of
    its own may exhaust its fuel ([Prog.NoFuel]).  [Prog.wp] is the weakest
    precondition of a tree in an environment; [Prog.run] evaluates a tree
    against a handler.  Functions that write to structures passed by pointer,
    and mains, whose variables keep their values when a jump leaves them, are
    programs over those locals ([Locals.T], [Locals.test_main]).

    ** Files

    - Prelude: machine integers as [Z] with their reductions, tactics, lists.
    - Prog, Te, Locals: the language of the model, TE, locals that survive jumps.
    - Bytes, CString, Double: byte order; [strtoul], [strrchr] and others of the
      C library; binary64 arithmetic of [double].
    - NetDrvTs: lib/net_drv_ts.c.  Phy: lib/net_drv_phy.c.  DataFlow:
      lib/net_drv_data_flow.c.  LibPtp: lib/net_drv_ptp.c, lib/net_drv_ethtool.c.
    - AgentRpc: talib_net_drv_ts/rpc.c, over the agent's operating system.
    - CommonRss, XdpSocks: rss/common_rss.c and .h.  RssPrologue: rss/prologue.c.
    - Prologue: prologue.c.
    - Resources: sockets, CSAPs, rules and coalescing settings a test holds, and
      the rules of the logic by which tests are shown to give them back.
    - Capture, RxCommon: what rx_path/rx_coalesce_usecs.c and
      rx_path/rx_coalesce_frames.c share; RxUsecs and RxFrames: the rest of each.
    - TxCoalesce: ethtool/tx_coalesce.c.  Tso: offload/tso.c.
    - Holding: sockets and CSAPs that are named by the locals of a test.  RxFcs:
      rx_path/rx_fcs.c.  Mtu: what basic/mtu_udp.c (MtuUdp) and basic/mtu_tcp.c
      (MtuTcp) share.  RxOffload: offload/receive_offload.c.  AutonegAdvertise:
      ethtool/autoneg_advertise.c.
    - RssTests: what the tests of RSS use of CommonRss, in every environment;
      RssTrace: in those of a NIC whose events are recorded.  ChangeChannels:
      rss/change_channels.c.  RxRules: rss/rx_rules_full_part.c.  HashKey:
      rss/indir_table_set.c, rss/hash_key_set.c, rss/hash_key_get.c.
      RxRuleTests: rss/rx_rule_tcp_udp.c, rss/too_many_rx_rules.c.  AfXdp:
      rss/af_xdp.c, rss/af_xdp_two_rules.c, rss/af_xdp_rx_rule.c, rss/epilogue.c.
    - RawFramePerf: perf/raw_frame_perf.c.  TcpUdpPerf: perf/tcp_udp_perf.c.
    - Usage: descriptors and forked servers of tests with flows.  Traffic:
      ethtool/reset_under_traffic.c and stress/if_down_up_loop.c.
      DriverUnload: stress/driver_unload.c and stress/driver_unload_traffic.c.
    - Judging: tests shown to judge rightly what they see.  NicFilter:
      basic/rx_mode.c, basic/mac_change_rx.c, offload/vlan_filter.c, against the
      filters of an interface.  BasicTests: basic/send_receive.c,
      basic/multicast.c, basic/set_if_down.c, basic/mac_change_tx.c,
      offload/simple_csum.c.  EthtoolReset: basic/ethtool_reset_nic.c.
    - PtpTests: ptp/get_time.c, ptp/set_time.c, ptp/adj_setoffset.c,
      ptp/adj_frequency.c, ptp/clock_caps.c, ptp/sys_offset*.c.  PtpTools:
      ptp/ptp4l.c and ptp/sfptpd.c.
    - EthtoolRuns: ethtool/check_ring.c, dev_properties.c, *_dump.c,
      dump_module_eeprom.c, show_*.c, statistics.c, pause_stats_increment.c and
      ts_info.c, which judge what the ethtool program or an ioctl printed.
      EthtoolFeatures: ethtool/loopback.c, eee.c, msglvl.c.  LinkModes:
      ethtool/link_fixed_mode.c, parallel_detect.c, over Phy.
    - BasicRuns: basic/ping.c, driver_info.c, read_sysfs.c, perf/fwd_prologue.c.
      Devlink: devlink/*.c.  RxHeadroom: basic/set_rx_headroom.c.

    Definitions have the names of the C functions; the parts of a long function
    are definitions of their own, named after what they do.  [X_main] is the
    [main] of a test, its parameters being arguments.

    ** What the theorems show

    - Library: the data check accepts the right data only and stays within its
      buffer, of which it compares only bytes it received (C1), but never ends against a peer that closed (C2); features
      ([NetDrvTs.set_if_feature_correct]), neighbour tables (C4); the PHY
      configuration is saved and restored exactly (C8), autonegotiated and fixed
      modes are applied, with a commit exactly when something changes (C9, [Phy.phy_apply_fixed_mode_correct]), its command
      sequences are well formed, mode names parse (C11, C12); flows (C18, C19); PTP
      ([LibPtp.is_ptp_supported_correct]).
    - Agent: numbered packets are sent on time and checked on arrival, sender
      and receiver compose, the loops end, Rx rules are added and removed once
      (C13-C17).
    - RSS: AF_XDP sockets leak nothing (C20,
      [XdpSocks.xdp_socks_no_leak]), nor do the tests that use them (C21 and its
      kin in AfXdp), predictions are those of the
      NIC (C22), the echo (C23), detection of the hash variant (C24, C25),
      repair of the indirection table ([RssPrologue.check_fix_indir_table_correct]),
      the choice of a number of channels (C26), given back at the end
      ([ChangeChannels.change_channels_restores]).  What the tests have seen when
      they pass: the hash key (C35 and its kin in HashKey), Rx rules (C32, and
      RxRuleTests).
    - Frame check sequences: the check passes exactly for frames that carry their
      CRC, or none, as rx-fcs says (C38).
    - Coalescing: the verdict is that of a reference on groups of packets (C27,
      [RxFrames.frames_analyse_correct]), settings come back however the test ends (C31, and the lemmas
      [RxUsecs.usecs_restores], [RxFrames.frames_restores]); the Tx profiles
      ([TxCoalesce.tx_coalesce_shows]).
    - MTU: captured datagrams and segments are accepted exactly when they are what
      the MTU allows (C30, [MtuTcp.tcp_examine_correct]).  Receive offload: what is counted and judged is
      the reference on the packets after the slow start, LRO being in effect only
      with Rx checksums (C37).  Advertised modes: the two best of the modes both
      ends advertise are chosen (C28).
    - TSO: 32-bit counters implement positions of the stream, across the wrap
      (C33), the splitting by MSS tiles the data (C34) unless the MSS is zero
      ([Tso.split_pkts_endless]), the check passes exactly for a NIC that did as told, which is less than the
      text of its step says (C36), and
      the test releases what it took ([Tso.tso_releases]; the tests of the MTU,
      receive offload and advertised modes have such a lemma too).
    - Performance: what a raw frame test that passes has measured (C29), and its
      templates and CSAPs given back ([RawFramePerf.raw_frame_perf_releases]); the
      tools of the TCP/UDP test destroyed within its arrays (C40), the throughput
      of a link summed from its own instances ([TcpUdpPerf.add_reports_by_link]).
    - Prologue: the tags that count functions and active ports
      ([Prologue.pci_count_tags_correct]).
    - Filters of an interface: packets are judged as the receive mode and the
      VLANs say (C3, C10).  Resetting: what a test that passes has sent, and what
      it reports ([EthtoolReset.ethtool_reset_passes]).  Basic tests: what was
      received and counted when they pass (BasicTests).
    - Clocks: reading, setting and shifting are judged by whole seconds
      ([PtpTests.get_time_judges], [PtpTests.set_time_judges],
      [PtpTests.adj_setoffset_judges]); the frequency is left as it was only by a
      test that fails (C39); time stamps are read within their array
      ([PtpTests.sys_offset_in_bounds]).  ptp4l and sfptpd: what is said of
      messages and statistics ([PtpTools.classify_correct],
      [PtpTools.print_stats_diff_correct]), what it means to pass
      ([PtpTools.sfptpd_passes]), descriptors closed.
    - Runs of ethtool: the counter of bytes read from statistics is their total
      or their sum ([EthtoolRuns.get_stats_correct]), flags are reported exactly
      when they differ ([EthtoolRuns.judge_ts_info_silent]), factories are
      destroyed.  Features and fixed modes: what was seen on both sides when a
      test passes (EthtoolFeatures, LinkModes), the modes tried are the common
      ones, once each ([LinkModes.find_candidates_correct]).
    - Single runs: what was read, set or routed when a test passes (BasicRuns,
      Devlink, RxHeadroom), drivers judged by their names and versions
      ([BasicRuns.driver_info_judges]), the name read from a link
      ([BasicRuns.end_string_correct], a defect).
    - Driver and traffic: sockets and forked servers are given back (C5),
      the driver is loaded again, and the configuration synchronised after that,
      unless loading failed twice (C6); the arrays of the test of unloading
      under traffic are used within bounds, with set pointers, and the test ends
      when time passes and the connection stays open (C7).

    Theorems that name a defect (C2, C5, C6, C19, C21, C25, C26, C32, C39, C40) state exactly when
    it occurs.

    ** Bounds and fuel

    Loops that count use lists or the fuel the count gives, and their theorems
    show that it suffices: the neighbour attempts, the splitting of packets
    (its length), the sending loops of the agent (when the clock advances).
    The receive loop of the data check, the loop that sets an interface down
    and up and the loop that unloads the driver end by what the environment
    answers; they take fuel as an argument, theorems allow [NoFuel] there, and
    C1 and C7 say when it cannot happen; [Prog.halts] is for programs that take
    none.  Integers have the width of the code where
    the width can matter (sequence numbers, packet identifiers, ports, queue
    counts, statuses); elsewhere they are [Z].

    ** Not modelled

    lib/net_drv_rpc.c marshals arguments into generated structures.  Logging,
    test parameters and documentation are dropped.  Memory of the heap is
    modelled where it is used for something else than a string or an array of
    fixed length. *)
From stdpp Require Export base list strings numbers gmap sets.
From Stdlib Require Export ZArith Lia.

#[global] Open Scope Z_scope.

(** ** Machine integers: values as [Z], reduction written out. *)
Definition u8 (z : Z) : Z := z mod 2 ^ 8.
Definition u16 (z : Z) : Z := z mod 2 ^ 16.
Definition u32 (z : Z) : Z := z mod 2 ^ 32.
Definition u64 (z : Z) : Z := z mod 2 ^ 64.

(** Two's complement reading of the low [w] bits. *)
Definition sx (w : Z) (z : Z) : Z :=
  let m := z mod 2 ^ w in if m <? 2 ^ (w - 1) then m else m - 2 ^ w.
Definition s32 (z : Z) : Z := sx 32 z.
Definition s64 (z : Z) : Z := sx 64 z.

Definition UINT16_MAX : Z := 65535.
Definition INT_MAX : Z := 2147483647.
Definition ULONG_MAX : Z := 18446744073709551615.

Lemma u32_id z : 0 <= z < 2 ^ 32 -> u32 z = z.
Proof. intros; unfold u32; apply Z.mod_small; lia. Qed.

Lemma u64_id z : 0 <= z < 2 ^ 64 -> u64 z = z.
Proof. intros; unfold u64; apply Z.mod_small; lia. Qed.

Lemma u32_range z : 0 <= u32 z < 2 ^ 32.
Proof. unfold u32; apply Z.mod_pos_bound; lia. Qed.

Lemma u64_range z : 0 <= u64 z < 2 ^ 64.
Proof. unfold u64; apply Z.mod_pos_bound; lia. Qed.

(** A number of [w] bits with sign is its own two's complement reading. *)
Lemma sx_id w z : 0 < w -> - 2 ^ (w - 1) <= z < 2 ^ (w - 1) -> sx w z = z.
Proof.
  intros Hw Hz. unfold sx. assert (E : 2 ^ w = 2 * 2 ^ (w - 1)) by (rewrite <- Z.pow_succ_r by lia; f_equal; lia).
  rewrite E. set (h := 2 ^ (w - 1)) in *. destruct (decide (0 <= z)) as [H0|H0].
  - rewrite Z.mod_small by lia. cbv zeta. by rewrite (proj2 (Z.ltb_lt z h)) by lia.
  - assert (Em : z mod (2 * h) = z + 2 * h).
    { replace z with ((z + 2 * h) + (-1) * (2 * h)) at 1 by lia. rewrite Z.mod_add by lia. apply Z.mod_small. lia. }
    rewrite Em. cbv zeta. rewrite (proj2 (Z.ltb_ge (z + 2 * h) h)) by lia. lia.
Qed.

Lemma s64_id z : - 2 ^ 63 <= z < 2 ^ 63 -> s64 z = z.
Proof. exact (sx_id 64 z eq_refl). Qed.

Lemma s32_id z : - 2 ^ 31 <= z < 2 ^ 31 -> s32 z = z.
Proof. exact (sx_id 32 z eq_refl). Qed.

(** Reduction of sums and differences. *)
Lemma u32_add_l a b : u32 (u32 a + b) = u32 (a + b).
Proof. unfold u32. by rewrite Zplus_mod_idemp_l. Qed.

Lemma u32_sub a b : u32 (u32 a - u32 b) = u32 (a - b).
Proof. unfold u32. by rewrite Zminus_mod_idemp_l, Zminus_mod_idemp_r. Qed.

Lemma s32_u32 z : s32 (u32 z) = s32 z.
Proof. unfold s32, sx, u32. by rewrite Z.mod_mod. Qed.

(** The signed difference of 32-bit numbers less than half of the space apart. *)
Lemma s32_diff_sgn a b : - 2 ^ 31 < a - b < 2 ^ 31 -> Z.sgn (s32 (u32 a - u32 b)) = Z.sgn (a - b).
Proof. intros H. rewrite <- s32_u32, u32_sub, s32_u32, s32_id by lia. done. Qed.

(** One number in a row. *)
Lemma seqZ_one z : seqZ z 1 = [z].
Proof. unfold seqZ. simpl. by f_equal. Qed.

(** The element of [0, 1, ..., n - 1] after [pre]. *)
Lemma seq_split n pre i post : seq 0 n = pre ++ i :: post -> i = length pre /\ (i < n)%nat.
Proof.
  intros H. assert (Hlt : (length pre < n)%nat) by (rewrite <- (length_seq n 0), H, length_app; cbn; lia).
  pose proof (lookup_seq_lt 0 n (length pre) Hlt) as Hq. rewrite H in Hq.
  rewrite lookup_app_r, Nat.sub_diag in Hq by done. injection Hq as ->. done.
Qed.

(** ** Booleans of the code as propositions *)
Create HintDb zbool.
Create Rewrite HintDb zbool.
#[export] Hint Rewrite Z.eqb_eq Z.eqb_neq Z.ltb_lt Z.ltb_ge Z.leb_le Z.leb_gt
  Bool.negb_true_iff Bool.negb_false_iff Bool.andb_true_iff Bool.orb_false_iff : zbool.

(** Case analysis on the next test of the goal, keeping the proposition. *)
Ltac case_zbool :=
  match goal with
  | |- context [?a =? ?b] => destruct (Z.eqb_spec a b)
  | |- context [?a <? ?b] => destruct (Z.ltb_spec a b)
  | |- context [?a <=? ?b] => destruct (Z.leb_spec a b)
  | |- context [bool_decide ?P] => destruct (bool_decide_reflect P)
  end.

(** Split conjunctions of the goal and the context. *)
Ltac split_all := repeat match goal with
  | H : _ /\ _ |- _ => destruct H
  | |- _ /\ _ => split
  end.

(** A filter that keeps everything. *)
Lemma filter_all {A} (P : A -> Prop) `{forall x, Decision (P x)} (l : list A) :
  Forall P l -> filter P l = l.
Proof.
  induction 1 as [|x l Hx Hl IH]; [done|]. rewrite filter_cons_True by done. by rewrite IH.
Qed.

(** ** C buffers: lists of byte values *)

(** [memcpy (&buf[off], data, ...)]. *)
Definition buf_write (buf : list Z) (off : Z) (data : list Z) : list Z :=
  take (Z.to_nat off) buf ++ data ++ drop (Z.to_nat off + length data) buf.

(** [memcmp (a, b, n) == 0], where both buffers hold [n] bytes: arrays that
    are initialised as a whole, or a buffer whose received length was compared
    with [n] first. *)
Definition mem_eq (a b : list Z) (n : Z) : bool :=
  bool_decide (take (Z.to_nat n) a = take (Z.to_nat n) b).

Lemma buf_write_end (buf data : list Z) :
  buf_write buf (Z.of_nat (length buf)) data = buf ++ data.
Proof.
  unfold buf_write. rewrite Nat2Z.id, firstn_all, drop_ge by lia. by rewrite app_nil_r.
Qed.

(** The double quote character, as a string. *)
Definition dquote : string := String (Ascii.ascii_of_nat 34) EmptyString.
