(* ===== verification/Prog.v ===== *)
(** Programs of the suite as trees of external calls.

    A test is a C function that talks to the Test Environment (TE) and to the
    operating system.  [prog C A] is such a function: it either ends with a
    [result] or performs one call of the signature [C] and goes on with what
    the call returned.  The test-control macros ([TEST_FAIL], [CHECK_RC], ...)
    leave the function with a [jump], which only a [cleanup] label catches.
    [wp] is the weakest precondition over a (nondeterministic) environment and
    [run] executes a program against a deterministic one. *)
From S2P Require Import Prelude.

(** ** Messages and non-local exits *)

(** An argument of a printf-like message. *)
Inductive arg := AS (s : string) | AI (z : Z).

(** A message: its format string, as written in the source, and arguments. *)
Record msg := Msg { msg_fmt : string; msg_args : list arg }.

(** Ways a test-control macro leaves the enclosing function. *)
Inductive jump :=
| FAIL (m : msg)            (* TEST_FAIL *)
| SKIP (m : msg)            (* TEST_SKIP *)
| VERDICT (m : msg)         (* TEST_VERDICT *)
| STOP                      (* TEST_STOP *)
| RC_FAILED (rc : Z)        (* CHECK_RC of a nonzero status *)
| IS_NULL                   (* CHECK_NOT_NULL of NULL *)
| RPC_FAILED.               (* an RPC failed without RPC_AWAIT_ERROR *)

(** What a function ends with: a value, a jump, undefined behaviour of C
    (an uninitialised read, a null dereference, a division by zero), or the
    end of the fuel of a loop the model had to bound. *)
Inductive result (A : Type) :=
| Val (a : A)
| Exc (j : jump)
| Undef (why : string)
| NoFuel.
Arguments Val {A} a.
Arguments Exc {A} j.
Arguments Undef {A} why.
Arguments NoFuel {A}.

Inductive prog (C : Type -> Type) (A : Type) : Type :=
| Done (r : result A)
| Vis {X : Type} (c : C X) (k : X -> prog C A).
Arguments Done {C A} r.
Arguments Vis {C A X} c k.

Section combinators.
Context {C : Type -> Type}.

Definition lift_result {A B} (f : A -> prog C B) (r : result A) : prog C B :=
  match r with
  | Val a => f a
  | Exc j => Done (Exc j)
  | Undef w => Done (Undef w)
  | NoFuel => Done NoFuel
  end.

Fixpoint bind {A B} (f : A -> prog C B) (p : prog C A) : prog C B :=
  match p with
  | Done r => lift_result f r
  | Vis c k => Vis c (fun x => bind f (k x))
  end.

Global Instance prog_ret : MRet (prog C) := fun A a => Done (Val a).
Global Instance prog_bind : MBind (prog C) := fun A B => @bind A B.

(** One external call. *)
Definition call {X} (c : C X) : prog C X := Vis c (fun x => Done (Val x)).

(** Leave with a jump. *)
Definition raise {A} (j : jump) : prog C A := Done (Exc j).
Definition undef {A} (why : string) : prog C A := Done (Undef why).

(** The body of a function and what runs at its [cleanup] label: the label
    is reached with the jump that led there ([None]: fallen through). *)
Fixpoint cleanup_at {A B} (p : prog C A) (h : option jump -> prog C B) : prog C B :=
  match p with
  | Done (Val _) => h None
  | Done (Exc j) => h (Some j)
  | Done (Undef w) => Done (Undef w)
  | Done NoFuel => Done NoFuel
  | Vis c k => Vis c (fun x => cleanup_at (k x) h)
  end.

Definition when (b : bool) (p : prog C unit) : prog C unit :=
  if b then p else Done (Val tt).

(** ** Loops *)

(** What one pass over a loop body says: go on, [break], or [return]. *)
Inductive ctl (St R : Type) :=
| Continue (st : St)
| Break (st : St)
| Return (r : R).
Global Arguments Continue {St R} st.
Global Arguments Break {St R} st.
Global Arguments Return {St R} r.

(** [for (x in l) body]: [inl] the loop state at the exit of the loop,
    [inr] the value of a [return] in the body. *)
Fixpoint foreach {T St R} (l : list T) (st : St)
    (body : T -> St -> prog C (ctl St R)) : prog C (St + R) :=
  match l with
  | [] => mret (inl st)
  | x :: l' =>
      bind (fun c =>
        match c with
        | Continue st' => foreach l' st' body
        | Break st' => mret (inl st')
        | Return r => mret (inr r)
        end) (body x st)
  end.

(** [for (i = i0; n times; i++) body]. *)
Fixpoint for_n {St R} (n : nat) (i : Z) (st : St)
    (body : Z -> St -> prog C (ctl St R)) : prog C (St + R) :=
  match n with
  | O => mret (inl st)
  | S n' =>
      bind (fun c =>
        match c with
        | Continue st' => for_n n' (i + 1) st' body
        | Break st' => mret (inl st')
        | Return r => mret (inr r)
        end) (body i st)
  end.

(** [while (TRUE) body], at most [fuel] passes. *)
Fixpoint loop {St R} (fuel : nat) (st : St)
    (body : St -> prog C (ctl St R)) : prog C (St + R) :=
  match fuel with
  | O => Done NoFuel
  | S fuel' =>
      bind (fun c =>
        match c with
        | Continue st' => loop fuel' st' body
        | Break st' => mret (inl st')
        | Return r => mret (inr r)
        end) (body st)
  end.

(** [for (x in l) y[x] = f (x)]. *)
Fixpoint m_map {A B} (f : A -> prog C B) (l : list A) : prog C (list B) :=
  match l with
  | [] => mret []
  | x :: l' => bind (fun y => bind (fun ys => mret (y :: ys)) (m_map f l')) (f x)
  end.
End combinators.

(** ** Programs that make certain calls only *)
Section only.
Context {C : Type -> Type} (allowed : forall X, C X -> bool) (may : jump -> bool).

(** Every call of the program is allowed, so is every jump it leaves with, and
    it has no undefined behaviour. *)
Fixpoint only {A} (p : prog C A) : Prop :=
  match p with
  | Done (Undef _) => False
  | Done (Exc j) => may j = true
  | Done _ => True
  | Vis c k => allowed _ c = true /\ forall x, only (k x)
  end.

Lemma only_bind {A B} (f : A -> prog C B) (p : prog C A) :
  only p -> (forall a, only (f a)) -> only (mbind f p).
Proof.
  intros Hp Hf. change (mbind f p) with (bind f p).
  induction p as [r|X c k IH]; simpl in *.
  - destruct r; simpl; auto.
  - destruct Hp as [Hc Hk]. split; [done|]. intros x. by apply IH.
Qed.

Lemma only_loop {St R} (fuel : nat) (st : St) (body : St -> prog C (ctl St R)) :
  (forall st, only (body st)) -> only (loop fuel st body).
Proof.
  intros Hb. revert st. induction fuel as [|n IH]; intros st; simpl; [done|].
  apply only_bind; [apply Hb|]. intros [st'|st'|r]; simpl; auto.
Qed.

Lemma only_foreach {T St R} (l : list T) (st : St) (body : T -> St -> prog C (ctl St R)) :
  (forall x st, only (body x st)) -> only (foreach l st body).
Proof.
  intros Hb. revert st. induction l as [|x l IH]; intros st; simpl; [done|].
  apply only_bind; [apply Hb|]. intros [st'|st'|r]; simpl; auto.
Qed.

Lemma only_for_n {St R} (n : nat) i (st : St) (body : Z -> St -> prog C (ctl St R)) :
  (forall i st, only (body i st)) -> only (for_n n i st body).
Proof.
  intros Hb. revert i st. induction n as [|n IH]; intros i st; simpl; [done|].
  apply only_bind; [apply Hb|]. intros [st'|st'|r]; simpl; auto.
Qed.

Lemma only_map {A B} (f : A -> prog C B) (l : list A) : (forall x, only (f x)) -> only (m_map f l).
Proof.
  intros Hf. induction l as [|x l IH]; simpl; [done|]. apply only_bind; [apply Hf|]. intros y. by apply only_bind.
Qed.
End only.

(** ** Programs that make certain calls only, however they end *)
Section makes.
Context {C : Type -> Type} (allowed : forall X, C X -> bool).

Fixpoint makes {A} (p : prog C A) : Prop :=
  match p with
  | Done _ => True
  | Vis c k => allowed _ c = true /\ forall x, makes (k x)
  end.

Lemma makes_bind {A B} (f : A -> prog C B) (p : prog C A) :
  makes p -> (forall a, makes (f a)) -> makes (mbind f p).
Proof.
  intros Hp Hf. change (mbind f p) with (bind f p).
  induction p as [r|X c k IH]; simpl in *.
  - destruct r; simpl; auto.
  - destruct Hp as [Hc Hk]. split; [done|]. intros x. by apply IH.
Qed.

Lemma makes_for_n {St R} (n : nat) i (st : St) (body : Z -> St -> prog C (ctl St R)) :
  (forall i st, makes (body i st)) -> makes (for_n n i st body).
Proof.
  intros Hb. revert i st. induction n as [|n IH]; intros i st; simpl; [done|].
  apply makes_bind; [apply Hb|]. intros [st'|st'|r]; simpl; auto.
Qed.

Lemma makes_foreach {T St R} (l : list T) (st : St) (body : T -> St -> prog C (ctl St R)) :
  (forall x st, makes (body x st)) -> makes (foreach l st body).
Proof.
  intros Hb. revert st. induction l as [|x l IH]; intros st; simpl; [done|].
  apply makes_bind; [apply Hb|]. intros [st'|st'|r]; simpl; auto.
Qed.
End makes.

(** [makes]: the branches of the program are looked at one by one. *)
Ltac solve_makes :=
  repeat first
    [ apply makes_bind
    | apply makes_for_n
    | apply makes_foreach
    | progress intros
    | match goal with
      | |- makes _ (call _) => split; [done|]
      | |- makes _ (mret _) => exact I
      | |- makes _ (Done _) => exact I
      | |- makes _ (raise _) => exact I
      | |- makes _ (undef _) => exact I
      | |- makes _ (when _ _) => unfold when
      | |- makes _ (match ?x with _ => _ end) => destruct x
      end
    | done ].

(** ** Programs that return *)
Section returns.
Context {C : Type -> Type}.

(** However its calls are answered, the program ends with a value. *)
Fixpoint returns {A} (p : prog C A) : Prop :=
  match p with
  | Done (Val _) => True
  | Done _ => False
  | Vis c k => forall x, returns (k x)
  end.

Lemma returns_bind {A B} (f : A -> prog C B) (p : prog C A) :
  returns p -> (forall a, returns (f a)) -> returns (mbind f p).
Proof.
  intros Hp Hf. change (mbind f p) with (bind f p).
  induction p as [[a|j|w|]|X c k IH]; simpl in *; try done. intros x. by apply IH.
Qed.

Lemma returns_foreach {T St R} (l : list T) (st : St) (body : T -> St -> prog C (ctl St R)) :
  (forall x st, returns (body x st)) -> returns (foreach l st body).
Proof.
  intros Hb. revert st. induction l as [|x l IH]; intros st; simpl; [done|].
  apply returns_bind; [apply Hb|]. intros [st'|st'|r]; simpl; auto.
Qed.

Lemma returns_for_n {St R} (n : nat) i (st : St) (body : Z -> St -> prog C (ctl St R)) :
  (forall i st, returns (body i st)) -> returns (for_n n i st body).
Proof.
  intros Hb. revert i st. induction n as [|n IH]; intros i st; simpl; [done|].
  apply returns_bind; [apply Hb|]. intros [st'|st'|r]; simpl; auto.
Qed.
End returns.

(** [returns]: the branches of the program are looked at one by one. *)
Ltac solve_returns :=
  repeat first
    [ apply returns_bind
    | apply returns_foreach
    | apply returns_for_n
    | progress intros
    | match goal with
      | |- returns (call _) => done
      | |- returns (mret _) => exact I
      | |- returns (when _ _) => unfold when
      | |- returns (match ?x with _ => _ end) => destruct x
      end
    | done ].

(** ** Programs that end *)
Section halts.
Context {C : Type -> Type}.

(** However its calls are answered, the program does not run out of fuel. *)
Fixpoint halts {A} (p : prog C A) : Prop :=
  match p with
  | Done NoFuel => False
  | Done _ => True
  | Vis c k => forall x, halts (k x)
  end.

Lemma halts_bind {A B} (f : A -> prog C B) (p : prog C A) :
  halts p -> (forall a, halts (f a)) -> halts (mbind f p).
Proof.
  intros Hp Hf. change (mbind f p) with (bind f p).
  induction p as [[a|j|w|]|X c k IH]; simpl in *; try done. intros x. by apply IH.
Qed.

Lemma halts_foreach {T St R} (l : list T) (st : St) (body : T -> St -> prog C (ctl St R)) :
  (forall x st, halts (body x st)) -> halts (foreach l st body).
Proof.
  intros Hb. revert st. induction l as [|x l IH]; intros st; simpl; [done|].
  apply halts_bind; [apply Hb|]. intros [st'|st'|r]; simpl; auto.
Qed.

Lemma halts_for_n {St R} (n : nat) i (st : St) (body : Z -> St -> prog C (ctl St R)) :
  (forall i st, halts (body i st)) -> halts (for_n n i st body).
Proof.
  intros Hb. revert i st. induction n as [|n IH]; intros i st; simpl; [done|].
  apply halts_bind; [apply Hb|]. intros [st'|st'|r]; simpl; auto.
Qed.
End halts.

(** ** Environments and weakest preconditions *)

(** How the outside answers a call: from state [s] it may answer [x] and move
    to [s'].  The state is the environment's own, or the ghost state of a
    monitor that watches the calls. *)
Definition env (C : Type -> Type) (S : Type) : Type :=
  forall X : Type, C X -> S -> X -> S -> Prop.

(** A deterministic environment, as a function. *)
Definition handler (C : Type -> Type) (S : Type) : Type :=
  forall X : Type, C X -> S -> X * S.

Section wp.
Context {C : Type -> Type} {S : Type}.

Fixpoint wp (E : env C S) {A} (p : prog C A) (s : S) (Q : result A -> S -> Prop)
    : Prop :=
  match p with
  | Done r => Q r s
  | Vis c k => forall x s', E _ c s x s' -> wp E (k x) s' Q
  end.

Fixpoint run (h : handler C S) {A} (p : prog C A) (s : S) : result A * S :=
  match p with
  | Done r => (r, s)
  | Vis c k => let '(x, s') := h _ c s in run h (k x) s'
  end.

(** An environment that may answer anything; [upd] watches the answers. *)
Definition watch (upd : forall X, C X -> X -> S -> S) : env C S :=
  fun X c s x s' => s' = upd X c x s.

(** The same, for environments whose answers obey [ok]. *)
Definition watch_if (ok : forall X, C X -> S -> X -> Prop)
    (upd : forall X, C X -> X -> S -> S) : env C S :=
  fun X c s x s' => ok X c s x /\ s' = upd X c x s.

(** A deterministic environment as a relation. *)
Definition of_handler (h : handler C S) : env C S :=
  fun X c s x s' => h X c s = (x, s').

Definition handles (h : handler C S) (E : env C S) : Prop :=
  forall X (c : C X) s, E X c s (fst (h X c s)) (snd (h X c s)).

(** What a program with allowed calls only keeps. *)
Lemma wp_only (allowed : forall X, C X -> bool) (may : jump -> bool) (E : env C S) (P : S -> Prop) {A} (p : prog C A) s :
  only allowed may p ->
  (forall X (c : C X) s x s', allowed X c = true -> P s -> E X c s x s' -> P s') -> P s ->
  wp E p s (fun r s' => P s' /\ match r with Undef _ => False | Exc j => may j = true | _ => True end).
Proof.
  intros Ho HE. revert s Ho. induction p as [r|X c k IH]; intros s Ho HP; simpl in *.
  - by destruct r.
  - destruct Ho as [Hc Hk]. intros x s' Hx. apply IH; [apply Hk|]. by eapply HE.
Qed.

(** A bind whose second part makes allowed calls only for the values the first
    part can end with, whatever is answered. *)
Lemma only_bind_val (allowed : forall X, C X -> bool) (may : jump -> bool) (E : env C S) (s : S) {A B}
    (f : A -> prog C B) (p : prog C A) (P : A -> Prop) :
  (forall X (c : C X) s x, exists s', E X c s x s') ->
  only allowed may p -> wp E p s (fun r _ => match r with Val a => P a | _ => True end) ->
  (forall a, P a -> only allowed may (f a)) -> only allowed may (mbind f p).
Proof.
  intros HE Hp Hw Hf. change (mbind f p) with (bind f p). revert s Hp Hw.
  induction p as [r|X c k IH]; intros s Hp Hw; simpl in *; [destruct r; simpl in *; auto|].
  destruct Hp as [Hc Hk]. split; [done|]. intros x. destruct (HE X c s x) as [s' Hs].
  by apply (IH x s'), Hw.
Qed.

Lemma wp_makes (allowed : forall X, C X -> bool) (E : env C S) (P : S -> Prop) {A} (p : prog C A) s :
  makes allowed p ->
  (forall X (c : C X) s x s', allowed X c = true -> P s -> E X c s x s' -> P s') -> P s ->
  wp E p s (fun _ s' => P s').
Proof.
  intros Ho HE. revert s Ho. induction p as [r|X c k IH]; intros s Ho HP; simpl in *; [done|].
  destruct Ho as [Hc Hk]. intros x s' Hx. apply IH; [apply Hk|]. by eapply HE.
Qed.

Lemma wp_returns (E : env C S) {A} (p : prog C A) s :
  returns p -> wp E p s (fun r _ => exists a, r = Val a).
Proof.
  revert s. induction p as [[a|j|w|]|X c k IH]; intros s H; simpl in *; try done; [by exists a|].
  intros x s' _. by apply IH.
Qed.

Lemma wp_halts (E : env C S) {A} (p : prog C A) s :
  halts p -> wp E p s (fun r _ => r <> NoFuel).
Proof.
  revert s. induction p as [[a|j|w|]|X c k IH]; intros s H; simpl in *; try done.
  intros x s' _. by apply IH.
Qed.

(** A condition under which the postcondition holds may be moved into it. *)
Lemma wp_provided (E : env C S) (P : Prop) {A} (p : prog C A) s Q :
  (P -> wp E p s Q) -> wp E p s (fun r s' => P -> Q r s').
Proof.
  revert s. induction p as [r|X c k IH]; intros s H; simpl in *; [done|].
  intros x s' Hx. apply IH. intros HP. by apply H.
Qed.

(** Fewer answers, and two postconditions at once. *)
Lemma wp_env_mono (E E' : env C S) {A} (p : prog C A) s Q :
  (forall X (c : C X) s x s', E' X c s x s' -> E X c s x s') ->
  wp E p s Q -> wp E' p s Q.
Proof.
  intros HE; revert s; induction p as [r|X c k IH]; intros s; simpl; [done|].
  intros H x s' Hx. by apply IH, H, HE.
Qed.

Lemma wp_and E {A} (p : prog C A) s (Q Q' : result A -> S -> Prop) :
  wp E p s Q -> wp E p s Q' -> wp E p s (fun r s' => Q r s' /\ Q' r s').
Proof.
  revert s; induction p as [r|X c k IH]; intros s; simpl; [done|].
  intros H H' x s' HE. by apply IH; [apply H|apply H'].
Qed.

(** What a bind does with the postcondition. *)
Definition bpost (E : env C S) {A B} (f : A -> prog C B)
    (Q : result B -> S -> Prop) (r : result A) (s : S) : Prop :=
  match r with
  | Val a => wp E (f a) s Q
  | Exc j => Q (Exc j) s
  | Undef w => Q (Undef w) s
  | NoFuel => Q NoFuel s
  end.

Lemma wp_true E {A} (p : prog C A) s : wp E p s (fun _ _ => True).
Proof. revert s. induction p as [r|X c k IH]; intros s; [done|]. intros x s' _. apply IH. Qed.

Lemma wp_mono E {A} (p : prog C A) s (Q Q' : result A -> S -> Prop) :
  wp E p s Q -> (forall r s', Q r s' -> Q' r s') -> wp E p s Q'.
Proof.
  intros H HQ; revert s H; induction p as [r|X c k IH]; simpl; intros s H.
  - by apply HQ.
  - intros x s' HE. by apply IH, H.
Qed.

Lemma wp_bind E {A B} (f : A -> prog C B) (p : prog C A) s Q :
  wp E (mbind f p) s Q <-> wp E p s (bpost E f Q).
Proof.
  change (mbind f p) with (bind f p).
  revert s; induction p as [r|X c k IH]; intros s; simpl.
  - by destruct r.
  - split; intros H x s' HE; by apply IH, H.
Qed.

Lemma wp_ret E {A} (a : A) s (Q : result A -> S -> Prop) :
  Q (Val a) s -> wp E (mret a) s Q.
Proof. done. Qed.

Lemma wp_call E {X} (c : C X) s (Q : result X -> S -> Prop) :
  (forall x s', E X c s x s' -> Q (Val x) s') -> wp E (call c) s Q.
Proof. done. Qed.

Definition cpost (E : env C S) {A B} (h : option jump -> prog C B)
    (Q : result B -> S -> Prop) (r : result A) (s : S) : Prop :=
  match r with
  | Val _ => wp E (h None) s Q
  | Exc j => wp E (h (Some j)) s Q
  | Undef w => Q (Undef w) s
  | NoFuel => Q NoFuel s
  end.

Lemma wp_cleanup_at E {A B} (p : prog C A) (h : option jump -> prog C B) s Q :
  wp E (cleanup_at p h) s Q <-> wp E p s (cpost E h Q).
Proof.
  revert s; induction p as [r|X c k IH]; intros s; simpl.
  - by destruct r.
  - split; intros H x s' HE; by apply IH, H.
Qed.

(** Running a handler that obeys the environment. *)
Lemma run_wp E h {A} (p : prog C A) s Q :
  handles h E -> wp E p s Q -> Q (fst (run h p s)) (snd (run h p s)).
Proof.
  intros Hh; revert s; induction p as [r|X c k IH]; intros s; simpl; [done|].
  intros H. specialize (Hh X c s). destruct (h X c s) as [x s']; simpl in *.
  by apply IH, H.
Qed.

Lemma handles_of_handler h : handles h (of_handler h).
Proof. intros X c s. unfold of_handler. by destruct (h X c s). Qed.

Lemma wp_of_handler h {A} (p : prog C A) s Q :
  wp (of_handler h) p s Q <-> Q (fst (run h p s)) (snd (run h p s)).
Proof.
  split; [apply run_wp, handles_of_handler|].
  revert s; induction p as [r|X c k IH]; intros s; simpl; [done|].
  unfold of_handler. intros H x s' HE. rewrite HE in H. by apply IH.
Qed.

Lemma run_bind h {A B} (f : A -> prog C B) (p : prog C A) s :
  run h (mbind f p) s =
  (let '(r, s') := run h p s in run h (lift_result f r) s').
Proof.
  change (mbind f p) with (bind f p).
  revert s; induction p as [r|X c k IH]; intros s; simpl; [done|].
  destruct (h X c s) as [x s']. apply IH.
Qed.

(** *** Loop rules *)

(** What a loop body must establish, for a loop state invariant [I] of the
    next pass and the postcondition [Q] of the whole loop. *)
Definition lpost {A R} (I : A -> S -> Prop) (Q : result (A + R) -> S -> Prop)
    (r : result (ctl A R)) (s : S) : Prop :=
  match r with
  | Val (Continue st) => I st s
  | Val (Break st) => Q (Val (inl st)) s
  | Val (Return v) => Q (Val (inr v)) s
  | Exc j => Q (Exc j) s
  | Undef w => Q (Undef w) s
  | NoFuel => Q NoFuel s
  end.

Lemma wp_foreach E {T St R} (l : list T) (st : St)
    (body : T -> St -> prog C (ctl St R)) s Q
    (I : list T -> list T -> St -> S -> Prop) :
  I [] l st s ->
  (forall pre x post st s, l = pre ++ x :: post -> I pre (x :: post) st s ->
     wp E (body x st) s (lpost (I (pre ++ [x]) post) Q)) ->
  (forall st s, I l [] st s -> Q (Val (inl st)) s) ->
  wp E (foreach l st body) s Q.
Proof.
  intros HI Hbody HQ.
  enough (forall pre l' st s, l = pre ++ l' -> I pre l' st s ->
            wp E (foreach l' st body) s Q) as H by (by eapply (H [])).
  clear HI st s. intros pre l'; revert pre.
  induction l' as [|x l' IH]; intros pre st s Hl HI; simpl.
  - rewrite app_nil_r in Hl. subst. by apply HQ.
  - apply wp_bind. eapply wp_mono; [by eapply Hbody|].
    intros r s' Hr. destruct r as [[st'|st'|v]|j|w|]; simpl in *; try done.
    apply (IH (pre ++ [x])); [|done]. by rewrite <- app_assoc.
Qed.

Lemma wp_for_n E {St R} (n : nat) i0 (st : St)
    (body : Z -> St -> prog C (ctl St R)) s Q (I : Z -> St -> S -> Prop) :
  I i0 st s ->
  (forall i st s, i0 <= i < i0 + Z.of_nat n -> I i st s ->
     wp E (body i st) s (lpost (I (i + 1)) Q)) ->
  (forall st s, I (i0 + Z.of_nat n) st s -> Q (Val (inl st)) s) ->
  wp E (for_n n i0 st body) s Q.
Proof.
  intros HI Hbody HQ.
  enough (forall m i st s, i = i0 + (Z.of_nat n - Z.of_nat m) -> (m <= n)%nat ->
            I i st s -> wp E (for_n m i st body) s Q) as H
    by (eapply H; [| |done]; lia).
  clear HI st s. induction m as [|m IH]; intros i st s Hi Hm HI; simpl.
  - apply HQ. by replace (i0 + Z.of_nat n) with i by lia.
  - apply wp_bind. eapply wp_mono; [apply Hbody; [lia|done]|].
    intros r s' Hr. destruct r as [[st'|st'|v]|j|w|]; simpl in *; try done.
    apply IH; [lia|lia|done].
Qed.

(** An array filled element by element: [I] relates what was visited and what
    was computed, [Q] holds when a pass leaves the function. *)
Lemma wp_map E {A B} (f : A -> prog C B) (l : list A) s (I : list A -> list B -> S -> Prop) (Q : result (list B) -> S -> Prop) :
  I [] [] s ->
  (forall pre x post ys s, l = pre ++ x :: post -> I pre ys s ->
     wp E (f x) s (fun r s' => match r with
       | Val y => I (pre ++ [x]) (ys ++ [y]) s'
       | Exc j => Q (Exc j) s'
       | Undef w => Q (Undef w) s'
       | NoFuel => Q NoFuel s'
       end)) ->
  (forall ys s, I l ys s -> Q (Val ys) s) ->
  wp E (m_map f l) s Q.
Proof.
  intros HI Hf HQ.
  enough (forall l' pre ys s (R : result (list B) -> S -> Prop), l = pre ++ l' -> I pre ys s ->
            (forall r s', match r with Val zs => I l (ys ++ zs) s' | Exc j => Q (Exc j) s' | Undef w => Q (Undef w) s'
                          | NoFuel => Q NoFuel s' end -> R r s') -> wp E (m_map f l') s R) as H.
  { apply (H l [] [] s Q); [done|done|]. intros [zs|j|w|] s' Hr; cbn in Hr; auto. }
  clear HI s. induction l' as [|x l' IH]; intros pre ys s R Hl HI HR; cbn [m_map].
  - rewrite app_nil_r in Hl. subst. apply (HR (Val [])). by rewrite app_nil_r.
  - apply wp_bind. eapply wp_mono; [by eapply Hf|]. intros [y|j|w|] s' Hy; cbn [bpost]; [|by apply HR..].
    apply wp_bind. apply (IH (pre ++ [x]) (ys ++ [y])); [by rewrite <- app_assoc|done|].
    intros [zs|j|w|] s2 Hz; cbn [bpost]; [|by apply HR..].
    cbn. apply (HR (Val (y :: zs))). by rewrite <- app_assoc in Hz.
Qed.

(** A fuelled loop, with an invariant that may mention the fuel left. *)
Lemma wp_loop E {St R} (fuel : nat) (st : St)
    (body : St -> prog C (ctl St R)) s Q (I : nat -> St -> S -> Prop) :
  I fuel st s ->
  (forall n st s, I (Datatypes.S n) st s -> wp E (body st) s (lpost (I n) Q)) ->
  (forall st s, I O st s -> Q NoFuel s) ->
  wp E (loop fuel st body) s Q.
Proof.
  intros HI Hbody HQ. revert st s HI.
  induction fuel as [|n IH]; intros st s HI; simpl; [by eapply HQ|].
  apply wp_bind. eapply wp_mono; [by apply Hbody|].
  intros r s' Hr. destruct r as [[st'|st'|v]|j|w|]; simpl in *; try done.
  by apply IH.
Qed.
End wp.

(** Two environments that answer alike, each with its own state: what is shown
    in each of them holds in both at once. *)
Definition both {C : Type -> Type} {S1 S2} (E1 : env C S1) (E2 : env C S2) : env C (S1 * S2) := fun X c s x s' =>
  E1 X c (fst s) x (fst s') /\ E2 X c (snd s) x (snd s').

Lemma wp_both {C : Type -> Type} {S1 S2} (E1 : env C S1) (E2 : env C S2) {A} (p : prog C A) s Q1 Q2 :
  wp E1 p (fst s) Q1 -> wp E2 p (snd s) Q2 ->
  wp (both E1 E2) p s (fun r s' => Q1 r (fst s') /\ Q2 r (snd s')).
Proof.
  revert s. induction p as [r|X c k IH]; intros s; cbn; [done|]. intros H1 H2 x s' [E1' E2']. by apply IH; [apply H1|apply H2].
Qed.


(** One symbolic step of a program in a [wp] goal. *)
Ltac wp_step :=
  lazymatch goal with
  | |- wp _ (mbind _ _) _ _ => apply wp_bind
  | |- wp _ (bind _ _) _ _ => apply wp_bind
  | |- wp _ (mret _) _ _ => apply wp_ret
  | |- wp _ (call _) _ _ => apply wp_call; intros
  | |- wp _ (cleanup_at _ _) _ _ => apply wp_cleanup_at
  | |- wp _ (raise _) _ _ => cbn [wp raise]
  | |- wp _ (undef _) _ _ => cbn [wp undef]
  | |- wp _ (Done _) _ _ => cbn [wp]
  | |- wp _ (when ?b _) _ _ => unfold when
  | |- bpost _ _ _ _ _ => cbn [bpost]
  | |- cpost _ _ _ _ _ => cbn [cpost]
  | |- lpost _ _ _ _ => cbn [lpost]
  | |- wp _ (if ?b then _ else _) _ _ => destruct b eqn:?
  | |- wp _ (match ?x with (_, _) => _ end) _ _ => destruct x
  end.
