(* ===== verification/Te.v ===== *)
(** The Test Environment (TE) as the suite sees it.

    TE is not part of this repository.  What the code uses of it enters the
    model in three ways, none of which gives TE a definition: [Te], a class of
    the constants and the errno macros with the laws the code relies on;
    [te_call], a signature of the API functions (a call and the type of its
    answer: the status, the output parameters, or the value and errno of an
    RPC), answered by an arbitrary environment; the wrappers below, which say
    what an error does to the caller. *)
From Corelib Require Import SpecFloat.
From S2P Require Import Prelude Prog.

(** ** Constants and errno macros *)

Definition te_errno := Z.

(** [struct timeval], and its value in microseconds. *)
Record timeval := TV { tv_seconds : Z; tv_useconds : Z }.
Definition tv_us (t : timeval) : Z := tv_seconds t * 1000000 + tv_useconds t.

Class Te := {
  TE_RC : Z -> Z -> te_errno;          (** module, base error *)
  TE_RC_GET_ERROR : te_errno -> Z;
  te_errno_of_int : Z -> te_errno;     (** C conversion of [int] to [te_errno] *)
  TE_CS : Z; TE_TAPI : Z; TE_TA_UNIX : Z;
  TE_ENOENT : Z; TE_EOPNOTSUPP : Z; TE_EINVAL : Z; TE_ENOMEM : Z;
  TE_EFAIL : Z; TE_ENODEV : Z; TE_ETIMEDOUT : Z; TE_ENOSYS : Z;
  TE_EBADMSG : Z; TE_EMSGSIZE : Z; TE_EILSEQ : Z; TE_EPFNOSUPPORT : Z;
  RPC_EAGAIN : Z; RPC_ENOENT : Z; RPC_ENODEV : Z; RPC_EOPNOTSUPP : Z;
  TE_PHY_AUTONEG_OFF : Z; TE_PHY_AUTONEG_ON : Z; TE_PHY_AUTONEG_UNKNOWN : Z;
  TE_PHY_DUPLEX_HALF : Z; TE_PHY_DUPLEX_FULL : Z; TE_PHY_DUPLEX_UNKNOWN : Z;
  TE_PHY_SPEED_UNKNOWN : Z;
  TE_TOEPLITZ_HASH_STANDARD : Z; TE_TOEPLITZ_HASH_SYM_OR_XOR : Z;
  RPC_POLLIN : Z; RPC_NULL : Z; RPC_O_RDWR : Z; RPC_O_RDONLY : Z;
  RPC_SO_SNDBUF : Z; RPC_SO_RCVBUF : Z; RPC_TCP_MAXSEG : Z; RPC_TCP_NODELAY : Z;
  CSAP_INVALID_HANDLE : Z;
  TAPI_WAIT_NETWORK_DELAY : Z; TAPI_CFG_RX_RULE_ANY : Z; RAND_MAX : Z;
  AF_INET : Z; AF_INET6 : Z; IPPROTO_ICMPV6 : Z;
  TAD_IP4_HDR_LEN : Z; TAD_IP6_HDR_LEN : Z; TAD_TCP_HDR_LEN : Z; TAD_UDP_HDR_LEN : Z;
  TIMEVAL_SUB : timeval -> timeval -> Z;   (** difference in microseconds *)
  TE_US2MS : Z -> Z;                       (** microseconds to milliseconds *)
  TE_US2SEC : Z -> Z;                      (** microseconds to seconds *)
  TE_SEC2MS : Z -> Z;                      (** seconds to milliseconds *)
  TE_OS_RC : Z -> Z -> te_errno;           (** module, errno of the OS *)
  te_rc_os2te : Z -> te_errno;

  te_modules := [TE_CS; TE_TAPI; TE_TA_UNIX];
  te_codes := [TE_ENOENT; TE_EOPNOTSUPP; TE_EINVAL; TE_ENOMEM; TE_EFAIL;
               TE_ENODEV; TE_ETIMEDOUT; TE_ENOSYS; TE_EBADMSG; TE_EMSGSIZE;
               TE_EILSEQ; TE_EPFNOSUPPORT];
  te_rc_get_error : forall m e, m ∈ te_modules -> e ∈ te_codes ->
    TE_RC_GET_ERROR (TE_RC m e) = e;
  te_rc_get_error_0 : TE_RC_GET_ERROR 0 = 0;
  te_codes_NoDup : NoDup (0 :: te_codes);
  te_errno_of_int_id : forall z, 0 <= z < 2 ^ 31 -> te_errno_of_int z = z;
  te_errno_of_int_neg : te_errno_of_int (-1) <> 0;
  te_autoneg_NoDup :
    NoDup [TE_PHY_AUTONEG_OFF; TE_PHY_AUTONEG_ON; TE_PHY_AUTONEG_UNKNOWN];
  te_duplex_NoDup :
    NoDup [TE_PHY_DUPLEX_HALF; TE_PHY_DUPLEX_FULL; TE_PHY_DUPLEX_UNKNOWN];
  te_speed_unknown : TE_PHY_SPEED_UNKNOWN <= 0;
  te_toeplitz_ne : TE_TOEPLITZ_HASH_STANDARD <> TE_TOEPLITZ_HASH_SYM_OR_XOR;
  te_rpc_null : RPC_NULL = 0;
  timeval_sub_us : forall a b, TIMEVAL_SUB a b = tv_us a - tv_us b;
  te_us2ms_close : forall us, - 1000 <= 1000 * TE_US2MS us - us <= 1000;
  te_us2sec_close : forall us, - 1000000 <= 1000000 * TE_US2SEC us - us <= 1000000;
  te_hdr_lens : TAD_IP4_HDR_LEN = 20 /\ TAD_IP6_HDR_LEN = 40 /\ TAD_TCP_HDR_LEN = 20 /\ TAD_UDP_HDR_LEN = 8;
  te_af_ne : AF_INET <> AF_INET6;
}.

Section errno_facts.
Context {TE : Te}.

Lemma te_code_nonzero e : e ∈ te_codes -> e <> 0.
Proof.
  intros He ->. pose proof te_codes_NoDup as H.
  by apply list.NoDup_cons in H as [H _].
Qed.

Lemma te_rc_nonzero m e : m ∈ te_modules -> e ∈ te_codes -> TE_RC m e <> 0.
Proof.
  intros Hm He H0. pose proof (te_rc_get_error m e Hm He) as H.
  rewrite H0, te_rc_get_error_0 in H. by apply (te_code_nonzero e).
Qed.

Lemma te_rc_code_inj m e e' :
  m ∈ te_modules -> e ∈ te_codes -> e' ∈ te_codes ->
  TE_RC m e = TE_RC m e' -> e = e'.
Proof.
  intros Hm He He' H. rewrite <- (te_rc_get_error m e), <- (te_rc_get_error m e') by done.
  by rewrite H.
Qed.
End errno_facts.

Create HintDb te.
(** Solve [m ∈ te_modules] and [e ∈ te_codes]. *)
Ltac te_elem := unfold te_modules, te_codes; rewrite !list_elem_of_In; simpl;
  solve [repeat first [left; reflexivity | right]].
#[export] Hint Extern 1 (_ ∈ te_modules) => te_elem : te.
#[export] Hint Extern 1 (_ ∈ te_codes) => te_elem : te.
#[export] Hint Resolve te_rc_nonzero te_code_nonzero : te.

(** An instance of the class: its laws are consistent.  Concrete runs use it. *)
#[local, refine] Instance te_ref : Te := {
  TE_RC m e := m * 65536 + e;
  TE_RC_GET_ERROR rc := rc mod 65536;
  te_errno_of_int z := z mod 2 ^ 32;
  TE_CS := 1; TE_TAPI := 2; TE_TA_UNIX := 3;
  TE_ENOENT := 2; TE_EOPNOTSUPP := 95; TE_EINVAL := 22; TE_ENOMEM := 12;
  TE_EFAIL := 200; TE_ENODEV := 19; TE_ETIMEDOUT := 110; TE_ENOSYS := 38;
  TE_EBADMSG := 74; TE_EMSGSIZE := 90; TE_EILSEQ := 84; TE_EPFNOSUPPORT := 96;
  RPC_EAGAIN := 11; RPC_ENOENT := 2; RPC_ENODEV := 19; RPC_EOPNOTSUPP := 95;
  TE_PHY_AUTONEG_OFF := 0; TE_PHY_AUTONEG_ON := 1; TE_PHY_AUTONEG_UNKNOWN := -1;
  TE_PHY_DUPLEX_HALF := 0; TE_PHY_DUPLEX_FULL := 1; TE_PHY_DUPLEX_UNKNOWN := -1;
  TE_PHY_SPEED_UNKNOWN := -1;
  TE_TOEPLITZ_HASH_STANDARD := 0; TE_TOEPLITZ_HASH_SYM_OR_XOR := 1;
  RPC_POLLIN := 1; RPC_NULL := 0; RPC_O_RDWR := 2; RPC_O_RDONLY := 0;
  RPC_SO_SNDBUF := 7; RPC_SO_RCVBUF := 8; RPC_TCP_MAXSEG := 2; RPC_TCP_NODELAY := 1;
  CSAP_INVALID_HANDLE := 0; TAPI_WAIT_NETWORK_DELAY := 500; TAPI_CFG_RX_RULE_ANY := -1;
  RAND_MAX := 2147483647; AF_INET := 2; AF_INET6 := 10; IPPROTO_ICMPV6 := 58;
  TAD_IP4_HDR_LEN := 20; TAD_IP6_HDR_LEN := 40; TAD_TCP_HDR_LEN := 20; TAD_UDP_HDR_LEN := 8;
  TIMEVAL_SUB a b := tv_us a - tv_us b; TE_US2MS us := us / 1000;
  TE_US2SEC us := us / 1000000; TE_SEC2MS s := s * 1000;
  TE_OS_RC m e := m * 65536 + e; te_rc_os2te e := e;
}.
Proof.
  - intros m e Hm He.
    assert (0 <= e < 65536) by (rewrite list_elem_of_In in He; simpl in He; lia).
    rewrite Z.add_comm, Z.mod_add by lia. by apply Z.mod_small.
  - done.
  - by apply (bool_decide_unpack _).
  - intros z Hz. apply Z.mod_small. lia.
  - done.
  - by apply (bool_decide_unpack _).
  - by apply (bool_decide_unpack _).
  - done.
  - done.
  - done.
  - done.
  - intros us. pose proof (Z.div_mod us 1000). pose proof (Z.mod_pos_bound us 1000). lia.
  - intros us. pose proof (Z.div_mod us 1000000). pose proof (Z.mod_pos_bound us 1000000). lia.
  - done.
  - done.
Defined.

(** ** Data that crosses the API *)

(** [struct sockaddr]: family, network address, port in host byte order. *)
Record sockaddr := SA { sa_family : Z; sa_netaddr : list Z; sa_port : Z }.
#[global] Instance sockaddr_eq_dec : EqDecision sockaddr.
Proof. solve_decision. Defined.

(** [te_sockaddr_set_port (a, te_sockaddr_get_port (b))]. *)
Definition with_port (a b : sockaddr) : sockaddr := SA (sa_family a) (sa_netaddr a) (sa_port b).

(** [rcf_rpc_server]: its name and the agent it runs on.  Its mutable fields
    are written through calls of the signature. *)
Record rcf_rpc_server := RPCS { rpcs_name : string; rpcs_ta : string }.
#[global] Instance rcf_rpc_server_eq_dec : EqDecision rcf_rpc_server.
Proof. solve_decision. Defined.

#[global] Instance rcf_rpc_server_countable : Countable rcf_rpc_server.
Proof.
  refine (inj_countable' (fun r => (rpcs_name r, rpcs_ta r)) (fun p => RPCS p.1 p.2) _). by intros [].
Defined.

Inductive rpc_socket_type := RPC_SOCK_DGRAM | RPC_SOCK_STREAM | RPC_SOCK_OTHER (z : Z).
#[global] Instance rpc_socket_type_eq_dec : EqDecision rpc_socket_type.
Proof. solve_decision. Defined.

Inductive rcf_rpc_op := RCF_RPC_CALL | RCF_RPC_WAIT | RCF_RPC_CALL_WAIT.
Inductive chan_type := TAPI_CFG_IF_CHAN_RX | TAPI_CFG_IF_CHAN_TX | TAPI_CFG_IF_CHAN_COMBINED.
Inductive pci_param_cmode := PCI_PARAM_CMODE (z : Z).
Inductive net_node_type := NET_NODE_TYPE_INVALID | NET_NODE_TYPE_AGENT | NET_NODE_TYPE_NUT.

Definition cfg_handle := Z.
Abbreviation rpc_ptr := Z (only parsing).
Definition toeplitz_cache := list Z.

(** One entry of [tapi_bpf_rxq_stats]. *)
Record rxq_stats := RxqStats { rx_queue : Z; rx_pkts : Z }.
(** One entry of [tapi_cfg_if_rss_hfunc]. *)
Record rss_hfunc := Hfunc { hf_name : string; hf_enabled : bool }.
(** [tarpc_timespec] and [tarpc_ptp_clock_time]: two integers. *)
Record timespec := Timespec { tv_sec : Z; tv_nsec : Z }.

Record xsk_umem_config := UmemCfg {
  um_fill_size : Z; um_comp_size : Z; um_frame_size : Z }.
Record xsk_socket_config := XskCfg {
  xc_rx_size : Z; xc_tx_size : Z; xc_inhibit_prog_load : bool; xc_bind_flags : Z }.

(** [tapi_pat_sender]: what the data-flow code sets in it. *)
Record pat_sender := PatSender {
  ps_lcg : bool; ps_offset : Z; ps_coef1 : Z; ps_coef2 : Z; ps_coef3 : Z;
  ps_duration_sec : Z; ps_ignore_err : bool; ps_no_iomux : bool;
  ps_min_size : Z; ps_max_size : Z; ps_sent : Z; ps_time2wait : Z; ps_total_size : Z }.

(** [tapi_pat_receiver]: waiting time, duration, the generator and its
    arguments, and the number of bytes received. *)
Record pat_receiver := PatReceiver {
  pr_time2wait : Z; pr_duration_sec : Z; pr_lcg : bool; pr_offset : Z; pr_coef1 : Z; pr_coef2 : Z; pr_coef3 : Z;
  pr_received : Z }.

(** A packet captured by TAD, by what the readers of its fields answer:
    [tapi_tad_get_pkt_rx_ts], [asn_get_length] and [asn_read_value_field] of
    payload.#bytes, [asn_read_uint32] of the TCP sequence number,
    [tapi_tcp_get_hdrs_payload_len], and the readers of the Ethernet and of the
    IP header ([total-length], [payload-length], [next-header]). *)
Record tad_pkt := TadPkt {
  pk_ts : te_errno * timeval; pk_len : Z; pk_bytes : te_errno * list Z;
  pk_seqn : te_errno * Z; pk_pld_len : te_errno * Z;
  pk_eth_dst : te_errno * list Z; pk_eth_src : te_errno * list Z; pk_eth_type : te_errno * Z;
  pk_ip4_len : te_errno * Z; pk_ip6_len : te_errno * Z; pk_ip6_next : te_errno * Z }.

(** What a CSAP captures (with [TAD_ETH_RECV_NO_PROMISC] always). *)
Inductive eth_recv_mode := TAD_ETH_RECV_DEF | TAD_ETH_RECV_HOST | TAD_ETH_RECV_OUT | TAD_ETH_RECV_NO.

(** A pointer to a structure of TE that tests create, hand over and destroy: an
    ASN.1 value, a performance tool, a factory of jobs, a logger; zero is NULL. *)
Abbreviation handle := Z (only parsing).

(** What is written to a field of an ASN.1 value. *)
Inductive asn_data := ASN_INT (z : Z) | ASN_OCTETS (l : list Z).

Inductive csap_status := CSAP_IDLE | CSAP_BUSY | CSAP_ERROR | CSAP_OTHER (z : Z).
#[global] Instance csap_status_eq_dec : EqDecision csap_status.
Proof. solve_decision. Defined.

(** [tapi_cfg_if_stats]: counters of an interface. *)
Record if_stats := IfStats {
  in_octets : Z; in_ucast_pkts : Z; in_nucast_pkts : Z; in_discards : Z; in_errors : Z; in_unknown_protos : Z;
  out_octets : Z; out_ucast_pkts : Z; out_nucast_pkts : Z; out_discards : Z; out_errors : Z }.

(** [tapi_perf_opts]: what tests set in it. *)
Inductive perf_bench := TAPI_PERF_IPERF | TAPI_PERF_OTHER (z : Z).
#[global] Instance perf_bench_eq_dec : EqDecision perf_bench.
Proof. solve_decision. Defined.
Record perf_opts := PerfOpts {
  po_host : string; po_src_host : string; po_port : Z; po_ip6 : bool; po_protocol : Z; po_streams : Z;
  po_bandwidth_bits : Z; po_duration_sec : Z; po_interval_sec : Z; po_dual : bool }.

(** [tapi_perf_report]. *)
Record perf_report := PerfReport {
  rp_bits_per_second : spec_float; rp_rx_bits_per_second : spec_float; rp_tx_bits_per_second : spec_float; rp_retransmits : Z }.

(** The status of a shell command ([rpc_wait_status]). *)
Record wait_status := WaitStatus { ws_exited : bool; ws_value : Z }.

(** [tarpc_timex]: the fields the suite uses. *)
Record timex := Timex { tx_modes : Z; tx_freq : Z; tx_time : timeval }.
(** [tarpc_ptp_clock_caps] and [tarpc_ethtool_ts_info], likewise. *)
Record ptp_caps := PtpCaps { cap_max_adj : Z; cap_n_ext_ts : Z; cap_pps : Z }.
Record ts_info := TsInfo { ti_phc_index : Z; ti_tx_types : Z; ti_rx_filters : Z; ti_so_timestamping : Z }.

(** [tapi_ethtool_opt] and [tapi_ethtool_report]; the members of the union
    [data] are fields, of which the one of the command is meant. *)
Inductive ethtool_cmd :=
| TAPI_ETHTOOL_CMD_NONE | TAPI_ETHTOOL_CMD_STATS | TAPI_ETHTOOL_CMD_SHOW_PAUSE | TAPI_ETHTOOL_CMD_SHOW_RING
| TAPI_ETHTOOL_CMD_REG_DUMP | TAPI_ETHTOOL_CMD_EEPROM_DUMP | TAPI_ETHTOOL_CMD_DUMP_MODULE_EEPROM
| TAPI_ETHTOOL_CMD_SHOW_EEE | TAPI_ETHTOOL_CMD_SHOW_FEC | TAPI_ETHTOOL_CMD_SHOW_MODULE.
Record ethtool_opt := EthtoolOpt {
  eo_cmd : ethtool_cmd; eo_if_name : string; eo_stats : bool; eo_timeout_ms : option Z; eo_length : option Z }.
Record pause_report := PauseReport {
  pr_autoneg : bool; pr_rx : bool; pr_tx : bool; pr_rx_pause_frames : option Z; pr_tx_pause_frames : option Z }.
Record ring_report := RingReport { rg_rx : Z; rg_tx : Z; rg_rx_max : Z; rg_tx_max : Z }.
Record ethtool_report := EthtoolReport {
  et_out : bool; et_err_out : bool; et_err_code : Z;
  et_link : bool; et_ring : ring_report; et_stats : list (string * string); et_pause : pause_report }.

(** [tapi_ping_opt], [tapi_ping_report] and [tapi_job_status_t]. *)
Record ping_opt := PingOpt {
  pg_packet_count : Z; pg_interval : option spec_float; pg_packet_size : option Z; pg_interface : string; pg_destination : string }.
Record ping_report := PingReport { pg_transmitted : Z; pg_received : Z; pg_rtt_avg : spec_float }.
Record job_status := JobStatus { js_exited : bool; js_value : Z }.

(** A VXLAN tunnel: [tapi_cfg_tunnel]. *)
Record cfg_tunnel := CfgTunnel {
  tn_name : string; tn_if_name : string; tn_local : sockaddr; tn_remote : sockaddr; tn_vni : Z; tn_port : Z }.

(** Sinks for verdicts that do not leave the function. *)
Inductive verdict_level := ERROR_V | WARN_V | RING_V.

(** ** The signature *)

(** Calls of TE, with the type of the answer.  A status comes with the output
    parameters of the call; an RPC comes with its value and errno. *)
Inductive te_call : Type -> Type :=
(* verdicts and waiting *)
| verdict (l : verdict_level) (m : msg) : te_call unit
| te_motivated_sleep (sec : Z) : te_call unit
| te_motivated_msleep (ms : Z) : te_call unit
| CFG_WAIT_CHANGES : te_call unit
| te_gettimeofday : te_call (te_errno * timeval)
| getenv (name : string) : te_call (option string)
| rand_range (lo hi : Z) : te_call Z
| te_fill_buf (len : Z) : te_call (list Z)
| TE_ALLOC (len : Z) : te_call bool
| te_vec_append : te_call te_errno
| te_dbuf_expand (n : Z) : te_call te_errno
| te_snprintf (s : string) : te_call (te_errno * string)
| tapi_pat_sender_init : te_call pat_sender
(* conf_api.h *)
| cfg_set_instance_int (v : Z) (oid : string) : te_call te_errno
| cfg_get_instance_int (oid : string) : te_call (te_errno * Z)
| cfg_get_instance_string (oid : string) : te_call (te_errno * string)
| cfg_find_pattern (pattern : string) : te_call (te_errno * list cfg_handle)
| cfg_get_inst_name (h : cfg_handle) : te_call (te_errno * string)
| cfg_get_instance_str (h : cfg_handle) : te_call (te_errno * string)
| cfg_get_oid_str (h : cfg_handle) : te_call (te_errno * string)
| cfg_synchronize (oid : string) (subtree : bool) : te_call te_errno
| cfg_tree_print (oid : string) : te_call te_errno
| cfg_register_object_str (oid : string) : te_call te_errno
| cfg_create_backup : te_call (te_errno * string)
| cfg_restore_backup_nohistory (name : string) : te_call te_errno
| cfg_release_backup (name : string) : te_call te_errno
| tapi_cfg_sys_set_int (ta : string) (v : Z) (path : string) : te_call te_errno
| tapi_cfg_sys_ns_set_int (ta : string) (v : Z) (path : string) : te_call te_errno
| cfg_add_instance_int (v : Z) (oid : string) : te_call te_errno
(* tapi_cfg_pci.h, tapi_cfg_modules.h *)
| tapi_cfg_pci_get_ta_driver (ta : string) : te_call (te_errno * option string)
| tapi_cfg_pci_get_driver (oid : string) : te_call (te_errno * option string)
| tapi_cfg_pci_devices_by_driver (ta drv : string) : te_call (te_errno * list string)
| tapi_cfg_pci_get_dbdf (oid : string) : te_call (te_errno * (Z * Z * Z))
| tapi_cfg_pci_is_pf (oid : string) : te_call (te_errno * bool)
| tapi_cfg_pci_oid_by_net_if (ta ifn : string) : te_call (te_errno * string)
| tapi_cfg_pci_set_param_uint (oid param : string) (m : pci_param_cmode) (v : Z) : te_call te_errno
| tapi_cfg_pci_get_param_uint (oid param : string) (m : pci_param_cmode) : te_call (te_errno * Z)
| tapi_cfg_module_check_devices (ta m : string) : te_call (te_errno * bool)
| tapi_cfg_module_param_get_int (ta m param : string) : te_call (te_errno * Z)
| tapi_cfg_module_load (ta m : string) : te_call te_errno
| tapi_cfg_module_unload (ta m : string) : te_call te_errno
| tapi_cfg_module_add (ta m : string) (load : bool) : te_call te_errno
| tapi_cfg_module_add_from_ta_dir (ta m : string) (deps : bool) : te_call te_errno
| tapi_cfg_module_add_from_ta_dir_or_fallback (ta m : string) (deps : bool) : te_call te_errno
(* tapi_cfg_if.h, tapi_cfg_base.h *)
| tapi_cfg_if_feature_is_present (ta ifn f : string) : te_call (te_errno * bool)
| tapi_cfg_if_feature_is_readonly (ta ifn f : string) : te_call (te_errno * bool)
| tapi_cfg_if_feature_get (ta ifn f : string) : te_call (te_errno * Z)
| tapi_cfg_if_feature_set (ta ifn f : string) (v : Z) : te_call te_errno
| tapi_cfg_if_priv_flag_set (ta ifn f : string) (v : bool) : te_call te_errno
| tapi_cfg_set_hwaddr (ta ifn : string) (mac : list Z) : te_call te_errno
| tapi_cfg_get_hwaddr (ta ifn : string) (len : Z) : te_call (te_errno * (list Z * Z))
| tapi_cfg_base_if_set_mtu (ta ifn : string) (mtu : Z) : te_call te_errno
| tapi_cfg_base_if_add_vlan (ta ifn : string) (vid : Z) : te_call (te_errno * string)
| tapi_cfg_base_if_up (ta ifn : string) : te_call te_errno
| tapi_cfg_base_if_down (ta ifn : string) : te_call te_errno
| tapi_cfg_base_if_add_net_addr (ta ifn : string) (a : sockaddr) (prefix : Z) : te_call te_errno
| tapi_cfg_alloc_af_net_addr_pair (af : Z) : te_call (te_errno * (sockaddr * sockaddr * Z))
| tapi_cfg_base_if_await_link_up (ta ifn : string) : te_call te_errno
| tapi_cfg_base_if_disable_rx_hwtstamp (ta ifn : string) : te_call te_errno
| tapi_cfg_if_get_rx_ring_size (ta ifn : string) : te_call (te_errno * Z)
| tapi_cfg_if_chan_cur_get (ta ifn : string) (t : chan_type) : te_call (te_errno * Z)
| tapi_cfg_if_chan_max_get (ta ifn : string) (t : chan_type) : te_call (te_errno * Z)
| tapi_cfg_if_chan_cur_set (ta ifn : string) (t : chan_type) (n : Z) : te_call te_errno
| tapi_cfg_get_all_threads (ta : string) : te_call (te_errno * Z)
(* tapi_cfg_if_coalesce.h: [q < 0] is the interface itself *)
| tapi_cfg_if_coalesce_get (ta ifn : string) (q : Z) (param : string) : te_call (te_errno * Z)
| tapi_cfg_if_coalesce_set (ta ifn : string) (q : Z) (param : string) (v : Z) : te_call te_errno
| tapi_cfg_if_coalesce_set_local (ta ifn : string) (q : Z) (param : string) (v : Z) : te_call te_errno
| tapi_cfg_if_coalesce_commit (ta ifn : string) (queues : bool) : te_call te_errno
(* tapi_cfg_phy.h *)
| tapi_cfg_phy_autoneg_get (ta ifn : string) : te_call (te_errno * Z)
| tapi_cfg_phy_speed_admin_get (ta ifn : string) : te_call (te_errno * Z)
| tapi_cfg_phy_duplex_admin_get (ta ifn : string) : te_call (te_errno * Z)
| tapi_cfg_phy_mode_adv_get (ta ifn mode : string) : te_call (te_errno * bool)
| tapi_cfg_phy_mode_oper_get (ta ifn : string) : te_call (te_errno * (Z * Z))
| tapi_cfg_phy_autoneg_lp_adv_get (ta ifn : string) : te_call (te_errno * Z)
| tapi_cfg_phy_lp_advertised (ta ifn mode : string) : te_call (te_errno * bool)
| tapi_cfg_phy_autoneg_set (ta ifn : string) (v : Z) : te_call te_errno
| tapi_cfg_phy_speed_admin_set (ta ifn : string) (v : Z) : te_call te_errno
| tapi_cfg_phy_duplex_admin_set (ta ifn : string) (v : Z) : te_call te_errno
| tapi_cfg_phy_mode_adv_set (ta ifn mode : string) (v : bool) : te_call te_errno
| tapi_cfg_phy_commit (ta ifn : string) : te_call te_errno
| tapi_cfg_phy_state_wait_up (ta ifn : string) (ms : Z) : te_call te_errno
| tapi_cfg_phy_autoneg_str2id (s : string) : te_call Z
| tapi_cfg_phy_duplex_str2id (s : string) : te_call Z
| tapi_cfg_phy_speed_str2id (s : string) : te_call Z
(* tapi_cfg_if_rss.h, tapi_cfg_rx_rule.h, tapi_bpf_rxq_stats.h, te_toeplitz.h *)
| tapi_cfg_if_rss_hash_key_get (ta ifn : string) (ctx : Z) : te_call (te_errno * list Z)
| tapi_cfg_if_rss_rx_queues_get (ta ifn : string) : te_call (te_errno * Z)
| tapi_cfg_if_rss_indir_table_size (ta ifn : string) (ctx : Z) : te_call (te_errno * Z)
| tapi_cfg_if_rss_indir_get (ta ifn : string) (ctx idx : Z) : te_call (te_errno * Z)
| tapi_cfg_if_rss_indir_default_set (ta ifn : string) : te_call te_errno
| tapi_cfg_if_rss_indir_set_local (ta ifn : string) (ctx idx q : Z) : te_call te_errno
| tapi_cfg_if_rss_fill_indir_table (ta ifn : string) (ctx lo hi : Z) : te_call te_errno
| tapi_cfg_if_rss_hash_indir_commit (ta ifn : string) (ctx : Z) : te_call te_errno
| tapi_cfg_if_rss_print_indir_table (ta ifn : string) (ctx : Z) : te_call te_errno
| tapi_cfg_if_rss_hash_key_set_local (ta ifn : string) (ctx : Z) (key : list Z) : te_call te_errno
| tapi_cfg_if_rss_hfuncs_get (ta ifn : string) (ctx : Z) : te_call (te_errno * list rss_hfunc)
| tapi_cfg_if_rss_hfunc_set_single_local (ta ifn : string) (ctx : Z) (f : string) : te_call te_errno
| tapi_cfg_rx_rule_table_size_get (ta ifn : string) : te_call (te_errno * Z)
| tapi_cfg_rx_rule_spec_loc_get (ta ifn : string) : te_call (te_errno * bool)
| tapi_cfg_rx_rule_find_location (ta ifn : string) (lo hi : Z) : te_call (te_errno * Z)
| tapi_cfg_rx_rule_flow_by_socket (af : Z) (t : rpc_socket_type) : te_call Z
| tapi_cfg_rx_rule_add (ta ifn : string) (loc flow : Z) : te_call te_errno
| tapi_cfg_rx_rule_fill_ip_addrs_ports (ta ifn : string) (loc af : Z)
    (src srcm dst dstm : option sockaddr) : te_call te_errno
| tapi_cfg_rx_rule_rx_queue_set (ta ifn : string) (loc q : Z) : te_call te_errno
| tapi_cfg_rx_rule_commit (ta ifn : string) (loc : Z) : te_call te_errno
| tapi_cfg_rx_rule_del (ta ifn : string) (loc : Z) : te_call te_errno
| tapi_bpf_rxq_stats_init_mode (ta ifn name : string) (frags : bool) : te_call (te_errno * Z)
| tapi_bpf_rxq_stats_get_id (ta ifn : string) : te_call (te_errno * Z)
| tapi_bpf_rxq_stats_fini (ta ifn : string) (id : Z) : te_call te_errno
| tapi_bpf_map_pin_get_fd (r : rcf_rpc_server) (id : Z) (map : string) : te_call (te_errno * Z)
| cfg_del_instance (subtree : bool) (oid : string) : te_call te_errno
| cfg_unregister_object (oid : string) : te_call te_errno
| rpc_net_drv_too_many_rx_rules (r : rcf_rpc_server) (s : Z) (ifn : string) (src dst : sockaddr)
    (t : rpc_socket_type) (any_loc : bool) (queues : Z) : te_call (Z * Z * te_errno)
| tapi_bpf_rxq_stats_reset (ta : string) (id : Z) : te_call te_errno
| tapi_bpf_rxq_stats_clear (ta : string) (id : Z) : te_call te_errno
| tapi_bpf_rxq_stats_set_params (ta : string) (id af : Z) (src dst : option sockaddr)
    (udp : bool) (enable : bool) : te_call te_errno
| tapi_bpf_rxq_stats_read (ta : string) (id : Z) : te_call (te_errno * list rxq_stats)
| tapi_bpf_rxq_stats_check_single (ta : string) (id queue pkts : Z)
    (t : rpc_socket_type) (vpref : string) : te_call te_errno
| te_toeplitz_cache_init_size (key : list Z) : te_call (option toeplitz_cache)
| te_toeplitz_hash_fini (c : option toeplitz_cache) : te_call unit
| te_toeplitz_hash_sa (c : toeplitz_cache) (src dst : sockaddr) (variant : Z) : te_call (te_errno * Z)
(* RPCs: value and errno *)
| rpcs_set_op (r : rcf_rpc_server) (op : rcf_rpc_op) : te_call unit
| rpcs_set_timeout (r : rcf_rpc_server) (ms : Z) : te_call unit
| rpcs_set_silent (r : rcf_rpc_server) (b : bool) : te_call unit
| rpc_create_and_bind_socket (r : rcf_rpc_server) (t : rpc_socket_type) (a : sockaddr) : te_call (Z * te_errno)
| rpc_socket (r : rcf_rpc_server) : te_call (Z * te_errno)
| rpc_open (r : rcf_rpc_server) (path : string) (flags : Z) : te_call (Z * te_errno)
| rpc_close (r : rcf_rpc_server) (fd : Z) : te_call (Z * te_errno)
| rpc_sendto (r : rcf_rpc_server) (s : Z) (buf : list Z) (dst : sockaddr) : te_call (Z * te_errno)
| rpc_send (r : rcf_rpc_server) (s : Z) (buf : list Z) : te_call (Z * te_errno)
(* the macro: the jump it leaves the test with, if any *)
| RPC_SEND (r : rcf_rpc_server) (s : Z) (buf : list Z) : te_call (option jump)
| rpc_recv (r : rcf_rpc_server) (s len : Z) : te_call (Z * list Z * te_errno)
| rpc_recvfrom (r : rcf_rpc_server) (s len : Z) : te_call (Z * (list Z * sockaddr) * te_errno)
| rpc_readability (r : rcf_rpc_server) (s timeout : Z) : te_call bool
| rpc_poll (r : rcf_rpc_server) (fds : list Z) (timeout : Z) : te_call (Z * list Z * te_errno)
| rpc_system_ex (r : rcf_rpc_server) (cmd : string) : te_call wait_status
| rpc_shell_get_all3 (r : rcf_rpc_server) (cmd : string) :
    te_call (wait_status * (option string * option string))
| te_rand_range_exclude (lo hi x : Z) : te_call Z
| tapi_get_random_port : te_call Z
| rpc_check_port_is_free (r : rcf_rpc_server) (port : Z) : te_call bool
| rpc_ioctl_ts_info (r : rcf_rpc_server) (s : Z) (ifn : string) : te_call (Z * Z * te_errno)
| rpc_ioctl_reset (r : rcf_rpc_server) (s : Z) (ifn : string) (flags : Z) : te_call (Z * Z * te_errno)
| rpc_clock_gettime (r : rcf_rpc_server) (is_fd : bool) (id : Z) : te_call (Z * timespec * te_errno)
| rpc_pattern_sender (r : rcf_rpc_server) (s : Z) (c : pat_sender) : te_call (Z * Z * te_errno)
| tapi_pat_receiver_init : te_call pat_receiver
| rpc_pattern_receiver (r : rcf_rpc_server) (s : Z) (c : pat_receiver) : te_call (Z * Z * te_errno)
| rpc_drain_fd_duration (r : rcf_rpc_server) (s size time2wait duration : Z) :
    te_call (Z * Z * te_errno)
| rcf_rpc_server_fork (r : rcf_rpc_server) (name : string) : te_call (te_errno * rcf_rpc_server)
| rcf_rpc_server_destroy (r : rcf_rpc_server) : te_call te_errno
| tapi_sockaddr_clone (r : rcf_rpc_server) (a : sockaddr) : te_call (te_errno * sockaddr)
| GEN_CONNECTION (r1 r2 : rcf_rpc_server) (t : rpc_socket_type) (a1 a2 : sockaddr) :
    te_call (te_errno * (Z * Z))
| rpc_posix_memalign (r : rcf_rpc_server) (align len : Z) : te_call (Z * rpc_ptr * te_errno)
| rpc_free (r : rcf_rpc_server) (p : rpc_ptr) : te_call unit
| rpc_xsk_umem__create (r : rcf_rpc_server) (mem : rpc_ptr) (len : Z) (c : xsk_umem_config) :
    te_call (Z * rpc_ptr * te_errno)
| rpc_xsk_umem__delete (r : rcf_rpc_server) (umem : rpc_ptr) : te_call (Z * te_errno)
| rpc_xsk_rx_fill_simple (r : rcf_rpc_server) (umem : rpc_ptr) (ifn : string) (q frames : Z) :
    te_call (Z * te_errno)
| rpc_xsk_socket__create (r : rcf_rpc_server) (ifn : string) (q : Z) (umem : rpc_ptr)
    (shared : bool) (c : xsk_socket_config) : te_call (Z * rpc_ptr * te_errno)
| rpc_xsk_socket__delete (r : rcf_rpc_server) (sock : rpc_ptr) : te_call (Z * te_errno)
| rpc_xsk_map_set (r : rcf_rpc_server) (map_fd key fd : Z) : te_call (Z * te_errno)
| rpc_xsk_receive_simple (r : rcf_rpc_server) (sock : rpc_ptr) (len : Z) :
    te_call (Z * list Z * te_errno)
| rpc_xsk_send_simple (r : rcf_rpc_server) (sock : rpc_ptr) (buf : list Z) : te_call (Z * te_errno)
| tapi_sockaddr_cmp (a b : sockaddr) : te_call Z
(* CSAPs of TAD; the RPCs of the suite's own agent library *)
| tapi_udp_ip_eth_csap_create (ta ifn : string) (mode : eth_recv_mode) (local_mac remote_mac : option (list Z)) (af : Z)
    (local remote : sockaddr) : te_call (te_errno * Z)
| tapi_tcp_ip_eth_csap_create (ta ifn : string) (mode : eth_recv_mode) (macs : option (list Z * list Z)) (af : Z)
    (local remote : sockaddr) : (* MAC addresses: local and remote *)
    te_call (te_errno * Z)
| tapi_ip_eth_csap_create (ta ifn : string) (mode : eth_recv_mode) (local_mac remote_mac : list Z) (af : Z)
    (local remote : list Z) : te_call (te_errno * Z)
| tapi_eth_csap_create (ta ifn : string) (outgoing : bool) (remote local : list Z) :
    te_call (te_errno * Z)
(* with [TAD_ETH_RECV_NO] and no addresses *)
| tapi_eth_csap_create_to_send (ta ifn : string) : te_call (te_errno * Z)
| tapi_tad_trrecv_start (ta : string) (csap : Z) : te_call te_errno
| tapi_tad_trrecv_stop (ta : string) (csap : Z) : te_call (te_errno * list tad_pkt)
| tapi_tad_trrecv_get (ta : string) (csap : Z) : te_call (te_errno * list tad_pkt)
| tapi_tad_csap_destroy (ta : string) (csap : Z) : te_call te_errno
| rpc_net_drv_send_pkts_exact_delay (r : rcf_rpc_server) (s delay time2run : Z) : te_call (Z * te_errno)
| rpc_net_drv_recv_pkts_exact_delay (r : rcf_rpc_server) (s time2wait : Z) : te_call (Z * te_errno)
(* sockets and buffers of the offload tests *)
| tapi_cfg_base_if_get_mtu_u (ta ifn : string) : te_call (te_errno * Z)
| rpc_bind (r : rcf_rpc_server) (s : Z) (a : sockaddr) : te_call (Z * te_errno)
| rpc_connect (r : rcf_rpc_server) (s : Z) (a : sockaddr) : te_call (Z * te_errno)
| rpc_listen (r : rcf_rpc_server) (s backlog : Z) : te_call (Z * te_errno)
| rpc_accept (r : rcf_rpc_server) (s : Z) : te_call (Z * te_errno)
| rpc_setsockopt_int (r : rcf_rpc_server) (s opt v : Z) : te_call (Z * te_errno)
| rpc_setsockopt_linger (r : rcf_rpc_server) (s onoff linger : Z) : te_call (Z * te_errno)
| rpc_getsockopt (r : rcf_rpc_server) (s opt : Z) : te_call (Z * Z * te_errno)
| te_make_buf (lo hi : Z) : te_call (list Z)
| rpc_read_fd2te_dbuf (r : rcf_rpc_server) (s time2wait amount : Z) : te_call (Z * list Z * te_errno)
| te_ipstack_mirror_udp_packet (buf : list Z) : te_call (te_errno * list Z)
| tapi_ntpd_is_available (r : rcf_rpc_server) : te_call bool
| tapi_ntpd_disable (r : rcf_rpc_server) : te_call te_errno
(* traffic templates, CSAPs made of them, counters of interfaces, measurements *)
| tapi_ndn_subst_env (tmpl : handle) : te_call te_errno
| asn_free_subvalue (v : handle) (label : string) : te_call te_errno
| asn_write_value_field (v : handle) (d : asn_data) (label : string) : te_call te_errno
| asn_write_string (v : handle) (s label : string) : te_call te_errno
| asn_copy_value (v : handle) : te_call handle
| asn_free_value (v : handle) : te_call unit
| tapi_env_get_if (name : string) : te_call (option string)
| tapi_env_get_addr (name : string) : te_call (option sockaddr)
| tapi_env_stats_gather : te_call te_errno
| tapi_env_stats_gather_and_log_diff : te_call te_errno
| tapi_cfg_base_if_get_link_addr (ta ifn : string) : te_call (te_errno * list Z)
| tapi_cfg_phy_speed_oper_get (ta ifn : string) : te_call (te_errno * Z)
| tapi_cfg_stats_if_stats_get (ta ifn : string) : te_call (te_errno * if_stats)
| tapi_eth_based_csap_create_by_tmpl (ta ifn : string) (mode : eth_recv_mode) (tmpl : handle) : te_call (te_errno * Z)
| tapi_tad_trsend_start (ta : string) (csap : Z) (tmpl : handle) : te_call te_errno
(* with [RCF_TRRECV_COUNT]: packets are counted and not kept *)
| tapi_tad_trrecv_start_count (ta : string) (csap : Z) : te_call te_errno
| tapi_tad_trrecv_stop_count (ta : string) (csap : Z) : te_call (te_errno * Z)
| tapi_csap_get_status (ta : string) (csap : Z) : te_call (te_errno * csap_status)
| tapi_csap_param_get_llint (ta : string) (csap : Z) (param : string) : te_call (te_errno * Z)
| tapi_csap_param_get_timestamp (ta : string) (csap : Z) (param : string) : te_call (te_errno * timeval)
| tapi_tad_csap_destroy_all : te_call te_errno
| te_mi_logger_meas_create (tool : string) : te_call (te_errno * handle)
| te_mi_logger_add_meas (l : handle) (type name : string) (v : spec_float) : te_call unit
| te_mi_logger_destroy (l : handle) : te_call unit
(* packets sent to an interface whose filters are tested *)
| asn_parse_value_text (text : string) : te_call (te_errno * handle)
| free (p : handle) : te_call unit
| tapi_ndn_pkt_inject_vlan_tag (tmpl : handle) (tci : Z) : te_call te_errno
| tapi_cfg_base_if_set_promisc (ta ifn : string) (on : bool) : te_call te_errno
| tapi_cfg_base_if_set_allmulti (ta ifn : string) (on : bool) : te_call te_errno
| tapi_cfg_base_if_add_mcast_mac (oid : string) (mac : list Z) : te_call te_errno
| tapi_cfg_base_if_del_mcast_mac (oid : string) (mac : list Z) : te_call te_errno
| tapi_cfg_base_if_del_vlan (ta ifn : string) (vid : Z) : te_call te_errno
(* with [RCF_MODE_BLOCKING] *)
| tapi_tad_trsend_blocking (ta : string) (csap : Z) (tmpl : handle) : te_call te_errno
| tapi_tad_trrecv_get_count (ta : string) (csap : Z) : te_call (te_errno * Z)
| tapi_tad_trrecv_wait_pkts_get_num (ta : string) (csap num timeout : Z) : te_call (te_errno * Z)
(* multicast sockets; instances of the configurator *)
| rpc_setsockopt_mreqn (r : rcf_rpc_server) (s opt ifindex : Z) : te_call (Z * te_errno)
| rpc_mcast_join (r : rcf_rpc_server) (s : Z) (a : sockaddr) (ifindex : Z) : te_call (Z * te_errno)
| cfg_get_instance_uint64 (h : cfg_handle) : te_call (te_errno * Z)
| cfg_find_object_by_instance (h : cfg_handle) : te_call (te_errno * cfg_handle)
| cfg_get_subid (h : cfg_handle) : te_call (te_errno * string)
(* clocks *)
| rpc_clock_settime (r : rcf_rpc_server) (is_fd : bool) (id : Z) (ts : timespec) : te_call (Z * te_errno)
| rpc_clock_adjtime (r : rcf_rpc_server) (is_fd : bool) (id : Z) (p : timex) : te_call (Z * timex * te_errno)
| rpc_ioctl_ptp_clock_getcaps (r : rcf_rpc_server) (fd : Z) : te_call (Z * ptp_caps * te_errno)
(* the number of samples and the time stamps *)
| rpc_ioctl_ptp_sys_offset (r : rcf_rpc_server) (fd n_samples : Z) : te_call (Z * (Z * list timespec) * te_errno)
(* the samples: [phc], [sys1] and [sys2] of each *)
| rpc_ioctl_ptp_sys_offset_extended (r : rcf_rpc_server) (fd n_samples : Z) :
    te_call (Z * (Z * list (timespec * timespec * timespec)) * te_errno)
(* [device], [sys_realtime] and [sys_monoraw] *)
| rpc_ioctl_ptp_sys_offset_precise (r : rcf_rpc_server) (fd : Z) : te_call (Z * (timespec * timespec * timespec) * te_errno)
| rpc_ioctl_get_ts_info (r : rcf_rpc_server) (s : Z) (ifn : string) : te_call (Z * ts_info * te_errno)
| tapi_sfptpd_enable (ta : string) : te_call unit
| te_sleep (sec : Z) : te_call unit
| te_msleep (ms : Z) : te_call unit
(* commands and files of the agent *)
| rpc_system (r : rcf_rpc_server) (cmd : string) : te_call wait_status
| rcf_ta_put_file (ta lfile rfile : string) : te_call te_errno
| cfg_set_instance_string (v oid : string) : te_call te_errno
| rpc_read_fd2te_string (r : rcf_rpc_server) (fd : Z) : te_call (Z * string * te_errno)
| rpc_readlink (r : rcf_rpc_server) (path : string) (len : Z) : te_call (Z * list Z * te_errno)
| rpc_opendir (r : rcf_rpc_server) (path : string) : te_call (rpc_ptr * te_errno)
| rpc_closedir (r : rcf_rpc_server) (d : rpc_ptr) : te_call (Z * te_errno)
(* jobs and the tools run as jobs *)
| tapi_job_create (f : handle) (program : string) (args : list string) : te_call (te_errno * handle)
| tapi_job_alloc_output_channels (j : handle) (n : Z) : te_call (te_errno * list handle)
| tapi_job_attach_filter (ch : handle) (name : string) (readable : bool) : te_call (te_errno * handle)
| tapi_job_start (j : handle) : te_call te_errno
| tapi_job_kill (j : handle) (signo : Z) : te_call te_errno
| tapi_job_wait (j : handle) (timeout_ms : Z) : te_call (te_errno * job_status)
| tapi_job_destroy (j : handle) : te_call te_errno
(* for every buffer: the end of the stream, the data *)
| tapi_job_receive_many (ch : handle) : te_call (te_errno * list (bool * string))
| tapi_ethtool (f : handle) (o : ethtool_opt) : te_call (te_errno * ethtool_report)
| tapi_ping_create (f : handle) (o : ping_opt) : te_call (te_errno * handle)
| tapi_ping_start (a : handle) : te_call te_errno
| tapi_ping_wait (a : handle) (timeout_ms : Z) : te_call te_errno
| tapi_ping_get_report (a : handle) : te_call (te_errno * ping_report)
| tapi_ping_destroy (a : handle) : te_call te_errno
| tapi_ping_report_mi_log (l : handle) (rep : ping_report) : te_call unit
| te_mi_logger_flush (l : handle) : te_call te_errno
| te_sockaddr_h2str (a : sockaddr) : te_call (te_errno * string)
(* parsers of the console; messages of a driver *)
| tapi_serial_parser_event_add (ta parser event : string) : te_call te_errno
| tapi_serial_parser_pattern_add (ta parser event pattern : string) : te_call Z
| tapi_serial_parser_event_get_count (ta parser event : string) : te_call (te_errno * Z)
| tapi_cfg_set_loglevel (ta : string) (level : Z) : te_call te_errno
| tapi_cfg_if_msglvl_set (ta ifn : string) (flags : Z) : te_call te_errno
| tapi_cfg_base_if_down_up (ta ifn : string) : te_call te_errno
(* more configuration *)
| tapi_cfg_if_priv_flag_get (ta ifn f : string) : te_call (te_errno * bool)
| tapi_cfg_if_fc_set_rx (ta ifn : string) (v : Z) : te_call te_errno
| tapi_cfg_if_eee_active_get (ta ifn : string) : te_call (te_errno * bool)
| tapi_cfg_if_eee_enabled_set (ta ifn : string) (v : bool) : te_call te_errno
| tapi_cfg_if_eee_enabled_set_local (ta ifn : string) (v : bool) : te_call te_errno
| tapi_cfg_if_eee_tx_lpi_enabled_set (ta ifn : string) (v : bool) : te_call te_errno
| tapi_cfg_if_eee_tx_lpi_enabled_set_local (ta ifn : string) (v : bool) : te_call te_errno
| tapi_cfg_if_eee_tx_lpi_timer_set_local (ta ifn : string) (v : Z) : te_call te_errno
| tapi_cfg_if_eee_commit (ta ifn : string) : te_call te_errno
| tapi_cfg_phy_port_get (ta ifn : string) : te_call (te_errno * Z)
| tapi_cfg_pci_param_is_present (oid param : string) : te_call (te_errno * bool)
| tapi_cfg_if_deviceinfo_drivername_get (ta ifn : string) : te_call (te_errno * string)
| tapi_cfg_if_deviceinfo_driverversion_get (ta ifn : string) : te_call (te_errno * string)
| tapi_cfg_module_version_get (ta module : string) : te_call (te_errno * string)
(* pause frames, and traffic by a template *)
| tapi_eth_add_pause_pdu (src : list Z) (quanta : Z) : te_call (te_errno * handle)
| tapi_tad_add_iterator_for (tmpl : handle) (first last step : Z) : te_call te_errno
| tapi_tad_tmpl_ptrn_set_payload_plain (tmpl : handle) (payload : list Z) : te_call te_errno
| tapi_ndn_tmpl_to_ptrn (tmpl : handle) : te_call (te_errno * handle)
| tapi_tad_trrecv_start_ptrn (ta : string) (csap : Z) (ptrn : handle) (timeout_ms : Z) : te_call te_errno
| tapi_eth_gen_traffic_sniff_pattern (ta ifn : string) (tmpl : handle) : te_call te_errno
| tapi_tad_trrecv_wait (ta : string) (csap : Z) : te_call (te_errno * Z)
| tapi_tad_csap_get_no_match_pkts (ta : string) (csap : Z) : te_call (te_errno * Z)
(* interfaces made on a host, routes *)
| cfg_get_string (oid : string) : te_call (te_errno * option string)
| tapi_cfg_tap_add (ta name : string) : te_call te_errno
| tapi_cfg_tunnel_add (ta : string) (t : cfg_tunnel) : te_call te_errno
| tapi_cfg_tunnel_enable (ta : string) (t : cfg_tunnel) : te_call te_errno
| tapi_cfg_bridge_add (ta name : string) : te_call te_errno
| tapi_cfg_bridge_port_add (ta bridge port : string) : te_call te_errno
| tapi_env_get_if_net_node (if_ : handle) : te_call (option handle)
| tapi_cfg_net_node_to_netns (node : handle) (ns : string) : te_call (te_errno * string)
| tapi_cfg_base_ipv4_fw (ta : string) (v : bool) : te_call te_errno
| tapi_cfg_ipv4_fw_enable (ta ifn : string) : te_call te_errno
| tapi_cfg_ipv6_fw_enable (ta ifn : string) : te_call te_errno
| cfg_set_instance_bool (v : bool) (oid : string) : te_call te_errno
| tapi_cfg_add_route_simple (ta : string) (dst : sockaddr) (prefix : Z) (gw : sockaddr) : te_call te_errno
(* performance tools: jobs of a factory, bound to a CPU *)
| tapi_cfg_if_set_ring_size_to_max (ta ifn : string) (rx : bool) : te_call te_errno
| tapi_cfg_if_set_ring_size (ta ifn : string) (rx : bool) (n : Z) : te_call te_errno
| tapi_allocate_port (r : rcf_rpc_server) : te_call (te_errno * Z)
| tapi_allocate_port_range (r : rcf_rpc_server) (n : Z) : te_call (te_errno * list Z)
| te_ip2str (a : sockaddr) : te_call (option string)
| tapi_cfg_cpu_grab_by_prop (ta : string) : te_call (te_errno * Z)
| tapi_job_factory_rpc_create (r : rcf_rpc_server) : te_call (te_errno * handle)
| tapi_job_factory_destroy (f : handle) : te_call unit
| tapi_job_add_exec_param (tool : handle) (cpu : Z) : te_call te_errno
| tapi_perf_server_create (b : perf_bench) (o : perf_opts) (f : handle) : te_call handle
| tapi_perf_server_start_unreliable (p : handle) : te_call te_errno
| tapi_perf_server_get_dump_check_report (p : handle) : te_call (te_errno * perf_report)
| tapi_perf_server_report_mi_log (p : handle) (r : perf_report) : te_call te_errno
| tapi_perf_server_destroy (p : handle) : te_call unit
| tapi_perf_client_create (b : perf_bench) (o : perf_opts) (f : handle) : te_call handle
| tapi_perf_client_start (p : handle) : te_call te_errno
| tapi_perf_client_wait (p : handle) : te_call te_errno
| tapi_perf_client_get_dump_check_report (p : handle) : te_call (te_errno * perf_report)
| tapi_perf_client_report_mi_log (p : handle) (r : perf_report) : te_call te_errno
| tapi_perf_client_destroy (p : handle) : te_call unit
(* test prologue *)
| tapi_tags_add_tag (name : string) (value : option string) : te_call te_errno
| tapi_reqs_modify (reqs : string) : te_call te_errno
| tapi_cfg_net_enable_ipv6_support : te_call te_errno
| tapi_cfg_net_all_assign_ip (af : Z) : te_call te_errno
| tapi_expand_path_all_ta : te_call te_errno
| tapi_cfg_net_remove_empty : te_call te_errno
| tapi_cfg_net_reserve_all : te_call te_errno
| tapi_cfg_net_bind_driver_by_node (t : net_node_type) : te_call te_errno
| tapi_cfg_net_nodes_update_pci_fn_to_interface : te_call te_errno
| tapi_cfg_net_all_up : te_call te_errno
| tapi_cfg_net_delete_all_ip4_addresses : te_call te_errno
| tapi_tags_add_linux_mm (ta : string) : te_call te_errno
| tapi_tags_add_firmwareversion_tag (ta ifn : string) : te_call te_errno
| tapi_tags_add_net_pci_tags (ta ifn : string) : te_call te_errno
| tapi_tags_add_phy_tags (ta ifn ta2 ifn2 : string) : te_call te_errno.

(** A function of the suite. *)
Abbreviation M := (prog te_call).

(** The callback given to [tapi_tad_trrecv_get] and [tapi_tad_trrecv_stop], for every packet of a CSAP. *)
Fixpoint for_pkts {I} (cb : tad_pkt -> I -> M I) (pkts : list tad_pkt) (info : I) : M I :=
  match pkts with
  | [] => mret info
  | p :: pkts' => info ← cb p info; for_pkts cb pkts' info
  end.

(** An answer for every call: zero, empty and null.  Concrete environments
    fall back on it for the calls a run does not care about. *)
Definition default_answer {X} (c : te_call X) : X :=
  ltac:(destruct c;
        repeat match goal with
        | |- (_ * _)%type => refine (_, _)
        | |- te_errno => exact 0
        | |- Z => exact 0
        | |- bool => exact false
        | |- unit => exact tt
        | |- string => exact ""%string
        | |- list _ => exact []
        | |- option _ => exact None
        | |- cfg_handle => exact 0
        | |- csap_status => exact CSAP_IDLE
        | |- if_stats => exact (IfStats 0 0 0 0 0 0 0 0 0 0 0)
        | |- perf_report => exact (PerfReport (S754_zero false) (S754_zero false) (S754_zero false) 0)
        | |- rpc_ptr => exact 0
        | |- sockaddr => exact (SA 0 [] 0)
        | |- timespec => exact (Timespec 0 0)
        | |- timeval => exact (TV 0 0)
        | |- timex => exact (Timex 0 0 (TV 0 0))
        | |- ptp_caps => exact (PtpCaps 0 0 0)
        | |- ts_info => exact (TsInfo 0 0 0 0)
        | |- job_status => exact (JobStatus true 0)
        | |- ping_report => exact (PingReport 0 0 (S754_zero false))
        | |- ethtool_report =>
            exact (EthtoolReport false false 0 false (RingReport 0 0 0 0) [] (PauseReport false false false None None))
        | |- wait_status => exact (WaitStatus true 0)
        | |- pat_sender => exact (PatSender false 0 0 0 0 0 false false 0 0 0 0 0)
        | |- pat_receiver => exact (PatReceiver 0 0 false 0 0 0 0 0)
        | |- rcf_rpc_server => exact (RPCS "" "")
        end).

(** ** Test-control macros and early returns *)

Definition TEST_FAIL {A} (fmt : string) (args : list arg) : M A := raise (FAIL (Msg fmt args)).
Definition TEST_SKIP {A} (fmt : string) (args : list arg) : M A := raise (SKIP (Msg fmt args)).
Definition TEST_VERDICT {A} (fmt : string) (args : list arg) : M A := raise (VERDICT (Msg fmt args)).
Definition TEST_STOP {A} : M A := raise STOP.
Definition ERROR_VERDICT (fmt : string) (args : list arg) : M unit :=
  call (verdict ERROR_V (Msg fmt args)).
Definition WARN_VERDICT (fmt : string) (args : list arg) : M unit :=
  call (verdict WARN_V (Msg fmt args)).
Definition RING_VERDICT (fmt : string) (args : list arg) : M unit :=
  call (verdict RING_V (Msg fmt args)).

(** [CHECK_RC(f(...))], and the same for a call with output parameters. *)
Definition CHECK_RC (p : M te_errno) : M unit :=
  rc ← p; if rc =? 0 then mret tt else raise (RC_FAILED rc).
Definition CHECK_OUT {A} (p : M (te_errno * A)) : M A :=
  '(rc, x) ← p; if rc =? 0 then mret x else raise (RC_FAILED rc).

(** An RPC that was not preceded by [RPC_AWAIT_ERROR]: a negative value
    leaves the test. *)
Definition rpc_ok (c : te_call (Z * te_errno)) : M Z :=
  '(rc, _) ← call c; if rc <? 0 then raise RPC_FAILED else mret rc.

(** [if (rc != 0) return rc;] after a call without and with an output. *)
Notation "'OK' p ;; k" := (mbind (fun rc : Z => if rc =? 0 then k else mret rc) p)
  (at level 100, p at level 99, k at level 200, right associativity).
Notation "'OUT' x <- c ;; k" :=
  (mbind (fun a => let '(rc, x) := a in if rc =? 0 then k else mret rc) (call c))
  (at level 100, x binder, c at level 99, k at level 200, right associativity).

(** An assertion on every way a [wp] can end. *)
Definition on_val {A S} (Q : A -> S -> Prop) (r : result A) (s : S) : Prop :=
  match r with Val a => Q a s | _ => True end.

(** The same, when the function may only return or leave with a jump. *)
Definition no_ub {A S} (Q : A -> S -> Prop) (r : result A) (s : S) : Prop :=
  match r with Val a => Q a s | Exc _ => True | Undef _ => False | NoFuel => False end.

(** Unfold the macros of this file on the way through a program. *)
Ltac wp_macro := unfold CHECK_RC, CHECK_OUT, rpc_ok, ERROR_VERDICT, WARN_VERDICT,
  RING_VERDICT, TEST_FAIL, TEST_SKIP, TEST_VERDICT, TEST_STOP.

(** Use what the environment says of its last answer. *)
Ltac wp_answer :=
  match goal with
  | H : ?E ?X ?c ?s ?x ?s' |- _ =>
      lazymatch type of E with env _ _ => idtac end;
      hnf in H;
      lazymatch type of H with _ /\ _ => destruct H as [H ->] | _ => subst s' end;
      cbn beta iota in *
  end.

(** Run the steps of a program; environments of the form [watch] are
    substituted on the way. *)
Ltac wp_go :=
  repeat (first
    [ wp_step
    | wp_answer
    | progress wp_macro
    | progress cbn [bpost cpost lpost on_val no_ub]
    | match goal with
      | p : (_ * _)%type |- wp _ (match ?p' with _ => _ end) _ _ => constr_eq p p'; destruct p
      end ]).

(** One step of a program under a concrete handler: a bind, then computation
    that leaves loops and the binds that follow alone. *)
Ltac run_step := rewrite run_bind; cbn -[loop for_n foreach mbind Z.add Z.sub Z.mul].
