(* ===== verification/Bytes.v ===== *)
(** Machine representation of integers: byte order, [bswap_64], [htons]. *)
From S2P Require Import Prelude.

Definition is_byte (b : Z) : Prop := 0 <= b < 256.

(** The [n] low bytes of [z], the lowest first, and back. *)
Fixpoint to_le (n : nat) (z : Z) : list Z :=
  match n with
  | O => []
  | S n' => z mod 256 :: to_le n' (z / 256)
  end.

Fixpoint of_le (bs : list Z) : Z :=
  match bs with
  | [] => 0
  | b :: bs' => b + 256 * of_le bs'
  end.

(** Network byte order. *)
Definition to_be (n : nat) (z : Z) : list Z := rev (to_le n z).
Definition of_be (bs : list Z) : Z := of_le (rev bs).

(** An object of [n] bytes in memory on a machine whose byte order is [le]
    (little-endian), and reading it. *)
Definition store (le : bool) (n : nat) (z : Z) : list Z := if le then to_le n z else to_be n z.
Definition load (le : bool) (bs : list Z) : Z := if le then of_le bs else of_be bs.

Definition bswap_64 (z : Z) : Z := of_le (rev (to_le 8 z)).
Definition bswap_16 (z : Z) : Z := of_le (rev (to_le 2 z)).

(** [htons], and [htonl (1) != 1]. *)
Definition htons (le : bool) (z : Z) : Z := if le then bswap_16 z else u16 z.

Lemma length_to_le n z : length (to_le n z) = n.
Proof. revert z; induction n; simpl; auto. Qed.

Lemma length_to_be n z : length (to_be n z) = n.
Proof. unfold to_be. by rewrite length_rev, length_to_le. Qed.

Lemma to_le_bytes n z : Forall is_byte (to_le n z).
Proof.
  revert z; induction n as [|n IH]; intros z; simpl; constructor; [|apply IH].
  unfold is_byte. apply Z.mod_pos_bound. lia.
Qed.

Lemma of_to_le n z : of_le (to_le n z) = z mod 256 ^ Z.of_nat n.
Proof.
  revert z; induction n as [|n IH]; intros z; [by rewrite Z.mod_1_r|].
  cbn [to_le of_le]. rewrite IH, Nat2Z.inj_succ, Z.pow_succ_r by lia.
  rewrite Z.rem_mul_r by lia. lia.
Qed.

Lemma to_of_le bs : Forall is_byte bs -> to_le (length bs) (of_le bs) = bs.
Proof.
  induction 1 as [|b bs Hb Hbs IH]; simpl; [done|]. unfold is_byte in Hb.
  rewrite (Z.mul_comm 256), Z.mod_add, Z.mod_small by lia.
  rewrite Z.div_add, Z.div_small, Z.add_0_l by lia. by rewrite IH.
Qed.

Lemma to_of_le_len n bs : length bs = n -> Forall is_byte bs -> to_le n (of_le bs) = bs.
Proof. intros <-. apply to_of_le. Qed.

(** Bytes reversed, read and split again. *)
Lemma to_of_le_rev n z : to_le n (of_le (rev (to_le n z))) = rev (to_le n z).
Proof.
  apply to_of_le_len; [by rewrite length_rev, length_to_le|].
  apply Forall_rev, to_le_bytes.
Qed.

Lemma of_le_range bs : Forall is_byte bs -> 0 <= of_le bs < 256 ^ Z.of_nat (length bs).
Proof.
  induction 1 as [|b bs Hb Hbs IH]; [simpl; lia|].
  cbn [length of_le]. rewrite Nat2Z.inj_succ, Z.pow_succ_r by lia. unfold is_byte in Hb. nia.
Qed.

Lemma of_to_be n z : of_be (to_be n z) = z mod 256 ^ Z.of_nat n.
Proof. unfold of_be, to_be. by rewrite rev_involutive, of_to_le. Qed.

Lemma to_of_be n bs : length bs = n -> Forall is_byte bs -> to_be n (of_be bs) = bs.
Proof.
  intros <- Hbs. unfold to_be, of_be.
  rewrite <- (length_rev bs), to_of_le by (by apply Forall_rev). apply rev_involutive.
Qed.

(** Swapping on a little-endian machine stores in network byte order. *)
Lemma store_swapped (le : bool) z :
  store le 8 (if le then bswap_64 z else z) = to_be 8 z.
Proof.
  destruct le; [|done]. change (to_le 8 (bswap_64 z) = to_be 8 z). unfold bswap_64, to_be.
  by rewrite to_of_le_rev.
Qed.

(** ... and loading and swapping reads network byte order. *)
Lemma load_swapped (le : bool) bs :
  length bs = 8%nat -> Forall is_byte bs ->
  (if le then bswap_64 (load le bs) else load le bs) = of_be bs.
Proof.
  intros Hl Hb. destruct le; [|done]. change (bswap_64 (of_le bs) = of_be bs). unfold bswap_64, of_be.
  by rewrite to_of_le_len.
Qed.

Lemma bswap_16_inj a b : 0 <= a < 2 ^ 16 -> 0 <= b < 2 ^ 16 -> bswap_16 a = bswap_16 b -> a = b.
Proof.
  unfold bswap_16. intros Ha Hb H.
  apply (f_equal (to_le 2)) in H. rewrite !to_of_le_rev in H.
  apply (f_equal (@rev Z)) in H. rewrite !rev_involutive in H.
  apply (f_equal of_le) in H. rewrite !of_to_le in H.
  rewrite !Z.mod_small in H by (simpl; lia). done.
Qed.

Lemma htons_inj le a b :
  0 <= a < 2 ^ 16 -> 0 <= b < 2 ^ 16 -> htons le a = htons le b -> a = b.
Proof.
  destruct le; simpl; [apply bswap_16_inj|]. unfold u16. intros Ha Hb.
  by rewrite !Z.mod_small by lia.
Qed.

(** Memory keeps what is stored in it. *)
Lemma load_store (le : bool) n z : load le (store le n z) = z mod 256 ^ Z.of_nat n.
Proof. destruct le; [apply of_to_le|apply of_to_be]. Qed.

Lemma store_load (le : bool) n bs : length bs = n -> Forall is_byte bs -> store le n (load le bs) = bs.
Proof. destruct le; [apply to_of_le_len|apply to_of_be]. Qed.
