(* ===== verification/CString.v ===== *)
(** The C library's string functions the code calls: [strtoul], [strncmp] with
    a prefix, [strrchr], [strstr]; and byte order of 64-bit integers. *)
From stdpp Require Import pretty.
From Stdlib Require Import Ascii.
From S2P Require Import Prelude.

(** ** Numbers in strings *)

Definition is_space (c : Ascii.ascii) : bool :=
  let n := Ascii.nat_of_ascii c in ((9 <=? n) && (n <=? 13) || (n =? 32))%nat.

Definition digit_of (c : Ascii.ascii) : option Z :=
  let n := Z.of_nat (Ascii.nat_of_ascii c) in
  if (48 <=? n) && (n <=? 57) then Some (n - 48) else None.

Fixpoint skip_spaces (s : string) : string :=
  match s with
  | String c s' => if is_space c then skip_spaces s' else s
  | EmptyString => s
  end.

(** The decimal digits at the head of [s], after the value [acc]: the value
    and what follows them. *)
Fixpoint scan_digits (acc : Z) (s : string) : Z * string :=
  match s with
  | String c s' =>
      match digit_of c with
      | Some d => scan_digits (acc * 10 + d) s'
      | None => (acc, s)
      end
  | EmptyString => (acc, s)
  end.

Definition starts_with_digit (s : string) : bool :=
  match s with
  | String c _ => match digit_of c with Some _ => true | None => false end
  | EmptyString => false
  end.

(** [strtoul (s, &endptr, 10)] for a 64-bit [unsigned long]: the value and the
    string at [endptr]; [None] when nothing was converted ([endptr == s]).  A
    value out of range becomes [ULONG_MAX]; a minus sign negates the value in
    the type. *)
Definition strtoul10 (s : string) : option (Z * string) :=
  let s1 := skip_spaces s in
  let '(neg, s2) := match s1 with
                    | String "-"%char s' => (true, s')
                    | String "+"%char s' => (false, s')
                    | _ => (false, s1)
                    end in
  if starts_with_digit s2 then
    let '(v, rest) := scan_digits 0 s2 in
    Some (if ULONG_MAX <? v then ULONG_MAX else if neg : bool then u64 (- v) else v, rest)
  else None.

(** [strncmp (s, p, strlen (p)) == 0]. *)
Definition has_prefix (p s : string) : bool := String.prefix p s.

(** [strrchr]: the suffix of [s] that starts at the last [c]. *)
Fixpoint strrchr (s : string) (c : Ascii.ascii) : option string :=
  match s with
  | EmptyString => None
  | String c' s' =>
      match strrchr s' c with
      | Some r => Some r
      | None => if Ascii.eqb c' c then Some s else None
      end
  end.

(** [strstr (s, p) != NULL]. *)
Fixpoint strstr_found (s p : string) : bool :=
  String.prefix p s ||
  match s with
  | EmptyString => false
  | String _ s' => strstr_found s' p
  end.

Lemma strrchr_app s t c r : strrchr t c = Some r -> strrchr (s +:+ t) c = Some r.
Proof. intros H. induction s as [|a s IH]; simpl; [done|]. by rewrite IH. Qed.

Lemma prefix_app p s : String.prefix p (p +:+ s) = true.
Proof.
  induction p as [|c p IH]; simpl; [by destruct s|]. by destruct (Ascii.ascii_dec c c).
Qed.

Lemma digit_pretty n : (n < 10)%N -> digit_of (pretty_N_char n) = Some (Z.of_N n).
Proof.
  intros Hn. assert (n ∈ [0;1;2;3;4;5;6;7;8;9]%N) as H.
  { rewrite list_elem_of_In; simpl. lia. }
  repeat (apply elem_of_cons in H as [->|H]; [done|]). by apply elem_of_nil in H.
Qed.

(** Scanning a printed number adds it to what was read before. *)
Lemma scan_pretty_go n s :
  (0 < n)%N -> scan_digits 0 (pretty_N_go n s) = scan_digits (Z.of_N n) s.
Proof.
  revert s. induction (N.lt_wf_0 n) as [n _ IH]. intros s Hn.
  rewrite pretty_N_go_step by done.
  destruct (decide (n < 10)%N) as [Hs|Hs].
  - rewrite (N.div_small n 10), N.mod_small by done. rewrite pretty_N_go_0. simpl.
    by rewrite digit_pretty.
  - rewrite IH.
    + simpl. rewrite digit_pretty by (apply N.mod_lt; done). f_equal.
      rewrite N2Z.inj_div, N2Z.inj_mod. pose proof (Z.div_mod (Z.of_N n) 10). lia.
    + apply N.div_lt; lia.
    + apply N.div_str_pos. lia.
Qed.

Lemma pretty_go_head n s : (0 < n)%N -> starts_with_digit (pretty_N_go n s) = true.
Proof.
  revert s. induction (N.lt_wf_0 n) as [n _ IH]. intros s Hn.
  rewrite pretty_N_go_step by done.
  destruct (decide (n < 10)%N) as [Hs|Hs].
  - rewrite (N.div_small n 10), N.mod_small by done. rewrite pretty_N_go_0. simpl.
    by rewrite digit_pretty.
  - apply IH; [apply N.div_lt; lia|apply N.div_str_pos; lia].
Qed.

Lemma pretty_go_app n s t : pretty_N_go n s +:+ t = pretty_N_go n (s +:+ t).
Proof.
  revert s. induction (N.lt_wf_0 n) as [n _ IH]. intros s.
  destruct (decide (n = 0)%N) as [->|Hn]; [by rewrite !pretty_N_go_0|].
  rewrite (pretty_N_go_step n s), (pretty_N_go_step n (s +:+ t)) by lia.
  by rewrite IH by (apply N.div_lt; lia).
Qed.

Lemma digit_not_space c s : starts_with_digit (String c s) = true -> is_space c = false /\
  Ascii.eqb c "-"%char = false /\ Ascii.eqb c "+"%char = false.
Proof. intros H. destruct c as [[] [] [] [] [] [] [] []]; 
  first [discriminate H | repeat split]. Qed.

(** [strtoul] reads back a printed number that fits, and stops right after it. *)
Lemma strtoul_pretty (n : N) t :
  Z.of_N n <= ULONG_MAX -> starts_with_digit t = false ->
  strtoul10 (pretty n +:+ t) = Some (Z.of_N n, t).
Proof.
  intros Hn Ht.
  assert (starts_with_digit (pretty n +:+ t) = true /\
          scan_digits 0 (pretty n +:+ t) = (Z.of_N n, t)) as [Hd Hs].
  { assert (forall v, scan_digits v t = (v, t)) as Hstop.
    { intros v. destruct t as [|c t]; [done|]. simpl in *. by destruct (digit_of c). }
    unfold pretty, pretty_N. case_decide as Hz.
    - subst. simpl. by rewrite Hstop.
    - rewrite pretty_go_app, pretty_go_head, scan_pretty_go by lia. simpl. by rewrite Hstop. }
  destruct (pretty n +:+ t) as [|c s]; [done|].
  destruct (digit_not_space c s Hd) as (Hsp & Hm & Hp).
  unfold strtoul10. cbn [skip_spaces]. rewrite Hsp.
  assert (match String c s with
          | String "-"%char s' => (true, s') | String "+"%char s' => (false, s')
          | _ => (false, String c s) end = (false, String c s)) as ->.
  { clear -Hm Hp. by destruct c as [[] [] [] [] [] [] [] []]. }
  rewrite Hd, Hs. destruct (Z.ltb_spec ULONG_MAX (Z.of_N n)); [lia|done].
Qed.

Lemma scan_nonneg acc s : 0 <= acc -> 0 <= (scan_digits acc s).1.
Proof.
  revert acc; induction s as [|c s IH]; intros acc Ha; simpl; [done|].
  unfold digit_of. destruct (_ && _) eqn:Hd; [|done]. autorewrite with zbool in Hd.
  apply IH. lia.
Qed.

Lemma strtoul_range s v t : strtoul10 s = Some (v, t) -> 0 <= v <= ULONG_MAX.
Proof.
  unfold strtoul10.
  match goal with |- context [let '(_, _) := ?x in _] => destruct x as [neg s2] end.
  destruct (starts_with_digit s2); [|done].
  pose proof (scan_nonneg 0 s2 (Z.le_refl 0)) as H0.
  destruct (scan_digits 0 s2) as [v' r]. simpl in H0. intros [= <- <-].
  destruct (Z.ltb_spec ULONG_MAX v'); [unfold ULONG_MAX; lia|].
  destruct neg; [|lia]. pose proof (u64_range (- v')). unfold ULONG_MAX. lia.
Qed.
