(* ===== verification/NetDrvTs.v ===== *)
(** lib/net_drv_ts.c: the helpers every test of the suite uses. *)
From S2P Require Import Prelude Prog Te.

Section net_drv_ts.
Context {TE : Te}.

Definition MAX_PKT_LEN : Z := 1024.
Definition JUMBO_PKT_LEN_MIN : Z := 4096.
Definition JUMBO_PKT_LEN_MAX : Z := 8192.

(** The name of the network driver; [None] is [NULL]. *)
Definition net_drv_driver_name (ta : string) : M (option string) :=
  '(rc, name) ← call (tapi_cfg_pci_get_ta_driver ta);
  if negb (rc =? 0) then mret None
  else match name with
       | None => undef "strcmp(NULL, ...)"
       | Some n => if String.eqb n "virtio-pci" then mret (Some "virtio_net"%string)
                   else mret (Some n)
       end.

Definition net_drv_driver_unloadable (ta module : string) : M bool :=
  allow_unsafe ← call (getenv "TE_ALLOW_UNSAFE_UNLOAD");
  if match allow_unsafe with Some v => String.eqb v "yes" | None => false end
  then mret true
  else
    '(rc, all_grabbed) ← call (tapi_cfg_module_check_devices ta module);
    if (rc =? 0) && all_grabbed then mret true else mret false.

(** The common tail of [net_drv_driver_set_loaded]: read the state back. *)
Definition driver_check_loaded (ta module : string) (load : bool) : M te_errno :=
  OUT loaded <- cfg_get_instance_int ("/agent:" +:+ ta +:+ "/module:" +:+ module +:+ "/loaded:") ;;
  if negb (eqb load (negb (loaded =? 0))) then mret TE_EFAIL else mret 0.

Definition net_drv_driver_set_loaded (ta module : string) (load : bool) : M te_errno :=
  if load then
    OK call (tapi_cfg_module_load ta module) ;;
    driver_check_loaded ta module load
  else
    OK call (cfg_set_instance_int 1
               ("/agent:" +:+ ta +:+ "/module:" +:+ module +:+ "/unload_holders:")) ;;
    OK call (tapi_cfg_module_unload ta module) ;;
    driver_check_loaded ta module load.

Definition net_drv_req_if_feature_configurable (ta ifn feature : string) : M bool :=
  present ← CHECK_OUT (call (tapi_cfg_if_feature_is_present ta ifn feature));
  readonly ← (if (present : bool)
              then CHECK_OUT (call (tapi_cfg_if_feature_is_readonly ta ifn feature))
              else mret false);
  mret (present && negb readonly).

Definition net_drv_req_if_feature_change (ta ifn feature : string) : M unit :=
  present ← CHECK_OUT (call (tapi_cfg_if_feature_is_present ta ifn feature));
  if negb present then TEST_SKIP "Feature '%s' is not supported" [AS feature]
  else
    readonly ← CHECK_OUT (call (tapi_cfg_if_feature_is_readonly ta ifn feature));
    if (readonly : bool) then
      _ ← CHECK_OUT (call (tapi_cfg_if_feature_get ta ifn feature));
      TEST_SKIP "Feature '%s' cannot be modified" [AS feature]
    else mret tt.

Definition net_drv_set_if_feature_gen (ta ifn feature : string) (req_status : Z)
    (fine_if_impossible : bool) : M unit :=
  present ← CHECK_OUT (call (tapi_cfg_if_feature_is_present ta ifn feature));
  if negb present then
    if (req_status =? 0) || fine_if_impossible then mret tt
    else TEST_SKIP "Feature '%s' is not supported" [AS feature]
  else
    status ← CHECK_OUT (call (tapi_cfg_if_feature_get ta ifn feature));
    if status =? req_status then mret tt
    else
      readonly ← CHECK_OUT (call (tapi_cfg_if_feature_is_readonly ta ifn feature));
      if (readonly : bool) then
        if fine_if_impossible then mret tt
        else TEST_SKIP "Feature '%s' is %s and cannot be modified"
               [AS feature; AS (if status =? 0 then "disabled" else "enabled")]
      else CHECK_RC (call (tapi_cfg_if_feature_set ta ifn feature req_status)).

Definition net_drv_set_if_feature (ta ifn feature : string) (req_status : Z) : M unit :=
  net_drv_set_if_feature_gen ta ifn feature req_status false.

Definition net_drv_try_set_if_feature (ta ifn feature : string) (req_status : Z) : M unit :=
  net_drv_set_if_feature_gen ta ifn feature req_status true.

(** *** Sending a packet and receiving it *)

(** [memcmp (buf, recv_buf, n) == 0], where [recv_buf] is the part of the
    local array that has been written: reading past it reads uninitialised
    memory.  ([buf] was filled by [te_fill_buf] up to [n].) *)
Definition memcmp_written (buf recv_buf : list Z) (n : Z) : M bool :=
  if Z.of_nat (length recv_buf) <? n then undef "memcmp() reads bytes of recv_buf that were never written"
  else mret (mem_eq buf recv_buf n).

(** The bytes [recv] stores when it returns [rc]: that many of them. *)
Definition recv_stored (rc : Z) (data : list Z) : list Z := resize (Z.to_nat rc) 0 data.

(** One pass of [while (readable)]: the state is [total_len] and the part of
    [recv_buf] written so far. *)
Definition recv_pass (r : rcf_rpc_server) (s len : Z) (vpref : string)
    (st : Z * list Z) : M (ctl (Z * list Z) unit) :=
  let '(total_len, recv_buf) := st in
  '(rc, data, err) ← call (rpc_recv r s (JUMBO_PKT_LEN_MAX - total_len));
  if rc <? 0 then TEST_VERDICT "%s: recv() failed with error %r" [AS vpref; AI err]
  else
    let recv_buf := buf_write recv_buf total_len (recv_stored rc data) in
    let total_len := total_len + rc in
    if len <=? total_len then mret (Break (total_len, recv_buf))
    else
      readable ← call (rpc_readability r s TAPI_WAIT_NETWORK_DELAY);
      mret (if (readable : bool) then Continue (total_len, recv_buf)
            else Break (total_len, recv_buf)).

Definition net_drv_sendto_recv_check_gen (fuel : nat) (rs : rcf_rpc_server) (s_sender : Z)
    (dst_addr : option sockaddr) (rr : rcf_rpc_server) (s_receiver : Z)
    (vpref : option string) (may_loss jumbo : bool) : M Z :=
  let vpref := match vpref with
               | None | Some EmptyString => "Data transmission check"%string
               | Some v => v
               end in
  len ← (if jumbo then call (rand_range JUMBO_PKT_LEN_MIN JUMBO_PKT_LEN_MAX)
         else call (rand_range 1 MAX_PKT_LEN));
  send_buf ← call (te_fill_buf len);
  '(rc, err) ← match dst_addr with
               | Some dst => call (rpc_sendto rs s_sender send_buf dst)
               | None => call (rpc_send rs s_sender send_buf)
               end;
  if rc <? 0 then TEST_VERDICT "%s: sending failed with error %r" [AS vpref; AI err]
  else if negb (rc =? len) then
    TEST_VERDICT "%s: sending returned unexpected result" [AS vpref]
  else
    readable ← call (rpc_readability rr s_receiver TAPI_WAIT_NETWORK_DELAY);
    if negb readable then
      if may_loss then mret 0
      else TEST_VERDICT "%s: receiver did not become readable" [AS vpref]
    else
      st ← loop fuel (0, []) (recv_pass rr s_receiver len vpref);
      match st with
      | inr tt => mret 0 (* the body does not return *)
      | inl (total_len, recv_buf) =>
          if negb (total_len =? len) then
            TEST_VERDICT "%s: recv() returned unexpected result" [AS vpref]
          else
            same ← memcmp_written send_buf recv_buf len;
            if negb same then TEST_VERDICT "%s: recv() returned unexpected data" [AS vpref]
            else mret len
      end.

Definition net_drv_sendto_recv_check (fuel : nat) (rs : rcf_rpc_server) (s1 : Z)
    (dst : option sockaddr) (rr : rcf_rpc_server) (s2 : Z) (vpref : option string) : M Z :=
  net_drv_sendto_recv_check_gen fuel rs s1 dst rr s2 vpref false false.

Definition net_drv_sendto_recv_check_may_loss (fuel : nat) (rs : rcf_rpc_server) (s1 : Z)
    (dst : option sockaddr) (rr : rcf_rpc_server) (s2 : Z) (vpref : option string) : M Z :=
  net_drv_sendto_recv_check_gen fuel rs s1 dst rr s2 vpref true false.

Definition net_drv_send_recv_ext_check (fuel : nat) (rs : rcf_rpc_server) (s1 : Z)
    (rr : rcf_rpc_server) (s2 : Z) (jumbo : bool) (vpref : option string) : M Z :=
  net_drv_sendto_recv_check_gen fuel rs s1 None rr s2 vpref false jumbo.

Definition net_drv_send_recv_check (fuel : nat) (rs : rcf_rpc_server) (s1 : Z)
    (rr : rcf_rpc_server) (s2 : Z) (vpref : option string) : M Z :=
  net_drv_send_recv_ext_check fuel rs s1 rr s2 false vpref.

Definition net_drv_conn_check (fuel : nat) (rpcs1 : rcf_rpc_server) (s1 : Z) (s1_name : string)
    (rpcs2 : rcf_rpc_server) (s2 : Z) (s2_name vpref : string) : M unit :=
  _ ← net_drv_send_recv_check fuel rpcs1 s1 rpcs2 s2
        (Some (vpref +:+ ", sending data from " +:+ s1_name +:+ " to " +:+ s2_name));
  _ ← net_drv_send_recv_check fuel rpcs2 s2 rpcs1 s1
        (Some (vpref +:+ ", sending data from " +:+ s2_name +:+ " to " +:+ s1_name));
  mret tt.

(** *** Reading every file of a directory *)

Definition FIND_FMT (path : string) : string :=
  "find '" +:+ path +:+ "' -perm /a+r ! -type d ! -type l ! -name " +:+ dquote +:+ ".*" +:+ dquote.

Definition net_drv_cat_all_files (r : rcf_rpc_server) (timeout : Z) (path : string) : M te_errno :=
  status ← call (rpc_system_ex r (FIND_FMT path +:+ " | grep . >/dev/null"));
  if negb (ws_exited status) || negb (ws_value status =? 0) then mret (TE_RC TE_TAPI TE_ENOENT)
  else
    _ ← when (negb (timeout =? 0)) (call (rpcs_set_timeout r timeout));
    status ← call (rpc_system_ex r
      (FIND_FMT path +:+ " | xargs -I {} bash -c " +:+ dquote +:+ "echo cat {}; cat {}" +:+ dquote));
    if negb (ws_exited status) || negb (ws_value status =? 0) then mret (TE_RC TE_TAPI TE_EFAIL)
    else mret 0.

(** *** PHY link parameters from the local configuration *)

Definition net_drv_get_phy_local_param (ta param : string) : M (te_errno * option string) :=
  '(rc, value) ← call (cfg_get_instance_string ("/local:" +:+ ta +:+ "/phy:/" +:+ param +:+ ":"));
  if negb (rc =? 0) then
    if negb (rc =? TE_RC TE_CS TE_ENOENT) then mret (rc, None) else mret (0, None)
  else mret (0, Some value).

Definition net_drv_ts_phy_autoneg_str2id (s : option string) : M Z :=
  match s with
  | None | Some EmptyString => mret TE_PHY_AUTONEG_UNKNOWN
  | Some str =>
      autoneg ← call (tapi_cfg_phy_autoneg_str2id str);
      if autoneg <? 0 then TEST_FAIL "Invalid PHY link autonegatiation state '%s'" [AS str]
      else mret autoneg
  end.

Definition net_drv_ts_phy_duplex_str2id (s : option string) : M Z :=
  match s with
  | None | Some EmptyString => mret TE_PHY_DUPLEX_UNKNOWN
  | Some str =>
      duplex ← call (tapi_cfg_phy_duplex_str2id str);
      if duplex <? 0 then TEST_FAIL "Invalid PHY link duplex state '%s'" [AS str]
      else mret duplex
  end.

Definition net_drv_ts_phy_speed_str2id (s : option string) : M Z :=
  match s with
  | None | Some EmptyString => mret TE_PHY_SPEED_UNKNOWN
  | Some str =>
      speed ← call (tapi_cfg_phy_speed_str2id str);
      if speed =? 0 then TEST_FAIL "Invalid PHY link speed state '%s'" [AS str]
      else mret speed
  end.

(** [if (v != unknown) CHECK_RC(rc = set(v));]: the new value of [rc]. *)
Definition phy_set_known (v unknown : Z) (set : te_call te_errno) (rc : te_errno) : M te_errno :=
  if negb (v =? unknown) then (rc ← call set; _ ← CHECK_RC (mret rc); mret rc) else mret rc.

Definition net_drv_set_phy_link (ta ifn : string) : M te_errno :=
  autoneg_str ← CHECK_OUT (net_drv_get_phy_local_param ta "autoneg");
  duplex_str ← CHECK_OUT (net_drv_get_phy_local_param ta "duplex");
  speed_str ← CHECK_OUT (net_drv_get_phy_local_param ta "speed");
  autoneg ← net_drv_ts_phy_autoneg_str2id autoneg_str;
  duplex ← net_drv_ts_phy_duplex_str2id duplex_str;
  speed ← net_drv_ts_phy_speed_str2id speed_str;
  let rc := TE_RC TE_CS TE_ENOENT in
  rc ← phy_set_known autoneg TE_PHY_AUTONEG_UNKNOWN (tapi_cfg_phy_autoneg_set ta ifn autoneg) rc;
  rc ← phy_set_known duplex TE_PHY_DUPLEX_UNKNOWN (tapi_cfg_phy_duplex_admin_set ta ifn duplex) rc;
  rc ← phy_set_known speed TE_PHY_SPEED_UNKNOWN (tapi_cfg_phy_speed_admin_set ta ifn speed) rc;
  if rc =? 0 then
    OK call (tapi_cfg_phy_commit ta ifn) ;;
    mret 0
  else mret 0.

(** *** MAC address, MTU, neighbour entries, PCI parameters, VLAN *)

Definition ETHER_ADDR_LEN : Z := 6.

Definition net_drv_set_check_mac (ta ifn : string) (mac_addr : list Z) : M te_errno :=
  OK call (tapi_cfg_set_hwaddr ta ifn mac_addr) ;;
  _ ← call CFG_WAIT_CHANGES;
  OK call (cfg_synchronize ("/agent:" +:+ ta +:+ "/interface:" +:+ ifn) true) ;;
  OUT got <- tapi_cfg_get_hwaddr ta ifn ETHER_ADDR_LEN ;;
  let '(got_addr, addr_len) := got in
  if negb (addr_len =? ETHER_ADDR_LEN) || negb (mem_eq mac_addr got_addr addr_len)
  then mret (TE_RC TE_TAPI TE_EINVAL) else mret 0.

Definition MAX_IF_WAIT_MS : Z := 160000.

Definition net_drv_wait_up_gen (ta ifn : string) (cleanup : bool) : M unit :=
  rc ← call (tapi_cfg_phy_state_wait_up ta ifn MAX_IF_WAIT_MS);
  if negb (rc =? 0) then
    if cleanup then ERROR_VERDICT "Failed to wait until interface becomes UP, rc=%r" [AI rc]
    else TEST_VERDICT "Failed to wait until interface becomes UP, rc=%r" [AI rc]
  else mret tt.

Definition net_drv_set_mtu (ta ifn : string) (mtu : Z) (where_ : string) : M unit :=
  rc ← call (tapi_cfg_base_if_set_mtu ta ifn mtu);
  if negb (rc =? 0) then TEST_VERDICT "Failed to set MTU on %s, rc=%r" [AS where_; AI rc]
  else net_drv_wait_up_gen ta ifn false.

(** The number of neighbour nodes; [None]: [*num] was not written. *)
Definition net_drv_neigh_nodes_count (ta : string) : M (te_errno * option Z) :=
  '(rc, handles) ← call (cfg_find_pattern ("/agent:" +:+ ta +:+ "/sys:/net:/ipv*:/neigh:*"));
  if rc =? TE_RC TE_CS TE_ENOENT then mret (0, Some 0)
  else if rc =? 0 then mret (rc, Some (Z.of_nat (length handles)))
  else mret (rc, None).

Definition neigh_attempts : Z := 100.
Definition neigh_sleep_time : Z := 1000.

Definition neigh_pass (ta : string) (num i : Z) (_ : unit) : M (ctl unit te_errno) :=
  rc ← call (cfg_synchronize ("/agent:" +:+ ta) true);
  if negb (rc =? 0) then mret (Return rc)
  else
    '(rc, cur_num) ← net_drv_neigh_nodes_count ta;
    if negb (rc =? 0) then mret (Return rc)
    else match cur_num with
         | None => undef "cur_num is read uninitialised"
         | Some cur_num =>
             if num <=? cur_num then mret (Return 0)
             else
               _ ← when (i <? neigh_attempts - 1) (call (te_motivated_msleep neigh_sleep_time));
               mret (Continue tt)
         end.

Definition net_drv_wait_neigh_nodes_recover (ta : string) (num : Z) : M te_errno :=
  r ← for_n (Z.to_nat neigh_attempts) 0 tt (neigh_pass ta num);
  match r with
  | inr rc => mret rc
  | inl tt => mret (TE_RC TE_TAPI TE_ENOENT)
  end.

Definition net_drv_set_pci_param_uint (pci_oid param_name : string) (cmode : pci_param_cmode)
    (value : Z) (vpref : string) : M unit :=
  rc ← call (tapi_cfg_pci_set_param_uint pci_oid param_name cmode value);
  if negb (rc =? 0) then
    TEST_VERDICT "%s: failed to set parameter %s, rc = %r" [AS vpref; AS param_name; AI rc]
  else
    _ ← CHECK_RC (call (cfg_synchronize pci_oid true));
    '(rc, new_value) ← call (tapi_cfg_pci_get_param_uint pci_oid param_name cmode);
    if negb (rc =? 0) then
      TEST_VERDICT "%s: failed to get parameter %s after setting it, rc = %r"
        [AS vpref; AS param_name; AI rc]
    else if negb (new_value =? value) then
      TEST_VERDICT "%s: parameter %s has unexpected value after setting it"
        [AS vpref; AS param_name]
    else mret tt.

(** The VLAN id used and the two addresses. *)
Definition net_drv_ts_add_vlan (ta1 ta2 if1 if2 : string) (af : Z) (vlan_id : option Z)
    : M (Z * sockaddr * sockaddr) :=
  new_vlan_id ← match vlan_id with
                | Some v => if negb (v =? 0) then mret v
                            else (v ← call (rand_range 1 4094); mret (u16 v))
                | None => v ← call (rand_range 1 4094); mret (u16 v)
                end;
  vlan_if1 ← CHECK_OUT (call (tapi_cfg_base_if_add_vlan ta1 if1 new_vlan_id));
  vlan_if2 ← CHECK_OUT (call (tapi_cfg_base_if_add_vlan ta2 if2 new_vlan_id));
  _ ← CHECK_RC (call (tapi_cfg_base_if_up ta1 vlan_if1));
  _ ← CHECK_RC (call (tapi_cfg_base_if_up ta2 vlan_if2));
  '(new_addr1, new_addr2, prefix) ← CHECK_OUT (call (tapi_cfg_alloc_af_net_addr_pair af));
  _ ← CHECK_RC (call (tapi_cfg_base_if_add_net_addr ta1 vlan_if1 new_addr1 prefix));
  _ ← CHECK_RC (call (tapi_cfg_base_if_add_net_addr ta2 vlan_if2 new_addr2 prefix));
  mret (new_vlan_id, new_addr1, new_addr2).
End net_drv_ts.

(** ** The data check *)
Module DataCheck.
(** What a monitor sees: the bytes sent, the bytes received, whether every
    [recv] asked for no more than what is left of [recv_buf], and whether
    some [recv] returned zero (end of file). *)
Record ghost := Ghost { g_sent : list Z; g_got : list Z; g_fits : bool; g_eof : bool }.

Definition upd X (c : te_call X) : X -> ghost -> ghost :=
  match c in te_call X return X -> ghost -> ghost with
  | rpc_send _ _ buf => fun _ g => Ghost (g_sent g ++ buf) (g_got g) (g_fits g) (g_eof g)
  | rpc_sendto _ _ buf _ => fun _ g => Ghost (g_sent g ++ buf) (g_got g) (g_fits g) (g_eof g)
  | rpc_recv _ _ len => fun x g =>
      Ghost (g_sent g) (g_got g ++ snd (fst x))
        (g_fits g && (Z.of_nat (length (g_got g)) + len <=? JUMBO_PKT_LEN_MAX))
        (g_eof g || (fst (fst x) =? 0))
  | _ => fun _ g => g
  end.

(** Documented behaviour: [rand_range] stays in its range, [te_fill_buf]
    fills the length asked for, and a [recv] that did not fail returns the
    number of bytes it stored, at most the size it was given. *)
Definition ok X (c : te_call X) : ghost -> X -> Prop :=
  match c in te_call X return ghost -> X -> Prop with
  | rand_range lo hi => fun _ x => lo <= x <= hi
  | te_fill_buf len => fun _ b => Z.of_nat (length b) = len
  | rpc_recv _ _ len => fun _ x =>
      0 <= fst (fst x) ->
      Z.of_nat (length (snd (fst x))) = fst (fst x) /\ fst (fst x) <= len
  | _ => fun _ _ => True
  end.

Definition world : env te_call ghost := watch_if ok upd.
Definition start : ghost := Ghost [] [] true false.

(** What the check promises when it returns [n]. *)
Definition checked (may_loss : bool) (n : Z) (g : ghost) : Prop :=
  g_fits g = true /\
  ((n = 0 /\ may_loss = true /\ g_got g = []) \/
   (g_got g = g_sent g /\ n = Z.of_nat (length (g_sent g)) /\ 1 <= n <= JUMBO_PKT_LEN_MAX)).

(** Invariant of the receive loop with [n] passes of fuel left: [recv_buf]
    is what was received, less than the packet; unless an end of file was
    met, the fuel covers the missing bytes. *)
Definition inv (fuel : nat) (sent : list Z) (len : Z) (n : nat) (st : Z * list Z) (g : ghost)
    : Prop :=
  let '(total_len, recv_buf) := st in
  (exists e, g = Ghost sent recv_buf true e /\
     (e = true \/ Z.of_nat fuel < JUMBO_PKT_LEN_MAX \/ len - total_len <= Z.of_nat n)) /\
  total_len = Z.of_nat (length recv_buf) /\ 0 <= total_len < len.

(** ... and what holds of the loop state when the loop is left. *)
Definition left_with (sent : list Z) (st : Z * list Z) (g : ghost) : Prop :=
  let '(total_len, recv_buf) := st in
  (exists e, g = Ghost sent recv_buf true e) /\ total_len = Z.of_nat (length recv_buf).
End DataCheck.

Lemma recv_stored_all rc data : Z.of_nat (length data) = rc -> recv_stored rc data = data.
Proof. intros <-. unfold recv_stored. by rewrite Nat2Z.id, resize_all. Qed.

Section data_check.
Context {TE : Te}.
Import DataCheck.

Lemma recv_pass_wp fuel n r s len vpref st g sent Q :
  len <= JUMBO_PKT_LEN_MAX ->
  inv fuel sent len (S n) st g ->
  (forall j g', Q (Exc j) g') ->
  (forall st' g', left_with sent st' g' -> Q (Val (inl st')) g') ->
  wp world (recv_pass r s len vpref st) g (lpost (R := unit) (inv fuel sent len n) Q).
Proof.
  intros Hlen HI Hexc Hleft. destruct st as [total buf].
  destruct HI as ((e & -> & He) & Ht & Hlt).
  unfold recv_pass. wp_go; [by apply Hexc|..].
  all: cbn [ok upd fst snd g_got g_sent g_fits g_eof] in *; autorewrite with zbool in *.
  all: destruct H as [Hd Hle]; [done|].
  all: assert (Hw : buf_write buf total (recv_stored z l) = buf ++ l)
    by (rewrite recv_stored_all by done; rewrite Ht; apply buf_write_end).
  all: rewrite ?Hw.
  all: replace (Z.of_nat (length buf) + (JUMBO_PKT_LEN_MAX - total) <=? JUMBO_PKT_LEN_MAX)
    with true by (symmetry; apply Z.leb_le; lia).
  all: assert (total + z = Z.of_nat (length (buf ++ l))) by (rewrite length_app; lia).
  - apply Hleft. split; [by eexists|done].
  - destruct x; wp_go; [|apply Hleft; split; [by eexists|done]].
    cbn [inv]. split; [|lia]. eexists; split; [done|].
    destruct (Z.eqb_spec z 0); destruct e; simpl; lia || (destruct He; intuition lia).
Qed.

Lemma recv_loop_wp fuel r s vpref sent len :
  Z.of_nat (length sent) = len -> 1 <= len <= JUMBO_PKT_LEN_MAX ->
  wp world (loop fuel (0, []) (recv_pass r s len vpref)) (Ghost sent [] true false)
    (fun r g => match r with
      | Val (inl st) => left_with sent st g
      | Val (inr _) | Undef _ => False
      | Exc _ => True
      | NoFuel => g_eof g = true \/ Z.of_nat fuel < JUMBO_PKT_LEN_MAX
      end).
Proof.
  intros Hs Hlen. apply (wp_loop _ _ _ _ _ _ (inv fuel sent len)).
  - split; [|simpl; lia]. eexists; split; [done|]. right. lia.
  - intros n st g HI. by eapply recv_pass_wp; [lia|done|..].
  - intros [t b] g ((e & -> & He) & Ht & Hlt). simpl. destruct He as [->|]; [by left|].
    right. lia.
Qed.

Lemma mem_eq_all (a b : list Z) :
  length a = length b -> mem_eq a b (Z.of_nat (length a)) = true -> a = b.
Proof.
  unfold mem_eq. intros Hl. rewrite bool_decide_eq_true, Nat2Z.id, firstn_all, Hl, firstn_all.
  done.
Qed.

(** C1.  The data check of [net_drv_sendto_recv_check_gen].  When it returns
    a nonzero length, the bytes the receiver got are exactly the bytes that
    were sent, and there are that many of them, between 1 and the size of
    the buffers; it returns zero only when losses are allowed and nothing
    was received.  No [recv] is given more room than is left in [recv_buf],
    and [memcmp] reads only bytes of it that were received: comparing after a
    short receive would read uninitialised memory ([Undef]).
    With fuel for one pass per byte of the buffer the receive loop ends,
    unless the peer closes the connection. *)
Theorem sendto_recv_check_correct fuel rs s1 dst rr s2 vpref may_loss jumbo :
  wp world (net_drv_sendto_recv_check_gen fuel rs s1 dst rr s2 vpref may_loss jumbo) start
    (fun r g => match r with
      | Val n => checked may_loss n g
      | Exc _ => True
      | Undef _ => False
      | NoFuel => g_eof g = true \/ Z.of_nat fuel < JUMBO_PKT_LEN_MAX
      end).
Proof.
  unfold net_drv_sendto_recv_check_gen.
  destruct jumbo, dst; wp_go; try done.
  all: cbn [ok upd g_sent g_got g_fits g_eof start] in *.
  all: try (subst; split; [done|by left]).
  all: eapply wp_mono; [apply recv_loop_wp; [done|]; unfold JUMBO_PKT_LEN_MIN,
    JUMBO_PKT_LEN_MAX, MAX_PKT_LEN in *; lia|].
  all: intros [[[total buf]|]|j|w|] g Hr; simpl in Hr; wp_go; try done.
  all: destruct Hr as ((e & ->) & Ht); autorewrite with zbool in *; subst total.
  all: unfold memcmp_written; wp_go; try done; autorewrite with zbool in *; [lia|].
  all: split; [done|]; right; simpl.
  all: assert (x0 = buf) as -> by (apply mem_eq_all; [lia|]; by rewrite H0).
  all: unfold JUMBO_PKT_LEN_MIN, JUMBO_PKT_LEN_MAX, MAX_PKT_LEN in *; intuition lia.
Qed.

(** A peer that has closed its end of a stream: always readable, and [recv]
    returns zero. *)
Definition closed_peer : handler te_call unit := fun X c s =>
  match c in te_call X return X * unit with
  | rand_range lo _ => (lo, s)
  | te_fill_buf len => (repeat 0 (Z.to_nat len), s)
  | rpc_send _ _ buf => ((Z.of_nat (length buf), 0), s)
  | rpc_readability _ _ _ => (true, s)
  | rpc_recv _ _ _ => ((0, [], 0), s)
  | c' => (default_answer c', s)
  end.

Lemma recv_loop_closed fuel r s len vpref total buf :
  total < len ->
  run closed_peer (loop fuel (total, buf) (recv_pass r s len vpref)) tt = (NoFuel, tt).
Proof.
  intros Hlt. revert buf. induction fuel as [|fuel IH]; intros buf; [done|].
  cbn [loop]. change (bind ?f ?p) with (mbind f p). rewrite run_bind.
  unfold recv_pass at 1. cbn. rewrite Z.add_0_r.
  destruct (Z.leb_spec len total); [lia|]. cbn. apply IH.
Qed.

(** C2.  The receive loop has no exit for an end of file: when the peer has
    closed the connection the check polls for ever (no amount of fuel is
    enough). *)
Theorem send_recv_check_hangs_on_close fuel rs s1 rr s2 vpref :
  run closed_peer (net_drv_send_recv_check fuel rs s1 rr s2 vpref) tt = (NoFuel, tt).
Proof.
  unfold net_drv_send_recv_check, net_drv_send_recv_ext_check, net_drv_sendto_recv_check_gen.
  do 3 run_step. change (Z.of_nat (length (repeat 0 (Z.to_nat 1)))) with 1.
  cbn -[loop mbind]. run_step. rewrite run_bind, recv_loop_closed by lia. done.
Qed.
End data_check.

(** ** Interface features *)
Module Feature.
(** One feature of one interface, and the values written to it. *)
Record feature := Feat {
  f_present : bool; f_readonly : bool; f_value : Z; f_writes : list Z }.

Definition world : handler te_call feature := fun X c st =>
  match c in te_call X return X * feature with
  | tapi_cfg_if_feature_is_present _ _ _ => ((0, f_present st), st)
  | tapi_cfg_if_feature_is_readonly _ _ _ => ((0, f_readonly st), st)
  | tapi_cfg_if_feature_get _ _ _ => ((0, f_value st), st)
  | tapi_cfg_if_feature_set _ _ _ v =>
      (0, Feat (f_present st) (f_readonly st) v (f_writes st ++ [v]))
  | c' => (default_answer c', st)
  end.

(** A write the helper may issue. *)
Definition written (req : Z) (st st' : feature) : Prop :=
  f_present st = true /\ f_readonly st = false /\ f_value st <> req /\
  st' = Feat true false req (f_writes st ++ [req]).
End Feature.

Section features.
Context {TE : Te}.
Import Feature.

(** [net_drv_set_if_feature_gen] either leaves the feature alone or
    writes the requested status once, and it writes only a feature that is
    present, writable and has another value.  It returns with the requested
    status in place, or with a status it was told to tolerate; it skips the
    test exactly when the status cannot be had and tolerance was not asked
    for, never when [fine_if_impossible] is set. *)
Theorem set_if_feature_correct ta ifn f req fine st :
  let '(r, st') := run world (net_drv_set_if_feature_gen ta ifn f req fine) st in
  (st' = st \/ written req st st') /\
  match r with
  | Val tt =>
      (f_present st' = true /\ f_value st' = req) \/
      (f_present st = false /\ (req = 0 \/ fine = true)) \/
      (f_readonly st = true /\ fine = true)
  | Exc j =>
      st' = st /\ fine = false /\ (exists m, j = SKIP m) /\
      ((f_present st = false /\ req <> 0) \/
       (f_present st = true /\ f_readonly st = true /\ f_value st <> req))
  | _ => False
  end.
Proof.
  destruct st as [present ro v ws]. unfold net_drv_set_if_feature_gen, written. cbn.
  destruct present; cbn.
  - destruct (Z.eqb_spec v req); cbn; [split; by left|].
    destruct ro, fine; cbn; split; try (by left); try (by right);
      [by right; right|..].
    + split_all; [done..|by eexists|by right].
  - destruct (Z.eqb_spec req 0), fine; cbn; split; try (by left);
      try (by right; left; split; [|tauto]).
    split_all; [done..|by eexists|by left].
Qed.
End features.

(** ** Waiting for neighbour entries *)
Module Neigh.
(** [cnt k] is the number of neighbour nodes after the [k]-th
    synchronisation; the state counts synchronisations and sleeps. *)
Definition world {TE : Te} (cnt : nat -> nat) : handler te_call (nat * nat) := fun X c st =>
  match c in te_call X return X * (nat * nat) with
  | cfg_synchronize _ _ => (0, (S (fst st), snd st))
  | cfg_find_pattern _ =>
      (match cnt (fst st) with
       | O => (TE_RC TE_CS TE_ENOENT, [])
       | n => (0, repeat 7 n)
       end, st)
  | te_motivated_msleep _ => (tt, (fst st, S (snd st)))
  | c' => (default_answer c', st)
  end.

(** The first of [n] synchronisations after [k] that sees [num] nodes. *)
Fixpoint first_ready (cnt : nat -> nat) (num : Z) (k n : nat) : option nat :=
  match n with
  | O => None
  | S n' => if num <=? Z.of_nat (cnt (S k)) then Some (S k) else first_ready cnt num (S k) n'
  end.
End Neigh.

Section neigh.
Context {TE : Te}.
Import Neigh.

Lemma neigh_count_run cnt ta st :
  run (world cnt) (net_drv_neigh_nodes_count ta) st =
  (Val (0, Some (Z.of_nat (cnt (fst st)))), st).
Proof.
  unfold net_drv_neigh_nodes_count. rewrite run_bind. cbn -[Z.of_nat repeat Z.eqb].
  destruct (cnt (fst st)) as [|n] eqn:Hn; cbn -[Z.of_nat repeat Z.eqb].
  - by rewrite Z.eqb_refl.
  - destruct (Z.eqb_spec 0 (TE_RC TE_CS TE_ENOENT)) as [H|_].
    + exfalso. revert H. apply not_eq_sym, te_rc_nonzero; te_elem.
    + cbn -[Z.of_nat repeat]. by rewrite repeat_length.
Qed.

Lemma first_ready_bounds cnt num k n m :
  first_ready cnt num k n = Some m -> (k < m <= k + n)%nat.
Proof.
  revert k; induction n as [|n IH]; intros k; cbn; [done|].
  destruct (_ <=? _); [intros [= <-]; lia|]. intros H%IH. lia.
Qed.

Lemma neigh_loop_run cnt ta num n k sleeps :
  (k + n = 100)%nat ->
  run (world cnt) (for_n n (Z.of_nat k) tt (neigh_pass ta num)) (k, sleeps) =
  match first_ready cnt num k n with
  | Some m => (Val (inr 0), (m, (sleeps + (m - S k))%nat))
  | None => (Val (inl tt), (100%nat, (sleeps + (n - 1))%nat))
  end.
Proof.
  revert k sleeps; induction n as [|n IH]; intros k sleeps Hk.
  { cbn. by replace (sleeps + 0)%nat with sleeps by lia; replace k with 100%nat by lia. }
  cbn [for_n first_ready]. change (bind ?f ?p) with (mbind f p). rewrite run_bind.
  unfold neigh_pass at 1. run_step. rewrite run_bind, neigh_count_run. cbn -[mbind Z.of_nat].
  destruct (Z.leb_spec num (Z.of_nat (cnt (S k)))); cbn -[mbind Z.of_nat for_n].
  { by rewrite Nat.sub_diag, Nat.add_0_r. }
  rewrite run_bind. unfold neigh_attempts, when.
  destruct (Z.ltb_spec (Z.of_nat k) (100 - 1)) as [Hlt|Hge]; cbn -[for_n Z.of_nat];
    replace (Z.of_nat k + 1) with (Z.of_nat (S k)) by lia; rewrite IH by lia.
  - destruct (first_ready cnt num (S k) n) as [m|] eqn:Hf.
    + apply first_ready_bounds in Hf.
      by replace (S sleeps + (m - S (S k)))%nat with (sleeps + (m - S k))%nat by lia.
    + by replace (S sleeps + (n - 1))%nat with (sleeps + (S n - 1))%nat by lia.
  - assert (n = 0)%nat as -> by lia. cbn. by rewrite Nat.add_0_r.
Qed.

(** C4.  [net_drv_wait_neigh_nodes_recover] makes at most 100 attempts and
    stops at the first synchronisation that shows enough neighbour nodes;
    it sleeps between attempts and not after the last one; with no such
    attempt it reports [TE_ENOENT] after exactly 100 synchronisations. *)
Theorem wait_neigh_nodes_correct cnt ta num :
  run (world cnt) (net_drv_wait_neigh_nodes_recover ta num) (O, O) =
  match first_ready cnt num 0 100 with
  | Some k => (Val 0, (k, (k - 1)%nat))
  | None => (Val (TE_RC TE_TAPI TE_ENOENT), (100%nat, 99%nat))
  end.
Proof.
  unfold net_drv_wait_neigh_nodes_recover. rewrite run_bind.
  change (Z.to_nat neigh_attempts) with 100%nat.
  pose proof (neigh_loop_run cnt ta num 100 0 0 eq_refl) as H.
  change (Z.of_nat 0) with 0 in H. rewrite H.
  destruct (first_ready cnt num 0 100); done.
Qed.
End neigh.

(** ** MAC address, module state and PHY parameters *)
Module Settings.
(** What a monitor remembers: the last MAC address read back, the last
    [loaded] state read, the PHY parameters set, and the commits. *)
Record ghost := Ghost {
  g_mac : option (list Z * Z); g_loaded : option Z;
  g_sets : list Z; g_commits : list Z; g_late : bool }.

(** A successful set of a PHY parameter; [g_late] after a commit. *)
Definition note_set (rc v : Z) (g : ghost) : ghost :=
  if rc =? 0
  then Ghost (g_mac g) (g_loaded g) (g_sets g ++ [v]) (g_commits g)
         (g_late g || negb (bool_decide (g_commits g = [])))
  else g.

Definition upd X (c : te_call X) : X -> ghost -> ghost :=
  match c in te_call X return X -> ghost -> ghost with
  | tapi_cfg_get_hwaddr _ _ _ => fun x g =>
      Ghost (if fst x =? 0 then Some (snd x) else None) (g_loaded g) (g_sets g)
        (g_commits g) (g_late g)
  | cfg_get_instance_int _ => fun x g =>
      Ghost (g_mac g) (if fst x =? 0 then Some (snd x) else None) (g_sets g)
        (g_commits g) (g_late g)
  | tapi_cfg_phy_autoneg_set _ _ v => fun rc g => note_set rc v g
  | tapi_cfg_phy_speed_admin_set _ _ v => fun rc g => note_set rc v g
  | tapi_cfg_phy_duplex_admin_set _ _ v => fun rc g => note_set rc v g
  | tapi_cfg_phy_commit _ _ => fun rc g =>
      Ghost (g_mac g) (g_loaded g) (g_sets g) (g_commits g ++ [rc]) (g_late g)
  | _ => fun _ g => g
  end.

Definition world : env te_call ghost := watch upd.
Definition start : ghost := Ghost None None [] [] false.
End Settings.

Section settings.
Context {TE : Te}.
Import Settings.

(** [net_drv_set_check_mac] returns zero only when the address read
    back from the interface has six bytes, all equal to those that were
    set. *)
Theorem set_check_mac_verified ta ifn mac g :
  wp world (net_drv_set_check_mac ta ifn mac) g
    (fun r g' => match r with
      | Val rc => rc = 0 -> exists got,
          g_mac g' = Some (got, 6) /\ take 6 got = take 6 mac
      | _ => False
      end).
Proof.
  unfold net_drv_set_check_mac. wp_go; autorewrite with zbool in *; try done.
  - intros H. exfalso. revert H. apply te_rc_nonzero; te_elem.
  - intros _. destruct Heqb2 as [-> Hm]. unfold mem_eq in Hm.
    rewrite bool_decide_eq_true in Hm. subst. exists l. by split.
Qed.

(** [net_drv_driver_set_loaded] returns zero only when the module state
    read back last is the requested one. *)
Theorem driver_set_loaded_verified ta module load g :
  wp world (net_drv_driver_set_loaded ta module load) g
    (fun r g' => match r with
      | Val rc => rc = 0 -> exists v, g_loaded g' = Some v /\ load = negb (v =? 0)
      | _ => False
      end).
Proof.
  unfold net_drv_driver_set_loaded, driver_check_loaded.
  destruct load; wp_go; autorewrite with zbool in *; try done.
  all: intros Hrc; try (exfalso; revert Hrc; apply te_code_nonzero; te_elem).
  all: try congruence.
  all: subst; eexists; split; [reflexivity|]; first [done | by apply eqb_prop in Heqb1].
Qed.

(** The steps of [net_drv_set_phy_link] that only read. *)
Lemma phy_local_param_wp ta param g Q :
  (forall rc v, Q (Val (rc, v)) g) -> wp world (net_drv_get_phy_local_param ta param) g Q.
Proof. intros H. unfold net_drv_get_phy_local_param. wp_go; apply H. Qed.

Lemma str2id_wp f (s : option string) g Q :
  f = net_drv_ts_phy_autoneg_str2id \/ f = net_drv_ts_phy_duplex_str2id \/
  f = net_drv_ts_phy_speed_str2id ->
  (forall v, Q (Val v) g) -> (forall j, Q (Exc j) g) -> wp world (f s) g Q.
Proof.
  intros [->|[->| ->]] HV HE; destruct s as [[|c s]|];
    unfold net_drv_ts_phy_autoneg_str2id, net_drv_ts_phy_duplex_str2id,
      net_drv_ts_phy_speed_str2id; wp_go; first [apply HV|apply HE].
Qed.

(** What has happened before the commit: [rc] is zero once a parameter was
    set, and nothing was committed. *)
Definition pending (rc : te_errno) (g : ghost) : Prop :=
  g_commits g = [] /\ g_late g = false /\ (rc = 0 <-> g_sets g <> []).

Lemma phy_set_known_wp v unknown c rc g Q :
  (forall rc g, upd _ c rc g = note_set rc v g) ->
  pending rc g ->
  (forall rc' g', pending rc' g' -> Q (Val rc') g') ->
  (forall j g', g_commits g' = [] -> Q (Exc j) g') ->
  wp world (phy_set_known v unknown c rc) g Q.
Proof.
  intros Hc (Hcm & Hl & Hrc) HV HE. unfold phy_set_known.
  wp_go; autorewrite with zbool in *; rewrite ?Hc; unfold note_set.
  - rewrite (proj2 (Z.eqb_eq x 0)) by done. apply HV. unfold pending; cbn. rewrite Hcm, Hl.
    split; [done|]. split; [done|]. split; [|done]. intros _ H. by apply app_eq_nil in H as [_ [=]].
  - rewrite (proj2 (Z.eqb_neq x 0)) by done. by apply HE.
  - by apply HV.
Qed.

(** [net_drv_set_phy_link] commits exactly when it has set at least one
    PHY parameter, once and after every set, and returns the status of the
    commit; with nothing to set it returns zero and commits nothing; a test
    that is left half way has committed nothing. *)
Theorem set_phy_link_commits ta ifn :
  wp world (net_drv_set_phy_link ta ifn) start
    (fun r g => match r with
      | Val rc =>
          g_late g = false /\
          ((g_sets g = [] /\ g_commits g = [] /\ rc = 0) \/
           (g_sets g <> [] /\ g_commits g = [rc]))
      | Exc _ => g_commits g = []
      | _ => False
      end).
Proof.
  unfold net_drv_set_phy_link. wp_go.
  do 3 (apply phy_local_param_wp; intros ? ?; wp_go; [|done]).
  do 3 (apply str2id_wp; [tauto| |done]; intros ?; wp_go).
  assert (pending (TE_RC TE_CS TE_ENOENT) start) as Hp.
  { split; [done|]. split; [done|]. split; [|done].
    intros H. exfalso. revert H. apply te_rc_nonzero; te_elem. }
  do 3 (eapply phy_set_known_wp; [done|eassumption| |done]; clear Hp; intros ? ? Hp; wp_go).
  all: destruct Hp as (Hc & Hl & Hrc); autorewrite with zbool in *; cbn; rewrite ?Hc.
  - split; [done|]. right. split; [by apply Hrc|by subst].
  - split; [done|]. right. split; [by apply Hrc|done].
  - split; [done|]. left. destruct (g_sets g'1) eqn:Hs; [done|].
    exfalso. by apply Heqb2, Hrc.
Qed.
End settings.

(** ** The data check in any environment *)
Section data_frame.
Context {TE : Te}.

(** The calls the data check makes. *)
Definition is_data_call X (c : te_call X) : bool :=
  match c with
  | rand_range _ _ | te_fill_buf _ | rpc_sendto _ _ _ _ | rpc_send _ _ _ | rpc_readability _ _ _
  | rpc_recv _ _ _ => true
  | _ => false
  end.

(** It leaves with verdicts that name the check. *)
Definition data_jump (j : jump) : bool :=
  match j with VERDICT m => String.prefix "%s: " (msg_fmt m) | _ => false end.

Lemma recv_pass_only r s len vpref st : only is_data_call data_jump (recv_pass r s len vpref st).
Proof.
  destruct st as [total buf]. unfold recv_pass. apply only_bind; [done|].
  intros [[rc data] err]. destruct (rc <? 0); [done|]. destruct (_ <=? _); [done|].
  apply only_bind; [done|]. intros b. by destruct b.
Qed.

(** Whatever is answered, what the loop leaves in [recv_buf] is [total_len]
    bytes, ... *)
Definition buf_held (r : result (Z * list Z + unit)) : Prop :=
  match r with Val (inl (total, buf)) => Z.of_nat (length buf) = total | _ => True end.

Lemma recv_loop_held {S} (E : env te_call S) fuel r s len vpref g Q :
  wp E (loop fuel (0, []) (recv_pass r s len vpref)) g Q ->
  wp E (loop fuel (0, []) (recv_pass r s len vpref)) g (fun r g' => Q r g' /\ buf_held r).
Proof.
  intros HQ. apply wp_and; [done|].
  apply (wp_loop _ _ _ _ _ _ (fun _ st (_ : S) => Z.of_nat (length (snd st)) = fst st)); [done| |done].
  intros n [total buf] g' Hl. cbn in Hl. subst total. unfold recv_pass. wp_go; [done|..].
  all: rewrite buf_write_end; unfold recv_stored.
  2: destruct x; wp_go.
  all: cbn; rewrite length_app, length_resize; autorewrite with zbool in *; lia.
Qed.

(** ... so that [memcmp] reads no more than that. *)
Lemma memcmp_written_wp {S} (E : env te_call S) a b n g Q :
  n <= Z.of_nat (length b) -> (forall x, Q (Val x) g) -> wp E (memcmp_written a b n) g Q.
Proof. intros Hn HQ. unfold memcmp_written. destruct (Z.ltb_spec (Z.of_nat (length b)) n); [lia|]. by apply wp_ret. Qed.

(** ... and it makes no others, and is free of undefined behaviour. *)
Lemma data_check_only fuel rs s1 dst rr s2 vpref may_loss jumbo :
  only is_data_call data_jump (net_drv_sendto_recv_check_gen fuel rs s1 dst rr s2 vpref may_loss jumbo).
Proof.
  unfold net_drv_sendto_recv_check_gen. apply only_bind; [by destruct jumbo|]. intros len.
  apply only_bind; [done|]. intros buf. apply only_bind; [by destruct dst|].
  intros [rc err]. destruct (rc <? 0); [done|]. destruct (negb _); [done|].
  apply only_bind; [done|]. intros b. destruct (negb b); [by destruct may_loss|].
  apply (only_bind_val _ _ (watch (fun _ _ _ s => s)) tt _ _ (fun st => buf_held (Val st))); [by eexists| | |].
  { apply only_loop. intros. apply recv_pass_only. }
  { eapply wp_mono; [apply recv_loop_held, wp_true|]. intros [st|j|w|] s' [_ H]; done. }
  intros [[total rbuf]|[]] Hl; [|done]. destruct (negb (total =? len)) eqn:Hn; [done|].
  cbn in Hl. apply negb_false_iff, Z.eqb_eq in Hn. unfold memcmp_written. rewrite Hl, Hn, Z.ltb_irrefl.
  cbn. by destruct (negb _).
Qed.
End data_frame.
