(* ===== verification/Phy.v ===== *)
(** lib/net_drv_phy.c: saving, changing and restoring the PHY configuration of
    an interface. *)
From stdpp Require Import pretty.
From Stdlib Require Import Ascii.
From S2P Require Import Prelude Prog Te CString.

(** ** Data (net_drv_phy.h) *)

Record net_drv_phy_mode_info := ModeInfo {
  mi_name : string; mi_advertised : bool; mi_speed : Z; mi_duplex : Z }.

Record net_drv_phy_saved_state := PhyState {
  ps_autoneg : Z; ps_speed_admin : Z; ps_duplex_admin : Z;
  ps_modes : list net_drv_phy_mode_info; ps_saved : bool }.

(** The state after the [memset] that clears it. *)
Definition phy_state_zero : net_drv_phy_saved_state := PhyState 0 0 0 [] false.

(** Frees the mode names and clears the state. *)
Definition net_drv_phy_state_free (_ : net_drv_phy_saved_state) : net_drv_phy_saved_state :=
  phy_state_zero.

Section phy.
Context {TE : Te}.

Definition phy_oid (ta ifn : string) : string :=
  "/agent:" +:+ ta +:+ "/interface:" +:+ ifn +:+ "/phy:".

Definition net_drv_phy_sync_tree (ta ifn : string) : M te_errno :=
  call (cfg_synchronize (phy_oid ta ifn) true).

Definition net_drv_phy_lp_tree_is_exposed (where_ ta ifn : string) : M bool :=
  _ ← CHECK_RC (net_drv_phy_sync_tree ta ifn);
  '(rc, handles) ← call (cfg_find_pattern (phy_oid ta ifn +:+ "/lp_advertised:*"));
  if rc =? TE_RC TE_CS TE_ENOENT then mret false
  else
    _ ← CHECK_RC (mret rc);
    if Nat.eqb (length handles) 0 then mret false else mret true.

(** The speed and duplex in the name of a link mode; [None]: the name is not
    one of a link mode. *)
Definition net_drv_phy_parse_speed_duplex_mode (mode_name : string) : option (Z * Z) :=
  match strtoul10 mode_name with
  | None => None
  | Some (parsed_speed, endptr) =>
      if (INT_MAX <? parsed_speed) || negb (has_prefix "base" endptr) then None
      else
        match strrchr mode_name "_"%char with
        | None => None
        | Some duplex_suffix =>
            if String.eqb duplex_suffix "_Full" then Some (parsed_speed, TE_PHY_DUPLEX_FULL)
            else if String.eqb duplex_suffix "_Half" then Some (parsed_speed, TE_PHY_DUPLEX_HALF)
            else if String.eqb mode_name "10000baseR_FEC"
                 then Some (parsed_speed, TE_PHY_DUPLEX_FULL)
            else None
        end
  end.

(** One pass of the loop of [net_drv_phy_state_save]: [rc] and the modes
    filled so far. *)
Definition save_mode (ta ifn : string) (h : cfg_handle)
    (st : te_errno * list net_drv_phy_mode_info)
    : M (ctl (te_errno * list net_drv_phy_mode_info) unit) :=
  '(rc, name) ← call (cfg_get_inst_name h);
  if negb (rc =? 0) then mret (Break (rc, snd st))
  else
    '(rc, adv) ← call (tapi_cfg_phy_mode_adv_get ta ifn name);
    if negb (rc =? 0) then mret (Break (rc, snd st))
    else
      let '(speed, duplex) :=
        match net_drv_phy_parse_speed_duplex_mode name with
        | Some sd => sd
        | None => (TE_PHY_SPEED_UNKNOWN, TE_PHY_DUPLEX_UNKNOWN)
        end in
      mret (Continue (rc, snd st ++ [ModeInfo name adv speed duplex])).

Definition net_drv_phy_state_save (ta ifn : string) : M (te_errno * net_drv_phy_saved_state) :=
  let st := phy_state_zero in
  '(rc, autoneg) ← call (tapi_cfg_phy_autoneg_get ta ifn);
  if negb (rc =? 0) then mret (rc, st) else
  let st := PhyState autoneg 0 0 [] false in
  '(rc, speed) ← call (tapi_cfg_phy_speed_admin_get ta ifn);
  if negb (rc =? 0) then mret (rc, st) else
  let st := PhyState autoneg speed 0 [] false in
  '(rc, duplex) ← call (tapi_cfg_phy_duplex_admin_get ta ifn);
  if negb (rc =? 0) then mret (rc, st) else
  let st := PhyState autoneg speed duplex [] false in
  '(rc, handles) ← call (cfg_find_pattern (phy_oid ta ifn +:+ "/mode:*"));
  if negb (rc =? 0) then mret (rc, st) else
  r ← foreach handles (rc, []) (save_mode ta ifn);
  match r with
  | inr tt => mret (0, st) (* the body does not return *)
  | inl (rc, modes) =>
      if negb (rc =? 0) then mret (rc, net_drv_phy_state_free st)
      else mret (0, PhyState autoneg speed duplex modes true)
  end.

Definition net_drv_phy_is_link_mode (mode : net_drv_phy_mode_info) : bool :=
  negb (mi_speed mode =? TE_PHY_SPEED_UNKNOWN) && negb (mi_duplex mode =? TE_PHY_DUPLEX_UNKNOWN).

Fixpoint find_mode (modes : list net_drv_phy_mode_info) (name : string)
    : option net_drv_phy_mode_info :=
  match modes with
  | [] => None
  | m :: modes' => if String.eqb (mi_name m) name then Some m else find_mode modes' name
  end.

Definition net_drv_phy_state_find_mode_by_name (st : net_drv_phy_saved_state) (name : string)
    : option net_drv_phy_mode_info := find_mode (ps_modes st) name.

(** The loop that looks for a link mode whose advertising differs from
    [want]; the state is [have_changes]. *)
Definition mode_differs (ta ifn : string) (want : net_drv_phy_mode_info -> bool)
    (m : net_drv_phy_mode_info) (have_changes : bool) : M (ctl bool te_errno) :=
  if negb (net_drv_phy_is_link_mode m) then mret (Continue have_changes)
  else
    '(rc, current) ← call (tapi_cfg_phy_mode_adv_get ta ifn (mi_name m));
    if negb (rc =? 0) then mret (Return rc)
    else if negb (eqb current (want m)) then mret (Break true)
    else mret (Continue have_changes).

(** The loop that sets the advertising of every link mode. *)
Definition mode_set (ta ifn : string) (want : net_drv_phy_mode_info -> bool)
    (m : net_drv_phy_mode_info) (_ : unit) : M (ctl unit te_errno) :=
  if negb (net_drv_phy_is_link_mode m) then mret (Continue tt)
  else
    rc ← call (tapi_cfg_phy_mode_adv_set ta ifn (mi_name m) (want m));
    if negb (rc =? 0) then mret (Return rc) else mret (Continue tt).

Definition net_drv_phy_state_restore (ta ifn : string) (st : net_drv_phy_saved_state)
    : M te_errno :=
  OK net_drv_phy_sync_tree ta ifn ;;
  OUT current_autoneg <- tapi_cfg_phy_autoneg_get ta ifn ;;
  r ← (if ps_autoneg st =? TE_PHY_AUTONEG_OFF then
         '(rc, current_speed) ← call (tapi_cfg_phy_speed_admin_get ta ifn);
         if negb (rc =? 0) then mret (inr rc) else
         '(rc, current_duplex) ← call (tapi_cfg_phy_duplex_admin_get ta ifn);
         if negb (rc =? 0) then mret (inr rc) else
         mret (inl (negb (current_speed =? ps_speed_admin st) ||
                    negb (current_duplex =? ps_duplex_admin st)))
       else mret (inl false));
  match r with
  | inr rc => mret rc
  | inl have_changes =>
      let have_changes := have_changes || negb (current_autoneg =? ps_autoneg st) in
      r ← foreach (ps_modes st) have_changes (mode_differs ta ifn mi_advertised);
      match r with
      | inr rc => mret rc
      | inl have_changes =>
          if negb have_changes then mret 0
          else
            OK call (tapi_cfg_phy_autoneg_set ta ifn (ps_autoneg st)) ;;
            rc ← (if ps_autoneg st =? TE_PHY_AUTONEG_OFF then
                    OK call (tapi_cfg_phy_speed_admin_set ta ifn (ps_speed_admin st)) ;;
                    call (tapi_cfg_phy_duplex_admin_set ta ifn (ps_duplex_admin st))
                  else mret 0);
            if negb (rc =? 0) then mret rc
            else
              r ← foreach (ps_modes st) tt (mode_set ta ifn mi_advertised);
              match r with
              | inr rc => mret rc
              | inl tt => call (tapi_cfg_phy_commit ta ifn)
              end
      end
  end.

Definition net_drv_phy_state_save_or_skip (who ta ifn : string) : M net_drv_phy_saved_state :=
  '(rc, st) ← net_drv_phy_state_save ta ifn;
  if rc =? 0 then mret st
  else if (TE_RC_GET_ERROR rc =? TE_ENOENT) || (TE_RC_GET_ERROR rc =? TE_EOPNOTSUPP) then
    TEST_SKIP "PHY link settings are not exposed on %s" [AS who]
  else TEST_VERDICT "Failed to save %s PHY state, rc=%r" [AS who; AI rc].

Definition should_advertise (mode1_name : string) (mode2_name : option string)
    (m : net_drv_phy_mode_info) : bool :=
  String.eqb (mi_name m) mode1_name ||
  match mode2_name with Some m2 => String.eqb (mi_name m) m2 | None => false end.

Definition net_drv_phy_apply_autoneg_modes (ta ifn : string) (st : net_drv_phy_saved_state)
    (mode1_name : string) (mode2_name : option string) : M te_errno :=
  let want := should_advertise mode1_name mode2_name in
  OUT current_autoneg <- tapi_cfg_phy_autoneg_get ta ifn ;;
  r ← foreach (ps_modes st) (negb (current_autoneg =? TE_PHY_AUTONEG_ON))
        (mode_differs ta ifn want);
  match r with
  | inr rc => mret rc
  | inl have_changes =>
      if negb have_changes then mret 0
      else
        r ← foreach (ps_modes st) tt (mode_set ta ifn want);
        match r with
        | inr rc => mret rc
        | inl tt =>
            OK call (tapi_cfg_phy_autoneg_set ta ifn TE_PHY_AUTONEG_ON) ;;
            call (tapi_cfg_phy_commit ta ifn)
        end
  end.

(** [if (current != wanted) { rc = set(); if (rc != 0) return rc; changes }]:
    the status and whether a change was made. *)
Definition set_if_differs (current wanted : Z) (set : te_call te_errno) : M (te_errno * bool) :=
  if negb (current =? wanted) then (rc ← call set; mret (rc, true)) else mret (0, false).

Definition net_drv_phy_apply_fixed_mode (ta ifn : string) (speed duplex : Z) : M te_errno :=
  OUT current_autoneg <- tapi_cfg_phy_autoneg_get ta ifn ;;
  OUT current_speed <- tapi_cfg_phy_speed_admin_get ta ifn ;;
  OUT current_duplex <- tapi_cfg_phy_duplex_admin_get ta ifn ;;
  '(rc, c1) ← set_if_differs current_autoneg TE_PHY_AUTONEG_OFF
                (tapi_cfg_phy_autoneg_set ta ifn TE_PHY_AUTONEG_OFF);
  if negb (rc =? 0) then mret rc else
  '(rc, c2) ← set_if_differs current_speed speed (tapi_cfg_phy_speed_admin_set ta ifn speed);
  if negb (rc =? 0) then mret rc else
  '(rc, c3) ← set_if_differs current_duplex duplex
                (tapi_cfg_phy_duplex_admin_set ta ifn duplex);
  if negb (rc =? 0) then mret rc else
  if negb (c1 || c2 || c3) then mret 0 else call (tapi_cfg_phy_commit ta ifn).

(** *** Checks *)

Definition net_drv_phy_check_autoneg_state (where_ ta ifn : string) (expected : Z) : M unit :=
  autoneg ← CHECK_OUT (call (tapi_cfg_phy_autoneg_get ta ifn));
  if negb (autoneg =? expected) then
    ERROR_VERDICT "%s: unexpected autoneg state %s instead of %s"
      [AS where_; AI autoneg; AI expected]
  else mret tt.

Definition net_drv_phy_check_lp_autoneg_state (where_ ta ifn : string) (expected : Z) : M unit :=
  exposed ← net_drv_phy_lp_tree_is_exposed where_ ta ifn;
  if negb exposed then mret tt
  else
    _ ← CHECK_RC (net_drv_phy_sync_tree ta ifn);
    lp_autoneg ← CHECK_OUT (call (tapi_cfg_phy_autoneg_lp_adv_get ta ifn));
    if negb (lp_autoneg =? expected) then
      ERROR_VERDICT "%s: unexpected link partner autoneg state %s instead of %s"
        [AS where_; AI lp_autoneg; AI expected]
    else mret tt.

Definition net_drv_phy_check_oper_mode (where_ ta ifn : string)
    (expected_speed expected_duplex : Z) : M unit :=
  '(speed, duplex) ← CHECK_OUT (call (tapi_cfg_phy_mode_oper_get ta ifn));
  if negb (speed =? expected_speed) || negb (duplex =? expected_duplex) then
    ERROR_VERDICT "%s: unexpected operational mode %d/%s instead of %d/%s"
      [AS where_; AI speed; AI duplex; AI expected_speed; AI expected_duplex]
  else mret tt.

Definition net_drv_phy_check_local_mode_advertised (where_ ta ifn mode_name : string)
    (expected : bool) : M unit :=
  advertised ← CHECK_OUT (call (tapi_cfg_phy_mode_adv_get ta ifn mode_name));
  if negb (eqb advertised expected) then
    ERROR_VERDICT "%s: exact mode %s is%s advertised"
      [AS where_; AS mode_name; AS (if advertised : bool then "" else " not")]
  else mret tt.

Definition net_drv_phy_check_partner_mode_advertised (where_ ta ifn mode_name : string)
    (expected : bool) : M unit :=
  exposed ← net_drv_phy_lp_tree_is_exposed where_ ta ifn;
  if negb exposed then mret tt
  else
    _ ← CHECK_RC (net_drv_phy_sync_tree ta ifn);
    advertised ← CHECK_OUT (call (tapi_cfg_phy_lp_advertised ta ifn mode_name));
    if negb (eqb advertised expected) then
      ERROR_VERDICT "%s: link partner %s requested mode"
        [AS where_; AS (if advertised : bool then "advertises" else "does not advertise")]
    else mret tt.
End phy.

(** ** A PHY configuration tree *)
Module PhyTree.
(** The PHY settings of an interface: the exact modes with their
    advertised state. *)
Record phycfg := PhyCfg {
  pc_autoneg : Z; pc_speed : Z; pc_duplex : Z; pc_modes : list (string * bool) }.

#[global] Instance phycfg_eq_dec : EqDecision phycfg.
Proof. solve_decision. Defined.

(** The tree: the settings in effect, the local command sequence and
    whether one is open, and the number of commits. *)
Record tree := Tree { t_cur : phycfg; t_loc : phycfg; t_busy : bool; t_commits : nat }.

Fixpoint adv_of (l : list (string * bool)) (n : string) : option bool :=
  match l with
  | [] => None
  | (n', b) :: l' => if String.eqb n' n then Some b else adv_of l' n
  end.

Definition set_adv (l : list (string * bool)) (n : string) (v : bool) : list (string * bool) :=
  map (fun nb => if String.eqb nb.1 n then (nb.1, v) else nb) l.

Definition with_autoneg v c := PhyCfg v (pc_speed c) (pc_duplex c) (pc_modes c).
Definition with_speed v c := PhyCfg (pc_autoneg c) v (pc_duplex c) (pc_modes c).
Definition with_duplex v c := PhyCfg (pc_autoneg c) (pc_speed c) v (pc_modes c).
Definition with_adv n v c :=
  PhyCfg (pc_autoneg c) (pc_speed c) (pc_duplex c) (set_adv (pc_modes c) n v).

(** What a commit would put into effect. *)
Definition eff (t : tree) : phycfg := if t_busy t then t_loc t else t_cur t.

(** A local set opens the command sequence if none is open. *)
Definition local_set (f : phycfg -> phycfg) (t : tree) : tree :=
  Tree (t_cur t) (f (eff t)) true (t_commits t).

Definition commit (t : tree) : tree := Tree (eff t) (eff t) false (S (t_commits t)).

(** A regular get fails while a command sequence is open. *)
Definition EACCES : Z := 13.
Definition get {A} (v dflt : A) (t : tree) : (te_errno * A) * tree :=
  (if t_busy t then (EACCES, dflt) else (0, v), t).

Definition world : handler te_call tree := fun X c t =>
  match c in te_call X return X * tree with
  | tapi_cfg_phy_autoneg_get _ _ => get (pc_autoneg (t_cur t)) 0 t
  | tapi_cfg_phy_speed_admin_get _ _ => get (pc_speed (t_cur t)) 0 t
  | tapi_cfg_phy_duplex_admin_get _ _ => get (pc_duplex (t_cur t)) 0 t
  | tapi_cfg_phy_mode_adv_get _ _ n =>
      match adv_of (pc_modes (t_cur t)) n with
      | Some b => get b false t
      | None => ((EACCES, false), t)
      end
  | tapi_cfg_phy_autoneg_set _ _ v => (0, local_set (with_autoneg v) t)
  | tapi_cfg_phy_speed_admin_set _ _ v => (0, local_set (with_speed v) t)
  | tapi_cfg_phy_duplex_admin_set _ _ v => (0, local_set (with_duplex v) t)
  | tapi_cfg_phy_mode_adv_set _ _ n v => (0, local_set (with_adv n v) t)
  | tapi_cfg_phy_commit _ _ => (0, commit t)
  | cfg_find_pattern _ =>
      ((0, Z.of_nat <$> seq 0 (length (pc_modes (t_cur t)))), t)
  | cfg_get_inst_name h =>
      (match pc_modes (t_cur t) !! Z.to_nat h with
       | Some nb => (0, nb.1)
       | None => (EACCES, ""%string)
       end, t)
  | c' => (default_answer c', t)
  end.

Definition names (c : phycfg) : list string := (pc_modes c).*1.
Definition idle (t : tree) : Prop := t_busy t = false.
End PhyTree.

Section phy_tree.
Context {TE : Te}.
Import PhyTree.

(** What the save loop records for a mode. *)
Definition mode_of (nb : string * bool) : net_drv_phy_mode_info :=
  let '(speed, duplex) := match net_drv_phy_parse_speed_duplex_mode nb.1 with
                          | Some sd => sd
                          | None => (TE_PHY_SPEED_UNKNOWN, TE_PHY_DUPLEX_UNKNOWN)
                          end in
  ModeInfo nb.1 nb.2 speed duplex.

Definition link_name (n : string) : bool := net_drv_phy_is_link_mode (mode_of (n, false)).

Lemma link_mode_of nb : net_drv_phy_is_link_mode (mode_of nb) = link_name nb.1.
Proof.
  destruct nb as [n b]. unfold link_name, mode_of, net_drv_phy_is_link_mode. simpl.
  by destruct (net_drv_phy_parse_speed_duplex_mode n) as [[s d]|].
Qed.

Lemma mode_of_name nb : mi_name (mode_of nb) = nb.1.
Proof. unfold mode_of. by destruct (net_drv_phy_parse_speed_duplex_mode nb.1) as [[]|]. Qed.
Lemma mode_of_adv nb : mi_advertised (mode_of nb) = nb.2.
Proof. unfold mode_of. by destruct (net_drv_phy_parse_speed_duplex_mode nb.1) as [[]|]. Qed.

Lemma adv_of_elem l n b : NoDup l.*1 -> (n, b) ∈ l -> adv_of l n = Some b.
Proof.
  induction l as [|[n' b'] l IH]; simpl; [by intros _ ?%elem_of_nil|].
  intros [Hn Hd]%list.NoDup_cons [[= <- <-]|Hin]%elem_of_cons; [by rewrite String.eqb_refl|].
  destruct (String.eqb_spec n' n) as [->|]; [|by apply IH].
  exfalso. apply Hn. by apply (list_elem_of_fmap_2 fst) in Hin.
Qed.

Lemma adv_of_set l n v n' :
  adv_of (set_adv l n v) n' =
  if String.eqb n n' then (fun _ => v) <$> adv_of l n' else adv_of l n'.
Proof.
  induction l as [|[m b] l IH]; simpl; [by destruct (String.eqb n n')|].
  destruct (String.eqb_spec m n) as [->|Hmn]; simpl.
  - rewrite IH. by destruct (String.eqb_spec n n').
  - rewrite IH. destruct (String.eqb_spec m n') as [->|]; [|done].
    by destruct (String.eqb_spec n n').
Qed.

Lemma adv_of_is_Some l n : n ∈ l.*1 -> is_Some (adv_of l n).
Proof.
  induction l as [|[m b] l IH]; simpl; [by intros ?%elem_of_nil|].
  destruct (String.eqb_spec m n) as [->|]; [by eexists|].
  intros [->|H]%elem_of_cons; [done|by apply IH].
Qed.

Lemma adv_of_None l n : adv_of l n = None <-> n ∉ l.*1.
Proof.
  split.
  - intros H Hin. apply adv_of_is_Some in Hin as [b Hb]. congruence.
  - induction l as [|[m b] l IH]; simpl; [done|]. intros Hn.
    rewrite elem_of_cons in Hn. destruct (String.eqb_spec m n) as [->|]; [tauto|].
    apply IH. tauto.
Qed.

Lemma save_loop_run ta ifn t pre post :
  idle t -> NoDup (names (t_cur t)) -> pc_modes (t_cur t) = pre ++ post ->
  run world (foreach (Z.of_nat <$> seq (length pre) (length post)) (0, mode_of <$> pre)
               (save_mode ta ifn)) t =
  (Val (inl (0, mode_of <$> (pre ++ post))), t).
Proof.
  intros Hidle Hnd. revert pre. induction post as [|[n b] post IH]; intros pre Hm.
  { simpl. by rewrite app_nil_r. }
  simpl. change (bind ?f ?p) with (mbind f p). rewrite run_bind.
  rewrite Hm, Nat2Z.id, list_lookup_middle by done. cbn -[mbind lookup].
  rewrite (adv_of_elem _ n b Hnd) by (rewrite Hm; set_solver). unfold get. rewrite Hidle.
  cbn -[mbind foreach].
  specialize (IH (pre ++ [(n, b)])). rewrite length_app, Nat.add_1_r, <- app_assoc in IH.
  specialize (IH Hm). rewrite fmap_app in IH. unfold mode_of at 2 in IH. cbn in IH.
  destruct (net_drv_phy_parse_speed_duplex_mode n) as [[sp d]|]; exact IH.
Qed.

Lemma state_save_run ta ifn t :
  idle t -> NoDup (names (t_cur t)) ->
  run world (net_drv_phy_state_save ta ifn) t =
  (Val (0, PhyState (pc_autoneg (t_cur t)) (pc_speed (t_cur t)) (pc_duplex (t_cur t))
             (mode_of <$> pc_modes (t_cur t)) true), t).
Proof.
  intros Hidle Hnd. unfold net_drv_phy_state_save.
  do 4 (rewrite run_bind; cbn -[mbind foreach]; unfold get; rewrite ?Hidle; cbn -[mbind foreach]).
  pose proof (save_loop_run ta ifn t [] (pc_modes (t_cur t)) Hidle Hnd eq_refl) as H.
  cbn [length app] in H. rewrite run_bind. change [] with (mode_of <$> []) at 1.
  by rewrite H.
Qed.

Lemma find_mode_saved l n :
  find_mode (mode_of <$> l) n = (fun b => mode_of (n, b)) <$> adv_of l n.
Proof.
  induction l as [|[m b] l IH]; [done|]. cbn -[mode_of]. rewrite mode_of_name. simpl fst.
  destruct (String.eqb_spec m n) as [->|]; [done|exact IH].
Qed.

Definition differs (t : tree) (want : net_drv_phy_mode_info -> bool)
    (m : net_drv_phy_mode_info) : bool :=
  net_drv_phy_is_link_mode m &&
  negb (bool_decide (adv_of (pc_modes (t_cur t)) (mi_name m) = Some (want m))).

Lemma mode_differs_run ta ifn want ms hc t :
  idle t -> Forall (fun m => mi_name m ∈ names (t_cur t)) ms ->
  run world (foreach ms hc (mode_differs ta ifn want)) t =
  (Val (inl (hc || existsb (differs t want) ms)), t).
Proof.
  intros Hidle. revert hc. induction ms as [|m ms IH]; intros hc Hin.
  { cbn. by rewrite orb_false_r. }
  apply Forall_cons in Hin as [Hm Hin]. cbn [foreach existsb].
  change (bind ?f ?p) with (mbind f p). rewrite run_bind.
  unfold mode_differs at 1, differs at 1.
  destruct (net_drv_phy_is_link_mode m); cbn -[foreach]; [|by apply IH].
  apply adv_of_is_Some in Hm as [b Hb]. rewrite Hb. unfold get. rewrite Hidle.
  cbn -[foreach bool_decide].
  destruct b, (want m); cbn -[foreach]; rewrite ?orb_true_r; try done; by apply IH.
Qed.

Definition set_one (want : net_drv_phy_mode_info -> bool) (t : tree)
    (m : net_drv_phy_mode_info) : tree :=
  if net_drv_phy_is_link_mode m then local_set (with_adv (mi_name m) (want m)) t else t.

Lemma mode_set_run ta ifn want ms t :
  run world (foreach ms tt (mode_set ta ifn want)) t =
  (Val (inl tt), fold_left (set_one want) ms t).
Proof.
  revert t. induction ms as [|m ms IH]; intros t; [done|]. cbn [foreach fold_left].
  change (bind ?f ?p) with (mbind f p). rewrite run_bind.
  unfold mode_set at 1, set_one at 2.
  destruct (net_drv_phy_is_link_mode m); cbn -[foreach]; apply IH.
Qed.

Lemma find_mode_elem ms n m : find_mode ms n = Some m -> n ∈ mi_name <$> ms.
Proof.
  induction ms as [|m' ms IH]; simpl; [done|].
  destruct (String.eqb_spec (mi_name m') n) as [->|]; intros H; apply elem_of_cons; [by left|].
  right. by apply IH.
Qed.

(** The settings to commit after one mode, and after every link mode was set. *)
Lemma set_one_eff want t m :
  let t' := set_one want t m in
  t_commits t' = t_commits t /\
  pc_autoneg (eff t') = pc_autoneg (eff t) /\
  pc_speed (eff t') = pc_speed (eff t) /\ pc_duplex (eff t') = pc_duplex (eff t) /\
  (forall n, adv_of (pc_modes (eff t')) n =
    if net_drv_phy_is_link_mode m && String.eqb (mi_name m) n
    then (fun _ => want m) <$> adv_of (pc_modes (eff t)) n
    else adv_of (pc_modes (eff t)) n).
Proof.
  unfold set_one. destruct (net_drv_phy_is_link_mode m); cbn; repeat (split; [done|]); [|done].
  intros n. apply adv_of_set.
Qed.

Lemma set_all_eff want ms t :
  NoDup (mi_name <$> ms) ->
  let t' := fold_left (set_one want) ms t in
  t_commits t' = t_commits t /\
  pc_autoneg (eff t') = pc_autoneg (eff t) /\
  pc_speed (eff t') = pc_speed (eff t) /\ pc_duplex (eff t') = pc_duplex (eff t) /\
  (forall n, adv_of (pc_modes (eff t')) n =
    match find_mode ms n with
    | Some m => if net_drv_phy_is_link_mode m
                then (fun _ => want m) <$> adv_of (pc_modes (eff t)) n
                else adv_of (pc_modes (eff t)) n
    | None => adv_of (pc_modes (eff t)) n
    end).
Proof.
  revert t. induction ms as [|m ms IH]; intros t Hnd; [done|].
  apply list.NoDup_cons in Hnd as [Hm Hnd]. simpl fold_left.
  destruct (set_one_eff want t m) as (B3 & B4 & B5 & B6 & B7).
  destruct (IH (set_one want t m) Hnd) as (H3 & H4 & H5 & H6 & H7).
  cbn zeta. rewrite H3, H4, H5, H6. repeat (split; [done|]).
  intros n. rewrite H7, B7. simpl.
  destruct (String.eqb_spec (mi_name m) n) as [<-|].
  - destruct (find_mode ms (mi_name m)) eqn:Hf; [by apply find_mode_elem in Hf|].
    by destruct (net_drv_phy_is_link_mode m).
  - by rewrite andb_false_r.
Qed.

Lemma mode_of_inj_names c : mi_name <$> (mode_of <$> pc_modes c) = names c.
Proof.
  unfold names. rewrite <- list_fmap_compose. apply list_fmap_ext. intros _ nb _.
  apply mode_of_name.
Qed.

(** The same for the modes of a saved state: a link mode that the tree has
    gets [want], every other mode keeps its advertising. *)
Lemma set_saved_eff want c0 t :
  NoDup (names c0) -> names (eff t) = names c0 ->
  forall n, adv_of (pc_modes (eff (fold_left (set_one want) (mode_of <$> pc_modes c0) t))) n =
    match adv_of (pc_modes c0) n with
    | Some b => if link_name n then Some (want (mode_of (n, b))) else adv_of (pc_modes (eff t)) n
    | None => None
    end.
Proof.
  intros Hnd Hn n.
  destruct (set_all_eff want (mode_of <$> pc_modes c0) t) as (_ & _ & _ & _ & H);
    [by rewrite mode_of_inj_names|].
  rewrite H, find_mode_saved. destruct (adv_of (pc_modes c0) n) as [b|] eqn:Hb; cbn.
  - rewrite link_mode_of. simpl. destruct (link_name n); [|done].
    destruct (adv_of (pc_modes (eff t)) n) eqn:Hb1; [done|].
    apply adv_of_None in Hb1. unfold names in Hn. rewrite Hn in Hb1.
    apply adv_of_None in Hb1. congruence.
  - apply adv_of_None in Hb. apply adv_of_None. unfold names in Hn. by rewrite Hn.
Qed.

(** Whether [net_drv_phy_state_restore] finds something to change, and the
    command sequence it opens before the modes. *)
Definition restore_changes (st : net_drv_phy_saved_state) (t : tree) : bool :=
  ((ps_autoneg st =? TE_PHY_AUTONEG_OFF) &&
   (negb (pc_speed (t_cur t) =? ps_speed_admin st) ||
    negb (pc_duplex (t_cur t) =? ps_duplex_admin st))) ||
  negb (pc_autoneg (t_cur t) =? ps_autoneg st) ||
  existsb (differs t mi_advertised) (ps_modes st).

Definition restore_open (st : net_drv_phy_saved_state) (t : tree) : tree :=
  let t := local_set (with_autoneg (ps_autoneg st)) t in
  if ps_autoneg st =? TE_PHY_AUTONEG_OFF
  then local_set (with_duplex (ps_duplex_admin st)) (local_set (with_speed (ps_speed_admin st)) t)
  else t.

Lemma state_restore_run ta ifn st t :
  idle t -> Forall (fun m => mi_name m ∈ names (t_cur t)) (ps_modes st) ->
  run world (net_drv_phy_state_restore ta ifn st) t =
  (Val 0, if restore_changes st t
          then commit (fold_left (set_one mi_advertised) (ps_modes st) (restore_open st t))
          else t).
Proof.
  intros Hidle Hin. unfold net_drv_phy_state_restore, restore_changes, restore_open.
  rewrite run_bind; cbn -[mbind foreach].
  rewrite run_bind; cbn -[mbind foreach]. unfold get; rewrite Hidle; cbn -[mbind foreach].
  rewrite run_bind. destruct (ps_autoneg st =? TE_PHY_AUTONEG_OFF) eqn:Hoff; cbn -[mbind foreach].
  - rewrite run_bind; cbn -[mbind foreach]. unfold get; rewrite Hidle; cbn -[mbind foreach].
    rewrite run_bind; cbn -[mbind foreach]. unfold get; rewrite Hidle; cbn -[mbind foreach].
    rewrite run_bind, mode_differs_run by done. cbn -[mbind foreach local_set].
    destruct (_ || existsb _ _); cbn -[mbind foreach local_set]; [|done].
    do 3 (rewrite run_bind; cbn -[mbind foreach local_set]).
    rewrite run_bind, mode_set_run; cbn -[local_set]. done.
  - rewrite run_bind, mode_differs_run by done. cbn -[mbind foreach local_set].
    destruct (_ || existsb _ _); cbn -[mbind foreach local_set]; [|done].
    do 2 (rewrite run_bind; cbn -[mbind foreach local_set]).
    rewrite run_bind, mode_set_run; cbn -[local_set]. done.
Qed.

Lemma adv_of_elem_inv l n b : adv_of l n = Some b -> (n, b) ∈ l.
Proof.
  induction l as [|[m b'] l IH]; simpl; [done|].
  destruct (String.eqb_spec m n) as [->|]; rewrite elem_of_cons.
  - intros [= ->]. by left.
  - intros H. right. by apply IH.
Qed.

Lemma not_differs t want ms m :
  existsb (differs t want) ms = false -> m ∈ ms -> net_drv_phy_is_link_mode m = true ->
  adv_of (pc_modes (t_cur t)) (mi_name m) = Some (want m).
Proof.
  intros He Hin Hl. induction ms as [|m' ms IH]; [by apply elem_of_nil in Hin|].
  simpl in He. apply orb_false_iff in He as [Hd He].
  apply elem_of_cons in Hin as [->|Hin]; [|by apply IH].
  unfold differs in Hd. rewrite Hl in Hd. cbn -[bool_decide] in Hd.
  by rewrite negb_false_iff, bool_decide_eq_true in Hd.
Qed.

Lemma no_differs t want ms :
  (forall m, m ∈ ms -> net_drv_phy_is_link_mode m = true -> adv_of (pc_modes (t_cur t)) (mi_name m) = Some (want m)) ->
  existsb (differs t want) ms = false.
Proof.
  intros H. induction ms as [|m ms IH]; [done|]. cbn [existsb]. apply orb_false_iff. split.
  - unfold differs. destruct (net_drv_phy_is_link_mode m) eqn:Hl; [|done]. cbn -[bool_decide].
    apply negb_false_iff, bool_decide_eq_true, H; [apply list_elem_of_here|done].
  - apply IH. intros m' Hm'. apply H. by apply elem_of_cons; right.
Qed.

(** [c2] has the PHY settings of [c0] as far as a restore brings them back,
    and those of [c1] elsewhere: the administrative speed and duplex belong
    to a configuration without autonegotiation, and only the modes whose
    names are those of link modes are advertised or not. *)
Definition restored (c0 c1 c2 : phycfg) : Prop :=
  pc_autoneg c2 = pc_autoneg c0 /\
  (let src := if pc_autoneg c0 =? TE_PHY_AUTONEG_OFF then c0 else c1 in
   pc_speed c2 = pc_speed src /\ pc_duplex c2 = pc_duplex src) /\
  (forall n, adv_of (pc_modes c2) n =
     adv_of (pc_modes (if link_name n then c0 else c1)) n).

Lemma restored_unchanged c0 t1 :
  names (t_cur t1) = names c0 ->
  restore_changes (PhyState (pc_autoneg c0) (pc_speed c0) (pc_duplex c0)
                     (mode_of <$> pc_modes c0) true) t1 = false ->
  restored c0 (t_cur t1) (t_cur t1).
Proof.
  unfold restore_changes. cbn [ps_autoneg ps_speed_admin ps_duplex_admin ps_modes].
  intros Hn H. apply orb_false_iff in H as [H Hm]. apply orb_false_iff in H as [Hs Ha].
  rewrite negb_false_iff, Z.eqb_eq in Ha. split; [done|]. split.
  - cbn zeta. destruct (pc_autoneg c0 =? TE_PHY_AUTONEG_OFF); [|done].
    apply orb_false_iff in Hs as [Hs Hd]. by rewrite negb_false_iff, Z.eqb_eq in Hs, Hd.
  - intros n. destruct (link_name n) eqn:Hl; [|done].
    destruct (adv_of (pc_modes c0) n) as [b|] eqn:Hb.
    + apply adv_of_elem_inv in Hb.
      assert (mode_of (n, b) ∈ mode_of <$> pc_modes c0) as Hin
        by (by apply list_elem_of_fmap_2).
      apply (not_differs _ _ _ _ Hm) in Hin; [|by rewrite link_mode_of].
      by rewrite mode_of_name, mode_of_adv in Hin.
    + apply adv_of_None. rewrite adv_of_None in Hb. unfold names in Hn. by rewrite Hn.
Qed.

Lemma restore_open_facts st t :
  idle t ->
  let t' := restore_open st t in
  let off := ps_autoneg st =? TE_PHY_AUTONEG_OFF in
  t_commits t' = t_commits t /\
  pc_autoneg (eff t') = ps_autoneg st /\
  pc_speed (eff t') = (if off then ps_speed_admin st else pc_speed (t_cur t)) /\
  pc_duplex (eff t') = (if off then ps_duplex_admin st else pc_duplex (t_cur t)) /\
  pc_modes (eff t') = pc_modes (t_cur t).
Proof.
  intros Hi. unfold restore_open.
  destruct (ps_autoneg st =? TE_PHY_AUTONEG_OFF); cbn; unfold eff; by rewrite ?Hi.
Qed.

(** C8.  Saving and restoring round trip.  From a quiet tree the PHY state is
    saved without touching the tree; whatever the settings have become since
    (the set of modes being the same), restoring brings back the
    autonegotiation state, the advertised state of every link mode, and,
    when autonegotiation was off, the speed and duplex.  It leaves the rest
    alone, closes the command sequence it opens, commits at most once, and
    does not touch a tree that needs no change. *)
Theorem phy_save_restore_roundtrip ta ifn t0 t1 :
  idle t0 -> idle t1 -> NoDup (names (t_cur t0)) -> names (t_cur t1) = names (t_cur t0) ->
  exists st t2,
    run world (net_drv_phy_state_save ta ifn) t0 = (Val (0, st), t0) /\
    run world (net_drv_phy_state_restore ta ifn st) t1 = (Val 0, t2) /\
    idle t2 /\ restored (t_cur t0) (t_cur t1) (t_cur t2) /\
    (t2 = t1 \/ t_commits t2 = S (t_commits t1)).
Proof.
  intros Hi0 Hi1 Hnd Hn.
  set (st := PhyState (pc_autoneg (t_cur t0)) (pc_speed (t_cur t0)) (pc_duplex (t_cur t0))
               (mode_of <$> pc_modes (t_cur t0)) true).
  exists st, (if restore_changes st t1
    then commit (fold_left (set_one mi_advertised) (ps_modes st) (restore_open st t1)) else t1).
  split; [by apply state_save_run|].
  assert (mi_name <$> ps_modes st = names (t_cur t0)) as Hsn by apply mode_of_inj_names.
  split; [apply state_restore_run; [done|]|].
  { apply Forall_forall. intros m Hm. rewrite Hn, <- Hsn. by apply list_elem_of_fmap_2. }
  destruct (restore_changes st t1) eqn:Hc.
  2: { split; [done|]. split; [by apply restored_unchanged|by left]. }
  split; [done|].
  destruct (restore_open_facts st t1 Hi1) as (A2 & A3 & A4 & A5 & A6).
  destruct (set_all_eff mi_advertised (ps_modes st) (restore_open st t1))
    as (B3 & B4 & B5 & B6 & _); [by rewrite Hsn|].
  unfold commit, restored. cbn [t_cur t_commits].
  rewrite B3, B4, B5, B6, A2, A3, A4, A5. split; [|by right].
  split; [done|]. split; [cbn; by destruct (_ =? _)|].
  intros n. cbn [ps_modes st].
  rewrite set_saved_eff, A6 by (done || unfold names; by rewrite A6).
  destruct (adv_of (pc_modes (t_cur t0)) n) as [b|] eqn:Hb; destruct (link_name n); [|done|done|].
  - by rewrite Hb, mode_of_adv.
  - symmetry. apply adv_of_None. apply adv_of_None in Hb. unfold names in Hn. by rewrite Hn.
Qed.

(** C9.  [net_drv_phy_apply_autoneg_modes] turns autonegotiation on and
    advertises, among the link modes, exactly the one or two named ones; the
    administrative speed and duplex and every other mode stay as they are,
    and no command sequence is left open.  A tree that is already so is not
    touched, and nothing is committed; otherwise there is one commit. *)
Theorem phy_apply_autoneg_modes_correct ta ifn c0 t m1 m2 :
  idle t -> NoDup (names c0) -> names (t_cur t) = names c0 ->
  exists t2,
    run world (net_drv_phy_apply_autoneg_modes ta ifn
      (PhyState (pc_autoneg c0) (pc_speed c0) (pc_duplex c0) (mode_of <$> pc_modes c0) true)
      m1 m2) t = (Val 0, t2) /\
    idle t2 /\ (if bool_decide (t_cur t2 = t_cur t) then t2 = t else t_commits t2 = S (t_commits t)) /\
    pc_autoneg (t_cur t2) = TE_PHY_AUTONEG_ON /\
    pc_speed (t_cur t2) = pc_speed (t_cur t) /\ pc_duplex (t_cur t2) = pc_duplex (t_cur t) /\
    (forall n b, adv_of (pc_modes (t_cur t)) n = Some b ->
       adv_of (pc_modes (t_cur t2)) n =
       Some (if link_name n then String.eqb n m1 || bool_decide (m2 = Some n) else b)).
Proof.
  intros Hi Hnd Hn. unfold net_drv_phy_apply_autoneg_modes. cbn [ps_modes].
  set (want := should_advertise m1 m2).
  assert (forall n b, want (mode_of (n, b)) = String.eqb n m1 || bool_decide (m2 = Some n)) as Hw.
  { intros n b. unfold want, should_advertise. rewrite mode_of_name. simpl. f_equal.
    destruct m2 as [m|]; [|done]. destruct (String.eqb_spec n m) as [->|];
      symmetry; [by apply bool_decide_eq_true|apply bool_decide_eq_false]. congruence. }
  rewrite run_bind; cbn -[mbind foreach]. unfold get; rewrite Hi; cbn -[mbind foreach].
  rewrite run_bind, mode_differs_run; [|done|].
  2: { apply Forall_forall. intros m Hm. rewrite Hn, <- mode_of_inj_names.
       by apply list_elem_of_fmap_2. }
  cbn -[mbind foreach]. destruct (_ || existsb _ _) eqn:Hc; cbn -[mbind foreach local_set].
  - rewrite run_bind, mode_set_run. cbn -[mbind local_set commit].
    eexists. split; [done|]. split; [done|].
    destruct (set_all_eff want (mode_of <$> pc_modes c0) t) as (B3 & B4 & B5 & B6 & _);
      [by rewrite mode_of_inj_names|].
    assert (eff t = t_cur t) as He by (unfold eff; by rewrite Hi).
    unfold commit. cbn [t_cur t_commits local_set eff t_busy t_loc with_autoneg pc_autoneg
      pc_speed pc_duplex pc_modes]. rewrite B3, B5, B6, He.
    match goal with |- context [with_autoneg ?a ?b] => set (c2 := with_autoneg a b) end.
    assert (Hmodes : forall n b, adv_of (pc_modes (t_cur t)) n = Some b -> adv_of (pc_modes c2) n =
      Some (if link_name n then String.eqb n m1 || bool_decide (m2 = Some n) else b)).
    { intros n b Hb. unfold c2. cbn [pc_modes with_autoneg]. rewrite set_saved_eff, He by (done || by rewrite He).
      destruct (adv_of (pc_modes c0) n) as [b0|] eqn:Hb0.
      - destruct (link_name n); [by rewrite Hw|done].
      - apply adv_of_None in Hb0. unfold names in Hn. rewrite <- Hn in Hb0.
        apply adv_of_None in Hb0. congruence. }
    split; [|repeat (split; [done|]); exact Hmodes].
    rewrite bool_decide_eq_false_2; [done|]. intros Heq. apply orb_true_iff in Hc as [Ha|Hd].
    { apply negb_true_iff, Z.eqb_neq in Ha. apply Ha. by rewrite <- Heq. }
    rewrite no_differs in Hd; [done|]. intros m Hm Hl.
    apply list_elem_of_fmap in Hm as ([n b0] & -> & Hin). rewrite link_mode_of in Hl. rewrite mode_of_name, Hw. cbn [fst] in *.
    destruct (adv_of (pc_modes (t_cur t)) n) as [b|] eqn:Hb.
    + specialize (Hmodes n b Hb). by rewrite Heq, Hl, Hb in Hmodes.
    + exfalso. apply adv_of_None in Hb. apply Hb. unfold names in Hn. rewrite Hn. by apply (list_elem_of_fmap_2 fst _ (n, b0)).
  - apply orb_false_iff in Hc as [Ha He]. rewrite negb_false_iff, Z.eqb_eq in Ha.
    exists t. split; [done|]. split; [done|]. split; [by rewrite bool_decide_eq_true_2|]. repeat (split; [done|]).
    intros n b Hb. destruct (link_name n) eqn:Hl; [|done].
    destruct (adv_of (pc_modes c0) n) as [b0|] eqn:Hb0.
    + apply adv_of_elem_inv in Hb0.
      assert (mode_of (n, b0) ∈ mode_of <$> pc_modes c0) as Hin by by apply list_elem_of_fmap_2.
      apply (not_differs _ _ _ _ He) in Hin; [|by rewrite link_mode_of].
      rewrite mode_of_name, Hw in Hin. exact Hin.
    + apply adv_of_None in Hb0. unfold names in Hn. rewrite <- Hn in Hb0.
      apply adv_of_None in Hb0. congruence.
Qed.

(** [net_drv_phy_apply_fixed_mode] leaves the interface with
    autonegotiation off and the requested speed and duplex, every mode as it
    was, no open command sequence, and it commits only if something had to
    change. *)
Theorem phy_apply_fixed_mode_correct ta ifn t speed duplex :
  idle t ->
  exists t2,
    run world (net_drv_phy_apply_fixed_mode ta ifn speed duplex) t = (Val 0, t2) /\
    idle t2 /\
    t_cur t2 = PhyCfg TE_PHY_AUTONEG_OFF speed duplex (pc_modes (t_cur t)) /\
    t_commits t2 = (t_commits t + if bool_decide (t_cur t2 = t_cur t) then 0 else 1)%nat.
Proof.
  intros Hi. destruct t as [[a s d ms] loc busy n]. unfold idle in Hi; simpl in Hi; subst.
  unfold net_drv_phy_apply_fixed_mode, set_if_differs. cbn.
  destruct (Z.eqb_spec a TE_PHY_AUTONEG_OFF), (Z.eqb_spec s speed), (Z.eqb_spec d duplex);
    cbn; subst; eexists; (split; [done|]); (split; [done|]); (split; [done|]);
    cbn; case_bool_decide as Hd; unfold with_autoneg, with_speed, with_duplex in Hd;
    cbn in Hd; simplify_eq; lia.
Qed.
End phy_tree.

(** ** The command-sequence protocol *)
Module PhyProtocol.
(** A monitor: is a command sequence open, was a get issued inside one, how
    many commits were made and how many sets. *)
Record ghost := Ghost { g_open : bool; g_get_inside : bool; g_commits : nat; g_sets : nat }.

Definition on_get (g : ghost) : ghost :=
  Ghost (g_open g) (g_get_inside g || g_open g) (g_commits g) (g_sets g).
Definition on_set (g : ghost) : ghost :=
  Ghost true (g_get_inside g) (g_commits g) (S (g_sets g)).
Definition on_commit (g : ghost) : ghost :=
  Ghost false (g_get_inside g) (S (g_commits g)) (g_sets g).

Definition upd X (c : te_call X) (_ : X) (g : ghost) : ghost :=
  match c with
  | tapi_cfg_phy_autoneg_get _ _ | tapi_cfg_phy_speed_admin_get _ _
  | tapi_cfg_phy_duplex_admin_get _ _ | tapi_cfg_phy_mode_adv_get _ _ _ => on_get g
  | tapi_cfg_phy_autoneg_set _ _ _ | tapi_cfg_phy_speed_admin_set _ _ _
  | tapi_cfg_phy_duplex_admin_set _ _ _ | tapi_cfg_phy_mode_adv_set _ _ _ _ => on_set g
  | tapi_cfg_phy_commit _ _ => on_commit g
  | _ => g
  end.

Definition world : env te_call ghost := watch upd.
Definition start : ghost := Ghost false false 0 0.

(** What every writer of the PHY tree promises: no get inside a command
    sequence, and either nothing was set and nothing committed, or one
    commit ended the sequence; only an error may leave it open. *)
Definition obeys (r : result te_errno) (g : ghost) : Prop :=
  match r with
  | Val rc =>
      g_get_inside g = false /\
      ((g_sets g = O /\ g_commits g = O) \/ (g_open g = false /\ g_commits g = 1%nat) \/
       (rc <> 0 /\ g_commits g = O))
  | _ => False
  end.

(** Before anything is set, and while the sequence is being filled. *)
Definition clean (g : ghost) : Prop := g = start.
Definition filling (g : ghost) : Prop := g_get_inside g = false /\ g_commits g = O.
End PhyProtocol.

Section phy_protocol.
Context {TE : Te}.
Import PhyProtocol.

Lemma differs_loop_wp ta ifn want ms hc Q :
  (forall b, Q (Val (inl b)) start) -> (forall rc, rc <> 0 -> Q (Val (inr rc)) start) ->
  wp world (foreach ms hc (mode_differs ta ifn want)) start Q.
Proof.
  intros Hl Hr. apply (wp_foreach _ _ _ _ _ _ (fun _ _ _ g => g = start)); [done| |].
  - intros _ m _ b g _ ->. unfold mode_differs. wp_go; autorewrite with zbool in *; auto.
  - intros b g ->. apply Hl.
Qed.

Lemma set_loop_wp ta ifn want ms g Q :
  filling g -> (forall g', filling g' -> Q (Val (inl tt)) g') ->
  (forall rc g', rc <> 0 -> filling g' -> Q (Val (inr rc)) g') ->
  wp world (foreach ms tt (mode_set ta ifn want)) g Q.
Proof.
  intros Hg Hl Hr. apply (wp_foreach _ _ _ _ _ _ (fun _ _ _ g => filling g)); [done| |].
  - intros _ m _ [] g' _ Hg'. unfold mode_set. wp_go; autorewrite with zbool in *; auto.
  - intros [] g' Hg'. by apply Hl.
Qed.

(** Close a goal about the end of a writer. *)
Ltac protocol_done :=
  unfold obeys, filling, start in *; cbn in *; autorewrite with zbool in *;
  split_all; subst; cbn in *; auto; congruence.

(** C11.  None of the three functions that change PHY settings issues a
    regular get between its first set and the commit (such a get fails with
    [TE_EACCES]); each makes at most one commit, after its sets, and leaves
    a command sequence open only when it returns an error.  This holds
    whatever the configuration API answers. *)
Theorem phy_command_sequence_protocol ta ifn st m1 m2 speed duplex :
  wp world (net_drv_phy_state_restore ta ifn st) start obeys /\
  wp world (net_drv_phy_apply_autoneg_modes ta ifn st m1 m2) start obeys /\
  wp world (net_drv_phy_apply_fixed_mode ta ifn speed duplex) start obeys.
Proof.
  split; [|split].
  - unfold net_drv_phy_state_restore, net_drv_phy_sync_tree. wp_go; try protocol_done.
    all: apply differs_loop_wp; [intros b|intros rc Hrc]; wp_go; try protocol_done.
    all: apply set_loop_wp; [|intros g Hg|intros rc g Hrc Hg]; wp_go; try protocol_done.
  - unfold net_drv_phy_apply_autoneg_modes. wp_go; try protocol_done.
    apply differs_loop_wp; [intros b|intros rc Hrc]; wp_go; try protocol_done.
    apply set_loop_wp; [|intros g Hg|intros rc g Hrc Hg]; wp_go; try protocol_done.
  - unfold net_drv_phy_apply_fixed_mode, set_if_differs. wp_go; protocol_done.
Qed.
End phy_protocol.

(** ** Mode names *)
Section mode_names.
Context {TE : Te}.

Lemma parse_suffix (n : N) mid suffix rest :
  Z.of_N n <= INT_MAX -> suffix = String "_"%char rest -> strrchr suffix "_"%char = Some suffix ->
  net_drv_phy_parse_speed_duplex_mode (pretty n +:+ "base" +:+ mid +:+ suffix) =
  if String.eqb suffix "_Full" then Some (Z.of_N n, TE_PHY_DUPLEX_FULL)
  else if String.eqb suffix "_Half" then Some (Z.of_N n, TE_PHY_DUPLEX_HALF)
  else if String.eqb (pretty n +:+ "base" +:+ mid +:+ suffix) "10000baseR_FEC"
  then Some (Z.of_N n, TE_PHY_DUPLEX_FULL) else None.
Proof.
  intros Hn -> Hs. unfold net_drv_phy_parse_speed_duplex_mode.
  rewrite strtoul_pretty by (unfold INT_MAX, ULONG_MAX in *; done || lia).
  rewrite (proj2 (Z.ltb_ge INT_MAX (Z.of_N n))) by done.
  unfold has_prefix. rewrite prefix_app.
  rewrite (strrchr_app (pretty n) _ _ (String "_"%char rest)); [done|].
  by do 2 apply strrchr_app.
Qed.

(** C12.  Mode names are read as they are written: a name made of a decimal
    speed that fits [int], "base", anything, and "_Full" or "_Half" gives
    that speed and that duplex; and whatever name is accepted gives a speed
    in the range of [int] and one of the two duplex values. *)
Theorem phy_parse_mode_name (n : N) (mid name : string) :
  Z.of_N n <= INT_MAX ->
  net_drv_phy_parse_speed_duplex_mode (pretty n +:+ "base" +:+ mid +:+ "_Full") =
    Some (Z.of_N n, TE_PHY_DUPLEX_FULL) /\
  net_drv_phy_parse_speed_duplex_mode (pretty n +:+ "base" +:+ mid +:+ "_Half") =
    Some (Z.of_N n, TE_PHY_DUPLEX_HALF) /\
  match net_drv_phy_parse_speed_duplex_mode name with
  | Some (s, d) => 0 <= s <= INT_MAX /\ (d = TE_PHY_DUPLEX_FULL \/ d = TE_PHY_DUPLEX_HALF)
  | None => True
  end.
Proof.
  intros Hn. split; [by eapply parse_suffix|]. split; [by eapply parse_suffix|].
  unfold net_drv_phy_parse_speed_duplex_mode.
  destruct (strtoul10 name) as [[v t]|] eqn:Hv; [|done]. apply strtoul_range in Hv.
  destruct (_ || _) eqn:Hr; [done|]. autorewrite with zbool in Hr.
  destruct (strrchr name "_") as [suf|]; [|done].
  repeat (destruct (String.eqb _ _); [split; [lia|tauto]|]). done.
Qed.
End mode_names.

(** ** Witnesses *)
Module PhyWitness.
Import PhyTree.

Definition cfg0 : phycfg :=
  PhyCfg 0 1000 1 [("1000baseT_Full", true); ("10baseT_Half", false); ("Pause", true)]%string.
Definition cfg1 : phycfg :=
  PhyCfg 1 100 0 [("1000baseT_Full", false); ("10baseT_Half", true); ("Pause", false)]%string.
Definition tree0 : tree := Tree cfg0 cfg0 false 0.
Definition tree1 : tree := Tree cfg1 cfg1 false 3.

Lemma names0_NoDup : NoDup (names cfg0).
Proof. by apply (bool_decide_unpack _). Qed.

Lemma phy_parse_mode_name_witness :
  net_drv_phy_parse_speed_duplex_mode (TE := te_ref) "2500baseT_Full" = Some (2500, 1).
Proof. exact (proj1 (phy_parse_mode_name (TE := te_ref) 2500 "T" "10baseT_Half" ltac:(done))). Defined.

Lemma phy_save_restore_witness :
  exists st t2,
    run world (net_drv_phy_state_save (TE := te_ref) "A" "eth0") tree0 =
      (Val (0, st), tree0) /\
    run world (net_drv_phy_state_restore (TE := te_ref) "A" "eth0" st) tree1 = (Val 0, t2) /\
    idle t2 /\ restored (TE := te_ref) cfg0 cfg1 (t_cur t2) /\
    (t2 = tree1 \/ t_commits t2 = S (t_commits tree1)).
Proof.
  apply (phy_save_restore_roundtrip (TE := te_ref) "A" "eth0" tree0 tree1);
    [reflexivity|reflexivity|exact names0_NoDup|reflexivity].
Defined.

Lemma phy_apply_autoneg_modes_witness :
  exists t2,
    run world (net_drv_phy_apply_autoneg_modes (TE := te_ref) "A" "eth0"
      (PhyState 0 1000 1 (mode_of (TE := te_ref) <$> pc_modes cfg0) true)
      "1000baseT_Full" None) tree1 = (Val 0, t2) /\
    idle t2 /\ (if bool_decide (t_cur t2 = cfg1) then t2 = tree1 else t_commits t2 = 4%nat) /\
    pc_autoneg (t_cur t2) = 1 /\
    pc_speed (t_cur t2) = 100 /\ pc_duplex (t_cur t2) = 0 /\
    (forall n b, adv_of (pc_modes cfg1) n = Some b ->
       adv_of (pc_modes (t_cur t2)) n =
       Some (if link_name (TE := te_ref) n
             then String.eqb n "1000baseT_Full" || bool_decide (None = Some n) else b)).
Proof.
  apply (phy_apply_autoneg_modes_correct (TE := te_ref) "A" "eth0" cfg0 tree1 "1000baseT_Full" None);
    [reflexivity|exact names0_NoDup|reflexivity].
Defined.

Lemma phy_apply_fixed_mode_witness :
  exists t2,
    run world (net_drv_phy_apply_fixed_mode (TE := te_ref) "A" "eth0" 100 0) tree1 =
      (Val 0, t2) /\
    idle t2 /\ t_cur t2 = PhyCfg 0 100 0 (pc_modes cfg1) /\
    t_commits t2 = (3 + if bool_decide (t_cur t2 = cfg1) then 0 else 1)%nat.
Proof.
  apply (phy_apply_fixed_mode_correct (TE := te_ref) "A" "eth0" tree1 100 0). reflexivity.
Defined.
End PhyWitness.
