(* ===== verification/Locals.v ===== *)
(** Local variables that survive a jump.

    When a test-control macro jumps to the [cleanup] label, the variables of
    the function keep the values they had.  [T St A] is a piece of code over
    locals [St]: it ends with the locals and either a value or the jump that
    left it.  [test_main] is a test: a body, a cleanup, and its exit status. *)
From S2P Require Import Prelude Prog Te.

Section locals.
Context {C : Type -> Type}.

(** Catch a jump. *)
Fixpoint attempt {A} (p : prog C A) : prog C (A + jump) :=
  match p with
  | Done (Val a) => Done (Val (inl a))
  | Done (Exc j) => Done (Val (inr j))
  | Done (Undef w) => Done (Undef w)
  | Done NoFuel => Done NoFuel
  | Vis c k => Vis c (fun x => attempt (k x))
  end.

Definition T (St A : Type) : Type := St -> prog C (St * (A + jump)).

Global Instance T_ret {St} : MRet (T St) := fun A a st => mret (st, inl a).
Global Instance T_bind {St} : MBind (T St) := fun A B f p st =>
  '(st, r) ← p st;
  match r with
  | inl a => f a st
  | inr j => mret (st, inr j)
  end.

(** A call-making program that does not touch the locals. *)
Definition lift {St A} (p : prog C A) : T St A := fun st => r ← attempt p; mret (st, r).

Definition gets {St A} (f : St -> A) : T St A := fun st => mret (st, inl (f st)).
Definition get {St} : T St St := fun st => mret (st, inl st).
Definition modify {St} (f : St -> St) : T St unit := fun st => mret (f st, inl tt).
Definition throw {St A} (j : jump) : T St A := fun st => mret (st, inr j).
Definition twhen {St} (b : bool) (p : T St unit) : T St unit := if b then p else mret tt.

(** Code over a part of the locals: a struct passed by pointer. *)
Definition zoom {St St' A} (get : St' -> St) (put : St -> St' -> St') (p : T St A) : T St' A :=
  fun st => '(x, r) ← p (get st); mret (put x st, r).

(** [for (x in l) body], left only by a jump. *)
Fixpoint t_for {X St} (l : list X) (body : X -> T St unit) : T St unit :=
  match l with
  | [] => mret tt
  | x :: l' => _ ← body x; t_for l' body
  end.

(** [for (x in l) y[x] = body], left only by a jump. *)
Fixpoint t_map {X Y St} (l : list X) (body : X -> T St Y) : T St (list Y) :=
  match l with
  | [] => mret []
  | x :: l' => y ← body x; ys ← t_map l' body; mret (y :: ys)
  end.

(** [while (TRUE) body], at most [fuel] passes; [true] is [break]. *)
Fixpoint t_loop {St} (fuel : nat) (body : T St bool) : T St unit :=
  match fuel with
  | O => fun _ => Done NoFuel
  | S n => b ← body; if (b : bool) then mret tt else t_loop n body
  end.

(** [for (i = 0; i < n; i++) { ...; if (...) break; }] whose [break] leaves with a
    value: [None] when the loop was not left. *)
Fixpoint t_search {St A} (n : nat) (body : T St (option A)) : T St (option A) :=
  match n with
  | O => mret None
  | S n => r ← body; match r with Some a => mret (Some a) | None => t_search n body end
  end.

(** The cleanup part: each [CLEANUP_CHECK_RC] says whether it succeeded, and a
    failure does not stop the next one. *)
Definition cleanup_rc (p : prog C Z) : prog C bool := rc ← p; mret (rc =? 0).
Definition also (p q : prog C bool) : prog C bool := a ← p; b ← q; mret (a && b).

(** What a test ends with: it passed, or why not. *)
Inductive status := Passed | CleanupFailed | Left (j : jump).

Definition test_main {St} (init : St) (body : T St unit) (cleanup : St -> prog C bool)
    : prog C status :=
  '(st, r) ← body init;
  ok ← cleanup st;
  mret (match r with
        | inr j => Left j
        | inl tt => if (ok : bool) then Passed else CleanupFailed
        end).

(** *** Code over locals that ends *)
Section halting.
Context {St : Type}.

Lemma halts_attempt {A} (p : prog C A) : halts p -> halts (attempt p).
Proof. induction p as [[a|j|w|]|X c k IH]; simpl; intros H; try done. intros x. by apply IH. Qed.

Lemma halts_lift {A} (p : prog C A) (L : St) : halts p -> halts (lift p L).
Proof. intros H. unfold lift. apply halts_bind; [by apply halts_attempt|done]. Qed.

Lemma halts_then {A B} (p : T St A) (f : A -> T St B) (L : St) :
  halts (p L) -> (forall a L', halts (f a L')) -> halts (mbind f p L).
Proof. intros Hp Hf. apply halts_bind; [done|]. intros [L' [a|j]]; [apply Hf|done]. Qed.

Lemma halts_zoom {St' A} get put (p : T St' A) (L : St) : (forall L, halts (p L)) -> halts (zoom get put p L).
Proof. intros H. unfold zoom. apply halts_bind; [apply H|]. by intros [x r]. Qed.

Lemma halts_t_for {X} (l : list X) (body : X -> T St unit) (L : St) :
  (forall x L, halts (body x L)) -> halts (t_for l body L).
Proof. intros H. revert L. induction l as [|x l IH]; intros L; [done|]. apply halts_then; [apply H|]. intros _. apply IH. Qed.

Lemma halts_also (p q : prog C bool) : halts p -> halts q -> halts (also p q).
Proof. intros Hp Hq. apply halts_bind; [done|]. intros a. by apply halts_bind. Qed.

Lemma halts_test_main (init : St) (body : T St unit) (cleanup : St -> prog C bool) :
  halts (body init) -> (forall L, halts (cleanup L)) -> halts (test_main init body cleanup).
Proof. intros Hb Hc. apply halts_bind; [done|]. intros [L r]. by apply halts_bind. Qed.
End halting.

Section triples.
Context {S : Type} (E : env C S).

(** Postconditions speak of the locals, the value or jump, and the world. *)
Definition tpost {St A} (Q : St -> A + jump -> S -> Prop) (r : result (St * (A + jump))) (s : S)
    : Prop :=
  match r with
  | Val (st, x) => Q st x s
  | _ => False
  end.

Definition twp {St A} (p : T St A) (st : St) (s : S) (Q : St -> A + jump -> S -> Prop) : Prop :=
  wp E (p st) s (tpost Q).

Lemma wp_attempt {A} (p : prog C A) s Q :
  wp E (attempt p) s Q <->
  wp E p s (fun r s' => match r with
    | Val a => Q (Val (inl a)) s'
    | Exc j => Q (Val (inr j)) s'
    | Undef w => Q (Undef w) s'
    | NoFuel => Q NoFuel s'
    end).
Proof.
  revert s; induction p as [r|X c k IH]; intros s; simpl.
  - by destruct r.
  - split; intros H x s' HE; by apply IH, H.
Qed.

(** Back to a plain program. *)
Lemma wp_T {St A} (p : T St A) (st : St) s (Q : result (St * (A + jump)) -> S -> Prop) :
  twp p st s (fun st' x s' => Q (Val (st', x)) s') -> wp E (p st) s Q.
Proof. intros H. eapply wp_mono; [exact H|]. intros [[st' x]| | |] s'; simpl; [auto|done..]. Qed.

Lemma twp_mono {St A} (p : T St A) st s (Q Q' : St -> A + jump -> S -> Prop) :
  twp p st s Q -> (forall st' x s', Q st' x s' -> Q' st' x s') -> twp p st s Q'.
Proof. intros H HQ. eapply wp_mono; [exact H|]. intros [[st' x]| | |] s'; simpl; auto. Qed.

Lemma twp_ret {St A} (a : A) (st : St) s (Q : St -> A + jump -> S -> Prop) :
  Q st (inl a) s -> twp (mret a) st s Q.
Proof. done. Qed.

Lemma twp_bind {St A B} (f : A -> T St B) (p : T St A) st s Q :
  twp p st s (fun st' x s' => match x with
    | inl a => twp (f a) st' s' Q
    | inr j => Q st' (inr j) s'
    end) -> twp (mbind f p) st s Q.
Proof.
  intros H. unfold twp. cbn [mbind T_bind]. apply wp_bind. eapply wp_mono; [exact H|].
  intros [[st' [a|j]]| | |] s'; simpl; auto.
Qed.

Lemma twp_lift {St A} (p : prog C A) (st : St) s (Q : St -> A + jump -> S -> Prop) :
  wp E p s (fun r s' => match r with
    | Val a => Q st (inl a) s'
    | Exc j => Q st (inr j) s'
    | _ => False
    end) -> twp (lift p) st s Q.
Proof.
  intros H. unfold twp, lift. apply wp_bind, wp_attempt. eapply wp_mono; [exact H|].
  intros [a|j|w|] s'; simpl; auto.
Qed.

Lemma twp_modify {St} f (st : St) s (Q : St -> unit + jump -> S -> Prop) :
  Q (f st) (inl tt) s -> twp (modify f) st s Q.
Proof. done. Qed.

Lemma twp_gets {St A} (f : St -> A) st s (Q : St -> A + jump -> S -> Prop) :
  Q st (inl (f st)) s -> twp (gets f) st s Q.
Proof. done. Qed.

Lemma twp_get {St} (st : St) s (Q : St -> St + jump -> S -> Prop) :
  Q st (inl st) s -> twp get st s Q.
Proof. done. Qed.

Lemma twp_throw {St A} j (st : St) s (Q : St -> A + jump -> S -> Prop) :
  Q st (inr j) s -> twp (throw j) st s Q.
Proof. done. Qed.

Lemma twp_zoom {St St' A} get put (p : T St A) (st : St') s Q :
  twp p (get st) s (fun x r s' => Q (put x st) r s') -> twp (zoom get put p) st s Q.
Proof.
  intros H. unfold twp, zoom. apply wp_bind. eapply wp_mono; [exact H|].
  intros [[x r]| | |] s'; simpl; auto.
Qed.

Lemma twp_for {X St} (l : list X) (body : X -> T St unit) (st : St) s
    (I : list X -> St -> S -> Prop) (Q : St -> unit + jump -> S -> Prop) :
  I [] st s ->
  (forall pre x post st s, l = pre ++ x :: post -> I pre st s ->
     twp (body x) st s (fun st' r s' =>
       match r with inl _ => I (pre ++ [x]) st' s' | inr j => Q st' (inr j) s' end)) ->
  (forall st s, I l st s -> Q st (inl tt) s) ->
  twp (t_for l body) st s Q.
Proof.
  intros HI Hb HQ.
  enough (forall pre l' st s, l = pre ++ l' -> I pre st s -> twp (t_for l' body) st s Q) as H
    by (by eapply (H [])).
  clear HI st s. intros pre l'; revert pre. induction l' as [|x l' IH]; intros pre st s Hl HI.
  - rewrite app_nil_r in Hl. subst. by apply HQ.
  - apply twp_bind. eapply twp_mono; [by eapply Hb|]. intros st' [[]|j] s'; simpl; [|done].
    apply (IH (pre ++ [x])). by rewrite <- app_assoc.
Qed.

(** Running a program whose jump is caught. *)
Lemma run_attempt (h : handler C S) {A} (p : prog C A) s :
  run h (attempt p) s =
    (let '(r, s') := run h p s in
     (match r with
      | Val a => Val (inl a)
      | Exc j => Val (inr j)
      | Undef w => Undef w
      | NoFuel => NoFuel
      end, s')).
Proof.
  revert s. induction p as [r|X c k IH]; intros s; simpl; [by destruct r|].
  destruct (h X c s) as [x s']. apply IH.
Qed.
End triples.
End locals.

(** [CLEANUP_RPC_CLOSE]. *)
Definition cleanup_close (r : rcf_rpc_server) (s : Z) : M bool :=
  if 0 <=? s then '(rc, _) ← call (rpc_close r s); mret (0 <=? rc) else mret true.

(** [halts]: the branches of the program are looked at one by one. *)
Ltac solve_halts :=
  repeat first
    [ assumption
    | apply halts_lift
    | apply halts_t_for
    | apply halts_then
    | apply halts_also
    | apply halts_foreach
    | apply halts_for_n
    | apply halts_bind
    | progress intros
    | progress wp_macro
    | match goal with
      | |- halts (call _) => done
      | |- halts (mret _) => exact I
      | |- halts (raise _) => exact I
      | |- halts (undef _) => exact I
      | |- halts (Done _) => exact I
      | |- halts (modify _ _) => exact I
      | |- halts (gets _ _) => exact I
      | |- halts (get _) => exact I
      | |- halts (throw _ _) => exact I
      | |- halts (when _ _) => unfold when
      | |- halts (twhen _ _ _) => unfold twhen
      | |- halts (cleanup_rc _) => unfold cleanup_rc
      | |- halts (match ?x with _ => _ end) => destruct x
      | |- halts (match ?x with _ => _ end _) => destruct x
      end
    | done ].

(** One symbolic step of code over locals. *)
Ltac twp_step :=
  lazymatch goal with
  | |- twp _ (mbind _ _) _ _ _ => apply twp_bind
  | |- twp _ (mret _) _ _ _ => apply twp_ret
  | |- twp _ (lift _) _ _ _ => apply twp_lift
  | |- twp _ (modify _) _ _ _ => apply twp_modify
  | |- twp _ (gets _) _ _ _ => apply twp_gets
  | |- twp _ get _ _ _ => apply twp_get
  | |- twp _ (throw _) _ _ _ => apply twp_throw
  | |- twp _ (zoom _ _ _) _ _ _ => apply twp_zoom
  | |- twp _ (twhen ?b _) _ _ _ => unfold twhen
  | |- twp _ (if ?b then _ else _) _ _ _ => destruct b eqn:?
  | |- twp _ (match ?x with (_, _) => _ end) _ _ _ => destruct x
  end.

(** Steps of both kinds, answers substituted. *)
Ltac twp_go := repeat (first [ twp_step | wp_step | wp_answer | progress wp_macro
  | progress cbn [bpost cpost lpost] | progress cbn beta iota
  | match goal with
    | p : (_ * _)%type |- wp _ (match ?p' with _ => _ end) _ _ => constr_eq p p'; destruct p
    end ]).
