(* ===== verification/AgentRpc.v ===== *)
(** talib_net_drv_ts/rpc.c: the RPCs the suite adds to the test agent.  They run
    on the agent and talk to its operating system, so they have a signature of
    their own.  [le] says whether the agent is little-endian
    ([htonl (1) != 1]). *)
From S2P Require Import Prelude Prog Te Bytes.

(** ** The operating system of the agent *)

(** [struct ethtool_tcpip4_spec] and [ethtool_tcpip6_spec]. *)
Record ip_spec := IpSpec { sp_src : list Z; sp_dst : list Z; sp_psrc : Z; sp_pdst : Z }.

(** The part of [struct ethtool_rxnfc] the code uses: command, flow type, mask
    and header specifications, location, queue. *)
Record ethtool_rxnfc := Rxnfc {
  nfc_cmd : Z; nfc_flow : Z; nfc_mask : ip_spec; nfc_hdr : ip_spec;
  nfc_location : Z; nfc_cookie : Z }.

(** Constants of the Linux headers. *)
Class Linux := {
  ETHTOOL_SRXCLSRLINS : Z; ETHTOOL_SRXCLSRLDEL : Z;
  UDP_V4_FLOW : Z; UDP_V6_FLOW : Z; TCP_V4_FLOW : Z; TCP_V6_FLOW : Z;
  RX_CLS_LOC_ANY : Z; RX_CLS_LOC_SPECIAL : Z; POLLIN : Z;
  linux_ins_del : ETHTOOL_SRXCLSRLINS <> ETHTOOL_SRXCLSRLDEL;
}.

Inductive os_call : Type -> Type :=
| te_gettimeofday : os_call (Z * timeval)
| os_send (fd : Z) (buf : list Z) : os_call (Z * Z)
| os_poll (fd timeout : Z) : os_call (Z * Z * Z)            (* value, revents, errno *)
| os_recv (fd len : Z) : os_call (Z * list Z * Z)
| os_ioctl (fd : Z) (rule : ethtool_rxnfc) : os_call (Z * ethtool_rxnfc * Z)
| os_rand_range (lo hi : Z) : os_call Z
| sockaddr_rpc2h (a : sockaddr) : os_call (Z * sockaddr)
| te_rpc_error_set (rc : te_errno) : os_call unit.

Abbreviation P := (prog os_call).

Section agent.
Context {TE : Te} {LX : Linux}.

(** *** Sending packets with a fixed delay *)

(** [net_drv_exact_delay_payload] in memory: the id, as stored by the
    machine, and the last byte. *)
Definition payload_bytes (le : bool) (id last_byte : Z) : list Z := store le 8 id ++ [last_byte].
Definition sizeof_payload : Z := 9.

(** One pass of the busy loop: [time_diff]. *)
Definition wait_pass (tv_start : timeval) (exp_diff : Z) (_ : Z) : P (ctl Z unit) :=
  '(rc, tv_now) ← call te_gettimeofday;
  if negb (rc =? 0) then raise (FAIL (Msg "gettimeofday() failed: %r" [AI rc]))
  else
    let time_diff := TIMEVAL_SUB tv_now tv_start in
    mret (if exp_diff <? time_diff then Break time_diff else Continue time_diff).

(** One pass of the sending loop: [id], [time_diff], [exp_diff]. *)
Definition send_pass (le : bool) (fuel : nat) (s delay time2run : Z) (tv_start : timeval)
    (st : Z * Z * Z) : P (ctl (Z * Z * Z) Z) :=
  let '(id, time_diff, exp_diff) := st in
  let pld_id := if le then bswap_64 id else id in
  let exp_diff := if 0 <? delay then (Z.quot time_diff delay + 1) * delay else exp_diff in
  w ← loop fuel time_diff (wait_pass tv_start exp_diff);
  match w with
  | inr tt => mret (Return 0) (* the busy loop does not return *)
  | inl time_diff =>
      if time2run <? TE_US2MS time_diff then mret (Break (id, time_diff, exp_diff))
      else
        '(os_rc, errno) ← call (os_send s (payload_bytes le pld_id 255));
        if os_rc <? 0 then
          _ ← call (te_rpc_error_set (TE_OS_RC TE_TA_UNIX errno)); mret (Return (-1))
        else if negb (os_rc =? sizeof_payload) then
          _ ← call (te_rpc_error_set (TE_RC TE_TA_UNIX TE_EMSGSIZE)); mret (Return (-1))
        else mret (Continue (u64 (id + 1), time_diff, exp_diff))
  end.

Definition send_pkts_exact_delay (le : bool) (fuel : nat) (s delay time2run : Z) : P Z :=
  '(rc, tv_start) ← call te_gettimeofday;
  if negb (rc =? 0) then raise (FAIL (Msg "gettimeofday() failed: %r" [AI rc]))
  else
    r ← loop fuel (0, 0, 0) (send_pass le fuel s delay time2run tv_start);
    mret (match r with inl (id, _, _) => s64 id | inr v => v end).

(** *** Receiving them *)

(** One pass of the receiving loop: [last_id], [pkts_count]. *)
Definition recv_pkts_pass (le : bool) (s time2wait : Z) (st : Z * Z) : P (ctl (Z * Z) Z) :=
  let '(last_id, pkts_count) := st in
  '(os_rc, revents, errno) ← call (os_poll s time2wait);
  if os_rc <? 0 then
    _ ← call (te_rpc_error_set (TE_OS_RC TE_TA_UNIX errno)); mret (Return (-1))
  else if os_rc =? 0 then mret (Break st)
  else if negb (revents =? POLLIN) then
    _ ← call (te_rpc_error_set (TE_RC TE_TA_UNIX TE_EFAIL)); mret (Return (-1))
  else
    '(os_rc, pld, errno) ← call (os_recv s sizeof_payload);
    if os_rc <? 0 then
      _ ← call (te_rpc_error_set (TE_OS_RC TE_TA_UNIX errno)); mret (Return (-1))
    else if negb (os_rc =? sizeof_payload) then
      _ ← call (te_rpc_error_set (TE_RC TE_TA_UNIX TE_EMSGSIZE)); mret (Return (-1))
    else
      let pld_id := load le (take 8 pld) in
      let id := if le then bswap_64 pld_id else pld_id in
      if s64 id <? last_id then
        _ ← call (te_rpc_error_set (TE_RC TE_TA_UNIX TE_EILSEQ)); mret (Return (-1))
      else if id =? u64 last_id then
        _ ← call (te_rpc_error_set (TE_RC TE_TA_UNIX TE_EILSEQ)); mret (Return (-1))
      else mret (Continue (s64 id, u64 (pkts_count + 1))).

Definition recv_pkts_exact_delay (le : bool) (fuel : nat) (s time2wait : Z) : P Z :=
  r ← loop fuel (-1, 0) (recv_pkts_pass le s time2wait);
  mret (match r with inl (_, pkts_count) => s64 pkts_count | inr v => v end).

(** *** Too many Rx rules *)

Definition zero_spec : ip_spec := IpSpec [] [] 0 0.

(** The input of the RPC. *)
Record too_many_in := TooManyIn {
  tm_fd : Z; tm_src : sockaddr; tm_dst : sockaddr; tm_type : rpc_socket_type;
  tm_any_location : bool; tm_queues_num : Z }.

(** The state of the adding loops: [location], [rules_count], the vector of
    added locations, and [rule]. *)
Record adding := Adding {
  ad_location : Z; ad_count : Z; ad_added : list Z; ad_rule : ethtool_rxnfc }.

Definition rule_flow (i : too_many_in) (src : sockaddr) : option Z :=
  match tm_type i with
  | RPC_SOCK_DGRAM => Some (if sa_family src =? AF_INET then UDP_V4_FLOW else UDP_V6_FLOW)
  | RPC_SOCK_STREAM => Some (if sa_family src =? AF_INET then TCP_V4_FLOW else TCP_V6_FLOW)
  | RPC_SOCK_OTHER _ => None
  end.

(** The rule before the loops: the masks and the addresses. *)
Definition init_rule (flow : Z) (src dst : sockaddr) : ethtool_rxnfc :=
  let n := if sa_family src =? AF_INET then 4%nat else 16%nat in
  Rxnfc ETHTOOL_SRXCLSRLINS flow (IpSpec (repeat 255 n) (repeat 255 n) 65535 65535)
    (IpSpec (take n (sa_netaddr src)) (take n (sa_netaddr dst)) 0 0) 0 0.

Definition set_ports (le : bool) (src_port dst_port loc cookie : Z) (r : ethtool_rxnfc)
    : ethtool_rxnfc :=
  Rxnfc (nfc_cmd r) (nfc_flow r) (nfc_mask r)
    (IpSpec (sp_src (nfc_hdr r)) (sp_dst (nfc_hdr r)) (htons le src_port) (htons le dst_port))
    (u32 loc) cookie.

(** The body of the inner loop; [Return] is [goto finish] with
    [out->add_errno]. *)
Definition add_rule (le : bool) (i : too_many_in) (src_port dst_port : Z) (st : adding)
    : P (ctl adding (adding * Z)) :=
  queue ← call (os_rand_range 0 (u32 (tm_queues_num i - 1)));
  let rule := set_ports le src_port dst_port (ad_location st) queue (ad_rule st) in
  '(rc, rule, errno) ← call (os_ioctl (tm_fd i) rule);
  if rc <? 0 then mret (Return (Adding (ad_location st) (ad_count st) (ad_added st) rule,
                                te_rc_os2te errno))
  else
    let added := ad_added st ++ [nfc_location rule] in
    let rules_count := u32 (ad_count st + 1) in
    let location := if tm_any_location i then ad_location st else rules_count in
    mret (Continue (Adding location rules_count added rule)).

Definition add_rules_for (le : bool) (i : too_many_in) (src_port : Z) (st : adding)
    : P (ctl adding (adding * Z)) :=
  r ← for_n (Z.to_nat UINT16_MAX) 1 st (add_rule le i src_port);
  mret (match r with inl st => Continue st | inr v => Return v end).

(** One pass of the removing loop: [rule] and [result]. *)
Definition del_rule (i : too_many_in) (loc : Z) (st : ethtool_rxnfc * Z)
    : P (ctl (ethtool_rxnfc * Z) unit) :=
  let '(rule, result) := st in
  let rule := Rxnfc (nfc_cmd rule) (nfc_flow rule) (nfc_mask rule) (nfc_hdr rule) loc
                (nfc_cookie rule) in
  '(rc, rule, errno) ← call (os_ioctl (tm_fd i) rule);
  if rc <? 0 then
    _ ← call (te_rpc_error_set (TE_RC TE_TA_UNIX (te_rc_os2te errno)));
    mret (Continue (rule, -1))
  else mret (Continue (rule, result)).

(** The outputs: [retval], [rules_count] and [add_errno] ([None]: not set). *)
Definition too_many_rx_rules (le : bool) (i : too_many_in) : P (Z * option Z * option Z) :=
  '(err, src_addr) ← call (sockaddr_rpc2h (tm_src i));
  if negb (err =? 0) then
    _ ← call (te_rpc_error_set (TE_RC TE_TA_UNIX err)); mret (-1, None, None)
  else
  '(err, dst_addr) ← call (sockaddr_rpc2h (tm_dst i));
  if negb (err =? 0) then
    _ ← call (te_rpc_error_set (TE_RC TE_TA_UNIX err)); mret (-1, None, None)
  else
  match rule_flow i src_addr with
  | None =>
      _ ← call (te_rpc_error_set (TE_RC TE_TA_UNIX TE_EPFNOSUPPORT)); mret (-1, None, None)
  | Some flow =>
      let location := if tm_any_location i then Z.lor RX_CLS_LOC_ANY RX_CLS_LOC_SPECIAL else 0 in
      r ← for_n (Z.to_nat UINT16_MAX) 1
            (Adding location 0 [] (init_rule flow src_addr dst_addr)) (add_rules_for le i);
      let '(st, add_errno) := match r with
                              | inl st => (st, None)
                              | inr (st, e) => (st, Some e)
                              end in
      let rule := Rxnfc ETHTOOL_SRXCLSRLDEL (nfc_flow (ad_rule st)) zero_spec zero_spec
                    (nfc_location (ad_rule st)) (nfc_cookie (ad_rule st)) in
      r ← foreach (ad_added st) (rule, 0) (del_rule i);
      match r with
      | inl (_, result) => mret (result, Some (ad_count st), add_errno)
      | inr tt => mret (0, None, None) (* the body does not return *)
      end
  end.
End agent.

(** ** The sender *)
Module Sender.
(** What a monitor sees of the sender: the first reading of the clock, the
    last one, their number, the packets sent with the microseconds since the
    first reading, and whether an error was reported. *)
Record ghost := Ghost {
  g_start : option timeval; g_now : timeval; g_reads : Z;
  g_sent : list (Z * list Z); g_err : bool }.

Definition elapsed (g : ghost) : Z :=
  match g_start g with None => 0 | Some t => tv_us (g_now g) - tv_us t end.

Definition upd X (c : os_call X) : X -> ghost -> ghost :=
  match c in os_call X return X -> ghost -> ghost with
  | te_gettimeofday => fun x g =>
      Ghost (match g_start g with None => Some (snd x) | s => s end) (snd x) (g_reads g + 1)
        (g_sent g) (g_err g)
  | os_send _ buf => fun x g =>
      if fst x =? 9 then Ghost (g_start g) (g_now g) (g_reads g) (g_sent g ++ [(elapsed g, buf)]) (g_err g)
      else g
  | te_rpc_error_set _ => fun _ g => Ghost (g_start g) (g_now g) (g_reads g) (g_sent g) true
  | _ => fun _ g => g
  end.

Definition world : env os_call ghost := watch upd.
Definition start : ghost := Ghost None (TV 0 0) 0 [] false.

(** The [k]-th packet. *)
Definition packet (k : Z) : list Z := to_be 8 k ++ [255].

(** Sending moments: after one at [prev], the next comes after the next
    multiple of the delay. *)
Fixpoint paced (delay prev : Z) (ts : list Z) : Prop :=
  match ts with
  | [] => True
  | t :: ts' => (Z.quot prev delay + 1) * delay < t /\ paced delay t ts'
  end.

(** A clock that works, and is not read more than [rate] times in one
    microsecond on the average. *)
Definition ok (rate : Z) X (c : os_call X) : ghost -> X -> Prop :=
  match c in os_call X return ghost -> X -> Prop with
  | te_gettimeofday => fun g x =>
      fst x = 0 /\
      match g_start g with
      | None => True
      | Some t => g_reads g <= rate * (tv_us (snd x) - tv_us t + 1)
      end
  | _ => fun _ _ => True
  end.

Definition ticking (rate : Z) : env os_call ghost := watch_if (ok rate) upd.

(** Passes that are enough for both loops. *)
Definition fuel_for (rate delay time2run : Z) : nat :=
  Z.to_nat (rate * (1000 * Z.max 0 time2run + Z.max 0 delay + 1001) + 2).
End Sender.

Section sender.
Context {TE : Te} {LX : Linux}.
Import Sender.

Lemma last_indep (a b x : Z) ts : List.last (x :: ts) a = List.last (x :: ts) b.
Proof. revert x; induction ts as [|y ts IH]; intros x; [done|]. apply (IH y). Qed.

Lemma last_default (x prev : Z) ts : List.last (x :: ts) prev = List.last ts x.
Proof. destruct ts as [|y ts]; [done|]. apply (last_indep prev x y ts). Qed.

Lemma paced_snoc delay prev ts t :
  paced delay prev (ts ++ [t]) <->
  paced delay prev ts /\ (Z.quot (List.last ts prev) delay + 1) * delay < t.
Proof.
  revert prev; induction ts as [|x ts IH]; intros prev; cbn [app paced].
  - simpl. intuition.
  - rewrite IH, last_default. tauto.
Qed.

(** One packet per slot of the delay. *)
Lemma paced_length delay ts :
  0 < delay -> paced delay 0 ts -> ts <> [] ->
  Z.of_nat (length ts) * delay < List.last ts 0.
Proof.
  intros Hd. induction ts as [|t ts IH] using rev_ind; [done|]. intros Hp _.
  apply paced_snoc in Hp as [Hp Ht]. rewrite last_last, length_app. cbn [length].
  destruct ts as [|t0 ts0]; [cbn [List.last] in Ht; rewrite Z.quot_0_l in Ht by lia; simpl; lia|].
  specialize (IH Hp). set (n := Z.of_nat (length (t0 :: ts0))) in *.
  assert (n * delay < List.last (t0 :: ts0) 0) as HL by (by apply IH).
  assert (n <= Z.quot (List.last (t0 :: ts0) 0) delay).
  { apply Z.quot_le_lower_bound; lia. }
  nia.
Qed.

Lemma packet_u64 k : packet (u64 k) = packet k.
Proof.
  unfold packet, to_be. do 2 f_equal. unfold u64. change (2 ^ 64) with (256 ^ Z.of_nat 8).
  rewrite <- of_to_le. apply to_of_le_len; [apply length_to_le|apply to_le_bytes].
Qed.

(** What was sent so far: consecutive packets, in time, at the pace asked for. *)
Definition sent_ok (delay time2run : Z) (g : ghost) : Prop :=
  map snd (g_sent g) = map packet (seqZ 0 (Z.of_nat (length (g_sent g)))) /\
  (0 < delay -> paced delay 0 (map fst (g_sent g))) /\
  Forall (fun t => TE_US2MS t <= time2run) (map fst (g_sent g)).

Definition send_inv (delay time2run : Z) (tv_start : timeval) (st : Z * Z * Z) (g : ghost) : Prop :=
  let '(id, time_diff, _) := st in
  g_start g = Some tv_start /\ g_err g = false /\
  id = u64 (Z.of_nat (length (g_sent g))) /\
  time_diff = List.last (map fst (g_sent g)) 0 /\
  sent_ok delay time2run g.

Lemma wait_wp fuel tv_start exp_diff td g0 :
  g_start g0 = Some tv_start ->
  wp world (loop fuel td (wait_pass tv_start exp_diff)) g0
    (fun r g => g_start g = g_start g0 /\ g_sent g = g_sent g0 /\ g_err g = g_err g0 /\
       match r with
       | Val (inl td) => td = elapsed g /\ exp_diff < td
       | Val (inr _) | Undef _ => False
       | _ => True
       end).
Proof.
  intros Hs.
  apply (wp_loop _ _ _ _ _ _ (fun _ _ g =>
           g_start g = g_start g0 /\ g_sent g = g_sent g0 /\ g_err g = g_err g0)); [done| |tauto].
  intros n st g (H1 & H2 & H3). rewrite Hs in H1.
  unfold wait_pass. wp_go; cbn [upd g_start g_sent g_err snd] in *; rewrite ?H1, ?Hs; try done.
  destruct (Z.ltb_spec exp_diff (TIMEVAL_SUB t tv_start)); [|done].
  repeat split; [done..|unfold elapsed; simpl; rewrite ?H1; simpl; apply timeval_sub_us|done].
Qed.

Lemma sent_ok_snoc delay time2run g t k :
  k = Z.of_nat (length (g_sent g)) -> sent_ok delay time2run g ->
  (0 < delay -> (Z.quot (List.last (map fst (g_sent g)) 0) delay + 1) * delay < t) ->
  TE_US2MS t <= time2run ->
  sent_ok delay time2run
    (Ghost (g_start g) (g_now g) (g_reads g) (g_sent g ++ [(t, packet k)]) (g_err g)).
Proof.
  intros -> (H1 & H2 & H3) Ht Hr. unfold sent_ok; cbn [g_sent].
  rewrite !map_app, length_app, Nat2Z.inj_add, seqZ_app, map_app, H1 by lia.
  split; [done|]. split; [|by apply Forall_app; split; [|constructor]].
  intros Hd. apply paced_snoc. auto.
Qed.

Lemma send_pass_wp le fuel s delay time2run tv_start st g Q :
  send_inv delay time2run tv_start st g ->
  (forall g, Q NoFuel g) ->
  (forall j g, Q (Exc j) g) ->
  (forall id td ed g, sent_ok delay time2run g -> g_err g = false ->
     id = u64 (Z.of_nat (length (g_sent g))) -> Q (Val (inl (id, td, ed))) g) ->
  (forall g, sent_ok delay time2run g -> g_err g = true -> Q (Val (inr (-1))) g) ->
  wp world (send_pass le fuel s delay time2run tv_start st) g
    (lpost (R := Z) (send_inv delay time2run tv_start) Q).
Proof.
  destruct st as [[id td] ed]. intros (Hs & He & Hid & Htd & Hok) Hn Hj Hb Hr.
  unfold send_pass. set (exp := if 0 <? delay then _ else _).
  wp_step. eapply wp_mono; [by apply wait_wp|].
  intros r g1 (E1 & E2 & E3 & Hw). destruct r as [[td'|[]]|j|w|]; try done; cbn [bpost].
  2:by apply Hj. 2:by apply Hn.
  destruct Hw as [Htd' Hexp].
  assert (Hok1 : sent_ok delay time2run g1) by (unfold sent_ok in *; by rewrite E2).
  unfold payload_bytes. rewrite store_swapped.
  wp_go; cbn [upd fst g_err g_sent] in *; autorewrite with zbool in *.
  - apply Hb; [done|by rewrite E3|by rewrite E2].
  - replace (z =? 9) with false by (symmetry; apply Z.eqb_neq; lia). by apply Hr.
  - destruct (Z.eqb_spec z 9); [done|]. by apply Hr.
  - unfold sizeof_payload in *. subst z. rewrite Z.eqb_refl. unfold send_inv; cbn [g_start g_err g_sent].
    rewrite map_app, length_app. cbn [length map fst]. rewrite last_last.
    assert (Hpk : to_be 8 id ++ [255] = packet (Z.of_nat (length (g_sent g1)))).
    { rewrite E2, <- packet_u64, <- Hid. done. }
    rewrite Hpk. split; [congruence|]. split; [congruence|]. split; [|split; [done|]].
    + rewrite Hid, E2. unfold u64. rewrite Nat2Z.inj_add, Zplus_mod_idemp_l. done.
    + rewrite <- Htd'. apply sent_ok_snoc; [done|done| |lia].
      intros Hd. unfold exp in Hexp. destruct (Z.ltb_spec 0 delay); [|lia].
      rewrite E2, <- Htd. lia.
Qed.

Lemma send_wp le fuel s delay time2run :
  wp world (send_pkts_exact_delay le fuel s delay time2run) start
    (on_val (fun v g => sent_ok delay time2run g /\
       v = (if g_err g then -1 else s64 (Z.of_nat (length (g_sent g)))))).
Proof.
  unfold send_pkts_exact_delay. wp_go; [done|]. cbn [upd start snd g_start].
  apply (wp_loop _ _ _ _ _ _ (fun _ => send_inv delay time2run t)); [|
    |intros; exact I].
  - repeat split; simpl; auto.
  - intros n st g HI. apply send_pass_wp; [done|done|done| |]; simpl.
    + intros id _ _ g' Hok He ->. rewrite He. split; [done|].
      unfold s64, sx, u64. by rewrite Z.mod_mod by lia.
    + intros g' Hok He. by rewrite He.
Qed.

(** The pace bounds the number of packets. *)
Lemma sent_ok_bound delay time2run g :
  sent_ok delay time2run g -> 0 < delay ->
  let n := Z.of_nat (length (g_sent g)) in n = 0 \/ n * delay < 1000 * time2run + 1000.
Proof.
  intros (_ & Hp & Hr) Hd n. destruct (g_sent g) as [|x l] eqn:El; [by left|right].
  pose proof (paced_length delay (map fst (x :: l)) Hd (Hp Hd) ltac:(done)) as Hl.
  rewrite length_map in Hl. fold n in Hl.
  assert (TE_US2MS (List.last (map fst (x :: l)) 0) <= time2run) as Hle.
  { rewrite Forall_forall in Hr. apply Hr. apply list_elem_of_In.
    rewrite (app_removelast_last 0) at 2 by done. apply in_or_app. right. by left. }
  pose proof (te_us2ms_close (List.last (map fst (x :: l)) 0)). lia.
Qed.

(** C13. The sender in any environment: whenever it returns, the packets it
    handed over are numbered 0, 1, 2, ... in network byte order with a last
    byte 0xff on machines of either byte order, none was sent after the time
    asked for, at most one was sent in each slot of the delay (so their
    number is bounded by the running time), and the value is the number of
    packets, or -1 exactly when an error was reported. *)
Theorem send_pkts_exact_delay_correct le fuel s delay time2run :
  wp world (send_pkts_exact_delay le fuel s delay time2run) start
    (on_val (fun v g =>
       let n := Z.of_nat (length (g_sent g)) in
       map snd (g_sent g) = map packet (seqZ 0 n) /\
       Forall (fun t => TE_US2MS t <= time2run) (map fst (g_sent g)) /\
       (0 < delay ->
          paced delay 0 (map fst (g_sent g)) /\
          (n = 0 \/ n * delay < 1000 * time2run + 1000)) /\
       v = (if g_err g then -1 else s64 n))).
Proof.
  eapply wp_mono; [apply send_wp|]. intros [v| | |] g Hv; [|done..].
  destruct Hv as [Hok Hv]. pose proof Hok as (H1 & H2 & H3).
  split; [done|]. split; [done|]. split; [|done]. intros Hd. split; [auto|].
  by apply sent_ok_bound.
Qed.

(** *** Termination *)

Definition returned {A S} (r : result A) (_ : S) : Prop :=
  match r with Val _ => True | _ => False end.

(** The clock is not ahead of its readings: [td] is a number of microseconds
    that accounts for all of them. *)
Definition accounted (rate : positive) (tv_start : timeval) (td : Z) (g : ghost) : Prop :=
  g_start g = Some tv_start /\ g_reads g - 1 <= Zpos rate * (td + 1).

Lemma wait_ticking (rate : positive) fuel tv_start exp_diff td g0 :
  0 <= exp_diff -> Zpos rate * (exp_diff + 1) + 1 < Z.of_nat fuel ->
  g_start g0 = Some tv_start -> 1 <= g_reads g0 ->
  wp (ticking (Zpos rate)) (loop fuel td (wait_pass tv_start exp_diff)) g0
    (fun r g => match r with
       | Val (inl td) => exp_diff < td /\ accounted rate tv_start td g /\ g_reads g0 < g_reads g
       | _ => False
       end).
Proof.
  intros H0 Hf Hs Hr.
  apply (wp_loop _ _ _ _ _ _ (fun n _ g =>
    g_start g = Some tv_start /\ Z.of_nat fuel - Z.of_nat n <= g_reads g - g_reads g0 /\ (n <= fuel)%nat /\
    (n = fuel \/ g_reads g - 1 <= Zpos rate * (exp_diff + 1)))).
  - split; [done|]. split; [lia|]. split; [lia|by left].
  - intros n st g (H1 & H2 & Hle & H3). unfold wait_pass. wp_go.
    all: cbn [ok upd fst snd] in *; rewrite H1 in *; destruct H as [-> Hok]; try done.
    rewrite timeval_sub_us. destruct (Z.ltb_spec exp_diff (tv_us t - tv_us tv_start)); simpl.
    + unfold accounted; simpl. rewrite ?H1. split; [done|]. split; [split; [done|lia]|lia].
    + split; [by rewrite ?H1|]. split; [lia|]. split; [lia|right]. nia.
  - intros st g (H1 & H2 & Hle & [E|H3]); [subst fuel|]; lia.
Qed.

Lemma quot_next td delay : 0 <= td -> 0 < delay ->
  0 <= (Z.quot td delay + 1) * delay <= td + delay.
Proof.
  intros H0 Hd. pose proof (Z.mul_quot_le td delay H0 ltac:(lia)).
  pose proof (Z.quot_pos td delay H0 Hd). nia.
Qed.

(** C14. Termination: with a clock that works and is read at most [rate]
    times in a microsecond on the average, both loops end within
    [fuel_for rate delay time2run] passes and the function returns, for any
    delay and running time, negative ones too. *)
Theorem send_pkts_exact_delay_terminates (rate : positive) le s delay time2run extra :
  wp (ticking (Zpos rate))
     (send_pkts_exact_delay le (fuel_for (Zpos rate) delay time2run + extra) s delay time2run)
     start returned.
Proof.
  set (F := (fuel_for _ _ _ + extra)%nat).
  set (B := 1000 * Z.max 0 time2run + 1000).
  assert (HF : Zpos rate * (B + Z.max 0 delay + 1) + 1 < Z.of_nat F).
  { unfold F, fuel_for, B. nia. }
  unfold send_pkts_exact_delay. wp_go; cbn [ok upd fst snd start g_start] in *;
    destruct H as [-> _]; [done|].
  apply (wp_loop _ _ _ _ _ _ (fun n st g =>
    let '(id, td, ed) := st in
    accounted rate t td g /\ 1 <= g_reads g /\ Z.of_nat F - Z.of_nat n <= g_reads g - 1 /\ 0 <= td <= B /\
    (delay <= 0 -> ed = 0))); [|
    |intros [[id td] ed] g ((_ & H1) & _ & H2 & H3 & _); simpl; nia].
  - unfold accounted; simpl. repeat split; lia.
  - intros n [[id td] ed] g ((Hs & Ha) & H1 & Hn & Htd & Hed). unfold send_pass. wp_step.
    set (exp := if 0 <? delay then _ else _).
    assert (Hexp : 0 <= exp <= B + Z.max 0 delay).
    { unfold exp. destruct (Z.ltb_spec 0 delay); [pose proof (quot_next td delay)|]; lia. }
    eapply wp_mono; [apply (wait_ticking rate); [lia|nia|done|lia]|].
    intros r g1 Hw. destruct r as [[td'|]| | |]; try done.
    destruct Hw as (Hlt & (Hs1 & Ha1) & Hr1).
    wp_go; cbn [upd fst] in *; autorewrite with zbool in *; try done.
    pose proof (te_us2ms_close td').
    assert (Hed' : delay <= 0 -> exp = 0).
    { unfold exp. destruct (Z.ltb_spec 0 delay); [lia|done]. }
    unfold accounted. destruct (z =? 9); cbn [g_start g_reads];
      (split; [split; [done|lia]|]); (split; [lia|]); (split; [lia|]);
      (split; [unfold B; lia|done]).
Qed.
End sender.

(** ** The receiver *)
Module Receiver.
(** What happens at the socket next: [poll] fails, it reports more than
    [POLLIN], or [recv] returns [n] with some bytes.  When nothing is left,
    [poll] times out. *)
Inductive event := PollFails (p : positive) | Hup (p : positive) | Recv (n : Z) (data : list Z).

Definition answers {LX : Linux} : handler os_call (list event) := fun X c =>
  match c in os_call X return list event -> X * list event with
  | te_gettimeofday => fun l => ((0, TV 0 0), l)
  | os_send _ buf => fun l => ((Z.of_nat (length buf), 0), l)
  | os_poll _ _ => fun l =>
      match l with
      | [] => ((0, 0, 0), [])
      | PollFails p :: _ => ((Zneg p, 0, 4), l)
      | Hup p :: _ => ((1, POLLIN + Zpos p, 0), l)
      | Recv _ _ :: _ => ((1, POLLIN, 0), l)
      end
  | os_recv _ _ => fun l =>
      match l with
      | Recv n data :: l' => ((n, data, 11), l')
      | _ => ((-1, [], 11), l)
      end
  | os_ioctl _ r => fun l => ((0, r, 0), l)
  | os_rand_range lo _ => fun l => (lo, l)
  | sockaddr_rpc2h a => fun l => ((0, a), l)
  | te_rpc_error_set _ => fun l => (tt, l)
  end.

(** A [recv] that returns 9 stored nine bytes. *)
Definition stored (e : event) : Prop :=
  match e with Recv 9 data => Forall is_byte data /\ length data = 9%nat | _ => True end.

(** The packet ids, when every event is a whole packet. *)
Fixpoint ids (evs : list event) : option (list Z) :=
  match evs with
  | [] => Some []
  | Recv n data :: evs' =>
      if n =? 9 then option_map (cons (of_be (take 8 data))) (ids evs') else None
  | _ :: _ => None
  end.

(** The ids, read as signed, increase from [last] on. *)
Fixpoint increasing (last : Z) (l : list Z) : bool :=
  match l with [] => true | id :: l' => (last <? s64 id) && increasing (s64 id) l' end.

(** What the receiver should say of a sequence of events. *)
Definition verdict_of (evs : list event) : Z :=
  match ids evs with
  | Some l => if increasing (-1) l then s64 (Z.of_nat (length evs)) else -1
  | None => -1
  end.
End Receiver.

Section receiver.
Context {TE : Te} {LX : Linux}.
Import Receiver.

(** The two tests of the code are one comparison. *)
Lemma seq_tests id last : -1 <= last < 2 ^ 63 -> 0 <= id < 2 ^ 64 ->
  (s64 id <? last) || (id =? u64 last) = negb (last <? s64 id).
Proof.
  intros Hl Hi. unfold s64, sx, u64. rewrite (Z.mod_small id) by lia.
  change (2 ^ (64 - 1)) with (2 ^ 63).
  destruct (decide (last = -1)) as [->|]; [change (-1 mod 2 ^ 64) with (2 ^ 64 - 1)
    |rewrite (Z.mod_small last) by lia].
  all: destruct (Z.ltb_spec id (2 ^ 63)); repeat (case_zbool; simpl); lia || done.
Qed.

Lemma s64_bounds z : - 2 ^ 63 <= s64 z < 2 ^ 63.
Proof.
  unfold s64, sx. change (64 - 1) with 63. pose proof (Z.mod_pos_bound z (2 ^ 64)).
  destruct (Z.ltb_spec (z mod 2 ^ 64) (2 ^ 63)); lia.
Qed.

Lemma s64_u64 z : s64 (u64 z) = s64 z.
Proof. unfold s64, sx, u64. by rewrite Z.mod_mod by lia. Qed.

Definition verdict_from (last count : Z) (evs : list event) : Z :=
  match ids evs with
  | Some l => if increasing last l then s64 (count + Z.of_nat (length evs)) else -1
  | None => -1
  end.

Lemma recv_loop le s t extra evs last count :
  Forall stored evs -> -1 <= last < 2 ^ 63 ->
  exists r l, run answers (loop (S (length evs + extra)) (last, count) (recv_pkts_pass le s t)) evs
    = (Val r, l) /\
    (match r with inl (_, c) => s64 c | inr v => v end) = verdict_from last count evs.
Proof.
  revert last count; induction evs as [|e evs IH]; intros last count Hst Hlast.
  - eexists _, _. split; [reflexivity|]. unfold verdict_from; simpl. by rewrite Z.add_0_r.
  - apply Forall_cons in Hst as [He Hst].
    change (loop (S (length (e :: evs) + extra)) (last, count) (recv_pkts_pass le s t))
      with (recv_pkts_pass le s t (last, count) ≫= (fun c : ctl (Z * Z) Z =>
        match c with
        | Continue st' => loop (S (length evs + extra)) st' (recv_pkts_pass le s t)
        | Break st' => mret (inl st') | Return r => mret (inr r) end)).
    rewrite run_bind. unfold verdict_from. cbn [ids].
    destruct e as [p|p|n data]; [eexists _, _; split; reflexivity|..].
    { cbn -[Z.add]. replace (POLLIN + Z.pos p =? POLLIN) with false
        by (symmetry; apply Z.eqb_neq; lia). eexists _, _; split; reflexivity. }
    cbn -[loop Z.eqb Z.ltb load s64 u64 bswap_64 take].
    change (1 <? 0) with false; change (1 =? 0) with false. cbv iota. rewrite Z.eqb_refl.
    cbn -[loop Z.eqb Z.ltb load s64 u64 bswap_64 take].
    unfold sizeof_payload. destruct (Z.eqb_spec n 9) as [->|Hn].
    2:{ destruct (Z.ltb_spec n 0); [eexists _, _; split; reflexivity|]. eexists _, _; split; reflexivity. }
    destruct He as [Hb Hlen].
    assert (Hb8 : Forall is_byte (take 8 data)) by (by apply Forall_take).
    assert (Hl8 : length (take 8 data) = 8%nat) by (rewrite length_take; lia).
    cbn -[loop Z.eqb Z.ltb load s64 u64 bswap_64 take].
    rewrite load_swapped by done. set (id := of_be (take 8 data)).
    assert (Hid : 0 <= id < 2 ^ 64).
    { unfold id, of_be. pose proof (of_le_range (rev (take 8 data)) ltac:(by apply Forall_rev)) as Hr.
      rewrite length_rev, Hl8 in Hr. exact Hr. }
    pose proof (seq_tests id last Hlast Hid) as Ht.
    destruct (Z.ltb_spec (s64 id) last) as [H1|H1]; simpl orb in Ht.
    { cbn -[Z.ltb s64]. destruct (ids evs); simpl; [|eexists _, _; split; reflexivity].
      rewrite <- (Bool.negb_involutive (last <? s64 id)), <- Ht. eexists _, _; split; reflexivity. }
    destruct (id =? u64 last).
    { cbn -[Z.ltb s64]. destruct (ids evs); simpl; [|eexists _, _; split; reflexivity].
      rewrite <- (Bool.negb_involutive (last <? s64 id)), <- Ht. eexists _, _; split; reflexivity. }
    cbn -[Z.ltb s64 loop u64 length Nat.add].
    assert (last < s64 id) by (destruct (Z.ltb_spec last (s64 id)); [done|discriminate Ht]).
    destruct (IH (s64 id) (u64 (count + 1)) Hst ltac:(pose proof (s64_bounds id); lia))
      as (r & l & Hrun & Hr).
    exists r, l. split; [exact Hrun|]. rewrite Hr. unfold verdict_from.
    destruct (ids evs); cbn -[s64 Z.of_nat]; [|done].
    replace (last <? s64 id) with true by (symmetry; apply Z.ltb_lt; lia). simpl andb.
    destruct (increasing (s64 id) l0); [|done].
    rewrite <- s64_u64, <- (s64_u64 (count + _)). f_equal. unfold u64.
    rewrite Zplus_mod_idemp_l, Nat2Z.inj_succ. f_equal. lia.
Qed.

(** C15. The receiver, exactly: whatever happens at the socket, it returns
    the number of packets when every event was a whole packet and the ids, as
    signed numbers, increase from -1 on, and -1 otherwise; on machines of
    either byte order.  One pass per event and one for the timeout is enough. *)
Theorem recv_pkts_exact_delay_correct le s t extra evs :
  Forall stored evs ->
  fst (run answers (recv_pkts_exact_delay le (S (length evs + extra)) s t) evs)
    = Val (verdict_of evs).
Proof.
  intros Hst. unfold recv_pkts_exact_delay. rewrite run_bind.
  destruct (recv_loop le s t extra evs (-1) 0 Hst ltac:(lia)) as (r & l & -> & Hr).
  cbn. f_equal. rewrite Hr. done.
Qed.

(** Packets of the sender, delivered whole. *)
Definition delivered (pkts : list (list Z)) : list event := map (Recv 9) pkts.

Lemma packet_bytes k : Forall is_byte (Sender.packet k) /\ length (Sender.packet k) = 9%nat.
Proof.
  unfold Sender.packet. split.
  - apply Forall_app; split; [apply Forall_rev, to_le_bytes|]. constructor; [|done].
    unfold is_byte; lia.
  - by rewrite length_app, length_to_be.
Qed.

Lemma packet_id k : of_be (take 8 (Sender.packet k)) = u64 k.
Proof.
  unfold Sender.packet. rewrite take_app_le by (by rewrite length_to_be).
  rewrite take_ge by (by rewrite length_to_be). by rewrite of_to_be.
Qed.

Lemma ids_delivered ks :
  ids (delivered (map Sender.packet ks)) = Some (map u64 ks).
Proof. induction ks as [|k ks IH]; [done|].
  change (option_map (cons (of_be (take 8 (Sender.packet k)))) (ids (delivered (map Sender.packet ks)))
          = Some (map u64 (k :: ks))).
  by rewrite IH, packet_id.
Qed.

Lemma increasing_sublist ks : forall a n, -1 <= a -> a + Z.of_nat n < 2 ^ 63 ->
  sublist ks (seqZ (a + 1) (Z.of_nat n)) -> increasing a (map u64 ks) = true.
Proof.
  intros a n; revert ks a; induction n as [|n IH]; intros ks a Ha Hn Hs.
  - apply sublist_nil_r in Hs as ->. done.
  - rewrite seqZ_cons in Hs by lia.
    replace (Z.pred (Z.of_nat (S n))) with (Z.of_nat n) in Hs by lia.
    replace (Z.succ (a + 1)) with (a + 1 + 1) in Hs by lia.
    inversion Hs as [|x l1 l2 Hl|x l1 l2 Hl]; subst.
    + cbn [map increasing]. rewrite s64_u64, s64_id by lia.
      rewrite (IH l1 (a + 1)) by (lia || done). rewrite Bool.andb_true_r. apply Z.ltb_lt. lia.
    + assert (Hw : forall l b c, c <= b -> increasing b l = true -> increasing c l = true).
      { intros [|i l] b c Hbc; simpl; [done|]. rewrite !Bool.andb_true_iff, !Z.ltb_lt.
        intros [? ?]; split; [lia|done]. }
      apply (Hw _ (a + 1)); [lia|]. by apply IH; [lia|lia|].
Qed.

Lemma sublist_map_inv {A B} (f : A -> B) (l : list B) (ks : list A) :
  sublist l (map f ks) -> exists ks', l = map f ks' /\ sublist ks' ks.
Proof.
  revert l; induction ks as [|k ks IH]; intros l Hl; simpl in Hl.
  - apply sublist_nil_r in Hl as ->. by exists [].
  - inversion Hl as [|x l1 l2 H|x l1 l2 H]; subst; destruct (IH _ H) as (ks' & -> & Hs).
    + exists (k :: ks'). split; [done|]. by constructor.
    + exists ks'. split; [done|]. by constructor.
Qed.

(** C16. The two RPCs agree.  Let the sender run in any environment and any
    part of its packets arrive in order, all the others being lost: the
    receiver returns exactly the number that arrived.  So it returns the
    sender's value when nothing is lost, less otherwise, never an error, also
    between machines of different byte order. *)
Theorem exact_delay_send_recv le le' fuel s s' delay time2run time2wait :
  wp Sender.world (send_pkts_exact_delay le fuel s delay time2run) Sender.start
    (on_val (fun v g => forall pkts,
       Z.of_nat (length (Sender.g_sent g)) < 2 ^ 63 ->
       sublist pkts (map snd (Sender.g_sent g)) ->
       fst (run answers (recv_pkts_exact_delay le' (S (length pkts)) s' time2wait) (delivered pkts))
         = Val (Z.of_nat (length pkts)) /\
       (pkts = map snd (Sender.g_sent g) -> v <> -1 -> v = Z.of_nat (length pkts)))).
Proof.
  eapply wp_mono; [apply send_wp|]. intros [v| | |] g Hv; [|done..].
  intros pkts Hlen Hsub. destruct Hv as [(Hp & _) Hv].
  assert (Hbound : forall n, Z.of_nat n < 2 ^ 63 -> s64 (Z.of_nat n) = Z.of_nat n)
    by (intros; apply s64_id; lia).
  split.
  - assert (Hle : (length pkts <= length (Sender.g_sent g))%nat).
    { apply sublist_length in Hsub. by rewrite length_map in Hsub. }
    rewrite Hp in Hsub. apply sublist_map_inv in Hsub as (ks & -> & Hks).
    unfold recv_pkts_exact_delay. rewrite run_bind.
    destruct (recv_loop le' s' time2wait 0 (delivered (map Sender.packet ks)) (-1) 0)
      as (r & l & Hrun & Hr); [|lia|].
    { unfold delivered. rewrite map_map. apply Forall_forall. intros e He.
      apply list_elem_of_In, in_map_iff in He as (k & <- & _). apply packet_bytes. }
    unfold delivered in Hrun. rewrite !length_map, Nat.add_0_r in Hrun.
    rewrite length_map. unfold delivered. rewrite Hrun. cbn. rewrite Hr.
    unfold verdict_from. rewrite ids_delivered.
    rewrite (increasing_sublist ks (-1) (length (Sender.g_sent g))) by (lia || done).
    unfold delivered. rewrite !length_map, Z.add_0_l. rewrite length_map in Hle. rewrite Hbound by lia. done.
  - intros -> Hne. rewrite length_map. destruct (Sender.g_err g); [done|]. rewrite Hv. by apply Hbound.
Qed.
End receiver.

Section receiver_witness.
Local Instance linux_ref : Linux := {
  ETHTOOL_SRXCLSRLINS := 50; ETHTOOL_SRXCLSRLDEL := 49;
  UDP_V4_FLOW := 2; UDP_V6_FLOW := 6; TCP_V4_FLOW := 1; TCP_V6_FLOW := 5;
  RX_CLS_LOC_ANY := 4294967295; RX_CLS_LOC_SPECIAL := 2147483648; POLLIN := 1;
  linux_ins_del := ltac:(discriminate) }.
Import Receiver.

(** Two packets with a hole between them, then a duplicate. *)
Definition ex_events : list event :=
  delivered [Sender.packet 0; Sender.packet 5; Sender.packet 5].

Lemma recv_pkts_exact_delay_witness :
  Forall stored ex_events /\
  fst (run answers (recv_pkts_exact_delay (TE := te_ref) true 4 7 1000) ex_events) = Val (-1) /\
  fst (run answers (recv_pkts_exact_delay (TE := te_ref) true 3 7 1000) (take 2 ex_events)) = Val 2.
Proof.
  assert (H : Forall stored ex_events)
    by (repeat constructor; vm_compute; congruence).
  split; [exact H|]. split.
  - exact (recv_pkts_exact_delay_correct (TE := te_ref) true 7 1000 0 ex_events H).
  - exact (recv_pkts_exact_delay_correct (TE := te_ref) true 7 1000 0 (take 2 ex_events)
             (Forall_take _ _ _ H)).
Defined.
End receiver_witness.

(** ** Adding and removing rules *)
Module Rules.
(** What a monitor sees: the rules asked for (location, source and
    destination port, queue), the locations the kernel reported for those it
    accepted, the locations removed, whether some removal failed. *)
Record asked := Asked { as_loc : Z; as_src : Z; as_dst : Z; as_queue : Z }.
Record ghost := Ghost {
  g_asked : list asked; g_locs : list Z; g_deleted : list Z; g_failed : bool }.
Definition start : ghost := Ghost [] [] [] false.

(** Whether the kernel refused a rule ([add_errno] was written). *)
Definition refused (add_errno : option Z) : bool :=
  match add_errno with Some _ => true | None => false end.

Section monitor.
Context {LX : Linux}.

Definition asked_of (r : ethtool_rxnfc) : asked :=
  Asked (nfc_location r) (sp_psrc (nfc_hdr r)) (sp_pdst (nfc_hdr r)) (nfc_cookie r).

Definition upd X (c : os_call X) : X -> ghost -> ghost :=
  match c in os_call X return X -> ghost -> ghost with
  | os_ioctl _ r => fun x g =>
      let '(rc, r', _) := x in
      if nfc_cmd r =? ETHTOOL_SRXCLSRLINS then
        Ghost (g_asked g ++ [asked_of r])
          (if rc <? 0 then g_locs g else g_locs g ++ [nfc_location r'])
          (g_deleted g) (g_failed g)
      else if nfc_cmd r =? ETHTOOL_SRXCLSRLDEL then
        Ghost (g_asked g) (g_locs g) (g_deleted g ++ [nfc_location r]) (g_failed g || (rc <? 0))
      else g
  | _ => fun _ g => g
  end.

(** Documented behaviour: the ioctl writes nothing but the location (an
    unsigned 32-bit field) back, [rand_range] stays in its range. *)
Definition ok X (c : os_call X) : ghost -> X -> Prop :=
  match c in os_call X return ghost -> X -> Prop with
  | os_ioctl _ r => fun _ x =>
      let r' := snd (fst x) in
      nfc_cmd r' = nfc_cmd r /\ nfc_flow r' = nfc_flow r /\ nfc_mask r' = nfc_mask r /\
      nfc_hdr r' = nfc_hdr r /\ nfc_cookie r' = nfc_cookie r
  | os_rand_range lo hi => fun _ x => lo <= x <= hi
  | _ => fun _ _ => True
  end.

Definition world : env os_call ghost := watch_if ok upd.
End monitor.

(** The [k]-th rule asked for. *)
Definition nth_ports (le : bool) (k : Z) : Z * Z :=
  (htons le (k / UINT16_MAX + 1), htons le (k mod UINT16_MAX + 1)).
Definition nth_loc {LX : Linux} (any : bool) (k : Z) : Z :=
  if any then u32 (Z.lor RX_CLS_LOC_ANY RX_CLS_LOC_SPECIAL) else k.
End Rules.

Section rules.
Context {TE : Te} {LX : Linux}.
Import Rules.

(** The rules asked for so far. *)
Definition asked_ok (le : bool) (i : too_many_in) (g : ghost) : Prop :=
  let ks := seqZ 0 (Z.of_nat (length (g_asked g))) in
  map (fun a => (as_src a, as_dst a)) (g_asked g) = map (nth_ports le) ks /\
  map as_loc (g_asked g) = map (nth_loc (tm_any_location i)) ks /\
  Forall (fun a => 0 <= as_queue a <= u32 (tm_queues_num i - 1)) (g_asked g).

(** The state of the loops after [k] accepted rules. *)
Definition adding_ok (le : bool) (i : too_many_in) (k : Z) (st : adding) (g : ghost) : Prop :=
  asked_ok le i g /\ k = Z.of_nat (length (g_locs g)) /\
  ad_added st = g_locs g /\ ad_count st = k /\
  nfc_cmd (ad_rule st) = ETHTOOL_SRXCLSRLINS /\ g_deleted g = [] /\ g_failed g = false.

Definition add_inv (le : bool) (i : too_many_in) (k : Z) (st : adding) (g : ghost) : Prop :=
  adding_ok le i k st g /\ Z.of_nat (length (g_asked g)) = k /\
  u32 (ad_location st) = nth_loc (tm_any_location i) k.

(** How the loops may end: one rule more asked for than accepted if the
    kernel refused the last. *)
Definition added (le : bool) (i : too_many_in) (st : adding) (last_refused : bool) (g : ghost) : Prop :=
  let k := Z.of_nat (length (g_locs g)) in
  adding_ok le i k st g /\ Z.of_nat (length (g_asked g)) <= UINT16_MAX * UINT16_MAX /\
  length (g_asked g) = (length (g_locs g) + if last_refused then 1 else 0)%nat.

Lemma asked_ok_snoc le i g a locs del f k :
  asked_ok le i g -> Z.of_nat (length (g_asked g)) = k ->
  (as_src a, as_dst a) = nth_ports le k -> as_loc a = nth_loc (tm_any_location i) k ->
  0 <= as_queue a <= u32 (tm_queues_num i - 1) ->
  asked_ok le i (Ghost (g_asked g ++ [a]) locs del f).
Proof.
  intros (H1 & H2 & H3) Hk Hp Hl Hq. unfold asked_ok; cbn [g_asked].
  rewrite !map_app, length_app, Nat2Z.inj_add, seqZ_app, !map_app, H1, H2 by lia.
  rewrite Z.add_0_l. cbn [length map]. change (Z.of_nat 1) with 1.
  rewrite seqZ_one. cbn [map]. rewrite Hk, Hp, Hl.
  split; [done|]. split; [done|]. apply Forall_app; split; [done|by constructor].
Qed.

Lemma nth_ports_eq le s d : 1 <= d <= UINT16_MAX ->
  nth_ports le ((s - 1) * UINT16_MAX + (d - 1)) = (htons le s, htons le d).
Proof.
  intros Hd. unfold nth_ports, UINT16_MAX in *.
  rewrite Z.div_add_l, Z.div_small by lia.
  rewrite (Z.add_comm ((s - 1) * 65535)), Z.mod_add, Z.mod_small by lia. f_equal; f_equal; lia.
Qed.

Lemma add_rule_wp le i s d st g Q :
  1 <= s <= UINT16_MAX -> 1 <= d <= UINT16_MAX ->
  add_inv le i ((s - 1) * UINT16_MAX + (d - 1)) st g ->
  (forall st e g, added le i st true g -> Q (Val (inr (st, e))) g) ->
  wp world (add_rule le i s d st) g
    (lpost (add_inv le i ((s - 1) * UINT16_MAX + (d + 1 - 1))) Q).
Proof.
  intros Hs Hd. set (k := (s - 1) * UINT16_MAX + (d - 1)).
  assert (Hk : 0 <= k < UINT16_MAX * UINT16_MAX) by (unfold k, UINT16_MAX in *; lia).
  intros ((Ha & Hl & Hadd & Hc & Hcmd & Hdel & Hf) & Hn & Hloc) Hr.
  unfold add_rule. wp_go; cbn [ok upd] in *; autorewrite with zbool in *.
  all: cbn [nfc_cmd set_ports]; rewrite Hcmd, Z.eqb_refl.
  all: assert (Hok : forall locs,
    asked_ok le i (Ghost (g_asked g ++
      [asked_of (set_ports le s d (ad_location st) x (ad_rule st))]) locs (g_deleted g) (g_failed g)))
    by (intros; eapply asked_ok_snoc; [done|done| |by simpl|by simpl];
        unfold k; rewrite nth_ports_eq by done; done).
  - replace (z0 <? 0) with true by (symmetry; apply Z.ltb_lt; lia). apply Hr.
    unfold added, adding_ok; cbn [g_locs g_asked g_deleted g_failed ad_added ad_count ad_rule].
    destruct H0 as (Hcmd' & _). cbn [snd fst nfc_cmd set_ports] in Hcmd'.
    rewrite length_app. cbn [length].
    split; [split; [apply Hok|]|split; [lia|lia]].
    split; [done|]. split; [done|]. split; [cbn [ad_count]; lia|]. split; [simpl; congruence|done].
  - replace (z0 <? 0) with false by (symmetry; apply Z.ltb_ge; lia).
    destruct H0 as (Hcmd' & _). cbn [snd fst nfc_cmd set_ports] in Hcmd'.
    replace ((s - 1) * UINT16_MAX + (d + 1 - 1)) with (k + 1) by (unfold k; lia).
    unfold add_inv, adding_ok; cbn [g_locs g_asked g_deleted g_failed ad_added ad_count ad_rule ad_location].
    rewrite !length_app. cbn [length].
    assert (Hu : u32 (ad_count st + 1) = k + 1)
      by (rewrite Hc; apply u32_id; unfold UINT16_MAX in *; lia).
    split; [split; [apply Hok|]|].
    + split; [lia|]. split; [by rewrite Hadd|]. split; [exact Hu|].
      split; [congruence|]. split; congruence.
    + split; [lia|]. unfold nth_loc in *. destruct (tm_any_location i); [done|].
      rewrite Hu. apply u32_id. unfold UINT16_MAX in *; lia.
Qed.

(** The location the loops start from. *)
Definition start_location (i : too_many_in) : Z :=
  if tm_any_location i then Z.lor RX_CLS_LOC_ANY RX_CLS_LOC_SPECIAL else 0.

Lemma add_rules_wp le i rule : nfc_cmd rule = ETHTOOL_SRXCLSRLINS ->
  wp world (for_n (Z.to_nat UINT16_MAX) 1 (Adding (start_location i) 0 [] rule) (add_rules_for le i))
    start (fun r g => match r with
      | Val (inl st) => added le i st false g
      | Val (inr (st, _)) => added le i st true g
      | _ => False
      end).
Proof.
  intros Hcmd.
  apply (wp_for_n _ _ _ _ _ _ _ (fun s => add_inv le i ((s - 1) * UINT16_MAX))).
  - unfold add_inv, adding_ok, asked_ok; simpl.
    repeat split; try done. unfold nth_loc, start_location. by destruct (tm_any_location i).
  - intros s st g Hs HI. unfold add_rules_for. wp_step.
    apply (wp_for_n _ _ _ _ _ _ _ (fun d => add_inv le i ((s - 1) * UINT16_MAX + (d - 1)))).
    + by rewrite Z.sub_diag, Z.add_0_r.
    + intros d st' g' Hd HI'. apply add_rule_wp; [unfold UINT16_MAX in *; lia..|done|].
      intros st'' e g'' H. exact H.
    + intros st' g' HI'. cbn [bpost]. wp_go.
      replace ((s + 1 - 1) * UINT16_MAX) with
        ((s - 1) * UINT16_MAX + (1 + Z.of_nat (Z.to_nat UINT16_MAX) - 1)); [done|].
      unfold UINT16_MAX. lia.
  - intros st g ((Ha & Hk & Hrest) & Hn & _). unfold added.
    rewrite <- Hk. split; [split; [done|]; split; done|].
    rewrite Hn. unfold UINT16_MAX in *. lia.
Qed.

Lemma del_rules_wp i rule g0 : nfc_cmd rule = ETHTOOL_SRXCLSRLDEL ->
  g_deleted g0 = [] -> g_failed g0 = false ->
  wp world (foreach (g_locs g0) (rule, 0) (del_rule i)) g0
    (fun r g => match r with
      | Val (inl (_, result)) =>
          g = Ghost (g_asked g0) (g_locs g0) (g_locs g0) (g_failed g) /\
          result = (if g_failed g then -1 else 0)
      | _ => False
      end).
Proof.
  intros Hcmd Hd Hf.
  apply (wp_foreach _ _ _ _ _ _ (fun pre _ st g =>
    nfc_cmd (fst st) = ETHTOOL_SRXCLSRLDEL /\
    g = Ghost (g_asked g0) (g_locs g0) pre (g_failed g) /\
    snd st = (if g_failed g then -1 else 0))).
  - rewrite Hf. split; [done|]. split; [|done]. destruct g0; simpl in *; by subst.
  - intros pre loc post [rule' res] g Hl (Hc & Hg & Hr). unfold del_rule. rewrite Hg. cbn [fst snd] in *.
    wp_go; cbn [ok upd nfc_cmd] in *; destruct H as (Hc' & _); cbn [nfc_cmd fst snd] in *;
      autorewrite with zbool in *; rewrite Hc.
    all: replace (ETHTOOL_SRXCLSRLDEL =? ETHTOOL_SRXCLSRLINS) with false
      by (symmetry; apply Z.eqb_neq; pose proof linux_ins_del; congruence).
    all: rewrite Z.eqb_refl; cbn [g_asked g_locs g_deleted g_failed nfc_location].
    + replace (z0 <? 0) with true by (symmetry; apply Z.ltb_lt; lia).
      rewrite Bool.orb_true_r. split; [congruence|done].
    + replace (z0 <? 0) with false by (symmetry; apply Z.ltb_ge; lia).
      rewrite Bool.orb_false_r. split; [congruence|done].
  - intros [rule' res] g (_ & Hg & Hr). done.
Qed.

Lemma nth_ports_NoDup le n : Z.of_nat n <= UINT16_MAX * UINT16_MAX ->
  NoDup (map (nth_ports le) (seqZ 0 (Z.of_nat n))).
Proof.
  intros Hn. apply (NoDup_fmap_2_strong (nth_ports le)); [|apply NoDup_seqZ].
  intros x y Hx Hy Hxy. apply elem_of_seqZ in Hx, Hy. unfold nth_ports, UINT16_MAX in *.
  injection Hxy as H1 H2.
  assert (Hr : forall z, 0 <= z < Z.of_nat n ->
    0 <= z / 65535 + 1 < 2 ^ 16 /\ 0 <= z mod 65535 + 1 < 2 ^ 16).
  { intros z Hz. pose proof (Z.mod_pos_bound z 65535). pose proof (Z.div_pos z 65535).
    assert (z / 65535 < 65535) by (apply Z.div_lt_upper_bound; lia). lia. }
  destruct (Hr x ltac:(lia)), (Hr y ltac:(lia)).
  apply htons_inj in H1, H2; try done.
  rewrite (Z.div_mod x 65535), (Z.div_mod y 65535) by lia. lia.
Qed.

(** What the RPC promises of its outputs. *)
Definition rules_post (le : bool) (i : too_many_in)
    (r : result (Z * option Z * option Z)) (g : ghost) : Prop :=
  match r with
  | Val (ret, count, add_errno) =>
      match count with
      | None => ret = -1 /\ g = start /\ add_errno = None
      | Some n =>
          n = Z.of_nat (length (g_locs g)) /\
          asked_ok le i g /\ NoDup (map (fun a => (as_src a, as_dst a)) (g_asked g)) /\
          length (g_asked g) = (length (g_locs g) + if refused add_errno then 1 else 0)%nat /\
          g_deleted g = g_locs g /\ ret = (if g_failed g then -1 else 0)
      end
  | _ => False
  end.

(** C17. The rules RPC with any kernel that follows the documented ioctl: it
    always returns; when it got as far as the rules, the [k]-th rule asked for
    has the ports [k / 65535 + 1] and [k mod 65535 + 1] in network order (so no
    two rules have the same ports), the location [k] unless any location was
    asked for, and a queue in range; it stopped at the first refusal, which is
    then reported; [rules_count] is the number of rules accepted (it does not
    wrap); and every accepted rule, at the location the kernel reported for it,
    was removed exactly once and in the order of insertion, the value being
    -1 when some removal failed. *)
Theorem too_many_rx_rules_correct le i :
  wp world (too_many_rx_rules le i) start (rules_post le i).
Proof.
  unfold too_many_rx_rules. wp_go; try done.
  destruct (rule_flow i s) as [flow|] eqn:Hflow; [|wp_go; done].
  wp_step. fold (start_location i).
  eapply wp_mono; [by apply add_rules_wp|].
  intros r g Hr.
  assert (Hfin : forall st (e : option Z), added le i st (refused e) g ->
    NoDup (map (fun a => (as_src a, as_dst a)) (g_asked g)) /\
    length (g_asked g) = (length (g_locs g) + if refused e then 1 else 0)%nat).
  { intros st e (Ha & Hk & ->). split; [|by destruct e].
    destruct Ha as ((Hp & _) & _). rewrite Hp. by apply nth_ports_NoDup. }
  assert (Hdel : forall st (e : option Z), added le i st (refused e) g ->
    wp world (r ← foreach (ad_added st)
               (Rxnfc ETHTOOL_SRXCLSRLDEL (nfc_flow (ad_rule st)) zero_spec zero_spec
                  (nfc_location (ad_rule st)) (nfc_cookie (ad_rule st)), 0) (del_rule i);
              match r with
              | inl (_, result) => mret (result, Some (ad_count st), e)
              | inr tt => mret (0, None, None)
              end) g (rules_post le i)).
  { intros st e Hst. destruct (Hfin st e Hst) as [Hnd Hlen].
    destruct Hst as ((Ha & _ & Hadd & Hc & _ & Hd & Hf) & _).
    rewrite Hadd. wp_step. eapply wp_mono; [by apply del_rules_wp|].
    intros [[[rule result]|]| | |] g' Hg; try done. destruct Hg as [Hg Hres].
    cbn [bpost]. wp_go. rewrite Hg. cbn [rules_post g_locs g_asked g_deleted g_failed].
    split; [done|]. split; [done|]. split; [done|]. split; [by destruct e|]. done. }
  destruct r as [[st|[st e]]| | |]; try done; cbn [bpost].
  - by apply (Hdel st None).
  - by apply (Hdel st (Some e)).
Qed.
End rules.
