(* ===== verification/DataFlow.v ===== *)
(** lib/net_drv_data_flow.c: connections and data flows between two RPC
    servers. *)
From stdpp Require Import pretty.
From S2P Require Import Prelude Prog Te Locals.

(** ** Data (net_drv_data_flow.h).  [None] is a null pointer; an address is the
    value it points to. *)

Record net_drv_conn := Conn {
  cn_rpcs1 : option rcf_rpc_server; cn_rpcs2 : option rcf_rpc_server;
  cn_sock_type : rpc_socket_type; cn_s1_addr : sockaddr; cn_s2_addr : sockaddr;
  cn_new_ports : bool; cn_s1 : Z; cn_s2 : Z }.

Record net_drv_flow := Flow {
  fl_rpcs1 : option rcf_rpc_server; fl_rpcs2 : option rcf_rpc_server; fl_tx : bool;
  fl_flow_id : Z; fl_new_processes : bool; fl_conn : option net_drv_conn;
  fl_duration : Z; fl_ignore_send_err : bool; fl_min_size : Z; fl_max_size : Z;
  fl_sender_rpcs : option rcf_rpc_server; fl_receiver_rpcs : option rcf_rpc_server;
  fl_sender_s : Z; fl_receiver_s : Z; fl_sender_ctx : pat_sender;
  fl_in_progress : bool; fl_success : bool }.

(** Assignments to fields. *)
Definition cn_set_addrs (a1 a2 : sockaddr) (c : net_drv_conn) : net_drv_conn :=
  Conn (cn_rpcs1 c) (cn_rpcs2 c) (cn_sock_type c) a1 a2 (cn_new_ports c) (cn_s1 c) (cn_s2 c).
Definition cn_set_socks (s1 s2 : Z) (c : net_drv_conn) : net_drv_conn :=
  Conn (cn_rpcs1 c) (cn_rpcs2 c) (cn_sock_type c) (cn_s1_addr c) (cn_s2_addr c) (cn_new_ports c)
    s1 s2.
Definition fl_set_rpcs (r1 r2 : option rcf_rpc_server) (f : net_drv_flow) : net_drv_flow :=
  Flow r1 r2 (fl_tx f) (fl_flow_id f) (fl_new_processes f) (fl_conn f) (fl_duration f)
    (fl_ignore_send_err f) (fl_min_size f) (fl_max_size f) (fl_sender_rpcs f)
    (fl_receiver_rpcs f) (fl_sender_s f) (fl_receiver_s f) (fl_sender_ctx f) (fl_in_progress f)
    (fl_success f).
Definition fl_set_ends (sr rr : option rcf_rpc_server) (ss rs : Z) (f : net_drv_flow) : net_drv_flow :=
  Flow (fl_rpcs1 f) (fl_rpcs2 f) (fl_tx f) (fl_flow_id f) (fl_new_processes f) (fl_conn f)
    (fl_duration f) (fl_ignore_send_err f) (fl_min_size f) (fl_max_size f) sr rr ss rs
    (fl_sender_ctx f) (fl_in_progress f) (fl_success f).
Definition fl_set_ctx (c : pat_sender) (f : net_drv_flow) : net_drv_flow :=
  Flow (fl_rpcs1 f) (fl_rpcs2 f) (fl_tx f) (fl_flow_id f) (fl_new_processes f) (fl_conn f)
    (fl_duration f) (fl_ignore_send_err f) (fl_min_size f) (fl_max_size f) (fl_sender_rpcs f)
    (fl_receiver_rpcs f) (fl_sender_s f) (fl_receiver_s f) c (fl_in_progress f) (fl_success f).
Definition fl_set_status (in_progress success : bool) (f : net_drv_flow) : net_drv_flow :=
  Flow (fl_rpcs1 f) (fl_rpcs2 f) (fl_tx f) (fl_flow_id f) (fl_new_processes f) (fl_conn f)
    (fl_duration f) (fl_ignore_send_err f) (fl_min_size f) (fl_max_size f) (fl_sender_rpcs f)
    (fl_receiver_rpcs f) (fl_sender_s f) (fl_receiver_s f) (fl_sender_ctx f) in_progress success.
Definition ps_set_sent (n : Z) (c : pat_sender) : pat_sender :=
  PatSender (ps_lcg c) (ps_offset c) (ps_coef1 c) (ps_coef2 c) (ps_coef3 c) (ps_duration_sec c)
    (ps_ignore_err c) (ps_no_iomux c) (ps_min_size c) (ps_max_size c) n (ps_time2wait c) (ps_total_size c).

(** [NET_DRV_CONN_INIT] and [NET_DRV_FLOW_INIT] for the fields they name; the
    rest is zero. *)
Definition zero_addr : sockaddr := SA 0 [] 0.
Definition NET_DRV_CONN_INIT : net_drv_conn :=
  Conn None None (RPC_SOCK_OTHER 0) zero_addr zero_addr false (-1) (-1).
Definition zero_sender : pat_sender := PatSender false 0 0 0 0 0 false false 0 0 0 0 0.
Definition NET_DRV_FLOW_INIT : net_drv_flow :=
  Flow None None false 0 false None 0 false 1 1024 None None (-1) (-1) zero_sender false false.

Section data_flow.
Context {TE : Te}.

(** Follow a pointer. *)
Definition deref {A} (p : option A) : M A :=
  match p with Some x => mret x | None => undef "NULL is dereferenced" end.

Definition net_drv_conn_create : T net_drv_conn unit :=
  new_ports ← gets cn_new_ports;
  c ← get;
  _ ← twhen new_ports (
    a1 ← lift (r ← deref (cn_rpcs1 c); CHECK_OUT (call (tapi_sockaddr_clone r (cn_s1_addr c))));
    a2 ← lift (r ← deref (cn_rpcs2 c); CHECK_OUT (call (tapi_sockaddr_clone r (cn_s2_addr c))));
    modify (cn_set_addrs a1 a2));
  c ← get;
  '(s1, s2) ← lift (r1 ← deref (cn_rpcs1 c); r2 ← deref (cn_rpcs2 c);
    CHECK_OUT (call (GEN_CONNECTION r1 r2 (cn_sock_type c) (cn_s1_addr c) (cn_s2_addr c))));
  modify (cn_set_socks s1 s2).

(** [if (rpcs != NULL && s >= 0) ...]: the new [res]. *)
Definition close_end (rpcs : option rcf_rpc_server) (s : Z) (res : te_errno) : M te_errno :=
  match rpcs with
  | Some r =>
      if 0 <=? s then
        '(rc, err) ← call (rpc_close r s);
        mret (if rc <? 0 then err else res)
      else mret res
  | None => mret res
  end.

Definition net_drv_conn_destroy (c : net_drv_conn) : M te_errno :=
  res ← close_end (cn_rpcs1 c) (cn_s1 c) 0;
  close_end (cn_rpcs2 c) (cn_s2 c) res.

Definition create_flow_rpc (rpcs : option rcf_rpc_server) (flow_id : Z) : M rcf_rpc_server :=
  rpcs ← deref rpcs;
  rpc_name ← CHECK_OUT (call (te_snprintf (rpcs_name rpcs +:+ "_flow" +:+ pretty flow_id)));
  CHECK_OUT (call (rcf_rpc_server_fork rpcs rpc_name)).

(** The part of [net_drv_flow_prepare] after the processes are created: who
    sends, and the sender's parameters. *)
Definition flow_prepare_ends : T net_drv_flow unit :=
  f ← get;
  c ← lift (deref (fl_conn f));
  _ ← modify (if fl_tx f then fl_set_ends (fl_rpcs1 f) (fl_rpcs2 f) (cn_s1 c) (cn_s2 c)
              else fl_set_ends (fl_rpcs2 f) (fl_rpcs1 f) (cn_s2 c) (cn_s1 c));
  sender ← lift (call tapi_pat_sender_init);
  coef1 ← lift (call (rand_range 0 RAND_MAX));
  coef2 ← lift (call (rand_range 1 RAND_MAX));
  coef3 ← lift (call (rand_range 0 RAND_MAX));
  modify (fl_set_ctx (PatSender true 0 coef1 coef2 coef3 (fl_duration f) (fl_ignore_send_err f)
    true (fl_min_size f) (fl_max_size f) (ps_sent sender) (ps_time2wait sender) (ps_total_size sender))).

Definition net_drv_flow_prepare : T net_drv_flow unit :=
  new_processes ← gets fl_new_processes;
  _ ← twhen new_processes (
    f ← get;
    r1 ← lift (create_flow_rpc (fl_rpcs1 f) (fl_flow_id f));
    _ ← modify (fl_set_rpcs (Some r1) (fl_rpcs2 f));
    r2 ← lift (create_flow_rpc (fl_rpcs2 f) (fl_flow_id f));
    modify (fl_set_rpcs (Some r1) (Some r2)));
  flow_prepare_ends.

(** An RPC with an output that was not preceded by [RPC_AWAIT_ERROR]. *)
Definition rpc_ok3 (c : te_call (Z * Z * te_errno)) : M Z :=
  '(rc, _, _) ← call c; if rc <? 0 then raise RPC_FAILED else mret rc.

Definition net_drv_flow_start : T net_drv_flow unit :=
  f ← get;
  receiver ← lift (deref (fl_receiver_rpcs f));
  _ ← lift (call (rpcs_set_op receiver RCF_RPC_CALL));
  _ ← lift (rpc_ok3 (rpc_drain_fd_duration receiver (fl_receiver_s f) (fl_max_size f) (-1)
                       (ps_duration_sec (fl_sender_ctx f) + 1)));
  _ ← modify (fl_set_status true (fl_success f));
  sender ← lift (deref (fl_sender_rpcs f));
  _ ← lift (call (rpcs_set_op sender RCF_RPC_CALL));
  _ ← lift (rpc_ok3 (rpc_pattern_sender sender (fl_sender_s f) (fl_sender_ctx f)));
  mret tt.

Definition net_drv_flow_finish : T net_drv_flow unit :=
  f ← get;
  sender ← lift (deref (fl_sender_rpcs f));
  receiver ← lift (deref (fl_receiver_rpcs f));
  let duration := ps_duration_sec (fl_sender_ctx f) + 1 in
  _ ← lift (call (rpcs_set_timeout sender (TE_SEC2MS duration)));
  '(rc, sent, _) ← lift (call (rpc_pattern_sender sender (fl_sender_s f) (fl_sender_ctx f)));
  _ ← modify (fl_set_ctx (ps_set_sent sent (fl_sender_ctx f)));
  let success := negb (rc <? 0) in
  '(rc, read, err) ← lift (call (rpc_drain_fd_duration receiver (fl_receiver_s f) (fl_max_size f)
                                   (-1) duration));
  let success := if (rc <? 0) && negb (err =? RPC_EAGAIN) then false
                 else if read =? 0 then false
                 else if sent <? read then false
                 else success in
  modify (fl_set_status false success).

Definition close_sock_kill_rpcs (rpcs : option rcf_rpc_server) (s : Z) (in_progress : bool)
    : M te_errno :=
  match rpcs with
  | None => mret 0
  | Some r =>
      res ← (if (0 <=? s) && negb in_progress then
               '(rc, err) ← call (rpc_close r s);
               mret (if rc <? 0 then err else 0)
             else mret 0);
      te_rc ← call (rcf_rpc_server_destroy r);
      mret (if negb (te_rc =? 0) then te_rc else res)
  end.

Definition net_drv_flow_destroy (f : net_drv_flow) : M te_errno :=
  if fl_new_processes f then
    c ← deref (fl_conn f);
    rc ← close_sock_kill_rpcs (fl_rpcs1 f) (cn_s1 c) (fl_in_progress f);
    let res := if negb (rc =? 0) then rc else 0 in
    rc ← close_sock_kill_rpcs (fl_rpcs2 f) (cn_s2 c) (fl_in_progress f);
    mret (if negb (rc =? 0) then rc else res)
  else mret 0.
End data_flow.

(** ** What a monitor sees of a flow *)
Module FlowWatch.

(** Servers forked (the parent and the child), servers whose destruction was
    asked for, sockets closed, and the data-transfer calls in order. *)
Inductive transfer := OpCall (r : rcf_rpc_server) | Drain (r : rcf_rpc_server) (s : Z)
  | Send (r : rcf_rpc_server) (s : Z).
Record ghost := Ghost {
  g_forked : list (rcf_rpc_server * rcf_rpc_server); g_destroyed : list rcf_rpc_server;
  g_closed : list (rcf_rpc_server * Z); g_log : list transfer;
  g_send : Z * Z; g_drain : Z * Z * Z }.
Definition start : ghost := Ghost [] [] [] [] (0, 0) (0, 0, 0).

Definition upd X (c : te_call X) : X -> ghost -> ghost :=
  match c in te_call X return X -> ghost -> ghost with
  | rcf_rpc_server_fork r _ => fun x g =>
      if fst x =? 0 then
        Ghost (g_forked g ++ [(r, snd x)]) (g_destroyed g) (g_closed g) (g_log g) (g_send g) (g_drain g)
      else g
  | rcf_rpc_server_destroy r => fun _ g =>
      Ghost (g_forked g) (g_destroyed g ++ [r]) (g_closed g) (g_log g) (g_send g) (g_drain g)
  | rpc_close r s => fun _ g =>
      Ghost (g_forked g) (g_destroyed g) (g_closed g ++ [(r, s)]) (g_log g) (g_send g) (g_drain g)
  | rpcs_set_op r RCF_RPC_CALL => fun _ g =>
      Ghost (g_forked g) (g_destroyed g) (g_closed g) (g_log g ++ [OpCall r]) (g_send g) (g_drain g)
  | rpc_pattern_sender r s _ => fun x g =>
      Ghost (g_forked g) (g_destroyed g) (g_closed g) (g_log g ++ [Send r s]) (fst x) (g_drain g)
  | rpc_drain_fd_duration r s _ _ _ => fun x g =>
      Ghost (g_forked g) (g_destroyed g) (g_closed g) (g_log g ++ [Drain r s]) (g_send g) x
  | _ => fun _ g => g
  end.

Definition world : env te_call ghost := watch upd.

(** The life of a flow: prepared, started, waited for; whatever left it,
    destroyed. *)
Definition life {TE : Te} (f : net_drv_flow) : M (net_drv_flow * (unit + jump) * te_errno) :=
  '(f, r) ← (_ ← net_drv_flow_prepare; _ ← net_drv_flow_start; net_drv_flow_finish) f;
  rc ← net_drv_flow_destroy f;
  mret (f, r, rc).

(** A flow as a test sets it up, between two servers over a connection. *)
Definition wire (r1 r2 : rcf_rpc_server) (c : net_drv_conn) (f : net_drv_flow) : net_drv_flow :=
  Flow (Some r1) (Some r2) (fl_tx f) (fl_flow_id f) (fl_new_processes f) (Some c) (fl_duration f)
    (fl_ignore_send_err f) (fl_min_size f) (fl_max_size f) (fl_sender_rpcs f)
    (fl_receiver_rpcs f) (fl_sender_s f) (fl_receiver_s f) (fl_sender_ctx f) false (fl_success f).
Definition wired (r1 r2 : rcf_rpc_server) (c : net_drv_conn) (f : net_drv_flow) : Prop :=
  fl_rpcs1 f = Some r1 /\ fl_rpcs2 f = Some r2 /\ fl_conn f = Some c /\ fl_in_progress f = false.

(** A socket closed by [net_drv_flow_destroy]: none while a call is in
    progress on its server. *)
Definition closed_end (in_progress : bool) (r : rcf_rpc_server) (s : Z) : list (rcf_rpc_server * Z) :=
  if (0 <=? s) && negb in_progress then [(r, s)] else [].

(** The transfer went well, from what the calls returned last. *)
Definition good_transfer {TE : Te} (g : ghost) : bool :=
  let '(send_rc, sent) := g_send g in
  let '(drain_rc, read, err) := g_drain g in
  (0 <=? send_rc) && ((0 <=? drain_rc) || (err =? RPC_EAGAIN)) && negb (read =? 0) && (read <=? sent).
End FlowWatch.

Section flow_watch.
Context {TE : Te}.
Import FlowWatch.

(** How a flow is left by [net_drv_flow_prepare]. *)
Definition prepared (f0 : net_drv_flow) (r1 r2 : rcf_rpc_server) (c : net_drv_conn)
    (f : net_drv_flow) (g : ghost) : Prop :=
  exists c1 c2,
    (if fl_new_processes f0 then g_forked g = [(r1, c1); (r2, c2)]
     else g_forked g = [] /\ c1 = r1 /\ c2 = r2) /\
    fl_rpcs1 f = Some c1 /\ fl_rpcs2 f = Some c2 /\
    (fl_sender_rpcs f, fl_sender_s f, fl_receiver_rpcs f, fl_receiver_s f) =
      (if fl_tx f0 then (Some c1, cn_s1 c, Some c2, cn_s2 c) else (Some c2, cn_s2 c, Some c1, cn_s1 c)).

Definition same_setup (f0 f : net_drv_flow) : Prop :=
  fl_new_processes f = fl_new_processes f0 /\ fl_conn f = fl_conn f0 /\
  fl_max_size f = fl_max_size f0 /\ fl_tx f = fl_tx f0.

Lemma create_flow_rpc_wp r id g (Q : result rcf_rpc_server -> ghost -> Prop) :
  (forall j, Q (Exc j) g) ->
  (forall x, Q (Val x) (Ghost (g_forked g ++ [(r, x)]) (g_destroyed g) (g_closed g) (g_log g)
                          (g_send g) (g_drain g))) ->
  wp world (create_flow_rpc (Some r) id) g Q.
Proof.
  intros Hj Hv. unfold create_flow_rpc, deref. wp_go; cbn [upd fst snd]; rewrite ?Heqb0; apply Hv || apply Hj.
Qed.

(** The part of [net_drv_flow_prepare] that does not depend on forking. *)
Lemma prepare_ends f0 f c1 c2 r1 r2 c g :
  same_setup f0 f -> fl_rpcs1 f = Some c1 -> fl_rpcs2 f = Some c2 -> fl_in_progress f = false ->
  (if fl_new_processes f0 then g_forked g = [(r1, c1); (r2, c2)]
   else g_forked g = [] /\ c1 = r1 /\ c2 = r2) ->
  g_destroyed g = [] -> g_closed g = [] -> g_log g = [] ->
  fl_conn f = Some c ->
  twp world flow_prepare_ends f g (fun f x g =>
    same_setup f0 f /\ fl_in_progress f = false /\ g_destroyed g = [] /\ g_closed g = [] /\ g_log g = [] /\
    match x with
    | inl _ => prepared f0 r1 r2 c f g
    | inr _ => fl_new_processes f0 = true /\ fl_rpcs2 f = Some r2 /\ (length (g_forked g) <= 1)%nat
    end).
Proof.
  intros (S1 & S2 & S3 & S4) H1 H2 Hp Hf Hd Hc Hl Hconn. unfold flow_prepare_ends.
  twp_go. rewrite Hconn. cbn [deref]. twp_go. cbn [upd]. rewrite H1, H2. unfold same_setup, prepared.
  rewrite <- S4. destruct (fl_tx f) eqn:Htx; cbn; rewrite Htx;
    (split; [by auto|]); (do 4 (split; [done|])); by exists c1, c2.
Qed.

Lemma prepare_twp f0 r1 r2 c : wired r1 r2 c f0 ->
  twp world net_drv_flow_prepare f0 start (fun f x g =>
    same_setup f0 f /\ fl_in_progress f = false /\ g_destroyed g = [] /\ g_closed g = [] /\ g_log g = [] /\
    match x with
    | inl _ => prepared f0 r1 r2 c f g
    | inr _ => fl_new_processes f0 = true /\ fl_rpcs2 f = Some r2 /\ (length (g_forked g) <= 1)%nat
    end).
Proof.
  intros (H1 & H2 & Hc & Hp). unfold net_drv_flow_prepare.
  twp_step. twp_step. twp_step. unfold twhen. destruct (fl_new_processes f0) eqn:Hnew.
  - twp_go. rewrite H1. apply create_flow_rpc_wp.
    { intros j. unfold same_setup. cbn. repeat split; auto. }
    intros c1. cbn [g_forked start app]. twp_go. cbn [fl_set_rpcs fl_rpcs2]. rewrite H2.
    apply create_flow_rpc_wp.
    { intros j. unfold same_setup. cbn. repeat split; auto. }
    intros c2. cbn [g_forked app]. twp_step.
    eapply twp_mono; [eapply (prepare_ends f0 _ c1 c2 r1 r2 c)|]; cbn; auto;
      try rewrite Hnew; auto. unfold same_setup; cbn; auto.
  - twp_step.
    eapply twp_mono; [eapply (prepare_ends f0 _ r1 r2 r1 r2 c)|]; cbn; auto;
      try rewrite Hnew; auto. unfold same_setup; auto.
Qed.
(** What starting and finishing leave alone. *)
Definition keeps (f f' : net_drv_flow) (g g' : ghost) : Prop :=
  fl_rpcs1 f' = fl_rpcs1 f /\ fl_rpcs2 f' = fl_rpcs2 f /\ same_setup f f' /\
  g_forked g' = g_forked g /\ g_destroyed g' = g_destroyed g /\ g_closed g' = g_closed g.

Definition ends (f : net_drv_flow) : option rcf_rpc_server * Z * option rcf_rpc_server * Z :=
  (fl_sender_rpcs f, fl_sender_s f, fl_receiver_rpcs f, fl_receiver_s f).

Lemma start_twp f g sr ss rr rs : ends f = (Some sr, ss, Some rr, rs) -> g_log g = [] ->
  twp world net_drv_flow_start f g (fun f' x g' => keeps f f' g g' /\
    match x with
    | inl _ => ends f' = ends f /\ g_log g' = [OpCall rr; Drain rr rs; OpCall sr; Send sr ss]
    | inr _ => True
    end).
Proof.
  intros He Hl. injection He as H1 H2 H3 H4. unfold net_drv_flow_start, rpc_ok3.
  twp_go. rewrite H3. cbn [deref]. twp_go.
  all: try (cbn [fl_set_status fl_sender_rpcs]; rewrite H1; cbn [deref]; twp_go).
  all: unfold keeps, same_setup, ends; cbn; rewrite ?Hl, ?H1, ?H2, ?H3, ?H4; done.
Qed.

Lemma finish_twp f g sr ss rr rs : ends f = (Some sr, ss, Some rr, rs) ->
  twp world net_drv_flow_finish f g (fun f' x g' => keeps f f' g g' /\
    match x with
    | inl _ => g_log g' = g_log g ++ [Send sr ss; Drain rr rs] /\ fl_in_progress f' = false /\
               fl_success f' = good_transfer g'
    | inr _ => False
    end).
Proof.
  intros He. injection He as H1 H2 H3 H4. unfold net_drv_flow_finish.
  twp_go. rewrite H1. cbn [deref]. twp_go. rewrite H3. cbn [deref]. twp_go.
  unfold keeps, same_setup, good_transfer. cbn. rewrite H2, H4, <- app_assoc.
  split; [done|]. split; [done|]. split; [done|].
  repeat case_zbool; simpl; try lia; try done.
Qed.

Lemma close_kill_wp r s ip g (Q : result te_errno -> ghost -> Prop) :
  (forall rc, Q (Val rc) (Ghost (g_forked g) (g_destroyed g ++ [r]) (g_closed g ++ closed_end ip r s)
                            (g_log g) (g_send g) (g_drain g))) ->
  wp world (close_sock_kill_rpcs (Some r) s ip) g Q.
Proof.
  intros HQ. unfold close_sock_kill_rpcs, closed_end in *.
  destruct ((0 <=? s) && negb ip); wp_go; cbn [upd]; rewrite ?app_nil_r in HQ; apply HQ.
Qed.

(** What destroying a flow does, whatever the state of its servers. *)
Lemma destroy_wp f c c1 c2 g (Q : result te_errno -> ghost -> Prop) :
  fl_rpcs1 f = Some c1 -> fl_rpcs2 f = Some c2 -> fl_conn f = Some c ->
  (forall rc, Q (Val rc) (
     if fl_new_processes f then
       Ghost (g_forked g) (g_destroyed g ++ [c1; c2])
         (g_closed g ++ closed_end (fl_in_progress f) c1 (cn_s1 c) ++
                        closed_end (fl_in_progress f) c2 (cn_s2 c))
         (g_log g) (g_send g) (g_drain g)
     else g)) ->
  wp world (net_drv_flow_destroy f) g Q.
Proof.
  intros H1 H2 H3 HQ. unfold net_drv_flow_destroy.
  destruct (fl_new_processes f); [|wp_go; by apply (HQ 0)].
  rewrite H3. cbn [deref]. wp_go. rewrite H1. apply close_kill_wp. intros rc. cbn [bpost].
  wp_go. rewrite H2. apply close_kill_wp. intros rc'. cbn [bpost].
  wp_go; cbn [g_forked g_destroyed g_closed g_log g_send g_drain]; rewrite <- !app_assoc; apply HQ.
Qed.
(** Everything known of a flow after its life. *)
Definition life_post (f0 : net_drv_flow) (r1 r2 : rcf_rpc_server) (c : net_drv_conn)
    (f : net_drv_flow) (x : unit + jump) (g : ghost) : Prop :=
  (exists c1 c2 ip,
     (if fl_new_processes f0 then
        g_forked g = [(r1, c1); (r2, c2)] /\ g_destroyed g = [c1; c2] /\
        g_closed g = closed_end ip c1 (cn_s1 c) ++ closed_end ip c2 (cn_s2 c)
      else c1 = r1 /\ c2 = r2 /\ g_forked g = [] /\ g_destroyed g = [] /\ g_closed g = []) /\
     (x = inl tt -> ip = false /\ fl_success f = good_transfer g /\
        let '(sr, ss, rr, rs) := if fl_tx f0 then (c1, cn_s1 c, c2, cn_s2 c)
                                 else (c2, cn_s2 c, c1, cn_s1 c) in
        g_log g = [OpCall rr; Drain rr rs; OpCall sr; Send sr ss; Send sr ss; Drain rr rs])) \/
  (x <> inl tt /\ fl_new_processes f0 = true /\ (length (g_forked g) <= 1)%nat /\
   r2 ∈ g_destroyed g /\ g_log g = []).

Lemma run_twp f0 r1 r2 c f g : prepared f0 r1 r2 c f g -> g_log g = [] ->
  twp world (_ ← net_drv_flow_start; net_drv_flow_finish) f g (fun f' x g' => keeps f f' g g' /\
    (x = inl tt -> fl_in_progress f' = false /\ fl_success f' = good_transfer g' /\
       exists sr ss rr rs, ends f = (Some sr, ss, Some rr, rs) /\
       g_log g' = [OpCall rr; Drain rr rs; OpCall sr; Send sr ss; Send sr ss; Drain rr rs])).
Proof.
  intros (c1 & c2 & _ & _ & _ & He) Hl.
  assert (exists sr ss rr rs, ends f = (Some sr, ss, Some rr, rs)) as (sr & ss & rr & rs & Hends)
    by (unfold ends; rewrite He; destruct (fl_tx f0); by eexists _, _, _, _).
  twp_step. eapply twp_mono; [by eapply start_twp|].
  intros f1 [[]|j] g1 [(K1 & K2 & K3 & K4 & K5 & K6) H1]; [|by split].
  destruct H1 as [H1 Hl1]. eapply twp_mono; [eapply finish_twp; by rewrite H1|].
  intros f2 [[]|j] g2 [(L1 & L2 & L3 & L4 & L5 & L6) H2]; [|done].
  destruct H2 as (Hl2 & Hp & Hs). split.
  - unfold keeps, same_setup in *. destruct K3 as (? & ? & ? & ?), L3 as (? & ? & ? & ?).
    repeat split; congruence.
  - intros _. split; [done|]. split; [done|]. exists sr, ss, rr, rs. by rewrite Hl2, Hl1.
Qed.

Lemma life_wp r1 r2 c f0 :
  wp world (life (wire r1 r2 c f0)) start
    (fun res g => match res with
     | Val (f, x, _) => life_post f0 r1 r2 c f x g
     | _ => False
     end).
Proof.
  unfold life. wp_step. apply wp_T, twp_bind. eapply twp_mono; [by eapply (prepare_twp _ r1 r2 c)|].
  intros f [[]|j] g (Hs & Hp & Hd & Hc & Hl & H); pose proof Hs as (S1 & S2 & S3 & S4).
  - eapply twp_mono; [by eapply run_twp|].
    intros f1 x g1 [(K1 & K2 & (K3 & K3' & _) & K4 & K5 & K6) Hx]. cbn [bpost]. wp_step.
    destruct H as (c1 & c2 & Hf & H1 & H2 & He).
    eapply (destroy_wp f1 c c1 c2); [congruence|congruence|by rewrite K3', S2|].
    intros rc. cbn [bpost]. wp_go. left. exists c1, c2, (fl_in_progress f1).
    rewrite K3, S1. cbn [wire fl_new_processes fl_tx] in *.
    rewrite Hc in K6. rewrite Hd in K5. unfold ends in Hx. rewrite He in Hx. split.
    + destruct (fl_new_processes f0); cbn; [by rewrite K4, K5, K6|].
      destruct Hf as (? & -> & ->). by rewrite K4.
    + intros Hi. destruct (Hx Hi) as (Hip & Hsu & sr & ss & rr & rs & E & Hlog).
      split; [done|]. split; [by destruct (fl_new_processes f0)|].
      destruct (fl_tx f0); injection E as -> -> -> ->; by destruct (fl_new_processes f0).
  - cbn [bpost]. wp_step. destruct H as (Hn & H2 & Hlen).
    cbn [wire fl_new_processes fl_conn] in *.
    unfold net_drv_flow_destroy. rewrite S1, S2, Hn. cbn [deref]. wp_go.
    destruct (fl_rpcs1 f) as [a|].
    + apply close_kill_wp. intros rc. cbn [bpost]. wp_go. rewrite H2. apply close_kill_wp.
      intros rc'. cbn [bpost]. wp_go. right. cbn.
      repeat split; try done. rewrite elem_of_app. right. by apply list_elem_of_singleton.
    + cbn [close_sock_kill_rpcs]. wp_go. rewrite H2. apply close_kill_wp.
      intros rc'. cbn [bpost]. wp_go. right. cbn.
      repeat split; try done. rewrite elem_of_app. right. by apply list_elem_of_singleton.
Qed.

(** C18. A data flow from preparation to destruction, in any environment: when
    the flow was waited for, receiving was started before sending and each of
    the two calls was made once to start it and once to wait for it, on the
    servers and sockets of the requested direction; the flow is marked
    successful exactly when the last answers say that sending succeeded and
    something, and no more than was sent, was received; and destroying the flow
    destroys exactly the two servers it forked, after closing its sockets in
    them, and nothing when it forked none. *)
Theorem flow_life_correct r1 r2 c f0 :
  wp world (life (wire r1 r2 c f0)) start
    (on_val (fun '(f, x, _) g => x = inl tt -> exists c1 c2,
       (if fl_new_processes f0 then
          g_forked g = [(r1, c1); (r2, c2)] /\ g_destroyed g = [c1; c2] /\
          g_closed g = closed_end false c1 (cn_s1 c) ++ closed_end false c2 (cn_s2 c)
        else c1 = r1 /\ c2 = r2 /\ g_forked g = [] /\ g_destroyed g = [] /\ g_closed g = []) /\
       fl_success f = good_transfer g /\
       let '(sr, ss, rr, rs) := if fl_tx f0 then (c1, cn_s1 c, c2, cn_s2 c)
                                else (c2, cn_s2 c, c1, cn_s1 c) in
       g_log g = [OpCall rr; Drain rr rs; OpCall sr; Send sr ss; Send sr ss; Drain rr rs])).
Proof.
  eapply wp_mono; [apply life_wp|]. intros [[[f x] rc]| | |] g; simpl; try done.
  intros [(c1 & c2 & ip & H & Hx)|H] ->; [|by destruct H].
  destruct (Hx eq_refl) as (-> & Hs & Hl). by exists c1, c2.
Qed.

(** C19. When the preparation of a flow with processes of its own fails at
    forking (one server at most was forked), the cleanup destroys a server the
    flow does not own: the RPC server the test gave it. *)
Theorem flow_failed_fork_kills_parent r1 r2 c f0 :
  wp world (life (wire r1 r2 c f0)) start
    (fun res g => match res with
     | Val (f, x, _) => fl_new_processes f0 = true -> (length (g_forked g) < 2)%nat ->
         r2 ∈ g_destroyed g /\ exists j, x = inr j
     | _ => False
     end).
Proof.
  eapply wp_mono; [apply life_wp|]. intros [[[f x] rc]| | |] g; simpl; try done.
  intros [(c1 & c2 & ip & H & _)|(Hx & _ & _ & Hr & _)] Hn Hlt.
  - rewrite Hn in H. destruct H as (Hf & _). rewrite Hf in Hlt. simpl in Hlt. lia.
  - split; [done|]. destruct x as [[]|j]; [done|by exists j].
Qed.
End flow_watch.
