(* ===== verification/CommonRss.v ===== *)
(** rss/common_rss.c and rss/common_rss.h: the API of the RSS tests. *)
From S2P Require Import Prelude Prog Te Locals NetDrvTs.

(** ** Data (common_rss.h) *)

(** [net_drv_rss_ctx]; [None] is a null pointer. *)
Record net_drv_rss_ctx := RssCtx {
  rx_ta : string; rx_if_name : string; rx_rss_ctx : Z; rx_indir_table_size : Z;
  rx_rx_queues : Z; rx_hash_key : option (list Z); rx_key_len : Z;
  rx_cache : option toeplitz_cache; rx_hash_variant : Z }.

Record net_drv_xdp_sock := XdpSock {
  xs_queue_id : Z; xs_tx_capable : bool; xs_mem : rpc_ptr; xs_umem : rpc_ptr;
  xs_sock : rpc_ptr; xs_fd : Z }.

Record net_drv_xdp_cfg := XdpCfg {
  xc_frame_len : Z; xc_frames_num : Z; xc_rx_frames : Z; xc_fill_size : Z;
  xc_comp_size : Z; xc_rxq_size : Z; xc_txq_size : Z; xc_bind : Z }.

Definition NET_DRV_XDP_CFG_DEF : net_drv_xdp_cfg := XdpCfg (Z.shiftl 1 12) 128 64 128 128 128 128 0.

Section common_rss.
Context {TE : Te}.

Definition NET_DRV_RSS_CTX_INIT : net_drv_rss_ctx :=
  RssCtx "" "" 0 0 0 None 0 None TE_TOEPLITZ_HASH_STANDARD.
Definition NET_DRV_XDP_SOCK_INIT : net_drv_xdp_sock :=
  XdpSock 0 false RPC_NULL RPC_NULL RPC_NULL (-1).

Definition RSS_NORMAL_MAX_PAYLOAD : Z := 1024.
Definition RSS_JUMBO_MIN_PAYLOAD : Z := 4096.
Definition RSS_JUMBO_MAX_PAYLOAD : Z := 8192.
Definition RSS_TEST_MIN_PKTS_NUM : Z := 3.
Definition RSS_TEST_MAX_PKTS_NUM : Z := 30.

(** Assignments to fields of a context. *)
Definition rx_set_names (ta ifn : string) (c : Z) (x : net_drv_rss_ctx) : net_drv_rss_ctx :=
  RssCtx ta ifn c (rx_indir_table_size x) (rx_rx_queues x) (rx_hash_key x) (rx_key_len x)
    (rx_cache x) (rx_hash_variant x).
Definition rx_set_key (k : option (list Z)) (n : Z) (x : net_drv_rss_ctx) : net_drv_rss_ctx :=
  RssCtx (rx_ta x) (rx_if_name x) (rx_rss_ctx x) (rx_indir_table_size x) (rx_rx_queues x) k n
    (rx_cache x) (rx_hash_variant x).
Definition rx_set_queues (q : Z) (x : net_drv_rss_ctx) : net_drv_rss_ctx :=
  RssCtx (rx_ta x) (rx_if_name x) (rx_rss_ctx x) (rx_indir_table_size x) q (rx_hash_key x)
    (rx_key_len x) (rx_cache x) (rx_hash_variant x).
Definition rx_set_table_size (n : Z) (x : net_drv_rss_ctx) : net_drv_rss_ctx :=
  RssCtx (rx_ta x) (rx_if_name x) (rx_rss_ctx x) n (rx_rx_queues x) (rx_hash_key x)
    (rx_key_len x) (rx_cache x) (rx_hash_variant x).
Definition rx_set_cache (c : option toeplitz_cache) (x : net_drv_rss_ctx) : net_drv_rss_ctx :=
  RssCtx (rx_ta x) (rx_if_name x) (rx_rss_ctx x) (rx_indir_table_size x) (rx_rx_queues x)
    (rx_hash_key x) (rx_key_len x) c (rx_hash_variant x).
Definition rx_set_variant (v : Z) (x : net_drv_rss_ctx) : net_drv_rss_ctx :=
  RssCtx (rx_ta x) (rx_if_name x) (rx_rss_ctx x) (rx_indir_table_size x) (rx_rx_queues x)
    (rx_hash_key x) (rx_key_len x) (rx_cache x) v.

(** *** Sending packets and reading the statistics of Rx queues *)

(** One pass of the sending loop. *)
Definition send_check_pass (fuel : nat) (sender : rcf_rpc_server) (sender_s : Z)
    (receiver : rcf_rpc_server) (receiver_s : Z) (jumbo : bool) (vpref : string)
    (_ : Z) (_ : unit) : M (ctl unit unit) :=
  _ ← net_drv_send_recv_ext_check fuel sender sender_s receiver receiver_s jumbo (Some vpref);
  mret (Continue tt).

(** [inl rc]: an early return; [inr n]: zero, with [*sent_pkts = n]. *)
Definition send_check_common (fuel : nat) (sender : rcf_rpc_server) (sender_s : Z)
    (sender_addr : option sockaddr) (receiver : rcf_rpc_server) (receiver_s : Z)
    (receiver_addr : option sockaddr) (sock_type : rpc_socket_type) (bpf_id : Z)
    (jumbo : bool) (vpref : string) : M (te_errno + Z) :=
  let ta := rpcs_ta receiver in
  rc ← match sender_addr, receiver_addr with
       | None, None => call (tapi_bpf_rxq_stats_clear ta bpf_id)
       | Some a, _ | None, Some a =>
           OK call (tapi_bpf_rxq_stats_reset ta bpf_id) ;;
           call (tapi_bpf_rxq_stats_set_params ta bpf_id (sa_family a) sender_addr receiver_addr
                   (bool_decide (sock_type = RPC_SOCK_DGRAM)) true)
       end;
  if negb (rc =? 0) then mret (inl rc)
  else
    pkts_num ← call (rand_range RSS_TEST_MIN_PKTS_NUM RSS_TEST_MAX_PKTS_NUM);
    _ ← for_n (Z.to_nat pkts_num) 0 tt
          (send_check_pass fuel sender sender_s receiver receiver_s jumbo vpref);
    mret (inr pkts_num).

Definition net_drv_pick_rss_payload_len (jumbo : bool) (hard_max : Z) : M Z :=
  let len_min := if jumbo then RSS_JUMBO_MIN_PAYLOAD else 1 in
  let len_max := if jumbo then RSS_JUMBO_MAX_PAYLOAD else RSS_NORMAL_MAX_PAYLOAD in
  if (len_min <? 1) || (len_max <? len_min) || (hard_max <? len_max) then
    TEST_VERDICT "Invalid RSS payload range [%d, %d], max allowed is %d"
      [AI len_min; AI len_max; AI hard_max]
  else call (rand_range len_min len_max).

Definition net_drv_rss_send_check_stats (fuel : nat) (sender : rcf_rpc_server) (sender_s : Z)
    (sender_addr : option sockaddr) (receiver : rcf_rpc_server) (receiver_s : Z)
    (receiver_addr : option sockaddr) (sock_type : rpc_socket_type) (exp_queue bpf_id : Z)
    (jumbo : bool) (vpref : string) : M te_errno :=
  r ← send_check_common fuel sender sender_s sender_addr receiver receiver_s receiver_addr
        sock_type bpf_id jumbo vpref;
  match r with
  | inl rc => mret rc
  | inr pkts_num =>
      call (tapi_bpf_rxq_stats_check_single (rpcs_ta receiver) bpf_id exp_queue pkts_num
              sock_type vpref)
  end.

(** The sum of a [uint64_t] accumulator over the statistics. *)
Definition got_pkts (stats : list rxq_stats) : Z :=
  foldl (fun n s => u64 (n + rx_pkts s)) 0 stats.

Definition net_drv_rss_send_get_stats (fuel : nat) (sender : rcf_rpc_server) (sender_s : Z)
    (sender_addr : option sockaddr) (receiver : rcf_rpc_server) (receiver_s : Z)
    (receiver_addr : option sockaddr) (sock_type : rpc_socket_type) (bpf_id : Z)
    (jumbo : bool) (vpref : string) : M (te_errno + list rxq_stats) :=
  r ← send_check_common fuel sender sender_s sender_addr receiver receiver_s receiver_addr
        sock_type bpf_id jumbo vpref;
  match r with
  | inl rc => mret (inl rc)
  | inr pkts_num =>
      '(rc, stats) ← call (tapi_bpf_rxq_stats_read (rpcs_ta receiver) bpf_id);
      if negb (rc =? 0) then mret (inl rc)
      else if got_pkts stats =? 0 then
        TEST_VERDICT "%s: no packets was detected for any Rx queue" [AS vpref]
      else if got_pkts stats <? pkts_num then
        TEST_VERDICT "%s: too few packets were detected" [AS vpref]
      else mret (inr stats)
  end.

(** *** Hash functions *)

(** The loop over the hash functions: [found] and [need_change]. *)
Definition hfunc_scan (func_name : string) (hfuncs : list rss_hfunc) : bool * bool :=
  foldl (fun '(found, need_change) h =>
    if String.eqb (hf_name h) func_name then (true, need_change || negb (hf_enabled h))
    else (found, need_change || hf_enabled h)) (false, false) hfuncs.

Definition net_drv_rss_check_set_hfunc (ta ifn : string) (rss_context : Z) (func_name : string)
    : M te_errno :=
  OUT hfuncs <- tapi_cfg_if_rss_hfuncs_get ta ifn rss_context ;;
  let '(found, need_change) := hfunc_scan func_name hfuncs in
  if negb found then mret (TE_RC TE_TAPI TE_ENOENT)
  else if negb need_change then mret 0
  else
    OK call (tapi_cfg_if_rss_hfunc_set_single_local ta ifn rss_context func_name) ;;
    rc ← call (tapi_cfg_if_rss_hash_indir_commit ta ifn rss_context);
    if TE_RC_GET_ERROR rc =? TE_EOPNOTSUPP then mret (TE_RC TE_TAPI TE_EOPNOTSUPP) else mret rc.

(** [NET_DRV_RSS_CHECK_SET_HFUNC], with its [_term_macro]. *)
Definition NET_DRV_RSS_CHECK_SET_HFUNC (ta ifn : string) (rss_ctx : Z) (func_name : string)
    (term_macro : M unit) : M unit :=
  rc ← net_drv_rss_check_set_hfunc ta ifn rss_ctx func_name;
  if rc =? 0 then mret tt
  else if rc =? TE_RC TE_TAPI TE_ENOENT then
    _ ← RING_VERDICT "Hash function %s is not known" [AS func_name]; term_macro
  else if rc =? TE_RC TE_TAPI TE_EOPNOTSUPP then
    _ ← RING_VERDICT "Hash function %s is not supported" [AS func_name]; term_macro
  else TEST_STOP.

(** *** The RSS context *)

Definition net_drv_rss_get_check_hkey (ta ifn : string) (rss_context : Z) : M (list Z) :=
  '(rc, key) ← call (tapi_cfg_if_rss_hash_key_get ta ifn rss_context);
  if negb (rc =? 0) then
    if rc =? TE_RC TE_CS TE_EOPNOTSUPP then
      TEST_SKIP "Getting RSS hash key is not supported" []
    else TEST_VERDICT "Failed to get RSS hash key, rc=%r" [AI rc]
  else mret key.

Definition net_drv_rss_ctx_release : T net_drv_rss_ctx unit :=
  x ← get;
  _ ← lift (call (te_toeplitz_hash_fini (rx_cache x)));
  modify (fun x => rx_set_cache None (rx_set_key None (rx_key_len x) x)).

(** The part of [net_drv_rss_ctx_prepare] before its [cleanup] label: the
    status it reaches the label with. *)
Definition rss_ctx_fill (ta ifn : string) (rss_ctx : Z) : T net_drv_rss_ctx te_errno :=
  '(rc, rx_queues) ← lift (call (tapi_cfg_if_rss_rx_queues_get ta ifn));
  if negb (rc =? 0) then mret rc else
  _ ← modify (rx_set_queues (u32 rx_queues));
  '(rc, size) ← lift (call (tapi_cfg_if_rss_indir_table_size ta ifn rss_ctx));
  if negb (rc =? 0) then mret rc else
  _ ← modify (rx_set_table_size size);
  x ← get;
  cache ← lift (call (te_toeplitz_cache_init_size
                        (match rx_hash_key x with Some k => k | None => [] end)));
  _ ← modify (rx_set_cache cache);
  match cache with
  | None => mret TE_ENOMEM
  | Some _ =>
      '(rc, hash_var) ← lift (call (cfg_get_instance_int "/local:/iut_toeplitz_variant:"));
      if negb (rc =? 0) then mret TE_EINVAL else
      _ ← modify (rx_set_variant hash_var);
      mret 0
  end.

Definition net_drv_rss_ctx_prepare (ta ifn : string) (rss_ctx : Z) : T net_drv_rss_ctx unit :=
  _ ← modify (rx_set_names ta ifn rss_ctx);
  key ← lift (net_drv_rss_get_check_hkey ta ifn rss_ctx);
  _ ← modify (rx_set_key (Some key) (Z.of_nat (length key)));
  rc ← rss_ctx_fill ta ifn rss_ctx;
  if negb (rc =? 0) then (_ ← net_drv_rss_ctx_release; throw STOP) else mret tt.

Definition net_drv_rss_ctx_change_key (hash_key : list Z) (key_len : Z)
    : T net_drv_rss_ctx te_errno :=
  ok ← lift (call (TE_ALLOC key_len));
  if negb ok then mret TE_ENOMEM else
  let key_dup := take (Z.to_nat key_len) hash_key in
  new_cache ← lift (call (te_toeplitz_cache_init_size key_dup));
  match new_cache with
  | None => mret TE_ENOMEM
  | Some c =>
      _ ← modify (rx_set_key (Some key_dup) key_len);
      x ← get;
      _ ← lift (call (te_toeplitz_hash_fini (rx_cache x)));
      _ ← modify (rx_set_cache (Some c));
      mret 0
  end.

(** The three outputs that were asked for and written. *)
Record prediction := Prediction { p_hash : option Z; p_idx : option Z; p_queue : option Z }.

(** [want_x]: the pointer [x_out] is not null. *)
Definition net_drv_rss_predict (ctx : net_drv_rss_ctx) (src dst : sockaddr)
    (want_hash want_idx want_queue : bool) : M (te_errno * prediction) :=
  '(rc, hash) ← match rx_cache ctx with
                | Some c => call (te_toeplitz_hash_sa c src dst (rx_hash_variant ctx))
                | None => undef "NULL cache"
                end;
  if negb (rc =? 0) then mret (rc, Prediction None None None) else
  let h := if want_hash then Some hash else None in
  if negb want_idx && negb want_queue then mret (0, Prediction h None None) else
  if rx_indir_table_size ctx =? 0 then undef "division by zero" else
  let idx := hash mod rx_indir_table_size ctx in
  let i := if want_idx then Some idx else None in
  if negb want_queue then mret (0, Prediction h i None) else
  '(rc, queue) ← call (tapi_cfg_if_rss_indir_get (rx_ta ctx) (rx_if_name ctx) (rx_rss_ctx ctx) idx);
  if negb (rc =? 0) then mret (rc, Prediction h i None)
  else mret (0, Prediction h i (Some (u32 queue))).
(** *** Rx rules *)

(** The size is stored through [table_size] when it is not null. *)
Definition net_drv_rx_rules_check_table_size (ta ifn : string) : M Z :=
  '(rc, size) ← call (tapi_cfg_rx_rule_table_size_get ta ifn);
  if negb (rc =? 0) then
    if rc =? TE_RC TE_CS TE_ENOENT then TEST_SKIP "Rx rules are not supported" []
    else TEST_VERDICT "Failed to get size of Rx rules table: %r" [AI rc]
  else if size =? 0 then TEST_SKIP "Rx rules table has zero size" []
  else mret size.

Definition net_drv_rx_rules_check_spec_loc (ta ifn : string) : M unit :=
  '(rc, spec_loc) ← call (tapi_cfg_rx_rule_spec_loc_get ta ifn);
  if negb (rc =? 0) then
    TEST_VERDICT "Failed to check support of special insert locations: %r" [AI rc]
  else if negb spec_loc then
    TEST_SKIP "Special insert locations are not supported for Rx rules" []
  else mret tt.

(** [inl rc]: not found. *)
Definition net_drv_rx_rules_find_loc (ta ifn : string) : M (te_errno + Z) :=
  '(rc, spec_loc) ← call (tapi_cfg_rx_rule_spec_loc_get ta ifn);
  if negb (rc =? 0) then mret (inl rc)
  else if (spec_loc : bool) then mret (inr TAPI_CFG_RX_RULE_ANY)
  else
    '(rc, location) ← call (tapi_cfg_rx_rule_find_location ta ifn 0 0);
    if negb (rc =? 0) then mret (inl rc) else mret (inr location).

Definition net_drv_add_tcpudp_rx_rule (ta ifn : string) (sock_type : rpc_socket_type)
    (src_addr src_mask dst_addr dst_mask : option sockaddr) (queue : Z) (rule_name : string)
    : M unit :=
  af ← match src_addr, dst_addr with
       | Some a, _ | None, Some a => mret (sa_family a)
       | None, None => TEST_FAIL "%s(): both src_addr and dst_addr cannot be NULL"
                         [AS "net_drv_add_tcpudp_rx_rule"]
       end;
  flow_type ← call (tapi_cfg_rx_rule_flow_by_socket af sock_type);
  r ← net_drv_rx_rules_find_loc ta ifn;
  match r with
  | inl rc =>
      if rc =? TE_RC TE_CS TE_ENOENT then TEST_SKIP "Rx rules are not supported" []
      else TEST_VERDICT "Failed to find location for a new rule: %r" [AI rc]
  | inr location =>
      _ ← CHECK_RC (call (tapi_cfg_rx_rule_add ta ifn location flow_type));
      _ ← CHECK_RC (call (tapi_cfg_rx_rule_fill_ip_addrs_ports ta ifn location af
                            src_addr src_mask dst_addr dst_mask));
      _ ← CHECK_RC (call (tapi_cfg_rx_rule_rx_queue_set ta ifn location queue));
      rc ← call (tapi_cfg_rx_rule_commit ta ifn location);
      if negb (rc =? 0) then
        TEST_VERDICT "Failed to add %s%sRx rule: %r"
          [AS rule_name; AS (if String.eqb rule_name "" then "" else " "); AI rc]
      else mret tt
  end.

(** *** AF_XDP sockets *)

Definition net_drv_xdp_adjust_rx_size (ta ifn : string) (cfg : net_drv_xdp_cfg)
    : M (te_errno * net_drv_xdp_cfg) :=
  '(rc, number) ← call (tapi_cfg_if_get_rx_ring_size ta ifn);
  if negb (rc =? 0) then mret (rc, cfg)
  else mret (0, XdpCfg (xc_frame_len cfg) (u64 (number + xc_txq_size cfg)) (u32 number)
                  (u32 number) (xc_comp_size cfg) (u32 number) (xc_txq_size cfg) (xc_bind cfg)).

(** The sum of two channel numbers, [int]s stored in an [unsigned int]. *)
Definition add_chan (a b : Z) : M Z :=
  if INT_MAX <? a + b then undef "signed overflow" else mret (a + b).

(** Numbers of Rx and Tx queues.  [rx_out], [tx_out]: the output pointers are
    not null. *)
Definition net_drv_xdp_get_queues_num (ta ifn : string) (rx_out tx_out : bool)
    : M (te_errno * (Z * Z)) :=
  if negb rx_out || negb tx_out then mret (TE_RC TE_TAPI TE_EINVAL, (0, 0)) else
  '(rc, rx) ← call (tapi_cfg_if_chan_cur_get ta ifn TAPI_CFG_IF_CHAN_RX);
  if negb (rc =? 0) then mret (rc, (0, 0)) else
  '(rc, tx) ← call (tapi_cfg_if_chan_cur_get ta ifn TAPI_CFG_IF_CHAN_TX);
  if negb (rc =? 0) then mret (rc, (0, 0)) else
  '(rc, combined) ← call (tapi_cfg_if_chan_cur_get ta ifn TAPI_CFG_IF_CHAN_COMBINED);
  if negb (rc =? 0) then mret (rc, (0, 0)) else
  if (rx <? 0) || (tx <? 0) || (combined <? 0) then mret (TE_RC TE_TAPI TE_EINVAL, (0, 0)) else
  rx_queues ← add_chan rx combined;
  tx_queues ← add_chan tx combined;
  mret (0, (rx_queues, tx_queues)).

(** The first two parts of [net_drv_xdp_destroy_sock]: delete the socket, delete
    the UMEM.  [inl rc]: return [rc]. *)
Definition delete_xsk (rpcs : rcf_rpc_server) (k : net_drv_xdp_sock)
    : M ((te_errno + unit) * net_drv_xdp_sock) :=
  if negb (xs_sock k =? RPC_NULL) then
    '(rc, err) ← call (rpc_xsk_socket__delete rpcs (xs_sock k));
    if te_errno_of_int rc <? 0 then mret (inl err, k)
    else mret (inr tt, XdpSock 0 false (xs_mem k) (xs_umem k) RPC_NULL (-1))
  else mret (inr tt, k).

Definition delete_umem (rpcs : rcf_rpc_server) (k : net_drv_xdp_sock)
    : M ((te_errno + unit) * net_drv_xdp_sock) :=
  if negb (xs_umem k =? RPC_NULL) then
    '(rc, err) ← call (rpc_xsk_umem__delete rpcs (xs_umem k));
    if te_errno_of_int rc <? 0 then mret (inl err, k)
    else mret (inr tt, XdpSock (xs_queue_id k) (xs_tx_capable k) (xs_mem k) RPC_NULL
                         (xs_sock k) (xs_fd k))
  else mret (inr tt, k).

(** [None]: [sock == NULL]. *)
Definition net_drv_xdp_destroy_sock (rpcs : rcf_rpc_server) (sock : option net_drv_xdp_sock)
    : M (te_errno * option net_drv_xdp_sock) :=
  match sock with
  | None => mret (0, None)
  | Some k =>
      '(r, k) ← delete_xsk rpcs k;
      match r with
      | inl err => mret (err, Some k)
      | inr tt =>
          '(r, k) ← delete_umem rpcs k;
          match r with
          | inl err => mret (err, Some k)
          | inr tt =>
              if negb (xs_mem k =? RPC_NULL) then
                _ ← call (rpc_free rpcs (xs_mem k));
                mret (0, Some (XdpSock (xs_queue_id k) (xs_tx_capable k) RPC_NULL (xs_umem k)
                                 (xs_sock k) (xs_fd k)))
              else mret (0, Some k)
          end
      end
  end.

(** The [cleanup] label of [net_drv_xdp_create_sock] after a failure that was
    reported with [fmt]. *)
Definition create_sock_fail (rpcs : rcf_rpc_server) (fmt : string) (args : list arg)
    (k : net_drv_xdp_sock) : M (te_errno * net_drv_xdp_sock) :=
  _ ← ERROR_VERDICT fmt args;
  '(_, k') ← net_drv_xdp_destroy_sock rpcs (Some k);
  mret (TE_EFAIL, match k' with Some k' => k' | None => k end).

Definition net_drv_xdp_create_sock (rpcs : rcf_rpc_server) (ifn : string) (queue_id : Z)
    (cfg : net_drv_xdp_cfg) (map_fd : Z) : M (te_errno * net_drv_xdp_sock) :=
  let mem_len := u64 (xc_frames_num cfg * xc_frame_len cfg) in
  let umem_conf := UmemCfg (xc_fill_size cfg) (xc_comp_size cfg) (xc_frame_len cfg) in
  let sock_conf := XskCfg (xc_rxq_size cfg) (xc_txq_size cfg) true (xc_bind cfg) in
  let k0 := XdpSock queue_id false RPC_NULL RPC_NULL RPC_NULL (-1) in
  '(rc, (rx_queues, tx_queues)) ← net_drv_xdp_get_queues_num (rpcs_ta rpcs) ifn true true;
  if negb (rc =? 0) then
    _ ← ERROR_VERDICT "Failed to determine interface queue numbers: %r" [AI rc];
    mret (rc, k0)
  else if rx_queues <=? queue_id then
    _ ← ERROR_VERDICT "Queue id %u is out of Rx queue range [0, %u)" [AI queue_id; AI rx_queues];
    mret (TE_RC TE_TAPI TE_EINVAL, k0)
  else
  let tx := queue_id <? tx_queues in
  '(rc, mem, err) ← call (rpc_posix_memalign rpcs (xc_frame_len cfg) mem_len);
  let k := XdpSock queue_id tx mem RPC_NULL RPC_NULL (-1) in
  if rc <? 0 then create_sock_fail rpcs "posix_memalign() failed: %r" [AI err] k else
  '(rc, umem, err) ← call (rpc_xsk_umem__create rpcs mem mem_len umem_conf);
  let k := XdpSock queue_id tx mem umem RPC_NULL (-1) in
  if rc <? 0 then create_sock_fail rpcs "xsk_umem__create() failed: %r" [AI err] k else
  '(rc, err) ← call (rpc_xsk_rx_fill_simple rpcs umem ifn queue_id (xc_rx_frames cfg));
  if rc <? 0 then create_sock_fail rpcs "rpc_xsk_rx_fill_simple() failed: %r" [AI err] k
  else if rc =? 0 then
    create_sock_fail rpcs "rpc_xsk_rx_fill_simple() could not submit any buffers" [] k
  else
  '(rc, s, err) ← call (rpc_xsk_socket__create rpcs ifn queue_id umem true sock_conf);
  let k := XdpSock queue_id tx mem umem s (-1) in
  if rc <? 0 then create_sock_fail rpcs "xsk_socket__create() failed: %r" [AI err] k else
  let k := XdpSock queue_id tx mem umem s rc in
  '(rc, err) ← call (rpc_xsk_map_set rpcs map_fd queue_id (xs_fd k));
  if rc <? 0 then create_sock_fail rpcs "rpc_xsk_map_set() failed: %r" [AI err] k
  else mret (0, k).

(** One pass of the loop of [net_drv_xdp_create_socks]: the sockets made. *)
Definition create_socks_pass (rpcs : rcf_rpc_server) (ifn : string) (cfg : net_drv_xdp_cfg)
    (map_fd i : Z) (socks : list net_drv_xdp_sock)
    : M (ctl (list net_drv_xdp_sock) (list net_drv_xdp_sock)) :=
  '(rc, k) ← net_drv_xdp_create_sock rpcs ifn i cfg map_fd;
  mret (if negb (rc =? 0) then Return socks else Continue (socks ++ [k])).

(** One pass of the loops that destroy sockets. *)
Definition destroy_socks_pass (rpcs : rcf_rpc_server) (k : net_drv_xdp_sock) (res : te_errno)
    : M (ctl te_errno unit) :=
  '(rc, _) ← net_drv_xdp_destroy_sock rpcs (Some k);
  mret (Continue (if res =? 0 then rc else res)).

Definition net_drv_xdp_create_socks (rpcs : rcf_rpc_server) (ifn : string) (cfg : net_drv_xdp_cfg)
    (map_fd socks_num : Z) : M (list net_drv_xdp_sock) :=
  r ← for_n (Z.to_nat socks_num) 0 [] (create_socks_pass rpcs ifn cfg map_fd);
  match r with
  | inl socks => mret socks
  | inr made => _ ← foreach made 0 (destroy_socks_pass rpcs); TEST_STOP
  end.

Definition net_drv_xdp_destroy_socks (rpcs : rcf_rpc_server)
    (socks : option (list net_drv_xdp_sock)) : M te_errno :=
  match socks with
  | None => mret 0
  | Some l =>
      r ← foreach l 0 (destroy_socks_pass rpcs);
      match r with
      | inl res => mret res
      | inr tt => mret 0 (* the body does not return *)
      end
  end.

(** *** The echo over AF_XDP *)

Definition MAX_DATA_LEN : Z := 9000.
Definition XDP_MAX_PKT_LEN : Z := MAX_DATA_LEN + 200.

(** The first index at which [p] holds, or the length. *)
Fixpoint first_index {A} (p : A -> bool) (l : list A) : nat :=
  match l with
  | [] => O
  | x :: l' => if p x then O else S (first_index p l')
  end.

(** [goto finish] without success. *)
Definition echo_fail (fmt : string) : M unit := _ ← ERROR_VERDICT fmt []; TEST_STOP.

(** The last part of [net_drv_xdp_echo]: the reply comes back. *)
Definition echo_reply (rpcs_udp : rcf_rpc_server) (s_udp : Z) (dst_addr : sockaddr)
    (send_buf : list Z) (send_len : Z) : M unit :=
  readable ← call (rpc_readability rpcs_udp s_udp TAPI_WAIT_NETWORK_DELAY);
  if negb readable then
    echo_fail "UDP socket did not become readable after echo packet was sent to it"
  else
  '(recv_len, (recv_buf, recv_addr), _) ← call (rpc_recvfrom rpcs_udp s_udp XDP_MAX_PKT_LEN);
  if recv_len <? 0 then raise RPC_FAILED
  else if negb (recv_len =? send_len) || negb (mem_eq recv_buf send_buf send_len) then
    echo_fail "UDP socket got back unexpected data"
  else
  cmp ← call (tapi_sockaddr_cmp dst_addr recv_addr);
  if negb (cmp =? 0) then
    echo_fail "Source address of received echo packet does not match destination address"
  else mret tt.

Definition net_drv_xdp_echo (rpcs_udp : rcf_rpc_server) (s_udp : Z) (dst_addr : sockaddr)
    (rpcs_xdp : rcf_rpc_server) (socks : list net_drv_xdp_sock) (exp_sock : Z) (jumbo : bool)
    : M unit :=
  send_len ← net_drv_pick_rss_payload_len jumbo MAX_DATA_LEN;
  send_buf ← call (te_fill_buf send_len);
  rc ← rpc_ok (rpc_sendto rpcs_udp s_udp send_buf dst_addr);
  if negb (rc =? send_len) then TEST_FAIL "sendto() returned unexpected number" []
  else
  '(rc, revents, _) ← call (rpc_poll rpcs_xdp (map xs_fd socks) TAPI_WAIT_NETWORK_DELAY);
  if rc <? 0 then raise RPC_FAILED
  else if rc =? 0 then echo_fail "poll() did not report events for AF_XDP sockets"
  else if 1 <? rc then echo_fail "poll() reported events for multiple AF_XDP sockets"
  else
  let i := first_index (fun e => negb (e =? 0)) (take (length socks) revents) in
  match socks !! i with
  | None =>
      echo_fail "poll() returned positive number but all revents fields are zero"
  | Some k =>
      if negb (Z.of_nat i =? exp_sock) then
        echo_fail "poll() reported events for unexpected AF_XDP socket"
      else if negb (bool_decide (revents !! i = Some RPC_POLLIN)) then
        echo_fail "poll() reported unexpected events %s"
      else
      '(recv_len, recv_buf, _) ← call (rpc_xsk_receive_simple rpcs_xdp (xs_sock k) XDP_MAX_PKT_LEN);
      if recv_len <? 0 then raise RPC_FAILED
      else if recv_len <=? send_len then echo_fail "AF_XDP socket received too few bytes"
      else
      '(rc, reply) ← call (te_ipstack_mirror_udp_packet recv_buf);
      if negb (rc =? 0) then TEST_STOP
      else
      let send_sock := if xs_tx_capable k then i else first_index xs_tx_capable socks in
      match socks !! send_sock with
      | None => echo_fail "All AF_XDP sockets are RX-only"
      | Some k' =>
          '(rc, err) ← call (rpc_xsk_send_simple rpcs_xdp (xs_sock k') reply);
          if rc <? 0 then
            _ ← ERROR_VERDICT "xsk_send_simple() failed with error %r" [AI err]; TEST_STOP
          else echo_reply rpcs_udp s_udp dst_addr send_buf send_len
      end
  end.
End common_rss.

(** ** Prediction of the Rx queue *)
Module Nic.
(** A NIC that hashes with [n_key], the [te_toeplitz] library that computes
    the hash of a key ([cache_of], [hash_of]), and the configured variant. *)
Record nic := NicState { n_key : list Z; n_indir : list Z; n_queues : Z; n_variant : Z }.

Section library.
Context (cache_of : list Z -> toeplitz_cache)
  (hash_of : toeplitz_cache -> sockaddr -> sockaddr -> Z -> Z).

Definition hash (key : list Z) (src dst : sockaddr) (variant : Z) : Z :=
  u32 (hash_of (cache_of key) src dst variant).

Definition world {TE : Te} : handler te_call nic := fun X c n =>
  match c in te_call X return X * nic with
  | TE_ALLOC _ => (true, n)
  | tapi_cfg_if_rss_hash_key_get _ _ _ => ((0, n_key n), n)
  | tapi_cfg_if_rss_rx_queues_get _ _ => ((0, n_queues n), n)
  | tapi_cfg_if_rss_indir_table_size _ _ _ => ((0, Z.of_nat (length (n_indir n))), n)
  | tapi_cfg_if_rss_indir_get _ _ _ idx =>
      (match n_indir n !! Z.to_nat idx with
       | Some q => (0, q)
       | None => (TE_RC TE_CS TE_ENOENT, 0)
       end, n)
  | te_toeplitz_cache_init_size key => (Some (cache_of key), n)
  | te_toeplitz_hash_sa c src dst v => ((0, u32 (hash_of c src dst v)), n)
  | cfg_get_instance_int _ => ((0, n_variant n), n)
  | c => (default_answer c, n)
  end.

(** The prediction for a packet, from what the NIC does: the low bits of the
    hash index the indirection table, whose entry is the queue. *)
Definition expected (key : list Z) (n : nic) (src dst : sockaddr) : result prediction :=
  match n_indir n with
  | [] => Undef "division by zero"
  | q0 :: _ =>
      let h := hash key src dst (n_variant n) in
      let idx := h mod Z.of_nat (length (n_indir n)) in
      Val (Prediction (Some h) (Some idx) (Some (u32 (nth (Z.to_nat idx) (n_indir n) q0))))
  end.
End library.
End Nic.

Section rss_predict.
Context {TE : Te}.
Import Nic.
Context (cache_of : list Z -> toeplitz_cache)
  (hash_of : toeplitz_cache -> sockaddr -> sockaddr -> Z -> Z).

(** A test that prepares the context, predicts, changes the key, predicts. *)
Definition predict_twice (ta ifn : string) (c : Z) (ctx0 : net_drv_rss_ctx) (key' : list Z)
    (src dst : sockaddr) : M (prediction * te_errno * prediction) :=
  '(ctx, r) ← net_drv_rss_ctx_prepare ta ifn c ctx0;
  match r with
  | inr j => raise j
  | inl _ =>
      p1 ← CHECK_OUT (net_drv_rss_predict ctx src dst true true true);
      '(ctx, r) ← net_drv_rss_ctx_change_key key' (Z.of_nat (length key')) ctx;
      match r with
      | inr j => raise j
      | inl rc =>
          p2 ← CHECK_OUT (net_drv_rss_predict ctx src dst true true true);
          mret (p1, rc, p2)
      end
  end.

Lemma predict_run n ctx key src dst :
  rx_cache ctx = Some (cache_of key) -> rx_hash_variant ctx = n_variant n ->
  rx_indir_table_size ctx = Z.of_nat (length (n_indir n)) ->
  run (world cache_of hash_of) (CHECK_OUT (net_drv_rss_predict ctx src dst true true true)) n =
    (expected cache_of hash_of key n src dst, n).
Proof.
  intros Hc Hv Hs. unfold CHECK_OUT, net_drv_rss_predict, expected.
  rewrite Hc, Hv, Hs. rewrite run_bind. cbn -[Z.eqb Z.of_nat length hash u32 Z.modulo].
  change (0 =? 0) with true. cbn -[Z.eqb Z.of_nat length hash u32 Z.modulo].
  fold (hash cache_of hash_of key src dst (n_variant n)).
  set (h := hash _ _ _ _ _ _). assert (Hh : 0 <= h) by (apply u32_range).
  destruct (n_indir n) as [|q0 l] eqn:El; [done|].
  replace (Z.of_nat (length (q0 :: l)) =? 0) with false by (cbn [length]; symmetry; apply Z.eqb_neq; lia).
  cbn -[Z.eqb Z.of_nat length hash u32 Z.modulo lookup nth]. rewrite El.
  assert (Hlt : (Z.to_nat (h mod Z.of_nat (length (q0 :: l))) < length (q0 :: l))%nat).
  { pose proof (Z.mod_pos_bound h (Z.of_nat (length (q0 :: l)))). cbn [length] in *. lia. }
  destruct ((q0 :: l) !! _) eqn:Eq; [|by apply lookup_ge_None in Eq; lia].
  cbn -[Z.of_nat length hash u32 Z.modulo lookup nth].
  rewrite (nth_lookup_Some _ _ _ _ Eq). done.
Qed.

(** The context the preparation leaves, and the one a change of key leaves. *)
Definition prepared_ctx (ta ifn : string) (c : Z) (n : nic) : net_drv_rss_ctx :=
  RssCtx ta ifn c (Z.of_nat (length (n_indir n))) (u32 (n_queues n)) (Some (n_key n))
    (Z.of_nat (length (n_key n))) (Some (cache_of (n_key n))) (n_variant n).

Lemma prepare_run ta ifn c ctx0 n :
  run (world cache_of hash_of) (net_drv_rss_ctx_prepare ta ifn c ctx0) n =
    (Val (prepared_ctx ta ifn c n, inl tt), n).
Proof. reflexivity. Qed.

Lemma change_key_run key ctx n :
  run (world cache_of hash_of) (net_drv_rss_ctx_change_key key (Z.of_nat (length key)) ctx) n =
    (Val (rx_set_cache (Some (cache_of key)) (rx_set_key (Some key) (Z.of_nat (length key)) ctx),
          inl 0), n).
Proof.
  transitivity (run (world cache_of hash_of)
    (net_drv_rss_ctx_change_key (take (Z.to_nat (Z.of_nat (length key))) key) (Z.of_nat (length key)) ctx) n).
  - unfold net_drv_rss_ctx_change_key. by rewrite Nat2Z.id, !firstn_all.
  - rewrite Nat2Z.id, firstn_all. unfold net_drv_rss_ctx_change_key. rewrite Nat2Z.id, firstn_all. reflexivity.
Qed.

(** C22. The prediction agrees with the NIC: for any key, indirection table and
    addresses, the context prepared from the configuration predicts the hash,
    the table index (in the table's range) and the queue the NIC uses, and
    after the key is changed it predicts those of the new key; an empty
    indirection table is a division by zero. *)
Theorem rss_predict_agrees ta ifn c ctx0 key' src dst n :
  run (world cache_of hash_of) (predict_twice ta ifn c ctx0 key' src dst) n =
    (match expected cache_of hash_of (n_key n) n src dst, expected cache_of hash_of key' n src dst with
     | Val p1, Val p2 => Val (p1, 0, p2)
     | _, _ => Undef "division by zero"
     end, n) /\
  forall key p, expected cache_of hash_of key n src dst = Val p ->
    exists idx q, p_idx p = Some idx /\ p_queue p = Some (u32 q) /\
      n_indir n !! Z.to_nat idx = Some q /\ 0 <= idx < Z.of_nat (length (n_indir n)).
Proof.
  split.
  - unfold predict_twice. rewrite run_bind, prepare_run. cbn [lift_result].
    rewrite run_bind, (predict_run n _ (n_key n)) by done.
    destruct (expected cache_of hash_of (n_key n) n src dst) eqn:E1; unfold expected in E1;
      destruct (n_indir n) eqn:El; try discriminate; [|by injection E1 as <-].
    cbn [lift_result]. rewrite run_bind, change_key_run. cbn [lift_result].
    rewrite run_bind, (predict_run n _ key') by done.
    unfold expected. rewrite El. reflexivity.
  - intros key p. unfold expected. destruct (n_indir n) as [|q0 l] eqn:El; [done|].
    set (h := hash _ _ _ _ _ _). intros [= <-].
    pose proof (Z.mod_pos_bound h (Z.of_nat (length (q0 :: l))) ltac:(cbn [length]; lia)) as Hb.
    destruct ((q0 :: l) !! Z.to_nat (h mod Z.of_nat (length (q0 :: l)))) as [q|] eqn:Eq;
      [|apply lookup_ge_None in Eq; lia].
    eexists _, q. split; [reflexivity|]. split; [|split; [exact Eq|exact Hb]].
    cbn [p_queue]. do 2 f_equal. exact (nth_lookup_Some _ _ _ _ Eq).
Qed.
End rss_predict.

(** ** The echo *)
Module Echo.
(** What a monitor sees: payloads sent over UDP, AF_XDP sockets read, packets
    made by mirroring, what was sent over which AF_XDP socket, payloads
    received over UDP, addresses compared equal, errors reported. *)
Record ghost := Ghost {
  g_sent : list (list Z); g_read : list Z; g_mirrored : list (list Z);
  g_xsent : list (Z * list Z); g_got : list (list Z); g_addr_ok : bool; g_err : bool }.
Definition start : ghost := Ghost [] [] [] [] [] false false.

Definition upd X (c : te_call X) : X -> ghost -> ghost :=
  match c in te_call X return X -> ghost -> ghost with
  | rpc_sendto _ _ buf _ => fun _ g => Ghost (g_sent g ++ [buf]) (g_read g) (g_mirrored g)
      (g_xsent g) (g_got g) (g_addr_ok g) (g_err g)
  | rpc_xsk_receive_simple _ s _ => fun _ g => Ghost (g_sent g) (g_read g ++ [s]) (g_mirrored g)
      (g_xsent g) (g_got g) (g_addr_ok g) (g_err g)
  | te_ipstack_mirror_udp_packet _ => fun x g => Ghost (g_sent g) (g_read g)
      (g_mirrored g ++ [snd x]) (g_xsent g) (g_got g) (g_addr_ok g)
      (g_err g || negb (fst x =? 0))
  | rpc_xsk_send_simple _ s buf => fun _ g => Ghost (g_sent g) (g_read g) (g_mirrored g)
      (g_xsent g ++ [(s, buf)]) (g_got g) (g_addr_ok g) (g_err g)
  | rpc_recvfrom _ _ _ => fun x g => Ghost (g_sent g) (g_read g) (g_mirrored g) (g_xsent g)
      (g_got g ++ [fst (snd (fst x))]) (g_addr_ok g) (g_err g)
  | tapi_sockaddr_cmp _ _ => fun x g => Ghost (g_sent g) (g_read g) (g_mirrored g) (g_xsent g)
      (g_got g) (x =? 0) (g_err g)
  | verdict ERROR_V _ => fun _ g => Ghost (g_sent g) (g_read g) (g_mirrored g) (g_xsent g)
      (g_got g) (g_addr_ok g) true
  | _ => fun _ g => g
  end.

(** Documented behaviour: as for the data check; [poll] reports on every
    descriptor it was given. *)
Definition ok X (c : te_call X) : ghost -> X -> Prop :=
  match c in te_call X return ghost -> X -> Prop with
  | rand_range lo hi => fun _ x => lo <= x <= hi
  | te_fill_buf len => fun _ b => Z.of_nat (length b) = len
  | rpc_poll _ fds _ => fun _ x => length (snd (fst x)) = length fds
  | rpc_recvfrom _ _ _ => fun _ x =>
      0 <= fst (fst x) -> Z.of_nat (length (fst (snd (fst x)))) = fst (fst x)
  | _ => fun _ _ => True
  end.

Definition world : env te_call ghost := watch_if ok upd.

(** What the function promises when it returns. *)
Definition echoed (socks : list net_drv_xdp_sock) (exp_sock : Z) (g : ghost) : Prop :=
  exists buf k k' reply,
    g_sent g = [buf] /\ 1 <= Z.of_nat (length buf) <= MAX_DATA_LEN /\
    socks !! Z.to_nat exp_sock = Some k /\ g_read g = [xs_sock k] /\
    g_mirrored g = [reply] /\ g_xsent g = [(xs_sock k', reply)] /\
    k' ∈ socks /\ xs_tx_capable k' = true /\ (xs_tx_capable k = true -> k' = k) /\
    g_got g = [buf] /\ g_addr_ok g = true /\ g_err g = false.
End Echo.

Section echo.
Context {TE : Te}.
Import Echo.

Lemma first_index_spec {A} (p : A -> bool) l k :
  l !! first_index p l = Some k -> p k = true.
Proof.
  induction l as [|x l IH]; [done|]. cbn [first_index]. destruct (p x) eqn:E; cbn; [by intros [= <-]|apply IH].
Qed.

Definition echo_post (P : ghost -> Prop) (r : result unit) (g : ghost) : Prop :=
  match r with
  | Val _ => P g
  | Exc STOP => g_err g = true
  | Exc _ => True
  | _ => False
  end.

Lemma echo_fail_wp fmt P g : wp world (echo_fail fmt) g (echo_post P).
Proof. unfold echo_fail. wp_go. done. Qed.

Lemma echo_reply_wp rpcs s dst buf len g (P : ghost -> Prop) :
  Z.of_nat (length buf) = len ->
  P (Ghost (g_sent g) (g_read g) (g_mirrored g) (g_xsent g) (g_got g ++ [buf]) true (g_err g)) ->
  wp world (echo_reply rpcs s dst buf len) g (echo_post P).
Proof.
  intros Hlen HP. unfold echo_reply. wp_go; try apply echo_fail_wp; try done.
  cbn [ok upd fst snd echo_post] in *. autorewrite with zbool in *. destruct Heqb1 as [-> Hm].
  rewrite Heqb2. cbn [Z.eqb].
  assert (E : l = buf); [|by rewrite E].
  unfold mem_eq in Hm. apply bool_decide_eq_true in Hm. specialize (H0 Heqb0).
  rewrite !take_ge in Hm by lia. exact Hm.
Qed.

(** C23. [net_drv_xdp_echo] in any environment: when it returns, one payload of
    an allowed length was sent, the expected AF_XDP socket received a packet,
    its mirrored copy was sent over a Tx-capable socket (the same socket when
    that one is Tx-capable), and the UDP socket got back exactly the payload,
    from the right address, with no error reported; when it stops the test, an
    error was reported or the packet could not be mirrored. *)
Theorem xdp_echo_correct rpcs_udp s_udp dst rpcs_xdp socks exp_sock jumbo :
  wp world (net_drv_xdp_echo rpcs_udp s_udp dst rpcs_xdp socks exp_sock jumbo) start
    (echo_post (echoed socks exp_sock)).
Proof.
  unfold net_drv_xdp_echo, net_drv_pick_rss_payload_len.
  set (bad := _ || _ || _). assert (Hbad : bad = false) by (by destruct jumbo). rewrite Hbad.
  wp_go; try apply echo_fail_wp; try done.
  cbn [ok upd fst snd] in *. autorewrite with zbool in *.
  set (i := first_index _ (take _ _)).
  destruct (socks !! i) as [k|] eqn:Hk; [|apply echo_fail_wp].
  wp_go; try apply echo_fail_wp; try done.
  match goal with |- context [socks !! ?j] => destruct (socks !! j) as [k'|] eqn:Hk' end;
    [|apply echo_fail_wp].
  wp_go; try done.
  apply echo_reply_wp; [done|]. cbn [ok upd fst snd] in *. autorewrite with zbool in *.
  unfold echoed. cbn [g_sent g_read g_mirrored g_xsent g_got g_addr_ok g_err app].
  eexists _, k, k', _. split; [done|].
  assert (Hi : i = Z.to_nat exp_sock) by lia.
  split; [destruct jumbo; unfold MAX_DATA_LEN, RSS_JUMBO_MIN_PAYLOAD, RSS_JUMBO_MAX_PAYLOAD,
            RSS_NORMAL_MAX_PAYLOAD in *; lia|].
  split; [by rewrite <- Hi|]. repeat (split; [done|]).
  split; [by eapply list_elem_of_lookup_2|].
  destruct (xs_tx_capable k) eqn:Htx.
  - rewrite Hk in Hk'. injection Hk' as <-. repeat (split; [done|]). by autorewrite with zbool in *.
  - split; [by eapply first_index_spec|]. split; [done|]. repeat (split; [done|]). by autorewrite with zbool in *.
Qed.
End echo.
