(* ===== verification/XdpSocks.v ===== *)
(** Resources of AF_XDP sockets (rss/common_rss.c): what the functions that
    create and destroy them own on the agent, in any environment. *)
From S2P Require Import Prelude Prog Te CommonRss.

Module XdpWatch.
(** Live memory areas, UMEMs (with the memory under them), sockets (with their
    UMEM); the entries set in the XSK map; whether something was used after it
    was freed, or freed twice; whether some deletion failed. *)
Record ghost := Ghost {
  g_mem : list (Z * Z); g_umem : list (Z * Z); g_sock : list (Z * Z);
  g_map : list (Z * Z); g_bad : bool; g_delfail : bool }.
Definition start : ghost := Ghost [] [] [] [] false false.

Definition has_key (x : Z) (l : list (Z * Z)) : bool := existsb (fun p => fst p =? x) l.
Definition has_val (x : Z) (l : list (Z * Z)) : bool := existsb (fun p => snd p =? x) l.
Definition drop_key (x : Z) (l : list (Z * Z)) : list (Z * Z) :=
  List.filter (fun p => negb (fst p =? x)) l.

Definition upd X (c : te_call X) : X -> ghost -> ghost :=
  match c in te_call X return X -> ghost -> ghost with
  | rpc_posix_memalign _ _ _ => fun x g =>
      if fst (fst x) <? 0 then g else
      Ghost (g_mem g ++ [(snd (fst x), 0)]) (g_umem g) (g_sock g) (g_map g) (g_bad g) (g_delfail g)
  | rpc_xsk_umem__create _ mem _ _ => fun x g =>
      if fst (fst x) <? 0 then g else
      Ghost (g_mem g) (g_umem g ++ [(snd (fst x), mem)]) (g_sock g) (g_map g)
        (g_bad g || negb (has_key mem (g_mem g))) (g_delfail g)
  | rpc_xsk_socket__create _ _ _ umem _ _ => fun x g =>
      if fst (fst x) <? 0 then g else
      Ghost (g_mem g) (g_umem g) (g_sock g ++ [(snd (fst x), umem)]) (g_map g)
        (g_bad g || negb (has_key umem (g_umem g))) (g_delfail g)
  | rpc_xsk_map_set _ _ key fd => fun x g =>
      if fst x <? 0 then g else
      Ghost (g_mem g) (g_umem g) (g_sock g) (g_map g ++ [(key, fd)]) (g_bad g) (g_delfail g)
  | rpc_xsk_socket__delete _ s => fun x g =>
      if fst x <? 0 then Ghost (g_mem g) (g_umem g) (g_sock g) (g_map g) (g_bad g) true else
      Ghost (g_mem g) (g_umem g) (drop_key s (g_sock g)) (g_map g)
        (g_bad g || negb (has_key s (g_sock g))) (g_delfail g)
  | rpc_xsk_umem__delete _ u => fun x g =>
      if fst x <? 0 then Ghost (g_mem g) (g_umem g) (g_sock g) (g_map g) (g_bad g) true else
      Ghost (g_mem g) (drop_key u (g_umem g)) (g_sock g) (g_map g)
        (g_bad g || negb (has_key u (g_umem g)) || has_val u (g_sock g)) (g_delfail g)
  | rpc_free _ m => fun _ g =>
      Ghost (drop_key m (g_mem g)) (g_umem g) (g_sock g) (g_map g)
        (g_bad g || negb (has_key m (g_mem g)) || has_val m (g_umem g)) (g_delfail g)
  | _ => fun _ g => g
  end.

(** A call that creates something returns a null pointer when it fails, and
    otherwise a pointer that is not null and not in use. *)
Definition created {TE : Te} (rc p : Z) (live : list (Z * Z)) : Prop :=
  if rc <? 0 then p = RPC_NULL else p <> RPC_NULL /\ p ∉ map fst live.

(** Documented behaviour of the RPCs: creation as above, a deletion that does
    not fail returns zero; numbers of channels are small. *)
Definition ok {TE : Te} X (c : te_call X) : ghost -> X -> Prop :=
  match c in te_call X return ghost -> X -> Prop with
  | rpc_posix_memalign _ _ _ => fun g x => created (fst (fst x)) (snd (fst x)) (g_mem g)
  | rpc_xsk_umem__create _ _ _ _ => fun g x => created (fst (fst x)) (snd (fst x)) (g_umem g)
  | rpc_xsk_socket__create _ _ _ _ _ _ => fun g x => created (fst (fst x)) (snd (fst x)) (g_sock g)
  | rpc_xsk_socket__delete _ _ => fun _ x => fst x <= 0
  | rpc_xsk_umem__delete _ _ => fun _ x => fst x <= 0
  | tapi_cfg_if_chan_cur_get _ _ _ => fun _ x => snd x <= UINT16_MAX
  | _ => fun _ _ => True
  end.

Definition world {TE : Te} : env te_call ghost := watch_if ok upd.

Section owns.
Context {TE : Te}.

Definition entry (p v : Z) : list (Z * Z) := if p =? RPC_NULL then [] else [(p, v)].
Definition own_mem (k : net_drv_xdp_sock) : list (Z * Z) := entry (xs_mem k) 0.
Definition own_umem (k : net_drv_xdp_sock) : list (Z * Z) := entry (xs_umem k) (xs_mem k).
Definition own_sock (k : net_drv_xdp_sock) : list (Z * Z) := entry (xs_sock k) (xs_umem k).

(** A socket stands on a UMEM, a UMEM on memory. *)
Definition layered (k : net_drv_xdp_sock) : Prop :=
  (xs_sock k <> RPC_NULL -> xs_umem k <> RPC_NULL) /\
  (xs_umem k <> RPC_NULL -> xs_mem k <> RPC_NULL).

(** The live resources are exactly those of [ks]. *)
Definition owns (ks : list net_drv_xdp_sock) (g : ghost) : Prop :=
  g_mem g = flat_map own_mem ks /\ g_umem g = flat_map own_umem ks /\
  g_sock g = flat_map own_sock ks /\ Forall layered ks /\
  NoDup (map fst (g_mem g)) /\ NoDup (map fst (g_umem g)) /\ NoDup (map fst (g_sock g)) /\
  g_bad g = false /\ g_delfail g = false.
End owns.
End XdpWatch.

Section xdp_socks.
Context {TE : Te}.
Import XdpWatch.

Lemma drop_key_mid x v A B : NoDup (map fst (A ++ (x, v) :: B)) ->
  drop_key x (A ++ (x, v) :: B) = A ++ B /\ NoDup (map fst (A ++ B)) /\ x ∉ map fst (A ++ B).
Proof.
  rewrite !map_app. cbn [map fst]. intros H.
  assert (Hp : map fst A ++ x :: map fst B ≡ₚ x :: map fst A ++ map fst B)
    by (symmetry; apply Permutation_middle).
  rewrite Hp in H. apply list.NoDup_cons in H as [Hx Hnd]. split; [|done].
  assert (Hid : forall l, x ∉ map fst l -> drop_key x l = l).
  { induction l as [|[y w] l IH]; [done|]. cbn [map fst drop_key List.filter]. rewrite not_elem_of_cons.
    intros [Hy Hl]. destruct (Z.eqb_spec y x); [congruence|]. cbn. f_equal. by apply IH. }
  apply not_elem_of_app in Hx as [HA HB].
  unfold drop_key. rewrite List.filter_app. cbn. rewrite Z.eqb_refl. cbn.
  f_equal; by apply Hid.
Qed.

Lemma has_key_spec x l : has_key x l = true <-> x ∈ map fst l.
Proof.
  unfold has_key. rewrite existsb_exists, list_elem_of_In, in_map_iff.
  split; intros (p & H1 & H2); exists p; [apply Z.eqb_eq in H2|rewrite Z.eqb_eq]; auto.
Qed.

Lemma has_val_false x l : has_val x l = false <-> x ∉ map snd l.
Proof.
  unfold has_val. split.
  - intros H Hx. rewrite list_elem_of_In, in_map_iff in Hx. destruct Hx as (p & H1 & H2).
    rewrite <- Bool.not_true_iff_false in H. apply H, existsb_exists. exists p. by rewrite Z.eqb_eq.
  - intros H. apply Bool.not_true_iff_false. intros Hx. apply existsb_exists in Hx as (p & H1 & H2).
    apply H. rewrite list_elem_of_In, in_map_iff. exists p. apply Z.eqb_eq in H2. auto.
Qed.

(** The values of a layer are names of the layer below. *)
Lemma sock_umems ks : Forall layered ks -> forall u, u ∈ map snd (flat_map own_sock ks) ->
  u ∈ map fst (flat_map own_umem ks).
Proof.
  induction 1 as [|k ks [H1 H2] _ IH]; [done|]. intros u. cbn [flat_map]. rewrite !map_app, !elem_of_app.
  intros [H|H]; [left|right; auto]. unfold own_sock, own_umem, entry in *.
  destruct (Z.eqb_spec (xs_sock k) RPC_NULL) as [?|Hs]; [easy|]. simpl in H.
  apply list_elem_of_singleton in H as ->. destruct (Z.eqb_spec (xs_umem k) RPC_NULL) as [E|]; [by destruct (H1 Hs)|].
  by apply list_elem_of_singleton.
Qed.

Lemma umem_mems ks : Forall layered ks -> forall m, m ∈ map snd (flat_map own_umem ks) ->
  m ∈ map fst (flat_map own_mem ks).
Proof.
  induction 1 as [|k ks [H1 H2] _ IH]; [done|]. intros u. cbn [flat_map]. rewrite !map_app, !elem_of_app.
  intros [H|H]; [left|right; auto]. unfold own_mem, own_umem, entry in *.
  destruct (Z.eqb_spec (xs_umem k) RPC_NULL) as [?|Hs]; [easy|]. simpl in H.
  apply list_elem_of_singleton in H as ->. destruct (Z.eqb_spec (xs_mem k) RPC_NULL) as [E|]; [by destruct (H2 Hs)|].
  by apply list_elem_of_singleton.
Qed.

Lemma flat_map_mid {A B} (f : A -> list B) pre k post :
  flat_map f (pre ++ k :: post) = flat_map f pre ++ f k ++ flat_map f post.
Proof. by rewrite flat_map_app. Qed.

Lemma entry_null v : entry RPC_NULL v = [].
Proof. unfold entry. by rewrite Z.eqb_refl. Qed.

Lemma entry_live p v : p <> RPC_NULL -> entry p v = [(p, v)].
Proof. unfold entry. by destruct (Z.eqb_spec p RPC_NULL). Qed.

Lemma layered_mid pre k k' post :
  Forall layered (pre ++ k :: post) -> layered k' -> Forall layered (pre ++ k' :: post).
Proof.
  rewrite !Forall_app, !Forall_cons. tauto.
Qed.

(** A live name is known, so its deletion is not a double free. *)
Lemma has_key_mid x v A B : has_key x (A ++ (x, v) :: B) = true.
Proof.
  apply has_key_spec. rewrite map_app, elem_of_app. right. cbn. rewrite elem_of_cons. by left.
Qed.

Lemma drop_sock pre k post g q t fd :
  owns (pre ++ k :: post) g -> xs_sock k <> RPC_NULL ->
  owns (pre ++ XdpSock q t (xs_mem k) (xs_umem k) RPC_NULL fd :: post)
    (Ghost (g_mem g) (g_umem g) (drop_key (xs_sock k) (g_sock g)) (g_map g)
       (g_bad g || negb (has_key (xs_sock k) (g_sock g))) (g_delfail g)).
Proof.
  intros (Hm & Hu & Hs & Hl & Nm & Nu & Ns & Hb & Hd) Hk. set (k1 := XdpSock _ _ _ _ _ _).
  assert (E1 : own_sock k = [(xs_sock k, xs_umem k)]) by (by apply entry_live).
  assert (E2 : own_sock k1 = []) by apply entry_null.
  rewrite Hm in Nm. rewrite Hu in Nu. rewrite Hs, flat_map_mid, E1 in Ns.
  destruct (drop_key_mid _ _ _ _ Ns) as (E & N & _).
  unfold owns; cbn [g_mem g_umem g_sock g_bad g_delfail].
  rewrite Hb, Hd, Hm, Hu, Hs, !flat_map_mid, E1, E2. cbn [app].
  rewrite E, has_key_mid. rewrite flat_map_mid in Nm, Nu.
  repeat (split; [done|]). split; [|done].
  eapply layered_mid; [done|]. apply Forall_app in Hl as [_ Hl]. apply Forall_cons in Hl as [[H1 H2] _].
  split; cbn; auto.
Qed.

Lemma drop_umem pre k post g :
  owns (pre ++ k :: post) g -> xs_sock k = RPC_NULL -> xs_umem k <> RPC_NULL ->
  owns (pre ++ XdpSock (xs_queue_id k) (xs_tx_capable k) (xs_mem k) RPC_NULL (xs_sock k) (xs_fd k) :: post)
    (Ghost (g_mem g) (drop_key (xs_umem k) (g_umem g)) (g_sock g) (g_map g)
       (g_bad g || negb (has_key (xs_umem k) (g_umem g)) || has_val (xs_umem k) (g_sock g))
       (g_delfail g)).
Proof.
  intros (Hm & Hu & Hs & Hl & Nm & Nu & Ns & Hb & Hd) Hk Hk2. set (k1 := XdpSock _ _ _ _ _ _).
  assert (E1 : own_umem k = [(xs_umem k, xs_mem k)]) by (by apply entry_live).
  assert (E2 : own_umem k1 = []) by apply entry_null.
  assert (E3 : own_sock k = []) by (unfold own_sock; rewrite Hk; apply entry_null).
  assert (E4 : own_sock k1 = []) by (unfold own_sock; cbn; rewrite Hk; apply entry_null).
  assert (L1 : Forall layered (pre ++ k1 :: post)).
  { eapply layered_mid; [done|]. apply Forall_app in Hl as [_ Hl]. apply Forall_cons in Hl as [[H1 H2] _].
    split; cbn; auto. }
  rewrite Hm in Nm. rewrite Hs in Ns. rewrite Hu, flat_map_mid, E1 in Nu.
  destruct (drop_key_mid _ _ _ _ Nu) as (E & N & Hx).
  assert (Hv : has_val (xs_umem k) (g_sock g) = false).
  { apply has_val_false. rewrite Hs, flat_map_mid, E3. intros Hin. apply Hx.
    pose proof (sock_umems _ L1 (xs_umem k)) as Hsu.
    rewrite !flat_map_mid, E2, E4 in Hsu. apply Hsu. done. }
  unfold owns; cbn [g_mem g_umem g_sock g_bad g_delfail].
  rewrite Hv, Hb, Hd, Hm, Hu, Hs, !flat_map_mid, E1, E2, E3, E4. cbn [app].
  rewrite E, has_key_mid. rewrite flat_map_mid in Nm. rewrite flat_map_mid, E3 in Ns.
  repeat (split; [done|]). done.
Qed.

Lemma drop_mem pre k post g :
  owns (pre ++ k :: post) g -> xs_sock k = RPC_NULL -> xs_umem k = RPC_NULL -> xs_mem k <> RPC_NULL ->
  owns (pre ++ post)
    (Ghost (drop_key (xs_mem k) (g_mem g)) (g_umem g) (g_sock g) (g_map g)
       (g_bad g || negb (has_key (xs_mem k) (g_mem g)) || has_val (xs_mem k) (g_umem g))
       (g_delfail g)).
Proof.
  intros (Hm & Hu & Hs & Hl & Nm & Nu & Ns & Hb & Hd) Hk Hk2 Hk3.
  assert (E1 : own_mem k = [(xs_mem k, 0)]) by (by apply entry_live).
  assert (E2 : own_umem k = []) by (unfold own_umem; rewrite Hk2; apply entry_null).
  assert (E3 : own_sock k = []) by (unfold own_sock; rewrite Hk; apply entry_null).
  assert (L1 : Forall layered (pre ++ post)).
  { apply Forall_app in Hl as [Ha Hl]. apply Forall_cons in Hl as [_ Hp]. by apply Forall_app. }
  rewrite Hu in Nu. rewrite Hs in Ns. rewrite Hm, flat_map_mid, E1 in Nm.
  destruct (drop_key_mid _ _ _ _ Nm) as (E & N & Hx).
  assert (Hv : has_val (xs_mem k) (g_umem g) = false).
  { apply has_val_false. rewrite Hu, flat_map_mid, E2. intros Hin. apply Hx.
    rewrite <- !flat_map_app. apply umem_mems; [done|]. by rewrite flat_map_app. }
  unfold owns; cbn [g_mem g_umem g_sock g_bad g_delfail].
  rewrite Hv, Hb, Hd, Hm, Hu, Hs, !flat_map_mid, E1, E2, E3, !flat_map_app. cbn [app].
  rewrite E, has_key_mid. rewrite flat_map_mid, E2 in Nu. rewrite flat_map_mid, E3 in Ns.
  repeat (split; [done|]). done.
Qed.

(** Nothing is owned through null pointers. *)
Lemma drop_nothing pre k post g :
  owns (pre ++ k :: post) g -> xs_mem k = RPC_NULL -> owns (pre ++ post) g.
Proof.
  intros (Hm & Hu & Hs & Hl & Nm & Nu & Ns & Hb & Hd) Hk.
  apply Forall_app in Hl as [Ha Hl]. apply Forall_cons in Hl as [[L1 L2] Hp].
  assert (Hk2 : xs_umem k = RPC_NULL) by (destruct (decide (xs_umem k = RPC_NULL)); tauto).
  assert (Hk3 : xs_sock k = RPC_NULL) by (destruct (decide (xs_sock k = RPC_NULL)); tauto).
  assert (E1 : own_mem k = []) by (unfold own_mem; rewrite Hk; apply entry_null).
  assert (E2 : own_umem k = []) by (unfold own_umem; rewrite Hk2; apply entry_null).
  assert (E3 : own_sock k = []) by (unfold own_sock; rewrite Hk3; apply entry_null).
  rewrite flat_map_mid, E1 in Hm. rewrite flat_map_mid, E2 in Hu. rewrite flat_map_mid, E3 in Hs.
  unfold owns. rewrite !flat_map_app.
  repeat (split; [done|]). split; [by apply Forall_app|done].
Qed.

Lemma errno_of_zero z : z <= 0 -> ~ z < 0 -> te_errno_of_int z = 0.
Proof. intros ? ?. replace z with 0 by lia. by apply te_errno_of_int_id. Qed.

(** What a deleting step leaves, unless some deletion failed. *)
Definition step_post (Q : net_drv_xdp_sock -> ghost -> Prop) (g : ghost)
    (r : result ((te_errno + unit) * net_drv_xdp_sock)) (g' : ghost) : Prop :=
  match r with
  | Val (x, k') => g_map g' = g_map g /\
      (g_delfail g' = false -> g_delfail g = false /\ x = inr tt /\ Q k' g')
  | _ => False
  end.

Lemma delete_xsk_wp rpcs pre k post g : (g_delfail g = false -> owns (pre ++ k :: post) g) ->
  wp world (delete_xsk rpcs k) g
    (step_post (fun k' g' => xs_sock k' = RPC_NULL /\ owns (pre ++ k' :: post) g') g).
Proof.
  intros Ho. unfold delete_xsk. wp_go; cbn [ok upd fst snd] in *; autorewrite with zbool in *.
  - destruct (Z.ltb_spec z 0); [by split|]. rewrite errno_of_zero in Heqb0 by lia. lia.
  - destruct (Z.ltb_spec z 0); [by split|]. split; [done|]. cbn [g_delfail]. intros Hd.
    split; [done|]. split; [done|]. split; [done|]. by apply drop_sock; [apply Ho|].
  - split; [done|]. auto.
Qed.

Lemma delete_umem_wp rpcs pre k post g :
  (g_delfail g = false -> xs_sock k = RPC_NULL /\ owns (pre ++ k :: post) g) ->
  wp world (delete_umem rpcs k) g
    (step_post (fun k' g' => (xs_sock k' = RPC_NULL /\ xs_umem k' = RPC_NULL) /\
                             owns (pre ++ k' :: post) g') g).
Proof.
  intros Ho. unfold delete_umem. wp_go; cbn [ok upd fst snd] in *; autorewrite with zbool in *.
  - destruct (Z.ltb_spec z 0); [by split|]. rewrite errno_of_zero in Heqb0 by lia. lia.
  - destruct (Z.ltb_spec z 0); [by split|]. split; [done|]. cbn [g_delfail]. intros Hd.
    destruct (Ho Hd) as [H1 H2]. split; [done|]. split; [done|]. split; [done|]. by apply drop_umem.
  - split; [done|]. intros Hd. destruct (Ho Hd) as [H1 H2]. auto.
Qed.

(** A structure that names nothing. *)
Definition null_sock (k : net_drv_xdp_sock) : Prop :=
  xs_sock k = RPC_NULL /\ xs_umem k = RPC_NULL /\ xs_mem k = RPC_NULL.

(** Destroying one of the sockets: unless a deletion fails, all it owned is
    gone, the structure names nothing and nothing else is touched. *)
Lemma destroy_sock_wp rpcs pre k post g : (g_delfail g = false -> owns (pre ++ k :: post) g) ->
  wp world (net_drv_xdp_destroy_sock rpcs (Some k)) g
    (fun r g' => match r with
     | Val (rc, k') => g_map g' = g_map g /\ (exists k1, k' = Some k1 /\ (g_delfail g' = false -> null_sock k1)) /\
         (g_delfail g' = false -> g_delfail g = false /\ owns (pre ++ post) g' /\ rc = 0)
     | _ => False
     end).
Proof.
  intros Ho. unfold net_drv_xdp_destroy_sock. wp_step.
  eapply wp_mono; [by eapply delete_xsk_wp|]. intros [[x k1]| | |] g1 H1; try done.
  destruct H1 as [M1 D1]. cbn [bpost].
  destruct x as [err|[]]; [wp_go; split; [done|]; split; [eexists; split; [done|]|]; intros Hd; by destruct (D1 Hd) as (_ & ? & _)|].
  wp_step. eapply wp_mono; [apply (delete_umem_wp rpcs pre k1 post)|].
  { intros Hd. destruct (D1 Hd) as (_ & _ & H). exact H. }
  intros [[x k2]| | |] g2 H2; try done. destruct H2 as [M2 D2]. cbn [bpost].
  destruct x as [err|[]]; [wp_go; split; [congruence|]; split; [eexists; split; [done|]|]; intros Hd; by destruct (D2 Hd) as (_ & ? & _)|].
  wp_go; cbn [upd] in *; autorewrite with zbool in *; (split; [cbn; congruence|]; split;
    [eexists; split; [done|]; cbn [g_delfail]; intros Hd; destruct (D2 Hd) as (_ & _ & (? & ?) & _); by repeat split|]).
  - cbn [g_delfail]. intros Hd. destruct (D2 Hd) as (Hd1 & _ & (H1 & H2) & H3).
    destruct (D1 Hd1) as (Hd0 & _). split; [done|]. split; [by apply drop_mem|done].
  - intros Hd. destruct (D2 Hd) as (Hd1 & _ & _ & H3). destruct (D1 Hd1) as (Hd0 & _).
    split; [done|]. split; [by eapply drop_nothing|done].
Qed.

(** Destroying all of them. *)
Lemma destroy_loop_wp rpcs ks g : (g_delfail g = false -> owns ks g) ->
  wp world (foreach ks 0 (destroy_socks_pass rpcs)) g
    (fun r g' => match r with
     | Val (inl res) => g_map g' = g_map g /\
         (g_delfail g' = false -> g_delfail g = false /\ owns [] g' /\ res = 0)
     | _ => False
     end).
Proof.
  intros Ho.
  apply (wp_foreach _ _ _ _ _ _ (fun _ post res g' => g_map g' = g_map g /\
    (g_delfail g' = false -> g_delfail g = false /\ owns post g' /\ res = 0))); [auto| |auto].
  intros pre k post res g1 _ [M1 D1]. unfold destroy_socks_pass. wp_step.
  eapply wp_mono; [apply (destroy_sock_wp rpcs [] k post)|].
  { intros Hd. by destruct (D1 Hd) as (_ & ? & _). }
  intros [[rc k']| | |] g2 H; try done. destruct H as (M2 & _ & D2). wp_go.
  split; [congruence|]. intros Hd. destruct (D2 Hd) as (Hd1 & H & ->). destruct (D1 Hd1) as (? & _ & ->).
  auto.
Qed.
(** *** Creating *)

Lemma keys_snoc p v (l : list (Z * Z)) :
  NoDup (map fst l) -> p ∉ map fst l -> NoDup (map fst (l ++ [(p, v)])).
Proof.
  intros Hl Hp. rewrite map_app. apply list.NoDup_app. split; [done|]. split.
  - intros x Hx Hx'. apply list_elem_of_singleton in Hx' as ->. by apply Hp.
  - apply NoDup_singleton.
Qed.

Lemma flat_map_snoc {A B} (f : A -> list B) l x : flat_map f (l ++ [x]) = flat_map f l ++ f x.
Proof. rewrite flat_map_app. cbn. by rewrite app_nil_r. Qed.

Lemma own_mem_of q t m u s fd : own_mem (XdpSock q t m u s fd) = entry m 0.
Proof. done. Qed.
Lemma own_umem_of q t m u s fd : own_umem (XdpSock q t m u s fd) = entry u m.
Proof. done. Qed.
Lemma own_sock_of q t m u s fd : own_sock (XdpSock q t m u s fd) = entry s u.
Proof. done. Qed.

Lemma add_nothing ks g q t fd : owns ks g -> owns (ks ++ [XdpSock q t RPC_NULL RPC_NULL RPC_NULL fd]) g.
Proof.
  intros (Hm & Hu & Hs & Hl & N). unfold owns. rewrite !flat_map_snoc.
  rewrite own_mem_of, own_umem_of, own_sock_of, !entry_null, !app_nil_r.
  repeat (split; [done|]). split; [|done]. apply Forall_app; split; [done|].
  constructor; [|done]. by split.
Qed.

Lemma add_mem ks g q t p fd : owns ks g -> p <> RPC_NULL -> p ∉ map fst (g_mem g) ->
  owns (ks ++ [XdpSock q t p RPC_NULL RPC_NULL fd])
    (Ghost (g_mem g ++ [(p, 0)]) (g_umem g) (g_sock g) (g_map g) (g_bad g) (g_delfail g)).
Proof.
  intros (Hm & Hu & Hs & Hl & Nm & N) Hp Hf. unfold owns. rewrite !flat_map_snoc.
  rewrite own_mem_of, own_umem_of, own_sock_of.
  cbn [g_mem g_umem g_sock g_bad g_delfail].
  rewrite !entry_null, !app_nil_r, entry_live, Hm in * by done.
  repeat (split; [done|]). split; [|split; [by apply keys_snoc|done]].
  apply Forall_app; split; [done|]. constructor; [|done]. by split.
Qed.

Lemma add_umem ks g q t m u fd : owns (ks ++ [XdpSock q t m RPC_NULL RPC_NULL fd]) g ->
  m <> RPC_NULL -> u <> RPC_NULL -> u ∉ map fst (g_umem g) ->
  owns (ks ++ [XdpSock q t m u RPC_NULL fd])
    (Ghost (g_mem g) (g_umem g ++ [(u, m)]) (g_sock g) (g_map g)
       (g_bad g || negb (has_key m (g_mem g))) (g_delfail g)).
Proof.
  unfold owns. rewrite !flat_map_snoc, !own_mem_of, !own_umem_of, !own_sock_of.
  cbn [g_mem g_umem g_sock g_bad g_delfail].
  intros (Hm & Hu & Hs & Hl & Nm & Nu & Ns & Hb & Hd) Hm0 Hu0 Hf.
  rewrite !entry_null, !app_nil_r, ?(entry_live m), ?(entry_live u) in * by done.
  assert (Hk : has_key m (g_mem g) = true) by (rewrite Hm; apply has_key_mid). rewrite Hk, Hb.
  repeat (split; [done || congruence|]). split; [|].
  - apply Forall_app in Hl as [Hl _]. apply Forall_app; split; [done|]. constructor; [by split|done].
  - split; [done|]. split; [by apply keys_snoc|done].
Qed.

Lemma add_sock ks g q t m u s fd : owns (ks ++ [XdpSock q t m u RPC_NULL fd]) g ->
  m <> RPC_NULL -> u <> RPC_NULL -> s <> RPC_NULL -> s ∉ map fst (g_sock g) ->
  owns (ks ++ [XdpSock q t m u s fd])
    (Ghost (g_mem g) (g_umem g) (g_sock g ++ [(s, u)]) (g_map g)
       (g_bad g || negb (has_key u (g_umem g))) (g_delfail g)).
Proof.
  unfold owns. rewrite !flat_map_snoc, !own_mem_of, !own_umem_of, !own_sock_of.
  cbn [g_mem g_umem g_sock g_bad g_delfail].
  intros (Hm & Hu & Hs & Hl & Nm & Nu & Ns & Hb & Hd) Hm0 Hu0 Hs0 Hf.
  rewrite !entry_null, !app_nil_r, ?(entry_live m), ?(entry_live u), ?(entry_live s) in * by done.
  assert (Hk : has_key u (g_umem g) = true) by (rewrite Hu; apply has_key_mid). rewrite Hk, Hb.
  repeat (split; [done || congruence|]). split; [|].
  - apply Forall_app in Hl as [Hl _]. apply Forall_app; split; [done|]. constructor; [by split|done].
  - split; [done|]. split; [done|]. split; [by apply keys_snoc|done].
Qed.

(** A socket is bound to its queue; the socket structure is complete. *)
Definition bound (q : Z) (k : net_drv_xdp_sock) : Prop :=
  xs_queue_id k = q /\ xs_sock k <> RPC_NULL /\ xs_umem k <> RPC_NULL /\ xs_mem k <> RPC_NULL.

Definition create_post (ks : list net_drv_xdp_sock) (q : Z) (g : ghost)
    (r : result (te_errno * net_drv_xdp_sock)) (g' : ghost) : Prop :=
  match r with
  | Val (rc, k) =>
      if rc =? 0 then owns (ks ++ [k]) g' /\ bound q k /\ g_map g' = g_map g ++ [(q, xs_fd k)]
      else g_map g' = g_map g /\ (g_delfail g' = false -> owns ks g' /\ null_sock k)
  | _ => False
  end.

Lemma create_sock_fail_wp rpcs fmt args k ks q g g0 : owns (ks ++ [k]) g -> g_map g = g_map g0 ->
  wp world (create_sock_fail rpcs fmt args k) g (create_post ks q g0).
Proof.
  intros Ho Hm. unfold create_sock_fail. wp_go. cbn [upd].
  eapply wp_mono; [by apply (destroy_sock_wp rpcs ks k [])|].
  intros [[rc k']| | |] g' Hr; try done. destruct Hr as (Mg & (k1 & -> & Hn) & D). wp_go. unfold create_post.
  assert (TE_EFAIL <> 0) by (apply te_code_nonzero; auto with te). destruct (Z.eqb_spec TE_EFAIL 0); [done|].
  split; [congruence|]. intros Hd. destruct (D Hd) as (_ & H1 & _). rewrite app_nil_r in H1. auto.
Qed.

Lemma get_queues_wp ta ifn g (Q : result (te_errno * (Z * Z)) -> ghost -> Prop) :
  (forall x, Q (Val x) g) -> wp world (net_drv_xdp_get_queues_num ta ifn true true) g Q.
Proof.
  intros HQ. unfold net_drv_xdp_get_queues_num, add_chan. cbn [negb orb].
  wp_go; cbn [ok upd snd] in *; try apply HQ; autorewrite with zbool in *; unfold INT_MAX, UINT16_MAX in *;
    lia.
Qed.

(** What [created] says in each case. *)
Lemma created_neg rc p live : created rc p live -> rc < 0 -> p = RPC_NULL.
Proof. unfold created. intros H Hr. by destruct (Z.ltb_spec rc 0); [|lia]. Qed.
Lemma created_pos rc p live : created rc p live -> 0 <= rc -> p <> RPC_NULL /\ p ∉ map fst live.
Proof. unfold created. intros H Hr. by destruct (Z.ltb_spec rc 0); [lia|]. Qed.

Lemma owns_map ks g m : owns ks g ->
  owns ks (Ghost (g_mem g) (g_umem g) (g_sock g) m (g_bad g) (g_delfail g)).
Proof. done. Qed.

Lemma owns_fd ks q t m u s fd fd' g :
  owns (ks ++ [XdpSock q t m u s fd]) g -> owns (ks ++ [XdpSock q t m u s fd']) g.
Proof.
  unfold owns. rewrite !flat_map_snoc, !own_mem_of, !own_umem_of, !own_sock_of.
  intros (H1 & H2 & H3 & Hl & H). repeat (split; [done|]). split; [|done].
  apply Forall_app in Hl as [Hl Hk]. apply Forall_cons in Hk as [[L1 L2] _].
  apply Forall_app; split; [done|]. constructor; [by split|done].
Qed.

(** The RPCs of [net_drv_xdp_create_sock], one at a time: the environment's
    answer either fails the creation, or adds one resource. *)
Ltac xdp_rpc :=
  wp_step; wp_step; wp_answer; cbn [bpost];
  repeat lazymatch goal with |- wp _ (match ?x with (_, _) => _ end) _ _ => destruct x end;
  cbn [ok upd fst snd] in *;
  match goal with |- wp _ (if ?z <? 0 then _ else _) _ _ => destruct (Z.ltb_spec z 0) end.

Lemma create_sock_wp rpcs ifn q cfg map_fd ks g : owns ks g ->
  wp world (net_drv_xdp_create_sock rpcs ifn q cfg map_fd) g (create_post ks q g).
Proof.
  intros Ho. unfold net_drv_xdp_create_sock. wp_step. apply get_queues_wp. intros [rc [rxq txq]].
  cbn [bpost]. wp_step.
  { wp_go. unfold create_post. autorewrite with zbool in *. destruct (Z.eqb_spec rc 0); [done|]. by split. }
  wp_step.
  { wp_go. unfold create_post. assert (TE_RC TE_TAPI TE_EINVAL <> 0) by (apply te_rc_nonzero; auto with te).
    destruct (Z.eqb_spec (TE_RC TE_TAPI TE_EINVAL) 0); [done|]. by split. }
  xdp_rpc.
  { apply (created_neg _ _ _ H) in H0 as ->. eapply create_sock_fail_wp; [by apply add_nothing|done]. }
  destruct (created_pos _ _ _ H H0) as [Hm Hmf]. apply (add_mem _ _ q (q <? txq) z0 (-1) Ho Hm) in Hmf as Ho1.
  xdp_rpc.
  { apply (created_neg _ _ _ H1) in H2 as ->. by eapply create_sock_fail_wp. }
  destruct (created_pos _ _ _ H1 H2) as [Hu Huf]. pose proof (add_umem _ _ _ _ _ _ _ Ho1 Hm Hu Huf) as Ho2.
  xdp_rpc.
  { by eapply create_sock_fail_wp. }
  wp_step; [by eapply create_sock_fail_wp|].
  xdp_rpc.
  { apply (created_neg _ _ _ H5) in H6 as ->. by eapply create_sock_fail_wp. }
  destruct (created_pos _ _ _ H5 H6) as [Hs Hsf]. pose proof (add_sock _ _ _ _ _ _ _ _ Ho2 Hm Hu Hs Hsf) as Ho3.
  xdp_rpc.
  { eapply create_sock_fail_wp; [by eapply owns_fd|done]. }
  wp_go. unfold create_post. cbn [Z.eqb].
  split; [by eapply owns_map, owns_fd|]. by repeat split.
Qed.
(** Sockets of queues 0, 1, 2, ..., complete, each in the XSK map. *)
Definition all_bound (socks : list net_drv_xdp_sock) (g : ghost) : Prop :=
  owns socks g /\ map xs_queue_id socks = seqZ 0 (Z.of_nat (length socks)) /\
  Forall (fun k => bound (xs_queue_id k) k) socks /\
  g_map g = map (fun k => (xs_queue_id k, xs_fd k)) socks.

Lemma create_loop_wp rpcs ifn cfg map_fd n :
  wp world (for_n n 0 [] (create_socks_pass rpcs ifn cfg map_fd)) start
    (fun r g => match r with
     | Val (inl socks) => all_bound socks g /\ length socks = n
     | Val (inr made) => g_delfail g = false -> owns made g
     | _ => False
     end).
Proof.
  apply (wp_for_n _ _ _ _ _ _ _ (fun i socks g => all_bound socks g /\ Z.of_nat (length socks) = i)).
  - split; [|done]. unfold all_bound, owns. cbn. repeat split; try done; constructor.
  - intros i socks g _ [(Ho & Hq & Hb & Hm) Hi]. unfold create_socks_pass. wp_step.
    eapply wp_mono; [by apply (create_sock_wp rpcs ifn i cfg map_fd socks)|].
    intros [[rc k]| | |] g' H; try done. cbn [bpost]. wp_go.
    unfold create_post in H. destruct (rc =? 0); cbn [negb].
    + destruct H as (Ho' & Hk & Hm'). pose proof Hk as (Hkq & _). wp_go. rewrite length_app. cbn [length].
      split; [|lia]. unfold all_bound.
      rewrite !map_app, length_app, Nat2Z.inj_add, seqZ_app, Hq, Hm', Hm by lia. cbn [length map].
      rewrite Z.add_0_l, Hi. change (Z.of_nat 1) with 1.
      rewrite seqZ_one, Hkq.
      split; [done|]. split; [done|]. split; [|done].
      apply Forall_app; split; [done|]. constructor; [by rewrite Hkq|done].
    + destruct H as [_ H]. wp_go. intros Hd. by apply H.
  - intros socks g [H Hi]. split; [done|lia].
Qed.

Lemma create_socks_wp rpcs ifn cfg map_fd n :
  wp world (net_drv_xdp_create_socks rpcs ifn cfg map_fd n) start
    (fun r g => match r with
     | Val socks => all_bound socks g /\ length socks = Z.to_nat n
     | Exc j => j = STOP /\ (g_delfail g = false -> owns [] g)
     | _ => False
     end).
Proof.
  unfold net_drv_xdp_create_socks. wp_step.
  eapply wp_mono; [apply create_loop_wp|]. intros [[socks|made]| | |] g H; try done; cbn [bpost].
  wp_step. eapply wp_mono; [by apply destroy_loop_wp|].
  intros [[res|]| | |] g' Hr; try done. destruct Hr as [_ Hr]. cbn [bpost]. wp_go.
  split; [done|]. intros Hd. by destruct (Hr Hd) as (_ & ? & _).
Qed.

(** C20. [net_drv_xdp_create_socks] in any environment: it either returns the
    requested number of complete sockets, the [i]-th bound to Rx queue [i] and
    entered in the XSK map at [i], owning exactly the resources that are live;
    or it stops the test having released everything it had created (unless the
    release itself failed).  Nothing is used after it was freed. *)
Theorem xdp_create_socks_correct rpcs ifn cfg map_fd n :
  wp world (net_drv_xdp_create_socks rpcs ifn cfg map_fd n) start
    (fun r g => match r with
     | Val socks => length socks = Z.to_nat n /\ owns socks g /\
         (forall i k, socks !! i = Some k -> bound (Z.of_nat i) k /\
            g_map g !! i = Some (Z.of_nat i, xs_fd k))
     | Exc j => j = STOP /\ (g_delfail g = false -> owns [] g)
     | _ => False
     end).
Proof.
  eapply wp_mono; [apply create_socks_wp|]. intros [socks|j| |] g H; try done.
  destruct H as ((Ho & Hq & Hb & Hm) & Hn). split; [done|]. split; [done|]. intros i k Hi.
  assert (E : xs_queue_id k = Z.of_nat i).
  { assert (H : map xs_queue_id socks !! i = Some (xs_queue_id k)) by (by rewrite list_lookup_fmap, Hi).
    rewrite Hq in H. apply lookup_seqZ in H as [H _]. lia. }
  split.
  - rewrite <- E. eapply Forall_lookup_1 in Hb; [|exact Hi]. exact Hb.
  - rewrite Hm, list_lookup_fmap, Hi, <- E. done.
Qed.

(** No leak and no use after free over the whole life of the sockets: once
    the sockets that were created are destroyed, in any environment where no
    deletion fails, no memory, UMEM or socket is left, each was deleted once,
    after everything that stood on it, and the status is zero. *)
Theorem xdp_socks_no_leak rpcs ifn cfg map_fd n :
  wp world (socks ← net_drv_xdp_create_socks rpcs ifn cfg map_fd n;
            net_drv_xdp_destroy_socks rpcs (Some socks)) start
    (fun r g => g_delfail g = false ->
       owns [] g /\ (r = Val 0 \/ r = Exc STOP)).
Proof.
  wp_step. eapply wp_mono; [apply create_socks_wp|]. intros [socks|j| |] g H; try done.
  - destruct H as [(Ho & _) _]. cbn [bpost net_drv_xdp_destroy_socks]. wp_step.
    eapply wp_mono; [by apply destroy_loop_wp|]. intros [[res|]| | |] g' Hr; try done.
    destruct Hr as [_ Hr]. cbn [bpost]. wp_go. intros Hd. destruct (Hr Hd) as (_ & ? & ->). auto.
  - destruct H as [-> H]. cbn [bpost]. auto.
Qed.
End xdp_socks.
