(* ===== verification/RssPrologue.v ===== *)
(** rss/prologue.c: preparations of the RSS tests, above all the detection of
    the Toeplitz hash variant the NIC uses. *)
From S2P Require Import Prelude Prog Te Locals NetDrvTs CommonRss.

(** The locals of [main] its cleanup uses. *)
Record pro := Pro { pr_iut_s : Z; pr_tst_s : Z; pr_cache : option toeplitz_cache }.
Definition pr_set_iut_s (s : Z) (p : pro) : pro := Pro s (pr_tst_s p) (pr_cache p).
Definition pr_set_tst_s (s : Z) (p : pro) : pro := Pro (pr_iut_s p) s (pr_cache p).
Definition pr_set_cache (c : option toeplitz_cache) (p : pro) : pro :=
  Pro (pr_iut_s p) (pr_tst_s p) c.

(** The state of the search for ports: the two addresses, and the queues once
    they were read. *)
Record search := Search {
  se_iut : sockaddr; se_tst : sockaddr; se_std : option Z; se_sym : option Z }.

Section rss_prologue.
Context {TE : Te}.

Definition RSS_MULTI_SEG_MTU : Z := 9000.
Definition pkts_num : Z := 10.

(** The loop over the statistics: [got_queue] and [reg_pkts]. *)
Definition rx_queue_pass (s : rxq_stats) (st : Z * Z) : M (ctl (Z * Z) unit) :=
  let '(got_queue, reg_pkts) := st in
  if 0 <? rx_pkts s then
    if 0 <=? got_queue then
      TEST_VERDICT "Packets were received over more than one queue" []
    else mret (Continue (rx_queue s, u32 (reg_pkts + rx_pkts s)))
  else mret (Continue st).

Definition send_get_rx_queue (fuel : nat) (sender : rcf_rpc_server) (sender_s : Z)
    (receiver : rcf_rpc_server) (receiver_s bpf_id : Z) (jumbo : bool) : M Z :=
  _ ← CHECK_RC (call (tapi_bpf_rxq_stats_clear (rpcs_ta receiver) bpf_id));
  _ ← for_n (Z.to_nat pkts_num) 0 tt
        (send_check_pass fuel sender sender_s receiver receiver_s jumbo "");
  stats ← CHECK_OUT (call (tapi_bpf_rxq_stats_read (rpcs_ta receiver) bpf_id));
  r ← foreach stats (-1, 0) rx_queue_pass;
  match r with
  | inr tt => mret 0 (* the body does not return *)
  | inl (got_queue, reg_pkts) =>
      if reg_pkts =? 0 then TEST_VERDICT "No packets was registered for any Rx queue" []
      else if negb (reg_pkts =? pkts_num) then
        TEST_VERDICT "Unexpected number of packets was registered" []
      else mret (u32 got_queue)
  end.

(** One pass of the loop over the indirection table: [fix_indir_table]. *)
Definition indir_pass (ta ifn : string) (first_entry i : Z) (fix_table : bool)
    : M (ctl bool unit) :=
  entry ← CHECK_OUT (call (tapi_cfg_if_rss_indir_get ta ifn 0 i));
  mret (if negb (first_entry =? entry) then Break false else Continue fix_table).

Definition check_fix_indir_table (ta ifn : string) (rx_queues table_size : Z) : M unit :=
  first_entry ← CHECK_OUT (call (tapi_cfg_if_rss_indir_get ta ifn 0 0));
  r ← for_n (Z.to_nat (table_size - 1)) 1 true (indir_pass ta ifn first_entry);
  _ ← match r with
      | inl true =>
          _ ← CHECK_RC (call (tapi_cfg_if_rss_fill_indir_table ta ifn 0 0 (u32 (rx_queues - 1))));
          CHECK_RC (call (tapi_cfg_if_rss_hash_indir_commit ta ifn 0))
      | _ => mret tt
      end;
  CHECK_RC (call (tapi_cfg_if_rss_print_indir_table ta ifn 0)).

Definition max_attempts : Z := 10000.
Definition min_port : Z := 20000.

Definition set_port (a : sockaddr) (p : Z) : sockaddr := SA (sa_family a) (sa_netaddr a) p.

(** One attempt to find a pair of ports for which the two variants of the hash
    lead to different queues. *)
Definition port_pass (iut tst : rcf_rpc_server) (ifn : string) (table_size : Z)
    (cache : toeplitz_cache) (_ : Z) (st : search) : M (ctl search unit) :=
  p1 ← call (rand_range min_port 65535);
  p2 ← call (rand_range min_port 65535);
  let iut_port := u16 p1 in
  let tst_port := u16 p2 in
  let a1 := set_port (se_iut st) iut_port in
  let a2 := set_port (se_tst st) tst_port in
  hash_std ← CHECK_OUT (call (te_toeplitz_hash_sa cache a2 a1 TE_TOEPLITZ_HASH_STANDARD));
  hash_sym ← CHECK_OUT (call (te_toeplitz_hash_sa cache a2 a1 TE_TOEPLITZ_HASH_SYM_OR_XOR));
  if table_size =? 0 then undef "division by zero" else
  let idx_std := hash_std mod table_size in
  let idx_sym := hash_sym mod table_size in
  if negb (idx_std =? idx_sym) then
    queue_std ← CHECK_OUT (call (tapi_cfg_if_rss_indir_get (rpcs_ta iut) ifn 0 idx_std));
    queue_sym ← CHECK_OUT (call (tapi_cfg_if_rss_indir_get (rpcs_ta iut) ifn 0 idx_sym));
    let st := Search a1 a2 (Some queue_std) (Some queue_sym) in
    if negb (queue_std =? queue_sym) then
      if iut_port =? 0 then mret (Break st)
      else
        free1 ← call (rpc_check_port_is_free iut iut_port);
        if (free1 : bool) then
          free2 ← call (rpc_check_port_is_free tst tst_port);
          mret (if (free2 : bool) then Break st else Continue st)
        else mret (Continue st)
    else mret (Continue st)
  else mret (Continue (Search a1 a2 (se_std st) (se_sym st))).

(** [RPC_CLOSE]: close and forget the descriptor. *)
Definition RPC_CLOSE (r : rcf_rpc_server) (get_s : pro -> Z) (set_s : Z -> pro -> pro) : T pro unit :=
  s ← gets get_s;
  _ ← lift (rpc_ok (rpc_close r s));
  modify (set_s (-1)).

Definition try_detect_toeplitz_variant (fuel : nat) (iut tst : rcf_rpc_server)
    (iut_addr tst_addr : sockaddr) (ifn : string) (bpf_id table_size : Z)
    (cache : toeplitz_cache) (jumbo : bool) : T pro Z :=
  r ← lift (for_n (Z.to_nat max_attempts) 0 (Search iut_addr tst_addr None None)
              (port_pass iut tst ifn table_size cache));
  let st := match r with inl st => st | inr tt => Search iut_addr tst_addr None None end in
  '(s1, s2) ← lift (CHECK_OUT (call (GEN_CONNECTION iut tst RPC_SOCK_DGRAM (se_iut st) (se_tst st))));
  _ ← modify (fun p => pr_set_iut_s s1 (pr_set_tst_s s2 p));
  _ ← lift (CHECK_RC (call (tapi_bpf_rxq_stats_reset (rpcs_ta iut) bpf_id)));
  _ ← lift (CHECK_RC (call (tapi_bpf_rxq_stats_set_params (rpcs_ta iut) bpf_id (sa_family iut_addr)
                              (Some (se_tst st)) (Some (se_iut st)) true true)));
  match se_std st, se_sym st with
  | Some queue_std, Some queue_sym =>
      queue_got ← lift (send_get_rx_queue fuel tst s2 iut s1 bpf_id jumbo);
      variant ← (if s32 queue_got =? queue_std then mret TE_TOEPLITZ_HASH_STANDARD
                 else if s32 queue_got =? queue_sym then mret TE_TOEPLITZ_HASH_SYM_OR_XOR
                 else lift (TEST_VERDICT "Cannot detect Toeplitz hash variant" []));
      _ ← RPC_CLOSE iut pr_iut_s pr_set_iut_s;
      _ ← RPC_CLOSE tst pr_tst_s pr_set_tst_s;
      mret variant
  | _, _ => lift (undef "queue_std and queue_sym are read uninitialised")
  end.

Definition attempts_num : nat := 10.

(** The loop over the attempts; [prev]: the variant detected by the previous
    one. *)
Fixpoint detect_attempts (n : nat) (try_ : T pro Z) (prev : option Z) : T pro (option Z) :=
  match n with
  | O => mret prev
  | S n' =>
      variant ← try_;
      if match prev with Some v => negb (v =? variant) | None => false end then
        lift (TEST_VERDICT "Cannot detect Toeplitz hash variant" [])
      else detect_attempts n' try_ (Some variant)
  end.

Definition detect_toeplitz_variant (fuel : nat) (iut tst : rcf_rpc_server)
    (iut_addr tst_addr : sockaddr) (ifn : string) (bpf_id table_size : Z)
    (cache : toeplitz_cache) (jumbo : bool) : T pro unit :=
  v ← detect_attempts attempts_num
        (try_detect_toeplitz_variant fuel iut tst iut_addr tst_addr ifn bpf_id table_size
           cache jumbo) None;
  match v with
  | None => lift (undef "variant is read uninitialised")
  | Some variant =>
      _ ← lift (if variant =? TE_TOEPLITZ_HASH_SYM_OR_XOR then
                  RING_VERDICT "NIC uses symmetric-or-xor Toeplitz hash" []
                else mret tt);
      _ ← lift (CHECK_RC (call (cfg_register_object_str "/local/iut_toeplitz_variant")));
      lift (CHECK_RC (call (cfg_add_instance_int variant "/local:/iut_toeplitz_variant:")))
  end.

(** The first part of [main]: the MTU and the number of queues; the sizes it
    found. *)
Definition rss_check_queues (iut tst : rcf_rpc_server) (iut_if tst_if : string)
    (multi_seg : bool) : M (Z * Z) :=
  rc ← call (tapi_cfg_if_priv_flag_set (rpcs_ta iut) iut_if "flow-director-atr" false);
  if negb (rc =? 0) && negb (rc =? TE_RC TE_CS TE_ENOENT) then
    TEST_VERDICT "Attempt to disable flow-director-atr private flag failed unexpectedly: %r" [AI rc]
  else
  _ ← (if multi_seg then
         _ ← net_drv_set_mtu (rpcs_ta iut) iut_if RSS_MULTI_SEG_MTU "IUT interface";
         _ ← net_drv_set_mtu (rpcs_ta tst) tst_if RSS_MULTI_SEG_MTU "Tester interface";
         CHECK_RC (call (cfg_synchronize ("/agent:" +:+ rpcs_ta iut +:+ "/interface:" +:+ iut_if) true))
       else mret tt);
  '(rc, rx_queues) ← call (tapi_cfg_if_rss_rx_queues_get (rpcs_ta iut) iut_if);
  if negb (rc =? 0) then
    if rc =? TE_RC TE_CS TE_ENOENT then TEST_SKIP "RSS is not supported for IUT interface" []
    else TEST_STOP
  else if rx_queues <=? 1 then TEST_SKIP "There is no multiple Rx queues" []
  else
  table_size ← CHECK_OUT (call (tapi_cfg_if_rss_indir_table_size (rpcs_ta iut) iut_if 0));
  if table_size <=? 1 then TEST_SKIP "There is no multiple indirection table entries" []
  else mret (rx_queues, table_size).

(** The body of [main]. *)
Definition rss_prologue_body (fuel : nat) (iut tst : rcf_rpc_server) (iut_if tst_if : string)
    (iut_addr tst_addr : sockaddr) (multi_seg : bool) : T pro unit :=
  '(rx_queues, table_size) ← lift (rss_check_queues iut tst iut_if tst_if multi_seg);
  _ ← lift (NET_DRV_RSS_CHECK_SET_HFUNC (rpcs_ta iut) iut_if 0 "toeplitz" TEST_STOP);
  _ ← lift (check_fix_indir_table (rpcs_ta iut) iut_if (u32 rx_queues) table_size);
  hash_key ← lift (net_drv_rss_get_check_hkey (rpcs_ta iut) iut_if 0);
  c ← lift (call (te_toeplitz_cache_init_size hash_key));
  _ ← modify (pr_set_cache c);
  match c with
  | None => throw IS_NULL
  | Some cache =>
      '(rc, bpf_id) ← lift (call (tapi_bpf_rxq_stats_init_mode (rpcs_ta iut) iut_if "rss_bpf" multi_seg));
      _ ← twhen (negb (rc =? 0))
            (_ ← twhen multi_seg (lift (TEST_SKIP "Multi-segment XDP support is missing: %r" [AI rc]));
             lift (CHECK_RC (mret rc)));
      _ ← twhen multi_seg (lift (call CFG_WAIT_CHANGES));
      _ ← lift (call (te_motivated_sleep 2));
      _ ← detect_toeplitz_variant fuel iut tst iut_addr tst_addr iut_if bpf_id table_size cache
            multi_seg;
      lift (CHECK_RC (call (cfg_synchronize "/:" true)))
  end.

Definition rss_prologue_main (fuel : nat) (iut tst : rcf_rpc_server) (iut_if tst_if : string)
    (iut_addr tst_addr : sockaddr) (multi_seg : bool) : M status :=
  test_main (Pro (-1) (-1) None)
    (rss_prologue_body fuel iut tst iut_if tst_if iut_addr tst_addr multi_seg)
    (fun p =>
       ok ← also (cleanup_close iut (pr_iut_s p)) (cleanup_close tst (pr_tst_s p));
       _ ← call (te_toeplitz_hash_fini (pr_cache p));
       mret ok).
End rss_prologue.

(** ** The detection *)
Module Detect.
(** What a monitor sees: how many random ports were drawn since the
    statistics were last read, the addresses the statistics are restricted to,
    the variants written to the configuration, and whether some connection was
    opened after the search had made all its attempts. *)
Record ghost := Ghost {
  g_draws : Z; g_params : option (sockaddr * sockaddr); g_added : list Z; g_exh : bool }.
Definition start : ghost := Ghost 0 None [] false.

Definition upd X (c : te_call X) : X -> ghost -> ghost :=
  match c in te_call X return X -> ghost -> ghost with
  | rand_range _ _ => fun _ g => Ghost (g_draws g + 1) (g_params g) (g_added g) (g_exh g)
  | GEN_CONNECTION _ _ _ _ _ => fun _ g =>
      Ghost (g_draws g) (g_params g) (g_added g) (g_exh g || (2 * max_attempts <=? g_draws g))
  | tapi_bpf_rxq_stats_set_params _ _ _ (Some a) (Some b) _ _ => fun _ g =>
      Ghost (g_draws g) (Some (a, b)) (g_added g) (g_exh g)
  | tapi_bpf_rxq_stats_read _ _ => fun _ g => Ghost 0 (g_params g) (g_added g) (g_exh g)
  | cfg_add_instance_int v _ => fun _ g =>
      Ghost (g_draws g) (g_params g) (g_added g ++ [v]) (g_exh g)
  | _ => fun _ g => g
  end.

Section nic.
Context {TE : Te}.
(** The hash of the cache for each variant, the indirection table, and
    whether the NIC uses the symmetric variant. *)
Context (hash_of : toeplitz_cache -> sockaddr -> sockaddr -> Z -> Z) (table : Z -> Z)
  (cache : toeplitz_cache) (table_size : Z) (sym : bool).

Definition hash (c : toeplitz_cache) (src dst : sockaddr) (v : Z) : Z := u32 (hash_of c src dst v).
Definition entry (i : Z) : Z := table i mod 2 ^ 31.
Definition variant : Z :=
  if sym then TE_TOEPLITZ_HASH_SYM_OR_XOR else TE_TOEPLITZ_HASH_STANDARD.
(** The queue a variant of the hash leads to. *)
Definition queue_of (v : Z) (src dst : sockaddr) : Z := entry (hash cache src dst v mod table_size).

(** Documented behaviour of the library and the NIC: a successful hash is the
    hash, a successful read of the table is its entry, and packets that are
    counted were counted for the queue the NIC's hash leads to. *)
Definition ok X (c : te_call X) : ghost -> X -> Prop :=
  match c in te_call X return ghost -> X -> Prop with
  | te_toeplitz_hash_sa c a b v => fun _ x => fst x = 0 -> snd x = hash c a b v
  | tapi_cfg_if_rss_indir_get _ _ _ i => fun _ x => fst x = 0 -> snd x = entry i
  | tapi_bpf_rxq_stats_read _ _ => fun g x =>
      forall e a b, e ∈ snd x -> 0 < rx_pkts e -> g_params g = Some (a, b) ->
        rx_queue e = queue_of variant a b
  | _ => fun _ _ => True
  end.
Definition world : env te_call ghost := watch_if ok upd.
End nic.

(** The verdict of a failed detection. *)
Definition cannot (j : jump) : bool :=
  match j with
  | VERDICT m => String.eqb (msg_fmt m) "Cannot detect Toeplitz hash variant"
  | _ => false
  end.

Lemma cannot_data j : data_jump j = true -> cannot j = false.
Proof.
  destruct j as [| |m| | | |]; try done. cbn [data_jump cannot]. intros Hp.
  destruct (String.eqb_spec (msg_fmt m) "Cannot detect Toeplitz hash variant") as [E|]; [|done].
  by rewrite E in Hp.
Qed.
End Detect.

Section detect.
Context {TE : Te}.
Import Detect.
Context (hash_of : toeplitz_cache -> sockaddr -> sockaddr -> Z -> Z) (table : Z -> Z)
  (cache : toeplitz_cache) (table_size : Z) (sym : bool).
Local Abbreviation W := (world hash_of table cache table_size sym).
Local Abbreviation queue_of := (Detect.queue_of hash_of table cache table_size).
Local Abbreviation variant := (Detect.variant sym).

Lemma s32_u32_small q : 0 <= q < 2 ^ 31 -> s32 (u32 q) = q.
Proof.
  intros H. rewrite u32_id by lia. unfold s32, sx. rewrite Z.mod_small by lia.
  destruct (Z.ltb_spec q (2 ^ (32 - 1))); lia.
Qed.

Lemma queue_of_range v a b : 0 <= queue_of v a b < 2 ^ 31.
Proof. unfold Detect.queue_of, entry. apply Z.mod_pos_bound. lia. Qed.

(** The statistics: the queue of the packets counted. *)
Lemma stats_pass_wp stats q g (Q : result (Z * Z + unit) -> ghost -> Prop) :
  (forall e, e ∈ stats -> 0 < rx_pkts e -> rx_queue e = q) ->
  (forall got reg, (reg = 0 \/ got = q) -> Q (Val (inl (got, reg))) g) ->
  (forall j, cannot j = false -> Q (Exc j) g) ->
  wp W (foreach stats (-1, 0) rx_queue_pass) g Q.
Proof.
  intros Hq HV HE.
  apply (wp_foreach _ _ _ _ _ _ (fun _ _ st g' => g' = g /\ (snd st = 0 \/ fst st = q))).
  - split; [done|by left].
  - intros pre e post [got reg] g' Hl [-> Hst]. unfold rx_queue_pass. wp_go.
    + by apply HE.
    + split; [done|]. right. autorewrite with zbool in *. apply Hq; [|done].
      rewrite Hl, elem_of_app, elem_of_cons. tauto.
    + by split.
  - intros [got reg] g' [-> Hst]. by apply HV.
Qed.

(** The packets are sent and counted. *)
Lemma send_get_wp fuel rs s1 rr s2 bpf jumbo g a b :
  g_params g = Some (a, b) ->
  wp W (send_get_rx_queue fuel rs s1 rr s2 bpf jumbo) g (fun r g' => match r with
    | Val q => g_draws g' = 0 /\ g_added g' = g_added g /\ g_exh g' = g_exh g /\
        s32 q = queue_of variant a b
    | Exc j => cannot j = false /\ g_added g' = g_added g
    | Undef _ => False
    | NoFuel => True
    end).
Proof.
  intros Hg. unfold send_get_rx_queue.
  set (P := fun g' => g_params g' = g_params g /\ g_added g' = g_added g /\ g_exh g' = g_exh g).
  wp_go; [|by split].
  apply (wp_for_n _ _ _ _ _ _ _ (fun _ _ g' => P g')); [done| |].
  { intros i [] g1 _ HP. unfold send_check_pass, net_drv_send_recv_ext_check. wp_go.
    eapply wp_mono; [apply (wp_only is_data_call data_jump _ P); [apply data_check_only| |done]|].
    - intros X c s y s' Hc [Hp [Ha He]] [_ ->]. by destruct c.
    - intros [v|j|w|] g' [HP' Hr]; cbn; [done| |done|done].
      split; [by apply cannot_data|apply HP']. }
  intros [] g1 (Hp & Ha & He). wp_go; [|by split].
  cbn [ok upd fst snd] in *. rewrite Hp, Hg in *.
  apply (stats_pass_wp _ (queue_of variant a b)).
  - intros e He' Hpos. by apply (H0 e a b).
  - intros got reg Hst. cbn. wp_go; cbn; autorewrite with zbool in *; try done.
    destruct Hst as [->| ->]; [done|]. split; [done|]. split; [done|]. split; [done|].
    apply s32_u32_small, queue_of_range.
  - done.
Qed.

(** The search found ports that tell the variants apart. *)
Definition found (st : search) : Prop :=
  se_std st = Some (queue_of TE_TOEPLITZ_HASH_STANDARD (se_tst st) (se_iut st)) /\
  se_sym st = Some (queue_of TE_TOEPLITZ_HASH_SYM_OR_XOR (se_tst st) (se_iut st)) /\
  se_std st <> se_sym st.

Lemma port_pass_wp iut tst ifn i st g :
  table_size <> 0 ->
  wp W (port_pass iut tst ifn table_size cache i st) g
    (lpost (fun _ g' => g_draws g' = g_draws g + 2 /\ g_added g' = g_added g /\ g_exh g' = g_exh g)
       (fun r g' => match r with
         | Val (inl st') => g_added g' = g_added g /\ g_exh g' = g_exh g /\ found st'
         | Exc j => cannot j = false /\ g_added g' = g_added g
         | _ => False
         end)).
Proof.
  intros Hn. unfold port_pass.
  wp_go; try match goal with |- context [if ?b then Break _ else _] => destruct b end;
    cbn [upd fst snd g_draws g_added g_exh] in *; try (by split_all; try lia); try done.
  all: autorewrite with zbool in *; try done.
  all: try (cbn [lpost]; split_all; try done; cbn; lia).
  all: cbn [ok fst snd] in *; split; [done|]; split; [done|].
  all: rewrite (H3 Heqb3), (H4 Heqb4), (H1 Heqb), (H2 Heqb0) in *.
  all: split; [done|]; split; [done|]; cbn; congruence.
Qed.

Lemma search_wp iut tst ifn iut_addr tst_addr g :
  table_size <> 0 -> g_draws g = 0 ->
  wp W (for_n (Z.to_nat max_attempts) 0 (Search iut_addr tst_addr None None)
          (port_pass iut tst ifn table_size cache)) g
    (fun r g' => match r with
      | Val (inl st) => g_added g' = g_added g /\ g_exh g' = g_exh g /\
          (2 * max_attempts <= g_draws g' \/ found st)
      | Exc j => cannot j = false /\ g_added g' = g_added g
      | _ => False
      end).
Proof.
  intros Hn H0.
  apply (wp_for_n _ _ _ _ _ _ _ (fun i _ g' =>
    g_draws g' = 2 * i /\ g_added g' = g_added g /\ g_exh g' = g_exh g)).
  - rewrite H0. done.
  - intros i st g1 _ (Hd & Ha & He). eapply wp_mono; [by apply port_pass_wp|].
    intros [[st'|st'|[]]|j|w|] g'; cbn [lpost]; rewrite ?Hd, ?Ha, ?He; try tauto.
    intros (-> & -> & ->). split_all; [lia|done|done].
  - intros st g1 (Hd & Ha & He). split; [done|]. split; [done|]. left. rewrite Hd.
    rewrite Z2Nat.id by done. lia.
Qed.

(** One attempt: the sockets are closed again, and the variant is the NIC's
    unless the search was exhausted ([exh]: whether one was before). *)
Definition tried (exh : bool) (r : result (pro * (Z + jump))) (g : ghost) : Prop :=
  match r with
  | Val (p, inl v) => pr_iut_s p = -1 /\ pr_tst_s p = -1 /\ g_draws g = 0 /\ g_added g = [] /\
      (v = variant \/ g_exh g = true) /\ (exh = true -> g_exh g = true)
  | Val (_, inr j) => g_added g = [] /\ (cannot j = true -> g_exh g = true)
  | Exc _ => False
  | Undef _ => g_exh g = true
  | NoFuel => True
  end.

(** Steps through code over locals that may also end otherwise. *)
Lemma wp_T_bind {St A B} (f : A -> T St B) (p : T St A) st g Q :
  wp W (p st) g (fun r g' => match r with
    | Val (st', inl a) => wp W (f a st') g' Q
    | Val (st', inr j) => Q (Val (st', inr j)) g'
    | Exc j => Q (Exc j) g'
    | Undef w => Q (Undef w) g'
    | NoFuel => Q NoFuel g'
    end) -> wp W (mbind f p st) g Q.
Proof.
  intros H. cbn [mbind T_bind]. apply wp_bind. eapply wp_mono; [exact H|].
  intros [[st' [a|j]]| | |] g'; cbn; auto.
Qed.

Lemma wp_T_lift {St A} (p : M A) (st : St) g (Q : result (St * (A + jump)) -> ghost -> Prop) :
  wp W p g (fun r g' => match r with
    | Val a => Q (Val (st, inl a)) g'
    | Exc j => Q (Val (st, inr j)) g'
    | Undef w => Q (Undef w) g'
    | NoFuel => Q NoFuel g'
    end) -> wp W (lift p st) g Q.
Proof.
  intros H. unfold lift. apply wp_bind, wp_attempt. eapply wp_mono; [exact H|].
  intros [a|j|w|] g'; cbn; auto.
Qed.

(** The end of an attempt. *)
Lemma RPC_CLOSE_wp r gets_s set_s p g (Q : result (pro * (unit + jump)) -> ghost -> Prop) :
  Q (Val (set_s (-1) p, inl tt)) g -> Q (Val (p, inr RPC_FAILED)) g ->
  wp W (RPC_CLOSE r gets_s set_s p) g Q.
Proof.
  intros HV HE. unfold RPC_CLOSE. apply wp_T_bind. cbn [wp gets mret prog_ret].
  apply wp_T_bind, wp_T_lift. wp_go; [exact HE|exact HV].
Qed.

Lemma close_wp exh iut tst v p g :
  g_draws g = 0 -> g_added g = [] -> v = variant \/ g_exh g = true -> (exh = true -> g_exh g = true) ->
  wp W ((_ ← RPC_CLOSE iut pr_iut_s pr_set_iut_s;
         _ ← RPC_CLOSE tst pr_tst_s pr_set_tst_s;
         mret v) p) g (tried exh).
Proof.
  intros Hd Ha Hv He. apply wp_T_bind, RPC_CLOSE_wp; [|by split].
  apply wp_T_bind, RPC_CLOSE_wp; [|by split]. by cbn.
Qed.

(** The queue the packets took tells the variants apart. *)
Lemma pick st qs qy q :
  se_std st = Some qs -> se_sym st = Some qy -> found st ->
  q = queue_of variant (se_tst st) (se_iut st) ->
  (q = qs -> TE_TOEPLITZ_HASH_STANDARD = variant) /\
  (q <> qs -> q = qy /\ TE_TOEPLITZ_HASH_SYM_OR_XOR = variant).
Proof.
  intros Es Ey (Hs & Hy & Hne). unfold Detect.variant. destruct sym; intros ->; split; intros Hq; split_all; congruence.
Qed.

Lemma try_detect_wp fuel iut tst iut_addr tst_addr ifn bpf jumbo p g :
  table_size <> 0 -> g_draws g = 0 -> g_added g = [] ->
  wp W (try_detect_toeplitz_variant fuel iut tst iut_addr tst_addr ifn bpf table_size cache jumbo p)
    g (tried (g_exh g)).
Proof.
  intros Hn Hd Ha. unfold try_detect_toeplitz_variant.
  apply wp_T_bind, wp_T_lift. eapply wp_mono; [by apply search_wp|].
  intros [[st|[]]|j|w|] g1; try done.
  2:{ intros [Hj Ha1]. cbn. rewrite Ha1, Hj. done. }
  rewrite Ha. intros (Ha1 & He1 & Hst).
  apply wp_T_bind, wp_T_lift. wp_go; [|by cbn]. destruct p0 as [s1 s2].
  apply wp_T_bind. cbn [wp modify mret prog_ret].
  apply wp_T_bind, wp_T_lift. wp_go; [|by cbn].
  apply wp_T_bind, wp_T_lift. wp_go; [|by cbn].
  cbn [upd g_draws g_added g_exh g_params].
  set (g2 := Ghost _ (Some _) _ _).
  assert (Hc : g_exh g2 = true \/ found st).
  { destruct Hst as [Hst|Hst]; [left|by right]. cbn. rewrite (proj2 (Z.leb_le _ _) Hst). apply orb_true_r. }
  destruct (se_std st) as [qs|] eqn:Es; [|destruct Hc as [Hc|[Hc _]]; [exact Hc|congruence]].
  destruct (se_sym st) as [qy|] eqn:Ey; [|destruct Hc as [Hc|[_ [Hc _]]]; [exact Hc|congruence]].
  apply wp_T_bind, wp_T_lift.
  eapply wp_mono; [by apply (send_get_wp fuel tst _ iut _ bpf jumbo g2 (se_tst st) (se_iut st))|].
  intros [q|j|w|] g3; try done.
  2:{ intros [Hj Ha3]. cbn. rewrite Ha3, Hj. done. }
  intros (Hd3 & Ha3 & He3 & Hq).
  assert (Hm : g_exh g = true -> g_exh g3 = true).
  { rewrite He3. intros E. cbn. by rewrite He1, E. }
  assert (Hc3 : g_exh g3 = true \/ found st) by (by rewrite He3). clear Hc He3.
  assert (Ha4 : g_added g3 = []) by (rewrite Ha3; exact Ha1). clear Ha3. clearbody g2.
  assert (Hp := fun F => pick st qs qy (s32 q) Es Ey F Hq).
  apply wp_T_bind. case_zbool; [|case_zbool].
  - apply close_wp; [done|done| |done]. destruct Hc3 as [Hc|F]; [by right|left]. by apply (Hp F).
  - apply close_wp; [done|done| |done]. destruct Hc3 as [Hc|F]; [by right|left]. by apply (Hp F).
  - cbn. split; [done|]. intros _. destruct Hc3 as [Hc|F]; [done|]. by destruct (Hp F) as [_ []].
Qed.

Lemma detect_attempts_wp n try_ prev p g :
  (forall p g, g_draws g = 0 -> g_added g = [] -> wp W (try_ p) g (tried (g_exh g))) ->
  g_draws g = 0 -> g_added g = [] ->
  pr_iut_s p = -1 -> pr_tst_s p = -1 ->
  (forall v, prev = Some v -> v = variant \/ g_exh g = true) ->
  wp W (detect_attempts n try_ prev p) g (fun r g' => match r with
    | Val (p', inl v) => pr_iut_s p' = -1 /\ pr_tst_s p' = -1 /\ g_added g' = [] /\
        (v = None -> n = O /\ prev = None) /\
        (forall x, v = Some x -> x = variant \/ g_exh g' = true)
    | Val (_, inr j) => g_added g' = [] /\ (cannot j = true -> g_exh g' = true)
    | Exc _ => False
    | Undef _ => g_exh g' = true
    | NoFuel => True
    end).
Proof.
  intros Ht. revert prev p g. induction n as [|n IH]; intros prev p g Hd Ha Hi Hs Hv.
  - cbn. split_all; auto.
  - cbn [detect_attempts]. apply wp_T_bind. eapply wp_mono; [by apply Ht|].
    intros [[p' [v|j]]| | |] g'; cbn [tried]; try done.
    intros (Hi' & Hs' & Hd' & Ha' & Hv' & Hm). case_match eqn:Hprev; [|].
    + cbn. split; [done|]. intros _. destruct prev as [v0|]; [|done].
      destruct Hv' as [->|]; [|done]. destruct (Hv _ eq_refl) as [->|]; [|auto].
      by rewrite Z.eqb_refl in Hprev.
    + eapply wp_mono; [apply IH; [done..|]; by intros ? [= <-]|].
      intros [[p2 [v2|j]]| | |] g2; try done.
      intros (? & ? & ? & Hn2 & ?). split_all; try done. intros E. by apply Hn2 in E as [_ ?].
Qed.

(** C24.  [detect_toeplitz_variant] in any world where the library hashes and
    the NIC uses one of the two variants on its indirection table: when it
    returns, it has written exactly the variant of the NIC and closed its
    sockets, and it never gives up with [Cannot detect]; unless a search for
    ports used up its [max_attempts], the only way to a wrong variant, to that
    verdict, and to reading [queue_std] and [queue_sym] uninitialised. *)
Theorem detect_toeplitz_correct fuel iut tst iut_addr tst_addr ifn bpf jumbo :
  table_size <> 0 ->
  wp W (detect_toeplitz_variant fuel iut tst iut_addr tst_addr ifn bpf table_size cache jumbo
          (Pro (-1) (-1) (Some cache))) start
    (fun r g => match r with
      | Val (p, inl _) => pr_iut_s p = -1 /\ pr_tst_s p = -1 /\
          (g_added g = [variant] \/ g_exh g = true)
      | Val (_, inr j) => cannot j = true -> g_exh g = true
      | Undef _ => g_exh g = true
      | Exc _ => False
      | NoFuel => True
      end).
Proof.
  intros Hn. unfold detect_toeplitz_variant. apply wp_T_bind.
  eapply wp_mono; [apply detect_attempts_wp; [|done..]; intros; by apply try_detect_wp|].
  intros [[p [v|j]]| | |] g; try done; [|tauto].
  intros (Hi & Hs & Ha & Hv0 & Hv). destruct v as [v|]; [|by destruct (Hv0 eq_refl)].
  assert (Hend : forall g', g_added g' = [] -> (v = variant \/ g_exh g' = true) ->
    wp W (lift (CHECK_RC (call (cfg_add_instance_int v "/local:/iut_toeplitz_variant:"))) p) g'
      (fun r g => match r with
      | Val (p, inl _) => pr_iut_s p = -1 /\ pr_tst_s p = -1 /\
          (g_added g = [variant] \/ g_exh g = true)
      | Val (_, inr j) => cannot j = true -> g_exh g = true
      | Undef _ => g_exh g = true
      | Exc _ => False
      | NoFuel => True
      end)).
  { intros g' Ha' Hv'. apply wp_T_lift. wp_go; [|by cbn]. cbn. rewrite Ha'.
    split_all; try done. destruct Hv' as [->|]; auto. }
  specialize (Hv _ eq_refl). apply wp_T_bind, wp_T_lift. case_match; wp_go.
  all: apply wp_T_bind, wp_T_lift; wp_go; [by apply Hend|by cbn].
Qed.
End detect.

(** A NIC with two queues, its table alternating, and a hash in which the
    variants differ. *)
Module DetectWitness.
Local Existing Instance te_ref.
Definition h (_ : toeplitz_cache) (a b : sockaddr) (v : Z) : Z := sa_port a + sa_port b + v.

Lemma detect_toeplitz_correct_witness :
  2 <> 0 /\
  wp (Detect.world h (fun i => i) [] 2 true)
    (detect_toeplitz_variant 10 (RPCS "iut" "A") (RPCS "tst" "B") (SA 2 [1] 0) (SA 2 [2] 0)
       "eth0" 1 2 [] false (Pro (-1) (-1) (Some []))) Detect.start
    (fun r g => match r with
      | Val (p, inl _) => pr_iut_s p = -1 /\ pr_tst_s p = -1 /\
          (Detect.g_added g = [Detect.variant true] \/ Detect.g_exh g = true)
      | Val (_, inr j) => Detect.cannot j = true -> Detect.g_exh g = true
      | Undef _ => Detect.g_exh g = true
      | Exc _ => False
      | NoFuel => True
      end).
Proof. split; [discriminate|]. apply (detect_toeplitz_correct h (fun i => i) [] 2 true). discriminate. Defined.
End DetectWitness.

(** ** An exhausted search *)
Module Flat.
(** A world in which the hash does not depend on the variant. *)
Definition world (k : Z) : handler te_call unit := fun X c s =>
  match c in te_call X return X * unit with
  | te_toeplitz_hash_sa _ _ _ _ => ((0, k), s)
  | c => (default_answer c, s)
  end.
End Flat.

Section exhausted.
Context {TE : Te}.

Lemma flat_pass k iut tst ifn table_size cache i st :
  table_size <> 0 ->
  run (Flat.world k) (port_pass iut tst ifn table_size cache i st) tt =
    (Val (Continue (Search (set_port (se_iut st) (u16 0)) (set_port (se_tst st) (u16 0))
       (se_std st) (se_sym st))), tt).
Proof.
  intros Hn. unfold port_pass.
  cbn -[Z.eqb Z.modulo set_port u16]. change (0 =? 0) with true.
  cbn -[Z.eqb Z.modulo set_port u16]. change (0 =? 0) with true.
  cbn -[Z.eqb Z.modulo set_port u16].
  rewrite (proj2 (Z.eqb_neq _ _) Hn). by rewrite Z.eqb_refl.
Qed.

Lemma flat_search k iut tst ifn table_size cache n i st :
  table_size <> 0 ->
  exists st', run (Flat.world k) (for_n n i st (port_pass iut tst ifn table_size cache)) tt =
      (Val (inl st'), tt) /\ se_std st' = se_std st /\ se_sym st' = se_sym st.
Proof.
  intros Hn. revert i st. induction n as [|n IH]; intros i st; [by exists st|].
  cbn [for_n].
  match goal with |- context [bind ?f ?q] => change (bind f q) with (mbind f q) end.
  rewrite run_bind, flat_pass by done. cbn [lift_result].
  match goal with |- context [for_n n ?j ?st1 _] => destruct (IH j st1) as (st' & E & Es & Ey) end.
  exists st'. split; [exact E|]. by rewrite Es, Ey.
Qed.

(** C25.  When the search makes all its [max_attempts] without finding ports
    that tell the variants apart (here: they never differ),
    [try_detect_toeplitz_variant] goes on and reads [queue_std] and
    [queue_sym], which nothing has written. *)
Theorem exhausted_search_undefined k fuel iut tst iut_addr tst_addr ifn bpf table_size cache jumbo p :
  table_size <> 0 ->
  exists why, run (Flat.world k) (try_detect_toeplitz_variant fuel iut tst iut_addr tst_addr ifn bpf
    table_size cache jumbo p) tt = (Undef why, tt).
Proof.
  intros Hn. unfold try_detect_toeplitz_variant. unfold mbind at 1, T_bind at 1.
  rewrite run_bind. unfold lift at 1. rewrite run_bind.
  destruct (flat_search k iut tst ifn table_size cache (Z.to_nat max_attempts) 0
    (Search iut_addr tst_addr None None) Hn) as (st & E & Es & Ey).
  rewrite run_attempt, E. cbn [lift_result run mret prog_ret].
  cbn -[Z.eqb]. change (0 =? 0) with true. cbn -[Z.eqb]. rewrite Es. by eexists.
Qed.
End exhausted.

Module ExhaustedWitness.
Local Existing Instance te_ref.
Lemma exhausted_search_undefined_witness :
  128 <> 0 /\
  exists why, run (Flat.world 7) (try_detect_toeplitz_variant 0 (RPCS "iut" "A") (RPCS "tst" "B")
    (SA 2 [1] 0) (SA 2 [2] 0) "eth0" 1 128 [] false (Pro (-1) (-1) (Some []))) tt = (Undef why, tt).
Proof. split; [discriminate|]. apply (exhausted_search_undefined 7). discriminate. Defined.
End ExhaustedWitness.

(** ** The indirection table *)
Module Indir.
(** What a monitor sees: the fills and the commits, in order. *)
Inductive event := Fill (lo hi : Z) | Commit.
Definition upd X (c : te_call X) : X -> list event -> list event :=
  match c in te_call X return X -> list event -> list event with
  | tapi_cfg_if_rss_fill_indir_table _ _ _ lo hi => fun _ g => g ++ [Fill lo hi]
  | tapi_cfg_if_rss_hash_indir_commit _ _ _ => fun _ g => g ++ [Commit]
  | _ => fun _ g => g
  end.
(** The table read is [table]. *)
Definition ok (table : Z -> Z) X (c : te_call X) : list event -> X -> Prop :=
  match c in te_call X return list event -> X -> Prop with
  | tapi_cfg_if_rss_indir_get _ _ _ i => fun _ x => fst x = 0 -> snd x = table i
  | _ => fun _ _ => True
  end.
Definition world (table : Z -> Z) : env te_call (list event) := watch_if (ok table) upd.
End Indir.

Section indir.
Context {TE : Te}.
Import Indir.

(** [check_fix_indir_table] on any table: when it returns, either two
    entries of the table differ and the table was left alone, or all entries
    were the same and the table was filled, once, with all the queues
    [0 .. rx_queues - 1], and the fill was then committed. *)
Theorem check_fix_indir_table_correct table ta ifn rx_queues table_size :
  wp (world table) (check_fix_indir_table ta ifn rx_queues table_size) [] (no_ub (fun _ g =>
    (g = [] /\ exists i, 1 <= i < table_size /\ table i <> table 0) \/
    (g = [Fill 0 (u32 (rx_queues - 1)); Commit] /\
      forall i, 0 <= i < table_size -> table i = table 0))).
Proof.
  unfold check_fix_indir_table. wp_go; [|done]. cbn [ok fst snd] in H. autorewrite with zbool in *.
  rewrite (H Heqb).
  apply (wp_for_n _ _ _ _ _ _ _ (fun i fix_table g =>
    g = [] /\ fix_table = true /\ forall k, 0 <= k < i -> table k = table 0)).
  - split_all; [done|done|]. intros k Hk. by replace k with 0 by lia.
  - intros i ft g Hi (-> & -> & Hall). unfold indir_pass. wp_go; [|done].
    cbn [ok fst snd] in *. autorewrite with zbool in *. rewrite (H0 Heqb0).
    destruct (Z.eqb_spec (table 0) (table i)) as [He|Hne]; cbn [negb lpost bpost].
    + split_all; [done|done|]. intros k Hk.
      destruct (decide (k = i)) as [->|]; [done|]. apply Hall. lia.
    + wp_go; try done. left. split; [done|]. exists i. split; [lia|congruence].
  - intros ft g (-> & -> & Hall). wp_go; try done. right. split; [done|].
    intros i Hi. apply Hall. lia.
Qed.
End indir.
