(* ===== verification/Double.v ===== *)
(** C [double]: IEEE binary64 with rounding to nearest, as the specification
    floats of the standard library, and the integers it represents exactly. *)
From Corelib Require Export SpecFloat.
From S2P Require Import Prelude.

Definition double := spec_float.

(** Conversion of an integer, the operators and [fabs], [sqrt]. *)
Definition d_of_Z (z : Z) : double := binary_normalize 53 1024 z 0 false.
Definition d_add : double -> double -> double := SFadd 53 1024.
Definition d_sub : double -> double -> double := SFsub 53 1024.
Definition d_mul : double -> double -> double := SFmul 53 1024.
Definition d_div : double -> double -> double := SFdiv 53 1024.
Definition d_sqrt : double -> double := SFsqrt 53 1024.
Definition d_abs : double -> double := SFabs.
Definition d_gtb (x y : double) : bool := SFltb y x.
Definition d_ltb (x y : double) : bool := SFltb x y.
Definition d_eqb (x y : double) : bool := SFeqb x y.

(** [(int)x], for an [x] whose integral part is an [int]. *)
Definition d_trunc (x : double) : option Z :=
  let conv (s : bool) (a : Z) :=
    let z := if s then - a else a in if (- 2 ^ 31 <=? z) && (z <? 2 ^ 31) then Some z else None in
  match x with
  | S754_zero _ => Some 0
  | S754_finite s m e => conv s (if 0 <=? e then Z.pos m * 2 ^ e else Z.pos m / 2 ^ (- e))
  | _ => None
  end.

(** [(int64_t)x], likewise; [floor(x)] and [-x]. *)
Definition d_trunc64 (x : double) : option Z :=
  let conv (s : bool) (a : Z) :=
    let z := if s then - a else a in if (- 2 ^ 63 <=? z) && (z <? 2 ^ 63) then Some z else None in
  match x with
  | S754_zero _ => Some 0
  | S754_finite s m e => conv s (if 0 <=? e then Z.pos m * 2 ^ e else Z.pos m / 2 ^ (- e))
  | _ => None
  end.
Definition d_floor (x : double) : double :=
  match x with
  | S754_finite s m e => if 0 <=? e then x else d_of_Z ((if s then Z.neg m else Z.pos m) / 2 ^ (- e))
  | _ => x
  end.
Definition d_opp : double -> double := SFopp.

(** A decimal literal: the double nearest to [n / d]; the quotient of two
    exact operands is correctly rounded. *)
Definition d_lit (n d : Z) : double := d_div (d_of_Z n) (d_of_Z d).

(** ** Number of binary digits *)

Definition digs (p : positive) : Z := Z.pos (digits2_pos p).

Lemma digs_pos p : 0 < digs p.
Proof. done. Qed.

Lemma digs_spec p : 2 ^ (digs p - 1) <= Z.pos p < 2 ^ digs p.
Proof.
  unfold digs. induction p as [p IH|p IH|]; cbn [digits2_pos]; [| |done].
  all: rewrite Pos2Z.inj_succ, <- Z.add_1_r, Z.add_simpl_r, Z.pow_add_r by lia.
  all: assert (2 ^ Z.pos (digits2_pos p) = 2 ^ (Z.pos (digits2_pos p) - 1) * 2) as E
         by (rewrite <- (Z.pow_add_r 2 _ 1) by lia; f_equal; lia).
  all: change (2 ^ 1) with 2; lia.
Qed.

Lemma digs_unique p d : 2 ^ (d - 1) <= Z.pos p < 2 ^ d -> digs p = d.
Proof.
  intros H. pose proof (digs_spec p) as H'. pose proof (digs_pos p).
  assert (0 < d).
  { destruct (Z.lt_ge_cases 0 d); [done|]. exfalso.
    assert (2 ^ d <= 1) by (destruct (decide (d = 0)) as [->|]; [done|]; rewrite Z.pow_neg_r; lia). lia. }
  destruct (Z.lt_trichotomy (digs p) d) as [Hlt|[He|Hlt]]; [|done|]; exfalso.
  - pose proof (Z.pow_le_mono_r 2 (digs p) (d - 1)). lia.
  - pose proof (Z.pow_le_mono_r 2 d (digs p - 1)). lia.
Qed.

Lemma digs_shift p m k : 0 <= k -> Z.pos m = Z.pos p * 2 ^ k -> digs m = digs p + k.
Proof.
  intros Hk Hm. apply digs_unique. pose proof (digs_spec p). pose proof (digs_pos p).
  assert (0 < 2 ^ k) by (apply Z.pow_pos_nonneg; lia).
  replace (digs p + k - 1) with ((digs p - 1) + k) by lia.
  rewrite !Z.pow_add_r, Hm by lia. split; [apply Z.mul_le_mono_pos_r|apply Z.mul_lt_mono_pos_r]; lia.
Qed.

Lemma digs_le p n : 0 <= n -> Z.pos p < 2 ^ n -> digs p <= n.
Proof.
  intros Hn Hp. pose proof (digs_spec p). destruct (Z.le_gt_cases (digs p) n); [done|].
  pose proof (Z.pow_le_mono_r 2 n (digs p - 1)). lia.
Qed.

(** ** Exact rounding *)

Lemma shr_exact p m : 0 < m ->
  SpecFloat.iter_pos shr_1 p (Build_shr_record (m * 2 ^ Z.pos p) false false) = Build_shr_record m false false.
Proof.
  assert (H1 : forall m, 0 < m -> shr_1 (Build_shr_record (m * 2) false false) = Build_shr_record m false false).
  { intros n Hn. destruct n as [|n|n]; [lia| |lia]. by rewrite Z.mul_comm. }
  revert m. induction p as [p IH|p IH|]; intros m Hm; cbn [SpecFloat.iter_pos]; [| |by apply H1].
  - rewrite (Pos2Z.inj_xI p).
    replace (m * 2 ^ (2 * Z.pos p + 1)) with (m * 2 ^ Z.pos p * 2 ^ Z.pos p * 2).
    + rewrite H1 by lia. rewrite IH by lia. by apply IH.
    + replace (2 * Z.pos p + 1) with (Z.pos p + Z.pos p + 1) by lia. rewrite !Z.pow_add_r by lia. lia.
  - rewrite (Pos2Z.inj_xO p).
    replace (m * 2 ^ (2 * Z.pos p)) with (m * 2 ^ Z.pos p * 2 ^ Z.pos p).
    + rewrite IH by lia. by apply IH.
    + replace (2 * Z.pos p) with (Z.pos p + Z.pos p) by lia. rewrite Z.pow_add_r by lia. lia.
Qed.

(** The canonical representation of an integer of at most 53 digits. *)
Definition can (s : bool) (v : positive) : double :=
  S754_finite s (Z.to_pos (Z.pos v * 2 ^ (53 - digs v))) (digs v - 53).

Lemma fexp_small d : 0 < d -> fexp 53 1024 d = d - 53.
Proof. unfold fexp, emin. lia. Qed.

Lemma pow2_pos k : 0 < 2 ^ k \/ k < 0.
Proof. destruct (Z.lt_ge_cases k 0); [by right|left]. by apply Z.pow_pos_nonneg. Qed.

(** A mantissa that holds [v] times [2 ^ k] exactly is rounded to it. *)
Definition can_at (k : Z) (s : bool) (v : positive) : double :=
  S754_finite s (Z.to_pos (Z.pos v * 2 ^ (53 - digs v))) (digs v - 53 + k).

Lemma round_aux_dyadic k s M E v :
  - 1000 <= k <= 0 -> E - k <= digs v - 53 -> digs v <= 53 -> Z.pos M = Z.pos v * 2 ^ (k - E) ->
  binary_round_aux 53 1024 s (Z.pos M) E loc_Exact = can_at k s v.
Proof.
  intros Hk HE Hd HM. pose proof (digs_pos v) as Hv.
  assert (HdM : digs M = digs v + k - E) by (rewrite (digs_shift v M (k - E)) by (done || lia); lia).
  assert (Hc : 0 < Z.pos v * 2 ^ (53 - digs v)) by (pose proof (pow2_pos (53 - digs v)); lia).
  assert (Hf : forall d, - 1000 <= d -> fexp 53 1024 d = d - 53) by (intros d Hd'; unfold fexp, emin; lia).
  assert (Hsh : shr_fexp 53 1024 (Z.pos M) E loc_Exact =
    (Build_shr_record (Z.pos v * 2 ^ (53 - digs v)) false false, digs v - 53 + k)).
  { unfold shr_fexp. cbn [Zdigits2 shr_record_of_loc]. fold (digs M).
    rewrite HdM, Hf by lia. unfold shr.
    replace (digs v + k - E + E - 53 - E) with (digs v - 53 + k - E) by lia.
    destruct (digs v - 53 + k - E) as [|n|n] eqn:En; [| |lia].
    - assert (k - E = 53 - digs v) as <- by lia. rewrite HM. f_equal. lia.
    - rewrite HM. replace (k - E) with ((53 - digs v) + Z.pos n) by lia.
      rewrite Z.pow_add_r, Z.mul_assoc by lia. rewrite shr_exact by done. f_equal. lia. }
  unfold binary_round_aux. rewrite Hsh. cbn [shr_m loc_of_shr_record round_nearest_even].
  set (c := Z.pos v * 2 ^ (53 - digs v)) in *.
  destruct c as [|pc|] eqn:Ec; [lia| |lia].
  assert (HdC : digs pc = 53).
  { rewrite (digs_shift v pc (53 - digs v)); [lia|lia|]. by rewrite <- Ec. }
  unfold shr_fexp. cbn [Zdigits2 shr_record_of_loc]. fold (digs pc).
  rewrite HdC, Hf by lia. unfold shr.
  replace (53 + (digs v - 53 + k) - 53 - (digs v - 53 + k)) with 0 by lia. cbn [shr_m].
  rewrite (proj2 (Z.leb_le (digs v - 53 + k) (1024 - 53))) by lia.
  unfold can_at. fold c. by rewrite Ec.
Qed.

(** ... an integer. *)
Lemma round_aux_exact s M E v :
  E <= digs v - 53 -> digs v <= 53 -> Z.pos M = Z.pos v * 2 ^ (- E) ->
  binary_round_aux 53 1024 s (Z.pos M) E loc_Exact = can s v.
Proof.
  intros HE Hd HM. rewrite (round_aux_dyadic 0 s M E v) by (done || lia). unfold can, can_at. f_equal. lia.
Qed.

Lemma shl_align_spec m e e' :
  let '(m', f) := shl_align m e e' in f = Z.min e e' /\ Z.pos m' = Z.pos m * 2 ^ (e - f).
Proof.
  unfold shl_align. destruct (e' - e) as [|d|d] eqn:Ed.
  - replace (e - e) with 0 by lia. lia.
  - replace (e - e) with 0 by lia. lia.
  - split; [lia|]. replace (e - e') with (Z.pos d) by lia. clear.
    induction d as [|d IH] using Pos.peano_ind; [cbn; lia|].
    rewrite Pos.iter_succ, Pos2Z.inj_succ, Z.pow_succ_r by lia. lia.
Qed.

Lemma round_exact s M E v :
  E <= 0 -> digs v <= 53 -> Z.pos M = Z.pos v * 2 ^ (- E) ->
  binary_round 53 1024 s M E = can s v.
Proof.
  intros HE Hd HM. unfold binary_round. fold (digs M). pose proof (digs_pos v).
  assert (HdM : digs M = digs v - E) by (rewrite (digs_shift v M (- E)) by (done || lia); lia).
  rewrite HdM, fexp_small by lia.
  pose proof (shl_align_spec M E (digs v - E + E - 53)) as H'.
  destruct (shl_align _ _ _) as [M' E']. destruct H' as [HE' HM'].
  apply round_aux_exact; [lia|done|]. rewrite HM', HM, <- Z.mul_assoc, <- Z.pow_add_r by lia.
  do 2 f_equal. lia.
Qed.

(** ** Exact operations *)

(** The integers with at most 53 digits. *)
Definition exact (z : Z) : Prop := Z.abs z < 2 ^ 53.

Lemma exact_digs p : exact (Z.pos p) -> digs p <= 53.
Proof. intros H. apply digs_le; [lia|]. exact H. Qed.

Lemma normalize_exact z m e : e <= 0 -> exact z -> m = z * 2 ^ (- e) ->
  binary_normalize 53 1024 m e false =
    match z with 0 => S754_zero false | Z.pos p => can false p | Z.neg p => can true p end.
Proof.
  intros He Hz ->. assert (0 < 2 ^ (- e)) by (apply Z.pow_pos_nonneg; lia).
  destruct z as [|p|p]; [done| |].
  - destruct (Z.pos p * 2 ^ (- e)) as [|M|] eqn:EM; [lia| |lia]. cbn [binary_normalize].
    apply round_exact; [done|by apply exact_digs|done].
  - destruct (Z.neg p * 2 ^ (- e)) as [|M|M] eqn:EM; [lia|lia|]. cbn [binary_normalize].
    apply round_exact; [done|by apply exact_digs|lia].
Qed.

Lemma d_of_Z_exact z : exact z ->
  d_of_Z z = match z with 0 => S754_zero false | Z.pos p => can false p | Z.neg p => can true p end.
Proof. intros Hz. apply normalize_exact; [done|done|]. change (2 ^ (- 0)) with 1. lia. Qed.

(** The representation of a nonzero integer. *)
Lemma d_of_Z_repr z : exact z -> z <> 0 ->
  exists p m, d_of_Z z = S754_finite (z <? 0) m (digs p - 53) /\ Z.abs z = Z.pos p /\
    digs p <= 53 /\ Z.pos m = Z.pos p * 2 ^ (- (digs p - 53)).
Proof.
  intros Hz Hne. rewrite d_of_Z_exact by done. destruct z as [|p|p]; [done| |];
    exists p, (Z.to_pos (Z.pos p * 2 ^ (53 - digs p))).
  all: assert (digs p <= 53) by (by apply exact_digs).
  all: replace (- (digs p - 53)) with (53 - digs p) by lia.
  all: pose proof (Z.pow_pos_nonneg 2 (53 - digs p)).
  all: rewrite Z2Pos.id by lia; split_all; done.
Qed.

Lemma align_mant p m ez : Z.pos m = Z.pos p * 2 ^ (- (digs p - 53)) -> digs p <= 53 ->
  ez <= digs p - 53 -> Z.pos (fst (shl_align m (digs p - 53) ez)) = Z.pos p * 2 ^ (- ez).
Proof.
  intros Hm Hd He. pose proof (shl_align_spec m (digs p - 53) ez) as H.
  destruct (shl_align _ _ _) as [m' f]. destruct H as [-> Hm']. cbn [fst].
  rewrite Hm', Hm, <- Z.mul_assoc, <- Z.pow_add_r by lia. do 2 f_equal. lia.
Qed.

Lemma cond_Zopp_abs z p k : Z.abs z = Z.pos p -> cond_Zopp (z <? 0) (Z.pos p * k) = z * k.
Proof. unfold cond_Zopp. destruct (Z.ltb_spec z 0); nia. Qed.

(** Sums, differences, squares and whole quotients of such integers are exact,
    as long as the result is one. *)
Lemma d_add_exact a b : exact a -> exact b -> exact (a + b) ->
  d_add (d_of_Z a) (d_of_Z b) = d_of_Z (a + b).
Proof.
  intros Ha Hb Hab.
  destruct (decide (a = 0)) as [->|Na].
  { change (d_of_Z 0) with (S754_zero false). rewrite Z.add_0_l.
    destruct (decide (b = 0)) as [->|Nb]; [done|].
    by destruct (d_of_Z_repr b Hb Nb) as (p & m & -> & _). }
  destruct (decide (b = 0)) as [->|Nb].
  { change (d_of_Z 0) with (S754_zero false). rewrite Z.add_0_r.
    by destruct (d_of_Z_repr a Ha Na) as (p & m & -> & _). }
  destruct (d_of_Z_repr a Ha Na) as (p & m & -> & Ep & Dp & Mp).
  destruct (d_of_Z_repr b Hb Nb) as (q & n & -> & Eq & Dq & Mq).
  unfold d_add, SFadd. set (ez := Z.min _ _).
  rewrite (align_mant p), (align_mant q) by (done || lia).
  rewrite (cond_Zopp_abs a), (cond_Zopp_abs b), <- Z.mul_add_distr_r by done.
  rewrite (d_of_Z_exact (a + b)) by done. apply normalize_exact; [lia|done|done].
Qed.

Lemma d_sub_exact a b : exact a -> exact b -> exact (a - b) ->
  d_sub (d_of_Z a) (d_of_Z b) = d_of_Z (a - b).
Proof.
  intros Ha Hb Hab.
  destruct (decide (b = 0)) as [->|Nb].
  { change (d_of_Z 0) with (S754_zero false). rewrite Z.sub_0_r.
    destruct (decide (a = 0)) as [->|Na]; [done|].
    by destruct (d_of_Z_repr a Ha Na) as (p & m & -> & _). }
  destruct (decide (a = 0)) as [->|Na].
  { change (d_of_Z 0) with (S754_zero false). rewrite !d_of_Z_exact by done.
    by destruct b as [|p|p]. }
  destruct (d_of_Z_repr a Ha Na) as (p & m & -> & Ep & Dp & Mp).
  destruct (d_of_Z_repr b Hb Nb) as (q & n & -> & Eq & Dq & Mq).
  unfold d_sub, SFsub. set (ez := Z.min _ _).
  rewrite (align_mant p), (align_mant q) by (done || lia).
  rewrite (cond_Zopp_abs a), (cond_Zopp_abs b), <- Z.mul_sub_distr_r by done.
  rewrite (d_of_Z_exact (a - b)) by done. apply normalize_exact; [lia|done|done].
Qed.

Lemma d_square_exact a : exact a -> exact (a * a) -> d_mul (d_of_Z a) (d_of_Z a) = d_of_Z (a * a).
Proof.
  intros Ha Haa. destruct (decide (a = 0)) as [->|Na]; [done|].
  destruct (d_of_Z_repr a Ha Na) as (p & m & -> & Ep & Dp & Mp).
  unfold d_mul, SFmul. rewrite xorb_nilpotent.
  assert (Hv : Z.pos (p * p) = a * a) by (rewrite Pos2Z.inj_mul, <- Ep; lia).
  rewrite d_of_Z_exact, <- Hv by done.
  pose proof (digs_spec p) as Hs. pose proof (digs_spec (p * p)) as Hs2. pose proof (digs_pos p).
  apply round_aux_exact.
  - assert (2 * digs p - 1 <= digs (p * p)); [|lia].
    destruct (Z.le_gt_cases (2 * digs p - 1) (digs (p * p))); [done|exfalso].
    pose proof (Z.pow_le_mono_r 2 (digs (p * p)) ((digs p - 1) + (digs p - 1))) as Hm.
    rewrite Z.pow_add_r in Hm by lia. rewrite Pos2Z.inj_mul in Hs2. nia.
  - apply exact_digs. by rewrite Hv.
  - rewrite !Pos2Z.inj_mul, Mp.
    replace (- (digs p - 53 + (digs p - 53))) with (- (digs p - 53) + - (digs p - 53)) by lia.
    rewrite (Z.pow_add_r 2 (- (digs p - 53))) by lia. lia.
Qed.

Lemma d_div_exact u n : exact (u * n) -> exact u -> exact n -> 0 < n ->
  d_div (d_of_Z (u * n)) (d_of_Z n) = d_of_Z u.
Proof.
  intros Hun Hu Hn Hpos.
  destruct (d_of_Z_repr n Hn ltac:(lia)) as (q & m2 & -> & Eq & Dq & Mq).
  rewrite (proj2 (Z.ltb_ge n 0)) by lia.
  destruct (decide (u = 0)) as [->|Nu]; [done|].
  destruct (d_of_Z_repr (u * n) Hun ltac:(lia)) as (p & m1 & -> & Ep & Dp & Mp).
  destruct (d_of_Z_repr u Hu Nu) as (v & m3 & _ & Ev & Dv & _).
  assert (Hprod : Z.pos p = Z.pos v * Z.pos q) by (rewrite <- Ep, <- Ev, <- Eq; apply Z.abs_mul).
  pose proof (digs_pos p). pose proof (digs_pos q). pose proof (digs_pos v).
  assert (Hdig : digs p <= digs v + digs q /\ digs q <= digs p).
  { pose proof (digs_spec p). pose proof (digs_spec q). pose proof (digs_spec v). split.
    - apply digs_le; [lia|]. rewrite Hprod, Z.pow_add_r by lia. nia.
    - apply digs_le; [lia|]. nia. }
  assert (D1 : digs m1 = 53).
  { rewrite (digs_shift p m1 (- (digs p - 53))) by (done || lia). lia. }
  assert (D2 : digs m2 = 53).
  { rewrite (digs_shift q m2 (- (digs q - 53))) by (done || lia). lia. }
  unfold d_div, SFdiv, SFdiv_core_binary. cbn [Zdigits2]. fold (digs m1) (digs m2).
  rewrite D1, D2. set (e1 := digs p - 53) in *. set (e2 := digs q - 53) in *.
  assert (He : Z.min (fexp 53 1024 (53 + e1 - (53 + e2))) (e1 - e2) = e1 - e2 - 53).
  { unfold fexp, emin. lia. }
  rewrite He. replace (e1 - e2 - (e1 - e2 - 53)) with 53 by lia. cbv iota.
  set (k := - (e1 - e2 - 53)).
  assert (Hq : Z.shiftl (Z.pos m1) 53 = (Z.pos v * 2 ^ k) * Z.pos m2).
  { rewrite Z.shiftl_mul_pow2, Mp, Mq, Hprod by lia.
    transitivity (Z.pos v * Z.pos q * (2 ^ (- e1) * 2 ^ 53)); [lia|].
    rewrite <- Z.pow_add_r by lia. replace (- e1 + 53) with (k + - e2) by (unfold k; lia).
    rewrite Z.pow_add_r by (unfold k; lia). lia. }
  pose proof (Z_div_mod (Z.shiftl (Z.pos m1) 53) (Z.pos m2) ltac:(lia)) as Hde.
  destruct (Z.div_eucl _ _) as [qq r]. destruct Hde as [Hde Hr].
  assert (r = 0 /\ qq = Z.pos v * 2 ^ k) as [-> ->].
  { rewrite Hq in Hde. assert (qq = Z.pos v * 2 ^ k) as -> by nia. split; lia. }
  assert (Hloc : new_location (Z.pos m2) 0 = loc_Exact).
  { unfold new_location. by destruct (Z.even _). }
  rewrite Hloc. rewrite (d_of_Z_exact u) by done.
  assert (0 < 2 ^ k) by (apply Z.pow_pos_nonneg; lia).
  destruct (Z.pos v * 2 ^ k) as [|M|] eqn:EM; [lia| |lia].
  rewrite (round_aux_exact _ M (e1 - e2 - 53) v) by (done || lia).
  destruct u as [|w|w]; [done| |]; cbn in Ev; injection Ev as <-.
  - by rewrite (proj2 (Z.ltb_ge (Z.pos w * n) 0)) by lia.
  - by rewrite (proj2 (Z.ltb_lt (Z.neg w * n) 0)) by lia.
Qed.

(** ** Halves *)

(** [x * 1.5] as an [int] is [x] and a half, rounded down. *)
Lemma d_trunc_three_halves n : 0 < n -> 3 * n < 2 ^ 31 ->
  d_trunc (d_mul (d_of_Z n) (d_lit 3 2)) = Some (3 * n / 2).
Proof.
  intros Hn Hb. destruct (d_of_Z_repr n) as (p & m & -> & Ep & Dp & Mp); [unfold exact; lia|lia|].
  rewrite (proj2 (Z.ltb_ge n 0)) by lia.
  change (d_lit 3 2) with (S754_finite false 6755399441055744 (-52)). unfold d_mul, SFmul. cbn [xorb].
  pose proof (digs_pos p). pose proof (digs_spec p) as Hs. pose proof (digs_spec (3 * p)) as Hs3.
  assert (Hp : n = Z.pos p) by lia. assert (D3 : digs p + 1 <= digs (3 * p) <= 31).
  { split; [|apply digs_le; [lia|]; rewrite Pos2Z.inj_mul; lia].
    destruct (Z.le_gt_cases (digs p + 1) (digs (3 * p))); [done|exfalso].
    pose proof (Z.pow_le_mono_r 2 (digs (3 * p)) (digs p)) as Hm.
    replace (digs p) with (1 + (digs p - 1)) in Hm at 2 by lia.
    rewrite Z.pow_add_r in Hm by lia. rewrite Pos2Z.inj_mul in Hs3. lia. }
  rewrite (round_aux_dyadic (-1) _ _ _ (3 * p)); [|lia|lia|lia|].
  - unfold can_at, d_trunc. rewrite (proj2 (Z.leb_gt 0 _)) by lia.
    assert (Hk : 0 < 2 ^ (53 - digs (3 * p))) by (apply Z.pow_pos_nonneg; lia).
    rewrite Z2Pos.id by lia. replace (- (digs (3 * p) - 53 + -1)) with ((53 - digs (3 * p)) + 1) by lia.
    rewrite Z.pow_add_r, Z.mul_comm by lia. rewrite Z.div_mul_cancel_l by lia.
    rewrite Pos2Z.inj_mul, <- Hp. change (2 ^ 1) with 2.
    assert (0 <= 3 * n / 2 < 2 ^ 31) by (split; [apply Z.div_pos; lia|apply Z.div_lt_upper_bound; lia]).
    rewrite (proj2 (Z.leb_le _ _)), (proj2 (Z.ltb_lt _ _)) by lia. done.
  - rewrite !Pos2Z.inj_mul, Mp. change 6755399441055744 with (3 * 2 ^ 51).
    replace (-1 - (digs p - 53 + -52)) with (- (digs p - 53) + 51) by lia.
    rewrite (Z.pow_add_r 2 (- (digs p - 53))) by lia. lia.
Qed.

(** ** Whole numbers *)

Lemma d_mul_exact a b : 0 < b -> exact a -> exact b -> exact (a * b) -> d_mul (d_of_Z a) (d_of_Z b) = d_of_Z (a * b).
Proof.
  intros Hpos Ha Hb Hab. destruct (d_of_Z_repr b Hb ltac:(lia)) as (q & n & -> & Eq & Dq & Mq).
  rewrite (proj2 (Z.ltb_ge b 0)) by lia. destruct (decide (a = 0)) as [->|Na]; [done|].
  destruct (d_of_Z_repr a Ha Na) as (p & m & -> & Ep & Dp & Mp).
  unfold d_mul, SFmul. rewrite xorb_false_r.
  assert (Hv : Z.pos (p * q) = Z.abs (a * b)) by (rewrite Pos2Z.inj_mul, <- Ep, <- Eq; symmetry; apply Z.abs_mul).
  assert (Hcan : d_of_Z (a * b) = can (a <? 0) (p * q)).
  { rewrite d_of_Z_exact by done. destruct (Z.ltb_spec a 0).
    - destruct (a * b) as [|r|r] eqn:E; [lia|nia|]. f_equal. cbn [Z.abs] in Hv. by injection Hv.
    - destruct (a * b) as [|r|r] eqn:E; [lia| |nia]. f_equal. cbn [Z.abs] in Hv. by injection Hv. }
  rewrite Hcan. pose proof (digs_spec p) as Hp. pose proof (digs_spec q) as Hq. pose proof (digs_spec (p * q)) as Hpq.
  pose proof (digs_pos p). pose proof (digs_pos q). apply round_aux_exact.
  - assert (digs p + digs q - 1 <= digs (p * q)); [|lia].
    destruct (Z.le_gt_cases (digs p + digs q - 1) (digs (p * q))); [done|exfalso].
    pose proof (Z.pow_le_mono_r 2 (digs (p * q)) ((digs p - 1) + (digs q - 1))) as Hm.
    rewrite Z.pow_add_r in Hm by lia. rewrite Pos2Z.inj_mul in Hpq. nia.
  - apply exact_digs. rewrite Hv. unfold exact in *. by rewrite Z.abs_idemp.
  - rewrite !Pos2Z.inj_mul, Mp, Mq.
    replace (- (digs p - 53 + (digs q - 53))) with (- (digs p - 53) + - (digs q - 53)) by lia.
    rewrite (Z.pow_add_r 2 (- (digs p - 53))) by lia. lia.
Qed.

Lemma d_abs_Z z : exact z -> d_abs (d_of_Z z) = d_of_Z (Z.abs z).
Proof.
  intros Hz. assert (exact (Z.abs z)) by (unfold exact in *; by rewrite Z.abs_idemp).
  rewrite !d_of_Z_exact by done. by destruct z.
Qed.

Lemma d_opp_Z z : exact z -> z <> 0 -> d_opp (d_of_Z z) = d_of_Z (- z).
Proof.
  intros Hz Hn. assert (exact (- z)) by (unfold exact in *; by rewrite Z.abs_opp).
  rewrite !d_of_Z_exact by done. by destruct z.
Qed.

Lemma d_ltb_0 z : exact z -> d_ltb (d_of_Z z) (d_of_Z 0) = (z <? 0).
Proof. intros Hz. change (d_of_Z 0) with (S754_zero false). rewrite d_of_Z_exact by done. by destruct z. Qed.

(** The mantissa without its trailing zeros. *)
Lemma mant_whole p m : digs p <= 53 -> Z.pos m = Z.pos p * 2 ^ (- (digs p - 53)) ->
  (if 0 <=? digs p - 53 then Z.pos m * 2 ^ (digs p - 53) else Z.pos m / 2 ^ (- (digs p - 53))) = Z.pos p.
Proof.
  intros Hd Hm. destruct (Z.leb_spec 0 (digs p - 53)).
  - replace (digs p - 53) with 0 in * by lia. change (2 ^ (- 0)) with 1 in Hm. change (2 ^ 0) with 1. lia.
  - rewrite Hm. apply Z.div_mul. apply Z.pow_nonzero; lia.
Qed.

Lemma d_trunc64_Z z : exact z -> d_trunc64 (d_of_Z z) = Some z.
Proof.
  intros Hz. destruct (decide (z = 0)) as [->|Nz]; [done|].
  destruct (d_of_Z_repr z Hz Nz) as (p & m & -> & Ep & Dp & Mp). unfold d_trunc64.
  rewrite (mant_whole p) by done. unfold exact in Hz.
  assert (E : (if z <? 0 then - Z.pos p else Z.pos p) = z) by (destruct (Z.ltb_spec z 0); lia). rewrite E.
  rewrite (proj2 (Z.leb_le _ _)), (proj2 (Z.ltb_lt _ _)) by lia. done.
Qed.

Lemma d_floor_Z z : exact z -> d_floor (d_of_Z z) = d_of_Z z.
Proof.
  intros Hz. destruct (decide (z = 0)) as [->|Nz]; [done|].
  destruct (d_of_Z_repr z Hz Nz) as (p & m & E & Ep & Dp & Mp). rewrite E. unfold d_floor.
  destruct (Z.leb_spec 0 (digs p - 53)); [done|]. rewrite <- E. f_equal.
  assert (H2 : 2 ^ (- (digs p - 53)) <> 0) by (apply Z.pow_nonzero; lia).
  destruct (Z.ltb_spec z 0).
  - replace (Z.neg m) with ((- Z.pos p) * 2 ^ (- (digs p - 53))) by lia. rewrite Z.div_mul by done. lia.
  - rewrite Mp, Z.div_mul by done. lia.
Qed.

(** A whole number against a fraction below one. *)
Lemma tenth_whole z : exact z ->
  d_gtb (d_abs (d_of_Z z)) (d_lit 1 10) = negb (z =? 0) /\ d_ltb (d_abs (d_of_Z z)) (d_lit 1 10) = (z =? 0).
Proof.
  intros Hz. rewrite d_abs_Z by done. destruct (decide (z = 0)) as [->|Nz]; [done|].
  rewrite (proj2 (Z.eqb_neq z 0)) by done.
  destruct (d_of_Z_repr (Z.abs z)) as (p & m & -> & Ep & Dp & Mp); [unfold exact in *; by rewrite Z.abs_idemp|lia|].
  rewrite (proj2 (Z.ltb_ge (Z.abs z) 0)) by lia. pose proof (digs_pos p).
  change (d_lit 1 10) with (S754_finite false 7205759403792794 (-56)).
  unfold d_gtb, d_ltb, SFltb, SFcompare. split.
  - by rewrite (proj2 (Z.compare_lt_iff (-56) (digs p - 53))) by lia.
  - by rewrite (proj2 (Z.compare_gt_iff (digs p - 53) (-56))) by lia.
Qed.
