(* ===== verification/LibPtp.v ===== *)
(** lib/net_drv_ptp.c: PTP devices and their clocks, and lib/net_drv_ethtool.c:
    the reset request and the tags of missing ethtool options. *)
From stdpp Require Import pretty.
From S2P Require Import Prelude Prog Te CString Double.

Definition NET_DRV_PTP_OFFS_MAX_DEV_FROM_AVG : double := d_lit 1 1000.
Definition NET_DRV_PTP_OFFS_MAX_DEV_FROM_GETTIME : double := d_lit 5 10.

Section ptp.
Context {TE : Te}.

(** The status, and the field [phc_index] of the structure. *)
Definition net_drv_get_ethtool_ts_info (rpcs : rcf_rpc_server) (if_name : string) : M (te_errno * Z) :=
  '(s, err) ← call (rpc_socket rpcs);
  if s <? 0 then mret (err, 0)
  else
    '(r, phc_index, err) ← call (rpc_ioctl_ts_info rpcs s if_name);
    let rc := te_errno_of_int r in
    let rc := if rc <? 0 then err else rc in
    _ ← rpc_ok (rpc_close rpcs s);
    mret (rc, phc_index).

Definition net_drv_open_ptp_device (rpcs : rcf_rpc_server) (phc_index flags : Z) : M (te_errno * Z) :=
  '(fd, err) ← call (rpc_open rpcs ("/dev/ptp" +:+ pretty phc_index) flags);
  if fd <? 0 then mret (err, fd) else mret (0, fd).

Definition net_drv_open_ptp_fd (rpcs : rcf_rpc_server) (if_name : string) (vpref : option string) : M Z :=
  let vpref := match vpref with
               | Some (String c v) => String c v +:+ ": "
               | _ => ""%string
               end in
  '(rc, phc_index) ← net_drv_get_ethtool_ts_info rpcs if_name;
  if negb (rc =? 0) then
    _ ← ERROR_VERDICT "%sioctl(SIOCETHTOOL/ETHTOOL_GET_TS_INFO) failed with error %r" [AS vpref; AI rc];
    TEST_STOP
  else if phc_index <? 0 then TEST_SKIP "%sPTP device index is not known" [AS vpref]
  else
    '(rc, fd) ← net_drv_open_ptp_device rpcs phc_index RPC_O_RDWR;
    if negb (rc =? 0) then TEST_VERDICT "%sfailed to open PTP device file, errno=%r" [AS vpref; AI rc]
    else mret fd.

Definition net_drv_is_ptp_supported (rpcs : rcf_rpc_server) (if_name : string) : M bool :=
  '(rc, phc_index) ← net_drv_get_ethtool_ts_info rpcs if_name;
  if negb (rc =? 0) then mret false
  else if phc_index <? 0 then mret false
  else
    '(rc, fd) ← net_drv_open_ptp_device rpcs phc_index RPC_O_RDONLY;
    if rc =? 0 then
      _ ← rpc_ok (rpc_close rpcs fd);
      mret true
    else mret false.

(** The differences are computed in [int64_t]. *)
Definition net_drv_timespec_diff (tsa tsb : timespec) : double :=
  let seconds := d_of_Z (tv_sec tsa - tv_sec tsb) in
  let nseconds := d_of_Z (tv_nsec tsa - tv_nsec tsb) in
  d_add seconds (d_div nseconds (d_of_Z 1000000000)).

Definition net_drv_ptp_clock_time_diff (tsa tsb : timespec) : double :=
  let seconds := d_of_Z (tv_sec tsa - tv_sec tsb) in
  let nseconds := d_of_Z (tv_nsec tsa - tv_nsec tsb) in
  d_add seconds (d_div nseconds (d_of_Z 1000000000)).

Definition net_drv_max_dev (values : list double) (target : double) : double :=
  fold_left (fun max_dev v =>
    let dev := d_abs (d_sub v target) in
    if d_gtb dev max_dev then dev else max_dev) values (d_of_Z 0).

Definition net_drv_ptp_offs_check_dev_avg (values : list double) (avg_diff : double) : M unit :=
  if d_gtb (net_drv_max_dev values avg_diff) NET_DRV_PTP_OFFS_MAX_DEV_FROM_AVG then
    WARN_VERDICT "Difference between pairs of timestamps changes significantly over array of samples" []
  else mret tt.

(** An RPC with one output, not preceded by [RPC_AWAIT_ERROR]. *)
Definition clock_gettime (rpcs : rcf_rpc_server) (is_fd : bool) (id : Z) : M timespec :=
  '(rc, ts, _) ← call (rpc_clock_gettime rpcs is_fd id);
  if rc <? 0 then raise RPC_FAILED else mret ts.

(** [clock_name]: [clock_id_rpc2str (sys_clock)]. *)
Definition net_drv_ptp_offs_check_dev_gettime (rpcs : rcf_rpc_server) (ptp_fd sys_clock : Z)
    (clock_name : string) (ptp_offs : double) : M unit :=
  ts_ptp ← clock_gettime rpcs true ptp_fd;
  ts_sys ← clock_gettime rpcs false sys_clock;
  let gettime_diff := net_drv_timespec_diff ts_ptp ts_sys in
  if d_gtb (d_abs (d_sub ptp_offs gettime_diff)) NET_DRV_PTP_OFFS_MAX_DEV_FROM_GETTIME then
    WARN_VERDICT "Offset relative to %s measured with ioctl() request differs too much from offset measured with help of clock_gettime() calls"
      [AS clock_name]
  else mret tt.
End ptp.

(** ** lib/net_drv_ethtool.c *)

Definition NET_DRV_ETHTOOL_MISS_OPT_TAG_PREFIX : string := "no-ethtool-opt-".

Definition net_drv_ethtool_test_opts : list string :=
  ["--statistics"; "--show-pause"; "--show-ring"; "--register-dump"; "--eeprom-dump";
   "--dump-module-eeprom"; "--show-eee"; "--show-fec"; "--show-module"]%string.

Section ethtool.
Context {TE : Te}.

(** [await]: the caller set [RPC_AWAIT_ERROR].  The value, the errno and the
    flags that were not cleared. *)
Definition net_drv_ethtool_reset (await : bool) (rpcs : rcf_rpc_server) (s : Z) (if_name : string)
    (flags : Z) : M (Z * te_errno * Z) :=
  name ← CHECK_OUT (call (te_snprintf if_name));
  '(rc, ret_flags, err) ← call (rpc_ioctl_reset rpcs s name flags);
  if negb await && (rc <? 0) then raise RPC_FAILED else mret (rc, err, ret_flags).

Definition net_drv_ethtool_get_help (rpcs : rcf_rpc_server) : M (te_errno * string) :=
  _ ← call (rpcs_set_silent rpcs true);
  '(status, (out0, out1)) ← call (rpc_shell_get_all3 rpcs "ethtool --help");
  r ← (if negb (ws_exited status) || negb (ws_value status =? 0) then mret (TE_EFAIL, ""%string)
       else mret (0, default "" out0 +:+ default "" out1)%string);
  _ ← call (rpcs_set_silent rpcs false);
  mret r.

(** [opt_name + 2]. *)
Definition skip2 (s : string) : string :=
  match s with String _ (String _ s') => s' | _ => ""%string end.

(** The loop over the options: [rc] of the last tag. *)
Fixpoint add_missing_tags (help_str : string) (opts : list string) (rc : te_errno) : M te_errno :=
  match opts with
  | [] => mret rc
  | opt_name :: opts' =>
      if strstr_found help_str opt_name then add_missing_tags help_str opts' rc
      else
        rc ← call (tapi_tags_add_tag (NET_DRV_ETHTOOL_MISS_OPT_TAG_PREFIX +:+ skip2 opt_name) None);
        if negb (rc =? 0) then mret rc else add_missing_tags help_str opts' rc
  end.

Definition net_drv_add_missing_ethtool_opt_tags (rpcs : rcf_rpc_server) : M te_errno :=
  '(rc, help_str) ← net_drv_ethtool_get_help rpcs;
  if negb (rc =? 0) then mret rc else add_missing_tags help_str net_drv_ethtool_test_opts rc.
End ethtool.

(** ** Descriptors *)
Section descriptors.
Context {TE : Te}.

(** What is open, and the last answers about the PTP device. *)
Record ptp_state := PtpState { pt_fds : list (rcf_rpc_server * Z); pt_phc : option Z; pt_dev : option Z }.

Definition pt_close (x : rcf_rpc_server * Z) (g : ptp_state) : ptp_state :=
  PtpState (filter (fun y => y <> x) (pt_fds g)) (pt_phc g) (pt_dev g).

Definition pt_upd X (c : te_call X) : X -> ptp_state -> ptp_state :=
  match c in te_call X return X -> ptp_state -> ptp_state with
  | rpc_socket r => fun x g =>
      if fst x <? 0 then g else PtpState ((r, fst x) :: pt_fds g) (pt_phc g) (pt_dev g)
  | rpc_open r _ _ => fun x g =>
      if fst x <? 0 then PtpState (pt_fds g) (pt_phc g) None
      else PtpState ((r, fst x) :: pt_fds g) (pt_phc g) (Some (fst x))
  | rpc_close r fd => fun _ => pt_close (r, fd)
  | rpc_ioctl_ts_info _ _ _ => fun x g =>
      PtpState (pt_fds g) (if fst (fst x) =? 0 then Some (snd (fst x)) else None) (pt_dev g)
  | _ => fun _ g => g
  end.

(** Documented behaviour: a new descriptor is not an open one, a call that
    fails sets errno, and the request answers zero or -1. *)
Definition pt_ok X (c : te_call X) : ptp_state -> X -> Prop :=
  match c in te_call X return ptp_state -> X -> Prop with
  | rpc_socket r => fun g x => if fst x <? 0 then snd x <> 0 else (r, fst x) ∉ pt_fds g
  | rpc_open r _ _ => fun g x => if fst x <? 0 then snd x <> 0 else (r, fst x) ∉ pt_fds g
  | rpc_ioctl_ts_info _ _ _ => fun _ x => fst (fst x) = 0 \/ (fst (fst x) = -1 /\ snd x <> 0)
  | _ => fun _ _ => True
  end.

Definition pt_world : env te_call ptp_state := watch_if pt_ok pt_upd.

Lemma close_new (x : rcf_rpc_server * Z) l : x ∉ l -> filter (fun y => y <> x) (x :: l) = l.
Proof.
  intros Hx. rewrite filter_cons_False by tauto. apply filter_all. apply list.Forall_forall. intros y Hy ->. done.
Qed.

Lemma ts_info_wp r ifn fds dev :
  wp pt_world (net_drv_get_ethtool_ts_info r ifn) (PtpState fds None dev) (fun res g => match res with
    | Val (rc, n) => g = PtpState fds (if rc =? 0 then Some n else None) dev
    | Exc j => j = RPC_FAILED /\ pt_fds g = fds
    | _ => False
    end).
Proof.
  unfold net_drv_get_ethtool_ts_info. wp_go; cbn [pt_ok pt_upd fst snd pt_fds pt_phc pt_dev pt_close] in *;
    rewrite ?Heqb in *; unfold pt_close; cbn [pt_fds pt_phc pt_dev] in *; rewrite ?close_new by done.
  - by rewrite (proj2 (Z.eqb_neq t 0)) by done.
  - done.
  - f_equal. destruct H0 as [->|[-> Herr]].
    + by rewrite te_errno_of_int_id by lia.
    + assert (Hne : (if te_errno_of_int (-1) <? 0 then t0 else te_errno_of_int (-1)) <> 0).
      { destruct (te_errno_of_int (-1) <? 0); [done|apply te_errno_of_int_neg]. }
      by rewrite (proj2 (Z.eqb_neq _ 0) Hne).
Qed.

(** [net_drv_is_ptp_supported] says yes exactly when the driver answers
    the request with a device index and the device can be opened; it closes
    every descriptor it opens, however it ends. *)
Theorem is_ptp_supported_correct r ifn fds :
  wp pt_world (net_drv_is_ptp_supported r ifn) (PtpState fds None None) (fun res g => match res with
    | Val b => pt_fds g = fds /\
        (b = true <-> exists n fd, pt_phc g = Some n /\ 0 <= n /\ pt_dev g = Some fd)
    | Exc j => j = RPC_FAILED /\ pt_fds g = fds
    | _ => False
    end).
Proof.
  unfold net_drv_is_ptp_supported. wp_go. eapply wp_mono; [apply ts_info_wp|].
  intros [[rc n]|j| |] g H; cbn [bpost]; try done. subst g.
  destruct (rc =? 0) eqn:Erc; cbn [negb].
  2:{ wp_go. split; [done|]. split; [done|]. by intros (? & ? & ? & ?). }
  destruct (Z.ltb_spec n 0) as [Hn|Hn].
  { wp_go. split; [done|]. split; [done|]. intros (m & fd & E & ? & ?). injection E as <-. lia. }
  unfold net_drv_open_ptp_device. wp_go; cbn [pt_ok pt_upd fst snd pt_fds pt_phc pt_dev] in *; rewrite ?Heqb in *;
    cbn [Z.eqb] in *; autorewrite with zbool in *; try done; unfold pt_close; cbn [pt_fds pt_phc pt_dev];
    rewrite ?close_new by done.
  - split; [done|]. split; [done|]. by intros (? & ? & ? & ? & ?).
  - done.
  - split; [done|]. split; [|done]. intros _. by exists n, z.
Qed.

(** When the request fails with -1, its errno is not what is returned: the
    value was assigned to an unsigned [te_errno] before it is compared with
    zero. *)
Lemma ts_info_loses_errno r ifn fds :
  0 <= te_errno_of_int (-1) ->
  wp (watch_if (fun X (c : te_call X) (s : ptp_state) x => pt_ok X c s x /\
        match c in te_call X return X -> Prop with
        | rpc_ioctl_ts_info _ _ _ => fun x => fst (fst x) = -1
        | rpc_socket _ => fun x => 0 <= fst x
        | _ => fun _ => True
        end x) pt_upd) (net_drv_get_ethtool_ts_info r ifn) (PtpState fds None None)
    (fun res _ => match res with Val (rc, _) => rc = te_errno_of_int (-1) | Exc _ => True | _ => False end).
Proof.
  intros Hneg. unfold net_drv_get_ethtool_ts_info. wp_go; cbn [fst snd] in *; autorewrite with zbool in *; try done.
  - destruct H as [_ H]. lia.
  - destruct H0 as [_ ->]. by rewrite (proj2 (Z.ltb_ge (te_errno_of_int (-1)) 0)).
Qed.
End descriptors.
