(* ===== verification/Prologue.v ===== *)
(** prologue.c: the preparation of a run of the suite: kernel modules,
    addresses, and the TRC tags that describe the hosts. *)
From stdpp Require Import pretty.
From S2P Require Import Prelude Prog Te CString NetDrvTs LibPtp.

Definition NET_DRV_X3_DRIVER_NAME : string := "xilinx_efct".

(** [*s == NULL || *s == 0]. *)
Definition te_str_is_null_or_empty (s : option string) : bool :=
  match s with Some (String _ _) => false | _ => true end.

Section prologue.
Context {TE : Te}.

(** ** Modules *)

(** The modules of driver [driver] that is reloaded; [net_driver]: its network
    part. *)
Definition add_modules (ta driver net_driver : string) : M te_errno :=
  if has_prefix "sfc" driver then call (tapi_cfg_module_add_from_ta_dir_or_fallback ta "sfc" true)
  else if String.eqb NET_DRV_X3_DRIVER_NAME driver then
    _ ← call (tapi_cfg_module_add_from_ta_dir ta "auxiliary" true);
    call (tapi_cfg_module_add_from_ta_dir ta NET_DRV_X3_DRIVER_NAME true)
  else
    OK call (tapi_cfg_module_add_from_ta_dir_or_fallback ta driver false) ;;
    if negb (String.eqb driver net_driver)
    then call (tapi_cfg_module_add_from_ta_dir_or_fallback ta net_driver false)
    else mret 0.

Definition load_required_modules (ta : string) : M te_errno :=
  '(rc, driver) ← call (tapi_cfg_pci_get_ta_driver ta);
  if negb (rc =? 0) then mret rc
  else match driver with
       | None => mret rc
       | Some driver =>
           rc ← call (tapi_cfg_module_add ta driver false);
           unloadable ← if rc =? 0 then net_drv_driver_unloadable ta driver else mret true;
           if negb unloadable then mret 0
           else
             net_driver ← net_drv_driver_name ta;
             match net_driver with
             | None => undef "strcmp(driver, NULL)"
             | Some net_driver => add_modules ta driver net_driver
             end
       end.

Definition disable_fw_lldp (agent iface : string) : M te_errno :=
  rc ← call (tapi_cfg_if_priv_flag_set agent iface "disable-fw-lldp" true);
  if negb (rc =? 0) && negb (rc =? TE_RC TE_CS TE_ENOENT) then
    TEST_VERDICT "Attempt to disable FW LLDP on TA %s interface %s using private flag failed unexpectedly: %r"
      [AS agent; AS iface; AI rc]
  else mret 0.

(** ** Tags *)
Definition add_driver_tag (ta prefix : string) : M te_errno :=
  '(rc, drv_name) ← call (tapi_cfg_pci_get_ta_driver ta);
  if negb (rc =? 0) then mret rc
  else if negb (te_str_is_null_or_empty drv_name) then
    call (tapi_tags_add_tag (prefix +:+ default "" drv_name) None)
  else mret rc.

Definition get_phy_local_param (ta param : string) : M (te_errno * option string) :=
  '(rc, value) ← call (cfg_get_instance_string ("/local:" +:+ ta +:+ "/phy:/" +:+ param +:+ ":"));
  if negb (rc =? 0) then
    if negb (rc =? TE_RC TE_CS TE_ENOENT) then mret (rc, None) else mret (0, None)
  else mret (0, Some value).

Definition add_tun_support_tag (rpcs : rcf_rpc_server) (prefix : string) : M te_errno :=
  '(fd, rc) ← call (rpc_open rpcs "/dev/net/tun" RPC_O_RDWR);
  if 0 <=? fd then
    _ ← rpc_ok (rpc_close rpcs fd);
    mret 0
  else if (rc =? RPC_ENOENT) || (rc =? RPC_ENODEV) || (rc =? RPC_EOPNOTSUPP) then
    OK call (tapi_tags_add_tag (prefix +:+ "no-tun") None) ;;
    mret 0
  else mret rc.

(** One of the three tags of [add_local_phy_tags]. *)
Definition add_phy_tag (id unknown : Z) (tag : string) : M unit :=
  when (negb (id =? unknown)) (CHECK_RC (call (tapi_tags_add_tag tag None))).

Definition add_local_phy_tags (ta prefix : string) : M unit :=
  autoneg_str ← CHECK_OUT (get_phy_local_param ta "autoneg");
  duplex_str ← CHECK_OUT (get_phy_local_param ta "duplex");
  speed_str ← CHECK_OUT (get_phy_local_param ta "speed");
  autoneg ← net_drv_ts_phy_autoneg_str2id autoneg_str;
  duplex ← net_drv_ts_phy_duplex_str2id duplex_str;
  speed ← net_drv_ts_phy_speed_str2id speed_str;
  _ ← add_phy_tag autoneg TE_PHY_AUTONEG_UNKNOWN (prefix +:+ "phy-autoneg-" +:+ default "" autoneg_str);
  _ ← add_phy_tag duplex TE_PHY_DUPLEX_UNKNOWN (prefix +:+ "phy-duplex-" +:+ default "" duplex_str);
  add_phy_tag speed TE_PHY_SPEED_UNKNOWN (prefix +:+ "phy-speed-" +:+ default "" speed_str +:+ "Mbps").

Definition prepare_ipv6 : M unit :=
  rc ← call tapi_cfg_net_enable_ipv6_support;
  if negb (rc =? 0) then
    let err := TE_RC_GET_ERROR rc in
    if (err =? TE_ENOENT) || (err =? TE_ENOSYS) || (err =? TE_EOPNOTSUPP) then
      _ ← RING_VERDICT "IPv6 is not supported" [];
      CHECK_RC (call (tapi_reqs_modify "!IP6"))
    else raise (RC_FAILED rc)
  else CHECK_RC (call (tapi_cfg_net_all_assign_ip AF_INET6)).

Definition add_cpus_tag (ta prefix : string) : M unit :=
  cpus ← CHECK_OUT (call (tapi_cfg_get_all_threads ta));
  CHECK_RC (call (tapi_tags_add_tag (prefix +:+ "-cpus") (Some (pretty cpus)))).

(** ** PCI functions and ports *)
Definition dbdf := (Z * Z * Z)%type.

(** The PCI function is a physical one of the device at [addr]. *)
Definition pf_at (addr : dbdf) (oid : string) : M bool :=
  '(rc, a) ← call (tapi_cfg_pci_get_dbdf oid);
  if negb (rc =? 0) || negb (bool_decide (a = addr)) then mret false
  else
    '(rc, is_pf) ← call (tapi_cfg_pci_is_pf oid);
    mret (negb (negb (rc =? 0) || negb is_pf)).

(** A loop that adds to a counter. *)
Fixpoint count_all {A} (l : list A) (n : Z) (f : A -> M Z) : M Z :=
  match l with
  | [] => mret n
  | x :: l' => k ← f x; count_all l' (u32 (n + k)) f
  end.

Definition pci_device_pf_count_by_driver (ta if_pci_oid : string) (addr : dbdf) : M Z :=
  '(rc, net_driver) ← call (tapi_cfg_pci_get_driver if_pci_oid);
  if negb (rc =? 0) then mret 0
  else if te_str_is_null_or_empty net_driver then mret 0
  else
    '(rc, drv_pci_oids) ← call (tapi_cfg_pci_devices_by_driver ta (default "" net_driver));
    if negb (rc =? 0) then mret 0
    else count_all drv_pci_oids 0 (fun oid => b ← pf_at addr oid; mret (if (b : bool) then 1 else 0)).

Definition pci_port_is_active (ta if_name : string) : M (te_errno * bool) :=
  rc ← call (tapi_cfg_base_if_await_link_up ta if_name);
  if rc =? 0 then mret (0, true)
  else if TE_RC_GET_ERROR rc =? TE_ETIMEDOUT then mret (0, false)
  else mret (rc, false).

Definition pci_pf_active_port_count (ta pci_oid : string) : M Z :=
  '(rc, port_handles) ← call (cfg_find_pattern (pci_oid +:+ "/net:*"));
  if negb (rc =? 0) || bool_decide (port_handles = []) then mret 0
  else count_all port_handles 0 (fun h =>
    '(rc, port_if_name) ← call (cfg_get_instance_str h);
    if negb (rc =? 0) then mret 0
    else
      '(rc, is_active) ← pci_port_is_active ta port_if_name;
      mret (if (rc =? 0) && is_active then 1 else 0)).

Definition pci_device_active_port_count (ta : string) (addr : dbdf) : M Z :=
  '(rc, dev_handles) ← call (cfg_find_pattern ("/agent:" +:+ ta +:+ "/hardware:/pci:/device:*"));
  if negb (rc =? 0) then mret 0
  else count_all dev_handles 0 (fun h =>
    '(rc, dev_oid) ← call (cfg_get_oid_str h);
    if negb (rc =? 0) then mret 0
    else
      b ← pf_at addr dev_oid;
      if (b : bool) then pci_pf_active_port_count ta dev_oid else mret 0).

Definition add_pci_device_count_tags (ta if_name : string) : M unit :=
  '(rc, if_pci_oid) ← call (tapi_cfg_pci_oid_by_net_if ta if_name);
  if negb (rc =? 0) then mret tt
  else
    '(rc, addr) ← call (tapi_cfg_pci_get_dbdf if_pci_oid);
    if negb (rc =? 0) then mret tt
    else
      pf_count ← pci_device_pf_count_by_driver ta if_pci_oid addr;
      active_port_count ← pci_device_active_port_count ta addr;
      _ ← when (0 <? pf_count) (CHECK_RC (call (tapi_tags_add_tag "pf-count" (Some (pretty pf_count)))));
      when (0 <? active_port_count)
        (CHECK_RC (call (tapi_tags_add_tag "active-port-count" (Some (pretty active_port_count))))).

(** ** The body of [main] *)

(** [CHECK_RC] of a call whose failure has a verdict of its own. *)
Definition or_verdict (c : te_call te_errno) (fmt : string) (args : te_errno -> list arg) : M unit :=
  rc ← call c; if negb (rc =? 0) then TEST_VERDICT fmt (args rc) else mret tt.

(** TAPI's loops over the agents, and over the interfaces of the network nodes. *)
Context (rcf_foreach_ta : (string -> M te_errno) -> M te_errno).
Context (tapi_cfg_net_foreach_node : (string -> string -> M te_errno) -> M te_errno).

Definition prologue_network : M unit :=
  _ ← CHECK_RC (call tapi_expand_path_all_ta);
  _ ← or_verdict tapi_cfg_net_remove_empty "Failed to remove /net instances with empty interfaces" (fun _ => []);
  _ ← or_verdict tapi_cfg_net_reserve_all
        "Failed to reserve all interfaces mentioned in networks configuration: %r" (fun rc => [AI rc]);
  _ ← CHECK_RC (rcf_foreach_ta load_required_modules);
  _ ← or_verdict (tapi_cfg_net_bind_driver_by_node NET_NODE_TYPE_AGENT)
        "Failed to bind net driver on agent net node" (fun _ => []);
  _ ← or_verdict (tapi_cfg_net_bind_driver_by_node NET_NODE_TYPE_NUT)
        "Failed to bind net driver on nut net node" (fun _ => []);
  _ ← call CFG_WAIT_CHANGES;
  _ ← CHECK_RC (call (cfg_synchronize "/:" true));
  _ ← CHECK_RC (call tapi_cfg_net_nodes_update_pci_fn_to_interface);
  _ ← CHECK_RC (call tapi_cfg_net_all_up);
  _ ← CHECK_RC (call tapi_cfg_net_delete_all_ip4_addresses);
  _ ← CHECK_RC (call (tapi_cfg_net_all_assign_ip AF_INET));
  _ ← prepare_ipv6;
  _ ← CHECK_RC (tapi_cfg_net_foreach_node disable_fw_lldp);
  _ ← call CFG_WAIT_CHANGES;
  _ ← CHECK_RC (call (cfg_synchronize "/:" true));
  CHECK_RC (call (cfg_tree_print "/:")).

(** After the environment was processed: links and tags. *)
Definition prologue_tags (iut tst : rcf_rpc_server) (iut_if tst_if : string) : M unit :=
  _ ← CHECK_RC (net_drv_set_phy_link (rpcs_ta iut) iut_if);
  _ ← CHECK_RC (net_drv_set_phy_link (rpcs_ta tst) tst_if);
  _ ← net_drv_wait_up_gen (rpcs_ta iut) iut_if false;
  _ ← net_drv_wait_up_gen (rpcs_ta tst) tst_if false;
  _ ← CHECK_RC (call (cfg_synchronize "/:" true));
  _ ← CHECK_RC (call (cfg_tree_print "/:"));
  _ ← CHECK_RC (call (tapi_tags_add_linux_mm (rpcs_ta iut)));
  _ ← CHECK_RC (add_driver_tag (rpcs_ta iut) "");
  _ ← CHECK_RC (add_driver_tag (rpcs_ta tst) "peer-");
  _ ← CHECK_RC (add_tun_support_tag iut "iut-");
  _ ← CHECK_RC (add_tun_support_tag tst "tst-");
  _ ← CHECK_RC (net_drv_add_missing_ethtool_opt_tags iut);
  iut_ptp ← net_drv_is_ptp_supported iut iut_if;
  _ ← when (negb iut_ptp) (CHECK_RC (call (tapi_tags_add_tag "iut-no-ptp" None)));
  tst_ptp ← net_drv_is_ptp_supported tst tst_if;
  _ ← when (negb tst_ptp) (CHECK_RC (call (tapi_tags_add_tag "tst-no-ptp" None)));
  _ ← CHECK_RC (call (tapi_tags_add_firmwareversion_tag (rpcs_ta iut) iut_if));
  _ ← CHECK_RC (call (tapi_tags_add_net_pci_tags (rpcs_ta iut) iut_if));
  _ ← add_pci_device_count_tags (rpcs_ta iut) iut_if;
  _ ← CHECK_RC (call (tapi_tags_add_phy_tags (rpcs_ta iut) iut_if (rpcs_ta tst) tst_if));
  _ ← add_local_phy_tags (rpcs_ta iut) "iut-";
  _ ← add_local_phy_tags (rpcs_ta tst) "tst-";
  iut_drv_name ← net_drv_driver_name (rpcs_ta iut);
  iut_drv_name ← match iut_drv_name with Some n => mret n | None => raise IS_NULL end;
  unloadable ← net_drv_driver_unloadable (rpcs_ta iut) iut_drv_name;
  _ ← when (negb unloadable) (CHECK_RC (call (tapi_tags_add_tag "net-drv-shared" None)));
  rx_queues ← CHECK_OUT (call (tapi_cfg_if_rss_rx_queues_get (rpcs_ta iut) iut_if));
  _ ← CHECK_RC (call (tapi_tags_add_tag "rx-queues" (Some (pretty rx_queues))));
  combined_max ← CHECK_OUT (call (tapi_cfg_if_chan_max_get (rpcs_ta iut) iut_if TAPI_CFG_IF_CHAN_COMBINED));
  _ ← CHECK_RC (call (tapi_tags_add_tag "max-combined-channels" (Some (pretty combined_max))));
  _ ← add_cpus_tag (rpcs_ta iut) "iut";
  add_cpus_tag (rpcs_ta tst) "tst".

Definition prologue_main (iut tst : rcf_rpc_server) (iut_if tst_if : string) : M unit :=
  _ ← prologue_network; prologue_tags iut tst iut_if tst_if.
End prologue.

(** ** What the counts are *)

(** The answers of the configurator about PCI functions and their ports. *)
Record pci_conf := PciConf {
  pc_find : string -> te_errno * list cfg_handle; pc_oid : cfg_handle -> te_errno * string;
  pc_name : cfg_handle -> te_errno * string; pc_dbdf : string -> te_errno * dbdf;
  pc_is_pf : string -> te_errno * bool; pc_link : string -> te_errno;
  pc_net_if : string -> te_errno * string; pc_driver : string -> te_errno * option string;
  pc_by_driver : string -> te_errno * list string }.

Section counts.
Context {TE : Te}.
Context (cf : pci_conf) (ta : string).

(** The tags added so far are watched; adding one may fail. *)
Definition conf_ok X (c : te_call X) : list (string * option string) -> X -> Prop :=
  match c in te_call X return list (string * option string) -> X -> Prop with
  | cfg_find_pattern p => fun _ x => x = pc_find cf p
  | cfg_get_oid_str h => fun _ x => x = pc_oid cf h
  | cfg_get_instance_str h => fun _ x => x = pc_name cf h
  | tapi_cfg_pci_get_dbdf oid => fun _ x => x = pc_dbdf cf oid
  | tapi_cfg_pci_is_pf oid => fun _ x => x = pc_is_pf cf oid
  | tapi_cfg_base_if_await_link_up _ ifn => fun _ x => x = pc_link cf ifn
  | tapi_cfg_pci_oid_by_net_if _ ifn => fun _ x => x = pc_net_if cf ifn
  | tapi_cfg_pci_get_driver oid => fun _ x => x = pc_driver cf oid
  | tapi_cfg_pci_devices_by_driver _ d => fun _ x => x = pc_by_driver cf d
  | _ => fun _ _ => True
  end.
Definition conf_upd X (c : te_call X) : X -> list (string * option string) -> list (string * option string) :=
  match c in te_call X return X -> list (string * option string) -> list (string * option string) with
  | tapi_tags_add_tag n v => fun rc g => if rc =? 0 then g ++ [(n, v)] else g
  | _ => fun _ g => g
  end.
Definition conf : env te_call (list (string * option string)) := watch_if conf_ok conf_upd.

(** An answer is used when its status is zero. *)
Definition got {A} (r : te_errno * A) : option A := if r.1 =? 0 then Some r.2 else None.

(** Physical functions of the device; ports of a function that are up. *)
Definition is_pf_at (addr : dbdf) (oid : string) : bool :=
  match got (pc_dbdf cf oid) with
  | Some a => bool_decide (a = addr) && default false (got (pc_is_pf cf oid))
  | None => false
  end.
Definition port_up (h : cfg_handle) : bool :=
  match got (pc_name cf h) with Some ifn => pc_link cf ifn =? 0 | None => false end.
Definition ports_up (oid : string) : nat :=
  length (filter (fun h => port_up h = true) (default [] (got (pc_find cf (oid +:+ "/net:*"))))).

(** The numbers the tags should have. *)
Definition pf_number (if_oid : string) (addr : dbdf) : nat :=
  match got (pc_driver cf if_oid) with
  | Some (Some (String c d)) =>
      length (filter (fun oid => is_pf_at addr oid = true) (default [] (got (pc_by_driver cf (String c d)))))
  | _ => O
  end.
Definition active_number (addr : dbdf) : nat :=
  sum_list (map (fun h => match got (pc_oid cf h) with
                          | Some oid => if is_pf_at addr oid then ports_up oid else O
                          | None => O
                          end)
    (default [] (got (pc_find cf ("/agent:" +:+ ta +:+ "/hardware:/pci:/device:*"))))).

(** A program that only looks: it answers [a] and adds no tag. *)
Definition yields {A} (p : M A) (a : A) : Prop :=
  forall g, wp conf p g (fun r g' => r = Val a /\ g' = g).

Lemma yields_bind {A B} (p : M A) (f : A -> M B) a b : yields p a -> yields (f a) b -> yields (p ≫= f) b.
Proof.
  intros Hp Hf g. apply wp_bind. eapply wp_mono; [apply Hp|]. intros r g' [-> ->]. apply Hf.
Qed.
Lemma yields_ret {A} (a : A) : yields (mret a) a.
Proof. by intros g. Qed.
Lemma yields_call {X} (c : te_call X) x :
  (forall g y, conf_ok X c g y -> y = x) -> (forall y g, conf_upd X c y g = g) -> yields (call c) x.
Proof.
  intros Hok Hupd g. apply wp_call. intros y s' [Hy ->]. by rewrite (Hok _ _ Hy), Hupd.
Qed.

Lemma yields_count {A} (l : list A) n f k : (forall x, yields (f x) (k x)) -> 0 <= n < 2 ^ 32 ->
  yields (count_all l n f) (u32 (n + foldr Z.add 0 (map k l))).
Proof.
  intros Hf. revert n. induction l as [|x l IH]; intros n Hn; cbn [count_all map foldr].
  - rewrite Z.add_0_r, u32_id by done. apply yields_ret.
  - eapply yields_bind; [apply Hf|]. rewrite Z.add_assoc, <- (u32_add_l (n + k x)). apply IH, u32_range.
Qed.
End counts.

(** Use the answer of a call, and go on. *)
Ltac yields_call := eapply yields_bind; [apply yields_call; [by intros g y H|done]|].

Section count_facts.
Context {TE : Te}.
Context (cf : pci_conf) (ta : string).

Lemma pf_at_yields addr oid : yields cf (pf_at addr oid) (is_pf_at cf addr oid).
Proof.
  unfold pf_at, is_pf_at, got. yields_call. destruct (pc_dbdf cf oid) as [rc a]. cbn [fst snd].
  destruct (rc =? 0); cbn [negb orb]; [|apply yields_ret].
  destruct (bool_decide (a = addr)); cbn [negb andb]; [|apply yields_ret].
  yields_call. destruct (pc_is_pf cf oid) as [rc' b]. cbn [fst snd].
  destruct (rc' =? 0), b; apply yields_ret.
Qed.

Lemma count_filter {A} (P : A -> bool) (l : list A) :
  0 + foldr Z.add 0 (map (fun x => if P x then 1 else 0) l) = Z.of_nat (length (filter (fun x => P x = true) l)).
Proof.
  induction l as [|x l IH]; [done|]. cbn [map foldr]. destruct (P x) eqn:E.
  - rewrite filter_cons_True by done. cbn [length]. lia.
  - rewrite filter_cons_False by congruence. lia.
Qed.

Lemma ports_up_yields oid : yields cf (pci_pf_active_port_count ta oid) (u32 (Z.of_nat (ports_up cf oid))).
Proof.
  unfold pci_pf_active_port_count, ports_up, got. yields_call.
  destruct (pc_find cf _) as [rc hs]. cbn [fst snd].
  destruct (rc =? 0); cbn [negb orb]; [|apply yields_ret].
  destruct (bool_decide_reflect (hs = [])) as [->|_]; [apply yields_ret|]. cbn [default].
  set (k h := if port_up cf h then 1 else 0).
  replace (Z.of_nat (length (filter (fun h => port_up cf h = true) hs))) with (0 + foldr Z.add 0 (map k hs)).
  - apply yields_count; [|done]. intros h. unfold k, port_up, got. yields_call.
    destruct (pc_name cf h) as [rc' ifn]. cbn [fst snd]. destruct (rc' =? 0); cbn [negb]; [|apply yields_ret].
    unfold pci_port_is_active. eapply yields_bind with (a := (if pc_link cf ifn =? 0 then (0, true)
      else if TE_RC_GET_ERROR (pc_link cf ifn) =? TE_ETIMEDOUT then (0, false) else (pc_link cf ifn, false))).
    + yields_call. destruct (_ =? 0); [apply yields_ret|]. destruct (_ =? TE_ETIMEDOUT); apply yields_ret.
    + destruct (pc_link cf ifn =? 0); [apply yields_ret|].
      destruct (_ =? TE_ETIMEDOUT); cbn beta iota; rewrite andb_false_r; apply yields_ret.
  - apply count_filter.
Qed.

Lemma pf_number_yields if_oid addr :
  yields cf (pci_device_pf_count_by_driver ta if_oid addr) (u32 (Z.of_nat (pf_number cf if_oid addr))).
Proof.
  unfold pci_device_pf_count_by_driver, pf_number, got. yields_call.
  destruct (pc_driver cf if_oid) as [rc d]. cbn [fst snd].
  destruct (rc =? 0); cbn [negb]; [|apply yields_ret].
  destruct d as [[|c d]|]; cbn [te_str_is_null_or_empty]; [apply yields_ret| |apply yields_ret].
  change (default ""%string (Some (String c d))) with (String c d).
  yields_call. destruct (pc_by_driver cf (String c d)) as [rc' oids]. cbn [fst snd].
  destruct (rc' =? 0); cbn [negb default]; [|apply yields_ret].
  set (k oid := if is_pf_at cf addr oid then 1 else 0).
  replace (Z.of_nat (length (filter (fun oid => is_pf_at cf addr oid = true) oids))) with (0 + foldr Z.add 0 (map k oids)).
  - apply yields_count; [|done]. intros oid. eapply yields_bind; [apply pf_at_yields|apply yields_ret].
  - apply count_filter.
Qed.

Lemma active_number_yields addr :
  yields cf (pci_device_active_port_count ta addr) (u32 (Z.of_nat (active_number cf ta addr))).
Proof.
  unfold pci_device_active_port_count, active_number. yields_call. unfold got at 2.
  destruct (pc_find cf _) as [rc hs]. cbn [fst snd].
  destruct (rc =? 0); cbn [negb default]; [|apply yields_ret].
  set (num h := match got (pc_oid cf h) with Some oid => if is_pf_at cf addr oid then ports_up cf oid else O | None => O end).
  enough (H : forall n, 0 <= n < 2 ^ 32 -> yields cf (count_all hs n (fun h =>
      '(rc, dev_oid) ← call (cfg_get_oid_str h);
      if negb (rc =? 0) then mret 0
      else b ← pf_at addr dev_oid; if (b : bool) then pci_pf_active_port_count ta dev_oid else mret 0))
    (u32 (n + Z.of_nat (sum_list (map num hs))))) by by apply (H 0).
  intros n Hn. replace (u32 (n + Z.of_nat (sum_list (map num hs))))
    with (u32 (n + foldr Z.add 0 (map (fun h => u32 (Z.of_nat (num h))) hs))).
  - apply yields_count; [|done]. intros h. unfold num, got. yields_call.
    destruct (pc_oid cf h) as [rc' oid]. cbn [fst snd]. destruct (rc' =? 0); cbn [negb]; [|apply yields_ret].
    eapply yields_bind; [apply pf_at_yields|]. destruct (is_pf_at cf addr oid); [apply ports_up_yields|apply yields_ret].
  - clear Hn. revert n. induction hs as [|h hs IH]; intros n; [done|]. cbn [map foldr].
    change (sum_list (num h :: map num hs)) with (num h + sum_list (map num hs))%nat.
    rewrite Nat2Z.inj_add, !Z.add_assoc, <- IH.
    change (id (num h)) with (num h). set (f := foldr _ _ _). set (k := Z.of_nat (num h)).
    replace (n + u32 k + f) with (u32 k + (n + f)) by lia. rewrite u32_add_l. f_equal. lia.
Qed.

(** The tags of the interface. *)
Definition count_tag (name : string) (n : nat) : list (string * option string) :=
  if 0 <? u32 (Z.of_nat n) then [(name, Some (pretty (u32 (Z.of_nat n))))] else [].
Definition count_tags (if_name : string) : list (string * option string) :=
  match got (pc_net_if cf if_name) with
  | Some oid =>
      match got (pc_dbdf cf oid) with
      | Some addr => count_tag "pf-count" (pf_number cf oid addr) ++
                     count_tag "active-port-count" (active_number cf ta addr)
      | None => []
      end
  | None => []
  end.

(** The tags of an interface give the number of physical PCI functions of
    its device that its driver has, and the number of ports of that device whose
    link is up, whatever answers fail on the way: a function or port whose
    address, kind, name or link cannot be read is not counted, a number that is
    zero gives no tag, and no other tag is added. *)
Theorem pci_count_tags_correct if_name tags :
  wp (conf cf) (add_pci_device_count_tags ta if_name) tags (fun r g => match r with
    | Val _ => g = tags ++ count_tags if_name
    | Exc _ => exists l t, count_tags if_name = l ++ t /\ g = tags ++ l /\ t <> []
    | _ => False
    end).
Proof.
  unfold add_pci_device_count_tags, count_tags, got. apply wp_bind, wp_call. intros x g [Hx ->]. cbn in Hx. subst x.
  cbn [bpost]. destruct (pc_net_if cf if_name) as [rc oid]. cbn [fst snd].
  destruct (rc =? 0); cbn [negb]; [|cbn; by rewrite app_nil_r].
  apply wp_bind, wp_call. intros x g [Hx ->]. cbn in Hx. subst x. cbn [bpost].
  destruct (pc_dbdf cf oid) as [rc' addr]. cbn [fst snd].
  destruct (rc' =? 0); cbn [negb]; [|cbn; by rewrite app_nil_r].
  apply wp_bind. eapply wp_mono; [apply pf_number_yields|]. intros r g [-> ->]. cbn [bpost].
  apply wp_bind. eapply wp_mono; [apply active_number_yields|]. intros r g [-> ->]. cbn [bpost].
  unfold count_tag. set (n1 := u32 (Z.of_nat (pf_number _ _ _))). set (n2 := u32 (Z.of_nat (active_number _ _ _))).
  change (conf_upd _ _ _ _) with tags.
  destruct (0 <? n1), (0 <? n2); wp_go; cbn [conf_upd]; rewrite ?Heqb, ?Heqb0; cbn [app];
    rewrite ?app_nil_r, <- ?app_assoc; try done.
  1: by exists [("pf-count"%string, Some (pretty n1))], [("active-port-count"%string, Some (pretty n2))].
  all: eexists [], _; split; [done|]; split; [by rewrite app_nil_r|done].
Qed.
End count_facts.

(** ** The driver read twice *)
Section driver.
Context {TE : Te}.

(** The driver is read, may be unloaded, and cannot be read again. *)
Definition second_read_fails (d : string) : handler te_call nat := fun X c n =>
  match c in te_call X return X * nat with
  | tapi_cfg_pci_get_ta_driver _ =>
      match n with
      | O => ((0, Some d), 1%nat)
      | S _ => ((TE_RC TE_CS TE_ENOENT, None), S n)
      end
  | getenv _ => (Some "yes"%string, n)
  | c => (default_answer c, n)
  end.

(** [load_required_modules] then passes a null pointer to [strcmp]. *)
Lemma load_required_modules_null ta d :
  (run (second_read_fails d) (load_required_modules ta) O).1 = Undef "strcmp(driver, NULL)".
Proof.
  assert (H : (TE_RC TE_CS TE_ENOENT =? 0) = false) by (apply Z.eqb_neq; auto with te).
  unfold load_required_modules, net_drv_driver_unloadable, net_drv_driver_name. cbn -[TE_RC].
  by rewrite H.
Qed.
End driver.
