(* ===== verification/Capture.v ===== *)
(** Packets captured by the Rx coalescing tests (rx_path/rx_coalesce_usecs.c and
    rx_path/rx_coalesce_frames.c): the id in their payload, the delays between
    the packets the tester sent, and the part of [test_cb_args] and of
    [finish_pkt_group] both tests have in common. *)
From Stdlib Require Import Sorting.Sorted.
From S2P Require Import Prelude Prog Te Bytes AgentRpc Double.

(** The fields of [test_cb_args] both tests have; [ca_cur_delayed] is the index
    [cur_delayed_idx] into [delayed_pkt_ids]. *)
Record cb_args := CbArgs {
  ca_send_delay : Z; ca_delayed : list Z; ca_cur_delayed : nat; ca_prev_ts : timeval;
  ca_n_pkts : Z; ca_cur_id : Z; ca_n_groups : Z; ca_failed : bool }.

Definition ca_set_n_pkts (n : Z) (a : cb_args) : cb_args :=
  CbArgs (ca_send_delay a) (ca_delayed a) (ca_cur_delayed a) (ca_prev_ts a) n
    (ca_cur_id a) (ca_n_groups a) (ca_failed a).
Definition ca_set_failed (a : cb_args) : cb_args :=
  CbArgs (ca_send_delay a) (ca_delayed a) (ca_cur_delayed a) (ca_prev_ts a) (ca_n_pkts a)
    (ca_cur_id a) (ca_n_groups a) true.
Definition ca_set_cur_id (i : Z) (a : cb_args) : cb_args :=
  CbArgs (ca_send_delay a) (ca_delayed a) (ca_cur_delayed a) (ca_prev_ts a) (ca_n_pkts a)
    i (ca_n_groups a) (ca_failed a).
Definition ca_set_prev_ts (t : timeval) (a : cb_args) : cb_args :=
  CbArgs (ca_send_delay a) (ca_delayed a) (ca_cur_delayed a) t (ca_n_pkts a)
    (ca_cur_id a) (ca_n_groups a) (ca_failed a).
Definition ca_append_delayed (i : Z) (a : cb_args) : cb_args :=
  CbArgs (ca_send_delay a) (ca_delayed a ++ [i]) (ca_cur_delayed a) (ca_prev_ts a) (ca_n_pkts a)
    (ca_cur_id a) (ca_n_groups a) (ca_failed a).
Definition ca_set_cur_delayed (k : nat) (a : cb_args) : cb_args :=
  CbArgs (ca_send_delay a) (ca_delayed a) k (ca_prev_ts a) (ca_n_pkts a)
    (ca_cur_id a) (ca_n_groups a) (ca_failed a).
Definition ca_set_n_groups (n : Z) (a : cb_args) : cb_args :=
  CbArgs (ca_send_delay a) (ca_delayed a) (ca_cur_delayed a) (ca_prev_ts a) (ca_n_pkts a)
    (ca_cur_id a) n (ca_failed a).
Definition ca_set_send_delay (d : Z) (a : cb_args) : cb_args :=
  CbArgs d (ca_delayed a) (ca_cur_delayed a) (ca_prev_ts a) (ca_n_pkts a)
    (ca_cur_id a) (ca_n_groups a) (ca_failed a).

(** [TEST_CB_ARGS_INIT]. *)
Definition CB_ARGS_INIT : cb_args := CbArgs 0 [] 0 (TV 0 0) 0 0 0 false.

Section capture.
Context {TE : Te}.

(** [for (i = n - 1; i >= 0 && buf[i] == 0; i--);] *)
Fixpoint last_nonzero (buf : list Z) (n : nat) : Z :=
  match n with
  | O => -1
  | S n' => if nth n' buf 0 =? 0 then last_nonzero buf n' else Z.of_nat n'
  end.

(** [inl rc]: the status; [inr id]: zero, with [*id]. *)
Definition get_pkt_id (le : bool) (pkt : tad_pkt) : te_errno + Z :=
  if pk_len pkt <? 0 then inl TE_EBADMSG
  else
    let '(rc, buf) := pk_bytes pkt in
    if negb (rc =? 0) then inl rc
    else
      let i := last_nonzero buf (length buf) in
      if i <? 8 then inl TE_EBADMSG
      else
        let id := load le (take 8 (drop (Z.to_nat (i - 8)) buf)) in
        inr (if le then bswap_64 id else id).

(** What both callbacks begin with: [inl a]: the packet is not looked at;
    [inr (ts, a)]: its timestamp, with its id in [a]. *)
Definition take_pkt (le : bool) (pkt : tad_pkt) (a : cb_args) : cb_args + timeval * cb_args :=
  let a := ca_set_n_pkts (u32 (ca_n_pkts a + 1)) a in
  if ca_failed a then inl a
  else
    let '(rc, ts) := pk_ts pkt in
    if negb (rc =? 0) then inl (ca_set_failed a)
    else match get_pkt_id le pkt with
         | inl _ => inl (ca_set_failed a)
         | inr id => inr (ts, ca_set_cur_id id a)
         end.

Definition process_tx_pkts (le : bool) (pkt : tad_pkt) (a : cb_args) : cb_args :=
  match take_pkt le pkt a with
  | inl a => a
  | inr (ts, a) =>
      if ca_n_pkts a =? 1 then ca_set_prev_ts ts a
      else
        let a := if u32 (ca_send_delay a * 5) <? TIMEVAL_SUB ts (ca_prev_ts a)
                 then ca_append_delayed (ca_cur_id a) a else a in
        ca_set_prev_ts ts a
  end.

(** The inner loop of [finish_pkt_group]: the index of the first id after the
    current one, among [ids], which begin at index [k]. *)
Fixpoint pass_delayed (cur : Z) (ids : list Z) (k : nat) : nat :=
  match ids with
  | [] => k
  | d :: ids' => if cur <? u32 d then k else pass_delayed cur ids' (S k)
  end.

(** The first part of [finish_pkt_group]: [skip_group]. *)
Definition skip_delayed (a : cb_args) : bool * cb_args :=
  match drop (ca_cur_delayed a) (ca_delayed a) with
  | d :: ids =>
      if u32 d <=? ca_cur_id a then
        (true, ca_set_cur_delayed (pass_delayed (ca_cur_id a) ids (S (ca_cur_delayed a))) a)
      else (false, a)
  | [] => (false, a)
  end.

(** What [main] makes of the capture on the tester. *)
Definition analyse_tx (le : bool) (send_delay : Z) (tx : list tad_pkt) : M cb_args :=
  let a := fold_left (fun a p => process_tx_pkts le p a) tx (ca_set_send_delay send_delay CB_ARGS_INIT) in
  if ca_n_pkts a =? 0 then TEST_VERDICT "No packets were captured by Tester CSAP" []
  else if ca_failed a then TEST_FAIL "Failed to process some of the captured packets on Tester" []
  else mret a.
End capture.

(** ** What the captures mean *)
Section meaning.
Context {TE : Te}.

(** The packet was read without errors: its time in microseconds and its id. *)
Definition shows (le : bool) (pkt : tad_pkt) (ti : timeval * Z) : Prop :=
  pk_ts pkt = (0, ti.1) /\ get_pkt_id le pkt = inr ti.2.

Lemma last_nonzero_app buf x n : x <> 0 ->
  last_nonzero (buf ++ x :: repeat 0 n) (length (buf ++ x :: repeat 0 n)) = Z.of_nat (length buf).
Proof.
  intros Hx. rewrite length_app. cbn [length]. rewrite repeat_length.
  induction n as [|n IH]; cbn [repeat].
  - replace (length buf + 1)%nat with (S (length buf)) by lia. cbn [last_nonzero].
    rewrite app_nth2, Nat.sub_diag by lia. cbn [nth]. by rewrite (proj2 (Z.eqb_neq x 0)).
  - replace (length buf + S (S n))%nat with (S (length buf + S n)) by lia. cbn [last_nonzero].
    assert (Hnth : nth (length buf + S n) (buf ++ x :: 0 :: repeat 0 n) 0 = 0).
    { rewrite app_nth2 by lia. replace (length buf + S n - length buf)%nat with (S n) by lia.
      cbn [nth]. change (0 :: repeat 0 n) with (repeat 0 (S n)).
      destruct (nth_in_or_default n (repeat 0 (S n)) 0) as [Hi|Hd]; [|done]. by apply repeat_spec in Hi. }
    rewrite Hnth, Z.eqb_refl. rewrite <- IH at 1.
    assert (Hext : forall m b b', (forall j, (j < m)%nat -> nth j b 0 = nth j b' 0) ->
      last_nonzero b m = last_nonzero b' m).
    { induction m as [|m IHm]; intros b b' Hj; [done|]. cbn [last_nonzero].
      rewrite (Hj m) by lia. destruct (_ =? 0); [|done]. apply IHm. intros j Hjm. apply Hj. lia. }
    apply Hext. intros j Hj. destruct (Nat.lt_ge_cases j (length buf)).
    + by rewrite !app_nth1 by lia.
    + rewrite !app_nth2 by lia. destruct (j - length buf)%nat as [|k] eqn:Ek; [done|]. cbn [nth].
      destruct k as [|k]; [by destruct n|]. cbn [nth].
      destruct (nth_in_or_default k (repeat 0 n) 0) as [Hi|Hd];
      destruct (nth_in_or_default (S k) (repeat 0 n) 0) as [Hi'|Hd'];
        try apply repeat_spec in Hi; try apply repeat_spec in Hi'; congruence.
Qed.

(** The id the sender put into a packet is read back, on a machine of any byte
    order and after any padding of the frame. *)
Lemma get_pkt_id_packet le pkt id n :
  0 <= pk_len pkt -> pk_bytes pkt = (0, Sender.packet id ++ repeat 0 n) ->
  get_pkt_id le pkt = inr (u64 id).
Proof.
  intros Hl Hb. unfold get_pkt_id. rewrite (proj2 (Z.ltb_ge (pk_len pkt) 0)) by done.
  rewrite Hb. cbn [negb Z.eqb]. unfold Sender.packet. rewrite <- app_assoc. cbn [app].
  rewrite last_nonzero_app by done. rewrite length_to_be. change (Z.of_nat 8 <? 8) with false. cbv iota.
  change (Z.to_nat (Z.of_nat 8 - 8)) with 0%nat. rewrite drop_0.
  rewrite take_app_le by (by rewrite length_to_be). rewrite take_ge by (by rewrite length_to_be).
  rewrite load_swapped.
  - rewrite of_to_be. done.
  - apply length_to_be.
  - unfold to_be. apply Forall_rev, to_le_bytes.
Qed.

(** Ids of the packets sent more than five delays after the previous one. *)
Fixpoint late (bound : Z) (prev : timeval) (l : list (timeval * Z)) : list Z :=
  match l with
  | [] => []
  | (t, i) :: l' => (if bound <? tv_us t - tv_us prev then [i] else []) ++ late bound t l'
  end.

(** Capturing a list of packets. *)
Definition capture {A} (f : tad_pkt -> A -> A) (pkts : list tad_pkt) (a : A) : A :=
  fold_left (fun a p => f p a) pkts a.

Lemma take_pkt_shows le pkt ti a :
  shows le pkt ti -> ca_failed a = false ->
  take_pkt le pkt a = inr (ti.1, ca_set_cur_id ti.2 (ca_set_n_pkts (u32 (ca_n_pkts a + 1)) a)).
Proof.
  intros [Ht Hi] Hf. unfold take_pkt. change (ca_failed (ca_set_n_pkts _ a)) with (ca_failed a).
  by rewrite Hf, Ht, Hi.
Qed.

(** The time and id of the last packet. *)
Fixpoint end_of (ti : timeval * Z) (l : list (timeval * Z)) : timeval * Z :=
  match l with [] => ti | x :: l' => end_of x l' end.

Lemma process_tx_step le p t i a :
  shows le p (t, i) -> ca_failed a = false -> 1 <= ca_n_pkts a < 2 ^ 32 - 1 ->
  process_tx_pkts le p a =
    CbArgs (ca_send_delay a)
      (ca_delayed a ++ (if u32 (ca_send_delay a * 5) <? tv_us t - tv_us (ca_prev_ts a) then [i] else []))
      (ca_cur_delayed a) t (ca_n_pkts a + 1) i (ca_n_groups a) false.
Proof.
  intros Hp Hf Hn. unfold process_tx_pkts. rewrite (take_pkt_shows le p (t, i)) by done.
  destruct a as [d del cd pt n ci g f]. cbn in Hf, Hn. subst f.
  cbn -[Z.eqb Z.ltb u32 Z.mul]. rewrite timeval_sub_us, u32_id by lia.
  rewrite (proj2 (Z.eqb_neq (n + 1) 1)) by lia.
  destruct (_ <? _); cbn; [done|]. by rewrite app_nil_r.
Qed.

Lemma process_tx_later le pkts l a :
  Forall2 (shows le) pkts l -> ca_failed a = false -> 1 <= ca_n_pkts a ->
  ca_n_pkts a + Z.of_nat (length l) < 2 ^ 32 ->
  capture (process_tx_pkts le) pkts a =
    CbArgs (ca_send_delay a)
      (ca_delayed a ++ late (u32 (ca_send_delay a * 5)) (ca_prev_ts a) l)
      (ca_cur_delayed a) (end_of (ca_prev_ts a, ca_cur_id a) l).1
      (ca_n_pkts a + Z.of_nat (length l)) (end_of (ca_prev_ts a, ca_cur_id a) l).2
      (ca_n_groups a) false.
Proof.
  intros Hl. revert a. induction Hl as [|p [t i] pkts l Hp Hl IH]; intros a Hf Hn Hlen.
  - destruct a. cbn in *. subst. by rewrite app_nil_r, Z.add_0_r.
  - cbn [length] in Hlen. unfold capture in *. cbn [fold_left].
    rewrite (process_tx_step le p t i) by (done || lia).
    rewrite IH by (cbn; lia || done). cbn [late length end_of ca_send_delay ca_delayed ca_cur_delayed
      ca_prev_ts ca_n_pkts ca_cur_id ca_n_groups]. rewrite <- app_assoc. f_equal. lia.
Qed.

Lemma process_tx_first le p t i d :
  shows le p (t, i) ->
  process_tx_pkts le p (ca_set_send_delay d CB_ARGS_INIT) = CbArgs d [] 0 t 1 i 0 false.
Proof. intros Hp. unfold process_tx_pkts. by rewrite (take_pkt_shows le p (t, i)). Qed.

(** The whole capture on the tester, from the initial state: the ids of the
    late packets, in order. *)
Lemma process_tx_all le pkts t i l d :
  Forall2 (shows le) pkts ((t, i) :: l) -> Z.of_nat (length l) + 1 < 2 ^ 32 ->
  capture (process_tx_pkts le) pkts (ca_set_send_delay d CB_ARGS_INIT) =
    CbArgs d (late (u32 (d * 5)) t l) 0 (end_of (t, i) l).1 (Z.of_nat (length l) + 1)
      (end_of (t, i) l).2 0 false.
Proof.
  intros Hl Hlen. inversion Hl as [|p ti pkts' l' Hp Hl' E1 E2]; subst. unfold capture. cbn [fold_left].
  rewrite (process_tx_first le p t i) by done. fold (capture (process_tx_pkts le) pkts' (CbArgs d [] 0 t 1 i 0 false)).
  rewrite (process_tx_later le pkts' l) by (done || (cbn; lia)). cbn [ca_n_pkts]. f_equal. lia.
Qed.

Lemma analyse_tx_all le pkts t i l d :
  Forall2 (shows le) pkts ((t, i) :: l) -> Z.of_nat (length l) + 1 < 2 ^ 32 ->
  analyse_tx le d pkts =
    mret (CbArgs d (late (u32 (d * 5)) t l) 0 (end_of (t, i) l).1 (Z.of_nat (length l) + 1)
      (end_of (t, i) l).2 0 false).
Proof.
  intros Hl Hlen. unfold analyse_tx. fold (capture (process_tx_pkts le) pkts (ca_set_send_delay d CB_ARGS_INIT)).
  rewrite (process_tx_all le pkts t i l d) by done. cbn [ca_n_pkts ca_failed].
  by rewrite (proj2 (Z.eqb_neq (Z.of_nat (length l) + 1) 0)) by lia.
Qed.

(** ** Skipping groups *)

(** [dels]: the ids not yet passed; the group between ids [low] and [cur] is
    skipped when one of them lies in between. *)
Definition hit (dels : list Z) (low cur : Z) : bool :=
  existsb (fun d => (low <? d) && (d <=? cur)) dels.

Definition small (d : Z) : Prop := 0 <= d < 2 ^ 32.

Lemma pass_delayed_spec cur ids k :
  Forall small ids -> StronglySorted Z.lt ids ->
  exists n, pass_delayed cur ids k = (k + n)%nat /\ drop n ids = filter (fun d => cur < d) ids.
Proof.
  intros Hs Hso. revert k. induction Hso as [|d ids Hso IH Hd]; intros k; [by exists O; rewrite Nat.add_0_r|].
  apply Forall_cons in Hs as [Hsd Hs]. cbn [pass_delayed]. rewrite (u32_id d) by exact Hsd.
  destruct (Z.ltb_spec cur d) as [Hlt|Hge].
  - exists O. split; [lia|]. rewrite drop_0. symmetry. apply filter_all.
    constructor; [done|]. eapply Forall_impl; [exact Hd|]. intros x Hx. cbn in *. lia.
  - destruct (IH Hs (S k)) as (n & E & Edrop). exists (S n). split; [lia|].
    rewrite filter_cons_False by lia. exact Edrop.
Qed.

(** One group: what is left of the ids, and whether the group is skipped.  The
    ids above [low] are the ones still ahead. *)
Lemma skip_delayed_spec a low :
  Forall small (ca_delayed a) -> StronglySorted Z.lt (ca_delayed a) ->
  drop (ca_cur_delayed a) (ca_delayed a) = filter (fun d => low < d) (ca_delayed a) ->
  low <= ca_cur_id a ->
  exists k, skip_delayed a = (hit (ca_delayed a) low (ca_cur_id a), ca_set_cur_delayed k a) /\
    drop k (ca_delayed a) = filter (fun d => ca_cur_id a < d) (ca_delayed a).
Proof.
  intros Hs Hso Hd Hlow. unfold skip_delayed. set (dels := ca_delayed a) in *.
  assert (Hff : filter (fun d => ca_cur_id a < d) dels =
    filter (fun d => ca_cur_id a < d) (filter (fun d => low < d) dels)).
  { rewrite list_filter_filter. apply list_filter_iff. intros d. cbn. lia. }
  assert (Hhit : hit dels low (ca_cur_id a) =
    existsb (fun d => d <=? ca_cur_id a) (filter (fun d => low < d) dels)).
  { clear. induction dels as [|d l IH]; [done|]. cbn [hit existsb]. fold (hit l low (ca_cur_id a)).
    rewrite IH. destruct (Z.ltb_spec low d).
    - by rewrite filter_cons_True.
    - by rewrite filter_cons_False by lia. }
  rewrite Hhit, <- Hd in *. rewrite Hd in Hff.
  destruct (drop (ca_cur_delayed a) dels) as [|d ids] eqn:Ed.
  - exists (ca_cur_delayed a). rewrite Hff, <- Hd. split; [by destruct a|]. by rewrite Ed.
  - assert (Hs' : Forall small (d :: ids)) by (rewrite <- Ed; by apply Forall_drop).
    assert (Hso' : StronglySorted Z.lt (d :: ids)).
    { rewrite <- Ed. clear -Hso. generalize (ca_cur_delayed a) as n. induction Hso as [|x l Hl IH Hx]; intros [|n]; cbn; try constructor; auto. }
    inversion Hso' as [|? ? Hso2 Hall]; subst. apply Forall_cons in Hs' as [Hsd Hs2].
    rewrite (u32_id d) by exact Hsd. cbn [existsb]. destruct (Z.leb_spec d (ca_cur_id a)) as [Hle|Hgt].
    + destruct (pass_delayed_spec (ca_cur_id a) ids (S (ca_cur_delayed a)) Hs2 Hso2) as (n & E & En).
      exists (S (ca_cur_delayed a) + n)%nat. rewrite E. split; [done|].
      rewrite Hff, <- Hd, filter_cons_False by lia. rewrite <- En.
      replace (S (ca_cur_delayed a) + n)%nat with (ca_cur_delayed a + S n)%nat by lia.
      by rewrite <- drop_drop, Ed.
    + exists (ca_cur_delayed a). split; [|].
      * cbn [orb]. f_equal; [|by destruct a].
        clear -Hgt Hall. induction Hall as [|x l Hx Hl IH]; [done|]. cbn [existsb].
        rewrite <- IH. rewrite (proj2 (Z.leb_gt x (ca_cur_id a))) by lia. done.
      * rewrite Ed, Hff, <- Hd. symmetry. apply filter_all. constructor; [done|].
        eapply Forall_impl; [exact Hall|]. intros x Hx. cbn in *. lia.
Qed.
End meaning.

(** ** Reference data of both tests *)
Definition zsum (l : list Z) : Z := foldr Z.add 0 l.
Definition squares (u : Z) (l : list Z) : list Z := map (fun d => (d - u) * (d - u)) l.

(** Times and ids do not go back; ids go forward. *)
Fixpoint in_order (ti : timeval * Z) (l : list (timeval * Z)) : Prop :=
  match l with
  | [] => True
  | x :: l' => tv_us ti.1 <= tv_us x.1 /\ ti.2 <= x.2 /\ in_order x l'
  end.
Fixpoint rising (ti : timeval * Z) (l : list (timeval * Z)) : Prop :=
  match l with
  | [] => 0 <= ti.2 < 2 ^ 32
  | x :: l' => 0 <= ti.2 < x.2 /\ rising x l'
  end.

Lemma rising_small ti l : rising ti l -> small ti.2.
Proof.
  revert ti. induction l as [|x l IH]; intros ti; cbn; [done|]. intros [H Hr].
  apply IH in Hr. unfold small in *. lia.
Qed.

Lemma late_sorted bound prev ti l : rising ti l ->
  Forall small (late bound prev l) /\ StronglySorted Z.lt (late bound prev l) /\
  Forall (fun d => ti.2 < d) (late bound prev l).
Proof.
  revert ti prev. induction l as [|[t i] l IH]; intros ti prev; cbn [rising late].
  - repeat constructor.
  - intros [[H0 Hi] Hr]. cbn in Hi. destruct (IH (t, i) t Hr) as (Hs & Hso & Hf).
    apply rising_small in Hr. cbn in Hf.
    assert (Hf' : Forall (fun d => ti.2 < d) (late bound t l)).
    { eapply Forall_impl; [exact Hf|]. cbn. intros d. lia. }
    destruct (_ <? _); cbn [app]; [|done].
    split; [by constructor|]. split; [by constructor|]. constructor; [done|exact Hf'].
Qed.

Lemma zsum_app l l' : zsum (l ++ l') = zsum l + zsum l'.
Proof. induction l as [|x l IH]; cbn [app zsum foldr]; [done|]. unfold zsum in *. lia. Qed.

Lemma zsum_cons x l : zsum (x :: l) = x + zsum l.
Proof. done. Qed.

Lemma zsum_nonneg l : Forall (Z.le 0) l -> 0 <= zsum l.
Proof. induction 1; cbn; [lia|]. unfold zsum in *. lia. Qed.

Lemma squares_nonneg u l : Forall (Z.le 0) (squares u l).
Proof. unfold squares. induction l as [|x l IH]; cbn [map]; [constructor|]. constructor; [apply Z.square_nonneg|done]. Qed.

(** Measurements that are all as expected have no error, exactly. *)
Lemma perfect_stats u ds : 0 < u < 2 ^ 31 -> ds <> [] -> Forall (eq u) ds -> zsum ds < 2 ^ 53 ->
  let mean z := d_div (d_of_Z z) (d_of_Z (Z.of_nat (length ds))) in
  d_div (d_abs (d_sub (mean (zsum ds)) (d_of_Z u))) (d_of_Z u) = d_of_Z 0 /\
  d_div (d_sqrt (mean (zsum (squares u ds)))) (d_of_Z u) = d_of_Z 0.
Proof.
  intros Hu Hne Hall Hsum. cbv zeta.
  assert (E : zsum ds = u * Z.of_nat (length ds) /\ zsum (squares u ds) = 0 * Z.of_nat (length ds)).
  { clear Hne Hsum. induction Hall as [|e l <- Hl [IH1 IH2]]; [cbn; lia|].
    change (squares u (u :: l)) with ((u - u) * (u - u) :: squares u l).
    rewrite !zsum_cons, IH1, IH2. cbn [length]. lia. }
  destruct ds as [|e ds]; [done|]. destruct E as [E1 E2].
  assert (0 < Z.of_nat (length (e :: ds))) by (cbn [length]; lia).
  set (m := Z.of_nat (length (e :: ds))) in *.
  assert (exact (u * m) /\ exact u /\ exact m /\ exact (0 * m) /\ exact (0 * u) /\ exact 0) as (? & ? & ? & ? & ? & ?).
  { rewrite E1 in Hsum. unfold exact. repeat split; nia. }
  rewrite E1, E2, (d_div_exact u m), (d_div_exact 0 m), d_sub_exact by (done || (unfold exact; lia) || lia).
  change (d_sqrt (d_of_Z 0)) with (d_of_Z (0 * u)). replace (u - u) with (0 * u) by lia.
  change (d_abs (d_of_Z (0 * u))) with (d_of_Z (0 * u)).
  by rewrite !(d_div_exact 0 u) by (done || lia).
Qed.
