(* ===== verification/Resources.v ===== *)
(** What the tests take and must give back: sockets, CSAPs, Rx rules, and the
    interrupt coalescing settings of an interface.  [tkeeps] is the logic the
    tests' theorems use: an invariant between the locals of a test and what it
    holds, kept by every statement however it ends. *)
From S2P Require Import Prelude Prog Te Locals NetDrvTs.

(** ** Code over locals that keeps an invariant *)
Section keeps.
Context {C : Type -> Type} {S : Type} (E : env C S).

(** A jump leaves where [F] holds, a value [a] where [G a] does; there is no
    undefined behaviour. *)
Definition upto {St A} (F : St -> S -> Prop) (G : A -> St -> S -> Prop)
    (r : result (St * (A + jump))) (s : S) : Prop :=
  match r with
  | Val (st, inl a) => G a st s
  | Val (st, inr _) => F st s
  | NoFuel => True
  | _ => False
  end.

(** However the code ends, [F] holds. *)
Abbreviation ends F := (upto F (fun _ => F)).

(** Begun where [I] holds, it ends where [F] holds. *)
Definition tkeeps {St A} (I F : St -> S -> Prop) (p : T St A) : Prop :=
  forall st s, I st s -> wp E (p st) s (ends F).

(** The statements of a body, one by one: a program over no locals, and the
    operations on locals. *)
Section statements.
Context {St A B : Type} (F : St -> S -> Prop) (G : B -> St -> S -> Prop).

Lemma st_call (p : prog C A) (f : A -> T St B) L s :
  wp E p s (fun r s' => match r with
     | Val a => wp E (f a L) s' (upto F G)
     | Exc _ => F L s'
     | Undef _ => False
     | NoFuel => True
     end) -> wp E (mbind f (lift p) L) s (upto F G).
Proof.
  intros Hp. cbn [mbind T_bind]. apply wp_bind. unfold lift. apply wp_bind, wp_attempt.
  eapply wp_mono; [exact Hp|]. intros [a|j|w|] s' H'; cbn; auto.
Qed.

Lemma st_modify (g : St -> St) (f : unit -> T St B) L s :
  wp E (f tt (g L)) s (upto F G) -> wp E (mbind f (modify g) L) s (upto F G).
Proof. done. Qed.

Lemma st_gets (g : St -> A) (f : A -> T St B) L s :
  wp E (f (g L) L) s (upto F G) -> wp E (mbind f (gets g) L) s (upto F G).
Proof. done. Qed.

Lemma st_ret (a : A) (f : A -> T St B) L s :
  wp E (f a L) s (upto F G) -> wp E (mbind f (mret a) L) s (upto F G).
Proof. done. Qed.

Lemma st_bind (p : T St A) (f : A -> T St B) L s :
  wp E (p L) s (upto F (fun a L' s' => wp E (f a L') s' (upto F G))) ->
  wp E (mbind f p L) s (upto F G).
Proof.
  intros H. cbn [mbind T_bind]. apply wp_bind. eapply wp_mono; [exact H|].
  intros [[st' [a|j]]| | |] g'; cbn; auto.
Qed.

(** Calls that keep [P]. *)
Lemma st_only (allowed : forall X, C X -> bool) (P : S -> Prop) (p : prog C A) (f : A -> T St B) L s :
  only allowed (fun _ => true) p ->
  (forall X (c : C X) s x s', allowed X c = true -> P s -> E X c s x s' -> P s') -> P s ->
  (forall s', P s' -> F L s') -> (forall a s', P s' -> wp E (f a L) s' (upto F G)) ->
  wp E (mbind f (lift p) L) s (upto F G).
Proof.
  intros Ho HP Hs HF Hf. apply st_call. eapply wp_mono; [by apply (wp_only allowed (fun _ => true) E P)|].
  intros [a|j|w|] s' [H Hr]; auto.
Qed.

(** A loop over a list, with what holds between its passes. *)
Lemma st_for {X} (l : list X) (body : X -> T St unit) (I : list X -> St -> S -> Prop) L s :
  I [] L s ->
  (forall pre x post L s, l = pre ++ x :: post -> I pre L s ->
     wp E (body x L) s (upto F (fun _ => I (pre ++ [x])))) ->
  wp E (t_for l body L) s (upto F (fun _ => I l)).
Proof.
  intros HI Hb.
  enough (forall pre l' L s, l = pre ++ l' -> I pre L s -> wp E (t_for l' body L) s (upto F (fun _ => I l))) as H
    by (by eapply (H [])).
  clear HI L s. intros pre l'; revert pre. induction l' as [|x l' IH]; intros pre L s Hl HI.
  - rewrite app_nil_r in Hl. by subst.
  - cbn [t_for mbind T_bind]. apply wp_bind. eapply wp_mono; [by eapply Hb|].
    intros [[L' [[]|j]]| | |] s' H; cbn in *; auto. apply (IH (pre ++ [x])); [|done]. by rewrite <- app_assoc.
Qed.

(** A loop that fills an array, with what holds between its passes. *)
Lemma st_map {X Y} (l : list X) (body : X -> T St Y) (I : list X -> list Y -> St -> S -> Prop) L s :
  I [] [] L s ->
  (forall pre x post ys L s, l = pre ++ x :: post -> I pre ys L s ->
     wp E (body x L) s (upto F (fun y => I (pre ++ [x]) (ys ++ [y])))) ->
  wp E (t_map l body L) s (upto F (fun ys => I l ys)).
Proof.
  intros HI Hb.
  enough (forall l' pre ys L s, l = pre ++ l' -> I pre ys L s ->
            wp E (t_map l' body L) s (upto F (fun zs => I l (ys ++ zs)))) as H.
  { by apply (H l [] []). }
  clear HI L s. induction l' as [|x l' IH]; intros pre ys L s Hl HI.
  - rewrite app_nil_r in Hl. subst. cbn. by rewrite app_nil_r.
  - cbn [t_map mbind T_bind]. apply wp_bind. eapply wp_mono; [by eapply Hb|].
    intros [[L' [y|j]]| | |] s' H; cbn in *; auto. apply wp_bind.
    eapply wp_mono; [apply (IH (pre ++ [x]) (ys ++ [y])); [by rewrite <- app_assoc|done]|].
    intros [[L2 [zs|j]]| | |] s2 H2; cbn in *; auto. by rewrite <- app_assoc in H2.
Qed.

(** A loop with fuel. *)
Lemma st_loop (fuel : nat) (body : T St bool) (I : St -> S -> Prop) L s :
  I L s -> (forall L s, I L s -> wp E (body L) s (upto F (fun _ => I))) ->
  wp E (t_loop fuel body L) s (upto F (fun _ => I)).
Proof.
  intros HI Hb. revert L s HI. induction fuel as [|n IH]; intros L s HI; [done|].
  cbn [t_loop mbind T_bind]. apply wp_bind. eapply wp_mono; [by apply Hb|].
  intros [[L' [[|]|j]]| | |] s' H; cbn in *; auto.
Qed.

(** A search that is given up after a number of attempts. *)
Lemma st_search {X} (n : nat) (body : T St (option X)) (I : St -> S -> Prop) (V : X -> St -> S -> Prop) L s :
  I L s -> (forall L s, I L s -> wp E (body L) s (upto F (fun r => match r with Some a => V a | None => I end))) ->
  wp E (t_search n body L) s (upto F (fun r => match r with Some a => V a | None => I end)).
Proof.
  intros HI Hb. revert L s HI. induction n as [|n IH]; intros L s HI; [done|].
  cbn [t_search mbind T_bind]. apply wp_bind. eapply wp_mono; [by apply Hb|].
  intros [[L' [[a|]|j]]| | |] s' H; cbn in *; auto.
Qed.
End statements.

(** A test whose body ends where [F] holds, and whose cleanup leads from [F]
    to [Q]. *)
Lemma test_main_keeps {St} (I F : St -> S -> Prop) (Q : S -> Prop) (init : St) (body : T St unit)
    (cleanup : St -> prog C bool) s :
  I init s -> tkeeps I F body ->
  (forall st s, F st s -> wp E (cleanup st) s (fun r s' => match r with Val _ => Q s' | _ => False end)) ->
  wp E (test_main init body cleanup) s
    (fun r s' => match r with Val _ => Q s' | NoFuel => True | _ => False end).
Proof.
  intros Hi Hb Hc. unfold test_main. apply wp_bind. eapply wp_mono; [by apply Hb|].
  intros [[st r]| | |] s' H; cbn [upto bpost] in *; try done.
  assert (HF : F st s') by (by destruct r). clear H. apply wp_bind. eapply wp_mono; [by apply Hc|]. intros [ok| | |] s2 H2; cbn; done.
Qed.

(** The steps of a cleanup, each [CLEANUP_CHECK_RC] after the other. *)
Lemma wp_also (p q : prog C bool) s (R : S -> Prop) (Q : S -> Prop) :
  wp E p s (fun r s' => match r with Val _ => R s' | _ => False end) ->
  (forall s, R s -> wp E q s (fun r s' => match r with Val _ => Q s' | _ => False end)) ->
  wp E (also p q) s (fun r s' => match r with Val _ => Q s' | _ => False end).
Proof.
  intros Hp Hq. unfold also. apply wp_bind. eapply wp_mono; [exact Hp|].
  intros [b| | |] s' H; cbn [bpost]; try done. apply wp_bind. eapply wp_mono; [by apply Hq|].
  intros [b'| | |] s2 H2; cbn; done.
Qed.
End keeps.
Abbreviation ends F := (upto F (fun _ => F)).

(** ** Code without locals that returns where [Q] holds, if it returns *)
Section lands.
Context {C : Type -> Type} {S : Type} (E : env C S).

Definition lands {A} (Q : A -> S -> Prop) (r : result A) (s : S) : Prop :=
  match r with Val a => Q a s | Undef _ => False | _ => True end.

Lemma lands_bind {A B} (p : prog C A) (f : A -> prog C B) s Q :
  wp E p s (lands (fun a s' => wp E (f a) s' (lands Q))) -> wp E (mbind f p) s (lands Q).
Proof. intros H. apply wp_bind. eapply wp_mono; [exact H|]. by intros [a|j|w|] s'. Qed.

Lemma lands_only (allowed : forall X, C X -> bool) {A} (p : prog C A) s (P : S -> Prop) :
  only allowed (fun _ => true) p ->
  (forall X (c : C X) s x s', allowed X c = true -> P s -> E X c s x s' -> P s') -> P s ->
  wp E p s (lands (fun _ s' => P s')).
Proof.
  intros Ho HP Hs. eapply wp_mono; [by apply (wp_only allowed (fun _ => true) E P)|].
  by intros [a|j|w|] s' [H Hr].
Qed.

Lemma lands_map {A B} (f : A -> prog C B) (l : list A) s (I : list A -> list B -> S -> Prop) :
  I [] [] s ->
  (forall pre x post ys s, l = pre ++ x :: post -> I pre ys s -> wp E (f x) s (lands (fun y => I (pre ++ [x]) (ys ++ [y])))) ->
  wp E (m_map f l) s (lands (fun ys => I l ys)).
Proof.
  intros HI Hf. apply (wp_map E f l s I); [done| |done].
  intros pre x post ys s' Hl H. eapply wp_mono; [by eapply Hf|]. by intros [y|j|w|] s2.
Qed.

(** Passes that compute a function of their element and keep [P]. *)
Lemma lands_map_fn {A B} (f : A -> prog C B) (F : A -> B) (l : list A) s (P : S -> Prop) :
  P s -> (forall x s, x ∈ l -> P s -> wp E (f x) s (lands (fun y s' => y = F x /\ P s'))) ->
  wp E (m_map f l) s (lands (fun ys s' => ys = map F l /\ P s')).
Proof.
  intros Hs Hf. apply (lands_map f l s (fun pre ys s' => ys = map F pre /\ P s')); [done|].
  intros pre x post ys s' Hl [-> H]. eapply wp_mono; [apply Hf; [|exact H]|].
  - rewrite Hl, elem_of_app. right. apply list_elem_of_here.
  - intros [y|j|w|] s2; cbn; try done. intros [-> H2]. by rewrite map_app.
Qed.

(** As many results as elements. *)
Lemma lands_map_length (allowed : forall X, C X -> bool) {A B} (f : A -> prog C B) (l : list A) s (P : S -> Prop) :
  (forall x, only allowed (fun _ => true) (f x)) ->
  (forall X (c : C X) s x s', allowed X c = true -> P s -> E X c s x s' -> P s') -> P s ->
  wp E (m_map f l) s (lands (fun ys s' => length ys = length l /\ P s')).
Proof.
  intros Ho HP Hs. apply (lands_map f l s (fun pre ys s' => length ys = length pre /\ P s')); [done|].
  intros pre x post ys s' _ [Hl H]. eapply wp_mono; [by apply (lands_only allowed)|].
  intros [y|j|w|] s2 H2; cbn in *; try done. by rewrite !length_app, Hl.
Qed.

(** A call whose status is checked. *)
Lemma lands_check {X} (c : C (te_errno * X)) s (Q : X -> S -> Prop) :
  (forall rc x s', E _ c s (rc, x) s' -> rc = 0 -> Q x s') ->
  wp E ('(rc, x) ← call c; if rc =? 0 then mret x else raise (RC_FAILED rc)) s (lands Q).
Proof.
  intros H. apply wp_bind, wp_call. intros [rc x] s' Hx. cbn [bpost]. destruct (Z.eqb_spec rc 0); [|done]. by eapply H.
Qed.
End lands.

(** ** What is held *)

(** A coalescing setting: agent, interface, queue (negative: the interface) and
    parameter. *)
Definition ckey : Type := string * string * Z * string.

(** Sockets, CSAPs and Rx rules held; the settings before the test, the ones in
    force, and the ones set locally and not committed. *)
Record held := Held {
  h_socks : list (rcf_rpc_server * Z); h_csaps : list (string * Z);
  h_rules : list (string * string * Z);
  h_init : ckey -> Z; h_now : ckey -> Z; h_pend : gmap ckey Z }.

(** Give back one. *)
Fixpoint drop_one {A} `{EqDecision A} (x : A) (l : list A) : list A :=
  match l with
  | [] => []
  | y :: l' => if decide (x = y) then l' else y :: drop_one x l'
  end.

Definition h_open (s : rcf_rpc_server * Z) (g : held) : held :=
  Held (h_socks g ++ [s]) (h_csaps g) (h_rules g) (h_init g) (h_now g) (h_pend g).
Definition h_close (s : rcf_rpc_server * Z) (g : held) : held :=
  Held (drop_one s (h_socks g)) (h_csaps g) (h_rules g) (h_init g) (h_now g) (h_pend g).
Definition h_csap (c : string * Z) (g : held) : held :=
  Held (h_socks g) (h_csaps g ++ [c]) (h_rules g) (h_init g) (h_now g) (h_pend g).
Definition h_uncsap (c : string * Z) (g : held) : held :=
  Held (h_socks g) (drop_one c (h_csaps g)) (h_rules g) (h_init g) (h_now g) (h_pend g).
Definition h_rule (c : string * string * Z) (g : held) : held :=
  Held (h_socks g) (h_csaps g) (h_rules g ++ [c]) (h_init g) (h_now g) (h_pend g).
Definition h_unrule (c : string * string * Z) (g : held) : held :=
  Held (h_socks g) (h_csaps g) (drop_one c (h_rules g)) (h_init g) (h_now g) (h_pend g).

(** A setting written at once, one written locally, and a commit. *)
Definition h_set (k : ckey) (v : Z) (g : held) : held :=
  Held (h_socks g) (h_csaps g) (h_rules g) (h_init g)
    (fun k' => if decide (k' = k) then v else h_now g k') (h_pend g).
Definition h_local (k : ckey) (v : Z) (g : held) : held :=
  Held (h_socks g) (h_csaps g) (h_rules g) (h_init g) (h_now g) (<[k := v]> (h_pend g)).
Definition h_commit (done : bool) (g : held) : held :=
  Held (h_socks g) (h_csaps g) (h_rules g) (h_init g)
    (fun k => if done then default (h_now g k) (h_pend g !! k) else h_now g k) ∅.

(** Nothing is held, and the settings are the ones before the test. *)
Definition restored (g : held) : Prop :=
  h_socks g = [] /\ h_csaps g = [] /\ h_rules g = [] /\ forall k, h_now g k = h_init g k.

Definition clean (init : ckey -> Z) : held := Held [] [] [] init init ∅.

Definition when_ok (rc : Z) (f : held -> held) (g : held) : held := if rc =? 0 then f g else g.

(** How a call changes what is held. *)
Definition h_upd X (c : te_call X) : X -> held -> held :=
  match c in te_call X return X -> held -> held with
  | GEN_CONNECTION r1 r2 _ _ _ => fun x g =>
      when_ok (fst x) (fun g => h_open (r2, snd (snd x)) (h_open (r1, fst (snd x)) g)) g
  | rpc_socket r => fun x g => if fst x <? 0 then g else h_open (r, fst x) g
  | rpc_create_and_bind_socket r _ _ => fun x g => if fst x <? 0 then g else h_open (r, fst x) g
  | rpc_open r _ _ => fun x g => if fst x <? 0 then g else h_open (r, fst x) g
  | tapi_bpf_map_pin_get_fd r _ _ => fun x => when_ok (fst x) (h_open (r, snd x))
  | rpc_accept r _ => fun x g => if fst x <? 0 then g else h_open (r, fst x) g
  | rpc_close r s => fun _ => h_close (r, s)
  | tapi_udp_ip_eth_csap_create ta _ _ _ _ _ _ _ => fun x => when_ok (fst x) (h_csap (ta, snd x))
  | tapi_tcp_ip_eth_csap_create ta _ _ _ _ _ _ => fun x => when_ok (fst x) (h_csap (ta, snd x))
  | tapi_ip_eth_csap_create ta _ _ _ _ _ _ _ => fun x => when_ok (fst x) (h_csap (ta, snd x))
  | tapi_eth_csap_create ta _ _ _ _ => fun x => when_ok (fst x) (h_csap (ta, snd x))
  | tapi_eth_csap_create_to_send ta _ => fun x => when_ok (fst x) (h_csap (ta, snd x))
  | tapi_eth_based_csap_create_by_tmpl ta _ _ _ => fun x => when_ok (fst x) (h_csap (ta, snd x))
  | tapi_tad_csap_destroy ta h => fun _ => h_uncsap (ta, h)
  | tapi_cfg_rx_rule_commit ta ifn loc => fun rc => when_ok rc (h_rule (ta, ifn, loc))
  | tapi_cfg_rx_rule_del ta ifn loc => fun _ => h_unrule (ta, ifn, loc)
  | tapi_cfg_if_coalesce_set ta ifn q p v => fun rc => when_ok rc (h_set (ta, ifn, q, p) v)
  | tapi_cfg_if_coalesce_set_local ta ifn q p v => fun rc => when_ok rc (h_local (ta, ifn, q, p) v)
  | tapi_cfg_if_coalesce_commit _ _ _ => fun rc => h_commit (rc =? 0)
  | _ => fun _ g => g
  end.

(** Calls that change nothing of it. *)
Definition neutral X (c : te_call X) : bool :=
  match c with
  | GEN_CONNECTION _ _ _ _ _ | rpc_socket _ | rpc_accept _ _ | rpc_close _ _
  | rpc_create_and_bind_socket _ _ _ | tapi_bpf_map_pin_get_fd _ _ _ | rpc_open _ _ _
  | tapi_udp_ip_eth_csap_create _ _ _ _ _ _ _ _ | tapi_tcp_ip_eth_csap_create _ _ _ _ _ _ _ | tapi_ip_eth_csap_create _ _ _ _ _ _ _ _
  | tapi_eth_csap_create _ _ _ _ _ | tapi_eth_csap_create_to_send _ _ | tapi_eth_based_csap_create_by_tmpl _ _ _ _
  | tapi_tad_csap_destroy _ _ | tapi_cfg_rx_rule_commit _ _ _ | tapi_cfg_rx_rule_del _ _ _
  | tapi_cfg_if_coalesce_set _ _ _ _ _ | tapi_cfg_if_coalesce_set_local _ _ _ _ _
  | tapi_cfg_if_coalesce_commit _ _ _ => false
  | _ => true
  end.

Section world.
Context {TE : Te}.

(** Documented behaviour: descriptors and CSAP handles that were created are
    valid; a driver that is found has a name; a setting that is read is the one in force; and the settings that
    were in force before the test are accepted when they are set again. *)
Definition h_ok X (c : te_call X) : held -> X -> Prop :=
  match c in te_call X return held -> X -> Prop with
  | GEN_CONNECTION _ _ _ _ _ => fun _ x => fst x = 0 -> 0 <= fst (snd x) /\ 0 <= snd (snd x)
  | tapi_udp_ip_eth_csap_create _ _ _ _ _ _ _ _ => fun _ x => fst x = 0 -> snd x <> CSAP_INVALID_HANDLE
  | tapi_tcp_ip_eth_csap_create _ _ _ _ _ _ _ => fun _ x => fst x = 0 -> snd x <> CSAP_INVALID_HANDLE
  | tapi_ip_eth_csap_create _ _ _ _ _ _ _ _ => fun _ x => fst x = 0 -> snd x <> CSAP_INVALID_HANDLE
  | tapi_eth_csap_create _ _ _ _ _ => fun _ x => fst x = 0 -> snd x <> CSAP_INVALID_HANDLE
  | tapi_eth_csap_create_to_send _ _ => fun _ x => fst x = 0 -> snd x <> CSAP_INVALID_HANDLE
  | tapi_eth_based_csap_create_by_tmpl _ _ _ _ => fun _ x => fst x = 0 -> snd x <> CSAP_INVALID_HANDLE
  | tapi_cfg_pci_get_ta_driver _ => fun _ x => fst x = 0 -> is_Some (snd x)
  | tapi_cfg_if_coalesce_get ta ifn q p => fun g x => fst x = 0 -> snd x = h_now g (ta, ifn, q, p)
  | tapi_cfg_if_coalesce_set ta ifn q p v => fun g rc => v = h_init g (ta, ifn, q, p) -> rc = 0
  | tapi_cfg_if_coalesce_set_local ta ifn q p v => fun g rc => v = h_init g (ta, ifn, q, p) -> rc = 0
  | tapi_cfg_if_coalesce_commit _ _ _ => fun g rc =>
      (forall k v, h_pend g !! k = Some v -> v = h_init g k) -> rc = 0
  | _ => fun _ _ => True
  end.

Definition h_world : env te_call held := watch_if h_ok h_upd.

Lemma neutral_upd X (c : te_call X) x g : neutral X c = true -> h_upd X c x g = g.
Proof. by destruct c. Qed.

Lemma data_neutral X (c : te_call X) : is_data_call X c = true -> neutral X c = true.
Proof. by destruct c. Qed.

Lemma only_mono {A} (allowed allowed' : forall X, te_call X -> bool) may may' (p : M A) :
  (forall X c, allowed X c = true -> allowed' X c = true) -> (forall j, may j = true -> may' j = true) ->
  only allowed may p -> only allowed' may' p.
Proof.
  intros Ha Hm. induction p as [r|X c k IH]; cbn [only].
  - destruct r; auto.
  - intros [Hc Hk]. split; [by apply Ha|]. intros x. by apply IH.
Qed.

Abbreviation any_jump := (fun _ : jump => true).

(** Code of neutral calls changes nothing. *)
Lemma neutral_wp {A} (p : M A) g :
  only neutral any_jump p ->
  wp h_world p g (fun r g' => g' = g /\ match r with Undef _ => False | _ => True end).
Proof.
  intros Ho. eapply wp_mono; [apply (wp_only neutral any_jump h_world (fun s' => s' = g)); [exact Ho| |done]|].
  - intros X c s1 x s2 Hc -> [_ ->]. by apply neutral_upd.
  - intros [a|j|w|] s' [-> Hr]; auto.
Qed.

Lemma st_neutral {St A B} (F : St -> held -> Prop) (G : B -> St -> held -> Prop) (p : M A) (f : A -> T St B) L g :
  only neutral any_jump p -> F L g -> (forall a, wp h_world (f a L) g (upto F G)) ->
  wp h_world (mbind f (lift p) L) g (upto F G).
Proof.
  intros Ho HF Hf. apply st_call. eapply wp_mono; [by apply neutral_wp|].
  intros [a|j|w|] s' [-> Hr]; auto.
Qed.

(** ... the last statement of a body. *)
Lemma st_last {St A} (F : St -> held -> Prop) (p : M A) L g :
  only neutral any_jump p -> F L g -> wp h_world (lift p L) g (ends F).
Proof.
  intros Ho HF. unfold lift. apply wp_bind, wp_attempt. eapply wp_mono; [by apply neutral_wp|].
  intros [a|j|w|] s' [-> Hr]; cbn; auto.
Qed.

(** ... a loop whose passes are neutral. *)
Lemma st_for_neutral {St X} (F : St -> held -> Prop) (l : list X) (p : X -> M unit) L g :
  (forall x, only neutral any_jump (p x)) -> F L g -> wp h_world (t_for l (fun x => lift (p x)) L) g (ends F).
Proof.
  intros Ho HF. induction l as [|x l IH]; [exact HF|]. cbn [t_for].
  apply st_neutral; [apply Ho|done|]. by intros [].
Qed.

Lemma data_check_neutral fuel rs s1 rr s2 vpref :
  only neutral any_jump (net_drv_send_recv_check fuel rs s1 rr s2 vpref).
Proof. eapply only_mono; [apply data_neutral| |apply data_check_only]. done. Qed.

Lemma drop_one_last {A} `{EqDecision A} (x : A) : drop_one x [x] = [].
Proof. cbn. by rewrite decide_True. Qed.
Lemma drop_one_head {A} `{EqDecision A} (x : A) l : drop_one x (x :: l) = l.
Proof. cbn. by rewrite decide_True. Qed.
Lemma drop_one_perm {A} `{EqDecision A} (x : A) l : x ∈ l -> l ≡ₚ x :: drop_one x l.
Proof.
  induction l as [|y l IH]; [by intros ?%elem_of_nil|]. cbn. destruct (decide (x = y)) as [->|Hne]; [done|].
  intros [?|Hx]%elem_of_cons; [done|]. rewrite (IH Hx) at 1. apply Permutation_swap.
Qed.
End world.
Abbreviation any_jump := (fun _ : jump => true) (only parsing).

(** [only neutral]: the calls of the program are checked one by one. *)
Ltac solve_only :=
  repeat first
    [ apply only_bind
    | progress intros
    | progress wp_macro
    | match goal with
      | |- only _ _ (call _) => split; [done|]
      | |- only _ _ (mret _) => exact I
      | |- only _ _ (raise _) => done
      | |- only _ _ (when _ _) => unfold when
      | |- only _ _ (match ?x with _ => _ end) => destruct x
      | |- only _ _ (for_n _ _ _ _) => apply only_for_n
      | |- only _ _ (foreach _ _ _) => apply only_foreach
      | |- only _ _ (m_map _ _) => apply only_map
      | |- only _ _ (loop _ _ _) => apply only_loop
      end
    | done ].
