(* ===== verification/RxCommon.v ===== *)
(** What the mains of rx_path/rx_coalesce_usecs.c and
    rx_path/rx_coalesce_frames.c have in common: the traffic between the two
    captures, and the coalescing settings they change and must restore. *)
From S2P Require Import Prelude Prog Te Locals NetDrvTs Resources Capture.

Definition SEND_TIME : Z := 2000.

Section common.
Context {TE : Te}.

Definition disable_adaptive (ta ifn : string) (queue_id : Z) : M unit :=
  rc ← call (tapi_cfg_if_coalesce_set ta ifn queue_id "use_adaptive_rx_coalesce" 0);
  if negb (rc =? 0) then TEST_VERDICT "Failed to set use_adaptive_rx_coalesce, rc=%r" [AI rc] else mret tt.

(** Sending and receiving at the fixed pace. *)
Definition traffic (iut tst : rcf_rpc_server) (iut_s tst_s send_delay : Z) : M unit :=
  _ ← call (rpcs_set_op tst RCF_RPC_CALL);
  _ ← rpc_ok (rpc_net_drv_send_pkts_exact_delay tst tst_s send_delay SEND_TIME);
  '(rc_aux, _) ← call (rpc_net_drv_recv_pkts_exact_delay iut iut_s TAPI_WAIT_NETWORK_DELAY);
  _ ← when (rc_aux <? 0) (ERROR_VERDICT "rpc_net_drv_recv_pkts_exact_delay() failed: " []);
  '(rc, _) ← call (rpc_net_drv_send_pkts_exact_delay tst tst_s send_delay SEND_TIME);
  _ ← when (rc <? 0) (ERROR_VERDICT "rpc_net_drv_send_pkts_exact_delay() failed: " []);
  if (rc <? 0) || (rc_aux <? 0) then TEST_STOP else mret tt.

Definition destroy_csap (ta : string) (csap : Z) : M bool :=
  if negb (csap =? CSAP_INVALID_HANDLE) then cleanup_rc (call (tapi_tad_csap_destroy ta csap))
  else mret true.

Definition restore_settings (ta ifn : string) (queue_id : Z) (prev : option (Z * Z * Z)) : M bool :=
  match prev with
  | None => mret true
  | Some (usecs, frames, adaptive) =>
      also (cleanup_rc (call (tapi_cfg_if_coalesce_set_local ta ifn queue_id "rx_coalesce_usecs" usecs)))
     (also (cleanup_rc (call (tapi_cfg_if_coalesce_set_local ta ifn queue_id "rx_max_coalesced_frames" frames)))
     (also (cleanup_rc (call (tapi_cfg_if_coalesce_commit ta ifn (0 <=? queue_id))))
           (cleanup_rc (call (tapi_cfg_if_coalesce_set ta ifn queue_id "use_adaptive_rx_coalesce" adaptive)))))
  end.


(** ** The settings that may differ *)

(** Only the settings [now] may differ from those before the test, and only
    [pend] may be set locally. *)
Definition settled (now pend : list ckey) (g : held) : Prop :=
  (forall k, k ∉ now -> h_now g k = h_init g k) /\ (forall k v, h_pend g !! k = Some v -> k ∈ pend).

Definition rest_same (g g' : held) : Prop :=
  h_socks g' = h_socks g /\ h_csaps g' = h_csaps g /\ h_rules g' = h_rules g /\ h_init g' = h_init g.

Lemma settled_set k v now pend g : k ∈ now -> settled now pend g -> settled now pend (h_set k v g).
Proof.
  intros Hk [Hn Hp]. split; [|exact Hp]. intros k' Hk'. cbn.
  destruct (decide (k' = k)) as [->|]; [done|]. by apply Hn.
Qed.

Lemma settled_local k v now pend g : k ∈ pend -> settled now pend g -> settled now pend (h_local k v g).
Proof.
  intros Hk [Hn Hp]. split; [exact Hn|]. intros k' v' H. cbn in H.
  apply lookup_insert_Some in H as [[<- _]|[_ H]]; [done|]. by eapply Hp.
Qed.

Lemma settled_commit b now pend g : (forall k, k ∈ pend -> k ∈ now) ->
  settled now pend g -> settled now pend (h_commit b g).
Proof.
  intros Hsub [Hn Hp]. split; [|by intros k v H; cbn in H; rewrite lookup_empty in H].
  intros k Hk. cbn. destruct b; [|by apply Hn].
  destruct (h_pend g !! k) as [v|] eqn:Ev; [|by apply Hn]. by eapply Hp, Hsub in Ev.
Qed.

Lemma when_ok_cases rc f g (Q : held -> Prop) : (rc = 0 -> Q (f g)) -> (rc <> 0 -> Q g) -> Q (when_ok rc f g).
Proof. intros H1 H2. unfold when_ok. destruct (Z.eqb_spec rc 0); auto. Qed.

(** The settings a test has saved, once it has, and what may differ. *)
Definition settings_inv (ta ifn : string) (q : Z) (prev : option (Z * Z * Z)) (g : held) : Prop :=
  let key p : ckey := (ta, ifn, q, p) in
  match prev with
  | None => settled [] [] g
  | Some (usecs, frames, adaptive) =>
      usecs = h_init g (key "rx_coalesce_usecs") /\
      frames = h_init g (key "rx_max_coalesced_frames") /\
      adaptive = h_init g (key "use_adaptive_rx_coalesce") /\
      settled [key "rx_coalesce_usecs"; key "rx_max_coalesced_frames"; key "use_adaptive_rx_coalesce"]
              [key "rx_coalesce_usecs"; key "rx_max_coalesced_frames"] g
  end%string.

(** The cleanup puts the settings back. *)
Lemma restore_settings_wp ta ifn q prev g :
  settings_inv ta ifn q prev g ->
  wp h_world (restore_settings ta ifn q prev) g (fun r g' => match r with
    | Val _ => rest_same g g' /\ forall k, h_now g' k = h_init g' k
    | _ => False
    end).
Proof.
  unfold settings_inv, restore_settings. destruct prev as [[[u f] a]|]; [|].
  - intros (-> & -> & -> & [Hn Hp]). unfold also, cleanup_rc. wp_go. cbn [h_ok] in *.
    specialize (H eq_refl). subst x. cbn [h_upd] in *. unfold when_ok in *. cbn [Z.eqb] in *.
    specialize (H0 eq_refl). subst x0. cbn [Z.eqb] in *.
    assert (x1 = 0) as ->.
    { apply H1. intros k v Hk. cbn [h_local h_pend h_init] in Hk |- *.
      apply lookup_insert_Some in Hk as [[<- <-]|[Hk1 Hk]]; [done|].
      apply lookup_insert_Some in Hk as [[<- <-]|[Hk2 Hk]]; [done|].
      exfalso. apply Hp in Hk. set_solver. }
    specialize (H2 eq_refl). subst x2. cbn [Z.eqb]. split; [done|]. intros k. cbn.
    destruct (decide (k = _)) as [->|Hk3]; [done|].
    set (ku := (ta, ifn, q, "rx_coalesce_usecs"%string)) in *.
    set (kf := (ta, ifn, q, "rx_max_coalesced_frames"%string)) in *.
    destruct (decide (k = kf)) as [->|Hkf]; [by rewrite lookup_insert_eq|].
    rewrite lookup_insert_ne by done.
    destruct (decide (k = ku)) as [->|Hku]; [by rewrite lookup_insert_eq|].
    rewrite lookup_insert_ne by done.
    destruct (h_pend g !! k) as [v|] eqn:Ev; [apply Hp in Ev; set_solver|]. apply Hn. set_solver.
  - intros [Hn _]. cbn. split; [done|]. intros k. apply Hn. set_solver.
Qed.

(** The settings read before any change are those to restore. *)
Lemma saved_settings ta ifn q g : settled [] [] g ->
  settings_inv ta ifn q (Some (h_now g (ta, ifn, q, "rx_coalesce_usecs"),
    h_now g (ta, ifn, q, "rx_max_coalesced_frames"), h_now g (ta, ifn, q, "use_adaptive_rx_coalesce")))%string g.
Proof.
  intros [Hn Hp]. assert (E : forall k, h_now g k = h_init g k) by (intros k; apply Hn; set_solver).
  unfold settings_inv. rewrite !E. split_all; auto.
  split; [intros k _; apply E|]. intros k v Hk. exfalso. apply Hp in Hk. set_solver.
Qed.

(** What is held of sockets and CSAPs, for a descriptor that may be unset. *)
Definition sock_at (r : rcf_rpc_server) (s : Z) : list (rcf_rpc_server * Z) :=
  if 0 <=? s then [(r, s)] else [].
Definition csap_at (ta : string) (c : Z) : list (string * Z) :=
  if c =? CSAP_INVALID_HANDLE then [] else [(ta, c)].

Lemma destroy_csap_wp ta c l g (Q : result bool -> held -> Prop) :
  h_csaps g = csap_at ta c ++ l ->
  (forall b, Q (Val b) (Held (h_socks g) l (h_rules g) (h_init g) (h_now g) (h_pend g))) ->
  wp h_world (destroy_csap ta c) g Q.
Proof.
  intros Hl HQ. unfold destroy_csap, csap_at in *. destruct (c =? CSAP_INVALID_HANDLE); cbn [negb app] in *.
  - rewrite <- Hl in HQ. destruct g. apply HQ.
  - unfold cleanup_rc. wp_go. cbn [h_upd]. unfold h_uncsap. rewrite Hl, drop_one_head. apply HQ.
Qed.

Lemma cleanup_close_wp r s l g (Q : result bool -> held -> Prop) :
  h_socks g = sock_at r s ++ l ->
  (forall b, Q (Val b) (Held l (h_csaps g) (h_rules g) (h_init g) (h_now g) (h_pend g))) ->
  wp h_world (cleanup_close r s) g Q.
Proof.
  intros Hl HQ. unfold cleanup_close, sock_at in *. destruct (0 <=? s); cbn [app] in *.
  - wp_go. cbn [h_upd]. unfold h_close. rewrite Hl, drop_one_head. apply HQ.
  - rewrite <- Hl in HQ. destruct g. apply HQ.
Qed.

(** The same, when the order is not known. *)
Lemma cleanup_close_perm r s l g (Q : result bool -> held -> Prop) :
  h_socks g ≡ₚ sock_at r s ++ l ->
  (forall b g', h_socks g' ≡ₚ l ->
    h_csaps g' = h_csaps g /\ h_rules g' = h_rules g /\ h_init g' = h_init g /\ h_now g' = h_now g -> Q (Val b) g') ->
  wp h_world (cleanup_close r s) g Q.
Proof.
  intros Hl HQ. unfold cleanup_close, sock_at in *. destruct (0 <=? s); cbn [app] in *; [|wp_go; by apply HQ].
  wp_go. cbn [h_upd]. apply HQ; [|done]. cbn [h_close h_socks].
  apply (Permutation_cons_inv (a := (r, s))). rewrite <- Hl. symmetry. apply drop_one_perm.
  rewrite Hl. apply list_elem_of_here.
Qed.

(** The keys of the three settings; statements that change them. *)
Definition rx_keys (ta ifn : string) (q : Z) : list ckey :=
  [(ta, ifn, q, "rx_coalesce_usecs"); (ta, ifn, q, "rx_max_coalesced_frames");
   (ta, ifn, q, "use_adaptive_rx_coalesce")]%string.
Definition rx_pend (ta ifn : string) (q : Z) : list ckey :=
  [(ta, ifn, q, "rx_coalesce_usecs"); (ta, ifn, q, "rx_max_coalesced_frames")]%string.

(** The change concerns the settings only. *)
Definition changes (ta ifn : string) (q : Z) (g g' : held) : Prop :=
  rest_same g g' /\ settled (rx_keys ta ifn q) (rx_pend ta ifn q) g'.

Lemma changes_set ta ifn q p v g g' : (ta, ifn, q, p) ∈ rx_keys ta ifn q ->
  changes ta ifn q g g' -> changes ta ifn q g (h_set (ta, ifn, q, p) v g').
Proof. intros Hk [Hr Hs]. split; [exact Hr|]. by apply settled_set. Qed.
Lemma changes_local ta ifn q p v g g' : (ta, ifn, q, p) ∈ rx_pend ta ifn q ->
  changes ta ifn q g g' -> changes ta ifn q g (h_local (ta, ifn, q, p) v g').
Proof. intros Hk [Hr Hs]. split; [exact Hr|]. by apply settled_local. Qed.
Lemma changes_commit ta ifn q b g g' :
  changes ta ifn q g g' -> changes ta ifn q g (h_commit b g').
Proof.
  intros [Hr Hs]. split; [exact Hr|]. apply settled_commit; [|done].
  intros k. unfold rx_pend, rx_keys. set_solver.
Qed.
Lemma changes_refl ta ifn q g : settled (rx_keys ta ifn q) (rx_pend ta ifn q) g -> changes ta ifn q g g.
Proof. done. Qed.
End common.

(** A call that failed took nothing. *)
Ltac failed_call H :=
  cbn [h_upd fst snd]; unfold when_ok;
  match goal with E : (_ =? 0) = false |- _ => rewrite E end; exact H.

(** A key is one of the list, by position. *)
Ltac in_list := unfold rx_keys, rx_pend;
  repeat first [apply list_elem_of_here | apply list_elem_of_further].

(** Prove that the settings changed are the three, statement by statement. *)
Ltac solve_changes :=
  cbn [h_upd];
  repeat first
    [ apply changes_commit
    | apply when_ok_cases; intros _
    | apply changes_set; [in_list|]
    | apply changes_local; [in_list|]
    | assumption ].

Section common_wp.
Context {TE : Te}.

(** Whatever the end, only the settings have changed. *)
Definition only_changes {A} (ta ifn : string) (q : Z) (g : held) (r : result A) (g' : held) : Prop :=
  match r with Val _ | Exc _ => changes ta ifn q g g' | _ => False end.

Lemma disable_adaptive_wp ta ifn q g :
  changes ta ifn q g g -> wp h_world (disable_adaptive ta ifn q) g (only_changes ta ifn q g).
Proof. intros Hg. unfold disable_adaptive. wp_go; cbn [only_changes]; solve_changes. Qed.
End common_wp.

(** ** The common part of the tests *)

(** The locals its cleanup uses: sockets, CSAPs, the queue, the previous
    settings once they were saved, the location of the rule once it was
    committed. *)
Record rt_locals := RtLocals {
  rt_iut_s : Z; rt_tst_s : Z; rt_csap_tx : Z; rt_csap_rx : Z; rt_queue : Z;
  rt_prev : option (Z * Z * Z); rt_rule : option Z }.
Definition rt_set_socks (a b : Z) (l : rt_locals) : rt_locals :=
  RtLocals a b (rt_csap_tx l) (rt_csap_rx l) (rt_queue l) (rt_prev l) (rt_rule l).
Definition rt_set_tx (c : Z) (l : rt_locals) : rt_locals :=
  RtLocals (rt_iut_s l) (rt_tst_s l) c (rt_csap_rx l) (rt_queue l) (rt_prev l) (rt_rule l).
Definition rt_set_rx (c : Z) (l : rt_locals) : rt_locals :=
  RtLocals (rt_iut_s l) (rt_tst_s l) (rt_csap_tx l) c (rt_queue l) (rt_prev l) (rt_rule l).
Definition rt_set_queue (q : Z) (l : rt_locals) : rt_locals :=
  RtLocals (rt_iut_s l) (rt_tst_s l) (rt_csap_tx l) (rt_csap_rx l) q (rt_prev l) (rt_rule l).
Definition rt_set_prev (p : Z * Z * Z) (l : rt_locals) : rt_locals :=
  RtLocals (rt_iut_s l) (rt_tst_s l) (rt_csap_tx l) (rt_csap_rx l) (rt_queue l) (Some p) (rt_rule l).
Definition rt_set_rule (loc : Z) (l : rt_locals) : rt_locals :=
  RtLocals (rt_iut_s l) (rt_tst_s l) (rt_csap_tx l) (rt_csap_rx l) (rt_queue l) (rt_prev l) (Some loc).

Abbreviation rt_start q rule := (RtLocals (-1) (-1) CSAP_INVALID_HANDLE CSAP_INVALID_HANDLE q None rule).

Section rx_test.
Context {TE : Te}.
Context (iut tst : rcf_rpc_server) (iut_if tst_if : string) (iut_addr tst_addr : sockaddr).
Local Abbreviation ta := (rpcs_ta iut).

(** The sockets, and the first packet. *)
Definition connect_part (fuel : nat) : T rt_locals unit :=
  '(iut_s, tst_s) ← lift (CHECK_OUT (call (GEN_CONNECTION iut tst RPC_SOCK_DGRAM iut_addr tst_addr)));
  _ ← modify (rt_set_socks iut_s tst_s);
  _ ← lift (net_drv_send_recv_check fuel tst tst_s iut iut_s (Some "Sending first packet from Tester"%string));
  mret tt.

(** The captures, the traffic between them, and what is made of the packets of
    the tester, then of those of the IUT. *)
Definition capture_part {X} (send_delay : Z) (tx_part : list tad_pkt -> M X)
    (rx_part : X -> list tad_pkt -> M unit) : T rt_locals unit :=
  csap_tx ← lift (CHECK_OUT (call (tapi_udp_ip_eth_csap_create (rpcs_ta tst) tst_if TAD_ETH_RECV_OUT None None
                                    (sa_family iut_addr) iut_addr tst_addr)));
  _ ← modify (rt_set_tx csap_tx);
  _ ← lift (CHECK_RC (call (tapi_tad_trrecv_start (rpcs_ta tst) csap_tx)));
  csap_rx ← lift (CHECK_OUT (call (tapi_udp_ip_eth_csap_create ta iut_if TAD_ETH_RECV_DEF None None
                                    (sa_family iut_addr) iut_addr tst_addr)));
  _ ← modify (rt_set_rx csap_rx);
  _ ← lift (CHECK_RC (call (tapi_tad_trrecv_start ta csap_rx)));
  iut_s ← gets rt_iut_s;
  tst_s ← gets rt_tst_s;
  _ ← lift (traffic iut tst iut_s tst_s send_delay);
  tx ← lift (CHECK_OUT (call (tapi_tad_trrecv_stop (rpcs_ta tst) csap_tx)));
  a ← lift (tx_part tx);
  rx ← lift (CHECK_OUT (call (tapi_tad_trrecv_stop ta csap_rx)));
  lift (rx_part a rx).

(** What both mains do at their [cleanup] labels, the rule apart. *)
Definition common_cleanup (l : rt_locals) : M bool :=
  also (destroy_csap (rpcs_ta tst) (rt_csap_tx l))
 (also (destroy_csap ta (rt_csap_rx l))
 (also (cleanup_close iut (rt_iut_s l))
 (also (cleanup_close tst (rt_tst_s l))
       (restore_settings ta iut_if (rt_queue l) (rt_prev l))))).

(** What is held, by the locals; [rules]: whether the test may add a rule. *)
Context (rules : bool).

Definition rt_inv (l : rt_locals) (g : held) : Prop :=
  h_socks g = sock_at iut (rt_iut_s l) ++ sock_at tst (rt_tst_s l) /\
  h_csaps g = csap_at (rpcs_ta tst) (rt_csap_tx l) ++ csap_at ta (rt_csap_rx l) /\
  h_rules g = match rt_rule l with Some loc => [(ta, iut_if, loc)] | None => [] end /\
  settings_inv ta iut_if (rt_queue l) (rt_prev l) g /\
  (rules = false -> rt_rule l = None).

Lemma rt_inv_start init : rt_inv (rt_start (-1) None) (clean init).
Proof.
  unfold rt_inv, csap_at. cbn. rewrite Z.eqb_refl. by repeat split.
Qed.

Lemma common_cleanup_wp l g : rt_inv l g ->
  wp h_world (common_cleanup l) g (fun r g' => match r with
    | Val _ => h_socks g' = [] /\ h_csaps g' = [] /\ h_rules g' = h_rules g /\
        forall k, h_now g' k = h_init g' k
    | _ => False
    end).
Proof.
  intros (Hs & Hc & Hr & Hset & _). unfold common_cleanup, also. wp_go.
  eapply destroy_csap_wp; [exact Hc|]. intros b1. wp_go.
  eapply destroy_csap_wp; [cbn; by rewrite app_nil_r|]. intros b2. wp_go.
  eapply cleanup_close_wp; [exact Hs|]. intros b3. wp_go.
  eapply cleanup_close_wp; [cbn; by rewrite app_nil_r|]. intros b4. wp_go.
  eapply wp_mono; [apply restore_settings_wp; exact Hset|].
  intros [b5| | |] g' H; try done. destruct H as [(Es & Ec & Er & Ei) Hnow].
  cbn [h_socks h_csaps h_rules h_init bpost] in *. wp_go. done.
Qed.

(** What the test may change without ceasing to be able to restore it. *)
Lemma inv_changes l g g' q p :
  rt_queue l = q -> rt_prev l = Some p -> rt_inv l g -> changes ta iut_if q g g' -> rt_inv l g'.
Proof.
  intros <- Hp (Hs & Hc & Hr & Hset & Hru) [(Es & Ec & Er & Ei) Hst]. unfold rt_inv.
  rewrite Es, Ec, Er, Hp in *. split; [done|]. split; [done|]. split; [done|]. split; [|done].
  destruct p as [[u f] a]. unfold settings_inv in *. rewrite Ei. destruct Hset as (-> & -> & -> & _). done.
Qed.

Lemma inv_same_settings l g q p : rt_queue l = q -> rt_prev l = Some p -> rt_inv l g -> changes ta iut_if q g g.
Proof.
  intros <- Hp (_ & _ & _ & Hset & _). rewrite Hp in Hset. destruct p as [[u f] a]. by destruct Hset as (_ & _ & _ & Hst).
Qed.

Lemma st_settings {B} (p : M unit) (f : unit -> T rt_locals B) G L g q prev :
  rt_queue L = q -> rt_prev L = Some prev -> rt_inv L g ->
  (changes ta iut_if q g g -> wp h_world p g (only_changes ta iut_if q g)) ->
  (forall g', rt_inv L g' -> wp h_world (f tt L) g' (upto rt_inv G)) ->
  wp h_world (mbind f (lift p) L) g (upto rt_inv G).
Proof.
  intros Hq Hp HI Hp' Hf. apply st_call.
  eapply wp_mono; [apply Hp'; by eapply inv_same_settings|].
  intros [[]|j|w|] g' H; cbn in *; try done; [apply Hf|]; by eapply inv_changes.
Qed.

(** Saving the settings. *)
Lemma rt_inv_saved q rule prev g :
  settings_inv ta iut_if q (Some prev) g -> rt_inv (rt_start q rule) g ->
  rt_inv (rt_set_prev prev (rt_start q rule)) g.
Proof. intros Hp (Hs & Hc & Hr & _ & Hru). by repeat split. Qed.

Lemma connect_part_keeps fuel q rule prev g :
  let L := rt_set_prev prev (rt_start q rule) in
  rt_inv L g ->
  wp h_world (connect_part fuel L) g (upto rt_inv (fun _ l g' => rt_inv l g' /\
    exists s1 s2, l = rt_set_socks s1 s2 L)).
Proof.
  intros L Hg. unfold connect_part.
  apply st_call. wp_go; [|failed_call Hg]. destruct p as [s1 s2]. apply st_modify.
  cbn [h_ok h_upd fst snd] in *. autorewrite with zbool in *. subst t. specialize (H eq_refl) as [H1 H2].
  unfold when_ok. cbn [Z.eqb]. set (g2 := h_open _ _).
  assert (Hg2 : rt_inv (rt_set_socks s1 s2 L) g2).
  { destruct Hg as (Hs & Hc & Hr & Hst & Hru). unfold rt_inv, L, g2. cbn in *. rewrite Hs.
    unfold sock_at. rewrite (proj2 (Z.leb_le 0 s1)), (proj2 (Z.leb_le 0 s2)) by done. by repeat split. }
  clearbody g2. apply st_neutral; [apply data_check_neutral|done|]. intros _. cbn. eauto 6.
Qed.

Lemma capture_part_keeps {X} delay (tx_part : list tad_pkt -> M X) rx_part s1 s2 q rule prev g :
  (forall l, only neutral any_jump (tx_part l)) -> (forall a l, only neutral any_jump (rx_part a l)) ->
  let L := rt_set_socks s1 s2 (rt_set_prev prev (rt_start q rule)) in
  rt_inv L g ->
  wp h_world (capture_part delay tx_part rx_part L) g (ends rt_inv).
Proof.
  intros Htx Hrx L Hg. unfold capture_part.
  apply st_call. wp_go; [|failed_call Hg]. apply st_modify.
  cbn [h_ok h_upd fst snd] in *. autorewrite with zbool in *. subst t. specialize (H eq_refl).
  unfold when_ok. cbn [Z.eqb]. set (g2 := h_csap _ _).
  match goal with |- wp _ (mbind _ _ ?L) _ _ => set (L2 := L) end.
  assert (Hg2 : rt_inv L2 g2).
  { destruct Hg as (Hs & Hc & Hr & Hst & Hru). unfold rt_inv, L2, L, g2. cbn in *. rewrite Hc.
    unfold csap_at. rewrite Z.eqb_refl. rewrite (proj2 (Z.eqb_neq z CSAP_INVALID_HANDLE)) by done. by repeat split. }
  clear Hg. clearbody g2. clear g. rename g2 into g. subst L2.
  apply st_neutral; [solve_only|done|]. intros _.
  apply st_call. wp_go; [|failed_call Hg2]. apply st_modify.
  cbn [h_ok h_upd fst snd] in *. autorewrite with zbool in *. subst t. specialize (H0 eq_refl).
  unfold when_ok. cbn [Z.eqb]. set (g2 := h_csap _ _).
  match goal with |- wp _ (mbind _ _ ?L) _ _ => set (L2 := L) end.
  assert (Hg : rt_inv L2 g2).
  { destruct Hg2 as (Hs & Hc & Hr & Hst & Hru). unfold rt_inv, L2, L, g2. cbn in *. rewrite Hc.
    unfold csap_at. rewrite Z.eqb_refl. rewrite (proj2 (Z.eqb_neq z0 CSAP_INVALID_HANDLE)) by done.
    rewrite app_nil_r. by repeat split. }
  clear Hg2. clearbody g2. clear g. rename g2 into g. subst L2.
  apply st_neutral; [solve_only|done|]. intros _.
  apply st_gets, st_gets.
  do 2 (apply st_neutral; [try unfold traffic; solve_only|done|]; intros ?).
  apply st_neutral; [apply Htx|done|]. intros ?.
  apply st_neutral; [solve_only|done|]. intros ?.
  apply st_last; [apply Hrx|done].
Qed.
End rx_test.
