(* ===== verification/RxUsecs.v ===== *)
(** rx_path/rx_coalesce_usecs.c: the groups of packets the coalescing of Rx
    interrupts makes, their statistics, and the test around them. *)
From Stdlib Require Import Sorting.Sorted.
From S2P Require Import Prelude Prog Te AgentRpc Locals NetDrvTs Double Capture Resources RxCommon.

Definition MIN_GROUP_DELAY_LOW : Z := 30.
Definition MIN_NONZERO_USECS : Z := MIN_GROUP_DELAY_LOW * 10.
Definition ERR_MARGIN : double := d_lit 10 100.
Definition MAX_UNEXP_DELAYS : double := d_lit 5 1000.
Definition MIN_SEND_DELAY : Z := 10.
Definition MAX_COALESCED_PKTS : Z := 30.

(** [test_cb_args]. *)
Record test_cb_args := TestCbArgs {
  ta_cb : cb_args; ta_usecs : Z; ta_group_ts : timeval;
  ta_total : double; ta_sq : double; ta_avg : double; ta_dev : double }.

Definition TEST_CB_ARGS_INIT : test_cb_args :=
  TestCbArgs CB_ARGS_INIT 0 (TV 0 0) (d_of_Z 0) (d_of_Z 0) (d_of_Z 0) (d_of_Z 0).

Definition ta_set_cb (a : cb_args) (x : test_cb_args) : test_cb_args :=
  TestCbArgs a (ta_usecs x) (ta_group_ts x) (ta_total x) (ta_sq x) (ta_avg x) (ta_dev x).
Definition ta_set_group_ts (t : timeval) (x : test_cb_args) : test_cb_args :=
  TestCbArgs (ta_cb x) (ta_usecs x) t (ta_total x) (ta_sq x) (ta_avg x) (ta_dev x).

(** [MIN] and [MAX] on [unsigned int]. *)
Definition min_group_delay_of (coalesce_usecs : Z) : Z :=
  Z.max (Z.min 100 (u32 (Z.quot coalesce_usecs 10))) MIN_GROUP_DELAY_LOW.
Definition send_delay_of (coalesce_usecs : Z) : Z :=
  Z.max MIN_SEND_DELAY (Z.quot coalesce_usecs MAX_COALESCED_PKTS).

Section rx_usecs.
Context {TE : Te}.

Definition finish_pkt_group (ts : timeval) (x : test_cb_args) : test_cb_args :=
  let '(skip_group, a) := skip_delayed (ta_cb x) in
  let x := ta_set_cb a x in
  let x :=
    if skip_group then x
    else
      let group_duration := d_of_Z (TIMEVAL_SUB ts (ta_group_ts x)) in
      let duration_deviation := d_sub group_duration (d_of_Z (ta_usecs x)) in
      TestCbArgs (ca_set_n_groups (u32 (ca_n_groups a + 1)) a) (ta_usecs x) (ta_group_ts x)
        (d_add (ta_total x) group_duration)
        (d_add (ta_sq x) (d_mul duration_deviation duration_deviation)) (ta_avg x) (ta_dev x) in
  ta_set_group_ts ts x.

Definition process_rx_pkts (le : bool) (min_group_delay : Z) (pkt : tad_pkt) (x : test_cb_args)
    : test_cb_args :=
  match take_pkt le pkt (ta_cb x) with
  | inl a => ta_set_cb a x
  | inr (ts, a) =>
      let x := ta_set_cb a x in
      let x :=
        if ca_n_pkts a =? 1 then ta_set_group_ts ts x
        else if min_group_delay <? TIMEVAL_SUB ts (ca_prev_ts a) then finish_pkt_group ts x
        else x in
      ta_set_cb (ca_set_prev_ts ts (ta_cb x)) x
  end.

Definition finalize_stats (x : test_cb_args) : test_cb_args :=
  let n := ca_n_groups (ta_cb x) in
  if n =? 0 then x
  else TestCbArgs (ta_cb x) (ta_usecs x) (ta_group_ts x) (ta_total x) (ta_sq x)
         (d_div (ta_total x) (d_of_Z n)) (d_sqrt (d_div (ta_sq x) (d_of_Z n))).

(** The decision at the end of [main]. *)
Definition judge (coalesce_usecs : Z) (x : test_cb_args) : M unit :=
  if 0 <? coalesce_usecs then
    if ca_n_groups (ta_cb x) =? 0 then TEST_FAIL "Failed to get statistics for packet groups" []
    else
      let avg_err := d_div (d_abs (d_sub (ta_avg x) (d_of_Z coalesce_usecs))) (d_of_Z coalesce_usecs) in
      let dev_err := d_div (ta_dev x) (d_of_Z coalesce_usecs) in
      if d_gtb avg_err ERR_MARGIN || d_gtb dev_err ERR_MARGIN then
        TEST_VERDICT "Actual timestamps of received packets differ too much from the expected distribution" []
      else mret tt
  else if d_gtb (d_div (d_of_Z (ca_n_groups (ta_cb x))) (d_of_Z (ca_n_pkts (ta_cb x)))) MAX_UNEXP_DELAYS
  then TEST_VERDICT "Too many big delays between packets" []
  else mret tt.

(** What [main] makes of the capture on the IUT. *)
Definition analyse_rx (le : bool) (coalesce_usecs : Z) (a : cb_args) (rx : list tad_pkt) : M unit :=
  let x := TestCbArgs (ca_set_n_pkts 0 a) (u32 coalesce_usecs) (TV 0 0)
             (d_of_Z 0) (d_of_Z 0) (d_of_Z 0) (d_of_Z 0) in
  let x := capture (process_rx_pkts le (min_group_delay_of coalesce_usecs)) rx x in
  if ca_n_pkts (ta_cb x) =? 0 then TEST_VERDICT "No packets were captured by IUT CSAP" []
  else if ca_failed (ta_cb x) then TEST_FAIL "Failed to process some of the captured packets on IUT" []
  else judge coalesce_usecs (finalize_stats x).

Definition analyse (le : bool) (coalesce_usecs : Z) (tx rx : list tad_pkt) : M unit :=
  a ← analyse_tx le (send_delay_of coalesce_usecs) tx; analyse_rx le coalesce_usecs a rx.
End rx_usecs.

(** ** Reference: the groups, from the two captures *)

(** The durations of the groups that are measured: a group ends before a packet
    that comes more than [gap] after the previous one, and is not measured when
    a late packet was sent since the group before ended.  [start]: the time of
    the first packet of the group; [low]: the id that ended the one before. *)
Fixpoint durations (gap : Z) (dels : list Z) (start : timeval) (low : Z) (prev : timeval)
    (l : list (timeval * Z)) : list Z :=
  match l with
  | [] => []
  | (t, i) :: l' =>
      if gap <? tv_us t - tv_us prev then
        (if hit dels low i then [] else [tv_us t - tv_us start]) ++ durations gap dels t i t l'
      else durations gap dels start low t l'
  end.

Section stats.
Context {TE : Te}.

Lemma durations_nonneg gap dels start low prev i0 l :
  tv_us start <= tv_us prev -> in_order (prev, i0) l ->
  Forall (Z.le 0) (durations gap dels start low prev l).
Proof.
  revert start low prev i0. induction l as [|[t i] l IH]; intros start low prev i0 Hs; cbn; [constructor|].
  intros (Ht & _ & Hl). case_match; [|eapply IH; [|exact Hl]; cbn in Ht; lia].
  apply Forall_app. split; [|eapply IH; [|exact Hl]; lia].
  case_match; [constructor|]. constructor; [cbn in Ht; lia|constructor].
Qed.

(** The state after some packets: [g] groups of total [T] and squares [Q]. *)
Definition state_is (u : Z) (dels : list Z) (start prev : timeval) (low cur n g T Q : Z)
    (x : test_cb_args) : Prop :=
  exists d k av dv, x = TestCbArgs (CbArgs d dels k prev n cur g false) u start (d_of_Z T) (d_of_Z Q) av dv /\
    drop k dels = filter (fun e => low < e) dels.

Lemma finish_group u dels start prev low cur n g T Q x t :
  Forall small dels -> StronglySorted Z.lt dels -> low <= cur -> 0 <= g < 2 ^ 32 - 1 ->
  state_is u dels start prev low cur n g T Q x ->
  let d := tv_us t - tv_us start in
  0 <= T -> 0 <= Q -> 0 <= d -> exact u ->
  (hit dels low cur = false -> exact (T + d) /\ exact (Q + (d - u) * (d - u))) ->
  state_is u dels t prev cur cur n (if hit dels low cur then g else g + 1)
    (if hit dels low cur then T else T + d) (if hit dels low cur then Q else Q + (d - u) * (d - u))
    (finish_pkt_group t x).
Proof.
  intros Hs Hso Hlow Hg (dl & k & av & dv & -> & Hk) d HT HQ Hd Hu Hex. unfold finish_pkt_group.
  destruct (skip_delayed_spec (CbArgs dl dels k prev n cur g false) low) as (k' & E & Hk'); [done..|].
  cbn [ta_cb]. rewrite E. cbn [ca_delayed ca_cur_id] in *. destruct (hit dels low cur).
  - exists dl, k', av, dv. split; [done|exact Hk'].
  - destruct (Hex eq_refl) as [HeT HeQ]. unfold exact in *.
    assert (Hsq : 0 <= (d - u) * (d - u)) by apply Z.square_nonneg.
    assert (Habs : Z.abs (d - u) <= (d - u) * (d - u)) by nia.
    set (sq := (d - u) * (d - u)) in *.
    assert (Hall : exact d /\ exact (d - u) /\ exact sq /\ exact T /\ exact Q /\ exact (T + d) /\ exact (Q + sq)).
    { unfold exact. repeat split; try done; lia. }
    destruct Hall as (E1 & E2 & E3 & E4 & E5 & E6 & E7).
    cbn [ta_set_cb ta_cb ta_group_ts ta_usecs ta_total ta_sq ta_avg ta_dev ca_n_groups ca_set_cur_delayed ca_set_n_groups
      ca_send_delay ca_delayed ca_cur_delayed ca_prev_ts ca_n_pkts ca_cur_id ca_failed].
    rewrite timeval_sub_us. fold d.
    rewrite d_sub_exact, d_square_exact by done. fold sq. rewrite !d_add_exact by done.
    rewrite u32_id by lia. exists dl, k', av, dv. split; [done|exact Hk'].
Qed.

Lemma rx_step le gap u dels start prev low cur n g T Q x p t i :
  shows le p (t, i) -> 1 <= n < 2 ^ 32 - 1 ->
  state_is u dels start prev low cur n g T Q x ->
  exists y, state_is u dels start prev low i (n + 1) g T Q y /\
    process_rx_pkts le gap p x =
      (let z := if gap <? tv_us t - tv_us prev then finish_pkt_group t y else y in
       ta_set_cb (ca_set_prev_ts t (ta_cb z)) z).
Proof.
  intros Hp Hn (d & k & av & dv & -> & Hk).
  exists (TestCbArgs (CbArgs d dels k prev (n + 1) i g false) u start (d_of_Z T) (d_of_Z Q) av dv).
  split; [by exists d, k, av, dv|]. unfold process_rx_pkts. cbn [ta_cb].
  rewrite (take_pkt_shows le p (t, i)) by done.
  cbn [fst snd ca_set_cur_id ca_set_n_pkts ca_n_pkts ca_prev_ts ca_send_delay ca_delayed ca_cur_delayed
    ca_n_groups ca_failed ta_set_cb ta_usecs ta_group_ts ta_total ta_sq ta_avg ta_dev ca_cur_id].
  rewrite u32_id, timeval_sub_us by lia. by rewrite (proj2 (Z.eqb_neq (n + 1) 1)) by lia.
Qed.

Lemma state_prev u dels start prev low cur n g T Q x t :
  state_is u dels start prev low cur n g T Q x ->
  state_is u dels start t low cur n g T Q (ta_set_cb (ca_set_prev_ts t (ta_cb x)) x).
Proof. intros (d & k & av & dv & -> & Hk). by exists d, k, av, dv. Qed.

Lemma rx_fold le gap u dels pkts l : Forall small dels -> StronglySorted Z.lt dels -> exact u ->
  Forall2 (shows le) pkts l -> forall start prev low cur n g T Q x,
  state_is u dels start prev low cur n g T Q x ->
  in_order (prev, cur) l -> low <= cur -> tv_us start <= tv_us prev ->
  1 <= n -> n + Z.of_nat (length l) < 2 ^ 32 -> 0 <= g < n -> 0 <= T -> 0 <= Q ->
  let ds := durations gap dels start low prev l in
  T + zsum ds < 2 ^ 53 -> Q + zsum (squares u ds) < 2 ^ 53 ->
  exists start' prev' low' cur', state_is u dels start' prev' low' cur' (n + Z.of_nat (length l))
    (g + Z.of_nat (length ds)) (T + zsum ds) (Q + zsum (squares u ds))
    (capture (process_rx_pkts le gap) pkts x).
Proof.
  intros Hs Hso Hu Hl. induction Hl as [|p [t i] pkts l Hp Hl IH];
    intros start prev low cur n g T Q x Hx Hord Hlow Hst Hn Hlen Hg HT HQ ds HTs HQs.
  - subst ds. cbn -[Z.of_nat]. rewrite !Z.add_0_r. by exists start, prev, low, cur.
  - cbn [in_order fst snd] in Hord. destruct Hord as (Ht & Hi & Hord). cbn [length] in *.
    unfold capture. cbn [fold_left]. fold (capture (process_rx_pkts le gap) pkts).
    destruct (rx_step le gap u dels start prev low cur n g T Q x p t i Hp ltac:(lia) Hx) as (y & Hy & ->).
    subst ds. cbn [durations] in *. destruct (gap <? tv_us t - tv_us prev) eqn:Eg; cbv zeta.
    + set (rest := durations gap dels t i t l) in *.
      pose proof (zsum_nonneg _ (durations_nonneg gap dels t i t i l ltac:(lia) Hord)) as Hr0. fold rest in Hr0.
      pose proof (zsum_nonneg _ (squares_nonneg u rest)) as Hr1.
      destruct (hit dels low i) eqn:Eh; cbn [app] in *.
      * pose proof (finish_group u dels start prev low i (n + 1) g T Q y t
             Hs Hso ltac:(lia) ltac:(lia) Hy HT HQ ltac:(lia) Hu ltac:(congruence)) as Hf.
        rewrite Eh in Hf. apply (state_prev _ _ _ _ _ _ _ _ _ _ _ t) in Hf.
        destruct (IH _ _ _ _ _ _ _ _ _ Hf) as (s' & p' & l' & c' & Hend); try done; try fold rest; try lia.
        exists s', p', l', c'. replace (n + Z.of_nat (S (length l))) with (n + 1 + Z.of_nat (length l)) by lia.
        exact Hend.
      * assert (Hd0 : 0 <= tv_us t - tv_us start) by lia. set (d := tv_us t - tv_us start) in *.
        change (squares u (d :: rest)) with ((d - u) * (d - u) :: squares u rest) in *.
        rewrite !zsum_cons in *.
        pose proof (Z.square_nonneg (d - u)) as Hsq.
        assert (Hex : hit dels low i = false -> exact (T + d) /\ exact (Q + (d - u) * (d - u))).
        { intros _. unfold exact. split; lia. }
        pose proof (finish_group u dels start prev low i (n + 1) g T Q y t
             Hs Hso ltac:(lia) ltac:(lia) Hy HT HQ ltac:(lia) Hu Hex) as Hf.
        rewrite Eh in Hf. fold d in Hf. apply (state_prev _ _ _ _ _ _ _ _ _ _ _ t) in Hf.
        destruct (IH _ _ _ _ _ _ _ _ _ Hf) as (s' & p' & l' & c' & Hend); try done; try fold rest; try lia.
        exists s', p', l', c'. fold rest in Hend. cbn [length].
        replace (n + Z.of_nat (S (length l))) with (n + 1 + Z.of_nat (length l)) by lia.
        replace (g + Z.of_nat (S (length rest))) with (g + 1 + Z.of_nat (length rest)) by lia.
        rewrite !Z.add_assoc. exact Hend.
    + destruct (IH start t low i (n + 1) g T Q _ (state_prev _ _ _ _ _ _ _ _ _ _ _ t Hy))
        as (s' & p' & l' & c' & Hend); try done; try lia.
      exists s', p', l', c'. replace (n + Z.of_nat (S (length l))) with (n + 1 + Z.of_nat (length l)) by lia.
      exact Hend.
Qed.

Lemma rx_first le gap u p t i a :
  shows le p (t, i) -> ca_failed a = false -> Forall small (ca_delayed a) ->
  ca_cur_delayed a = O -> ca_n_groups a = 0 ->
  state_is u (ca_delayed a) t t (-1) i 1 0 0 0
    (process_rx_pkts le gap p (TestCbArgs (ca_set_n_pkts 0 a) u (TV 0 0)
       (d_of_Z 0) (d_of_Z 0) (d_of_Z 0) (d_of_Z 0))).
Proof.
  intros Hp Hf Hs Hk Hg. unfold process_rx_pkts. rewrite (take_pkt_shows le p (t, i)) by done.
  destruct a as [d dels k prev n cur g f]. cbn in Hf, Hs, Hk, Hg. subst.
  exists d, O, (d_of_Z 0), (d_of_Z 0). split; [reflexivity|]. rewrite drop_0. symmetry. apply filter_all.
  eapply Forall_impl; [exact Hs|]. unfold small. cbn. lia.
Qed.

(** The decision, on exact integers but for the final divisions. *)
Definition reference (u n : Z) (ds : list Z) : M unit :=
  let mean z := d_div (d_of_Z z) (d_of_Z (Z.of_nat (length ds))) in
  if 0 <? u then
    match ds with
    | [] => TEST_FAIL "Failed to get statistics for packet groups" []
    | _ =>
        let share x := d_div x (d_of_Z u) in
        if d_gtb (share (d_abs (d_sub (mean (zsum ds)) (d_of_Z u)))) ERR_MARGIN ||
           d_gtb (share (d_sqrt (mean (zsum (squares u ds))))) ERR_MARGIN
        then TEST_VERDICT "Actual timestamps of received packets differ too much from the expected distribution" []
        else mret tt
    end
  else if d_gtb (d_div (d_of_Z (Z.of_nat (length ds))) (d_of_Z n)) MAX_UNEXP_DELAYS
  then TEST_VERDICT "Too many big delays between packets" []
  else mret tt.

Lemma judge_state u dels start prev low cur n ds x :
  0 <= u < 2 ^ 31 -> 
  state_is u dels start prev low cur n (Z.of_nat (length ds)) (zsum ds) (zsum (squares u ds)) x ->
  judge u (finalize_stats x) = reference u n ds.
Proof.
  intros Hu (d & k & av & dv & -> & _). unfold finalize_stats. cbn [ta_cb ca_n_groups].
  unfold judge, reference. destruct ds as [|e ds]; [by destruct (0 <? u)|].
  rewrite (proj2 (Z.eqb_neq (Z.of_nat (length (e :: ds))) 0)) by (cbn [length]; lia).
  cbn [ta_cb ca_n_groups ta_avg ta_dev ta_total ta_sq ca_n_pkts].
  by rewrite (proj2 (Z.eqb_neq (Z.of_nat (length (e :: ds))) 0)) by (cbn [length]; lia).
Qed.

Lemma perfect_pass u n ds : 0 < u < 2 ^ 31 -> ds <> [] -> Forall (eq u) ds -> zsum ds < 2 ^ 53 ->
  reference u n ds = mret tt.
Proof.
  intros Hu Hne Hall Hsum. unfold reference. rewrite (proj2 (Z.ltb_lt 0 u)) by lia.
  destruct (perfect_stats u ds) as [-> ->]; try done. destruct ds as [|e ds]; [done|].
  by replace (d_gtb (d_of_Z 0) ERR_MARGIN) with false by (vm_compute; reflexivity).
Qed.

(** C27.  What the test decides from the packets captured on the tester and on
    the IUT, whatever the byte order, is what the reference decides on the
    durations of the packet groups, computed without counters, indices or
    rounding: groups end at gaps longer than [min_group_delay], those disturbed
    by a late packet of the tester are left out.  In particular a NIC all of
    whose measured groups last [coalesce_usecs] passes. *)
Theorem analyse_correct le u tx rx t0 i0 txl t1 i1 rxl :
  0 <= u < 2 ^ 31 ->
  Forall2 (shows le) tx ((t0, i0) :: txl) -> rising (t0, i0) txl -> Z.of_nat (length txl) + 1 < 2 ^ 32 ->
  Forall2 (shows le) rx ((t1, i1) :: rxl) -> in_order (t1, i1) rxl -> 0 <= i1 ->
  Z.of_nat (length rxl) + 1 < 2 ^ 32 ->
  let ds := durations (min_group_delay_of u) (late (u32 (send_delay_of u * 5)) t0 txl) t1 (-1) t1 rxl in
  zsum ds < 2 ^ 53 -> zsum (squares u ds) < 2 ^ 53 ->
  analyse le u tx rx = reference u (Z.of_nat (length rxl) + 1) ds /\
  (0 < u -> ds <> [] -> Forall (eq u) ds -> analyse le u tx rx = mret tt).
Proof.
  intros Hu Htx Hri Htl Hrx Hio Hi1 Hrl ds Hs1 Hs2.
  assert (E : analyse le u tx rx = reference u (Z.of_nat (length rxl) + 1) ds).
  { unfold analyse. rewrite (analyse_tx_all le tx t0 i0 txl) by done.
    cbn [mbind prog_bind bind mret prog_ret lift_result]. unfold analyse_rx.
    destruct (late_sorted (u32 (send_delay_of u * 5)) t0 (t0, i0) txl Hri) as (Hsm & Hso & _).
    set (dels := late _ _ _) in *. rewrite (u32_id u) by lia.
    inversion Hrx as [|p ti pkts l Hp Hl E1 E2]; subst. unfold capture at 1 2 3. cbn [fold_left].
    match goal with |- context [process_rx_pkts le ?g p (TestCbArgs (ca_set_n_pkts 0 ?a) _ _ _ _ _ _)] =>
      pose proof (rx_first le g u p t1 i1 a Hp eq_refl Hsm eq_refl eq_refl) as Hx end.
    destruct (rx_fold le (min_group_delay_of u) u dels pkts rxl Hsm Hso ltac:(unfold exact; lia) Hl
      _ _ _ _ _ _ _ _ _ Hx) as (s' & p' & l' & c' & Hend); try done; try lia.
    fold ds in Hend. rewrite !Z.add_0_l in Hend. rewrite (Z.add_comm (Z.of_nat (length rxl)) 1). unfold capture in Hend.
    pose proof Hend as (d & k & av & dv & Ex & _). rewrite <- (judge_state _ _ _ _ _ _ _ _ _ Hu Hend).
    rewrite Ex. cbn [ta_cb ca_n_pkts ca_failed].
    rewrite (proj2 (Z.eqb_neq (1 + Z.of_nat (length rxl)) 0)) by lia. done. }
  split; [exact E|]. intros Hpos Hne Hall. rewrite E. apply perfect_pass; [lia|done..].
Qed.
End stats.

Module UsecsWitness.
Local Existing Instance te_ref.
Definition pkt (us id : Z) : tad_pkt := TadPkt (0, TV 0 us) 46 (0, Sender.packet id ++ repeat 0 37) (0, 0) (0, 0) (0, []) (0, []) (0, 0) (0, 0) (0, 0) (0, 0).
Definition tx : list tad_pkt := map (fun k => pkt (10 * k) k) (seqZ 0 5).
Definition rx : list tad_pkt := [pkt 100 0; pkt 110 1; pkt 400 2; pkt 420 3; pkt 700 4].

Lemma analyse_correct_witness :
  analyse true 300 tx rx = reference 300 5 [300; 300] /\ analyse true 300 tx rx = mret tt.
Proof.
  pose proof (analyse_correct true 300 tx rx (TV 0 0) 0
    [(TV 0 10, 1); (TV 0 20, 2); (TV 0 30, 3); (TV 0 40, 4)] (TV 0 100) 0
    [(TV 0 110, 1); (TV 0 400, 2); (TV 0 420, 3); (TV 0 700, 4)]) as H.
  destruct H as [H1 H2].
  - split; reflexivity || discriminate.
  - repeat (constructor; [split; vm_compute; reflexivity|]). constructor.
  - repeat split; (reflexivity || discriminate).
  - reflexivity.
  - repeat (constructor; [split; vm_compute; reflexivity|]). constructor.
  - repeat split; discriminate.
  - discriminate.
  - reflexivity.
  - vm_compute. reflexivity.
  - vm_compute. reflexivity.
  - split; [exact H1|]. apply H2; [reflexivity|discriminate|].
    vm_compute. repeat constructor.
Defined.
End UsecsWitness.

(** ** The test *)

Section test.
Context {TE : Te}.
Context (iut tst : rcf_rpc_server) (iut_if tst_if : string) (iut_addr tst_addr : sockaddr).
Context (coalesce_usecs : Z) (per_queue : bool).
Local Abbreviation ta := (rpcs_ta iut).

(** The choice of a queue. *)
Definition pick_queue : M Z :=
  combined_num ← CHECK_OUT (call (tapi_cfg_if_chan_cur_get ta iut_if TAPI_CFG_IF_CHAN_COMBINED));
  rx_num ← CHECK_OUT (call (tapi_cfg_if_chan_cur_get ta iut_if TAPI_CFG_IF_CHAN_RX));
  tx_num ← CHECK_OUT (call (tapi_cfg_if_chan_cur_get ta iut_if TAPI_CFG_IF_CHAN_TX));
  let queues_num := Z.max rx_num tx_num + combined_num in
  if queues_num =? 0 then TEST_SKIP "No interface queues" []
  else call (rand_range 0 (queues_num - 1)).

(** The Rx rule that leads the traffic to the queue, before its commit: its
    location. *)
Definition make_rule (queue_id : Z) : M Z :=
  flow_type ← call (tapi_cfg_rx_rule_flow_by_socket (sa_family iut_addr) RPC_SOCK_DGRAM);
  '(te_rc, location) ← call (tapi_cfg_rx_rule_find_location ta iut_if 0 0);
  if TE_RC_GET_ERROR te_rc =? TE_ENOENT then TEST_SKIP "Rx classification rules are not supported" []
  else if negb (te_rc =? 0) then TEST_FAIL "Cannot find location for Rx rule: %r" [AI te_rc]
  else
    _ ← CHECK_RC (call (tapi_cfg_rx_rule_add ta iut_if location flow_type));
    _ ← CHECK_RC (call (tapi_cfg_rx_rule_fill_ip_addrs_ports ta iut_if location (sa_family iut_addr)
                          (Some tst_addr) None (Some iut_addr) None));
    _ ← CHECK_RC (call (tapi_cfg_rx_rule_rx_queue_set ta iut_if location queue_id));
    mret location.

Definition use_queue : T rt_locals unit :=
  queue_id ← lift pick_queue;
  _ ← modify (rt_set_queue queue_id);
  location ← lift (make_rule queue_id);
  rc ← lift (call (tapi_cfg_rx_rule_commit ta iut_if location));
  if negb (rc =? 0) then lift (TEST_VERDICT "Failed to add Rx rule: %r" [AI rc])
  else modify (rt_set_rule location).

(** The settings before the test. *)
Definition save_settings (queue_id : Z) : M (Z * Z * Z) :=
  '(rc, prev_rx_usecs) ← call (tapi_cfg_if_coalesce_get ta iut_if queue_id "rx_coalesce_usecs");
  if TE_RC_GET_ERROR rc =? TE_ENOENT then TEST_SKIP "Interrupt coalescing settings are not supported" []
  else if negb (rc =? 0) then TEST_FAIL "Failed to get rx_coalesce_usecs: %r" [AI rc]
  else
    prev_rx_max_frames ← CHECK_OUT (call (tapi_cfg_if_coalesce_get ta iut_if queue_id "rx_max_coalesced_frames"));
    prev_adaptive_rx ← CHECK_OUT (call (tapi_cfg_if_coalesce_get ta iut_if queue_id "use_adaptive_rx_coalesce"));
    mret (prev_rx_usecs, prev_rx_max_frames, prev_adaptive_rx).

Definition set_settings (queue_id max_frames : Z) : M unit :=
  _ ← CHECK_RC (call (tapi_cfg_if_coalesce_set_local ta iut_if queue_id "rx_coalesce_usecs" (u64 coalesce_usecs)));
  _ ← CHECK_RC (call (tapi_cfg_if_coalesce_set_local ta iut_if queue_id "rx_max_coalesced_frames" max_frames));
  rc ← call (tapi_cfg_if_coalesce_commit ta iut_if (0 <=? queue_id));
  rc ← (if TE_RC_GET_ERROR rc =? TE_EOPNOTSUPP then
          rc ← call (tapi_cfg_if_coalesce_set ta iut_if queue_id "rx_coalesce_usecs" (u64 coalesce_usecs));
          if TE_RC_GET_ERROR rc =? TE_EOPNOTSUPP then
            TEST_SKIP "rx_coalesce_usecs=%u is not supported" [AI coalesce_usecs]
          else mret rc
        else mret rc);
  if negb (rc =? 0) then TEST_VERDICT "Failed to set rx_coalesce_usecs, rc=%r" [AI rc] else mret tt.

Definition usecs_body (fuel : nat) (le : bool) : T rt_locals unit :=
  _ ← twhen per_queue use_queue;
  _ ← twhen ((0 <? coalesce_usecs) && (coalesce_usecs <? MIN_NONZERO_USECS))
        (lift (TEST_FAIL "Too small value of coalesce_usecs is requested for this test to work" []));
  queue_id ← gets rt_queue;
  prev ← lift (save_settings queue_id);
  _ ← modify (rt_set_prev prev);
  _ ← connect_part iut tst iut_addr tst_addr fuel;
  _ ← lift (disable_adaptive ta iut_if queue_id);
  _ ← lift (set_settings queue_id (if coalesce_usecs =? 0 then 1 else 0));
  capture_part iut tst iut_if tst_if iut_addr tst_addr (send_delay_of coalesce_usecs)
    (analyse_tx le (send_delay_of coalesce_usecs)) (analyse_rx le coalesce_usecs).

Definition usecs_cleanup (l : rt_locals) : M bool :=
  also (common_cleanup iut tst iut_if l)
       (match rt_rule l with
        | Some location => cleanup_rc (call (tapi_cfg_rx_rule_del ta iut_if location))
        | None => mret true
        end).

Definition usecs_main (fuel : nat) (le : bool) : M status :=
  test_main (rt_start (-1) None)
    (usecs_body fuel le) usecs_cleanup.
End test.

(** ** What the test holds *)
Section holds.
Context {TE : Te}.
Context (iut tst : rcf_rpc_server) (iut_if tst_if : string) (iut_addr tst_addr : sockaddr).
Context (coalesce_usecs : Z) (per_queue : bool).
Local Abbreviation ta := (rpcs_ta iut).
Local Abbreviation rt_inv := (rt_inv iut tst iut_if true).

Lemma usecs_cleanup_wp l g : rt_inv l g ->
  wp h_world (usecs_cleanup iut tst iut_if l) g (fun r g' => match r with Val _ => restored g' | _ => False end).
Proof.
  intros Hg. unfold usecs_cleanup. apply (wp_also h_world _ _ _ (fun g' => h_socks g' = [] /\ h_csaps g' = [] /\
    h_rules g' = match rt_rule l with Some loc => [(ta, iut_if, loc)] | None => [] end /\
    forall k, h_now g' k = h_init g' k)).
  - eapply wp_mono; [by eapply common_cleanup_wp|]. destruct Hg as (_ & _ & Hr & _).
    intros [b| | |] g' H; try done. by rewrite Hr in H.
  - intros g' (Hs & Hc & Hr & Hn). unfold restored. destruct (rt_rule l) as [loc|].
    + unfold cleanup_rc. wp_go. cbn. by rewrite Hr, Hs, Hc, drop_one_head.
    + wp_go. done.
Qed.

Lemma set_settings_wp q frames g :
  changes ta iut_if q g g ->
  wp h_world (set_settings iut iut_if coalesce_usecs q frames) g (only_changes ta iut_if q g).
Proof. intros Hg. unfold set_settings. wp_go; cbn [only_changes]; solve_changes. Qed.

Lemma save_settings_wp q g :
  settled [] [] g ->
  wp h_world (save_settings iut iut_if q) g (fun r g' => g' = g /\ match r with
    | Val p => settings_inv ta iut_if q (Some p) g
    | Exc _ => True
    | _ => False
    end).
Proof.
  intros Hset. unfold save_settings. wp_go; try done. split; [done|].
  cbn [h_ok fst snd] in *. autorewrite with zbool in *.
  rewrite H, H0, H1 by done. by apply saved_settings.
Qed.

(** The queue and the rule. *)
Lemma use_queue_wp g :
  rt_inv (rt_start (-1) None) g ->
  wp h_world (use_queue iut iut_if iut_addr tst_addr (rt_start (-1) None)) g
    (upto rt_inv (fun _ l g' => rt_inv l g' /\ exists q rule, l = rt_start q rule)).
Proof.
  intros Hg. unfold use_queue. apply st_neutral; [unfold pick_queue; solve_only|done|]. intros q.
  apply st_modify. apply st_neutral; [unfold make_rule; solve_only|done|]. intros loc.
  apply st_call. wp_go. cbn [h_upd]. unfold when_ok. destruct (Z.eqb_spec x 0) as [->|Hx]; cbn [negb].
  - cbn. split; [|by eexists _, _]. destruct Hg as (Hs & Hc & Hr & Hset & Hru). cbn in *.
    split; [done|]. split; [done|]. split; [cbn; by rewrite Hr|]. by split.
  - cbn. exact Hg.
Qed.

Lemma usecs_body_keeps fuel le :
  tkeeps h_world (fun l g => l = rt_start (-1) None /\ rt_inv l g) rt_inv
    (usecs_body iut tst iut_if tst_if iut_addr tst_addr coalesce_usecs per_queue fuel le).
Proof.
  intros L g [-> Hg]. unfold usecs_body. apply st_bind.
  assert (Hq : wp h_world (twhen per_queue (use_queue iut iut_if iut_addr tst_addr) (rt_start (-1) None)) g
    (upto rt_inv (fun _ l g' => rt_inv l g' /\ exists q rule, l = rt_start q rule))).
  { unfold twhen. destruct per_queue; [by apply use_queue_wp|]. cbn. split; [done|]. by eexists _, _. }
  eapply wp_mono; [exact Hq|]. clear Hq Hg g. intros [[L [[]|j]]| | |] g; cbn [upto]; try done.
  intros [Hg (q & rule & ->)]. apply st_bind.
  unfold twhen. destruct (_ && _); [exact Hg|]. cbn [wp mret T_ret prog_ret upto].
  apply st_gets. cbn [rt_queue]. apply st_call.
  assert (Hset : settled [] [] g) by (by destruct Hg as (_ & _ & _ & H & _)).
  eapply wp_mono; [by apply save_settings_wp|]. intros [prev|j|w|] g' [-> Hprev]; try done.
  apply st_modify.
  assert (Hg' : rt_inv (rt_set_prev prev (rt_start q rule)) g) by by apply rt_inv_saved.
  clear Hg Hset Hprev. apply st_bind.
  eapply wp_mono; [by apply connect_part_keeps|]. clear Hg' g.
  intros [[L [[]|j]]| | |] g; cbn [upto]; try done. intros (Hg & s1 & s2 & ->).
  eapply st_settings; [done|done|exact Hg|apply disable_adaptive_wp|]. clear g Hg. intros g Hg.
  eapply st_settings; [done|done|exact Hg|apply set_settings_wp|]. clear g Hg. intros g Hg.
  apply capture_part_keeps; [| |exact Hg].
  - intros l. unfold analyse_tx. solve_only.
  - intros a l. unfold analyse_rx, judge. solve_only.
Qed.

(** The test of rx_coalesce_usecs gives back everything, however it ends
    and whatever the environment answers: its sockets are closed, its CSAPs
    destroyed, its Rx rule deleted, and the coalescing settings of the interface
    and its queues are the ones before the test, provided that settings which
    were in force can be set again. *)
Theorem usecs_restores fuel le init :
  wp h_world (usecs_main iut tst iut_if tst_if iut_addr tst_addr coalesce_usecs per_queue fuel le)
    (clean init) (fun r g => match r with Val _ => restored g | NoFuel => True | _ => False end).
Proof.
  unfold usecs_main. eapply (test_main_keeps h_world (fun l g => l = rt_start (-1) None /\ rt_inv l g) rt_inv).
  - split; [done|]. by apply rt_inv_start.
  - apply usecs_body_keeps.
  - intros l g. apply usecs_cleanup_wp.
Qed.
End holds.
