(* ===== verification/RxFrames.v ===== *)
(** rx_path/rx_coalesce_frames.c: the sizes of the groups of packets the
    coalescing of Rx interrupts makes, and the test around them. *)
From Stdlib Require Import Sorting.Sorted.
From S2P Require Import Prelude Prog Te AgentRpc Locals NetDrvTs Double Capture Resources RxCommon.

Definition MIN_GROUP_DELAY : Z := 100.
Definition FRAMES_ERR_MARGIN : double := d_lit 15 100.
Definition FRAMES_MIN_SEND_DELAY : Z := 10.
Definition WARNUP_TIME_MS : Z := 100.

(** [test_cb_args]. *)
Record frames_args := FramesArgs {
  fa_cb : cb_args; fa_frames : Z; fa_size : Z;
  fa_total : Z; fa_sq : double; fa_avg : double; fa_dev : double }.

Definition fa_set_cb (a : cb_args) (x : frames_args) : frames_args :=
  FramesArgs a (fa_frames x) (fa_size x) (fa_total x) (fa_sq x) (fa_avg x) (fa_dev x).
Definition fa_set_size (n : Z) (x : frames_args) : frames_args :=
  FramesArgs (fa_cb x) (fa_frames x) n (fa_total x) (fa_sq x) (fa_avg x) (fa_dev x).

Section rx_frames.
Context {TE : Te}.

Definition frames_finish_group (x : frames_args) : frames_args :=
  let '(skip_group, a) := skip_delayed (fa_cb x) in
  let x := fa_set_cb a x in
  let x :=
    if skip_group then x
    else
      let group_size := fa_size x in
      let size_deviation := d_of_Z (s32 group_size - s32 (fa_frames x)) in
      FramesArgs (ca_set_n_groups (u32 (ca_n_groups a + 1)) a) (fa_frames x) (fa_size x)
        (u32 (fa_total x + group_size))
        (d_add (fa_sq x) (d_mul size_deviation size_deviation)) (fa_avg x) (fa_dev x) in
  fa_set_size 0 x.

Definition frames_process_rx (le : bool) (pkt : tad_pkt) (x : frames_args) : frames_args :=
  match take_pkt le pkt (fa_cb x) with
  | inl a => fa_set_cb a x
  | inr (ts, a) =>
      let x := fa_set_cb a x in
      let x := if (1 <? ca_n_pkts a) && (MIN_GROUP_DELAY <? TIMEVAL_SUB ts (ca_prev_ts a))
               then frames_finish_group x else x in
      let x := fa_set_cb (ca_set_prev_ts ts (fa_cb x)) x in
      fa_set_size (u32 (fa_size x + 1)) x
  end.

Definition frames_finalize (x : frames_args) : frames_args :=
  let n := ca_n_groups (fa_cb x) in
  if n =? 0 then x
  else FramesArgs (fa_cb x) (fa_frames x) (fa_size x) (fa_total x) (fa_sq x)
         (d_div (d_of_Z (fa_total x)) (d_of_Z n)) (d_sqrt (d_div (fa_sq x) (d_of_Z n))).

(** The decision at the end of [main]. *)
Definition frames_judge (coalesce_frames : Z) (x : frames_args) : M unit :=
  if ca_n_groups (fa_cb x) =? 0 then TEST_FAIL "Failed to get statistics for packet groups" []
  else
    let avg_err := d_div (d_abs (d_sub (fa_avg x) (d_of_Z coalesce_frames))) (d_of_Z coalesce_frames) in
    let dev_err := d_div (fa_dev x) (d_of_Z coalesce_frames) in
    if d_gtb avg_err FRAMES_ERR_MARGIN || d_gtb dev_err FRAMES_ERR_MARGIN then
      TEST_VERDICT "Actual groups of received packets differ too much from the expected distribution" []
    else mret tt.

Definition frames_analyse_rx (le : bool) (coalesce_frames : Z) (a : cb_args) (rx : list tad_pkt) : M unit :=
  let x := FramesArgs (ca_set_n_pkts 0 a) (u32 coalesce_frames) 0 0 (d_of_Z 0) (d_of_Z 0) (d_of_Z 0) in
  let x := capture (frames_process_rx le) rx x in
  if ca_n_pkts (fa_cb x) =? 0 then TEST_VERDICT "No packets were captured by IUT CSAP" []
  else if ca_failed (fa_cb x) then TEST_FAIL "Failed to process some of the captured packets on IUT" []
  else frames_judge coalesce_frames (frames_finalize x).

Definition frames_analyse (le : bool) (coalesce_frames send_delay : Z) (tx rx : list tad_pkt) : M unit :=
  a ← analyse_tx le (u32 send_delay) tx; frames_analyse_rx le coalesce_frames a rx.
End rx_frames.

(** ** Reference: the sizes of the groups, from the two captures *)

(** A group ends before a packet that comes more than [MIN_GROUP_DELAY] after
    the previous one; it is not measured when a late packet was sent since the
    group before ended; the last group is not measured.  [size]: the packets of
    the group so far; [low]: the id that ended the one before. *)
Fixpoint sizes (dels : list Z) (size low : Z) (prev : timeval) (l : list (timeval * Z)) : list Z :=
  match l with
  | [] => []
  | (t, i) :: l' =>
      if MIN_GROUP_DELAY <? tv_us t - tv_us prev then
        (if hit dels low i then [] else [size]) ++ sizes dels 1 i t l'
      else sizes dels (size + 1) low t l'
  end.

Section frames_stats.
Context {TE : Te}.

(** The state after some packets: [g] groups of total [T] and squares [Q]. *)
Definition frames_state (u : Z) (dels : list Z) (size : Z) (prev : timeval) (low cur n g T Q : Z)
    (x : frames_args) : Prop :=
  exists d k av dv, x = FramesArgs (CbArgs d dels k prev n cur g false) u size T (d_of_Z Q) av dv /\
    drop k dels = filter (fun e => low < e) dels.

Lemma frames_finish u dels size prev low cur n g T Q x :
  Forall small dels -> StronglySorted Z.lt dels -> low <= cur -> 0 <= g < 2 ^ 32 - 1 ->
  frames_state u dels size prev low cur n g T Q x ->
  0 <= u < 2 ^ 31 -> 0 <= size < 2 ^ 31 -> 0 <= T -> T + size < 2 ^ 32 -> 0 <= Q ->
  (hit dels low cur = false -> exact (Q + (size - u) * (size - u))) ->
  frames_state u dels 0 prev cur cur n (if hit dels low cur then g else g + 1)
    (if hit dels low cur then T else T + size) (if hit dels low cur then Q else Q + (size - u) * (size - u))
    (frames_finish_group x).
Proof.
  intros Hs Hso Hlow Hg (dl & k & av & dv & -> & Hk) Hu Hsz HT HTs HQ Hex. unfold frames_finish_group.
  destruct (skip_delayed_spec (CbArgs dl dels k prev n cur g false) low) as (k' & E & Hk'); [done..|].
  cbn [fa_cb]. rewrite E. cbn [ca_delayed ca_cur_id] in *. destruct (hit dels low cur).
  - exists dl, k', av, dv. split; [done|exact Hk'].
  - specialize (Hex eq_refl). unfold exact in *.
    assert (Hsq : 0 <= (size - u) * (size - u)) by apply Z.square_nonneg.
    set (sq := (size - u) * (size - u)) in *.
    assert (E1 : exact (size - u)) by (unfold exact; lia).
    assert (E2 : exact sq /\ exact Q /\ exact (Q + sq)) by (unfold exact; lia).
    destruct E2 as (E2 & E3 & E4).
    cbn [fa_set_cb fa_set_size fa_cb fa_size fa_frames fa_total fa_sq fa_avg fa_dev ca_n_groups ca_set_cur_delayed
      ca_set_n_groups ca_send_delay ca_delayed ca_cur_delayed ca_prev_ts ca_n_pkts ca_cur_id ca_failed].
    rewrite !s32_id by lia. rewrite d_square_exact by done. fold sq. rewrite d_add_exact by done.
    rewrite !u32_id by lia. exists dl, k', av, dv. split; [done|exact Hk'].
Qed.

Lemma frames_step le u dels size prev low cur n g T Q x p t i :
  shows le p (t, i) -> 1 <= n < 2 ^ 32 - 1 ->
  frames_state u dels size prev low cur n g T Q x ->
  exists y, frames_state u dels size prev low i (n + 1) g T Q y /\
    frames_process_rx le p x =
      (let z := if MIN_GROUP_DELAY <? tv_us t - tv_us prev then frames_finish_group y else y in
       let z := fa_set_cb (ca_set_prev_ts t (fa_cb z)) z in fa_set_size (u32 (fa_size z + 1)) z).
Proof.
  intros Hp Hn (d & k & av & dv & -> & Hk).
  exists (FramesArgs (CbArgs d dels k prev (n + 1) i g false) u size T (d_of_Z Q) av dv).
  split; [by exists d, k, av, dv|]. unfold frames_process_rx. cbn [fa_cb].
  rewrite (take_pkt_shows le p (t, i)) by done.
  cbn [fst snd ca_set_cur_id ca_set_n_pkts ca_n_pkts ca_prev_ts ca_send_delay ca_delayed ca_cur_delayed
    ca_n_groups ca_failed fa_set_cb fa_frames fa_size fa_total fa_sq fa_avg fa_dev ca_cur_id].
  rewrite (u32_id (n + 1)), timeval_sub_us by lia. by rewrite (proj2 (Z.ltb_lt 1 (n + 1))) by lia.
Qed.

Lemma frames_prev u dels size prev low cur n g T Q x t : 0 <= size < 2 ^ 32 - 1 ->
  frames_state u dels size prev low cur n g T Q x ->
  let z := fa_set_cb (ca_set_prev_ts t (fa_cb x)) x in
  frames_state u dels (size + 1) t low cur n g T Q (fa_set_size (u32 (fa_size z + 1)) z).
Proof.
  intros Hs (d & k & av & dv & -> & Hk). exists d, k, av, dv. split; [|done].
  unfold fa_set_cb, fa_set_size, ca_set_prev_ts. cbn -[u32]. by rewrite u32_id by lia.
Qed.

Lemma sizes_positive dels size low prev l : 0 <= size -> Forall (Z.le 0) (sizes dels size low prev l).
Proof.
  revert size low prev. induction l as [|[t i] l IH]; intros size low prev Hs; cbn [sizes]; [constructor|].
  case_match; [|apply IH; lia]. apply Forall_app. split; [|apply IH; lia].
  case_match; [constructor|]. by constructor.
Qed.

Lemma frames_fold le u dels pkts l : Forall small dels -> StronglySorted Z.lt dels -> 0 <= u < 2 ^ 31 ->
  Forall2 (shows le) pkts l -> forall size prev low cur n g T Q x,
  frames_state u dels size prev low cur n g T Q x ->
  in_order (prev, cur) l -> low <= cur -> 1 <= size -> T + size <= n -> n + Z.of_nat (length l) < 2 ^ 31 ->
  0 <= g < n -> 0 <= T -> 0 <= Q ->
  let ds := sizes dels size low prev l in Q + zsum (squares u ds) < 2 ^ 53 ->
  exists size' prev' low' cur', frames_state u dels size' prev' low' cur' (n + Z.of_nat (length l))
    (g + Z.of_nat (length ds)) (T + zsum ds) (Q + zsum (squares u ds))
    (capture (frames_process_rx le) pkts x).
Proof.
  intros Hs Hso Hu Hl. induction Hl as [|p [t i] pkts l Hp Hl IH];
    intros size prev low cur n g T Q x Hx Hord Hlow Hsz Hn Hlen Hg HT HQ ds HQs.
  - subst ds. cbn -[Z.of_nat]. rewrite !Z.add_0_r. by exists size, prev, low, cur.
  - cbn [in_order fst snd] in Hord. destruct Hord as (Ht & Hi & Hord). cbn [length] in *.
    unfold capture. cbn [fold_left]. fold (capture (frames_process_rx le) pkts).
    destruct (frames_step le u dels size prev low cur n g T Q x p t i Hp ltac:(lia) Hx) as (y & Hy & ->).
    subst ds. cbn [sizes] in *. rewrite Nat2Z.inj_succ in *.
    destruct (MIN_GROUP_DELAY <? tv_us t - tv_us prev) eqn:Eg; cbv zeta.
    + set (rest := sizes dels 1 i t l) in *.
      pose proof (zsum_nonneg _ (squares_nonneg u rest)) as Hr1.
      pose proof (Z.square_nonneg (size - u)) as Hsq.
      assert (Hex : hit dels low i = false -> exact (Q + (size - u) * (size - u))).
      { intros Eh. rewrite Eh in HQs. change (squares u ([size] ++ rest)) with ((size - u) * (size - u) :: squares u rest) in HQs.
        rewrite zsum_cons in HQs. unfold exact. lia. }
      pose proof (frames_finish u dels size prev low i (n + 1) g T Q y
             Hs Hso ltac:(lia) ltac:(lia) Hy Hu ltac:(lia) HT ltac:(lia) HQ Hex) as Hf.
      apply (frames_prev _ _ 0 _ _ _ _ _ _ _ _ t ltac:(lia)) in Hf. rewrite Z.add_0_l in Hf.
      destruct (hit dels low i) eqn:Eh; cbn [app] in *.
      * destruct (IH _ _ _ _ _ _ _ _ _ Hf) as (s' & p' & l' & c' & Hend); try done; try fold rest; try lia.
        exists s', p', l', c'. replace (n + Z.succ (Z.of_nat (length l))) with (n + 1 + Z.of_nat (length l)) by lia.
        exact Hend.
      * change (squares u (size :: rest)) with ((size - u) * (size - u) :: squares u rest) in *.
        rewrite !zsum_cons in *.
        destruct (IH _ _ _ _ _ _ _ _ _ Hf) as (s' & p' & l' & c' & Hend); try done; try fold rest; try lia.
        exists s', p', l', c'. fold rest in Hend. cbn [length]. rewrite Nat2Z.inj_succ.
        replace (n + Z.succ (Z.of_nat (length l))) with (n + 1 + Z.of_nat (length l)) by lia.
        replace (g + Z.succ (Z.of_nat (length rest))) with (g + 1 + Z.of_nat (length rest)) by lia.
        rewrite !Z.add_assoc. exact Hend.
    + apply (frames_prev _ _ size _ _ _ _ _ _ _ _ t ltac:(lia)) in Hy.
      destruct (IH _ _ _ _ _ _ _ _ _ Hy) as (s' & p' & l' & c' & Hend); try done; try lia.
      exists s', p', l', c'. replace (n + Z.succ (Z.of_nat (length l))) with (n + 1 + Z.of_nat (length l)) by lia.
      exact Hend.
Qed.

Lemma frames_first le u p t i a :
  shows le p (t, i) -> ca_failed a = false -> Forall small (ca_delayed a) ->
  ca_cur_delayed a = O -> ca_n_groups a = 0 ->
  frames_state u (ca_delayed a) 1 t (-1) i 1 0 0 0
    (frames_process_rx le p (FramesArgs (ca_set_n_pkts 0 a) u 0 0 (d_of_Z 0) (d_of_Z 0) (d_of_Z 0))).
Proof.
  intros Hp Hf Hs Hk Hg. unfold frames_process_rx. rewrite (take_pkt_shows le p (t, i)) by done.
  destruct a as [d dels k prev n cur g f]. cbn in Hf, Hs, Hk, Hg. subst.
  exists d, O, (d_of_Z 0), (d_of_Z 0). split; [reflexivity|]. rewrite drop_0. symmetry. apply filter_all.
  eapply Forall_impl; [exact Hs|]. unfold small. cbn. lia.
Qed.

(** The decision, on exact integers but for the final divisions. *)
Definition frames_reference (u : Z) (ds : list Z) : M unit :=
  let mean z := d_div (d_of_Z z) (d_of_Z (Z.of_nat (length ds))) in
  let share x := d_div x (d_of_Z u) in
  match ds with
  | [] => TEST_FAIL "Failed to get statistics for packet groups" []
  | _ =>
      if d_gtb (share (d_abs (d_sub (mean (zsum ds)) (d_of_Z u)))) FRAMES_ERR_MARGIN ||
         d_gtb (share (d_sqrt (mean (zsum (squares u ds))))) FRAMES_ERR_MARGIN
      then TEST_VERDICT "Actual groups of received packets differ too much from the expected distribution" []
      else mret tt
  end.

Lemma frames_judge_state u dels size prev low cur n ds x :
  frames_state u dels size prev low cur n (Z.of_nat (length ds)) (zsum ds) (zsum (squares u ds)) x ->
  frames_judge u (frames_finalize x) = frames_reference u ds.
Proof.
  intros (d & k & av & dv & -> & _). unfold frames_finalize. cbn [fa_cb ca_n_groups].
  unfold frames_judge, frames_reference. destruct ds as [|e ds]; [done|].
  rewrite (proj2 (Z.eqb_neq (Z.of_nat (length (e :: ds))) 0)) by (cbn [length]; lia).
  cbn [fa_cb ca_n_groups fa_avg fa_dev fa_total fa_sq].
  by rewrite (proj2 (Z.eqb_neq (Z.of_nat (length (e :: ds))) 0)) by (cbn [length]; lia).
Qed.

(** The measured packets are packets of the capture. *)
Lemma zsum_sizes dels size low prev l : 0 <= size ->
  zsum (sizes dels size low prev l) <= size + Z.of_nat (length l).
Proof.
  revert size low prev. induction l as [|[t i] l IH]; intros size low prev Hs; cbn [sizes length]; [cbn; lia|].
  case_match; [|specialize (IH (size + 1) low t ltac:(lia)); lia].
  specialize (IH 1 i t ltac:(lia)). case_match; cbn [app]; rewrite ?zsum_cons; lia.
Qed.

(** What the test decides from the packets captured on the tester and on
    the IUT, whatever the byte order, is what the reference decides on the sizes
    of the packet groups: groups end at gaps longer than [MIN_GROUP_DELAY],
    those disturbed by a late packet of the tester are left out, and so is the
    last one.  In particular a NIC all of whose measured groups have
    [coalesce_frames] packets passes. *)
Theorem frames_analyse_correct le u delay tx rx t0 i0 txl t1 i1 rxl :
  0 < u < 2 ^ 31 -> 0 <= delay < 2 ^ 32 ->
  Forall2 (shows le) tx ((t0, i0) :: txl) -> rising (t0, i0) txl -> Z.of_nat (length txl) + 1 < 2 ^ 32 ->
  Forall2 (shows le) rx ((t1, i1) :: rxl) -> in_order (t1, i1) rxl -> 0 <= i1 ->
  Z.of_nat (length rxl) + 1 < 2 ^ 31 ->
  let ds := sizes (late (u32 (delay * 5)) t0 txl) 1 (-1) t1 rxl in
  zsum (squares u ds) < 2 ^ 53 ->
  frames_analyse le u delay tx rx = frames_reference u ds /\
  (ds <> [] -> Forall (eq u) ds -> frames_analyse le u delay tx rx = mret tt).
Proof.
  intros Hu Hdl Htx Hri Htl Hrx Hio Hi1 Hrl ds Hs2.
  assert (E : frames_analyse le u delay tx rx = frames_reference u ds).
  { unfold frames_analyse. rewrite (u32_id delay), (analyse_tx_all le tx t0 i0 txl) by done.
    cbn [mbind prog_bind bind mret prog_ret lift_result]. unfold frames_analyse_rx.
    destruct (late_sorted (u32 (delay * 5)) t0 (t0, i0) txl Hri) as (Hsm & Hso & _).
    set (dels := late _ _ _) in *. rewrite (u32_id u) by lia.
    inversion Hrx as [|p ti pkts l Hp Hl E1 E2]; subst. unfold capture at 1 2 3. cbn [fold_left].
    match goal with |- context [frames_process_rx le p (FramesArgs (ca_set_n_pkts 0 ?a) _ _ _ _ _ _)] =>
      pose proof (frames_first le u p t1 i1 a Hp eq_refl Hsm eq_refl eq_refl) as Hx end.
    destruct (frames_fold le u dels pkts rxl Hsm Hso ltac:(lia) Hl _ _ _ _ _ _ _ _ _ Hx)
      as (s' & p' & l' & c' & Hend); try done; try lia.
    fold ds in Hend. rewrite !Z.add_0_l in Hend. unfold capture in Hend.
    pose proof Hend as (d & k & av & dv & Ex & _). rewrite <- (frames_judge_state _ _ _ _ _ _ _ _ _ Hend).
    rewrite Ex. cbn [fa_cb ca_n_pkts ca_failed].
    by rewrite (proj2 (Z.eqb_neq (1 + Z.of_nat (length rxl)) 0)) by lia. }
  split; [exact E|]. intros Hne Hall. rewrite E. unfold frames_reference.
  pose proof (zsum_sizes (late (u32 (delay * 5)) t0 txl) 1 (-1) t1 rxl ltac:(lia)) as Hsum. fold ds in Hsum.
  destruct (perfect_stats u ds) as [-> ->]; try done; [lia|]. destruct ds as [|e ds]; [done|].
  by replace (d_gtb (d_of_Z 0) FRAMES_ERR_MARGIN) with false by (vm_compute; reflexivity).
Qed.
End frames_stats.

Module FramesWitness.
Local Existing Instance te_ref.
Definition pkt (us id : Z) : tad_pkt := TadPkt (0, TV 0 us) 46 (0, Sender.packet id ++ repeat 0 37) (0, 0) (0, 0) (0, []) (0, []) (0, 0) (0, 0) (0, 0) (0, 0).
Definition tx : list tad_pkt := map (fun k => pkt (10 * k) k) (seqZ 0 5).
Definition rx : list tad_pkt := [pkt 100 0; pkt 110 1; pkt 400 2; pkt 420 3; pkt 700 4].

Lemma frames_analyse_correct_witness :
  frames_analyse true 2 10 tx rx = frames_reference 2 [2; 2] /\ frames_analyse true 2 10 tx rx = mret tt.
Proof.
  pose proof (frames_analyse_correct true 2 10 tx rx (TV 0 0) 0
    [(TV 0 10, 1); (TV 0 20, 2); (TV 0 30, 3); (TV 0 40, 4)] (TV 0 100) 0
    [(TV 0 110, 1); (TV 0 400, 2); (TV 0 420, 3); (TV 0 700, 4)]) as H.
  destruct H as [H1 H2].
  - split; reflexivity || discriminate.
  - split; reflexivity || discriminate.
  - repeat (constructor; [split; vm_compute; reflexivity|]). constructor.
  - repeat split; (reflexivity || discriminate).
  - reflexivity.
  - repeat (constructor; [split; vm_compute; reflexivity|]). constructor.
  - repeat split; discriminate.
  - discriminate.
  - reflexivity.
  - vm_compute. reflexivity.
  - split; [exact H1|]. apply H2; [discriminate|]. vm_compute. repeat constructor.
Defined.
End FramesWitness.

(** ** The test *)
Section frames_test.
Context {TE : Te}.
Context (iut tst : rcf_rpc_server) (iut_if tst_if : string) (iut_addr tst_addr : sockaddr).
Context (coalesce_frames send_delay : Z).
Local Abbreviation ta := (rpcs_ta iut).

(** The settings before the test. *)
Definition frames_save : M (Z * Z * Z) :=
  '(rc, prev_rx_max_frames) ← call (tapi_cfg_if_coalesce_get ta iut_if (-1) "rx_max_coalesced_frames");
  if TE_RC_GET_ERROR rc =? TE_ENOENT then TEST_SKIP "Interrupt coalescing settings are not supported" []
  else if negb (rc =? 0) then TEST_FAIL "Failed to get rx_max_coalesced_frames: %r" [AI rc]
  else
    prev_rx_usecs ← CHECK_OUT (call (tapi_cfg_if_coalesce_get ta iut_if (-1) "rx_coalesce_usecs"));
    prev_adaptive_rx ← CHECK_OUT (call (tapi_cfg_if_coalesce_get ta iut_if (-1) "use_adaptive_rx_coalesce"));
    mret (prev_rx_usecs, prev_rx_max_frames, prev_adaptive_rx).

Definition frames_set : M unit :=
  _ ← CHECK_RC (call (tapi_cfg_if_coalesce_set_local ta iut_if (-1) "rx_coalesce_usecs" 0));
  _ ← CHECK_RC (call (tapi_cfg_if_coalesce_set_local ta iut_if (-1) "rx_max_coalesced_frames" (u64 coalesce_frames)));
  rc ← call (tapi_cfg_if_coalesce_commit ta iut_if false);
  rc ← (if TE_RC_GET_ERROR rc =? TE_EOPNOTSUPP then
          rc ← call (tapi_cfg_if_coalesce_set ta iut_if (-1) "rx_max_coalesced_frames" (u64 coalesce_frames));
          if TE_RC_GET_ERROR rc =? TE_EOPNOTSUPP then
            TEST_SKIP "Requested rx_max_coalesced_frames is not supported" []
          else mret rc
        else mret rc);
  if negb (rc =? 0) then TEST_VERDICT "Failed to set rx_max_coalesced_frames, rc=%r" [AI rc] else mret tt.

(** Filling the Rx ring before the captures. *)
Definition warm_up (iut_s tst_s : Z) : M unit :=
  _ ← call (rpcs_set_op tst RCF_RPC_CALL);
  _ ← rpc_ok (rpc_net_drv_send_pkts_exact_delay tst tst_s FRAMES_MIN_SEND_DELAY WARNUP_TIME_MS);
  _ ← rpc_ok (rpc_net_drv_recv_pkts_exact_delay iut iut_s TAPI_WAIT_NETWORK_DELAY);
  _ ← rpc_ok (rpc_net_drv_send_pkts_exact_delay tst tst_s FRAMES_MIN_SEND_DELAY WARNUP_TIME_MS);
  mret tt.

Definition frames_body (fuel : nat) (le : bool) : T rt_locals unit :=
  _ ← twhen (send_delay <? FRAMES_MIN_SEND_DELAY)
        (lift (TEST_FAIL "Requested %u us delay between packets is too small (min is %u us)"
                 [AI send_delay; AI FRAMES_MIN_SEND_DELAY]));
  _ ← twhen (coalesce_frames =? 0) (lift (TEST_FAIL "coalesce_frames must be non zero" []));
  prev ← lift frames_save;
  _ ← modify (rt_set_prev prev);
  _ ← connect_part iut tst iut_addr tst_addr fuel;
  _ ← lift (disable_adaptive ta iut_if (-1));
  _ ← lift frames_set;
  _ ← lift (CHECK_RC (call (tapi_cfg_base_if_disable_rx_hwtstamp ta iut_if)));
  iut_s ← gets rt_iut_s;
  tst_s ← gets rt_tst_s;
  _ ← lift (warm_up iut_s tst_s);
  capture_part iut tst iut_if tst_if iut_addr tst_addr send_delay
    (analyse_tx le (u32 send_delay)) (frames_analyse_rx le coalesce_frames).

Definition frames_main (fuel : nat) (le : bool) : M status :=
  test_main (rt_start (-1) None) (frames_body fuel le) (common_cleanup iut tst iut_if).

Lemma frames_set_wp g :
  changes ta iut_if (-1) g g -> wp h_world frames_set g (only_changes ta iut_if (-1) g).
Proof. intros Hg. unfold frames_set. wp_go; cbn [only_changes]; solve_changes. Qed.

Lemma frames_save_wp g :
  settled [] [] g ->
  wp h_world frames_save g (fun r g' => g' = g /\ match r with
    | Val p => settings_inv ta iut_if (-1) (Some p) g
    | Exc _ => True
    | _ => False
    end).
Proof.
  intros Hset. unfold frames_save. wp_go; try done. split; [done|].
  cbn [h_ok fst snd] in *. autorewrite with zbool in *.
  rewrite H, H0, H1 by done. by apply saved_settings.
Qed.

Lemma frames_body_keeps fuel le :
  tkeeps h_world (fun l g => l = rt_start (-1) None /\ rt_inv iut tst iut_if false l g) (rt_inv iut tst iut_if false)
    (frames_body fuel le).
Proof.
  intros L g [-> Hg]. unfold frames_body. apply st_bind.
  unfold twhen. destruct (_ <? _); [exact Hg|]. cbn [wp mret T_ret prog_ret upto]. apply st_bind.
  destruct (_ =? _); [exact Hg|]. cbn [wp mret T_ret prog_ret upto]. apply st_call.
  assert (Hset : settled [] [] g) by (by destruct Hg as (_ & _ & _ & H & _)).
  eapply wp_mono; [by apply frames_save_wp|]. intros [prev|j|w|] g' [-> Hprev]; try done.
  apply st_modify.
  assert (Hg' : rt_inv iut tst iut_if false (rt_set_prev prev (rt_start (-1) None)) g) by by apply rt_inv_saved.
  clear Hg Hset Hprev. apply st_bind.
  eapply wp_mono; [by apply connect_part_keeps|]. clear Hg' g.
  intros [[L [[]|j]]| | |] g; cbn [upto]; try done. intros (Hg & s1 & s2 & ->).
  eapply st_settings; [done|done|exact Hg|apply disable_adaptive_wp|]. clear g Hg. intros g Hg.
  eapply st_settings; [done|done|exact Hg|apply frames_set_wp|]. clear g Hg. intros g Hg.
  apply st_neutral; [solve_only|done|]. intros _. apply st_gets, st_gets.
  apply st_neutral; [unfold warm_up; solve_only|done|]. intros _.
  apply capture_part_keeps; [| |exact Hg].
  - intros l. unfold analyse_tx. solve_only.
  - intros a l. unfold frames_analyse_rx, frames_judge. solve_only.
Qed.

(** The test of rx_max_coalesced_frames gives back everything, however it
    ends and whatever the environment answers: sockets, CSAPs and the coalescing
    settings of the interface, which may be changed by two different ways of
    setting them. *)
Theorem frames_restores fuel le init :
  wp h_world (frames_main fuel le) (clean init)
    (fun r g => match r with Val _ => restored g | NoFuel => True | _ => False end).
Proof.
  unfold frames_main.
  eapply (test_main_keeps h_world (fun l g => l = rt_start (-1) None /\ rt_inv iut tst iut_if false l g)
    (rt_inv iut tst iut_if false)).
  - split; [done|]. apply rt_inv_start.
  - apply frames_body_keeps.
  - intros l g Hg. eapply wp_mono; [by eapply common_cleanup_wp|].
    destruct Hg as (_ & _ & Hr & _ & Hru). rewrite Hru in Hr by done.
    intros [b| | |] g' H; try done. by rewrite Hr in H.
Qed.
End frames_test.
