(* ===== verification/TxCoalesce.v ===== *)
(** ethtool/tx_coalesce.c: profiles of Tx interrupt coalescing settings, set,
    read back and restored. *)
From S2P Require Import Prelude Prog Te Locals Resources RxCommon.

(** ** Profiles *)

Record test_coalesce_param := CoalesceParam { cp_name : string; cp_value : Z; cp_prev_value : Z }.

Inductive test_profile :=
| TEST_PROFILE_DISABLED | TEST_PROFILE_TIME_ONLY | TEST_PROFILE_FRAMES_ONLY
| TEST_PROFILE_TIME_FRAMES | TEST_PROFILE_IRQ | TEST_PROFILE_IRQ_USECS | TEST_PROFILE_IRQ_FRAMES
| TEST_PROFILE_ADAPTIVE | TEST_PROFILE_ADAPTIVE_LOW_TIME | TEST_PROFILE_ADAPTIVE_LOW_FRAMES
| TEST_PROFILE_ADAPTIVE_HIGH_TIME | TEST_PROFILE_ADAPTIVE_HIGH_FRAMES
| TEST_PROFILE_ADAPTIVE_RATE | TEST_PROFILE_INVALID.
#[global] Instance test_profile_eq_dec : EqDecision test_profile.
Proof. solve_decision. Defined.

Definition TEST_COALESCE_PARAM (name : string) (value : Z) : test_coalesce_param :=
  CoalesceParam name value 0.

Definition disabled_params :=
  [TEST_COALESCE_PARAM "tx_coalesce_usecs" 0; TEST_COALESCE_PARAM "tx_max_coalesced_frames" 1].
Definition time_only_params :=
  [TEST_COALESCE_PARAM "tx_coalesce_usecs" 100; TEST_COALESCE_PARAM "tx_max_coalesced_frames" 0].
Definition frames_only_params :=
  [TEST_COALESCE_PARAM "tx_coalesce_usecs" 0; TEST_COALESCE_PARAM "tx_max_coalesced_frames" 16].
Definition time_frames_params :=
  [TEST_COALESCE_PARAM "tx_coalesce_usecs" 100; TEST_COALESCE_PARAM "tx_max_coalesced_frames" 16].
Definition irq_params :=
  [TEST_COALESCE_PARAM "tx_coalesce_usecs_irq" 50; TEST_COALESCE_PARAM "tx_max_coalesced_frames_irq" 8].
Definition irq_usecs_params := [TEST_COALESCE_PARAM "tx_coalesce_usecs_irq" 50].
Definition irq_frames_params := [TEST_COALESCE_PARAM "tx_max_coalesced_frames_irq" 8].
Definition adaptive_params := [TEST_COALESCE_PARAM "use_adaptive_tx_coalesce" 1].
Definition adaptive_low_time_params :=
  [TEST_COALESCE_PARAM "tx_coalesce_usecs_low" 10; TEST_COALESCE_PARAM "use_adaptive_tx_coalesce" 1].
Definition adaptive_low_frames_params :=
  [TEST_COALESCE_PARAM "tx_max_coalesced_frames_low" 1; TEST_COALESCE_PARAM "use_adaptive_tx_coalesce" 1].
Definition adaptive_high_time_params :=
  [TEST_COALESCE_PARAM "tx_coalesce_usecs_high" 200; TEST_COALESCE_PARAM "use_adaptive_tx_coalesce" 1].
Definition adaptive_high_frames_params :=
  [TEST_COALESCE_PARAM "tx_max_coalesced_frames_high" 32; TEST_COALESCE_PARAM "use_adaptive_tx_coalesce" 1].
Definition adaptive_rate_params :=
  [TEST_COALESCE_PARAM "pkt_rate_low" 1000; TEST_COALESCE_PARAM "pkt_rate_high" 10000;
   TEST_COALESCE_PARAM "rate_sample_interval" 1; TEST_COALESCE_PARAM "use_adaptive_tx_coalesce" 1].
Definition invalid_params :=
  [TEST_COALESCE_PARAM "tx_coalesce_usecs" 0; TEST_COALESCE_PARAM "tx_max_coalesced_frames" 0].

Definition profile_enables_adaptive_tx (profile : test_profile) : bool :=
  match profile with
  | TEST_PROFILE_ADAPTIVE | TEST_PROFILE_ADAPTIVE_LOW_TIME | TEST_PROFILE_ADAPTIVE_LOW_FRAMES
  | TEST_PROFILE_ADAPTIVE_HIGH_TIME | TEST_PROFILE_ADAPTIVE_HIGH_FRAMES
  | TEST_PROFILE_ADAPTIVE_RATE => true
  | _ => false
  end.

(** The [default] of the switch is not reached: the parameter of the test is one
    of the enumeration. *)
Definition profile_params (profile : test_profile) : list test_coalesce_param :=
  match profile with
  | TEST_PROFILE_DISABLED => disabled_params
  | TEST_PROFILE_TIME_ONLY => time_only_params
  | TEST_PROFILE_FRAMES_ONLY => frames_only_params
  | TEST_PROFILE_TIME_FRAMES => time_frames_params
  | TEST_PROFILE_IRQ => irq_params
  | TEST_PROFILE_IRQ_USECS => irq_usecs_params
  | TEST_PROFILE_IRQ_FRAMES => irq_frames_params
  | TEST_PROFILE_ADAPTIVE => adaptive_params
  | TEST_PROFILE_ADAPTIVE_LOW_TIME => adaptive_low_time_params
  | TEST_PROFILE_ADAPTIVE_LOW_FRAMES => adaptive_low_frames_params
  | TEST_PROFILE_ADAPTIVE_HIGH_TIME => adaptive_high_time_params
  | TEST_PROFILE_ADAPTIVE_HIGH_FRAMES => adaptive_high_frames_params
  | TEST_PROFILE_ADAPTIVE_RATE => adaptive_rate_params
  | TEST_PROFILE_INVALID => invalid_params
  end.

(** ** The test *)

(** The locals its cleanup uses: the parameters with their saved values, and
    the adaptive setting; [None]: not saved. *)
Record tx_locals := TxLocals { tl_params : option (list test_coalesce_param); tl_adaptive : option Z }.
Definition tl_set_params (ps : list test_coalesce_param) (l : tx_locals) : tx_locals :=
  TxLocals (Some ps) (tl_adaptive l).
Definition tl_set_adaptive (a : Z) (l : tx_locals) : tx_locals := TxLocals (tl_params l) (Some a).

Section tx_coalesce.
Context {TE : Te}.
Context (ta if_name : string) (profile : test_profile) (per_queue : bool).

Definition queue_id : Z := if per_queue then 0 else -1.
Abbreviation ADAPTIVE := "use_adaptive_tx_coalesce"%string.
Abbreviation params := (profile_params profile).

Fixpoint set_coalesce_params_locally (ps : list test_coalesce_param) (restore : bool) : M te_errno :=
  match ps with
  | [] => mret 0
  | p :: ps' =>
      if bool_decide (cp_name p = ADAPTIVE) then set_coalesce_params_locally ps' restore
      else
        OK call (tapi_cfg_if_coalesce_set_local ta if_name queue_id (cp_name p)
                   (if restore then cp_prev_value p else cp_value p)) ;;
        set_coalesce_params_locally ps' restore
  end.

(** The array with [prev_value] filled in (when it fails, the array is not used
    again). *)
Fixpoint save_profile_params (ps : list test_coalesce_param) : M (list test_coalesce_param) :=
  match ps with
  | [] => mret []
  | p :: ps' =>
      '(rc, prev) ← call (tapi_cfg_if_coalesce_get ta if_name queue_id (cp_name p));
      if negb (rc =? 0) then TEST_FAIL "Failed to get %s: %r" [AS (cp_name p); AI rc]
      else
        saved ← save_profile_params ps';
        mret (CoalesceParam (cp_name p) (cp_value p) prev :: saved)
  end.

Fixpoint check_profile_params (ps : list test_coalesce_param) : M unit :=
  match ps with
  | [] => mret tt
  | p :: ps' =>
      actual ← CHECK_OUT (call (tapi_cfg_if_coalesce_get ta if_name queue_id (cp_name p)));
      if negb (actual =? cp_value p) then
        TEST_VERDICT "Expected %s=%llu, got %llu" [AS (cp_name p); AI (cp_value p); AI actual]
      else check_profile_params ps'
  end.

(** The settings are supported at all. *)
Definition tx_supported : M unit :=
  '(rc, _) ← call (tapi_cfg_if_coalesce_get ta if_name queue_id "tx_coalesce_usecs");
  if (TE_RC_GET_ERROR rc =? TE_ENOENT) || (TE_RC_GET_ERROR rc =? TE_EOPNOTSUPP) then
    TEST_SKIP "%s Tx coalescing settings are not supported" [AS (if per_queue then "Per-queue" else "Global")]
  else if negb (rc =? 0) then TEST_FAIL "Failed to get tx_coalesce_usecs: %r" [AI (TE_RC_GET_ERROR rc)]
  else mret tt.

Definition set_adaptive (v : Z) (fmt : string) : M unit :=
  rc ← call (tapi_cfg_if_coalesce_set ta if_name queue_id ADAPTIVE v);
  if negb (rc =? 0) then TEST_VERDICT fmt [AI (TE_RC_GET_ERROR rc)] else mret tt.

(** The invalid profile: the commit must be refused. *)
Definition set_invalid (ps : list test_coalesce_param) : M unit :=
  _ ← CHECK_RC (set_coalesce_params_locally ps false);
  rc ← call (tapi_cfg_if_coalesce_commit ta if_name per_queue);
  if negb (TE_RC_GET_ERROR rc =? TE_EINVAL) then
    if rc =? 0 then TEST_VERDICT "Zero Tx time and frame limits unexpectedly succeeded" []
    else TEST_VERDICT "Zero Tx time and frame limits failed with unexpected rc=%r" [AI (TE_RC_GET_ERROR rc)]
  else mret tt.

(** The other ones. *)
Definition set_valid (ps : list test_coalesce_param) : M unit :=
  _ ← CHECK_RC (set_coalesce_params_locally ps false);
  rc ← call (tapi_cfg_if_coalesce_commit ta if_name per_queue);
  _ ← when (negb (rc =? 0)) (TEST_VERDICT "Failed to set Tx coalescing settings, rc=%r" [AI (TE_RC_GET_ERROR rc)]);
  _ ← when (profile_enables_adaptive_tx profile)
        (set_adaptive 1 "Failed to enable use_adaptive_tx_coalesce, rc=%r");
  check_profile_params ps.

Definition tx_body : T tx_locals unit :=
  _ ← lift tx_supported;
  ps ← lift (save_profile_params params);
  _ ← modify (tl_set_params ps);
  prev_adaptive_tx ← lift (CHECK_OUT (call (tapi_cfg_if_coalesce_get ta if_name queue_id ADAPTIVE)));
  _ ← modify (tl_set_adaptive prev_adaptive_tx);
  _ ← twhen (profile_enables_adaptive_tx profile || negb (prev_adaptive_tx =? 0))
        (lift (set_adaptive 0 "Failed to disable use_adaptive_tx_coalesce, rc=%r"));
  if bool_decide (profile = TEST_PROFILE_INVALID) then lift (set_invalid ps) else lift (set_valid ps).

Definition tx_cleanup (l : tx_locals) : M bool :=
  match tl_params l with
  | None => mret true
  | Some ps =>
      also (match tl_adaptive l with
            | Some _ => if profile_enables_adaptive_tx profile
                        then cleanup_rc (call (tapi_cfg_if_coalesce_set ta if_name queue_id ADAPTIVE 0))
                        else mret true
            | None => mret true
            end)
     (also (cleanup_rc (set_coalesce_params_locally ps true))
     (also (cleanup_rc (call (tapi_cfg_if_coalesce_commit ta if_name per_queue)))
           (match tl_adaptive l with
            | Some a => if negb (a =? 0)
                        then cleanup_rc (call (tapi_cfg_if_coalesce_set ta if_name queue_id ADAPTIVE a))
                        else mret true
            | None => mret true
            end)))
  end.

Definition tx_main : M status := test_main (TxLocals None None) tx_body tx_cleanup.
End tx_coalesce.

(** ** What is in force *)
Section settings.
Context {TE : Te}.
Context (ta if_name : string) (profile : test_profile) (per_queue : bool).
Abbreviation ADAPTIVE := "use_adaptive_tx_coalesce"%string.
Abbreviation params := (profile_params profile).
Abbreviation set_locally := (set_coalesce_params_locally ta if_name per_queue).

Definition key (name : string) : ckey := (ta, if_name, queue_id per_queue, name).

(** The settings that are set locally and committed together. *)
Definition pkeys (ps : list test_coalesce_param) : list ckey :=
  map key (filter (fun n => n <> ADAPTIVE) (map cp_name ps)).

Lemma pkeys_cons p ps :
  pkeys (p :: ps) = (if bool_decide (cp_name p = ADAPTIVE) then [] else [key (cp_name p)]) ++ pkeys ps.
Proof.
  unfold pkeys. cbn [map]. destruct (bool_decide_reflect (cp_name p = ADAPTIVE)) as [E|E].
  - by rewrite filter_cons_False by tauto.
  - by rewrite filter_cons_True by done.
Qed.

Lemma adaptive_not_pkey ps : key ADAPTIVE ∉ pkeys ps.
Proof.
  unfold pkeys. intros (n & E & Hn)%list_elem_of_fmap. injection E as <-.
  by apply list_elem_of_filter in Hn as [? _].
Qed.

Lemma pkey_of p ps : p ∈ ps -> cp_name p <> ADAPTIVE -> key (cp_name p) ∈ pkeys ps.
Proof.
  intros Hp Hn. unfold pkeys. apply list_elem_of_fmap. exists (cp_name p). split; [done|].
  apply list_elem_of_filter. split; [done|]. apply list_elem_of_fmap. by exists p.
Qed.

(** The saved values are those before the test. *)
Definition saved (ps : list test_coalesce_param) (g : held) : Prop :=
  Forall (fun p => cp_prev_value p = h_init g (key (cp_name p))) ps.

(** What [set_coalesce_params_locally] does when no call fails. *)
Definition h_restore (ps : list test_coalesce_param) (g : held) : held :=
  fold_left (fun g p => if bool_decide (cp_name p = ADAPTIVE) then g
                        else h_local (key (cp_name p)) (cp_prev_value p) g) ps g.

Lemma h_restore_rest ps g : rest_same g (h_restore ps g) /\ h_now (h_restore ps g) = h_now g.
Proof.
  unfold h_restore. revert g. induction ps as [|p ps IH]; intros g; [done|]. cbn [fold_left].
  destruct (bool_decide _); [apply IH|].
  destruct (IH (h_local (key (cp_name p)) (cp_prev_value p) g)) as [Hr Hn]. by split.
Qed.

Lemma h_restore_pend ps g k : saved ps g ->
  h_pend (h_restore ps g) !! k = if decide (k ∈ pkeys ps) then Some (h_init g k) else h_pend g !! k.
Proof.
  unfold h_restore. revert g. induction ps as [|p ps IH]; intros g; [done|].
  intros [Hp Hps]%Forall_cons. cbn [fold_left]. rewrite pkeys_cons.
  destruct (bool_decide_reflect (cp_name p = ADAPTIVE)) as [E|E]; cbn [app]; [by apply IH|].
  rewrite IH by exact Hps. change (h_init (h_local _ _ g)) with (h_init g).
  destruct (decide (k ∈ pkeys ps)) as [Hk|Hk].
  - by rewrite decide_True by (by apply list_elem_of_further).
  - cbn [h_pend h_local]. destruct (decide (k = key (cp_name p))) as [->|Hne].
    + rewrite lookup_insert_eq, decide_True by apply list_elem_of_here. by rewrite Hp.
    + rewrite lookup_insert_ne by done. rewrite decide_False; [done|].
      intros [->|H]%elem_of_cons; done.
Qed.

(** Restoring is accepted. *)
Lemma set_restore_wp ps g (Q : result te_errno -> held -> Prop) : saved ps g ->
  Q (Val 0) (h_restore ps g) -> wp h_world (set_locally ps true) g Q.
Proof.
  unfold h_restore. revert g. induction ps as [|p ps IH]; intros g; [done|].
  intros [Hp Hps]%Forall_cons HQ. cbn [set_coalesce_params_locally fold_left] in *.
  destruct (bool_decide _); [by apply IH|].
  wp_go; [|cbn [h_ok] in H; specialize (H Hp); subst x; done].
  cbn [h_ok h_upd] in *. rewrite (H Hp) in *. unfold when_ok. cbn [Z.eqb]. by apply IH.
Qed.

(** Whatever its answers, it changes the local settings of the list only. *)
Lemma set_locally_wp ps all b now g : (forall k, k ∈ pkeys ps -> k ∈ pkeys all) -> settled now (pkeys all) g ->
  wp h_world (set_locally ps b) g (fun r g' => match r with
    | Val _ => rest_same g g' /\ h_now g' = h_now g /\ settled now (pkeys all) g'
    | _ => False
    end).
Proof.
  revert g. induction ps as [|p ps IH]; intros g Hsub Hset; [by split|].
  cbn [set_coalesce_params_locally]. rewrite pkeys_cons in Hsub.
  destruct (bool_decide_reflect (cp_name p = ADAPTIVE)); cbn [app] in Hsub; [by apply IH|].
  assert (Hk : key (cp_name p) ∈ pkeys all) by (apply Hsub; by apply list_elem_of_here).
  wp_go; cbn [h_upd]; unfold when_ok; [|by rewrite Heqb0]. rewrite Heqb0.
  eapply wp_mono; [apply IH; [intros k ?; apply Hsub; by apply list_elem_of_further|]|].
  - apply settled_local; [exact Hk|done].
  - intros [rc| | |] g' H'; done.
Qed.

Lemma settled_mono now now' pend pend' g :
  (forall k, k ∈ now -> k ∈ now') -> (forall k, k ∈ pend -> k ∈ pend') -> settled now pend g -> settled now' pend' g.
Proof. intros Hn Hp [H1 H2]. split; [intros k Hk; apply H1; auto|]. intros k v Hk. eapply Hp, H2, Hk. Qed.

(** ** What the test must restore *)
Definition tx_inv (l : tx_locals) (g : held) : Prop :=
  h_socks g = [] /\ h_csaps g = [] /\ h_rules g = [] /\
  match tl_params l, tl_adaptive l with
  | None, _ => settled [] [] g
  | Some ps, None => saved ps g /\ settled (pkeys ps) (pkeys ps) g
  | Some ps, Some a => saved ps g /\ a = h_init g (key ADAPTIVE) /\
      settled (key ADAPTIVE :: pkeys ps) (pkeys ps) g /\
      (profile_enables_adaptive_tx profile = false -> a = 0 ->
       h_now g (key ADAPTIVE) = h_init g (key ADAPTIVE))
  end.

(** The concrete values are restored, whatever is left of the adaptive setting. *)
(** A cleanup step that leads to [Q]. *)
Abbreviation leads Q := (fun (r : result bool) g' => match r with Val _ => Q g' | _ => False end).

Lemma restore_values_wp ps now g (Q : held -> Prop) p :
  saved ps g -> settled now (pkeys ps) g ->
  (forall k, k ∈ now -> k = key ADAPTIVE \/ k ∈ pkeys ps) ->
  (forall g', rest_same g g' -> h_now g' (key ADAPTIVE) = h_now g (key ADAPTIVE) ->
    (forall k, k <> key ADAPTIVE -> h_now g' k = h_init g k) -> wp h_world p g' (leads Q)) ->
  wp h_world (also (cleanup_rc (set_locally ps true))
    (also (cleanup_rc (call (tapi_cfg_if_coalesce_commit ta if_name per_queue))) p)) g
    (leads Q).
Proof.
  intros Hs [Hn Hp] Hnow HQ. unfold also, cleanup_rc. wp_go.
  apply set_restore_wp; [done|]. cbn [bpost]. wp_go. cbn [h_ok h_upd] in *.
  destruct (h_restore_rest ps g) as [Hrest Hnw].
  assert (x = 0) as ->.
  { apply H. intros k v Hk. rewrite h_restore_pend in Hk by done.
    destruct Hrest as (_ & _ & _ & ->). destruct (decide (k ∈ pkeys ps)) as [|Hk']; [by injection Hk|].
    exfalso. by apply Hk', (Hp k v). }
  cbn [Z.eqb]. eapply wp_mono; [apply HQ|].
  - done.
  - cbn. rewrite h_restore_pend, decide_False by (done || apply adaptive_not_pkey). rewrite Hnw.
    destruct (h_pend g !! _) as [v|] eqn:Ev; [|done]. by apply Hp, adaptive_not_pkey in Ev.
  - intros k Hk. cbn. rewrite h_restore_pend, Hnw by done.
    destruct (decide (k ∈ pkeys ps)) as [Hin|Hnin]; [done|].
    destruct (h_pend g !! k) as [v|] eqn:Ev; [by apply Hp in Ev|]. apply Hn.
    intros [?|?]%Hnow; done.
  - intros [b| | |] g' H'; done.
Qed.

Lemma tx_cleanup_wp l g : tx_inv l g ->
  wp h_world (tx_cleanup ta if_name profile per_queue l) g
    (fun r g' => match r with Val _ => restored g' | _ => False end).
Proof.
  unfold tx_inv, tx_cleanup. intros (Hs & Hc & Hr & Hset).
  destruct (tl_params l) as [ps|]; [|split; [done|split; [done|split; [done|]]]; intros k; apply Hset; set_solver].
  destruct (tl_adaptive l) as [a|].
  - destruct Hset as (Hsv & Ha & Hst & Hkeep).
    apply (wp_also h_world _ _ _ (fun g' => rest_same g g' /\ settled (key ADAPTIVE :: pkeys ps) (pkeys ps) g' /\
      (a = 0 -> h_now g' (key ADAPTIVE) = h_init g' (key ADAPTIVE)))).
    + revert Hkeep. destruct (profile_enables_adaptive_tx profile); intros Hkeep;
      [|wp_go; split; [done|split; [done|by auto]]].
      unfold cleanup_rc. wp_go. cbn [h_ok h_upd] in *. fold (key ADAPTIVE) in *.
      split; [by apply when_ok_cases|]. split.
      * apply when_ok_cases; [|done]. intros _. apply settled_set; [by apply list_elem_of_here|done].
      * intros ->. rewrite H by done. unfold when_ok. cbn. by rewrite decide_True.
    + intros g1 ((E1 & E2 & E3 & E4) & Hst1 & Hk1). eapply restore_values_wp.
      * unfold saved in *. rewrite E4. exact Hsv.
      * exact Hst1.
      * intros k [->|?]%elem_of_cons; auto.
      * intros g2 (F1 & F2 & F3 & F4) Had Hoth. unfold restored. rewrite Ha, <- E4.
        destruct (Z.eqb_spec (h_init g1 (key ADAPTIVE)) 0) as [E0|E0]; cbn [negb].
        -- wp_go. rewrite F1, F2, F3, F4, E1, E2, E3. split; [done|]. split; [done|]. split; [done|].
           intros k. destruct (decide (k = key ADAPTIVE)) as [->|]; [|by auto].
           rewrite Had. apply Hk1. by rewrite Ha, <- E4.
        -- unfold cleanup_rc. wp_go. cbn [h_ok h_upd] in *. fold (key ADAPTIVE) in *.
           rewrite F4 in H. rewrite H by done. unfold when_ok. cbn [Z.eqb].
           cbn [h_socks h_csaps h_rules h_now h_init h_set]. rewrite F1, F2, F3, F4, E1, E2, E3.
           split; [done|]. split; [done|]. split; [done|]. intros k.
           destruct (decide (k = key ADAPTIVE)) as [->|]; [done|by auto].
  - destruct Hset as (Hsv & Hst).
    apply (wp_also h_world _ _ _ (fun g' => g' = g)); [by wp_go|]. intros g1 ->.
    eapply restore_values_wp; [done|exact Hst|auto|].
    intros g2 (F1 & F2 & F3 & F4) Had Hoth. wp_go. unfold restored. rewrite F1, F2, F3, F4.
    split; [done|]. split; [done|]. split; [done|].
    intros k. destruct (decide (k = key ADAPTIVE)) as [->|]; [|by auto].
    rewrite Had. apply Hst, adaptive_not_pkey.
Qed.

(** ** The body *)
Lemma save_profile_params_wp ps g : settled [] [] g ->
  wp h_world (save_profile_params ta if_name per_queue ps) g (fun r g' => g' = g /\ match r with
    | Val qs => saved qs g /\ map cp_name qs = map cp_name ps /\ map cp_value qs = map cp_value ps
    | Exc _ => True
    | _ => False
    end).
Proof.
  intros [Hn _]. induction ps as [|p ps IH]; [by repeat constructor|]. cbn [save_profile_params].
  wp_go; [done|]. eapply wp_mono; [exact IH|].
  intros [qs|j| |] g' [-> H']; wp_go; try done. destruct H' as (H1 & H2 & H3).
  split; [done|]. cbn [map cp_name cp_value]. rewrite H2, H3. split; [|done].
  apply Forall_cons. split; [|done]. cbn [cp_prev_value cp_name h_ok fst snd] in *.
  autorewrite with zbool in *. rewrite H by done. apply Hn. set_solver.
Qed.

Lemma check_profile_params_wp ps g :
  wp h_world (check_profile_params ta if_name per_queue ps) g (fun r g' => g' = g /\ match r with
    | Val _ => Forall (fun p => h_now g (key (cp_name p)) = cp_value p) ps
    | Exc _ => True
    | _ => False
    end).
Proof.
  induction ps as [|p ps IH]; [by repeat constructor|]. cbn [check_profile_params].
  wp_go; try done. eapply wp_mono; [exact IH|]. intros [[]|j| |] g' [-> H']; try done.
  split; [done|]. apply Forall_cons. split; [|done]. cbn [h_ok fst snd] in *.
  autorewrite with zbool in *. unfold key; rewrite <- H by done. done.
Qed.

(** What a body that was not left has shown. *)
Definition shown (g : held) : Prop :=
  if bool_decide (profile = TEST_PROFILE_INVALID) then
    forall k, k <> key ADAPTIVE -> h_now g k = h_init g k
  else Forall (fun p => h_now g (key (cp_name p)) = cp_value p) params.

(** Code between the saving of the settings and the end. *)
Definition changed (ps : list test_coalesce_param) (a : Z) (g g' : held) : Prop :=
  rest_same g g' /\ settled (key ADAPTIVE :: pkeys ps) (pkeys ps) g' /\
  (profile_enables_adaptive_tx profile = false -> a = 0 -> h_now g' (key ADAPTIVE) = h_now g (key ADAPTIVE)).

Lemma changed_trans ps a g g1 g2 : changed ps a g g1 -> changed ps a g1 g2 -> changed ps a g g2.
Proof.
  intros ((A1 & A2 & A3 & A4) & _ & A5) ((B1 & B2 & B3 & B4) & B6 & B5).
  split; [|split; [done|]]; [unfold rest_same; by rewrite B1, B2, B3, B4|]. intros Hp Ha. by rewrite B5, A5.
Qed.

Lemma changed_inv ps a g g' : tx_inv (TxLocals (Some ps) (Some a)) g -> changed ps a g g' ->
  tx_inv (TxLocals (Some ps) (Some a)) g'.
Proof.
  intros (Hs & Hc & Hr & Hsv & Ha & Hst & Hk) ((E1 & E2 & E3 & E4) & Hst' & Hk'). unfold tx_inv, saved in *. cbn in *.
  rewrite E1, E2, E3, E4. repeat (split; [done|]). intros Hp H0. rewrite Hk' by done. by apply Hk.
Qed.

Lemma set_adaptive_wp ps a v fmt g : settled (key ADAPTIVE :: pkeys ps) (pkeys ps) g ->
  profile_enables_adaptive_tx profile = true \/ a <> 0 ->
  wp h_world (set_adaptive ta if_name per_queue v fmt) g (fun r g' => match r with
    | Val _ | Exc _ => changed ps a g g' /\ forall k, k <> key ADAPTIVE -> h_now g' k = h_now g k
    | _ => False
    end).
Proof.
  intros Hst Hpa. unfold set_adaptive.
  assert (Hset : forall rc, changed ps a g (when_ok rc (h_set (key ADAPTIVE) v) g) /\
    forall k, k <> key ADAPTIVE -> h_now (when_ok rc (h_set (key ADAPTIVE) v) g) k = h_now g k).
  { intros rc. split; [|intros k Hk; apply when_ok_cases; intros _; [cbn; by rewrite decide_False|done]].
    apply when_ok_cases; intros _; (split; [done|split]).
    - apply settled_set; [by apply list_elem_of_here|done].
    - intros Hp ->. destruct Hpa as [Hpa|Hpa]; [by rewrite Hp in Hpa|done].
    - done.
    - done. }
  wp_go; cbn [h_upd]; apply Hset.
Qed.

Lemma commit_changed ps a b g : settled (key ADAPTIVE :: pkeys ps) (pkeys ps) g -> changed ps a g (h_commit b g).
Proof.
  intros [Hn Hp]. split; [done|]. split; [by apply settled_commit; [by intros k ?; apply list_elem_of_further|]|].
  intros _ _. cbn. destruct b; [|done].
  destruct (h_pend g !! _) as [v|] eqn:Ev; [by apply Hp, adaptive_not_pkey in Ev|done].
Qed.

Lemma set_locally_changed ps a b g : settled (key ADAPTIVE :: pkeys ps) (pkeys ps) g ->
  wp h_world (set_locally ps b) g (fun r g' => match r with
    | Val _ => changed ps a g g' /\ h_now g' = h_now g
    | _ => False
    end).
Proof.
  intros Hst. eapply wp_mono; [by apply (set_locally_wp ps ps)|].
  intros [rc| | |] g' H; try done. destruct H as (Hr & Hn & Hst'). split; [|done].
  split; [done|]. split; [done|]. intros _ _. by rewrite Hn.
Qed.

(** The invalid profile: the values in force have not changed. *)
Lemma set_invalid_wp ps a g : settled (key ADAPTIVE :: pkeys ps) (pkeys ps) g ->
  wp h_world (set_invalid ta if_name per_queue ps) g (fun r g' => match r with
    | Val _ => changed ps a g g' /\ h_now g' = h_now g
    | Exc _ => changed ps a g g'
    | _ => False
    end).
Proof.
  intros Hst. unfold set_invalid, CHECK_RC. wp_go.
  eapply wp_mono; [by apply (set_locally_changed ps a)|].
  intros [rc| | |] g1 H1; try done. destruct H1 as [H1 Hn1]. wp_go; cbn [h_upd].
  - eapply changed_trans; [exact H1|]. apply commit_changed, H1.
  - eapply changed_trans; [exact H1|]. apply commit_changed, H1.
  - split; [eapply changed_trans; [exact H1|]; apply commit_changed, H1|].
    autorewrite with zbool in *. destruct (Z.eqb_spec x 0) as [->|]; [|done].
    rewrite te_rc_get_error_0 in *. exfalso. apply (te_code_nonzero TE_EINVAL); auto with te.
  - exact H1.
Qed.

Lemma set_valid_wp ps a g : settled (key ADAPTIVE :: pkeys ps) (pkeys ps) g ->
  wp h_world (set_valid ta if_name profile per_queue ps) g (fun r g' => match r with
    | Val _ => changed ps a g g' /\ Forall (fun p => h_now g' (key (cp_name p)) = cp_value p) ps
    | Exc _ => changed ps a g g'
    | _ => False
    end).
Proof.
  intros Hst. unfold set_valid, CHECK_RC. wp_go.
  eapply wp_mono; [by apply (set_locally_changed ps a)|].
  intros [rc| | |] g1 H1; try done. destruct H1 as [H1 Hn1]. wp_go; cbn [h_upd];
    try (eapply changed_trans; [exact H1|]; apply commit_changed, H1); [| |done].
  all: set (g2 := h_commit _ _);
    assert (H2 : changed ps a g g2) by (eapply changed_trans; [exact H1|]; apply commit_changed, H1).
  - eapply wp_mono; [eapply (set_adaptive_wp ps a); [apply H2|by left]|].
    intros [[]|j| |] g3 H3; wp_go; try done; destruct H3 as [H3 _]; [|by eapply changed_trans].
    eapply wp_mono; [apply check_profile_params_wp|].
    intros [[]|j| |] g4 [-> H4]; try done; [split; [|done]|]; by eapply changed_trans.
  - eapply wp_mono; [apply check_profile_params_wp|]. intros [[]|j| |] g4 [-> H4]; done.
Qed.

Lemma tx_body_wp init :
  wp h_world (tx_body ta if_name profile per_queue (TxLocals None None)) (clean init)
    (upto tx_inv (fun _ l g => tx_inv l g /\ shown g)).
Proof.
  assert (Hset0 : settled [] [] (clean init)) by by split; [|intros k v H; cbn in H; rewrite lookup_empty in H].
  set (g := clean init) in *. assert (Hrest : h_socks g = [] /\ h_csaps g = [] /\ h_rules g = []) by done.
  assert (Heq : forall k, h_now g k = h_init g k) by done. clearbody g.
  unfold tx_body. apply st_neutral; [unfold tx_supported; solve_only|by destruct Hrest as (? & ? & ?)|]. intros [].
  apply st_call. eapply wp_mono; [by apply save_profile_params_wp|].
  intros [ps|j| |] g' [-> Hps]; [|by destruct Hrest as (? & ? & ?)|done..].
  apply st_modify. destruct Hps as (Hsv & Hnames & Hvalues).
  assert (H0 : tx_inv (TxLocals (Some ps) None) g).
  { destruct Hrest as (? & ? & ?). do 4 (split; [done|]). apply (settled_mono [] _ [] _); [by intros k ?%elem_of_nil..|done]. }
  change (tl_set_params ps (TxLocals None None)) with (TxLocals (Some ps) None).
  apply st_call. wp_go; [|exact H0]. apply st_modify. cbn [h_ok fst snd h_upd] in *. autorewrite with zbool in *.
  change (tl_set_adaptive z (TxLocals (Some ps) None)) with (TxLocals (Some ps) (Some z)).
  assert (H1 : tx_inv (TxLocals (Some ps) (Some z)) g).
  { destruct H0 as (? & ? & ? & ? & ?). do 4 (split; [done|]). split; [rewrite H by done; apply Heq|].
    split; [|done]. apply (settled_mono (pkeys ps) _ (pkeys ps) _); try done. intros k Hk. by apply list_elem_of_further. }
  assert (Hlast : forall p g1, tx_inv (TxLocals (Some ps) (Some z)) g1 ->
    wp h_world p g1 (fun r g' => match r with
      | Val _ => changed ps z g1 g' /\ shown g'
      | Exc _ => changed ps z g1 g'
      | _ => False
      end) ->
    wp h_world (lift p (TxLocals (Some ps) (Some z))) g1 (upto tx_inv (fun (_ : unit) l g => tx_inv l g /\ shown g))).
  { intros p g1 Hi Hp. unfold lift. apply wp_bind, wp_attempt. eapply wp_mono; [exact Hp|].
    intros [[]|j| |] g2 H2; cbn; try done; [split; [|apply H2]|]; eapply changed_inv; done || apply H2. }
  clear H0. apply st_bind.
  assert (H2 : wp h_world (twhen (profile_enables_adaptive_tx profile || negb (z =? 0))
      (lift (set_adaptive ta if_name per_queue 0 "Failed to disable use_adaptive_tx_coalesce, rc=%r"))
      (TxLocals (Some ps) (Some z))) g (upto tx_inv (fun _ l g1 => l = TxLocals (Some ps) (Some z) /\
        tx_inv l g1 /\ changed ps z g g1 /\ forall k, k <> key ADAPTIVE -> h_now g1 k = h_now g k))).
  { unfold twhen. destruct (_ || _) eqn:Ec; [|cbn; repeat (split; [done|]); split; [|done]; split; [done|]; by split; [apply H1|]].
    unfold lift. apply wp_bind, wp_attempt. eapply wp_mono; [apply (set_adaptive_wp ps z); [apply H1|]|].
    - apply orb_true_iff in Ec as [?|?]; [by left|right]. by autorewrite with zbool in *.
    - intros [[]|j| |] g1 Hg1; cbn; try done; destruct Hg1 as [Hg1 Hg2];
        [split; [done|split; [|done]]|]; by eapply changed_inv. }
  eapply wp_mono; [exact H2|]. clear H2. intros [[L [[]|j]]| | |] g1; cbn [upto]; try done.
  intros (-> & Hi & Hch & Hoth). unfold shown in *.
  destruct (bool_decide_reflect (profile = TEST_PROFILE_INVALID)) as [E|E].
  - apply Hlast; [done|]. eapply wp_mono; [apply (set_invalid_wp ps z); apply Hch|].
    intros [[]|j| |] g2 H2; try done. destruct H2 as [H2 Hn]. split; [done|].
    intros k Hk. rewrite Hn, Hoth, Heq by done. destruct Hch as ((_ & _ & _ & E1) & _), H2 as ((_ & _ & _ & E2) & _).
    by rewrite E2, E1.
  - apply Hlast; [done|]. eapply wp_mono; [apply (set_valid_wp ps z); apply Hch|].
    intros [[]|j| |] g2 H2; try done. destruct H2 as [H2 Hall]. split; [done|].
    clear -Hall Hnames Hvalues. revert Hnames Hvalues. generalize params as qs.
    induction Hall as [|p ps Hp Hall IH]; intros [|q qs] Hn Hv; try done.
    injection Hn as Hn Hns. injection Hv as Hv Hvs. constructor; [by rewrite <- Hn, <- Hv|by apply IH].
Qed.

(** C31.  The test of a profile of Tx coalescing settings, however it ends and
    whatever the environment answers, leaves all settings of the interface and
    its queues as they were, provided that values that were in force can be set
    again: also when the adaptive setting cannot be read, switched off or
    switched on, or setting stops half-way. *)
Theorem tx_coalesce_restores init :
  wp h_world (tx_main ta if_name profile per_queue) (clean init)
    (fun r g => match r with Val _ => restored g | NoFuel => True | _ => False end).
Proof.
  unfold tx_main.
  apply (test_main_keeps h_world (fun l g => l = TxLocals None None /\ g = clean init) tx_inv);
    [done| |intros l g; apply tx_cleanup_wp].
  intros l g [-> ->]. eapply wp_mono; [apply tx_body_wp|].
  intros [[l [[]|j]]| | |] g; cbn; try done. by intros [? _].
Qed.

(** A test of a valid profile that is not left by a jump has found every
    parameter of the profile in force, with the value of the profile, the
    adaptive setting included; a test of the invalid profile has found that the
    commit was refused, and no setting but the adaptive one has changed. *)
Theorem tx_coalesce_shows init :
  wp h_world (tx_body ta if_name profile per_queue (TxLocals None None)) (clean init)
    (fun r g => match r with
      | Val (_, inl _) =>
          if bool_decide (profile = TEST_PROFILE_INVALID) then
            forall k, k <> key "use_adaptive_tx_coalesce" -> h_now g k = h_init g k
          else Forall (fun p => h_now g (key (cp_name p)) = cp_value p) (profile_params profile)
      | Val (_, inr _) | NoFuel => True
      | _ => False
      end).
Proof.
  eapply wp_mono; [apply tx_body_wp|]. intros [[l [[]|j]]| | |] g; cbn; try done. by intros [_ ?].
Qed.
End settings.
