(* ===== verification/Tso.v ===== *)
(** offload/tso.c: the segments captured on both sides of a NIC that splits
    TCP data, in 32-bit sequence numbers. *)
From S2P Require Import Prelude Prog Te Locals NetDrvTs Resources RxCommon.

(** [tcp_seg_info]. *)
Record tcp_seg_info := Seg { sg_seqn : Z; sg_len : Z }.

(** [pkts_info]. *)
Record pkts_info := PktsInfo {
  pi_mss : Z; pi_num : Z; pi_first : Z; pi_last : Z; pi_total : Z;
  pi_large : bool; pi_failed : bool; pi_segs : list tcp_seg_info }.

(** The initializer in [check_captured_pkts]. *)
Definition PKTS_INFO (mss : Z) : pkts_info := PktsInfo mss 0 0 0 0 false false [].

Definition pi_set_num (n : Z) (i : pkts_info) : pkts_info :=
  PktsInfo (pi_mss i) n (pi_first i) (pi_last i) (pi_total i) (pi_large i) (pi_failed i) (pi_segs i).
Definition pi_set_failed (i : pkts_info) : pkts_info :=
  PktsInfo (pi_mss i) (pi_num i) (pi_first i) (pi_last i) (pi_total i) (pi_large i) true (pi_segs i).
Definition pi_set_range (first last total : Z) (i : pkts_info) : pkts_info :=
  PktsInfo (pi_mss i) (pi_num i) first last total (pi_large i) (pi_failed i) (pi_segs i).
Definition pi_append (s : tcp_seg_info) (i : pkts_info) : pkts_info :=
  PktsInfo (pi_mss i) (pi_num i) (pi_first i) (pi_last i) (pi_total i) (pi_large i) (pi_failed i) (pi_segs i ++ [s]).
Definition pi_set_large (i : pkts_info) : pkts_info :=
  PktsInfo (pi_mss i) (pi_num i) (pi_first i) (pi_last i) (pi_total i) true (pi_failed i) (pi_segs i).

Section tso.
Context {TE : Te}.

(** TAPI's comparison of sequence numbers. *)
Context (tapi_tcp_compare_seqn : Z -> Z -> Z).

Definition process_pkts (pkt : tad_pkt) (info : pkts_info) : pkts_info :=
  let info := pi_set_num (u32 (pi_num info + 1)) info in
  let '(rc, seqn) := pk_seqn pkt in
  if negb (rc =? 0) then pi_set_failed info
  else
    let '(rc, pld_len) := pk_pld_len pkt in
    if negb (rc =? 0) then pi_set_failed info
    else
      let info :=
        if pi_num info =? 1 then pi_set_range seqn seqn pld_len info
        else
          let last := if 0 <? tapi_tcp_compare_seqn seqn (pi_last info) then seqn else pi_last info in
          let '(first, total) :=
            if tapi_tcp_compare_seqn seqn (pi_first info) <? 0
            then (seqn, u32 (pi_total info + u32 (pi_first info - seqn)))
            else (pi_first info, pi_total info) in
          let total_len := u32 (u32 (seqn - first) + pld_len) in
          pi_set_range first last (if total <? total_len then total_len else total) info in
      let info := pi_append (Seg seqn pld_len) info in
      if pi_mss info <? pld_len then pi_set_large info else info.

Definition check_csap_gen (info : pkts_info) (sent : Z) (csap_name : string) : M unit :=
  if pi_failed info then TEST_VERDICT "Failed to process captured packet(s) from %s CSAP" [AS csap_name]
  else if pi_num info =? 0 then TEST_VERDICT "No packets were captured on %s CSAP" [AS csap_name]
  else if negb (pi_total info =? sent) then
    TEST_VERDICT "Number of bytes in packets captured by %s CSAP does not match number of bytes sent" [AS csap_name]
  else mret tt.

(** One pass of the inner loop of [split_pkts_by_mss]. *)
Definition split_pass (seg_info : tcp_seg_info) (mss : Z) (st : Z * list tcp_seg_info)
    : M (ctl (Z * list tcp_seg_info) Empty_set) :=
  let '(off, expected) := st in
  if off <? sg_len seg_info then
    let cur_len := u32 (sg_len seg_info - off) in
    let cur_len := if mss <? cur_len then mss else cur_len in
    mret (Continue (u32 (off + cur_len), expected ++ [Seg (u32 (sg_seqn seg_info + off)) cur_len]))
  else mret (Break st).

Definition split_pkts_by_mss (fuel : nat) (tx_segs : list tcp_seg_info) (mss : Z)
    : M (list tcp_seg_info) :=
  r ← foreach tx_segs [] (fun seg_info expected =>
        r ← loop fuel (0, expected) (split_pass seg_info mss);
        match r with
        | inl (_, expected) => mret (Continue expected)
        | inr v => match (v : Empty_set) with end
        end);
  match r with inl expected => mret expected | inr v => match (v : Empty_set) with end end.

Fixpoint segs_match (got exp : list tcp_seg_info) : bool :=
  match got, exp with
  | g :: got', e :: exp' =>
      (tapi_tcp_compare_seqn (sg_seqn g) (sg_seqn e) =? 0) && (sg_len g =? sg_len e) &&
      segs_match got' exp'
  | _, _ => true
  end.

Definition check_rx_pkts (rx_segs expected : list tcp_seg_info) : M unit :=
  let same_num := bool_decide (length rx_segs = length expected) in
  _ ← when (negb same_num) (ERROR_VERDICT "Unexpected number of TCP segments captured on Tester" []);
  if negb same_num || negb (segs_match rx_segs expected) then
    TEST_VERDICT "TCP segments captured on Tester do not match expected TSO splitting result" []
  else mret tt.

(** What [check_captured_pkts] makes of each capture. *)
Definition check_tx (tx : list tad_pkt) (send_len mss : Z) (tso_on : bool) : M pkts_info :=
  let tx_stats := fold_left (fun i p => process_pkts p i) tx (PKTS_INFO (u32 mss)) in
  _ ← check_csap_gen tx_stats send_len "IUT";
  if tso_on then
    if negb (pi_large tx_stats) then
      TEST_VERDICT "TSO is on, however no bigger than MSS Tx packets were captured" []
    else mret tx_stats
  else
    if pi_large tx_stats then
      TEST_VERDICT "TSO is off, however bigger than MSS Tx packets were captured" []
    else mret tx_stats.

Definition check_rx (fuel : nat) (tx_stats : pkts_info) (rx : list tad_pkt) (send_len mss : Z) : M unit :=
  let rx_stats := fold_left (fun i p => process_pkts p i) rx (PKTS_INFO (u32 mss)) in
  _ ← check_csap_gen rx_stats send_len "Tester";
  if pi_large rx_stats then TEST_VERDICT "Larger than MSS packets were captured on Tester" []
  else
    expected ← split_pkts_by_mss fuel (pi_segs tx_stats) (u32 mss);
    check_rx_pkts (pi_segs rx_stats) expected.

Definition check_captured_pkts (fuel : nat) (ta_tx : string) (csap_tx : Z) (ta_rx : string) (csap_rx : Z)
    (send_len mss : Z) (tso_on : bool) : M unit :=
  tx ← CHECK_OUT (call (tapi_tad_trrecv_get ta_tx csap_tx));
  tx_stats ← check_tx tx send_len mss tso_on;
  rx ← CHECK_OUT (call (tapi_tad_trrecv_get ta_rx csap_rx));
  check_rx fuel tx_stats rx send_len mss.
End tso.

(** ** Segments at positions of the stream *)

(** A segment by its position and length, before the 32-bit numbers; how it is
    seen on the wire, when the stream begins at sequence number [base]. *)
Definition segment : Type := Z * Z.
Definition wire (base : Z) (s : segment) : tcp_seg_info := Seg (u32 (base + s.1)) s.2.
Definition carries (base : Z) (pkt : tad_pkt) (s : segment) : Prop :=
  pk_seqn pkt = (0, u32 (base + s.1)) /\ pk_pld_len pkt = (0, s.2).

(** Half of the sequence space. *)
Definition fits (s : segment) : Prop := 0 <= s.1 /\ 0 <= s.2 /\ s.1 + s.2 < 2 ^ 31.

(** Where the segments begin and end. *)
Definition lowest (s : segment) (l : list segment) : Z := fold_left (fun m x => Z.min m x.1) l s.1.
Definition highest (s : segment) (l : list segment) : Z := fold_left (fun m x => Z.max m x.1) l s.1.
Definition furthest (s : segment) (l : list segment) : Z :=
  fold_left (fun m x => Z.max m (x.1 + x.2)) l (s.1 + s.2).

(** The bytes from the first to the last one captured. *)
Definition span (l : list segment) : Z :=
  match l with [] => 0 | s :: l' => furthest s l' - lowest s l' end.

Definition any_larger (mss : Z) (l : list segment) : bool := existsb (fun s => mss <? s.2) l.

(** The specification of [pkts_info]. *)
Definition info_of (base mss : Z) (l : list segment) : pkts_info :=
  match l with
  | [] => PKTS_INFO mss
  | s :: l' => PktsInfo mss (Z.of_nat (length l)) (u32 (base + lowest s l')) (u32 (base + highest s l'))
                 (span l) (any_larger mss l) false (map (wire base) l)
  end.

Lemma bounds_fit s l : Forall fits (s :: l) ->
  0 <= lowest s l <= highest s l /\ highest s l <= furthest s l < 2 ^ 31.
Proof.
  unfold lowest, highest, furthest. intros [Hs Hl]%Forall_cons. unfold fits in Hs.
  enough (H : forall a b c, 0 <= a <= b /\ b <= c < 2 ^ 31 ->
    0 <= fold_left (fun m x => Z.min m x.1) l a <= fold_left (fun m x => Z.max m x.1) l b /\
    fold_left (fun m x => Z.max m x.1) l b <= fold_left (fun m x => Z.max m (x.1 + x.2)) l c < 2 ^ 31)
    by (apply H; lia).
  clear Hs. induction Hl as [|x l Hx Hl IH]; intros a b c H; cbn [fold_left]; [exact H|].
  apply IH. unfold fits in Hx. lia.
Qed.

Section positions.
Context {TE : Te}.
Context (compare : Z -> Z -> Z).

(** Documented behaviour of TAPI's comparison: the sign is that of the distance,
    for numbers at most half of the space apart. *)
Hypothesis compare_ok : forall a b, - 2 ^ 31 < a - b < 2 ^ 31 ->
  Z.sgn (compare (u32 a) (u32 b)) = Z.sgn (a - b).

Lemma compare_gt a b : - 2 ^ 31 < a - b < 2 ^ 31 -> (0 <? compare (u32 a) (u32 b)) = (b <? a).
Proof. intros H. apply compare_ok in H. destruct (Z.ltb_spec b a), (Z.ltb_spec 0 (compare (u32 a) (u32 b))); lia. Qed.
Lemma compare_lt a b : - 2 ^ 31 < a - b < 2 ^ 31 -> (compare (u32 a) (u32 b) <? 0) = (a <? b).
Proof. intros H. apply compare_ok in H. destruct (Z.ltb_spec a b), (Z.ltb_spec (compare (u32 a) (u32 b)) 0); lia. Qed.
Lemma compare_eq a b : - 2 ^ 31 < a - b < 2 ^ 31 -> (compare (u32 a) (u32 b) =? 0) = (a =? b).
Proof. intros H. apply compare_ok in H. destruct (Z.eqb_spec a b), (Z.eqb_spec (compare (u32 a) (u32 b)) 0); lia. Qed.

Lemma process_pkts_step base mss l pkt s :
  Forall fits l -> fits s -> carries base pkt s -> Z.of_nat (length l) < 2 ^ 32 - 1 ->
  process_pkts compare pkt (info_of base mss l) = info_of base mss (l ++ [s]).
Proof.
  intros Hl Hs [Hseq Hlen] Hn. unfold process_pkts. rewrite Hseq, Hlen. cbn [negb Z.eqb].
  destruct l as [|x l]; unfold fits in Hs.
  - cbn [info_of app]. unfold PKTS_INFO, pi_set_num, pi_set_range, pi_append, pi_set_large.
    cbn [pi_num]. change (u32 (0 + 1)) with 1. cbn [Z.eqb Pos.eqb pi_num pi_mss pi_first pi_last pi_total pi_large pi_failed pi_segs].
    unfold span, lowest, highest, furthest, any_larger, wire. cbn [fold_left length existsb map app].
    rewrite orb_false_r. replace (s.1 + s.2 - s.1) with s.2 by lia. destruct (mss <? s.2); done.
  - pose proof (bounds_fit x l Hl) as Hb. cbn [info_of app].
    unfold pi_set_num, pi_set_range, pi_append, pi_set_large.
    cbn [pi_num pi_mss pi_first pi_last pi_total pi_large pi_failed pi_segs].
    rewrite (u32_id (Z.of_nat (length (x :: l)) + 1)) by lia.
    rewrite (proj2 (Z.eqb_neq (Z.of_nat (length (x :: l)) + 1) 1)) by (cbn [length]; lia).
    rewrite compare_gt, compare_lt by lia.
    set (lo := lowest x l) in *. set (top := highest x l) in *. set (hi := furthest x l) in *.
    assert (E1 : lowest x (l ++ [s]) = Z.min lo s.1) by (unfold lowest; by rewrite fold_left_app).
    assert (E2 : highest x (l ++ [s]) = Z.max top s.1) by (unfold highest; by rewrite fold_left_app).
    assert (E3 : furthest x (l ++ [s]) = Z.max hi (s.1 + s.2)) by (unfold furthest; by rewrite fold_left_app).
    cbn [span]. rewrite E1, E2, E3. fold lo hi.
    change (x :: l ++ [s]) with ((x :: l) ++ [s]).
    assert (E4 : any_larger mss ((x :: l) ++ [s]) = any_larger mss (x :: l) || (mss <? s.2)).
    { unfold any_larger. rewrite existsb_app. cbn [existsb]. by rewrite orb_false_r. }
    rewrite E4, map_app, length_app. cbn [map length].
    assert (Elast : (if base + top <? base + s.1 then u32 (base + s.1) else u32 (base + top)) = u32 (base + Z.max top s.1)).
    { destruct (Z.ltb_spec (base + top) (base + s.1)); f_equal; lia. }
    rewrite Elast. rewrite !u32_sub.
    assert (Efirst : (if base + s.1 <? base + lo
        then (u32 (base + s.1), u32 (hi - lo + u32 (base + lo - (base + s.1))))
        else (u32 (base + lo), hi - lo)) = (u32 (base + Z.min lo s.1), hi - Z.min lo s.1)).
    { destruct (Z.ltb_spec (base + s.1) (base + lo)).
      - rewrite (u32_id (base + lo - (base + s.1))), (u32_id (hi - lo + _)) by lia. f_equal; [f_equal|]; lia.
      - f_equal; [f_equal|]; lia. }
    rewrite Efirst, u32_sub, (u32_id (base + s.1 - _)), (u32_id (_ + s.2)) by lia.
    assert (Etot : (if hi - Z.min lo s.1 <? base + s.1 - (base + Z.min lo s.1) + s.2
      then base + s.1 - (base + Z.min lo s.1) + s.2 else hi - Z.min lo s.1) =
      Z.max hi (s.1 + s.2) - Z.min lo s.1).
    { destruct (Z.ltb_spec (hi - Z.min lo s.1) (base + s.1 - (base + Z.min lo s.1) + s.2)); lia. }
    rewrite Etot. cbn [pi_num pi_mss pi_first pi_last pi_total pi_large pi_failed pi_segs].
    replace (Z.of_nat (S (length l) + 1)) with (Z.of_nat (S (length l)) + 1) by lia.
    destruct (mss <? s.2); [by rewrite orb_true_r|by rewrite orb_false_r].
Qed.

(** C33.  The 32-bit counters of [pkts_info] implement the specification on
    positions, in whatever order the segments are captured and wherever the
    sequence numbers wrap: the number of packets, the least and greatest
    sequence numbers, the distance from the first byte to the last, whether one
    is larger than the MSS, and the segments. *)
Theorem process_pkts_refines base mss pkts l :
  Forall2 (carries base) pkts l -> Forall fits l -> Z.of_nat (length l) < 2 ^ 32 ->
  fold_left (fun i p => process_pkts compare p i) pkts (PKTS_INFO mss) = info_of base mss l.
Proof.
  intros Hl Hf Hn. change (PKTS_INFO mss) with (info_of base mss []).
  enough (H : forall l1, Forall fits l1 -> Z.of_nat (length (l1 ++ l)) < 2 ^ 32 ->
    fold_left (fun i p => process_pkts compare p i) pkts (info_of base mss l1) = info_of base mss (l1 ++ l))
    by (by apply H).
  clear Hn. induction Hl as [|p s pkts l Hp Hl IH]; intros l1 H1 Hn; cbn [fold_left]; [by rewrite app_nil_r|].
  apply Forall_cons in Hf as [Hs Hf]. rewrite length_app in Hn. cbn [length] in Hn.
  rewrite (process_pkts_step base mss l1 p s) by (done || lia).
  rewrite IH; [by rewrite <- app_assoc|done| |by rewrite <- app_assoc, length_app].
  apply Forall_app. by split; [|constructor].
Qed.
End positions.

(** ** Splitting *)

(** The pieces of a segment: all of [mss] bytes but perhaps the last one. *)
Definition piece (mss : Z) (s : segment) (k : Z) : segment := (s.1 + k * mss, Z.min mss (s.2 - k * mss)).
Definition pieces (mss : Z) (s : segment) : list segment :=
  map (piece mss s) (seqZ 0 ((s.2 + mss - 1) / mss)).

(** They lie side by side and cover the segment. *)
Fixpoint tiles (from to : Z) (l : list segment) : Prop :=
  match l with
  | [] => from = to
  | x :: l' => x.1 = from /\ 0 < x.2 /\ tiles (from + x.2) to l'
  end.

Section split.
Context {TE : Te}.

Lemma pieces_num len mss : 0 < mss -> 0 <= len ->
  let n := (len + mss - 1) / mss in 0 <= n /\ n * mss - mss < len <= n * mss.
Proof.
  intros Hm Hl n. pose proof (Z.div_mod (len + mss - 1) mss ltac:(lia)) as Hd.
  pose proof (Z.mod_pos_bound (len + mss - 1) mss Hm) as Hb. fold n in Hd.
  assert (0 <= n) by (apply Z.div_pos; lia). lia.
Qed.

Lemma pieces_tile mss s : 0 < mss -> 0 <= s.2 ->
  tiles s.1 (s.1 + s.2) (pieces mss s) /\ Forall (fun x => x.2 <= mss) (pieces mss s) /\
  Forall (fun x => x.2 = mss) (removelast (pieces mss s)).
Proof.
  intros Hm Hs. unfold pieces. pose proof (pieces_num s.2 mss Hm Hs) as Hn. cbv zeta in Hn.
  set (n := (s.2 + mss - 1) / mss) in *. destruct Hn as [Hn0 Hn].
  enough (H : forall j k, k + Z.of_nat j = n -> 0 <= k ->
    tiles (s.1 + Z.min s.2 (k * mss)) (s.1 + s.2) (map (piece mss s) (seqZ k (Z.of_nat j))) /\
    Forall (fun x => x.2 <= mss) (map (piece mss s) (seqZ k (Z.of_nat j))) /\
    Forall (fun x => x.2 = mss) (removelast (map (piece mss s) (seqZ k (Z.of_nat j))))).
  { specialize (H (Z.to_nat n) 0 ltac:(lia) ltac:(lia)). rewrite Z2Nat.id in H by done.
    rewrite Z.min_r, Z.mul_0_l, Z.add_0_r in H by lia. exact H. }
  induction j as [|j IH]; intros k Hk Hk0.
  - cbn. rewrite Z.min_l by nia. by repeat constructor.
  - rewrite seqZ_cons by lia. replace (Z.pred (Z.of_nat (S j))) with (Z.of_nat j) by lia.
    destruct (IH (Z.succ k) ltac:(lia) ltac:(lia)) as (IH1 & IH2 & IH3). cbn [map].
    assert (Hlt : k * mss < s.2) by nia. split; [|split].
    + cbn [tiles piece fst snd]. split; [rewrite Z.min_r by lia; lia|]. split; [lia|].
      replace (s.1 + Z.min s.2 (k * mss) + Z.min mss (s.2 - k * mss)) with (s.1 + Z.min s.2 (Z.succ k * mss)) by lia.
      exact IH1.
    + constructor; [cbn; lia|exact IH2].
    + destruct j as [|j]; [constructor|]. cbn [removelast].
      destruct (map (piece mss s) (seqZ (Z.succ k) (Z.of_nat (S j)))) as [|y l] eqn:Ey; [constructor|].
      rewrite <- Ey in *. constructor; [cbn; rewrite Z.min_l; nia|exact IH3].
Qed.

Lemma split_loop base mss s out fuel : 0 < mss < 2 ^ 32 -> fits s -> (Z.to_nat s.2 < fuel)%nat ->
  loop (C := te_call) fuel (0, out) (split_pass (wire base s) mss) =
    mret (inl (s.2, out ++ map (wire base) (pieces mss s))).
Proof.
  intros Hm [H1 [H2 H3]] Hfuel. unfold pieces. pose proof (pieces_num s.2 mss ltac:(lia) H2) as Hn. cbv zeta in Hn.
  set (n := (s.2 + mss - 1) / mss) in *. destruct Hn as [Hn0 Hn].
  enough (H : forall j k fuel out, k + Z.of_nat j = n -> 0 <= k -> (j < fuel)%nat ->
    loop (C := te_call) fuel (Z.min s.2 (k * mss), out) (split_pass (wire base s) mss) =
      mret (inl (s.2, out ++ map (wire base) (map (piece mss s) (seqZ k (Z.of_nat j)))))).
  { assert (n <= s.2) by (destruct (decide (n = 0)); [lia|]; nia).
    specialize (H (Z.to_nat n) 0 fuel out ltac:(lia) ltac:(lia) ltac:(lia)). rewrite Z2Nat.id in H by done.
    by rewrite Z.min_r, Z.mul_0_l in H by lia. }
  clear out fuel Hfuel. induction j as [|j IH]; intros k fuel out Hk Hk0 Hf; (destruct fuel as [|fuel]; [lia|]);
    cbn [loop split_pass wire sg_len sg_seqn].
  - rewrite Z.min_l by nia. rewrite Z.ltb_irrefl. cbn. by rewrite app_nil_r.
  - assert (Hlt : k * mss < s.2) by nia. rewrite Z.min_r by lia. rewrite (proj2 (Z.ltb_lt (k * mss) s.2)) by done.
    rewrite (u32_id (s.2 - k * mss)) by nia. cbn [mret prog_ret bind lift_result].
    assert (E : (if mss <? s.2 - k * mss then mss else s.2 - k * mss) = Z.min mss (s.2 - k * mss)).
    { destruct (Z.ltb_spec mss (s.2 - k * mss)); lia. }
    rewrite E, (u32_id (k * mss + _)) by nia.
    replace (k * mss + Z.min mss (s.2 - k * mss)) with (Z.min s.2 (Z.succ k * mss)) by nia.
    rewrite (seqZ_cons k) by lia. replace (Z.pred (Z.of_nat (S j))) with (Z.of_nat j) by lia. rewrite IH by lia.
    cbn [map]. unfold mret, prog_ret. do 3 f_equal. rewrite <- app_assoc. cbn [app]. do 2 f_equal.
    unfold wire, piece. cbn [fst snd]. by rewrite u32_add_l, Z.add_assoc.
Qed.

Lemma split_foreach base mss fuel l out :
  0 < mss < 2 ^ 32 -> Forall fits l -> Forall (fun s => (Z.to_nat s.2 < fuel)%nat) l ->
  foreach (C := te_call) (R := Empty_set) (map (wire base) l) out (fun seg_info expected =>
      r ← loop fuel (0, expected) (split_pass seg_info mss);
      match r with
      | inl (_, expected) => mret (Continue expected)
      | inr v => match (v : Empty_set) with end
      end) = mret (inl (out ++ map (wire base) (flat_map (pieces mss) l))).
Proof.
  intros Hm Hf. revert out. induction Hf as [|s l Hs Hf IH]; intros out Hfu; cbn [map foreach flat_map].
  - by rewrite app_nil_r.
  - apply Forall_cons in Hfu as [Hf1 Hfu]. rewrite split_loop by done.
    cbn [mret prog_ret mbind prog_bind bind lift_result]. rewrite IH by done.
    by rewrite map_app, app_assoc.
Qed.

(** C34.  The packets expected on the receiver are, for every packet sent, the
    segments of at most [mss] bytes that tile it, all but the last of exactly
    [mss] bytes, in order, across the wrap of sequence numbers; the loop ends
    when the MSS is positive, and its passes are bounded by the length. *)
Theorem split_pkts_correct base mss fuel l :
  0 < mss < 2 ^ 32 -> Forall fits l -> Forall (fun s => (Z.to_nat s.2 < fuel)%nat) l ->
  split_pkts_by_mss fuel (map (wire base) l) mss = mret (map (wire base) (flat_map (pieces mss) l)) /\
  Forall (fun s => tiles s.1 (s.1 + s.2) (pieces mss s) /\ Forall (fun x => x.2 <= mss) (pieces mss s) /\
                   Forall (fun x => x.2 = mss) (removelast (pieces mss s))) l.
Proof.
  intros Hm Hf Hfu. split.
  - unfold split_pkts_by_mss. by rewrite split_foreach.
  - eapply Forall_impl; [exact Hf|]. intros s (_ & Hs & _). apply pieces_tile; lia.
Qed.

(** With an MSS of zero the splitting of a packet that carries data never
    ends: every pass appends an empty segment. *)
Theorem split_pkts_endless fuel segs :
  Forall (fun s => 0 <= sg_len s < 2 ^ 32) segs -> Exists (fun s => 0 < sg_len s) segs ->
  split_pkts_by_mss fuel segs 0 = Done NoFuel.
Proof.
  intros Hr He. unfold split_pkts_by_mss.
  assert (Hloop : forall fuel s out, 0 < sg_len s < 2 ^ 32 ->
    loop (C := te_call) fuel (0, out) (split_pass s 0) = Done NoFuel).
  { clear. intros fuel s. induction fuel as [|fuel IH]; intros out Hs; [done|]. cbn [loop split_pass].
    rewrite (proj2 (Z.ltb_lt 0 (sg_len s))) by lia. rewrite Z.sub_0_r, (u32_id (sg_len s)) by lia.
    rewrite (proj2 (Z.ltb_lt 0 (sg_len s))) by lia. cbn [mret prog_ret bind lift_result].
    change (u32 (0 + 0)) with 0. by apply IH. }
  match goal with |- context [foreach segs [] ?f] => set (body := f) end.
  enough (Hall : forall out, foreach segs out body = Done NoFuel) by by rewrite Hall.
  induction segs as [|s segs IH]; intros out; [by apply Exists_nil in He|]. apply Forall_cons in Hr as [Hs Hr].
  cbn [foreach]. unfold body at 2. destruct (decide (0 < sg_len s)) as [Hp|Hp]; [by rewrite Hloop by lia|].
  destruct fuel as [|fuel]; [done|]. cbn [loop split_pass].
  rewrite (proj2 (Z.ltb_ge 0 (sg_len s))) by lia. cbn [mret prog_ret mbind prog_bind bind lift_result].
  apply IH; [done|]. apply Exists_cons in He as [?|?]; [lia|done].
Qed.
End split.

(** ** The whole check *)
Section check.
Context {TE : Te}.
Context (compare : Z -> Z -> Z).
Hypothesis compare_ok : forall a b, - 2 ^ 31 < a - b < 2 ^ 31 ->
  Z.sgn (compare (u32 a) (u32 b)) = Z.sgn (a - b).

(** What the NIC must have done to the bytes sent in one call. *)
Definition split_right (mss sent : Z) (tso_on : bool) (tx rx : list segment) : Prop :=
  tx <> [] /\ rx <> [] /\ span tx = sent /\ span rx = sent /\
  any_larger mss tx = tso_on /\ rx = flat_map (pieces mss) tx.

Lemma segs_match_wire base l l' : Forall fits l -> Forall fits l' -> length l = length l' ->
  segs_match compare (map (wire base) l) (map (wire base) l') = bool_decide (l = l').
Proof.
  intros Hl. revert l'. induction Hl as [|s l Hs Hl IH]; intros [|s' l'] Hl' Hlen; try done.
  apply Forall_cons in Hl' as [Hs' Hl']. injection Hlen as Hlen. cbn [map segs_match wire sg_seqn sg_len].
  unfold fits in Hs, Hs'. rewrite (compare_eq compare compare_ok) by lia. rewrite IH by done.
  destruct s as [p n], s' as [p' n']. cbn [fst snd].
  destruct (Z.eqb_spec (base + p) (base + p')) as [Ep|Ep]; [|rewrite (bool_decide_false ((p, n) :: l = _)) by congruence; by rewrite ?andb_false_r].
  destruct (Z.eqb_spec n n') as [En|En]; [|rewrite (bool_decide_false ((p, n) :: l = _)) by congruence; by rewrite ?andb_false_r].
  assert (p = p') as -> by lia. subst n'. cbn [andb].
  apply bool_decide_ext. split; congruence.
Qed.

Lemma tiles_fit from to l : 0 <= from -> to < 2 ^ 31 -> tiles from to l -> Forall fits l /\ from <= to.
Proof.
  intros H1 H2. revert from H1. induction l as [|x l IH]; intros from H1; cbn [tiles]; [intros ->; by split|].
  intros (<- & Hp & Ht). destruct (IH (x.1 + x.2)) as [Hl Hle]; [lia|done|].
  split; [|lia]. constructor; [unfold fits; lia|done].
Qed.

Lemma fits_pieces mss l : 0 < mss -> Forall fits l -> Forall fits (flat_map (pieces mss) l).
Proof.
  intros Hm. induction 1 as [|s l Hs Hl IH]; cbn [flat_map]; [constructor|].
  apply Forall_app. split; [|done]. unfold fits in Hs.
  destruct (pieces_tile mss s Hm ltac:(lia)) as (Ht & _ & _). eapply tiles_fit; [| |exact Ht]; lia.
Qed.

Lemma any_larger_false mss l : Forall (fun x => x.2 <= mss) l -> any_larger mss l = false.
Proof.
  unfold any_larger. induction 1 as [|x l Hx Hl IH]; [done|]. cbn [existsb].
  rewrite IH, orb_false_r. by apply Z.ltb_ge.
Qed.

Lemma check_csap_gen_info base mss l sent name :
  check_csap_gen (info_of base mss l) sent name =
    if bool_decide (l = []) then TEST_VERDICT "No packets were captured on %s CSAP" [AS name]
    else if span l =? sent then mret tt
    else TEST_VERDICT "Number of bytes in packets captured by %s CSAP does not match number of bytes sent" [AS name].
Proof.
  unfold check_csap_gen. destruct l as [|s l]; [done|]. cbn [info_of pi_failed pi_num pi_total].
  rewrite (proj2 (Z.eqb_neq (Z.of_nat (length (s :: l))) 0)) by (cbn [length]; lia).
  rewrite bool_decide_false by done. by destruct (_ =? sent).
Qed.

Lemma check_tx_cases base mss sent tso_on pkts tx :
  0 < mss < 2 ^ 31 -> Forall2 (carries base) pkts tx -> Forall fits tx -> Z.of_nat (length tx) < 2 ^ 32 ->
  let good := tx <> [] /\ span tx = sent /\ any_larger mss tx = tso_on in
  (good /\ check_tx compare pkts sent mss tso_on = mret (info_of base mss tx)) \/
  (~ good /\ exists m, check_tx compare pkts sent mss tso_on = raise (VERDICT m)).
Proof.
  intros Hm Htx Hft Hlt good. subst good. unfold check_tx. rewrite (u32_id mss) by lia.
  rewrite (process_pkts_refines compare compare_ok base mss _ tx), check_csap_gen_info by done.
  destruct (bool_decide_reflect (tx = [])) as [E|Ene]; [right; split; [tauto|by eexists]|].
  destruct (Z.eqb_spec (span tx) sent) as [Es|Es]; [|right; split; [tauto|by eexists]].
  destruct tx as [|s tx]; [done|]. cbn [mbind prog_bind mret prog_ret bind lift_result].
  change (pi_large (info_of base mss (s :: tx))) with (any_larger mss (s :: tx)).
  destruct tso_on, (any_larger mss (s :: tx)); cbn [negb];
    solve [left; split; [done|reflexivity] | right; split; [by intros (_ & _ & ?)|by eexists]].
Qed.

(** An environment that gives the packets captured. *)
Definition captures (cap : string -> Z -> list tad_pkt) : env te_call unit :=
  watch_if (fun X (c : te_call X) _ => match c in te_call X return X -> Prop with
      | tapi_tad_trrecv_get ta h => fun x => x = (0, cap ta h)
      | _ => fun _ => True
      end) (fun _ _ _ s => s).

Lemma check_rx_wp base mss sent cap pkts tx rx fuel :
  0 < mss < 2 ^ 31 -> Forall fits tx -> tx <> [] ->
  Forall2 (carries base) pkts rx -> Forall fits rx -> Z.of_nat (length rx) < 2 ^ 32 ->
  Forall (fun s => (Z.to_nat s.2 < fuel)%nat) tx ->
  let good := rx <> [] /\ span rx = sent /\ rx = flat_map (pieces mss) tx in
  wp (captures cap) (check_rx compare fuel (info_of base mss tx) pkts sent mss) tt
    (fun r _ => match r with Val _ => good | Exc (VERDICT _) => ~ good | _ => False end).
Proof.
  intros Hm Hft Htx Hrx Hfr Hlr Hfuel good. subst good. unfold check_rx. rewrite (u32_id mss) by lia.
  rewrite (process_pkts_refines compare compare_ok base mss _ rx), check_csap_gen_info by done.
  destruct (bool_decide_reflect (rx = [])) as [E|Ene]; [cbn; tauto|].
  destruct (Z.eqb_spec (span rx) sent) as [Es|Es]; [|cbn; tauto].
  destruct rx as [|s rx]; [done|]. cbn [mbind prog_bind mret prog_ret bind lift_result].
  change (pi_large (info_of base mss (s :: rx))) with (any_larger mss (s :: rx)).
  assert (Hsmall : s :: rx = flat_map (pieces mss) tx -> any_larger mss (s :: rx) = false).
  { intros ->. apply any_larger_false. clear -Hm Hft. induction Hft as [|x tx Hx Hft IH]; [constructor|].
    cbn [flat_map]. apply Forall_app. split; [|exact IH]. unfold fits in Hx. apply pieces_tile; lia. }
  destruct (any_larger mss (s :: rx)); [cbn; intros (_ & _ & H); by apply Hsmall in H|]. clear Hsmall.
  destruct tx as [|t tx]; [done|]. set (txl := t :: tx) in *.
  change (pi_segs (info_of base mss txl)) with (map (wire base) txl).
  change (pi_segs (info_of base mss (s :: rx))) with (map (wire base) (s :: rx)). set (rxl := s :: rx) in *.
  rewrite (proj1 (split_pkts_correct base mss fuel txl ltac:(lia) Hft Hfuel)).
  apply wp_bind, wp_ret. cbn [bpost]. unfold check_rx_pkts. rewrite !length_map.
  set (exp := flat_map (pieces mss) txl) in *.
  destruct (bool_decide_reflect (length rxl = length exp)) as [El|El]; cbn [negb orb].
  - rewrite segs_match_wire by (done || (apply fits_pieces; [lia|done])).
    destruct (bool_decide_reflect (rxl = exp)); cbn; tauto.
  - wp_go. intros (_ & _ & E). by rewrite E in El.
Qed.

(** C36.  The check of one send passes exactly when the captures show that the
    NIC did what it was told: packets larger than the MSS left the host if and
    only if TSO is on, no bytes are missing at either end of the stream, and the
    packets received are, one by one, the pieces of the packets sent. *)
Theorem check_captured_correct base mss sent tso_on ta1 c1 ta2 c2 cap tx rx fuel :
  0 < mss < 2 ^ 31 ->
  Forall2 (carries base) (cap ta1 c1) tx -> Forall fits tx -> Z.of_nat (length tx) < 2 ^ 32 ->
  Forall2 (carries base) (cap ta2 c2) rx -> Forall fits rx -> Z.of_nat (length rx) < 2 ^ 32 ->
  Forall (fun s => (Z.to_nat s.2 < fuel)%nat) tx ->
  wp (captures cap) (check_captured_pkts compare fuel ta1 c1 ta2 c2 sent mss tso_on) tt
    (fun r _ => match r with
      | Val _ => split_right mss sent tso_on tx rx
      | Exc (VERDICT _) => ~ split_right mss sent tso_on tx rx
      | _ => False
      end).
Proof.
  intros Hm Htx Hft Hlt Hrx Hfr Hlr Hfuel. unfold check_captured_pkts, CHECK_OUT, split_right.
  wp_go; injection H as -> ->; [|done].
  destruct (check_tx_cases base mss sent tso_on _ tx Hm Htx Hft Hlt) as [[Hg ->]|[Hg (m & ->)]]; [|cbn; tauto].
  wp_go; injection H as -> ->; [|done].
  eapply wp_mono; [apply (check_rx_wp base mss sent cap _ tx rx fuel); (done || apply Hg)|]. cbn beta.
  intros [[]|[]| |] [] H; tauto.
Qed.
End check.

(** ** The test *)

(** The locals its cleanup uses. *)
Record tso_locals := TsoLocals {
  to_iut_s : Z; to_tst_s : Z; to_listener : Z; to_csap_rx : Z; to_csap_tx : Z }.
Definition to_set_iut_s (s : Z) (l : tso_locals) : tso_locals :=
  TsoLocals s (to_tst_s l) (to_listener l) (to_csap_rx l) (to_csap_tx l).
Definition to_set_tst_s (s : Z) (l : tso_locals) : tso_locals :=
  TsoLocals (to_iut_s l) s (to_listener l) (to_csap_rx l) (to_csap_tx l).
Definition to_set_listener (s : Z) (l : tso_locals) : tso_locals :=
  TsoLocals (to_iut_s l) (to_tst_s l) s (to_csap_rx l) (to_csap_tx l).
Definition to_set_csap_rx (c : Z) (l : tso_locals) : tso_locals :=
  TsoLocals (to_iut_s l) (to_tst_s l) (to_listener l) c (to_csap_tx l).
Definition to_set_csap_tx (c : Z) (l : tso_locals) : tso_locals :=
  TsoLocals (to_iut_s l) (to_tst_s l) (to_listener l) (to_csap_rx l) c.

Section tso_test.
Context {TE : Te}.
Context (compare : Z -> Z -> Z).
Context (iut tst : rcf_rpc_server) (iut_if tst_if : string) (iut_addr tst_addr : sockaddr).
Context (tso_on vlan_hw_insert_on : bool) (min_size max_size send_calls : Z).

Definition tso_features : M unit :=
  let ipv4 := sa_family iut_addr =? AF_INET in
  let proto_csum_feature := (if ipv4 then "tx-checksum-ipv4" else "tx-checksum-ipv6")%string in
  let tso_feature := (if ipv4 then "tx-tcp-segmentation" else "tx-tcp6-segmentation")%string in
  _ ← when tso_on
        (_ ← net_drv_try_set_if_feature (rpcs_ta iut) iut_if "tx-checksum-ip-generic" 1;
         net_drv_try_set_if_feature (rpcs_ta iut) iut_if proto_csum_feature 1);
  _ ← net_drv_set_if_feature (rpcs_ta iut) iut_if tso_feature (if tso_on then 1 else 0);
  _ ← net_drv_set_if_feature (rpcs_ta iut) iut_if "tx-vlan-hw-insert" (if vlan_hw_insert_on then 1 else 0);
  _ ← net_drv_set_if_feature (rpcs_ta tst) tst_if "rx-gro" 0;
  _ ← net_drv_set_if_feature (rpcs_ta tst) tst_if "rx-gro-hw" 0;
  net_drv_set_if_feature (rpcs_ta tst) tst_if "rx-lro" 0.

(** The addresses the test goes on with. *)
Definition tso_addrs : M (sockaddr * sockaddr) :=
  if vlan_hw_insert_on then
    '(_, iut_addr2, tst_addr2) ← net_drv_ts_add_vlan (rpcs_ta iut) (rpcs_ta tst) iut_if tst_if
                                   (sa_family iut_addr) None;
    _ ← call CFG_WAIT_CHANGES;
    mret (with_port iut_addr2 iut_addr, with_port tst_addr2 tst_addr)
  else mret (iut_addr, tst_addr).

(** One pass of the loop of [main]. *)
Definition tso_send (fuel : nat) (iut_s tst_s csap_tx csap_rx mtu mss : Z) : M unit :=
  send_buf ← call (te_make_buf (mtu * min_size) (mtu * max_size));
  let send_len := Z.of_nat (length send_buf) in
  left_by ← call (RPC_SEND iut iut_s send_buf);
  _ ← match left_by with Some j => raise j | None => mret tt end;
  '(rc, recv_dbuf, _) ← call (rpc_read_fd2te_dbuf tst tst_s TAPI_WAIT_NETWORK_DELAY 0);
  _ ← when (rc <? 0) (raise RPC_FAILED);
  let recv_len := Z.of_nat (length recv_dbuf) in
  if recv_len =? 0 then TEST_VERDICT "Tester received no data" []
  else if negb (recv_len =? send_len) then TEST_VERDICT "Tester received unexpected amount of data" []
  else if negb (mem_eq recv_dbuf send_buf send_len) then TEST_VERDICT "Data received does not match data sent" []
  else check_captured_pkts compare fuel (rpcs_ta iut) csap_tx (rpcs_ta tst) csap_rx (u32 send_len) mss tso_on.

Definition tso_body (fuel : nat) : T tso_locals unit :=
  _ ← lift tso_features;
  '(iut_addr, tst_addr) ← lift tso_addrs;
  mtu ← lift (CHECK_OUT (call (tapi_cfg_base_if_get_mtu_u (rpcs_ta iut) iut_if)));
  iut_s ← lift (rpc_ok (rpc_socket iut));
  _ ← modify (to_set_iut_s iut_s);
  tst_listener ← lift (rpc_ok (rpc_socket tst));
  _ ← modify (to_set_listener tst_listener);
  _ ← lift (rpc_ok (rpc_bind iut iut_s iut_addr));
  _ ← lift (rpc_ok (rpc_bind tst tst_listener tst_addr));
  _ ← lift (rpc_ok (rpc_setsockopt_int iut iut_s RPC_SO_SNDBUF (mtu * max_size)));
  _ ← lift (rpc_ok (rpc_setsockopt_int tst tst_listener RPC_SO_RCVBUF (mtu * max_size)));
  _ ← lift (rpc_ok (rpc_listen tst tst_listener (-1)));
  _ ← lift (rpc_ok (rpc_connect iut iut_s tst_addr));
  tst_s ← lift (rpc_ok (rpc_accept tst tst_listener));
  _ ← modify (to_set_tst_s tst_s);
  csap_tx ← lift (CHECK_OUT (call (tapi_tcp_ip_eth_csap_create (rpcs_ta iut) iut_if TAD_ETH_RECV_OUT None
                                    (sa_family iut_addr) tst_addr iut_addr)));
  _ ← modify (to_set_csap_tx csap_tx);
  _ ← lift (CHECK_RC (call (tapi_tad_trrecv_start (rpcs_ta iut) csap_tx)));
  csap_rx ← lift (CHECK_OUT (call (tapi_tcp_ip_eth_csap_create (rpcs_ta tst) tst_if TAD_ETH_RECV_DEF None
                                    (sa_family tst_addr) tst_addr iut_addr)));
  _ ← modify (to_set_csap_rx csap_rx);
  _ ← lift (CHECK_RC (call (tapi_tad_trrecv_start (rpcs_ta tst) csap_rx)));
  '(rc, mss, _) ← lift (call (rpc_getsockopt tst tst_s RPC_TCP_MAXSEG));
  _ ← lift (when (rc <? 0) (raise RPC_FAILED));
  t_for (seqZ 0 send_calls) (fun _ => lift (tso_send fuel iut_s tst_s csap_tx csap_rx mtu mss)).

(** The CSAPs are destroyed whether or not they were created. *)
Definition tso_cleanup (l : tso_locals) : M bool :=
  also (cleanup_rc (call (tapi_tad_csap_destroy (rpcs_ta iut) (to_csap_tx l))))
 (also (cleanup_rc (call (tapi_tad_csap_destroy (rpcs_ta tst) (to_csap_rx l))))
 (also (cleanup_close iut (to_iut_s l))
 (also (cleanup_close tst (to_tst_s l))
       (cleanup_close tst (to_listener l))))).

Definition tso_main (fuel : nat) : M status :=
  test_main (TsoLocals (-1) (-1) (-1) CSAP_INVALID_HANDLE CSAP_INVALID_HANDLE) (tso_body fuel) tso_cleanup.

(** ** What the test holds *)
Definition tso_inv (l : tso_locals) (g : held) : Prop :=
  h_socks g ≡ₚ sock_at iut (to_iut_s l) ++ sock_at tst (to_tst_s l) ++ sock_at tst (to_listener l) /\
  h_csaps g = csap_at (rpcs_ta iut) (to_csap_tx l) ++ csap_at (rpcs_ta tst) (to_csap_rx l) /\
  h_rules g = [] /\ forall k, h_now g k = h_init g k.

Lemma drop_csap_at ta c ta' c' :
  drop_one (ta, c) (csap_at ta c ++ csap_at ta' c') = csap_at ta' c'.
Proof.
  unfold csap_at. destruct (Z.eqb_spec c CSAP_INVALID_HANDLE) as [->|Hc]; cbn [app]; [|apply drop_one_head].
  destruct (Z.eqb_spec c' CSAP_INVALID_HANDLE) as [->|Hc']; [done|]. cbn. by rewrite decide_False by congruence.
Qed.

Lemma tso_cleanup_wp l g : tso_inv l g ->
  wp h_world (tso_cleanup l) g (fun r g' => match r with Val _ => restored g' | _ => False end).
Proof.
  intros (Hs & Hc & Hr & Hn). unfold tso_cleanup, also, cleanup_rc. wp_go. cbn [h_upd].
  eapply cleanup_close_perm; [exact Hs|]. intros b1 g1 Hs1 (E1 & E2 & E3 & E4). wp_go.
  eapply cleanup_close_perm; [exact Hs1|]. intros b2 g2 Hs2 (F1 & F2 & F3 & F4). wp_go.
  eapply cleanup_close_perm; [by rewrite app_nil_r|]. intros b3 g3 Hs3 (G1 & G2 & G3 & G4). wp_go.
  unfold restored. rewrite G1, F1, E1, G2, F2, E2, G3, F3, E3, G4, F4, E4. cbn [h_uncsap h_csaps h_rules h_now h_init].
  rewrite Hc, drop_csap_at. split; [by apply Permutation_nil|]. split; [|by split].
  unfold csap_at. destruct (_ =? _); [done|apply drop_one_last].
Qed.

Lemma tso_features_neutral : only neutral any_jump tso_features.
Proof.
  unfold tso_features, net_drv_try_set_if_feature, net_drv_set_if_feature, net_drv_set_if_feature_gen. solve_only.
Qed.

Lemma tso_send_neutral fuel a b c d mtu mss : only neutral any_jump (tso_send fuel a b c d mtu mss).
Proof.
  unfold tso_send, check_captured_pkts, check_tx, check_rx, check_csap_gen, check_rx_pkts, split_pkts_by_mss,
    split_pass. solve_only.
Qed.

(** Taking a socket, or a CSAP. *)
Lemma st_tso_socket {B} r (c : te_call (Z * te_errno)) (f : Z -> T tso_locals B) G L g :
  (forall x g, h_upd _ c x g = if fst x <? 0 then g else h_open (r, fst x) g) ->
  tso_inv L g ->
  (forall s g', 0 <= s -> h_socks g' ≡ₚ (r, s) :: h_socks g -> h_csaps g' = h_csaps g -> h_rules g' = h_rules g ->
     h_init g' = h_init g -> h_now g' = h_now g -> wp h_world (f s L) g' (upto tso_inv G)) ->
  wp h_world (mbind f (lift (rpc_ok c)) L) g (upto tso_inv G).
Proof.
  intros Hc Hg Hf. apply st_call. wp_go; rewrite Hc; cbn [fst]; rewrite Heqb; [exact Hg|].
  apply Hf; try done; [by apply Z.ltb_ge|]. cbn. by rewrite Permutation_app_comm.
Qed.

Lemma tso_body_keeps fuel :
  tkeeps h_world (fun l g => l = TsoLocals (-1) (-1) (-1) CSAP_INVALID_HANDLE CSAP_INVALID_HANDLE /\ tso_inv l g)
    tso_inv (tso_body fuel).
Proof.
  intros L g [-> Hg]. unfold tso_body.
  apply st_neutral; [apply tso_features_neutral|done|]. intros [].
  apply st_neutral; [unfold tso_addrs, net_drv_ts_add_vlan; solve_only|done|]. intros [a1 a2].
  apply st_neutral; [solve_only|done|]. intros mtu.
  apply st_tso_socket with iut; [done|done|]. intros s1 g1 Hs1 E1 E2 E3 E4 E5. apply st_modify.
  assert (Hg1 : tso_inv (to_set_iut_s s1 (TsoLocals (-1) (-1) (-1) CSAP_INVALID_HANDLE CSAP_INVALID_HANDLE)) g1).
  { destruct Hg as (Hs & Hc & Hr & Hn). split; [|rewrite E2, E3, E4, E5; by repeat split].
    rewrite E1, Hs. unfold sock_at. cbn. by rewrite (proj2 (Z.leb_le 0 s1)). }
  clear E1 E2 E3 E4 E5 Hg.
  apply st_tso_socket with tst; [done|exact Hg1|]. intros s2 g2 Hs2 E1 E2 E3 E4 E5. apply st_modify.
  match goal with |- wp _ (mbind _ _ ?L) _ _ => set (L2 := L) end.
  assert (Hg2 : tso_inv L2 g2).
  { destruct Hg1 as (Hs & Hc & Hr & Hn). split; [|rewrite E2, E3, E4, E5; by repeat split].
    rewrite E1, Hs. unfold sock_at. cbn. rewrite (proj2 (Z.leb_le 0 s1)), (proj2 (Z.leb_le 0 s2)) by done.
    apply Permutation_swap. }
  clear E1 E2 E3 E4 E5 Hg1.
  do 6 (apply st_neutral; [solve_only|exact Hg2|]; intros _).
  apply st_tso_socket with tst; [done|exact Hg2|]. intros s3 g3 Hs3 E1 E2 E3 E4 E5. apply st_modify.
  match goal with |- wp _ (mbind _ _ ?L) _ _ => set (L3 := L) end.
  assert (Hg3 : tso_inv L3 g3).
  { destruct Hg2 as (Hs & Hc & Hr & Hn). split; [|rewrite E2, E3, E4, E5; by repeat split].
    rewrite E1, Hs. unfold sock_at. cbn.
    rewrite (proj2 (Z.leb_le 0 s1)), (proj2 (Z.leb_le 0 s2)), (proj2 (Z.leb_le 0 s3)) by done.
    apply Permutation_swap. }
  clear E1 E2 E3 E4 E5 Hg2.
  apply st_call. wp_go; [|failed_call Hg3]. apply st_modify.
  cbn [h_ok h_upd fst snd] in *. autorewrite with zbool in *. subst t. specialize (H eq_refl).
  unfold when_ok. cbn [Z.eqb]. match goal with |- wp _ (mbind _ _ ?L) _ _ => set (L4 := L) end.
  assert (Hg4 : tso_inv L4 (h_csap (rpcs_ta iut, z) g3)).
  { destruct Hg3 as (Hs & Hc & Hr & Hn). split; [exact Hs|]. split; [|done]. cbn in *. rewrite Hc.
    unfold csap_at. by rewrite Z.eqb_refl, (proj2 (Z.eqb_neq z CSAP_INVALID_HANDLE)). }
  clear Hg3. generalize dependent (h_csap (rpcs_ta iut, z) g3). intros g4 Hg4.
  apply st_neutral; [solve_only|done|]. intros _.
  apply st_call. wp_go; [|failed_call Hg4]. apply st_modify.
  cbn [h_ok h_upd fst snd] in *. autorewrite with zbool in *. subst t. specialize (H0 eq_refl).
  unfold when_ok. cbn [Z.eqb]. match goal with |- wp _ (mbind _ _ ?L) _ _ => set (L5 := L) end.
  assert (Hg5 : tso_inv L5 (h_csap (rpcs_ta tst, z0) g4)).
  { destruct Hg4 as (Hs & Hc & Hr & Hn). split; [exact Hs|]. split; [|done]. cbn in *. rewrite Hc.
    unfold csap_at. rewrite Z.eqb_refl. by rewrite app_nil_r, (proj2 (Z.eqb_neq z0 CSAP_INVALID_HANDLE)). }
  generalize dependent (h_csap (rpcs_ta tst, z0) g4). intros g5 Hg5.
  apply st_neutral; [solve_only|done|]. intros _.
  apply st_neutral; [solve_only|done|]. intros [[rc mss] err].
  apply st_neutral; [solve_only|done|]. intros [].
  apply st_for_neutral; [|done]. intros _. apply tso_send_neutral.
Qed.

(** The TSO test gives back its three sockets and two CSAPs however it
    ends, even where its cleanup destroys CSAPs that were never created. *)
Theorem tso_releases fuel init :
  wp h_world (tso_main fuel) (clean init)
    (fun r g => match r with Val _ => restored g | NoFuel => True | _ => False end).
Proof.
  unfold tso_main. eapply (test_main_keeps h_world _ tso_inv); [|apply tso_body_keeps|intros l g; apply tso_cleanup_wp].
  split; [done|]. unfold tso_inv, csap_at. cbn. by rewrite Z.eqb_refl.
Qed.
End tso_test.

Module TsoWitness.
Local Existing Instance te_ref.

(** A comparison with the documented behaviour. *)
Definition compare (a b : Z) : Z := s32 (a - b).

Lemma compare_ok a b : - 2 ^ 31 < a - b < 2 ^ 31 -> Z.sgn (compare (u32 a) (u32 b)) = Z.sgn (a - b).
Proof. apply s32_diff_sgn. Qed.

(** The numbers wrap within the first packet. *)
Definition base : Z := 2 ^ 32 - 100.
Definition pkt (p n : Z) : tad_pkt := TadPkt (0, TV 0 0) 0 (0, []) (0, u32 (base + p)) (0, n) (0, []) (0, []) (0, 0) (0, 0) (0, 0) (0, 0).
Definition cap (ta : string) (csap : Z) : list tad_pkt :=
  if csap =? 1 then [pkt 0 250; pkt 250 30] else [pkt 0 100; pkt 100 100; pkt 200 50; pkt 250 30].
Definition tx : list segment := [(0, 250); (250, 30)].
Definition rx : list segment := [(0, 100); (100, 100); (200, 50); (250, 30)].

Lemma process_pkts_refines_witness :
  fold_left (fun i p => process_pkts compare p i) (cap "" 2) (PKTS_INFO 100) = info_of base 100 rx.
Proof.
  apply (process_pkts_refines compare compare_ok base 100 (cap "" 2) rx);
    [repeat constructor; discriminate|repeat constructor; discriminate|reflexivity].
Defined.

Lemma split_pkts_correct_witness :
  split_pkts_by_mss 300 (map (wire base) tx) 100 = mret (map (wire base) rx).
Proof.
  apply (split_pkts_correct base 100 300 tx);
    [split; reflexivity|repeat constructor; discriminate|].
  repeat (constructor; [apply Nat.ltb_lt; reflexivity|]). constructor.
Defined.

Lemma split_pkts_endless_witness : split_pkts_by_mss 1000 [Seg 7 0; Seg 7 5] 0 = Done NoFuel.
Proof.
  apply (split_pkts_endless 1000 [Seg 7 0; Seg 7 5]).
  - repeat constructor; discriminate.
  - right. left. reflexivity.
Defined.

(** The third packet received is shorter than the MSS, and is not the last one. *)
Lemma check_captured_correct_witness :
  split_right 100 280 true tx rx /\ rx !! 2%nat = Some (200, 50) /\
  wp (captures cap) (check_captured_pkts compare 300 "" 1 "" 2 280 100 true) tt
    (fun r _ => match r with
      | Val _ => split_right 100 280 true tx rx
      | Exc (VERDICT _) => ~ split_right 100 280 true tx rx
      | _ => False
      end).
Proof.
  split; [repeat split; discriminate|]. split; [reflexivity|].
  apply (check_captured_correct compare compare_ok base 100 280 true "" 1 "" 2 cap tx rx 300);
    [split; reflexivity|repeat constructor; discriminate|repeat constructor; discriminate|reflexivity
    |repeat constructor; discriminate|repeat constructor; discriminate|reflexivity|].
  repeat (constructor; [apply Nat.ltb_lt; reflexivity|]). constructor.
Defined.
End TsoWitness.
