(* ===== verification/Holding.v ===== *)
(** Tests whose locals name the sockets and the CSAPs they hold: the rules by
    which such a test is shown to hold no more than its locals say, and to have
    given everything back at its end. *)
From S2P Require Import Prelude Prog Te Locals NetDrvTs Resources RxCommon.

(** [RPC_CLOSE]: close and forget the descriptor. *)
Definition close_forget {St} (r : rcf_rpc_server) (get_s : St -> Z) (set_s : Z -> St -> St) : T (C := te_call) St unit :=
  s ← gets get_s;
  _ ← lift (rpc_ok (rpc_close r s));
  modify (set_s (-1)).

(** Nothing is held. *)
Definition gave_back (g : held) : Prop := h_socks g = [] /\ h_csaps g = [].

(** Calls that neither take nor release a socket or a CSAP. *)
Definition handle_free X (c : te_call X) : bool :=
  match c with
  | GEN_CONNECTION _ _ _ _ _ | rpc_socket _ | rpc_accept _ _ | rpc_close _ _
  | rpc_create_and_bind_socket _ _ _ | tapi_bpf_map_pin_get_fd _ _ _ | rpc_open _ _ _
  | tapi_udp_ip_eth_csap_create _ _ _ _ _ _ _ _ | tapi_tcp_ip_eth_csap_create _ _ _ _ _ _ _
  | tapi_ip_eth_csap_create _ _ _ _ _ _ _ _
  | tapi_eth_csap_create _ _ _ _ _ | tapi_eth_csap_create_to_send _ _ | tapi_eth_based_csap_create_by_tmpl _ _ _ _ | tapi_tad_csap_destroy _ _ => false
  | _ => true
  end.

Lemma handle_free_upd X (c : te_call X) x g : handle_free X c = true ->
  h_socks (h_upd X c x g) = h_socks g /\ h_csaps (h_upd X c x g) = h_csaps g.
Proof. intros Hc. destruct c; try done; cbn [h_upd]; unfold when_ok; by try destruct (x =? 0). Qed.

Lemma neutral_handle_free X (c : te_call X) : neutral X c = true -> handle_free X c = true.
Proof. by destruct c. Qed.

(** Giving back what may be held. *)
Lemma drop_one_submseteq {A} `{EqDecision A} (x : A) l k : l ⊆+ x :: k -> drop_one x l ⊆+ k.
Proof.
  intros H. apply submseteq_cons_r in H as [H|(l' & E & H)].
  - etrans; [|exact H]. clear H. induction l as [|y l IH]; [done|]. cbn.
    destruct (decide (x = y)); [by apply submseteq_cons|by apply submseteq_skip].
  - assert (Hx : x ∈ l) by (rewrite E; apply list_elem_of_here).
    pose proof (Permutation_trans (Permutation_sym E) (drop_one_perm x l Hx)) as Hp.
    apply Permutation_cons_inv in Hp. by rewrite <- Hp.
Qed.

Section holding.
Context {TE : Te} {St : Type}.
Context (socks : St -> list (rcf_rpc_server * Z)) (csaps : St -> list (string * Z)).

(** At most what the locals say is held. *)
Definition holding (L : St) (g : held) : Prop := h_socks g ⊆+ socks L /\ h_csaps g ⊆+ csaps L.

Lemma handle_free_wp {A} (p : M A) L g :
  only handle_free any_jump p -> holding L g ->
  wp h_world p g (fun r g' => holding L g' /\ match r with Undef _ => False | _ => True end).
Proof.
  intros Ho HL. eapply wp_mono; [apply (wp_only handle_free any_jump h_world (holding L)); [exact Ho| |exact HL]|].
  - intros X c s x s' Hc [H1 H2] [_ ->]. destruct (handle_free_upd X c x s Hc) as [E1 E2].
    unfold holding. by rewrite E1, E2.
  - intros [a|j|w|] g' [HL' Hr]; auto.
Qed.

(** A step of a cleanup that takes and releases nothing. *)
Lemma clean_free {A} (p : M A) L g :
  only handle_free any_jump p -> returns p -> holding L g ->
  wp h_world p g (fun r g' => match r with Val _ => holding L g' | _ => False end).
Proof.
  intros Ho Hr HL. eapply wp_mono; [apply wp_and; [by apply handle_free_wp|by apply wp_returns]|].
  by intros r g' [[H _] [a ->]].
Qed.

Section statements.
Context {B : Type} (G : B -> St -> held -> Prop).

Lemma st_free {A} (p : M A) (f : A -> T St B) L g :
  only handle_free any_jump p -> holding L g ->
  (forall a g', holding L g' -> wp h_world (f a L) g' (upto holding G)) ->
  wp h_world (mbind f (lift p) L) g (upto holding G).
Proof.
  intros Ho HL Hf. apply st_call. eapply wp_mono; [by apply handle_free_wp|].
  intros [a|j|w|] g' [HL' Hr]; auto.
Qed.

Lemma st_connect r1 r2 t a1 a2 (f : Z * Z -> T St B) L g :
  holding L g ->
  (forall s1 s2 g', 0 <= s1 -> 0 <= s2 -> h_socks g' ⊆+ (r1, s1) :: (r2, s2) :: socks L ->
     h_csaps g' ⊆+ csaps L -> wp h_world (f (s1, s2) L) g' (upto holding G)) ->
  wp h_world (mbind f (lift (CHECK_OUT (call (GEN_CONNECTION r1 r2 t a1 a2)))) L) g (upto holding G).
Proof.
  intros [Hs Hc] Hf. apply st_call. wp_go; [|by split; failed_call Hs || failed_call Hc].
  destruct p as [s1 s2]. cbn [h_ok h_upd fst snd] in *. unfold when_ok. rewrite Heqb.
  autorewrite with zbool in Heqb. destruct (H Heqb) as [H1 H2]. apply Hf; [done|done| |exact Hc]. cbn.
  rewrite (Permutation_app_comm (h_socks g ++ _)). cbn.
  rewrite (Permutation_app_comm (h_socks g)). cbn. rewrite Permutation_swap. by do 2 apply submseteq_skip.
Qed.

Lemma st_take_csap ta (c : te_call (te_errno * Z)) (f : Z -> T St B) L g :
  (forall x g, h_upd _ c x g = when_ok (fst x) (h_csap (ta, snd x)) g) ->
  (forall g x, h_ok _ c g x -> fst x = 0 -> snd x <> CSAP_INVALID_HANDLE) ->
  holding L g ->
  (forall h g', h <> CSAP_INVALID_HANDLE -> h_socks g' ⊆+ socks L -> h_csaps g' ⊆+ (ta, h) :: csaps L ->
     wp h_world (f h L) g' (upto holding G)) ->
  wp h_world (mbind f (lift (CHECK_OUT (call c))) L) g (upto holding G).
Proof.
  intros Hu Hk [Hs Hc] Hf. apply st_call. unfold CHECK_OUT. wp_step. wp_step. wp_answer. rewrite Hu. unfold when_ok.
  assert (Hh : fst x = 0 -> snd x <> CSAP_INVALID_HANDLE) by (apply (Hk g), H).
  clear H. destruct x as [rc h]. cbn [fst snd bpost] in *. destruct (Z.eqb_spec rc 0) as [E|E]; wp_go.
  - apply Hf; [auto|exact Hs|]. cbn. rewrite Permutation_app_comm. by apply submseteq_skip.
  - by split.
Qed.

Lemma st_socket r (f : Z -> T St B) L g :
  holding L g ->
  (forall s g', 0 <= s -> h_socks g' ⊆+ (r, s) :: socks L -> h_csaps g' ⊆+ csaps L ->
     wp h_world (f s L) g' (upto holding G)) ->
  wp h_world (mbind f (lift (rpc_ok (rpc_socket r))) L) g (upto holding G).
Proof.
  intros [Hs Hc] Hf. apply st_call. wp_go; cbn [h_upd fst]; rewrite Heqb; [by split|].
  autorewrite with zbool in Heqb. apply Hf; [done| |exact Hc]. cbn. rewrite Permutation_app_comm. by apply submseteq_skip.
Qed.

Lemma st_close r (get_s : St -> Z) set_s (f : unit -> T St B) L g :
  holding L g ->
  (forall l, l ⊆+ socks L -> drop_one (r, get_s L) l ⊆+ socks (set_s (-1) L)) ->
  csaps (set_s (-1) L) = csaps L ->
  (forall g', holding (set_s (-1) L) g' -> wp h_world (f tt (set_s (-1) L)) g' (upto holding G)) ->
  wp h_world (mbind f (close_forget r get_s set_s) L) g (upto holding G).
Proof.
  intros [Hs Hc] Hd Ec Hf. apply st_bind. unfold close_forget. apply st_gets, st_call. wp_go; cbn [h_upd].
  - split; [|exact Hc]. cbn. etrans; [|exact Hs]. clear.
    induction (h_socks g) as [|y l IH]; [done|]. cbn. destruct (decide _); [by apply submseteq_cons|by apply submseteq_skip].
  - apply Hf. split; [by apply Hd|]. rewrite Ec. exact Hc.
Qed.
End statements.

Lemma st_free_last {A} (p : M A) L g :
  only handle_free any_jump p -> holding L g -> wp h_world (lift p L) g (ends holding).
Proof.
  intros Ho HL. unfold lift. apply wp_bind, wp_attempt. eapply wp_mono; [by apply handle_free_wp|].
  intros [a|j|w|] g' [HL' Hr]; cbn; auto.
Qed.
End holding.

(** A statement that keeps [F], and the rest. *)
Lemma st_then {TE : Te} {St A B} (F : St -> held -> Prop) (G : B -> St -> held -> Prop) (p : T St A) (f : A -> T St B) L g :
  wp h_world (p L) g (ends F) -> (forall a L' g', F L' g' -> wp h_world (f a L') g' (upto F G)) ->
  wp h_world (mbind f p L) g (upto F G).
Proof.
  intros Hp Hf. apply st_bind. eapply wp_mono; [exact Hp|]. intros [[L' [a|j]]| | |] g' H; cbn in *; auto.
Qed.

(** ** Cleanups *)
Section cleanup.
Context {TE : Te}.

Lemma close_held r s l g (Q : result bool -> held -> Prop) :
  h_socks g ⊆+ sock_at r s ++ l ->
  (forall b g', h_socks g' ⊆+ l -> h_csaps g' = h_csaps g -> Q (Val b) g') ->
  wp h_world (cleanup_close r s) g Q.
Proof.
  intros Hl HQ. unfold cleanup_close, sock_at in *. destruct (0 <=? s); cbn [app] in *; [|by apply HQ].
  wp_go. cbn [h_upd]. apply HQ; [|done]. cbn. by apply drop_one_submseteq.
Qed.

Lemma csap_destroyed ta c l g (Q : result bool -> held -> Prop) :
  h_csaps g ⊆+ csap_at ta c ++ l ->
  (forall b g', h_csaps g' ⊆+ l -> h_socks g' = h_socks g -> Q (Val b) g') ->
  wp h_world (destroy_csap ta c) g Q.
Proof.
  intros Hl HQ. unfold destroy_csap, csap_at in *. destruct (c =? CSAP_INVALID_HANDLE); cbn [negb app] in *; [by apply HQ|].
  unfold cleanup_rc. wp_go. cbn [h_upd]. apply HQ; [|done]. cbn. by apply drop_one_submseteq.
Qed.

(** A CSAP destroyed whether or not it was created. *)
Lemma csap_let_go ta c l g (Q : result bool -> held -> Prop) :
  h_csaps g ⊆+ csap_at ta c ++ l ->
  (forall b g', h_csaps g' ⊆+ l -> h_socks g' = h_socks g -> Q (Val b) g') ->
  wp h_world (cleanup_rc (call (tapi_tad_csap_destroy ta c))) g Q.
Proof.
  intros Hl HQ. unfold cleanup_rc. wp_go. cbn [h_upd]. apply HQ; [|done]. cbn [h_csaps h_uncsap].
  apply drop_one_submseteq. etrans; [exact Hl|]. unfold csap_at.
  destruct (c =? CSAP_INVALID_HANDLE); cbn; [by apply submseteq_cons|done].
Qed.

(** A step of a cleanup that concerns neither. *)
Lemma free_step (c : te_call te_errno) g (Q : result bool -> held -> Prop) :
  handle_free _ c = true ->
  (forall b g', h_socks g' = h_socks g -> h_csaps g' = h_csaps g -> Q (Val b) g') ->
  wp h_world (cleanup_rc (call c)) g Q.
Proof.
  intros Hc HQ. unfold cleanup_rc. wp_go. destruct (handle_free_upd _ c x g Hc) as [E1 E2]. by apply HQ.
Qed.
End cleanup.

(** ** Tests with a connection and one CSAP *)
Record end_locals := EndLocals { en_iut_s : Z; en_tst_s : Z; en_csap : Z }.
Definition en_set_socks (a b : Z) (l : end_locals) : end_locals := EndLocals a b (en_csap l).
Definition en_set_csap (c : Z) (l : end_locals) : end_locals := EndLocals (en_iut_s l) (en_tst_s l) c.
Definition en_start {TE : Te} : end_locals := EndLocals (-1) (-1) CSAP_INVALID_HANDLE.

Section ends.
Context {TE : Te} (iut tst : rcf_rpc_server) (ta : string).

Definition en_socks (l : end_locals) : list (rcf_rpc_server * Z) := sock_at iut (en_iut_s l) ++ sock_at tst (en_tst_s l).
Definition en_csaps (l : end_locals) : list (string * Z) := csap_at ta (en_csap l).
Definition en_holds : end_locals -> held -> Prop := holding en_socks en_csaps.

Lemma ends_hold_nothing init : en_holds en_start (clean init).
Proof. split; apply submseteq_nil_l. Qed.

Lemma ends_free {A} (p : M A) L g : only handle_free any_jump p -> en_holds L g ->
  wp h_world p g (fun r g' => en_holds L g' /\ match r with Undef _ => False | _ => True end).
Proof. apply handle_free_wp. Qed.

Lemma ends_connect {B} (G : B -> end_locals -> held -> Prop) t a1 a2 (f : Z * Z -> T end_locals B) g :
  en_holds en_start g ->
  (forall s1 s2 g', en_holds (en_set_socks s1 s2 en_start) g' ->
     wp h_world (f (s1, s2) en_start) g' (upto en_holds G)) ->
  wp h_world (mbind f (lift (CHECK_OUT (call (GEN_CONNECTION iut tst t a1 a2)))) en_start) g (upto en_holds G).
Proof.
  intros Hg Hf. eapply st_connect; [exact Hg|]. intros s1 s2 g' H1 H2 Hs Hc. apply Hf. split; [|exact Hc].
  unfold en_socks, sock_at. cbn. by rewrite (proj2 (Z.leb_le 0 s1)), (proj2 (Z.leb_le 0 s2)).
Qed.

Lemma ends_take_csap {B} (G : B -> end_locals -> held -> Prop) (c : te_call (te_errno * Z)) (f : Z -> T end_locals B) L g :
  (forall x g, h_upd _ c x g = when_ok (fst x) (h_csap (ta, snd x)) g) ->
  (forall g x, h_ok _ c g x -> fst x = 0 -> snd x <> CSAP_INVALID_HANDLE) ->
  en_csap L = CSAP_INVALID_HANDLE -> en_holds L g ->
  (forall h g', en_holds (en_set_csap h L) g' -> wp h_world (f h L) g' (upto en_holds G)) ->
  wp h_world (mbind f (lift (CHECK_OUT (call c))) L) g (upto en_holds G).
Proof.
  intros Hu Hk He Hg Hf. eapply (st_take_csap _ _ _ ta); [exact Hu|exact Hk|exact Hg|].
  intros h g' Hh Hs Hc. apply Hf. split; [exact Hs|]. etrans; [exact Hc|]. unfold en_csaps, csap_at. cbn [en_csap en_set_csap].
  by rewrite He, Z.eqb_refl, (proj2 (Z.eqb_neq h _)).
Qed.

Lemma csap_dropped c g (Q : result bool -> held -> Prop) :
  h_csaps g ⊆+ csap_at ta c ->
  (forall b g', h_csaps g' = [] -> h_socks g' = h_socks g -> Q (Val b) g') ->
  wp h_world (cleanup_rc (call (tapi_tad_csap_destroy ta c))) g Q.
Proof.
  intros Hl HQ. eapply (csap_let_go ta c []); [by rewrite app_nil_r|]. intros b g' Hc. apply HQ. by apply submseteq_nil_r.
Qed.
End ends.
