(* ===== verification/RxFcs.v ===== *)
(** rx_path/rx_fcs.c: the frame check sequence of captured Ethernet frames, with
    rx-fcs on and off. *)
From S2P Require Import Prelude Prog Te Bytes Locals NetDrvTs Resources RxCommon Holding.

Definition ETH_ADDR_LEN : Z := 6.
Definition ETH_DST_ADDR_OFF : Z := 0.
Definition ETH_SRC_ADDR_OFF : Z := 6.
Definition ETH_LEN_TYPE_OFF : Z := 12.
Definition ETH_DATA_OFF : Z := 14.
Definition ETH_FCS_LEN : Z := 4.
Definition MIN_ETH_PAYLOAD_LEN : Z := 46.
Definition FCS_MAX_PKT_LEN : Z := 1024.

(** [pkt_in_data]; [pkts_info], with the type of what its vector holds. *)
Record pkt_in_data := PktIn { pi_payload_len : Z; pi_computed_fcs : Z; pi_pkt_fcs : Z }.
Record fcs_info (A : Type) := FcsInfo { fi_num : Z; fi_expect : bool; fi_pkts : list A; fi_failed : bool }.
Arguments FcsInfo {A} _ _ _ _.
Arguments fi_num {A} _.
Arguments fi_expect {A} _.
Arguments fi_pkts {A} _.
Arguments fi_failed {A} _.

Definition fi_fail {A} (i : fcs_info A) : fcs_info A := FcsInfo (fi_num i) (fi_expect i) (fi_pkts i) true.
Definition fi_append {A} (x : A) (i : fcs_info A) : fcs_info A :=
  FcsInfo (fi_num i) (fi_expect i) (fi_pkts i ++ [x]) (fi_failed i).
Definition fi_count {A} (i : fcs_info A) : fcs_info A :=
  FcsInfo (fi_num i + 1) (fi_expect i) (fi_pkts i) (fi_failed i).

Section rx_fcs.
Context {TE : Te}.

(** zlib's [crc32 (0L, buf, len)]; the byte order of the test engine. *)
Context (crc32 : list Z -> Z) (le : bool).

(** Writing to and reading from a buffer, within its bounds. *)
Definition poke (buf : list Z) (off : Z) (data : list Z) : M (list Z) :=
  if (0 <=? off) && (off + Z.of_nat (length data) <=? Z.of_nat (length buf))
  then mret (buf_write buf off data) else undef "write past the end of a buffer".
Definition peek (buf : list Z) (off n : Z) : M (list Z) :=
  if (0 <=? off) && (off + n <=? Z.of_nat (length buf))
  then mret (take (Z.to_nat n) (drop (Z.to_nat off) buf)) else undef "read past the end of a buffer".

(** [TE_VEC_APPEND (info->pkts, x)], and what both callbacks do around it. *)
Definition append_pkt {A} (x : A) (info : fcs_info A) : M (fcs_info A) :=
  rc ← call te_vec_append;
  mret (if negb (rc =? 0) then fi_fail info else fi_count (fi_append x info)).

Definition process_out (pkt : tad_pkt) (info : fcs_info Z) : M (fcs_info Z) :=
  let pld_len := pk_len pkt in
  if pld_len <? 0 then mret (fi_fail info) else append_pkt pld_len info.

(** The part of [process_in] for packets with FCS: the FCS computed and the one
    of the packet, [None] when it leaves for [cleanup]. *)
Definition read_fcs (pkt : tad_pkt) (pld_len : Z) : M (option (Z * Z)) :=
  let pkt_len := pld_len - ETH_FCS_LEN + ETH_DATA_OFF in
  ok ← call (TE_ALLOC (pld_len + ETH_DATA_OFF));
  if negb ok then mret None else
  let buf := replicate (Z.to_nat (pld_len + ETH_DATA_OFF)) 0 in
  let '(rc, bytes) := pk_bytes pkt in
  if negb (rc =? 0) then mret None else
  buf ← poke buf ETH_DATA_OFF (take (Z.to_nat pld_len) bytes);
  let '(rc, dst) := pk_eth_dst pkt in
  if negb (rc =? 0) then mret None else
  buf ← poke buf ETH_DST_ADDR_OFF (take (Z.to_nat ETH_ADDR_LEN) dst);
  let '(rc, src) := pk_eth_src pkt in
  if negb (rc =? 0) then mret None else
  buf ← poke buf ETH_SRC_ADDR_OFF (take (Z.to_nat ETH_ADDR_LEN) src);
  let '(rc, length_type) := pk_eth_type pkt in
  if negb (rc =? 0) then mret None else
  buf ← poke buf ETH_LEN_TYPE_OFF (store le 2 (htons le length_type));
  fcs ← peek buf pkt_len 4;
  body ← peek buf 0 pkt_len;
  mret (Some (crc32 body, load le fcs)).

Definition process_in (pkt : tad_pkt) (info : fcs_info pkt_in_data) : M (fcs_info pkt_in_data) :=
  let pld_len := pk_len pkt in
  if pld_len <? 0 then mret (fi_fail info) else
  r ← (if fi_expect info then read_fcs pkt pld_len else mret (Some (0, 0)));
  match r with
  | None => mret (fi_fail info)
  | Some (computed_fcs, pkt_fcs) => append_pkt (PktIn pld_len computed_fcs pkt_fcs) info
  end.

(** What becomes of the packets of Tester. *)
Definition examine_out (pkts : list tad_pkt) : M (fcs_info Z) :=
  info ← for_pkts process_out pkts (FcsInfo 0 false [] false);
  if fi_failed info then TEST_FAIL "Failed to process some packets on Tester" []
  else if fi_num info =? 0 then TEST_FAIL "Failed to capture any packets on Tester" []
  else mret info.

(** One pass of the loop over packets captured by both CSAPs. *)
Definition compare_pass (rx_fcs : bool) (out : list Z) (inp : list pkt_in_data) (i : Z) (_ : unit) : M (ctl unit unit) :=
  match out !! Z.to_nat i, inp !! Z.to_nat i with
  | Some pkt_out_len, Some pkt_in =>
      let padded_pkt_len := Z.max pkt_out_len MIN_ETH_PAYLOAD_LEN in
      if (pkt_out_len =? pi_payload_len pkt_in) || (padded_pkt_len =? pi_payload_len pkt_in) then
        if rx_fcs then TEST_VERDICT "No FCS was reported for a captured packet on IUT" []
        else mret (Continue tt)
      else if padded_pkt_len =? pi_payload_len pkt_in - ETH_FCS_LEN then
        if negb rx_fcs then TEST_VERDICT "rx-fcs is disabled but incoming packet has four extra bytes" []
        else if negb (pi_computed_fcs pkt_in =? pi_pkt_fcs pkt_in) then
          TEST_VERDICT "Computed FCS does not match the last four bytes of the incoming packet" []
        else mret (Continue tt)
      else TEST_VERDICT "Length of outgoing packet on Tester does not match length of incoming packet on IUT" []
  | _, _ => undef "index out of the vector"
  end.

(** ... and of those of the IUT. *)
Definition examine_in (rx_fcs : bool) (out : fcs_info Z) (pkts : list tad_pkt) : M unit :=
  let out_pkts_num := fi_num out in
  info ← for_pkts process_in pkts (FcsInfo 0 rx_fcs [] (fi_failed out));
  if fi_failed info then TEST_FAIL "Failed to process some packets on IUT" []
  else if fi_num info =? 0 then TEST_FAIL "Failed to capture any packets on IUT" []
  else
    let in_pkts_num := fi_num info in
    if negb (in_pkts_num =? out_pkts_num) then
      TEST_FAIL "Numbers of packets captured by two CSAPs are different" []
    else
      _ ← for_n (Z.to_nat in_pkts_num) 0 tt (compare_pass rx_fcs (fi_pkts out) (fi_pkts info));
      mret tt.

(** ** The test *)

(** The bounds of the payload to send. *)
Definition fcs_lengths (af : Z) (sock_type : rpc_socket_type) (small_frame : bool) : M (Z * Z) :=
  let hdrs_len := (if af =? AF_INET then TAD_IP4_HDR_LEN else TAD_IP6_HDR_LEN) +
                  (if bool_decide (sock_type = RPC_SOCK_STREAM) then TAD_TCP_HDR_LEN else TAD_UDP_HDR_LEN) in
  '(min_len, max_len) ←
    (if small_frame then
       if af =? AF_INET6 then TEST_FAIL "Impossible to send so small IPv6 TCP or UDP packet" []
       else mret (1, MIN_ETH_PAYLOAD_LEN - hdrs_len - 1)
     else
       let min_len := MIN_ETH_PAYLOAD_LEN - hdrs_len in
       mret (if min_len <=? 0 then 1 else min_len, FCS_MAX_PKT_LEN));
  if max_len <=? min_len then TEST_FAIL "Cannot construct Ethernet frame with payload of requested length" []
  else mret (min_len, max_len).

Record fcs_locals := FcsLocals { fc_iut_s : Z; fc_tst_s : Z; fc_csap_rx : Z; fc_csap_tx : Z }.
Definition fc_set_socks (a b : Z) (l : fcs_locals) : fcs_locals := FcsLocals a b (fc_csap_rx l) (fc_csap_tx l).
Definition fc_set_rx (c : Z) (l : fcs_locals) : fcs_locals := FcsLocals (fc_iut_s l) (fc_tst_s l) c (fc_csap_tx l).
Definition fc_set_tx (c : Z) (l : fcs_locals) : fcs_locals := FcsLocals (fc_iut_s l) (fc_tst_s l) (fc_csap_rx l) c.
Definition fc_start : fcs_locals := FcsLocals (-1) (-1) CSAP_INVALID_HANDLE CSAP_INVALID_HANDLE.

Section test.
Context (iut tst : rcf_rpc_server) (iut_if tst_if : string) (iut_addr tst_addr : sockaddr).
Context (iut_lladdr tst_lladdr : list Z) (sock_type : rpc_socket_type) (rx_fcs small_frame : bool).

(** One message from Tester to the IUT. *)
Definition fcs_send (iut_s tst_s min_len max_len : Z) : M unit :=
  send_len ← call (rand_range min_len max_len);
  send_buf ← call (te_fill_buf send_len);
  left_by ← call (RPC_SEND tst tst_s send_buf);
  _ ← match left_by with Some j => raise j | None => mret tt end;
  '(rc, recv_buf, _) ← call (rpc_recv iut iut_s FCS_MAX_PKT_LEN);
  if rc <? 0 then raise RPC_FAILED
  else if negb (rc =? send_len) || negb (mem_eq send_buf recv_buf send_len) then
    TEST_VERDICT "Data received on IUT does not match data sent from Tester" []
  else mret tt.

Definition fcs_body : T fcs_locals unit :=
  _ ← lift (net_drv_set_if_feature (rpcs_ta iut) iut_if "rx-fcs" (if rx_fcs then 1 else 0));
  '(min_len, max_len) ← lift (fcs_lengths (sa_family iut_addr) sock_type small_frame);
  _ ← lift (when small_frame
        (CHECK_RC (call (tapi_cfg_sys_ns_set_int (rpcs_ta tst) 0 "net/ipv4/tcp_timestamps"))));
  '(iut_s, tst_s) ← lift (CHECK_OUT (call (GEN_CONNECTION iut tst sock_type iut_addr tst_addr)));
  _ ← modify (fc_set_socks iut_s tst_s);
  csap_rx ← lift (CHECK_OUT (call (tapi_eth_csap_create (rpcs_ta iut) iut_if false tst_lladdr iut_lladdr)));
  _ ← modify (fc_set_rx csap_rx);
  _ ← lift (CHECK_RC (call (tapi_tad_trrecv_start (rpcs_ta iut) csap_rx)));
  csap_tx ← lift (CHECK_OUT (call (tapi_eth_csap_create (rpcs_ta tst) tst_if true tst_lladdr iut_lladdr)));
  _ ← modify (fc_set_tx csap_tx);
  _ ← lift (CHECK_RC (call (tapi_tad_trrecv_start (rpcs_ta tst) csap_tx)));
  _ ← lift (fcs_send iut_s tst_s min_len max_len);
  sent ← lift (CHECK_OUT (call (tapi_tad_trrecv_stop (rpcs_ta tst) csap_tx)));
  out ← lift (examine_out sent);
  received ← lift (CHECK_OUT (call (tapi_tad_trrecv_stop (rpcs_ta iut) csap_rx)));
  lift (examine_in rx_fcs out received).

Definition fcs_cleanup (l : fcs_locals) : M bool :=
  also (destroy_csap (rpcs_ta tst) (fc_csap_tx l))
 (also (destroy_csap (rpcs_ta iut) (fc_csap_rx l))
 (also (cleanup_close iut (fc_iut_s l))
       (cleanup_close tst (fc_tst_s l)))).

Definition fcs_main : M status := test_main fc_start fcs_body fcs_cleanup.
End test.
End rx_fcs.

(** ** Frames *)

(** A captured frame: addresses, length or type, and what follows. *)
Record frame := Frame { fr_dst : list Z; fr_src : list Z; fr_type : Z; fr_body : list Z }.

(** The first fourteen bytes. *)
Definition fr_header (f : frame) : list Z := fr_dst f ++ fr_src f ++ to_be 2 (fr_type f).

(** The packet reports the frame. *)
Record carries (pkt : tad_pkt) (f : frame) : Prop := Carries {
  ca_len : pk_len pkt = Z.of_nat (length (fr_body f)); ca_body : pk_bytes pkt = (0, fr_body f);
  ca_dst : pk_eth_dst pkt = (0, fr_dst f); ca_src : pk_eth_src pkt = (0, fr_src f);
  ca_type : pk_eth_type pkt = (0, fr_type f);
  ca_dst_len : length (fr_dst f) = 6%nat; ca_src_len : length (fr_src f) = 6%nat;
  ca_type_range : 0 <= fr_type f < 2 ^ 16; ca_bytes : Forall is_byte (fr_body f) }.

Lemma length_header pkt f : carries pkt f -> length (fr_header f) = 14%nat.
Proof. intros H. unfold fr_header. by rewrite !length_app, length_to_be, (ca_dst_len _ _ H), (ca_src_len _ _ H). Qed.

Lemma store_htons le t : 0 <= t < 2 ^ 16 -> store le 2 (htons le t) = to_be 2 t.
Proof.
  intros Ht. destruct le; cbn [store htons].
  - unfold bswap_16, to_be. apply to_of_le_rev.
  - unfold u16. by rewrite Z.mod_small.
Qed.

(** Writing over the middle of a buffer. *)
Lemma poke_mid a b c d off : off = Z.of_nat (length a) -> length d = length b ->
  poke (a ++ b ++ c) off d = mret (a ++ d ++ c).
Proof.
  intros -> Hl. unfold poke. rewrite (proj2 (Z.leb_le 0 _)), (proj2 (Z.leb_le _ _)) by (rewrite ?length_app; lia).
  cbn [andb]. f_equal. f_equal. unfold buf_write. rewrite Nat2Z.id, take_app_length, Hl. do 2 f_equal.
  rewrite app_assoc. apply drop_app_length'. by rewrite length_app.
Qed.

Lemma peek_at a b c off n : off = Z.of_nat (length a) -> n = Z.of_nat (length b) ->
  peek (a ++ b ++ c) off n = mret b.
Proof.
  intros -> ->. unfold peek. rewrite (proj2 (Z.leb_le 0 _)), (proj2 (Z.leb_le _ _)) by (rewrite ?length_app; lia).
  cbn [andb]. rewrite !Nat2Z.id, drop_app_length, take_app_length. done.
Qed.

Section check.
Context {TE : Te} (crc32 : list Z -> Z) (le : bool).
Context (crc32_range : forall l, 0 <= crc32 l < 2 ^ 32).

(** Where memory is not exhausted. *)
Definition ample : env te_call unit :=
  watch_if (fun X (c : te_call X) _ => match c in te_call X return X -> Prop with
      | TE_ALLOC _ => fun ok => ok = true
      | te_vec_append => fun rc => rc = 0
      | _ => fun _ => True
      end) (fun _ _ _ s => s).

(** What [process_in] finds in a frame: all but its last four bytes, and those. *)
Definition front (f : frame) : list Z := take (length (fr_body f) + 10) (fr_header f ++ fr_body f).
Definition tail4 (f : frame) : list Z := drop (length (fr_body f) + 10) (fr_header f ++ fr_body f).

Definition seen (f : frame) : Z * Z := (crc32 (front f), load le (tail4 f)).

Lemma read_fcs_wp pkt f : carries pkt f ->
  wp ample (read_fcs crc32 le pkt (pk_len pkt)) tt (fun r _ => r = Val (Some (seen f))).
Proof.
  intros H. pose proof (length_header _ _ H) as Hh. destruct H as [El Eb Ed Es Et Ld Ls Rt _].
  set (n := length (fr_body f)) in *.
  unfold read_fcs. rewrite El. wp_step. apply wp_call. intros ok [] [-> _]. cbn [bpost negb].
  rewrite Eb, Ed, Es, Et. cbn [Z.eqb negb].
  replace (replicate (Z.to_nat (Z.of_nat n + ETH_DATA_OFF)) 0) with (replicate 14 0 ++ replicate n 0 ++ [] : list Z).
  2: { rewrite app_nil_r, <- replicate_add. f_equal. unfold ETH_DATA_OFF. lia. }
  rewrite Nat2Z.id, (take_ge (fr_body f)) by done.
  rewrite poke_mid by (by rewrite ?length_replicate). rewrite app_nil_r. cbn [mbind prog_bind mret prog_ret bind lift_result].
  unfold ETH_ADDR_LEN, ETH_DST_ADDR_OFF, ETH_SRC_ADDR_OFF, ETH_LEN_TYPE_OFF.
  rewrite !take_ge by (rewrite ?Ld, ?Ls; done).
  change (replicate 14 0 ++ fr_body f) with ([] ++ replicate 6 0 ++ (replicate 6 0 ++ replicate 2 0 ++ fr_body f)).
  rewrite poke_mid by done. cbn [app mbind prog_bind mret prog_ret bind lift_result].
  rewrite (poke_mid (fr_dst f) (replicate 6 0)) by (rewrite ?Ld; done).
  cbn [mbind prog_bind mret prog_ret bind lift_result].
  rewrite app_assoc, store_htons by done.
  rewrite (poke_mid (fr_dst f ++ fr_src f) (replicate 2 0))
    by (rewrite ?length_app, ?Ld, ?Ls, ?length_to_be; done).
  cbn [mbind prog_bind mret prog_ret bind lift_result].
  rewrite <- app_assoc, (app_assoc (fr_src f)), (app_assoc (fr_dst f)). change (fr_dst f ++ fr_src f ++ to_be 2 (fr_type f)) with (fr_header f).
  assert (E : fr_header f ++ fr_body f = front f ++ tail4 f) by (unfold front, tail4; by rewrite take_drop).
  assert (Lf : length (front f) = (n + 10)%nat).
  { unfold front. rewrite length_take, length_app, Hh. fold n. lia. }
  assert (Lt : length (tail4 f) = 4%nat).
  { unfold tail4. rewrite length_drop, length_app, Hh. fold n. lia. }
  rewrite E. rewrite <- (app_nil_r (tail4 f)) at 1.
  rewrite peek_at by (rewrite ?Lf, ?Lt; unfold ETH_FCS_LEN, ETH_DATA_OFF; lia).
  cbn [mbind prog_bind mret prog_ret bind lift_result].
  rewrite <- (app_nil_l (front f ++ _)).
  rewrite peek_at by (rewrite ?Lf; cbn; unfold ETH_FCS_LEN, ETH_DATA_OFF; lia). done.
Qed.

(** The loops over the packets. *)
Lemma for_out_wp pkts outs i :
  Forall2 (fun p n => pk_len p = n /\ 0 <= n) pkts outs ->
  wp ample (for_pkts process_out pkts i) tt
    (fun r _ => r = Val (FcsInfo (fi_num i + Z.of_nat (length outs)) (fi_expect i) (fi_pkts i ++ outs) (fi_failed i))).
Proof.
  intros H. revert i. induction H as [|p n pkts outs [Hp Hn] _ IH]; intros i.
  - destruct i. cbn. by rewrite Z.add_0_r, app_nil_r.
  - cbn [for_pkts]. wp_step. unfold process_out at 1. rewrite Hp, (proj2 (Z.ltb_ge n 0)) by done. unfold append_pkt.
    wp_step. apply wp_call. intros rc [] [-> _]. cbn [bpost negb Z.eqb]. wp_step. cbn [bpost].
    eapply wp_mono; [apply IH|]. intros r [] ->. do 2 f_equal; [|cbn; by rewrite <- app_assoc].
    unfold fi_count, fi_append. cbn [fi_num length]. lia.
Qed.

(** What the vector of incoming packets holds for a frame. *)
Definition entry (rx_fcs : bool) (f : frame) : pkt_in_data :=
  let '(c, g) := if rx_fcs then seen f else (0, 0) in PktIn (Z.of_nat (length (fr_body f))) c g.

Lemma for_in_wp pkts frames i :
  Forall2 carries pkts frames ->
  wp ample (for_pkts (process_in crc32 le) pkts i) tt
    (fun r _ => r = Val (FcsInfo (fi_num i + Z.of_nat (length frames)) (fi_expect i)
                          (fi_pkts i ++ map (entry (fi_expect i)) frames) (fi_failed i))).
Proof.
  intros H. revert i. induction H as [|p f pkts frames Hp _ IH]; intros i.
  - destruct i. cbn. by rewrite Z.add_0_r, app_nil_r.
  - cbn [for_pkts]. wp_step. unfold process_in at 1.
    rewrite (proj2 (Z.ltb_ge (pk_len p) 0)) by (rewrite (ca_len _ _ Hp); lia). wp_step.
    apply (wp_mono _ _ _ (fun r _ => r = Val (Some (if fi_expect i then seen f else (0, 0))))).
    { destruct (fi_expect i); [by apply read_fcs_wp|done]. }
    intros r [] ->. cbn [bpost]. destruct (if fi_expect i then seen f else (0, 0)) as [c g] eqn:E.
    unfold append_pkt. wp_step. apply wp_call. intros rc [] [-> _]. cbn [bpost negb Z.eqb]. wp_step. cbn [bpost].
    eapply wp_mono; [apply IH|]. intros r [] ->. unfold fi_count, fi_append. cbn [fi_num fi_expect fi_pkts fi_failed length map].
    do 2 f_equal; [lia|]. rewrite <- app_assoc. unfold entry at 2. rewrite E, (ca_len _ _ Hp). done.
Qed.

(** A frame is as it should be for the length of the payload sent. *)
Definition right (rx_fcs : bool) (out : Z) (f : frame) : Prop :=
  let padded := Z.max out MIN_ETH_PAYLOAD_LEN in
  if rx_fcs then exists pld, fr_body f = pld ++ store le 4 (crc32 (fr_header f ++ pld)) /\ Z.of_nat (length pld) = padded
  else Z.of_nat (length (fr_body f)) = out \/ Z.of_nat (length (fr_body f)) = padded.

Lemma right_fcs pkt f out : carries pkt f ->
  Z.max out MIN_ETH_PAYLOAD_LEN = Z.of_nat (length (fr_body f)) - 4 ->
  right true out f <-> (seen f).1 = (seen f).2.
Proof.
  intros H Hl. pose proof (length_header _ _ H) as Hh. pose proof (ca_bytes _ _ H) as Hb.
  unfold right, seen, front, tail4. cbn [fst snd]. set (n := length (fr_body f)) in *.
  assert (Hn : (4 <= n)%nat) by (unfold MIN_ETH_PAYLOAD_LEN in Hl; lia).
  assert (Ef : take (n + 10) (fr_header f ++ fr_body f) = fr_header f ++ take (n - 4) (fr_body f)).
  { rewrite take_app_ge by lia. do 2 f_equal. lia. }
  assert (Et : drop (n + 10) (fr_header f ++ fr_body f) = drop (n - 4) (fr_body f)).
  { rewrite drop_app_ge by lia. f_equal. lia. }
  rewrite Ef, Et. pose proof (crc32_range (fr_header f ++ take (n - 4) (fr_body f))) as Hr. split.
  - intros (pld & E & Hp). assert (El : length pld = (n - 4)%nat) by lia.
    assert (E1 : take (n - 4) (fr_body f) = pld) by (rewrite E; by apply take_app_length').
    rewrite E1 in *. rewrite E, drop_app_length' by done. rewrite load_store. symmetry. by apply Z.mod_small.
  - intros E. exists (take (n - 4) (fr_body f)). split; [|rewrite length_take; lia]. rewrite E.
    rewrite store_load; [by rewrite take_drop|rewrite length_drop; lia|by apply Forall_drop].
Qed.

(** One comparison. *)
Lemma compare_pass_wp rx_fcs pkt f out i outs ins :
  carries pkt f -> outs !! Z.to_nat i = Some out -> ins !! Z.to_nat i = Some (entry rx_fcs f) ->
  wp ample (compare_pass rx_fcs outs ins i tt) tt (fun r _ => match r with
    | Val (Continue _) => right rx_fcs out f
    | Exc (VERDICT _) => ~ right rx_fcs out f
    | _ => False
    end).
Proof.
  intros H E1 E2. unfold compare_pass. rewrite E1, E2.
  set (n := Z.of_nat (length (fr_body f))).
  assert (En : pi_payload_len (entry rx_fcs f) = n) by (unfold entry; by destruct (if rx_fcs then _ else _)).
  rewrite En. set (p := Z.max out MIN_ETH_PAYLOAD_LEN).
  assert (Hnr : p <> n - 4 -> ~ right true out f).
  { intros Hp (pld & E & Hl). apply Hp. unfold n. rewrite E, length_app. fold p in Hl.
    destruct le; cbn [store]; rewrite ?length_to_le, ?length_to_be; lia. }
  destruct (Z.eqb_spec out n) as [Eo|Eo]; [|destruct (Z.eqb_spec p n) as [Ep|Ep]]; cbn [orb].
  - destruct rx_fcs; cbn; [apply Hnr; lia|by left].
  - destruct rx_fcs; cbn; [apply Hnr; lia|by right].
  - unfold ETH_FCS_LEN. destruct (Z.eqb_spec p (n - 4)) as [E4|E4].
    + destruct rx_fcs; cbn [negb]; [|cbn; fold n p; intros [?|?]; lia].
      pose proof (right_fcs pkt f out H E4) as Hr.
      assert (E : entry true f = PktIn n (seen f).1 (seen f).2) by (unfold entry; by destruct (seen f)).
      rewrite E. cbn [pi_computed_fcs pi_pkt_fcs]. destruct (Z.eqb_spec (seen f).1 (seen f).2); cbn; tauto.
    + cbn. destruct rx_fcs; [by apply Hnr|]. cbn. fold n p. intros [?|?]; lia.
Qed.

Lemma compare_loop rx_fcs rxs frames outs :
  Forall2 carries rxs frames -> length outs = length frames ->
  wp ample (for_n (length frames) 0 tt (compare_pass rx_fcs outs (map (entry rx_fcs) frames))) tt (fun r _ => match r with
    | Val _ => Forall2 (right rx_fcs) outs frames
    | Exc (VERDICT _) => ~ Forall2 (right rx_fcs) outs frames
    | _ => False
    end).
Proof.
  intros Hc Hl. eapply (wp_for_n _ _ _ _ _ _ _ (fun i _ _ => forall j o f, (j < Z.to_nat i)%nat ->
    outs !! j = Some o -> frames !! j = Some f -> right rx_fcs o f)); [lia| |].
  - intros i [] [] Hi HI. destruct (lookup_lt_is_Some_2 frames (Z.to_nat i)) as [f Hf]; [lia|].
    destruct (lookup_lt_is_Some_2 outs (Z.to_nat i)) as [o Ho]; [lia|].
    destruct (Forall2_lookup_r _ _ _ _ _ Hc Hf) as (p & _ & Hp).
    eapply wp_mono; [eapply compare_pass_wp; [exact Hp|exact Ho|by rewrite list_lookup_fmap, Hf]|].
    intros [[[]| |]|[]| |] [] H; try done; cbn [lpost].
    + intros j o' f' Hj Ho' Hf'. destruct (decide (j = Z.to_nat i)) as [->|Hne]; [congruence|].
      eapply HI; [|exact Ho'|exact Hf']. lia.
    + intros H2. apply H. by eapply Forall2_lookup_lr.
  - intros [] [] HI. apply Forall2_same_length_lookup_2; [done|]. intros j o f Ho Hf.
    eapply HI; [|exact Ho|exact Hf]. apply lookup_lt_Some in Hf. lia.
Qed.

(** C38.  The check of the captured packets passes exactly when as many packets
    were received as sent, and every one of them, with rx-fcs on, is the padded
    payload followed by the four bytes of its CRC (in the byte order of the
    engine), and, with rx-fcs off, has no bytes besides the payload and the
    padding; a different number of packets is a failure, a wrong packet a
    verdict.  It stays within the buffer it assembles a frame in. *)
Theorem fcs_check_correct rx_fcs txs outs rxs frames :
  Forall2 (fun p n => pk_len p = n /\ 0 <= n) txs outs -> Forall2 carries rxs frames ->
  wp ample (out ← examine_out txs; examine_in crc32 le rx_fcs out rxs) tt (fun r _ => match r with
    | Val _ => outs <> [] /\ Forall2 (right rx_fcs) outs frames
    | Exc (VERDICT _) => length outs = length frames /\ ~ Forall2 (right rx_fcs) outs frames
    | Exc (FAIL _) => outs = [] \/ length outs <> length frames
    | _ => False
    end).
Proof.
  intros Ht Hr. wp_step. unfold examine_out. wp_step.
  eapply wp_mono; [by apply (for_out_wp _ outs)|]. intros r [] ->. cbn [bpost fi_failed fi_num fi_pkts fi_expect app].
  rewrite Z.add_0_l. destruct (Z.eqb_spec (Z.of_nat (length outs)) 0) as [E|E].
  { cbn. left. apply length_zero_iff_nil. lia. }
  wp_step. cbn [bpost]. unfold examine_in. cbn [fi_failed fi_num fi_pkts]. wp_step.
  eapply wp_mono; [by apply (for_in_wp _ frames)|]. intros r [] ->. cbn [bpost fi_failed fi_num fi_pkts fi_expect app].
  rewrite Z.add_0_l. destruct (Z.eqb_spec (Z.of_nat (length frames)) 0) as [E'|E']; [cbn; lia|].
  destruct (Z.eqb_spec (Z.of_nat (length frames)) (Z.of_nat (length outs))) as [El|El]; cbn [negb]; [|cbn; lia].
  rewrite Nat2Z.id. wp_step. eapply wp_mono; [apply (compare_loop _ rxs); [done|lia]|].
  intros [r|[]| |] [] H; try done; cbn [bpost]; [|split; [lia|done]]. wp_step. split; [|done]. intros ->. done.
Qed.

End check.

(** ** The payload to send *)
Section lengths.
Context {TE : Te}.

(** A range of lengths is found exactly when no small frame is asked for or
    over IPv4; it fits the buffer, and every frame in it needs padding when a
    small one is asked for, and none otherwise. *)
Lemma fcs_lengths_bounds af t small :
  let hdrs := (if af =? AF_INET then 20 else 40) + (if bool_decide (t = RPC_SOCK_STREAM) then 20 else 8) in
  match fcs_lengths af t small with
  | Done (Val (lo, hi)) => (small = true -> af = AF_INET) /\ 1 <= lo < hi /\ hi <= FCS_MAX_PKT_LEN /\
      forall n, lo <= n <= hi -> n + hdrs < MIN_ETH_PAYLOAD_LEN <-> small = true
  | Done (Exc (FAIL _)) => small = true /\ af <> AF_INET
  | _ => False
  end.
Proof.
  intros hdrs. unfold fcs_lengths. destruct te_hdr_lens as (-> & -> & -> & ->). fold hdrs.
  unfold MIN_ETH_PAYLOAD_LEN, FCS_MAX_PKT_LEN. pose proof te_af_ne.
  assert (Hh : 28 <= hdrs <= 60) by (unfold hdrs; repeat case_match; lia).
  destruct small.
  - destruct (Z.eqb_spec af AF_INET6) as [->|H6]; [split; [done|congruence]|]. cbn [mbind prog_bind mret prog_ret bind lift_result].
    destruct (Z.leb_spec (46 - hdrs - 1) 1).
    + split; [done|]. intros ->. revert H0. unfold hdrs. rewrite Z.eqb_refl. case_match; lia.
    + split; [|split; [lia|split; [lia|]]].
      * intros _. revert H0. unfold hdrs. destruct (Z.eqb_spec af AF_INET); [done|]. case_match; lia.
      * intros n Hn. split; [done|]. lia.
  - cbn [mbind prog_bind mret prog_ret bind lift_result].
    destruct (Z.leb_spec (46 - hdrs) 0); destruct (Z.leb_spec 1024 (if (46 - hdrs <=? 0) then 1 else 46 - hdrs)).
    all: case_zbool; try lia; cbn; repeat split; try lia; try done.
Qed.
End lengths.

(** ** What the test gives back *)
Section releases.
Context {TE : Te} (crc32 : list Z -> Z) (le : bool).
Context (iut tst : rcf_rpc_server) (iut_if tst_if : string) (iut_addr tst_addr : sockaddr).
Context (iut_lladdr tst_lladdr : list Z) (sock_type : rpc_socket_type) (rx_fcs small_frame : bool).

Definition fc_socks (l : fcs_locals) : list (rcf_rpc_server * Z) :=
  sock_at iut (fc_iut_s l) ++ sock_at tst (fc_tst_s l).
Definition fc_csaps (l : fcs_locals) : list (string * Z) :=
  csap_at (rpcs_ta tst) (fc_csap_tx l) ++ csap_at (rpcs_ta iut) (fc_csap_rx l).

Local Abbreviation inv := (holding fc_socks fc_csaps).

Lemma examine_out_free pkts : only neutral any_jump (examine_out pkts).
Proof.
  unfold examine_out. apply only_bind; [|intros i; solve_only].
  generalize (FcsInfo (A := Z) 0 false [] false). induction pkts as [|p pkts IH]; intros i; [done|].
  cbn [for_pkts]. apply only_bind; [|exact IH]. unfold process_out, append_pkt. solve_only.
Qed.

(** Reading a frame stays within the buffer, whatever the packet answers. *)
Lemma poke_in buf off data : 0 <= off -> off + Z.of_nat (length data) <= Z.of_nat (length buf) ->
  exists buf', poke buf off data = mret buf' /\ length buf' = length buf.
Proof.
  intros H1 H2. unfold poke. rewrite (proj2 (Z.leb_le 0 off)), (proj2 (Z.leb_le _ _)) by done.
  eexists. split; [done|]. unfold buf_write. rewrite !length_app, length_take, length_drop. lia.
Qed.

Lemma peek_in buf off n : 0 <= off -> off + n <= Z.of_nat (length buf) -> exists l, peek buf off n = mret l.
Proof.
  intros H1 H2. unfold peek. rewrite (proj2 (Z.leb_le 0 off)), (proj2 (Z.leb_le _ _)) by done. by eexists.
Qed.

Ltac poke_step := match goal with
  | |- only _ _ (mbind _ (poke ?b ?o ?d)) => let E := fresh in let L := fresh in
      destruct (poke_in b o d) as (? & E & L);
        [done|rewrite ?length_take; lia|]; rewrite E; cbn [mbind prog_bind mret prog_ret bind lift_result]; clear E
  end.

Lemma read_fcs_neutral pkt n : 0 <= n -> only neutral any_jump (read_fcs crc32 le pkt n).
Proof.
  intros Hn. unfold read_fcs, ETH_ADDR_LEN, ETH_DST_ADDR_OFF, ETH_SRC_ADDR_OFF, ETH_LEN_TYPE_OFF, ETH_FCS_LEN, ETH_DATA_OFF.
  apply only_bind; [by split|]. intros [|]; [|done]. cbn [negb].
  pose proof (length_replicate (Z.to_nat (n + 14)) 0) as Hl. revert Hl. generalize (replicate (Z.to_nat (n + 14)) 0). intros buf Hl.
  destruct (pk_bytes pkt) as [rc b], (negb (rc =? 0)); [done|]. poke_step.
  destruct (pk_eth_dst pkt) as [rc1 b1], (negb (rc1 =? 0)); [done|]. poke_step.
  destruct (pk_eth_src pkt) as [rc2 b2], (negb (rc2 =? 0)); [done|]. poke_step.
  destruct (pk_eth_type pkt) as [rc3 t], (negb (rc3 =? 0)); [done|].
  assert (Hs : length (store le 2 (htons le t)) = 2%nat) by (destruct le; [apply length_to_le|apply length_to_be]).
  poke_step.
  match goal with |- only _ _ (mbind _ (peek ?b ?o ?k)) => destruct (peek_in b o k) as [l ->]; [lia..|] end.
  cbn [mbind prog_bind mret prog_ret bind lift_result].
  match goal with |- only _ _ (mbind _ (peek ?b ?o ?k)) => destruct (peek_in b o k) as [l2 ->]; [lia..|] end. done.
Qed.

Lemma for_in_neutral pkts i : only neutral any_jump (for_pkts (process_in crc32 le) pkts i).
Proof.
  revert i. induction pkts as [|p pkts IH]; intros i; [done|]. cbn [for_pkts]. apply only_bind; [|exact IH].
  unfold process_in. destruct (pk_len p <? 0) eqn:E; [done|]. apply Z.ltb_ge in E.
  apply only_bind; [destruct (fi_expect i); [by apply read_fcs_neutral|done]|].
  unfold append_pkt. solve_only.
Qed.
(** As many packets are counted as are stored. *)
Definition counted {A} (i : fcs_info A) : Prop := fi_num i = Z.of_nat (length (fi_pkts i)).

Lemma append_counted {A} (E : env te_call held) (x : A) i g : counted i ->
  wp E (append_pkt x i) g (on_val (fun i' _ => counted i')).
Proof.
  intros Hi. unfold append_pkt. wp_go. destruct (negb _); [exact Hi|]. unfold counted in *. cbn.
  rewrite length_app. cbn. lia.
Qed.

Lemma for_counted {A} (E : env te_call held) (cb : tad_pkt -> fcs_info A -> M (fcs_info A)) pkts i g :
  (forall p i g, counted i -> wp E (cb p i) g (on_val (fun i' _ => counted i'))) -> counted i ->
  wp E (for_pkts cb pkts i) g (on_val (fun i' _ => counted i')).
Proof.
  intros Hcb. revert i g. induction pkts as [|p pkts IH]; intros i g Hi; [exact Hi|]. cbn [for_pkts]. wp_step.
  eapply wp_mono; [by apply Hcb|]. intros [i'| | |] g' H; try done. by apply IH.
Qed.

Lemma process_out_counted (E : env te_call held) p i g : counted i -> wp E (process_out p i) g (on_val (fun i' _ => counted i')).
Proof. intros Hi. unfold process_out. destruct (_ <? _); [exact Hi|]. by apply append_counted. Qed.

Lemma process_in_counted (E : env te_call held) p i g : counted i ->
  wp E (process_in crc32 le p i) g (on_val (fun i' _ => counted i')).
Proof.
  intros Hi. unfold process_in. destruct (_ <? _); [exact Hi|]. wp_step.
  eapply wp_mono; [apply (wp_true E)|]. intros [[[c f]|]| | |] g' _; try done; cbn [bpost]. by apply append_counted.
Qed.

(** Sockets and CSAPs are not concerned; the values are counted. *)
Lemma examine_out_wp pkts L g : inv L g ->
  wp h_world (examine_out pkts) g (fun r g' => inv L g' /\ match r with
    | Undef _ => False | Val i => counted i | _ => True end).
Proof.
  intros HL.
  assert (Hc : wp h_world (examine_out pkts) g (on_val (fun i _ => counted i))).
  { unfold examine_out. wp_step. eapply (wp_mono _ _ _ (on_val (fun i _ => counted i))).
    - by apply for_counted; [intros; apply process_out_counted|].
    - intros [i| | |] g' H; try done. cbn [bpost]. unfold TEST_FAIL. by destruct (fi_failed i), (fi_num i =? 0). }
  eapply wp_mono; [apply (wp_and _ _ _ _ _ (handle_free_wp fc_socks fc_csaps _ L g
    (only_mono _ _ _ _ _ neutral_handle_free (fun _ H => H) (examine_out_free pkts)) HL) Hc)|].
  intros [i| | |] g' [[H1 H2] H3]; by split.
Qed.

Lemma compare_pass_neutral outs ins i :
  is_Some (outs !! Z.to_nat i) -> is_Some (ins !! Z.to_nat i) ->
  only neutral any_jump (compare_pass rx_fcs outs ins i tt).
Proof. intros [o Ho] [x Hx]. unfold compare_pass. rewrite Ho, Hx. solve_only. Qed.

Lemma examine_in_wp out pkts L g : counted out -> inv L g ->
  wp h_world (examine_in crc32 le rx_fcs out pkts) g (fun r g' => inv L g' /\ match r with
    | Undef _ => False | _ => True end).
Proof.
  intros Ho HL. unfold examine_in. wp_step.
  eapply wp_mono; [apply wp_and; [apply (handle_free_wp fc_socks fc_csaps _ L g); [|exact HL]|
    apply for_counted; [intros; by apply process_in_counted|done]]|].
  { eapply only_mono; [apply neutral_handle_free|done|apply for_in_neutral]. }
  intros [i| | |] g' [[H1 H2] H3]; try done; cbn [bpost on_val] in *.
  destruct (fi_failed i), (fi_num i =? 0); try done.
  destruct (Z.eqb_spec (fi_num i) (fi_num out)) as [E|E]; [|done]. cbn [negb]. unfold counted in *.
  wp_step. eapply (wp_for_n _ _ _ _ _ _ _ (fun _ _ g' => inv L g')); [exact H1| |].
  - intros j [] g2 Hj Hg. eapply wp_mono; [apply (handle_free_wp fc_socks fc_csaps _ L g2); [|exact Hg]|].
    + eapply only_mono; [apply neutral_handle_free|done|]. apply compare_pass_neutral; apply lookup_lt_is_Some_2; lia.
    + by intros [[[]|[]|[]]| | |] g3 [Hg3 Hr].
  - intros [] g2 Hg. cbn [bpost]. by wp_step.
Qed.

Lemma fcs_send_free a b lo hi : only handle_free any_jump (fcs_send iut tst a b lo hi).
Proof. unfold fcs_send. solve_only. Qed.

Lemma feature_free : only handle_free any_jump
  (net_drv_set_if_feature (rpcs_ta iut) iut_if "rx-fcs" (if rx_fcs then 1 else 0)).
Proof. unfold net_drv_set_if_feature, net_drv_set_if_feature_gen. solve_only. Qed.

Lemma fcs_body_keeps :
  tkeeps h_world (fun L g => L = fc_start /\ inv L g) inv
    (fcs_body crc32 le iut tst iut_if tst_if iut_addr tst_addr iut_lladdr tst_lladdr sock_type rx_fcs small_frame).
Proof.
  intros L g [-> Hg]. unfold fcs_body.
  apply st_free; [apply feature_free|done|]. clear g Hg. intros [] g Hg.
  apply st_free; [unfold fcs_lengths; solve_only|done|]. clear g Hg. intros [lo hi] g Hg.
  apply st_free; [solve_only|done|]. clear g Hg. intros _ g Hg.
  apply st_connect; [done|]. clear g Hg. intros s1 s2 g Hs1 Hs2 Hs Hc. apply st_modify.
  assert (Hg : inv (fc_set_socks s1 s2 fc_start) g).
  { split; [|exact Hc]. unfold fc_socks, sock_at. cbn. rewrite (proj2 (Z.leb_le 0 s1)), (proj2 (Z.leb_le 0 s2)) by done. exact Hs. }
  clear Hs Hc. apply (st_take_csap _ _ _ (rpcs_ta iut)); [done|by intros ? ?|exact Hg|]. clear g Hg. intros rx g Hrx Hs Hc. apply st_modify.
  assert (Hg : inv (fc_set_rx rx (fc_set_socks s1 s2 fc_start)) g).
  { split; [exact Hs|]. etrans; [exact Hc|]. unfold fc_csaps, csap_at. cbn. by rewrite Z.eqb_refl, (proj2 (Z.eqb_neq rx _)). }
  clear Hs Hc. apply st_free; [solve_only|done|]. clear g Hg. intros _ g Hg.
  apply (st_take_csap _ _ _ (rpcs_ta tst)); [done|by intros ? ?|exact Hg|]. clear g Hg. intros tx g Htx Hs Hc. apply st_modify.
  set (L := fc_set_tx _ _).
  assert (Hg : inv L g).
  { split; [exact Hs|]. etrans; [exact Hc|]. unfold fc_csaps, csap_at, L. cbn.
    by rewrite Z.eqb_refl, (proj2 (Z.eqb_neq rx _)), (proj2 (Z.eqb_neq tx _)). }
  clear Hs Hc. clearbody L. apply st_free; [solve_only|done|]. clear g Hg. intros _ g Hg.
  apply st_free; [apply fcs_send_free|done|]. clear g Hg. intros _ g Hg.
  apply st_free; [solve_only|done|]. clear g Hg. intros sent g Hg.
  apply st_call. eapply wp_mono; [by apply examine_out_wp|].
  intros [out| | |] g1 [H1 H2]; try done.
  apply st_free; [solve_only|done|]. clear g Hg. intros received g Hg.
  unfold lift. apply wp_bind, wp_attempt. eapply wp_mono; [by apply examine_in_wp|].
  intros [[]| | |] g2 [H3 H4]; cbn; done.
Qed.

(** The test of the frame check sequence gives back its sockets and CSAPs
    however it ends, and never writes or reads past the end of a buffer. *)
Lemma fcs_releases init :
  wp h_world (fcs_main crc32 le iut tst iut_if tst_if iut_addr tst_addr iut_lladdr tst_lladdr sock_type rx_fcs small_frame)
    (clean init) (fun r g => match r with Val _ => gave_back g | NoFuel => True | _ => False end).
Proof.
  unfold fcs_main. eapply test_main_keeps; [|apply fcs_body_keeps|].
  - split; [done|]. split; apply submseteq_nil_l.
  - intros L g [Hs Hc]. unfold fcs_cleanup, also. wp_step.
    eapply csap_destroyed; [exact Hc|]. intros b1 g1 Hc1 E1. cbn [bpost]. do 2 wp_step.
    eapply csap_destroyed; [by rewrite app_nil_r|]. intros b2 g2 Hc2 E2. cbn [bpost]. do 2 wp_step.
    eapply close_held; [rewrite E2, E1; exact Hs|]. intros b3 g3 Hs3 E3. cbn [bpost]. wp_step.
    eapply close_held; [by rewrite app_nil_r|]. intros b4 g4 Hs4 E4. wp_go.
    apply submseteq_nil_r in Hs4, Hc2. split; [done|]. congruence.
Qed.
End releases.

Module FcsWitness.
Local Existing Instance te_ref.

(** CRC-32 as zlib computes it, bit by bit. *)
Definition crc_bit (c : Z) : Z := if Z.odd c then Z.lxor (Z.shiftr c 1) 0xEDB88320 else Z.shiftr c 1.
Definition crc_byte (c b : Z) : Z := Nat.iter 8 crc_bit (Z.lxor c b).
Definition crc (l : list Z) : Z := u32 (Z.lxor (foldl crc_byte 0xFFFFFFFF l) 0xFFFFFFFF).

Lemma crc_check_value : crc [49; 50; 51; 52; 53; 54; 55; 56; 57] = 0xCBF43926.
Proof. vm_compute. reflexivity. Qed.

(** Payloads of 20 and of 100 bytes, the first one padded. *)
Definition header : list Z := [2; 0; 0; 0; 0; 1] ++ [2; 0; 0; 0; 0; 2] ++ to_be 2 0x800.
Definition with_fcs (pld : list Z) : frame :=
  Frame [2; 0; 0; 0; 0; 1] [2; 0; 0; 0; 0; 2] 0x800 (pld ++ to_le 4 (crc (header ++ pld))).
Definition reported (f : frame) : tad_pkt :=
  TadPkt (0, TV 0 0) (Z.of_nat (length (fr_body f))) (0, fr_body f) (0, 0) (0, 0) (0, fr_dst f) (0, fr_src f) (0, fr_type f) (0, 0) (0, 0) (0, 0).
Definition sent (n : Z) : tad_pkt := TadPkt (0, TV 0 0) n (0, []) (0, 0) (0, 0) (0, []) (0, []) (0, 0) (0, 0) (0, 0) (0, 0).
Definition frames : list frame := [with_fcs (repeat 7 20 ++ repeat 0 26); with_fcs (repeat 9 100)].

Lemma carried pld : Forall is_byte pld -> carries (reported (with_fcs pld)) (with_fcs pld).
Proof.
  intros H. split; try done. apply Forall_app. split; [exact H|apply to_le_bytes].
Qed.

Lemma fcs_check_correct_witness :
  wp ample (out ← examine_out [sent 20; sent 100]; examine_in crc true true out (map reported frames)) tt (fun r _ => match r with
    | Val _ => [20; 100] <> [] /\ Forall2 (right crc true true) [20; 100] frames
    | Exc (VERDICT _) => length [20; 100] = length frames /\ ~ Forall2 (right crc true true) [20; 100] frames
    | Exc (FAIL _) => [20; 100] = [] \/ length [20; 100] <> length frames
    | _ => False
    end).
Proof.
  apply (fcs_check_correct crc true (fun l => u32_range _) true [sent 20; sent 100] [20; 100] (map reported frames) frames).
  - repeat constructor; discriminate.
  - constructor; [|constructor; [|constructor]]; apply carried; cbn [repeat app];
      repeat (constructor; [split; [discriminate|reflexivity]|]); constructor.
Defined.

(** They are right. *)
Lemma frames_right : Forall2 (right crc true true) [20; 100] frames.
Proof.
  constructor; [|constructor; [|constructor]]; eexists; (split; [reflexivity|vm_compute; reflexivity]).
Qed.
End FcsWitness.
