(* ===== verification/Mtu.v ===== *)
(** basic/mtu_udp.c and basic/mtu_tcp.c: what the two tests share, the choice of
    data sizes around the MTU and of the direction of traffic. *)
From S2P Require Import Prelude Prog Te Locals NetDrvTs Resources RxCommon Holding Double.

(** Data sizes in terms of MTU. *)
Inductive pkt_size := PKT_SIZE_LESS | PKT_SIZE_EQUAL | PKT_SIZE_MORE.

Definition MAX_LEN_MULTIPLIER : double := d_lit 3 2.

(** [min_size] and [max_size]; [least] is the size mtu_udp.c and mtu_tcp.c begin
    with: zero and one. *)
Definition mtu_sizes (least mtu_pld_size : Z) (size : pkt_size) : M (Z * Z) :=
  '(min_size, max_size) ←
    match size with
    | PKT_SIZE_LESS => mret (least, mtu_pld_size - 1)
    | PKT_SIZE_EQUAL => mret (mtu_pld_size, mtu_pld_size)
    | PKT_SIZE_MORE =>
        match d_trunc (d_mul (d_of_Z mtu_pld_size) MAX_LEN_MULTIPLIER) with
        | Some max_size => mret (mtu_pld_size + 1, max_size)
        | None => undef "conversion to int of a double that does not fit"
        end
    end;
  if max_size <? min_size then TEST_FAIL "Failed to choose constraints on data size correctly" []
  else mret (min_size, max_size).

(** Who sends, and how the CSAP on Tester sees it. *)
Record direction := Direction {
  di_sender : rcf_rpc_server; di_sender_s : Z; di_receiver : rcf_rpc_server; di_receiver_s : Z;
  di_mode : eth_recv_mode; di_local_mac : list Z; di_remote_mac : list Z;
  di_local_ip : sockaddr; di_remote_ip : sockaddr }.

Section direction.
Context {TE : Te}.
Context (iut tst : rcf_rpc_server) (iut_addr tst_addr : sockaddr) (iut_lladdr tst_lladdr : list Z).

Definition mtu_direction (tx : bool) (iut_s tst_s : Z) : direction :=
  if tx then Direction iut iut_s tst tst_s TAD_ETH_RECV_HOST tst_lladdr iut_lladdr tst_addr iut_addr
  else Direction tst tst_s iut iut_s TAD_ETH_RECV_OUT iut_lladdr tst_lladdr iut_addr tst_addr.
(** The CSAP is destroyed whether or not it was created. *)
Definition mtu_cleanup (l : end_locals) : M bool :=
  also (cleanup_close iut (en_iut_s l))
 (also (cleanup_close tst (en_tst_s l))
       (cleanup_rc (call (tapi_tad_csap_destroy (rpcs_ta tst) (en_csap l))))).

End direction.

(** The sizes chosen are in order, and on the right side of the MTU. *)
Lemma mtu_sizes_spec least n size : 0 <= least <= 1 -> 1 < n -> 3 * n < 2 ^ 31 ->
  exists lo hi, mtu_sizes least n size = mret (lo, hi) /\ 0 <= lo <= hi /\
    match size with
    | PKT_SIZE_LESS => hi < n
    | PKT_SIZE_EQUAL => lo = n /\ hi = n
    | PKT_SIZE_MORE => n < lo /\ 2 * hi <= 3 * n
    end.
Proof.
  intros Hl Hn Hb. destruct size; unfold mtu_sizes.
  - exists least, (n - 1). cbn. rewrite (proj2 (Z.ltb_ge (n - 1) least)) by lia. split; [done|lia].
  - exists n, n. cbn. rewrite Z.ltb_irrefl. split; [done|lia].
  - unfold MAX_LEN_MULTIPLIER. rewrite d_trunc_three_halves by lia. exists (n + 1), (3 * n / 2). cbn -[Z.div Z.mul].
    pose proof (Z.mul_div_le (3 * n) 2 ltac:(lia)). pose proof (Z.mul_succ_div_gt (3 * n) 2 ltac:(lia)).
    rewrite (proj2 (Z.ltb_ge (3 * n / 2) (n + 1))) by lia. split; [done|lia].
Qed.

Section shared.
Context {TE : Te} (iut tst : rcf_rpc_server).

Lemma set_mtu_free ta ifn mtu where_ : only handle_free any_jump (net_drv_set_mtu ta ifn mtu where_).
Proof. unfold net_drv_set_mtu, net_drv_wait_up_gen. solve_only. Qed.

Lemma mtu_cleanup_wp l g : en_holds iut tst (rpcs_ta tst) l g ->
  wp h_world (mtu_cleanup iut tst l) g (fun r g' => match r with Val _ => gave_back g' | _ => False end).
Proof.
  intros [Hs Hc]. unfold mtu_cleanup, also. wp_step.
  eapply close_held; [exact Hs|]. intros b1 g1 Hs1 E1. cbn [bpost]. do 2 wp_step.
  eapply close_held; [by rewrite app_nil_r|]. intros b2 g2 Hs2 E2. cbn [bpost]. wp_step.
  eapply csap_dropped; [rewrite E2, E1; exact Hc|]. intros b3 g3 Hc3 E3. wp_go.
  apply submseteq_nil_r in Hs2. split; [congruence|done].
Qed.
End shared.
