(* ===== verification/MtuUdp.v ===== *)
(** basic/mtu_udp.c: IP packets captured while datagrams around the MTU are
    sent. *)
From S2P Require Import Prelude Prog Te Locals NetDrvTs Resources RxCommon Holding Mtu.

(** [cb_args]. *)
Record udp_args := UdpArgs {
  ua_ipv4 : bool; ua_max_pld_size : Z; ua_max_frag_size : Z;
  ua_pkts_num : Z; ua_first_small_pkt : Z; ua_too_big_pkt : bool; ua_failed : bool }.
Definition ua_set_num (n : Z) (a : udp_args) : udp_args :=
  UdpArgs (ua_ipv4 a) (ua_max_pld_size a) (ua_max_frag_size a) n (ua_first_small_pkt a) (ua_too_big_pkt a) (ua_failed a).
Definition ua_set_small (n : Z) (a : udp_args) : udp_args :=
  UdpArgs (ua_ipv4 a) (ua_max_pld_size a) (ua_max_frag_size a) (ua_pkts_num a) n (ua_too_big_pkt a) (ua_failed a).
Definition ua_set_too_big (a : udp_args) : udp_args :=
  UdpArgs (ua_ipv4 a) (ua_max_pld_size a) (ua_max_frag_size a) (ua_pkts_num a) (ua_first_small_pkt a) true (ua_failed a).
Definition ua_set_failed (a : udp_args) : udp_args :=
  UdpArgs (ua_ipv4 a) (ua_max_pld_size a) (ua_max_frag_size a) (ua_pkts_num a) (ua_first_small_pkt a) (ua_too_big_pkt a) true.

Section mtu_udp.
Context {TE : Te}.

(** What is made of a packet of [pld_len] bytes. *)
Definition note_size (pld_len : Z) (args : udp_args) : udp_args :=
  if pld_len <? ua_max_pld_size args then
    if (0 <? ua_max_frag_size args) && (pld_len =? ua_max_frag_size args) then args
    else if ua_first_small_pkt args <? 0 then ua_set_small (ua_pkts_num args) args else args
  else if ua_max_pld_size args <? pld_len then ua_set_too_big args
  else args.

(** [pld_len] and [next_hdr] are set by the readers only when these succeed. *)
Definition process_eth (pkt : tad_pkt) (args : udp_args) : M udp_args :=
  let args := if ua_pkts_num args =? 0 then ua_set_small (-1) args else args in
  let args := ua_set_num (ua_pkts_num args + 1) args in
  if ua_ipv4 args then
    let '(rc, pld_len) := pk_ip4_len pkt in
    mret (if negb (rc =? 0) then ua_set_failed args else note_size pld_len args)
  else
    let '(rc, pld_len) := pk_ip6_len pkt in
    if negb (rc =? 0) then undef "pld_len is added to before it is set" else
    let pld_len := pld_len + TAD_IP6_HDR_LEN in
    let '(rc, next_hdr) := pk_ip6_next pkt in
    if negb (rc =? 0) then undef "next_hdr is compared before it is set" else
    mret (if next_hdr =? IPPROTO_ICMPV6 then ua_set_num (ua_pkts_num args - 1) args else note_size pld_len args).

(** What the test says of the packets captured. *)
Definition udp_examine (pkts : list tad_pkt) (args : udp_args) : M udp_args :=
  args ← for_pkts process_eth pkts (ua_set_num 0 args);
  if ua_failed args then TEST_FAIL "Failed to process captured packets on Tester" []
  else if ua_pkts_num args =? 0 then TEST_FAIL "Failed to capture any packets on Tester" []
  else if ua_too_big_pkt args then TEST_VERDICT "A bigger-than-MTU packet was captured" []
  else if (0 <=? ua_first_small_pkt args) && negb (ua_first_small_pkt args =? ua_pkts_num args) then
    TEST_VERDICT "The first smaller-than-MTU packet was not the last one" []
  else mret args.

Section test.
Context (iut tst : rcf_rpc_server) (iut_if tst_if : string) (iut_addr tst_addr : sockaddr).
Context (iut_lladdr tst_lladdr : list Z) (tx : bool) (mtu : Z) (size : pkt_size) (sends_num : Z).

Definition udp_exchange (d : direction) (min_size max_size : Z) : M unit :=
  send_len ← call (rand_range min_size max_size);
  send_buf ← call (te_fill_buf send_len);
  '(rc, err) ← call (rpc_send (di_sender d) (di_sender_s d) send_buf);
  if rc <? 0 then TEST_VERDICT "Failed to send data from %s, errno is %r" [AS (rpcs_name (di_sender d)); AI err] else
  readable ← call (rpc_readability (di_receiver d) (di_receiver_s d) TAPI_WAIT_NETWORK_DELAY);
  if negb readable then TEST_VERDICT "Receiving socket did not become readable" [] else
  '(rc, recv_buf, err) ← call (rpc_recv (di_receiver d) (di_receiver_s d) max_size);
  if rc <? 0 then TEST_VERDICT "Failed to receive a packet on %s: " [AS (rpcs_name (di_receiver d)); AI err]
  else if negb (rc =? send_len) || negb (mem_eq send_buf recv_buf send_len) then
    TEST_VERDICT "Unexpected data was received" []
  else mret tt.

(** One pass of the loop. *)
Definition udp_pass (d : direction) (csap min_size max_size _ : Z) (args : udp_args) : M (ctl udp_args Empty_set) :=
  _ ← udp_exchange d min_size max_size;
  pkts ← CHECK_OUT (call (tapi_tad_trrecv_get (rpcs_ta tst) csap));
  args ← udp_examine pkts args;
  mret (Continue args).

Definition l3_hdr_size : Z := if sa_family iut_addr =? AF_INET6 then TAD_IP6_HDR_LEN else TAD_IP4_HDR_LEN.

(** [args] before the loop: all zero but the input arguments. *)
Definition udp_args_init : udp_args :=
  UdpArgs (sa_family iut_addr =? AF_INET) mtu
    (match size with
     | PKT_SIZE_MORE => ((mtu - l3_hdr_size) ÷ 8) * 8 + l3_hdr_size
     | _ => 0
     end) 0 0 false false.

Definition mtu_udp_body : T end_locals unit :=
  _ ← lift (net_drv_set_mtu (rpcs_ta iut) iut_if mtu "IUT");
  _ ← lift (net_drv_set_mtu (rpcs_ta tst) tst_if mtu "Tester");
  _ ← lift (call CFG_WAIT_CHANGES);
  '(iut_s, tst_s) ← lift (CHECK_OUT (call (GEN_CONNECTION iut tst RPC_SOCK_DGRAM iut_addr tst_addr)));
  _ ← modify (en_set_socks iut_s tst_s);
  let mtu_pld_size := mtu - l3_hdr_size - TAD_UDP_HDR_LEN in
  _ ← lift (when (mtu_pld_size <=? 1) (TEST_FAIL "MTU is too small" []));
  let d := mtu_direction iut tst iut_addr tst_addr iut_lladdr tst_lladdr tx iut_s tst_s in
  '(min_size, max_size) ← lift (mtu_sizes 0 mtu_pld_size size);
  csap ← lift (CHECK_OUT (call (tapi_ip_eth_csap_create (rpcs_ta tst) tst_if (di_mode d) (di_local_mac d)
           (di_remote_mac d) (sa_family (di_remote_ip d)) (sa_netaddr (di_local_ip d)) (sa_netaddr (di_remote_ip d)))));
  _ ← modify (en_set_csap csap);
  _ ← lift (CHECK_RC (call (tapi_tad_trrecv_start (rpcs_ta tst) csap)));
  _ ← lift (for_n (Z.to_nat sends_num) 0 udp_args_init (udp_pass d csap min_size max_size));
  mret tt.

Definition mtu_udp_main : M status := test_main en_start mtu_udp_body (mtu_cleanup iut tst).
End test.
End mtu_udp.

(** ** What is said of a capture *)
Section examine.
Context {TE : Te} (ipv4 : bool) (mtu frag : Z).

(** What a captured packet is: an IP packet of some length, or one of ICMPv6. *)
Definition shows (pkt : tad_pkt) (o : option Z) : Prop :=
  if ipv4 then exists n, pk_ip4_len pkt = (0, n) /\ o = Some n
  else exists n h, pk_ip6_len pkt = (0, n) /\ pk_ip6_next pkt = (0, h) /\
    o = if h =? IPPROTO_ICMPV6 then None else Some (n + TAD_IP6_HDR_LEN).

(** As large as a packet or a fragment that is not the last one can be. *)
Definition full (n : Z) : Prop := n = mtu \/ (0 < frag /\ n = frag).

(** Arguments with which a pass of the loop begins. *)
Definition ready (a : udp_args) : Prop :=
  ua_ipv4 a = ipv4 /\ ua_max_pld_size a = mtu /\ ua_max_frag_size a = frag /\
  ua_too_big_pkt a = false /\ ua_failed a = false.

Definition is_small (n : Z) : bool := (n <? mtu) && negb ((0 <? frag) && (n =? frag)).

(** The number of the first small packet, [i] being the number of the first. *)
Fixpoint first_small (i : Z) (lens : list Z) : Z :=
  match lens with
  | [] => -1
  | n :: lens' => if is_small n then i else first_small (i + 1) lens'
  end.

Lemma first_small_snoc i lens n : 0 <= i ->
  first_small i (lens ++ [n]) =
    if first_small i lens <? 0 then (if is_small n then i + Z.of_nat (length lens) else -1) else first_small i lens.
Proof.
  revert i. induction lens as [|m lens IH]; intros i Hi; cbn [first_small app length].
  - cbn [Z.ltb Z.compare Z.of_nat]. destruct (is_small n); [lia|done].
  - destruct (is_small m); [by rewrite (proj2 (Z.ltb_ge i 0)) by lia|].
    rewrite IH by lia. destruct (_ <? 0); [|done]. destruct (is_small n); lia.
Qed.

(** It is not the last one when a packet before the last is small. *)
Lemma first_small_inner i lens : 0 < i ->
  (0 <=? first_small i lens) && negb (first_small i lens =? i - 1 + Z.of_nat (length lens)) =
  existsb is_small (removelast lens).
Proof.
  revert i. induction lens as [|m lens IH]; intros i Hi; [done|].
  destruct lens as [|m' lens].
  - cbn [first_small removelast existsb length]. destruct (is_small m); [|done].
    rewrite (proj2 (Z.eqb_eq _ _)) by lia. by rewrite andb_false_r.
  - change (removelast (m :: m' :: lens)) with (m :: removelast (m' :: lens)). cbn [existsb].
    change (first_small i (m :: m' :: lens)) with (if is_small m then i else first_small (i + 1) (m' :: lens)).
    destruct (is_small m); cbn [orb].
    + rewrite (proj2 (Z.leb_le 0 i)), (proj2 (Z.eqb_neq _ _)) by (cbn [length]; lia). done.
    + rewrite <- (IH (i + 1)) by lia. do 3 f_equal. cbn [length]. lia.
Qed.

(** What the callback keeps, of the packets so far. *)
Definition kept (lens : list Z) (a : udp_args) : Prop :=
  ua_ipv4 a = ipv4 /\ ua_max_pld_size a = mtu /\ ua_max_frag_size a = frag /\ ua_failed a = false /\
  ua_pkts_num a = Z.of_nat (length lens) /\ ua_too_big_pkt a = existsb (fun n => mtu <? n) lens /\
  (lens <> [] -> ua_first_small_pkt a = first_small 1 lens).

Lemma first_small_none i lens : 0 < i -> (first_small i lens <? 0) = true -> first_small i lens = -1.
Proof.
  revert i. induction lens as [|m lens IH]; intros i Hi; [done|]. cbn. destruct (is_small m); [lia|]. apply IH. lia.
Qed.

Lemma note_size_eq n k s b f :
  note_size n (UdpArgs ipv4 mtu frag k s b f) =
  UdpArgs ipv4 mtu frag k (if (s <? 0) && is_small n then k else s) (b || (mtu <? n)) f.
Proof.
  unfold note_size, is_small, ua_set_small, ua_set_too_big.
  cbn [ua_ipv4 ua_max_pld_size ua_max_frag_size ua_pkts_num ua_first_small_pkt ua_too_big_pkt ua_failed].
  destruct (Z.ltb_spec n mtu) as [L|L]; cbn [andb].
  - rewrite (proj2 (Z.ltb_ge mtu n)), orb_false_r by lia.
    destruct ((0 <? frag) && (n =? frag)), (s <? 0); done.
  - rewrite andb_false_r. by destruct (mtu <? n), b.
Qed.

Lemma process_eth_kept pkt o lens a : shows pkt o -> kept lens a ->
  exists a', process_eth pkt a = mret a' /\ kept (match o with Some n => lens ++ [n] | None => lens end) a'.
Proof.
  intros Hp (H4 & Hm & Hf & Hfl & Hn & Hb & Hs). unfold process_eth.
  set (k := Z.of_nat (length lens) + 1).
  assert (H1 : ua_set_num (ua_pkts_num (if ua_pkts_num a =? 0 then ua_set_small (-1) a else a) + 1)
                 (if ua_pkts_num a =? 0 then ua_set_small (-1) a else a) =
               UdpArgs ipv4 mtu frag k (first_small 1 lens) (existsb (fun n => mtu <? n) lens) false).
  { rewrite Hn. destruct a; cbn in *; subst. destruct lens as [|x lens]; [done|].
    rewrite (proj2 (Z.eqb_neq _ _)) by (cbn; lia). unfold ua_set_num. cbn -[first_small existsb]. by rewrite Hs by done. }
  rewrite H1. clear H1.
  assert (Hsize : forall n, kept (lens ++ [n])
            (note_size n (UdpArgs ipv4 mtu frag k (first_small 1 lens) (existsb (fun n => mtu <? n) lens) false))).
  { intros n. rewrite note_size_eq. unfold kept. rewrite existsb_app, length_app, first_small_snoc by lia.
    cbn -[first_small Z.add existsb]. repeat split; [lia|cbn; by rewrite orb_false_r|]. intros _.
    destruct (first_small 1 lens <? 0) eqn:E; cbn [andb]; [|done]. apply first_small_none in E; [|lia].
    rewrite E. destruct (is_small n); lia. }
  unfold shows in Hp. cbn [ua_ipv4]. destruct ipv4 eqn:Ei.
  - destruct Hp as (n & -> & ->). eexists. split; [reflexivity|]. apply Hsize.
  - destruct Hp as (n & h & -> & -> & ->). cbn [negb Z.eqb]. eexists. split; [reflexivity|].
    destruct (h =? IPPROTO_ICMPV6); [|apply Hsize]. unfold kept, ua_set_num. cbn -[first_small]. repeat split; [done|].
    unfold k. lia.
Qed.

Lemma process_all pkts os lens a : Forall2 shows pkts os -> kept lens a ->
  exists a', for_pkts process_eth pkts a = mret a' /\ kept (lens ++ omap id os) a'.
Proof.
  intros H. revert lens a. induction H as [|pkt o pkts os Hp _ IH]; intros lens a Hk.
  - exists a. split; [done|]. cbn. by rewrite app_nil_r.
  - destruct (process_eth_kept pkt o lens a Hp Hk) as (a1 & E1 & K1). cbn [for_pkts]. rewrite E1.
    cbn [mbind prog_bind mret prog_ret bind lift_result]. destruct (IH _ _ K1) as (a2 & E2 & K2). exists a2. split; [exact E2|].
    destruct o as [n|]; cbn [omap list_omap id]; [|exact K2]. by rewrite <- app_assoc in K2.
Qed.

Lemma small_inner lens : Forall (fun n => n <= mtu) lens ->
  existsb is_small (removelast lens) = false <-> Forall full (removelast lens).
Proof.
  intros Hle. assert (H : Forall (fun n => n <= mtu) (removelast lens)).
  { clear -Hle. induction Hle as [|x l Hx Hl IH]; [constructor|]. destruct l; [constructor|]. by constructor. }
  clear Hle. induction H as [|n l Hn _ IH]; [by cbn|]. cbn [existsb]. rewrite orb_false_iff, IH, Forall_cons.
  enough (is_small n = false <-> full n) as -> by done. unfold is_small, full.
  rewrite andb_false_iff, negb_false_iff, andb_true_iff, Z.ltb_ge, Z.ltb_lt, Z.eqb_eq. lia.
Qed.

(** C30. Whatever earlier passes left in the arguments, the packets captured during
    a pass are accepted exactly when there are any, none is larger than the MTU,
    and all but the last are as large as packets of this MTU (or, when datagrams
    are fragmented, its fragments) can be; packets of ICMPv6 do not count. *)
Theorem udp_examine_correct {S} (E : env te_call S) pkts os a s :
  ready a -> Forall2 shows pkts os ->
  let lens := omap id os in
  wp E (udp_examine pkts a) s (fun r _ => match r with
    | Val a' => ready a' /\ lens <> [] /\ Forall (fun n => n <= mtu) lens /\ Forall full (removelast lens)
    | Exc (FAIL _) => lens = []
    | Exc (VERDICT _) => ~ (Forall (fun n => n <= mtu) lens /\ Forall full (removelast lens))
    | _ => False
    end).
Proof.
  intros (H4 & Hm & Hf & Hb & Hfl) Hs lens. unfold udp_examine.
  destruct (process_all pkts os [] (ua_set_num 0 a) Hs) as (a' & -> & K4 & Km & Kf & Kfl & Kn & Kb & Ks); [done|].
  cbn [mbind prog_bind mret prog_ret bind lift_result]. cbn [app] in *. fold lens in Kn, Kb, Ks. rewrite Kfl, Kn.
  destruct (Z.eqb_spec (Z.of_nat (length lens)) 0) as [E0|E0]; [cbn; apply length_zero_iff_nil; lia|].
  assert (Hne : lens <> []) by (by intros ->). rewrite (Ks Hne), Kb.
  destruct (existsb (fun n => mtu <? n) lens) eqn:Ee; cbn [wp].
  { cbn. intros [Hle _]. apply existsb_exists in Ee as (n & Hin & Hn). rewrite <- list_elem_of_In in Hin.
    eapply Forall_forall in Hle; [|exact Hin]. cbn in Hle. lia. }
  assert (Hle : Forall (fun n => n <= mtu) lens).
  { apply Forall_forall. intros n Hn%list_elem_of_In. destruct (Z.le_gt_cases n mtu) as [|Hgt]; [done|].
    assert (existsb (fun n => mtu <? n) lens = true) by (apply existsb_exists; exists n; split; [done|lia]). congruence. }
  pose proof (first_small_inner 1 lens ltac:(lia)) as Hi. replace (1 - 1 + _) with (Z.of_nat (length lens)) in Hi by lia.
  rewrite Hi. pose proof (small_inner lens Hle) as Hsm. destruct (existsb is_small (removelast lens)); cbn.
  - intros [_ H]. by apply Hsm in H.
  - split; [done|]. split; [done|]. split; [done|]. by apply Hsm.
Qed.
End examine.

(** A packet of IPv6 whose next header cannot be read leads to an uninitialised
    value: the status of the second reader is not looked at. *)
Lemma unread_next_header {TE : Te} pkt a n rc h : ua_ipv4 a = false ->
  pk_ip6_len pkt = (0, n) -> pk_ip6_next pkt = (rc, h) -> rc <> 0 ->
  exists why, process_eth pkt a = undef why.
Proof.
  intros Ha Hl Hn Hrc. unfold process_eth.
  assert (E : ua_ipv4 (if ua_pkts_num a =? 0 then ua_set_small (-1) a else a) = false) by (by destruct (_ =? 0)).
  cbn [ua_ipv4 ua_set_num]. rewrite E, Hl, Hn. cbn [negb Z.eqb]. rewrite (proj2 (Z.eqb_neq rc 0)) by done. by eexists.
Qed.

(** ** What the test gives back *)
Section releases.
Context {TE : Te} (iut tst : rcf_rpc_server) (iut_if tst_if : string) (iut_addr tst_addr : sockaddr).
Context (iut_lladdr tst_lladdr : list Z) (tx : bool) (mtu : Z) (size : pkt_size) (sends_num : Z).

(** With IPv4 every field is read before it is used. *)
Lemma examine_free_ip4 pkts a : ua_ipv4 a = true ->
  only handle_free any_jump (udp_examine pkts a) /\
  forall {S} (E : env te_call S) s, wp E (udp_examine pkts a) s (on_val (fun a' _ => ua_ipv4 a' = true)).
Proof.
  intros Ha.
  assert (H : exists a', for_pkts process_eth pkts (ua_set_num 0 a) = mret a' /\ ua_ipv4 a' = true).
  { assert (Ha0 : ua_ipv4 (ua_set_num 0 a) = true) by done. revert Ha0. generalize (ua_set_num 0 a).
    induction pkts as [|p pkts IH]; intros b Hb; [by exists b|]. cbn [for_pkts].
    assert (exists b', process_eth p b = mret b' /\ ua_ipv4 b' = true) as (b' & -> & Hb').
    { unfold process_eth. set (c := if ua_pkts_num b =? 0 then _ else _).
      assert (Hc : ua_ipv4 c = true) by (unfold c; by destruct (_ =? 0)). clearbody c. cbn [ua_ipv4 ua_set_num]. rewrite Hc.
      destruct (pk_ip4_len p) as [rc n]. eexists. split; [reflexivity|]. destruct (negb _); [done|].
      unfold note_size. by repeat case_match. }
    by apply IH. }
  destruct H as (a' & E & Ha'). unfold udp_examine. rewrite E. cbn [mbind prog_bind mret prog_ret bind lift_result].
  split; [|intros S E' s]; repeat case_match; try done.
Qed.

Lemma udp_exchange_free d lo hi : only handle_free any_jump (udp_exchange d lo hi).
Proof. unfold udp_exchange. solve_only. Qed.

Lemma udp_pass_keeps d csap lo hi L n a g : ua_ipv4 a = true -> en_holds iut tst (rpcs_ta tst) L g ->
  wp h_world (for_n n 0 a (udp_pass tst d csap lo hi)) g
    (fun r g' => en_holds iut tst (rpcs_ta tst) L g' /\ match r with Undef _ => False | _ => True end).
Proof.
  intros Ha Hg. eapply (wp_for_n _ _ _ _ _ _ _ (fun _ a g => ua_ipv4 a = true /\ en_holds iut tst (rpcs_ta tst) L g));
    [done| |by intros ? ? [_ H]].
  clear Ha Hg a g. intros i a g _ [Ha Hg]. unfold udp_pass. wp_step.
  eapply wp_mono; [apply ends_free; [apply udp_exchange_free|exact Hg]|]. clear g Hg. intros [[]| | |] g [Hg Hr]; try done.
  cbn [bpost]. wp_step. eapply wp_mono; [apply ends_free; [solve_only|exact Hg]|].
  clear g Hg Hr. intros [pkts| | |] g [Hg Hr]; try done. cbn [bpost]. wp_step.
  destruct (examine_free_ip4 pkts a Ha) as [Hf Hv].
  assert (H : wp h_world (udp_examine pkts a) g (fun r g' => en_holds iut tst (rpcs_ta tst) L g' /\ match r with Undef _ => False | _ => True end))
    by (by apply ends_free).
  eapply wp_mono; [apply wp_and; [exact H|apply (Hv _ h_world)]|].
  clear g Hg Hr H. intros [a'| | |] g [[Hg Hr] Hv']; try done.
Qed.

(** With IPv4, however the test ends, it gives back its sockets and its CSAP,
    reads nothing before it is set and chooses its sizes well. *)
Lemma mtu_udp_releases init : sa_family iut_addr = AF_INET -> 3 * mtu < 2 ^ 31 ->
  wp h_world (mtu_udp_main iut tst iut_if tst_if iut_addr tst_addr iut_lladdr tst_lladdr tx mtu size sends_num)
    (clean init) (fun r g => match r with Val _ => gave_back g | NoFuel => True | _ => False end).
Proof.
  intros Haf Hb. unfold mtu_udp_main.
  eapply (test_main_keeps _ (fun L g => L = en_start /\ en_holds iut tst (rpcs_ta tst) L g) (en_holds iut tst (rpcs_ta tst)));
    [split; [done|apply ends_hold_nothing]| |intros L g Hg; by apply mtu_cleanup_wp].
  intros L g [-> Hg]. unfold mtu_udp_body.
  apply st_free; [apply set_mtu_free|done|]. clear g Hg. intros [] g Hg.
  apply st_free; [apply set_mtu_free|done|]. clear g Hg. intros [] g Hg.
  apply st_free; [solve_only|done|]. clear g Hg. intros [] g Hg.
  apply ends_connect; [done|]. clear g Hg. intros s1 s2 g Hg. apply st_modify.
  pose proof te_hdr_lens as (H4 & H6 & _ & H8). set (pld := mtu - _ - _).
  assert (Hpld : pld <= mtu) by (unfold pld, l3_hdr_size; destruct (_ =? _); lia).
  apply st_call. destruct (Z.leb_spec pld 1) as [Hp|Hp]; [exact Hg|]. cbn [when wp].
  set (d := mtu_direction _ _ _ _ _ _ _ _ _).
  destruct (mtu_sizes_spec 0 pld size) as (lo & hi & -> & _); [lia|lia|lia|].
  apply st_free; [done|done|]. clear g Hg. intros [lo2 hi2] g Hg. cbn beta iota.
  apply (ends_take_csap _ _ (rpcs_ta tst)); [done|by intros ? ?|done|done|]. clear g Hg. intros csap g Hg. apply st_modify.
  apply st_free; [solve_only|done|]. clear g Hg. intros _ g Hg.
  apply st_call. eapply wp_mono; [apply udp_pass_keeps; [|exact Hg]|].
  { unfold udp_args_init. cbn. by rewrite Haf, Z.eqb_refl. }
  clear g Hg. intros [r| | |] g [Hg Hr]; try done.
Qed.
End releases.

Module UdpWitness.
Local Existing Instance te_ref.

(** A datagram of three fragments, with an MTU of 512: fragments that are not
    the last one carry a multiple of eight bytes. *)
Definition pkt (n : Z) : tad_pkt :=
  TadPkt (0, TV 0 0) 0 (0, []) (0, 0) (0, 0) (0, []) (0, []) (0, 0) (0, n) (0, 0) (0, 0).
Definition args : udp_args := udp_args_init (SA AF_INET [10; 0; 0; 1] 0) 512 PKT_SIZE_MORE.

Lemma udp_examine_correct_witness :
  (ready true 512 508 args /\ Forall2 (shows true) (map pkt [508; 508; 100]) [Some 508; Some 508; Some 100]) /\
  wp (of_handler (fun X (c : te_call X) (s : unit) => (default_answer c, s))) (udp_examine (map pkt [508; 508; 100]) args) tt
    (fun r _ => match r with Val a' => ready true 512 508 a' | _ => False end).
Proof.
  assert (H1 : ready true 512 508 args) by (repeat split).
  assert (H2 : Forall2 (shows true) (map pkt [508; 508; 100]) [Some 508; Some 508; Some 100])
    by (repeat constructor; eexists; split; reflexivity).
  split; [split; [exact H1|exact H2]|].
  eapply wp_mono; [apply (udp_examine_correct true 512 508 _ _ _ args tt H1 H2)|].
  assert (Hok : Forall (fun n => n <= 512) [508; 508; 100] /\ Forall (full 512 508) [508; 508]).
  { split; repeat constructor; lia. }
  intros [a|[]| |] s H; try exact H; [apply H|discriminate H|exact (H Hok)].
Defined.
End UdpWitness.
