(* ===== verification/MtuTcp.v ===== *)
(** basic/mtu_tcp.c: TCP segments captured while data is sent in pieces around
    the MSS. *)
From S2P Require Import Prelude Prog Te Locals NetDrvTs Resources RxCommon Holding Mtu.

Definition MAX_MAXSEG_DIFF : Z := 200.

(** [cb_args]. *)
Record tcp_args := TcpArgs {
  tc_max_pld_size : Z; tc_pkts_num : Z; tc_first_small : Z; tc_last_seqn : Z; tc_too_big_pkt : bool; tc_failed : bool }.
Definition tc_set_num (n : Z) (a : tcp_args) : tcp_args :=
  TcpArgs (tc_max_pld_size a) n (tc_first_small a) (tc_last_seqn a) (tc_too_big_pkt a) (tc_failed a).
Definition tc_set_small (n : Z) (a : tcp_args) : tcp_args :=
  TcpArgs (tc_max_pld_size a) (tc_pkts_num a) n (tc_last_seqn a) (tc_too_big_pkt a) (tc_failed a).
Definition tc_set_last (n : Z) (a : tcp_args) : tcp_args :=
  TcpArgs (tc_max_pld_size a) (tc_pkts_num a) (tc_first_small a) n (tc_too_big_pkt a) (tc_failed a).
Definition tc_set_too_big (a : tcp_args) : tcp_args :=
  TcpArgs (tc_max_pld_size a) (tc_pkts_num a) (tc_first_small a) (tc_last_seqn a) true (tc_failed a).
Definition tc_set_failed (a : tcp_args) : tcp_args :=
  TcpArgs (tc_max_pld_size a) (tc_pkts_num a) (tc_first_small a) (tc_last_seqn a) (tc_too_big_pkt a) true.

Section mtu_tcp.
Context {TE : Te}.

(** TAPI's comparison of sequence numbers; its arguments are [uint32_t]. *)
Context (tapi_tcp_compare_seqn : Z -> Z -> Z).

Definition process_tcp (args : tcp_args) (pkt : tad_pkt) : tcp_args :=
  let args := if tc_pkts_num args =? 0 then tc_set_small (-1) args else args in
  let args := tc_set_num (tc_pkts_num args + 1) args in
  let '(rc, pld_len) := pk_pld_len pkt in
  if negb (rc =? 0) then tc_set_failed args else
  let '(rc, seqn) := pk_seqn pkt in
  if negb (rc =? 0) then tc_set_failed args else
  let args := if (tc_pkts_num args =? 1) || (tapi_tcp_compare_seqn (u32 (tc_last_seqn args)) seqn <? 0)
              then tc_set_last seqn args else args in
  if s32 pld_len <? tc_max_pld_size args then
    if (tc_first_small args <? 0) || (tapi_tcp_compare_seqn seqn (u32 (tc_first_small args)) <? 0)
    then tc_set_small seqn args else args
  else if tc_max_pld_size args <? s32 pld_len then tc_set_too_big args
  else args.

(** What the test says of the packets captured. *)
Definition tcp_examine (pkts : list tad_pkt) (args : tcp_args) : M tcp_args :=
  let args := fold_left process_tcp pkts (tc_set_num 0 args) in
  if tc_failed args then TEST_FAIL "Failed to process captured packets on Tester" []
  else if tc_pkts_num args =? 0 then TEST_FAIL "Failed to capture any packets on Tester" []
  else if tc_too_big_pkt args then TEST_VERDICT "A bigger-than-MTU packet was captured" []
  else if (0 <=? tc_first_small args) && negb (tc_first_small args =? tc_last_seqn args) then
    TEST_VERDICT "The first smaller-than-MTU packet was not the last one" []
  else mret args.

Section test.
Context (iut tst : rcf_rpc_server) (iut_if tst_if : string) (iut_addr tst_addr : sockaddr).
Context (iut_lladdr tst_lladdr : list Z) (tx tso_on gso_on : bool) (mtu : Z) (size : pkt_size) (sends_num : Z).

Definition tso_feature : string :=
  if sa_family iut_addr =? AF_INET then "tx-tcp-segmentation" else "tx-tcp6-segmentation".

(** Offloads and MTU on both sides. *)
Definition mtu_tcp_setup : M unit :=
  _ ← (if tx then
         _ ← net_drv_set_if_feature (rpcs_ta tst) tst_if "rx-lro" 0;
         _ ← net_drv_set_if_feature (rpcs_ta tst) tst_if "rx-gro" 0;
         net_drv_set_if_feature (rpcs_ta tst) tst_if "rx-gro-hw" 0
       else net_drv_set_if_feature (rpcs_ta tst) tst_if tso_feature 0);
  _ ← net_drv_set_mtu (rpcs_ta iut) iut_if mtu "IUT";
  _ ← net_drv_set_mtu (rpcs_ta tst) tst_if mtu "Tester";
  _ ← net_drv_set_if_feature (rpcs_ta iut) iut_if "tx-generic-segmentation" (if gso_on then 1 else 0);
  _ ← net_drv_set_if_feature (rpcs_ta iut) iut_if tso_feature (if tso_on then 1 else 0);
  call CFG_WAIT_CHANGES.

(** The MSS the stack reports, if it is plausible. *)
Definition read_maxseg (iut_s : Z) : M Z :=
  '(rc, tcp_maxseg, _) ← call (rpc_getsockopt iut iut_s RPC_TCP_MAXSEG);
  if rc <? 0 then raise RPC_FAILED
  else if mtu <? tcp_maxseg then TEST_VERDICT "Reported TCP_MAXSEG is too big" []
  else if tcp_maxseg <? mtu - MAX_MAXSEG_DIFF then TEST_VERDICT "Reported TCP_MAXSEG is too small" []
  else mret tcp_maxseg.

Definition tcp_exchange (d : direction) (min_size max_size : Z) : M unit :=
  send_len ← call (rand_range min_size max_size);
  send_buf ← call (te_fill_buf send_len);
  '(rc, err) ← call (rpc_send (di_sender d) (di_sender_s d) send_buf);
  if rc <? 0 then TEST_VERDICT "Failed to send data from %s, errno is %r" [AS (rpcs_name (di_sender d)); AI err] else
  readable ← call (rpc_readability (di_receiver d) (di_receiver_s d) TAPI_WAIT_NETWORK_DELAY);
  if negb readable then TEST_VERDICT "Receiving socket did not become readable" [] else
  '(rc, recv_dbuf, err) ← call (rpc_read_fd2te_dbuf (di_receiver d) (di_receiver_s d) TAPI_WAIT_NETWORK_DELAY send_len);
  if rc <? 0 then TEST_VERDICT "Failed to receive a packet on %s: " [AS (rpcs_name (di_receiver d)); AI err]
  else if negb (Z.of_nat (length recv_dbuf) =? send_len) || negb (mem_eq send_buf recv_dbuf send_len) then
    TEST_VERDICT "Unexpected data was received" []
  else mret tt.

(** One pass of the loop. *)
Definition tcp_pass (d : direction) (csap min_size max_size _ : Z) (args : tcp_args) : M (ctl tcp_args Empty_set) :=
  _ ← tcp_exchange d min_size max_size;
  pkts ← CHECK_OUT (call (tapi_tad_trrecv_get (rpcs_ta tst) csap));
  args ← tcp_examine pkts args;
  mret (Continue args).

Definition mtu_tcp_body : T end_locals unit :=
  _ ← lift mtu_tcp_setup;
  '(iut_s, tst_s) ← lift (CHECK_OUT (call (GEN_CONNECTION iut tst RPC_SOCK_STREAM iut_addr tst_addr)));
  _ ← modify (en_set_socks iut_s tst_s);
  tcp_maxseg ← lift (read_maxseg iut_s);
  let d := mtu_direction iut tst iut_addr tst_addr iut_lladdr tst_lladdr tx iut_s tst_s in
  _ ← lift (rpc_ok (rpc_setsockopt_int (di_sender d) (di_sender_s d) RPC_TCP_NODELAY 1));
  '(min_size, max_size) ← lift (mtu_sizes 1 tcp_maxseg size);
  _ ← lift (CHECK_RC (call (te_dbuf_expand max_size)));
  csap ← lift (CHECK_OUT (call (tapi_tcp_ip_eth_csap_create (rpcs_ta tst) tst_if (di_mode d)
           (Some (di_local_mac d, di_remote_mac d)) (sa_family iut_addr) (di_local_ip d) (di_remote_ip d))));
  _ ← modify (en_set_csap csap);
  _ ← lift (CHECK_RC (call (tapi_tad_trrecv_start (rpcs_ta tst) csap)));
  _ ← lift (for_n (Z.to_nat sends_num) 0 (TcpArgs tcp_maxseg 0 0 0 false false) (tcp_pass d csap min_size max_size));
  mret tt.

Definition mtu_tcp_main : M status := test_main en_start mtu_tcp_body (mtu_cleanup iut tst).
End test.
End mtu_tcp.

(** ** What is said of a capture *)
Section examine.
Context {TE : Te} (compare : Z -> Z -> Z).

(** Documented behaviour of TAPI's comparison. *)
Hypothesis compare_ok : forall a b, - 2 ^ 31 < a - b < 2 ^ 31 ->
  Z.sgn (compare (u32 a) (u32 b)) = Z.sgn (a - b).

(** The stream begins at sequence number [base]; a packet is the position of
    its first byte and its length, within half of the sequence space. *)
Context (base mss : Z).
Local Abbreviation packet := (Z * Z)%type.
Definition seen_as (pkt : tad_pkt) (s : packet) : Prop :=
  pk_pld_len pkt = (0, s.2) /\ pk_seqn pkt = (0, u32 (base + s.1)) /\ 0 <= s.1 < 2 ^ 31 /\ 0 <= s.2 < 2 ^ 31.

(** Arguments with which a pass of the loop begins. *)
Definition tcp_ready (a : tcp_args) : Prop :=
  tc_max_pld_size a = mss /\ tc_too_big_pkt a = false /\ tc_failed a = false.

(** The highest position, and the lowest one of a short packet. *)
Definition top (l : list packet) : Z := fold_left (fun m s => Z.max m s.1) l 0.
Definition low_small (l : list packet) : option Z :=
  fold_left (fun o s => if s.2 <? mss then Some (match o with Some q => Z.min q s.1 | None => s.1 end) else o) l None.

Lemma top_spec l s : s ∈ l -> s.1 <= top l.
Proof.
  unfold top. induction l as [|x l IH] using rev_ind; [by intros ?%elem_of_nil|].
  rewrite fold_left_app. cbn [fold_left]. intros [H|H%list_elem_of_singleton]%elem_of_app; [apply IH in H; lia|subst; lia].
Qed.

Lemma low_small_spec l :
  match low_small l with
  | Some q => (exists s, s ∈ l /\ s.2 < mss /\ s.1 = q) /\ forall s, s ∈ l -> s.2 < mss -> q <= s.1
  | None => forall s, s ∈ l -> ~ s.2 < mss
  end.
Proof.
  unfold low_small. induction l as [|x l IH] using rev_ind; [by intros s ?%elem_of_nil|].
  rewrite fold_left_app. cbn [fold_left]. set (o := fold_left _ l None) in *. destruct (Z.ltb_spec x.2 mss) as [Hx|Hx].
  - destruct o as [q|].
    + destruct IH as [(s & Hs & H1 & H2) Hq]. split.
      * destruct (Z.le_ge_cases q x.1) as [L|L]; [exists s|exists x]; rewrite elem_of_app, list_elem_of_singleton; split_all; try lia; auto.
      * intros t [Ht|Ht%list_elem_of_singleton]%elem_of_app Hsm; [specialize (Hq t Ht Hsm); lia|subst; lia].
    + split; [exists x; rewrite elem_of_app, list_elem_of_singleton; auto|].
      intros t [Ht|Ht%list_elem_of_singleton]%elem_of_app Hsm; [by apply IH in Hsm|subst; lia].
  - destruct o as [q|].
    + destruct IH as [(s & Hs & H1 & H2) Hq]. split; [exists s; rewrite elem_of_app; auto|].
      intros t [Ht|Ht%list_elem_of_singleton]%elem_of_app Hsm; [auto|subst; lia].
    + intros t [Ht|Ht%list_elem_of_singleton]%elem_of_app; [auto|subst; lia].
Qed.

(** What the callback keeps, of the packets so far. *)
Definition tcp_kept (l : list packet) (a : tcp_args) : Prop :=
  tc_max_pld_size a = mss /\ tc_failed a = false /\ tc_pkts_num a = Z.of_nat (length l) /\
  tc_too_big_pkt a = existsb (fun s => mss <? s.2) l /\
  (l <> [] -> tc_last_seqn a = u32 (base + top l) /\
     tc_first_small a = match low_small l with Some q => u32 (base + q) | None => -1 end).

Definition in_half (l : list packet) : Prop := Forall (fun s : packet => 0 <= s.1 < 2 ^ 31) l.

Lemma top_half l : in_half l -> 0 <= top l < 2 ^ 31.
Proof.
  unfold top. induction l as [|x l IH] using rev_ind; [done|]. unfold in_half. rewrite Forall_app, Forall_singleton.
  intros [H1 H2]. specialize (IH H1). rewrite fold_left_app. cbn [fold_left]. lia.
Qed.

Lemma low_half l q : in_half l -> low_small l = Some q -> 0 <= q < 2 ^ 31.
Proof.
  intros Hl E. pose proof (low_small_spec l) as H. rewrite E in H. destruct H as [(s & Hs & _ & <-) _].
  by eapply Forall_forall in Hl.
Qed.

Lemma compare_neg a b : - 2 ^ 31 < a - b < 2 ^ 31 -> (compare (u32 a) (u32 b) <? 0) = (a <? b).
Proof. intros H. apply compare_ok in H. destruct (Z.ltb_spec a b), (Z.ltb_spec (compare (u32 a) (u32 b)) 0); lia. Qed.

Lemma u32_u32 z : u32 (u32 z) = u32 z.
Proof. apply u32_id, u32_range. Qed.

Lemma process_tcp_kept pkt s l a : in_half l -> seen_as pkt s -> tcp_kept l a ->
  tcp_kept (l ++ [s]) (process_tcp compare a pkt).
Proof.
  intros Hl (Hpl & Hsq & Hs1 & Hs2) (Hm & Hf & Hn & Hb & Hlast). unfold process_tcp. rewrite Hpl, Hsq. cbn [negb Z.eqb].
  rewrite s32_id by lia.
  pose proof (top_half l Hl) as Ht.
  set (fs := match low_small l with Some q => u32 (base + q) | None => -1 end) in *.
  set (ls := match l with [] => tc_last_seqn a | _ => u32 (base + top l) end).
  set (k := Z.of_nat (length l) + 1).
  assert (H1 : tc_set_num (tc_pkts_num (if tc_pkts_num a =? 0 then tc_set_small (-1) a else a) + 1)
                 (if tc_pkts_num a =? 0 then tc_set_small (-1) a else a) =
               TcpArgs mss k fs ls (existsb (fun s => mss <? s.2) l) false).
  { rewrite Hn. destruct a; cbn in *; subst. destruct l as [|x l]; [done|].
    rewrite (proj2 (Z.eqb_neq _ _)) by (cbn; lia). destruct Hlast as [-> ->]; done. }
  rewrite H1. cbn [tc_pkts_num tc_last_seqn].
  assert (H2 : (if (k =? 1) || (compare (u32 ls) (u32 (base + s.1)) <? 0)
                then tc_set_last (u32 (base + s.1)) (TcpArgs mss k fs ls (existsb (fun s => mss <? s.2) l) false)
                else TcpArgs mss k fs ls (existsb (fun s => mss <? s.2) l) false) =
               TcpArgs mss k fs (u32 (base + top (l ++ [s]))) (existsb (fun s => mss <? s.2) l) false).
  { unfold top, ls, k. rewrite fold_left_app. cbn [fold_left]. fold (top l). destruct l as [|x l'].
    - cbn. unfold tc_set_last. cbn. do 3 f_equal. lia.
    - rewrite (proj2 (Z.eqb_neq _ 1)) by (cbn [length]; lia). cbn [orb]. rewrite u32_u32, compare_neg by lia.
      unfold tc_set_last. cbn [tc_max_pld_size tc_pkts_num tc_first_small tc_too_big_pkt tc_failed].
      destruct (Z.ltb_spec (base + top (x :: l')) (base + s.1)); do 3 f_equal; lia. }
  rewrite H2. clear H1 H2. cbn [tc_max_pld_size tc_first_small].
  unfold tcp_kept. rewrite existsb_app, length_app. cbn [existsb length]. rewrite orb_false_r.
  assert (Hlow : low_small (l ++ [s]) = if s.2 <? mss then Some (match low_small l with Some q => Z.min q s.1 | None => s.1 end) else low_small l).
  { unfold low_small. by rewrite fold_left_app. }
  rewrite Hlow. destruct (Z.ltb_spec s.2 mss) as [Hsm|Hsm].
  - rewrite (proj2 (Z.ltb_ge mss s.2)), orb_false_r by lia. subst fs. destruct (low_small l) as [q|] eqn:Eq.
    + pose proof (low_half l q Hl Eq). pose proof (u32_range (base + q)).
      rewrite (proj2 (Z.ltb_ge (u32 (base + q)) 0)) by lia. cbn [orb]. rewrite u32_u32, compare_neg by lia.
      destruct (Z.ltb_spec (base + s.1) (base + q)); unfold tc_set_small; cbn -[Z.add existsb top]; split_all; try done; try (unfold k; lia).
      all: intros _; split; [done|]; do 2 f_equal; lia.
    + cbn. split_all; try done. unfold k. lia.
  - destruct (Z.ltb_spec mss s.2); cbn -[Z.add existsb top]; rewrite ?orb_true_r, ?orb_false_r; split_all; try done; unfold k; lia.
Qed.

Lemma tcp_all_kept pkts segs l a : in_half l -> Forall2 seen_as pkts segs -> tcp_kept l a ->
  in_half (l ++ segs) /\ tcp_kept (l ++ segs) (fold_left (process_tcp compare) pkts a).
Proof.
  intros Hl H. revert l a Hl. induction H as [|pkt s pkts segs Hp _ IH]; intros l a Hl Hk.
  - by rewrite app_nil_r.
  - assert (Hl2 : in_half (l ++ [s])).
    { unfold in_half. rewrite Forall_app, Forall_singleton. split; [exact Hl|]. destruct Hp as (_ & _ & H1 & _). exact H1. }
    cbn [fold_left]. destruct (IH _ _ Hl2 (process_tcp_kept pkt s l a Hl Hp Hk)) as [H1 H2].
    by rewrite <- app_assoc in H1, H2.
Qed.

Lemma u32_same_half a b : 0 <= a < 2 ^ 31 -> 0 <= b < 2 ^ 31 -> (u32 (base + a) =? u32 (base + b)) = (a =? b).
Proof.
  intros Ha Hb. destruct (Z.eqb_spec a b) as [->|Hne]; [apply Z.eqb_refl|]. apply Z.eqb_neq. intros E.
  pose proof (compare_neg (base + a) (base + b) ltac:(lia)) as H1. pose proof (compare_neg (base + b) (base + a) ltac:(lia)) as H2.
  rewrite E in H1, H2. rewrite H2 in H1. destruct (Z.ltb_spec (base + b) (base + a)), (Z.ltb_spec (base + a) (base + b)); lia.
Qed.

(** Whatever earlier passes left in the arguments, the segments captured during
    a pass are accepted exactly when there are any, none carries more than the
    MSS, and every one that carries less begins where the last one captured
    begins; the 32-bit sequence numbers may wrap in between. *)
Theorem tcp_examine_correct {S} (E : env te_call S) pkts segs a s :
  tcp_ready a -> Forall2 seen_as pkts segs ->
  wp E (tcp_examine compare pkts a) s (fun r _ => match r with
    | Val a' => tcp_ready a' /\ segs <> [] /\ Forall (fun x => x.2 <= mss /\ (x.2 < mss -> x.1 = top segs)) segs
    | Exc (FAIL _) => segs = []
    | Exc (VERDICT _) => ~ Forall (fun x => x.2 <= mss /\ (x.2 < mss -> x.1 = top segs)) segs
    | _ => False
    end).
Proof.
  intros (Hm & Hb & Hf) Hs. unfold tcp_examine.
  destruct (tcp_all_kept pkts segs [] (tc_set_num 0 a)) as [Hh (Km & Kf & Kn & Kb & Kl)]; [constructor|done|done|].
  cbn [app] in *. set (a' := fold_left _ pkts _) in *. rewrite Kf, Kn, Kb.
  destruct (Z.eqb_spec (Z.of_nat (length segs)) 0) as [E0|E0]; [cbn; apply length_zero_iff_nil; lia|].
  assert (Hne : segs <> []) by (by intros ->). destruct (Kl Hne) as [-> ->].
  destruct (existsb (fun x => mss <? x.2) segs) eqn:Ee.
  { cbn. intros H. apply existsb_exists in Ee as (x & Hin & Hx). rewrite <- list_elem_of_In in Hin.
    eapply Forall_forall in H; [|exact Hin]. cbn in H. lia. }
  assert (Hle : forall x, x ∈ segs -> x.2 <= mss).
  { intros x Hx%list_elem_of_In. destruct (Z.le_gt_cases x.2 mss) as [|Hgt]; [done|].
    assert (existsb (fun x => mss <? x.2) segs = true) by (apply existsb_exists; exists x; split; [done|lia]). congruence. }
  pose proof (low_small_spec segs) as Hq. pose proof (top_half segs Hh) as Ht.
  destruct (low_small segs) as [q|] eqn:Eq.
  - pose proof (low_half segs q Hh Eq) as Hqh. pose proof (u32_range (base + q)).
    rewrite (proj2 (Z.leb_le 0 (u32 (base + q)))), u32_same_half by (done || lia). cbn [andb].
    destruct Hq as [(x & Hx & Hxs & Hxq) Hlow]. destruct (Z.eqb_spec q (top segs)) as [Et|Et]; cbn.
    + split; [done|]. split; [done|]. apply Forall_forall. intros y Hy. split; [by apply Hle|]. intros Hys.
      specialize (Hlow y Hy Hys). pose proof (top_spec segs y Hy). lia.
    + intros H'. eapply Forall_forall in H'; [|exact Hx]. cbn in H'. lia.
  - cbn. split; [done|]. split; [done|]. apply Forall_forall. intros y Hy. split; [by apply Hle|]. intros Hys. by apply Hq in Hys.
Qed.
End examine.

(** ** What the test gives back *)
Section releases.
Context {TE : Te} (compare : Z -> Z -> Z) (iut tst : rcf_rpc_server) (iut_if tst_if : string) (iut_addr tst_addr : sockaddr).
Context (iut_lladdr tst_lladdr : list Z) (tx tso_on gso_on : bool) (mtu : Z) (size : pkt_size) (sends_num : Z).

Lemma tcp_pass_free d csap lo hi i a : only handle_free any_jump (tcp_pass compare tst d csap lo hi i a).
Proof. unfold tcp_pass, tcp_exchange, tcp_examine. solve_only. Qed.

Lemma set_feature_free ta ifn f v : only handle_free any_jump (net_drv_set_if_feature ta ifn f v).
Proof. unfold net_drv_set_if_feature, net_drv_set_if_feature_gen. solve_only. Qed.

Lemma mtu_tcp_setup_free : only handle_free any_jump (mtu_tcp_setup iut tst iut_if tst_if iut_addr tx tso_on gso_on mtu).
Proof.
  unfold mtu_tcp_setup. destruct tx.
  all: repeat (apply only_bind; [|intros _]); try (by split); by (apply set_feature_free || apply set_mtu_free).
Qed.

(** However the test ends, it gives back its sockets and its CSAP; with an MTU
    above the tolerance for headers it chooses its sizes well. *)
Lemma mtu_tcp_releases init : MAX_MAXSEG_DIFF + 1 < mtu -> 3 * mtu < 2 ^ 31 ->
  wp h_world (mtu_tcp_main compare iut tst iut_if tst_if iut_addr tst_addr iut_lladdr tst_lladdr tx tso_on gso_on mtu size sends_num)
    (clean init) (fun r g => match r with Val _ => gave_back g | NoFuel => True | _ => False end).
Proof.
  unfold MAX_MAXSEG_DIFF. intros Hlo Hb. unfold mtu_tcp_main.
  eapply (test_main_keeps _ (fun L g => L = en_start /\ en_holds iut tst (rpcs_ta tst) L g) (en_holds iut tst (rpcs_ta tst)));
    [split; [done|apply ends_hold_nothing]| |intros L g Hg; by apply mtu_cleanup_wp].
  intros L g [-> Hg]. unfold mtu_tcp_body.
  apply st_free; [apply mtu_tcp_setup_free|done|]. clear g Hg. intros _ g Hg.
  apply ends_connect; [done|]. clear g Hg. intros s1 s2 g Hg. apply st_modify.
  apply st_call. assert (Hr : wp h_world (read_maxseg iut mtu s1) g (fun r g' => en_holds iut tst (rpcs_ta tst) (en_set_socks s1 s2 en_start) g' /\
    match r with Val n => mtu - MAX_MAXSEG_DIFF <= n <= mtu | Undef _ => False | _ => True end)).
  { unfold read_maxseg. wp_step. apply wp_call. intros [[rc n] err] g' [_ ->]. cbn [bpost h_upd].
    destruct (rc <? 0); [done|]. destruct (Z.ltb_spec mtu n); [done|]. destruct (Z.ltb_spec n (mtu - MAX_MAXSEG_DIFF)); [done|].
    wp_step. split; [exact Hg|lia]. }
  eapply wp_mono; [exact Hr|]. clear g Hg Hr. unfold MAX_MAXSEG_DIFF. intros [n|j|w|] g [Hg Hn]; try done.
  cbv zeta. set (d := mtu_direction _ _ _ _ _ _ _ _ _).
  apply st_free; [solve_only|done|]. clear g Hg. intros _ g Hg.
  destruct (mtu_sizes_spec 1 n size) as (lo & hi & -> & _); [lia|lia|lia|].
  apply st_free; [done|done|]. clear g Hg. intros [lo2 hi2] g Hg. cbn beta iota.
  apply st_free; [solve_only|done|]. clear g Hg. intros _ g Hg.
  apply (ends_take_csap _ _ (rpcs_ta tst)); [done|by intros ? ?|done|done|]. clear g Hg. intros csap g Hg. apply st_modify.
  apply st_free; [solve_only|done|]. clear g Hg. intros _ g Hg.
  apply st_free; [apply only_for_n; intros; apply tcp_pass_free|done|]. clear g Hg. intros r g Hg. exact Hg.
Qed.
End releases.

Module TcpWitness.
Local Existing Instance te_ref.

Definition compare (a b : Z) : Z := s32 (a - b).

Lemma compare_sgn a b : - 2 ^ 31 < a - b < 2 ^ 31 -> Z.sgn (compare (u32 a) (u32 b)) = Z.sgn (a - b).
Proof. apply s32_diff_sgn. Qed.

(** The numbers wrap in the second packet; the last, short one is captured
    before it. *)
Definition base : Z := 2 ^ 32 - 1500.
Definition pkt (s : Z * Z) : tad_pkt :=
  TadPkt (0, TV 0 0) 0 (0, []) (0, u32 (base + s.1)) (0, s.2) (0, []) (0, []) (0, 0) (0, 0) (0, 0) (0, 0).
Definition segs : list (Z * Z) := [(0, 1000); (2000, 300); (1000, 1000)].
Definition args : tcp_args := TcpArgs 1000 0 0 0 false false.

Lemma tcp_examine_correct_witness :
  (tcp_ready 1000 args /\ Forall2 (seen_as base) (map pkt segs) segs) /\
  wp (of_handler (fun X (c : te_call X) (s : unit) => (default_answer c, s))) (tcp_examine compare (map pkt segs) args) tt
    (fun r _ => match r with Val a' => tcp_ready 1000 a' | _ => False end).
Proof.
  assert (H1 : tcp_ready 1000 args) by (repeat split).
  assert (H2 : Forall2 (seen_as base) (map pkt segs) segs)
    by (repeat constructor; try lia; intros H; discriminate H).
  split; [split; [exact H1|exact H2]|].
  eapply wp_mono; [apply (tcp_examine_correct compare compare_sgn base 1000 _ _ _ args tt H1 H2)|].
  assert (Hok : Forall (fun x : Z * Z => x.2 <= 1000 /\ (x.2 < 1000 -> x.1 = top segs)) segs).
  { repeat constructor; cbn; lia. }
  intros [a|[]| |] s H; try exact H; [apply H|discriminate H|exact (H Hok)].
Defined.
End TcpWitness.
