(* ===== verification/RxOffload.v ===== *)
(** offload/receive_offload.c: the share of coalesced data among the packets the
    IUT receives. *)
From S2P Require Import Prelude Prog Te Locals NetDrvTs DataFlow Resources RxCommon Holding Double.

Definition MIN_SEND_SIZE : Z := 10000.
Definition RO_MAX_SEND_SIZE : Z := 20000.
Definition MIN_BURST_SIZE : Z := 150000.
Definition MAX_BURST_SIZE : Z := 300000.
Definition BURSTS_NUM : Z := 100.
Definition WAIT_AFTER_SEND : Z := 10.
Definition TIME_TO_SEND : Z := 10.
Definition RX_COALESCE_USECS : Z := 300.
Definition MIN_COALESCED_SHARE : double := d_lit 15 100.
Definition MAX_SLOW_START_DIFF : Z := 200.

(** [pkts_info]: [unsigned int] counters and [unsigned long] sums. *)
Record rx_stats := RxStats {
  rs_mss : Z; rs_slow_start_pkts : Z; rs_pkts_num : Z; rs_first_big : Z; rs_big_pkts_num : Z; rs_max_size : Z;
  rs_pkts_pld : Z; rs_slow_start_pld : Z; rs_big_pkts_pld : Z; rs_failed : bool }.
Definition rs_set_failed (i : rx_stats) : rx_stats :=
  RxStats (rs_mss i) (rs_slow_start_pkts i) (rs_pkts_num i) (rs_first_big i) (rs_big_pkts_num i) (rs_max_size i)
    (rs_pkts_pld i) (rs_slow_start_pld i) (rs_big_pkts_pld i) true.
Definition rs_add_pkt (pld_len : Z) (i : rx_stats) : rx_stats :=
  RxStats (rs_mss i) (rs_slow_start_pkts i) (u32 (rs_pkts_num i + 1)) (rs_first_big i) (rs_big_pkts_num i) (rs_max_size i)
    (u64 (rs_pkts_pld i + pld_len)) (rs_slow_start_pld i) (rs_big_pkts_pld i) (rs_failed i).
Definition rs_add_slow (pld_len : Z) (i : rx_stats) : rx_stats :=
  RxStats (rs_mss i) (rs_slow_start_pkts i) (rs_pkts_num i) (rs_first_big i) (rs_big_pkts_num i) (rs_max_size i)
    (rs_pkts_pld i) (u64 (rs_slow_start_pld i + pld_len)) (rs_big_pkts_pld i) (rs_failed i).
Definition rs_add_big (pld_len : Z) (i : rx_stats) : rx_stats :=
  RxStats (rs_mss i) (rs_slow_start_pkts i) (rs_pkts_num i)
    (if rs_first_big i =? 0 then rs_pkts_num i else rs_first_big i) (u32 (rs_big_pkts_num i + 1))
    (if rs_max_size i <? pld_len then pld_len else rs_max_size i)
    (rs_pkts_pld i) (rs_slow_start_pld i) (u64 (rs_big_pkts_pld i + pld_len)) (rs_failed i).

Section receive_offload.
Context {TE : Te}.

(** The callback. *)
Definition count_pkt (info : rx_stats) (pkt : tad_pkt) : rx_stats :=
  let '(rc, pld_len) := pk_pld_len pkt in
  if negb (rc =? 0) then rs_set_failed info else
  let info := rs_add_pkt pld_len info in
  let info := if rs_pkts_num info <? rs_slow_start_pkts info then rs_add_slow pld_len info else info in
  if rs_mss info <? pld_len then rs_add_big pld_len info else info.

(** [stats] before the capture is processed. *)
Definition stats_init (mss lro_slow_start_pkts : Z) : rx_stats :=
  RxStats (u32 mss) (if 0 <? lro_slow_start_pkts then lro_slow_start_pkts else 0) 0 0 0 0 0 0 0 false.

Section test.
Context (iut tst : rcf_rpc_server) (iut_if tst_if : string) (iut_addr tst_addr : sockaddr).
Context (rx_csum_on lro_on gro_on gro_hw_on rx_vlan_strip_on : bool).

Definition lro_works : bool := lro_on && rx_csum_on.

(** The share of coalesced data, a [double]. *)
Definition coalesced_share (stats : rx_stats) (eligible_data : Z) : double :=
  d_div (d_of_Z (rs_big_pkts_pld stats)) (d_of_Z eligible_data).

(** What the test says of the statistics. *)
Definition judge_stats (stats : rx_stats) (lro_slow_start_pkts : Z) : M unit :=
  if rs_failed stats then TEST_VERDICT "Failed to process some of the packets" []
  else if rs_pkts_num stats =? 0 then TEST_VERDICT "No packets were captured" []
  else if negb lro_works && negb gro_on && negb gro_hw_on then
    if 0 <? rs_first_big stats then
      if lro_on && negb rx_csum_on then
        RING_VERDICT "Some packets are coalesced when LRO is enabled even if Rx checksumming is turned off" []
      else TEST_VERDICT "A large packet was captured while both LRO and GRO are disabled" []
    else mret tt
  else
    if rs_first_big stats =? 0 then TEST_VERDICT "No large packets were captured while LRO and/or GRO were enabled" []
    else
      let eligible_data := rs_pkts_pld stats in
      eligible_data ←
        (if lro_works && (0 <? lro_slow_start_pkts) then
           _ ← when (s32 (rs_first_big stats) <? lro_slow_start_pkts - MAX_SLOW_START_DIFF)
                 (ERROR_VERDICT "The first large packet came earlier than lro_slow_start_packets parameter allows" []);
           mret (u64 (eligible_data - rs_slow_start_pld stats))
         else mret eligible_data);
      when (d_ltb (coalesced_share stats eligible_data) MIN_COALESCED_SHARE)
        (ERROR_VERDICT "Too few packets were coalesced" []).

Definition offload_features : M unit :=
  _ ← net_drv_set_if_feature (rpcs_ta iut) iut_if "rx-checksum" (if rx_csum_on then 1 else 0);
  _ ← net_drv_set_if_feature (rpcs_ta iut) iut_if "rx-lro" (if lro_on then 1 else 0);
  _ ← net_drv_set_if_feature (rpcs_ta iut) iut_if "rx-gro" (if gro_on then 1 else 0);
  _ ← net_drv_set_if_feature (rpcs_ta iut) iut_if "rx-gro-hw" (if gro_hw_on then 1 else 0);
  net_drv_set_if_feature (rpcs_ta iut) iut_if "rx-vlan-hw-parse" (if rx_vlan_strip_on then 1 else 0).

(** The parameter of the driver; zero when it has none. *)
Definition get_slow_start : M Z :=
  drv ← net_drv_driver_name (rpcs_ta iut);
  match drv with
  | None => raise IS_NULL
  | Some iut_drv_name =>
      '(rc, n) ← call (tapi_cfg_module_param_get_int (rpcs_ta iut) iut_drv_name "lro_slow_start_packets");
      if rc =? TE_RC TE_CS TE_ENOENT then mret 0
      else if negb (rc =? 0) then
        TEST_VERDICT "Unexpected error when trying to get lro_slow_start_packets parameter value: %r" [AI rc]
      else mret n
  end.

(** Settings that need not be possible: errors are ignored. *)
Definition tune : M unit :=
  _ ← call (tapi_cfg_if_coalesce_set (rpcs_ta iut) iut_if (-1) "use_adaptive_rx_coalesce" 0);
  _ ← call (tapi_cfg_if_coalesce_set (rpcs_ta iut) iut_if (-1) "rx_coalesce_usecs" RX_COALESCE_USECS);
  _ ← net_drv_try_set_if_feature (rpcs_ta tst) tst_if "tx-checksum-ip-generic" 1;
  if sa_family iut_addr =? AF_INET then
    _ ← net_drv_try_set_if_feature (rpcs_ta tst) tst_if "tx-checksum-ipv4" 1;
    _ ← net_drv_try_set_if_feature (rpcs_ta tst) tst_if "tx-tcp-segmentation" 1; mret tt
  else
    _ ← net_drv_try_set_if_feature (rpcs_ta tst) tst_if "tx-checksum-ipv6" 1;
    _ ← net_drv_try_set_if_feature (rpcs_ta tst) tst_if "tx-tcp6-segmentation" 1; mret tt.

Definition offload_addrs : M (sockaddr * sockaddr) :=
  if rx_vlan_strip_on then
    '(_, iut_addr2, tst_addr2) ← net_drv_ts_add_vlan (rpcs_ta iut) (rpcs_ta tst) iut_if tst_if (sa_family iut_addr) None;
    mret (with_port iut_addr2 iut_addr, with_port tst_addr2 tst_addr)
  else mret (iut_addr, tst_addr).

(** The parameters of the generator both ends use. *)
Definition offload_sender : M pat_sender :=
  send_ctx ← call tapi_pat_sender_init;
  _ ← call tapi_pat_receiver_init;
  coef1 ← call (rand_range 0 RAND_MAX);
  coef2 ← call (rand_range 1 RAND_MAX);
  coef3 ← call (rand_range 0 RAND_MAX);
  mret (PatSender true 0 coef1 coef2 coef3 TIME_TO_SEND (ps_ignore_err send_ctx) true MIN_SEND_SIZE RO_MAX_SEND_SIZE
          (ps_sent send_ctx) TAPI_WAIT_NETWORK_DELAY (ps_total_size send_ctx)).
Definition offload_receiver (c : pat_sender) : pat_receiver :=
  PatReceiver TAPI_WAIT_NETWORK_DELAY TIME_TO_SEND true (ps_offset c) (ps_coef1 c) (ps_coef2 c) (ps_coef3 c) 0.
Definition with_total (n : Z) (c : pat_sender) : pat_sender :=
  PatSender (ps_lcg c) (ps_offset c) (ps_coef1 c) (ps_coef2 c) (ps_coef3 c) (ps_duration_sec c)
    (ps_ignore_err c) (ps_no_iomux c) (ps_min_size c) (ps_max_size c) (ps_sent c) (ps_time2wait c) n.

(** A burst: the sum of what was sent. *)
Definition burst_pass (iut_s tst_s : Z) (send_ctx : pat_sender) (recv_ctx : pat_receiver) (_ total_sent : Z) : M (ctl Z Empty_set) :=
  total_size ← call (rand_range MIN_BURST_SIZE MAX_BURST_SIZE);
  '(rc, sent, err) ← call (rpc_pattern_sender tst tst_s (with_total total_size send_ctx));
  if rc <? 0 then
    _ ← ERROR_VERDICT "rpc_pattern_sender() failed on Tester with error " [AI err];
    _ ← rpc_ok3 (rpc_pattern_receiver iut iut_s recv_ctx);
    TEST_STOP
  else
    _ ← call (te_motivated_msleep WAIT_AFTER_SEND);
    mret (Continue (u64 (total_sent + sent))).

(** The traffic: the receiver runs while the bursts are sent. *)
Definition send_bursts (iut_s tst_s : Z) : M unit :=
  send_ctx ← offload_sender;
  let recv_ctx := offload_receiver send_ctx in
  _ ← call (rpcs_set_op iut RCF_RPC_CALL);
  _ ← rpc_ok3 (rpc_pattern_receiver iut iut_s recv_ctx);
  total ← for_n (Z.to_nat BURSTS_NUM) 0 0 (burst_pass iut_s tst_s send_ctx recv_ctx);
  match total with
  | inl total_sent =>
      '(rc, received, err) ← call (rpc_pattern_receiver iut iut_s recv_ctx);
      if rc <? 0 then TEST_VERDICT "rpc_pattern_receiver() failed on IUT with error " [AI err]
      else if negb (total_sent =? received) then
        TEST_VERDICT "Number of bytes received does not match number of bytes sent" []
      else mret tt
  | inr v => match (v : Empty_set) with end
  end.

Definition receive_offload_body : T end_locals unit :=
  _ ← lift offload_features;
  lro_slow_start_pkts ← lift get_slow_start;
  _ ← lift tune;
  '(iut_addr, tst_addr) ← lift offload_addrs;
  _ ← lift (call CFG_WAIT_CHANGES);
  '(iut_s, tst_s) ← lift (CHECK_OUT (call (GEN_CONNECTION iut tst RPC_SOCK_STREAM iut_addr tst_addr)));
  _ ← modify (en_set_socks iut_s tst_s);
  _ ← lift (rpc_ok (rpc_setsockopt_int tst tst_s RPC_TCP_NODELAY 1));
  csap_rx ← lift (CHECK_OUT (call (tapi_tcp_ip_eth_csap_create (rpcs_ta iut) iut_if TAD_ETH_RECV_DEF None
              (sa_family iut_addr) iut_addr tst_addr)));
  _ ← modify (en_set_csap csap_rx);
  _ ← lift (CHECK_RC (call (tapi_tad_trrecv_start (rpcs_ta iut) csap_rx)));
  _ ← lift (send_bursts iut_s tst_s);
  '(rc, mss, _) ← lift (call (rpc_getsockopt iut iut_s RPC_TCP_MAXSEG));
  _ ← lift (when (rc <? 0) (raise RPC_FAILED));
  pkts ← lift (CHECK_OUT (call (tapi_tad_trrecv_stop (rpcs_ta iut) csap_rx)));
  lift (judge_stats (fold_left count_pkt pkts (stats_init mss lro_slow_start_pkts)) lro_slow_start_pkts).

Definition receive_offload_cleanup (l : end_locals) : M bool :=
  also (cleanup_rc (call (tapi_tad_csap_destroy (rpcs_ta iut) (en_csap l))))
 (also (cleanup_close iut (en_iut_s l))
       (cleanup_close tst (en_tst_s l))).

Definition receive_offload_main : M status := test_main en_start receive_offload_body receive_offload_cleanup.
End test.
End receive_offload.

(** ** Statistics of a capture *)
Definition total (ns : list Z) : Z := foldr Z.add 0 ns.
Definition bigs (mss : Z) (ns : list Z) : list Z := List.filter (fun n => mss <? n) ns.
Definition largest (ns : list Z) : Z := foldr Z.max 0 ns.

(** The number of the first large packet, [i] being the number of the first. *)
Fixpoint first_over (mss i : Z) (ns : list Z) : Z :=
  match ns with
  | [] => 0
  | n :: ns' => if mss <? n then i else first_over mss (i + 1) ns'
  end.

(** The specification of [pkts_info], of the lengths of the packets. *)
Definition stats_of (mss slow : Z) (ns : list Z) : rx_stats :=
  RxStats mss slow (Z.of_nat (length ns)) (first_over mss 1 ns) (Z.of_nat (length (bigs mss ns))) (largest (bigs mss ns))
    (total ns) (total (take (Z.to_nat (slow - 1)) ns)) (total (bigs mss ns)) false.

Lemma total_snoc l n : total (l ++ [n]) = total l + n.
Proof. unfold total. induction l as [|x l IH]; cbn; lia. Qed.

Lemma largest_snoc l n : 0 <= n -> largest (l ++ [n]) = Z.max (largest l) n.
Proof. intros Hn. unfold largest. induction l as [|x l IH]; cbn [foldr app]; lia. Qed.

Lemma total_nonneg l : Forall (fun n => 0 <= n) l -> 0 <= total l.
Proof. unfold total. induction 1; cbn; lia. Qed.

Lemma total_take k l : Forall (fun n => 0 <= n) l -> total (take k l) <= total l.
Proof.
  intros H. revert k. unfold total. induction H as [|x l Hx Hl IH]; intros [|k]; cbn; [lia|lia| |specialize (IH k); lia].
  pose proof (total_nonneg l Hl). unfold total in *. lia.
Qed.

Lemma total_bigs mss l : Forall (fun n => 0 <= n) l -> 0 <= total (bigs mss l) <= total l.
Proof. unfold total, bigs. induction 1 as [|x l Hx _ IH]; cbn; [lia|]. destruct (mss <? x); cbn; lia. Qed.

Lemma bigs_length mss l : (length (bigs mss l) <= length l)%nat.
Proof. unfold bigs. induction l as [|x l IH]; cbn; [done|]. destruct (mss <? x); cbn; lia. Qed.

Lemma bigs_snoc mss l n : bigs mss (l ++ [n]) = bigs mss l ++ (if mss <? n then [n] else []).
Proof. unfold bigs. rewrite List.filter_app. cbn. by destruct (mss <? n). Qed.

Lemma first_over_snoc mss i l n : 0 < i ->
  first_over mss i (l ++ [n]) =
    if mss <? n then (if first_over mss i l =? 0 then i + Z.of_nat (length l) else first_over mss i l) else first_over mss i l.
Proof.
  revert i. induction l as [|x l IH]; intros i Hi; cbn [first_over app length].
  - cbn. by destruct (mss <? n); [f_equal; lia|].
  - destruct (mss <? x); [rewrite (proj2 (Z.eqb_neq i 0)) by lia; by destruct (mss <? n)|].
    rewrite IH by lia. destruct (mss <? n); [|done]. destruct (_ =? 0); [lia|done].
Qed.

Lemma first_over_range mss i l : 0 < i ->
  (first_over mss i l = 0 /\ Forall (fun n => n <= mss) l) \/
  (i <= first_over mss i l < i + Z.of_nat (length l) /\ ~ Forall (fun n => n <= mss) l).
Proof.
  revert i. induction l as [|x l IH]; intros i Hi; cbn [first_over length]; [by left|].
  destruct (Z.ltb_spec mss x) as [Hx|Hx].
  - right. split; [lia|]. intros H. apply Forall_cons in H as [H _]. lia.
  - destruct (IH (i + 1)) as [[H1 H2]|[H1 H2]]; [lia| |].
    + left. split; [done|]. by constructor.
    + right. split; [lia|]. by intros [_ H]%Forall_cons.
Qed.

(** What a packet carries. *)
Definition has_len {TE : Te} (pkt : tad_pkt) (n : Z) : Prop := pk_pld_len pkt = (0, n) /\ 0 <= n.

Section count.
Context {TE : Te} (mss slow : Z).

Lemma count_pkt_step ns pkt n : Forall (fun n => 0 <= n) ns -> has_len pkt n ->
  Z.of_nat (length ns) + 1 < 2 ^ 32 -> total ns + n < 2 ^ 64 ->
  count_pkt (stats_of mss slow ns) pkt = stats_of mss slow (ns ++ [n]).
Proof.
  intros Hns [Hp Hn] Hl Ht. unfold count_pkt. rewrite Hp. cbn [negb Z.eqb].
  pose proof (total_nonneg ns Hns). pose proof (total_take (Z.to_nat (slow - 1)) ns Hns).
  assert (0 <= total (take (Z.to_nat (slow - 1)) ns)) by (by apply total_nonneg, Forall_take).
  pose proof (total_bigs mss ns Hns). pose proof (bigs_length mss ns).
  assert (E1 : rs_add_pkt n (stats_of mss slow ns) =
    RxStats mss slow (Z.of_nat (length ns) + 1) (first_over mss 1 ns) (Z.of_nat (length (bigs mss ns))) (largest (bigs mss ns))
      (total ns + n) (total (take (Z.to_nat (slow - 1)) ns)) (total (bigs mss ns)) false).
  { unfold rs_add_pkt, stats_of. cbn [rs_mss rs_slow_start_pkts rs_pkts_num rs_first_big rs_big_pkts_num rs_max_size
      rs_pkts_pld rs_slow_start_pld rs_big_pkts_pld rs_failed]. by rewrite u32_id, u64_id by lia. }
  rewrite E1. clear E1. unfold stats_of. cbn [rs_pkts_num rs_slow_start_pkts].
  rewrite length_app, total_snoc, bigs_snoc, first_over_snoc by lia. cbn [length].
  assert (Etk : total (take (Z.to_nat (slow - 1)) (ns ++ [n])) =
    if Z.of_nat (length ns) + 1 <? slow then u64 (total (take (Z.to_nat (slow - 1)) ns) + n) else total (take (Z.to_nat (slow - 1)) ns)).
  { destruct (Z.ltb_spec (Z.of_nat (length ns) + 1) slow) as [L|L].
    - rewrite !take_ge, total_snoc, u64_id by (rewrite ?length_app; cbn; lia). done.
    - rewrite take_app_le by lia. done. }
  rewrite Etk. clear Etk.
  set (i := if _ <? slow then _ else _).
  assert (Hi : i = RxStats mss slow (Z.of_nat (length ns) + 1) (first_over mss 1 ns) (Z.of_nat (length (bigs mss ns))) (largest (bigs mss ns))
    (total ns + n) (if Z.of_nat (length ns) + 1 <? slow then u64 (total (take (Z.to_nat (slow - 1)) ns) + n) else total (take (Z.to_nat (slow - 1)) ns))
    (total (bigs mss ns)) false) by (unfold i; by destruct (_ <? slow)).
  rewrite Hi. cbn [rs_mss]. destruct (Z.ltb_spec mss n) as [Hb|Hb].
  - unfold rs_add_big. cbn [rs_mss rs_slow_start_pkts rs_pkts_num rs_first_big rs_big_pkts_num rs_max_size
      rs_pkts_pld rs_slow_start_pld rs_big_pkts_pld rs_failed].
    rewrite total_snoc, largest_snoc, length_app by lia. cbn [length]. rewrite u32_id, u64_id by lia. f_equal.
    all: try lia.
    + destruct (first_over mss 1 ns =? 0); lia.
    + destruct (Z.ltb_spec (largest (bigs mss ns)) n); lia.
    + apply u64_id. lia.
  - rewrite app_nil_r. f_equal; lia.
Qed.

(** The counters of the callback implement the statistics of the lengths of the
    packets captured, as long as these fit. *)
Theorem count_pkts_refines pkts ns : Forall2 has_len pkts ns ->
  Z.of_nat (length ns) < 2 ^ 32 -> total ns < 2 ^ 64 ->
  fold_left count_pkt pkts (stats_of mss slow []) = stats_of mss slow ns.
Proof.
  intros H. enough (G : forall pre, Forall (fun n => 0 <= n) pre -> Z.of_nat (length (pre ++ ns)) < 2 ^ 32 -> total (pre ++ ns) < 2 ^ 64 ->
    fold_left count_pkt pkts (stats_of mss slow pre) = stats_of mss slow (pre ++ ns)).
  { intros Hl Ht. by apply (G []). }
  assert (Hns : Forall (fun n => 0 <= n) ns) by (induction H as [|? ? ? ? [_ ?]]; by constructor).
  induction H as [|pkt n pkts ns Hp _ IH]; intros pre Hpre Hl Ht; [by rewrite app_nil_r|].
  apply Forall_cons in Hns as [Hn Hns]. rewrite (cons_middle n pre ns), app_assoc in Hl, Ht |- *. cbn [fold_left].
  assert (Hp1 : Forall (fun n => 0 <= n) (pre ++ [n])) by (apply Forall_app; split; [done|by constructor]).
  assert (Hle : total (pre ++ [n]) <= total ((pre ++ [n]) ++ ns)).
  { rewrite <- (take_app_length (pre ++ [n]) ns) at 1. apply total_take, Forall_app. by split. }
  rewrite (count_pkt_step pre pkt n); [by apply IH|done|done| |].
  - rewrite !length_app in Hl. cbn in Hl. lia.
  - rewrite total_snoc in Hle. lia.
Qed.
End count.

(** ** What the test says *)
Lemma total_app l k : total (l ++ k) = total l + total k.
Proof. unfold total. induction l as [|x l IH]; cbn; lia. Qed.

Lemma total_drop k l : total l - total (take k l) = total (drop k l).
Proof. rewrite <- (take_drop k l) at 1. rewrite total_app. lia. Qed.

Section judge.
Context {TE : Te} (mss : Z) (rx_csum_on lro_on gro_on gro_hw_on : bool) (lro_slow_start_pkts : Z).

(** A monitor of the verdicts given on the way. *)
Definition said : env te_call (list verdict_level) :=
  watch (fun X c => match c in te_call X return X -> list verdict_level -> list verdict_level with
                    | verdict l _ => fun _ vs => vs ++ [l]
                    | _ => fun _ vs => vs
                    end).

(** When LRO is in effect: it needs Rx checksums to be on as well. *)
Definition lro_in_effect : bool := match lro_on, rx_csum_on with true, true => true | _, _ => false end.

Lemma lro_works_effect : lro_works rx_csum_on lro_on = lro_in_effect.
Proof. unfold lro_works, lro_in_effect. by destruct lro_on, rx_csum_on. Qed.

(** Whether LRO or GRO is in effect; the packets before which LRO does nothing;
    the share of the rest that was coalesced, a [double], which must be 0.15 at
    least; a first large packet that came 200 packets too early. *)
Definition coalescing : bool := lro_in_effect || gro_on || gro_hw_on.
Definition skipped_pkts : nat :=
  if lro_in_effect && (0 <? lro_slow_start_pkts) then Z.to_nat (lro_slow_start_pkts - 1) else 0.
Definition share (ns : list Z) : double := d_div (d_of_Z (total (bigs mss ns))) (d_of_Z (total (drop skipped_pkts ns))).
Definition too_few (ns : list Z) : bool := d_ltb (share ns) (d_lit 15 100).
Definition too_early (ns : list Z) : bool :=
  lro_in_effect && (0 <? lro_slow_start_pkts) && (first_over mss 1 ns <? lro_slow_start_pkts - 200).
Definition none_large (ns : list Z) : Prop := Forall (fun n => n <= mss) ns.

Local Abbreviation judge ns := (judge_stats rx_csum_on lro_on gro_on gro_hw_on
  (stats_of mss (if 0 <? lro_slow_start_pkts then lro_slow_start_pkts else 0) ns) lro_slow_start_pkts).

(** Without LRO and GRO no packet may be larger than the MSS (with LRO asked for
    and Rx checksums off, it is only remarked); with one of them some must be,
    not before LRO may begin, and enough of the data counted must be in them. *)
Lemma judge_stats_correct ns : Forall (fun n => 0 <= n) ns -> Z.of_nat (length ns) < 2 ^ 31 -> total ns < 2 ^ 64 ->
  wp said (judge ns) [] (fun r vs => match r with
    | Val _ => ns <> [] /\
        (if coalescing then ~ none_large ns /\
           (ERROR_V ∈ vs <-> too_early ns = true \/ too_few ns = true)
         else (none_large ns /\ vs = []) \/ (~ none_large ns /\ lro_on = true /\ rx_csum_on = false /\ vs = [RING_V]))
    | Exc (VERDICT _) => ns = [] \/
        (if coalescing then none_large ns else ~ none_large ns /\ (lro_on = false \/ rx_csum_on = true))
    | _ => False
    end).
Proof.
  intros Hns Hl Ht. unfold judge_stats. cbn [rs_failed stats_of rs_pkts_num rs_first_big rs_pkts_pld rs_slow_start_pld].
  destruct (Z.eqb_spec (Z.of_nat (length ns)) 0) as [E0|E0]; [cbn; left; apply length_zero_iff_nil; lia|].
  assert (Hne : ns <> []) by (by intros ->).
  rewrite lro_works_effect.
  assert (Ec : negb lro_in_effect && negb gro_on && negb gro_hw_on = negb coalescing)
    by (unfold coalescing; by destruct lro_in_effect, gro_on, gro_hw_on).
  rewrite Ec. clear Ec. pose proof (first_over_range mss 1 ns ltac:(lia)) as Hr. fold (none_large ns) in Hr.
  destruct coalescing; cbn [negb].
  - destruct (Z.eqb_spec (first_over mss 1 ns) 0) as [Ef|Ef].
    { cbn. right. destruct Hr as [[_ H]|[H _]]; [exact H|lia]. }
    assert (Hlarge : ~ none_large ns) by (destruct Hr as [[H _]|[_ H]]; [lia|exact H]).
    rewrite s32_id by (destruct Hr as [[H _]|[H _]]; lia).
    pose proof (total_take (Z.to_nat (lro_slow_start_pkts - 1)) ns Hns) as Hk.
    assert (Hk0 : 0 <= total (take (Z.to_nat (lro_slow_start_pkts - 1)) ns)) by (by apply total_nonneg, Forall_take).
    unfold too_few, share, skipped_pkts, too_early, coalesced_share, MIN_COALESCED_SHARE, MAX_SLOW_START_DIFF. cbn [rs_big_pkts_pld stats_of].
    destruct (Z.ltb_spec 0 lro_slow_start_pkts) as [Hs|Hs], lro_in_effect; cbn [andb].
    2-4: wp_step; cbn [bpost]; rewrite drop_0; unfold when; destruct (d_ltb _ _) eqn:Ed; wp_go; cbn [app];
      (split; [done|]); (split; [done|]); rewrite ?list_elem_of_singleton, ?elem_of_nil; naive_solver.
    rewrite u64_id, total_drop by lia.
    destruct (Z.ltb_spec (first_over mss 1 ns) (lro_slow_start_pkts - 200)) as [He|He]; unfold when; wp_go; cbn [app].
    all: (split; [done|]); (split; [done|]).
    all: rewrite ?elem_of_cons, ?elem_of_nil; naive_solver.
  - destruct (Z.ltb_spec 0 (first_over mss 1 ns)) as [Hf|Hf].
    + assert (Hlarge : ~ none_large ns) by (destruct Hr as [[H _]|[_ H]]; [lia|exact H]).
      destruct lro_on, rx_csum_on; cbn [andb negb]; wp_go; naive_solver.
    + wp_step. split; [done|]. left. split; [|done]. destruct Hr as [[_ H]|[H _]]; [exact H|lia].
Qed.

(** When no packets are left after those skipped, the share is infinite or not
    a number, and never too small. *)
Lemma share_of_nothing ns : Forall (fun n => 0 <= n) ns -> exact (total ns) -> drop skipped_pkts ns = [] ->
  too_few ns = false.
Proof.
  intros Hns He Hd. unfold too_few, share. rewrite Hd. change (d_of_Z (total [])) with (S754_zero false).
  pose proof (total_bigs mss ns Hns) as Hb. rewrite d_of_Z_exact by (unfold exact in *; lia).
  by destruct (total (bigs mss ns)) as [|p|p]; [| |lia].
Qed.

(** C37. What the test says of a capture, in terms of the lengths of its packets.
    LRO is in effect when both it and Rx checksums are on.  Without LRO and GRO
    none may be larger than the MSS (with LRO asked for and Rx checksums off, it
    is only remarked); with one of them some must be, the first not more than 200
    packets before LRO may begin, and 15 percent at least of the data counted
    must be in them. *)
Theorem receive_examine_correct pkts ns : Forall2 has_len pkts ns -> 0 <= mss < 2 ^ 32 ->
  Z.of_nat (length ns) < 2 ^ 31 -> total ns < 2 ^ 64 ->
  wp said (judge_stats rx_csum_on lro_on gro_on gro_hw_on
      (fold_left count_pkt pkts (stats_init mss lro_slow_start_pkts)) lro_slow_start_pkts) [] (fun r vs => match r with
    | Val _ => ns <> [] /\
        (if coalescing then ~ none_large ns /\
           (ERROR_V ∈ vs <-> too_early ns = true \/ too_few ns = true)
         else (none_large ns /\ vs = []) \/ (~ none_large ns /\ lro_on = true /\ rx_csum_on = false /\ vs = [RING_V]))
    | Exc (VERDICT _) => ns = [] \/
        (if coalescing then none_large ns else ~ none_large ns /\ (lro_on = false \/ rx_csum_on = true))
    | _ => False
    end).
Proof.
  intros Hp Hm Hl Ht.
  assert (Hns : Forall (fun n => 0 <= n) ns) by (clear -Hp; induction Hp as [|? ? ? ? [_ ?]]; by constructor).
  assert (Hi : stats_init mss lro_slow_start_pkts = stats_of mss (if 0 <? lro_slow_start_pkts then lro_slow_start_pkts else 0) []).
  { unfold stats_init, stats_of. rewrite u32_id, take_nil by done. done. }
  rewrite Hi, (count_pkts_refines mss _ pkts ns) by (done || lia). by apply judge_stats_correct.
Qed.
End judge.

(** ** What the test gives back *)
Section releases.
Context {TE : Te} (iut tst : rcf_rpc_server) (iut_if tst_if : string) (iut_addr tst_addr : sockaddr).
Context (rx_csum_on lro_on gro_on gro_hw_on rx_vlan_strip_on : bool).

Lemma offload_setup_free :
  only handle_free any_jump (offload_features iut iut_if rx_csum_on lro_on gro_on gro_hw_on rx_vlan_strip_on) /\
  only handle_free any_jump (tune iut tst iut_if tst_if iut_addr) /\
  only handle_free any_jump (offload_addrs iut tst iut_if tst_if iut_addr tst_addr rx_vlan_strip_on).
Proof.
  split_all; unfold offload_features, tune, offload_addrs, net_drv_ts_add_vlan,
    net_drv_try_set_if_feature, net_drv_set_if_feature, net_drv_set_if_feature_gen; solve_only.
Qed.

Lemma get_slow_start_wp L g : en_holds iut tst (rpcs_ta iut) L g ->
  wp h_world (get_slow_start iut) g (fun r g' => en_holds iut tst (rpcs_ta iut) L g' /\ match r with Undef _ => False | _ => True end).
Proof.
  intros Hg. unfold get_slow_start, net_drv_driver_name. do 2 wp_step. apply wp_call. intros [rc name] g' [Hok ->].
  cbn [bpost h_ok h_upd fst snd] in *. destruct (Z.eqb_spec rc 0) as [E|E]; cbn [negb]; [|done].
  destruct (Hok E) as [n ->]. destruct (String.eqb n "virtio-pci"); wp_go; done.
Qed.

Lemma send_bursts_free a b : only handle_free any_jump (send_bursts iut tst a b).
Proof.
  unfold send_bursts, offload_sender, burst_pass, rpc_ok3. apply only_bind; [solve_only|]. intros c.
  apply only_bind; [solve_only|]. intros _. apply only_bind; [solve_only|]. intros _.
  apply only_bind; [apply only_for_n; intros; solve_only|]. intros [r|[]]. solve_only.
Qed.

(** However the test ends, it gives back its sockets and its CSAP. *)
Lemma receive_offload_releases init :
  wp h_world (receive_offload_main iut tst iut_if tst_if iut_addr tst_addr rx_csum_on lro_on gro_on gro_hw_on rx_vlan_strip_on)
    (clean init) (fun r g => match r with Val _ => gave_back g | NoFuel => True | _ => False end).
Proof.
  destruct offload_setup_free as (F1 & F3 & F4). unfold receive_offload_main.
  eapply (test_main_keeps _ (fun L g => L = en_start /\ en_holds iut tst (rpcs_ta iut) L g) (en_holds iut tst (rpcs_ta iut)));
    [split; [done|apply ends_hold_nothing]| |].
  - intros L g [-> Hg]. unfold receive_offload_body.
    apply st_free; [exact F1|done|]. clear g Hg. intros _ g Hg.
    apply st_call. eapply wp_mono; [by apply get_slow_start_wp|]. clear g Hg. intros [slow|j|w|] g [Hg Hr]; try done.
    apply st_free; [exact F3|done|]. clear g Hg. intros _ g Hg.
    apply st_free; [exact F4|done|]. clear g Hg. intros [a1 a2] g Hg. cbn beta iota.
    apply st_free; [solve_only|done|]. clear g Hg. intros _ g Hg.
    apply ends_connect; [done|]. clear g Hg. intros s1 s2 g Hg. apply st_modify.
    apply st_free; [solve_only|done|]. clear g Hg. intros _ g Hg.
    apply (ends_take_csap _ _ (rpcs_ta iut)); [done|by intros ? ?|done|done|]. clear g Hg. intros csap g Hg. apply st_modify.
    apply st_free; [solve_only|done|]. clear g Hg. intros _ g Hg.
    apply st_free; [apply send_bursts_free|done|]. clear g Hg. intros _ g Hg.
    apply st_free; [solve_only|done|]. clear g Hg. intros [[rc mss] err] g Hg. cbn beta iota.
    apply st_free; [solve_only|done|]. clear g Hg. intros _ g Hg.
    apply st_free; [solve_only|done|]. clear g Hg. intros pkts g Hg.
    apply st_free_last; [unfold judge_stats; solve_only|exact Hg].
  - intros L g [Hs Hc]. unfold receive_offload_cleanup, also. wp_step.
    eapply csap_dropped; [exact Hc|]. intros b1 g1 Hc1 E1. cbn [bpost]. do 2 wp_step.
    eapply close_held; [rewrite E1; exact Hs|]. intros b2 g2 Hs2 E2. cbn [bpost]. wp_step.
    eapply close_held; [by rewrite app_nil_r|]. intros b3 g3 Hs3 E3. wp_go.
    apply submseteq_nil_r in Hs3. split; [done|congruence].
Qed.
End releases.

Module OffloadWitness.
Local Existing Instance te_ref.

(** LRO is on; two of four packets are coalesced ones. *)
Definition pkt (n : Z) : tad_pkt :=
  TadPkt (0, TV 0 0) 0 (0, []) (0, 0) (0, n) (0, []) (0, []) (0, 0) (0, 0) (0, 0) (0, 0).
Definition lens : list Z := [1448; 1448; 14480; 28960].

Lemma receive_examine_correct_witness :
  (Forall2 has_len (map pkt lens) lens /\ 0 <= 1448 < 2 ^ 32) /\
  wp said (judge_stats true true false false (fold_left count_pkt (map pkt lens) (stats_init 1448 0)) 0) []
    (fun r vs => match r with Val _ => ~ ERROR_V ∈ vs | _ => False end).
Proof.
  assert (H1 : Forall2 has_len (map pkt lens) lens) by (repeat constructor; discriminate).
  assert (H2 : 0 <= 1448 < 2 ^ 32) by done.
  split; [split; [exact H1|exact H2]|].
  eapply wp_mono; [exact (receive_examine_correct 1448 true true false false 0 _ _ H1 H2 ltac:(reflexivity) ltac:(reflexivity))|].
  intros [[]|[]| |] vs H; try exact H.
  - destruct H as [_ [_ [H _]]]. intros Hin. apply H in Hin as [Hin|Hin]; vm_compute in Hin; discriminate.
  - destruct H as [H|H]; [discriminate H|]. cbn in H. inversion H as [|x l _ H']; subst. inversion H' as [|x l _ H3]; subst.
    inversion H3 as [|x l H4 _]; subst. apply H4. reflexivity.
Defined.
End OffloadWitness.
