(* ===== verification/AutonegAdvertise.v ===== *)
(** ethtool/autoneg_advertise.c: the two sides of a link negotiate the best mode
    both advertise, and another one when it is advertised no longer. *)
From S2P Require Import Prelude Prog Te Locals NetDrvTs Phy Resources RxCommon Holding.

(** ** The choice of the two modes *)
Section modes.
Context {TE : Te}.

Definition pair_priority_cmp (speed1 duplex1 speed2 duplex2 : Z) : Z :=
  if negb (speed1 =? speed2) then (if speed2 <? speed1 then 1 else -1)
  else if negb (duplex1 =? duplex2) then
    if duplex1 =? TE_PHY_DUPLEX_FULL then 1
    else if duplex2 =? TE_PHY_DUPLEX_FULL then -1
    else 0
  else 0.

Definition mode_cmp (m1 m2 : net_drv_phy_mode_info) : Z :=
  pair_priority_cmp (mi_speed m1) (mi_duplex m1) (mi_speed m2) (mi_duplex m2).

(** The preferred and the fallback mode: [None] as long as [have_preferred], or
    [have_fallback], is not set. *)
Definition common_modes : Type := option net_drv_phy_mode_info * option net_drv_phy_mode_info.

Definition update_common_nodes (new_mode : net_drv_phy_mode_info) (st : common_modes) : common_modes :=
  let '(preferred, fallback) := st in
  if match preferred with Some p => mode_cmp new_mode p =? 0 | None => false end then st
  else if match fallback with Some f => mode_cmp new_mode f =? 0 | None => false end then st
  else if match preferred with Some p => 0 <? mode_cmp new_mode p | None => true end then
    (Some new_mode, match preferred with Some p => Some p | None => fallback end)
  else if match fallback with Some f => 0 <? mode_cmp new_mode f | None => true end then
    (preferred, Some new_mode)
  else st.

(** A mode of the IUT that both sides advertise. *)
Definition is_common (tst_state : net_drv_phy_saved_state) (m : net_drv_phy_mode_info) : bool :=
  if negb (net_drv_phy_is_link_mode m) || negb (mi_advertised m) then false
  else match net_drv_phy_state_find_mode_by_name tst_state (mi_name m) with
       | None => false
       | Some peer_mode => net_drv_phy_is_link_mode peer_mode && mi_advertised peer_mode
       end.

Definition find_common_advertised_modes (iut_state tst_state : net_drv_phy_saved_state) : common_modes :=
  fold_left (fun st m => if is_common tst_state m then update_common_nodes m st else st) (ps_modes iut_state) (None, None).

Definition test_phy_apply_autoneg_modes (ta ifn : string) (st : net_drv_phy_saved_state)
    (pref_mode : string) (fallback_mode : option string) (where_ : string) : M unit :=
  rc ← net_drv_phy_apply_autoneg_modes ta ifn st pref_mode fallback_mode;
  if (TE_RC_GET_ERROR rc =? TE_EINVAL) || (TE_RC_GET_ERROR rc =? TE_EOPNOTSUPP) then
    TEST_SKIP "Changing advertised PHY modes is not supported on %s" [AS where_]
  else if negb (rc =? 0) then TEST_FAIL "Failed to change advertised PHY modes on %s" [AS where_]
  else mret tt.
End modes.

(** ** The test *)
Record adv_locals := AdvLocals {
  ad_iut_s : Z; ad_tst_s : Z; ad_iut_saved : net_drv_phy_saved_state; ad_tst_saved : net_drv_phy_saved_state }.
Definition ad_set_socks (a b : Z) (l : adv_locals) : adv_locals := AdvLocals a b (ad_iut_saved l) (ad_tst_saved l).
Definition ad_set_iut_saved (s : net_drv_phy_saved_state) (l : adv_locals) : adv_locals :=
  AdvLocals (ad_iut_s l) (ad_tst_s l) s (ad_tst_saved l).
Definition ad_set_tst_saved (s : net_drv_phy_saved_state) (l : adv_locals) : adv_locals :=
  AdvLocals (ad_iut_s l) (ad_tst_s l) (ad_iut_saved l) s.
Definition ad_start : adv_locals := AdvLocals (-1) (-1) phy_state_zero phy_state_zero.

Section test.
Context {TE : Te} (iut tst changed peer : rcf_rpc_server) (iut_if tst_if changed_if peer_if : string).
Context (iut_addr tst_addr : sockaddr) (if_down : bool).

Definition NET_DRV_WAIT_PHY_CHANGE : M unit := call (te_motivated_sleep 2).

(** Links up, and autonegotiation on at each side and at its partner. *)
Definition check_autoneg (phase : string) : M unit :=
  _ ← net_drv_wait_up_gen (rpcs_ta iut) iut_if false;
  _ ← net_drv_wait_up_gen (rpcs_ta tst) tst_if false;
  _ ← net_drv_phy_check_autoneg_state ("IUT " +:+ phase) (rpcs_ta iut) iut_if TE_PHY_AUTONEG_ON;
  _ ← net_drv_phy_check_autoneg_state ("Tester " +:+ phase) (rpcs_ta tst) tst_if TE_PHY_AUTONEG_ON;
  _ ← net_drv_phy_check_lp_autoneg_state ("IUT " +:+ phase) (rpcs_ta iut) iut_if TE_PHY_AUTONEG_ON;
  net_drv_phy_check_lp_autoneg_state ("Tester " +:+ phase) (rpcs_ta tst) tst_if TE_PHY_AUTONEG_ON.

(** What each of two sides advertises of the two modes, and what each sees its
    partner advertise. *)
Definition check_advertised (who1 who2 : string) (r1 r2 : rcf_rpc_server) (if1 if2 : string)
    (pref fallback : string) (pref1 pref2 : bool) : M unit :=
  _ ← net_drv_phy_check_local_mode_advertised (who1 +:+ " local preferred PHY") (rpcs_ta r1) if1 pref pref1;
  _ ← net_drv_phy_check_local_mode_advertised (who1 +:+ " local lower-priority PHY") (rpcs_ta r1) if1 fallback true;
  _ ← net_drv_phy_check_local_mode_advertised (who2 +:+ " local preferred PHY") (rpcs_ta r2) if2 pref pref2;
  _ ← net_drv_phy_check_local_mode_advertised (who2 +:+ " local lower-priority PHY") (rpcs_ta r2) if2 fallback true;
  _ ← net_drv_phy_check_partner_mode_advertised (who1 +:+ " partner preferred PHY") (rpcs_ta r1) if1 pref pref2;
  _ ← net_drv_phy_check_partner_mode_advertised (who1 +:+ " partner lower-priority PHY") (rpcs_ta r1) if1 fallback true;
  _ ← net_drv_phy_check_partner_mode_advertised (who2 +:+ " partner preferred PHY") (rpcs_ta r2) if2 pref pref1;
  net_drv_phy_check_partner_mode_advertised (who2 +:+ " partner lower-priority PHY") (rpcs_ta r2) if2 fallback true.

(** The mode that is negotiated. *)
Definition check_oper (phase : string) (m : net_drv_phy_mode_info) : M unit :=
  _ ← net_drv_phy_check_oper_mode ("IUT " +:+ phase) (rpcs_ta iut) iut_if (mi_speed m) (mi_duplex m);
  net_drv_phy_check_oper_mode ("Tester " +:+ phase) (rpcs_ta tst) tst_if (mi_speed m) (mi_duplex m).

Definition restart_iut : M unit :=
  if if_down then
    _ ← CHECK_RC (call (tapi_cfg_base_if_down (rpcs_ta iut) iut_if));
    _ ← call CFG_WAIT_CHANGES;
    _ ← CHECK_RC (call (tapi_cfg_base_if_up (rpcs_ta iut) iut_if));
    call CFG_WAIT_CHANGES
  else NET_DRV_WAIT_PHY_CHANGE.

Definition choose_modes (iut_saved tst_saved : net_drv_phy_saved_state) : M (net_drv_phy_mode_info * net_drv_phy_mode_info) :=
  match find_common_advertised_modes iut_saved tst_saved with
  | (Some pref_mode, Some fallback_mode) =>
      if mode_cmp pref_mode fallback_mode <=? 0 then
        TEST_VERDICT "Failed to choose preferred and lower-priority PHY modes" []
      else mret (pref_mode, fallback_mode)
  | _ => TEST_SKIP "At least two common advertised PHY modes with different priorities are required" []
  end.

Definition adv_body (fuel : nat) : T adv_locals unit :=
  iut_saved ← lift (net_drv_phy_state_save_or_skip "IUT" (rpcs_ta iut) iut_if);
  _ ← modify (ad_set_iut_saved iut_saved);
  tst_saved ← lift (net_drv_phy_state_save_or_skip "Tester" (rpcs_ta tst) tst_if);
  _ ← modify (ad_set_tst_saved tst_saved);
  '(pref, fallback) ← lift (choose_modes iut_saved tst_saved);
  '(iut_s, tst_s) ← lift (CHECK_OUT (call (GEN_CONNECTION iut tst RPC_SOCK_DGRAM iut_addr tst_addr)));
  _ ← modify (ad_set_socks iut_s tst_s);
  _ ← lift (test_phy_apply_autoneg_modes (rpcs_ta iut) iut_if iut_saved (mi_name pref) (Some (mi_name fallback)) "IUT");
  _ ← lift (test_phy_apply_autoneg_modes (rpcs_ta tst) tst_if tst_saved (mi_name pref) (Some (mi_name fallback)) "Tester");
  _ ← lift NET_DRV_WAIT_PHY_CHANGE;
  _ ← lift (check_autoneg "initial");
  _ ← lift (check_advertised "IUT initial" "Tester initial" iut tst iut_if tst_if (mi_name pref) (mi_name fallback) true true);
  _ ← lift (check_oper "initial" pref);
  _ ← lift (net_drv_conn_check fuel iut iut_s "IUT socket" tst tst_s "Tester socket"
              "Checking data flow with the initial advertised set");
  let changed_saved := if bool_decide (changed = iut) then iut_saved else tst_saved in
  _ ← lift (test_phy_apply_autoneg_modes (rpcs_ta changed) changed_if changed_saved (mi_name fallback) None "one of sides");
  _ ← lift restart_iut;
  _ ← lift (check_autoneg "after advertise change");
  _ ← lift (check_advertised "Changed side" "Peer side" changed peer changed_if peer_if (mi_name pref) (mi_name fallback) false true);
  _ ← lift (check_oper "after advertise change" fallback);
  lift (net_drv_conn_check fuel iut iut_s "IUT socket" tst tst_s "Tester socket"
          "Checking data flow after changing advertised modes").

Definition restore_saved (ta ifn : string) (st : net_drv_phy_saved_state) : M bool :=
  if ps_saved st then cleanup_rc (net_drv_phy_state_restore ta ifn st) else mret true.

Definition adv_cleanup (l : adv_locals) : M bool :=
  also (restore_saved (rpcs_ta iut) iut_if (ad_iut_saved l))
 (also (restore_saved (rpcs_ta tst) tst_if (ad_tst_saved l))
 (also (_ ← NET_DRV_WAIT_PHY_CHANGE; mret true)
 (also (cleanup_close iut (ad_iut_s l))
 (also (cleanup_close tst (ad_tst_s l))
       (if ps_saved (ad_iut_saved l) || ps_saved (ad_tst_saved l) then
          _ ← net_drv_wait_up_gen (rpcs_ta iut) iut_if true;
          _ ← net_drv_wait_up_gen (rpcs_ta tst) tst_if true;
          mret true
        else mret true))))).

Definition adv_main (fuel : nat) : M status := test_main ad_start (adv_body fuel) adv_cleanup.
End test.

(** ** The two best modes *)
Section best.
Context {TE : Te}.

(** Priority: speed first, then full duplex. *)
Definition priority (m : net_drv_phy_mode_info) : Z := 2 * mi_speed m + Z.b2z (mi_duplex m =? TE_PHY_DUPLEX_FULL).

Lemma mode_cmp_priority m1 m2 : Z.sgn (mode_cmp m1 m2) = Z.sgn (priority m1 - priority m2).
Proof.
  unfold mode_cmp, pair_priority_cmp, priority.
  destruct (Z.eqb_spec (mi_speed m1) (mi_speed m2)) as [Es|Es]; cbn [negb].
  - destruct (Z.eqb_spec (mi_duplex m1) (mi_duplex m2)) as [Ed|Ed]; cbn [negb]; [rewrite Es, Ed; by rewrite Z.sub_diag|].
    destruct (Z.eqb_spec (mi_duplex m1) TE_PHY_DUPLEX_FULL), (Z.eqb_spec (mi_duplex m2) TE_PHY_DUPLEX_FULL); cbn [Z.b2z]; lia.
  - destruct (Z.ltb_spec (mi_speed m2) (mi_speed m1)), (mi_duplex m1 =? _), (mi_duplex m2 =? _); cbn [Z.b2z]; lia.
Qed.

Lemma cmp_same m1 m2 : (mode_cmp m1 m2 =? 0) = (priority m1 =? priority m2).
Proof. pose proof (mode_cmp_priority m1 m2). destruct (Z.eqb_spec (mode_cmp m1 m2) 0), (Z.eqb_spec (priority m1) (priority m2)); lia. Qed.
Lemma cmp_above m1 m2 : (0 <? mode_cmp m1 m2) = (priority m2 <? priority m1).
Proof. pose proof (mode_cmp_priority m1 m2). destruct (Z.ltb_spec 0 (mode_cmp m1 m2)), (Z.ltb_spec (priority m2) (priority m1)); lia. Qed.

(** A mode of a link, with a speed and a duplex, that is advertised. *)
Definition advertised_link (m : net_drv_phy_mode_info) : Prop :=
  mi_speed m <> TE_PHY_SPEED_UNKNOWN /\ mi_duplex m <> TE_PHY_DUPLEX_UNKNOWN /\ mi_advertised m = true.
(** A side advertises the mode of a name: the first of its modes with that name
    is such a mode. *)
Definition offers_name (st : net_drv_phy_saved_state) (name : string) : Prop :=
  exists pre m post, ps_modes st = pre ++ m :: post /\ mi_name m = name /\
    (forall m', m' ∈ pre -> mi_name m' <> name) /\ advertised_link m.

(** A mode of the IUT that both sides advertise. *)
Definition both_advertise (iut_state tst_state : net_drv_phy_saved_state) (m : net_drv_phy_mode_info) : Prop :=
  m ∈ ps_modes iut_state /\ advertised_link m /\ offers_name tst_state (mi_name m).

Lemma link_mode_offers m : (net_drv_phy_is_link_mode m && mi_advertised m) = true <-> advertised_link m.
Proof. unfold net_drv_phy_is_link_mode, advertised_link. rewrite !andb_true_iff, !negb_true_iff, !Z.eqb_neq. tauto. Qed.

Lemma find_mode_first l name m : find_mode l name = Some m <->
  exists pre post, l = pre ++ m :: post /\ mi_name m = name /\ forall m', m' ∈ pre -> mi_name m' <> name.
Proof.
  induction l as [|x l IH]; cbn [find_mode].
  - split; [done|]. by intros ([|? ?] & post & [=] & _).
  - destruct (String.eqb_spec (mi_name x) name) as [E|E].
    + split; [intros [= <-]; exists [], l; split_all; try done; by intros m' ?%elem_of_nil|].
      intros ([|y pre] & post & [= -> ->] & Hn & Hp); [done|]. exfalso. by apply (Hp y); [apply list_elem_of_here|].
    + rewrite IH. split; intros (pre & post & Hl & Hn & Hp).
      * exists (x :: pre), post. subst l. split_all; try done. intros m' [->|Hm']%elem_of_cons; [done|by apply Hp].
      * destruct pre as [|y pre]; injection Hl as -> ->; [done|]. exists pre, post. split_all; try done.
        intros m' Hm'. apply Hp, elem_of_cons. by right.
Qed.

Lemma find_mode_offers st name :
  (match net_drv_phy_state_find_mode_by_name st name with
   | Some p => net_drv_phy_is_link_mode p && mi_advertised p | None => false end) = true <-> offers_name st name.
Proof.
  unfold net_drv_phy_state_find_mode_by_name, offers_name.
  destruct (find_mode (ps_modes st) name) as [p|] eqn:Hf.
  - rewrite (link_mode_offers p). pose proof (proj1 (find_mode_first _ _ _) Hf) as (pre & post & Hl & Hn & Hp). split.
    + intros Ho. exists pre, p, post. auto.
    + intros (pre' & m & post' & Hl' & Hn' & Hp' & Ho).
      assert (Hm : find_mode (ps_modes st) name = Some m) by (apply find_mode_first; eauto). congruence.
  - split; [done|]. intros (pre & m & post & Hl & Hn & Hp & _).
    assert (Hm : find_mode (ps_modes st) name = Some m) by (apply find_mode_first; eauto). congruence.
Qed.

(** The code's test of a mode of the IUT is that. *)
Lemma common_both iut_state tst_state m :
  m ∈ List.filter (is_common tst_state) (ps_modes iut_state) <-> both_advertise iut_state tst_state m.
Proof.
  rewrite list_elem_of_In, List.filter_In, <- list_elem_of_In. unfold both_advertise.
  assert (H : is_common tst_state m = true <-> advertised_link m /\ offers_name tst_state (mi_name m)); [|tauto].
  rewrite <- (link_mode_offers m), <- find_mode_offers. unfold is_common.
  destruct (net_drv_phy_is_link_mode m), (mi_advertised m); cbn; [|intuition done..].
  destruct (net_drv_phy_state_find_mode_by_name tst_state (mi_name m)) as [p|]; [|intuition done].
  destruct (net_drv_phy_is_link_mode p), (mi_advertised p); intuition done.
Qed.

(** The preferred mode has the highest priority of all, the fallback the next
    one; without a fallback all have the same. *)
Definition best_two (P : net_drv_phy_mode_info -> Prop) (st : common_modes) : Prop :=
  match st with
  | (Some p, Some f) => P p /\ P f /\ priority f < priority p /\
      forall m, P m -> priority m = priority p \/ priority m <= priority f
  | (Some p, None) => P p /\ forall m, P m -> priority m = priority p
  | (None, None) => forall m, ~ P m
  | (None, Some _) => False
  end.

Lemma best_two_iff (P Q : net_drv_phy_mode_info -> Prop) st : (forall m, P m <-> Q m) -> best_two P st -> best_two Q st.
Proof.
  intros H. destruct st as [[p|] [f|]]; cbn; rewrite <- ?H; try tauto.
  - intros (H1 & H2 & H3 & H4). split_all; try done. intros m Hm. by apply H4, H.
  - intros (H1 & H2). split_all; try done. intros m Hm. by apply H2, H.
  - intros H1 m Hm. by apply (H1 m), H.
Qed.

Lemma update_best l m st : best_two (fun x => x ∈ l) st -> best_two (fun x => x ∈ l ++ [m]) (update_common_nodes m st).
Proof.
  assert (Hl : forall x, x ∈ l ++ [m] <-> x ∈ l \/ x = m) by (intros x; by rewrite elem_of_app, list_elem_of_singleton).
  assert (Hx : forall (P : net_drv_phy_mode_info -> Prop), (forall x, x ∈ l -> P x) -> P m -> forall x, x ∈ l ++ [m] -> P x)
    by (intros P H1 H2 x [?| ->]%Hl; auto).
  destruct st as [[p|] [f|]]; cbn [update_common_nodes best_two]; rewrite ?cmp_same, ?cmp_above.
  - intros (Hp & Hf & Hlt & Hall). destruct (Z.eqb_spec (priority m) (priority p)) as [E|E].
    { cbn. rewrite !Hl. split_all; auto. apply Hx; [done|lia]. }
    destruct (Z.eqb_spec (priority m) (priority f)) as [E2|E2].
    { cbn. rewrite !Hl. split_all; auto. apply Hx; [done|lia]. }
    destruct (Z.ltb_spec (priority p) (priority m)) as [G|G].
    { cbn. rewrite !Hl. split_all; auto. apply Hx; [intros x Hin; specialize (Hall x Hin); lia|lia]. }
    destruct (Z.ltb_spec (priority f) (priority m)) as [G2|G2]; cbn; rewrite !Hl; split_all; auto; try lia.
    all: apply Hx; [intros x Hin; specialize (Hall x Hin); lia|lia].
  - intros (Hp & Hall). destruct (Z.eqb_spec (priority m) (priority p)) as [E|E].
    { cbn. rewrite !Hl. split_all; auto. apply Hx; [done|lia]. }
    destruct (Z.ltb_spec (priority p) (priority m)) as [G|G]; cbn; rewrite !Hl; split_all; auto; try lia.
    all: apply Hx; [intros x Hin; specialize (Hall x Hin); lia|lia].
  - done.
  - intros Hn. cbn. split; [apply Hl; by right|]. intros x [H| ->]%Hl; [by apply Hn in H|done].
Qed.

(** C28. The modes chosen are the best and the second best, by priority, of the
    link modes of the IUT that both sides advertise ([both_advertise]); there is
    no second one exactly when all have the same priority, and then the test is
    skipped.  So the test's own check that the one is preferred to the other
    never fails. *)
Theorem find_common_correct {S} (E : env te_call S) iut_state tst_state s :
  let common := both_advertise iut_state tst_state in
  best_two common (find_common_advertised_modes iut_state tst_state) /\
  wp E (choose_modes iut_state tst_state) s (fun r _ => match r with
    | Val (p, f) => common p /\ common f /\ priority f < priority p /\
        forall m, common m -> priority m <= priority p /\ (priority m < priority p -> priority m <= priority f)
    | Exc (SKIP _) => forall m1 m2, common m1 -> common m2 -> priority m1 = priority m2
    | _ => False
    end).
Proof.
  intros common.
  assert (H : best_two common (find_common_advertised_modes iut_state tst_state)).
  { eapply best_two_iff; [apply common_both|]. unfold find_common_advertised_modes. generalize (ps_modes iut_state). intros l.
    induction l as [|m l IH] using rev_ind; [by intros m ?%elem_of_nil|]. rewrite fold_left_app, List.filter_app. cbn [fold_left List.filter].
    destruct (is_common tst_state m); [by apply update_best|by rewrite app_nil_r]. }
  split; [exact H|]. unfold choose_modes.
  destruct (find_common_advertised_modes iut_state tst_state) as [[p|] [f|]]; cbn [best_two] in H; try done.
  - destruct H as (Hp & Hf & Hlt & Hall). pose proof (cmp_above p f) as Hc. rewrite (proj2 (Z.ltb_lt _ _) Hlt) in Hc.
    rewrite (proj2 (Z.leb_gt _ _)) by lia. cbn. split_all; try done.
    all: intros; specialize (Hall m ltac:(done)); lia.
  - destruct H as [Hp Hall]. cbn. intros m1 m2 H1 H2. by rewrite (Hall m1 H1), (Hall m2 H2).
  - cbn. intros m1 m2 Hm. by apply H in Hm.
Qed.
End best.

(** ** What the test gives back *)
Section releases.
Context {TE : Te} (iut tst changed peer : rcf_rpc_server) (iut_if tst_if changed_if peer_if : string).
Context (iut_addr tst_addr : sockaddr) (if_down : bool).

Definition ad_socks (l : adv_locals) : list (rcf_rpc_server * Z) := sock_at iut (ad_iut_s l) ++ sock_at tst (ad_tst_s l).
Local Abbreviation inv := (holding ad_socks (fun _ => [])).

Lemma phy_modes_free ta ifn want ms hc :
  only handle_free any_jump (foreach ms hc (mode_differs ta ifn want)) /\
  only handle_free any_jump (foreach ms tt (mode_set ta ifn want)).
Proof. split; apply only_foreach; intros; unfold mode_differs, mode_set; solve_only. Qed.

Lemma phy_save_free who ta ifn : only handle_free any_jump (net_drv_phy_state_save_or_skip who ta ifn).
Proof.
  unfold net_drv_phy_state_save_or_skip. apply only_bind; [|intros [rc st]; solve_only]. unfold net_drv_phy_state_save.
  repeat (apply only_bind; [by split|]; intros [? ?]; case_match; [done|]).
  apply only_bind; [apply only_foreach; intros; unfold save_mode; solve_only|]. intros [[? ?]|[]]; [case_match|]; done.
Qed.

Lemma phy_apply_free ta ifn st m1 m2 w : only handle_free any_jump (test_phy_apply_autoneg_modes ta ifn st m1 m2 w).
Proof.
  unfold test_phy_apply_autoneg_modes. apply only_bind; [|intros; solve_only]. unfold net_drv_phy_apply_autoneg_modes.
  apply only_bind; [by split|]. intros [rc cur]. case_match; [|done].
  apply only_bind; [apply phy_modes_free|]. intros [hc|rc2]; [|done]. destruct (negb hc); [done|].
  apply only_bind; [apply (phy_modes_free _ _ _ _ true)|]. intros [[]|rc2]; [|done]. solve_only.
Qed.

Lemma phy_restore_free ta ifn st : only handle_free any_jump (restore_saved ta ifn st).
Proof.
  unfold restore_saved, cleanup_rc. destruct (ps_saved st); [|done]. apply only_bind; [|done]. unfold net_drv_phy_state_restore, net_drv_phy_sync_tree.
  apply only_bind; [by split|]. intros rc. destruct (rc =? 0); [|done].
  apply only_bind; [by split|]. intros [rc2 cur]. destruct (rc2 =? 0); [|done].
  apply only_bind; [solve_only|]. intros [hc|rc3]; [|done].
  apply only_bind; [apply phy_modes_free|]. intros [hc2|rc4]; [|done]. destruct (negb hc2); [done|].
  apply only_bind; [by split|]. intros rc5. destruct (rc5 =? 0); [|done].
  apply only_bind; [solve_only|]. intros rc6. destruct (negb (rc6 =? 0)); [done|].
  apply only_bind; [apply (phy_modes_free _ _ _ _ true)|]. intros [[]|rc7]; [solve_only|done].
Qed.

Lemma phy_restore_returns ta ifn st : returns (restore_saved ta ifn st).
Proof.
  unfold restore_saved, cleanup_rc, net_drv_phy_state_restore, net_drv_phy_sync_tree, mode_differs, mode_set. solve_returns.
Qed.

Ltac check_free := unfold NET_DRV_WAIT_PHY_CHANGE, net_drv_wait_up_gen,
  net_drv_phy_check_autoneg_state, net_drv_phy_check_lp_autoneg_state, net_drv_phy_check_oper_mode,
  net_drv_phy_check_local_mode_advertised, net_drv_phy_check_partner_mode_advertised, net_drv_phy_lp_tree_is_exposed,
  net_drv_phy_sync_tree; solve_only.

Lemma check_autoneg_free p : only handle_free any_jump (check_autoneg iut tst iut_if tst_if p).
Proof. unfold check_autoneg. check_free. Qed.
Lemma check_advertised_free w1 w2 r1 r2 i1 i2 a b c d :
  only handle_free any_jump (check_advertised w1 w2 r1 r2 i1 i2 a b c d).
Proof. unfold check_advertised. check_free. Qed.
Lemma check_oper_free p m : only handle_free any_jump (check_oper iut tst iut_if tst_if p m).
Proof. unfold check_oper. check_free. Qed.
Lemma restart_iut_free : only handle_free any_jump (restart_iut iut iut_if if_down).
Proof. unfold restart_iut. check_free. Qed.

Lemma conn_check_free fuel r1 s1 n1 r2 s2 n2 v : only handle_free any_jump (net_drv_conn_check fuel r1 s1 n1 r2 s2 n2 v).
Proof.
  unfold net_drv_conn_check. apply only_bind; [|intros _; apply only_bind; [|done]].
  all: eapply only_mono; [apply neutral_handle_free|done|apply data_check_neutral].
Qed.

Lemma choose_modes_free a b : only handle_free any_jump (choose_modes a b).
Proof. unfold choose_modes. by repeat case_match. Qed.

Ltac next_free lem := apply st_free; [apply lem|done|].

(** However the test ends, it gives back its sockets. *)
Lemma adv_releases fuel init :
  wp h_world (adv_main iut tst changed peer iut_if tst_if changed_if peer_if iut_addr tst_addr if_down fuel)
    (clean init) (fun r g => match r with Val _ => gave_back g | NoFuel => True | _ => False end).
Proof.
  unfold adv_main. eapply (test_main_keeps _ (fun L g => L = ad_start /\ inv L g) inv);
    [split; [done|split; apply submseteq_nil_l]| |].
  - intros L g [-> Hg]. unfold adv_body.
    next_free phy_save_free. clear g Hg. intros s1 g Hg. apply st_modify.
    apply st_free; [apply phy_save_free|exact Hg|]. clear g Hg. intros s2 g Hg. apply st_modify.
    apply st_free; [apply choose_modes_free|exact Hg|]. clear g Hg. intros [pref fallback] g Hg. cbn beta iota.
    eapply st_connect; [exact Hg|]. clear g Hg. intros a b g Ha Hb Hs Hc. apply st_modify.
    set (L := ad_set_socks a b _). assert (Hg : inv L g).
    { split; [|exact Hc]. unfold ad_socks, sock_at, L. cbn. by rewrite (proj2 (Z.leb_le 0 a)), (proj2 (Z.leb_le 0 b)). }
    clear Hs Hc. clearbody L.
    do 2 (next_free phy_apply_free; clear g Hg; intros _ g Hg).
    apply st_free; [by split|done|]. clear g Hg. intros _ g Hg.
    next_free check_autoneg_free. clear g Hg. intros _ g Hg.
    next_free check_advertised_free. clear g Hg. intros _ g Hg.
    next_free check_oper_free. clear g Hg. intros _ g Hg.
    next_free conn_check_free. clear g Hg. intros _ g Hg. cbv zeta.
    next_free phy_apply_free. clear g Hg. intros _ g Hg.
    next_free restart_iut_free. clear g Hg. intros _ g Hg.
    next_free check_autoneg_free. clear g Hg. intros _ g Hg.
    next_free check_advertised_free. clear g Hg. intros _ g Hg.
    next_free check_oper_free. clear g Hg. intros _ g Hg.
    apply st_free_last; [apply conn_check_free|done].
  - intros L g Hg. unfold adv_cleanup.
    do 2 (apply (wp_also h_world _ _ g (inv L));
      [apply clean_free; [apply phy_restore_free|apply phy_restore_returns|exact Hg]|clear g Hg; intros g Hg]).
    apply (wp_also h_world _ _ g (inv L)); [apply clean_free; [by split|done|exact Hg]|clear g Hg; intros g [Hs Hc]].
    apply submseteq_nil_r in Hc. unfold also at 1. wp_step.
    eapply close_held; [exact Hs|]. intros b1 g1 Hs1 E1. cbn [bpost]. unfold also. do 2 wp_step.
    eapply close_held; [by rewrite app_nil_r|]. intros b2 g2 Hs2 E2. cbn [bpost]. wp_step.
    eapply wp_mono; [apply (clean_free (fun _ => []) (fun _ => []) _ L)|].
    + destruct (_ || _); unfold net_drv_wait_up_gen; solve_only.
    + destruct (_ || _); unfold net_drv_wait_up_gen, ERROR_VERDICT; solve_returns.
    + split; [exact Hs2|]. by rewrite E2, E1, Hc.
    + intros [b3| | |] g3 H3; try done. do 2 wp_step. destruct H3 as [H3 H4]. apply submseteq_nil_r in H3, H4. done.
Qed.
End releases.

