(* ===== verification/RawFramePerf.v ===== *)
(** perf/raw_frame_perf.c: frames sent by CSAPs on up to four links, counted by
    the interfaces; the throughput of each link is compared with its speed. *)
From stdpp Require Import pretty.
From S2P Require Import Prelude Prog Te Locals NetDrvTs Resources Double.

Definition ETH_PREAMBLE_LEN : Z := 7.
Definition ETH_SFD_LEN : Z := 1.
Definition ETH_IPG_LEN : Z := 12.
Definition ETH_L1_SERVICE_LEN : Z := ETH_PREAMBLE_LEN + ETH_SFD_LEN + ETH_IPG_LEN.
Definition EPS : double := d_lit 1 100000.
Definition MIN_SPEED_MULTIPLIER : double := d_lit 1 100.
Definition RX_TX_PKTS_GAP : Z := 10.
Definition TEST_MAX_LINKS : Z := 4.
(** Of the C library. *)
Definition ETHER_HDR_LEN : Z := 14.
Definition ETHER_CRC_LEN : Z := 4.
Definition UINT_MAX : Z := 2 ^ 32 - 1.

(** A link, by what the environment of the test says of it. *)
Record rf_link := RfLink { rl_sender_if : string; rl_receiver_if : string; rl_sender_lladdr : list Z; rl_receiver_lladdr : list Z }.
(** ... and what was prepared to send on it: the elements of the arrays
    [link_speed_bps], [target_packets], [tmpls], [csap_send] and [csap_rx]. *)
Record rf_port := RfPort { pt_link : rf_link; pt_bps : Z; pt_target : Z; pt_tmpl : handle; pt_send : Z; pt_rx : Z }.
(** [csap_tp_stats]. *)
Record tp_stats := TpStats { tp_packets : Z; tp_drops : Z }.
(** Packets of a link by the counters of its interfaces: [tx_if_pkts] and [rx_if_pkts]. *)
Record rf_counts := RfCounts { rc_tx : Z; rc_rx : Z }.
(** Rates of a link: packets and bits on the wire per second. *)
Record rf_rates := RfRates { rt_tx_pps : double; rt_tx_l1 : double; rt_rx_pps : double; rt_rx_l1 : double }.

(** The local variables that the cleanup uses: the copies of the template. *)
Record rf_locals := RfLocals { rf_tmpls : list handle }.
Definition rf_start : rf_locals := RfLocals (replicate (Z.to_nat TEST_MAX_LINKS) 0).
Definition rf_set_tmpl (i : nat) (t : handle) (l : rf_locals) : rf_locals := RfLocals (<[i := t]> (rf_tmpls l)).

Definition if_counter_delta (before after : Z) : Z := if after <? before then 0 else after - before.

Definition calc_if_stats_delta (before after : if_stats) : if_stats :=
  let delta field := if_counter_delta (field before) (field after) in
  IfStats (delta in_octets) (delta in_ucast_pkts) (delta in_nucast_pkts) (delta in_discards) (delta in_errors)
    (delta in_unknown_protos) (delta out_octets) (delta out_ucast_pkts) (delta out_nucast_pkts) (delta out_discards)
    (delta out_errors).

(** A sum in an [uint64_t], and one in a [double]. *)
Definition u64_sum (l : list Z) : Z := fold_left (fun acc x => u64 (acc + x)) l 0.
Definition d_sum (l : list double) : double := fold_left d_add l (d_of_Z 0).

(** [payload_len], and the size of a frame on the wire in bits. *)
Definition payload_len (frame_size : Z) : Z := frame_size - ETHER_HDR_LEN - ETHER_CRC_LEN.
Definition pkt_l1_bits (frame_size : Z) : Z := u64 (u64 (frame_size + ETH_L1_SERVICE_LEN) * 8).

(** [(unsigned int)((double)load_duration / MIN_SPEED_MULTIPLIER) + 30]; the
    conversion is undefined out of range. *)
Definition send_timeout_s (load_duration : Z) : option Z :=
  z ← d_trunc (d_div (d_of_Z load_duration) MIN_SPEED_MULTIPLIER);
  if 0 <=? z then Some (u32 (z + 30)) else None.

Section functions.
Context {TE : Te}.

Definition log_summary_mi (tx_pps rx_pps tx_l1_bps rx_l1_bps : double) : M unit :=
  logger ← CHECK_OUT (call (te_mi_logger_meas_create "eth csap perf"));
  _ ← call (te_mi_logger_add_meas logger "PPS" "Tx" tx_pps);
  _ ← call (te_mi_logger_add_meas logger "PPS" "Rx" rx_pps);
  _ ← call (te_mi_logger_add_meas logger "THROUGHPUT" "Tx L1" tx_l1_bps);
  _ ← call (te_mi_logger_add_meas logger "THROUGHPUT" "Rx L1" rx_l1_bps);
  call (te_mi_logger_destroy logger).

Definition get_link_speed (ta if_name : string) : M Z :=
  '(rc, oper) ← call (tapi_cfg_phy_speed_oper_get ta if_name);
  speed ← (if negb (rc =? 0) || (oper =? TE_PHY_SPEED_UNKNOWN)
           then CHECK_OUT (call (tapi_cfg_phy_speed_admin_get ta if_name)) else mret oper);
  if speed =? TE_PHY_SPEED_UNKNOWN
  then TEST_FAIL "Failed to determine valid link speed on %s:%s" [AS ta; AS if_name]
  else mret speed.

Context (TE_EASNINCOMPLVAL : Z).

(** A field that may be absent is removed. *)
Definition free_subvalue (tmpl : handle) (label : string) : M unit :=
  rc ← call (asn_free_subvalue tmpl label);
  when (negb (rc =? 0) && negb (TE_RC_GET_ERROR rc =? TE_EASNINCOMPLVAL)) (CHECK_RC (mret rc)).

Definition prepare_template (tmpl : handle) (target_packets payload_len : Z) : M unit :=
  _ ← free_subvalue tmpl "arg-sets";
  _ ← free_subvalue tmpl "payload";
  _ ← free_subvalue tmpl "send-func";
  _ ← CHECK_RC (call (asn_write_value_field tmpl (ASN_INT payload_len) "payload.#length"));
  if UINT_MAX <? target_packets
  then TEST_FAIL "Calculated packets number %llu is too high" [AI target_packets]
  else
    f ← CHECK_OUT (call (te_snprintf ("tad_eth_flood:" +:+ pretty target_packets)));
    CHECK_RC (call (asn_write_string tmpl f "send-func")).

(** A counter of a CSAP that must not be negative. *)
Definition get_tp (ta : string) (csap : Z) (param : string) : M Z :=
  v ← CHECK_OUT (call (tapi_csap_param_get_llint ta csap param));
  if v <? 0 then TEST_VERDICT "CSAP parameter %s returned negative value" [AS param] else mret (u64 v).

Context (CSAP_PARAM_TP_PACKETS CSAP_PARAM_TP_DROPS CSAP_PARAM_FIRST_PACKET_TIME CSAP_PARAM_LAST_PACKET_TIME : string).

Definition get_csap_tp_stats (ta : string) (csap : Z) : M tp_stats :=
  packets ← get_tp ta csap CSAP_PARAM_TP_PACKETS;
  drops ← get_tp ta csap CSAP_PARAM_TP_DROPS;
  mret (TpStats packets drops).

Context (te_timersub : timeval -> timeval -> timeval).

(** The duration only: the other times are not used. *)
Definition get_timestamps (ta : string) (csap : Z) : M timeval :=
  first ← CHECK_OUT (call (tapi_csap_param_get_timestamp ta csap CSAP_PARAM_FIRST_PACKET_TIME));
  last ← CHECK_OUT (call (tapi_csap_param_get_timestamp ta csap CSAP_PARAM_LAST_PACKET_TIME));
  mret (te_timersub last first).

Definition set_template_eth_addrs (tmpl : handle) (dst src : list Z) : M unit :=
  _ ← CHECK_RC (call (asn_write_value_field tmpl (ASN_OCTETS (take (Z.to_nat ETHER_ADDR_LEN) dst)) "pdus.0.#eth.dst-addr.#plain"));
  CHECK_RC (call (asn_write_value_field tmpl (ASN_OCTETS (take (Z.to_nat ETHER_ADDR_LEN) src)) "pdus.0.#eth.src-addr.#plain")).

(** One look at the status of the sending CSAP. *)
Definition completion_pass (ta : string) (csap : Z) (if_name : string) (_ : Z) (_ : unit) : M (ctl unit unit) :=
  status ← CHECK_OUT (call (tapi_csap_get_status ta csap));
  if decide (status = CSAP_ERROR) then TEST_FAIL "Tx CSAP reported error on %s" [AS if_name]
  else if decide (status = CSAP_BUSY)
  then _ ← call (te_motivated_sleep 1); mret (Continue tt)
  else mret (Return tt).

Definition wait_send_completion (ta : string) (csap : Z) (if_name : string) (timeout_s : Z) : M unit :=
  r ← for_n (Z.to_nat timeout_s) 0 tt (completion_pass ta csap if_name);
  match r with
  | inr _ => mret tt
  | inl _ => TEST_FAIL "Tx CSAP did not complete on %s within %u seconds" [AS if_name; AI timeout_s]
  end.

(** More packets received than sent: background traffic, which is not counted. *)
Definition clamp_rx (what : string) (rx tx : Z) : M Z :=
  if tx <? rx then _ ← when (RX_TX_PKTS_GAP <? rx - tx) (ERROR_VERDICT what []); mret tx else mret rx.
End functions.

(** ** The test *)
Section test.
Context {TE : Te} (TE_EASNINCOMPLVAL : Z).
Context (CSAP_PARAM_TP_PACKETS CSAP_PARAM_TP_DROPS CSAP_PARAM_FIRST_PACKET_TIME CSAP_PARAM_LAST_PACKET_TIME : string).
(** Macros and functions of TE: duration, megaunits to units (as an [uint64_t]),
    the quotient rounded up, seconds to microseconds. *)
Context (te_timersub : timeval -> timeval -> timeval) (TE_UNITS_DEC_M2U TE_SEC2US : Z -> Z) (TE_DIV_ROUND_UP : Z -> Z -> Z).
Context (iut_rpcs server_rpcs client_rpcs : rcf_rpc_server) (frame_size load_duration : Z) (max_loss_pct : double) (tmpl : handle).

Local Abbreviation sender_ta := (rpcs_ta client_rpcs).
Local Abbreviation receiver_ta := (rpcs_ta server_rpcs).
Definition iut_is_sender : bool := String.eqb sender_ta (rpcs_ta iut_rpcs).

(** The link of number [i], if the environment has one. *)
Definition rf_link_pass (i : Z) (ls : list rf_link) : M (ctl (list rf_link) unit) :=
  s ← call (tapi_env_get_if ("server_if" +:+ pretty i));
  match s with
  | None => mret (Break ls)
  | Some server_if =>
      c ← call (tapi_env_get_if ("client_if" +:+ pretty i));
      match c with
      | None => raise IS_NULL
      | Some client_if =>
          sl ← CHECK_OUT (call (tapi_cfg_base_if_get_link_addr sender_ta client_if));
          rl ← CHECK_OUT (call (tapi_cfg_base_if_get_link_addr receiver_ta server_if));
          mret (Continue (ls ++ [RfLink client_if server_if sl rl]))
      end
  end.

Definition get_links : M (list rf_link) :=
  r ← for_n (Z.to_nat TEST_MAX_LINKS) 0 [] rf_link_pass;
  match r with inl ls => mret ls | inr _ => mret [] end.

(** The interface of the IUT on a link. *)
Definition iut_if_of (l : rf_link) : string := if iut_is_sender then rl_sender_if l else rl_receiver_if l.

(** Template, CSAPs and number of packets of a link. *)
Definition target_of (bps : Z) : Z := TE_DIV_ROUND_UP (u64 (bps * u64 load_duration)) (pkt_l1_bits frame_size).

Definition prepare_port (il : nat * rf_link) : T rf_locals rf_port :=
  let '(i, l) := il in
  speed ← lift (get_link_speed (rpcs_ta iut_rpcs) (iut_if_of l));
  let bps := TE_UNITS_DEC_M2U speed in
  let target := target_of bps in
  t ← lift (call (asn_copy_value tmpl));
  _ ← modify (rf_set_tmpl i t);
  _ ← (if t =? 0 then lift (TEST_VERDICT "Failed to copy traffic template" []) else mret tt);
  _ ← lift (prepare_template TE_EASNINCOMPLVAL t target (payload_len frame_size));
  _ ← lift (set_template_eth_addrs t (rl_receiver_lladdr l) (rl_sender_lladdr l));
  send ← lift (CHECK_OUT (call (tapi_eth_based_csap_create_by_tmpl sender_ta (rl_sender_if l) TAD_ETH_RECV_NO t)));
  rx ← lift (CHECK_OUT (call (tapi_eth_based_csap_create_by_tmpl receiver_ta (rl_receiver_if l) TAD_ETH_RECV_DEF t)));
  mret (RfPort l bps target t send rx).

(** The counters of both interfaces of a link. *)
Definition get_if_stats (p : rf_port) : M (if_stats * if_stats) :=
  s ← CHECK_OUT (call (tapi_cfg_stats_if_stats_get sender_ta (rl_sender_if (pt_link p))));
  r ← CHECK_OUT (call (tapi_cfg_stats_if_stats_get receiver_ta (rl_receiver_if (pt_link p))));
  mret (s, r).

(** Stop a receiving CSAP: the packets it captured. *)
Definition stop_rx (p : rf_port) : M Z :=
  n ← CHECK_OUT (call (tapi_tad_trrecv_stop_count receiver_ta (pt_rx p)));
  n' ← clamp_rx "Rx CSAP captured more packets than were requested" n (pt_target p);
  mret (u32 n').

(** Count the packets of a link. *)
Definition count_link (pb : rf_port * (if_stats * if_stats)) : M rf_counts :=
  let '(p, (sender_before, receiver_before)) := pb in
  '(sender_after, receiver_after) ← get_if_stats p;
  let sender_diff := calc_if_stats_delta sender_before sender_after in
  let receiver_diff := calc_if_stats_delta receiver_before receiver_after in
  let tx := out_ucast_pkts sender_diff in
  rx ← clamp_rx "Rx interface counted more packets than Tx interface"
         (u64 (in_ucast_pkts receiver_diff + in_discards receiver_diff)) tx;
  mret (RfCounts tx rx).

(** Packets dropped before the CSAP, and packets it has seen. *)
Definition csap_seen (x : rf_port * (Z * rf_counts)) : M (Z * Z) :=
  let '(p, (csap_pkts, c)) := x in
  st ← get_csap_tp_stats CSAP_PARAM_TP_PACKETS CSAP_PARAM_TP_DROPS receiver_ta (pt_rx p);
  let raw := if csap_pkts =? 0 then 0 else u64 (csap_pkts + tp_drops st) in
  mret (tp_drops st, Z.min raw (rc_tx c)).

(** The time a link was sent on, in seconds; its rates, if it is not zero. *)
Definition tx_time_s (dur : timeval) : double :=
  d_add (d_of_Z (tv_seconds dur)) (d_div (d_of_Z (tv_useconds dur)) (d_of_Z (TE_SEC2US 1))).

Definition rates_of (time : double) (c : rf_counts) : option rf_rates :=
  if d_gtb time (d_of_Z 0) then
    let tx_pps := d_div (d_of_Z (rc_tx c)) time in
    let rx_pps := d_div (d_of_Z (rc_rx c)) time in
    Some (RfRates tx_pps (d_mul tx_pps (d_of_Z (pkt_l1_bits frame_size)))
                  rx_pps (d_mul rx_pps (d_of_Z (pkt_l1_bits frame_size))))
  else None.

Definition link_rates (pc : rf_port * rf_counts) : M (option rf_rates) :=
  let '(p, c) := pc in
  dur ← get_timestamps CSAP_PARAM_FIRST_PACKET_TIME CSAP_PARAM_LAST_PACKET_TIME te_timersub sender_ta (pt_send p);
  mret (rates_of (tx_time_s dur) c).

(** [loss_pkts] and [loss_pct]. *)
Definition loss_pkts (cs : list rf_counts) : Z :=
  s64 (s64 (u64_sum (map rc_tx cs)) - s64 (u64_sum (map rc_rx cs))).
Definition loss_pct (cs : list rf_counts) : double :=
  let tx := u64_sum (map rc_tx cs) in
  if 0 <? tx then d_div (d_mul (d_of_Z (loss_pkts cs)) (d_of_Z 100)) (d_of_Z tx) else d_of_Z 0.

(** The rate that is checked: the one of the side that is not the IUT. *)
Definition checked_l1_bps (r : option rf_rates) : double :=
  match r with
  | Some r => if iut_is_sender then rt_rx_l1 r else rt_tx_l1 r
  | None => d_of_Z 0
  end.
Definition min_l1_bps (p : rf_port) : double := d_mul (d_of_Z (pt_bps p)) MIN_SPEED_MULTIPLIER.

Definition judge_link (pr : rf_port * option rf_rates) : M unit :=
  let '(p, r) := pr in
  if d_ltb (checked_l1_bps r) EPS then TEST_VERDICT "Zero IUT throughput in checked direction" []
  else if d_ltb (checked_l1_bps r) (min_l1_bps p)
  then TEST_VERDICT "IUT throughput is too low in checked direction" []
  else mret tt.

(** Names for the diagnostics of the links whose CSAPs saw something else than
    their interfaces, if any did. *)
Definition diagnose (csap_pkts : list Z) (seen : list (Z * Z)) (cs : list rf_counts) : M unit :=
  let rx_total := u64_sum (map rc_rx cs) in
  when ((0 <? u64_sum (map fst seen)) || negb (u64_sum csap_pkts =? rx_total) || negb (u64_sum (map snd seen) =? rx_total))
    (_ ← m_map (fun x : nat * (Z * (Z * Z * rf_counts)) =>
        let '(i, (n, (drops, s, c))) := x in
        when (negb ((drops =? 0) && (n =? rc_rx c) && (s =? rc_rx c)))
          (_ ← CHECK_OUT (call (te_snprintf ("Link #" +:+ pretty (Z.of_nat i)))); mret tt))
        (zip (seq 0 (length cs)) (zip csap_pkts (zip seen cs)));
     mret tt).

(** Everything between the preparation of the links and the verdicts. *)
Definition rf_measure (timeout : Z) (ps : list rf_port) : M (list Z * list rf_counts * list (Z * Z) * list (option rf_rates)) :=
  _ ← m_map (fun p => CHECK_RC (call (tapi_tad_trrecv_start_count receiver_ta (pt_rx p)))) ps;
  _ ← CHECK_RC (call tapi_env_stats_gather);
  before ← m_map get_if_stats ps;
  _ ← m_map (fun p => CHECK_RC (call (tapi_tad_trsend_start sender_ta (pt_send p) (pt_tmpl p)))) ps;
  _ ← m_map (fun p => wait_send_completion sender_ta (pt_send p) (rl_sender_if (pt_link p)) timeout) ps;
  _ ← call (te_motivated_msleep TAPI_WAIT_NETWORK_DELAY);
  csap_pkts ← m_map stop_rx ps;
  _ ← call (te_motivated_sleep 2);
  cs ← m_map count_link (zip ps before);
  seen ← m_map csap_seen (zip ps (zip csap_pkts cs));
  rates ← m_map link_rates (zip ps cs);
  mret (csap_pkts, cs, seen, rates).

(** The verdicts, and the rates that are reported. *)
Definition rf_verdicts (cs : list rf_counts) (rates : list (option rf_rates)) (ps : list rf_port)
    (csap_pkts : list Z) (seen : list (Z * Z)) : M unit :=
  let sum f := d_sum (map f (omap id rates)) in
  _ ← m_map judge_link (zip ps rates);
  _ ← diagnose csap_pkts seen cs;
  _ ← log_summary_mi (sum rt_tx_pps) (sum rt_rx_pps) (sum rt_tx_l1) (sum rt_rx_l1);
  when (d_gtb (loss_pct cs) max_loss_pct) (ERROR_VERDICT "Frame loss exceeds configured threshold" []).

Definition raw_frame_body : T rf_locals unit :=
  _ ← lift (CHECK_RC (call (tapi_ndn_subst_env tmpl)));
  links ← lift get_links;
  _ ← (if (length links =? 0)%nat then lift (TEST_FAIL "No server/client interface pairs found in env" []) else mret tt);
  _ ← (if payload_len frame_size <=? 0
       then lift (TEST_FAIL "frame_size %d is too small for Ethernet overhead" [AI frame_size]) else mret tt);
  timeout ← lift (match send_timeout_s load_duration with
                  | Some t => mret t
                  | None => undef "conversion of a double out of range"
                  end);
  ps ← t_map (zip (seq 0 (length links)) links) prepare_port;
  lift ('(csap_pkts, cs, seen, rates) ← rf_measure timeout ps; rf_verdicts cs rates ps csap_pkts seen).

Definition raw_frame_cleanup (l : rf_locals) : M bool :=
  also (cleanup_rc (call tapi_tad_csap_destroy_all))
    (_ ← m_map (fun t => call (asn_free_value t)) (rf_tmpls l);
     _ ← call (asn_free_value tmpl);
     cleanup_rc (call tapi_env_stats_gather_and_log_diff)).

Definition raw_frame_perf_main : M status := test_main rf_start raw_frame_body raw_frame_cleanup.
End test.

(** ** What the test gives back *)

(** Structures that are allocated, whether one was freed that was not, CSAPs
    that exist, and whether their destruction failed. *)
Record rf_held := RfHeld { rf_live : list handle; rf_bad : bool; rf_csaps : list (string * Z); rf_undone : bool }.

Definition rf_alloc (h : handle) (g : rf_held) : rf_held :=
  if h =? 0 then g else RfHeld (h :: rf_live g) (rf_bad g) (rf_csaps g) (rf_undone g).
Definition rf_free (h : handle) (g : rf_held) : rf_held :=
  if h =? 0 then g
  else RfHeld (drop_one h (rf_live g)) (rf_bad g || negb (bool_decide (h ∈ rf_live g))) (rf_csaps g) (rf_undone g).
Definition rf_new_csap (ta : string) (x : te_errno * Z) (g : rf_held) : rf_held :=
  if fst x =? 0 then RfHeld (rf_live g) (rf_bad g) ((ta, snd x) :: rf_csaps g) (rf_undone g) else g.
Definition rf_no_csaps (rc : te_errno) (g : rf_held) : rf_held :=
  if rc =? 0 then RfHeld (rf_live g) (rf_bad g) [] (rf_undone g) else RfHeld (rf_live g) (rf_bad g) (rf_csaps g) true.

Definition rf_upd X (c : te_call X) : X -> rf_held -> rf_held :=
  match c in te_call X return X -> rf_held -> rf_held with
  | asn_copy_value _ => rf_alloc
  | asn_free_value h => fun _ => rf_free h
  | tapi_eth_based_csap_create_by_tmpl ta _ _ _ => rf_new_csap ta
  | tapi_tad_csap_destroy_all => rf_no_csaps
  | _ => fun _ g => g
  end.

(** Calls that allocate and free nothing. *)
Definition asn_free X (c : te_call X) : bool :=
  match c with asn_copy_value _ | asn_free_value _ => false | _ => true end.

Local Abbreviation R := (watch (C := te_call) rf_upd).

(** The pointers of an array that are not null. *)
Definition nz (l : list handle) : list handle := filter (fun h => h <> 0) l.

Lemma nz_insert l i h : l !! i = Some 0 -> h <> 0 -> nz (<[i := h]> l) ≡ₚ h :: nz l.
Proof.
  intros Hi Hh. rewrite (insert_take_drop l i h) by (by apply lookup_lt_Some in Hi). unfold nz.
  rewrite <- (take_drop_middle l i 0 Hi) at 3. rewrite !filter_app, !filter_cons.
  rewrite decide_True by done. rewrite decide_False by (intros H; by apply H).
  by rewrite Permutation_middle.
Qed.

Section releases.
Context {TE : Te} (TE_EASNINCOMPLVAL : Z).
Context (CSAP_PARAM_TP_PACKETS CSAP_PARAM_TP_DROPS CSAP_PARAM_FIRST_PACKET_TIME CSAP_PARAM_LAST_PACKET_TIME : string).
Context (te_timersub : timeval -> timeval -> timeval) (TE_UNITS_DEC_M2U TE_SEC2US : Z -> Z) (TE_DIV_ROUND_UP : Z -> Z -> Z).
Context (iut_rpcs server_rpcs client_rpcs : rcf_rpc_server) (frame_size load_duration : Z) (max_loss_pct : double) (tmpl : handle).

(** What is allocated is the template and the copies in the array. *)
Definition rf_owns (L : rf_locals) (g : rf_held) : Prop :=
  rf_bad g = false /\ rf_live g ≡ₚ nz (tmpl :: rf_tmpls L).
(** ... the elements from the [i]-th on being null. *)
Definition rf_filled (i : nat) (L : rf_locals) (g : rf_held) : Prop :=
  rf_owns L g /\ length (rf_tmpls L) = 4%nat /\ forall j, (i <= j < 4)%nat -> rf_tmpls L !! j = Some 0.

Lemma asn_free_upd X (c : te_call X) x g : asn_free X c = true ->
  rf_live (rf_upd X c x g) = rf_live g /\ rf_bad (rf_upd X c x g) = rf_bad g.
Proof.
  intros Hc. destruct c; try done; cbn [rf_upd]; [unfold rf_new_csap; by destruct (fst x =? 0)|unfold rf_no_csaps; by destruct (x =? 0)].
Qed.

Lemma asn_free_wp {A} (p : M A) (P : rf_held -> Prop) g :
  only asn_free any_jump p -> (forall g g', rf_live g' = rf_live g -> rf_bad g' = rf_bad g -> P g -> P g') -> P g ->
  wp R p g (fun r g' => P g' /\ match r with Undef _ => False | _ => True end).
Proof.
  intros Ho HP Hg. eapply wp_mono; [apply (wp_only asn_free any_jump R P); [exact Ho| |exact Hg]|].
  - intros X c s x s' Hc Hs ->. destruct (asn_free_upd X c x s Hc). by eapply HP.
  - intros [a|j|w|] g' [H1 H2]; auto.
Qed.

Lemma rf_owns_same L g g' : rf_live g' = rf_live g -> rf_bad g' = rf_bad g -> rf_owns L g -> rf_owns L g'.
Proof. unfold rf_owns. by intros -> ->. Qed.

Lemma st_asn_free {A B} (F : rf_locals -> rf_held -> Prop) (G : B -> rf_locals -> rf_held -> Prop) i (p : M A)
    (f : A -> T rf_locals B) L g :
  only asn_free any_jump p -> rf_filled i L g -> (forall g', rf_filled i L g' -> F L g') ->
  (forall a g', rf_filled i L g' -> wp R (f a L) g' (upto F G)) ->
  wp R (mbind f (lift p) L) g (upto F G).
Proof.
  intros Ho HL HF Hf. apply st_call. eapply wp_mono.
  - apply (asn_free_wp p (rf_filled i L)); [exact Ho| |exact HL].
    intros g1 g2 E1 E2 [H H']. split; [by eapply rf_owns_same|exact H'].
  - intros [a|j|w|] g' [H Hr]; auto.
Qed.

Lemma prepare_port_wp i l L g : (i < 4)%nat -> rf_filled i L g ->
  wp R (prepare_port TE_EASNINCOMPLVAL TE_UNITS_DEC_M2U TE_DIV_ROUND_UP iut_rpcs server_rpcs client_rpcs frame_size load_duration tmpl (i, l) L)
    g (upto rf_owns (fun _ => rf_filled (S i))).
Proof.
  intros Hi HL. unfold prepare_port. assert (Hfin : forall k g', rf_filled k L g' -> rf_owns L g') by (by intros k g' [H _]).
  apply (st_asn_free _ _ i); [unfold get_link_speed; solve_only|done|by apply Hfin|]. intros speed g1 H1. clear g HL.
  apply st_call, wp_call. intros t g2 ->. cbn [rf_upd]. apply st_modify.
  assert (H2 : rf_filled (S i) (rf_set_tmpl i t L) (rf_alloc t g1)).
  { destruct H1 as ([Hb Hl] & Hn & Hz). unfold rf_alloc. destruct (Z.eqb_spec t 0) as [->|Ht].
    - assert (E : rf_set_tmpl i 0 L = L).
      { destruct L as [ts]. unfold rf_set_tmpl. cbn in *. f_equal. apply list_insert_id, Hz. lia. }
      rewrite E. split; [done|]. split; [done|]. intros j Hj. apply Hz. lia.
    - split; [split; [exact Hb|]|split; cbn [rf_tmpls rf_set_tmpl]].
      + cbn [rf_live rf_tmpls rf_set_tmpl]. rewrite Hl. unfold nz. rewrite !filter_cons.
        pose proof (nz_insert (rf_tmpls L) i t (Hz i ltac:(lia)) Ht) as E. unfold nz in E.
        destruct (decide (tmpl <> 0)); rewrite E; [apply perm_swap|done].
      + by rewrite length_insert.
      + intros j Hj. rewrite list_lookup_insert_ne by lia. apply Hz. lia. }
  set (L2 := rf_set_tmpl i t L) in *. clearbody L2. set (g2 := rf_alloc t g1) in *. clearbody g2. clear H1 g1 Hfin L.
  assert (Hfin : forall g', rf_filled (S i) L2 g' -> rf_owns L2 g') by (by intros g' [H _]).
  apply st_bind. destruct (t =? 0); [cbn; by apply Hfin|]. cbn [mret T_ret wp prog_ret upto].
  do 4 (apply (st_asn_free _ _ (S i));
    [unfold prepare_template, free_subvalue, set_template_eth_addrs; solve_only|done|done|intros ? g3 H3; clear g2 H2; rename g3 into g2, H3 into H2]).
  exact H2.
Qed.

Lemma get_links_wp (P : rf_held -> Prop) g : (forall g g', rf_live g' = rf_live g -> rf_bad g' = rf_bad g -> P g -> P g') -> P g ->
  wp R (get_links server_rpcs client_rpcs) g (fun r g' => P g' /\ match r with Val ls => (length ls <= 4)%nat | Undef _ => False | _ => True end).
Proof.
  intros HP Hg. unfold get_links. apply wp_bind.
  apply (wp_for_n _ _ _ _ _ _ _ (fun i ls g' => P g' /\ Z.of_nat (length ls) = i)).
  - by split.
  - intros i ls g' Hi [Hg' Hl]. eapply wp_mono.
    { apply (wp_and _ _ _ (fun r _ => match r with Val (Continue ls') => length ls' = S (length ls) | Val (Break ls') => ls' = ls | Val (Return _) => False | _ => True end)).
      - unfold rf_link_pass. wp_go; destruct x as [server_if|]; wp_go; [|done]. destruct x as [client_if|]; wp_go; try done. by rewrite length_app, Nat.add_comm.
      - apply (asn_free_wp _ P); [unfold rf_link_pass; solve_only|done|exact Hg']. }
    intros [[ls'|ls'|[]]|j|w|] g2 [H [H2 H3]]; cbn in *; try done.
    + split; [done|]. lia.
    + split; [done|]. change (Z.to_nat TEST_MAX_LINKS) with 4%nat in Hi. subst ls'. lia.
  - intros ls g' [Hg' Hl]. cbn. split; [done|]. change (Z.to_nat TEST_MAX_LINKS) with 4%nat in Hl. lia.
Qed.

Lemma measure_free timeout ps : only asn_free any_jump
  (rf_measure CSAP_PARAM_TP_PACKETS CSAP_PARAM_TP_DROPS CSAP_PARAM_FIRST_PACKET_TIME CSAP_PARAM_LAST_PACKET_TIME te_timersub TE_SEC2US
     server_rpcs client_rpcs frame_size timeout ps).
Proof.
  unfold rf_measure, get_if_stats, stop_rx, count_link, csap_seen, link_rates, wait_send_completion, completion_pass, clamp_rx,
    get_csap_tp_stats, get_tp, get_timestamps, get_if_stats. solve_only.
Qed.

Lemma verdicts_free cs rates ps csap_pkts seen : only asn_free any_jump
  (rf_verdicts iut_rpcs client_rpcs max_loss_pct cs rates ps csap_pkts seen).
Proof. unfold rf_verdicts, judge_link, diagnose, log_summary_mi. solve_only. Qed.

(** Everything allocated is freed, once. *)
Lemma free_all_wp (l rest : list Z) g : rf_bad g = false -> rf_live g ≡ₚ rest ++ nz l ->
  wp R (m_map (fun t => call (asn_free_value t)) l) g
    (fun r g' => match r with Val _ => rf_bad g' = false /\ rf_live g' ≡ₚ rest /\ rf_csaps g' = rf_csaps g /\ rf_undone g' = rf_undone g | _ => False end).
Proof.
  revert g. induction l as [|h l IH]; intros g Hb Hl; cbn [m_map].
  - cbn. by rewrite Hl, app_nil_r.
  - apply wp_bind, wp_call. intros [] g' ->. cbn [bpost rf_upd]. unfold nz in Hl. rewrite filter_cons in Hl. unfold rf_free.
    apply wp_bind. destruct (Z.eqb_spec h 0) as [->|Hh].
    + rewrite decide_False in Hl by (intros H; by apply H). eapply wp_mono; [by apply IH|]. by intros [ys| | |] g' H.
    + rewrite decide_True in Hl by done. assert (Hin : h ∈ rf_live g).
      { rewrite Hl, elem_of_app. right. apply list_elem_of_here. }
      eapply wp_mono; [apply IH; cbn; [by rewrite Hb, bool_decide_true by exact Hin|]|].
      * apply (Permutation_cons_inv (a := h)). rewrite <- drop_one_perm by exact Hin. rewrite Hl. by rewrite Permutation_middle.
      * by intros [ys| | |] g' H.
Qed.

Lemma free_handle_wp h rest g (Q : unit -> rf_held -> Prop) : rf_bad g = false -> rf_live g ≡ₚ nz (h :: rest) ->
  (forall g', rf_bad g' = false -> rf_live g' ≡ₚ nz rest -> rf_csaps g' = rf_csaps g -> rf_undone g' = rf_undone g -> Q tt g') -> Q tt (rf_free h g).
Proof.
  intros Hb Hl HQ. unfold nz in Hl. rewrite filter_cons in Hl. unfold rf_free. destruct (Z.eqb_spec h 0) as [->|Hh].
  - rewrite decide_False in Hl by (intros H; by apply H). by apply HQ.
  - rewrite decide_True in Hl by done. assert (Hin : h ∈ rf_live g) by (rewrite Hl; apply list_elem_of_here).
    apply HQ; cbn; [by rewrite Hb, bool_decide_true by exact Hin| |done|done].
    apply (Permutation_cons_inv (a := h)). by rewrite <- drop_one_perm by exact Hin.
Qed.

Lemma raw_frame_cleanup_wp L g : rf_owns L g ->
  wp R (raw_frame_cleanup tmpl L) g
    (fun r g' => match r with Val _ => rf_live g' = [] /\ rf_bad g' = false /\ (rf_csaps g' = [] \/ rf_undone g' = true) | _ => False end).
Proof.
  intros [Hb Hl]. unfold raw_frame_cleanup, also, cleanup_rc. do 2 apply wp_bind. apply wp_call. intros rc g1 ->.
  cbn [rf_upd bpost]. set (g1 := rf_no_csaps rc g).
  assert (H1 : rf_bad g1 = false /\ rf_live g1 ≡ₚ nz (tmpl :: rf_tmpls L) /\ (rf_csaps g1 = [] \/ rf_undone g1 = true)).
  { subst g1. unfold rf_no_csaps. destruct (rc =? 0); cbn; auto. }
  clearbody g1. destruct H1 as (Hb1 & Hl1 & Hc1). wp_step. cbn [bpost]. do 2 wp_step.
  eapply wp_mono; [apply (free_all_wp _ (nz [tmpl])); [exact Hb1|]|].
  - rewrite Hl1. unfold nz. rewrite !filter_cons. by destruct (decide _).
  - intros [ys| | |] g2 H; try done. destruct H as (Hb2 & Hl2 & Ec & Eu). cbn [bpost]. wp_step. apply wp_call.
    intros [] g3 ->. cbn [rf_upd bpost]. wp_step. apply wp_call. intros rc3 g4 ->. cbn.
    apply (free_handle_wp tmpl [] g2 (fun _ g' => rf_live g' = [] /\ rf_bad g' = false /\ (rf_csaps g' = [] \/ rf_undone g' = true))); [done|done|].
    intros g' Hb' Hl' Ec' Eu'. rewrite Ec', Eu', Ec, Eu. split; [|done]. by apply Permutation_nil_r in Hl'.
Qed.

(** However the test ends, every copy of the template and the template itself
    have been freed, none of them twice, and no CSAP is left unless their
    destruction failed. *)
Theorem raw_frame_perf_releases : send_timeout_s load_duration <> None ->
  wp R (raw_frame_perf_main TE_EASNINCOMPLVAL CSAP_PARAM_TP_PACKETS CSAP_PARAM_TP_DROPS CSAP_PARAM_FIRST_PACKET_TIME
          CSAP_PARAM_LAST_PACKET_TIME te_timersub TE_UNITS_DEC_M2U TE_SEC2US TE_DIV_ROUND_UP iut_rpcs server_rpcs client_rpcs
          frame_size load_duration max_loss_pct tmpl)
    (RfHeld (nz [tmpl]) false [] false)
    (fun r g => match r with
     | Val _ => rf_live g = [] /\ rf_bad g = false /\ (rf_csaps g = [] \/ rf_undone g = true)
     | NoFuel => True
     | _ => False
     end).
Proof.
  intros Ht. unfold raw_frame_perf_main. apply (test_main_keeps R (rf_filled 0) rf_owns (fun g => rf_live g = [] /\ rf_bad g = false /\ (rf_csaps g = [] \/ rf_undone g = true))).
  - split; [split; [done|]|split; [done|]].
    + unfold nz. cbn [rf_tmpls rf_start rf_live]. rewrite (filter_cons _ tmpl (replicate _ _)), filter_cons. by destruct (decide _).
    + intros j Hj. by destruct j as [|[|[|[|j]]]]; [..|lia].
  - intros L g HL. unfold raw_frame_body. assert (Hfin : forall g', rf_filled 0 L g' -> rf_owns L g') by (by intros g' [H _]).
    apply (st_asn_free _ _ 0); [solve_only|done|done|]. intros _ g1 H1. clear g HL. apply st_call.
    eapply wp_mono; [apply (get_links_wp (rf_filled 0 L)); [|exact H1]|].
    { intros g g' E1 E2 [H H']. split; [by eapply rf_owns_same|done]. }
    intros [links|j|w|] g2 [H2 Hlen]; try done; [|by apply Hfin]. clear g1 H1.
    apply st_bind. destruct (length links =? 0)%nat; [by apply Hfin|]. cbn [mret T_ret wp prog_ret upto].
    apply st_bind. destruct (payload_len frame_size <=? 0); [by apply Hfin|]. cbn [mret T_ret wp prog_ret upto].
    destruct (send_timeout_s load_duration) as [timeout|] eqn:E; [|done]. apply st_call. cbn [mret prog_ret wp]. apply st_bind.
    eapply wp_mono; [apply (st_map _ rf_owns _ _ (fun pre _ L' g' => rf_filled (length pre) L' g')); [exact H2|]|].
    { intros pre [i l] post ys L' g' El H'. rewrite length_app, Nat.add_comm. assert (Hi : i = length pre /\ (i < length links)%nat).
      { apply (f_equal (fmap fst)) in El. rewrite fst_zip, fmap_app, fmap_cons in El by (by rewrite length_seq).
        apply seq_split in El. by rewrite length_fmap in El. }
      destruct Hi as [Ei Hi]. rewrite <- Ei in *. apply prepare_port_wp; [lia|exact H']. }
    intros [[L' [ps|j]]| | |] g3 H3; cbn [upto] in *; try done. unfold lift. apply wp_bind, wp_attempt.
    eapply wp_mono; [apply (asn_free_wp _ (rf_owns L'))|].
    + apply only_bind; [apply measure_free|]. intros [[[a b] c] d]. apply verdicts_free.
    + intros; by eapply rf_owns_same.
    + by destruct H3.
    + intros [a|j|w|] g4 [H4 H5]; cbn; auto.
  - intros L g HL. eapply wp_mono; [by apply raw_frame_cleanup_wp|]. by intros [a| | |] g' H.
Qed.
End releases.

(** ** What passing shows *)

(** The network of a run: the interfaces that the environment of the test names,
    the speed of an interface, its counters before and after frames are sent,
    the CSAPs created on it, what they captured and their time stamps. *)
Record rf_net := RfNet {
  n_if : string -> option string; n_speed : string -> string -> Z; n_count : bool -> string -> string -> if_stats;
  n_csap : string -> string -> eth_recv_mode -> Z; n_captured : string -> Z -> Z; n_stamp : string -> Z -> string -> timeval }.

(** Whether frames have been sent, and the verdicts of errors so far. *)
Record rf_seen := RfSeen { sn_sent : bool; sn_errors : list string }.

Section passes.
Context {TE : Te} (TE_EASNINCOMPLVAL : Z).
Context (CSAP_PARAM_TP_PACKETS CSAP_PARAM_TP_DROPS CSAP_PARAM_FIRST_PACKET_TIME CSAP_PARAM_LAST_PACKET_TIME : string).
Context (te_timersub : timeval -> timeval -> timeval) (TE_UNITS_DEC_M2U TE_SEC2US : Z -> Z) (TE_DIV_ROUND_UP : Z -> Z -> Z).
Context (iut_rpcs server_rpcs client_rpcs : rcf_rpc_server) (frame_size load_duration : Z) (max_loss_pct : double) (tmpl : handle).
Context (n : rf_net).

Local Abbreviation sender_ta := (rpcs_ta client_rpcs).
Local Abbreviation receiver_ta := (rpcs_ta server_rpcs).
Local Abbreviation prepare := (prepare_port TE_EASNINCOMPLVAL TE_UNITS_DEC_M2U TE_DIV_ROUND_UP iut_rpcs server_rpcs client_rpcs frame_size load_duration tmpl).

Definition rf_ok X (c : te_call X) : rf_seen -> X -> Prop :=
  match c in te_call X return rf_seen -> X -> Prop with
  | tapi_env_get_if name => fun _ x => x = n_if n name
  | tapi_cfg_phy_speed_oper_get ta ifn => fun _ x => fst x = 0 -> snd x = TE_PHY_SPEED_UNKNOWN \/ snd x = n_speed n ta ifn
  | tapi_cfg_phy_speed_admin_get ta ifn => fun _ x => fst x = 0 -> snd x = TE_PHY_SPEED_UNKNOWN \/ snd x = n_speed n ta ifn
  | tapi_eth_based_csap_create_by_tmpl ta ifn mode _ => fun _ x => fst x = 0 -> snd x = n_csap n ta ifn mode
  | tapi_cfg_stats_if_stats_get ta ifn => fun s x => fst x = 0 -> snd x = n_count n (sn_sent s) ta ifn
  | tapi_tad_trrecv_stop_count ta csap => fun _ x => fst x = 0 -> snd x = n_captured n ta csap
  | tapi_csap_param_get_timestamp ta csap p => fun _ x => fst x = 0 -> snd x = n_stamp n ta csap p
  | _ => fun _ _ => True
  end.

Definition rf_see X (c : te_call X) : X -> rf_seen -> rf_seen :=
  match c in te_call X return X -> rf_seen -> rf_seen with
  | tapi_tad_trsend_start _ _ _ => fun rc s => RfSeen ((rc =? 0) || sn_sent s) (sn_errors s)
  | verdict ERROR_V m => fun _ s => RfSeen (sn_sent s) (sn_errors s ++ [msg_fmt m])
  | _ => fun _ s => s
  end.

Definition W : env te_call rf_seen := watch_if rf_ok rf_see.

Definition rf_quiet X (c : te_call X) : bool :=
  match c with tapi_tad_trsend_start _ _ _ | verdict _ _ => false | _ => true end.

Lemma rf_quiet_upd X (c : te_call X) x s : rf_quiet X c = true -> rf_see X c x s = s.
Proof. by destruct c. Qed.

(** *** The reference *)

(** The links: a sender and a receiver each, while there is a server. *)
Fixpoint links_from (m : nat) (i : Z) : list (string * string) :=
  match m with
  | O => []
  | S m =>
      match n_if n ("server_if" +:+ pretty i), n_if n ("client_if" +:+ pretty i) with
      | Some r, Some s => (s, r) :: links_from m (i + 1)
      | _, _ => []
      end
  end.
Definition the_links : list (string * string) := links_from 4 0.

(** How much a counter grew while frames were sent. *)
Definition grown (field : if_stats -> Z) (ta ifn : string) : Z :=
  Z.max 0 (field (n_count n true ta ifn) - field (n_count n false ta ifn)).

Definition sent (l : string * string) : Z := grown out_ucast_pkts sender_ta (fst l).
Definition counted (l : string * string) : Z := grown in_ucast_pkts receiver_ta (snd l) + grown in_discards receiver_ta (snd l).
Definition arrived (l : string * string) : Z := Z.min (counted l) (sent l).

Definition speed_of (l : string * string) : Z :=
  TE_UNITS_DEC_M2U (n_speed n (rpcs_ta iut_rpcs) (if iut_is_sender iut_rpcs client_rpcs then fst l else snd l)).
Definition time_of (l : string * string) : double :=
  let csap := n_csap n sender_ta (fst l) TAD_ETH_RECV_NO in
  tx_time_s TE_SEC2US (te_timersub (n_stamp n sender_ta csap CSAP_PARAM_LAST_PACKET_TIME)
                                    (n_stamp n sender_ta csap CSAP_PARAM_FIRST_PACKET_TIME)).

(** Bits on the wire per second at the side that is checked. *)
Definition wire_rate (l : string * string) : double :=
  let pkts := if iut_is_sender iut_rpcs client_rpcs then arrived l else sent l in
  if d_gtb (time_of l) (d_of_Z 0)
  then d_mul (d_div (d_of_Z pkts) (time_of l)) (d_of_Z (pkt_l1_bits frame_size)) else d_of_Z 0.

Definition fast_enough (l : string * string) : Prop :=
  d_ltb (wire_rate l) EPS = false /\ d_ltb (wire_rate l) (d_mul (d_of_Z (speed_of l)) MIN_SPEED_MULTIPLIER) = false.

Definition total (f : string * string -> Z) (ls : list (string * string)) : Z := foldr (fun l acc => f l + acc) 0 ls.

Definition lossy (ls : list (string * string)) : bool :=
  let tx := total sent ls in
  d_gtb (if 0 <? tx then d_div (d_mul (d_of_Z (tx - total arrived ls)) (d_of_Z 100)) (d_of_Z tx) else d_of_Z 0) max_loss_pct.

Definition csap_excess (l : string * string) : list string :=
  let target := target_of TE_DIV_ROUND_UP frame_size load_duration (speed_of l) in
  if target + RX_TX_PKTS_GAP <? n_captured n receiver_ta (n_csap n receiver_ta (snd l) TAD_ETH_RECV_DEF)
  then ["Rx CSAP captured more packets than were requested"%string] else [].
Definition if_excess (l : string * string) : list string :=
  if sent l + RX_TX_PKTS_GAP <? counted l then ["Rx interface counted more packets than Tx interface"%string] else [].

Definition expected_errors (ls : list (string * string)) : list string :=
  flat_map csap_excess ls ++ flat_map if_excess ls ++
  (if lossy ls then ["Frame loss exceeds configured threshold"%string] else []).

(** *** The steps of the body in the network *)

Lemma quiet_lands {A} (p : M A) s : only rf_quiet any_jump p -> wp W p s (lands (fun _ s' => s' = s)).
Proof.
  intros Ho. apply (lands_only W rf_quiet); [exact Ho| |done]. intros X c s1 x s2 Hc -> [_ ->]. by apply rf_quiet_upd.
Qed.

(** Quiet code before the rest of a function. *)
Lemma quiet_then {A B} (p : M A) (f : A -> M B) s Q :
  only rf_quiet any_jump p -> (forall a, wp W (f a) s (lands Q)) -> wp W (mbind f p) s (lands Q).
Proof.
  intros Ho Hf. apply lands_bind. eapply wp_mono; [by apply quiet_lands|]. intros [a|j|w|] s'; cbn; try done. by intros ->.
Qed.

Definition link_ends (l : rf_link) : string * string := (rl_sender_if l, rl_receiver_if l).

Lemma get_links_lands s :
  wp W (get_links server_rpcs client_rpcs) s (lands (fun ls s' => s' = s /\ map link_ends ls = the_links)).
Proof.
  unfold get_links. apply wp_bind.
  apply (wp_for_n _ _ _ _ _ _ _ (fun i ls s' => s' = s /\ map link_ends ls ++ links_from (Z.to_nat (4 - i)) i = the_links)).
  - done.
  - intros i ls s' Hi [-> Hl]. change (Z.to_nat TEST_MAX_LINKS) with 4%nat in Hi.
    replace (Z.to_nat (4 - i)) with (S (Z.to_nat (4 - (i + 1)))) in Hl by lia. cbn [links_from] in Hl.
    unfold rf_link_pass. wp_step. apply wp_call. intros r s1 [Hr ->]. cbn [rf_see bpost]. cbn in Hr. rewrite <- Hr in Hl.
    destruct r as [server_if|]; [|by rewrite app_nil_r in Hl].
    wp_step. apply wp_call. intros c s1 [Hc ->]. cbn [rf_see bpost]. cbn in Hc. rewrite <- Hc in Hl.
    destruct c as [client_if|]; [|done].
    wp_go; cbn [rf_see]; try done. cbn. split; [done|]. rewrite map_app, <- app_assoc. exact Hl.
  - intros ls s' [-> Hl]. cbn in *. by rewrite app_nil_r in Hl.
Qed.

(** What a prepared link has. *)
Definition is_port (p : rf_port) : Prop :=
  pt_bps p = speed_of (link_ends (pt_link p)) /\
  pt_target p = target_of TE_DIV_ROUND_UP frame_size load_duration (pt_bps p) /\
  pt_send p = n_csap n sender_ta (rl_sender_if (pt_link p)) TAD_ETH_RECV_NO /\
  pt_rx p = n_csap n receiver_ta (rl_receiver_if (pt_link p)) TAD_ETH_RECV_DEF.

Lemma get_link_speed_lands ta ifn s : wp W (get_link_speed ta ifn) s (lands (fun v s' => s' = s /\ v = n_speed n ta ifn)).
Proof.
  unfold get_link_speed. wp_step. apply wp_call. intros [rc oper] s1 [H1 ->]. cbn [rf_see bpost] in *. cbn in H1. wp_step.
  destruct (Z.eqb_spec rc 0) as [E|E], (Z.eqb_spec oper TE_PHY_SPEED_UNKNOWN) as [E2|E2]; cbn [negb orb].
  2: { cbn. rewrite (proj2 (Z.eqb_neq _ _) E2). destruct (H1 E) as [-> | ->]; done. }
  all: unfold CHECK_OUT; wp_step; apply wp_call; intros [rc' adm] s2 [H2 ->]; cbn [rf_see bpost fst snd] in *; cbn in H2;
    destruct (Z.eqb_spec rc' 0) as [E3|E3]; [|done]; cbn; destruct (Z.eqb_spec adm TE_PHY_SPEED_UNKNOWN) as [E4|E4]; [done|];
    cbn; by destruct (H2 E3).
Qed.

Lemma csap_created_lands ta ifn mode t s :
  wp W (CHECK_OUT (call (tapi_eth_based_csap_create_by_tmpl ta ifn mode t))) s (lands (fun x s' => s' = s /\ x = n_csap n ta ifn mode)).
Proof. apply lands_check. intros rc x s' [H ->] E. split; [done|]. by apply H. Qed.

Lemma prepare_port_lands i l L s :
  wp W (prepare (i, l) L) s (upto (fun _ _ => True) (fun p _ s' => s' = s /\ pt_link p = l /\ is_port p)).
Proof.
  unfold prepare_port. apply st_call. eapply wp_mono; [apply get_link_speed_lands|]. intros [speed|j|w|] s'; cbn [lands]; try done.
  intros [-> Es]. apply st_call, wp_call. intros t s' [_ ->]. cbn [rf_see]. apply st_modify.
  apply st_bind. destruct (t =? 0); [done|]. cbn [mret T_ret wp prog_ret upto].
  do 2 (apply st_call; eapply wp_mono; [apply quiet_lands; unfold prepare_template, free_subvalue, set_template_eth_addrs; solve_only|];
        intros [[]|j|w|] s'; cbn [lands]; try done; intros ->).
  do 2 (apply st_call; eapply wp_mono; [apply csap_created_lands|]; intros [?|j|w|] s'; cbn [lands]; try done; intros [-> ?]).
  cbn. split; [done|]. split; [done|]. unfold is_port. cbn [pt_link pt_bps pt_target pt_send pt_rx]. repeat split; try done.
  by rewrite Es.
Qed.

(** The counters of the network fit. *)
Definition counters_fit : Prop := forall b ta ifn,
  0 <= out_ucast_pkts (n_count n b ta ifn) < 2 ^ 60 /\ 0 <= in_ucast_pkts (n_count n b ta ifn) < 2 ^ 60 /\
  0 <= in_discards (n_count n b ta ifn) < 2 ^ 60.

Definition stats_at (b : bool) (p : rf_port) : if_stats * if_stats :=
  (n_count n b sender_ta (rl_sender_if (pt_link p)), n_count n b receiver_ta (rl_receiver_if (pt_link p))).
Definition counts_of (p : rf_port) : rf_counts := RfCounts (sent (link_ends (pt_link p))) (arrived (link_ends (pt_link p))).
Definition rates_at (p : rf_port) : option rf_rates := rates_of frame_size (time_of (link_ends (pt_link p))) (counts_of p).

Lemma grown_delta field ta ifn :
  if_counter_delta (field (n_count n false ta ifn)) (field (n_count n true ta ifn)) = grown field ta ifn.
Proof. unfold if_counter_delta, grown. destruct (Z.ltb_spec (field (n_count n true ta ifn)) (field (n_count n false ta ifn))); lia. Qed.

Lemma get_if_stats_lands p s :
  wp W (get_if_stats server_rpcs client_rpcs p) s (lands (fun x s' => s' = s /\ x = stats_at (sn_sent s) p)).
Proof.
  unfold get_if_stats, CHECK_OUT. wp_go; cbn [rf_see]; try done. cbn in *. destruct p as [l]. split; [done|]. unfold stats_at. cbn.
  autorewrite with zbool in *. f_equal; match goal with H : _ = 0 -> ?y = _ |- ?y = _ => by apply H end.
Qed.

Lemma clamp_rx_lands what rx tx s :
  wp W (clamp_rx what rx tx) s (lands (fun v s' => v = Z.min rx tx /\
    s' = RfSeen (sn_sent s) (sn_errors s ++ if tx + RX_TX_PKTS_GAP <? rx then [what] else []))).
Proof.
  unfold clamp_rx, ERROR_VERDICT. assert (RX_TX_PKTS_GAP = 10) as Hgap by done. destruct s as [b e].
  destruct (Z.ltb_spec tx rx).
  - wp_step. unfold when. destruct (Z.ltb_spec RX_TX_PKTS_GAP (rx - tx)) as [Hg|Hg]; cbn [wp bpost].
    + wp_go. cbn. rewrite (proj2 (Z.ltb_lt _ _)) by lia. split; [lia|done].
    + cbn. rewrite (proj2 (Z.ltb_ge _ _)) by lia. by rewrite app_nil_r; split; [lia|].
  - cbn. rewrite (proj2 (Z.ltb_ge _ _)) by lia. by rewrite app_nil_r; split; [lia|].
Qed.

Lemma count_link_lands p s : counters_fit -> sn_sent s = true ->
  wp W (count_link server_rpcs client_rpcs (p, stats_at false p)) s (lands (fun c s' => c = counts_of p /\
    s' = RfSeen true (sn_errors s ++ if_excess (link_ends (pt_link p))))).
Proof.
  intros Hfit Hs. unfold count_link. cbn [stats_at]. apply lands_bind. eapply wp_mono; [apply get_if_stats_lands|].
  intros [x|j|w|] s'; cbn [lands]; try done. intros [-> ->]. rewrite Hs. cbn [stats_at].
  set (l := link_ends (pt_link p)). unfold calc_if_stats_delta. cbn [out_ucast_pkts in_ucast_pkts in_discards].
  rewrite !grown_delta. fold l.
  change (grown out_ucast_pkts sender_ta (rl_sender_if (pt_link p))) with (sent l).
  change (grown in_ucast_pkts receiver_ta (rl_receiver_if (pt_link p)) + grown in_discards receiver_ta (rl_receiver_if (pt_link p))) with (counted l).
  assert (Hc : u64 (counted l) = counted l).
  { apply u64_id. unfold counted, grown.
    pose proof (Hfit true receiver_ta (snd l)). pose proof (Hfit false receiver_ta (snd l)). lia. }
  rewrite Hc. apply lands_bind. eapply wp_mono; [apply clamp_rx_lands|].
  intros [v|j|w|] s'; cbn [lands]; try done. intros [-> ->]. rewrite Hs. done.
Qed.

Lemma stop_rx_lands p s : is_port p ->
  wp W (stop_rx server_rpcs p) s (lands (fun _ s' => s' = RfSeen (sn_sent s) (sn_errors s ++ csap_excess (link_ends (pt_link p))))).
Proof.
  intros (Hb & Ht & _ & Hrx). unfold stop_rx. apply lands_bind.
  eapply wp_mono; [apply (lands_check W _ _ (fun x s' => s' = s /\ x = n_captured n receiver_ta (pt_rx p)));
    intros rc x s' [H ->] E; split; [done|by apply H]|].
  intros [c|j|w|] s'; cbn [lands]; try done. intros [-> ->]. apply lands_bind. eapply wp_mono; [apply clamp_rx_lands|].
  intros [v|j|w|] s'; cbn [lands]; try done. intros [_ ->]. cbn. unfold csap_excess.
  cbn [link_ends snd]. by rewrite <- Hrx, <- Hb, <- Ht.
Qed.

Lemma link_rates_lands p s : is_port p ->
  wp W (link_rates CSAP_PARAM_FIRST_PACKET_TIME CSAP_PARAM_LAST_PACKET_TIME te_timersub TE_SEC2US client_rpcs frame_size (p, counts_of p)) s
    (lands (fun r s' => s' = s /\ r = rates_at p)).
Proof.
  intros (_ & _ & Hsend & _). unfold link_rates, get_timestamps, CHECK_OUT. wp_go; cbn [rf_see]; try done. cbn in *.
  autorewrite with zbool in *. split; [done|]. unfold rates_at, time_of. cbn [link_ends fst]. rewrite <- Hsend.
  by rewrite <- H, <- H0.
Qed.

Lemma judge_lands p s : is_port p ->
  wp W (judge_link iut_rpcs client_rpcs (p, rates_at p)) s (lands (fun _ s' => s' = s /\ fast_enough (link_ends (pt_link p)))).
Proof.
  intros (Hb & _). unfold judge_link. set (l := link_ends (pt_link p)).
  assert (E1 : checked_l1_bps iut_rpcs client_rpcs (rates_at p) = wire_rate l).
  { unfold rates_at, rates_of, wire_rate, checked_l1_bps. fold l. destruct (d_gtb _ _); [|done]. by destruct (iut_is_sender _ _). }
  assert (E2 : min_l1_bps p = d_mul (d_of_Z (speed_of l)) MIN_SPEED_MULTIPLIER) by (unfold min_l1_bps; by rewrite Hb).
  rewrite E1, E2. destruct (d_ltb (wire_rate l) EPS) eqn:F1; [done|].
  destruct (d_ltb (wire_rate l) (d_mul (d_of_Z (speed_of l)) MIN_SPEED_MULTIPLIER)) eqn:F2; [done|]. cbn. by repeat split.
Qed.

Lemma zip_fn {A B} (f : A -> B) (l : list A) : zip l (map f l) = map (fun x => (x, f x)) l.
Proof. induction l as [|x l IH]; [done|]. cbn. by rewrite IH. Qed.

Lemma fst_fn {A B} (f : A -> B) (l : list A) : map fst (map (fun x => (x, f x)) l) = l.
Proof. induction l as [|x l IH]; [done|]. cbn. by rewrite IH. Qed.

Lemma map_split {A B} (f : A -> B) (l : list A) pre y post : map f l = pre ++ y :: post ->
  exists l1 x l2, l = l1 ++ x :: l2 /\ pre = map f l1 /\ y = f x.
Proof.
  intros H. apply map_eq_app in H as (l1 & l2 & -> & <- & H). apply map_eq_cons in H as (x & l3 & -> & <- & _).
  by exists l1, x, l3.
Qed.

Lemma started_lands ps s : ps <> [] -> sn_errors s = [] ->
  wp W (m_map (fun p => CHECK_RC (call (tapi_tad_trsend_start sender_ta (pt_send p) (pt_tmpl p)))) ps) s
    (lands (fun _ s' => s' = RfSeen true [])).
Proof.
  intros Hne Hs. eapply wp_mono; [apply (lands_map W _ _ _ (fun pre _ s' => sn_errors s' = [] /\ (pre = [] \/ sn_sent s' = true))); [by auto|]|].
  - intros pre p post ys s' _ [He _]. wp_go; cbn [rf_see]; [|done]. split; [done|]. right. cbn. by rewrite Heqb.
  - intros [ys|j|w|] s'; cbn; try done. intros [He [->|Ht]]; [done|]. destruct s'. cbn in *. by subst.
Qed.

Lemma measure_lands timeout ps : counters_fit -> ps <> [] -> Forall is_port ps ->
  wp W (rf_measure CSAP_PARAM_TP_PACKETS CSAP_PARAM_TP_DROPS CSAP_PARAM_FIRST_PACKET_TIME CSAP_PARAM_LAST_PACKET_TIME te_timersub TE_SEC2US
          server_rpcs client_rpcs frame_size timeout ps) (RfSeen false [])
    (lands (fun '(_, cs, _, rates) s' => cs = map counts_of ps /\ rates = map rates_at ps /\
       s' = RfSeen true (flat_map (fun p => csap_excess (link_ends (pt_link p))) ps ++
                         flat_map (fun p => if_excess (link_ends (pt_link p))) ps))).
Proof.
  intros Hfit Hne Hp. rewrite Forall_forall in Hp. unfold rf_measure. do 2 (apply quiet_then; [solve_only|intros _]).
  apply lands_bind. eapply wp_mono; [apply (lands_map_fn W _ (stats_at false) _ _ (fun s' => s' = RfSeen false [])); [done|]|].
  { intros p s Hin ->. eapply wp_mono; [apply get_if_stats_lands|]. intros [y|j|w|] s'; cbn; try done. by intros [-> ->]. }
  intros [before|j|w|] s'; cbn [lands]; try done. intros [-> ->]. apply lands_bind. eapply wp_mono; [by apply started_lands|].
  intros [?|j|w|] s'; cbn [lands]; try done. intros ->.
  do 2 (apply quiet_then; [unfold wait_send_completion, completion_pass; solve_only|intros _]).
  apply lands_bind. eapply wp_mono; [apply (lands_map W _ _ _ (fun pre _ s' => s' = RfSeen true (flat_map (fun p => csap_excess (link_ends (pt_link p))) pre))); [done|]|].
  { intros pre p post ys s El ->. eapply wp_mono; [apply stop_rx_lands, Hp; rewrite El, elem_of_app; right; apply list_elem_of_here|].
    intros [y|j|w|] s'; cbn; try done. intros ->. by rewrite flat_map_app; cbn; rewrite app_nil_r. }
  intros [csap_pkts|j|w|] s'; cbn [lands]; try done. intros ->. set (E1 := flat_map _ ps).
  apply quiet_then; [solve_only|intros _]. rewrite zip_fn. apply lands_bind.
  eapply wp_mono; [apply (lands_map W _ _ _ (fun pre ys s' => ys = map counts_of (map fst pre) /\
      s' = RfSeen true (E1 ++ flat_map (fun p => if_excess (link_ends (pt_link p))) (map fst pre)))); [by rewrite app_nil_r|]|].
  { intros pre [p b] post ys s El [-> ->]. apply map_split in El as (l1 & p' & l2 & El & _ & [= <- ->]).
    eapply wp_mono; [by apply count_link_lands|]. intros [y|j|w|] s'; cbn; try done. intros [-> ->].
    rewrite !map_app, flat_map_app, <- app_assoc. cbn. by rewrite app_nil_r. }
  rewrite fst_fn. intros [cs|j|w|] s'; cbn [lands]; try done. intros [-> ->]. set (s2 := RfSeen true (E1 ++ _)).
  apply quiet_then; [unfold csap_seen, get_csap_tp_stats, get_tp; solve_only|intros seen]. rewrite zip_fn. apply lands_bind.
  eapply wp_mono; [apply (lands_map_fn W _ (fun pc => rates_at (fst pc)) _ _ (fun s' => s' = s2)); [done|]|].
  { intros x s Hin ->. apply list_elem_of_In, in_map_iff in Hin as (p & <- & Hin). eapply wp_mono; [apply link_rates_lands, Hp; by apply list_elem_of_In|].
    intros [y|j|w|] s'; cbn; try done. by intros [-> ->]. }
  intros [rates|j|w|] s'; cbn [lands]; try done. intros [-> ->]. cbn. by rewrite map_map.
Qed.

(** *** The loss, exactly *)

Lemma u64_sum_total (f : string * string -> Z) ls acc : 0 <= acc -> (forall l, 0 <= f l) -> acc + total f ls < 2 ^ 64 ->
  fold_left (fun a x => u64 (a + x)) (map f ls) acc = acc + total f ls.
Proof.
  intros Ha Hf. revert acc Ha. induction ls as [|l ls IH]; intros acc Ha Hb; cbn [total foldr map fold_left] in *; [lia|].
  fold (total f ls) in *. assert (0 <= total f ls).
  { clear -Hf. induction ls as [|l ls IH]; cbn [total foldr]; [lia|]. fold (total f ls). specialize (Hf l). lia. }
  specialize (Hf l). rewrite u64_id by lia. rewrite IH; lia.
Qed.

Lemma total_bound f ls b : (length ls <= 4)%nat -> (forall l, 0 <= f l < b) -> 0 <= total f ls <= 4 * b.
Proof.
  intros Hl Hf. assert (0 <= total f ls <= Z.of_nat (length ls) * b); [|pose proof (Hf ("", "")%string); nia].
  clear Hl. induction ls as [|l ls IH]; cbn [total foldr length]; [lia|]. fold (total f ls). specialize (Hf l). lia.
Qed.

Lemma sent_bound l : counters_fit -> 0 <= sent l < 2 ^ 60.
Proof. intros Hf. unfold sent, grown. pose proof (Hf true sender_ta (fst l)). pose proof (Hf false sender_ta (fst l)). lia. Qed.

Lemma arrived_bound l : counters_fit -> 0 <= arrived l < 2 ^ 60.
Proof.
  intros Hf. pose proof (sent_bound l Hf). unfold arrived. assert (0 <= counted l) by (unfold counted, grown; lia). lia.
Qed.

Lemma loss_pct_exact ls : counters_fit -> (length ls <= 4)%nat ->
  d_gtb (loss_pct (map (fun l => RfCounts (sent l) (arrived l)) ls)) max_loss_pct = lossy ls.
Proof.
  intros Hf Hl. pose proof (total_bound sent ls _ Hl (fun l => sent_bound l Hf)) as Hs.
  pose proof (total_bound arrived ls _ Hl (fun l => arrived_bound l Hf)) as Ha.
  assert (Es : u64_sum (map rc_tx (map (fun l => RfCounts (sent l) (arrived l)) ls)) = total sent ls).
  { unfold u64_sum. rewrite map_map. apply (u64_sum_total sent); [lia| |lia]. intros l. apply sent_bound, Hf. }
  assert (Ea : u64_sum (map rc_rx (map (fun l => RfCounts (sent l) (arrived l)) ls)) = total arrived ls).
  { unfold u64_sum. rewrite map_map. apply (u64_sum_total arrived); [lia| |lia]. intros l. apply arrived_bound, Hf. }
  unfold loss_pct, loss_pkts, lossy. rewrite Es, Ea. by rewrite (s64_id (total sent ls)), (s64_id (total arrived ls)), s64_id by lia.
Qed.

Lemma verdicts_lands ps csap_pkts seen s : counters_fit -> (length ps <= 4)%nat -> Forall is_port ps ->
  let ls := map (fun p => link_ends (pt_link p)) ps in
  wp W (rf_verdicts iut_rpcs client_rpcs max_loss_pct (map counts_of ps) (map rates_at ps) ps csap_pkts seen) s
    (lands (fun _ s' => Forall fast_enough ls /\
       sn_errors s' = sn_errors s ++ if lossy ls then ["Frame loss exceeds configured threshold"%string] else [])).
Proof.
  intros Hfit Hlen Hp ls. rewrite Forall_forall in Hp. unfold rf_verdicts. rewrite zip_fn. apply lands_bind.
  eapply wp_mono; [apply (lands_map W _ _ _ (fun pre _ s' => s' = s /\ Forall fast_enough (map (fun pr => link_ends (pt_link (fst pr))) pre))); [done|]|].
  { intros pre [p r] post ys s' El [-> Hgood]. apply map_split in El as (l1 & p' & l2 & El & _ & [= <- ->]).
    eapply wp_mono; [apply judge_lands, Hp; rewrite El, elem_of_app; right; apply list_elem_of_here|].
    intros [y|j|w|] s'; cbn; try done. intros [-> H]. split; [done|]. rewrite map_app. apply Forall_app. split; [done|]. by apply Forall_singleton. }
  intros [?|j|w|] s'; cbn [lands]; try done. intros [-> Hgood].
  assert (Eg : map (fun pr : rf_port * option rf_rates => link_ends (pt_link (fst pr))) (map (fun x => (x, rates_at x)) ps) = ls).
  { subst ls. by rewrite map_map. }
  rewrite Eg in Hgood. apply quiet_then; [unfold diagnose; solve_only|intros _].
  apply quiet_then; [unfold log_summary_mi; solve_only|intros _].
  assert (Ec : map counts_of ps = map (fun l => RfCounts (sent l) (arrived l)) ls) by (subst ls; by rewrite map_map).
  rewrite Ec, loss_pct_exact by (done || subst ls; by rewrite length_map). unfold when, ERROR_VERDICT.
  destruct (lossy ls); cbn; [|by rewrite app_nil_r]. by intros [] s' [_ ->].
Qed.

Lemma links_from_length m i : (length (links_from m i) <= m)%nat.
Proof. revert i. induction m as [|m IH]; intros i; cbn; [lia|]. do 2 (destruct (n_if n _); cbn; [|lia]). specialize (IH (i + 1)). lia. Qed.

(** What has been shown when the body comes to its end. *)
Definition links_judged (s : rf_seen) : Prop :=
  (1 <= length the_links <= 4)%nat /\ Forall fast_enough the_links /\ sn_errors s = expected_errors the_links.

Lemma raw_frame_body_wp : counters_fit -> send_timeout_s load_duration <> None ->
  wp W (raw_frame_body TE_EASNINCOMPLVAL CSAP_PARAM_TP_PACKETS CSAP_PARAM_TP_DROPS CSAP_PARAM_FIRST_PACKET_TIME
          CSAP_PARAM_LAST_PACKET_TIME te_timersub TE_UNITS_DEC_M2U TE_SEC2US TE_DIV_ROUND_UP iut_rpcs server_rpcs client_rpcs
          frame_size load_duration max_loss_pct tmpl rf_start) (RfSeen false [])
    (upto (fun _ _ => True) (fun _ _ => links_judged)).
Proof.
  intros Hfit Ht.
  unfold raw_frame_body. apply st_call. eapply wp_mono; [apply quiet_lands; solve_only|]. intros [[]|j|w|] s; cbn [lands]; try done. intros ->.
  apply st_call. eapply wp_mono; [apply get_links_lands|]. intros [links|j|w|] s; cbn [lands]; try done. intros [-> Hlinks].
  assert (Hlen : (length links <= 4)%nat) by (rewrite <- (length_map link_ends links), Hlinks; apply links_from_length).
  apply st_bind. destruct (length links =? 0)%nat eqn:E0; [done|]. cbn [mret T_ret wp prog_ret upto].
  apply st_bind. destruct (payload_len frame_size <=? 0); [done|]. cbn [mret T_ret wp prog_ret upto].
  destruct (send_timeout_s load_duration) as [timeout|] eqn:Et; [|done]. apply st_call. cbn [mret prog_ret wp]. apply st_bind.
  eapply wp_mono; [apply (st_map W (fun _ _ => True) _ _ (fun pre ps _ s' => s' = RfSeen false [] /\ map pt_link ps = map snd pre /\ Forall is_port ps)); [done|]|].
  { intros pre [i l] post ps L s El (-> & Hm & Hp). eapply wp_mono; [apply prepare_port_lands|].
    intros [[L' [p|j]]| | |] s' H; cbn in H |- *; try done. destruct H as (-> & Hl & Hport). split; [done|]. split.
    - rewrite !map_app, Hm. cbn. by rewrite Hl.
    - apply Forall_app. split; [done|]. by apply Forall_singleton. }
  intros [[L [ps|j]]| | |] s H; cbn in H; try done. destruct H as (-> & Hm & Hp).
  assert (Hsnd : map pt_link ps = links) by (rewrite Hm; apply snd_zip; by rewrite length_seq).
  assert (Hps : (length ps <= 4)%nat) by (by rewrite <- (length_map pt_link ps), Hsnd).
  assert (Els : map (fun p => link_ends (pt_link p)) ps = the_links) by (by rewrite <- Hlinks, <- Hsnd, map_map).
  assert (Hne : (1 <= length ps)%nat).
  { rewrite <- (length_map pt_link ps), Hsnd. apply Nat.eqb_neq in E0. lia. }
  unfold lift. apply wp_bind, wp_attempt. apply wp_bind. eapply wp_mono; [apply measure_lands; [done|by destruct ps; [cbn in Hne; lia|]|done]|].
  intros [[[[csap_pkts cs] seen] rates]|j|w|] s; cbn [lands bpost]; try done. intros (-> & -> & ->).
  eapply wp_mono; [by apply verdicts_lands|]. rewrite Els.
  intros [[]|j|w|] s; cbn [lands]; try done. intros [Hfast Herr]. cbn. split.
  - rewrite <- Els, length_map. lia.
  - split; [done|]. rewrite Herr. cbn [sn_errors]. unfold expected_errors. rewrite <- Els, !flat_map_concat_map, !map_map. by rewrite <- app_assoc.
Qed.

(** C29. When the test passes, the environment named at least one link and not
    more than four, every one of them carried enough bits on the wire per
    second, by the counters of its interfaces and the time stamps of its sending
    CSAP, for 1% of the speed of the interface of the IUT and for more than
    nothing; and the verdicts of errors that it left are the expected ones: for
    the CSAPs and the interfaces that counted over ten packets more than were
    sent, and for a loss, out of the packets of all links, above the limit. *)
Theorem raw_frame_perf_passes : counters_fit -> send_timeout_s load_duration <> None ->
  wp W (raw_frame_perf_main TE_EASNINCOMPLVAL CSAP_PARAM_TP_PACKETS CSAP_PARAM_TP_DROPS CSAP_PARAM_FIRST_PACKET_TIME
          CSAP_PARAM_LAST_PACKET_TIME te_timersub TE_UNITS_DEC_M2U TE_SEC2US TE_DIV_ROUND_UP iut_rpcs server_rpcs client_rpcs
          frame_size load_duration max_loss_pct tmpl)
    (RfSeen false [])
    (fun r s => match r with
     | Val Passed => (1 <= length the_links <= 4)%nat /\ Forall fast_enough the_links /\ sn_errors s = expected_errors the_links
     | Val _ | NoFuel => True
     | _ => False
     end).
Proof.
  intros Hfit Ht.
  unfold raw_frame_perf_main, test_main. apply wp_bind.
  eapply wp_mono; [by apply raw_frame_body_wp|].
  intros [[L r]| | |] s H; try done. cbn [bpost]. apply wp_bind.
  assert (Hq : only rf_quiet any_jump (raw_frame_cleanup tmpl L)) by (unfold raw_frame_cleanup, also, cleanup_rc; solve_only).
  assert (Hr : returns (raw_frame_cleanup tmpl L)).
  { unfold raw_frame_cleanup, also, cleanup_rc. solve_returns. induction (rf_tmpls L); solve_returns. }
  eapply wp_mono; [apply wp_and; [by apply (quiet_lands _ s)|apply wp_returns, Hr]|].
  intros [b| | |] s' [H1 [a Ha]]; try done. cbn in H1. subst s'. cbn.
  destruct r as [[]|j]; cbn [upto] in H; [|done]. by destruct b.
Qed.
End passes.

(** A run: one link of 100 Mbit/s, 97500 frames of 1518 bytes in about 12
    seconds, one in a thousand lost. *)
Module RawFrameWitness.
Local Existing Instance te_ref.

Definition net : rf_net := RfNet
  (fun name => if String.eqb name "server_if0" then Some "eth1"%string
               else if String.eqb name "client_if0" then Some "eth2"%string else None)
  (fun _ _ => 100)
  (fun after _ ifn => if after then IfStats 0 97300 0 100 0 0 0 97500 0 0 0 else IfStats 0 0 0 0 0 0 0 0 0 0 0)
  (fun _ ifn mode => match mode with TAD_ETH_RECV_NO => 1 | _ => 2 end)
  (fun _ _ => 97300)
  (fun _ _ p => if String.eqb p "first" then TV 100 0 else TV 112 300000).

Definition sub (a b : timeval) : timeval := TV (tv_seconds a - tv_seconds b) (tv_useconds a - tv_useconds b).

Definition main : M status :=
  raw_frame_perf_main 500 "tp_packets" "tp_drops" "first" "last" sub (fun m => m * 1000000) (fun s => s * 1000000)
    (fun a b => (a + b - 1) / b) (RPCS "iut" "A") (RPCS "srv" "A") (RPCS "cli" "B") 1518 12 (d_of_Z 1) 1.

(** The network answers as described, everything succeeds. *)
Definition answer : handler te_call rf_seen := fun X c s =>
  let x := match c in te_call X return X with
    | tapi_env_get_if name => n_if net name
    | tapi_cfg_phy_speed_oper_get ta ifn => (0, n_speed net ta ifn)
    | tapi_cfg_phy_speed_admin_get ta ifn => (0, n_speed net ta ifn)
    | tapi_eth_based_csap_create_by_tmpl ta ifn mode _ => (0, n_csap net ta ifn mode)
    | tapi_cfg_stats_if_stats_get ta ifn => (0, n_count net (sn_sent s) ta ifn)
    | tapi_tad_trrecv_stop_count ta csap => (0, n_captured net ta csap)
    | tapi_csap_param_get_timestamp ta csap p => (0, n_stamp net ta csap p)
    | asn_copy_value _ => 7
    | c => default_answer c
    end in (x, rf_see X c x s).

Lemma answer_ok : handles answer (W net).
Proof. intros X c s. destruct c; (split; [|done]); cbn; first [done | by intros _; right]. Qed.

Lemma fits : counters_fit net.
Proof. intros [] ta ifn; cbn; lia. Qed.

Lemma raw_frame_perf_passes_witness :
  fst (run answer main (RfSeen false [])) = Val Passed /\ sn_errors (snd (run answer main (RfSeen false []))) = [] /\
  Forall (fast_enough "first" "last" sub (fun m => m * 1000000) (fun s => s * 1000000) (RPCS "iut" "A") (RPCS "srv" "A") (RPCS "cli" "B")
    1518 net) [("eth2", "eth1")%string].
Proof.
  assert (E : fst (run answer main (RfSeen false [])) = Val Passed) by (vm_compute; reflexivity).
  split; [exact E|]. split; [vm_compute; reflexivity|].
  pose proof (run_wp (W net) answer main (RfSeen false []) _ answer_ok
    (raw_frame_perf_passes 500 "tp_packets" "tp_drops" "first" "last" sub (fun m => m * 1000000) (fun s => s * 1000000)
      (fun a b => (a + b - 1) / b) (RPCS "iut" "A") (RPCS "srv" "A") (RPCS "cli" "B") 1518 12 (d_of_Z 1) 1 net fits ltac:(vm_compute; discriminate))) as H.
  rewrite E in H. exact (proj1 (proj2 H)).
Defined.

(** The template and its copy are freed in such a run. *)
Lemma raw_frame_perf_releases_witness :
  send_timeout_s 12 <> None /\
  wp (watch rf_upd) main (RfHeld (nz [1]) false [] false)
    (fun r g => match r with Val _ => rf_live g = [] /\ rf_bad g = false /\ (rf_csaps g = [] \/ rf_undone g = true) | NoFuel => True | _ => False end).
Proof.
  assert (H : send_timeout_s 12 <> None) by (vm_compute; discriminate). split; [exact H|].
  exact (raw_frame_perf_releases 500 "tp_packets" "tp_drops" "first" "last" sub (fun m => m * 1000000) (fun s => s * 1000000)
      (fun a b => (a + b - 1) / b) (RPCS "iut" "A") (RPCS "srv" "A") (RPCS "cli" "B") 1518 12 (d_of_Z 1) 1 H).
Defined.
End RawFrameWitness.
