(* ===== verification/TcpUdpPerf.v ===== *)
(** perf/tcp_udp_perf.c: performance tools started on up to four links, and the
    throughput of each link by their reports. *)
From stdpp Require Import pretty.
From S2P Require Import Prelude Prog Te Locals NetDrvTs DataFlow Resources Double RawFramePerf.

Definition TEST_BENCH_DURATION_SEC : Z := 6.
Definition MAX_PERF_INSTS : Z := 32.

(** A link: its interfaces and the addresses of its server and client. *)
Record perf_link := PerfLink { lk_server_if : string; lk_client_if : string; lk_server_addr : sockaddr; lk_client_addr : sockaddr }.
Definition lk_set_addrs (s c : sockaddr) (l : perf_link) : perf_link := PerfLink (lk_server_if l) (lk_client_if l) s c.

(** The parameters of the test; [None] is [DEFAULT]. *)
Record perf_params := PerfParams {
  pp_rx_csum : option bool; pp_rx_gro : option bool; pp_rx_vlan_strip : option bool; pp_tx_csum : option bool;
  pp_tx_gso : option bool; pp_tso : option bool; pp_tx_vlan_insert : option bool;
  pp_rx_coalesce_usecs : Z; pp_rx_max_coalesced_frames : Z; pp_rx_ring : Z; pp_tx_ring : Z; pp_channels : Z;
  pp_bench : perf_bench; pp_dual : bool; pp_n_insts : Z; pp_streams : Z; pp_bandwidth : Z; pp_protocol : Z }.

(** The local variables that the cleanup uses; [n_ports] is the number of links. *)
Record perf_locals := PerfLocals {
  pl_links : list perf_link; pl_servers : list handle; pl_clients : list handle;
  pl_server_factory : handle; pl_client_factory : handle }.
Definition n_ports (l : perf_locals) : Z := Z.of_nat (length (pl_links l)).

Definition init_perf_insts : list handle := replicate (Z.to_nat MAX_PERF_INSTS) 0.
Definition pl_start : perf_locals := PerfLocals [] init_perf_insts init_perf_insts 0 0.
Definition pl_add_link (k : perf_link) (l : perf_locals) : perf_locals :=
  PerfLocals (pl_links l ++ [k]) (pl_servers l) (pl_clients l) (pl_server_factory l) (pl_client_factory l).
Definition pl_set_links (ks : list perf_link) (l : perf_locals) : perf_locals :=
  PerfLocals ks (pl_servers l) (pl_clients l) (pl_server_factory l) (pl_client_factory l).
Definition pl_set_server (i : nat) (h : handle) (l : perf_locals) : perf_locals :=
  PerfLocals (pl_links l) (<[i := h]> (pl_servers l)) (pl_clients l) (pl_server_factory l) (pl_client_factory l).
Definition pl_set_client (i : nat) (h : handle) (l : perf_locals) : perf_locals :=
  PerfLocals (pl_links l) (pl_servers l) (<[i := h]> (pl_clients l)) (pl_server_factory l) (pl_client_factory l).
Definition pl_set_server_factory (h : handle) (l : perf_locals) : perf_locals :=
  PerfLocals (pl_links l) (pl_servers l) (pl_clients l) h (pl_client_factory l).
Definition pl_set_client_factory (h : handle) (l : perf_locals) : perf_locals :=
  PerfLocals (pl_links l) (pl_servers l) (pl_clients l) (pl_server_factory l) h.

(** What the reports add up to: retransmissions, bits per second of iperf 2 and
    of other tools, and bits per second of each link. *)
Record perf_totals := PerfTotals {
  t_retransmits_server : Z; t_retransmits_client : Z; t_ip2_server : double; t_ip2_client : double;
  t_rx_server : double; t_tx_server : double; t_rx_client : double; t_tx_client : double;
  t_bps_server : list double; t_bps_client : list double }.
Definition totals_start (links : nat) : perf_totals :=
  let zero := d_of_Z 0 in PerfTotals 0 0 zero zero zero zero zero zero (replicate links zero) (replicate links zero).

(** One pair of reports, of the instance [i]. *)
Definition add_report (iperf : bool) (n_insts : Z) (t : perf_totals) (x : nat * (perf_report * perf_report)) : perf_totals :=
  let '(i, (s, c)) := x in
  let link := Z.to_nat (Z.of_nat i / n_insts) in
  let retr_s := u64 (t_retransmits_server t + rp_retransmits s) in
  let retr_c := u64 (t_retransmits_client t + rp_retransmits c) in
  if iperf then
    PerfTotals retr_s retr_c
      (d_add (t_ip2_server t) (rp_bits_per_second s)) (d_add (t_ip2_client t) (rp_bits_per_second c))
      (t_rx_server t) (t_tx_server t) (t_rx_client t) (t_tx_client t)
      (alter (fun b => d_add b (rp_bits_per_second s)) link (t_bps_server t))
      (alter (fun b => d_add b (rp_bits_per_second c)) link (t_bps_client t))
  else
    PerfTotals retr_s retr_c (t_ip2_server t) (t_ip2_client t)
      (d_add (t_rx_server t) (rp_rx_bits_per_second s)) (d_add (t_tx_server t) (rp_tx_bits_per_second s))
      (d_add (t_rx_client t) (rp_rx_bits_per_second c)) (d_add (t_tx_client t) (rp_tx_bits_per_second c))
      (alter (fun b => d_add b (rp_rx_bits_per_second s)) link (t_bps_server t))
      (alter (fun b => d_add b (rp_rx_bits_per_second c)) link (t_bps_client t)).

Definition add_reports (iperf : bool) (n_insts : Z) (links : nat) (rs : list (perf_report * perf_report)) : perf_totals :=
  fold_left (add_report iperf n_insts) (zip (seq 0 (length rs)) rs) (totals_start links).

Section functions.
Context {TE : Te}.

(** [CHECK_NOT_NULL]. *)
Definition not_null {A} (p : M (option A)) : M A :=
  x ← p; match x with Some a => mret a | None => raise IS_NULL end.

Definition test_set_if_feature (ta if_name feature_name : string) (value : option bool) : M unit :=
  match value with
  | Some b => net_drv_set_if_feature ta if_name feature_name (if (b : bool) then 1 else 0)
  | None => mret tt
  end.

(** The array elements below [n]; out of the arrays there is nothing to read. *)
Definition destroy_perf_insts (servers clients : list handle) (n : Z) : M unit :=
  r ← for_n (Z.to_nat n) 0 tt (fun i (_ : unit) =>
    match servers !! Z.to_nat i, clients !! Z.to_nat i with
    | Some s, Some c => _ ← call (tapi_perf_server_destroy s); _ ← call (tapi_perf_client_destroy c); mret (Continue (R := unit) tt)
    | _, _ => undef "read out of an array"
    end);
  mret tt.

(** A measurement that is logged when it is not zero. *)
Definition add_meas_if (logger : handle) (name : string) (v : double) : M unit :=
  when (d_gtb v EPS) (call (te_mi_logger_add_meas logger "THROUGHPUT" name v)).

Definition perf3_summary_throughput_mi_log (tx_client rx_client tx_server rx_server : double) : M unit :=
  logger ← CHECK_OUT (call (te_mi_logger_meas_create "summary throughput"));
  _ ← add_meas_if logger "Server Tx" tx_server;
  _ ← add_meas_if logger "Server Rx" rx_server;
  _ ← add_meas_if logger "Client Tx" tx_client;
  _ ← add_meas_if logger "Client Rx" rx_client;
  call (te_mi_logger_destroy logger).

Definition perf2_summary_throughput_mi_log (client_throughput server_throughput : double) : M unit :=
  logger ← CHECK_OUT (call (te_mi_logger_meas_create "summary throughput"));
  _ ← call (te_mi_logger_add_meas logger "THROUGHPUT" "Server" server_throughput);
  _ ← call (te_mi_logger_add_meas logger "THROUGHPUT" "Client" client_throughput);
  call (te_mi_logger_destroy logger).

(** *** The settings of an interface of the IUT *)

Context (ta : string) (p : perf_params).

Definition set_offloads (if_name : string) (family : Z) : M unit :=
  _ ← test_set_if_feature ta if_name "rx-checksum" (pp_rx_csum p);
  _ ← test_set_if_feature ta if_name "rx-gro" (pp_rx_gro p);
  _ ← test_set_if_feature ta if_name "rx-vlan-hw-parse" (pp_rx_vlan_strip p);
  let tx_csum_feature := if family =? AF_INET then "tx-checksum-ipv4"%string else "tx-checksum-ipv6"%string in
  configurable ← net_drv_req_if_feature_configurable ta if_name tx_csum_feature;
  _ ← test_set_if_feature ta if_name (if (configurable : bool) then tx_csum_feature else "tx-checksum-ip-generic"%string) (pp_tx_csum p);
  _ ← test_set_if_feature ta if_name "tx-gso-partial" (pp_tx_gso p);
  _ ← test_set_if_feature ta if_name (if family =? AF_INET then "tx-tcp-segmentation" else "tx-tcp6-segmentation") (pp_tso p);
  test_set_if_feature ta if_name "tx-vlan-hw-insert" (pp_tx_vlan_insert p).

(** A setting that is skipped where it is not supported. *)
Definition skip_or_verdict (rc : te_errno) (skip verdict : string) : M unit :=
  if TE_RC_GET_ERROR rc =? TE_EOPNOTSUPP then TEST_SKIP skip []
  else if negb (rc =? 0) then TEST_VERDICT verdict [AI rc] else mret tt.

Definition set_coalesce (if_name : string) : M unit :=
  when (negb (pp_rx_coalesce_usecs p =? -1) || negb (pp_rx_max_coalesced_frames p =? -1))
    (rc ← call (tapi_cfg_if_coalesce_set ta if_name (-1) "use_adaptive_rx_coalesce" 0);
     if negb (rc =? 0) then TEST_VERDICT "Failed to set use_adaptive_rx_coalesce, rc=%r" [AI rc]
     else
       _ ← when (negb (pp_rx_coalesce_usecs p =? -1))
             (CHECK_RC (call (tapi_cfg_if_coalesce_set_local ta if_name (-1) "rx_coalesce_usecs" (pp_rx_coalesce_usecs p))));
       _ ← when (negb (pp_rx_max_coalesced_frames p =? -1))
             (CHECK_RC (call (tapi_cfg_if_coalesce_set_local ta if_name (-1) "rx_max_coalesced_frames" (pp_rx_max_coalesced_frames p))));
       rc ← call (tapi_cfg_if_coalesce_commit ta if_name false);
       skip_or_verdict rc "Requested Rx coalesce settings are not supported" "Failed to set rx_coalesce_usecs, rc=%r").

Definition set_ring (if_name : string) (rx : bool) (size : Z) : M unit :=
  when (negb (size =? -1))
    (rc ← call (if size =? 0 then tapi_cfg_if_set_ring_size_to_max ta if_name rx else tapi_cfg_if_set_ring_size ta if_name rx size);
     skip_or_verdict rc (if rx then "Cannot change Rx ring size" else "Cannot change Tx ring size")
       (if rx then "Failed to set Rx ring size: %r" else "Failed to set Tx ring size: %r")).

Definition fill_indir (if_name : string) : M unit :=
  _ ← CHECK_RC (call (tapi_cfg_if_rss_fill_indir_table ta if_name 0 0 (pp_channels p - 1)));
  CHECK_RC (call (tapi_cfg_if_rss_hash_indir_commit ta if_name 0)).

Definition set_channels (if_name : string) : M unit :=
  when (negb (pp_channels p =? -1))
    (rx_queues ← CHECK_OUT (call (tapi_cfg_if_rss_rx_queues_get ta if_name));
     _ ← when (pp_channels p <? rx_queues) (fill_indir if_name);
     rc ← call (tapi_cfg_if_chan_cur_set ta if_name TAPI_CFG_IF_CHAN_COMBINED (pp_channels p));
     _ ← skip_or_verdict rc "Cannot set number of combined channels" "Failed to set number of combined channels: %r";
     _ ← when (rx_queues <? pp_channels p) (fill_indir if_name);
     CHECK_RC (call (tapi_cfg_if_rss_print_indir_table ta if_name 0))).
End functions.

(** ** The test *)
Section test.
Context {TE : Te}.
(** Macros of TE: megaunits to units, as a [double]; and the bandwidth in bits
    of each of [k] streams. *)
Context (TE_UNITS_DEC_M2U : Z -> double) (bandwidth_share : Z -> Z -> Z).
Context (iut_rpcs server_rpcs client_rpcs : rcf_rpc_server) (p : perf_params).

(** The interfaces of the IUT that the environment of the test names. *)
Definition iut_if_pass (i : Z) (ifs : list string) : M (ctl (list string) unit) :=
  x ← call (tapi_env_get_if ("iut_if" +:+ pretty i));
  mret (match x with Some ifn => Continue (ifs ++ [ifn]) | None => Break ifs end).

Definition get_iut_ifs : M (list string) :=
  r ← for_n (Z.to_nat TEST_MAX_LINKS) 0 [] iut_if_pass;
  mret (match r with inl ifs => ifs | inr _ => [] end).

(** The next link, if the environment names one; its server gets a port. *)
Definition perf_link_pass : T perf_locals (option unit) :=
  i ← gets (fun l => pretty (n_ports l));
  s ← lift (call (tapi_env_get_if ("server_if" +:+ i)));
  match s with
  | None => mret (Some tt)
  | Some server_if =>
      client_if ← lift (not_null (call (tapi_env_get_if ("client_if" +:+ i))));
      server_addr ← lift (not_null (call (tapi_env_get_addr ("server_addr" +:+ i))));
      client_addr ← lift (not_null (call (tapi_env_get_addr ("client_addr" +:+ i))));
      port ← lift (CHECK_OUT (call (tapi_allocate_port server_rpcs)));
      _ ← modify (pl_add_link (PerfLink server_if client_if (SA (sa_family server_addr) (sa_netaddr server_addr) port) client_addr));
      mret None
  end.

(** [n_perf_insts * n_ports]. *)
Definition n_total (l : perf_locals) : Z := u32 (pp_n_insts p * n_ports l).

Definition configure_iut_if (links : list perf_link) (ii : nat * string) : M unit :=
  let '(i, if_name) := ii in
  link ← deref (links !! (if (i <? length links)%nat then i else O));
  let family := sa_family (lk_server_addr link) in
  let ta := rpcs_ta iut_rpcs in
  _ ← set_offloads ta p if_name family;
  _ ← set_coalesce ta p if_name;
  _ ← set_ring ta if_name true (pp_rx_ring p);
  _ ← set_ring ta if_name false (pp_tx_ring p);
  set_channels ta p if_name.

(** VLANs between the interfaces of a link, when they are asked for. *)
Definition add_vlans (l : perf_link) : M perf_link :=
  match pp_rx_vlan_strip p, pp_tx_vlan_insert p with
  | None, None => mret l
  | _, _ =>
      '(_, client_addr2, server_addr2) ← net_drv_ts_add_vlan (rpcs_ta client_rpcs) (rpcs_ta server_rpcs) (lk_client_if l)
          (lk_server_if l) (sa_family (lk_client_addr l)) None;
      mret (lk_set_addrs (with_port server_addr2 (lk_server_addr l)) (with_port client_addr2 (lk_client_addr l)) l)
  end.

Definition link_speed (l : perf_link) : M double :=
  if pp_bandwidth p <? 0 then
    client_speed ← CHECK_OUT (call (tapi_cfg_phy_speed_oper_get (rpcs_ta client_rpcs) (lk_client_if l)));
    server_speed ← CHECK_OUT (call (tapi_cfg_phy_speed_oper_get (rpcs_ta server_rpcs) (lk_server_if l)));
    mret (TE_UNITS_DEC_M2U (Z.min client_speed server_speed))
  else mret (TE_UNITS_DEC_M2U (pp_bandwidth p)).

Definition prepare_link (l : perf_link) : M (perf_link * double) :=
  l' ← add_vlans l; speed ← link_speed l'; mret (l', speed).

(** The bandwidth of a stream; there must be streams to share it. *)
Definition opts_bandwidth : M Z :=
  if pp_bandwidth p <? 0 then mret (-1)
  else let k := u32 (pp_streams p * pp_n_insts p) in
       if k =? 0 then undef "division by zero" else mret (bandwidth_share (pp_bandwidth p) k).

Definition opts_of (bandwidth port : Z) (l : perf_link) (host src_host : string) : perf_opts :=
  PerfOpts host src_host port (negb (sa_family (lk_server_addr l) =? AF_INET)) (pp_protocol p) (pp_streams p) bandwidth
    TEST_BENCH_DURATION_SEC TEST_BENCH_DURATION_SEC (pp_dual p).

(** A CPU for a tool. *)
Definition grab_cpu (ta : string) : M Z :=
  '(rc, cpu) ← call (tapi_cfg_cpu_grab_by_prop ta);
  if rc =? TE_RC TE_TAPI TE_ENOENT then TEST_SKIP "Too few CPUs are available for perf instances" []
  else _ ← CHECK_RC (mret rc); mret cpu.

(** The job of a tool is bound to a CPU; the tool must exist. *)
Definition bind_cpu (tool : handle) (cpu : Z) : M unit :=
  if tool =? 0 then undef "null pointer" else CHECK_RC (call (tapi_job_add_exec_param tool cpu)).

(** The server of instance [i], started, and its client. *)
Definition start_instance (bandwidth : Z) (ports : list Z) (i : nat) : T perf_locals unit :=
  let idx := Z.to_nat (Z.of_nat i / pp_n_insts p) in
  links ← gets pl_links;
  link ← lift (deref (links !! idx));
  cpu ← lift (grab_cpu (rpcs_ta server_rpcs));
  host ← lift (not_null (call (te_ip2str (lk_server_addr link))));
  src_host ← lift (not_null (call (te_ip2str (lk_client_addr link))));
  let opts := opts_of bandwidth (nth i ports 0) link host src_host in
  sf ← gets pl_server_factory;
  s ← lift (call (tapi_perf_server_create (pp_bench p) opts sf));
  _ ← modify (pl_set_server i s);
  _ ← lift (bind_cpu s cpu);
  _ ← lift (CHECK_RC (call (tapi_perf_server_start_unreliable s)));
  cpu ← lift (grab_cpu (rpcs_ta client_rpcs));
  cf ← gets pl_client_factory;
  c ← lift (call (tapi_perf_client_create (pp_bench p) opts cf));
  _ ← modify (pl_set_client i c);
  lift (bind_cpu c cpu).

(** The reports of an instance. *)
Definition get_reports (sc : handle * handle) : M (perf_report * perf_report) :=
  let '(s, c) := sc in
  rs ← CHECK_OUT (call (tapi_perf_server_get_dump_check_report s));
  rc ← CHECK_OUT (call (tapi_perf_client_get_dump_check_report c));
  _ ← CHECK_RC (call (tapi_perf_server_report_mi_log s rs));
  _ ← CHECK_RC (call (tapi_perf_client_report_mi_log c rc));
  mret (rs, rc).

(** The verdicts on link [i]. *)
Definition too_low (bps minspeed : double) : bool := d_gtb bps EPS && d_ltb bps minspeed.
Definition judge_perf_link (x : nat * (double * (double * double))) : M unit :=
  let '(i, (speed, (bps_client, bps_server))) := x in
  let minspeed := d_mul speed MIN_SPEED_MULTIPLIER in
  _ ← (if d_ltb minspeed EPS then mret tt
       else when (too_low bps_client minspeed || too_low bps_server minspeed)
              (ERROR_VERDICT "Throughput is too low for #%d link." [AI (Z.of_nat i)]));
  when (d_ltb bps_client EPS && d_ltb bps_server EPS) (ERROR_VERDICT "Zero throughput for #%d link." [AI (Z.of_nat i)]).

Definition is_iperf : bool := bool_decide (pp_bench p = TAPI_PERF_IPERF).

(** The instances run, and what they reported. *)
Definition run_perf (speeds : list double) (links : nat) (tools : list (handle * handle)) : M unit :=
  _ ← call (te_motivated_sleep 1);
  _ ← CHECK_RC (call tapi_env_stats_gather);
  _ ← m_map (fun sc : handle * handle => CHECK_RC (call (tapi_perf_client_start (snd sc)))) tools;
  _ ← m_map (fun sc : handle * handle => CHECK_RC (call (tapi_perf_client_wait (snd sc)))) tools;
  _ ← call (te_motivated_sleep 2);
  reports ← m_map get_reports tools;
  let t := add_reports is_iperf (pp_n_insts p) links reports in
  _ ← (if is_iperf then perf2_summary_throughput_mi_log (t_ip2_client t) (t_ip2_server t)
       else perf3_summary_throughput_mi_log (t_tx_client t) (t_rx_client t) (t_tx_server t) (t_rx_server t));
  _ ← m_map judge_perf_link (zip (seq 0 links) (zip speeds (zip (t_bps_client t) (t_bps_server t))));
  mret tt.

Definition tcp_udp_perf_body : T perf_locals unit :=
  iut_ifs ← lift get_iut_ifs;
  _ ← t_search (Z.to_nat TEST_MAX_LINKS) perf_link_pass;
  n ← gets n_ports;
  _ ← (if Z.of_nat (length iut_ifs) <? n
       then lift (TEST_FAIL "Number of IUT interfaces is less than client/server interfaces pairs." []) else mret tt);
  total ← gets n_total;
  _ ← lift (CHECK_RC (mret (if total <? MAX_PERF_INSTS then 0 else TE_EINVAL)));
  links ← gets pl_links;
  _ ← lift (m_map (configure_iut_if links) (zip (seq 0 (length iut_ifs)) iut_ifs));
  prepared ← lift (m_map prepare_link links);
  _ ← modify (pl_set_links (map fst prepared));
  _ ← lift (call CFG_WAIT_CHANGES);
  bandwidth ← lift opts_bandwidth;
  ports ← lift (CHECK_OUT (call (tapi_allocate_port_range server_rpcs total)));
  sf ← lift (CHECK_OUT (call (tapi_job_factory_rpc_create server_rpcs)));
  _ ← modify (pl_set_server_factory sf);
  cf ← lift (CHECK_OUT (call (tapi_job_factory_rpc_create client_rpcs)));
  _ ← modify (pl_set_client_factory cf);
  _ ← t_for (seq 0 (Z.to_nat total)) (start_instance bandwidth ports);
  tools ← gets (fun l => take (Z.to_nat total) (zip (pl_servers l) (pl_clients l)));
  lift (run_perf (map snd prepared) (length links) tools).

Definition tcp_udp_perf_cleanup (l : perf_locals) : M bool :=
  _ ← destroy_perf_insts (pl_servers l) (pl_clients l) (n_total l);
  _ ← call (tapi_job_factory_destroy (pl_client_factory l));
  _ ← call (tapi_job_factory_destroy (pl_server_factory l));
  cleanup_rc (call tapi_env_stats_gather_and_log_diff).

Definition tcp_udp_perf_main : M status := test_main pl_start tcp_udp_perf_body tcp_udp_perf_cleanup.
End test.

(** ** What the test gives back *)

(** Tools that exist (servers and clients) and factories, whether something was
    destroyed that did not exist, and the number of ports that were allocated
    one by one: one for each link. *)
Record perf_world := PerfWorld { pw_tools : list (bool * handle); pw_factories : list handle; pw_bad : bool; pw_ports : Z }.

Definition pw_create (server : bool) (h : handle) (g : perf_world) : perf_world :=
  PerfWorld ((server, h) :: pw_tools g) (pw_factories g) (pw_bad g) (pw_ports g).
Definition pw_destroy (server : bool) (h : handle) (g : perf_world) : perf_world :=
  if h =? 0 then g
  else PerfWorld (drop_one (server, h) (pw_tools g)) (pw_factories g) (pw_bad g || negb (bool_decide ((server, h) ∈ pw_tools g))) (pw_ports g).
Definition pw_factory (x : te_errno * handle) (g : perf_world) : perf_world :=
  if fst x =? 0 then PerfWorld (pw_tools g) (snd x :: pw_factories g) (pw_bad g) (pw_ports g) else g.
Definition pw_no_factory (h : handle) (g : perf_world) : perf_world :=
  if h =? 0 then g
  else PerfWorld (pw_tools g) (drop_one h (pw_factories g)) (pw_bad g || negb (bool_decide (h ∈ pw_factories g))) (pw_ports g).
Definition pw_port (rc : te_errno) (g : perf_world) : perf_world :=
  if rc =? 0 then PerfWorld (pw_tools g) (pw_factories g) (pw_bad g) (pw_ports g + 1) else g.

Definition pw_upd X (c : te_call X) : X -> perf_world -> perf_world :=
  match c in te_call X return X -> perf_world -> perf_world with
  | tapi_perf_server_create _ _ _ => pw_create true
  | tapi_perf_client_create _ _ _ => pw_create false
  | tapi_perf_server_destroy h => fun _ => pw_destroy true h
  | tapi_perf_client_destroy h => fun _ => pw_destroy false h
  | tapi_job_factory_rpc_create _ => pw_factory
  | tapi_job_factory_destroy h => fun _ => pw_no_factory h
  | tapi_allocate_port _ => fun x => pw_port (fst x)
  | _ => fun _ g => g
  end.

(** Documented behaviour: what is created is not null; and an environment of
    this test has a link. *)
Definition pw_ok X (c : te_call X) : perf_world -> X -> Prop :=
  match c in te_call X return perf_world -> X -> Prop with
  | tapi_perf_server_create _ _ _ => fun _ h => h <> 0
  | tapi_perf_client_create _ _ _ => fun _ h => h <> 0
  | tapi_job_factory_rpc_create _ => fun _ x => fst x = 0 -> snd x <> 0
  | tapi_env_get_if name => fun _ x => name = "server_if0"%string -> x <> None
  | _ => fun _ _ => True
  end.

Definition pw_world : env te_call perf_world := watch_if pw_ok pw_upd.

Definition pw_free X (c : te_call X) : bool :=
  match c with
  | tapi_perf_server_create _ _ _ | tapi_perf_client_create _ _ _ | tapi_perf_server_destroy _ | tapi_perf_client_destroy _
  | tapi_job_factory_rpc_create _ | tapi_job_factory_destroy _ | tapi_allocate_port _ => false
  | _ => true
  end.

Lemma pw_free_keeps (P : perf_world -> Prop) X (c : te_call X) s x s' : pw_free X c = true -> P s -> pw_world X c s x s' -> P s'.
Proof. intros Hc HP [_ ->]. by destruct c. Qed.

Section tidy.
Context {TE : Te} (TE_UNITS_DEC_M2U : Z -> double) (bandwidth_share : Z -> Z -> Z).
Context (iut_rpcs server_rpcs client_rpcs : rcf_rpc_server) (p : perf_params).

Definition tools_of (servers clients : list handle) : list (bool * handle) :=
  map (pair true) (nz servers) ++ map (pair false) (nz clients).

(** What exists is in the locals, below [n_total]. *)
Record perf_inv (L : perf_locals) (g : perf_world) : Prop := PerfInv {
  pi_ports : pw_ports g = n_ports L;
  pi_bad : pw_bad g = false;
  pi_len : length (pl_servers L) = 32%nat /\ length (pl_clients L) = 32%nat;
  pi_tools : pw_tools g ≡ₚ tools_of (pl_servers L) (pl_clients L);
  pi_factories : pw_factories g ≡ₚ nz [pl_client_factory L; pl_server_factory L];
  pi_rest : forall j, (Z.to_nat (n_total p L) <= j < 32)%nat -> pl_servers L !! j = Some 0 /\ pl_clients L !! j = Some 0 }.

Lemma nz_cons h l : nz (h :: l) = nz [h] ++ nz l.
Proof. unfold nz. rewrite !filter_cons. by destruct (decide (h <> 0)). Qed.

Lemma nz_zeros l : (forall j, (j < length l)%nat -> l !! j = Some 0) -> nz l = [].
Proof.
  induction l as [|h l IH]; intros H; [done|]. rewrite nz_cons. specialize (H O ltac:(cbn; lia)) as H0. cbn in H0. injection H0 as ->.
  cbn. apply IH. intros j Hj. apply (H (S j)). cbn. lia.
Qed.

(** One tool destroyed, if there is one. *)
Lemma pw_destroyed b h rest g : pw_bad g = false -> pw_tools g ≡ₚ map (pair b) (nz [h]) ++ rest ->
  pw_bad (pw_destroy b h g) = false /\ pw_tools (pw_destroy b h g) ≡ₚ rest /\
  pw_factories (pw_destroy b h g) = pw_factories g /\ pw_ports (pw_destroy b h g) = pw_ports g.
Proof.
  intros Hb Ht. unfold pw_destroy, nz in *. destruct (Z.eqb_spec h 0) as [->|Hh]; [done|].
  rewrite filter_cons, decide_True in Ht by done. cbn in Ht.
  assert (Hin : (b, h) ∈ pw_tools g) by (rewrite Ht; apply list_elem_of_here). cbn. rewrite Hb, bool_decide_true by done.
  repeat split; try done. apply (Permutation_cons_inv (a := (b, h))). by rewrite <- drop_one_perm by exact Hin.
Qed.

Lemma tools_of_cons s c ss cs :
  tools_of (s :: ss) (c :: cs) ≡ₚ map (pair true) (nz [s]) ++ map (pair false) (nz [c]) ++ tools_of ss cs.
Proof.
  unfold tools_of. rewrite (nz_cons s), (nz_cons c), !map_app. rewrite <- !app_assoc. f_equiv.
  rewrite !app_assoc. f_equiv. apply Permutation_app_comm.
Qed.

Lemma destroy_insts_wp ss cs n g : length ss = 32%nat -> length cs = 32%nat -> 0 <= n -> pw_bad g = false -> pw_tools g ≡ₚ tools_of ss cs ->
  wp pw_world (destroy_perf_insts ss cs n) g (fun r g' => match r with
    | Val _ => n <= 32 /\ pw_bad g' = false /\ pw_tools g' ≡ₚ tools_of (drop (Z.to_nat n) ss) (drop (Z.to_nat n) cs) /\
        pw_factories g' = pw_factories g /\ pw_ports g' = pw_ports g
    | Undef _ => 32 < n /\ pw_ports g' = pw_ports g
    | _ => False
    end).
Proof.
  intros Hs Hc Hn Hb Ht. unfold destroy_perf_insts. apply wp_bind.
  apply (wp_for_n _ _ _ _ _ _ _ (fun i _ g' => i <= 32 /\ pw_bad g' = false /\
    pw_tools g' ≡ₚ tools_of (drop (Z.to_nat i) ss) (drop (Z.to_nat i) cs) /\ pw_factories g' = pw_factories g /\ pw_ports g' = pw_ports g)).
  - repeat split; [lia|done..].
  - intros i _ g' Hi (Hi32 & Hb' & Ht' & Hf' & Hp'). destruct (decide (i = 32)) as [->|Hne].
    { rewrite !lookup_ge_None_2 by lia. cbn. split; [lia|done]. }
    destruct (lookup_lt_is_Some_2 ss (Z.to_nat i)) as [s Es]; [lia|]. destruct (lookup_lt_is_Some_2 cs (Z.to_nat i)) as [c Ec]; [lia|].
    rewrite Es, Ec. rewrite (drop_S _ _ _ Es), (drop_S _ _ _ Ec), tools_of_cons in Ht'.
    wp_step. apply wp_call. intros [] g1 [_ ->]. cbn [pw_upd bpost].
    destruct (pw_destroyed true s _ g' Hb' Ht') as (Hb1 & Ht1 & Hf1 & Hp1).
    wp_step. apply wp_call. intros [] g2 [_ ->]. cbn [pw_upd bpost].
    destruct (pw_destroyed false c _ _ Hb1 Ht1) as (Hb2 & Ht2 & Hf2 & Hp2). cbn.
    replace (Z.to_nat (i + 1)) with (S (Z.to_nat i)) by lia. repeat split; [lia|done|done|congruence|congruence].
  - intros [] g' (Hi & Hb' & Ht' & Hf' & Hp'). rewrite Z.add_0_l, Z2Nat.id in * by lia. cbn. done.
Qed.

Lemma factory_destroyed h rest g : pw_bad g = false -> pw_factories g ≡ₚ nz (h :: rest) ->
  pw_bad (pw_no_factory h g) = false /\ pw_factories (pw_no_factory h g) ≡ₚ nz rest /\
  pw_tools (pw_no_factory h g) = pw_tools g /\ pw_ports (pw_no_factory h g) = pw_ports g.
Proof.
  intros Hb Hf. rewrite nz_cons in Hf. unfold pw_no_factory, nz in *. destruct (Z.eqb_spec h 0) as [->|Hh]; [done|].
  rewrite filter_cons, decide_True in Hf by done. cbn in Hf.
  assert (Hin : h ∈ pw_factories g) by (rewrite Hf; apply list_elem_of_here). cbn. rewrite Hb, bool_decide_true by done.
  repeat split; try done. apply (Permutation_cons_inv (a := h)). by rewrite <- drop_one_perm by exact Hin.
Qed.

(** Everything is given back, unless there were more instances than places for
    them: then the cleanup reads out of the arrays. *)
Definition tidy_end (r : result bool) (g : perf_world) : Prop :=
  match r with
  | Val _ => pw_tools g = [] /\ pw_factories g = [] /\ pw_bad g = false /\ u32 (pp_n_insts p * pw_ports g) <= 32
  | Undef _ => 32 < u32 (pp_n_insts p * pw_ports g)
  | _ => False
  end.

Lemma tcp_udp_perf_cleanup_wp L g : perf_inv L g -> wp pw_world (tcp_udp_perf_cleanup p L) g tidy_end.
Proof.
  intros [Hp Hb [Hls Hlc] Ht Hf Hr]. unfold tcp_udp_perf_cleanup. wp_step. unfold n_total in *.
  pose proof (u32_range (pp_n_insts p * n_ports L)) as Hrange. set (n := u32 (pp_n_insts p * n_ports L)) in *.
  eapply wp_mono; [apply destroy_insts_wp; [done|done|lia|done|done]|].
  intros [[]|j|w|] g1; cbn [bpost]; try done; [|intros [H1 E]; unfold tidy_end; by rewrite E, Hp].
  intros (Hn & Hb1 & Ht1 & Hf1 & Hp1).
  assert (E : tools_of (drop (Z.to_nat n) (pl_servers L)) (drop (Z.to_nat n) (pl_clients L)) = []).
  { unfold tools_of. rewrite !nz_zeros; [done|intros j; rewrite length_drop, lookup_drop; intros Hj; apply Hr; lia..]. }
  rewrite E in Ht1. apply Permutation_nil_r in Ht1. rewrite <- Hf1 in Hf.
  wp_step. apply wp_call. intros [] g2 [_ ->]. cbn [pw_upd bpost]. destruct (factory_destroyed _ _ _ Hb1 Hf) as (Hb2 & Hf2 & Ht2 & Hp2).
  wp_step. apply wp_call. intros [] g3 [_ ->]. cbn [pw_upd bpost]. destruct (factory_destroyed _ _ _ Hb2 Hf2) as (Hb3 & Hf3 & Ht3 & Hp3).
  unfold cleanup_rc. wp_step. apply wp_call. intros rc g4 [_ ->]. cbn. rewrite Ht3, Ht2, Ht1, Hp3, Hp2, Hp1, Hp. fold n.
  apply Permutation_nil_r in Hf3. by repeat split.
Qed.

(** *** Before there are tools *)

Definition blank (L : perf_locals) : Prop :=
  pl_servers L = init_perf_insts /\ pl_clients L = init_perf_insts /\ pl_server_factory L = 0 /\ pl_client_factory L = 0.
Definition at_links (L : perf_locals) (g : perf_world) : Prop := blank L /\ g = PerfWorld [] [] false (n_ports L).

Lemma init_zero j : (j < 32)%nat -> init_perf_insts !! j = Some 0.
Proof. intros Hj. apply lookup_replicate. split; [done|exact Hj]. Qed.

Lemma at_links_inv L g : at_links L g -> perf_inv L g.
Proof.
  intros ((Es & Ec & Ef & Ef') & ->). split; rewrite ?Es, ?Ec, ?Ef, ?Ef'; try done. intros j Hj. by rewrite init_zero by lia.
Qed.

Lemma perf_link_pass_wp L g : at_links L g ->
  wp pw_world (perf_link_pass server_rpcs L) g (upto perf_inv (fun r L' g' => at_links L' g' /\ (r = None \/ pl_links L <> []) /\
    (r = None -> pl_links L' <> []) /\ (pl_links L <> [] -> pl_links L' <> []))).
Proof.
  intros HL. pose proof (at_links_inv L g HL) as HI. unfold perf_link_pass. apply st_gets, st_call, wp_call. intros s g1 [Hs ->]. cbn [pw_upd].
  destruct s as [server_if|].
  2: { cbn. split; [done|]. assert (Hne : pl_links L <> []); [|by repeat split; auto].
       intros E. unfold n_ports in Hs. rewrite E in Hs. by apply (Hs eq_refl). }
  do 3 (apply (st_only pw_world perf_inv _ pw_free (fun g' => g' = g)); [unfold not_null; solve_only|intros X c s x s' Hc -> [_ ->]; by destruct c|done|by intros ? ->|intros ? ? ->]).
  apply st_call. unfold CHECK_OUT. wp_step. apply wp_call. intros [rc port] g1 [_ ->]. cbn [pw_upd fst bpost]. unfold pw_port.
  destruct (rc =? 0); [|exact HI]. cbn [wp mret prog_ret]. apply st_modify. cbn. destruct HL as [HB ->]. split.
  - split; [exact HB|]. unfold n_ports. cbn. rewrite length_app. cbn. f_equal. lia.
  - assert (H : forall x, pl_links L ++ [x] <> []) by (intros x E; by apply app_nil in E as [_ E]). repeat split; auto.
Qed.

Lemma perf_link_pass_first L g : at_links L g -> pl_links L = [] ->
  wp pw_world (t_search (Z.to_nat TEST_MAX_LINKS) (perf_link_pass server_rpcs) L) g
    (upto perf_inv (fun _ L' g' => at_links L' g' /\ pl_links L' <> [])).
Proof.
  intros HL Hnil. change (Z.to_nat TEST_MAX_LINKS) with 4%nat. cbn [t_search]. apply st_bind. eapply wp_mono; [by apply perf_link_pass_wp|].
  intros [[L1 [r|j]]| | |] g1 H; cbn [upto] in *; try done. destruct H as (H1 & H2 & H3 & _).
  destruct r as [[]|]; [by destruct H2|]. specialize (H3 eq_refl).
  eapply wp_mono; [apply (st_search pw_world perf_inv 3 (perf_link_pass server_rpcs) (fun L' g' => at_links L' g' /\ pl_links L' <> [])
    (fun _ L' g' => at_links L' g' /\ pl_links L' <> [])); [done|]|].
  - intros L2 g2 [HL2 Hne2]. eapply wp_mono; [by apply perf_link_pass_wp|].
    intros [[L3 [r|j]]| | |] g3 H; cbn [upto] in *; try done. destruct H as (H4 & _ & _ & H5). destruct r; auto.
  - intros [[L3 [r|j]]| | |] g3 H; cbn [upto] in *; try done. by destruct r.
Qed.

(** *** Tools are started *)

Section started.
Context (k : nat).

(** Servers from the [a]-th on and clients from the [b]-th on do not exist yet. *)
Definition started (a b : nat) (L : perf_locals) (g : perf_world) : Prop :=
  perf_inv L g /\ length (pl_links L) = k /\
  (forall j, (a <= j < 32)%nat -> pl_servers L !! j = Some 0) /\ (forall j, (b <= j < 32)%nat -> pl_clients L !! j = Some 0).

Lemma server_stored i h L g : Z.of_nat i < n_total p L < 32 -> h <> 0 -> started i i L g ->
  started (S i) i (pl_set_server i h L) (pw_create true h g).
Proof.
  intros Hi Hh ([Hp Hb [Hls Hlc] Ht Hf Hr] & Hk & Hs & Hc). split; [|split; [done|split; [|done]]].
  - split; try done; cbn.
    + by rewrite length_insert.
    + rewrite Ht. unfold tools_of. rewrite (nz_insert (pl_servers L) i h (Hs i ltac:(lia)) Hh). done.
    + intros j Hj. rewrite list_lookup_insert_ne; [by apply Hr|]. change (n_total p (pl_set_server i h L)) with (n_total p L) in Hj. lia.
  - intros j Hj. cbn. rewrite list_lookup_insert_ne by lia. apply Hs. lia.
Qed.

Lemma client_stored i h L g : Z.of_nat i < n_total p L < 32 -> h <> 0 -> started (S i) i L g ->
  started (S i) (S i) (pl_set_client i h L) (pw_create false h g).
Proof.
  intros Hi Hh ([Hp Hb [Hls Hlc] Ht Hf Hr] & Hk & Hs & Hc). split; [|split; [done|split; [done|]]].
  - split; try done; cbn.
    + by rewrite length_insert.
    + rewrite Ht. unfold tools_of. rewrite (nz_insert (pl_clients L) i h (Hc i ltac:(lia)) Hh). cbn. apply Permutation_middle.
    + intros j Hj. rewrite list_lookup_insert_ne; [by apply Hr|]. change (n_total p (pl_set_client i h L)) with (n_total p L) in Hj. lia.
  - intros j Hj. cbn. rewrite list_lookup_insert_ne by lia. apply Hc. lia.
Qed.

Lemma instance_link L i : 0 <= pp_n_insts p -> length (pl_links L) = k -> Z.of_nat i < n_total p L ->
  (Z.to_nat (Z.of_nat i / pp_n_insts p) < k)%nat.
Proof.
  intros Hn Hk Hi. unfold n_total, n_ports in Hi. rewrite Hk in Hi. set (n := pp_n_insts p) in *.
  assert (Hle : u32 (n * Z.of_nat k) <= n * Z.of_nat k) by (unfold u32; apply Z.mod_le; nia).
  assert (0 < n) by (destruct (decide (n = 0)) as [E|]; [rewrite E in Hi; change (u32 (0 * Z.of_nat k)) with 0 in Hi; lia|lia]).
  assert (Z.of_nat i / n < Z.of_nat k) by (apply Z.div_lt_upper_bound; lia). pose proof (Z.div_pos (Z.of_nat i) n). lia.
Qed.

(** Code between the creations. *)
Lemma st_between {A B} (G : B -> perf_locals -> perf_world -> Prop) a b (q : M A) (f : A -> T perf_locals B) L g :
  only pw_free any_jump q -> started a b L g -> (forall x g', started a b L g' -> wp pw_world (f x L) g' (upto perf_inv G)) ->
  wp pw_world (mbind f (lift q) L) g (upto perf_inv G).
Proof.
  intros Ho HL Hf. apply (st_only pw_world perf_inv _ pw_free (fun g' => g' = g)); [exact Ho| |done|intros g' ->; apply HL|intros x g' ->; by apply Hf].
  intros X c s x s' Hc -> [_ ->]. by destruct c.
Qed.

Lemma grab_cpu_free ta : only pw_free any_jump (grab_cpu ta).
Proof. unfold grab_cpu. solve_only. Qed.

Lemma bind_cpu_free h cpu : h <> 0 -> only pw_free any_jump (bind_cpu h cpu).
Proof. intros Hh. unfold bind_cpu. rewrite (proj2 (Z.eqb_neq _ _) Hh). solve_only. Qed.

Lemma start_instance_wp bandwidth ports i L g : 0 <= pp_n_insts p -> Z.of_nat i < n_total p L < 32 -> started i i L g ->
  wp pw_world (start_instance server_rpcs client_rpcs p bandwidth ports i L) g
    (upto perf_inv (fun _ L' g' => started (S i) (S i) L' g' /\ n_total p L' = n_total p L)).
Proof.
  intros Hn Hi HL. assert (Hk : length (pl_links L) = k) by apply HL. unfold start_instance. apply st_gets.
  destruct (lookup_lt_is_Some_2 (pl_links L) (Z.to_nat (Z.of_nat i / pp_n_insts p))) as [link El].
  { rewrite Hk. apply (instance_link L); [done|done|lia]. }
  rewrite El. apply st_call. cbn [deref wp mret prog_ret].
  do 3 (apply (st_between _ i i); [apply grab_cpu_free || (unfold not_null; solve_only)|done|intros ? ? H1; clear HL; rename H1 into HL]).
  apply st_gets, st_call, wp_call. intros s g1 [Hs ->]. cbn [pw_upd]. apply st_modify.
  apply (server_stored i s) in HL; [|exact Hi|exact Hs].
  assert (Et : n_total p (pl_set_server i s L) = n_total p L) by done.
  set (L1 := pl_set_server i s L) in *. clearbody L1. rewrite <- Et in Hi. rewrite <- Et. clear Hk El Et.
  do 3 (apply (st_between _ (S i) i); [apply grab_cpu_free || (apply bind_cpu_free, Hs) || solve_only|done|intros ? ? H2; clear HL; rename H2 into HL]).
  apply st_gets, st_call, wp_call. intros c g1 [Hc ->]. cbn [pw_upd]. apply st_modify.
  apply (client_stored i c) in HL; [|exact Hi|exact Hc].
  unfold lift. apply wp_bind, wp_attempt.
  eapply wp_mono; [apply (wp_only pw_free any_jump pw_world (started (S i) (S i) (pl_set_client i c L1))); [by apply bind_cpu_free| |exact HL]|].
  - intros X c' s' y s2 Hc' H [_ ->]. by destruct c'.
  - intros [[]|j|w|] g2 [H2 H3]; cbn; try done. apply H2.
Qed.
End started.

(** *** The test *)

Lemma test_set_if_feature_free ta ifn f v : only pw_free any_jump (test_set_if_feature ta ifn f v).
Proof. unfold test_set_if_feature, net_drv_set_if_feature, net_drv_set_if_feature_gen, net_drv_req_if_feature_change. solve_only. Qed.

Lemma configure_iut_if_free links ii : links <> [] -> only pw_free any_jump (configure_iut_if iut_rpcs p links ii).
Proof.
  intros Hne. destruct ii as [i ifn]. unfold configure_iut_if.
  destruct (lookup_lt_is_Some_2 links (if (i <? length links)%nat then i else O)) as [link El].
  { destruct (Nat.ltb_spec i (length links)); [done|]. destruct links; [done|cbn; lia]. }
  rewrite El. unfold set_offloads, net_drv_req_if_feature_configurable, set_coalesce, set_ring, set_channels, fill_indir, skip_or_verdict.
  apply only_bind; [exact I|]. intros a.
  repeat first [apply test_set_if_feature_free | progress solve_only | match goal with |- only _ _ (call (if ?b then _ else _)) => destruct b end].
Qed.

Lemma prepare_link_free l : only pw_free any_jump (prepare_link TE_UNITS_DEC_M2U server_rpcs client_rpcs p l).
Proof. unfold prepare_link, add_vlans, link_speed, net_drv_ts_add_vlan. solve_only. Qed.

Lemma get_reports_free sc : only pw_free any_jump (get_reports sc).
Proof. unfold get_reports. solve_only. Qed.

Lemma add_meas_if_free logger name v : only pw_free any_jump (add_meas_if logger name v).
Proof. unfold add_meas_if. generalize (d_gtb v EPS). by intros []. Qed.

Lemma summary_free a b c d : only pw_free any_jump (perf3_summary_throughput_mi_log a b c d).
Proof.
  unfold perf3_summary_throughput_mi_log. apply only_bind; [solve_only|intros logger].
  do 4 (apply only_bind; [apply add_meas_if_free|intros _]). done.
Qed.

Lemma judge_perf_link_free x : only pw_free any_jump (judge_perf_link x).
Proof.
  destruct x as (i & speed & bps_client & bps_server). unfold judge_perf_link. cbv zeta.
  generalize (d_mul speed MIN_SPEED_MULTIPLIER), EPS. intros minspeed eps. apply only_bind.
  - destruct (d_ltb minspeed eps); [exact I|]. unfold when. by destruct (_ || _).
  - intros _. unfold when. by destruct (_ && _).
Qed.

Lemma run_perf_free speeds links tools : only pw_free any_jump (run_perf p speeds links tools).
Proof.
  unfold run_perf. do 2 (apply only_bind; [solve_only|intros _]). do 2 (apply only_bind; [apply only_map; solve_only|intros _]).
  apply only_bind; [solve_only|intros _]. apply only_bind; [apply only_map, get_reports_free|intros reports].
  apply only_bind; [destruct (is_iperf p); [solve_only|apply summary_free]|intros _].
  apply only_bind; [apply only_map, judge_perf_link_free|done].
Qed.

Lemma keeps_eq g X (c : te_call X) s x s' : pw_free X c = true -> s = g -> pw_world X c s x s' -> s' = g.
Proof. intros Hc -> [_ ->]. by destruct c. Qed.

(** Code before the factories. *)
Lemma st_at_links {A B} (q : M A) (f : A -> T perf_locals B) (G : B -> perf_locals -> perf_world -> Prop) L g :
  only pw_free any_jump q -> at_links L g -> (forall a, wp pw_world (f a L) g (upto perf_inv G)) ->
  wp pw_world (mbind f (lift q) L) g (upto perf_inv G).
Proof.
  intros Hq HL Hf. apply (st_only pw_world perf_inv _ pw_free (fun g' => g' = g)); [exact Hq|apply keeps_eq|done| |by intros a g' ->].
  intros g' ->. by apply at_links_inv.
Qed.

(** The links are prepared: as many of them, and nothing exists yet. *)
Lemma links_prepared {B} (f : list (perf_link * double) -> T perf_locals B) G L g : at_links L g ->
  (forall ys, length ys = length (pl_links L) -> wp pw_world (f ys L) g (upto perf_inv G)) ->
  wp pw_world (mbind f (lift (m_map (prepare_link TE_UNITS_DEC_M2U server_rpcs client_rpcs p) (pl_links L))) L) g (upto perf_inv G).
Proof.
  intros HL Hf. apply st_call. eapply wp_mono; [apply wp_and|].
  - apply (wp_only pw_free any_jump pw_world (fun g' => g' = g)); [apply only_map, prepare_link_free|apply keeps_eq|done].
  - apply (lands_map_length pw_world pw_free _ _ _ (fun g' => g' = g)); [apply prepare_link_free|apply keeps_eq|done].
  - intros [ys|j|w|] g' [[-> Hr] H]; cbn in *; try done; [|by apply at_links_inv]. destruct H as [Hl _]. by apply Hf.
Qed.

Lemma opts_bandwidth_free : pp_bandwidth p < 0 \/ u32 (pp_streams p * pp_n_insts p) <> 0 ->
  only pw_free any_jump (opts_bandwidth bandwidth_share p).
Proof.
  intros Hb. unfold opts_bandwidth. destruct (Z.ltb_spec (pp_bandwidth p) 0); [done|].
  destruct (Z.eqb_spec (u32 (pp_streams p * pp_n_insts p)) 0) as [E|]; [|done]. destruct Hb; [lia|done].
Qed.

(** Both factories are created; then the instances can be. *)
Lemma factories_created {B} (f : unit -> T perf_locals B) G L g : n_total p L < 32 -> at_links L g ->
  (forall sf cf g', sf <> 0 -> cf <> 0 -> let L' := pl_set_client_factory cf (pl_set_server_factory sf L) in
     started (length (pl_links L)) 0 0 L' g' -> wp pw_world (f tt L') g' (upto perf_inv G)) ->
  wp pw_world (mbind (fun sf => mbind (fun _ => mbind (fun cf => mbind f (modify (pl_set_client_factory cf)))
      (lift (CHECK_OUT (call (tapi_job_factory_rpc_create client_rpcs))))) (modify (pl_set_server_factory sf)))
      (lift (CHECK_OUT (call (tapi_job_factory_rpc_create server_rpcs)))) L) g (upto perf_inv G).
Proof.
  intros Ht HL Hf. pose proof (at_links_inv L g HL) as HI. destruct HL as ((Es & Ec & Ef & Ef') & Eg).
  apply st_call. unfold CHECK_OUT. wp_step. apply wp_call. intros [rc sf] g1 [Hsf ->]. cbn [pw_upd bpost fst snd] in *. unfold pw_factory. cbn [fst snd] in *.
  destruct (Z.eqb_spec rc 0) as [E|E]; [|exact HI]. cbn [wp mret prog_ret]. apply st_modify. specialize (Hsf E).
  apply st_call. wp_step. apply wp_call. intros [rc' cf] g2 [Hcf ->]. cbn [pw_upd bpost fst snd] in *. unfold pw_factory. cbn [fst snd pw_tools pw_factories pw_bad pw_ports] in *.
  assert (Hz : forall j, (j < 32)%nat -> init_perf_insts !! j = Some 0) by apply init_zero.
  destruct (Z.eqb_spec rc' 0) as [E'|E'].
  - cbn [wp mret prog_ret]. apply st_modify. specialize (Hcf E'). apply Hf; [done|done|]. subst g. split; [|split; [done|split]].
    + split; cbn; rewrite ?Es, ?Ec; try done.
      * by rewrite !decide_True by done.
      * intros j Hj. by rewrite Hz by lia.
    + intros j Hj. cbn. rewrite Es. apply Hz. lia.
    + intros j Hj. cbn. rewrite Ec. apply Hz. lia.
  - cbn. subst g. split; cbn; rewrite ?Es, ?Ec; try done.
    + rewrite decide_False by (rewrite Ef'; intros H; by apply H). by rewrite decide_True by done.
    + intros j Hj. by rewrite Hz by lia.
Qed.

(** The instances are started one after the other, and run. *)
Lemma instances_run bandwidth ports speeds links total k L g : 0 <= pp_n_insts p -> n_total p L = total -> total < 32 ->
  started k 0 0 L g ->
  wp pw_world ((_ ← t_for (seq 0 (Z.to_nat total)) (start_instance server_rpcs client_rpcs p bandwidth ports);
    tools ← gets (fun l => take (Z.to_nat total) (zip (pl_servers l) (pl_clients l)));
    lift (run_perf p speeds links tools)) L) g (ends perf_inv).
Proof.
  intros Hn Et Hlt HL. apply st_bind.
  eapply wp_mono; [apply (st_for pw_world perf_inv _ _ (fun pre L' g' => started k (length pre) (length pre) L' g' /\ n_total p L' = total)); [done|]|].
  - intros pre i post L' g' El [HL' Et']. apply seq_split in El as [-> Hi]. rewrite length_app, Nat.add_comm. cbn [length Nat.add].
    rewrite <- Et'. apply start_instance_wp; [done|lia|exact HL'].
  - intros [[L' [[]|j]]| | |] g' H; cbn [upto] in *; try done. destruct H as [[HI _] _]. apply st_gets.
    unfold lift. apply wp_bind, wp_attempt.
    eapply wp_mono; [apply (wp_only pw_free any_jump pw_world (perf_inv L')); [apply run_perf_free| |exact HI]|].
    + intros X c s x s' Hc H [_ ->]. by destruct c.
    + intros [a|j|w|] g2 [H2 H3]; cbn; done.
Qed.

Lemma tcp_udp_perf_body_keeps : 0 <= pp_n_insts p -> (pp_bandwidth p < 0 \/ u32 (pp_streams p * pp_n_insts p) <> 0) ->
  wp pw_world (tcp_udp_perf_body TE_UNITS_DEC_M2U bandwidth_share iut_rpcs server_rpcs client_rpcs p pl_start)
    (PerfWorld [] [] false 0) (ends perf_inv).
Proof.
  intros Hn Hb. unfold tcp_udp_perf_body. assert (H0 : at_links pl_start (PerfWorld [] [] false 0)) by done.
  apply (st_only pw_world perf_inv _ pw_free (fun g' => g' = PerfWorld [] [] false 0));
    [unfold get_iut_ifs, iut_if_pass; solve_only|apply keeps_eq|done|by intros g' ->; apply at_links_inv|intros iut_ifs g' ->].
  apply st_bind. eapply wp_mono; [by apply perf_link_pass_first|].
  intros [[L [r|j]]| | |] g H; cbn [upto] in *; try done. destruct H as [HL Hne]. pose proof (at_links_inv L g HL) as HI.
  apply st_gets, st_bind. destruct (_ <? n_ports L); [exact HI|]. cbn [mret T_ret wp prog_ret upto].
  apply st_gets, st_call. unfold CHECK_RC. cbn [wp mret prog_ret mbind prog_bind bind lift_result].
  destruct (Z.ltb_spec (n_total p L) MAX_PERF_INSTS) as [Hlt|_]; cbn [Z.eqb].
  2: { destruct (TE_EINVAL =? 0) eqn:E; cbn; [|exact HI]. exfalso. apply Z.eqb_eq in E. revert E. apply te_code_nonzero. auto with te. }
  cbn [wp mret prog_ret]. apply st_gets.
  apply st_at_links; [apply only_map; intros ii; by apply configure_iut_if_free|done|intros _].
  apply (links_prepared _ _ L g HL). intros ys Hys. apply st_modify. set (L' := pl_set_links (map fst ys) L).
  assert (HL' : at_links L' g).
  { destruct HL as [HB ->]. split; [done|]. unfold n_ports. cbn. by rewrite length_map, Hys. }
  assert (Et : n_total p L = n_total p L') by (unfold n_total, n_ports; cbn; by rewrite length_map, Hys).
  rewrite Et in *. generalize (length (pl_links L)). intros links. clear HI HL Hne Et. clearbody L'. clear Hys.
  apply st_at_links; [solve_only|done|intros _]. apply st_at_links; [by apply opts_bandwidth_free|done|intros bandwidth].
  apply st_at_links; [solve_only|done|intros ports].
  apply factories_created; [exact Hlt|exact HL'|]. intros sf cf g' Hsf Hcf L2 HL2. by apply (instances_run _ _ _ _ _ (length (pl_links L'))).
Qed.

(** C40. However the performance test ends, it has destroyed every server, every
    client and both factories that it created, each once - unless the number of
    instances on all links, as an [unsigned int], is above 32: the check of that
    number jumps to the cleanup, which then reads out of its two arrays of 32. *)
Theorem tcp_udp_perf_tidy : 0 <= pp_n_insts p -> (pp_bandwidth p < 0 \/ u32 (pp_streams p * pp_n_insts p) <> 0) ->
  wp pw_world (tcp_udp_perf_main TE_UNITS_DEC_M2U bandwidth_share iut_rpcs server_rpcs client_rpcs p) (PerfWorld [] [] false 0)
    (fun r g => match r with
     | Val _ => pw_tools g = [] /\ pw_factories g = [] /\ pw_bad g = false /\ u32 (pp_n_insts p * pw_ports g) <= 32
     | Undef _ => 32 < u32 (pp_n_insts p * pw_ports g)
     | NoFuel => True
     | Exc _ => False
     end).
Proof.
  intros Hn Hb. unfold tcp_udp_perf_main, test_main. wp_step. eapply wp_mono; [by apply tcp_udp_perf_body_keeps|].
  intros [[L r]| | |] g H; try done. assert (HI : perf_inv L g) by (by destruct r). cbn [bpost]. clear H.
  wp_step. eapply wp_mono; [by apply tcp_udp_perf_cleanup_wp|]. by intros [b|j|w|] g' H'.
Qed.
End tidy.

(** ** The sum of each link *)

(** The reports of link [l]: those of its [n] instances. *)
Definition reports_of (n l : nat) (rs : list (perf_report * perf_report)) : list (perf_report * perf_report) := take n (drop (l * n) rs).
(** The rate of a report that counts. *)
Definition rate_of (iperf : bool) (r : perf_report) : double := if iperf then rp_bits_per_second r else rp_rx_bits_per_second r.

Lemma reports_of_snoc n l pre x : (0 < n)%nat ->
  reports_of n l (pre ++ [x]) = if (l =? length pre / n)%nat then reports_of n l pre ++ [x] else reports_of n l pre.
Proof.
  intros Hn. unfold reports_of. pose proof (Nat.div_mod_eq (length pre) n) as Hd. pose proof (Nat.mod_upper_bound (length pre) n ltac:(lia)) as Hm.
  set (q := (length pre / n)%nat) in *. set (r := (length pre mod n)%nat) in *. destruct (Nat.eqb_spec l q) as [->|Hne].
  - rewrite drop_app_le by nia. rewrite (take_ge (_ ++ _)), (take_ge (drop _ _)); [done|rewrite ?length_app, length_drop; cbn; nia..].
  - destruct (decide (l < q)%nat) as [Hlt|Hge].
    + rewrite drop_app_le by nia. apply take_app_le. rewrite length_drop. nia.
    + rewrite !drop_ge; [done|nia|rewrite length_app; cbn; nia].
Qed.

Lemma d_sum_snoc l x : d_sum (l ++ [x]) = d_add (d_sum l) x.
Proof. unfold d_sum. by rewrite fold_left_app. Qed.

(** The throughput of a link is the sum of what its own instances reported, in
    their order, on the side of the server and on that of the client. *)
Theorem add_reports_by_link (iperf : bool) (n links l : nat) rs : (0 < n)%nat -> (l < links)%nat ->
  t_bps_server (add_reports iperf (Z.of_nat n) links rs) !! l = Some (d_sum (map (fun r => rate_of iperf (fst r)) (reports_of n l rs))) /\
  t_bps_client (add_reports iperf (Z.of_nat n) links rs) !! l = Some (d_sum (map (fun r => rate_of iperf (snd r)) (reports_of n l rs))).
Proof.
  intros Hn Hl. induction rs as [|x pre IH] using rev_ind.
  - unfold reports_of. rewrite drop_nil, take_nil. split; by apply lookup_replicate.
  - unfold add_reports in *. rewrite length_app, seq_app. cbn [seq length Nat.add].
    rewrite (zip_with_app pair (seq 0 (length pre)) [length pre] pre [x]) by (by rewrite length_seq). rewrite fold_left_app. cbn [fold_left zip_with].
    set (t := fold_left _ _ _) in *. clearbody t. destruct x as [s c]. destruct IH as [IHs IHc].
    rewrite reports_of_snoc by done. cbn [add_report]. rewrite <- Nat2Z.inj_div, Nat2Z.id.
    assert (Ha : forall f (bs : list double), alter f (length pre / n)%nat bs !! l = (if (l =? length pre / n)%nat then f else id) <$> bs !! l).
    { intros f bs. rewrite list_lookup_alter. destruct (Nat.eqb_spec l (length pre / n)) as [->|Hne]; [by rewrite decide_True by done|].
      rewrite decide_False by congruence. by destruct (bs !! l). }
    destruct iperf; cbn [t_bps_server t_bps_client]; rewrite !Ha, IHs, IHc; destruct (l =? length pre / n)%nat; cbn [fmap option_fmap option_map id];
      rewrite ?map_app; cbn [map]; by rewrite ?d_sum_snoc.
Qed.

(** ** Concrete runs *)
Module PerfWitness.
Local Existing Instance te_ref.

(** [n] instances on each link, everything else by default. *)
Definition defaults (n : Z) : perf_params :=
  PerfParams None None None None None None None (-1) (-1) (-1) (-1) (-1) TAPI_PERF_IPERF false n 1 (-1) 6.

Definition main (n : Z) : M status := tcp_udp_perf_main d_of_Z (fun b k => b / k) (RPCS "iut" "A") (RPCS "srv" "A") (RPCS "cli" "B") (defaults n).

(** An environment with four links, in which everything succeeds. *)
Definition answer : handler te_call perf_world := fun X c g =>
  let x := match c in te_call X return X with
    | tapi_env_get_if _ => Some "eth1"%string
    | tapi_env_get_addr _ => Some (SA 2 [10; 0; 0; 1] 0)
    | te_ip2str _ => Some "10.0.0.1"%string
    | tapi_perf_server_create _ _ _ => 1
    | tapi_perf_client_create _ _ _ => 2
    | tapi_job_factory_rpc_create _ => (0, 3)
    | c => default_answer c
    end in (x, pw_upd X c x g).

Lemma tcp_udp_perf_tidy_witness :
  0 <= pp_n_insts (defaults 2) /\ (pp_bandwidth (defaults 2) < 0 \/ u32 (pp_streams (defaults 2) * pp_n_insts (defaults 2)) <> 0) /\
  wp pw_world (main 2) (PerfWorld [] [] false 0)
    (fun r g => match r with
     | Val _ => pw_tools g = [] /\ pw_factories g = [] /\ pw_bad g = false /\ u32 (2 * pw_ports g) <= 32
     | Undef _ => 32 < u32 (2 * pw_ports g)
     | NoFuel => True
     | Exc _ => False
     end).
Proof.
  split; [cbn; lia|]. split; [left; cbn; lia|].
  refine (tcp_udp_perf_tidy d_of_Z (fun b k => b / k) (RPCS "iut" "A") (RPCS "srv" "A") (RPCS "cli" "B") (defaults 2) _ _); [cbn; lia|left; cbn; lia].
Defined.

(** Nine instances on each of four links: the cleanup reads the element 32 of an
    array of 32. *)
Lemma too_many_instances_undefined : fst (run answer (main 9) (PerfWorld [] [] false 0)) = Undef "read out of an array".
Proof. vm_compute. reflexivity. Qed.

(** Two on each: everything is started, judged and destroyed. *)
Lemma eight_instances_run : run answer (main 2) (PerfWorld [] [] false 0) = (Val Passed, PerfWorld [] [] false 4).
Proof. vm_compute. reflexivity. Qed.
End PerfWitness.
