(* ===== verification/Usage.v ===== *)
(** What the tests with data flows own on the agents: descriptors of the two
    RPC servers they are given, and the servers they fork from them, each with
    a copy of its parent's descriptors.  The lemmas say what preparing,
    starting, finishing and destroying flows and connections do to it. *)
From S2P Require Import Prelude Prog Te Locals NetDrvTs DataFlow Resources.

(** Descriptors the test opened in the first server and in the second; forked
    servers that are alive, with the descriptors they inherited; whether
    something was closed or destroyed that the test did not own; whether a
    fork, or the creation of a connection, failed. *)
Record usage := Usage {
  u_iut : gset Z; u_tst : gset Z; u_kids : gmap rcf_rpc_server (gset Z);
  u_stray : bool; u_fork_failed : bool; u_conn_failed : bool }.
Definition u_start : usage := Usage ∅ ∅ ∅ false false false.

Definition u_set_iut (s : gset Z) (u : usage) : usage :=
  Usage s (u_tst u) (u_kids u) (u_stray u) (u_fork_failed u) (u_conn_failed u).
Definition u_set_tst (s : gset Z) (u : usage) : usage :=
  Usage (u_iut u) s (u_kids u) (u_stray u) (u_fork_failed u) (u_conn_failed u).
Definition u_set_kids (k : gmap rcf_rpc_server (gset Z)) (u : usage) : usage :=
  Usage (u_iut u) (u_tst u) k (u_stray u) (u_fork_failed u) (u_conn_failed u).
Definition u_set_stray (u : usage) : usage :=
  Usage (u_iut u) (u_tst u) (u_kids u) true (u_fork_failed u) (u_conn_failed u).
Definition u_no_fork (u : usage) : usage :=
  Usage (u_iut u) (u_tst u) (u_kids u) (u_stray u) true (u_conn_failed u).
Definition u_no_conn (u : usage) : usage :=
  Usage (u_iut u) (u_tst u) (u_kids u) (u_stray u) (u_fork_failed u) true.

(** Nothing is owned any more, and nothing else was touched. *)
Definition released (u : usage) : Prop :=
  u_iut u = ∅ /\ u_tst u = ∅ /\ u_kids u = ∅ /\ u_stray u = false.

Section usage.
Context {TE : Te} (iut tst : rcf_rpc_server).

(** The descriptors of a server. *)
Definition fds (r : rcf_rpc_server) (u : usage) : gset Z :=
  if decide (r = iut) then u_iut u
  else if decide (r = tst) then u_tst u else default ∅ (u_kids u !! r).
Definition set_fds (r : rcf_rpc_server) (s : gset Z) (u : usage) : usage :=
  if decide (r = iut) then u_set_iut s u
  else if decide (r = tst) then u_set_tst s u else u_set_kids (<[r := s]> (u_kids u)) u.

(** A server the test forked and that lives. *)
Definition is_kid (r : rcf_rpc_server) (u : usage) : bool :=
  bool_decide (r <> iut /\ r <> tst /\ is_Some (u_kids u !! r)).

Definition u_upd X (c : te_call X) : X -> usage -> usage :=
  match c in te_call X return X -> usage -> usage with
  | GEN_CONNECTION r1 r2 _ _ _ => fun x u =>
      if fst x =? 0 then
        let u := set_fds r1 (fds r1 u ∪ {[fst (snd x)]}) u in
        set_fds r2 (fds r2 u ∪ {[snd (snd x)]}) u
      else u_no_conn u
  | tapi_sockaddr_clone _ _ => fun x u => if fst x =? 0 then u else u_no_conn u
  | rcf_rpc_server_fork r _ => fun x u =>
      if fst x =? 0 then u_set_kids (<[snd x := fds r u]> (u_kids u)) u else u_no_fork u
  | rcf_rpc_server_destroy r => fun _ u =>
      if is_kid r u then u_set_kids (delete r (u_kids u)) u else u_set_stray u
  | rpc_close r s => fun _ u =>
      if bool_decide (s ∈ fds r u) then set_fds r (fds r u ∖ {[s]}) u else u_set_stray u
  | _ => fun _ u => u
  end.

(** Documented behaviour: a descriptor that is opened is not one that is open;
    a server that is forked is a new one; names fit in their buffers; the
    driver of an agent, when it is found, has a name. *)
Definition u_ok X (c : te_call X) : usage -> X -> Prop :=
  match c in te_call X return usage -> X -> Prop with
  | GEN_CONNECTION r1 r2 _ _ _ => fun u x => fst x = 0 ->
      0 <= fst (snd x) /\ (fst (snd x) ∉ fds r1 u) /\ 0 <= snd (snd x) /\ (snd (snd x) ∉ fds r2 u)
  | rcf_rpc_server_fork _ _ => fun u x => fst x = 0 ->
      snd x <> iut /\ snd x <> tst /\ u_kids u !! snd x = None
  | te_snprintf _ => fun _ x => fst x = 0
  | tapi_cfg_pci_get_ta_driver _ => fun _ x => fst x = 0 -> is_Some (snd x)
  | _ => fun _ _ => True
  end.

Definition u_world : env te_call usage := watch_if u_ok u_upd.

(** Calls that change nothing of it. *)
Definition u_neutral X (c : te_call X) : bool :=
  match c with
  | GEN_CONNECTION _ _ _ _ _ | tapi_sockaddr_clone _ _ | rcf_rpc_server_fork _ _
  | rcf_rpc_server_destroy _ | rpc_close _ _ => false
  | _ => true
  end.

Lemma u_neutral_wp {A} (p : M A) u :
  only u_neutral any_jump p ->
  wp u_world p u (fun r u' => u' = u /\ match r with Undef _ => False | _ => True end).
Proof.
  intros Ho. eapply wp_mono; [apply (wp_only u_neutral any_jump u_world (fun u' => u' = u)); [exact Ho| |done]|].
  - intros X c s1 x s2 Hc -> [_ ->]. by destruct c.
  - intros [a|j|w|] s' [-> Hr]; auto.
Qed.

Lemma data_u_neutral X (c : te_call X) : is_data_call X c = true -> u_neutral X c = true.
Proof. by destruct c. Qed.

Lemma send_recv_u_neutral fuel rs s1 rr s2 vpref :
  only u_neutral any_jump (net_drv_send_recv_check fuel rs s1 rr s2 vpref).
Proof. eapply only_mono; [apply data_u_neutral|done|apply data_check_only]. Qed.

Lemma conn_check_u_neutral fuel r1 s1 n1 r2 s2 n2 v :
  only u_neutral any_jump (net_drv_conn_check fuel r1 s1 n1 r2 s2 n2 v).
Proof.
  unfold net_drv_conn_check. apply only_bind; [apply send_recv_u_neutral|]. intros _.
  apply only_bind; [apply send_recv_u_neutral|]. done.
Qed.

(** A neutral statement of a body, and the last one. *)
Lemma st_u_neutral {St A B} (F : St -> usage -> Prop) (G : B -> St -> usage -> Prop) (p : M A)
    (f : A -> T St B) L u :
  only u_neutral any_jump p -> F L u -> (forall a, wp u_world (f a L) u (upto F G)) ->
  wp u_world (mbind f (lift p) L) u (upto F G).
Proof.
  intros Ho HF Hf. apply st_call. eapply wp_mono; [by apply u_neutral_wp|].
  intros [a|j|w|] s' [-> Hr]; auto.
Qed.

Lemma st_u_last {St A} (F : St -> usage -> Prop) (p : M A) L u :
  only u_neutral any_jump p -> F L u -> wp u_world (lift p L) u (ends F).
Proof.
  intros Ho HF. unfold lift. apply wp_bind, wp_attempt. eapply wp_mono; [by apply u_neutral_wp|].
  intros [a|j|w|] s' [-> Hr]; cbn; auto.
Qed.

(** ** Ownership *)

(** The servers a flow has to destroy, the descriptors a connection has to
    close in the first server and in the second. *)
Definition kids_of (f : net_drv_flow) : list rcf_rpc_server :=
  if fl_new_processes f then
    match fl_rpcs1 f, fl_rpcs2 f with Some a, Some b => [a; b] | _, _ => [] end
  else [].
Definition fds1 (c : net_drv_conn) : list Z :=
  match cn_rpcs1 c with Some _ => if 0 <=? cn_s1 c then [cn_s1 c] else [] | None => [] end.
Definition fds2 (c : net_drv_conn) : list Z :=
  match cn_rpcs2 c with Some _ => if 0 <=? cn_s2 c then [cn_s2 c] else [] | None => [] end.

(** A flow was prepared: its two servers live and have inherited its sockets. *)
Definition prepared_in (K : gmap rcf_rpc_server (gset Z)) (f : net_drv_flow) : Prop :=
  fl_new_processes f = true -> exists c a b A B,
    fl_conn f = Some c /\ fl_rpcs1 f = Some a /\ fl_rpcs2 f = Some b /\
    K !! a = Some A /\ cn_s1 c ∈ A /\ K !! b = Some B /\ cn_s2 c ∈ B /\
    a <> iut /\ a <> tst /\ b <> iut /\ b <> tst /\
    is_Some (fl_sender_rpcs f) /\ is_Some (fl_receiver_rpcs f).

Definition flows_own (fs : list net_drv_flow) (K : gmap rcf_rpc_server (gset Z)) : Prop :=
  NoDup (fs ≫= kids_of) /\ dom K = list_to_set (fs ≫= kids_of) /\ Forall (prepared_in K) fs.

Definition conns_own (cs : list net_drv_conn) (u : usage) : Prop :=
  (NoDup (cs ≫= fds1) /\ u_iut u = list_to_set (cs ≫= fds1)) /\
  (NoDup (cs ≫= fds2) /\ u_tst u = list_to_set (cs ≫= fds2)) /\
  Forall (fun c => cn_rpcs1 c ∈ [None; Some iut] /\ cn_rpcs2 c ∈ [None; Some tst]) cs.

(** A flow that has nothing, and one whose connection is known. *)
Definition unused (f : net_drv_flow) : Prop := fl_new_processes f = false.
Definition has_conn (f : net_drv_flow) : Prop := fl_new_processes f = true -> is_Some (fl_conn f).

Lemma unused_own fs : Forall unused fs -> flows_own fs ∅.
Proof.
  intros H. assert (E : fs ≫= kids_of = []).
  { induction H as [|f fs Hf _ IH]; [done|]. cbn. unfold kids_of at 1. rewrite Hf. exact IH. }
  unfold flows_own. rewrite E. split; [constructor|]. split; [by rewrite dom_empty_L|].
  eapply Forall_impl; [exact H|]. intros f Hf Hn. unfold unused in Hf. congruence.
Qed.

(** A flow without servers of its own can be left out. *)
Lemma own_skip f fs K : unused f -> flows_own (f :: fs) K -> flows_own fs K.
Proof.
  intros Hun (Hnd & Hdom & [_ Hp]%Forall_cons_1). cbn in Hnd, Hdom.
  assert (Ek : kids_of f = []) by (unfold kids_of; by rewrite Hun). rewrite Ek in Hnd, Hdom. done.
Qed.

(** What [prepared_in] says does not depend on other servers. *)
Lemma prepared_in_ext K K' f :
  prepared_in K f -> (forall r, r ∈ kids_of f -> K' !! r = K !! r) -> prepared_in K' f.
Proof.
  intros Hp He Hn. destruct (Hp Hn) as (c & a & b & A & B & Hc & Ha & Hb & HA & H1 & HB & H2 & Hrest).
  exists c, a, b, A, B. unfold kids_of in He. rewrite Hn, Ha, Hb in He.
  assert (Ka : K' !! a = K !! a) by (apply He; left). assert (Kb : K' !! b = K !! b) by (apply He; right; left).
  rewrite Ka, Kb. tauto.
Qed.

Lemma prepared_kids K f : prepared_in K f -> fl_new_processes f = true ->
  exists a b, fl_rpcs1 f = Some a /\ fl_rpcs2 f = Some b /\ kids_of f = [a; b].
Proof.
  intros Hp Hn. destruct (Hp Hn) as (c & a & b & A & B & Hc & Ha & Hb & _).
  exists a, b. unfold kids_of. by rewrite Hn, Ha, Hb.
Qed.
(** ** Closing and destroying *)
Context (Hne : iut <> tst).

Lemma upd_close_kid a s A x u : a <> iut -> a <> tst -> u_kids u !! a = Some A -> s ∈ A ->
  u_upd _ (rpc_close a s) x u = u_set_kids (<[a := A ∖ {[s]}]> (u_kids u)) u.
Proof.
  intros H1 H2 HA H. cbn. unfold fds, set_fds. rewrite !(decide_False (P := a = _)) by done.
  rewrite HA. cbn [default from_option id]. by rewrite bool_decide_true.
Qed.

Lemma upd_destroy_kid a A x u : a <> iut -> a <> tst -> u_kids u !! a = Some A ->
  u_upd _ (rcf_rpc_server_destroy a) x u = u_set_kids (delete a (u_kids u)) u.
Proof. intros H1 H2 HA. cbn. unfold is_kid. rewrite bool_decide_true by (rewrite HA; eauto). done. Qed.

Lemma kill_kid_wp a s A ip u (Q : result te_errno -> usage -> Prop) :
  a <> iut -> a <> tst -> u_kids u !! a = Some A -> s ∈ A ->
  (forall rc, Q (Val rc) (u_set_kids (delete a (u_kids u)) u)) ->
  wp u_world (close_sock_kill_rpcs (Some a) s ip) u Q.
Proof.
  intros H1 H2 HA Hs HQ. unfold close_sock_kill_rpcs. destruct ((0 <=? s) && negb ip).
  - wp_go; erewrite upd_close_kid by eassumption; erewrite upd_destroy_kid; try done;
      try (cbn; apply lookup_insert_eq); cbn [u_set_kids u_kids u_iut u_tst u_stray u_fork_failed u_conn_failed];
      rewrite delete_insert_eq; apply HQ.
  - wp_go; erewrite upd_destroy_kid by eassumption; apply HQ.
Qed.

(** Destroying a prepared flow leaves what the others own. *)
Lemma flow_destroy_wp f fs u (Q : result te_errno -> usage -> Prop) :
  flows_own (f :: fs) (u_kids u) ->
  (forall rc K, flows_own fs K -> Q (Val rc) (u_set_kids K u)) ->
  wp u_world (net_drv_flow_destroy f) u Q.
Proof.
  intros (Hnd & Hdom & [Hf Hfs]%Forall_cons_1) HQ. unfold net_drv_flow_destroy.
  destruct (fl_new_processes f) eqn:Hn.
  - destruct (prepared_kids _ _ Hf Hn) as (a' & b' & Ha' & Hb' & Hk).
    destruct (Hf Hn) as (c & a & b & A & B & Hc & Ha & Hb & HA & Hs1 & HB & Hs2 & Ha1 & Ha2 & Hb1 & Hb2 & _).
    assert (a' = a) as -> by congruence. assert (b' = b) as -> by congruence.
    cbn in Hnd, Hdom. rewrite Hk in Hnd, Hdom. cbn in Hnd.
    apply list.NoDup_cons in Hnd as [Hna Hnd]. apply list.NoDup_cons in Hnd as [Hnb Hnd].
    rewrite Hc, Ha, Hb. cbn [deref]. wp_go.
    apply (kill_kid_wp a (cn_s1 c) A); [done..|]. intros rc1. wp_go.
    rewrite not_elem_of_cons in Hna.
    apply (kill_kid_wp b (cn_s2 c) B); [done|done| |done|].
    { cbn. rewrite lookup_delete_ne; [done|tauto]. }
    intros rc2. cbn [u_set_kids u_kids u_iut u_tst u_stray u_fork_failed u_conn_failed]. cbn [bpost]. wp_go; apply HQ.
    split; [exact Hnd|]. split.
    + rewrite !dom_delete_L, Hdom. cbn [list_to_set app]. apply set_eq. intros r.
      rewrite !elem_of_difference, !elem_of_union, !elem_of_singleton, !elem_of_list_to_set.
      split; [tauto|]. intros Hr. split; [split; [tauto|]|]; intros ->; tauto.
    + rewrite Forall_forall in *. intros g Hg. eapply prepared_in_ext; [by apply Hfs|]. intros r Hr.
      assert (r ∈ fs ≫= kids_of) by (apply list_elem_of_bind; eauto).
      rewrite !lookup_delete_ne; [done|intros ->; tauto..].
  - cbn in Hnd, Hdom. unfold kids_of in Hnd at 1, Hdom at 1. rewrite Hn in Hnd, Hdom. cbn in Hnd, Hdom.
    assert (H := HQ 0 (u_kids u)). wp_go. destruct u. apply H. done.
Qed.

Lemma fds_iut u : fds iut u = u_iut u.
Proof. unfold fds. by rewrite decide_True. Qed.
Lemma fds_tst u : fds tst u = u_tst u.
Proof. unfold fds. rewrite (decide_False (P := tst = iut)) by done. by rewrite decide_True. Qed.
Lemma set_fds_iut S u : set_fds iut S u = u_set_iut S u.
Proof. unfold set_fds. by rewrite decide_True. Qed.
Lemma set_fds_tst S u : set_fds tst S u = u_set_tst S u.
Proof. unfold set_fds. rewrite (decide_False (P := tst = iut)) by done. by rewrite decide_True. Qed.

(** One end of a connection, the first of those the server has to close. *)
Lemma close_end_wp r rpcs s rest res u (Q : result te_errno -> usage -> Prop) :
  let l := match rpcs with Some _ => if 0 <=? s then [s] else [] | None => [] end in
  rpcs ∈ [None; Some r] -> set_fds r (fds r u) u = u -> NoDup (l ++ rest) ->
  fds r u = list_to_set (l ++ rest) ->
  (forall rc, Q (Val rc) (set_fds r (list_to_set rest) u)) ->
  wp u_world (close_end rpcs s res) u Q.
Proof.
  intros l Hr Hid Hnd Hu HQ. unfold close_end.
  assert (E : l = [] -> set_fds r (list_to_set rest) u = u).
  { intros El. rewrite El in Hu. cbn in Hu. by rewrite <- Hu. }
  apply elem_of_cons in Hr as [->|Hr%list_elem_of_singleton]; [wp_go; rewrite <- E by done; apply HQ|]. subst rpcs.
  destruct (0 <=? s) eqn:Hs; [|wp_go; rewrite <- E by done; apply HQ].
  unfold l in *. cbn in Hnd, Hu. apply list.NoDup_cons in Hnd as [Hn _].
  assert (Hin : s ∈ fds r u) by (rewrite Hu; set_solver).
  assert (Hset : fds r u ∖ {[s]} = list_to_set rest).
  { rewrite Hu. apply set_eq. intros x. rewrite elem_of_difference, elem_of_union, !elem_of_singleton, elem_of_list_to_set.
    split; [tauto|]. intros Hx. split; [by right|]. by intros ->. }
  wp_go; cbn [u_upd]; rewrite bool_decide_true by done; rewrite Hset; apply HQ.
Qed.

(** Destroying a connection leaves what the others own. *)
Lemma conn_destroy_wp c cs u (Q : result te_errno -> usage -> Prop) :
  conns_own (c :: cs) u ->
  (forall rc S T, conns_own cs (u_set_iut S (u_set_tst T u)) -> Q (Val rc) (u_set_iut S (u_set_tst T u))) ->
  wp u_world (net_drv_conn_destroy c) u Q.
Proof.
  intros ([H1 E1] & [H2 E2] & [[Hr1 Hr2] Hcs]%Forall_cons_1) HQ. unfold net_drv_conn_destroy.
  cbn [mbind list_bind] in H1, H2, E1, E2. wp_go.
  apply (close_end_wp iut _ _ (cs ≫= fds1)); rewrite ?fds_iut, ?set_fds_iut; [done|by destruct u|done..|].
  intros rc. rewrite ?set_fds_iut. wp_go.
  apply (close_end_wp tst _ _ (cs ≫= fds2)); rewrite ?fds_tst, ?set_fds_tst; [done|by destruct u|done..|].
  intros rc'. rewrite ?set_fds_tst.
  apply (HQ rc' (list_to_set (cs ≫= fds1)) (list_to_set (cs ≫= fds2))).
  apply NoDup_app in H1 as (_ & _ & H1). apply NoDup_app in H2 as (_ & _ & H2).
  by repeat split.
Qed.

(** ** Preparing, starting and finishing *)

(** A flow as the tests set it up: between the two servers, over a connection
    whose sockets are open in them. *)
Definition wired_in (u : usage) (f : net_drv_flow) : Prop :=
  fl_new_processes f = true /\ fl_rpcs1 f = Some iut /\ fl_rpcs2 f = Some tst /\
  exists c, fl_conn f = Some c /\ cn_s1 c ∈ u_iut u /\ cn_s2 c ∈ u_tst u.

(** [f'] was given what [net_drv_flow_prepare] acquired. *)
Definition acquired (u u' : usage) (f' : net_drv_flow) : Prop :=
  exists a b K, u' = u_set_kids K u /\ kids_of f' = [a; b] /\ prepared_in K f' /\ fl_new_processes f' = true /\
    a <> b /\ u_kids u !! a = None /\ u_kids u !! b = None /\
    dom K = {[a; b]} ∪ dom (u_kids u) /\ (forall r, r <> a -> r <> b -> K !! r = u_kids u !! r).

Lemma create_flow_rpc_u r F id u (Q : result rcf_rpc_server -> usage -> Prop) :
  (r = iut /\ F = u_iut u) \/ (r = tst /\ F = u_tst u) ->
  (forall j, Q (Exc j) (u_no_fork u)) ->
  (forall x, x <> iut -> x <> tst -> u_kids u !! x = None -> Q (Val x) (u_set_kids (<[x := F]> (u_kids u)) u)) ->
  wp u_world (create_flow_rpc (Some r) id) u Q.
Proof.
  intros HF Hj Hv. unfold create_flow_rpc, deref. wp_go; cbn [u_ok u_upd fst snd] in *; rewrite ?Heqb0;
    autorewrite with zbool in *; try done.
  - (* the fork succeeded *) subst t0. destruct (H0 eq_refl) as (H1 & H2 & H3). cbn [Z.eqb].
    assert (EF : fds r u = F).
    { unfold fds. destruct HF as [[-> ->]|[-> ->]]; [by rewrite decide_True|].
      rewrite (decide_False (P := tst = iut)) by done. by rewrite decide_True. }
    rewrite EF. by apply Hv.
Qed.

Lemma flow_prepare_wp f u : wired_in u f ->
  wp u_world (net_drv_flow_prepare f) u (fun r u' => match r with
    | Val (f', inl _) => acquired u u' f'
    | Val (f', inr _) => u_fork_failed u' = true /\ has_conn f'
    | _ => False
    end).
Proof.
  intros (Hn & H1 & H2 & c & Hc & Hs1 & Hs2). apply wp_T. unfold net_drv_flow_prepare.
  twp_step. twp_step. twp_step. rewrite Hn. cbn [twhen]. twp_go. rewrite H1.
  eapply create_flow_rpc_u; [by left| |].
  { intros j. split; [done|]. intros _. by rewrite Hc. }
  intros a Ha1 Ha2 Ha. twp_go. cbn [fl_set_rpcs fl_rpcs2]. rewrite H2.
  eapply create_flow_rpc_u; [by right| |].
  { intros j. split; [done|]. intros _. cbn. by rewrite Hc. }
  intros b Hb1 Hb2 Hb. cbn [u_set_kids u_kids u_iut u_tst u_stray u_fork_failed u_conn_failed] in *.
  assert (Hab : a <> b) by (intros ->; by rewrite lookup_insert_eq in Hb).
  rewrite lookup_insert_ne in Hb by done.
  unfold flow_prepare_ends. twp_go. cbn [fl_set_rpcs fl_conn]. rewrite Hc. cbn [deref]. twp_go.
  cbn [u_upd]. exists a, b, (<[b := u_tst u]> (<[a := u_iut u]> (u_kids u))).
  match goal with |- context [kids_of ?g] => set (f' := g) end.
  assert (E : fl_new_processes f' = true /\ fl_rpcs1 f' = Some a /\ fl_rpcs2 f' = Some b /\ fl_conn f' = Some c /\
    is_Some (fl_sender_rpcs f') /\ is_Some (fl_receiver_rpcs f')).
  { unfold f'. cbn. destruct (fl_tx f); cbn; eauto 10. }
  clearbody f'. destruct E as (E1 & E2 & E3 & E4 & E5 & E6).
  split; [done|]. split; [unfold kids_of; by rewrite E1, E2, E3|]. split.
  { intros _. exists c, a, b, (u_iut u), (u_tst u). rewrite lookup_insert_eq, lookup_insert_ne, lookup_insert_eq by done. tauto. }
  do 4 (split; [done|]). split.
  - rewrite !dom_insert_L. set_solver.
  - intros r Hr1 Hr2. by rewrite !lookup_insert_ne.
Qed.

(** The flow at position [j] acquires its servers. *)
Lemma own_acquired fs j f f' u u' :
  fs !! j = Some f -> unused f -> flows_own fs (u_kids u) -> acquired u u' f' ->
  flows_own (<[j := f']> fs) (u_kids u').
Proof.
  intros Hj Hun (Hnd & Hdom & Hp) (a & b & K & -> & Hk & Hp' & Hn & Hab & Ha & Hb & HK & Hrest).
  cbn [u_kids u_set_kids].
  assert (Ek : kids_of f = []) by (unfold kids_of; by rewrite Hun).
  assert (P : <[j := f']> fs ≫= kids_of ≡ₚ [a; b] ++ (fs ≫= kids_of)).
  { rewrite <- (take_drop_middle fs j f) at 2 by done. rewrite insert_take_drop by (by eapply lookup_lt_Some).
    rewrite !bind_app. cbn. rewrite Hk, Ek. cbn. by rewrite <- !Permutation_middle. }
  assert (Hfresh : forall r, u_kids u !! r = None -> r ∉ fs ≫= kids_of).
  { intros r Hr Hin. apply not_elem_of_dom in Hr. rewrite Hdom, elem_of_list_to_set in Hr. done. }
  split; [|split].
  - rewrite P. cbn. apply list.NoDup_cons. split; [|apply list.NoDup_cons; split; [by apply Hfresh|done]].
    rewrite not_elem_of_cons. split; [done|by apply Hfresh].
  - rewrite HK, Hdom, (list_to_set_perm_L _ _ P), list_to_set_app_L. cbn. set_solver.
  - apply Forall_insert; [|done]. rewrite Forall_forall in *. intros g Hg.
    eapply prepared_in_ext; [by apply Hp|]. intros r Hr.
    assert (r ∈ fs ≫= kids_of) by (apply list_elem_of_bind; eauto).
    apply Hrest; intros E; subst r; [by apply (Hfresh a)|by apply (Hfresh b)].
Qed.

(** Starting and finishing change nothing of who owns what. *)
Definition same_owner (f f' : net_drv_flow) : Prop :=
  fl_new_processes f' = fl_new_processes f /\ fl_conn f' = fl_conn f /\
  fl_rpcs1 f' = fl_rpcs1 f /\ fl_rpcs2 f' = fl_rpcs2 f /\
  fl_sender_rpcs f' = fl_sender_rpcs f /\ fl_receiver_rpcs f' = fl_receiver_rpcs f.

Lemma own_same fs j f f' K :
  fs !! j = Some f -> same_owner f f' -> flows_own fs K -> flows_own (<[j := f']> fs) K.
Proof.
  intros Hj (S1 & S2 & S3 & S4 & S5 & S6) (Hnd & Hdom & Hp).
  assert (Ek : kids_of f' = kids_of f) by (unfold kids_of; by rewrite S1, S3, S4).
  assert (E : <[j := f']> fs ≫= kids_of = fs ≫= kids_of).
  { rewrite <- (take_drop_middle fs j f) at 2 by done. rewrite insert_take_drop by (by eapply lookup_lt_Some).
    rewrite !bind_app. cbn. by rewrite Ek. }
  unfold flows_own. rewrite E. split; [done|]. split; [done|]. apply Forall_insert; [done|].
  rewrite Forall_forall in Hp. assert (Hf : prepared_in K f) by (apply Hp; by eapply list_elem_of_lookup_2).
  intros Hn. rewrite S1 in Hn. rewrite S2, S3, S4, S5, S6. by apply Hf.
Qed.

Section any_world.
Context {W : Type} (E : env te_call W) (P : W -> Prop).
Context (HE : forall X (c : te_call X) s x s', u_neutral X c = true -> P s -> E X c s x s' -> P s').

(** What holds before the calls in the context holds after them. *)
Ltac carry := repeat match goal with
  Hx : E ?X ?c ?s ?x ?s', HP : P ?s |- _ => pose proof (HE X c s x s' eq_refl HP Hx); clear HP Hx end.

Lemma flow_start_gen f s : is_Some (fl_sender_rpcs f) -> is_Some (fl_receiver_rpcs f) -> P s ->
  wp E (net_drv_flow_start f) s (fun r s' => match r with
    | Val (f', _) => P s' /\ same_owner f f'
    | _ => False
    end).
Proof.
  intros [sr Hs] [rr Hr] HP. apply wp_T. unfold net_drv_flow_start, rpc_ok3.
  twp_go. rewrite Hr. cbn [deref]. twp_go; try (carry; by split).
  cbn [fl_set_status fl_sender_rpcs]. rewrite Hs. cbn [deref]. twp_go; carry; by split.
Qed.

Lemma flow_finish_gen f s : is_Some (fl_sender_rpcs f) -> is_Some (fl_receiver_rpcs f) -> P s ->
  wp E (net_drv_flow_finish f) s (fun r s' => match r with
    | Val (f', _) => P s' /\ same_owner f f'
    | _ => False
    end).
Proof.
  intros [sr Hs] [rr Hr] HP. apply wp_T. unfold net_drv_flow_finish.
  twp_go. rewrite Hs. cbn [deref]. twp_go. rewrite Hr. cbn [deref]. twp_go. carry. by split.
Qed.
End any_world.

Lemma u_world_neutral u X (c : te_call X) s x s' :
  u_neutral X c = true -> s = u -> u_world X c s x s' -> s' = u.
Proof. intros Hc -> [_ ->]. by destruct c. Qed.

Lemma flow_start_wp f u : is_Some (fl_sender_rpcs f) -> is_Some (fl_receiver_rpcs f) ->
  wp u_world (net_drv_flow_start f) u (fun r u' => match r with
    | Val (f', _) => u' = u /\ same_owner f f'
    | _ => False
    end).
Proof. intros Hs Hr. apply (flow_start_gen u_world (fun s => s = u)); [apply u_world_neutral|done..]. Qed.

Lemma flow_finish_wp f u : is_Some (fl_sender_rpcs f) -> is_Some (fl_receiver_rpcs f) ->
  wp u_world (net_drv_flow_finish f) u (fun r u' => match r with
    | Val (f', _) => u' = u /\ same_owner f f'
    | _ => False
    end).
Proof. intros Hs Hr. apply (flow_finish_gen u_world (fun s => s = u)); [apply u_world_neutral|done..]. Qed.

(** ** Creating a connection *)

(** The connection between the two servers, before it is created. *)
Definition planned (c : net_drv_conn) : Prop :=
  cn_rpcs1 c = Some iut /\ cn_rpcs2 c = Some tst.

(** What it opened. *)
Definition opened (u u' : usage) (c' : net_drv_conn) : Prop :=
  planned c' /\ 0 <= cn_s1 c' /\ 0 <= cn_s2 c' /\ (cn_s1 c' ∉ u_iut u) /\ (cn_s2 c' ∉ u_tst u) /\
  u' = u_set_tst (u_tst u ∪ {[cn_s2 c']}) (u_set_iut (u_iut u ∪ {[cn_s1 c']}) u).

(** Both outcomes of [GEN_CONNECTION]. *)
Ltac connect_cases :=
  twp_go; cbn [u_upd u_ok fst snd] in *; autorewrite with zbool in *;
  [ match goal with H : ?t = 0, Ho : ?t = 0 -> _ |- _ =>
      specialize (Ho H) as (? & ? & ? & ?); rewrite (proj2 (Z.eqb_eq t 0)) by exact H end;
    rewrite fds_iut, set_fds_iut in *; rewrite fds_tst in *; rewrite set_fds_tst;
    unfold opened, planned; cbn; tauto
  | match goal with H : ?t <> 0 |- _ => rewrite (proj2 (Z.eqb_neq t 0)) by exact H end;
    by unfold planned ].

Lemma conn_create_wp c u : planned c ->
  wp u_world (net_drv_conn_create c) u (fun r u' => match r with
    | Val (c', inl _) => opened u u' c'
    | Val (c', inr _) => u' = u_no_conn u /\ planned c' /\ cn_s1 c' = cn_s1 c /\ cn_s2 c' = cn_s2 c
    | _ => False
    end).
Proof.
  intros [H1 H2]. apply wp_T. unfold net_drv_conn_create.
  twp_step. twp_step. twp_step. twp_step. unfold twhen. destruct (cn_new_ports c); twp_step.
  - twp_go. rewrite H1. cbn [deref]. twp_go; cbn [u_upd u_ok fst snd] in *; rewrite Heqb; [|by unfold planned].
    rewrite H2. cbn [deref]. twp_go; cbn [u_upd u_ok fst snd] in *; rewrite Heqb0; [|by unfold planned].
    cbn [cn_set_addrs cn_rpcs1 cn_rpcs2]. rewrite H1, H2. cbn [deref]. connect_cases.
  - twp_go. rewrite H1, H2. cbn [deref]. connect_cases.
Qed.

(** The connection at position [i] acquires its sockets. *)
Lemma own_opened cs i c0 c' u u' :
  cs !! i = Some c0 -> fds1 c0 = [] -> fds2 c0 = [] -> conns_own cs u -> opened u u' c' ->
  conns_own (<[i := c']> cs) u'.
Proof.
  intros Hi E1 E2 ([N1 I1] & [N2 I2] & Hf) ([P1 P2] & H1 & H2 & F1 & F2 & ->).
  assert (Q1 : fds1 c' = [cn_s1 c']) by (unfold fds1; rewrite P1; by rewrite (proj2 (Z.leb_le _ _))).
  assert (Q2 : fds2 c' = [cn_s2 c']) by (unfold fds2; rewrite P2; by rewrite (proj2 (Z.leb_le _ _))).
  assert (Pm : forall g : net_drv_conn -> list Z, g c0 = [] -> <[i := c']> cs ≫= g ≡ₚ g c' ++ (cs ≫= g)).
  { intros g Eg. rewrite <- (take_drop_middle cs i c0) at 2 by done.
    rewrite insert_take_drop by (by eapply lookup_lt_Some).
    rewrite !bind_app. cbn. rewrite Eg. cbn. rewrite !app_assoc. f_equiv. apply Permutation_app_comm. }
  pose proof (Pm _ E1) as M1. pose proof (Pm _ E2) as M2. rewrite Q1 in M1. rewrite Q2 in M2.
  unfold conns_own. cbn [u_set_tst u_set_iut u_iut u_tst].
  rewrite I1, elem_of_list_to_set in F1. rewrite I2, elem_of_list_to_set in F2.
  split; [|split].
  - split; [rewrite M1; by apply list.NoDup_cons|]. rewrite I1, (list_to_set_perm_L _ _ M1). cbn. by rewrite union_comm_L.
  - split; [rewrite M2; by apply list.NoDup_cons|]. rewrite I2, (list_to_set_perm_L _ _ M2). cbn. by rewrite union_comm_L.
  - apply Forall_insert; [done|]. rewrite P1, P2. split; right; left.
Qed.

(** Connections do not matter to servers, nor servers to connections. *)
Lemma conns_own_kids cs K u : conns_own cs u -> conns_own cs (u_set_kids K u).
Proof. done. Qed.
Lemma wired_in_kids f K u : wired_in u f -> wired_in (u_set_kids K u) f.
Proof. done. Qed.

(** ** When a fork has failed *)
Lemma upd_close_failed r s x u : u_fork_failed (u_upd _ (rpc_close r s) x u) = u_fork_failed u.
Proof. cbn. case_bool_decide; [|done]. unfold set_fds. by repeat case_decide. Qed.
Lemma upd_destroy_failed r x u : u_fork_failed (u_upd _ (rcf_rpc_server_destroy r) x u) = u_fork_failed u.
Proof. cbn. by destruct (is_kid r u). Qed.

Lemma upd_close_conn r s x u : u_conn_failed (u_upd _ (rpc_close r s) x u) = u_conn_failed u.
Proof. cbn. case_bool_decide; [|done]. unfold set_fds. by repeat case_decide. Qed.
Lemma set_fds_stray r S u : u_stray (set_fds r S u) = u_stray u.
Proof. unfold set_fds. by repeat case_decide. Qed.

(** The cleanup still comes to its end. *)
Definition still_failed {A} (r : result A) (u : usage) : Prop :=
  match r with Val _ => u_fork_failed u = true | _ => False end.

Lemma kill_failed_wp rpcs s ip u : u_fork_failed u = true ->
  wp u_world (close_sock_kill_rpcs rpcs s ip) u still_failed.
Proof.
  intros H. destruct rpcs as [r|]; [|done]. unfold close_sock_kill_rpcs.
  destruct ((0 <=? s) && negb ip); wp_go; unfold still_failed;
    rewrite upd_destroy_failed, ?upd_close_failed; done.
Qed.

Lemma flow_destroy_failed_wp f u : has_conn f -> u_fork_failed u = true ->
  wp u_world (net_drv_flow_destroy f) u still_failed.
Proof.
  intros Hf H. unfold net_drv_flow_destroy. destruct (fl_new_processes f) eqn:Hn; [|done].
  destruct (Hf Hn) as [c Hc]. rewrite Hc. cbn [deref]. wp_go.
  eapply wp_mono; [by apply kill_failed_wp|]. intros [rc| | |] u1 H1; try done. cbn [bpost]. wp_go.
  eapply wp_mono; [by apply kill_failed_wp|]. intros [rc'| | |] u2 H2; try done.
Qed.

Lemma close_end_failed_wp rpcs s res u : u_fork_failed u = true ->
  wp u_world (close_end rpcs s res) u still_failed.
Proof.
  intros H. destruct rpcs as [r|]; [|done]. unfold close_end.
  destruct (0 <=? s); wp_go; unfold still_failed; by rewrite ?upd_close_failed.
Qed.

Lemma conn_destroy_failed_wp c u : u_fork_failed u = true ->
  wp u_world (net_drv_conn_destroy c) u still_failed.
Proof.
  intros H. unfold net_drv_conn_destroy. wp_go.
  eapply wp_mono; [by apply close_end_failed_wp|]. intros [rc| | |] u1 H1; try done. cbn [bpost].
  by apply close_end_failed_wp.
Qed.

End usage.
