(* ===== verification/Traffic.v ===== *)
(** Tests that disturb an interface while data flows over it:
    ethtool/reset_under_traffic.c and stress/if_down_up_loop.c. *)
From S2P Require Import Prelude Prog Te Locals NetDrvTs DataFlow LibPtp Resources Usage.

(** ** What the tests have in common *)

(** The input fields of a connection and of a flow, set by a test. *)
Definition cn_set_input (r1 r2 : rcf_rpc_server) (t : rpc_socket_type) (a1 a2 : sockaddr)
    (new_ports : bool) (c : net_drv_conn) : net_drv_conn :=
  Conn (Some r1) (Some r2) t a1 a2 new_ports (cn_s1 c) (cn_s2 c).
Definition fl_set_input (r1 r2 : rcf_rpc_server) (c : net_drv_conn) (duration : Z)
    (f : net_drv_flow) : net_drv_flow :=
  Flow (Some r1) (Some r2) (fl_tx f) (fl_flow_id f) true (Some c) duration true
    (fl_min_size f) (fl_max_size f) (fl_sender_rpcs f) (fl_receiver_rpcs f) (fl_sender_s f)
    (fl_receiver_s f) (fl_sender_ctx f) (fl_in_progress f) (fl_success f).
Definition fl_set_dir (tx : bool) (id : Z) (f : net_drv_flow) : net_drv_flow :=
  Flow (fl_rpcs1 f) (fl_rpcs2 f) tx id (fl_new_processes f) (fl_conn f) (fl_duration f)
    (fl_ignore_send_err f) (fl_min_size f) (fl_max_size f) (fl_sender_rpcs f)
    (fl_receiver_rpcs f) (fl_sender_s f) (fl_receiver_s f) (fl_sender_ctx f) (fl_in_progress f)
    (fl_success f).
Definition fl_set_sizes (lo hi : Z) (f : net_drv_flow) : net_drv_flow :=
  Flow (fl_rpcs1 f) (fl_rpcs2 f) (fl_tx f) (fl_flow_id f) (fl_new_processes f) (fl_conn f)
    (fl_duration f) (fl_ignore_send_err f) lo hi (fl_sender_rpcs f)
    (fl_receiver_rpcs f) (fl_sender_s f) (fl_receiver_s f) (fl_sender_ctx f) (fl_in_progress f)
    (fl_success f).

(** The connection and the two flows of the first two tests. *)
Record two_flows := TwoFlows { tf_conn : net_drv_conn; tf_tx : net_drv_flow; tf_rx : net_drv_flow }.
Definition tf_start : two_flows := TwoFlows NET_DRV_CONN_INIT NET_DRV_FLOW_INIT NET_DRV_FLOW_INIT.
Definition tf_set_conn (c : net_drv_conn) (l : two_flows) : two_flows := TwoFlows c (tf_tx l) (tf_rx l).
Definition tf_set_tx (f : net_drv_flow) (l : two_flows) : two_flows := TwoFlows (tf_conn l) f (tf_rx l).
Definition tf_set_rx (f : net_drv_flow) (l : two_flows) : two_flows := TwoFlows (tf_conn l) (tf_tx l) f.
Abbreviation on_conn := (zoom tf_conn tf_set_conn).
Abbreviation on_tx := (zoom tf_tx tf_set_tx).
Abbreviation on_rx := (zoom tf_rx tf_set_rx).

Section traffic.
Context {TE : Te}.
Context (iut tst : rcf_rpc_server) (iut_if : string) (iut_addr tst_addr : sockaddr).
Local Abbreviation ta := (rpcs_ta iut).

(** IPv6 addresses are to survive the interface going down. *)
Definition keep_addr_on_down : M unit :=
  when (sa_family iut_addr =? AF_INET6)
    (CHECK_RC (call (tapi_cfg_sys_set_int ta 1 ("net/ipv6/conf:" +:+ iut_if +:+ "/keep_addr_on_down")))).

(** [CLEANUP_CHECK_RC] of the two flows and of the connection. *)
Definition destroy_flow (f : net_drv_flow) : M bool := cleanup_rc (net_drv_flow_destroy f).
Definition destroy_conn (c : net_drv_conn) : M bool := cleanup_rc (net_drv_conn_destroy c).

(** ** ethtool/reset_under_traffic.c *)

Definition RESET_SEND_DURATION : Z := 10.
Definition WAIT_BEFORE_RESET : Z := 1.

Definition reset_setup : T two_flows unit :=
  _ ← lift keep_addr_on_down;
  _ ← on_conn (modify (fun c => cn_set_input iut tst RPC_SOCK_DGRAM iut_addr tst_addr (cn_new_ports c) c));
  _ ← on_conn net_drv_conn_create;
  c ← gets tf_conn;
  _ ← on_tx (modify (fun f => fl_set_dir true 1 (fl_set_input iut tst c RESET_SEND_DURATION f)));
  tx ← gets tf_tx;
  _ ← on_rx (modify (fun _ => fl_set_dir false 2 tx));
  _ ← on_tx net_drv_flow_prepare;
  on_rx net_drv_flow_prepare.

Definition reset_check (s1 flags : Z) : M unit :=
  '(rc, err, _) ← net_drv_ethtool_reset true iut s1 iut_if flags;
  if rc <? 0 then
    if err =? RPC_EOPNOTSUPP then TEST_SKIP "ETHTOOL_RESET is not supported" []
    else TEST_VERDICT "ETHTOOL_RESET command failed with errno %r" [AI err]
  else mret tt.

(** [if (!flow.success) TEST_VERDICT(...)]. *)
Definition flow_check (f : net_drv_flow) (v : string) : M unit :=
  if fl_success f then mret tt else TEST_VERDICT v [].

Definition reset_body (fuel : nat) (flags : Z) : T two_flows unit :=
  _ ← reset_setup;
  _ ← on_tx net_drv_flow_start;
  _ ← on_rx net_drv_flow_start;
  _ ← lift (call (te_motivated_sleep WAIT_BEFORE_RESET));
  c ← gets tf_conn;
  _ ← lift (reset_check (cn_s1 c) flags);
  _ ← on_tx net_drv_flow_finish;
  tx ← gets tf_tx;
  _ ← lift (flow_check tx "Failure occurred during sending data from IUT");
  _ ← on_rx net_drv_flow_finish;
  rx ← gets tf_rx;
  _ ← lift (flow_check rx "Failure occurred during sending data from Tester");
  lift (net_drv_conn_check fuel iut (cn_s1 c) "IUT" tst (cn_s2 c) "Tester" "Checking after reset").

Definition reset_cleanup (l : two_flows) : M bool :=
  also (destroy_flow (tf_tx l)) (also (destroy_flow (tf_rx l)) (destroy_conn (tf_conn l))).

Definition reset_under_traffic (fuel : nat) (flags : Z) : M status :=
  test_main tf_start (reset_body fuel flags) reset_cleanup.

(** ** stress/if_down_up_loop.c *)

Definition MIN_SEND_TIME : Z := 5.
Definition UPDOWN_SEND_DURATION (duration : Z) : Z := Z.max (duration + 1) MIN_SEND_TIME.

Section updown.
Context (duration wait_after_if_up : Z) (tx_traffic rx_traffic : bool).

Definition updown_setup : T two_flows unit :=
  _ ← twhen (tx_traffic || rx_traffic) (
    _ ← on_conn (modify (cn_set_input iut tst RPC_SOCK_DGRAM iut_addr tst_addr false));
    _ ← on_conn net_drv_conn_create;
    lift keep_addr_on_down);
  c ← gets tf_conn;
  _ ← on_tx (modify (fl_set_input iut tst c (UPDOWN_SEND_DURATION duration)));
  tx ← gets tf_tx;
  _ ← on_rx (modify (fun _ => tx));
  _ ← twhen tx_traffic (
    _ ← on_tx (modify (fl_set_dir true 1));
    on_tx net_drv_flow_prepare);
  twhen rx_traffic (
    _ ← on_rx (modify (fl_set_dir false 2));
    on_rx net_drv_flow_prepare).

(** One pass of [while (TRUE)]; the state is unused. *)
Definition updown_pass (tv_start : timeval) (_ : unit) : M (ctl unit unit) :=
  _ ← CHECK_RC (call (tapi_cfg_base_if_down ta iut_if));
  _ ← CHECK_RC (call (tapi_cfg_base_if_up ta iut_if));
  _ ← when (0 <? wait_after_if_up) (call (te_motivated_msleep wait_after_if_up));
  tv_now ← CHECK_OUT (call te_gettimeofday);
  mret (if duration <=? TE_US2SEC (TIMEVAL_SUB tv_now tv_start) then Break tt else Continue tt).

Definition updown_loop (fuel : nat) : M unit :=
  tv_start ← CHECK_OUT (call te_gettimeofday);
  _ ← loop fuel tt (updown_pass tv_start);
  mret tt.

(** Finish a flow when there is one: whether it went well. *)
Definition updown_body (fuel : nat) : T two_flows unit :=
  _ ← updown_setup;
  _ ← twhen tx_traffic (on_tx net_drv_flow_start);
  _ ← twhen rx_traffic (on_rx net_drv_flow_start);
  _ ← lift (when (tx_traffic || rx_traffic) (call (te_motivated_msleep TAPI_WAIT_NETWORK_DELAY)));
  _ ← lift (updown_loop fuel);
  _ ← twhen tx_traffic (on_tx net_drv_flow_finish);
  tx ← gets tf_tx;
  let tx_success := if tx_traffic then fl_success tx else true in
  _ ← twhen rx_traffic (on_rx net_drv_flow_finish);
  rx ← gets tf_rx;
  let rx_success := if rx_traffic then fl_success rx else true in
  _ ← lift (if tx_success then mret tt else TEST_VERDICT "Failure occurred during sending" []);
  lift (if rx_success then mret tt else TEST_VERDICT "Failure occurred during receiving" []).

(** [NET_DRV_CLEANUP_SET_UP_WAIT]. *)
Definition cleanup_set_up_wait : M bool :=
  ok ← cleanup_rc (call (tapi_cfg_base_if_up ta iut_if));
  _ ← call CFG_WAIT_CHANGES;
  _ ← net_drv_wait_up_gen ta iut_if true;
  mret ok.

Definition updown_cleanup (l : two_flows) : M bool :=
  also cleanup_set_up_wait
 (also (if tx_traffic then destroy_flow (tf_tx l) else mret true)
 (also (if rx_traffic then destroy_flow (tf_rx l) else mret true)
       (destroy_conn (tf_conn l)))).

Definition if_down_up_loop (fuel : nat) : M status :=
  test_main tf_start (updown_body fuel) updown_cleanup.
End updown.
End traffic.

(** ** What the tests own *)

(** A flow the test uses, or else one that owns nothing. *)
Definition sel (used : bool) (f : net_drv_flow) : net_drv_flow := if used then f else NET_DRV_FLOW_INIT.

Section zoom.
Context {St St' A S : Type} (E : env te_call S) (F : St -> S -> Prop) (G : A -> St -> S -> Prop).

(** Code over a part of the locals. *)
Lemma zoom_upto (get : St -> St') (put : St' -> St -> St) (p : T St' A) (L : St) s :
  wp E (p (get L)) s (fun r s' => match r with
    | Val (x, inl a) => G a (put x L) s'
    | Val (x, inr _) => F (put x L) s'
    | NoFuel => True
    | Undef _ | Exc _ => False
    end) -> wp E (zoom get put p L) s (upto F G).
Proof.
  intros H. unfold zoom. apply wp_bind. eapply wp_mono; [exact H|].
  intros [[x [a|j]]| | |] s' Hr; cbn in *; auto.
Qed.

(** An assignment to a part of the locals. *)
Lemma st_zoom_modify {B} (get : St -> St') (put : St' -> St -> St) (g : St' -> St') (f : unit -> T St B)
    (L : St) s (Q : result (St * (B + jump)) -> S -> Prop) :
  wp E (f tt (put (g (get L)) L)) s Q -> wp E (mbind f (zoom get put (modify g)) L) s Q.
Proof. done. Qed.
End zoom.

Section owning.
Context {TE : Te} (iut tst : rcf_rpc_server) (Hne : iut <> tst).
Local Abbreviation world := (u_world iut tst).

(** [ft] and [fr] stand for the two flows: they own the servers that live. *)
Definition staged (ft fr : net_drv_flow) (L : two_flows) (u : usage) : Prop :=
  u_fork_failed u = false /\ u_stray u = false /\ conns_own iut tst [tf_conn L] u /\
  flows_own iut tst [ft; fr] (u_kids u).

(** The cleanup of a flow, if it is used. *)
Lemma used_destroyed b f fs u (Q : result bool -> usage -> Prop) :
  flows_own iut tst (sel b f :: fs) (u_kids u) ->
  (forall ok K, flows_own iut tst fs K -> Q (Val ok) (u_set_kids K u)) ->
  wp world (if b then destroy_flow f else mret true) u Q.
Proof.
  intros Hf HQ. destruct b; cbn [sel] in *.
  - unfold destroy_flow, cleanup_rc. wp_go. eapply (flow_destroy_wp iut tst); [exact Hf|].
    intros rc K HK. cbn [bpost]. wp_go. by apply HQ.
  - wp_go. apply (own_skip _ _ NET_DRV_FLOW_INIT) in Hf; [|done]. specialize (HQ true _ Hf). by destruct u.
Qed.

Lemma used_failed b f u : has_conn (sel b f) -> u_fork_failed u = true ->
  wp world (if b then destroy_flow f else mret true) u still_failed.
Proof.
  intros Hf Hu. destruct b; [|done]. unfold destroy_flow, cleanup_rc. wp_go.
  eapply wp_mono; [by apply flow_destroy_failed_wp|]. by intros [rc| | |] u' H.
Qed.

Section used.
Context (bt br : bool).

(** At any time the cleanup may begin: what is owned is known from the locals,
    or a fork has failed. *)
Definition tf_inv (L : two_flows) (u : usage) : Prop :=
  staged (sel bt (tf_tx L)) (sel br (tf_rx L)) L u \/
  (u_fork_failed u = true /\ has_conn (sel bt (tf_tx L)) /\ has_conn (sel br (tf_rx L))).

(** The flows in use were prepared. *)
Definition ready (L : two_flows) (u : usage) : Prop :=
  staged (sel bt (tf_tx L)) (sel br (tf_rx L)) L u /\
  fl_new_processes (sel bt (tf_tx L)) = bt /\ fl_new_processes (sel br (tf_rx L)) = br.

End used.

Lemma ready_inv bt br L u : ready bt br L u -> (tf_inv bt br) L u.
Proof. intros [H _]. by left. Qed.

Lemma cleanup_owned bt br L u : (tf_inv bt br) L u ->
  wp world (also (if bt then destroy_flow (tf_tx L) else mret true)
           (also (if br then destroy_flow (tf_rx L) else mret true) (destroy_conn (tf_conn L)))) u
    (fun r u' => match r with Val _ => u_fork_failed u' = false -> released u' | _ => False end).
Proof.
  intros [(Hff & Hst & Hc & Hf)|(Hff & Ht & Hr)]; unfold also; wp_step.
  - eapply used_destroyed; [exact Hf|]. intros b1 K1 Hf1. wp_step. wp_step. wp_step.
    eapply used_destroyed; [exact Hf1|]. intros b2 K2 (_ & Hd & _). wp_step. wp_step.
    unfold destroy_conn, cleanup_rc. wp_go.
    eapply (conn_destroy_wp iut tst Hne); [exact Hc|]. intros rc S T ([_ E1] & [_ E2] & _). cbn [bpost].
    wp_go. intros _. unfold released. split; [exact E1|]. split; [exact E2|]. split; [|done].
    cbn in *. by apply dom_empty_inv_L in Hd.
  - eapply wp_mono; [by apply used_failed|]. intros [b1| | |] u1 H1; try done. cbn [bpost]. wp_step. wp_step.
    eapply wp_mono; [by apply used_failed|]. intros [b2| | |] u2 H2; try done. cbn [bpost]. wp_step.
    unfold destroy_conn, cleanup_rc. wp_go.
    eapply wp_mono; [by apply conn_destroy_failed_wp|]. intros [rc| | |] u' H; try done. intros Hf.
    exfalso. cbn in *. congruence.
Qed.
(** A call that owns nothing, while the flows are ready. *)
Lemma st_ready {A B} bt br (G : B -> two_flows -> usage -> Prop) (p : M A) (f : A -> T two_flows B) L u :
  only u_neutral any_jump p -> ready bt br L u -> (forall a, wp world (f a L) u (upto (tf_inv bt br) G)) ->
  wp world (mbind f (lift p) L) u (upto (tf_inv bt br) G).
Proof. intros Ho Hr. apply st_u_neutral; [done|]. by apply ready_inv. Qed.

(** Starting or finishing a flow that is used. *)
Lemma tx_keeps bt br (p : T net_drv_flow unit) L u :
  (forall f u, is_Some (fl_sender_rpcs f) -> is_Some (fl_receiver_rpcs f) ->
     wp world (p f) u (fun r u' => match r with Val (f', _) => u' = u /\ same_owner f f' | _ => False end)) ->
  ready bt br L u ->
  wp world (twhen bt (on_tx p) L) u (upto (tf_inv bt br) (fun _ L' u' => ready bt br L' u' /\ tf_conn L' = tf_conn L)).
Proof.
  intros Hp Hrd. pose proof Hrd as [(Hff & Hst & Hc & Hf) [Ht Hr]]. unfold twhen. destruct bt; [|by split].
  cbn [sel] in *. apply zoom_upto. pose proof Hf as (_ & _ & [Hpr _]%Forall_cons_1).
  destruct (Hpr Ht) as (c & a & b & A & B & _ & _ & _ & _ & _ & _ & _ & _ & _ & _ & _ & Hs & Hr').
  eapply wp_mono; [by apply Hp|]. intros [[f' [x|j]]| | |] u' H; try done; destruct H as [-> Hso].
  all: pose proof (own_same iut tst [_; _] 0 _ _ _ eq_refl Hso Hf) as Hf'; cbn in Hf'.
  - split; [|done]. split; [exact (conj Hff (conj Hst (conj Hc Hf')))|].
    cbn. rewrite (proj1 Hso). by split.
  - left. exact (conj Hff (conj Hst (conj Hc Hf'))).
Qed.

Lemma rx_keeps bt br (p : T net_drv_flow unit) L u :
  (forall f u, is_Some (fl_sender_rpcs f) -> is_Some (fl_receiver_rpcs f) ->
     wp world (p f) u (fun r u' => match r with Val (f', _) => u' = u /\ same_owner f f' | _ => False end)) ->
  ready bt br L u ->
  wp world (twhen br (on_rx p) L) u (upto (tf_inv bt br) (fun _ L' u' => ready bt br L' u' /\ tf_conn L' = tf_conn L)).
Proof.
  intros Hp Hrd. pose proof Hrd as [(Hff & Hst & Hc & Hf) [Ht Hr]]. unfold twhen. destruct br; [|by split].
  cbn [sel] in *. apply zoom_upto. pose proof Hf as (_ & _ & [_ [Hpr _]%Forall_cons_1]%Forall_cons_1).
  destruct (Hpr Hr) as (c & a & b & A & B & _ & _ & _ & _ & _ & _ & _ & _ & _ & _ & _ & Hs & Hr').
  eapply wp_mono; [by apply Hp|]. intros [[f' [x|j]]| | |] u' H; try done; destruct H as [-> Hso].
  all: pose proof (own_same iut tst [_; _] 1 _ _ _ eq_refl Hso Hf) as Hf'; cbn in Hf'.
  - split; [|done]. split; [exact (conj Hff (conj Hst (conj Hc Hf')))|].
    cbn. rewrite (proj1 Hso). by split.
  - left. exact (conj Hff (conj Hst (conj Hc Hf'))).
Qed.

(** ... as statements of a body that uses both. *)
Lemma st_tx_ready {B} (G : B -> two_flows -> usage -> Prop) p (f : unit -> T two_flows B) L u :
  (forall f u, is_Some (fl_sender_rpcs f) -> is_Some (fl_receiver_rpcs f) ->
     wp world (p f) u (fun r u' => match r with Val (f', _) => u' = u /\ same_owner f f' | _ => False end)) ->
  ready true true L u ->
  (forall L' u', ready true true L' u' -> wp world (f tt L') u' (upto (tf_inv true true) G)) ->
  wp world (mbind f (on_tx p) L) u (upto (tf_inv true true) G).
Proof.
  intros Hp Hr Hf. apply st_bind. eapply wp_mono; [by apply (tx_keeps true true)|].
  intros [[L' [[]|j]]| | |] u' H; try done. apply Hf, H.
Qed.

Lemma st_rx_ready {B} (G : B -> two_flows -> usage -> Prop) p (f : unit -> T two_flows B) L u :
  (forall f u, is_Some (fl_sender_rpcs f) -> is_Some (fl_receiver_rpcs f) ->
     wp world (p f) u (fun r u' => match r with Val (f', _) => u' = u /\ same_owner f f' | _ => False end)) ->
  ready true true L u ->
  (forall L' u', ready true true L' u' -> wp world (f tt L') u' (upto (tf_inv true true) G)) ->
  wp world (mbind f (on_rx p) L) u (upto (tf_inv true true) G).
Proof.
  intros Hp Hr Hf. apply st_bind. eapply wp_mono; [by apply (rx_keeps true true)|].
  intros [[L' [[]|j]]| | |] u' H; try done. apply Hf, H.
Qed.

(** Preparing them, the one for sending first. *)
Lemma tx_prepared bt br L u fr : unused fr ->
  staged NET_DRV_FLOW_INIT fr L u -> (bt = true -> wired_in iut tst u (tf_tx L)) -> has_conn (sel br (tf_rx L)) ->
  wp world (twhen bt (on_tx net_drv_flow_prepare) L) u (upto (tf_inv bt br) (fun _ L' u' =>
    tf_conn L' = tf_conn L /\ tf_rx L' = tf_rx L /\ staged (sel bt (tf_tx L')) fr L' u' /\
    fl_new_processes (sel bt (tf_tx L')) = bt /\ u_iut u' = u_iut u /\ u_tst u' = u_tst u)).
Proof.
  intros Hfr Hs Hw Hrx. unfold twhen. destruct bt; [|exact (conj eq_refl (conj eq_refl (conj Hs (conj eq_refl (conj eq_refl eq_refl)))))].
  destruct Hs as (Hff & Hst & Hc & Hf).
  apply zoom_upto. eapply wp_mono; [by apply flow_prepare_wp, Hw|].
  intros [[f' [x|j]]| | |] u' H; try done.
  - pose proof (own_acquired iut tst Hne [_; _] 0 _ _ _ _ eq_refl (eq_refl : unused NET_DRV_FLOW_INIT) Hf H) as Hf'. cbn in Hf'.
    destruct H as (a & b & K & -> & _ & _ & Hn & _). do 2 (split; [done|]).
    split; [exact (conj Hff (conj Hst (conj Hc Hf')))|]. by split.
  - right. destruct H. by split.
Qed.

Lemma rx_prepared bt br L u :
  staged (sel bt (tf_tx L)) NET_DRV_FLOW_INIT L u -> fl_new_processes (sel bt (tf_tx L)) = bt ->
  (br = true -> wired_in iut tst u (tf_rx L)) ->
  wp world (twhen br (on_rx net_drv_flow_prepare) L) u (upto (tf_inv bt br) (fun _ L' u' => ready bt br L' u')).
Proof.
  intros Hs Ht Hw. unfold twhen. destruct br; [|exact (conj Hs (conj Ht eq_refl))].
  destruct Hs as (Hff & Hst & Hc & Hf).
  apply zoom_upto. eapply wp_mono; [by apply flow_prepare_wp, Hw|].
  intros [[f' [x|j]]| | |] u' H; try done.
  - pose proof (own_acquired iut tst Hne [_; _] 1 _ _ _ _ eq_refl (eq_refl : unused NET_DRV_FLOW_INIT) Hf H) as Hf'. cbn in Hf'.
    destruct H as (a & b & K & -> & _ & _ & Hn & _).
    exact (conj (conj Hff (conj Hst (conj Hc Hf'))) (conj Ht Hn)).
  - right. destruct H as [H1 H2]. split; [done|]. split; [|done]. cbn [tf_set_rx tf_tx].
    pose proof Hf as (_ & _ & [Hpr _]%Forall_cons_1). intros Hn.
    destruct (Hpr Hn) as (c & a & b & A & B & Hcn & _). by rewrite Hcn.
Qed.

(** ** The two tests give back what they take *)

(** A connection whose sockets were never opened. *)
Definition no_socks (c : net_drv_conn) : Prop := cn_s1 c = -1 /\ cn_s2 c = -1.

Lemma no_socks_own c u : no_socks c -> u_iut u = ∅ -> u_tst u = ∅ ->
  cn_rpcs1 c ∈ [None; Some iut] -> cn_rpcs2 c ∈ [None; Some tst] -> conns_own iut tst [c] u.
Proof.
  intros [H1 H2] Hi Ht R1 R2. unfold conns_own.
  assert (HF : Forall (fun c => cn_rpcs1 c ∈ [None; Some iut] /\ cn_rpcs2 c ∈ [None; Some tst]) [c]) by (by apply Forall_singleton).
  split; [|split; [|exact HF]]; clear HF R1 R2; cbn; unfold fds1, fds2; rewrite ?H1, ?H2, ?Hi, ?Ht; cbn;
    destruct (cn_rpcs1 c), (cn_rpcs2 c); cbn; (split; [constructor|done]).
Qed.

(** The state of a test before anything was taken. *)
Definition untouched (L : two_flows) (u : usage) : Prop :=
  no_socks (tf_conn L) /\ u_iut u = ∅ /\ u_tst u = ∅ /\ u_kids u = ∅ /\ u_stray u = false /\
  u_fork_failed u = false /\ tf_tx L = NET_DRV_FLOW_INIT /\ tf_rx L = NET_DRV_FLOW_INIT /\
  cn_rpcs1 (tf_conn L) ∈ [None; Some iut] /\ cn_rpcs2 (tf_conn L) ∈ [None; Some tst].

Lemma untouched_staged L u : untouched L u -> staged NET_DRV_FLOW_INIT NET_DRV_FLOW_INIT L u.
Proof.
  intros (Hc & Hi & Ht & Hk & Hst & Hff & _ & _ & R1 & R2). unfold staged. split; [done|]. split; [done|].
  split; [by apply no_socks_own|]. rewrite Hk. apply unused_own. by repeat constructor.
Qed.

Lemma untouched_inv bt br L u : untouched L u -> tf_inv bt br L u.
Proof.
  intros H. left. pose proof H as (_ & _ & _ & _ & _ & _ & -> & -> & _).
  destruct bt, br; by apply untouched_staged.
Qed.

(** Creating the connection. *)
Lemma conn_created bt br {B} (G : B -> two_flows -> usage -> Prop) (f : unit -> T two_flows B) L u :
  untouched L u -> planned iut tst (tf_conn L) ->
  (forall c u', staged NET_DRV_FLOW_INIT NET_DRV_FLOW_INIT (tf_set_conn c L) u' ->
     cn_s1 c ∈ u_iut u' -> cn_s2 c ∈ u_tst u' -> wp world (f tt (tf_set_conn c L)) u' (upto (tf_inv bt br) G)) ->
  wp world (mbind f (on_conn net_drv_conn_create) L) u (upto (tf_inv bt br) G).
Proof.
  intros Hu Hp Hf. apply st_bind, zoom_upto. eapply wp_mono; [by apply conn_create_wp|].
  pose proof (untouched_staged _ _ Hu) as (Hff & Hst & Hc & Hfl).
  destruct Hu as ([N1 N2] & Hi & Ht & Hk & _ & _ & Etx & Erx & R1 & R2).
  intros [[c' [[]|j]]| | |] u' H; try done.
  - assert (Hc' : conns_own iut tst [c'] u').
    { eapply (own_opened iut tst [tf_conn L] 0); [done|..|exact Hc|exact H].
      - unfold fds1. rewrite N1. by destruct (cn_rpcs1 _).
      - unfold fds2. rewrite N2. by destruct (cn_rpcs2 _). }
    destruct H as (_ & _ & _ & _ & _ & ->). apply Hf.
    + exact (conj Hff (conj Hst (conj Hc' Hfl))).
    + cbn. by apply elem_of_union_r, elem_of_singleton.
    + cbn. by apply elem_of_union_r, elem_of_singleton.
  - destruct H as (-> & [P1 P2] & E1 & E2). apply untouched_inv. unfold untouched, no_socks. cbn.
    rewrite P1, P2. repeat split; try done; try congruence; right; left.
Qed.

Lemma reset_setup_keeps iut_if iut_addr tst_addr :
  wp world (reset_setup iut tst iut_if iut_addr tst_addr tf_start) u_start
    (upto (tf_inv true true) (fun _ => ready true true)).
Proof.
  assert (Hun : untouched tf_start u_start) by (repeat split; left).
  unfold reset_setup. apply st_u_neutral; [unfold keep_addr_on_down; solve_only|by apply untouched_inv|].
  intros _. apply st_zoom_modify. apply conn_created; [by repeat split; right; left|done|].
  intros c u Hs H1 H2. cbn beta.
  apply (st_gets world _ _ tf_conn). cbn beta. apply st_zoom_modify. cbn beta.
  apply (st_gets world _ _ tf_tx). cbn beta. apply st_zoom_modify. cbn beta. apply st_bind.
  match goal with |- wp _ (zoom _ _ _ ?L) _ _ => set (L0 := L) end.
  assert (Hw : forall f, wired_in iut tst u (fl_set_dir true 1 (fl_set_input iut tst c RESET_SEND_DURATION f)) /\
    wired_in iut tst u (fl_set_dir false 2 (fl_set_dir true 1 (fl_set_input iut tst c RESET_SEND_DURATION f)))).
  { intros f. split; (split; [done|]; split; [done|]; split; [done|]; by exists c). }
  eapply wp_mono; [eapply (tx_prepared true true L0 _ NET_DRV_FLOW_INIT); [done| | |]|].
  - exact Hs.
  - intros _. apply Hw.
  - intros _. cbn. eauto.
  - intros [[L' [[]|j]]| | |] u' H; try done. cbn in H. destruct H as (Ec & Er & Hst & Hn & Ei & Et).
    apply (rx_prepared true true); [exact Hst|exact Hn|]. intros _. rewrite Er. destruct (Hw NET_DRV_FLOW_INIT) as [_ (W1 & W2 & W3 & W4)].
    split; [done|]. split; [done|]. split; [done|]. rewrite Ei, Et. exact W4.
Qed.

(** Everything after the flows were prepared, in the first test. *)
Lemma reset_body_keeps fuel iut_if iut_addr tst_addr flags :
  wp world (reset_body iut tst iut_if iut_addr tst_addr fuel flags tf_start) u_start (ends (tf_inv true true)).
Proof.
  unfold reset_body. apply st_bind. eapply wp_mono; [apply reset_setup_keeps|].
  intros [[L0 [x|j]]| | |] u0 H; try done. cbn in H.
  apply st_tx_ready; [apply flow_start_wp|exact H|]. clear H L0 u0 x. intros L0 u0 H.
  apply st_rx_ready; [apply flow_start_wp|exact H|]. clear H L0 u0. intros L0 u0 H.
  apply st_ready; [solve_only|done|]. intros _. apply (st_gets world _ _ tf_conn). cbn beta.
  apply st_ready; [unfold reset_check, net_drv_ethtool_reset; solve_only|done|]. intros _.
  apply st_tx_ready; [apply flow_finish_wp|exact H|]. intros L1 u1 H1.
  apply (st_gets world _ _ tf_tx). apply st_ready; [unfold flow_check; solve_only|done|]. intros _.
  apply st_rx_ready; [apply flow_finish_wp|exact H1|]. intros L2 u2 H2.
  apply (st_gets world _ _ tf_rx). apply st_ready; [unfold flow_check; solve_only|done|]. intros _.
  apply st_u_last; [apply conn_check_u_neutral|by apply ready_inv].
Qed.

(** However the test of a reset under traffic ends, in any environment, it
    ends without undefined behaviour, and unless a fork failed it has given
    back what it took: its sockets are closed, exactly the servers it forked
    are destroyed, each descriptor and server once, and no other. *)
Theorem reset_under_traffic_releases fuel iut_if iut_addr tst_addr flags :
  wp world (reset_under_traffic iut tst iut_if iut_addr tst_addr fuel flags) u_start
    (fun r u => match r with
     | Val _ => u_fork_failed u = false -> released u
     | NoFuel => True
     | _ => False
     end).
Proof.
  unfold reset_under_traffic.
  eapply wp_mono; [apply (test_main_keeps world (fun L u => L = tf_start /\ u = u_start) (tf_inv true true)
    (fun u => u_fork_failed u = false -> released u)); [done| |]|].
  - intros L u [-> ->]. apply reset_body_keeps.
  - intros L u H. by apply (cleanup_owned true true).
  - by intros [r| | |] u H.
Qed.

Section updown_theorem.
Context (iut_if : string) (iut_addr tst_addr : sockaddr) (duration wait : Z) (bt br : bool).

(** A flow over the connection of [L], as both are before they are prepared. *)
Definition wired_if (b : bool) (u : usage) (f : net_drv_flow) : Prop :=
  has_conn f /\ (b = true -> forall tx id, wired_in iut tst u (fl_set_dir tx id f)).

Lemma updown_tx_keeps L u : staged NET_DRV_FLOW_INIT NET_DRV_FLOW_INIT L u ->
  wired_if bt u (tf_tx L) -> wired_if br u (tf_rx L) ->
  wp world (twhen bt (_ ← on_tx (modify (fl_set_dir true 1)); on_tx net_drv_flow_prepare) L) u
    (upto (tf_inv bt br) (fun _ L' u' =>
      tf_conn L' = tf_conn L /\ wired_if br u' (tf_rx L') /\ staged (sel bt (tf_tx L')) NET_DRV_FLOW_INIT L' u' /\
      fl_new_processes (sel bt (tf_tx L')) = bt)).
Proof.
  intros Hs [Ht Hwt] [Hr Hwr]. unfold twhen. destruct bt; [|exact (conj eq_refl (conj (conj Hr Hwr) (conj Hs eq_refl)))].
  apply st_zoom_modify.
  eapply wp_mono; [apply (tx_prepared true br _ _ NET_DRV_FLOW_INIT eq_refl); [exact Hs|intros _; apply Hwt; done|]|].
  - destruct br; [exact Hr|done].
  - intros [[L' [[]|j]]| | |] u' H; try done. cbn in H. destruct H as (Ec & Er & Hst & Hn & Ei & Et).
    cbn. rewrite Er. split; [done|]. split; [|by split]. split; [exact Hr|].
    intros Hb tx id. destruct (Hwr Hb tx id) as (W1 & W2 & W3 & W4).
    split; [exact W1|]. split; [exact W2|]. split; [exact W3|]. rewrite Ei, Et. exact W4.
Qed.

Lemma updown_rx_keeps L u : staged (sel bt (tf_tx L)) NET_DRV_FLOW_INIT L u ->
  fl_new_processes (sel bt (tf_tx L)) = bt -> wired_if br u (tf_rx L) ->
  wp world (twhen br (_ ← on_rx (modify (fl_set_dir false 2)); on_rx net_drv_flow_prepare) L) u
    (upto (tf_inv bt br) (fun _ => ready bt br)).
Proof.
  intros Hs Hn [Hr Hwr]. unfold twhen. destruct br; [|exact (conj Hs (conj Hn eq_refl))].
  apply st_zoom_modify. apply (rx_prepared bt true); [exact Hs|exact Hn|]. intros _. by apply Hwr.
Qed.

(** The connection, if there is to be traffic, and the flows. *)
Lemma updown_setup_keeps :
  wp world (updown_setup iut tst iut_if iut_addr tst_addr duration bt br tf_start) u_start
    (upto (tf_inv bt br) (fun _ => ready bt br)).
Proof.
  assert (Hun : untouched tf_start u_start) by (repeat split; left).
  unfold updown_setup. apply st_bind.
  eapply wp_mono with (Q := upto (tf_inv bt br) (fun _ L u => staged NET_DRV_FLOW_INIT NET_DRV_FLOW_INIT L u /\
    (bt || br = true -> cn_s1 (tf_conn L) ∈ u_iut u /\ cn_s2 (tf_conn L) ∈ u_tst u))).
  - unfold twhen. destruct (bt || br); [|split; [by apply untouched_staged|done]].
    apply st_zoom_modify. apply conn_created; [by repeat split; right; left|done|].
    intros c u Hs H1 H2. cbn beta. unfold lift. apply wp_bind, wp_attempt.
    eapply wp_mono; [apply u_neutral_wp; unfold keep_addr_on_down; solve_only|].
    intros [a|j|w|] u' [-> H]; cbn; try done. left.
    destruct Hs as (Hff & Hst & Hc & Hf). by destruct bt, br.
  - intros [[L [[]|j]]| | |] u H; try done. destruct H as [Hs Hfd].
    apply (st_gets world _ _ tf_conn). cbn beta. apply st_zoom_modify. cbn beta.
    apply (st_gets world _ _ tf_tx). cbn beta. apply st_zoom_modify. cbn beta. apply st_bind.
    assert (Hw : forall b, (b = true -> bt || br = true) ->
      wired_if b u (fl_set_input iut tst (tf_conn L) (UPDOWN_SEND_DURATION duration) (tf_tx L))).
    { intros b Hb. split; [intros _; cbn; eauto|]. intros E tx id. destruct (Hfd (Hb E)) as [F1 F2].
      split; [done|]. split; [done|]. split; [done|]. by exists (tf_conn L). }
    eapply wp_mono; [apply updown_tx_keeps|].
    + exact Hs.
    + apply Hw. intros ->. done.
    + apply Hw. intros ->. apply orb_true_r.
    + intros [[L' [[]|j]]| | |] u' H; try done. destruct H as (_ & Hr & Hst & Hn).
      by apply updown_rx_keeps.
Qed.

Lemma updown_body_keeps fuel :
  wp world (updown_body iut tst iut_if iut_addr tst_addr duration wait bt br fuel tf_start) u_start
    (ends (tf_inv bt br)).
Proof.
  unfold updown_body. apply st_bind. eapply wp_mono; [apply updown_setup_keeps|].
  intros [[L [[]|j]]| | |] u H; try done. cbn in H. apply st_bind.
  eapply wp_mono; [apply (tx_keeps bt br); [apply flow_start_wp|exact H]|].
  intros [[L1 [[]|j]]| | |] u1 H1; try done. destruct H1 as [H1 _]. apply st_bind.
  eapply wp_mono; [apply (rx_keeps bt br); [apply flow_start_wp|exact H1]|].
  intros [[L2 [[]|j]]| | |] u2 H2; try done. destruct H2 as [H2 _].
  apply st_ready; [solve_only|done|]. intros _.
  apply st_ready; [unfold updown_loop, updown_pass; solve_only|done|]. intros _. apply st_bind.
  eapply wp_mono; [apply (tx_keeps bt br); [apply flow_finish_wp|exact H2]|].
  intros [[L3 [[]|j]]| | |] u3 H3; try done. destruct H3 as [H3 _].
  apply (st_gets world _ _ tf_tx). cbn beta. apply st_bind.
  eapply wp_mono; [apply (rx_keeps bt br); [apply flow_finish_wp|exact H3]|].
  intros [[L4 [[]|j]]| | |] u4 H4; try done. destruct H4 as [H4 _].
  apply (st_gets world _ _ tf_rx). cbn beta. apply st_ready; [solve_only|done|]. intros _.
  apply st_u_last; [solve_only|by apply ready_inv].
Qed.

(** The loop that sets the interface down and up gives back what it took as
    well, with data flowing in any of the directions or in none. *)
Lemma if_down_up_releases fuel :
  wp world (if_down_up_loop iut tst iut_if iut_addr tst_addr duration wait bt br fuel) u_start
    (fun r u => match r with
     | Val _ => u_fork_failed u = false -> released u
     | NoFuel => True
     | _ => False
     end).
Proof.
  unfold if_down_up_loop.
  eapply wp_mono; [apply (test_main_keeps world (fun L u => L = tf_start /\ u = u_start) (tf_inv bt br)
    (fun u => u_fork_failed u = false -> released u)); [done| |]|].
  - intros L u [-> ->]. apply updown_body_keeps.
  - intros L u H. unfold updown_cleanup. eapply wp_also with (R := tf_inv bt br L).
    + unfold cleanup_set_up_wait, cleanup_rc, net_drv_wait_up_gen. wp_go; exact H.
    + intros u' H'. by apply (cleanup_owned bt br).
  - by intros [r| | |] u H.
Qed.
End updown_theorem.
End owning.

Module TrafficWitness.
Local Existing Instance te_ref.

Lemma reset_under_traffic_releases_witness :
  RPCS "pco_iut" "Agt_A" <> RPCS "pco_tst" "Agt_B" /\
  wp (u_world (RPCS "pco_iut" "Agt_A") (RPCS "pco_tst" "Agt_B")) (reset_under_traffic (RPCS "pco_iut" "Agt_A") (RPCS "pco_tst" "Agt_B") "eth1" zero_addr zero_addr 5 1) u_start
    (fun r u => match r with
     | Val _ => u_fork_failed u = false -> released u
     | NoFuel => True
     | _ => False
     end).
Proof.
  assert (H : RPCS "pco_iut" "Agt_A" <> RPCS "pco_tst" "Agt_B") by done. split; [exact H|].
  exact (reset_under_traffic_releases _ _ H 5 "eth1" zero_addr zero_addr 1).
Defined.
End TrafficWitness.
