(* ===== verification/RssTests.v ===== *)
(** What the tests of RSS rely on of rss/common_rss.c: the calls its functions
    make, and that they have no undefined behaviour on a context that was
    prepared with an indirection table that is not empty. *)
From S2P Require Import Prelude Prog Te Locals NetDrvTs CommonRss Resources.

(** The calls of the functions used here. *)
Definition is_rss_call X (c : te_call X) : bool :=
  is_data_call X c ||
  match c with
  | tapi_bpf_rxq_stats_clear _ _ | tapi_bpf_rxq_stats_reset _ _ | tapi_bpf_rxq_stats_set_params _ _ _ _ _ _ _
  | tapi_bpf_rxq_stats_check_single _ _ _ _ _ _ | tapi_bpf_rxq_stats_read _ _
  | te_toeplitz_hash_sa _ _ _ _ | te_toeplitz_cache_init_size _ | te_toeplitz_hash_fini _
  | tapi_cfg_if_rss_indir_get _ _ _ _ | tapi_cfg_if_rss_hash_key_get _ _ _
  | tapi_cfg_if_rss_rx_queues_get _ _ | tapi_cfg_if_rss_indir_table_size _ _ _
  | cfg_get_instance_int _ => true
  | _ => false
  end.

(** Those that are made before statistics are read. *)
Definition before_read X (c : te_call X) : bool :=
  is_rss_call X c && negb (match c with tapi_bpf_rxq_stats_read _ _ => true | _ => false end).

(** A context that can be used to predict queues. *)
Definition usable (ctx : net_drv_rss_ctx) : Prop := is_Some (rx_cache ctx) /\ 0 < rx_indir_table_size ctx.

Section rss.
Context {TE : Te}.

Lemma ext_check_only fuel rs s1 rr s2 jumbo vpref :
  only before_read any_jump (net_drv_send_recv_ext_check fuel rs s1 rr s2 jumbo vpref).
Proof.
  eapply only_mono; [| |apply data_check_only]; [|done]. intros X c H. unfold before_read, is_rss_call. rewrite H. by destruct c.
Qed.

Lemma send_check_common_only fuel r1 s1 a1 r2 s2 a2 t b j v :
  only before_read any_jump (send_check_common fuel r1 s1 a1 r2 s2 a2 t b j v).
Proof.
  unfold send_check_common. apply only_bind; [destruct a1, a2; solve_only|]. intros rc. destruct (negb _); [done|].
  apply only_bind; [done|]. intros n. apply only_bind; [|done]. apply only_for_n. intros i [].
  unfold send_check_pass. apply only_bind; [apply ext_check_only|done].
Qed.

Lemma before_read_rss X (c : te_call X) : before_read X c = true -> is_rss_call X c = true.
Proof. unfold before_read. by intros [H _]%andb_prop. Qed.

Lemma send_check_stats_only fuel r1 s1 a1 r2 s2 a2 t q b j v :
  only is_rss_call any_jump (net_drv_rss_send_check_stats fuel r1 s1 a1 r2 s2 a2 t q b j v).
Proof. unfold net_drv_rss_send_check_stats. apply only_bind; [eapply only_mono; [apply before_read_rss|done|apply send_check_common_only]|]. intros [rc|n]; done. Qed.

Lemma send_get_stats_only fuel r1 s1 a1 r2 s2 a2 t b j v :
  only is_rss_call any_jump (net_drv_rss_send_get_stats fuel r1 s1 a1 r2 s2 a2 t b j v).
Proof.
  unfold net_drv_rss_send_get_stats. apply only_bind; [eapply only_mono; [apply before_read_rss|done|apply send_check_common_only]|]. intros [rc|n]; [done|].
  solve_only.
Qed.

(** In an environment where these calls keep [P]. *)
Section keeping.
Context {S : Type} (E : env te_call S) (P : S -> Prop).
Context (HE : forall X (c : te_call X) s x s', is_rss_call X c = true -> P s -> E X c s x s' -> P s').

Lemma rss_wp {A} (p : M A) s : only is_rss_call any_jump p -> P s ->
  wp E p s (fun r s' => P s' /\ match r with Undef _ => False | _ => True end).
Proof.
  intros Ho Hs. eapply wp_mono; [apply (wp_only is_rss_call any_jump E P); [exact Ho|exact HE|exact Hs]|].
  intros [a|j|w|] s' [H1 H2]; auto.
Qed.

End keeping.

(** Predicting a queue, and preparing a context, read no statistics. *)
Section predicting.
Context {S : Type} (E : env te_call S) (P : S -> Prop).
Context (HE : forall X (c : te_call X) s x s', before_read X c = true -> P s -> E X c s x s' -> P s').

Lemma predict_wp ctx src dst h i q s : usable ctx -> P s ->
  wp E (net_drv_rss_predict ctx src dst h i q) s (fun r s' => P s' /\ match r with
    | Val (rc, p) => rc = 0 -> (i = true -> is_Some (p_idx p)) /\ (q = true -> is_Some (p_queue p))
    | _ => False
    end).
Proof.
  intros [[c Hc] Hsz] Hs. unfold net_drv_rss_predict. rewrite Hc.
  wp_step. apply wp_call. intros [rc hash] s1 H1. assert (Hs1 : P s1) by (eapply HE; [|exact Hs|exact H1]; done). cbn [bpost].
  destruct (Z.eqb_spec rc 0) as [->|Hrc]; cbn [negb]; [|by wp_step].
  destruct i, q; cbn [negb andb]; [..|by wp_step];
    rewrite (proj2 (Z.eqb_neq (rx_indir_table_size ctx) 0)) by lia; [|wp_step; by eauto|].
  all: wp_step; apply wp_call; intros [rc q] s2 H2; assert (P s2) by (eapply HE; [|exact Hs1|exact H2]; done); cbn [bpost].
  all: destruct (Z.eqb_spec rc 0) as [->|Hrc]; cbn [negb]; wp_step; split; try done; intros _; cbn; by eauto.
Qed.
End predicting.

(** Preparing a context: it is usable, when an indirection table is not empty. *)
Section prepare.
Context {S : Type} (E : env te_call S) (P : S -> Prop).
Context (HE : forall X (c : te_call X) s x s', before_read X c = true -> P s -> E X c s x s' -> P s').
Context (Hsize : forall ta ifn c s x s', E _ (tapi_cfg_if_rss_indir_table_size ta ifn c) s x s' -> fst x = 0 -> 0 < snd x).

Lemma ctx_prepare_wp ta ifn c ctx s : P s ->
  wp E (net_drv_rss_ctx_prepare ta ifn c ctx) s (fun r s' => P s' /\ match r with
    | Val (ctx', inl _) => usable ctx'
    | Val (_, inr _) => True
    | _ => False
    end).
Proof.
  assert (HE' : forall X (c : te_call X) s x s', E X c s x s' -> before_read X c = true -> P s -> P s') by eauto.
  intros Hs. apply wp_T. unfold net_drv_rss_ctx_prepare, net_drv_rss_get_check_hkey, rss_ctx_fill, net_drv_rss_ctx_release.
  repeat (first [twp_step | wp_step | progress wp_macro | progress cbn [bpost] | progress cbn beta iota
    | match goal with Hs : P ?s, H : E _ _ ?s _ ?s' |- _ => pose proof (HE' _ _ _ _ _ H eq_refl Hs); clear Hs end
    | match goal with p : (_ * _)%type |- wp _ (match ?p' with _ => _ end) _ _ => constr_eq p p'; destruct p end ]).
  all: split; [assumption|]; try exact I; autorewrite with zbool in *; try done.
  all: try (exfalso; match goal with H : ?e = 0 |- _ => revert H; apply te_code_nonzero; te_elem end).
  split; [by eexists|]. cbn. match goal with H : E _ (tapi_cfg_if_rss_indir_table_size _ _ _) _ _ _ |- _ => by apply Hsize in H end.
Qed.
End prepare.
End rss.
