(* ===== verification/RssTrace.v ===== *)
(** A record of what a test of RSS does: the rules it commits, the connections it
    makes, the statistics it reads or has checked, the changes of the hash key
    and of the indirection table.  The lemmas say what the functions of
    rss/common_rss.c add to the record, for a NIC whose hash and indirection
    table are known. *)
From S2P Require Import Prelude Prog Te Locals NetDrvTs DataFlow CommonRss Resources Holding RssTests.

Module RssTrace.
(** A rule as it was committed: the source and the destination it matches, when
    it does, and its queue.  A filter of statistics: source and destination. *)
Definition rule : Type := option sockaddr * option sockaddr * Z.
Definition flt : Type := option sockaddr * option sockaddr.

Inductive event :=
| Committed (r : rule)
| Connected (a1 a2 : sockaddr)                  (* of the IUT, of the tester *)
| Received (f : flt) (stats : list rxq_stats)
| Through (f : flt) (q : Z)                  (* all packets through one queue *)
| IndirSet (i q : Z)
| KeySet (key : list Z)
| IndirCommitted.

(** The identifier of the BPF program that was read, the rule and the filter
    that were set last, and what happened. *)
Record trace := Trace { t_id : option Z; t_draft : rule; t_filter : flt; t_events : list event }.
Definition nothing : trace := Trace None (None, None, 0) (None, None) [].

Definition log (e : event) (t : trace) : trace := Trace (t_id t) (t_draft t) (t_filter t) (t_events t ++ [e]).
Definition set_draft (r : rule) (t : trace) : trace := Trace (t_id t) r (t_filter t) (t_events t).
Definition set_filter (f : flt) (t : trace) : trace := Trace (t_id t) (t_draft t) f (t_events t).
Definition set_id (id : Z) (t : trace) : trace := Trace (Some id) (t_draft t) (t_filter t) (t_events t).
Definition if_ok (rc : Z) (f : trace -> trace) (t : trace) : trace := if rc =? 0 then f t else t.

Definition upd X (c : te_call X) : X -> trace -> trace :=
  match c in te_call X return X -> trace -> trace with
  | tapi_bpf_rxq_stats_get_id _ _ => fun x => if_ok (fst x) (set_id (snd x))
  | tapi_cfg_rx_rule_fill_ip_addrs_ports _ _ _ _ src _ dst _ => fun rc =>
      if_ok rc (fun t => set_draft (src, dst, snd (t_draft t)) t)
  | tapi_cfg_rx_rule_rx_queue_set _ _ _ q => fun rc => if_ok rc (fun t => set_draft (fst (t_draft t), q) t)
  | tapi_cfg_rx_rule_commit _ _ _ => fun rc => if_ok rc (fun t => log (Committed (t_draft t)) t)
  | GEN_CONNECTION _ _ _ a1 a2 => fun x => if_ok (fst x) (log (Connected a1 a2))
  | tapi_bpf_rxq_stats_set_params _ _ _ src dst _ _ => fun rc => if_ok rc (set_filter (src, dst))
  | tapi_bpf_rxq_stats_read _ _ => fun x => if_ok (fst x) (fun t => log (Received (t_filter t) (snd x)) t)
  | tapi_bpf_rxq_stats_check_single _ _ q _ _ _ => fun rc => if_ok rc (fun t => log (Through (t_filter t) q) t)
  | tapi_cfg_if_rss_indir_set_local _ _ _ i q => fun rc => if_ok rc (log (IndirSet i q))
  | tapi_cfg_if_rss_hash_key_set_local _ _ _ key => fun rc => if_ok rc (log (KeySet key))
  | tapi_cfg_if_rss_hash_indir_commit _ _ _ => fun rc => if_ok rc (log IndirCommitted)
  | _ => fun _ t => t
  end.

(** A NIC, and the library that computes its hash. *)
Record nic := Nic {
  n_key : list Z; n_variant : Z; n_size : Z; n_queues : Z; n_table : Z -> Z;
  n_cache : list Z -> toeplitz_cache; n_hash : toeplitz_cache -> sockaddr -> sockaddr -> Z -> Z }.

Section world.
Context (n : nic).

(** What is read is what the NIC has. *)
Definition ok X (c : te_call X) : trace -> X -> Prop :=
  match c in te_call X return trace -> X -> Prop with
  | tapi_cfg_if_rss_hash_key_get _ _ _ => fun _ x => fst x = 0 -> snd x = n_key n
  | tapi_cfg_if_rss_rx_queues_get _ _ => fun _ x => fst x = 0 -> snd x = n_queues n
  | tapi_cfg_if_rss_indir_table_size _ _ _ => fun _ x => fst x = 0 -> snd x = n_size n
  | tapi_cfg_if_rss_indir_get _ _ _ i => fun _ x => fst x = 0 -> snd x = n_table n i
  | te_toeplitz_cache_init_size key => fun _ x => forall c, x = Some c -> c = n_cache n key
  | te_toeplitz_hash_sa c a b v => fun _ x => fst x = 0 -> snd x = n_hash n c a b v
  | cfg_get_instance_int path => fun _ x => path = "/local:/iut_toeplitz_variant:" -> fst x = 0 -> snd x = n_variant n
  | _ => fun _ _ => True
  end.

Definition world : env te_call trace := watch_if ok upd.

(** The entry and the queue of packets of a connection when the NIC hashes with
    [key]: the addresses of the IUT, and of the tester, that sends. *)
Definition entry_of (key : list Z) (conn : sockaddr * sockaddr) : Z :=
  n_hash n (n_cache n key) (snd conn) (fst conn) (n_variant n) mod n_size n.
Definition queue_of (key : list Z) (conn : sockaddr * sockaddr) : Z := u32 (n_table n (entry_of key conn)).

(** A context that knows the NIC, but hashes with [key]. *)
Definition knows (key : list Z) (ctx : net_drv_rss_ctx) : Prop :=
  rx_cache ctx = Some (n_cache n key) /\ rx_indir_table_size ctx = n_size n /\
  rx_hash_variant ctx = n_variant n /\ rx_rx_queues ctx = u32 (n_queues n) /\
  rx_hash_key ctx = Some key /\ rx_key_len ctx = Z.of_nat (length key).
End world.

(** Calls that leave the record as it is. *)
Definition silent X (c : te_call X) : bool :=
  match c with
  | tapi_bpf_rxq_stats_get_id _ _ | tapi_cfg_rx_rule_fill_ip_addrs_ports _ _ _ _ _ _ _ _
  | tapi_cfg_rx_rule_rx_queue_set _ _ _ _ | tapi_cfg_rx_rule_commit _ _ _ | GEN_CONNECTION _ _ _ _ _
  | tapi_bpf_rxq_stats_set_params _ _ _ _ _ _ _ | tapi_bpf_rxq_stats_read _ _
  | tapi_bpf_rxq_stats_check_single _ _ _ _ _ _ | tapi_cfg_if_rss_indir_set_local _ _ _ _ _
  | tapi_cfg_if_rss_hash_key_set_local _ _ _ _ | tapi_cfg_if_rss_hash_indir_commit _ _ _ => false
  | _ => true
  end.

Lemma silent_keeps n t0 X (c : te_call X) t x t' : silent X c = true -> t = t0 -> world n X c t x t' -> t' = t0.
Proof. intros Hc -> [_ ->]. by destruct c. Qed.

Lemma data_silent X (c : te_call X) : is_data_call X c = true -> silent X c = true.
Proof. by destruct c. Qed.
End RssTrace.

Section traced.
Context {TE : Te}.
Import RssTrace.
Context (n : nic) (Hsize : 0 < n_size n).
Local Abbreviation W := (world n).

Lemma silent_wp {A} (p : M A) t : only silent any_jump p ->
  wp W p t (fun r t' => t' = t /\ match r with Undef _ => False | _ => True end).
Proof.
  intros Ho. eapply wp_mono; [apply (wp_only silent any_jump W (fun t' => t' = t)); [exact Ho| |done]|].
  - intros X c t1 x t' Hc Ht Hw. by eapply silent_keeps.
  - intros [a|j|w|] t' [H1 H2]; auto.
Qed.

Lemma silent_returns_wp {A} (p : M A) t (Q : result A -> trace -> Prop) :
  only silent any_jump p -> returns p -> (forall a, Q (Val a) t) -> wp W p t Q.
Proof.
  intros Ho Hr HQ. eapply wp_mono; [apply wp_and; [by apply silent_wp|by apply wp_returns]|].
  by intros q t' [[-> _] [b ->]].
Qed.

(** A prediction is the entry and the queue of the NIC. *)
Lemma predict_traced key ctx a1 a2 h i q t : knows n key ctx ->
  wp W (net_drv_rss_predict ctx a2 a1 h i q) t (fun r t' => t' = t /\ match r with
    | Val (rc, p) => rc = 0 -> (i = true -> p_idx p = Some (entry_of n key (a1, a2))) /\
        (q = true -> p_queue p = Some (queue_of n key (a1, a2)))
    | _ => False
    end).
Proof.
  intros (Hc & Hs & Hv & _). unfold net_drv_rss_predict. rewrite Hc.
  wp_step. apply wp_call. intros [rc hs] s1 [H1 ->]. cbn [bpost ok upd fst snd] in *.
  destruct (Z.eqb_spec rc 0) as [->|Hrc]; cbn [negb]; [|by wp_step]. rewrite (H1 eq_refl), Hs, Hv.
  destruct i, q; cbn [negb andb]; [..|by wp_step];
    rewrite (proj2 (Z.eqb_neq (n_size n) 0)) by lia; [|by wp_step|].
  all: wp_step; apply wp_call; intros [rc q] s2 [H2 ->]; cbn [bpost ok upd fst snd] in *.
  all: destruct (Z.eqb_spec rc 0) as [->|Hrc]; cbn [negb]; wp_step; split; try done; intros _; by rewrite (H2 eq_refl).
Qed.

(** Preparing a context: it knows the NIC and its key. *)
Lemma prepare_traced ta ifn c ctx t :
  wp W (net_drv_rss_ctx_prepare ta ifn c ctx) t (fun r t' => t' = t /\ match r with
    | Val (ctx', inl _) => knows n (n_key n) ctx'
    | Val (_, inr _) => True
    | _ => False
    end).
Proof.
  apply wp_T. unfold net_drv_rss_ctx_prepare, net_drv_rss_get_check_hkey, rss_ctx_fill, net_drv_rss_ctx_release.
  twp_go; cbn [ok upd fst snd] in *; (split; [done|]); autorewrite with zbool in *; try exact I; try done.
  all: try (exfalso; match goal with H : ?e = 0 |- _ => revert H; apply te_code_nonzero; te_elem end).
  repeat match goal with H : ?P -> _, H' : ?P |- _ => specialize (H H') end.
  repeat match goal with H : "/local:/iut_toeplitz_variant:" = _ -> _ |- _ => specialize (H eq_refl) end.
  repeat match goal with H : ?P -> _, H' : ?P |- _ => specialize (H H') end. subst.
  match goal with H : Some _ = Some _ -> _ |- _ => specialize (H eq_refl) end. cbn in *. subst.
  repeat split.
Qed.

(** What a program does to the record when it returns; a jump keeps the
    identifier. *)
Definition traced {A} (V : A -> trace -> Prop) (t : trace) (r : result A) (t' : trace) : Prop :=
  match r with Val a => V a t' | Undef _ => False | _ => t_id t' = t_id t end.

Lemma traced_silent {A} (p : M A) t : only silent any_jump p -> wp W p t (traced (fun _ t' => t' = t) t).
Proof. intros Ho. eapply wp_mono; [by apply silent_wp|]. intros [a|j|w|] t' [-> H]; done. Qed.

(** The filter that sending sets. *)
Definition sending_filter (a1 a2 : option sockaddr) (t : trace) : flt :=
  match a1, a2 with None, None => t_filter t | _, _ => (a1, a2) end.

Lemma send_common_traced fuel r1 s1 a1 r2 s2 a2 ty b j v t :
  wp W (send_check_common fuel r1 s1 a1 r2 s2 a2 ty b j v) t (traced (fun r t' => match r with
    | inl rc => rc <> 0 /\ t_id t' = t_id t /\ t_events t' = t_events t
    | inr _ => t' = set_filter (sending_filter a1 a2 t) t
    end) t).
Proof.
  unfold send_check_common. set (f := sending_filter a1 a2 t). wp_step.
  apply (wp_mono _ _ _ (fun r t' => match r with
    | Val rc => t_id t' = t_id t /\ t_events t' = t_events t /\ (rc = 0 -> t' = set_filter f t) | _ => False end)).
  { subst f. unfold sending_filter. destruct a1 as [a|], a2 as [a'|]; wp_go; cbn [upd]; unfold if_ok; try (by destruct t);
      autorewrite with zbool in *; try (by repeat split; intros); by destruct (_ =? 0) eqn:E; repeat split; intros; try lia; autorewrite with zbool in *. }
  intros [rc| | |] t1 H; try done. destruct H as (H1 & H2 & H3). cbn [bpost].
  destruct (Z.eqb_spec rc 0) as [E|E]; cbn [negb]; [|by wp_step]. rewrite (H3 E). clear H1 H2 H3 t1.
  wp_step. apply wp_call. intros k t1 [_ ->]. cbn [bpost upd]. wp_step. eapply wp_mono; [apply traced_silent|].
  { apply only_for_n. intros i []. unfold send_check_pass. apply only_bind; [|done].
    eapply only_mono; [| |apply data_check_only]; [|done]. intros X c H. by apply data_silent. }
  intros [a|e|w|] t' H; cbn [traced] in *; subst; done.
Qed.

Lemma send_check_stats_traced fuel r1 s1 a1 r2 s2 a2 ty q b j v t :
  wp W (net_drv_rss_send_check_stats fuel r1 s1 a1 r2 s2 a2 ty q b j v) t (traced (fun rc t' =>
    t_id t' = t_id t /\
    if rc =? 0 then t' = log (Through (sending_filter a1 a2 t) q) (set_filter (sending_filter a1 a2 t) t)
    else t_events t' = t_events t) t).
Proof.
  unfold net_drv_rss_send_check_stats. wp_step. eapply wp_mono; [apply send_common_traced|].
  intros [[rc|k]|e|w|] t1 H; cbn [bpost traced] in *; try done.
  - wp_step. destruct H as (H1 & H2 & H3). split; [done|]. by rewrite (proj2 (Z.eqb_neq rc 0)).
  - subst t1. apply wp_call. intros rc t1 [_ ->]. cbn [upd]. unfold if_ok. cbn [traced]. by destruct (rc =? 0).
Qed.

Lemma send_get_stats_traced fuel r1 s1 a1 r2 s2 a2 ty b j v t :
  wp W (net_drv_rss_send_get_stats fuel r1 s1 a1 r2 s2 a2 ty b j v) t (traced (fun r t' => match r with
    | inl rc => t_id t' = t_id t
    | inr stats => got_pkts stats <> 0 /\
        t' = log (Received (sending_filter a1 a2 t) stats) (set_filter (sending_filter a1 a2 t) t)
    end) t).
Proof.
  unfold net_drv_rss_send_get_stats. wp_step. eapply wp_mono; [apply send_common_traced|].
  intros [[rc|k]|e|w|] t1 H; cbn [bpost traced] in *; try done.
  - wp_step. by destruct H as (H1 & H2 & H3).
  - subst t1. wp_step. apply wp_call. intros [rc st] t1 [_ ->]. cbn [upd fst snd bpost]. unfold if_ok.
    destruct (rc =? 0); cbn [negb]; [|by wp_step]. destruct (Z.eqb_spec (got_pkts st) 0); [done|].
    destruct (_ <? _); [done|]. by wp_step.
Qed.

(** Only reading the identifier changes it. *)
Definition keeps_id X (c : te_call X) : bool := match c with tapi_bpf_rxq_stats_get_id _ _ => false | _ => true end.

Lemma upd_id X (c : te_call X) x t : keeps_id X c = true -> t_id (upd X c x t) = t_id t.
Proof. intros Hc. destruct c; try done; cbn [upd]; unfold if_ok; by destruct (_ =? 0). Qed.

Lemma check_rc_traced (c : te_call te_errno) t : keeps_id _ c = true ->
  wp W (CHECK_RC (call c)) t (traced (fun _ t' => t' = upd _ c 0 t) t).
Proof.
  intros Hc. unfold CHECK_RC. wp_step. apply wp_call. intros rc t' [_ ->]. cbn [bpost].
  destruct (Z.eqb_spec rc 0) as [->|E]; [by wp_step|]. by apply upd_id.
Qed.

(** Connecting. *)
Lemma connect_traced r1 r2 ty a1 a2 t :
  wp W (CHECK_OUT (call (GEN_CONNECTION r1 r2 ty a1 a2))) t (traced (fun _ t' => t' = log (Connected a1 a2) t) t).
Proof.
  unfold CHECK_OUT. wp_step. apply wp_call. intros [rc p] t' [_ ->]. cbn [bpost upd fst]. unfold if_ok.
  destruct (rc =? 0); [|done]. by wp_step.
Qed.

(** The prediction of the queue of a connection. *)
Lemma predicted_queue key ctx a1 a2 t : knows n key ctx ->
  wp W (CHECK_OUT (net_drv_rss_predict ctx a2 a1 false false true)) t
    (traced (fun p t' => t' = t /\ p_queue p = Some (queue_of n key (a1, a2))) t).
Proof.
  intros Hc. unfold CHECK_OUT. wp_step. eapply wp_mono; [by eapply predict_traced|].
  intros [[rc p]| | |] t' [-> H]; try done. cbn [bpost]. destruct (Z.eqb_spec rc 0) as [E|E]; [|done]. wp_step.
  split; [done|]. by apply H.
Qed.

(** ** Code over locals *)
Section locals.
Context {St : Type} (F : St -> trace -> Prop).
(** What holds at the cleanup depends on the identifier only. *)
Context (HF : forall L t t', t_id t' = t_id t -> F L t -> F L t').

Lemma st_traced {A B} (V : A -> trace -> Prop) (p : M A) (f : A -> T St B) L t G :
  wp W p t (traced V t) -> F L t -> (forall a t', V a t' -> wp W (f a L) t' (upto F G)) ->
  wp W (mbind f (lift p) L) t (upto F G).
Proof.
  intros Hp HL Hf. apply st_call. eapply wp_mono; [exact Hp|]. intros [a|j|w|] t' H; cbn [traced] in H; auto; by eapply HF.
Qed.

Lemma st_traced_last {A} (V : A -> trace -> Prop) (p : M A) L t (G : A -> St -> trace -> Prop) :
  wp W p t (traced V t) -> F L t -> (forall a t', V a t' -> G a L t') -> wp W (lift p L) t (upto F G).
Proof.
  intros Hp HL Hf. unfold lift. apply wp_bind, wp_attempt. eapply wp_mono; [exact Hp|].
  intros [a|j|w|] t' H; cbn [traced] in H; cbn; auto; by eapply HF.
Qed.

Lemma st_silent {A B} (p : M A) (f : A -> T St B) L t G :
  only silent any_jump p -> F L t -> (forall a, wp W (f a L) t (upto F G)) ->
  wp W (mbind f (lift p) L) t (upto F G).
Proof. intros Ho HL Hf. apply (st_traced _ _ _ _ _ _ (traced_silent p t Ho) HL). by intros a t' ->. Qed.

(** The context of the test is prepared. *)
Lemma st_prepare {B} (get_c : St -> net_drv_rss_ctx) set_c ta ifn c (f : unit -> T St B) L t G :
  (forall x, F (set_c x L) t) ->
  (forall ctx, knows n (n_key n) ctx -> wp W (f tt (set_c ctx L)) t (upto F G)) ->
  wp W (mbind f (zoom get_c set_c (net_drv_rss_ctx_prepare ta ifn c)) L) t (upto F G).
Proof.
  intros HL Hf. apply st_bind. unfold zoom. wp_step. eapply wp_mono; [apply prepare_traced|].
  intros [[ctx [[]|j]]| | |] t' [-> H]; try done; cbn [bpost]; wp_step; cbn [upto]; auto.
Qed.

(** The identifier is read. *)
Lemma st_get_id {B} ta ifn (f : Z -> T St B) L t G :
  F L t -> (forall id, wp W (f id L) (set_id id t) (upto F G)) ->
  wp W (mbind f (lift (CHECK_OUT (call (tapi_bpf_rxq_stats_get_id ta ifn)))) L) t (upto F G).
Proof.
  intros HL Hf. apply st_call. unfold CHECK_OUT. wp_step. apply wp_call. intros [rc id] t' [_ ->]. cbn [bpost upd fst snd].
  unfold if_ok. destruct (rc =? 0); [wp_step; apply Hf|done].
Qed.

Lemma st_close_traced {B} r (get_s : St -> Z) set_s (f : unit -> T St B) L t G :
  F L t -> wp W (f tt (set_s (-1) L)) t (upto F G) -> wp W (mbind f (close_forget r get_s set_s) L) t (upto F G).
Proof.
  intros HL Hf. apply st_bind. unfold close_forget. apply st_gets. apply st_silent; [solve_only|done|].
  intros _. exact Hf.
Qed.
End locals.
End traced.
