(* ===== verification/ChangeChannels.v ===== *)
(** rss/change_channels.c: the number of combined channels is changed and the
    RSS indirection table is tested with the new number. *)
From S2P Require Import Prelude Prog Te Locals NetDrvTs DataFlow CommonRss Resources RssPrologue RxCommon Holding Traffic RssTests.

Definition MAX_ATTEMPTS : Z := 10000.
Definition CHECK_CONNS_NUM : Z := 25.

(** The inner loop that divides by two: [fuel] halvings. *)
Fixpoint odd_part (fuel : nat) (j : Z) : Z :=
  match fuel with
  | O => j
  | S fuel => if (1 <? j) && (j mod 2 =? 0) then odd_part fuel (j / 2) else j
  end.

(** What the cleanup uses. *)
Record cc_locals := CcLocals {
  cc_iut_s : Z; cc_tst_s : Z; cc_bpf_id : Z; cc_combined_init : Z; cc_ctx : net_drv_rss_ctx }.
Definition cc_start {TE : Te} : cc_locals := CcLocals (-1) (-1) 0 (-1) NET_DRV_RSS_CTX_INIT.
Definition cc_set_iut_s (s : Z) (l : cc_locals) : cc_locals :=
  CcLocals s (cc_tst_s l) (cc_bpf_id l) (cc_combined_init l) (cc_ctx l).
Definition cc_set_tst_s (s : Z) (l : cc_locals) : cc_locals :=
  CcLocals (cc_iut_s l) s (cc_bpf_id l) (cc_combined_init l) (cc_ctx l).
Definition cc_set_bpf_id (b : Z) (l : cc_locals) : cc_locals :=
  CcLocals (cc_iut_s l) (cc_tst_s l) b (cc_combined_init l) (cc_ctx l).
Definition cc_set_init (n : Z) (l : cc_locals) : cc_locals :=
  CcLocals (cc_iut_s l) (cc_tst_s l) (cc_bpf_id l) n (cc_ctx l).
Definition cc_set_ctx (c : net_drv_rss_ctx) (l : cc_locals) : cc_locals :=
  CcLocals (cc_iut_s l) (cc_tst_s l) (cc_bpf_id l) (cc_combined_init l) c.

Section change_channels.
Context {TE : Te}.
Context (iut tst : rcf_rpc_server) (iut_if : string) (iut_addr tst_addr : sockaddr).
Context (sock_type : rpc_socket_type) (two_power multi_seg : bool).
Local Abbreviation ta := (rpcs_ta iut).

(** An attempt to find a pair of free ports; the loop returns them. *)
Definition free_ports_pass (_ : Z) (_ : unit) : M (ctl unit (Z * Z)) :=
  p1 ← call tapi_get_random_port;
  p2 ← call tapi_get_random_port;
  let iut_port := u16 p1 in
  let tst_port := u16 p2 in
  free1 ← call (rpc_check_port_is_free iut iut_port);
  if (free1 : bool) then
    free2 ← call (rpc_check_port_is_free tst tst_port);
    mret (if (free2 : bool) then Return (iut_port, tst_port) else Continue tt)
  else mret (Continue tt).

Definition pick_free_ports : M (Z * Z) :=
  r ← for_n (Z.to_nat MAX_ATTEMPTS) 0 tt free_ports_pass;
  match r with
  | inr ports => mret ports
  | inl tt => TEST_FAIL "Cannot get a pair of free ports" []
  end.

(** One connection of [check_indir_table]. *)
Definition check_conn (fuel : nat) (vpref : string) : T cc_locals unit :=
  '(iut_port, tst_port) ← lift pick_free_ports;
  let new_iut_addr := set_port iut_addr iut_port in
  let new_tst_addr := set_port tst_addr tst_port in
  '(iut_s, tst_s) ← lift (CHECK_OUT (call (GEN_CONNECTION iut tst sock_type new_iut_addr new_tst_addr)));
  _ ← modify (fun l => cc_set_tst_s tst_s (cc_set_iut_s iut_s l));
  l ← get;
  p ← lift (CHECK_OUT (net_drv_rss_predict (cc_ctx l) new_tst_addr new_iut_addr false true true));
  exp_queue ← lift (deref (p_queue p));
  _ ← lift (CHECK_RC (net_drv_rss_send_check_stats fuel tst tst_s (Some new_tst_addr) iut iut_s
              (Some new_iut_addr) sock_type exp_queue (cc_bpf_id l) multi_seg vpref));
  _ ← close_forget iut cc_iut_s cc_set_iut_s;
  close_forget tst cc_tst_s cc_set_tst_s.

Definition check_indir_table (fuel : nat) (vpref : string) : T cc_locals unit :=
  t_for (seqZ 0 CHECK_CONNS_NUM) (fun _ => check_conn fuel vpref).

(** The choice of a new queue for an entry of the table. *)
Definition new_rxq_pass (old min_rxq max_rxq _ _ : Z) : M (ctl Z Z) :=
  new_rxq ← call (rand_range min_rxq max_rxq);
  mret (if negb (new_rxq =? old) then Break new_rxq
        else if min_rxq =? max_rxq then Break new_rxq else Continue new_rxq).

Definition change_entry (init_table : list Z) (min_rxq max_rxq i : Z) (_ : unit) : M (ctl unit unit) :=
  old ← match init_table !! Z.to_nat i with Some q => mret q | None => undef "index out of the table" end;
  r ← for_n (Z.to_nat MAX_ATTEMPTS) 0 0 (new_rxq_pass old min_rxq max_rxq);
  let new_rxq := match r with inl q | inr q => q end in
  _ ← CHECK_RC (call (tapi_cfg_if_rss_indir_set_local ta iut_if 0 i new_rxq));
  mret (Continue tt).

Definition change_indir_table (init_table : list Z) (table_size min_rxq max_rxq : Z) : M te_errno :=
  _ ← for_n (Z.to_nat table_size) 0 tt (change_entry init_table min_rxq max_rxq);
  call (tapi_cfg_if_rss_hash_indir_commit ta iut_if 0).

(** An attempt to choose the number of channels; the loop returns it. *)
Definition channels_pass (combined_max combined_init _ : Z) (_ : unit) : M (ctl unit Z) :=
  combined_new ← call (rand_range 2 combined_max);
  if combined_new =? combined_init then mret (Continue tt) else
  let j := odd_part 32 combined_new in
  mret (if ((1 <? j) && two_power) || ((j =? 1) && negb two_power) then Continue tt else Return combined_new).

Definition pick_channels (combined_max combined_init : Z) : M Z :=
  if combined_init <? 1 then TEST_SKIP "Initial number of combined channels is zero" []
  else if (combined_max <? 3) || (two_power && (combined_max <? 4)) then
    TEST_SKIP "Cannot change number of combined channels" []
  else
    r ← for_n (Z.to_nat MAX_ATTEMPTS) 0 tt (channels_pass combined_max combined_init);
    match r with
    | inr n => mret n
    | inl tt => TEST_FAIL "Cannot choose a different number of combined channels" []
    end.

(** One entry of the table after the change: the table read so far, and whether
    the verdict was given. *)
Definition table_pass (combined_new i : Z) (st : list Z * bool) : M (ctl (list Z * bool) unit) :=
  let '(indir_table, unexp_table_verdict) := st in
  rx_queue ← CHECK_OUT (call (tapi_cfg_if_rss_indir_get ta iut_if 0 i));
  if combined_new =? 0 then undef "division by zero" else
  let exp_queue := i mod combined_new in
  let unexp := negb (rx_queue =? exp_queue) && negb unexp_table_verdict in
  _ ← when unexp
        (RING_VERDICT "RSS indirection table is not filled in an expected way after changing number of combined channels" []);
  mret (Continue (<[Z.to_nat i := rx_queue]> indir_table, unexp_table_verdict || unexp)).

Definition read_table (table_size combined_new : Z) : M (list Z) :=
  r ← for_n (Z.to_nat table_size) 0 (replicate (Z.to_nat table_size) 0, false) (table_pass combined_new);
  match r with
  | inl (indir_table, _) => mret indir_table
  | inr tt => mret [] (* the body does not return *)
  end.

(** Changing the table, with what the test says of it; the value is
    [test_failed]. *)
Definition try_change_table (indir_table : list Z) (table_size combined_init combined_new : Z) : M bool :=
  rc ← change_indir_table indir_table table_size 0 (combined_new - 1);
  if negb (rc =? 0) then
    _ ← ERROR_VERDICT "Cannot change indirection table after changing number of combined channels" [];
    if combined_init <? combined_new then
      rc ← change_indir_table indir_table table_size 0 (combined_init - 1);
      if negb (rc =? 0) then
        TEST_VERDICT "Indirection table cannot be changed even when only RX queues allowed by the initial number of combined channels are used" []
      else
        _ ← RING_VERDICT "Indirection table can be changed if only Rx queues allowed by the initial number of combined channels are used" [];
        mret true
    else TEST_STOP
  else mret false.

Definition channels_body (fuel : nat) : T cc_locals unit :=
  _ ← zoom cc_ctx cc_set_ctx (net_drv_rss_ctx_prepare ta iut_if 0);
  bpf_id ← lift (CHECK_OUT (call (tapi_bpf_rxq_stats_get_id ta iut_if)));
  _ ← modify (cc_set_bpf_id bpf_id);
  _ ← lift (CHECK_RC (call (tapi_cfg_if_rss_print_indir_table ta iut_if 0)));
  _ ← lift (CHECK_RC (call (tapi_cfg_if_rss_indir_default_set ta iut_if)));
  _ ← lift (keep_addr_on_down iut iut_if iut_addr);
  combined_max ← lift (CHECK_OUT (call (tapi_cfg_if_chan_max_get ta iut_if TAPI_CFG_IF_CHAN_COMBINED)));
  combined_init ← lift (CHECK_OUT (call (tapi_cfg_if_chan_cur_get ta iut_if TAPI_CFG_IF_CHAN_COMBINED)));
  _ ← modify (cc_set_init combined_init);
  combined_new ← lift (pick_channels combined_max combined_init);
  _ ← lift (CHECK_RC (call (tapi_cfg_if_chan_cur_set ta iut_if TAPI_CFG_IF_CHAN_COMBINED combined_new)));
  _ ← lift (call CFG_WAIT_CHANGES);
  _ ← lift (CHECK_RC (call (cfg_synchronize ("/agent:" +:+ ta +:+ "/interface:" +:+ iut_if) true)));
  _ ← lift (CHECK_RC (call (tapi_cfg_if_rss_print_indir_table ta iut_if 0)));
  table_size ← gets (fun l => rx_indir_table_size (cc_ctx l));
  indir_table ← lift (read_table table_size combined_new);
  _ ← check_indir_table fuel "After changing number of combined channels";
  test_failed ← lift (try_change_table indir_table table_size combined_init combined_new);
  _ ← lift (call CFG_WAIT_CHANGES);
  _ ← check_indir_table fuel "After changing indirection table entries";
  if (test_failed : bool) then throw STOP else mret tt.

Definition channels_cleanup (l : cc_locals) : M bool :=
  also (cleanup_close iut (cc_iut_s l))
 (also (cleanup_close tst (cc_tst_s l))
 (also (cleanup_rc (call (tapi_bpf_rxq_stats_reset ta (cc_bpf_id l))))
 (also (_ ← net_drv_rss_ctx_release (cc_ctx l); mret true)
       (if 0 <? cc_combined_init l then
          ok ← cleanup_rc (call (tapi_cfg_if_chan_cur_set ta iut_if TAPI_CFG_IF_CHAN_COMBINED (cc_combined_init l)));
          _ ← call CFG_WAIT_CHANGES; mret ok
        else mret true)))).

Definition channels_main (fuel : nat) : M status := test_main cc_start (channels_body fuel) channels_cleanup.
End change_channels.

(** ** The choice of a number *)

Definition power_of_two (n : Z) : Prop := exists k, 0 <= k /\ n = 2 ^ k.

Lemma odd_part_spec fuel j : 1 <= j < 2 ^ Z.of_nat fuel ->
  1 <= odd_part fuel j /\ (odd_part fuel j = 1 <-> power_of_two j).
Proof.
  revert j. induction fuel as [|fuel IH]; intros j Hj; [cbn in Hj; lia|]. cbn [odd_part].
  rewrite Nat2Z.inj_succ, Z.pow_succ_r in Hj by lia.
  destruct (Z.ltb_spec 1 j) as [H1|H1]; cbn [andb].
  - destruct (Z.eqb_spec (j mod 2) 0) as [He|He].
    + assert (Ej : j = 2 * (j / 2)) by (apply Z.div_exact; lia).
      destruct (IH (j / 2)) as [IH1 IH2]; [lia|]. split; [done|]. rewrite IH2. split; intros (k & Hk & E).
      * exists (k + 1). split; [lia|]. rewrite Z.pow_add_r by lia. lia.
      * destruct (decide (k = 0)) as [->|Hk0]; [cbn in E; lia|]. exists (k - 1). split; [lia|].
        replace k with (1 + (k - 1)) in E by lia. rewrite Z.pow_add_r in E by lia. lia.
    + split; [lia|]. split; [lia|]. intros (k & Hk & ->). exfalso. apply He.
      destruct (decide (k = 0)) as [->|Hk0]; [cbn in H1; lia|].
      replace k with (1 + (k - 1)) by lia. rewrite Z.pow_add_r, Z.mul_comm by lia. apply Z.mod_mul. lia.
  - split; [lia|]. assert (j = 1) as -> by lia. split; [|done]. intros _. by exists 0.
Qed.

(** A number the test may change to. *)
Definition candidate (two_power : bool) (combined_max combined_init n : Z) : Prop :=
  2 <= n <= combined_max /\ n <> combined_init /\ (power_of_two n <-> two_power = true).

(** The numbers that are drawn, one after the other. *)
Definition drawing (draw : nat -> Z) : env te_call nat := fun X c i x i' =>
  match c in te_call X return X -> Prop with
  | rand_range _ _ => fun x => x = draw i /\ i' = S i
  | _ => fun _ => i' = i
  end x.

(** C26. The number of channels the test changes to is the first number drawn
    that is not the current one and is a power of two exactly when one is asked
    for; the test fails when there is none among the draws it makes.  It skips
    when it finds that nothing can be chosen; but it does not find that three
    cannot be replaced by a number that is no power of two when at most four
    channels are possible, where no draw can succeed. *)
Theorem pick_channels_correct two_power {TE : Te} draw combined_max combined_init :
  combined_max < 2 ^ 31 -> (forall i, 2 <= combined_max -> 2 <= draw i <= combined_max) ->
  let enough := 3 <= combined_max /\ (two_power = true -> 4 <= combined_max) in
  let good := candidate two_power combined_max combined_init in
  wp (drawing draw) (pick_channels two_power combined_max combined_init) 0%nat (fun r _ => match r with
    | Val n => 1 <= combined_init /\ enough /\
        exists i, (i < Z.to_nat MAX_ATTEMPTS)%nat /\ n = draw i /\ good n /\ forall j, (j < i)%nat -> ~ good (draw j)
    | Exc (SKIP _) => combined_init < 1 \/ ~ enough
    | Exc (FAIL _) => forall i, (i < Z.to_nat MAX_ATTEMPTS)%nat -> ~ good (draw i)
    | _ => False
    end) /\
  (enough -> (exists n, good n) <-> ~ (two_power = false /\ combined_init = 3 /\ combined_max <= 4)).
Proof.
  intros Hm Hd enough good. split.
  - unfold pick_channels. destruct (Z.ltb_spec combined_init 1) as [Hi|Hi]; [by left|].
    destruct ((combined_max <? 3) || (two_power && (combined_max <? 4))) eqn:Eg.
    { cbn. right. intros [H3 H4]. apply orb_prop in Eg as [Eg|Eg]; [lia|].
      apply andb_prop in Eg as [-> Eg]. specialize (H4 eq_refl). lia. }
    assert (He : enough).
    { apply orb_false_elim in Eg as [E1 E2]. split; [lia|]. intros ->. cbn in E2. lia. }
    wp_step. eapply (wp_for_n _ _ _ _ _ _ _ (fun i _ s => s = Z.to_nat i /\ forall j, (j < Z.to_nat i)%nat -> ~ good (draw j))).
    + split; [done|]. intros j Hj. lia.
    + intros i [] s Hir [-> Hj]. unfold channels_pass. wp_step. apply wp_call. intros x s' [-> ->]. cbn [bpost].
      set (k := Z.to_nat i) in *. pose proof (proj1 He) as H3. pose proof (Hd k ltac:(lia)) as Hk.
      assert (Hnext : ~ good (draw k) -> S k = Z.to_nat (i + 1) /\ forall j, (j < Z.to_nat (i + 1))%nat -> ~ good (draw j)).
      { intros Hn. split; [lia|]. intros j Hjk. destruct (decide (j = k)) as [->|]; [done|]. apply Hj. lia. }
      destruct (Z.eqb_spec (draw k) combined_init) as [E|E].
      { wp_step. apply Hnext. by intros (_ & ? & _). }
      destruct (odd_part_spec 32 (draw k)) as [Ho1 Ho2]; [cbn; lia|].
      wp_step. set (o := odd_part 32 (draw k)) in *.
      destruct (Z.ltb_spec 1 o), (Z.eqb_spec o 1), two_power; cbn [andb orb negb lpost bpost]; try lia.
      all: try (apply Hnext; intros (_ & _ & Hp); rewrite <- Ho2 in Hp; intuition congruence || intuition lia).
      all: wp_step; split; [done|]; split; [done|]; exists k; split; [lia|]; split; [done|]; split; [|done];
        split; [done|]; split; [done|]; rewrite <- Ho2; split; intros; (lia || done || congruence).
    + intros [] s [_ Hj]. cbn [bpost]. intros j Hjm. apply Hj. exact Hjm.
  - intros [H3 H4]. split.
    + intros (n & Hn & Hne & Hp) (-> & -> & Hle).
      assert (n = 2 \/ n = 4) as [->| ->] by lia; [|];
        (enough (false = true) by done; apply Hp; eexists; split; [|reflexivity || (instantiate (1 := 1); reflexivity)
           || (instantiate (1 := 2); reflexivity)]; lia).
    + intros Hn. destruct two_power.
      * specialize (H4 eq_refl). destruct (decide (combined_init = 2)) as [->|H2].
        -- exists 4. split; [lia|]. split; [done|]. split; [done|]. intros _. by exists 2.
        -- exists 2. split; [lia|]. split; [done|]. split; [done|]. intros _. by exists 1.
      * assert (Hno : forall m, m = 3 \/ m = 5 -> ~ power_of_two m).
        { intros m Hm' (k & Hk & E). assert (k < 3) by (apply (Z.pow_lt_mono_r_iff 2); lia).
          assert (k = 0 \/ k = 1 \/ k = 2) as [->|[->| ->]] by lia; cbn in E; lia. }
        destruct (decide (combined_init = 3)) as [->|H2].
        -- exists 5. split; [|split; [done|split; [|done]]]; [|intros H; by apply Hno in H; [|right]].
           assert (~ combined_max <= 4) by tauto. lia.
        -- exists 3. split; [lia|]. split; [done|]. split; [|done]. intros H. apply Hno in H; [done|by left].
Qed.

(** ** The number of channels is restored *)
Module Channels.
(** The number of combined channels before the test, and now. *)
Record chan := Chan { ch_init : Z; ch_now : Z }.

Definition upd X (c : te_call X) : X -> chan -> chan :=
  match c in te_call X return X -> chan -> chan with
  | tapi_cfg_if_chan_cur_set _ _ TAPI_CFG_IF_CHAN_COMBINED v => fun rc s => if rc =? 0 then Chan (ch_init s) v else s
  | _ => fun _ s => s
  end.

(** Documented behaviour: the number read is the one in force, and the one that
    was in force before the test is accepted when it is set again; random
    numbers are in their range.  Indirection tables are not empty. *)
Definition ok X (c : te_call X) : chan -> X -> Prop :=
  match c in te_call X return chan -> X -> Prop with
  | tapi_cfg_if_chan_cur_get _ _ TAPI_CFG_IF_CHAN_COMBINED => fun s x => fst x = 0 -> snd x = ch_now s
  | tapi_cfg_if_chan_cur_set _ _ TAPI_CFG_IF_CHAN_COMBINED v => fun s rc => v = ch_init s -> rc = 0
  | tapi_cfg_if_rss_indir_table_size _ _ _ => fun _ x => fst x = 0 -> 0 < snd x
  | rand_range lo hi => fun _ x => lo <= hi -> lo <= x <= hi
  | _ => fun _ _ => True
  end.

Definition world : env te_call chan := watch_if ok upd.

Definition chan_free X (c : te_call X) : bool :=
  match c with tapi_cfg_if_chan_cur_set _ _ _ _ => false | _ => true end.

Lemma free_keeps s0 X (c : te_call X) s x s' : chan_free X c = true -> s = s0 -> world X c s x s' -> s' = s0.
Proof. intros Hc -> [_ ->]. by destruct c. Qed.

Lemma rss_free X (c : te_call X) : is_rss_call X c = true -> chan_free X c = true.
Proof. by destruct c. Qed.
End Channels.

Section restores.
Context {TE : Te}.
Import Channels.
Context (iut tst : rcf_rpc_server) (iut_if : string) (iut_addr tst_addr : sockaddr).
Context (sock_type : rpc_socket_type) (two_power multi_seg : bool).

(** The cleanup may begin: it knows the number to restore, or there is nothing
    to restore. *)
Definition cc_inv (L : cc_locals) (s : chan) : Prop :=
  (0 < cc_combined_init L -> cc_combined_init L = ch_init s) /\
  (cc_combined_init L <= 0 -> ch_now s = ch_init s).

(** ... while queues can be predicted. *)
Definition cc_ready (L : cc_locals) (s : chan) : Prop := usable (cc_ctx L) /\ cc_inv L s.

Lemma free_wp {A} (p : M A) s : only chan_free any_jump p ->
  wp world p s (fun r s' => s' = s /\ match r with Undef _ => False | _ => True end).
Proof.
  intros Ho. eapply wp_mono; [apply (wp_only chan_free any_jump world (fun s' => s' = s)); [exact Ho| |done]|].
  - intros X c s1 x s' Hc Hs Hw. by eapply free_keeps.
  - intros [a|j|w|] s' [H1 H2]; auto.
Qed.

Lemma st_chan_free {A B} (p : M A) (f : A -> T cc_locals B) L s G :
  only chan_free any_jump p -> cc_inv L s -> (forall a, wp world (f a L) s (upto cc_inv G)) ->
  wp world (mbind f (lift p) L) s (upto cc_inv G).
Proof.
  intros Ho HL Hf. apply st_call. eapply wp_mono; [by apply free_wp|]. intros [a|j|w|] s' [-> H]; auto.
Qed.

Lemma st_close_chan {B} r (f : unit -> T cc_locals B) get_s set_s L s G :
  (forall z, cc_combined_init (set_s z L) = cc_combined_init L) -> cc_inv L s ->
  wp world (f tt (set_s (-1) L)) s (upto cc_inv G) -> wp world (mbind f (close_forget r get_s set_s) L) s (upto cc_inv G).
Proof.
  intros Hs HL Hf. apply st_bind. unfold close_forget. apply st_gets. apply st_chan_free; [solve_only|done|].
  intros _. exact Hf.
Qed.

Lemma pick_free_ports_free : only chan_free any_jump (pick_free_ports iut tst).
Proof.
  unfold pick_free_ports. apply only_bind; [|intros [[]|ports]; done].
  apply only_for_n. intros i []. unfold free_ports_pass. solve_only.
Qed.

Lemma check_conn_keeps fuel v L s : cc_ready L s ->
  wp world (check_conn iut tst iut_addr tst_addr sock_type multi_seg fuel v L) s (upto cc_inv (fun _ => cc_ready)).
Proof.
  intros [Hu HL]. unfold check_conn. apply st_chan_free; [apply pick_free_ports_free|done|]. intros [p1 p2].
  apply st_chan_free; [solve_only|done|]. intros [s1 s2]. apply st_modify. apply (st_gets world _ _ (fun l => l)).
  set (L1 := cc_set_tst_s s2 _). assert (H1 : cc_ready L1 s) by done. clearbody L1. clear L Hu HL. destruct H1 as [Hu HL].
  apply st_call. unfold CHECK_OUT. wp_step. eapply wp_mono.
  { apply (predict_wp world (fun s' => s' = s)); [|exact Hu|done].
    intros X c s3 x s' Hc Hs Hw. eapply free_keeps; [by apply rss_free, before_read_rss|exact Hs|exact Hw]. }
  intros [[rc p]| | |] s' [-> H]; try done. cbn [bpost]. destruct (Z.eqb_spec rc 0) as [E|E]; [|done]. wp_step.
  destruct (H E) as [_ [q Hq]]; [done|]. rewrite Hq. cbn [deref]. apply st_chan_free; [done|done|]. intros q'.
  apply st_chan_free; [|done|].
  { apply only_bind; [|intros rc'; solve_only]. eapply only_mono; [apply rss_free|done|apply send_check_stats_only]. }
  intros _. apply st_close_chan; [done|done|]. apply st_bind. unfold close_forget.
  set (L2 := cc_set_iut_s (-1) L1). assert (H2 : cc_ready L2 s) by done. clearbody L2. destruct H2 as [Hu2 HL2].
  cbn [wp gets mret prog_ret upto]. apply st_chan_free; [solve_only|done|]. by intros _.
Qed.

Lemma check_table_keeps fuel v L s : cc_ready L s ->
  wp world (check_indir_table iut tst iut_addr tst_addr sock_type multi_seg fuel v L) s (upto cc_inv (fun _ => cc_ready)).
Proof. intros H. apply (st_for world cc_inv _ _ (fun _ => cc_ready)); [done|]. intros pre i post L' s' _ H'. by apply check_conn_keeps. Qed.

(** Nothing changes but values; no undefined behaviour. *)
Definition stays {A} (V : A -> Prop) (s : chan) (r : result A) (s' : chan) : Prop :=
  s' = s /\ match r with Val a => V a | Undef _ => False | _ => True end.

Lemma change_table_wp table size lo hi s : length table = Z.to_nat size ->
  wp world (change_indir_table iut iut_if table size lo hi) s (stays (fun _ => True) s).
Proof.
  intros Hl. unfold change_indir_table. wp_step.
  eapply (wp_for_n _ _ _ _ _ _ _ (fun _ _ s' => s' = s)); [done| |].
  - intros i [] s' Hi ->. unfold change_entry.
    destruct (lookup_lt_is_Some_2 table (Z.to_nat i)) as [old Hold]; [lia|]. rewrite Hold.
    wp_step. wp_step. cbn [bpost]. wp_step.
    eapply (wp_for_n _ _ _ _ _ _ _ (fun _ _ s' => s' = s)); [done| |].
    + intros j z s' _ ->. unfold new_rxq_pass. wp_step. apply wp_call. intros x s2 [_ ->]. cbn [bpost]. wp_step.
      destruct (negb _); [|destruct (lo =? hi)]; cbn [lpost bpost]; try done; unfold CHECK_RC; wp_go; done.
    + intros z s' ->. cbn [bpost]. unfold CHECK_RC. by wp_go.
  - intros [] s' ->. cbn [bpost]. by wp_go.
Qed.

Lemma read_table_wp size n s : n <> 0 ->
  wp world (read_table iut iut_if size n) s (stays (fun t => length t = Z.to_nat size) s).
Proof.
  intros Hn. unfold read_table. wp_step.
  eapply (wp_for_n _ _ _ _ _ _ _ (fun _ st s' => s' = s /\ length (fst st) = Z.to_nat size)).
  - split; [done|]. apply length_replicate.
  - intros i [t b] s' _ [-> Ht]. unfold table_pass, CHECK_OUT. rewrite (proj2 (Z.eqb_neq n 0)) by done.
    wp_go; cbn; by rewrite ?length_insert.
  - intros [t b] s' [-> Ht]. cbn [bpost]. by wp_step.
Qed.

Lemma pick_channels_wp hi init s :
  wp world (pick_channels two_power hi init) s (stays (fun n => 2 <= n /\ 0 < init) s).
Proof.
  unfold pick_channels. destruct (Z.ltb_spec init 1) as [Hi|Hi]; [done|].
  destruct ((hi <? 3) || (two_power && (hi <? 4))) eqn:Eg; [done|].
  assert (Hh : 2 <= hi) by (apply orb_false_elim in Eg as [E1 _]; lia).
  wp_step. eapply (wp_for_n _ _ _ _ _ _ _ (fun _ _ s' => s' = s)); [done| |by intros [] s' ->].
  intros i [] s' _ ->. unfold channels_pass. wp_step. apply wp_call. intros x s2 [Hx ->]. cbn [bpost upd].
  destruct (x =? init); [by wp_step|]. wp_step. cbn in Hx. specialize (Hx Hh).
  clear Eg. destruct (_ || _); cbn [lpost bpost]; [done|]. wp_step. split; [done|]. lia.
Qed.

Lemma try_change_wp table size init n s : length table = Z.to_nat size ->
  wp world (try_change_table iut iut_if table size init n) s (stays (fun _ => True) s).
Proof.
  intros Hl. unfold try_change_table. wp_step. eapply wp_mono; [by apply change_table_wp|].
  intros [rc| | |] s' [-> Hr]; try done. cbn [bpost]. destruct (negb _); [|done].
  unfold ERROR_VERDICT. wp_step. apply wp_call. intros [] s' [_ ->]. cbn [bpost].
  destruct (init <? n); [|done]. wp_step. eapply wp_mono; [by apply change_table_wp|].
  intros [rc'| | |] s' [-> Hr']; try done. cbn [bpost]. destruct (negb _); [done|]. unfold RING_VERDICT. by wp_go.
Qed.

(** A statement that stays. *)
Lemma st_stays {A B} (V : A -> Prop) (p : M A) (f : A -> T cc_locals B) L s G :
  wp world p s (stays V s) -> cc_inv L s -> (forall a, V a -> wp world (f a L) s (upto cc_inv G)) ->
  wp world (mbind f (lift p) L) s (upto cc_inv G).
Proof.
  intros Hp HL Hf. apply st_call. eapply wp_mono; [exact Hp|]. intros [a|j|w|] s' [-> H]; auto.
Qed.

Lemma channels_body_keeps fuel :
  tkeeps world (fun L s => L = cc_start /\ ch_now s = ch_init s) cc_inv
    (channels_body iut tst iut_if iut_addr tst_addr sock_type two_power multi_seg fuel).
Proof.
  intros L s [-> Hs]. unfold channels_body. apply st_bind. unfold zoom. wp_step. eapply wp_mono.
  { apply (ctx_prepare_wp world (fun s' => s' = s)); [| |done].
    - intros X c s3 x s' Hc Hs3 Hw. eapply free_keeps; [by apply rss_free, before_read_rss|exact Hs3|exact Hw].
    - intros ta' ifn c s3 x s' [H _]. exact H. }
  intros [[ctx r]| | |] s' [-> H]; try done. cbn [bpost]. wp_step.
  set (L1 := cc_set_ctx ctx _). assert (HI : cc_inv L1 s) by (split; [cbn; lia|done]).
  assert (Hi : cc_combined_init L1 <= 0) by (cbn; lia). destruct r as [[]|j]; cbn [upto]; [|done].
  assert (HU : usable (cc_ctx L1)) by exact H. clearbody L1. clear ctx H.
  apply st_chan_free; [solve_only|done|]. intros bpf. apply st_modify.
  set (L2 := cc_set_bpf_id bpf L1). assert (HI2 : cc_inv L2 s) by exact HI. assert (HU2 : usable (cc_ctx L2)) by exact HU.
  clearbody L2. clear L1 HI HU Hi.
  apply st_chan_free; [solve_only|done|]. intros _. apply st_chan_free; [solve_only|done|]. intros _.
  apply st_chan_free; [unfold keep_addr_on_down; solve_only|done|]. intros _.
  apply st_chan_free; [solve_only|done|]. intros cmax.
  apply (st_stays (fun n => n = ch_init s)); [|done|].
  { unfold CHECK_OUT. wp_step. apply wp_call. intros [rc x] s' [Hx ->]. cbn [bpost upd ok fst snd] in *.
    destruct (Z.eqb_spec rc 0) as [E|E]; [|done]. wp_step. split; [done|]. by rewrite (Hx E). }
  intros n ->. apply st_modify. set (L3 := cc_set_init _ L2).
  assert (HI3 : cc_inv L3 s) by (split; [done|by intros _]). assert (HU3 : usable (cc_ctx L3)) by exact HU2.
  assert (Hn3 : cc_combined_init L3 = ch_init s) by done. clearbody L3. clear L2 HI2 HU2.
  apply (st_stays _ _ _ _ _ _ (pick_channels_wp _ _ s)); [done|]. intros n [Hn Hpos].
  apply st_call. unfold CHECK_RC. wp_step. apply wp_call. intros rc s2 [Hok Hs2]. cbn [bpost upd] in *.
  assert (HI4 : cc_inv L3 s2 /\ ch_init s2 = ch_init s).
  { subst s2. destruct (rc =? 0); [|done]. split; [|done]. split; [by intros _|]. rewrite Hn3. cbn. lia. }
  destruct HI4 as [HI4 _]. clear Hs2 HI3 Hok. destruct (rc =? 0); [|exact HI4]. wp_step.
  apply st_chan_free; [solve_only|done|]. intros _. apply st_chan_free; [solve_only|done|]. intros _.
  apply st_chan_free; [solve_only|done|]. intros _. apply st_gets.
  eapply st_stays; [apply read_table_wp; lia|done|]. intros table Ht.
  apply st_bind. eapply wp_mono; [by apply check_table_keeps|]. intros [[L4 [[]|e]]| | |] s4 H4; try done.
  cbn [upto] in H4. destruct H4 as [HU4 HI5].
  eapply st_stays; [by apply try_change_wp|done|]. intros failed _.
  apply st_chan_free; [solve_only|done|]. intros _.
  apply st_bind. eapply wp_mono; [by apply check_table_keeps|]. intros [[L5 [[]|e]]| | |] s5 H5; try done.
  cbn [upto] in H5. destruct failed; cbn; apply H5.
Qed.

(** However the test of changing channels ends, the interface has the
    number of combined channels it had before, provided that the configurator
    accepts that number again; and the test meets no undefined behaviour. *)
Theorem change_channels_restores fuel n :
  wp world (channels_main iut tst iut_if iut_addr tst_addr sock_type two_power multi_seg fuel) (Chan n n)
    (fun r s => match r with Val _ => ch_now s = ch_init s | NoFuel => True | _ => False end).
Proof.
  unfold channels_main. eapply (test_main_keeps world _ cc_inv (fun s => ch_now s = ch_init s)); [|apply channels_body_keeps|]; [done|].
  intros L s HI. unfold channels_cleanup. do 3 (apply (wp_also world _ _ s (cc_inv L));
    [unfold cleanup_close, cleanup_rc; by wp_go|clear s HI; intros s HI]).
  apply (wp_also world _ _ s (cc_inv L)).
  { unfold net_drv_rss_ctx_release. cbn. intros x s' [_ ->]. exact HI. }
  clear s HI. intros s [H1 H2]. destruct (Z.ltb_spec 0 (cc_combined_init L)) as [Hi|Hi]; [|by apply H2].
  unfold cleanup_rc. do 2 wp_step. apply wp_call. intros rc s' [Hok ->]. cbn [bpost ok upd] in *.
  rewrite (Hok (H1 Hi)). cbn [Z.eqb]. wp_go. by apply H1.
Qed.
End restores.

Module ChannelsWitness.
Local Existing Instance te_ref.

(** Sixteen channels at most and eight now: the third number drawn will do. *)
Definition draw (i : nat) : Z := nth i [8; 12; 4] 2.

Lemma draw_range i : 2 <= 16 -> 2 <= draw i <= 16.
Proof. intros _. destruct i as [|[|[|[|i]]]]; cbn; lia. Qed.

Lemma pick_channels_correct_witness :
  (16 < 2 ^ 31) /\
  wp (drawing draw) (pick_channels true 16 8) 0%nat (fun r _ => match r with
    | Val n => exists i, n = draw i /\ candidate true 16 8 n
    | Exc (FAIL _) => ~ candidate true 16 8 (draw 2)
    | _ => False
    end).
Proof.
  split; [reflexivity|].
  destruct (pick_channels_correct true draw 16 8 ltac:(reflexivity) draw_range) as [H _].
  eapply wp_mono; [exact H|]. intros [n|[]| |] s Hr; try exact Hr.
  - destruct Hr as (_ & _ & i & _ & E & Hg & _). exists i. split; [exact E|exact Hg].
  - apply Hr. unfold MAX_ATTEMPTS. lia.
  - destruct Hr as [Hr|Hr]; [discriminate Hr|]. apply Hr. split; [discriminate|]. intros _ Hc. discriminate Hc.
Defined.

(** Four is one. *)
Lemma four_is_candidate : candidate true 16 8 (draw 2).
Proof. split; [done|]. split; [done|]. split; [done|]. intros _. by exists 2. Qed.
End ChannelsWitness.
