(* ===== verification/RxRules.v ===== *)
(** rss/rx_rules_full_part.c: two Rx rules, one of which omits the source or the
    destination. *)
From S2P Require Import Prelude Prog Te Bytes Locals NetDrvTs DataFlow CommonRss Resources RssPrologue RxCommon Holding Traffic RssTests RssTrace ChangeChannels.

(** What the cleanup uses.  The identifier of the BPF program is not initialised
    at the declaration. *)
Record fp_locals := FpLocals { fp_iut_s : Z; fp_tst_s : Z; fp_bpf_id : option Z; fp_ctx : net_drv_rss_ctx }.
Definition fp_start {TE : Te} : fp_locals := FpLocals (-1) (-1) None NET_DRV_RSS_CTX_INIT.
Definition fp_set_iut_s (s : Z) (l : fp_locals) : fp_locals := FpLocals s (fp_tst_s l) (fp_bpf_id l) (fp_ctx l).
Definition fp_set_tst_s (s : Z) (l : fp_locals) : fp_locals := FpLocals (fp_iut_s l) s (fp_bpf_id l) (fp_ctx l).
Definition fp_set_bpf_id (b : Z) (l : fp_locals) : fp_locals := FpLocals (fp_iut_s l) (fp_tst_s l) (Some b) (fp_ctx l).
Definition fp_set_ctx (c : net_drv_rss_ctx) (l : fp_locals) : fp_locals := FpLocals (fp_iut_s l) (fp_tst_s l) (fp_bpf_id l) c.

(** Which queues are known to the check of statistics: those of the two rules,
    and the one of the indirection table. *)
Record known_queues := KnownQueues { kq_first : Z; kq_second : Z; kq_default : Z }.

Section rules.
Context {TE : Te}.

(** A verdict on an entry that names a queue other than [exp_queue], and whether
    the verdict about other queues was given. *)
Definition unexpected_queue (kq : known_queues) (got_queue : Z) (vpref : string) (unknown_queue : bool) : M bool :=
  if got_queue =? kq_first kq then
    _ ← ERROR_VERDICT "%s: the queue assigned to the first rule received packets unexpectedly" [AS vpref];
    mret unknown_queue
  else if got_queue =? kq_second kq then
    _ ← ERROR_VERDICT "%s: the queue assigned to the second rule received packets unexpectedly" [AS vpref];
    mret unknown_queue
  else if got_queue =? kq_default kq then
    _ ← ERROR_VERDICT "%s: the queue defined by indirection table received packets unexpectedly" [AS vpref];
    mret unknown_queue
  else if negb unknown_queue then
    _ ← ERROR_VERDICT "%s: another Rx queue received packets unexpectedly" [AS vpref];
    mret true
  else mret unknown_queue.

(** One entry of the statistics; the state is [unknown_queue] and [*failed]. *)
Definition check_entry (kq : known_queues) (exp_queue : Z) (vpref : string) (st : rxq_stats)
    (s : bool * bool) : M (ctl (bool * bool) unit) :=
  let '(unknown_queue, failed) := s in
  if rx_pkts st =? 0 then mret (Continue s)
  else if negb (rx_queue st =? exp_queue) then
    u ← unexpected_queue kq (rx_queue st) vpref unknown_queue;
    mret (Continue (u, true))
  else mret (Continue s).

(** The value of [*failed] afterwards. *)
Definition check_free_stats (stats : list rxq_stats) (kq : known_queues) (exp_queue : Z) (failed : bool)
    (vpref : string) : M bool :=
  r ← foreach stats (false, failed) (check_entry kq exp_queue vpref);
  match r with
  | inl (_, failed) => mret failed
  | inr tt => mret failed (* the body does not return *)
  end.

(** [add_rule]. *)
Definition add_full_part_rule (ta ifn : string) (flow_type : Z) (src_addr dst_addr : sockaddr)
    (fill_src fill_dst : bool) (queue : Z) (rule_name : string) : M unit :=
  r ← net_drv_rx_rules_find_loc ta ifn;
  match r with
  | inl rc =>
      if rc =? TE_RC TE_CS TE_ENOENT then TEST_SKIP "Rx rules are not supported" []
      else TEST_VERDICT "Failed to find location for a new rule: %r" [AI rc]
  | inr location =>
      _ ← CHECK_RC (call (tapi_cfg_rx_rule_add ta ifn location flow_type));
      _ ← CHECK_RC (call (tapi_cfg_rx_rule_fill_ip_addrs_ports ta ifn location (sa_family src_addr)
                            (if fill_src then Some src_addr else None) None
                            (if fill_dst then Some dst_addr else None) None));
      _ ← CHECK_RC (call (tapi_cfg_rx_rule_rx_queue_set ta ifn location queue));
      rc ← call (tapi_cfg_rx_rule_commit ta ifn location);
      if negb (rc =? 0) then TEST_VERDICT "Failed to add %s Rx rule: %r" [AS rule_name; AI rc]
      else mret tt
  end.
End rules.

Section full_part.
Context {TE : Te} (le : bool).
Context (iut tst : rcf_rpc_server) (iut_if : string) (iut_addr tst_addr : sockaddr).
Context (sock_type : rpc_socket_type) (multi_seg first_partial partial_src : bool).
Local Abbreviation ta := (rpcs_ta iut).

(** Which of the addresses the rules have. *)
Definition first_src : bool := if first_partial then partial_src else true.
Definition first_dst : bool := if first_partial then negb partial_src else true.
Definition second_src : bool := if first_partial then true else partial_src.
Definition second_dst : bool := if first_partial then true else negb partial_src.

(** [te_sockaddr_get_port]: in network byte order. *)
Definition init_port : Z := htons le (sa_port (if partial_src then iut_addr else tst_addr)).

(** The addresses of the second connection with a new port, on the IUT then on
    the tester. *)
Definition new_addrs (new_port : Z) : sockaddr * sockaddr :=
  if partial_src then (set_port iut_addr (u16 new_port), tst_addr)
  else (iut_addr, set_port tst_addr (u16 new_port)).

Definition new_port_pass (ctx : net_drv_rss_ctx) (def_queue _ : Z) (_ : unit) : M (ctl unit Z) :=
  new_port ← call tapi_get_random_port;
  if new_port =? init_port then mret (Continue tt) else
  let '(new_iut_addr, new_tst_addr) := new_addrs new_port in
  p ← CHECK_OUT (net_drv_rss_predict ctx new_tst_addr new_iut_addr false false true);
  cur_queue ← deref (p_queue p);
  if cur_queue =? def_queue then
    free ← call (rpc_check_port_is_free (if partial_src then iut else tst) (u16 new_port));
    mret (if (free : bool) then Return new_port else Continue tt)
  else mret (Continue tt).

Definition pick_new_port (ctx : net_drv_rss_ctx) (def_queue : Z) : M Z :=
  r ← for_n (Z.to_nat MAX_ATTEMPTS) 0 tt (new_port_pass ctx def_queue);
  match r with
  | inr new_port => mret new_port
  | inl tt => TEST_FAIL "Failed to pick up a port for the second connection" []
  end.

Definition two_queues_pass (rx_queues def_queue _ : Z) (_ : unit) : M (ctl unit (Z * Z)) :=
  q1 ← call (rand_range 0 (s32 (rx_queues - 1)));
  q2 ← call (rand_range 0 (s32 (rx_queues - 1)));
  let queue1 := u32 q1 in
  let queue2 := u32 q2 in
  mret (if negb (queue1 =? queue2) && negb (queue1 =? def_queue) && negb (queue2 =? def_queue)
        then Return (queue1, queue2) else Continue tt).

Definition pick_two_queues (rx_queues def_queue : Z) : M (Z * Z) :=
  r ← for_n (Z.to_nat MAX_ATTEMPTS) 0 tt (two_queues_pass rx_queues def_queue);
  match r with
  | inr queues => mret queues
  | inl tt => TEST_FAIL "Failed to pick up queues for Rx rules" []
  end.

(** The sockets of a connection, in the locals. *)
Definition fp_connect (a1 a2 : sockaddr) : T fp_locals unit :=
  '(iut_s, tst_s) ← lift (CHECK_OUT (call (GEN_CONNECTION iut tst sock_type a1 a2)));
  modify (fun l => fp_set_tst_s tst_s (fp_set_iut_s iut_s l)).

(** [CHECK_RC (net_drv_rss_send_get_stats (...))] over the open sockets. *)
Definition fp_stats (fuel : nat) (a1 a2 : sockaddr) (bpf_id : Z) (vpref : string) : T fp_locals (list rxq_stats) :=
  l ← get;
  r ← lift (net_drv_rss_send_get_stats fuel tst (fp_tst_s l) (Some a2) iut (fp_iut_s l) (Some a1)
              sock_type bpf_id multi_seg vpref);
  match r with
  | inl rc => throw (RC_FAILED rc)
  | inr stats => mret stats
  end.

Definition set_no_linger : T fp_locals unit :=
  twhen (bool_decide (sock_type = RPC_SOCK_STREAM))
    (l ← get;
     _ ← lift (rpc_ok (rpc_setsockopt_linger iut (fp_iut_s l) 1 0));
     _ ← lift (rpc_ok (rpc_setsockopt_linger tst (fp_tst_s l) 1 0));
     mret tt).

(** What is chosen before the rules are added: the port of the second connection
    and the queues. *)
Definition full_part_setup : T fp_locals (Z * known_queues) :=
  _ ← zoom fp_ctx fp_set_ctx (net_drv_rss_ctx_prepare ta iut_if 0);
  ctx ← gets fp_ctx;
  _ ← twhen (rx_rx_queues ctx <? 3) (lift (TEST_SKIP "Less than 3 different Rx queues is available" []));
  bpf_id ← lift (CHECK_OUT (call (tapi_bpf_rxq_stats_get_id ta iut_if)));
  _ ← modify (fp_set_bpf_id bpf_id);
  p ← lift (CHECK_OUT (net_drv_rss_predict ctx tst_addr iut_addr false false true));
  def_queue ← lift (deref (p_queue p));
  new_port ← lift (pick_new_port ctx def_queue);
  '(queue1, queue2) ← lift (pick_two_queues (rx_rx_queues ctx) def_queue);
  mret (new_port, KnownQueues queue1 queue2 def_queue).

(** The two rules. *)
Definition add_two_rules (kq : known_queues) : M unit :=
  flow_type ← call (tapi_cfg_rx_rule_flow_by_socket (sa_family iut_addr) sock_type);
  _ ← add_full_part_rule ta iut_if flow_type tst_addr iut_addr first_src first_dst (kq_first kq) "the first";
  add_full_part_rule ta iut_if flow_type tst_addr iut_addr second_src second_dst (kq_second kq) "the second".

(** The queues of the full and of the partial rule. *)
Definition full_queue (kq : known_queues) : Z := if first_partial then kq_second kq else kq_first kq.
Definition partial_queue (kq : known_queues) : Z := if first_partial then kq_first kq else kq_second kq.

(** Data over both connections; the value is [test_failed]. *)
Definition full_part_traffic (fuel : nat) (bpf_id new_port : Z) (kq : known_queues) : T fp_locals bool :=
  _ ← fp_connect iut_addr tst_addr;
  _ ← set_no_linger;
  stats ← fp_stats fuel iut_addr tst_addr bpf_id "The first connection";
  failed ← lift (check_free_stats stats kq (full_queue kq) false "The first connection");
  _ ← close_forget iut fp_iut_s fp_set_iut_s;
  _ ← close_forget tst fp_tst_s fp_set_tst_s;
  let '(new_iut_addr, new_tst_addr) := new_addrs new_port in
  _ ← fp_connect new_iut_addr new_tst_addr;
  stats ← fp_stats fuel new_iut_addr new_tst_addr bpf_id "The second connection";
  lift (check_free_stats stats kq (partial_queue kq) failed "The second connection").

Definition full_part_body (fuel : nat) : T fp_locals unit :=
  '(new_port, kq) ← full_part_setup;
  _ ← lift (add_two_rules kq);
  bpf_id ← gets fp_bpf_id;
  bpf_id ← lift (deref bpf_id);
  test_failed ← full_part_traffic fuel bpf_id new_port kq;
  if (test_failed : bool) then throw STOP else mret tt.

Definition full_part_cleanup (l : fp_locals) : M bool :=
  also (cleanup_close iut (fp_iut_s l))
 (also (cleanup_close tst (fp_tst_s l))
 (also (_ ← net_drv_rss_ctx_release (fp_ctx l); mret true)
       (bpf_id ← deref (fp_bpf_id l);
        rc ← call (tapi_bpf_rxq_stats_reset ta bpf_id);
        mret ((rc =? TE_RC TE_CS TE_ENOENT) || (rc =? 0))))).

Definition rx_rules_full_part_main (fuel : nat) : M status := test_main fp_start (full_part_body fuel) full_part_cleanup.
End full_part.

(** ** The check of statistics *)

(** An entry that should not be there, and what is said of it. *)
Definition unexpected (exp_queue : Z) (e : rxq_stats) : bool := negb (rx_pkts e =? 0) && negb (rx_queue e =? exp_queue).
Definition whose_queue (kq : known_queues) (q : Z) : string :=
  if q =? kq_first kq then "%s: the queue assigned to the first rule received packets unexpectedly"
  else if q =? kq_second kq then "%s: the queue assigned to the second rule received packets unexpectedly"
  else if q =? kq_default kq then "%s: the queue defined by indirection table received packets unexpectedly"
  else "%s: another Rx queue received packets unexpectedly".
Definition is_known (kq : known_queues) (q : Z) : bool := (q =? kq_first kq) || (q =? kq_second kq) || (q =? kq_default kq).

(** The verdicts for a list of entries, [u]: one about another queue was given. *)
Fixpoint queue_verdicts (kq : known_queues) (exp_queue : Z) (u : bool) (stats : list rxq_stats) : list string :=
  match stats with
  | [] => []
  | e :: stats =>
      if unexpected exp_queue e && (is_known kq (rx_queue e) || negb u)
      then whose_queue kq (rx_queue e) :: queue_verdicts kq exp_queue (u || negb (is_known kq (rx_queue e))) stats
      else queue_verdicts kq exp_queue u stats
  end.

Section check.
Context {TE : Te} {S : Type} (E : env te_call S) (P : list string -> S -> Prop) (vpref : string).
Context (HE : forall fmt s x s' vs, P vs s -> E _ (verdict ERROR_V (Msg fmt [AS vpref])) s x s' -> P (vs ++ [fmt]) s').

Lemma check_free_stats_wp stats kq exp failed vs s : P vs s ->
  wp E (check_free_stats stats kq exp failed vpref) s (fun r s' => match r with
    | Val f => f = failed || existsb (unexpected exp) stats /\ P (vs ++ queue_verdicts kq exp false stats) s'
    | _ => False
    end).
Proof.
  intros Hs. unfold check_free_stats. wp_step.
  eapply (wp_foreach _ _ _ _ _ _ (fun pre post st s' => snd st = failed || existsb (unexpected exp) pre /\
    exists ws, ws ++ queue_verdicts kq exp (fst st) post = vs ++ queue_verdicts kq exp false stats /\ P ws s')).
  - split; [by rewrite orb_false_r|]. exists vs. done.
  - intros pre e post [u f] s1 -> (Hf & ws & Ew & Hp). cbn [fst snd] in *. unfold check_entry.
    cbn [queue_verdicts] in Ew. rewrite existsb_app. cbn [existsb]. unfold unexpected in Ew |- * at 2.
    destruct (Z.eqb_spec (rx_pkts e) 0) as [H0|H0]; cbn [negb andb] in *.
    { wp_step. cbn [lpost]. split; [|by exists ws]. cbn. by rewrite !orb_false_r. }
    destruct (Z.eqb_spec (rx_queue e) exp) as [H1|H1]; cbn [negb andb] in *.
    { wp_step. cbn [lpost]. split; [|by exists ws]. cbn. by rewrite !orb_false_r. }
    unfold unexpected_queue, ERROR_VERDICT. unfold is_known, whose_queue in Ew.
    destruct (_ =? kq_first kq) eqn:E1; [|destruct (_ =? kq_second kq) eqn:E2; [|destruct (_ =? kq_default kq) eqn:E3; [|destruct u]]].
    all: cbn [orb negb andb] in Ew; repeat first [wp_step | progress cbn [bpost lpost negb]].
    all: split; [by rewrite ?orb_true_r|].
    all: try (rewrite orb_false_r in Ew). all: try (exists ws; done).
    all: match goal with H : E _ _ _ _ _ |- _ => eexists; split; [rewrite <- Ew, cons_middle, app_assoc; reflexivity|exact (HE _ _ _ _ _ Hp H)] end.
  - intros [u f] s1 (Hf & ws & Ew & Hp). cbn [bpost]. wp_step. cbn [queue_verdicts fst snd] in *. rewrite app_nil_r in Ew. subst. done.
Qed.
End check.

(** ** What the test does *)
Section verified.
Context {TE : Te}.
Import RssTrace.
Context (n : nic) (Hsize : 0 < n_size n).
Context (le : bool).
Context (iut tst : rcf_rpc_server) (iut_if : string) (iut_addr tst_addr : sockaddr).
Context (sock_type : rpc_socket_type) (multi_seg first_partial partial_src : bool).
Local Abbreviation W := (world n).
Local Abbreviation rssq := (queue_of n (n_key n)).
Local Abbreviation addrs := (new_addrs iut_addr tst_addr partial_src).
Local Abbreviation port0 := (init_port le iut_addr tst_addr partial_src).

(** The full rule and the partial rule, with their queues. *)
Definition full_rule (q : Z) : rule := (Some tst_addr, Some iut_addr, q).
Definition partial_rule (q : Z) : rule :=
  (if partial_src then Some tst_addr else None, if partial_src then None else Some iut_addr, q).

(** Packets came, all of them through one queue. *)
Definition all_through (q : Z) (stats : list rxq_stats) : Prop :=
  got_pkts stats <> 0 /\ forall e, e ∈ stats -> rx_pkts e <> 0 -> rx_queue e = q.

(** A connection, and the statistics of what the tester sends over it. *)
Definition exchange (conn : sockaddr * sockaddr) (stats : list rxq_stats) : list event :=
  [Connected (fst conn) (snd conn); Received (Some (snd conn), Some (fst conn)) stats].

(** What a test that passed did and saw. *)
Definition verified (t : trace) : Prop := exists port qf qp stats1 stats2,
  qf <> qp /\ qf <> rssq (iut_addr, tst_addr) /\ qp <> rssq (iut_addr, tst_addr) /\
  port <> port0 /\ rssq (addrs port) = rssq (iut_addr, tst_addr) /\
  t_events t = map Committed (if first_partial then [partial_rule qp; full_rule qf] else [full_rule qf; partial_rule qp]) ++
    exchange (iut_addr, tst_addr) stats1 ++ exchange (addrs port) stats2 /\
  all_through qf stats1 /\ all_through qp stats2.

(** The locals know the identifier when it was read. *)
Definition fp_inv (L : fp_locals) (t : trace) : Prop := fp_bpf_id L = t_id t.

Lemma fp_inv_id L t t' : t_id t' = t_id t -> fp_inv L t -> fp_inv L t'.
Proof. unfold fp_inv. congruence. Qed.

(** The port that is chosen keeps the queue, and is not the number that is
    compared with it. *)
Lemma pick_new_port_wp ctx t : knows n (n_key n) ctx ->
  wp W (pick_new_port le iut tst iut_addr tst_addr partial_src ctx (rssq (iut_addr, tst_addr))) t
    (traced (fun port t' => t' = t /\ port <> port0 /\ rssq (addrs port) = rssq (iut_addr, tst_addr)) t).
Proof.
  intros Hc. unfold pick_new_port. wp_step.
  eapply (wp_for_n _ _ _ _ _ _ _ (fun _ _ t' => t' = t)); [done| |by intros [] t' ->].
  intros i [] t' _ ->. unfold new_port_pass. wp_step. apply wp_call. intros port t1 [_ ->]. cbn [bpost upd].
  destruct (Z.eqb_spec port port0) as [E|E]; [by wp_step|].
  destruct (addrs port) as [a1 a2] eqn:Ea. wp_step.
  eapply wp_mono; [by apply (predicted_queue n Hsize (n_key n))|]. intros [p|j|w|] t1 H; try done. cbn [bpost]. destruct H as [-> ->].
  cbn [deref]. wp_step. wp_step. cbn [bpost].
  destruct (Z.eqb_spec (rssq (a1, a2)) (rssq (iut_addr, tst_addr))) as [Eq|Eq]; [|by wp_step].
  wp_step. apply wp_call. intros free t1 [_ ->]. cbn [bpost]. destruct free; wp_step; cbn [lpost bpost]; [|done].
  wp_step. split; [done|]. split; [done|]. by rewrite Ea.
Qed.

Lemma pick_two_queues_wp k q0 t :
  wp W (pick_two_queues k q0) t (traced (fun '(q1, q2) t' => t' = t /\ q1 <> q2 /\ q1 <> q0 /\ q2 <> q0) t).
Proof.
  unfold pick_two_queues. wp_step.
  eapply (wp_for_n _ _ _ _ _ _ _ (fun _ _ t' => t' = t)); [done| |by intros [] t' ->].
  intros i [] t' _ ->. unfold two_queues_pass. do 2 (wp_step; apply wp_call; intros ? ? [_ ->]; cbn [bpost upd]).
  destruct (_ && _) eqn:Eq; wp_step; cbn [lpost bpost]; [|done]. wp_step. autorewrite with zbool in Eq.
  split; [done|]. lia.
Qed.

(** A rule is committed as it was asked for. *)
Lemma add_full_part_rule_wp flow (fs fd : bool) q name t :
  let r : rule := (if fs then Some tst_addr else None, if fd then Some iut_addr else None, q) in
  wp W (add_full_part_rule (rpcs_ta iut) iut_if flow tst_addr iut_addr fs fd q name) t
    (traced (fun _ t' => t' = log (Committed r) (set_draft r t)) t).
Proof.
  intros rl. unfold add_full_part_rule. wp_step. eapply wp_mono; [apply silent_wp; unfold net_drv_rx_rules_find_loc; solve_only|].
  intros [[rc|loc]|j|w|] t1 [-> H]; cbn [bpost]; try done.
  { destruct (_ =? _); unfold TEST_SKIP, TEST_VERDICT; by wp_step. }
  unfold CHECK_RC. repeat (wp_step; try (apply wp_call; intros ? ? [_ ->]; cbn [bpost upd]; unfold if_ok);
    try match goal with |- context [?x =? 0] => destruct (x =? 0) eqn:? end; cbn [bpost negb]); done.
Qed.

Lemma two_rules_wp kq t :
  wp W (add_two_rules iut iut_if iut_addr tst_addr sock_type first_partial partial_src kq) t (traced (fun _ t' =>
    t_id t' = t_id t /\ t_events t' = t_events t ++ map Committed
      (if first_partial then [partial_rule (partial_queue first_partial kq); full_rule (full_queue first_partial kq)]
       else [full_rule (full_queue first_partial kq); partial_rule (partial_queue first_partial kq)])) t).
Proof.
  unfold add_two_rules. wp_step. apply wp_call. intros flow t1 [_ ->]. cbn [bpost upd]. wp_step.
  eapply wp_mono; [apply add_full_part_rule_wp|]. intros [[]|j|w|] t1 H; cbn [bpost traced] in *; try done. subst t1.
  eapply wp_mono; [apply add_full_part_rule_wp|]. intros [[]|j|w|] t1 H; cbn [traced] in *; try done. subst t1. cbn -[app].
  split; [done|]. rewrite <- app_assoc. unfold first_src, first_dst, second_src, second_dst, full_rule, partial_rule,
    full_queue, partial_queue. by destruct first_partial, partial_src.
Qed.

Lemma check_traced stats kq exp failed v t :
  wp W (check_free_stats stats kq exp failed v) t
    (traced (fun b t' => t' = t /\ b = failed || existsb (unexpected exp) stats) t).
Proof.
  eapply wp_mono.
  { apply (check_free_stats_wp W (fun _ t' => t' = t) v) with (vs := []); [|done]. by intros fmt t1 x t' _ -> [_ ->]. }
  intros [b|j|w|] t' H; try done. by destruct H as [-> ->].
Qed.

(** A connection is made, data is sent over it. *)
Lemma connect_wp {B} conn (f : unit -> T fp_locals B) L t G : fp_inv L t ->
  (forall L', fp_inv L' t -> wp W (f tt L') (log (Connected (fst conn) (snd conn)) t) (upto fp_inv G)) ->
  wp W (mbind f (fp_connect iut tst sock_type (fst conn) (snd conn)) L) t (upto fp_inv G).
Proof.
  intros HL Hf. apply st_bind. unfold fp_connect.
  apply (st_traced n fp_inv fp_inv_id _ _ _ _ _ _ (connect_traced n _ _ _ _ _ t) HL). intros [s1 s2] t' ->. by apply Hf.
Qed.

Lemma stats_wp {B} fuel conn id v (f : list rxq_stats -> T fp_locals B) L t G : fp_inv L t ->
  (forall stats, got_pkts stats <> 0 -> let flt := (Some (snd conn), Some (fst conn)) in
     wp W (f stats L) (log (Received flt stats) (RssTrace.set_filter flt t)) (upto fp_inv G)) ->
  wp W (mbind f (fp_stats iut tst sock_type multi_seg fuel (fst conn) (snd conn) id v) L) t (upto fp_inv G).
Proof.
  intros HL Hf. apply st_bind. unfold fp_stats. apply (st_gets W _ _ (fun l => l)).
  eapply (st_traced n fp_inv fp_inv_id); [apply send_get_stats_traced|done|].
  intros [rc|stats] t' H; [cbn; by eapply fp_inv_id|]. destruct H as [Hg ->]. by apply Hf.
Qed.

Lemma traffic_wp fuel id port kq L t : fp_inv L t ->
  wp W (full_part_traffic iut tst iut_addr tst_addr sock_type multi_seg first_partial partial_src fuel id port kq L) t
    (upto fp_inv (fun failed L' t' => fp_inv L' t' /\ t_id t' = t_id t /\ exists s1 s2,
       t_events t' = t_events t ++ exchange (iut_addr, tst_addr) s1 ++ exchange (addrs port) s2 /\
       got_pkts s1 <> 0 /\ got_pkts s2 <> 0 /\
       failed = existsb (unexpected (full_queue first_partial kq)) s1 || existsb (unexpected (partial_queue first_partial kq)) s2)).
Proof.
  intros HL. unfold full_part_traffic. apply (connect_wp (iut_addr, tst_addr)); [done|]. clear HL L. intros L HL.
  set (t1 := log _ t). assert (H1 : fp_inv L t1) by done.
  apply st_bind. apply (wp_mono _ _ _ (upto fp_inv (fun _ L' t' => fp_inv L' t' /\ t' = t1))).
  { unfold set_no_linger, twhen. destruct (bool_decide _); [|done]. apply (st_gets W _ _ (fun l => l)).
    do 2 (apply (st_silent n fp_inv fp_inv_id); [solve_only|done|]; intros _). done. }
  clear L HL H1. intros [[L [[]|j]]| | |] t2 H; try done. cbn [upto] in H. destruct H as [HL ->].
  apply (stats_wp fuel (iut_addr, tst_addr)); [done|]. intros s1 Hg1 flt1. set (t2 := log _ (RssTrace.set_filter flt1 t1)).
  eapply (st_traced n fp_inv fp_inv_id); [apply check_traced|done|]. intros b t' [-> ->].
  do 2 (apply (st_close_traced n fp_inv fp_inv_id); [done|]).
  set (L4 := fp_set_tst_s _ _). assert (H4 : fp_inv L4 t2) by exact HL. clearbody L4. clear HL L.
  change (addrs port) with (addrs port). rewrite (surjective_pairing (addrs port)).
  apply (connect_wp (addrs port)); [done|]. clear H4 L4. intros L HL. set (t3 := log _ t2).
  apply (stats_wp fuel (addrs port)); [done|]. intros s2 Hg2 flt2. set (t4 := log _ (RssTrace.set_filter flt2 t3)).
  eapply (st_traced_last n fp_inv fp_inv_id); [apply check_traced|done|]. intros b t' [-> ->].
  split; [done|]. split; [done|]. exists s1, s2. cbn -[app]. split; [|done]. rewrite <- !app_assoc. by destruct (addrs port).
Qed.

Lemma all_through_intro q stats : got_pkts stats <> 0 -> existsb (unexpected q) stats = false -> all_through q stats.
Proof.
  intros Hg Hf. split; [done|]. intros e He Hp. destruct (decide (rx_queue e = q)) as [|Hq]; [done|].
  enough (existsb (unexpected q) stats = true) by congruence. apply existsb_exists. exists e.
  split; [by apply list_elem_of_In|]. unfold unexpected. apply andb_true_intro. split; apply negb_true_iff; lia.
Qed.

Lemma full_part_body_wp fuel :
  wp W (full_part_body le iut tst iut_if iut_addr tst_addr sock_type multi_seg first_partial partial_src fuel fp_start) nothing
    (upto fp_inv (fun _ L t => fp_inv L t /\ verified t)).
Proof.
  unfold full_part_body. apply st_bind. unfold full_part_setup.
  apply (st_prepare n); [done|]. intros ctx Hc. apply st_gets. cbn [fp_ctx fp_set_ctx].
  apply st_bind. unfold twhen. destruct (rx_rx_queues ctx <? 3); [done|]. cbn [wp mret prog_ret T_ret upto].
  apply (st_get_id n); [done|]. intros id. apply st_modify.
  set (L1 := fp_set_bpf_id id _). set (t1 := set_id id nothing).
  assert (H1 : fp_inv L1 t1) by done. assert (Hid : t_id t1 = Some id) by done.
  assert (Ht1 : t_events t1 = []) by done. clearbody L1 t1.
  eapply (st_traced n fp_inv fp_inv_id); [by apply (predicted_queue n Hsize (n_key n))|done|]. intros p t' [-> ->].
  apply (st_ret W). eapply (st_traced n fp_inv fp_inv_id); [by apply pick_new_port_wp|done|]. intros port t' (-> & Hp0 & Hpq).
  eapply (st_traced n fp_inv fp_inv_id); [apply pick_two_queues_wp|done|]. intros [q1 q2] t' (-> & Hq & Hq1 & Hq2).
  cbn [wp mret prog_ret T_ret upto]. eapply (st_traced n fp_inv fp_inv_id); [apply two_rules_wp|done|].
  intros [] t2 [Hi2 He2]. assert (HL2 : fp_inv L1 t2) by (by eapply fp_inv_id). rewrite Ht1 in He2.
  apply st_gets. rewrite HL2, Hi2, Hid. apply (st_ret W). clear H1.
  apply st_bind. eapply wp_mono; [by apply traffic_wp|]. intros [[L3 [failed|j]]| | |] t3 H; try done.
  cbn [upto] in *. destruct H as (H3 & Hi3 & s1 & s2 & He3 & Hg1 & Hg2 & ->). rewrite He2 in He3.
  destruct (existsb _ s1) eqn:E1; [done|]. destruct (existsb _ s2) eqn:E2; [done|]. cbn [orb wp mret prog_ret T_ret upto].
  split; [done|]. set (kq := KnownQueues q1 q2 (rssq (iut_addr, tst_addr))) in *.
  exists port, (full_queue first_partial kq), (partial_queue first_partial kq), s1, s2.
  repeat (split; [first [done | unfold full_queue, partial_queue; by destruct first_partial]|]).
  split; by apply all_through_intro.
Qed.

(** C32. When the test passes, it has committed the two rules it is about, for two
    queues that RSS would not choose, then made two connections that RSS maps to
    the same queue; the packets of the first one came through the queue of the
    full rule, those of the second one through that of the partial rule.  It has
    undefined behaviour exactly when it is left before the identifier of the BPF
    program is read, as it is when it is skipped: its cleanup uses the
    identifier. *)
Theorem full_part_correct fuel :
  wp W (rx_rules_full_part_main le iut tst iut_if iut_addr tst_addr sock_type multi_seg first_partial partial_src fuel) nothing
    (fun r t => match r with
     | Val st => t_id t <> None /\ (st = Passed -> verified t)
     | Undef _ => t_id t = None
     | NoFuel => True
     | Exc _ => False
     end).
Proof.
  unfold rx_rules_full_part_main, test_main. wp_step. eapply wp_mono; [apply full_part_body_wp|].
  intros [[L r]| | |] t H; try done. cbn [bpost].
  assert (HL : fp_inv L t /\ (r = inl tt -> verified t)) by (destruct r as [[]|j]; cbn [upto] in H; [by destruct H|done]).
  clear H. destruct HL as [HL Hv]. unfold full_part_cleanup, also, net_drv_rss_ctx_release.
  do 2 wp_step. apply (silent_returns_wp n); [unfold cleanup_close; solve_only|unfold cleanup_close; solve_returns|]. intros b1.
  do 2 wp_step. wp_step. apply (silent_returns_wp n); [unfold cleanup_close; solve_only|unfold cleanup_close; solve_returns|]. intros b2.
  do 2 wp_step. wp_step. cbn. intros x1 t' [_ ->]. cbn [upd]. rewrite HL. destruct (t_id t) as [id|] eqn:Eid; cbn [deref]; [|done].
  cbn. intros x2 t' [_ ->]. cbn. rewrite Eid. split; [done|]. intros Ep. apply Hv.
  destruct r as [[]|j]; [done|]. discriminate Ep.
Qed.

(** The port of the address is compared in network byte order with a port that
    was drawn in host byte order: on an engine where the two differ, the port of
    the address itself is accepted for the second connection, which then matches
    the full rule. *)
Definition lucky (port : Z) : env te_call trace := watch_if (fun X c t x => ok n X c t x /\
  match c in te_call X return X -> Prop with
  | tapi_get_random_port => fun x => x = port
  | rpc_check_port_is_free _ _ => fun x => x = true
  | te_toeplitz_hash_sa _ _ _ _ => fun x => fst x = 0
  | tapi_cfg_if_rss_indir_get _ _ _ _ => fun x => fst x = 0
  | _ => fun _ => True
  end x) upd.

Lemma own_port_taken ctx i t : knows n (n_key n) ctx ->
  let port := sa_port (if partial_src then iut_addr else tst_addr) in
  0 <= port < 2 ^ 16 -> port <> htons le port ->
  addrs port = (iut_addr, tst_addr) /\
  wp (lucky port) (new_port_pass le iut tst iut_addr tst_addr partial_src ctx (rssq (iut_addr, tst_addr)) i tt) t
    (fun r t' => r = Val (Return port) /\ t' = t).
Proof.
  intros Hc port Hr Hne. assert (Ha : addrs port = (iut_addr, tst_addr)).
  { unfold new_addrs, set_port, port in *. destruct partial_src; rewrite (Z.mod_small _ (2 ^ 16) Hr : u16 _ = _).
    - by destruct iut_addr.
    - by destruct tst_addr. }
  split; [done|]. unfold new_port_pass. wp_step. apply wp_call. intros p t1 [[_ ->] ->]. cbn [bpost upd].
  unfold init_port. fold port. rewrite (proj2 (Z.eqb_neq port _)) by done. rewrite Ha.
  unfold net_drv_rss_predict, CHECK_OUT. destruct Hc as (-> & -> & -> & _).
  wp_step. wp_step. wp_step. apply wp_call. intros [rc h] t1 [[E1 E2] ->]. cbn [ok fst snd bpost upd] in *.
  subst rc. rewrite (E1 eq_refl). cbn [Z.eqb negb andb]. rewrite (proj2 (Z.eqb_neq (n_size n) 0)) by lia.
  wp_step. apply wp_call. intros [rc q] t1 [[E3 E4] ->]. cbn [ok fst snd bpost upd] in *. subst rc. rewrite (E3 eq_refl).
  cbn [Z.eqb negb]. do 2 wp_step. cbn [bpost Z.eqb]. wp_step. wp_step. cbn [p_queue deref]. wp_step. wp_step. cbn [bpost].
  unfold queue_of, entry_of. cbn [fst snd]. rewrite Z.eqb_refl. wp_step. apply wp_call. intros f t1 [[_ ->] ->]. done.
Qed.
End verified.

Module RxRulesWitness.
Local Existing Instance te_ref.
Import RssTrace.

(** A NIC with four queues. *)
Definition four : nic := Nic [1; 2; 3] 0 128 4 (fun i => i mod 4) (fun _ => []) (fun _ a b _ => sa_port a + sa_port b).

Lemma full_part_correct_witness :
  0 < n_size four /\
  wp (world four)
    (rx_rules_full_part_main true (RPCS "iut" "A") (RPCS "tst" "B") "eth0" (SA 2 [10; 0; 0; 1] 5000) (SA 2 [10; 0; 0; 2] 6000)
       RPC_SOCK_DGRAM false true false 10) nothing
    (fun r t => match r with
     | Val Passed => length (t_events t) = 6%nat
     | Undef _ => t_id t = None
     | _ => True
     end).
Proof.
  split; [reflexivity|].
  eapply wp_mono; [exact (full_part_correct four eq_refl
    true (RPCS "iut" "A") (RPCS "tst" "B") "eth0" (SA 2 [10; 0; 0; 1] 5000) (SA 2 [10; 0; 0; 2] 6000) RPC_SOCK_DGRAM false true false 10)|].
  intros [[| |]| | |] t H; try done. destruct H as [_ H]. destruct (H eq_refl) as (p & qf & qp & s1 & s2 & Hv).
  destruct Hv as (_ & _ & _ & _ & _ & E & _). rewrite E. reflexivity.
Defined.
End RxRulesWitness.
