(* ===== verification/HashKey.v ===== *)
(** rss/indir_table_set.c, rss/hash_key_set.c and rss/hash_key_get.c: the tests of
    the RSS indirection table and of the RSS hash key. *)
From S2P Require Import Prelude Prog Te Locals NetDrvTs DataFlow CommonRss Resources RssPrologue RxCommon Holding Traffic RssTests RssTrace ChangeChannels.

(** What the cleanups of the three tests use. *)
Record hk_locals := HkLocals { hk_iut_s : Z; hk_tst_s : Z; hk_bpf_id : Z; hk_ctx : net_drv_rss_ctx }.
Definition hk_start {TE : Te} : hk_locals := HkLocals (-1) (-1) 0 NET_DRV_RSS_CTX_INIT.
Definition hk_set_iut_s (s : Z) (l : hk_locals) : hk_locals := HkLocals s (hk_tst_s l) (hk_bpf_id l) (hk_ctx l).
Definition hk_set_tst_s (s : Z) (l : hk_locals) : hk_locals := HkLocals (hk_iut_s l) s (hk_bpf_id l) (hk_ctx l).
Definition hk_set_bpf_id (b : Z) (l : hk_locals) : hk_locals := HkLocals (hk_iut_s l) (hk_tst_s l) b (hk_ctx l).
Definition hk_set_ctx (c : net_drv_rss_ctx) (l : hk_locals) : hk_locals := HkLocals (hk_iut_s l) (hk_tst_s l) (hk_bpf_id l) c.

Section tests.
Context {TE : Te}.
Context (iut tst : rcf_rpc_server) (iut_if : string) (iut_addr tst_addr : sockaddr).
Context (sock_type : rpc_socket_type) (multi_seg : bool).
Local Abbreviation ta := (rpcs_ta iut).

(** [GEN_CONNECTION] into the locals. *)
Definition hk_connect (a1 a2 : sockaddr) : T hk_locals unit :=
  '(iut_s, tst_s) ← lift (CHECK_OUT (call (GEN_CONNECTION iut tst sock_type a1 a2)));
  modify (fun l => hk_set_tst_s tst_s (hk_set_iut_s iut_s l)).

(** The identifier of the BPF program, with the filter of its statistics set to
    the connection of the test. *)
Definition hk_get_id : T hk_locals unit :=
  bpf_id ← lift (CHECK_OUT (call (tapi_bpf_rxq_stats_get_id ta iut_if)));
  modify (hk_set_bpf_id bpf_id).

Definition hk_filter : T hk_locals unit :=
  id ← gets hk_bpf_id;
  lift (CHECK_RC (call (tapi_bpf_rxq_stats_set_params ta id (sa_family iut_addr) (Some tst_addr) (Some iut_addr)
                          (bool_decide (sock_type = RPC_SOCK_DGRAM)) true))).

(** [net_drv_rss_send_check_stats] over the open sockets. *)
Definition hk_send_check (fuel : nat) (a1 a2 : option sockaddr) (queue : Z) (vpref : string) : T hk_locals te_errno :=
  l ← get;
  lift (net_drv_rss_send_check_stats fuel tst (hk_tst_s l) a2 iut (hk_iut_s l) a1 sock_type queue (hk_bpf_id l)
          multi_seg vpref).

Definition hk_check_rc (p : T (C := te_call) hk_locals te_errno) : T hk_locals unit :=
  rc ← p; if rc =? 0 then mret tt else throw (RC_FAILED rc).

(** [CHECK_RC (net_drv_rss_predict (...))] with pointers for the entry and the
    queue. *)
Definition hk_predict (a1 a2 : sockaddr) : T hk_locals (Z * Z) :=
  ctx ← gets hk_ctx;
  p ← lift (CHECK_OUT (net_drv_rss_predict ctx a2 a1 true true true));
  idx ← lift (deref (p_idx p));
  queue ← lift (deref (p_queue p));
  mret (idx, queue).

Definition hk_cleanup (l : hk_locals) : M bool :=
  also (cleanup_close iut (hk_iut_s l))
 (also (cleanup_close tst (hk_tst_s l))
 (also (cleanup_rc (call (tapi_bpf_rxq_stats_reset ta (hk_bpf_id l))))
       (_ ← net_drv_rss_ctx_release (hk_ctx l); mret true))).

(** *** rss/indir_table_set.c *)

(** Changing the entry; the value is the new queue. *)
Definition change_queue (ctx : net_drv_rss_ctx) (idx cur_queue : Z) : M Z :=
  if rx_rx_queues ctx =? 0 then undef "division by zero" else
  let new_queue := u32 (cur_queue + 1) mod rx_rx_queues ctx in
  _ ← CHECK_RC (call (tapi_cfg_if_rss_indir_set_local ta iut_if 0 idx new_queue));
  _ ← CHECK_RC (call (tapi_cfg_if_rss_hash_indir_commit ta iut_if 0));
  mret new_queue.

Definition indir_table_set_body (fuel : nat) : T hk_locals unit :=
  _ ← zoom hk_ctx hk_set_ctx (net_drv_rss_ctx_prepare ta iut_if 0);
  _ ← lift (CHECK_RC (call (tapi_cfg_if_rss_print_indir_table ta iut_if 0)));
  _ ← hk_connect iut_addr tst_addr;
  '(idx, cur_queue) ← hk_predict iut_addr tst_addr;
  _ ← hk_get_id;
  _ ← hk_filter;
  rc ← hk_send_check fuel None None cur_queue "Before indirection table change";
  let test_failed := negb (rc =? 0) in
  ctx ← gets hk_ctx;
  new_queue ← lift (change_queue ctx idx cur_queue);
  _ ← hk_check_rc (hk_send_check fuel None None new_queue "After indirection table change");
  if (test_failed : bool) then throw STOP else mret tt.

Definition indir_table_set_main (fuel : nat) : M status := test_main hk_start (indir_table_set_body fuel) hk_cleanup.

(** *** rss/hash_key_set.c *)

(** A new key, byte by byte. *)
Definition key_byte (_ : Z) (key : list Z) : M (ctl (list Z) unit) :=
  b ← call (rand_range 0 255);
  mret (Continue (key ++ [u8 b])).

Definition random_key (key_len : Z) : M (list Z) :=
  r ← for_n (Z.to_nat key_len) 0 [] key_byte;
  match r with
  | inl key => mret key
  | inr tt => mret [] (* the body does not return *)
  end.

(** An attempt to find a key that changes the queue. *)
Definition new_key_pass (init_queue : Z) : T hk_locals (option (list Z * Z)) :=
  key_len ← gets (fun l => rx_key_len (hk_ctx l));
  new_key ← lift (random_key key_len);
  rc ← zoom hk_ctx hk_set_ctx (net_drv_rss_ctx_change_key new_key key_len);
  if negb (rc =? 0) then throw (RC_FAILED rc) else
  '(_, new_queue) ← hk_predict iut_addr tst_addr;
  mret (if negb (new_queue =? init_queue) then Some (new_key, new_queue) else None).

Definition hash_key_set_body (fuel : nat) : T hk_locals unit :=
  _ ← zoom hk_ctx hk_set_ctx (net_drv_rss_ctx_prepare ta iut_if 0);
  _ ← lift (CHECK_RC (call (tapi_cfg_if_rss_print_indir_table ta iut_if 0)));
  '(_, init_queue) ← hk_predict iut_addr tst_addr;
  _ ← hk_connect iut_addr tst_addr;
  _ ← hk_get_id;
  _ ← hk_filter;
  rc ← hk_send_check fuel None None init_queue "Before hash key change";
  let test_failed := negb (rc =? 0) in
  r ← t_search (Z.to_nat MAX_ATTEMPTS) (new_key_pass init_queue);
  match r with
  | None => lift (TEST_FAIL "Failed to find a new hash resulting in Rx queue change" [])
  | Some (new_key, new_queue) =>
      _ ← lift (CHECK_RC (call (tapi_cfg_if_rss_hash_key_set_local ta iut_if 0 new_key)));
      _ ← lift (CHECK_RC (call (tapi_cfg_if_rss_hash_indir_commit ta iut_if 0)));
      _ ← hk_check_rc (hk_send_check fuel None None new_queue "After hash key change");
      if (test_failed : bool) then throw STOP else mret tt
  end.

Definition hash_key_set_main (fuel : nat) : M status := test_main hk_start (hash_key_set_body fuel) hk_cleanup.

(** *** rss/hash_key_get.c *)

Definition MAX_CHANGE_PORT_ATTEMPTS : Z := 100000.

(** An attempt to find ports for an entry of the table; the state is the
    addresses and the entry of the last one. *)
Definition ports_for_pass (ctx : net_drv_rss_ctx) (j _ : Z) (_ : option (sockaddr * sockaddr * Z))
    : M (ctl (option (sockaddr * sockaddr * Z)) unit) :=
  p1 ← call tapi_get_random_port;
  p2 ← call tapi_get_random_port;
  let iut_port := u16 p1 in
  let tst_port := u16 p2 in
  let new_iut_addr := set_port iut_addr iut_port in
  let new_tst_addr := set_port tst_addr tst_port in
  p ← CHECK_OUT (net_drv_rss_predict ctx new_tst_addr new_iut_addr true true false);
  idx ← deref (p_idx p);
  let st := Some (new_iut_addr, new_tst_addr, idx) in
  if idx =? j then
    free1 ← call (rpc_check_port_is_free iut iut_port);
    if (free1 : bool) then
      free2 ← call (rpc_check_port_is_free tst tst_port);
      mret (if (free2 : bool) then Break st else Continue st)
    else mret (Continue st)
  else mret (Continue st).

(** The addresses the loop is left with, when their entry is the one wanted. *)
Definition ports_for (attempts : nat) (ctx : net_drv_rss_ctx) (j : Z) : M (sockaddr * sockaddr) :=
  r ← for_n attempts 0 None (ports_for_pass ctx j);
  match r with
  | inl (Some (a1, a2, idx)) =>
      if negb (idx =? j) then
        TEST_FAIL "Could not choose free ports on IUT and Tester such that RSS hash points to indirection table entry %u" [AI j]
      else mret (a1, a2)
  | _ => undef "uninitialised entry"
  end.

Definition entry_check (fuel : nat) (j : Z) : T hk_locals unit :=
  indir ← lift (CHECK_OUT (call (tapi_cfg_if_rss_indir_get ta iut_if 0 j)));
  ctx ← gets hk_ctx;
  '(new_iut_addr, new_tst_addr) ← lift (ports_for (Z.to_nat MAX_CHANGE_PORT_ATTEMPTS) ctx j);
  _ ← hk_connect new_iut_addr new_tst_addr;
  _ ← hk_check_rc (hk_send_check fuel (Some new_iut_addr) (Some new_tst_addr) (u32 indir) "");
  _ ← close_forget iut hk_iut_s hk_set_iut_s;
  close_forget tst hk_tst_s hk_set_tst_s.

Definition hash_key_get_body (fuel : nat) : T hk_locals unit :=
  _ ← zoom hk_ctx hk_set_ctx (net_drv_rss_ctx_prepare ta iut_if 0);
  _ ← hk_get_id;
  _ ← lift (CHECK_RC (call (tapi_cfg_if_rss_print_indir_table ta iut_if 0)));
  size ← gets (fun l => rx_indir_table_size (hk_ctx l));
  t_for (seqZ 0 size) (entry_check fuel).

Definition hash_key_get_main (fuel : nat) : M status := test_main hk_start (hash_key_get_body fuel) hk_cleanup.
End tests.

(** ** What the tests do *)
Section tested.
Context {TE : Te}.
Import RssTrace.
Context (n : nic) (Hsize : 0 < n_size n).
Context (iut tst : rcf_rpc_server) (iut_if : string) (iut_addr tst_addr : sockaddr).
Context (sock_type : rpc_socket_type) (multi_seg : bool).
Local Abbreviation W := (world n).
Local Abbreviation key0 := (n_key n).
Local Abbreviation conn := (iut_addr, tst_addr).

(** The filter of the packets the tester sends over a connection. *)
Definition filter_of (c : sockaddr * sockaddr) : flt := (Some (snd c), Some (fst c)).

Definition anyhow (_ : hk_locals) (_ : trace) : Prop := True.

Lemma anyhow_id L t t' : t_id t' = t_id t -> anyhow L t -> anyhow L t'.
Proof. done. Qed.

Local Abbreviation st_step := (st_traced n anyhow anyhow_id).

Lemma st_hk_predict {B} key c (f : Z * Z -> T hk_locals B) L t G :
  knows n key (hk_ctx L) ->
  wp W (f (entry_of n key c, queue_of n key c) L) t (upto anyhow G) ->
  wp W (mbind f (hk_predict (fst c) (snd c)) L) t (upto anyhow G).
Proof.
  intros Hk Hf. apply st_bind. unfold hk_predict. apply st_gets. apply st_call. unfold CHECK_OUT. wp_step.
  eapply wp_mono; [by eapply predict_traced|]. intros [[rc p]| | |] t' [-> H]; try done. cbn [bpost].
  destruct (Z.eqb_spec rc 0) as [E|E]; [|done]. wp_step. destruct (H E) as [H1 H2]. rewrite (H1 eq_refl), (H2 eq_refl).
  cbn [deref]. apply (st_ret W), (st_ret W). destruct c. exact Hf.
Qed.

Lemma st_hk_connect {B} c (f : unit -> T hk_locals B) L t G :
  (forall L', hk_ctx L' = hk_ctx L -> wp W (f tt L') (log (Connected (fst c) (snd c)) t) (upto anyhow G)) ->
  wp W (mbind f (hk_connect iut tst sock_type (fst c) (snd c)) L) t (upto anyhow G).
Proof.
  intros Hf. apply st_bind. unfold hk_connect. apply (st_step _ _ _ _ _ _ (connect_traced n _ _ _ _ _ t)); [done|].
  intros [s1 s2] t' ->. by apply Hf.
Qed.

Lemma st_hk_id_filter {B} (f : unit -> T hk_locals B) L t G :
  (forall L' t', hk_ctx L' = hk_ctx L -> t_events t' = t_events t -> t_filter t' = filter_of conn ->
     wp W (f tt L') t' (upto anyhow G)) ->
  wp W (mbind (fun _ => mbind f (hk_filter iut iut_addr tst_addr sock_type)) (hk_get_id iut iut_if) L) t (upto anyhow G).
Proof.
  intros Hf. apply st_bind. unfold hk_get_id. apply (st_get_id n); [done|]. intros id.
  cbn [wp modify mret prog_ret T_ret upto]. apply st_bind. unfold hk_filter. apply st_gets.
  eapply (st_traced_last n anyhow anyhow_id); [|done|].
  - unfold CHECK_RC. wp_step. apply wp_call. intros rc t' [_ ->]. cbn [bpost upd]. unfold if_ok.
    destruct (rc =? 0) eqn:E; [|done]. wp_step. instantiate (1 := fun _ t' => t_events t' = t_events t /\ t_filter t' = filter_of conn). done.
  - intros [] t' [H1 H2]. by apply Hf.
Qed.

(** Data is sent; when the status is zero, it came through the queue. *)
Definition sent (flt : flt) (q : Z) (L : hk_locals) (t : trace) (rc : te_errno) (L' : hk_locals) (t' : trace) : Prop :=
  L' = L /\ if rc =? 0 then t_filter t' = flt /\ t_events t' = t_events t ++ [Through flt q] else t_events t' = t_events t.

Lemma send_check_wp fuel a1 a2 q v L t :
  wp W (hk_send_check iut tst sock_type multi_seg fuel a1 a2 q v L) t
    (upto anyhow (sent (sending_filter a2 a1 t) q L t)).
Proof.
  unfold hk_send_check. apply (st_gets W _ _ (fun l => l)).
  eapply (st_traced_last n anyhow anyhow_id); [apply send_check_stats_traced|done|]. intros rc t' [_ H].
  split; [done|]. destruct (rc =? 0); [by subst|done].
Qed.

Lemma st_sent {A B} (V : A -> hk_locals -> trace -> Prop) p (f : A -> T hk_locals B) L t G :
  wp W (p L) t (upto anyhow V) -> (forall rc L' t', V rc L' t' -> wp W (f rc L') t' (upto anyhow G)) ->
  wp W (mbind f p L) t (upto anyhow G).
Proof.
  intros Hp Hf. apply st_bind. eapply wp_mono; [exact Hp|]. intros [[L1 [a|j]]| | |] t1 H; cbn [upto] in *; auto.
Qed.

Lemma st_check_rc {B} (V : te_errno -> hk_locals -> trace -> Prop) p (f : unit -> T hk_locals B) L t G :
  wp W (p L) t (upto anyhow V) -> (forall L' t', V 0 L' t' -> wp W (f tt L') t' (upto anyhow G)) ->
  wp W (mbind f (hk_check_rc p) L) t (upto anyhow G).
Proof.
  intros Hp Hf. apply st_bind. unfold hk_check_rc. eapply st_sent; [exact Hp|]. intros rc L' t' H.
  destruct (Z.eqb_spec rc 0) as [->|E]; [|done]. by apply Hf.
Qed.

(** Their cleanups end, and change nothing that was recorded. *)
Lemma hk_cleanup_wp L t (Q : result bool -> trace -> Prop) : (forall ok, Q (Val ok) t) ->
  wp W (hk_cleanup iut tst L) t Q.
Proof.
  intros HQ. unfold hk_cleanup. apply (silent_returns_wp n); [| |done].
  - unfold also, cleanup_close, cleanup_rc, net_drv_rss_ctx_release. solve_only.
  - unfold also, cleanup_close, cleanup_rc, net_drv_rss_ctx_release. solve_returns.
Qed.

Lemma hk_main_wp body t (P : trace -> Prop) :
  wp W (body hk_start) t (upto anyhow (fun _ _ => P)) ->
  wp W (test_main hk_start body (hk_cleanup iut tst)) t (fun r t' => match r with
    | Val Passed => P t' | Val _ => True | NoFuel => True | _ => False end).
Proof.
  intros Hb. unfold test_main. wp_step. eapply wp_mono; [exact Hb|]. intros [[L r]| | |] t' H; try done. cbn [bpost].
  wp_step. apply hk_cleanup_wp. intros ok. cbn [bpost]. wp_step. destruct r as [[]|j]; cbn [upto] in H; [|done]. by destruct ok.
Qed.

Lemma change_queue_wp ctx i q t : knows n key0 ctx -> u32 (n_queues n) <> 0 ->
  wp W (change_queue iut iut_if ctx i q) t (traced (fun q' t' => q' = u32 (q + 1) mod u32 (n_queues n) /\
    t_filter t' = t_filter t /\ t_events t' = t_events t ++ [IndirSet i q'; IndirCommitted]) t).
Proof.
  intros (_ & _ & _ & Hq & _) Hn. unfold change_queue. rewrite Hq, (proj2 (Z.eqb_neq _ 0)) by done.
  do 2 (wp_step; eapply wp_mono; [by apply check_rc_traced|]; intros [[]|j|w|] t' H; try done; cbn [bpost traced] in *; subst t').
  wp_step. split; [done|]. split; [done|]. cbn. by rewrite <- app_assoc.
Qed.

(** What passing means for the test of the indirection table: packets of the
    connection came through the queue of its entry, the entry got the next
    queue, and they came through that one.  It is a different queue, when there
    are two. *)
Definition entry_changed (events : list event) : Prop :=
  let q := queue_of n key0 conn in
  let q' := u32 (q + 1) mod u32 (n_queues n) in
  events = [Connected iut_addr tst_addr; Through (filter_of conn) q; IndirSet (entry_of n key0 conn) q'; IndirCommitted;
            Through (filter_of conn) q'] /\
  (2 <= u32 (n_queues n) -> q < u32 (n_queues n) -> q' <> q).

Lemma next_queue q m : 0 <= q < m -> 2 <= m < 2 ^ 32 -> u32 (q + 1) mod m <> q.
Proof.
  intros Hq Hm. rewrite u32_id by lia. destruct (decide (q + 1 = m)) as [<-|]; [rewrite Z.mod_same; lia|rewrite Z.mod_small; lia].
Qed.

(** When the test of the indirection table passes, packets of a connection came
    through the queue of its entry, the entry alone was changed, and packets then
    came through the new queue, another one when there are at least two. *)
Theorem indir_table_set_correct fuel : u32 (n_queues n) <> 0 ->
  wp W (indir_table_set_main iut tst iut_if iut_addr tst_addr sock_type multi_seg fuel) nothing
    (fun r t => match r with Val Passed => entry_changed (t_events t) | Val _ => True | NoFuel => True | _ => False end).
Proof.
  intros Hn. apply (hk_main_wp _ _ (fun t => entry_changed (t_events t))). unfold indir_table_set_body.
  apply (st_prepare n); [done|]. intros ctx Hc. set (L := hk_set_ctx ctx hk_start). assert (HL : hk_ctx L = ctx) by done. clearbody L.
  apply (st_silent n anyhow anyhow_id); [solve_only|done|]. intros _.
  apply (st_hk_connect conn). intros L1 H1. rewrite HL in H1. clear L HL.
  apply (st_hk_predict key0 conn); [by rewrite H1|]. apply st_hk_id_filter. intros L2 t2 H2 He2 Hf2. rewrite H1 in H2. clear L1 H1.
  eapply st_sent; [apply send_check_wp|]. intros rc L3 t3 [-> H3]. cbn [sending_filter] in H3. rewrite Hf2, He2 in H3.
  apply st_gets. rewrite H2. eapply st_step; [by apply change_queue_wp|done|]. intros q' t4 (-> & Hf4 & He4).
  eapply st_check_rc; [apply send_check_wp|]. intros L5 t5 [-> H5]. cbn [sending_filter Z.eqb] in H5. rewrite Hf4, He4 in H5.
  destruct (rc =? 0); [|done]. destruct H3 as [Hf3 He3]. rewrite Hf3, He3 in H5. cbn. split; [by apply H5|].
  intros H6 H7. apply next_queue; [|split; [done|apply u32_range]]. split; [apply u32_range|done].
Qed.

(** *** The hash key *)

Lemma random_key_wp k t : 0 <= k ->
  wp W (random_key k) t (fun r t' => t' = t /\ match r with
    | Val key => Z.of_nat (length key) = k /\ Forall (fun b => 0 <= b < 256) key | _ => False end).
Proof.
  intros Hk. unfold random_key. wp_step.
  eapply (wp_for_n _ _ _ _ _ _ _ (fun i key t' => t' = t /\ Z.of_nat (length key) = i /\ Forall (fun b => 0 <= b < 256) key)).
  - done.
  - intros i key t' Hi (-> & Hl & Hb). unfold key_byte. wp_step. apply wp_call. intros b t1 [_ ->]. cbn [bpost]. wp_step.
    cbn [lpost upd]. split; [done|]. rewrite length_app. cbn. split; [lia|]. apply Forall_app. split; [done|].
    constructor; [|done]. apply Z.mod_pos_bound. lia.
  - intros key t' (-> & Hl & Hb). cbn [bpost]. wp_step. split; [done|]. split; [lia|done].
Qed.

(** The context changes its key for one of the same length. *)
Lemma change_key_wp key key' ctx t : knows n key ctx ->
  wp W (net_drv_rss_ctx_change_key key' (Z.of_nat (length key')) ctx) t (fun r t' => t' = t /\ match r with
    | Val (ctx', inl rc) => rc = 0 -> knows n key' ctx'
    | _ => False end).
Proof.
  intros (Hc & Hs & Hv & Hq & Hk & Hl). unfold net_drv_rss_ctx_change_key. rewrite Nat2Z.id, take_ge by done.
  apply wp_T. repeat (twp_go; try match goal with |- twp _ (match ?x with _ => _ end) _ _ _ => destruct x end); cbn [ok upd] in *; (split; [done|]); try done; intros Hz; try (exfalso; revert Hz; apply te_code_nonzero; te_elem).
  match goal with H : forall c, Some _ = Some c -> _ |- _ => specialize (H _ eq_refl) end. subst. by repeat split.
Qed.

(** The key that is found leads to another queue. *)
Definition new_key (q0 : Z) (kq : list Z * Z) : Prop :=
  length (fst kq) = length key0 /\ Forall (fun b => 0 <= b < 256) (fst kq) /\
  snd kq = queue_of n (fst kq) conn /\ snd kq <> q0.

Lemma new_key_pass_wp q0 L t : (exists key, knows n key (hk_ctx L) /\ length key = length key0) ->
  wp W (new_key_pass iut_addr tst_addr q0 L) t (upto anyhow (fun r L' t' => t' = t /\ match r with
    | Some kq => new_key q0 kq
    | None => exists key, knows n key (hk_ctx L') /\ length key = length key0 end)).
Proof.
  intros (key & Hk & Hl). unfold new_key_pass. apply st_gets.
  pose proof Hk as (_ & _ & _ & _ & _ & ->). rewrite Hl. apply st_call. eapply wp_mono; [apply random_key_wp; lia|].
  intros [key'| | |] t' [-> H]; try done. destruct H as [Hl' Hb]. apply st_bind. unfold zoom. wp_step.
  rewrite <- Hl'. eapply wp_mono; [by eapply change_key_wp|]. intros [[ctx [rc|j]]| | |] t' [-> H]; try done.
  cbn [bpost]. wp_step. cbn [upto]. destruct (Z.eqb_spec rc 0) as [E|E]; cbn [negb]; [|done]. specialize (H E).
  apply (st_hk_predict key' conn); [done|]. cbn [wp mret prog_ret T_ret upto]. split; [done|].
  destruct (Z.eqb_spec (queue_of n key' conn) q0) as [Eq|Eq]; cbn [negb].
  - exists key'. split; [done|]. lia.
  - split; [cbn; lia|]. done.
Qed.

(** What passing means for the test of setting the hash key. *)
Definition key_changed (events : list event) : Prop := exists key,
  length key = length key0 /\ Forall (fun b => 0 <= b < 256) key /\
  queue_of n key conn <> queue_of n key0 conn /\
  events = [Connected iut_addr tst_addr; Through (filter_of conn) (queue_of n key0 conn); KeySet key; IndirCommitted;
            Through (filter_of conn) (queue_of n key conn)].

(** When the test of setting the key passes, a key of the same length was
    committed under which the connection has another queue, and its packets came
    through the queue of the old key before, of the new one after. *)
Theorem hash_key_set_correct fuel :
  wp W (hash_key_set_main iut tst iut_if iut_addr tst_addr sock_type multi_seg fuel) nothing
    (fun r t => match r with Val Passed => key_changed (t_events t) | Val _ => True | NoFuel => True | _ => False end).
Proof.
  apply (hk_main_wp _ _ (fun t => key_changed (t_events t))). unfold hash_key_set_body.
  apply (st_prepare n); [done|]. intros ctx Hc. set (L := hk_set_ctx ctx hk_start). assert (HL : hk_ctx L = ctx) by done. clearbody L.
  apply (st_silent n anyhow anyhow_id); [solve_only|done|]. intros _. apply (st_hk_predict key0 conn); [by rewrite HL|].
  apply (st_hk_connect conn). intros L1 H1. rewrite HL in H1. clear L HL.
  apply st_hk_id_filter. intros L2 t2 H2 He2 Hf2. rewrite H1 in H2. clear L1 H1.
  eapply st_sent; [apply send_check_wp|]. intros rc L3 t3 [-> H3]. cbn [sending_filter] in H3. rewrite Hf2, He2 in H3.
  eapply st_sent.
  { apply (st_search W anyhow _ _ (fun L' t' => t' = t3 /\ exists key, knows n key (hk_ctx L') /\ length key = length key0)
      (fun kq _ t' => t' = t3 /\ new_key (queue_of n key0 conn) kq)).
    - split; [done|]. exists key0. by rewrite H2.
    - intros L' t' [-> Hk]. eapply wp_mono; [by apply new_key_pass_wp|].
      intros [[L'' [[kq|]|j]]| | |] t' H; try done; by destruct H as [-> H]. }
  intros [[key q]|] L4 t4 H4; [|done]. destruct H4 as [-> (Hl & Hb & Eq & Hq)]. cbn [fst snd] in *. subst q.
  eapply st_step; [by apply check_rc_traced|done|]. intros _ t5 ->.
  eapply st_step; [by apply check_rc_traced|done|]. intros _ t6 ->. cbn [upd if_ok Z.eqb].
  eapply st_check_rc; [apply send_check_wp|]. intros L5 t5 [-> H5]. cbn in H5.
  destruct (rc =? 0); [|done]. destruct H3 as [Hf3 He3]. rewrite Hf3, He3 in H5. destruct H5 as [_ H5]. cbn.
  exists key. split; [done|]. split; [done|]. split; [done|]. exact H5.
Qed.

(** *** Reading the key: every entry of the table *)

(** The addresses have the entry that is wanted. *)
Lemma ports_for_wp k ctx j t : (0 < k)%nat -> knows n key0 ctx ->
  wp W (ports_for iut tst iut_addr tst_addr k ctx j) t (traced (fun c t' => t' = t /\ entry_of n key0 c = j) t).
Proof.
  intros Hk Hc. unfold ports_for. wp_step.
  eapply (wp_for_n _ _ _ _ _ _ _ (fun i st t' => t' = t /\ match st with
    | Some (a1, a2, idx) => idx = entry_of n key0 (a1, a2) | None => i = 0 end)).
  - done.
  - intros i st t' Hi [-> _]. unfold ports_for_pass. do 2 (wp_step; apply wp_call; intros ? ? [_ ->]; cbn [bpost upd]).
    wp_step. unfold CHECK_OUT. wp_step. eapply wp_mono; [by eapply (predict_traced n Hsize key0)|].
    intros [[rc p]| | |] t1 [-> H]; try done. cbn [bpost]. destruct (Z.eqb_spec rc 0) as [E|E]; [|done]. wp_step. wp_step.
    destruct (H E) as [Hi' _]. rewrite (Hi' eq_refl). cbn [deref]. do 2 wp_step. cbn [bpost].
    match goal with |- context [?e =? j] => destruct (e =? j) eqn:Ej end; [|by wp_step].
    wp_step. apply wp_call. intros f1 t1 [_ ->]. cbn [bpost]. destruct f1; [|by wp_step].
    wp_step. apply wp_call. intros f2 t1 [_ ->]. cbn [bpost upd]. destruct f2; wp_step; [|done]. cbn [lpost bpost].
    rewrite Ej. cbn [negb]. wp_step. split; [done|]. lia.
  - intros [[[a1 a2] idx]|] t' [-> H]; cbn [bpost]; [|lia].
    destruct (Z.eqb_spec idx j) as [E|E]; cbn [negb]; [|done]. wp_step. split; [done|]. congruence.
Qed.

(** A connection over which packets came through its queue. *)
Definition checked (c : sockaddr * sockaddr) : list event :=
  [Connected (fst c) (snd c); Through (filter_of c) (queue_of n key0 c)].

Lemma entry_check_wp fuel j L t : knows n key0 (hk_ctx L) ->
  wp W (entry_check iut tst iut_if iut_addr tst_addr sock_type multi_seg fuel j L) t
    (upto anyhow (fun _ L' t' => hk_ctx L' = hk_ctx L /\ exists c, entry_of n key0 c = j /\ t_events t' = t_events t ++ checked c)).
Proof.
  intros Hk. unfold entry_check. eapply st_step.
  { unfold CHECK_OUT. wp_step. apply wp_call. intros [rc q] t' [Hq ->]. cbn [bpost ok upd fst snd] in *.
    destruct (Z.eqb_spec rc 0) as [E|E]; [|done]. wp_step. instantiate (1 := fun q t' => t' = t /\ q = n_table n j). split; auto. }
  { done. }
  intros q t' [-> ->]. apply st_gets. eapply st_step; [apply (ports_for_wp _ _ j); [unfold MAX_CHANGE_PORT_ATTEMPTS; lia|done]|done|].
  intros [a1 a2] t' [-> Hj]. apply (st_hk_connect (a1, a2)). intros L1 H1. cbn [fst snd].
  eapply st_check_rc; [apply send_check_wp|]. intros L2 t2 [-> [_ H2]]. cbn [sending_filter] in H2.
  apply (st_close_traced n anyhow anyhow_id); [done|]. unfold close_forget. apply st_gets.
  apply (st_silent n anyhow anyhow_id); [solve_only|done|]. intros _. cbn [wp modify mret prog_ret T_ret upto].
  split; [done|]. exists (a1, a2). split; [done|]. rewrite H2. cbn -[queue_of]. rewrite <- app_assoc. by rewrite <- Hj.
Qed.

(** What passing means for the test of reading the key: for each entry of the
    indirection table, in turn, a connection whose hash has that entry was made,
    and its packets came through the queue of the entry. *)
Definition entries_checked (events : list event) : Prop := exists conns,
  map (entry_of n key0) conns = seqZ 0 (n_size n) /\ events = flat_map checked conns.

(** C35. When the test of reading the hash key passes, it has made, for each
    entry of the indirection table in turn, a connection whose Toeplitz hash
    under the key that was read has that entry, and the packets of the
    connection came through the queue the table has there. *)
Theorem hash_key_get_correct fuel :
  wp W (hash_key_get_main iut tst iut_if iut_addr tst_addr sock_type multi_seg fuel) nothing
    (fun r t => match r with Val Passed => entries_checked (t_events t) | Val _ => True | NoFuel => True | _ => False end).
Proof.
  apply (hk_main_wp _ _ (fun t => entries_checked (t_events t))). unfold hash_key_get_body.
  apply (st_prepare n); [done|]. intros ctx Hc. set (L := hk_set_ctx ctx hk_start). assert (HL : hk_ctx L = ctx) by done. clearbody L.
  apply st_bind. unfold hk_get_id. apply (st_get_id n); [done|]. intros id. cbn [wp modify mret prog_ret T_ret upto].
  apply (st_silent n anyhow anyhow_id); [solve_only|done|]. intros _. apply st_gets. cbn [hk_ctx hk_set_bpf_id]. rewrite HL.
  pose proof Hc as (_ & -> & _).
  eapply wp_mono.
  { apply (st_for W anyhow _ _ (fun pre L' t' => hk_ctx L' = ctx /\ exists conns,
      map (entry_of n key0) conns = pre /\ t_events t' = flat_map checked conns)).
    - split; [exact HL|]. by exists [].
    - intros pre j post L' t' _ (HL' & conns & Hm & He). eapply wp_mono; [apply entry_check_wp; by rewrite HL'|].
      intros [[L'' [[]|e]]| | |] t'' H; try done. destruct H as (H & c & Hj & He'). split; [congruence|].
      exists (conns ++ [c]). rewrite map_app, flat_map_app, Hm, He', He. cbn. rewrite Hj, ?app_nil_r. done. }
  intros [[L' [[]|e]]| | |] t' H; try done. destruct H as (_ & conns & Hm & He). exists conns. done.
Qed.

(** The loop that looks for free ports is only found to have failed when the
    last ports have another entry: when they have the right one and are in use,
    the test goes on with them. *)
Definition busy : env te_call trace := watch_if (fun X c t x => ok n X c t x /\
  match c in te_call X return X -> Prop with
  | rpc_check_port_is_free _ _ => fun x => x = false
  | te_toeplitz_hash_sa _ _ _ _ => fun x => fst x = 0
  | _ => fun _ => True
  end x) upd.

Lemma busy_ports_taken k ctx j t : (0 < k)%nat -> knows n key0 ctx -> (forall c, entry_of n key0 c = j) ->
  wp busy (ports_for iut tst iut_addr tst_addr k ctx j) t (fun r _ => exists c, r = Val c).
Proof.
  intros Hk (Hc & Hs & Hv & _) Hj. unfold ports_for. wp_step.
  eapply (wp_for_n _ _ _ _ _ _ _ (fun i st _ => match st with Some (_, _, idx) => idx = j | None => i = 0 end)).
  - done.
  - intros i st t' Hi _. unfold ports_for_pass. do 2 (wp_step; apply wp_call; intros ? ? [_ ->]; cbn [bpost upd]).
    wp_step. unfold CHECK_OUT, net_drv_rss_predict. rewrite Hc, Hs, Hv, (proj2 (Z.eqb_neq (n_size n) 0)) by lia.
    wp_step. wp_step. apply wp_call. intros [rc h] t1 [[E1 E2] ->]. cbn [ok fst snd bpost upd] in *. subst rc.
    rewrite (E1 eq_refl). cbn [Z.eqb negb andb]. wp_step. cbn [bpost Z.eqb]. wp_step. wp_step. cbn [p_idx deref]. do 2 wp_step. cbn [bpost].
    match goal with |- context [?e =? j] => assert (e = j) as -> by exact (Hj (_, _)) end. rewrite Z.eqb_refl.
    wp_step. apply wp_call. intros f t1 [[_ ->] ->]. by cbn.
  - intros [[[a1 a2] idx]|] t' H; cbn [bpost]; [|lia]. subst idx. rewrite Z.eqb_refl. cbn [negb]. wp_step. by eexists.
Qed.
End tested.

Module HashKeyWitness.
Local Existing Instance te_ref.
Import RssTrace.

(** Four queues, 128 entries; the hash depends on the ports and on the key. *)
Definition four : nic := Nic [1; 2; 3] 0 128 4 (fun i => i mod 4) (fun key => key)
  (fun key a b _ => sa_port a + sa_port b + nth 0 key 0).

Lemma indir_table_set_correct_witness :
  (0 < n_size four) /\ (u32 (n_queues four) <> 0) /\
  wp (world four) (indir_table_set_main (RPCS "iut" "A") (RPCS "tst" "B") "eth0" (SA 2 [10; 0; 0; 1] 5000)
    (SA 2 [10; 0; 0; 2] 6000) RPC_SOCK_STREAM false 10) nothing
    (fun r t => match r with Val Passed => IndirSet 121 2 ∈ t_events t | Val _ => True | NoFuel => True | _ => False end).
Proof.
  split; [reflexivity|]. split; [discriminate|].
  eapply wp_mono; [apply (indir_table_set_correct four eq_refl); discriminate|].
  intros [[| |]| | |] t H; try exact H. destruct H as [-> _]. cbn. do 2 right. left.
Defined.

Lemma hash_key_set_correct_witness :
  (0 < n_size four) /\
  wp (world four) (hash_key_set_main (RPCS "iut" "A") (RPCS "tst" "B") "eth0" (SA 2 [10; 0; 0; 1] 5000)
    (SA 2 [10; 0; 0; 2] 6000) RPC_SOCK_STREAM false 10) nothing
    (fun r t => match r with Val Passed => length (t_events t) = 5%nat | Val _ => True | NoFuel => True | _ => False end).
Proof.
  split; [reflexivity|].
  eapply wp_mono; [apply (hash_key_set_correct four eq_refl)|].
  intros [[| |]| | |] t H; try exact H. destruct H as (key & _ & _ & _ & ->). reflexivity.
Defined.

Lemma hash_key_get_correct_witness :
  (0 < n_size four) /\
  wp (world four) (hash_key_get_main (RPCS "iut" "A") (RPCS "tst" "B") "eth0" (SA 2 [10; 0; 0; 1] 5000)
    (SA 2 [10; 0; 0; 2] 6000) RPC_SOCK_STREAM false 10) nothing
    (fun r t => match r with Val Passed => t_events t <> [] | Val _ => True | NoFuel => True | _ => False end).
Proof.
  split; [reflexivity|].
  eapply wp_mono; [apply (hash_key_get_correct four eq_refl)|].
  intros [[| |]| | |] t H; try exact H. destruct H as ([|c conns] & Hm & ->); [discriminate Hm|discriminate].
Defined.
End HashKeyWitness.
