(* ===== verification/RxRuleTests.v ===== *)
(** rss/rx_rule_tcp_udp.c: one Rx rule moves the packets of a connection to
    another queue; rss/too_many_rx_rules.c: rules are added until no more can be,
    several times. *)
From S2P Require Import Prelude Prog Te Bytes Locals NetDrvTs DataFlow CommonRss Resources RssPrologue RxCommon Holding Traffic RssTests RssTrace ChangeChannels RxRules HashKey.

(** What the cleanup of rx_rule_tcp_udp.c uses.  The identifier of the BPF program
    is not initialised at the declaration. *)
Record rr_locals := RrLocals {
  rr_iut_s1 : Z; rr_tst_s1 : Z; rr_iut_s2 : Z; rr_tst_s2 : Z; rr_bpf_id : option Z; rr_ctx : net_drv_rss_ctx }.
Definition rr_start {TE : Te} : rr_locals := RrLocals (-1) (-1) (-1) (-1) None NET_DRV_RSS_CTX_INIT.
Definition rr_set_first (s : Z * Z) (l : rr_locals) : rr_locals :=
  RrLocals (fst s) (snd s) (rr_iut_s2 l) (rr_tst_s2 l) (rr_bpf_id l) (rr_ctx l).
Definition rr_set_second (s : Z * Z) (l : rr_locals) : rr_locals :=
  RrLocals (rr_iut_s1 l) (rr_tst_s1 l) (fst s) (snd s) (rr_bpf_id l) (rr_ctx l).
Definition rr_set_bpf_id (b : Z) (l : rr_locals) : rr_locals :=
  RrLocals (rr_iut_s1 l) (rr_tst_s1 l) (rr_iut_s2 l) (rr_tst_s2 l) (Some b) (rr_ctx l).
Definition rr_set_ctx (c : net_drv_rss_ctx) (l : rr_locals) : rr_locals :=
  RrLocals (rr_iut_s1 l) (rr_tst_s1 l) (rr_iut_s2 l) (rr_tst_s2 l) (rr_bpf_id l) c.

Section rule_test.
Context {TE : Te} (le : bool).
Context (iut tst : rcf_rpc_server) (iut_if : string) (iut_addr tst_addr : sockaddr).
Context (sock_type : rpc_socket_type) (multi_seg match_src match_dst : bool).
Local Abbreviation ta := (rpcs_ta iut).

(** The location of the rule: the one that was asked for, or a specific one when
    that is zero. *)
Definition rule_location (location : Z) : M Z :=
  table_size ← net_drv_rx_rules_check_table_size ta iut_if;
  if negb (location =? 0) then
    _ ← net_drv_rx_rules_check_spec_loc ta iut_if; mret location
  else CHECK_OUT (call (tapi_cfg_rx_rule_find_location ta iut_if 0 table_size)).

(** Ports of the second connection; those of the first one are in network byte
    order. *)
Definition two_ports_pass (ctx : net_drv_rss_ctx) (init_queue _ : Z) (_ : unit) : M (ctl unit (sockaddr * sockaddr)) :=
  p1 ← call tapi_get_random_port;
  p2 ← call tapi_get_random_port;
  let new_iut_port := u16 p1 in
  let new_tst_port := u16 p2 in
  if (new_iut_port =? htons le (sa_port iut_addr)) || (new_tst_port =? htons le (sa_port tst_addr)) then
    mret (Continue tt)
  else
    let new_iut_addr := set_port iut_addr new_iut_port in
    let new_tst_addr := set_port tst_addr new_tst_port in
    p ← CHECK_OUT (net_drv_rss_predict ctx new_tst_addr new_iut_addr false false true);
    cur_queue ← deref (p_queue p);
    if cur_queue =? init_queue then
      free1 ← call (rpc_check_port_is_free iut new_iut_port);
      if (free1 : bool) then
        free2 ← call (rpc_check_port_is_free tst new_tst_port);
        mret (if (free2 : bool) then Return (new_iut_addr, new_tst_addr) else Continue tt)
      else mret (Continue tt)
    else mret (Continue tt).

Definition pick_two_ports (ctx : net_drv_rss_ctx) (init_queue : Z) : M (sockaddr * sockaddr) :=
  r ← for_n (Z.to_nat MAX_ATTEMPTS) 0 tt (two_ports_pass ctx init_queue);
  match r with
  | inr addrs => mret addrs
  | inl tt => TEST_FAIL "Cannot find ports for the second connection" []
  end.

Definition other_queue_pass (rx_queues init_queue _ : Z) (_ : unit) : M (ctl unit Z) :=
  q ← call (rand_range 0 (s32 (rx_queues - 1)));
  let new_queue := u32 q in
  mret (if negb (new_queue =? init_queue) then Return new_queue else Continue tt).

Definition pick_other_queue (rx_queues init_queue : Z) : M Z :=
  r ← for_n (Z.to_nat MAX_ATTEMPTS) 0 tt (other_queue_pass rx_queues init_queue);
  match r with
  | inr q => mret q
  | inl tt => TEST_FAIL "Cannot select new Rx queue" []
  end.

Definition add_the_rule (location new_queue : Z) : M unit :=
  flow_type ← call (tapi_cfg_rx_rule_flow_by_socket (sa_family iut_addr) sock_type);
  _ ← CHECK_RC (call (tapi_cfg_rx_rule_add ta iut_if location flow_type));
  _ ← CHECK_RC (call (tapi_cfg_rx_rule_fill_ip_addrs_ports ta iut_if location (sa_family iut_addr)
                        (if match_src then Some tst_addr else None) None
                        (if match_dst then Some iut_addr else None) None));
  _ ← CHECK_RC (call (tapi_cfg_rx_rule_rx_queue_set ta iut_if location new_queue));
  rc ← call (tapi_cfg_rx_rule_commit ta iut_if location);
  if negb (rc =? 0) then TEST_VERDICT "Failed to add Rx rule: %r" [AI rc] else mret tt.

(** [CHECK_RC (net_drv_rss_send_check_stats (...))] over an open connection. *)
Definition rr_check (fuel : nat) (get_s : rr_locals -> Z * Z) (a1 a2 : sockaddr) (queue : Z) (vpref : string)
    : T rr_locals unit :=
  l ← get;
  let '(iut_s, tst_s) := get_s l in
  bpf_id ← lift (deref (rr_bpf_id l));
  lift (CHECK_RC (net_drv_rss_send_check_stats fuel tst tst_s (Some a2) iut iut_s (Some a1) sock_type queue bpf_id
                    multi_seg vpref)).

Definition rr_first (l : rr_locals) : Z * Z := (rr_iut_s1 l, rr_tst_s1 l).
Definition rr_second (l : rr_locals) : Z * Z := (rr_iut_s2 l, rr_tst_s2 l).

Definition rr_connect (set_s : Z * Z -> rr_locals -> rr_locals) (a1 a2 : sockaddr) : T rr_locals unit :=
  s ← lift (CHECK_OUT (call (GEN_CONNECTION iut tst sock_type a1 a2)));
  modify (set_s s).

Definition rx_rule_body (fuel : nat) (location : Z) : T rr_locals unit :=
  location ← lift (rule_location location);
  _ ← zoom rr_ctx rr_set_ctx (net_drv_rss_ctx_prepare ta iut_if 0);
  bpf_id ← lift (CHECK_OUT (call (tapi_bpf_rxq_stats_get_id ta iut_if)));
  _ ← modify (rr_set_bpf_id bpf_id);
  _ ← rr_connect rr_set_first iut_addr tst_addr;
  ctx ← gets rr_ctx;
  p ← lift (CHECK_OUT (net_drv_rss_predict ctx tst_addr iut_addr false false true));
  init_queue ← lift (deref (p_queue p));
  '(new_iut_addr, new_tst_addr) ← lift (pick_two_ports ctx init_queue);
  _ ← rr_connect rr_set_second new_iut_addr new_tst_addr;
  _ ← rr_check fuel rr_first iut_addr tst_addr init_queue "Sending data via the first connection before adding a rule";
  _ ← rr_check fuel rr_second new_iut_addr new_tst_addr init_queue "Sending data via the second connection before adding a rule";
  new_queue ← lift (pick_other_queue (rx_rx_queues ctx) init_queue);
  _ ← lift (add_the_rule location new_queue);
  _ ← rr_check fuel rr_first iut_addr tst_addr new_queue "Sending data via the first connection after adding a rule";
  rr_check fuel rr_second new_iut_addr new_tst_addr init_queue "Sending data via the second connection after adding a rule".

Definition rx_rule_cleanup (l : rr_locals) : M bool :=
  also (cleanup_close iut (rr_iut_s1 l))
 (also (cleanup_close tst (rr_tst_s1 l))
 (also (cleanup_close iut (rr_iut_s2 l))
 (also (cleanup_close tst (rr_tst_s2 l))
       (if 0 <? rx_rx_queues (rr_ctx l) then
          bpf_id ← deref (rr_bpf_id l);
          also (cleanup_rc (call (tapi_bpf_rxq_stats_reset ta bpf_id)))
               (_ ← net_drv_rss_ctx_release (rr_ctx l); mret true)
        else mret true)))).

Definition rx_rule_tcp_udp_main (fuel : nat) (location : Z) : M status :=
  test_main rr_start (rx_rule_body fuel location) rx_rule_cleanup.
End rule_test.

(** *** rss/too_many_rx_rules.c *)
Definition TEST_TOO_MANY_RX_RULES_TIMEOUT : Z := 90000.

Record tm_locals := TmLocals { tl_iut_s : Z; tl_ctx : net_drv_rss_ctx }.
Definition tl_start {TE : Te} : tm_locals := TmLocals (-1) NET_DRV_RSS_CTX_INIT.
Definition tl_set_iut_s (s : Z) (l : tm_locals) : tm_locals := TmLocals s (tl_ctx l).
Definition tl_set_ctx (c : net_drv_rss_ctx) (l : tm_locals) : tm_locals := TmLocals (tl_iut_s l) c.

Section too_many.
Context {TE : Te}.
Context (iut : rcf_rpc_server) (iut_if : string) (iut_addr tst_addr : sockaddr) (sock_type : rpc_socket_type).
Local Abbreviation ta := (rpcs_ta iut).

Definition no_rules_yet : M unit :=
  rules ← CHECK_OUT (call (cfg_find_pattern ("/agent:" +:+ ta +:+ "/interface:" +:+ iut_if +:+ "/rx_rules:/rule:*")));
  match rules with [] => mret tt | _ => TEST_FAIL "Some Rx rules are already present on IUT" [] end.

Definition get_spec_loc : M bool :=
  '(rc, spec_loc) ← call (tapi_cfg_rx_rule_spec_loc_get ta iut_if);
  if negb (rc =? 0) then
    if rc =? TE_RC TE_CS TE_ENOENT then TEST_SKIP "Rx rules are not supported" []
    else TEST_VERDICT "Failed to check special location for a RX rules: %r" [AI rc]
  else mret spec_loc.

(** One iteration: the state is the number of rules added by the previous one,
    and whether the verdict was given. *)
Definition fill_pass (iut_s : Z) (spec_loc : bool) (rx_queues _ : Z) (st : Z * bool) : M (ctl (Z * bool) unit) :=
  let '(prev_rules_count, dec_count_verdict) := st in
  _ ← call (rpcs_set_timeout iut TEST_TOO_MANY_RX_RULES_TIMEOUT);
  '(rc, rules_count, err) ← call (rpc_net_drv_too_many_rx_rules iut iut_s iut_if tst_addr iut_addr sock_type spec_loc rx_queues);
  if rc <? 0 then TEST_VERDICT "rpc_net_drv_too_many_rx_rules() failed with error %r" [AI err]
  else if rules_count =? 0 then TEST_VERDICT "No Rx rules were added on IUT" []
  else
    let dec := (0 <? prev_rules_count) && (rules_count <? prev_rules_count) && negb dec_count_verdict in
    _ ← when dec (WARN_VERDICT "After filling and clearing rules table, less rules than before can be added to it" []);
    mret (Continue (rules_count, dec_count_verdict || dec)).

Definition fill_table (iters iut_s : Z) (spec_loc : bool) (rx_queues : Z) : M unit :=
  _ ← for_n (Z.to_nat iters) 0 (0, false) (fill_pass iut_s spec_loc rx_queues);
  mret tt.

Definition too_many_body (iters : Z) : T tm_locals unit :=
  _ ← lift no_rules_yet;
  iut_s ← lift (rpc_ok (rpc_create_and_bind_socket iut sock_type iut_addr));
  _ ← modify (tl_set_iut_s iut_s);
  _ ← zoom tl_ctx tl_set_ctx (net_drv_rss_ctx_prepare ta iut_if 0);
  spec_loc ← lift get_spec_loc;
  ctx ← gets tl_ctx;
  lift (fill_table iters iut_s spec_loc (rx_rx_queues ctx)).

Definition too_many_cleanup (l : tm_locals) : M bool :=
  also (_ ← net_drv_rss_ctx_release (tl_ctx l); mret true) (cleanup_close iut (tl_iut_s l)).

Definition too_many_rx_rules_main (iters : Z) : M status := test_main tl_start (too_many_body iters) too_many_cleanup.
End too_many.

(** ** The rule moves one connection *)
Section moved.
Context {TE : Te}.
Import RssTrace.
Context (n : nic) (Hsize : 0 < n_size n).
Context (le : bool).
Context (iut tst : rcf_rpc_server) (iut_if : string) (iut_addr tst_addr : sockaddr).
Context (sock_type : rpc_socket_type) (multi_seg match_src match_dst : bool).
Local Abbreviation W := (world n).
Local Abbreviation rssq := (queue_of n (n_key n)).
Local Abbreviation conn := (iut_addr, tst_addr).

Definition rr_inv (L : rr_locals) (t : trace) : Prop := rr_bpf_id L = t_id t.

Lemma rr_inv_id L t t' : t_id t' = t_id t -> rr_inv L t -> rr_inv L t'.
Proof. unfold rr_inv. congruence. Qed.

Local Abbreviation rr_step := (st_traced n rr_inv rr_inv_id).

(** The addresses found keep the queue. *)
Lemma pick_two_ports_wp ctx t : knows n (n_key n) ctx ->
  wp W (pick_two_ports le iut tst iut_addr tst_addr ctx (rssq conn)) t
    (traced (fun c t' => t' = t /\ rssq c = rssq conn) t).
Proof.
  intros Hc. unfold pick_two_ports. wp_step.
  eapply (wp_for_n _ _ _ _ _ _ _ (fun _ _ t' => t' = t)); [done| |by intros [] t' ->].
  intros i [] t' _ ->. unfold two_ports_pass. do 2 (wp_step; apply wp_call; intros ? ? [_ ->]; cbn [bpost upd]).
  destruct (_ || _); [by wp_step|]. wp_step. eapply wp_mono; [by apply (predicted_queue n Hsize (n_key n))|].
  intros [p|j|w|] t1 H; try done. cbn [bpost]. destruct H as [-> ->]. cbn [deref]. wp_step. wp_step. cbn [bpost].
  match goal with |- context [rssq ?c =? _] => destruct (Z.eqb_spec (rssq c) (rssq conn)) as [Eq|Eq] end; [|by wp_step].
  wp_step. apply wp_call. intros f1 t1 [_ ->]. cbn [bpost]. destruct f1; [|by wp_step].
  wp_step. apply wp_call. intros f2 t1 [_ ->]. cbn [bpost]. destruct f2; wp_step; cbn [lpost bpost]; [|done]. by wp_step.
Qed.

Lemma pick_other_queue_wp k q0 t :
  wp W (pick_other_queue k q0) t (traced (fun q t' => t' = t /\ q <> q0) t).
Proof.
  unfold pick_other_queue. wp_step.
  eapply (wp_for_n _ _ _ _ _ _ _ (fun _ _ t' => t' = t)); [done| |by intros [] t' ->].
  intros i [] t' _ ->. unfold other_queue_pass. wp_step. apply wp_call. intros q t1 [_ ->]. cbn [bpost upd].
  destruct (Z.eqb_spec (u32 q) q0); wp_step; cbn [lpost bpost negb]; [done|]. by wp_step.
Qed.

(** The rule that is added. *)
Definition the_rule (q : Z) : rule := (if match_src then Some tst_addr else None, if match_dst then Some iut_addr else None, q).

Lemma add_the_rule_wp loc q t :
  wp W (add_the_rule iut iut_if iut_addr tst_addr sock_type match_src match_dst loc q) t
    (traced (fun _ t' => t_id t' = t_id t /\ t_events t' = t_events t ++ [Committed (the_rule q)]) t).
Proof.
  unfold add_the_rule. wp_step. apply wp_call. intros flow t1 [_ ->]. cbn [bpost upd].
  do 3 (wp_step; eapply wp_mono; [by apply check_rc_traced|]; intros [[]|j|w|] t1 H; try done; cbn [bpost traced] in *; subst t1).
  cbn [upd if_ok Z.eqb]. wp_step. apply wp_call. intros rc t1 [_ ->]. cbn [bpost upd]. unfold if_ok. by destruct (rc =? 0).
Qed.

(** Data over a connection came through a queue. *)
Lemma rr_check_wp fuel get_s c q v L t : rr_inv L t -> t_id t <> None ->
  wp W (rr_check iut tst sock_type multi_seg fuel get_s (fst c) (snd c) q v L) t (upto rr_inv (fun _ L' t' =>
    L' = L /\ rr_inv L t' /\ t_id t' = t_id t /\ t_events t' = t_events t ++ [Through (filter_of c) q])).
Proof.
  intros HL Hid. unfold rr_check. apply (st_gets W _ _ (fun l => l)). destruct (get_s L) as [s1 s2].
  rewrite HL. destruct (t_id t) as [id|] eqn:E; [|done]. cbn [deref]. apply (st_ret W).
  eapply (st_traced_last n rr_inv rr_inv_id); [|exact HL|].
  - unfold CHECK_RC. wp_step. eapply wp_mono; [apply send_check_stats_traced|]. intros [rc|j|w|] t' H; try done. cbn [bpost traced] in *.
    destruct H as [Hi H]. destruct (Z.eqb_spec rc 0); [|done]. wp_step.
    instantiate (1 := fun _ t' => t_id t' = t_id t /\ t_events t' = t_events t ++ [Through (filter_of c) q]). cbn. subst t'. by split.
  - intros [] t' [Hi He]. split; [done|]. split; [by eapply rr_inv_id|]. split; [congruence|done].
Qed.

Lemma st_rr_check {B} fuel get_s c q v (f : unit -> T rr_locals B) L t G :
  rr_inv L t -> t_id t <> None ->
  (forall t', rr_inv L t' -> t_id t' = t_id t -> t_events t' = t_events t ++ [Through (filter_of c) q] ->
     wp W (f tt L) t' (upto rr_inv G)) ->
  wp W (mbind f (rr_check iut tst sock_type multi_seg fuel get_s (fst c) (snd c) q v) L) t (upto rr_inv G).
Proof.
  intros HL Hid Hf. apply st_bind. eapply wp_mono; [by apply rr_check_wp|].
  intros [[L' [[]|j]]| | |] t' H; try done. destruct H as (-> & H1 & H2 & H3). by apply Hf.
Qed.

Lemma st_rr_connect {B} set_s c (f : unit -> T rr_locals B) L t G :
  (forall s, rr_bpf_id (set_s s L) = rr_bpf_id L /\ rr_ctx (set_s s L) = rr_ctx L) -> rr_inv L t ->
  (forall L' t', rr_inv L' t' -> t_id t' = t_id t -> rr_ctx L' = rr_ctx L ->
     t_events t' = t_events t ++ [Connected (fst c) (snd c)] -> wp W (f tt L') t' (upto rr_inv G)) ->
  wp W (mbind f (rr_connect iut tst sock_type set_s (fst c) (snd c)) L) t (upto rr_inv G).
Proof.
  intros Hs HL Hf. apply st_bind. unfold rr_connect. apply (rr_step _ _ _ _ _ _ (connect_traced n _ _ _ _ _ t)); [done|].
  intros s t' ->. destruct (Hs s) as [H1 H2]. apply Hf; try done. unfold rr_inv in *. cbn. congruence.
Qed.

(** What passing means: there were two connections of the same queue; the rule
    moved the packets of the first one, and of no other. *)
Definition rule_moved (events : list event) : Prop := exists conn2 q',
  rssq conn2 = rssq conn /\ q' <> rssq conn /\
  events = [Connected iut_addr tst_addr; Connected (fst conn2) (snd conn2);
            Through (filter_of conn) (rssq conn); Through (filter_of conn2) (rssq conn); Committed (the_rule q');
            Through (filter_of conn) q'; Through (filter_of conn2) (rssq conn)].

Lemma rule_location_silent loc : only silent any_jump (rule_location iut iut_if loc).
Proof.
  unfold rule_location, net_drv_rx_rules_check_table_size, net_drv_rx_rules_check_spec_loc. solve_only.
Qed.

Lemma rx_rule_body_wp fuel loc :
  wp W (rx_rule_body le iut tst iut_if iut_addr tst_addr sock_type multi_seg match_src match_dst fuel loc rr_start) nothing
    (upto rr_inv (fun _ L t => rr_inv L t /\ t_id t <> None /\ rule_moved (t_events t))).
Proof.
  unfold rx_rule_body. apply (st_silent n rr_inv rr_inv_id); [apply rule_location_silent|done|]. intros loc'.
  apply (st_prepare n); [done|]. intros ctx Hc. set (L := rr_set_ctx ctx rr_start). assert (HL : rr_ctx L = ctx) by done.
  assert (Hi : rr_inv L nothing) by done. clearbody L. apply (st_get_id n); [done|]. intros id. apply st_modify.
  set (L1 := rr_set_bpf_id id L). set (t1 := set_id id nothing). assert (H1 : rr_inv L1 t1) by done. assert (E1 : t_id t1 <> None) by done.
  assert (Ev1 : t_events t1 = []) by done. assert (C1 : rr_ctx L1 = ctx) by exact HL. clearbody L1 t1. clear L HL Hi.
  apply (st_rr_connect _ conn); [done|done|]. intros L2 t2 H2 E2 C2 Ev2. rewrite Ev1 in Ev2. rewrite C1 in C2. clear L1 H1 C1.
  apply st_gets. rewrite C2. eapply rr_step; [by apply (predicted_queue n Hsize (n_key n))|done|]. intros p t' [-> ->].
  apply (st_ret W). eapply rr_step; [by apply pick_two_ports_wp|done|]. intros [a1 a2] t' [-> Hq2].
  apply (st_rr_connect _ (a1, a2)); [done|done|]. intros L3 t3 H3 E3 C3 Ev3. rewrite Ev2 in Ev3. cbn [fst snd] in Ev3.
  apply (st_rr_check _ _ conn); [done|congruence|]. intros t4 H4 E4 Ev4.
  apply (st_rr_check _ _ (a1, a2)); [done|congruence|]. intros t5 H5 E5 Ev5.
  eapply rr_step; [apply pick_other_queue_wp|done|]. intros q' t' [-> Hq'].
  eapply rr_step; [apply add_the_rule_wp|done|]. intros [] t6 [E6 Ev6].
  assert (H6 : rr_inv L3 t6) by (by eapply rr_inv_id).
  apply (st_rr_check _ _ conn); [done|congruence|]. intros t7 H7 E7 Ev7.
  eapply wp_mono; [apply (rr_check_wp _ _ (a1, a2)); [done|congruence]|].
  intros [[L' [[]|j]]| | |] t' H; try done. destruct H as (-> & H8 & E8 & Ev8). split; [done|]. split; [congruence|].
  exists (a1, a2), q'. split; [done|]. split; [done|]. rewrite Ev8, Ev7, Ev6, Ev5, Ev4, Ev3. reflexivity.
Qed.

(** When the test of one rule passes, the rule moved the packets of its
    connection to another queue, and not those of another connection that RSS
    maps to the same queue.  It can only have undefined behaviour when the
    identifier of the BPF program could not be read: the cleanup uses it. *)
Theorem rx_rule_correct fuel loc :
  wp W (rx_rule_tcp_udp_main le iut tst iut_if iut_addr tst_addr sock_type multi_seg match_src match_dst fuel loc) nothing
    (fun r t => match r with
     | Val Passed => t_id t <> None /\ rule_moved (t_events t)
     | Undef _ => t_id t = None
     | Exc _ => False
     | _ => True
     end).
Proof.
  unfold rx_rule_tcp_udp_main, test_main. wp_step. eapply wp_mono; [apply rx_rule_body_wp|].
  intros [[L r]| | |] t H; try done. cbn [bpost].
  assert (HL : rr_inv L t /\ (r = inl tt -> t_id t <> None /\ rule_moved (t_events t)))
    by (destruct r as [[]|j]; cbn [upto] in H; [by destruct H|done]).
  clear H. destruct HL as [HL Hv]. unfold rr_inv in HL.
  assert (Hend : (t_id t <> None \/ 0 <? rx_rx_queues (rr_ctx L) = false) ->
    only silent any_jump (rx_rule_cleanup iut tst L) /\ returns (rx_rule_cleanup iut tst L)).
  { intros Hd. unfold rx_rule_cleanup, also, cleanup_close, cleanup_rc, net_drv_rss_ctx_release. rewrite HL.
    destruct (0 <? rx_rx_queues (rr_ctx L)); [destruct (t_id t); [|by destruct Hd]|]; cbn [deref]; split; (solve_only || solve_returns). }
  wp_step. destruct (t_id t) as [id|] eqn:E.
  { destruct Hend as [H1 H2]; [by left|]. apply (silent_returns_wp n); [done|done|]. intros ok. cbn [bpost]. wp_step.
    destruct r as [[]|j]; [|done]. destruct ok; [|done]. rewrite E. by apply Hv. }
  destruct (0 <? rx_rx_queues (rr_ctx L)) eqn:E0.
  - unfold rx_rule_cleanup. rewrite E0, HL. cbn [deref].
    do 4 (unfold also at 1; wp_step; apply (silent_returns_wp n); [unfold cleanup_close; solve_only|unfold cleanup_close; solve_returns|];
      intros ?; cbn [bpost]; wp_step). exact E.
  - destruct Hend as [H1 H2]; [by right|]. apply (silent_returns_wp n); [done|done|]. intros ok. cbn [bpost]. wp_step.
    destruct r as [[]|j]; [|done]. by destruct (Hv eq_refl).
Qed.
End moved.

(** ** Filling the table of rules *)
Section filled.
Context {TE : Te}.
Context (iut : rcf_rpc_server) (iut_if : string) (iut_addr tst_addr : sockaddr) (sock_type : rpc_socket_type).

(** The numbers of rules that were added, and the warnings given. *)
Definition filling : env te_call (list Z * nat) :=
  watch_if (fun X c _ x => match c in te_call X return X -> Prop with
      | rpc_net_drv_too_many_rx_rules _ _ _ _ _ _ _ _ => fun x => 0 <= snd (fst x) | _ => fun _ => True end x)
    (fun X c => match c in te_call X return X -> list Z * nat -> list Z * nat with
      | rpc_net_drv_too_many_rx_rules _ _ _ _ _ _ _ _ => fun x s =>
          if fst (fst x) <? 0 then s else (fst s ++ [snd (fst x)], snd s)
      | verdict WARN_V _ => fun _ s => (fst s, S (snd s))
      | _ => fun _ s => s
      end).

(** A number that is less than the one before. *)
Fixpoint decreases (prev : Z) (counts : list Z) : bool :=
  match counts with
  | [] => false
  | c :: counts => (c <? prev) || decreases c counts
  end.

Lemma decreases_snoc prev counts c :
  decreases prev (counts ++ [c]) = decreases prev counts || (c <? default prev (last counts)).
Proof.
  revert prev. induction counts as [|d counts IH]; intros prev; cbn; [by rewrite orb_false_r|].
  rewrite IH, orb_assoc. do 2 f_equal. destruct counts; [done|]. rewrite last_cons_cons. by destruct (last (z :: counts)) eqn:E; [|by apply last_None in E].
Qed.

Definition warned (counts : list Z) : nat := if decreases 0 counts then 1%nat else 0%nat.

(** Rules are added in every iteration, as many times as was asked for, or the
    test is left with a verdict in the iteration that failed or that added none;
    one warning is given, exactly when some iteration added fewer rules than the
    one before. *)
Theorem fill_table_correct iters s any queues : 0 <= iters ->
  wp filling (fill_table iut iut_if iut_addr tst_addr sock_type iters s any queues) ([], 0%nat)
    (fun r '(counts, warns) => exists added, Forall (fun c => 0 < c) added /\ warns = warned added /\ match r with
     | Val _ => counts = added /\ length added = Z.to_nat iters
     | Exc (VERDICT _) => (counts = added \/ counts = added ++ [0]) /\ (length added < Z.to_nat iters)%nat
     | _ => False
     end).
Proof.
  intros Hi. unfold fill_table. wp_step.
  eapply (wp_for_n _ _ _ _ _ _ _ (fun i st '(counts, warns) => length counts = Z.to_nat i /\ Forall (fun c => 0 < c) counts /\
    warns = warned counts /\ st = (default 0 (last counts), decreases 0 counts))).
  - done.
  - intros i st [counts warns] Hir (Hl & Hp & Hw & ->). unfold fill_pass. wp_step. apply wp_call. intros [] s1 [_ ->].
    cbn [bpost]. wp_step. apply wp_call. intros [[rc c] err] s1 [Hc ->]. cbn [bpost fst snd] in *.
    destruct (Z.ltb_spec rc 0) as [Hrc|Hrc].
    { cbn. exists counts. do 2 (split; [done|]). split; [by left|]. lia. }
    destruct (Z.eqb_spec c 0) as [->|Hc0].
    { cbn. exists counts. do 2 (split; [done|]). split; [by right|]. lia. }
    assert (Hnext : length (counts ++ [c]) = Z.to_nat (i + 1) /\ Forall (fun c => 0 < c) (counts ++ [c]) /\
      default 0 (last (counts ++ [c])) = c).
    { rewrite length_app, Forall_app, last_snoc. cbn. split; [lia|]. split; [|done]. split; [done|]. constructor; [lia|done]. }
    destruct Hnext as (Hl' & Hp' & Hd').
    assert (Hdec : (0 <? default 0 (last counts)) && (c <? default 0 (last counts)) = (c <? default 0 (last counts))) by lia.
    rewrite Hdec. unfold warned in *. pose proof (decreases_snoc 0 counts c) as Hsn.
    destruct (c <? default 0 (last counts)) eqn:Ec, (decreases 0 counts) eqn:Ed; cbn [negb andb orb when] in *.
    all: repeat first [wp_step | progress cbn [bpost lpost]]; unfold WARN_VERDICT.
    all: try (cbn [wp call]; intros [] s1 [_ ->]); cbn; rewrite ?Hl', ?Hd', ?Hsn, ?Hw; repeat (split; [done|]); done.
  - intros st [counts warns] (Hl & Hp & Hw & _). cbn [bpost]. wp_step. exists counts. do 2 (split; [done|]). split; [done|]. lia.
Qed.
End filled.

Module RxRuleWitness.
Local Existing Instance te_ref.
Import RssTrace.

(** A NIC with four queues. *)
Definition four : nic := Nic [1; 2; 3] 0 128 4 (fun i => i mod 4) (fun key => key) (fun _ a b _ => sa_port a + sa_port b).

Lemma rx_rule_correct_witness :
  (0 < n_size four) /\
  wp (world four) (rx_rule_tcp_udp_main true (RPCS "iut" "A") (RPCS "tst" "B") "eth0" (SA 2 [10; 0; 0; 1] 5000)
    (SA 2 [10; 0; 0; 2] 6000) RPC_SOCK_DGRAM false true false 10 0) nothing
    (fun r t => match r with Val Passed => length (t_events t) = 7%nat | Undef _ => t_id t = None | Exc _ => False | _ => True end).
Proof.
  split; [reflexivity|].
  eapply wp_mono; [apply (rx_rule_correct four eq_refl)|].
  intros [[| |]| | |] t H; try exact H. destruct H as (_ & c & q & _ & _ & ->). reflexivity.
Defined.

Lemma fill_table_correct_witness :
  (0 <= 3) /\
  wp filling (fill_table (RPCS "iut" "A") "eth0" (SA 2 [10; 0; 0; 1] 5000) (SA 2 [10; 0; 0; 2] 6000) RPC_SOCK_DGRAM 3 7 true 4)
    ([], 0%nat) (fun r '(counts, warns) => match r with Val _ => length counts = 3%nat | _ => True end).
Proof.
  split; [discriminate|].
  eapply wp_mono; [apply (fill_table_correct (RPCS "iut" "A") "eth0" (SA 2 [10; 0; 0; 1] 5000) (SA 2 [10; 0; 0; 2] 6000)
    RPC_SOCK_DGRAM 3 7 true 4); discriminate|].
  intros [[]|j| |] [counts warns]; try done. intros (added & _ & _ & -> & ->). reflexivity.
Defined.
End RxRuleWitness.
