(* ===== verification/AfXdp.v ===== *)
(** rss/af_xdp.c, rss/af_xdp_two_rules.c and rss/af_xdp_rx_rule.c: packets that the
    NIC directs to a queue come through the AF_XDP socket of that queue; and
    rss/epilogue.c. *)
From S2P Require Import Prelude Prog Te Bytes Locals NetDrvTs DataFlow CommonRss XdpSocks Resources RssPrologue RxCommon Holding Traffic RssTests RssTrace ChangeChannels RxRules HashKey.

(** What the cleanups of the three tests use, and the descriptor of the XSK map,
    which they do not.  The array of sockets is empty while the pointer is null.
    The identifier of the BPF program is not initialised at the declaration. *)
Record xd_locals := XdLocals {
  xd_socks : list net_drv_xdp_sock; xd_tst_s : Z; xd_map_fd : Z; xd_bpf_id : option Z; xd_ctx : net_drv_rss_ctx }.
Definition xd_start {TE : Te} (socks : list net_drv_xdp_sock) : xd_locals := XdLocals socks (-1) (-1) None NET_DRV_RSS_CTX_INIT.
Definition xd_set_socks (k : list net_drv_xdp_sock) (l : xd_locals) : xd_locals :=
  XdLocals k (xd_tst_s l) (xd_map_fd l) (xd_bpf_id l) (xd_ctx l).
Definition xd_set_tst_s (s : Z) (l : xd_locals) : xd_locals := XdLocals (xd_socks l) s (xd_map_fd l) (xd_bpf_id l) (xd_ctx l).
Definition xd_set_map_fd (s : Z) (l : xd_locals) : xd_locals := XdLocals (xd_socks l) (xd_tst_s l) s (xd_bpf_id l) (xd_ctx l).
Definition xd_set_bpf_id (b : Z) (l : xd_locals) : xd_locals := XdLocals (xd_socks l) (xd_tst_s l) (xd_map_fd l) (Some b) (xd_ctx l).
Definition xd_set_ctx (c : net_drv_rss_ctx) (l : xd_locals) : xd_locals :=
  XdLocals (xd_socks l) (xd_tst_s l) (xd_map_fd l) (xd_bpf_id l) c.

Section tests.
Context {TE : Te} (le : bool).
(** Constants of TE. *)
Context (RPC_XDP_BIND_USE_SG : Z) (TAPI_BPF_RXQ_STATS_XSK_MAP : string).
Context (iut tst : rcf_rpc_server) (iut_if : string) (iut_addr tst_addr : sockaddr).
Context (multi_seg : bool) (copy_mode : Z).
Local Abbreviation ta := (rpcs_ta iut).

(** [xdp_cfg.bind_flags = ...]. *)
Definition with_bind (cfg : net_drv_xdp_cfg) : net_drv_xdp_cfg :=
  XdpCfg (xc_frame_len cfg) (xc_frames_num cfg) (xc_rx_frames cfg) (xc_fill_size cfg) (xc_comp_size cfg)
    (xc_rxq_size cfg) (xc_txq_size cfg) (Z.lor copy_mode (if multi_seg then RPC_XDP_BIND_USE_SG else 0)).

Definition xd_bind_socket : T xd_locals unit :=
  tst_s ← lift (rpc_ok (rpc_create_and_bind_socket tst RPC_SOCK_DGRAM tst_addr));
  modify (xd_set_tst_s tst_s).

Definition xd_prepare : T xd_locals unit := zoom xd_ctx xd_set_ctx (net_drv_rss_ctx_prepare ta iut_if 0).

Definition xd_get_id : T xd_locals unit :=
  bpf_id ← lift (CHECK_OUT (call (tapi_bpf_rxq_stats_get_id ta iut_if)));
  modify (xd_set_bpf_id bpf_id).

Definition xd_pin_map : T xd_locals unit :=
  id ← gets xd_bpf_id;
  id ← lift (deref id);
  map_fd ← lift (CHECK_OUT (call (tapi_bpf_map_pin_get_fd iut id TAPI_BPF_RXQ_STATS_XSK_MAP)));
  modify (xd_set_map_fd map_fd).

(** Statistics of packets from the tester to an address of the IUT. *)
Definition xd_filter (dst : sockaddr) : T xd_locals unit :=
  id ← gets xd_bpf_id;
  id ← lift (deref id);
  _ ← lift (CHECK_RC (call (tapi_bpf_rxq_stats_reset ta id)));
  lift (CHECK_RC (call (tapi_bpf_rxq_stats_set_params ta id (sa_family iut_addr) (Some tst_addr) (Some dst) true true))).

Definition NET_DRV_XDP_WAIT_SOCKS : M unit := call (te_motivated_msleep 500).

(** The end of the three cleanups. *)
Definition xd_cleanup_rest (l : xd_locals) : M bool :=
  also (cleanup_close tst (xd_tst_s l))
 (also (_ ← net_drv_rss_ctx_release (xd_ctx l); mret true)
       (bpf_id ← deref (xd_bpf_id l);
        cleanup_rc (call (tapi_bpf_rxq_stats_reset ta bpf_id)))).

(** *** rss/af_xdp.c *)

(** An attempt to find a port of the IUT whose packets go to queue [i]. *)
Definition queue_port_pass (ctx : net_drv_rss_ctx) (i _ : Z) (_ : unit) : M (ctl unit sockaddr) :=
  port ← call tapi_get_random_port;
  let dst_addr := set_port iut_addr (u16 port) in
  p ← CHECK_OUT (net_drv_rss_predict ctx tst_addr dst_addr false false true);
  queue_id ← deref (p_queue p);
  mret (if queue_id =? i then Return dst_addr else Continue tt).

Definition queue_port (ctx : net_drv_rss_ctx) (i : Z) : M sockaddr :=
  r ← for_n (Z.to_nat MAX_CHANGE_PORT_ATTEMPTS) 0 tt (queue_port_pass ctx i);
  match r with
  | inr dst_addr => mret dst_addr
  | inl tt => TEST_FAIL "Failed to find a port matching queue %u" [AI i]
  end.

Definition echo_queue (i : Z) : T xd_locals unit :=
  l ← get;
  dst_addr ← lift (queue_port (xd_ctx l) i);
  lift (net_drv_xdp_echo tst (xd_tst_s l) dst_addr iut (xd_socks l) i multi_seg).

Definition af_xdp_body : T xd_locals unit :=
  cfg ← lift (CHECK_OUT (net_drv_xdp_adjust_rx_size ta iut_if NET_DRV_XDP_CFG_DEF));
  _ ← xd_bind_socket;
  _ ← xd_prepare;
  _ ← xd_get_id;
  socks_num ← gets (fun l => rx_rx_queues (xd_ctx l));
  _ ← lift (CHECK_RC (call (tapi_cfg_if_rss_fill_indir_table ta iut_if 0 0 (s32 (socks_num - 1)))));
  _ ← lift (CHECK_RC (call (tapi_cfg_if_rss_hash_indir_commit ta iut_if 0)));
  _ ← lift (CHECK_RC (call (tapi_cfg_if_rss_print_indir_table ta iut_if 0)));
  _ ← xd_pin_map;
  map_fd ← gets xd_map_fd;
  socks ← lift (net_drv_xdp_create_socks iut iut_if (with_bind cfg) map_fd socks_num);
  _ ← modify (xd_set_socks socks);
  _ ← lift NET_DRV_XDP_WAIT_SOCKS;
  _ ← xd_filter (set_port iut_addr 0);
  t_for (seqZ 0 socks_num) echo_queue.

Definition af_xdp_cleanup (l : xd_locals) : M bool :=
  also (cleanup_rc (net_drv_xdp_destroy_socks iut (match xd_socks l with [] => None | socks => Some socks end)))
       (xd_cleanup_rest l).

Definition af_xdp_main : M status := test_main (xd_start []) af_xdp_body af_xdp_cleanup.

(** *** rss/af_xdp_two_rules.c *)

(** [port] is in host byte order, [exclude_port] in the one of the caller. *)
Definition iut_addr_pass (ctx : net_drv_rss_ctx) (rule_queue exclude_port _ : Z) (_ : unit) : M (ctl unit sockaddr) :=
  port ← call tapi_get_random_port;
  if u32 port =? exclude_port then mret (Continue tt) else
  let new_iut_addr := set_port iut_addr (u16 port) in
  p ← CHECK_OUT (net_drv_rss_predict ctx tst_addr new_iut_addr false false true);
  queue_id ← deref (p_queue p);
  mret (if negb (queue_id =? rule_queue) then Return new_iut_addr else Continue tt).

Definition TWO_RULES_MAX_ATTEMPTS : Z := 100000.

Definition get_iut_addr (ctx : net_drv_rss_ctx) (rule_queue exclude_port : Z) : M sockaddr :=
  r ← for_n (Z.to_nat TWO_RULES_MAX_ATTEMPTS) 0 tt (iut_addr_pass ctx rule_queue exclude_port);
  match r with
  | inr a => mret a
  | inl tt => TEST_FAIL "Failed to find IUT port for which incomping packets are not directed to queue %u by default" [AI rule_queue]
  end.

(** [CHECK_RC (net_drv_xdp_create_sock (..., &xdp_socks[i]))]. *)
Definition create_sock_at (i : nat) (cfg : net_drv_xdp_cfg) (queue : Z) : T xd_locals unit :=
  map_fd ← gets xd_map_fd;
  '(rc, k) ← lift (net_drv_xdp_create_sock iut iut_if queue cfg map_fd);
  _ ← modify (fun l => xd_set_socks (<[i := k]> (xd_socks l)) l);
  if rc =? 0 then mret tt else throw (RC_FAILED rc).

(** The two queues, and the addresses whose packets do not come through them by
    default. *)
Definition two_rules_choice (ctx : net_drv_rss_ctx) : M (Z * Z * sockaddr * sockaddr) :=
  q1 ← call (rand_range 0 (s32 (rx_rx_queues ctx - 1)));
  q2 ← call (te_rand_range_exclude 0 (s32 (rx_rx_queues ctx - 1)) q1);
  let queue1 := u32 q1 in
  let queue2 := u32 q2 in
  iut_addr1 ← get_iut_addr ctx queue1 0;
  iut_addr2 ← get_iut_addr ctx queue2 (htons le (sa_port iut_addr1));
  mret (queue1, queue2, iut_addr1, iut_addr2).

Definition echo_at (dst : sockaddr) (i : Z) : T xd_locals unit :=
  l ← get;
  lift (net_drv_xdp_echo tst (xd_tst_s l) dst iut (xd_socks l) i multi_seg).

Definition two_rules_body : T xd_locals unit :=
  cfg ← lift (CHECK_OUT (net_drv_xdp_adjust_rx_size ta iut_if NET_DRV_XDP_CFG_DEF));
  _ ← lift (call CFG_WAIT_CHANGES);
  _ ← xd_prepare;
  ctx ← gets xd_ctx;
  _ ← twhen (rx_rx_queues ctx <? 2) (lift (TEST_FAIL "At least two Rx queues should be available" []));
  _ ← xd_get_id;
  _ ← xd_pin_map;
  '(queue1, queue2, iut_addr1, iut_addr2) ← lift (two_rules_choice ctx);
  _ ← xd_bind_socket;
  _ ← create_sock_at 0 (with_bind cfg) queue1;
  _ ← create_sock_at 1 (with_bind cfg) queue2;
  _ ← lift NET_DRV_XDP_WAIT_SOCKS;
  _ ← lift (net_drv_add_tcpudp_rx_rule ta iut_if RPC_SOCK_DGRAM (Some tst_addr) None (Some iut_addr1) None queue1 "the first");
  _ ← lift (net_drv_add_tcpudp_rx_rule ta iut_if RPC_SOCK_DGRAM (Some tst_addr) None (Some iut_addr2) None queue2 "the second");
  _ ← lift (call CFG_WAIT_CHANGES);
  _ ← xd_filter (set_port iut_addr 0);
  _ ← echo_at iut_addr1 0;
  echo_at iut_addr2 1.

(** [CLEANUP_CHECK_RC (net_drv_xdp_destroy_sock (...))] for the sockets of an
    array. *)
Fixpoint destroy_each (socks : list net_drv_xdp_sock) (rest : M bool) : M bool :=
  match socks with
  | [] => rest
  | k :: socks => also ('(rc, _) ← net_drv_xdp_destroy_sock iut (Some k); mret (rc =? 0)) (destroy_each socks rest)
  end.

Definition xd_socks_cleanup (l : xd_locals) : M bool := destroy_each (xd_socks l) (xd_cleanup_rest l).

Definition af_xdp_two_rules_main : M status :=
  test_main (xd_start [NET_DRV_XDP_SOCK_INIT; NET_DRV_XDP_SOCK_INIT]) two_rules_body xd_socks_cleanup.

(** *** rss/af_xdp_rx_rule.c *)
Definition xdp_rx_rule_body : T xd_locals unit :=
  cfg ← lift (CHECK_OUT (net_drv_xdp_adjust_rx_size ta iut_if NET_DRV_XDP_CFG_DEF));
  _ ← xd_bind_socket;
  _ ← xd_prepare;
  _ ← xd_get_id;
  _ ← xd_pin_map;
  ctx ← gets xd_ctx;
  p ← lift (CHECK_OUT (net_drv_rss_predict ctx tst_addr iut_addr false false true));
  queue_id ← lift (deref (p_queue p));
  _ ← twhen (rx_rx_queues ctx <=? 1) (lift (TEST_FAIL "No alternative Rx queue is available" []));
  q ← lift (call (te_rand_range_exclude 0 (s32 (rx_rx_queues ctx - 1)) queue_id));
  let rule_queue := u32 q in
  _ ← lift (net_drv_add_tcpudp_rx_rule ta iut_if RPC_SOCK_DGRAM (Some tst_addr) None (Some iut_addr) None rule_queue "");
  _ ← lift (call CFG_WAIT_CHANGES);
  _ ← xd_filter iut_addr;
  _ ← create_sock_at 0 (with_bind cfg) rule_queue;
  _ ← lift NET_DRV_XDP_WAIT_SOCKS;
  echo_at iut_addr 0.

Definition af_xdp_rx_rule_main : M status :=
  test_main (xd_start [NET_DRV_XDP_SOCK_INIT]) xdp_rx_rule_body xd_socks_cleanup.

(** *** rss/epilogue.c: its [main] has an empty cleanup. *)
Definition rss_epilogue_main : M unit :=
  '(rc, bpf_id) ← call (tapi_bpf_rxq_stats_get_id ta iut_if);
  if TE_RC_GET_ERROR rc =? TE_ENOENT then mret tt
  else if negb (rc =? 0) then TEST_FAIL "tapi_bpf_rxq_stats_get_id() returned %r" [AI rc]
  else
    _ ← CHECK_RC (call (tapi_bpf_rxq_stats_fini ta iut_if bpf_id));
    _ ← CHECK_RC (call (cfg_del_instance false "/local:/iut_toeplitz_variant:"));
    CHECK_RC (call (cfg_unregister_object "/local/iut_toeplitz_variant")).
End tests.

(** ** What the tests give back *)
Module Ends.
(** Descriptors that are open, and the identifier of the BPF program when it was
    read. *)
Record res := Res { r_fds : list (rcf_rpc_server * Z); r_id : option Z }.
Definition nothing : res := Res [] None.

Definition opened (p : rcf_rpc_server * Z) (s : res) : res := Res (r_fds s ++ [p]) (r_id s).

Definition upd X (c : te_call X) : X -> res -> res :=
  match c in te_call X return X -> res -> res with
  | rpc_create_and_bind_socket r _ _ => fun x s => if fst x <? 0 then s else opened (r, fst x) s
  | tapi_bpf_map_pin_get_fd r _ _ => fun x s => if fst x =? 0 then opened (r, snd x) s else s
  | rpc_close r fd => fun _ s => Res (drop_one (r, fd) (r_fds s)) (r_id s)
  | tapi_bpf_rxq_stats_get_id _ _ => fun x s => if fst x =? 0 then Res (r_fds s) (Some (snd x)) else s
  | _ => fun _ s => s
  end.

(** Documented behaviour: a descriptor that is returned is not negative, an
    indirection table is not empty. *)
Definition ok X (c : te_call X) : res -> X -> Prop :=
  match c in te_call X return res -> X -> Prop with
  | tapi_bpf_map_pin_get_fd _ _ _ => fun _ x => fst x = 0 -> 0 <= snd x
  | tapi_cfg_if_rss_indir_table_size _ _ _ => fun _ x => fst x = 0 -> 0 < snd x
  | _ => fun _ _ => True
  end.

Definition world : env te_call res := watch_if ok upd.

(** Calls that change nothing of it, and nothing of AF_XDP sockets. *)
Definition ends_free X (c : te_call X) : bool :=
  match c with
  | rpc_create_and_bind_socket _ _ _ | tapi_bpf_map_pin_get_fd _ _ _ | rpc_close _ _ | tapi_bpf_rxq_stats_get_id _ _ => false
  | _ => true
  end.

Definition xdp_free X (c : te_call X) : bool :=
  match c with
  | rpc_posix_memalign _ _ _ | rpc_xsk_umem__create _ _ _ _ | rpc_xsk_socket__create _ _ _ _ _ _ | rpc_xsk_map_set _ _ _ _
  | rpc_xsk_socket__delete _ _ | rpc_xsk_umem__delete _ _ | rpc_free _ _ => false
  | _ => true
  end.

Definition quiet X (c : te_call X) : bool := ends_free X c && xdp_free X c.
End Ends.

Section given_back.
Context {TE : Te} (le : bool).
Import Ends.
Context (RPC_XDP_BIND_USE_SG : Z) (TAPI_BPF_RXQ_STATS_XSK_MAP : string).
Context (iut tst : rcf_rpc_server) (iut_if : string) (iut_addr tst_addr : sockaddr).
Context (multi_seg : bool) (copy_mode : Z).

Local Abbreviation W := (both XdpWatch.world Ends.world).
Local Abbreviation state := (XdpWatch.ghost * res)%type.

Lemma quiet_keeps s0 X (c : te_call X) s x s' : quiet X c = true -> s = s0 -> W X c s x s' -> s' = s0.
Proof.
  intros [H1 H2]%andb_prop -> [[_ E1] [_ E2]]. destruct s0 as [g r], s' as [g' r']. cbn in *. subst. f_equal.
  - by destruct c.
  - by destruct c.
Qed.

Lemma before_read_quiet X (c : te_call X) : before_read X c = true -> quiet X c = true.
Proof. by destruct c. Qed.

Lemma quiet_wp {A} (p : M A) s : only quiet any_jump p ->
  wp W p s (fun r s' => s' = s /\ match r with Undef _ => False | _ => True end).
Proof.
  intros Ho. eapply wp_mono; [apply (wp_only quiet any_jump W (fun s' => s' = s)); [exact Ho| |done]|].
  - intros X c s1 x s' Hc Hs Hw. by eapply quiet_keeps.
  - intros [a|j|w|] s' [H1 H2]; auto.
Qed.

(** The locals name what is held. *)
Definition xd_inv (L : xd_locals) (s : state) : Prop :=
  (XdpWatch.g_delfail (fst s) = false -> XdpWatch.owns (xd_socks L) (fst s)) /\
  r_fds (snd s) ≡ₚ sock_at iut (xd_map_fd L) ++ sock_at tst (xd_tst_s L) /\
  xd_bpf_id L = r_id (snd s).

Lemma st_quiet {A B} (p : M A) (f : A -> T xd_locals B) L s G :
  only quiet any_jump p -> xd_inv L s -> (forall a, wp W (f a L) s (upto xd_inv G)) ->
  wp W (mbind f (lift p) L) s (upto xd_inv G).
Proof.
  intros Ho HL Hf. apply st_call. eapply wp_mono; [by apply quiet_wp|]. intros [a|j|w|] s' [-> H]; auto.
Qed.

Lemma st_quiet_last (p : M unit) L s : only quiet any_jump p -> xd_inv L s -> wp W (lift p L) s (ends xd_inv).
Proof.
  intros Ho HL. unfold lift. apply wp_bind, wp_attempt. eapply wp_mono; [by apply quiet_wp|].
  intros [a|j|w|] s' [-> H]; cbn; auto.
Qed.

(** A program without calls of AF_XDP, and one with such calls only. *)
Lemma ends_wp {A} (p : M A) (g : XdpWatch.ghost) (r : res) (Q : result A -> XdpWatch.ghost -> Prop) :
  makes ends_free p -> wp XdpWatch.world p g Q ->
  wp W p (g, r) (fun x s' => Q x (fst s') /\ snd s' = r).
Proof.
  intros Ho HQ. apply (wp_both XdpWatch.world Ends.world p (g, r) Q (fun _ r' => r' = r)); [exact HQ|].
  apply (wp_makes ends_free Ends.world (fun r' => r' = r)); [exact Ho| |done].
  intros X c s x s' Hc -> [_ ->]. by destruct c.
Qed.

Lemma st_bind_socket {B} (f : unit -> T xd_locals B) L s G :
  xd_inv L s -> xd_tst_s L < 0 ->
  (forall L' s', xd_inv L' s' -> fst s' = fst s -> xd_socks L' = xd_socks L -> xd_ctx L' = xd_ctx L -> xd_bpf_id L' = xd_bpf_id L ->
     xd_map_fd L' = xd_map_fd L -> wp W (f tt L') s' (upto xd_inv G)) ->
  wp W (mbind f (xd_bind_socket tst tst_addr) L) s (upto xd_inv G).
Proof.
  intros (H1 & H2 & H3) Ht Hf. apply st_bind. unfold xd_bind_socket. apply st_call. unfold rpc_ok. wp_step. apply wp_call.
  intros [fd e] [g' r'] [[_ E1] [_ E2]]. cbn [bpost fst snd XdpWatch.upd upd] in *. subst.
  destruct (Z.ltb_spec fd 0) as [H0|H0]; [done|]. wp_step. apply (Hf _ (_, _)); try done.
  split; [exact H1|]. split; [|done]. cbn. rewrite H2. unfold sock_at. rewrite (proj2 (Z.leb_gt 0 (xd_tst_s L))) by lia.
  rewrite app_nil_r. by rewrite (proj2 (Z.leb_le 0 fd)).
Qed.

Lemma st_xd_prepare {B} (f : unit -> T xd_locals B) L s G :
  xd_inv L s -> (forall ctx, usable ctx -> wp W (f tt (xd_set_ctx ctx L)) s (upto xd_inv G)) ->
  wp W (mbind f (xd_prepare iut iut_if) L) s (upto xd_inv G).
Proof.
  intros HL Hf. apply st_bind. unfold xd_prepare, zoom. wp_step. eapply wp_mono.
  { apply (ctx_prepare_wp W (fun s' => s' = s)); [| |done].
    - intros X c s3 x s' Hc Hs3 Hw. eapply quiet_keeps; [by apply before_read_quiet|exact Hs3|exact Hw].
    - intros ta' ifn c s3 x s' [_ [H _]]. exact H. }
  intros [[ctx [[]|j]]| | |] s' [-> H]; try done; cbn [bpost]; wp_step; cbn [upto]; by apply Hf.
Qed.

Lemma st_xd_get_id {B} (f : unit -> T xd_locals B) L s G :
  xd_inv L s ->
  (forall id s', xd_inv (xd_set_bpf_id id L) s' -> fst s' = fst s -> wp W (f tt (xd_set_bpf_id id L)) s' (upto xd_inv G)) ->
  wp W (mbind f (xd_get_id iut iut_if) L) s (upto xd_inv G).
Proof.
  intros (H1 & H2 & H3) Hf. apply st_bind. unfold xd_get_id. apply st_call. unfold CHECK_OUT. wp_step. apply wp_call.
  intros [rc id] [g' r'] [[_ E1] [_ E2]]. cbn [bpost fst snd XdpWatch.upd upd] in *. subst.
  destruct (rc =? 0); [|done]. wp_step. by apply (Hf _ (_, _)).
Qed.

Lemma st_pin_map {B} (f : unit -> T xd_locals B) L s G :
  xd_inv L s -> xd_bpf_id L <> None -> xd_map_fd L < 0 ->
  (forall fd s', 0 <= fd -> xd_inv (xd_set_map_fd fd L) s' -> fst s' = fst s -> wp W (f tt (xd_set_map_fd fd L)) s' (upto xd_inv G)) ->
  wp W (mbind f (xd_pin_map TAPI_BPF_RXQ_STATS_XSK_MAP iut) L) s (upto xd_inv G).
Proof.
  intros (H1 & H2 & H3) Hid Hm Hf. apply st_bind. unfold xd_pin_map. apply st_gets. destruct (xd_bpf_id L) as [id|] eqn:Ei; [|done].
  cbn [deref]. apply (st_ret W). apply st_call. unfold CHECK_OUT. wp_step. apply wp_call.
  intros [rc fd] [g' r'] [[_ E1] [Hok E2]]. cbn [bpost fst snd XdpWatch.upd upd ok] in *. subst.
  destruct (Z.eqb_spec rc 0) as [E|E]; [|by split; [|split; [|by rewrite Ei]]]. wp_step. apply (Hf _ (_, _)); [auto| |done].
  split; [exact H1|]. split; [|cbn; congruence]. cbn. rewrite H2. unfold sock_at. rewrite (proj2 (Z.leb_gt 0 (xd_map_fd L))) by lia.
  rewrite (proj2 (Z.leb_le 0 fd)) by auto. cbn. by rewrite Permutation_app_comm.
Qed.

Lemma st_xd_filter {B} dst (f : unit -> T xd_locals B) L s G :
  xd_inv L s -> xd_bpf_id L <> None -> wp W (f tt L) s (upto xd_inv G) ->
  wp W (mbind f (xd_filter iut iut_addr tst_addr dst) L) s (upto xd_inv G).
Proof.
  intros HL Hid Hf. apply st_bind. unfold xd_filter. apply st_gets. destruct (xd_bpf_id L) as [id|] eqn:Ei; [|done].
  cbn [deref]. apply (st_ret W). apply st_quiet; [solve_only|done|]. intros _.
  unfold lift. apply wp_bind, wp_attempt. eapply wp_mono; [apply quiet_wp; solve_only|].
  intros [[]|j|w|] s' [-> H]; cbn; auto.
Qed.

(** *** Sockets *)

Lemma destroy_sock_free k : makes ends_free (net_drv_xdp_destroy_sock iut k).
Proof. unfold net_drv_xdp_destroy_sock, delete_xsk, delete_umem. solve_makes. Qed.

Lemma create_sock_free q cfg fd : makes ends_free (net_drv_xdp_create_sock iut iut_if q cfg fd).
Proof.
  unfold net_drv_xdp_create_sock, net_drv_xdp_get_queues_num, add_chan, create_sock_fail, net_drv_xdp_destroy_sock,
    delete_xsk, delete_umem, ERROR_VERDICT. solve_makes.
Qed.

Lemma create_socks_free cfg fd k : makes ends_free (net_drv_xdp_create_socks iut iut_if cfg fd k).
Proof.
  unfold net_drv_xdp_create_socks. apply makes_bind.
  - apply makes_for_n. intros i socks. unfold create_socks_pass. apply makes_bind; [apply create_sock_free|]. by intros [rc s].
  - intros [socks|made]; [done|]. apply makes_bind; [|done]. apply makes_foreach. intros s res. unfold destroy_socks_pass.
    apply makes_bind; [apply destroy_sock_free|]. by intros [rc s'].
Qed.

(** Structures that name nothing add nothing. *)
Lemma owns_nulls ks nulls g : Forall null_sock nulls -> XdpWatch.owns ks g -> XdpWatch.owns (ks ++ nulls) g.
Proof.
  intros Hn. revert ks. induction Hn as [|k nulls (H1 & H2 & H3) _ IH]; intros ks Ho; [by rewrite app_nil_r|].
  rewrite cons_middle, app_assoc. apply IH. destruct k as [q t m u sk fd]. cbn in *. subst. by apply add_nothing.
Qed.

Lemma st_create_sock {B} (f : unit -> T xd_locals B) cfg q pre k0 nulls L s G :
  xd_inv L s -> xd_socks L = pre ++ k0 :: nulls -> Forall null_sock nulls -> XdpWatch.owns pre (fst s) ->
  (forall k s', let L' := xd_set_socks (pre ++ k :: nulls) L in
     xd_inv L' s' -> XdpWatch.owns (pre ++ [k]) (fst s') -> wp W (f tt L') s' (upto xd_inv G)) ->
  wp W (mbind f (create_sock_at iut iut_if (length pre) cfg q) L) s (upto xd_inv G).
Proof.
  intros (H1 & H2 & H3) Hk Hn Ho Hf. apply st_bind. unfold create_sock_at. apply st_gets. apply st_call.
  destruct s as [g r]. eapply wp_mono; [apply ends_wp; [apply create_sock_free|by apply create_sock_wp]|].
  intros [[rc k]| | |] [g' r'] [H E]; try done. cbn [fst snd] in *. subst r'. unfold create_post in H.
  apply st_modify. rewrite Hk. replace (<[length pre:=k]> (pre ++ k0 :: nulls)) with (pre ++ k :: nulls)
    by (rewrite <- (Nat.add_0_r (length pre)), insert_app_r; done). destruct (rc =? 0).
  - destruct H as (H & _ & _). cbn [wp upto mret T_ret prog_ret]. apply (Hf k (g', r)); [|exact H].
    split; [|done]. intros _. cbn. rewrite cons_middle, app_assoc. by apply owns_nulls.
  - cbn [wp upto throw mret prog_ret]. split; [|done]. intros Hd. destruct H as [_ H]. destruct (H Hd) as [Ho' Hk'].
    cbn. apply owns_nulls; [by constructor|done].
Qed.

(** *** The cleanups *)
Section cleanup.
Context (P : state -> Prop) (U : state -> Prop).
Definition cleaned (x : result bool) (s : state) : Prop :=
  match x with Val _ => P s | Undef _ => U s | _ => False end.

Lemma also_cleaned (p q : M bool) s (R : state -> Prop) :
  wp W p s (fun x s' => match x with Val _ => R s' | _ => False end) ->
  (forall s, R s -> wp W q s cleaned) -> wp W (also p q) s cleaned.
Proof.
  intros Hp Hq. unfold also. wp_step. eapply wp_mono; [exact Hp|]. intros [b| | |] s' H; try done. cbn [bpost]. wp_step.
  eapply wp_mono; [by apply Hq|]. intros [b'| | |] s2 H2; try done.
Qed.

Lemma destroy_each_wp socks rest g r :
  (XdpWatch.g_delfail g = false -> XdpWatch.owns socks g) ->
  (forall g', (XdpWatch.g_delfail g' = false -> XdpWatch.owns [] g') -> wp W rest (g', r) cleaned) ->
  wp W (destroy_each iut socks rest) (g, r) cleaned.
Proof.
  revert g. induction socks as [|k socks IH]; intros g Ho Hr; cbn [destroy_each]; [by apply Hr|].
  apply (also_cleaned _ _ _ (fun s => snd s = r /\ (XdpWatch.g_delfail (fst s) = false -> XdpWatch.owns socks (fst s)))).
  - wp_step. eapply wp_mono; [apply ends_wp; [apply destroy_sock_free|by apply (destroy_sock_wp iut [] k socks)]|].
    intros [[rc k']| | |] [g' r'] [H E]; try done. cbn [fst snd bpost] in *. wp_step. split; [done|]. intros Hd.
    destruct H as (_ & _ & H). by apply H.
  - intros [g' r'] [E Ho']. cbn [fst snd] in *. subst. by apply IH.
Qed.
End cleanup.

Lemma cleanup_rest_wp L g r (P U : state -> Prop) :
  r_fds r ≡ₚ sock_at iut (xd_map_fd L) ++ sock_at tst (xd_tst_s L) -> xd_bpf_id L = r_id r ->
  (forall fds, fds ≡ₚ sock_at iut (xd_map_fd L) -> (r_id r <> None -> P (g, Res fds (r_id r))) /\ (r_id r = None -> U (g, Res fds (r_id r)))) ->
  wp W (xd_cleanup_rest iut tst L) (g, r) (cleaned P U).
Proof.
  intros Hs Hi HP. unfold xd_cleanup_rest.
  apply (also_cleaned _ _ _ _ _ (fun s => exists fds, s = (g, Res fds (r_id r)) /\ fds ≡ₚ sock_at iut (xd_map_fd L))).
  { unfold cleanup_close, sock_at in *. destruct (0 <=? xd_tst_s L).
    - wp_step. apply wp_call. intros [rc e] [g' r'] [[_ E1] [_ E2]]. cbn [bpost fst snd XdpWatch.upd upd] in *. wp_step. subst.
      eexists. split; [done|]. rewrite Permutation_app_comm in Hs. cbn in Hs.
      assert (Hin : (tst, xd_tst_s L) ∈ r_fds r) by (rewrite Hs; apply list_elem_of_here).
      pose proof (Permutation_trans (Permutation_sym Hs) (drop_one_perm _ _ Hin)) as Hp. apply Permutation_cons_inv in Hp. by rewrite <- Hp.
    - wp_step. exists (r_fds r). split; [by destruct r|]. by rewrite app_nil_r in Hs. }
  intros s (fds & -> & Hf). destruct (HP fds Hf) as [HP1 HP2].
  apply (also_cleaned _ _ _ _ _ (fun s => s = (g, Res fds (r_id r)))).
  { unfold net_drv_rss_ctx_release. cbn. intros x [g' r'] [[_ E1] [_ E2]]. cbn in *. by subst. }
  intros s ->. rewrite Hi. destruct (r_id r) as [id|] eqn:E; cbn [deref]; [|by apply HP2].
  unfold cleanup_rc. wp_step. wp_step. cbn [bpost]. wp_step. apply wp_call. intros rc [g' r'] [[_ E1] [_ E2]]. cbn in *. subst. by apply HP1.
Qed.

(** *** Parts that take and give back nothing *)
Definition still {A} (p : M A) : Prop := forall s,
  wp W p s (fun r s' => s' = s /\ match r with Undef _ => False | _ => True end).

Lemma st_still {A B} (p : M A) (f : A -> T xd_locals B) L s G :
  still p -> xd_inv L s -> (forall a, wp W (f a L) s (upto xd_inv G)) ->
  wp W (mbind f (lift p) L) s (upto xd_inv G).
Proof.
  intros Ho HL Hf. apply st_call. eapply wp_mono; [by apply Ho|]. intros [a|j|w|] s' [-> H]; auto.
Qed.

Lemma still_last (p : M unit) L s : still p -> xd_inv L s -> wp W (lift p L) s (ends xd_inv).
Proof.
  intros Ho HL. unfold lift. apply wp_bind, wp_attempt. eapply wp_mono; [by apply Ho|].
  intros [a|j|w|] s' [-> H]; cbn; auto.
Qed.

Lemma still_bind {A B} (p : M A) (f : A -> M B) : still p -> (forall a, still (f a)) -> still (mbind f p).
Proof.
  intros Hp Hf s. wp_step. eapply wp_mono; [apply Hp|]. intros [a|j|w|] s' [-> H]; cbn [bpost]; auto. apply Hf.
Qed.

Lemma still_for_n {A R} k i (a : A) (body : Z -> A -> M (ctl A R)) : (forall i a, still (body i a)) -> still (for_n k i a body).
Proof.
  intros Hb s. eapply (wp_for_n _ _ _ _ _ _ _ (fun _ _ s' => s' = s)); [done| |done].
  intros i' a' s' _ ->. eapply wp_mono; [apply Hb|]. by intros [[| |]|j|w|] s2 [-> H].
Qed.

(** The queue of a prediction, then a program. *)
Lemma predict_then {B} ctx a b (f : Z -> M B) : usable ctx -> (forall q, still (f q)) ->
  still (p ← CHECK_OUT (net_drv_rss_predict ctx a b false false true); q ← deref (p_queue p); f q).
Proof.
  intros Hu Hf s. wp_step. unfold CHECK_OUT. wp_step. eapply wp_mono.
  { apply (RssTests.predict_wp W (fun s' => s' = s)); [|exact Hu|done].
    intros X c s3 x s' Hc Hs Hw. eapply quiet_keeps; [by apply before_read_quiet|exact Hs|exact Hw]. }
  intros [[rc p]| | |] s' [-> H]; try done. cbn [bpost]. destruct (Z.eqb_spec rc 0) as [E|E]; [|by cbn]. wp_step. wp_step.
  destruct (H E) as [_ [q ->]]; [done|]. cbn [deref]. wp_step. wp_step. cbn [bpost]. apply Hf.
Qed.

Lemma queue_port_still ctx i : usable ctx -> still (queue_port iut_addr tst_addr ctx i).
Proof.
  intros Hu. unfold queue_port. apply still_bind; [|by intros [[]|a] s; cbn].
  apply still_for_n. intros j []. unfold queue_port_pass. apply still_bind; [intros s; apply quiet_wp; by split|].
  intros port. apply predict_then; [done|]. intros q s. by destruct (q =? i).
Qed.

Lemma get_iut_addr_still ctx q x : usable ctx -> still (get_iut_addr iut_addr tst_addr ctx q x).
Proof.
  intros Hu. unfold get_iut_addr. apply still_bind; [|by intros [[]|a] s; cbn].
  apply still_for_n. intros j []. unfold iut_addr_pass. apply still_bind; [intros s; apply quiet_wp; by split|].
  intros port. destruct (_ =? _); [done|]. apply predict_then; [done|]. intros q' s. by destruct (negb _).
Qed.

Lemma choice_still ctx : usable ctx -> still (two_rules_choice le iut_addr tst_addr ctx).
Proof.
  intros Hu. unfold two_rules_choice. do 2 (apply still_bind; [intros s; apply quiet_wp; by split|]; intros ?).
  apply still_bind; [by apply get_iut_addr_still|]. intros a1. apply still_bind; [by apply get_iut_addr_still|]. done.
Qed.

Lemma adjust_quiet cfg : only quiet any_jump (CHECK_OUT (net_drv_xdp_adjust_rx_size (rpcs_ta iut) iut_if cfg)).
Proof. unfold net_drv_xdp_adjust_rx_size. solve_only. Qed.

Lemma add_rule_quiet t a am b bm q v : only quiet any_jump (net_drv_add_tcpudp_rx_rule (rpcs_ta iut) iut_if t a am b bm q v).
Proof. unfold net_drv_add_tcpudp_rx_rule, net_drv_rx_rules_find_loc. solve_only. Qed.

Lemma echo_quiet s a socks i : only quiet any_jump (net_drv_xdp_echo tst s a iut socks i multi_seg).
Proof.
  unfold net_drv_xdp_echo, net_drv_pick_rss_payload_len, echo_reply, echo_fail. solve_only.
Qed.
(** *** The tests *)

(** How the three tests end: nothing of AF_XDP sockets is left, unless a deletion
    failed; the socket of the tester is closed; the descriptor of the map is the
    one that stays open, and it does when the test passes.  There is undefined
    behaviour exactly when the identifier of the BPF program was not read. *)
Definition left_open (fds : list (rcf_rpc_server * Z)) : Prop := fds = [] \/ exists fd, fds = [(iut, fd)].
Definition tidy (x : result status) (s : state) : Prop :=
  match x with
  | Val st => r_id (snd s) <> None /\ (st = Passed -> r_fds (snd s) <> [])
  | Undef _ => r_id (snd s) = None
  | Exc _ => False
  | NoFuel => True
  end /\
  (x <> NoFuel -> (XdpWatch.g_delfail (fst s) = false -> XdpWatch.owns [] (fst s)) /\ left_open (r_fds (snd s))).

Local Abbreviation begin := (XdpWatch.start, Ends.nothing).
Local Abbreviation ended := (upto xd_inv (fun (_ : unit) L s => xd_inv L s /\ 0 <= xd_map_fd L)).

(** What a cleanup does from locals that name what is held. *)
Definition cleans (cleanup : xd_locals -> M bool) : Prop := forall L g r (P U : state -> Prop), xd_inv L (g, r) ->
  (forall g' fds, (XdpWatch.g_delfail g' = false -> XdpWatch.owns [] g') -> fds ≡ₚ sock_at iut (xd_map_fd L) ->
     (r_id r <> None -> P (g', Res fds (r_id r))) /\ (r_id r = None -> U (g', Res fds (r_id r)))) ->
  wp W (cleanup L) (g, r) (cleaned P U).

Lemma sock_at_left fd fds : fds ≡ₚ sock_at iut fd -> left_open fds /\ (0 <= fd -> fds <> []).
Proof.
  unfold sock_at. destruct (Z.leb_spec 0 fd) as [H|H]; intros Hp.
  - apply Permutation_singleton_r in Hp as ->. split; [right; by eexists|done].
  - apply Permutation_nil_r in Hp as ->. split; [by left|lia].
Qed.

Lemma xdp_main (init : xd_locals) (body : T xd_locals unit) (cleanup : xd_locals -> M bool) :
  wp W (body init) begin ended -> cleans cleanup ->
  wp W (test_main init body cleanup) begin tidy.
Proof.
  intros Hb Hc. unfold test_main. wp_step. eapply wp_mono; [exact Hb|]. intros [[L e]| | |] [g r] H; try done.
  assert (HL : xd_inv L (g, r) /\ (e = inl tt -> 0 <= xd_map_fd L)) by (destruct e as [[]|j]; cbn [upto] in H; [by destruct H|done]).
  destruct HL as [HL Hfd]. cbn [bpost]. wp_step.
  set (K := fun s : state => (XdpWatch.g_delfail (fst s) = false -> XdpWatch.owns [] (fst s)) /\ left_open (r_fds (snd s))).
  eapply wp_mono.
  { apply (Hc L g r (fun s => K s /\ r_id (snd s) <> None /\ (0 <= xd_map_fd L -> r_fds (snd s) <> [])) (fun s => K s /\ r_id (snd s) = None)); [done|].
    intros g' fds Hg Hf. apply sock_at_left in Hf as [H1 H2]. split; intros Hi; (split; [by split|done]). }
  intros [ok| | |] s Hk; try done; cbn [cleaned bpost] in *.
  - destruct Hk as (HK & Hi & Hf). wp_step. split; [|by intros _]. split; [done|]. intros Ep.
    destruct e as [[]|j]; [|discriminate Ep]. apply Hf. by apply Hfd.
  - destruct Hk as [HK Hi]. split; [done|]. by intros _.
Qed.

Lemma af_xdp_cleans : cleans (af_xdp_cleanup iut tst).
Proof.
  intros L g r P U (H1 & H2 & H3) HP. cbn [fst snd] in *. unfold af_xdp_cleanup.
  apply (also_cleaned _ _ _ _ _ (fun s => snd s = r /\ (XdpWatch.g_delfail (fst s) = false -> XdpWatch.owns [] (fst s)))).
  - unfold cleanup_rc. wp_step. unfold net_drv_xdp_destroy_socks. destruct (xd_socks L) as [|k ks] eqn:Ek.
    + cbn. split; [done|]. exact H1.
    + wp_step. eapply wp_mono; [apply ends_wp; [|by apply (destroy_loop_wp iut (k :: ks))]|].
      { apply makes_foreach. intros k' res. unfold destroy_socks_pass. apply makes_bind; [apply destroy_sock_free|]. by intros [rc k2]. }
      intros [[res|]| | |] [g' r'] [H E]; try done. cbn [fst snd bpost] in *. wp_step. cbn [bpost]. wp_step.
      split; [done|]. intros Hd. by apply H.
  - intros [g' r'] [E Ho]. cbn [fst snd] in *. subst r'. apply cleanup_rest_wp; [done|done|]. intros fds Hf. by apply HP.
Qed.

Lemma xd_socks_cleans : cleans (xd_socks_cleanup iut tst).
Proof.
  intros L g r P U (H1 & H2 & H3) HP. cbn [fst snd] in *. unfold xd_socks_cleanup. apply destroy_each_wp; [done|].
  intros g' Hg'. apply cleanup_rest_wp; [done|done|]. intros fds Hf. by apply HP.
Qed.

Lemma wait_socks_quiet : only quiet any_jump (NET_DRV_XDP_WAIT_SOCKS).
Proof. by split. Qed.

Lemma begin_inv socks : Forall null_sock socks -> xd_inv (xd_start socks) begin.
Proof.
  intros Hn. split; [|done]. intros _. cbn. apply (owns_nulls [] socks); [done|]. unfold XdpWatch.owns. cbn. repeat split; constructor.
Qed.

(** However the test with a socket per queue ends, it leaves no memory, UMEM or
    AF_XDP socket behind, unless a deletion failed, and the socket of the tester
    is closed; the descriptor of the map of sockets stays open. *)
Theorem af_xdp_tidy :
  wp W (af_xdp_main RPC_XDP_BIND_USE_SG TAPI_BPF_RXQ_STATS_XSK_MAP iut tst iut_if iut_addr tst_addr multi_seg copy_mode) begin tidy.
Proof.
  apply xdp_main; [|apply af_xdp_cleans]. unfold af_xdp_body. pose proof (begin_inv [] (Forall_nil_2 _)) as HI.
  apply st_quiet; [apply adjust_quiet|done|]. intros cfg.
  apply st_bind_socket; [done|done|]. clear HI. intros L s HI Eg Es _ Ei Em.
  apply st_xd_prepare; [done|]. intros ctx Hu. assert (HI1 : xd_inv (xd_set_ctx ctx L) s) by exact HI.
  assert (Es1 : xd_socks (xd_set_ctx ctx L) = []) by exact Es.
  assert (Hu1 : usable (xd_ctx (xd_set_ctx ctx L))) by exact Hu. assert (Em1 : xd_map_fd (xd_set_ctx ctx L) = -1) by exact Em.
  set (L1 := xd_set_ctx ctx L) in *. clearbody L1. clear HI Es Ei Em L Hu ctx.
  apply st_xd_get_id; [done|]. intros id s2 HI2 Eg2. rewrite Eg in Eg2. clear s HI1 Eg.
  assert (Es2 : xd_socks (xd_set_bpf_id id L1) = []) by exact Es1.
  assert (Hid : xd_bpf_id (xd_set_bpf_id id L1) <> None) by done. assert (Hu2 : usable (xd_ctx (xd_set_bpf_id id L1))) by exact Hu1.
  assert (Em2 : xd_map_fd (xd_set_bpf_id id L1) = -1) by exact Em1. set (L2 := xd_set_bpf_id id L1) in *. clearbody L2. clear L1 Hu1 Em1 Es1.
  apply st_gets. do 3 (apply st_quiet; [solve_only|done|]; intros _).
  apply st_pin_map; [done|done|lia|]. intros fd s3 Hfd HI3 Eg3. rewrite Eg2 in Eg3.
  apply st_gets. apply st_call. destruct s3 as [g3 r3]. cbn [fst] in Eg3. subst g3.
  eapply wp_mono; [apply ends_wp; [apply create_socks_free|apply create_socks_wp]|].
  intros [socks|j| |] [g4 r4] [H E]; try done; cbn [fst snd] in *; subst r4.
  - destruct H as [(Ho & _) _]. apply st_modify. set (L4 := xd_set_socks socks (xd_set_map_fd fd L2)).
    assert (HI4 : xd_inv L4 (g4, r3)) by (destruct HI3 as (_ & H2 & H3); split; [by intros _|by split]).
    assert (Hu4 : usable (xd_ctx L4)) by exact Hu2. assert (Hid4 : xd_bpf_id L4 <> None) by exact Hid. assert (Hm4 : 0 <= xd_map_fd L4) by exact Hfd.
    clearbody L4. apply st_quiet; [apply wait_socks_quiet|done|]. intros _. apply st_xd_filter; [done|done|].
    eapply wp_mono; [apply (st_for W xd_inv _ _ (fun _ L s => xd_inv L s /\ usable (xd_ctx L) /\ 0 <= xd_map_fd L)); [done|]|].
    + intros pre i post L s _ (HL & HuL & HmL). unfold echo_queue. apply (st_gets W _ _ (fun l => l)).
      apply st_still; [by apply queue_port_still|done|]. intros dst. unfold lift. apply wp_bind, wp_attempt.
      eapply wp_mono; [apply quiet_wp, echo_quiet|]. intros [[]|j|w|] s' [-> H]; cbn; auto.
    + intros [[L [[]|j]]| | |] s H; try done. destruct H as (H1 & _ & H2). by split.
  - destruct H as [_ Ho]. destruct HI3 as (_ & H2 & H3). split; [|by split]. intros Hd. cbn. rewrite Es2. by apply Ho.
Qed.

Lemma init_null : null_sock NET_DRV_XDP_SOCK_INIT.
Proof. by repeat split. Qed.

(** The last step of the other two tests. *)
Lemma echo_at_ends dst i L s : xd_inv L s -> 0 <= xd_map_fd L -> wp W (echo_at iut tst multi_seg dst i L) s ended.
Proof.
  intros HL Hm. unfold echo_at. apply (st_gets W _ _ (fun l => l)). unfold lift. apply wp_bind, wp_attempt.
  eapply wp_mono; [apply quiet_wp, echo_quiet|]. intros [[]|j|w|] s' [-> H]; cbn; auto.
Qed.

Lemma st_echo_at {B} dst i (f : unit -> T xd_locals B) L s G : xd_inv L s -> wp W (f tt L) s (upto xd_inv G) ->
  wp W (mbind f (echo_at iut tst multi_seg dst i) L) s (upto xd_inv G).
Proof.
  intros HL Hf. apply st_bind. unfold echo_at. apply (st_gets W _ _ (fun l => l)). unfold lift. apply wp_bind, wp_attempt.
  eapply wp_mono; [apply quiet_wp, echo_quiet|]. intros [[]|j|w|] s' [-> H]; cbn; auto.
Qed.

(** C21. However the test with two AF_XDP sockets ends, it leaves no memory,
    UMEM or AF_XDP socket behind, unless a deletion failed, and the socket of the
    tester is closed; the descriptor of the map of sockets is the only one that
    stays open, and it always does when the test passes.  Undefined behaviour
    occurs exactly when the test is left before the identifier of the BPF program
    is read, which its cleanup uses. *)
Theorem af_xdp_two_rules_tidy :
  wp W (af_xdp_two_rules_main le RPC_XDP_BIND_USE_SG TAPI_BPF_RXQ_STATS_XSK_MAP iut tst iut_if iut_addr tst_addr multi_seg copy_mode)
    begin tidy.
Proof.
  apply xdp_main; [|apply xd_socks_cleans]. unfold two_rules_body.
  pose proof (begin_inv [NET_DRV_XDP_SOCK_INIT; NET_DRV_XDP_SOCK_INIT] ltac:(repeat constructor)) as HI.
  apply st_quiet; [apply adjust_quiet|done|]. intros cfg. apply st_quiet; [solve_only|done|]. intros _.
  apply st_xd_prepare; [done|]. intros ctx Hu. set (L1 := xd_set_ctx ctx _).
  assert (HI1 : xd_inv L1 begin) by exact HI. assert (Hu1 : usable (xd_ctx L1)) by exact Hu. assert (Em1 : xd_map_fd L1 = -1) by done.
  assert (Et1 : xd_tst_s L1 = -1) by done. assert (Es1 : xd_socks L1 = [NET_DRV_XDP_SOCK_INIT; NET_DRV_XDP_SOCK_INIT]) by done.
  clearbody L1. clear HI Hu ctx. apply st_gets. apply st_bind. unfold twhen. destruct (_ <? 2); [done|].
  cbn [wp mret prog_ret T_ret upto]. apply st_xd_get_id; [done|]. intros id s2 HI2 Eg2.
  apply st_pin_map; [done|done|cbn; lia|]. intros fd s3 Hfd HI3 Eg3. rewrite Eg2 in Eg3.
  apply st_still; [by apply choice_still|done|]. intros [[[q1 q2] a1] a2].
  apply st_bind_socket; [done|cbn; lia|]. intros L4 s4 HI4 Eg4 Es4 Eu4 Ei4 Em4. rewrite Eg3 in Eg4.
  assert (Hid : xd_bpf_id L4 <> None) by (by rewrite Ei4). assert (Hm : 0 <= xd_map_fd L4) by (by rewrite Em4).
  change (xd_socks L4 = xd_socks L1) in Es4. rewrite Es1 in Es4. clear Eu4 Ei4 Em4.
  apply (st_create_sock _ _ _ [] NET_DRV_XDP_SOCK_INIT [NET_DRV_XDP_SOCK_INIT]); [done|done|by repeat constructor| |].
  { rewrite Eg4. unfold XdpWatch.owns. cbn. repeat split; constructor. }
  intros k1 s5 L5 HI5 Ho5. assert (Hid5 : xd_bpf_id L5 <> None) by exact Hid. assert (Hm5 : 0 <= xd_map_fd L5) by exact Hm.
  assert (Es5 : xd_socks L5 = [k1] ++ NET_DRV_XDP_SOCK_INIT :: []) by done. clearbody L5.
  apply (st_create_sock _ _ _ [k1] NET_DRV_XDP_SOCK_INIT []); [done|done|done|done|].
  intros k2 s6 L6 HI6 Ho6. assert (Hid6 : xd_bpf_id L6 <> None) by exact Hid5. assert (Hm6 : 0 <= xd_map_fd L6) by exact Hm5. clearbody L6.
  apply st_quiet; [apply wait_socks_quiet|done|]. intros _. do 2 (apply st_quiet; [apply add_rule_quiet|done|]; intros _).
  apply st_quiet; [solve_only|done|]. intros _. apply st_xd_filter; [done|done|]. apply st_echo_at; [done|]. by apply echo_at_ends.
Qed.

(** The same of the test with a single socket and a rule. *)
Theorem af_xdp_rx_rule_tidy :
  wp W (af_xdp_rx_rule_main RPC_XDP_BIND_USE_SG TAPI_BPF_RXQ_STATS_XSK_MAP iut tst iut_if iut_addr tst_addr multi_seg copy_mode)
    begin tidy.
Proof.
  apply xdp_main; [|apply xd_socks_cleans]. unfold xdp_rx_rule_body.
  pose proof (begin_inv [NET_DRV_XDP_SOCK_INIT] ltac:(repeat constructor)) as HI.
  apply st_quiet; [apply adjust_quiet|done|]. intros cfg.
  apply st_bind_socket; [done|done|]. clear HI. intros L s HI Eg Es _ Ei Em.
  apply st_xd_prepare; [done|]. intros ctx Hu. set (L1 := xd_set_ctx ctx L).
  assert (HI1 : xd_inv L1 s) by exact HI. assert (Hu1 : usable (xd_ctx L1)) by exact Hu. assert (Em1 : xd_map_fd L1 = -1) by exact Em.
  assert (Es1 : xd_socks L1 = [NET_DRV_XDP_SOCK_INIT]) by exact Es. clearbody L1. clear HI Hu ctx Es Ei Em L.
  apply st_xd_get_id; [done|]. intros id s2 HI2 Eg2. rewrite Eg in Eg2.
  apply st_pin_map; [done|done|cbn; lia|]. intros fd s3 Hfd HI3 Eg3. rewrite Eg2 in Eg3. set (L3 := xd_set_map_fd fd _) in *.
  assert (Hid : xd_bpf_id L3 <> None) by done. assert (Hm : 0 <= xd_map_fd L3) by exact Hfd.
  assert (Hu3 : usable (xd_ctx L3)) by exact Hu1. assert (Es3 : xd_socks L3 = [] ++ NET_DRV_XDP_SOCK_INIT :: []) by exact Es1. clearbody L3.
  apply st_gets. apply st_call. unfold CHECK_OUT. wp_step. eapply wp_mono.
  { apply (RssTests.predict_wp W (fun s' => s' = s3)); [|exact Hu3|done].
    intros X c s5 x s' Hc Hs Hw. eapply quiet_keeps; [by apply before_read_quiet|exact Hs|exact Hw]. }
  intros [[rc p]| | |] s' [-> H]; try done. cbn [bpost]. destruct (Z.eqb_spec rc 0) as [E|E]; [|done]. wp_step.
  destruct (H E) as [_ [q ->]]; [done|]. cbn [deref]. apply (st_ret W). apply st_bind. unfold twhen. destruct (_ <=? 1); [done|].
  cbn [wp mret prog_ret T_ret upto]. apply st_quiet; [solve_only|done|]. intros rq.
  apply st_quiet; [apply add_rule_quiet|done|]. intros _. apply st_quiet; [solve_only|done|]. intros _.
  apply st_xd_filter; [done|done|]. apply (st_create_sock _ _ _ [] NET_DRV_XDP_SOCK_INIT []); [done|done|done| |].
  { rewrite Eg3. unfold XdpWatch.owns. cbn. repeat split; constructor. }
  intros k1 s5 L5 HI5 Ho5. apply st_quiet; [apply wait_socks_quiet|done|]. intros _. by apply echo_at_ends.
Qed.
End given_back.
