(* ===== verification/DriverUnload.v ===== *)
(** stress/driver_unload.c and stress/driver_unload_traffic.c: the network
    driver is unloaded and loaded again, without and with data flowing.  What
    the second test owns, whether the driver is loaded again by the first, and
    that the second stays within its arrays and ends. *)
From S2P Require Import Prelude Prog Te Locals NetDrvTs DataFlow Resources Usage Traffic.

Section driver_unload.
Context {TE : Te}.

(** [CHECK_NOT_NULL(drv_name = net_drv_driver_name(ta))], and the skip. *)
Definition get_unloadable_driver (ta : string) : M string :=
  drv ← net_drv_driver_name ta;
  match drv with
  | None => raise IS_NULL
  | Some drv =>
      b ← net_drv_driver_unloadable ta drv;
      if (b : bool) then mret drv else TEST_SKIP "Network driver on IUT cannot be unloaded" []
  end.

(** [CHECK_RC(net_drv_neigh_nodes_count(ta, &neigh_nodes_num))], where
    [neigh_nodes_num] was zero. *)
Definition get_neigh_nodes (ta : string) : M Z :=
  n ← CHECK_OUT (net_drv_neigh_nodes_count ta); mret (default 0 n).

(** Loading or unloading with the verdict of the tests. *)
Definition set_loaded_or_verdict (ta drv : string) (load : bool) : M unit :=
  rc ← net_drv_driver_set_loaded ta drv load;
  if negb (rc =? 0) then
    TEST_VERDICT (if load then "Failed to load the driver" else "Failed to unload the driver") []
  else mret tt.

(** [if (reload_in_cleanup) ...]: *)
Definition reload_cleanup (ta drv : string) (neigh : Z) (reload : bool) : M bool :=
  if reload then
    also (cleanup_rc (call (tapi_cfg_module_load ta drv)))
         (cleanup_rc (net_drv_wait_neigh_nodes_recover ta neigh))
  else mret true.

(** ** stress/driver_unload.c *)

Inductive if_status := TEST_IF_DOWN | TEST_IF_UP | TEST_IF_UP_DOWN.
#[global] Instance if_status_eq_dec : EqDecision if_status.
Proof. solve_decision. Defined.

Definition MAX_SLEEP : Z := 100.

Record du_locals := DuLocals { du_drv : string; du_reload : bool; du_neigh : Z }.
Definition du_start : du_locals := DuLocals "" false 0.
Definition du_set_drv (d : string) (l : du_locals) : du_locals := DuLocals d (du_reload l) (du_neigh l).
Definition du_set_reload (b : bool) (l : du_locals) : du_locals := DuLocals (du_drv l) b (du_neigh l).
Definition du_set_neigh (n : Z) (l : du_locals) : du_locals := DuLocals (du_drv l) (du_reload l) n.

(** The state of the interface before unloading. *)
Definition prepare_if (ta ifn : string) (st : if_status) (i : Z) : M unit :=
  _ ← when (bool_decide (st = TEST_IF_UP) || bool_decide (st = TEST_IF_UP_DOWN)) (
    _ ← CHECK_RC (call (tapi_cfg_base_if_up ta ifn));
    when (0 <? i) (ms ← call (rand_range 0 MAX_SLEEP); call (te_motivated_msleep ms)));
  when (bool_decide (st = TEST_IF_UP_DOWN) || ((i =? 0) && bool_decide (st = TEST_IF_DOWN)))
    (CHECK_RC (call (tapi_cfg_base_if_down ta ifn))).

Definition unload_pass (ta ifn : string) (st : if_status) (i : Z) : T du_locals unit :=
  _ ← lift (prepare_if ta ifn st i);
  drv ← gets du_drv;
  _ ← lift (set_loaded_or_verdict ta drv false);
  _ ← modify (du_set_reload true);
  _ ← lift (set_loaded_or_verdict ta drv true);
  _ ← modify (du_set_reload false);
  neigh ← gets du_neigh;
  lift (CHECK_RC (net_drv_wait_neigh_nodes_recover ta neigh)).

Definition unload_body (ta ifn : string) (st : if_status) (iters : Z) : T du_locals unit :=
  drv ← lift (get_unloadable_driver ta);
  _ ← modify (du_set_drv drv);
  neigh ← lift (get_neigh_nodes ta);
  _ ← modify (du_set_neigh neigh);
  t_for (seqZ 0 iters) (unload_pass ta ifn st).

Definition unload_cleanup (ta : string) (l : du_locals) : M bool :=
  reload_cleanup ta (du_drv l) (du_neigh l) (du_reload l).

Definition driver_unload (ta ifn : string) (st : if_status) (iters : Z) : M status :=
  test_main du_start (unload_body ta ifn st iters) (unload_cleanup ta).

(** ** stress/driver_unload_traffic.c *)

Definition WAIT_AFTER_DRIVER_OP : Z := 3.
Definition MAX_SEND_SIZE : Z := 1400.

(** Elements of the arrays [conns] and [flows], as [tapi_calloc] leaves
    them: all bits zero. *)
Definition zero_conn : net_drv_conn :=
  Conn None None (RPC_SOCK_OTHER 0) zero_addr zero_addr false 0 0.
Definition zero_flow : net_drv_flow :=
  Flow None None false 0 false None 0 false 0 0 None None 0 0 zero_sender false false.

(** [ut_bkp]: [cfg_bkp]; the arrays are empty until they are allocated. *)
Record ut_locals := UtLocals {
  ut_conns : list net_drv_conn; ut_flows : list net_drv_flow; ut_bkp : option string;
  ut_reload : bool; ut_drv : string; ut_neigh : Z; ut_success : bool }.
Definition ut_start : ut_locals := UtLocals [] [] None false "" 0 false.
Definition ut_set_conns (c : list net_drv_conn) (l : ut_locals) : ut_locals :=
  UtLocals c (ut_flows l) (ut_bkp l) (ut_reload l) (ut_drv l) (ut_neigh l) (ut_success l).
Definition ut_set_flows (f : list net_drv_flow) (l : ut_locals) : ut_locals :=
  UtLocals (ut_conns l) f (ut_bkp l) (ut_reload l) (ut_drv l) (ut_neigh l) (ut_success l).
Definition ut_set_bkp (b : string) (l : ut_locals) : ut_locals :=
  UtLocals (ut_conns l) (ut_flows l) (Some b) (ut_reload l) (ut_drv l) (ut_neigh l) (ut_success l).
Definition ut_set_reload (b : bool) (l : ut_locals) : ut_locals :=
  UtLocals (ut_conns l) (ut_flows l) (ut_bkp l) b (ut_drv l) (ut_neigh l) (ut_success l).
Definition ut_set_drv (d : string) (l : ut_locals) : ut_locals :=
  UtLocals (ut_conns l) (ut_flows l) (ut_bkp l) (ut_reload l) d (ut_neigh l) (ut_success l).
Definition ut_set_neigh (n : Z) (l : ut_locals) : ut_locals :=
  UtLocals (ut_conns l) (ut_flows l) (ut_bkp l) (ut_reload l) (ut_drv l) n (ut_success l).
Definition ut_set_success (b : bool) (l : ut_locals) : ut_locals :=
  UtLocals (ut_conns l) (ut_flows l) (ut_bkp l) (ut_reload l) (ut_drv l) (ut_neigh l) b.

(** Code over [conns[i]] and over [flows[j]]; an index outside the array is
    undefined. *)
Definition at_conn {A} (i : nat) (p : T (C := te_call) net_drv_conn A) : T (C := te_call) ut_locals A := fun L =>
  match ut_conns L !! i with
  | Some c => '(c, r) ← p c; mret (ut_set_conns (<[i := c]> (ut_conns L)) L, r)
  | None => Done (Undef "conns[] is indexed out of bounds")
  end.
Definition at_flow {A} (j : nat) (p : T (C := te_call) net_drv_flow A) : T (C := te_call) ut_locals A := fun L =>
  match ut_flows L !! j with
  | Some f => '(f, r) ← p f; mret (ut_set_flows (<[j := f]> (ut_flows L)) L, r)
  | None => Done (Undef "flows[] is indexed out of bounds")
  end.

Section unload_traffic.
Context (iut tst : rcf_rpc_server) (iut_addr tst_addr : sockaddr) (send_time : Z) (unload_once : bool).
Local Abbreviation ta := (rpcs_ta iut).

(** Flow [2 * i + j] over connection [i]. *)
Definition setup_flow (i j : nat) : T ut_locals unit :=
  c ← at_conn i get;
  _ ← at_flow (2 * i + j) (modify (fun f =>
        fl_set_sizes 1 MAX_SEND_SIZE
          (fl_set_dir (bool_decide (j = 0%nat)) (Z.of_nat (2 * i + j)) (fl_set_input iut tst c send_time f))));
  at_flow (2 * i + j) net_drv_flow_prepare.

Definition setup_conn (i : nat) : T ut_locals unit :=
  _ ← at_conn i (modify (cn_set_input iut tst RPC_SOCK_DGRAM iut_addr tst_addr true));
  _ ← at_conn i net_drv_conn_create;
  t_for (seq 0 2) (setup_flow i).

(** One pass of the loop; [true]: it is the last. *)
Definition traffic_unload_pass (tv_start : timeval) : T ut_locals bool :=
  drv ← gets ut_drv;
  _ ← lift (set_loaded_or_verdict ta drv false);
  _ ← modify (ut_set_reload true);
  _ ← lift (call (te_motivated_sleep WAIT_AFTER_DRIVER_OP));
  _ ← lift (set_loaded_or_verdict ta drv true);
  _ ← modify (ut_set_reload false);
  neigh ← gets ut_neigh;
  _ ← lift (CHECK_RC (net_drv_wait_neigh_nodes_recover ta neigh));
  _ ← lift (CHECK_RC (call (cfg_synchronize ("/agent:" +:+ ta) true)));
  bkp ← gets ut_bkp;
  _ ← lift (bkp ← deref bkp; CHECK_RC (call (cfg_restore_backup_nohistory bkp)));
  _ ← lift (call (te_motivated_sleep WAIT_AFTER_DRIVER_OP));
  tv_now ← lift (CHECK_OUT (call te_gettimeofday));
  mret (if send_time <=? TE_US2SEC (TIMEVAL_SUB tv_now tv_start) then true else unload_once).

Definition finish_flow (j : nat) : T ut_locals unit :=
  _ ← at_flow j net_drv_flow_finish;
  f ← at_flow j get;
  twhen (negb (fl_success f)) (modify (ut_set_success false)).

(** Everything up to the flows being prepared. *)
Definition unload_traffic_setup (conns_num : nat) : T ut_locals unit :=
  drv ← lift (get_unloadable_driver ta);
  _ ← modify (ut_set_drv drv);
  neigh ← lift (get_neigh_nodes ta);
  _ ← modify (ut_set_neigh neigh);
  _ ← modify (ut_set_conns (replicate conns_num zero_conn));
  _ ← modify (ut_set_flows (replicate (conns_num * 2) zero_flow));
  t_for (seq 0 conns_num) setup_conn.

(** The traffic, the loop, and the checks. *)
Definition unload_traffic_run (fuel : nat) (conns_num : nat) : T ut_locals unit :=
  bkp ← lift (CHECK_OUT (call cfg_create_backup));
  _ ← modify (ut_set_bkp bkp);
  _ ← t_for (seq 0 (conns_num * 2)) (fun j => at_flow j net_drv_flow_start);
  tv_start ← lift (CHECK_OUT (call te_gettimeofday));
  _ ← t_loop fuel (traffic_unload_pass tv_start);
  _ ← modify (ut_set_success true);
  _ ← t_for (seq 0 (conns_num * 2)) finish_flow;
  send_success ← gets ut_success;
  _ ← lift (if (send_success : bool) then mret tt
            else TEST_VERDICT "Unexpected error occurred during sending or receiving performed concurrently with driver unloading and reloading" []);
  c ← at_conn 0 get;
  lift (net_drv_conn_check fuel iut (cn_s1 c) "IUT" tst (cn_s2 c) "Tester" "Final check").

(** [CLEANUP_CHECK_RC] for every element of an array. *)
Fixpoint also_all (l : list (M bool)) : M bool :=
  match l with
  | [] => mret true
  | p :: l' => also p (also_all l')
  end.

Definition unload_traffic_cleanup (l : ut_locals) : M bool :=
  also (reload_cleanup ta (ut_drv l) (ut_neigh l) (ut_reload l))
 (also (match ut_bkp l with Some b => cleanup_rc (call (cfg_release_backup b)) | None => mret true end)
 (also (also_all (map destroy_flow (ut_flows l)))
       (also_all (map destroy_conn (ut_conns l))))).

Definition driver_unload_traffic (fuel : nat) (conns_num : nat) : M status :=
  test_main ut_start (_ ← unload_traffic_setup conns_num; unload_traffic_run fuel conns_num)
    unload_traffic_cleanup.
End unload_traffic.
End driver_unload.

(** ** Waiting for the neighbour entries, and the driver's name *)
Section calls.
Context {TE : Te} {S : Type} (E : env te_call S) (P : S -> Prop).

(** What holds before holds after, and the code returns. *)
Definition returns {A} (r : result A) (s : S) : Prop := match r with Val _ => P s | _ => False end.
(** ... or leaves with a jump. *)
Definition ends_keeping {A} (r : result A) (s : S) : Prop :=
  match r with Val _ | Exc _ => P s | _ => False end.

(** The calls made on the way. *)
Definition is_wait_call X (c : te_call X) : bool :=
  match c with
  | cfg_synchronize _ _ | cfg_find_pattern _ | te_motivated_msleep _
  | getenv _ | tapi_cfg_module_check_devices _ _ | tapi_cfg_pci_get_ta_driver _ => true
  | _ => false
  end.
Context (HE : forall X (c : te_call X) s x s', is_wait_call X c = true -> P s -> E X c s x s' -> P s').

Ltac keep H := match goal with HX : E _ _ _ _ _ |- _ => apply HE in HX; [|done|exact H]; clear H; rename HX into H end.

Lemma neigh_count_wp ta s : P s ->
  wp E (net_drv_neigh_nodes_count ta) s
    (fun r s' => match r with Val (rc, n) => P s' /\ (rc = 0 -> is_Some n) | _ => False end).
Proof.
  intros Hs. unfold net_drv_neigh_nodes_count. wp_step. wp_step. keep Hs. destruct x as [rc hs].
  cbn [bpost]. wp_go; try (split; [exact Hs|]); eauto.
  intros ->. done.
Qed.

Lemma wait_neigh_wp ta num s : P s -> wp E (net_drv_wait_neigh_nodes_recover ta num) s returns.
Proof.
  intros Hs. unfold net_drv_wait_neigh_nodes_recover. wp_step.
  apply (wp_for_n _ _ _ _ _ _ _ (fun _ _ => P)); [exact Hs| |].
  - clear s Hs. intros i [] s _ Hs. unfold neigh_pass. wp_step. wp_step. keep Hs. cbn [bpost].
    destruct (negb (x =? 0)); [wp_go; exact Hs|]. wp_step. eapply wp_mono; [by apply neigh_count_wp|].
    intros [[rc n]| | |] s2 H; try done. destruct H as [H Hn]. cbn [bpost].
    destruct (negb (rc =? 0)) eqn:Erc; [wp_go; exact H|]. autorewrite with zbool in Erc.
    destruct (Hn Erc) as [k ->]. destruct (num <=? k); [wp_go; exact H|]. wp_step.
    unfold when. destruct (i <? neigh_attempts - 1); [|wp_go; exact H].
    wp_step. keep H. cbn [bpost]. wp_go. exact H.
  - clear s Hs. intros [] s Hs. cbn [bpost]. wp_go. exact Hs.
Qed.

Lemma get_neigh_nodes_wp ta s : P s -> wp E (get_neigh_nodes ta) s ends_keeping.
Proof.
  intros Hs. unfold get_neigh_nodes, CHECK_OUT. do 2 wp_step. eapply wp_mono; [by apply neigh_count_wp|].
  intros [[rc n]| | |] s' H; try done. destruct H as [H _]. cbn [bpost]. destruct (rc =? 0); wp_go; exact H.
Qed.

(** Loading the module. *)
Context (Hload : forall ta drv s x s', E _ (tapi_cfg_module_load ta drv) s x s' -> P s -> P s').

Lemma reload_cleanup_wp ta drv neigh b s : P s -> wp E (reload_cleanup ta drv neigh b) s returns.
Proof.
  intros Hs. unfold reload_cleanup. destruct b; [|exact Hs]. eapply wp_also with (R := P).
  - unfold cleanup_rc. wp_step. wp_step. apply Hload in H; [|exact Hs]. cbn [bpost]. wp_go. exact H.
  - clear s Hs. intros s Hs. unfold cleanup_rc. wp_step. eapply wp_mono; [by apply wait_neigh_wp|].
    by intros [rc| | |] s' H.
Qed.

(** The driver of an agent, when it is found, has a name. *)
Context (Hname : forall ta s x s', E _ (tapi_cfg_pci_get_ta_driver ta) s x s' -> fst x = 0 -> is_Some (snd x)).

Lemma get_unloadable_driver_wp ta s : P s -> wp E (get_unloadable_driver ta) s ends_keeping.
Proof.
  intros Hs. unfold get_unloadable_driver, net_drv_driver_name, net_drv_driver_unloadable.
  do 3 wp_step. pose proof (Hname _ _ _ _ H) as Hn. keep Hs. destruct x as [rc name]. cbn [bpost fst snd] in *.
  destruct (negb (rc =? 0)) eqn:Erc; [wp_go; exact Hs|]. autorewrite with zbool in Erc.
  destruct (Hn Erc) as [n ->]. assert (Hrest : forall drv, wp E (
      b ← (allow_unsafe ← call (getenv "TE_ALLOW_UNSAFE_UNLOAD");
       if match allow_unsafe with Some v => String.eqb v "yes" | None => false end then mret true
       else '(rc, all_grabbed) ← call (tapi_cfg_module_check_devices ta drv);
         if (rc =? 0) && all_grabbed then mret true else mret false);
      if (b : bool) then mret drv else TEST_SKIP "Network driver on IUT cannot be unloaded" []) s' ends_keeping).
  { intros drv. do 3 wp_step. keep Hs. cbn [bpost]. destruct (match x with Some v => _ | None => _ end).
    - wp_go. exact Hs.
    - do 2 wp_step. keep Hs. cbn [bpost]. wp_go; exact Hs. }
  destruct (n =? "virtio-pci")%string; wp_step; cbn [bpost]; apply Hrest.
Qed.
End calls.

(** ** What the test under traffic owns *)
Section arrays.
Context {S A : Type} (E : env te_call S) (F : ut_locals -> S -> Prop) (G : A -> ut_locals -> S -> Prop).

(** Code over an element of an array. *)
Lemma at_conn_upto i c (p : T net_drv_conn A) L s :
  ut_conns L !! i = Some c ->
  wp E (p c) s (fun r s' => match r with
    | Val (c', inl a) => G a (ut_set_conns (<[i := c']> (ut_conns L)) L) s'
    | Val (c', inr _) => F (ut_set_conns (<[i := c']> (ut_conns L)) L) s'
    | NoFuel => True
    | Undef _ | Exc _ => False
    end) -> wp E (at_conn i p L) s (upto F G).
Proof.
  intros Hi H. unfold at_conn. rewrite Hi. apply wp_bind. eapply wp_mono; [exact H|].
  intros [[c' [a|j]]| | |] s' Hr; cbn in *; auto.
Qed.

Lemma at_flow_upto j f (p : T net_drv_flow A) L s :
  ut_flows L !! j = Some f ->
  wp E (p f) s (fun r s' => match r with
    | Val (f', inl a) => G a (ut_set_flows (<[j := f']> (ut_flows L)) L) s'
    | Val (f', inr _) => F (ut_set_flows (<[j := f']> (ut_flows L)) L) s'
    | NoFuel => True
    | Undef _ | Exc _ => False
    end) -> wp E (at_flow j p L) s (upto F G).
Proof.
  intros Hi H. unfold at_flow. rewrite Hi. apply wp_bind. eapply wp_mono; [exact H|].
  intros [[c' [a|k]]| | |] s' Hr; cbn in *; auto.
Qed.
End arrays.

(** Reading an element changes nothing. *)
Lemma set_conns_same L i c : ut_conns L !! i = Some c -> ut_set_conns (<[i := c]> (ut_conns L)) L = L.
Proof. intros H. rewrite list_insert_id by done. by destruct L. Qed.
Lemma set_flows_same L j f : ut_flows L !! j = Some f -> ut_set_flows (<[j := f]> (ut_flows L)) L = L.
Proof. intros H. rewrite list_insert_id by done. by destruct L. Qed.

Section owning.
Context {TE : Te} (iut tst : rcf_rpc_server) (Hne : iut <> tst).
Local Abbreviation world := (u_world iut tst).

(** The connection that could not be created: its sockets are still those of
    the zeroed array, descriptor 0. *)
Definition bad_conn (cs : list net_drv_conn) (u : usage) : Prop :=
  exists i c, cs !! i = Some c /\ planned iut tst c /\ cn_s1 c = 0 /\ cn_s2 c = 0 /\
    conns_own iut tst (take i cs) u /\ forall k d, (i < k)%nat -> cs !! k = Some d -> d = zero_conn.

(** At any time the cleanup may begin. *)
Definition ut_inv (L : ut_locals) (u : usage) : Prop :=
  (u_fork_failed u = false /\ u_stray u = false /\ flows_own iut tst (ut_flows L) (u_kids u) /\
   if u_conn_failed u then bad_conn (ut_conns L) u else conns_own iut tst (ut_conns L) u) \/
  (u_fork_failed u = true /\ Forall has_conn (ut_flows L)).

(** [m] connections exist and [k] flows were prepared, of [n] and [n * 2]. *)
Record mid (n m k : nat) (L : ut_locals) (u : usage) : Prop := Mid {
  mid_ok : u_fork_failed u = false /\ u_stray u = false /\ u_conn_failed u = false;
  mid_conns : length (ut_conns L) = n;
  mid_own : conns_own iut tst (ut_conns L) u;
  mid_made : forall i, (i < m)%nat -> exists c, ut_conns L !! i = Some c /\
    cn_s1 c ∈ u_iut u /\ cn_s2 c ∈ u_tst u;
  mid_zero : forall i, (m <= i < n)%nat -> ut_conns L !! i = Some zero_conn;
  mid_flows : length (ut_flows L) = (n * 2)%nat;
  mid_kids : flows_own iut tst (ut_flows L) (u_kids u);
  mid_ready : forall j f, (j < k)%nat -> ut_flows L !! j = Some f -> fl_new_processes f = true;
  mid_unused : forall j, (k <= j < n * 2)%nat -> ut_flows L !! j = Some zero_flow }.

Lemma mid_inv n m k L u : mid n m k L u -> ut_inv L u.
Proof.
  intros H. left. pose proof (mid_ok _ _ _ _ _ H) as (H1 & H2 & H3). rewrite H3.
  split; [done|]. split; [done|]. split; [apply H|apply H].
Qed.

(** Connections that were never made own nothing. *)
Lemma own_take i cs u : (forall k d, (i <= k)%nat -> cs !! k = Some d -> d = zero_conn) ->
  conns_own iut tst cs u -> conns_own iut tst (take i cs) u.
Proof.
  intros Hz ([N1 E1] & [N2 E2] & HF).
  assert (Hd : forall g : net_drv_conn -> list Z, g zero_conn = [] -> cs ≫= g = take i cs ≫= g).
  { intros g Hg. rewrite <- (take_drop i cs) at 1. rewrite bind_app.
    assert (En : drop i cs ≫= g = []); [|by rewrite En, app_nil_r].
    assert (HF' : Forall (fun d => d = zero_conn) (drop i cs)).
    { apply Forall_lookup. intros k d Hk. rewrite lookup_drop in Hk. eapply (Hz (i + k)%nat); [lia|done]. }
    clear -HF' Hg. induction HF' as [|d l -> _ IH]; [done|]. cbn. by rewrite Hg. }
  unfold conns_own. rewrite <- !Hd by done. split; [done|]. split; [done|]. by apply Forall_take.
Qed.

Lemma kids_have_conn fs K : flows_own iut tst fs K -> Forall has_conn fs.
Proof.
  intros (_ & _ & H). eapply Forall_impl; [exact H|]. intros f Hf Hn.
  destruct (Hf Hn) as (c & a & b & A & B & Hc & _). by rewrite Hc.
Qed.

(** *** The cleanup *)

Lemma flows_destroyed fs u (Q : result bool -> usage -> Prop) :
  flows_own iut tst fs (u_kids u) ->
  (forall ok, Q (Val ok) (u_set_kids ∅ u)) ->
  wp world (also_all (map destroy_flow fs)) u Q.
Proof.
  revert u Q. induction fs as [|f fs IH]; intros u Q Hf HQ.
  - destruct Hf as (_ & Hd & _). cbn in Hd. apply dom_empty_inv_L in Hd.
    specialize (HQ true). destruct u. cbn in *. subst. exact HQ.
  - cbn [map also_all]. unfold also. wp_step. unfold destroy_flow at 1, cleanup_rc. wp_step.
    eapply (flow_destroy_wp iut tst); [exact Hf|]. intros rc K HK. cbn [bpost]. wp_go.
    apply IH; [done|]. intros ok. cbn [bpost]. wp_go. apply HQ.
Qed.

Lemma conns_destroyed cs ps u (P : usage -> Prop) :
  conns_own iut tst cs u ->
  (forall u', u_iut u' = ∅ -> u_tst u' = ∅ -> u_kids u' = u_kids u -> u_stray u' = u_stray u ->
     wp world (also_all ps) u' (fun r u' => match r with Val _ => P u' | _ => False end)) ->
  wp world (also_all (map destroy_conn cs ++ ps)) u (fun r u' => match r with Val _ => P u' | _ => False end).
Proof.
  revert u. induction cs as [|c cs IH]; intros u Hc HP.
  - destruct Hc as ([_ E1] & [_ E2] & _). by apply HP.
  - cbn [map also_all app]. eapply wp_also with (R := fun u' => conns_own iut tst cs u' /\
      u_kids u' = u_kids u /\ u_stray u' = u_stray u).
    + unfold destroy_conn, cleanup_rc. wp_go. eapply (conn_destroy_wp iut tst Hne); [exact Hc|].
      intros rc S T H. cbn [bpost]. by wp_go.
    + intros u' (Hc' & Ek & Es). apply IH; [done|]. intros u2 E1 E2 E3 E4. apply HP; congruence.
Qed.

(** Connections of a zeroed array are skipped. *)
Lemma zero_conns_skipped cs u (P : usage -> Prop) :
  Forall (fun c => c = zero_conn) cs -> P u ->
  wp world (also_all (map destroy_conn cs)) u (fun r u' => match r with Val _ => P u' | _ => False end).
Proof.
  intros H Hu. revert u Hu. induction H as [|c cs -> _ IH]; intros u Hu; [done|].
  cbn [map also_all]. eapply wp_also with (R := P); [done|]. apply IH.
Qed.

(** Descriptor 0 is closed although it was never opened. *)
Lemma bad_conn_destroyed cs u : bad_conn cs u ->
  wp world (also_all (map destroy_conn cs)) u
    (fun r u' => match r with Val _ => u_stray u' = true | _ => False end).
Proof.
  intros (i & c & Hi & [P1 P2] & Z1 & Z2 & Ho & Hz).
  rewrite <- (take_drop_middle cs i c) by done. rewrite map_app. cbn [map].
  apply conns_destroyed; [done|]. intros u' E1 E2 _ _. cbn [also_all].
  eapply wp_also with (R := fun u => u_stray u = true).
  - unfold destroy_conn, cleanup_rc, net_drv_conn_destroy, close_end. rewrite P1, P2, Z1, Z2. cbn [Z.leb Z.compare].
    wp_go; cbn [u_upd]; rewrite (fds_iut iut tst), E1;
      rewrite (bool_decide_false (0 ∈ ∅)) by (apply not_elem_of_empty);
      case_bool_decide; rewrite ?set_fds_stray; done.
  - intros u2 H2. apply zero_conns_skipped; [|done]. apply Forall_lookup. intros k d Hk.
    rewrite lookup_drop in Hk. eapply Hz; [|exact Hk]. lia.
Qed.

Lemma flows_failed fs u : Forall has_conn fs -> u_fork_failed u = true ->
  wp world (also_all (map destroy_flow fs)) u still_failed.
Proof.
  intros H. revert u. induction H as [|f fs Hf _ IH]; intros u Hu; [done|]. cbn [map also_all].
  eapply wp_also; [|exact IH]. unfold destroy_flow, cleanup_rc. wp_go.
  eapply wp_mono; [by apply flow_destroy_failed_wp|]. by intros [rc| | |] u' H'.
Qed.

Lemma conns_failed cs u : u_fork_failed u = true ->
  wp world (also_all (map destroy_conn cs)) u still_failed.
Proof.
  revert u. induction cs as [|c cs IH]; intros u Hu; [done|]. cbn [map also_all].
  eapply wp_also; [|exact IH]. unfold destroy_conn, cleanup_rc. wp_go.
  eapply wp_mono; [by apply conn_destroy_failed_wp|]. by intros [rc| | |] u' H'.
Qed.

(** Closing says nothing new of connections that failed. *)
Lemma conns_keep_failed cs u :
  wp world (also_all (map destroy_conn cs)) u (fun _ u' => u_conn_failed u' = u_conn_failed u).
Proof.
  eapply wp_mono; [apply (wp_only (fun X c => match c with rpc_close _ _ => true | _ => false end) any_jump world
    (fun u' => u_conn_failed u' = u_conn_failed u)); [| |done]|by intros r u' [H _]].
  - induction cs as [|c cs IH]; [done|]. cbn [map also_all]. unfold also. apply only_bind.
    + unfold destroy_conn, cleanup_rc, net_drv_conn_destroy, close_end. solve_only.
    + intros b. by apply only_bind.
  - intros X c s x s' Hc Hs [_ ->]. destruct c; try done. by rewrite upd_close_conn.
Qed.

(** What the test leaves behind. *)
Definition left_behind (u : usage) : Prop :=
  u_fork_failed u = false -> if u_conn_failed u then u_stray u = true else released u.

Lemma unload_traffic_cleanup_wp L u : ut_inv L u ->
  wp world (unload_traffic_cleanup iut L) u
    (fun r u' => match r with Val _ => left_behind u' | _ => False end).
Proof.
  intros HI. unfold unload_traffic_cleanup. eapply wp_also with (R := ut_inv L).
  { eapply wp_mono; [apply (reload_cleanup_wp world (ut_inv L)); [| |exact HI]|intros r u' H; exact H].
    - intros X c s x s' Hc Hs [_ ->]. by destruct c.
    - by intros ta drv s x s' [_ ->] Hs. }
  clear u HI. intros u HI. eapply wp_also with (R := ut_inv L).
  { destruct (ut_bkp L); [|done]. unfold cleanup_rc. wp_go. exact HI. }
  clear u HI. intros u [(Hff & Hst & Hf & Hc)|(Hff & Hf)].
  - eapply wp_also with (R := fun u' => u_stray u' = false /\ u_kids u' = ∅ /\ u_conn_failed u' = u_conn_failed u /\
      if u_conn_failed u then bad_conn (ut_conns L) u' else conns_own iut tst (ut_conns L) u').
    + by apply flows_destroyed.
    + intros u' (Hst' & Hk & Ec & Hc'). unfold left_behind.
      eapply wp_mono; [apply (wp_and world _ u' (fun _ u2 => u_conn_failed u2 = u_conn_failed u') (fun r u2 => match r with
        | Val _ => if u_conn_failed u then u_stray u2 = true else released u2
        | _ => False
        end)); [apply (conns_keep_failed _ u')|]|].
      2: { intros r u2 [H1 H2]. destruct r; [|exact H2..]. intros _. rewrite H1, Ec. exact H2. }
      destruct (u_conn_failed u) eqn:Ecf; [by apply bad_conn_destroyed|].
      rewrite <- (app_nil_r (map _ _)). apply conns_destroyed; [done|]. intros u2 E1 E2 E3 E4.
      cbn. unfold released. by rewrite E1, E2, E3, E4.
  - eapply wp_also; [by apply flows_failed|]. intros u' Hu'. eapply wp_mono; [by apply conns_failed|].
    intros [b| | |] u2 H; try done. cbn in H. intros H'. congruence.
Qed.

(** *** Setting up *)

Lemma mid_opened n i L u u' c : (i < n)%nat -> mid n i (2 * i) L u -> opened iut tst u u' c ->
  mid n (S i) (2 * i) (ut_set_conns (<[i := c]> (ut_conns L)) L) u'.
Proof.
  intros Hi [(Hff & Hst & Hcf) Hn Ho Hm Hz Hnf Hk Hr Hu] H.
  pose proof (own_opened iut tst _ i _ _ _ _ (Hz i ltac:(lia)) eq_refl eq_refl Ho H) as Ho'.
  destruct H as (_ & _ & _ & _ & _ & ->). constructor; cbn.
  - done.
  - by rewrite length_insert.
  - exact Ho'.
  - intros k Hk'. destruct (decide (k = i)) as [->|Hne'].
    + exists c. rewrite list_lookup_insert_eq by (rewrite Hn; lia). cbn.
      by split; [|split]; [|apply elem_of_union_r, elem_of_singleton..].
    + destruct (Hm k ltac:(lia)) as (c' & Hc' & F1 & F2). exists c'. rewrite list_lookup_insert_ne by done. cbn.
      by split; [|split]; [|apply elem_of_union_l..].
  - intros k Hk'. rewrite list_lookup_insert_ne by lia. apply Hz. lia.
  - done.
  - exact Hk.
  - exact Hr.
  - exact Hu.
Qed.

(** The connection that could not be created. *)
Lemma mid_bad n i L u c : (i < n)%nat -> mid n i (2 * i) L u -> planned iut tst c -> cn_s1 c = 0 -> cn_s2 c = 0 ->
  ut_inv (ut_set_conns (<[i := c]> (ut_conns L)) L) (u_no_conn u).
Proof.
  intros Hi [(Hff & Hst & Hcf) Hn Ho Hm Hz Hnf Hk Hr Hu] Hp Z1 Z2. left. cbn.
  split; [done|]. split; [done|]. split; [done|]. exists i, c.
  assert (Hz' : forall k d, (i <= k)%nat -> ut_conns L !! k = Some d -> d = zero_conn).
  { intros k d Hk' Hd. apply lookup_lt_Some in Hd as Hlt. rewrite Hz in Hd by lia. congruence. }
  rewrite list_lookup_insert_eq by (rewrite Hn; lia).
  split; [done|]. split; [done|]. split; [done|]. split; [done|]. split.
  - rewrite take_insert_ge by done. by apply own_take.
  - intros k d Hk' Hd. rewrite list_lookup_insert_ne in Hd by lia. eapply Hz'; [|exact Hd]. lia.
Qed.

(** Creating connection [i]. *)
Lemma setup_conn_created iut_addr tst_addr n i {B} (G : B -> ut_locals -> usage -> Prop) (f : T ut_locals B) L u :
  (i < n)%nat -> mid n i (2 * i) L u ->
  (forall L' u', mid n (S i) (2 * i) L' u' -> wp world (f L') u' (upto ut_inv G)) ->
  wp world ((_ ← at_conn i (modify (cn_set_input iut tst RPC_SOCK_DGRAM iut_addr tst_addr true));
             _ ← at_conn i net_drv_conn_create; f) L) u (upto ut_inv G).
Proof.
  intros Hi HM Hf. apply st_bind. eapply at_conn_upto; [apply (mid_zero _ _ _ _ _ HM); lia|].
  cbn [wp modify mret T_ret prog_ret].
  set (c0 := cn_set_input _ _ _ _ _ _ zero_conn). apply st_bind.
  assert (Hlen : (i < length (ut_conns L))%nat) by (rewrite (mid_conns _ _ _ _ _ HM); lia).
  eapply at_conn_upto; [cbn; by rewrite list_lookup_insert_eq|].
  eapply wp_mono; [apply (conn_create_wp iut tst Hne); done|].
  intros [[c [[]|j]]| | |] u' H; try done; cbn [ut_conns ut_set_conns]; rewrite list_insert_insert_eq.
  - apply Hf. exact (mid_opened n i L u u' c Hi HM H).
  - destruct H as (-> & Hp & Z1 & Z2). exact (mid_bad n i L u c Hi HM Hp Z1 Z2).
Qed.

(** Preparing flow [2 * i + j]. *)
Lemma setup_flow_keeps send_time n i j L u : (i < n)%nat -> (j < 2)%nat -> mid n (S i) (2 * i + j) L u ->
  wp world (setup_flow iut tst send_time i j L) u (upto ut_inv (fun _ => mid n (S i) (2 * i + S j))).
Proof.
  intros Hi Hj HM. pose proof HM as [(Hff & Hst & Hcf) Hn Ho Hm Hz Hnf Hk Hr Hu].
  destruct (Hm i ltac:(lia)) as (c & Hc & F1 & F2). unfold setup_flow. apply st_bind.
  eapply at_conn_upto; [exact Hc|]. cbn [wp get mret prog_ret]. rewrite set_conns_same by done.
  set (k := (2 * i + j)%nat) in *. assert (Hkz : ut_flows L !! k = Some zero_flow) by (apply Hu; lia).
  assert (Hlen : (k < length (ut_flows L))%nat) by (rewrite Hnf; lia).
  apply st_bind. eapply at_flow_upto; [exact Hkz|]. cbn [wp modify mret prog_ret].
  match goal with |- context [<[k := ?g]> (ut_flows L)] => set (f0 := g) end.
  eapply at_flow_upto; [cbn; by rewrite list_lookup_insert_eq|].
  eapply wp_mono; [apply (flow_prepare_wp iut tst Hne)|].
  { unfold wired_in, f0. cbn. eauto 10. }
  intros [[f' [[]|e]]| | |] u' H; try done; cbn [ut_flows ut_set_flows]; rewrite list_insert_insert_eq.
  - pose proof (own_acquired iut tst Hne _ k _ _ _ _ Hkz eq_refl Hk H) as Hk'.
    destruct H as (a & b & K & -> & _ & _ & Hnew & _). constructor; cbn; try done.
    + by rewrite length_insert.
    + intros q g Hq. destruct (decide (q = k)) as [->|Hqk].
      * rewrite list_lookup_insert_eq by done. by intros [= <-].
      * rewrite list_lookup_insert_ne by done. apply Hr. lia.
    + intros q Hq. rewrite list_lookup_insert_ne by lia. apply Hu. lia.
  - right. destruct H as [H1 H2]. split; [done|]. cbn. apply Forall_insert; [|done]. by eapply kids_have_conn.
Qed.

Lemma setup_conn_keeps iut_addr tst_addr send_time n i L u : (i < n)%nat -> mid n i (2 * i) L u ->
  wp world (setup_conn iut tst iut_addr tst_addr send_time i L) u (upto ut_inv (fun _ => mid n (S i) (2 * S i))).
Proof.
  intros Hi HM. unfold setup_conn. eapply setup_conn_created; [exact Hi|exact HM|].
  clear L u HM. intros L u HM. cbn [seq t_for].
  apply st_bind. eapply wp_mono; [apply setup_flow_keeps; [exact Hi|lia|]|].
  { by rewrite Nat.add_0_r. }
  intros [[L1 [[]|e]]| | |] u1 H1; try done. cbn [upto] in H1.
  apply st_bind. eapply wp_mono; [apply setup_flow_keeps; [exact Hi|lia|exact H1]|].
  intros [[L2 [[]|e]]| | |] u2 H2; try done. cbn [upto] in *.
  by replace (2 * S i)%nat with (2 * i + 2)%nat by lia.
Qed.

(** *** The whole test *)

(** Locals and usage before anything was taken, with arrays of [n] and [n * 2]. *)
Lemma mid_start n L : ut_conns L = replicate n zero_conn -> ut_flows L = replicate (n * 2) zero_flow ->
  mid n 0 0 L u_start.
Proof.
  intros Ec Ef. assert (Hz : forall i, (i < n)%nat -> replicate n zero_conn !! i = Some zero_conn)
    by (intros; by apply lookup_replicate_2).
  constructor; rewrite ?Ec, ?Ef, ?length_replicate; try done.
  - assert (E : forall g : net_drv_conn -> list Z, g zero_conn = [] -> replicate n zero_conn ≫= g = []).
    { intros g Hg. clear -Hg. induction n as [|n IH]; [done|]. cbn. by rewrite Hg. }
    unfold conns_own. rewrite !E by done. split; [split; [constructor|done]|]. split; [split; [constructor|done]|].
    apply Forall_replicate. split; left.
  - intros i Hi. lia.
  - intros i Hi. apply Hz. lia.
  - apply unused_own, Forall_replicate. done.
  - intros j f Hj. lia.
  - intros j Hj. apply lookup_replicate_2. lia.
Qed.

Lemma unload_traffic_setup_keeps iut_addr tst_addr send_time n :
  wp world (unload_traffic_setup iut tst iut_addr tst_addr send_time n ut_start) u_start
    (upto ut_inv (fun _ => mid n n (2 * n))).
Proof.
  assert (HE : forall X (c : te_call X) s x s', is_wait_call X c = true -> s = u_start -> world X c s x s' -> s' = u_start).
  { intros X c s x s' Hc -> [_ ->]. by destruct c. }
  assert (Hstart : forall L, ut_conns L = [] -> ut_flows L = [] -> ut_inv L u_start).
  { intros L Ec Ef. left. rewrite Ec, Ef. split; [done|]. split; [done|]. split; [by apply unused_own|].
    cbn. split; [split; [constructor|done]|]. split; [split; [constructor|done]|constructor]. }
  unfold unload_traffic_setup. apply st_call. eapply wp_mono.
  { apply (get_unloadable_driver_wp world (fun u => u = u_start)); [exact HE| |done]. by intros ta s x s' [H _]. }
  intros [drv|j| |] u Hu; cbn in Hu; try done; subst u; [|by apply Hstart].
  apply st_modify. apply st_call. eapply wp_mono.
  { by apply (get_neigh_nodes_wp world (fun u => u = u_start)). }
  intros [neigh|j| |] u Hu; cbn in Hu; try done; subst u; [|by apply Hstart].
  do 3 apply st_modify. eapply wp_mono.
  { apply (st_for world ut_inv _ _ (fun pre L u => mid n (length pre) (2 * length pre) L u)).
    - by apply mid_start.
    - intros pre i post L u Hl HM. rewrite length_app, Nat.add_1_r.
      destruct (seq_split _ _ _ _ Hl) as [-> Hlt]. by apply setup_conn_keeps. }
  intros [[L [[]|j]]| | |] u H; try done. cbn in *. by rewrite length_seq in H.
Qed.

(** While the test runs: all is set up, and there is a backup. *)
Definition running (n : nat) (L : ut_locals) (u : usage) : Prop :=
  mid n n (2 * n) L u /\ is_Some (ut_bkp L).

Lemma running_inv n L u : running n L u -> ut_inv L u.
Proof. intros [H _]. by eapply mid_inv. Qed.

(** Other locals do not matter. *)
Lemma mid_ext n m k L L' u : ut_conns L' = ut_conns L -> ut_flows L' = ut_flows L -> mid n m k L u -> mid n m k L' u.
Proof. intros Ec Ef []. constructor; rewrite ?Ec, ?Ef; done. Qed.

(** A neutral call while the test runs. *)
Lemma st_running {A B} n (G : B -> ut_locals -> usage -> Prop) (p : M A) (f : A -> T ut_locals B) L u :
  only u_neutral any_jump p -> running n L u -> (forall a, wp world (f a L) u (upto ut_inv G)) ->
  wp world (mbind f (lift p) L) u (upto ut_inv G).
Proof. intros Ho Hr. apply st_u_neutral; [done|]. by eapply running_inv. Qed.

(** Starting or finishing flow [j]. *)
Lemma flow_runs n j (p : T net_drv_flow unit) L u : (j < n * 2)%nat ->
  (forall f u, is_Some (fl_sender_rpcs f) -> is_Some (fl_receiver_rpcs f) ->
     wp world (p f) u (fun r u' => match r with Val (f', _) => u' = u /\ same_owner f f' | _ => False end)) ->
  running n L u -> wp world (at_flow j p L) u (upto ut_inv (fun _ => running n)).
Proof.
  intros Hj Hp [HM Hb]. pose proof HM as [Hok Hn Ho Hm Hz Hnf Hk Hr Hu].
  destruct (lookup_lt_is_Some_2 (ut_flows L) j) as [f Hf]; [lia|].
  pose proof (Hr j f ltac:(lia) Hf) as Hnew. pose proof Hk as (_ & _ & Hpr).
  rewrite Forall_lookup in Hpr. destruct (Hpr _ _ Hf Hnew) as (c & a & b & A & B & _ & _ & _ & _ & _ & _ & _ & _ & _ & _ & _ & Hs & Hr').
  eapply at_flow_upto; [exact Hf|]. eapply wp_mono; [by apply Hp|].
  intros [[f' x]| | |] u' H; try done. destruct H as [-> Hso].
  assert (HR : running n (ut_set_flows (<[j := f']> (ut_flows L)) L) u).
  { split; [|exact Hb]. constructor; cbn; try done.
    - by rewrite length_insert.
    - by eapply own_same.
    - intros q g Hq Hg. destruct (decide (q = j)) as [->|Hqj].
      + rewrite list_lookup_insert_eq in Hg by lia. injection Hg as <-. rewrite (proj1 Hso). exact Hnew.
      + rewrite list_lookup_insert_ne in Hg by done. by eapply Hr.
    - intros q Hq. lia. }
  destruct x; [exact HR|by eapply running_inv].
Qed.

(** Loading and unloading have to do with no descriptor and no server. *)
Lemma set_loaded_neutral ta drv b : only u_neutral any_jump (set_loaded_or_verdict ta drv b).
Proof.
  unfold set_loaded_or_verdict, net_drv_driver_set_loaded, driver_check_loaded. destruct b; solve_only.
Qed.

Lemma pass_runs send_time once tv n L u : running n L u ->
  wp world (traffic_unload_pass iut send_time once tv L) u (upto ut_inv (fun _ => running n)).
Proof.
  assert (Hset : forall b L u, running n L u -> running n (ut_set_reload b L) u).
  { intros b L0 u0 [HM Hb]. split; [|exact Hb]. by apply (mid_ext _ _ _ L0). }
  intros HR. unfold traffic_unload_pass. apply st_gets.
  apply (st_running n); [apply set_loaded_neutral|done|]. intros _. apply st_modify.
  apply (Hset true) in HR. revert HR. generalize (ut_set_reload true L). intros L1 HR.
  apply (st_running n); [solve_only|done|]. intros _.
  apply (st_running n); [apply set_loaded_neutral|done|]. intros _. apply st_modify.
  apply (Hset false) in HR. revert HR. generalize (ut_set_reload false L1). intros L2 HR.
  apply st_gets. apply st_call. unfold CHECK_RC at 1. wp_step. eapply wp_mono.
  { apply (wait_neigh_wp world (fun u' => u' = u)); [|done]. intros X c s x s' Hc -> [_ ->]. by destruct c. }
  intros [rc| | |] u' Hu; cbn in Hu; try done. subst u'. cbn [bpost].
  destruct (rc =? 0); [|wp_go; by eapply running_inv]. wp_step.
  apply (st_running n); [solve_only|done|]. intros _. apply st_gets.
  destruct HR as [HM [b Hb]]. rewrite Hb. assert (HR : running n L2 u) by (split; [done|by rewrite Hb]).
  apply (st_running n); [unfold deref; solve_only|done|]. intros _.
  apply (st_running n); [solve_only|done|]. intros _.
  apply (st_running n); [solve_only|done|]. intros tv_now. exact HR.
Qed.

Lemma run_keeps fuel send_time once n L u : (1 <= n)%nat -> mid n n (2 * n) L u ->
  wp world (unload_traffic_run iut tst send_time once fuel n L) u (ends ut_inv).
Proof.
  intros Hn HM. unfold unload_traffic_run. apply st_u_neutral; [solve_only|by eapply mid_inv|].
  intros bkp. apply st_modify. assert (HR : running n (ut_set_bkp bkp L) u) by (split; [by apply (mid_ext _ _ _ L)|by eexists]).
  revert HR. generalize (ut_set_bkp bkp L). clear L HM. intros L HR. apply st_bind.
  eapply wp_mono; [apply (st_for world ut_inv _ _ (fun _ => running n)); [exact HR|]|].
  { clear L u HR. intros pre j post L u Hl HR. eapply flow_runs; [|apply flow_start_wp|exact HR].
    assert (j ∈ seq 0 (n * 2)) by (rewrite Hl; set_solver). apply elem_of_seq in H. lia. }
  clear L u HR. intros [[L [[]|e]]| | |] u HR; try done. cbn in HR.
  apply (st_running n); [solve_only|done|]. intros tv. apply st_bind.
  eapply wp_mono; [apply (st_loop world ut_inv _ _ (running n)); [exact HR|]|].
  { clear L u HR. intros L u HR. by apply pass_runs. }
  clear L u HR. intros [[L [[]|e]]| | |] u HR; try done. cbn in HR. apply st_modify.
  assert (Hset : forall b L u, running n L u -> running n (ut_set_success b L) u).
  { intros b L0 u0 [HM Hb]. split; [|exact Hb]. by apply (mid_ext _ _ _ L0). }
  apply st_bind. eapply wp_mono; [apply (st_for world ut_inv _ _ (fun _ => running n)); [by apply Hset|]|].
  { clear L u HR. intros pre j post L u Hl HR.
    assert (Hj : (j < n * 2)%nat) by (assert (j ∈ seq 0 (n * 2)) by (rewrite Hl; set_solver); apply elem_of_seq in H; lia).
    unfold finish_flow. apply st_bind. eapply wp_mono; [eapply flow_runs; [exact Hj|apply flow_finish_wp|exact HR]|].
    clear L u HR. intros [[L [[]|e]]| | |] u HR; try done. cbn in HR. apply st_bind.
    destruct (lookup_lt_is_Some_2 (ut_flows L) j) as [f Hf]; [rewrite (mid_flows _ _ _ _ _ (proj1 HR)); lia|].
    eapply at_flow_upto; [exact Hf|]. cbn [wp get mret prog_ret]. rewrite set_flows_same by done.
    unfold twhen. destruct (negb (fl_success f)); cbn; [by apply Hset|exact HR]. }
  clear L u HR. intros [[L [[]|e]]| | |] u HR; try done. cbn in HR. apply st_gets.
  apply (st_running n); [solve_only|done|]. intros _. apply st_bind.
  destruct (mid_made _ _ _ _ _ (proj1 HR) 0 ltac:(lia)) as (c & Hc & _).
  eapply at_conn_upto; [exact Hc|]. cbn [wp get mret prog_ret]. rewrite set_conns_same by done.
  apply st_u_last; [apply conn_check_u_neutral|by eapply running_inv].
Qed.

(** C5. However the test of unloading the driver under traffic ends, with one
    connection at least, it ends without undefined behaviour, and unless a
    fork failed: when every connection was created, the test has closed every
    socket and destroyed every server it forked, each once, and nothing else;
    when one could not be created, its cleanup has closed a descriptor it never
    opened (the zeroed array says descriptor 0). *)
Theorem unload_traffic_releases fuel iut_addr tst_addr send_time once n : (1 <= n)%nat ->
  wp world (driver_unload_traffic iut tst iut_addr tst_addr send_time once fuel n) u_start
    (fun r u => match r with
     | Val _ => u_fork_failed u = false -> if u_conn_failed u then u_stray u = true else released u
     | NoFuel => True
     | _ => False
     end).
Proof.
  intros Hn. unfold driver_unload_traffic.
  eapply wp_mono; [apply (test_main_keeps world (fun L u => L = ut_start /\ u = u_start) ut_inv left_behind); [done| |]|].
  - intros L u [-> ->]. apply st_bind. eapply wp_mono; [apply unload_traffic_setup_keeps|].
    intros [[L [[]|e]]| | |] u HM; try done. by apply run_keeps.
  - intros L u H. by apply unload_traffic_cleanup_wp.
  - by intros [r| | |] u H.
Qed.
End owning.

(** ** The driver is loaded again *)
Module Loaded.
(** Whether the module is loaded, by the last load or unload that succeeded;
    how many times it was tried to be loaded since it was unloaded last; whether,
    once unloaded and before it was tried to be loaded, it was read back as
    loaded, or could not be read back; and whether the configuration was
    synchronised after the module was loaded or unloaded last. *)
Record mstate := MState { m_loaded : bool; m_tries : nat; m_misread : bool; m_synced : bool }.

Definition upd X (c : te_call X) : X -> mstate -> mstate :=
  match c in te_call X return X -> mstate -> mstate with
  | tapi_cfg_module_load _ _ => fun rc m =>
      MState ((rc =? 0) || m_loaded m) (S (m_tries m)) (m_misread m) false
  | tapi_cfg_module_unload _ _ => fun rc m =>
      if rc =? 0 then MState false 0 false false else m
  | cfg_get_instance_int _ => fun x m =>
      if negb (m_loaded m) && bool_decide (m_tries m = 0%nat) && negb ((fst x =? 0) && (snd x =? 0))
      then MState (m_loaded m) (m_tries m) true (m_synced m) else m
  | cfg_synchronize _ _ => fun _ m => MState (m_loaded m) (m_tries m) (m_misread m) true
  | _ => fun _ m => m
  end.

(** The driver of an agent, when it is found, has a name. *)
Definition ok X (c : te_call X) : mstate -> X -> Prop :=
  match c in te_call X return mstate -> X -> Prop with
  | tapi_cfg_pci_get_ta_driver _ => fun _ x => fst x = 0 -> is_Some (snd x)
  | _ => fun _ _ => True
  end.

Definition world : env te_call mstate := watch_if ok upd.
Definition start : mstate := MState true 0 false true.

(** Loaded; or not, either because it failed to be loaded twice, the second time
    in the cleanup, or because the unloading was not seen to be done, and then
    it was not tried to be loaded at all.  In the first two cases the
    configuration was synchronised since. *)
Definition good (m : mstate) : Prop :=
  m_synced m = true /\ (m_loaded m = true \/ m_tries m = 2%nat) \/ m_tries m = 0%nat /\ m_misread m = true.

(** Calls that do not concern the module. *)
Definition neutral X (c : te_call X) : bool :=
  match c with
  | tapi_cfg_module_load _ _ | tapi_cfg_module_unload _ _ | cfg_get_instance_int _ | cfg_synchronize _ _ => false
  | _ => true
  end.
End Loaded.

Section loaded.
Context {TE : Te}.
Import Loaded.

(** Unloading: on success the module is not loaded, and it was not tried to be
    loaded; on failure it still is loaded, or it was read back as such. *)
Lemma unload_wp ta drv m : m_loaded m = true -> m_synced m = true ->
  wp world (set_loaded_or_verdict ta drv false) m (fun r m' => match r with
    | Val _ => m_loaded m' = false /\ m_tries m' = 0%nat
    | Exc _ => good m'
    | _ => False
    end).
Proof.
  intros Hm Hs. unfold set_loaded_or_verdict, net_drv_driver_set_loaded, driver_check_loaded.
  wp_go; cbn [upd fst snd m_loaded m_tries m_misread] in *; autorewrite with zbool in *; subst;
    unfold good; repeat case_zbool; cbn; try tauto; try lia; try done.
Qed.

(** Loading a module that is not: one try, which fails unless it is loaded then. *)
Lemma load_wp ta drv m : m_loaded m = false -> m_tries m = 0%nat ->
  wp world (set_loaded_or_verdict ta drv true) m (fun r m' => match r with
    | Val _ => m_loaded m' = true /\ m_tries m' = 1%nat
    | Exc _ => m_loaded m' = true \/ m_tries m' = 1%nat
    | _ => False
    end).
Proof.
  intros Hm Ht. unfold set_loaded_or_verdict, net_drv_driver_set_loaded, driver_check_loaded.
  wp_go; cbn [upd fst snd m_loaded m_tries m_misread] in *; rewrite ?Hm, ?Ht in *; autorewrite with zbool in *; subst;
    repeat case_zbool; cbn; rewrite ?Hm, ?Ht; cbn; try tauto; try lia; try done.
Qed.

(** Code that does not concern the module. *)
Lemma m_neutral_wp {A} (p : M A) m : only neutral any_jump p ->
  wp world p m (fun r m' => m' = m /\ match r with Undef _ => False | _ => True end).
Proof.
  intros Ho. eapply wp_mono; [apply (wp_only neutral any_jump world (fun m' => m' = m)); [exact Ho| |done]|].
  - intros X c s1 x s2 Hc -> [_ ->]. by destruct c.
  - intros [a|j|w|] s' [-> Hr]; auto.
Qed.

(** The cleanup may begin when all is well, or when the module is to be loaded
    and is not, after one try at most, or is. *)
Definition du_inv (l : du_locals) (m : mstate) : Prop :=
  if du_reload l then m_loaded m = true \/ m_tries m = 1%nat else good m.

(** Between two passes of the loop: loaded by one try. *)
Definition idle (m : mstate) : Prop := m_loaded m = true /\ m_synced m = true /\ (m_tries m <= 1)%nat.
Definition du_idle (l : du_locals) (m : mstate) : Prop := du_reload l = false /\ idle m.

Lemma idle_good m : idle m -> good m.
Proof. intros (H & Hs & _). left. auto. Qed.

Lemma idle_inv l m : du_idle l m -> du_inv l m.
Proof. intros [Hr H]. unfold du_inv. rewrite Hr. by apply idle_good. Qed.

(** Waiting leaves the module alone, and synchronises the configuration. *)
Lemma wait_calls_keep (P : mstate -> Prop) : (forall m, P m -> P (MState (m_loaded m) (m_tries m) (m_misread m) true)) ->
  forall X (c : te_call X) s x s', is_wait_call X c = true -> P s -> world X c s x s' -> P s'.
Proof. intros HP X c s x s' Hc Hs [_ ->]. destruct c; try done. by apply HP. Qed.

Lemma wait_syncs ta num (P : mstate -> Prop) m : (forall m, P m -> P (MState (m_loaded m) (m_tries m) (m_misread m) true)) -> P m ->
  wp world (net_drv_wait_neigh_nodes_recover ta num) m
    (fun r m' => match r with Val _ => P m' /\ m_synced m' = true | _ => False end).
Proof.
  intros HP Hm. set (P' := fun m => P m /\ m_synced m = true).
  assert (HE : forall X (c : te_call X) s x s', is_wait_call X c = true -> P' s -> world X c s x s' -> P' s').
  { apply wait_calls_keep. intros s [Hs _]. by split; [apply HP|]. }
  unfold net_drv_wait_neigh_nodes_recover. wp_step.
  apply (wp_for_n _ _ _ _ _ _ _ (fun i _ s => P s /\ (0 < i -> m_synced s = true))); [by split| |].
  - intros i [] s Hi [Hs _]. unfold neigh_pass. wp_step. wp_step. wp_answer. cbn [bpost upd].
    assert (HP' : P' (MState (m_loaded s) (m_tries s) (m_misread s) true)) by (split; [by apply HP|done]).
    revert HP'. generalize (MState (m_loaded s) (m_tries s) (m_misread s) true). intros s1 Hs1.
    destruct (negb (x =? 0)); [by wp_go|]. wp_step. eapply wp_mono; [by apply (neigh_count_wp world P')|].
    intros [[rc n]| | |] s2 H2; try done. destruct H2 as [H2 Hn]. cbn [bpost].
    destruct (negb (rc =? 0)) eqn:Erc; [by wp_go|]. autorewrite with zbool in Erc. destruct (Hn Erc) as [k ->].
    destruct (num <=? k); [by wp_go|]. destruct H2. wp_go; cbn; auto.
  - intros [] s [Hs Hy]. cbn [bpost]. wp_go. split; [done|]. apply Hy. done.
Qed.

Lemma unload_pass_keeps ta ifn st i l m : du_idle l m ->
  wp world (unload_pass ta ifn st i l) m (upto du_inv (fun _ => du_idle)).
Proof.
  intros Hl. unfold unload_pass. apply st_call. eapply wp_mono.
  { apply m_neutral_wp. unfold prepare_if. solve_only. }
  intros [[]|j| |] m' [-> H]; try done; [|by apply idle_inv]. clear H. apply st_gets. apply st_call.
  eapply wp_mono; [apply unload_wp; apply Hl|]. intros [[]|j| |] m1 H1; try done; [|unfold du_inv; by rewrite (proj1 Hl)].
  apply st_modify, st_call. eapply wp_mono; [by apply load_wp; apply H1|]. intros [[]|j| |] m2 H2; try done.
  apply st_modify, st_gets. unfold lift. apply wp_bind, wp_attempt. unfold CHECK_RC. wp_step.
  eapply wp_mono; [by apply (wait_syncs _ _ (fun m' => m_loaded m' = true /\ m_tries m' = 1%nat))|].
  intros [rc| | |] m3 H3; try done. assert (Hi : idle m3) by (destruct H3 as [[H3 H4] H5]; unfold idle; rewrite H4; auto).
  cbn [bpost]. destruct (rc =? 0); wp_go; cbn; [by split|by apply idle_good].
Qed.

Lemma reload_halts ta drv neigh b : halts (reload_cleanup ta drv neigh b).
Proof. unfold reload_cleanup, net_drv_wait_neigh_nodes_recover, neigh_pass, net_drv_neigh_nodes_count. solve_halts. Qed.

(** The test ends: no loop of it is without a bound. *)
Lemma driver_unload_halts ta ifn st iters : halts (driver_unload ta ifn st iters).
Proof.
  apply halts_test_main; [|intros L; apply reload_halts].
  unfold unload_body, get_unloadable_driver, net_drv_driver_name, net_drv_driver_unloadable, get_neigh_nodes,
    net_drv_neigh_nodes_count, unload_pass, prepare_if, set_loaded_or_verdict, net_drv_driver_set_loaded, driver_check_loaded,
    net_drv_wait_neigh_nodes_recover, neigh_pass, net_drv_neigh_nodes_count.
  solve_halts.
Qed.

(** The body, and the cleanup of a body that was left. *)
Lemma unload_body_keeps ta ifn st iters l m : l = du_start -> idle m ->
  wp world (unload_body ta ifn st iters l) m (upto du_inv (fun _ => du_idle)).
Proof.
  assert (HE : forall X (c : te_call X) s x s', is_wait_call X c = true -> idle s -> world X c s x s' -> idle s').
  { apply wait_calls_keep. by intros m' (H & _ & H'). }
  intros -> Hm. unfold unload_body. apply st_call. eapply wp_mono.
  { apply (get_unloadable_driver_wp world idle); [exact HE| |exact Hm]. by intros ta' s x s' [H _]. }
  intros [drv|j| |] m1 H1; try done; [|by apply idle_good]. apply st_modify, st_call. eapply wp_mono.
  { apply (get_neigh_nodes_wp world idle); [exact HE|exact H1]. }
  intros [neigh|j| |] m2 H2; try done; [|by apply idle_good]. apply st_modify.
  apply (st_for world du_inv _ _ (fun _ => du_idle)); [by split|].
  intros pre i post L m' _ HI. by apply unload_pass_keeps.
Qed.

Lemma unload_cleanup_good ta l m : du_inv l m ->
  wp world (unload_cleanup ta l) m (fun r m' => match r with Val _ => good m' | _ => False end).
Proof.
  intros HI. unfold unload_cleanup. unfold du_inv in HI. destruct (du_reload l); [|exact HI].
  unfold reload_cleanup. set (tried := fun m' => m_loaded m' = true \/ m_tries m' = 2%nat). eapply wp_also with (R := tried).
  - unfold cleanup_rc. wp_go. unfold tried. cbn [upd m_loaded m_tries].
    destruct HI as [->| ->]; [left; by rewrite orb_true_r|auto].
  - intros m' Hm'. unfold cleanup_rc. wp_step. eapply wp_mono; [by apply (wait_syncs _ _ tried)|].
    intros [rc| | |] m2 H; try done. cbn. left. by destruct H.
Qed.

(** C6. The test of unloading the driver, begun with the driver loaded, ends,
    without undefined behaviour.  When it passes, the driver is loaded, by the
    loop alone.  When it is left, the driver is loaded, unless it failed to be
    loaded twice, in the loop and again in the cleanup; and in all these cases the
    configuration was synchronised after that.  The exception: the module had
    been unloaded, but was read back as loaded, or could not be read back; then
    nothing loads it. *)
Theorem driver_unload_reloads ta ifn st iters :
  wp world (driver_unload ta ifn st iters) start
    (fun r m => match r with
     | Val Passed => m_synced m = true /\ m_loaded m = true /\ (m_tries m <= 1)%nat
     | Val (Left _) => m_synced m = true /\ (m_loaded m = true \/ m_tries m = 2%nat) \/
         m_tries m = 0%nat /\ m_misread m = true
     | _ => False
     end).
Proof.
  eapply wp_mono with (Q := fun r m => r <> NoFuel /\ match r with
      | Val Passed => idle m | Val (Left _) => good m | NoFuel => True | _ => False end);
    [apply wp_and; [apply wp_halts, driver_unload_halts|]|].
  2: { intros [[]|j| |] m [H1 H2]; try done. destruct H2 as (H2 & H3 & H4). auto. }
  unfold driver_unload, test_main. apply wp_bind.
  eapply wp_mono; [apply (unload_body_keeps ta ifn st iters du_start start)|].
  { done. }
  { repeat split. cbn. lia. }
  intros [[L [[]|j]]| | |] m HI; try done; cbn [bpost upto] in *.
  - destruct HI as [Hr Hi]. unfold unload_cleanup, reload_cleanup. rewrite Hr. exact Hi.
  - apply wp_bind. eapply wp_mono; [by apply unload_cleanup_good|]. by intros [ok| | |] m2 H.
Qed.
End loaded.

(** ** No undefined behaviour, whatever is answered *)
Section typed.
Context {TE : Te} {W : Type} (E : env te_call W) (iut tst : rcf_rpc_server).
(** The driver of an agent, when it is found, has a name. *)
Context (Hname : forall ta s x s', E _ (tapi_cfg_pci_get_ta_driver ta) s x s' -> fst x = 0 -> is_Some (snd x)).

(** A flow that can be started, finished and destroyed: its pointers are set. *)
Definition wf_flow (f : net_drv_flow) : Prop :=
  is_Some (fl_conn f) /\ is_Some (fl_sender_rpcs f) /\ is_Some (fl_receiver_rpcs f).

(** [n] connections, of which [m] may be used, and [n * 2] flows, of which [k]
    were prepared and the rest own no process. *)
Record typed (n k : nat) (L : ut_locals) : Prop := Typed {
  ty_conns : length (ut_conns L) = n;
  ty_flows : length (ut_flows L) = (n * 2)%nat;
  ty_ready : forall j f, (j < k)%nat -> ut_flows L !! j = Some f -> wf_flow f;
  ty_rest : forall j f, (k <= j)%nat -> ut_flows L !! j = Some f -> unused f }.

(** What the cleanup needs: it follows the connection of a flow only. *)
Definition ty_inv (L : ut_locals) (_ : W) : Prop := Forall has_conn (ut_flows L).

Lemma typed_inv n k L s : typed n k L -> ty_inv L s.
Proof.
  intros [Hc Hf Hr Hu]. apply Forall_lookup. intros j f Hj Hn. destruct (decide (j < k)%nat) as [Hlt|Hge].
  - by destruct (Hr j f Hlt Hj).
  - assert (Hun : unused f) by (eapply Hu; [|exact Hj]; lia). unfold unused in Hun. congruence.
Qed.

(** Programs that have no undefined behaviour in them. *)
Lemma st_fine {A B} (F : ut_locals -> W -> Prop) (G : B -> ut_locals -> W -> Prop) (p : M A) (f : A -> T ut_locals B) L s :
  only (fun _ _ => true) any_jump p -> (forall s, F L s) -> (forall a s, wp E (f a L) s (upto F G)) ->
  wp E (mbind f (lift p) L) s (upto F G).
Proof.
  intros Ho HF Hf. apply st_call. eapply wp_mono; [by apply (wp_only (fun _ _ => true) any_jump E (fun _ => True) p)|].
  intros [a|j|w|] s' [_ H]; auto.
Qed.

Lemma st_fine_last {A} (F : ut_locals -> W -> Prop) (p : M A) L s :
  only (fun _ _ => true) any_jump p -> (forall s, F L s) -> wp E (lift p L) s (ends F).
Proof.
  intros Ho HF. unfold lift. apply wp_bind, wp_attempt.
  eapply wp_mono; [by apply (wp_only (fun _ _ => true) any_jump E (fun _ => True) p)|]. intros [a|j|w|] s' [_ H]; cbn; auto.
Qed.

Lemma only_any {A} (allowed : forall X, te_call X -> bool) may (p : M A) :
  only allowed may p -> only (fun _ _ => true) any_jump p.
Proof. by apply only_mono. Qed.

Lemma conn_create_fine c s : planned iut tst c ->
  wp E (net_drv_conn_create c) s (fun r _ => match r with Val _ => True | _ => False end).
Proof.
  intros [H1 H2]. apply wp_T. unfold net_drv_conn_create. twp_step. twp_step. twp_step. twp_step. unfold twhen. destruct (cn_new_ports c).
  - twp_go. rewrite H1. cbn [deref]. twp_go; try done. rewrite H2. cbn [deref]. twp_go; try done.
    cbn [cn_set_addrs cn_rpcs1 cn_rpcs2]. rewrite H1, H2. cbn [deref]. by twp_go.
  - twp_go. rewrite H1, H2. cbn [deref]. by twp_go.
Qed.

Lemma create_flow_rpc_fine r id s :
  wp E (create_flow_rpc (Some r) id) s (fun r _ => match r with Val _ | Exc _ => True | _ => False end).
Proof. unfold create_flow_rpc, deref. by wp_go. Qed.

Lemma flow_prepare_fine f s : fl_new_processes f = true ->
  is_Some (fl_rpcs1 f) -> is_Some (fl_rpcs2 f) -> is_Some (fl_conn f) ->
  wp E (net_drv_flow_prepare f) s (fun r _ => match r with
    | Val (f', inl _) => wf_flow f'
    | Val (f', inr _) => is_Some (fl_conn f')
    | _ => False
    end).
Proof.
  intros Hn [r1 H1] [r2 H2] [c Hc]. apply wp_T. unfold net_drv_flow_prepare.
  twp_step. twp_step. twp_step. rewrite Hn. cbn [twhen]. twp_go. rewrite H1.
  eapply wp_mono; [apply create_flow_rpc_fine|]. intros [a|j| |] s1 H; try done; try (cbn; by rewrite Hc).
  twp_go. cbn [fl_set_rpcs fl_rpcs2]. rewrite H2.
  eapply wp_mono; [apply create_flow_rpc_fine|]. intros [b|j| |] s2 H'; try done; try (cbn; by rewrite Hc).
  unfold flow_prepare_ends. twp_go. cbn [fl_set_rpcs fl_conn]. rewrite Hc. cbn [deref]. twp_go.
  unfold wf_flow. cbn. destruct (fl_tx f); cbn; rewrite Hc; eauto.
Qed.

Lemma flow_destroy_fine f s : has_conn f ->
  wp E (net_drv_flow_destroy f) s (fun r _ => match r with Val _ => True | _ => False end).
Proof.
  intros Hf. unfold net_drv_flow_destroy. destruct (fl_new_processes f) eqn:Hn; [|done].
  destruct (Hf Hn) as [c Hc]. rewrite Hc. cbn [deref]. unfold close_sock_kill_rpcs.
  destruct (fl_rpcs1 f), (fl_rpcs2 f); by wp_go.
Qed.

(** Updates of an element. *)
Lemma typed_conn n k i c L : typed n k L -> typed n k (ut_set_conns (<[i := c]> (ut_conns L)) L).
Proof. intros []. constructor; cbn; try done. by rewrite length_insert. Qed.

Lemma typed_flow n k f L : (k < n * 2)%nat -> typed n k L -> wf_flow f -> typed n (S k) (ut_set_flows (<[k := f]> (ut_flows L)) L).
Proof.
  intros Hk [Hc Hf Hr Hu] Hw. constructor; cbn; [done|by rewrite length_insert|..]; intros j g Hj Hg.
  - destruct (decide (j = k)) as [->|Hne].
    + rewrite list_lookup_insert_eq in Hg by lia. by injection Hg as <-.
    + rewrite list_lookup_insert_ne in Hg by done. eapply Hr; [|exact Hg]. lia.
  - rewrite list_lookup_insert_ne in Hg by lia. eapply Hu; [|exact Hg]. lia.
Qed.

Lemma typed_ext n k L L' : ut_conns L' = ut_conns L -> ut_flows L' = ut_flows L -> typed n k L -> typed n k L'.
Proof. intros Ec Ef []. constructor; rewrite ?Ec, ?Ef; done. Qed.

Lemma setup_flow_typed send_time n i j L s : (i < n)%nat -> (j < 2)%nat -> typed n (2 * i + j) L ->
  wp E (setup_flow iut tst send_time i j L) s (upto ty_inv (fun _ L' _ => typed n (2 * i + S j) L')).
Proof.
  intros Hi Hj HT. pose proof HT as [Hc Hf Hr Hu]. unfold setup_flow. apply st_bind.
  destruct (lookup_lt_is_Some_2 (ut_conns L) i) as [c Hci]; [lia|].
  eapply at_conn_upto; [exact Hci|]. cbn [wp get mret prog_ret]. rewrite set_conns_same by done.
  set (k := (2 * i + j)%nat) in *. assert (Hk : (k < n * 2)%nat) by (unfold k; lia).
  destruct (lookup_lt_is_Some_2 (ut_flows L) k) as [f Hfk]; [lia|].
  apply st_bind. eapply at_flow_upto; [exact Hfk|]. cbn [wp modify mret prog_ret].
  eapply at_flow_upto; [cbn; rewrite list_lookup_insert_eq by lia; reflexivity|].
  eapply wp_mono; [apply flow_prepare_fine; cbn; eauto|].
  intros [[f' [[]|e]]| | |] s' H; try done; cbn [ut_flows ut_set_flows]; rewrite list_insert_insert_eq.
  - rewrite Nat.add_succ_r. exact (typed_flow n k f' L Hk HT H).
  - apply Forall_insert; [exact (typed_inv _ _ _ s' HT)|]. by intros _.
Qed.

Lemma setup_conn_typed iut_addr tst_addr send_time n i L s : (i < n)%nat -> typed n (2 * i) L ->
  wp E (setup_conn iut tst iut_addr tst_addr send_time i L) s (upto ty_inv (fun _ L' _ => typed n (2 * S i) L')).
Proof.
  intros Hi HT. unfold setup_conn. destruct (lookup_lt_is_Some_2 (ut_conns L) i) as [c Hc]; [rewrite (ty_conns _ _ _ HT); lia|].
  apply st_bind. eapply at_conn_upto; [exact Hc|]. cbn [wp modify mret T_ret prog_ret].
  apply (typed_conn _ _ i (cn_set_input iut tst RPC_SOCK_DGRAM iut_addr tst_addr true c)) in HT.
  set (L1 := ut_set_conns _ L) in *. apply st_bind.
  eapply at_conn_upto; [unfold L1; cbn; apply list_lookup_insert_eq; by eapply lookup_lt_Some|].
  eapply wp_mono; [by apply conn_create_fine|].
  intros [[c' x]| | |] s1 Hs1; try done. clear Hs1. apply (typed_conn _ _ i c') in HT.
  destruct x; [|by eapply typed_inv]. clearbody L1. cbn [seq t_for].
  apply st_bind. eapply wp_mono; [apply setup_flow_typed; [exact Hi|lia|by rewrite Nat.add_0_r]|].
  intros [[L2 [[]|e]]| | |] s2 H2; try done. cbn [upto] in H2.
  apply st_bind. eapply wp_mono; [apply setup_flow_typed; [exact Hi|lia|exact H2]|].
  intros [[L3 [[]|e]]| | |] s3 H3; try done. cbn [upto] in *.
  by replace (2 * S i)%nat with (2 * i + 2)%nat by lia.
Qed.

Lemma typed_start n L : ut_conns L = replicate n zero_conn -> ut_flows L = replicate (n * 2) zero_flow -> typed n 0 L.
Proof.
  intros Ec Ef. constructor; rewrite ?Ec, ?Ef, ?length_replicate; try done; intros j f Hj Hf; [lia|].
  by apply lookup_replicate in Hf as [-> _].
Qed.

Lemma setup_typed iut_addr tst_addr send_time n s :
  wp E (unload_traffic_setup iut tst iut_addr tst_addr send_time n ut_start) s
    (upto ty_inv (fun _ L _ => typed n (n * 2) L)).
Proof.
  unfold unload_traffic_setup. apply st_call.
  eapply wp_mono; [by apply (get_unloadable_driver_wp E (fun _ => True))|].
  intros [drv|j| |] s1 Hs1; try done; [|constructor]. apply st_modify, st_call.
  eapply wp_mono; [by apply (get_neigh_nodes_wp E (fun _ => True))|].
  intros [neigh|j| |] s2 Hs2; try done; [|constructor]. do 3 apply st_modify. eapply wp_mono.
  { apply (st_for E ty_inv _ _ (fun pre L _ => typed n (2 * length pre) L)); [by apply typed_start|].
    intros pre i post L s3 Hl HT. rewrite length_app, Nat.add_1_r.
    destruct (seq_split _ _ _ _ Hl) as [-> Hlt]. by apply setup_conn_typed. }
  intros [[L [[]|j]]| | |] s3 H; try done. cbn [upto] in *. rewrite length_seq in H. by rewrite Nat.mul_comm.
Qed.

(** While the test runs. *)
Definition ty_running (n : nat) (L : ut_locals) (_ : W) : Prop := typed n (n * 2) L /\ is_Some (ut_bkp L).

Lemma ty_running_inv n L s s' : ty_running n L s -> ty_inv L s'.
Proof. intros [H _]. by eapply typed_inv. Qed.

(** A step without undefined behaviour while the test runs. *)
Lemma st_ty {A B} n (G : B -> ut_locals -> W -> Prop) (p : M A) (f : A -> T ut_locals B) L s :
  only (fun _ _ => true) any_jump p -> ty_running n L s -> (forall a s, wp E (f a L) s (upto ty_inv G)) ->
  wp E (mbind f (lift p) L) s (upto ty_inv G).
Proof. intros Ho Hr. apply st_fine; [done|]. intros s'. by eapply ty_running_inv. Qed.

Lemma flow_typed n j (p : T net_drv_flow unit) L s : (j < n * 2)%nat ->
  (forall f s, is_Some (fl_sender_rpcs f) -> is_Some (fl_receiver_rpcs f) ->
     wp E (p f) s (fun r _ => match r with Val (f', _) => same_owner f f' | _ => False end)) ->
  ty_running n L s -> wp E (at_flow j p L) s (upto ty_inv (fun _ => ty_running n)).
Proof.
  intros Hj Hp [HT Hb]. pose proof HT as [Hc Hf Hr Hu].
  destruct (lookup_lt_is_Some_2 (ut_flows L) j) as [f Hfj]; [lia|].
  destruct (Hr j f Hj Hfj) as (Hcn & Hs & Hrv).
  eapply at_flow_upto; [exact Hfj|]. eapply wp_mono; [by apply Hp|].
  intros [[f' x]| | |] s' Hso; try done.
  assert (HR : typed n (n * 2) (ut_set_flows (<[j := f']> (ut_flows L)) L)).
  { constructor; cbn; [done|by rewrite length_insert|..]; intros q g Hq Hg.
    - destruct (decide (q = j)) as [->|Hne].
      + rewrite list_lookup_insert_eq in Hg by lia. injection Hg as <-.
        destruct Hso as (_ & E2 & _ & _ & E5 & E6). unfold wf_flow. by rewrite E2, E5, E6.
      + rewrite list_lookup_insert_ne in Hg by done. by eapply Hr.
    - apply lookup_lt_Some in Hg. rewrite length_insert in Hg. lia. }
  destruct x; [by split|by eapply typed_inv].
Qed.

Lemma flow_start_fine f s : is_Some (fl_sender_rpcs f) -> is_Some (fl_receiver_rpcs f) ->
  wp E (net_drv_flow_start f) s (fun r _ => match r with Val (f', _) => same_owner f f' | _ => False end).
Proof.
  intros Hs Hr. eapply wp_mono; [by apply (flow_start_gen E (fun _ => True))|].
  intros [[f' x]| | |] s' H; try done. exact (proj2 H).
Qed.

Lemma flow_finish_fine f s : is_Some (fl_sender_rpcs f) -> is_Some (fl_receiver_rpcs f) ->
  wp E (net_drv_flow_finish f) s (fun r _ => match r with Val (f', _) => same_owner f f' | _ => False end).
Proof.
  intros Hs Hr. eapply wp_mono; [by apply (flow_finish_gen E (fun _ => True))|].
  intros [[f' x]| | |] s' H; try done. exact (proj2 H).
Qed.

Lemma pass_typed send_time once tv n L s : ty_running n L s ->
  wp E (traffic_unload_pass iut send_time once tv L) s (upto ty_inv (fun _ => ty_running n)).
Proof.
  assert (Hset : forall b L s, ty_running n L s -> ty_running n (ut_set_reload b L) s).
  { intros b L0 s0 [HT Hb]. split; [|exact Hb]. by apply (typed_ext _ _ L0). }
  intros HR. unfold traffic_unload_pass. apply st_gets.
  apply (st_ty n); [eapply only_any, set_loaded_neutral|done|]. intros _ s1. apply st_modify.
  apply (Hset true) in HR. revert HR. generalize (ut_set_reload true L). intros L1 HR.
  apply (st_ty n); [solve_only|done|]. intros _ s2.
  apply (st_ty n); [eapply only_any, set_loaded_neutral|done|]. intros _ s3. apply st_modify.
  apply (Hset false) in HR. revert HR. generalize (ut_set_reload false L1). intros L2 HR.
  apply st_gets. apply st_call. unfold CHECK_RC at 1. wp_step.
  eapply wp_mono; [by apply (wait_neigh_wp E (fun _ => True))|].
  intros [rc| | |] s4 H4; try done. clear H4. cbn [bpost].
  destruct (rc =? 0); [|wp_go; by eapply ty_running_inv]. wp_step.
  apply (st_ty n); [solve_only|done|]. intros _ s5. apply st_gets.
  destruct HR as [HT [b Hb]]. rewrite Hb. assert (HR : ty_running n L2 s) by (split; [done|by rewrite Hb]).
  apply (st_ty n); [unfold deref; solve_only|done|]. intros _ s6.
  apply (st_ty n); [solve_only|done|]. intros _ s7.
  apply (st_ty n); [solve_only|done|]. intros tv_now s8. exact HR.
Qed.

Lemma run_typed fuel send_time once n L s : (1 <= n)%nat -> typed n (n * 2) L ->
  wp E (unload_traffic_run iut tst send_time once fuel n L) s (ends ty_inv).
Proof.
  intros Hn HT. unfold unload_traffic_run.
  apply st_fine; [solve_only|intros s'; by eapply typed_inv|]. intros bkp s1. apply st_modify.
  assert (HR : ty_running n (ut_set_bkp bkp L) s1) by (split; [by apply (typed_ext _ _ L)|by eexists]).
  revert HR. generalize (ut_set_bkp bkp L). clear L HT. intros L HR. apply st_bind.
  assert (Hin : forall pre j post, seq 0 (n * 2) = pre ++ j :: post -> (j < n * 2)%nat)
    by (intros pre j post [-> Hj]%seq_split; done).
  eapply wp_mono; [apply (st_for E ty_inv _ _ (fun _ => ty_running n)); [exact HR|]|].
  { clear L HR. intros pre j post L s2 Hl HR. eapply flow_typed; [by eapply Hin|apply flow_start_fine|exact HR]. }
  clear L HR. intros [[L [[]|e]]| | |] s2 HR; try done. cbn in HR.
  apply (st_ty n); [solve_only|done|]. intros tv s3. apply st_bind.
  eapply wp_mono; [apply (st_loop E ty_inv _ _ (ty_running n)); [exact HR|]|].
  { clear L HR. intros L s4 HR. by apply pass_typed. }
  clear L HR. intros [[L [[]|e]]| | |] s4 HR; try done. cbn in HR. apply st_modify.
  assert (Hset : forall b L s, ty_running n L s -> ty_running n (ut_set_success b L) s).
  { intros b L0 s0 [HT Hb]. split; [|exact Hb]. by apply (typed_ext _ _ L0). }
  apply st_bind. eapply wp_mono; [apply (st_for E ty_inv _ _ (fun _ => ty_running n)); [by apply Hset|]|].
  { clear L HR. intros pre j post L s5 Hl HR.
    unfold finish_flow. apply st_bind. eapply wp_mono; [eapply flow_typed; [by eapply Hin|apply flow_finish_fine|exact HR]|].
    clear L HR. intros [[L [[]|e]]| | |] s6 HR; try done. cbn in HR. apply st_bind.
    destruct (lookup_lt_is_Some_2 (ut_flows L) j) as [f Hf]; [rewrite (ty_flows _ _ _ (proj1 HR)); by eapply Hin|].
    eapply at_flow_upto; [exact Hf|]. cbn [wp get mret prog_ret]. rewrite set_flows_same by done.
    unfold twhen. destruct (negb (fl_success f)); cbn; [by apply Hset|exact HR]. }
  clear L HR. intros [[L [[]|e]]| | |] s5 HR; try done. cbn in HR. apply st_gets.
  apply (st_ty n); [solve_only|done|]. intros _ s6. apply st_bind.
  destruct (lookup_lt_is_Some_2 (ut_conns L) 0) as [c Hc]; [rewrite (ty_conns _ _ _ (proj1 HR)); lia|].
  eapply at_conn_upto; [exact Hc|]. cbn [wp get mret prog_ret]. rewrite set_conns_same by done.
  apply st_fine_last; [eapply only_any, conn_check_u_neutral|]. intros s7. by eapply ty_running_inv.
Qed.

(** The cleanup. *)
Lemma all_fine ps s : Forall (fun p => forall s, wp E p s (fun r _ => match r with Val _ => True | _ => False end)) ps ->
  wp E (also_all ps) s (fun r _ => match r with Val _ => True | _ => False end).
Proof.
  intros H. revert s. induction H as [|p ps Hp _ IH]; intros s; [done|]. cbn [also_all].
  by apply (wp_also E p (also_all ps) s (fun _ => True) (fun _ => True)).
Qed.

Lemma cleanup_typed L s : ty_inv L s ->
  wp E (unload_traffic_cleanup iut L) s (fun r _ => match r with Val _ => True | _ => False end).
Proof.
  intros HI. unfold ty_inv in HI. unfold unload_traffic_cleanup.
  apply (wp_also E _ _ s (fun _ => True) (fun _ => True)).
  { by apply (reload_cleanup_wp E (fun _ => True)). }
  clear s. intros s _. apply (wp_also E _ _ s (fun _ => True) (fun _ => True)).
  { destruct (ut_bkp L); [|done]. unfold cleanup_rc. by wp_go. }
  clear s. intros s _.
  apply (wp_also E (also_all (map destroy_flow (ut_flows L))) (also_all (map destroy_conn (ut_conns L))) s
    (fun _ => True) (fun _ => True)).
  { apply all_fine, Forall_fmap. eapply Forall_impl; [exact HI|]. intros f Hf s'.
    unfold destroy_flow, cleanup_rc. cbn. apply wp_bind. eapply wp_mono; [by apply flow_destroy_fine|].
    by intros [rc| | |] s2 H. }
  clear s HI. intros s _. apply all_fine, Forall_fmap, Forall_true. intros c s'.
  unfold destroy_conn, cleanup_rc, net_drv_conn_destroy, close_end. destruct (cn_rpcs1 c), (cn_rpcs2 c); wp_go; done.
Qed.

(** *** The test ends *)

(** [t] microseconds have passed in a state: time does not go back, sleeping
    takes the time it is asked for, and the clock shows it. *)
Definition keeps_time (t : W -> Z) : Prop :=
  (forall X (c : te_call X) s x s', E X c s x s' -> t s <= t s') /\
  (forall sec s x s', E _ (te_motivated_sleep sec) s x s' -> t s + 1000000 * sec <= t s') /\
  (forall s x s', E _ te_gettimeofday s x s' -> fst x = 0 -> tv_us (snd x) = t s').

(** [rand_range] stays in its range, and [recv] does not return zero: nobody
    closes the connection, or sends an empty packet over it. *)
Definition keeps_open : Prop :=
  (forall lo hi s x s', E _ (rand_range lo hi) s x s' -> x <= hi) /\
  (forall r sk len s x s', E _ (rpc_recv r sk len) s x s' -> fst (fst x) <> 0).

Abbreviation ended := (fun r (_ : W) => r <> NoFuel).

(** A program that ends, and a program after it. *)
Lemma ended_bind {A B} (p : M A) (f : A -> M B) s :
  halts p -> (forall a s, wp E (f a) s ended) -> wp E (mbind f p) s ended.
Proof.
  intros Hp Hf. apply wp_bind. eapply wp_mono; [by apply wp_halts|]. by intros [a|j|w|] s' H; cbn.
Qed.

Lemma ended_then {A B} (p : T ut_locals A) (f : A -> T ut_locals B) L s :
  halts (p L) -> (forall a L s, wp E (f a L) s ended) -> wp E (mbind f p L) s ended.
Proof. intros Hp Hf. apply ended_bind; [done|]. by intros [L' [a|j]] s'. Qed.

Lemma send_recv_ended fuel r1 s1 r2 s2 v s : keeps_open -> MAX_PKT_LEN <= Z.of_nat fuel ->
  wp E (net_drv_send_recv_check fuel r1 s1 r2 s2 v) s ended.
Proof.
  intros [Hrand Hrecv] Hf. unfold net_drv_send_recv_check, net_drv_send_recv_ext_check, net_drv_sendto_recv_check_gen.
  wp_step. wp_step. apply Hrand in H. cbn [bpost].
  apply ended_bind; [done|]. intros buf s3. apply ended_bind; [done|]. intros [rc err] s4.
  destruct (rc <? 0); [done|]. destruct (negb _); [done|].
  apply ended_bind; [done|]. intros b s5. destruct (negb b); [done|]. apply wp_bind.
  apply (wp_loop _ _ _ _ _ _ (fun n st _ => Z.of_nat fuel - Z.of_nat n <= fst st /\ (n = fuel \/ fst st < x))).
  - split; [cbn; lia|by left].
  - intros n [total rbuf] g [Hn _]. cbn [fst] in Hn. unfold recv_pass. wp_step. wp_step. apply Hrecv in H0.
    destruct x0 as [[z l] e]. cbn [bpost fst] in *. destruct (Z.ltb_spec z 0); [done|].
    destruct (Z.leb_spec x (total + z)); cbn [bpost].
    + apply wp_halts. unfold memcmp_written. solve_halts.
    + wp_step. wp_step. cbn [bpost]. destruct x0; [cbn; split; [lia|right; lia]|].
      apply wp_halts. unfold memcmp_written. solve_halts.
  - intros [total rbuf] g [Hn [<-|Hlt]]; cbn [fst] in *; unfold MAX_PKT_LEN in *; lia.
Qed.

Lemma conn_check_ended fuel r1 s1 n1 r2 s2 n2 v s : keeps_open -> MAX_PKT_LEN <= Z.of_nat fuel ->
  wp E (net_drv_conn_check fuel r1 s1 n1 r2 s2 n2 v) s ended.
Proof.
  intros Ho Hf. unfold net_drv_conn_check. wp_step. eapply wp_mono; [by apply send_recv_ended|].
  intros [x|j|w|] s' H; try done. wp_step. wp_step. eapply wp_mono; [by apply send_recv_ended|]. by intros [y|j|w|] s3 H3.
Qed.

(** A part of a pass of the loop: it ends, and time passes. *)
Lemma takes_time (t : W -> Z) {A} (p : M A) s d : keeps_time t -> halts p -> t s = d ->
  wp E p s (fun r s' => r <> NoFuel /\ d <= t s').
Proof.
  intros [Hm _] Hp <-. apply wp_and; [by apply wp_halts|].
  apply (wp_makes (fun _ _ => true) E (fun s' => t s <= t s')); [|intros X c s1 x s2 _ H1 H2; apply Hm in H2; lia|lia].
  clear Hp. induction p as [r|X c k IH]; cbn; auto.
Qed.

(** What a pass of the loop, begun at [d], must show: it sleeps twice, and it
    is not the last one only if there is time left. *)
Definition pass_ended (t : W -> Z) (tv_start : timeval) (send_time : Z) (once : bool) (d : Z)
    (r : result (ut_locals * (bool + jump))) (s' : W) : Prop :=
  match r with
  | NoFuel => False
  | Val (_, inl b) => d <= t s' /\
      (b = false -> once = false /\ TE_US2SEC (t s' - tv_us tv_start) < send_time)
  | _ => True
  end.

Lemma pass_step t tv send_time once d {A} (p : M A) (f : A -> T ut_locals bool) L s d0 : keeps_time t -> halts p -> d0 <= t s ->
  (forall a s', d0 <= t s' -> wp E (f a L) s' (pass_ended t tv send_time once d)) ->
  wp E (mbind f (lift p) L) s (pass_ended t tv send_time once d).
Proof.
  intros Ht Hp Hd Hf. cbn [mbind T_bind]. apply wp_bind. unfold lift. apply wp_bind, wp_attempt.
  eapply wp_mono; [by apply takes_time|]. intros [a|j|w|] s' [H1 H2]; cbn; try done. apply Hf. lia.
Qed.

Lemma pass_sleep t tv send_time once d (f : unit -> T ut_locals bool) L s d0 : keeps_time t -> d0 <= t s ->
  (forall s', d0 + 3000000 <= t s' -> wp E (f tt L) s' (pass_ended t tv send_time once d)) ->
  wp E (mbind f (lift (call (te_motivated_sleep WAIT_AFTER_DRIVER_OP))) L) s (pass_ended t tv send_time once d).
Proof.
  intros (_ & Hsl & _) Hd Hf. cbn. intros [] s' Hs. apply Hsl in Hs. apply Hf. unfold WAIT_AFTER_DRIVER_OP in Hs. lia.
Qed.

Lemma set_loaded_halts ta drv b : halts (set_loaded_or_verdict ta drv b).
Proof. unfold set_loaded_or_verdict, net_drv_driver_set_loaded, driver_check_loaded. solve_halts. Qed.

Lemma wait_halts ta num : halts (net_drv_wait_neigh_nodes_recover ta num).
Proof. unfold net_drv_wait_neigh_nodes_recover, neigh_pass, net_drv_neigh_nodes_count. solve_halts. Qed.

Lemma traffic_pass_ended t send_time once tv L s : keeps_time t ->
  wp E (traffic_unload_pass iut send_time once tv L) s (pass_ended t tv send_time once (t s + 6000000)).
Proof.
  intros Ht. unfold traffic_unload_pass. set (D := t s + 6000000).
  change (mbind ?f (gets ut_drv) L) with (f (ut_drv L) L). cbn beta.
  apply (pass_step _ _ _ _ _ _ _ _ _ (t s)); [done|apply set_loaded_halts|lia|]. intros [] s1 H1.
  change (mbind ?f (modify (ut_set_reload true)) L) with (f tt (ut_set_reload true L)). cbn beta.
  apply (pass_sleep _ _ _ _ _ _ _ _ (t s)); [done|lia|]. intros s2 H2.
  apply (pass_step _ _ _ _ _ _ _ _ _ (t s + 3000000)); [done|apply set_loaded_halts|lia|]. intros [] s3 H3.
  change (mbind ?f (modify (ut_set_reload false)) ?L) with (f tt (ut_set_reload false L)). cbn beta.
  generalize (ut_set_reload false (ut_set_reload true L)). clear L. intros L.
  change (mbind ?f (gets ut_neigh) L) with (f (ut_neigh L) L). cbn beta.
  apply (pass_step _ _ _ _ _ _ _ _ _ (t s + 3000000)); [done| |lia|].
  { unfold CHECK_RC. apply halts_bind; [apply wait_halts|]. solve_halts. }
  intros [] s4 H4. apply (pass_step _ _ _ _ _ _ _ _ _ (t s + 3000000)); [done|solve_halts|lia|]. intros [] s5 H5.
  change (mbind ?f (gets ut_bkp) L) with (f (ut_bkp L) L). cbn beta.
  apply (pass_step _ _ _ _ _ _ _ _ _ (t s + 3000000)); [done|unfold deref; solve_halts|lia|]. intros [] s6 H6.
  apply (pass_sleep _ _ _ _ _ _ _ _ (t s + 3000000)); [done|lia|]. intros s7 H7.
  cbn [mbind T_bind]. apply wp_bind. unfold lift, CHECK_OUT. apply wp_bind, wp_attempt. wp_step. wp_step.
  pose proof (proj1 Ht _ _ _ _ _ H) as Hm. destruct x as [rc tv_now]. cbn [bpost].
  destruct (Z.eqb_spec rc 0) as [->|]; [|done]. apply (proj2 (proj2 Ht)) in H; [|done]. cbn in H.
  cbn. split; [lia|]. rewrite timeval_sub_us, H. destruct (Z.leb_spec send_time (TE_US2SEC (t s' - tv_us tv))); done.
Qed.

(** The loop: six seconds a pass at least. *)
Lemma traffic_loop_ended t send_time once tv fuel L s : keeps_time t -> tv_us tv = t s -> (1 <= fuel)%nat ->
  (once = true \/ send_time < 6 * Z.of_nat fuel) ->
  wp E (t_loop fuel (traffic_unload_pass iut send_time once tv) L) s ended.
Proof.
  intros Ht Hs Hf Hb.
  enough (H : forall n k L s, fuel = (k + n)%nat -> tv_us tv + 6000000 * Z.of_nat k <= t s ->
    (k = 0%nat \/ once = false /\ 6 * Z.of_nat k - 1 < send_time) ->
    wp E (t_loop n (traffic_unload_pass iut send_time once tv) L) s ended).
  { apply (H fuel 0%nat); [done|lia|by left]. }
  clear L s Hs. induction n as [|n IH]; intros k L s Hk Htm Hl.
  - exfalso. destruct Hl as [->|[-> Hl]]; [lia|]. destruct Hb as [|Hb]; [done|]. lia.
  - cbn [t_loop mbind T_bind]. apply wp_bind. eapply wp_mono; [by apply traffic_pass_ended|].
    intros [[L' [b|j]]|j|w|] s' H; try done. destruct H as [Htm' Hb']. destruct b; [done|].
    destruct (Hb' eq_refl) as [Ho Hlt]. apply (IH (S k)); [lia|lia|right; split; [done|]].
    pose proof (te_us2sec_close (t s' - tv_us tv)). lia.
Qed.

Lemma at_conn_halts {A} i (p : T net_drv_conn A) L : (forall c, halts (p c)) -> halts (at_conn i p L).
Proof. intros Hp. unfold at_conn. destruct (ut_conns L !! i); [|done]. apply halts_bind; [apply Hp|]. by intros [c' r]. Qed.
Lemma at_flow_halts {A} j (p : T net_drv_flow A) L : (forall f, halts (p f)) -> halts (at_flow j p L).
Proof. intros Hp. unfold at_flow. destruct (ut_flows L !! j); [|done]. apply halts_bind; [apply Hp|]. by intros [f' r]. Qed.

Lemma setup_halts iut_addr tst_addr send_time n L : halts (unload_traffic_setup iut tst iut_addr tst_addr send_time n L).
Proof.
  unfold unload_traffic_setup, setup_conn, setup_flow, get_unloadable_driver, net_drv_driver_name, net_drv_driver_unloadable,
    get_neigh_nodes, net_drv_neigh_nodes_count.
  repeat first [apply at_conn_halts; intros c; unfold net_drv_conn_create, deref; solve_halts
               |apply at_flow_halts; intros f; unfold net_drv_flow_prepare, flow_prepare_ends, create_flow_rpc, deref; solve_halts
               |progress solve_halts].
Qed.

Lemma finish_flow_halts j L : halts (finish_flow j L).
Proof.
  unfold finish_flow. apply halts_then; [|intros _ L1; apply halts_then; [by apply at_flow_halts|solve_halts]].
  apply at_flow_halts. intros f. unfold net_drv_flow_finish, deref, rpc_ok3. solve_halts.
Qed.

Lemma traffic_cleanup_halts L : halts (unload_traffic_cleanup iut L).
Proof.
  assert (Hall : forall ps, Forall halts ps -> halts (also_all ps)) by (induction 1; cbn [also_all]; [done|by apply halts_also]).
  unfold unload_traffic_cleanup. apply halts_also; [apply reload_halts|]. apply halts_also; [solve_halts|].
  apply halts_also; apply Hall, Forall_fmap, Forall_true; intros x.
  - unfold destroy_flow, cleanup_rc, net_drv_flow_destroy, close_sock_kill_rpcs, deref. solve_halts.
  - unfold destroy_conn, cleanup_rc, net_drv_conn_destroy, close_end. solve_halts.
Qed.

Lemma traffic_run_ended t fuel send_time once n L s : keeps_time t -> keeps_open -> MAX_PKT_LEN <= Z.of_nat fuel ->
  (once = true \/ send_time < 6 * Z.of_nat fuel) ->
  wp E (unload_traffic_run iut tst send_time once fuel n L) s ended.
Proof.
  intros Ht Ho Hf Hb. unfold unload_traffic_run. apply ended_then; [solve_halts|]. clear L s. intros bkp L s.
  apply ended_then; [done|]. clear L s. intros _ L s. apply ended_then.
  { apply halts_t_for. intros j L'. apply at_flow_halts. intros f. unfold net_drv_flow_start, deref, rpc_ok3. solve_halts. }
  clear L s. intros _ L s. cbn [mbind T_bind]. apply wp_bind. unfold lift, CHECK_OUT. apply wp_bind, wp_attempt. wp_step. wp_step.
  destruct x as [rc tv]. cbn [bpost]. destruct (Z.eqb_spec rc 0) as [->|]; [|done]. apply (proj2 (proj2 Ht)) in H; [|done].
  cbn in H. cbn [wp mret prog_ret bpost]. apply wp_bind.
  eapply wp_mono; [apply (traffic_loop_ended t); try done; unfold MAX_PKT_LEN in *; lia|].
  clear L. intros [[L [[]|j]]|j|w|] s2 H2; try done. clear H2. cbn [bpost].
  apply (ended_then (modify (ut_set_success true))); [done|]. clear L. intros _ L s3.
  apply ended_then; [apply halts_t_for; intros; apply finish_flow_halts|]. clear L. intros _ L s4.
  apply ended_then; [done|]. clear L. intros ok L s5. apply ended_then; [solve_halts|]. clear L. intros _ L s6.
  apply ended_then; [by apply at_conn_halts|]. clear L. intros c L s7. unfold lift. apply wp_bind, wp_attempt.
  eapply wp_mono; [by apply conn_check_ended|]. by intros [a|j|w|] s8 H8.
Qed.

(** C7. Whatever the environment answers, provided that the driver of an agent
    has a name when it is found, the test of unloading the driver under traffic
    with one connection at least indexes its arrays within their bounds and
    follows no null pointer; and it reaches the end of its cleanup, with fuel
    for one pass per byte of a packet and one per six seconds of [send_time],
    unless time does not pass or the connection is closed ([keeps_time],
    [keeps_open]). *)
Theorem unload_traffic_typed fuel iut_addr tst_addr send_time once n s : (1 <= n)%nat ->
  wp E (driver_unload_traffic iut tst iut_addr tst_addr send_time once fuel n) s
    (fun r _ => match r with
     | Val _ => True
     | NoFuel => MAX_PKT_LEN <= Z.of_nat fuel -> once = true \/ send_time < 6 * Z.of_nat fuel ->
         (exists t, keeps_time t) -> keeps_open -> False
     | _ => False
     end).
Proof.
  intros Hn. unfold driver_unload_traffic. set (p := test_main _ _ _).
  eapply wp_mono with (Q := fun r _ => match r with Val _ | NoFuel => True | _ => False end /\
    (MAX_PKT_LEN <= Z.of_nat fuel /\ (once = true \/ send_time < 6 * Z.of_nat fuel) /\ (exists t, keeps_time t) /\ keeps_open ->
     r <> NoFuel)); [apply wp_and|by intros [a|j|w|] s' [H1 H2]; try done; intros; apply H2].
  - eapply wp_mono; [apply (test_main_keeps E (fun L _ => L = ut_start) ty_inv (fun _ => True)); [done| |]|by intros [a|j|w|]].
    + intros L s' ->. apply st_bind. eapply wp_mono; [apply setup_typed|].
      intros [[L [[]|e]]| | |] s2 H; try done. by apply run_typed.
    + intros L s' H. by apply cleanup_typed.
  - apply wp_provided. intros (Hf & Hb & [t Ht] & Ho). unfold p, test_main. apply wp_bind.
    eapply wp_mono; [apply ended_then; [apply setup_halts|intros; by apply (traffic_run_ended t)]|].
    intros [[L x]|j|w|] s' H; try done. cbn [bpost]. apply ended_bind; [apply traffic_cleanup_halts|]. by intros [] ?.
Qed.
End typed.

(** ** The theorems at work *)
Module UnloadWitness.
Local Existing Instance te_ref.
Import Loaded.

Definition iut := RPCS "pco_iut" "Agt_A".
Definition tst := RPCS "pco_tst" "Agt_B".

Lemma servers_differ : iut <> tst.
Proof. done. Qed.

(** Two connections. *)
Lemma unload_traffic_releases_witness :
  (1 <= 2)%nat /\
  wp (u_world iut tst) (driver_unload_traffic iut tst zero_addr zero_addr 10 true 5 2) u_start
    (fun r u => match r with
     | Val _ => u_fork_failed u = false -> if u_conn_failed u then u_stray u = true else released u
     | NoFuel => True
     | _ => False
     end).
Proof. split; [lia|]. apply (unload_traffic_releases iut tst servers_differ 5 zero_addr zero_addr 10 true 2). lia. Defined.

(** A world with a clock, in microseconds, whose drivers have names, and whose
    connections stay open. *)
Definition timed (t : Z) : timeval := TV (t / 1000000) (t mod 1000000).
Definition clock_ok X (c : te_call X) : Z -> X -> Prop :=
  match c in te_call X return Z -> X -> Prop with
  | tapi_cfg_pci_get_ta_driver _ => fun _ x => fst x = 0 -> is_Some (snd x)
  | te_gettimeofday => fun t x => fst x = 0 -> snd x = timed t
  | rand_range lo hi => fun _ x => lo <= x <= hi
  | rpc_recv _ _ _ => fun _ x => fst (fst x) <> 0
  | _ => fun _ _ => True
  end.
Definition clock_upd X (c : te_call X) : X -> Z -> Z :=
  match c in te_call X return X -> Z -> Z with
  | te_motivated_sleep sec => fun _ t => t + Z.max 0 (1000000 * sec)
  | _ => fun _ t => t
  end.
Definition clock_world : env te_call Z := watch_if clock_ok clock_upd.

Lemma clock_keeps_time : keeps_time clock_world (fun t => t).
Proof.
  repeat split.
  - intros X c s x s' [_ ->]. destruct c; cbn; lia.
  - intros sec s x s' [_ ->]. cbn. lia.
  - intros s x s' [H ->] Hx. cbn in *. rewrite H by done. unfold timed, tv_us. cbn.
    pose proof (Z.div_mod s 1000000). lia.
Qed.

Lemma clock_keeps_open : keeps_open clock_world.
Proof. split; [by intros lo hi s x s' [H _]; apply H|by intros r sk len s x s' [H _]]. Qed.

(** There the test of two connections ends, with 1024 passes at most for ten
    seconds of traffic. *)
Lemma unload_traffic_typed_witness :
  (forall ta s x s', clock_world _ (tapi_cfg_pci_get_ta_driver ta) s x s' -> fst x = 0 -> is_Some (snd x)) /\
  wp clock_world (driver_unload_traffic iut tst zero_addr zero_addr 10 false 1024 2) 0
    (fun r _ => match r with Val _ => True | _ => False end).
Proof.
  assert (H : forall ta s x s', clock_world _ (tapi_cfg_pci_get_ta_driver ta) s x s' -> fst x = 0 -> is_Some (snd x)).
  { intros ta s x s' [Hx _]. exact Hx. }
  split; [exact H|].
  eapply wp_mono; [apply (unload_traffic_typed clock_world iut tst H 1024 zero_addr zero_addr 10 false 2 0); lia|].
  intros [a|j|w|] s Hr; try done. apply Hr; [done|by right| |apply clock_keeps_open].
  exists (fun t => t). apply clock_keeps_time.
Defined.

(** A configuration that unloads the module but still says, when it is read
    back, that the module is loaded. *)
Definition late_answer : handler te_call mstate := fun X c m =>
  match c in te_call X return X * mstate with
  | tapi_cfg_pci_get_ta_driver ta => ((0, Some "sfc"%string), m)
  | getenv _ => (Some "yes"%string, m)
  | tapi_cfg_module_unload ta drv => (0, upd _ (tapi_cfg_module_unload ta drv) 0 m)
  | tapi_cfg_module_load ta drv => (0, upd _ (tapi_cfg_module_load ta drv) 0 m)
  | cfg_get_instance_int oid => ((0, 1), upd _ (cfg_get_instance_int oid) (0, 1) m)
  | c => (default_answer c, m)
  end.

(** Then the test says that it failed to unload the driver, and leaves it
    unloaded: the flag by which the cleanup loads it was not set yet. *)
Lemma driver_left_unloaded :
  run late_answer (driver_unload "Agt_A" "eth1" TEST_IF_DOWN 1) start =
  (Val (Left (VERDICT (Msg "Failed to unload the driver" []))), MState false 0 true false).
Proof. vm_compute. reflexivity. Qed.
End UnloadWitness.
