(* ===== verification/Judging.v ===== *)
(** Tests that judge what they see: the rules by which a test is shown to go on
    only while what was seen is as specified, and to leave with a verdict only
    when it is not. *)
From S2P Require Import Prelude Prog Te Locals Resources.

(** A jump that is not a verdict. *)
Definition no_verdict (j : jump) : bool := match j with VERDICT _ => false | _ => true end.

Section judging.
Context {S : Type} (E : env te_call S) (quiet : forall X, te_call X -> bool).
Context (quiet_same : forall X (c : te_call X) s x s', quiet X c = true -> E X c s x s' -> s' = s).
Context (bad : S -> Prop).

(** [Q] holds where the code goes on, and a verdict is left with [bad] only. *)
Definition jpost {St A} (Q : St -> S -> Prop) (L : St) (r : A + jump) (s : S) : Prop :=
  match r with inl _ => Q L s | inr (VERDICT _) => bad s | inr _ => True end.

Section rules.
Context {St B : Type} (Q : St -> S -> Prop).

Lemma j_quiet_wp {A} (p : M A) s :
  only quiet no_verdict p ->
  wp E p s (fun r s' => s' = s /\ match r with Exc j => no_verdict j = true | Undef _ => False | _ => True end).
Proof.
  intros Ho. eapply wp_mono; [apply (wp_only quiet no_verdict E (fun s' => s' = s)); [exact Ho| |done]|].
  - intros X c s1 x s2 Hc -> H. by eapply quiet_same.
  - intros [a|j|w|] s' [-> Hr]; auto.
Qed.

Lemma j_call {A} (p : M A) (f : A -> T St B) L s (R : A -> S -> Prop) :
  wp E p s (fun r s' => match r with Val a => R a s' | Exc (VERDICT _) => bad s' | Exc _ => True | _ => False end) ->
  (forall a s', R a s' -> twp E (f a) L s' (jpost Q)) ->
  twp E (mbind f (lift p)) L s (jpost Q).
Proof.
  intros Hp Hf. apply twp_bind, twp_lift. eapply wp_mono; [exact Hp|].
  intros [a|[]|w|] s' H; cbn; try done. by apply Hf.
Qed.

(** Code that ends with a value or a jump that is no verdict, and of which nothing is seen. *)
Lemma j_quiet {A} (p : M A) (f : A -> T St B) L s :
  only quiet no_verdict p -> wp E p s (fun r _ => r <> NoFuel) -> (forall a, twp E (f a) L s (jpost Q)) ->
  twp E (mbind f (lift p)) L s (jpost Q).
Proof.
  intros Ho Hn Hf. apply (j_call p f L s (fun _ s' => s' = s)); [|by intros a s' ->].
  eapply wp_mono; [apply wp_and; [by apply j_quiet_wp|exact Hn]|]. intros [a|[]|w|] s' [[-> H] N]; try done.
Qed.

(** A call whose status is checked and whose effect is seen. *)
Lemma j_check (c : te_call te_errno) (f : unit -> T St B) L s :
  (forall s', E _ c s 0 s' -> twp E (f tt) L s' (jpost Q)) ->
  twp E (mbind f (lift (CHECK_RC (call c)))) L s (jpost Q).
Proof.
  intros Hf. apply (j_call _ f L s (fun _ s' => twp E (f tt) L s' (jpost Q))); [|by intros [] s'].
  unfold CHECK_RC. do 2 wp_step. wp_step. destruct (Z.eqb_spec x 0) as [->|]; [by apply Hf|done].
Qed.

Lemma j_bind (p : T St unit) (f : unit -> T St B) (R : St -> S -> Prop) L s :
  twp E p L s (jpost R) -> (forall L' s', R L' s' -> twp E (f tt) L' s' (jpost Q)) -> twp E (mbind f p) L s (jpost Q).
Proof.
  intros Hp Hf. apply twp_bind. eapply twp_mono; [exact Hp|]. intros L' [[]|[]] s' H; cbn in *; auto.
Qed.

Lemma j_modify (g : St -> St) (f : unit -> T St B) L s : twp E (f tt) (g L) s (jpost Q) -> twp E (mbind f (modify g)) L s (jpost Q).
Proof. done. Qed.
End rules.

Lemma judged_main {St} (init : St) (body : T St unit) (cleanup : St -> M bool) s (Q : S -> Prop) :
  twp E body init s (jpost (fun _ => Q)) ->
  (forall L, only quiet no_verdict (cleanup L)) -> (forall L, returns (cleanup L)) ->
  wp E (test_main init body cleanup) s (fun r s' => match r with
    | Val (Left (VERDICT _)) => bad s'
    | Val (Left _) => True
    | Val _ => Q s'
    | _ => False
    end).
Proof.
  intros Hb Hc Hr. unfold test_main. apply wp_bind. eapply wp_mono; [exact Hb|].
  intros [[L r]| | |] s' H; cbn [tpost bpost] in *; try done. apply wp_bind.
  eapply wp_mono; [apply wp_and; [apply j_quiet_wp, Hc|apply wp_returns, Hr]|].
  intros res s2 [[-> _] [b ->]]. cbn. destruct r as [[]|[]], b; done.
Qed.
End judging.

(** ** Tests shown to do something only when they pass *)
Section passing.
Context {S : Type} (E : env te_call S).

(** What holds when the body was not left by a jump, and after the cleanup. *)
Lemma test_main_passes {St} (init : St) (body : T St unit) (cleanup : St -> M bool) s (G : St -> S -> Prop) (Q : S -> Prop) :
  wp E (body init) s (upto (fun _ _ => True) (fun _ => G)) ->
  (forall L, returns (cleanup L)) ->
  (forall L s, G L s -> wp E (cleanup L) s (fun _ s' => Q s')) ->
  wp E (test_main init body cleanup) s (fun r s' => match r with
    | Val (Left _) | NoFuel => True
    | Val _ => Q s'
    | _ => False
    end).
Proof.
  intros Hb Hr Hc. unfold test_main. apply wp_bind. eapply wp_mono; [exact Hb|].
  intros [[L [[]|j]]| | |] s' H; cbn [upto bpost] in *; try done; apply wp_bind.
  - eapply wp_mono; [apply wp_and; [by apply Hc|apply wp_returns, Hr]|]. intros r s2 [HQ [b ->]]. by destruct b.
  - eapply wp_mono; [apply wp_returns, Hr|]. by intros r s2 [b ->].
Qed.

Lemma st_get {St B} (F : St -> S -> Prop) (G : B -> St -> S -> Prop) (f : St -> T St B) L s :
  wp E (f L L) s (upto F G) -> wp E (mbind f get L) s (upto F G).
Proof. done. Qed.
End passing.

(** The calls of code over locals. *)
Section only_locals.
Context {C : Type -> Type} (allowed : forall X, C X -> bool) (may : jump -> bool).

Lemma only_attempt {A} (p : prog C A) : only allowed (fun _ => true) p -> only allowed may (attempt p).
Proof.
  induction p as [[a|j|w|]|X c k IH]; cbn; try done. intros [Hc Hk]. split; [done|]. intros x. by apply IH.
Qed.

Lemma only_lift {St A} (p : prog C A) (L : St) : only allowed (fun _ => true) p -> only allowed may (lift p L).
Proof. intros H. unfold lift. apply only_bind; [by apply only_attempt|]. by intros r. Qed.

Lemma only_then {St A B} (p : T St A) (f : A -> T St B) (L : St) :
  only allowed may (p L) -> (forall a L', only allowed may (f a L')) -> only allowed may (mbind f p L).
Proof. intros Hp Hf. apply only_bind; [exact Hp|]. intros [L' [a|j]]; [apply Hf|done]. Qed.
End only_locals.

(** [only] of code over locals, statement by statement. *)
Ltac solve_locals :=
  repeat first
    [ apply only_then
    | apply only_lift
    | progress intros
    | match goal with
      | |- only _ _ (twhen ?b _ _) => destruct b; unfold twhen
      | |- only _ _ (modify _ _) => exact I
      | |- only _ _ (get _) => exact I
      | |- only _ _ (gets _ _) => exact I
      | |- only _ _ (mret _ _) => exact I
      end ]; try solve [solve_only].
