(* ===== verification/NicFilter.v ===== *)
(** Which frames reach the IUT: basic/mac_change_rx.c, basic/rx_mode.c and
    offload/vlan_filter.c.  Their judgements of every packet are related to a
    specification of the filters of an interface. *)
From S2P Require Import Prelude Prog Te Locals NetDrvTs Resources RxCommon Holding Judging.

(** The static variables of mac_change_rx.c and rx_mode.c the cleanup uses;
    [mc_oid] is [if_oid], empty until the multicast address is to be added. *)
Record mac_locals := MacLocals {
  mc_iut_s : Z; mc_csap_iut : Z; mc_csap_tst : Z; mc_templ : handle; mc_oid : string }.
Definition mc_set_s (s : Z) (l : mac_locals) : mac_locals :=
  MacLocals s (mc_csap_iut l) (mc_csap_tst l) (mc_templ l) (mc_oid l).
Definition mc_set_iut (c : Z) (l : mac_locals) : mac_locals :=
  MacLocals (mc_iut_s l) c (mc_csap_tst l) (mc_templ l) (mc_oid l).
Definition mc_set_tst (c : Z) (l : mac_locals) : mac_locals :=
  MacLocals (mc_iut_s l) (mc_csap_iut l) c (mc_templ l) (mc_oid l).
Definition mc_set_templ (t : handle) (l : mac_locals) : mac_locals :=
  MacLocals (mc_iut_s l) (mc_csap_iut l) (mc_csap_tst l) t (mc_oid l).
Definition mc_set_oid (o : string) (l : mac_locals) : mac_locals :=
  MacLocals (mc_iut_s l) (mc_csap_iut l) (mc_csap_tst l) (mc_templ l) o.
Definition mc_start {TE : Te} : mac_locals := MacLocals (-1) CSAP_INVALID_HANDLE CSAP_INVALID_HANDLE 0 "".

Section nic_tests.
Context {TE : Te} (te_sockaddr_is_multicast : list Z -> bool).
Context (iut_rpcs tst_rpcs : rcf_rpc_server) (iut_if tst_if : string) (iut_addr tst_addr : sockaddr).
Context (tst_lladdr iut_lladdr : list Z).

(** [buf_tmpl]. *)
Definition templ_text (af : Z) : string :=
  "{ pdus { udp: {}, ip" +:+ (if af =? AF_INET then "4" else "6") +:+ ":{}, eth:{} } }".

Definition parse_templ (af : Z) : M handle :=
  buf_tmpl ← CHECK_OUT (call (te_snprintf (templ_text af)));
  CHECK_OUT (call (asn_parse_value_text buf_tmpl)).

(** ** Destination MAC addresses *)
Section mac.
Context (iut_alien_mac : list Z) (promisc allmulti : bool) (bcast_addr mcast_addr : list Z).

(** The function [send_recv_pkt] of both tests; [captured] is the condition
    under which the CSAP on the IUT must see the packet. *)
Definition send_recv_gen (captured : bool) (l : mac_locals) (dst_mac : list Z) (exp_receive : bool) (stage : string) : M unit :=
  send_len ← call (rand_range 1 MAX_PKT_LEN);
  send_buf ← call (te_fill_buf send_len);
  _ ← CHECK_RC (call (asn_write_value_field (mc_templ l) (ASN_OCTETS send_buf) "payload.#bytes"));
  _ ← CHECK_RC (call (asn_write_value_field (mc_templ l) (ASN_OCTETS dst_mac) "pdus.2.#eth.dst-addr.#plain"));
  _ ← CHECK_RC (call (tapi_tad_trsend_blocking (rpcs_ta tst_rpcs) (mc_csap_tst l) (mc_templ l)));
  readable ← call (rpc_readability iut_rpcs (mc_iut_s l) TAPI_WAIT_NETWORK_DELAY);
  if negb (Bool.eqb readable exp_receive) then
    TEST_VERDICT "%s: socket is %sreadable unexpectedly" [AS stage; AS (if readable then "" else "not ")]
  else
    _ ← when readable
          ('(rc, recv_buf, err) ← call (rpc_recv iut_rpcs (mc_iut_s l) MAX_PKT_LEN);
           if rc <? 0 then TEST_VERDICT "%s: recv() failed unexpectedly with error %r" [AS stage; AI err]
           else when (negb (rc =? send_len) || negb (mem_eq recv_buf send_buf send_len))
                  (TEST_VERDICT "%s: recv() returned unexpected data" [AS stage]));
    pkts_num ← CHECK_OUT (call (tapi_tad_trrecv_get_count (rpcs_ta iut_rpcs) (mc_csap_iut l)));
    if 1 <? pkts_num then TEST_VERDICT "%s: CSAP on IUT captured more than one packet" [AS stage]
    else if (captured : bool) then
      when (pkts_num =? 0) (TEST_VERDICT "%s: CSAP on IUT did not capture the packet" [AS stage])
    else when (negb (pkts_num =? 0)) (TEST_VERDICT "%s: CSAP on IUT captured the packet" [AS stage]).

(** [send_recv_pkt] of mac_change_rx.c, then of rx_mode.c. *)
Definition mac_send_recv_pkt (l : mac_locals) (dst_mac : list Z) (exp_receive : bool) (stage : string) : M unit :=
  send_recv_gen (exp_receive || promisc) l dst_mac exp_receive stage.
Definition mode_send_recv_pkt (l : mac_locals) (dst_mac : list Z) (exp_receive : bool) (stage : string) : M unit :=
  send_recv_gen (exp_receive || promisc || (allmulti && te_sockaddr_is_multicast dst_mac)) l dst_mac exp_receive stage.

(** The socket, the CSAPs and the template: the same in both tests. *)
Definition mac_setup : T mac_locals unit :=
  _ ← lift (call CFG_WAIT_CHANGES);
  iut_s ← lift (rpc_ok (rpc_socket iut_rpcs));
  _ ← modify (mc_set_s iut_s);
  _ ← lift (rpc_ok (rpc_bind iut_rpcs iut_s iut_addr));
  csap_iut ← lift (CHECK_OUT (call (tapi_udp_ip_eth_csap_create (rpcs_ta iut_rpcs) iut_if TAD_ETH_RECV_DEF
               None (Some tst_lladdr) (sa_family iut_addr) iut_addr tst_addr)));
  _ ← modify (mc_set_iut csap_iut);
  _ ← lift (CHECK_RC (call (tapi_tad_trrecv_start_count (rpcs_ta iut_rpcs) csap_iut)));
  csap_tst ← lift (CHECK_OUT (call (tapi_udp_ip_eth_csap_create (rpcs_ta tst_rpcs) tst_if TAD_ETH_RECV_NO
               (Some tst_lladdr) None (sa_family iut_addr) tst_addr iut_addr)));
  _ ← modify (mc_set_tst csap_tst);
  pkt_templ ← lift (parse_templ (sa_family iut_addr));
  modify (mc_set_templ pkt_templ).

(** [send_recv_pkt] with the static variables of the moment. *)
Definition at_now (p : mac_locals -> M unit) : T mac_locals unit := l ← get; lift (p l).

Definition mac_change_rx_body : T mac_locals unit :=
  _ ← lift (CHECK_RC (call (tapi_cfg_base_if_set_promisc (rpcs_ta iut_rpcs) iut_if promisc)));
  _ ← mac_setup;
  _ ← at_now (fun l => mac_send_recv_pkt l iut_lladdr true "Sending to the old address before address change");
  _ ← at_now (fun l => mac_send_recv_pkt l iut_alien_mac false "Sending to the new address before address change");
  _ ← lift (CHECK_RC (net_drv_set_check_mac (rpcs_ta iut_rpcs) iut_if iut_alien_mac));
  _ ← at_now (fun l => mac_send_recv_pkt l iut_lladdr false "Sending to the old address after address change");
  at_now (fun l => mac_send_recv_pkt l iut_alien_mac true "Sending to the new address after address change").

(** The template is not freed. *)
Definition mac_change_rx_cleanup (l : mac_locals) : M bool :=
  also (cleanup_close iut_rpcs (mc_iut_s l))
 (also (cleanup_rc (call (tapi_tad_csap_destroy (rpcs_ta iut_rpcs) (mc_csap_iut l))))
       (cleanup_rc (call (tapi_tad_csap_destroy (rpcs_ta tst_rpcs) (mc_csap_tst l))))).

Definition mac_change_rx_main : M status := test_main mc_start mac_change_rx_body mac_change_rx_cleanup.

Definition if_oid : string := "/agent:" +:+ rpcs_ta iut_rpcs +:+ "/interface:" +:+ iut_if.

Definition rx_mode_body : T mac_locals unit :=
  _ ← lift (CHECK_RC (call (tapi_cfg_base_if_set_promisc (rpcs_ta iut_rpcs) iut_if promisc)));
  _ ← lift (CHECK_RC (call (tapi_cfg_base_if_set_allmulti (rpcs_ta iut_rpcs) iut_if allmulti)));
  _ ← mac_setup;
  _ ← at_now (fun l => mode_send_recv_pkt l iut_lladdr true "Sending to the current MAC address");
  _ ← at_now (fun l => mode_send_recv_pkt l bcast_addr true "Sending to the broadcast MAC address");
  _ ← at_now (fun l => mode_send_recv_pkt l iut_alien_mac false "Sending to the alien MAC address");
  _ ← at_now (fun l => mode_send_recv_pkt l mcast_addr (promisc || allmulti) "Sending to the alien multicast MAC address");
  _ ← modify (mc_set_oid if_oid);
  _ ← lift (CHECK_RC (call (tapi_cfg_base_if_add_mcast_mac if_oid mcast_addr)));
  _ ← lift (call CFG_WAIT_CHANGES);
  at_now (fun l => mode_send_recv_pkt l mcast_addr true "Sending to the added multicast MAC address").

Definition rx_mode_cleanup (l : mac_locals) : M bool :=
  also (if String.eqb (mc_oid l) "" then mret true
        else cleanup_rc (call (tapi_cfg_base_if_del_mcast_mac (mc_oid l) mcast_addr)))
 (also (cleanup_close iut_rpcs (mc_iut_s l))
 (also (cleanup_rc (call (tapi_tad_csap_destroy (rpcs_ta iut_rpcs) (mc_csap_iut l))))
 (also (cleanup_rc (call (tapi_tad_csap_destroy (rpcs_ta tst_rpcs) (mc_csap_tst l))))
       (_ ← call (asn_free_value (mc_templ l)); mret true)))).

Definition rx_mode_main : M status := test_main mc_start rx_mode_body rx_mode_cleanup.
End mac.

(** ** VLAN tags *)
Record vlan_locals := VlanLocals { vl_csap_iut : Z; vl_csap_tst : Z }.
Definition vl_set_iut (c : Z) (l : vlan_locals) : vlan_locals := VlanLocals c (vl_csap_tst l).
Definition vl_set_tst (c : Z) (l : vlan_locals) : vlan_locals := VlanLocals (vl_csap_iut l) c.
Definition vl_start : vlan_locals := VlanLocals CSAP_INVALID_HANDLE CSAP_INVALID_HANDLE.

Definition PKTS_NUM_WAIT : Z := 1.

Section vlan.
Context (vlan_filter_on : bool).

(** [if (fail) TEST_VERDICT(...); else WARN_VERDICT(...);] *)
Definition fail_or_warn (fail : bool) (fmt stage : string) : M unit :=
  if fail then TEST_VERDICT fmt [AS stage] else WARN_VERDICT fmt [AS stage].

(** [send_recv_pkt] of vlan_filter.c; [free()] gives back the root of the
    template only. *)
Definition vlan_send_recv_pkt (l : vlan_locals) (af vlan_tci : Z) (exp_receive fail : bool) (stage : string) : M unit :=
  pkt_templ ← parse_templ af;
  _ ← when (negb (vlan_tci =? 0)) (CHECK_RC (call (tapi_ndn_pkt_inject_vlan_tag pkt_templ vlan_tci)));
  send_len ← call (rand_range 1 MAX_PKT_LEN);
  send_buf ← call (te_fill_buf send_len);
  _ ← CHECK_RC (call (asn_write_value_field pkt_templ (ASN_OCTETS send_buf) "payload.#bytes"));
  _ ← CHECK_RC (call (tapi_tad_trsend_blocking (rpcs_ta tst_rpcs) (vl_csap_tst l) pkt_templ));
  rx_pkts_num ← CHECK_OUT (call (tapi_tad_trrecv_wait_pkts_get_num (rpcs_ta iut_rpcs) (vl_csap_iut l)
                                   PKTS_NUM_WAIT TAPI_WAIT_NETWORK_DELAY));
  if PKTS_NUM_WAIT <? rx_pkts_num then TEST_VERDICT "%s: CSAP on IUT captured more than one packet" [AS stage] else
  _ ← (if (exp_receive : bool) then
         when (rx_pkts_num =? 0) (fail_or_warn fail "%s: CSAP on IUT did not capture the packet" stage)
       else when (negb (rx_pkts_num =? 0)) (fail_or_warn fail "%s: CSAP on IUT captured the packet" stage));
  call (free pkt_templ).

Definition vlan_at_now (p : vlan_locals -> M unit) : T vlan_locals unit := l ← get; lift (p l).

(** The part of the test with the VLANs. *)
Definition vlan_stages (af : Z) : T vlan_locals unit :=
  let send tci exp fail stage := vlan_at_now (fun l => vlan_send_recv_pkt l af tci exp fail stage) in
  let off := negb vlan_filter_on in
  _ ← send 0 true true "Sending untagged when no VLANs added"%string;
  vlan_a_id ← lift (call (rand_range 1 4094));
  _ ← send vlan_a_id off off "Sending to a VLAN when no VLANs added"%string;
  _ ← lift (CHECK_OUT (call (tapi_cfg_base_if_add_vlan (rpcs_ta iut_rpcs) iut_if vlan_a_id)));
  vlan_b_id ← lift (call (te_rand_range_exclude 1 4094 vlan_a_id));
  _ ← lift (CHECK_OUT (call (tapi_cfg_base_if_add_vlan (rpcs_ta iut_rpcs) iut_if vlan_b_id)));
  _ ← lift (call CFG_WAIT_CHANGES);
  _ ← send 0 true true "Sending untagged when VLANs added"%string;
  _ ← send vlan_a_id true true "Sending to just added VLAN A"%string;
  _ ← send vlan_b_id true true "Sending to just added VLAN B"%string;
  _ ← lift (CHECK_RC (call (tapi_cfg_base_if_del_vlan (rpcs_ta iut_rpcs) iut_if vlan_a_id)));
  _ ← lift (call CFG_WAIT_CHANGES);
  _ ← send vlan_b_id true true "Sending to still added VLAN B"%string;
  _ ← send vlan_a_id off true "Sending to just removed VLAN A"%string;
  _ ← lift (CHECK_RC (call (tapi_cfg_base_if_del_vlan (rpcs_ta iut_rpcs) iut_if vlan_b_id)));
  _ ← lift (call CFG_WAIT_CHANGES);
  _ ← send vlan_b_id off off "Sending to a VLAN when all VLANs removed"%string;
  send 0 true true "Sending untagged when all VLANs removed"%string.

Definition vlan_filter_body : T vlan_locals unit :=
  _ ← lift (net_drv_set_if_feature (rpcs_ta iut_rpcs) iut_if "rx-vlan-filter" (if vlan_filter_on then 1 else 0));
  _ ← lift (CHECK_RC (call (tapi_cfg_base_if_set_promisc (rpcs_ta iut_rpcs) iut_if false)));
  _ ← lift (call CFG_WAIT_CHANGES);
  '(iut_addr2, tst_addr2, _) ← lift (CHECK_OUT (call (tapi_cfg_alloc_af_net_addr_pair (sa_family iut_addr))));
  csap_iut ← lift (CHECK_OUT (call (tapi_udp_ip_eth_csap_create (rpcs_ta iut_rpcs) iut_if TAD_ETH_RECV_DEF
               (Some iut_lladdr) (Some tst_lladdr) (sa_family iut_addr2) iut_addr2 tst_addr2)));
  _ ← modify (vl_set_iut csap_iut);
  _ ← lift (CHECK_RC (call (tapi_tad_trrecv_start_count (rpcs_ta iut_rpcs) csap_iut)));
  csap_tst ← lift (CHECK_OUT (call (tapi_udp_ip_eth_csap_create (rpcs_ta tst_rpcs) tst_if TAD_ETH_RECV_NO
               (Some tst_lladdr) (Some iut_lladdr) (sa_family iut_addr2) tst_addr2 iut_addr2)));
  _ ← modify (vl_set_tst csap_tst);
  vlan_stages (sa_family iut_addr2).

Definition vlan_filter_cleanup (l : vlan_locals) : M bool :=
  also (cleanup_rc (call (tapi_tad_csap_destroy (rpcs_ta iut_rpcs) (vl_csap_iut l))))
       (cleanup_rc (call (tapi_tad_csap_destroy (rpcs_ta tst_rpcs) (vl_csap_tst l)))).

Definition vlan_filter_main : M status := test_main vl_start vlan_filter_body vlan_filter_cleanup.
End vlan.
End nic_tests.

(** ** The filters of an interface *)
Module NicSpec.

(** The unicast address, the modes and the multicast addresses of an interface. *)
Record nic := Nic { n_mac : list Z; n_promisc : bool; n_allmulti : bool; n_groups : list (list Z) }.

Definition set_mac (m : list Z) (n : nic) : nic := Nic m (n_promisc n) (n_allmulti n) (n_groups n).
Definition set_promisc (b : bool) (n : nic) : nic := Nic (n_mac n) b (n_allmulti n) (n_groups n).
Definition set_allmulti (b : bool) (n : nic) : nic := Nic (n_mac n) (n_promisc n) b (n_groups n).
Definition add_group (m : list Z) (n : nic) : nic := Nic (n_mac n) (n_promisc n) (n_allmulti n) (m :: n_groups n).

Definition broadcast : list Z := replicate 6 255.

Section filter.
Context (is_multicast : list Z -> bool).

(** The frames the network stack gives to a socket, and those a capture on the
    interface sees. *)
Definition delivers (n : nic) (dst : list Z) : bool :=
  bool_decide (dst = n_mac n) || bool_decide (dst = broadcast) ||
  (is_multicast dst && (n_promisc n || n_allmulti n || bool_decide (dst ∈ n_groups n))).
Definition captures (n : nic) (dst : list Z) : bool := delivers n dst || n_promisc n.

(** What is seen of a packet: the interface when it was sent, its destination
    and payload, whether the socket became readable, what it received and how
    many packets were captured. *)
Record seen := Seen {
  o_nic : nic; o_dst : list Z; o_payload : list Z;
  o_readable : option bool; o_got : option (Z * list Z); o_count : option Z }.

(** ... and that it is as specified. *)
Definition conforms (o : seen) : Prop :=
  let d := delivers (o_nic o) (o_dst o) in
  o_readable o = Some d /\
  o_got o = (if d then Some (Z.of_nat (length (o_payload o)), o_payload o) else None) /\
  o_count o = Some (if captures (o_nic o) (o_dst o) then 1 else 0).
(** Something that was seen is not as specified. *)
Definition deviates (o : seen) : Prop :=
  (exists b, o_readable o = Some b /\ b <> delivers (o_nic o) (o_dst o)) \/
  (exists x, o_got o = Some x /\ x <> (Z.of_nat (length (o_payload o)), o_payload o)) \/
  (exists n, o_count o = Some n /\ n <> if captures (o_nic o) (o_dst o) then 1 else 0).

Lemma deviates_not_conforms o : deviates o -> ~ conforms o.
Proof.
  intros H (Hr & Hg & Hc). destruct H as [(b & E & N)|[(x & E & N)|(n & E & N)]]; [congruence| |congruence].
  rewrite E in Hg. destruct (delivers _ _); congruence.
Qed.
End filter.

(** A monitor of the test: the interface, what is written to the template, and
    the packets sent, the last one first. *)
Record ghost := Ghost { g_nic : nic; g_payload : list Z; g_dst : list Z; g_seen : list seen }.
Definition on_nic (f : nic -> nic) (g : ghost) : ghost := Ghost (f (g_nic g)) (g_payload g) (g_dst g) (g_seen g).
Definition written (label : string) (l : list Z) (g : ghost) : ghost :=
  if String.eqb label "payload.#bytes" then Ghost (g_nic g) l (g_dst g) (g_seen g)
  else if String.eqb label "pdus.2.#eth.dst-addr.#plain" then Ghost (g_nic g) (g_payload g) l (g_seen g)
  else g.
Definition sent (g : ghost) : ghost :=
  Ghost (g_nic g) (g_payload g) (g_dst g) (Seen (g_nic g) (g_dst g) (g_payload g) None None None :: g_seen g).
Definition on_last (f : seen -> seen) (g : ghost) : ghost :=
  Ghost (g_nic g) (g_payload g) (g_dst g) (match g_seen g with o :: l => f o :: l | [] => [] end).
Definition set_readable (b : bool) (o : seen) : seen :=
  Seen (o_nic o) (o_dst o) (o_payload o) (Some b) (o_got o) (o_count o).
Definition set_got (x : Z * list Z) (o : seen) : seen :=
  Seen (o_nic o) (o_dst o) (o_payload o) (o_readable o) (Some x) (o_count o).
Definition set_count (n : Z) (o : seen) : seen :=
  Seen (o_nic o) (o_dst o) (o_payload o) (o_readable o) (o_got o) (Some n).
Definition if_ok (rc : Z) (f : ghost -> ghost) (g : ghost) : ghost := if rc =? 0 then f g else g.

Definition upd X (c : te_call X) : X -> ghost -> ghost :=
  match c in te_call X return X -> ghost -> ghost with
  | asn_write_value_field _ (ASN_OCTETS l) label => fun rc => if_ok rc (written label l)
  | tapi_tad_trsend_blocking _ _ _ => fun _ => sent
  | rpc_readability _ _ _ => fun b => on_last (set_readable b)
  | rpc_recv _ _ _ => fun x => on_last (set_got (fst x))
  | tapi_tad_trrecv_get_count _ _ => fun x => if_ok (fst x) (on_last (set_count (snd x)))
  | tapi_cfg_base_if_set_promisc _ _ b => fun rc => if_ok rc (on_nic (set_promisc b))
  | tapi_cfg_base_if_set_allmulti _ _ b => fun rc => if_ok rc (on_nic (set_allmulti b))
  | tapi_cfg_base_if_add_mcast_mac _ m => fun rc => if_ok rc (on_nic (add_group m))
  | tapi_cfg_set_hwaddr _ _ m => fun rc => if_ok rc (on_nic (set_mac m))
  | _ => fun _ g => g
  end.

(** Documented behaviour: buffers have the length asked for, [recv] returns
    what it stored, and a count of packets is not negative. *)
Definition ok X (c : te_call X) : ghost -> X -> Prop :=
  match c in te_call X return ghost -> X -> Prop with
  | te_fill_buf len => fun _ b => Z.of_nat (length b) = len
  | rand_range lo hi => fun _ x => lo <= x <= hi
  | rpc_recv _ _ len => fun _ x => 0 <= fst (fst x) -> Z.of_nat (length (snd (fst x))) = fst (fst x) /\ fst (fst x) <= len
  | tapi_tad_trrecv_get_count _ _ => fun _ x => 0 <= snd x
  | _ => fun _ _ => True
  end.

Definition world : env te_call ghost := watch_if ok upd.

(** Calls of which the monitor sees nothing. *)
Definition quiet X (c : te_call X) : bool :=
  match c with
  | asn_write_value_field _ _ _ | tapi_tad_trsend_blocking _ _ _ | rpc_readability _ _ _ | rpc_recv _ _ _
  | tapi_tad_trrecv_get_count _ _ | tapi_cfg_base_if_set_promisc _ _ _ | tapi_cfg_base_if_set_allmulti _ _ _
  | tapi_cfg_base_if_add_mcast_mac _ _ | tapi_cfg_set_hwaddr _ _ _ => false
  | _ => true
  end.
Lemma quiet_upd X (c : te_call X) x g : quiet X c = true -> upd X c x g = g.
Proof. by destruct c. Qed.
End NicSpec.

Section judged.
Context {TE : Te} (is_multicast : list Z -> bool).
Context (iut_rpcs tst_rpcs : rcf_rpc_server) (iut_if tst_if : string) (iut_addr tst_addr : sockaddr) (tst_lladdr iut_lladdr : list Z).
Import NicSpec.

Local Abbreviation delivers := (delivers is_multicast).
Local Abbreviation captures := (captures is_multicast).
Local Abbreviation conforms := (conforms is_multicast).
Local Abbreviation deviates := (deviates is_multicast).

(** [rc != send_len || memcmp(recv_buf, send_buf, send_len) != 0]. *)
Lemma data_as_sent rc n (d b : list Z) :
  (0 <= rc -> Z.of_nat (length d) = rc /\ rc <= MAX_PKT_LEN) -> (rc <? 0) = false -> Z.of_nat (length b) = n ->
  negb (rc =? n) || negb (mem_eq d b n) = negb (bool_decide ((rc, d) = (n, b))).
Proof.
  intros Hd Hrc Hb. autorewrite with zbool in Hrc. specialize (Hd ltac:(lia)) as [Hd _].
  rewrite <- negb_andb. f_equal. apply eq_bool_prop_intro. rewrite bool_decide_spec, andb_True, !Is_true_true, Z.eqb_eq. split.
  - intros [-> Hm]. f_equal. apply mem_eq_all; [lia|]. by replace (Z.of_nat (length d)) with n by lia.
  - intros [= -> ->]. split; [done|]. unfold mem_eq. by apply bool_decide_eq_true.
Qed.

(** A packet is judged by the specification. *)
Lemma send_recv_judged l dst stage g :
  wp world (send_recv_gen iut_rpcs tst_rpcs (captures (g_nic g) dst) l dst (delivers (g_nic g) dst) stage) g
    (fun r g' => match r with
      | Val _ => g_nic g' = g_nic g /\
          exists o, g_seen g' = o :: g_seen g /\ o_nic o = g_nic g /\ o_dst o = dst /\ conforms o
      | Exc (VERDICT _) => exists o, g_seen g' = o :: g_seen g /\ o_nic o = g_nic g /\ o_dst o = dst /\ deviates o
      | Exc _ => True
      | _ => False
      end).
Proof.
  destruct g as [n pl ds sn]. cbn [g_nic g_seen].
  unfold send_recv_gen. destruct (delivers n dst) eqn:Hd, (captures n dst) eqn:Hc; wp_go; try done.
  all: cbn [ok fst snd] in *; cbn [upd]; unfold if_ok; cbn [fst snd].
  all: repeat match goal with H : (_ =? 0) = true |- _ => rewrite H; clear H end.
  all: try (split; [reflexivity|]); eexists; split; [reflexivity|]; split; [reflexivity|]; split; [reflexivity|].
  all: unfold NicSpec.conforms, NicSpec.deviates; cbn; rewrite Hd, Hc.
  all: repeat match goal with
    | H : negb (_ =? _) || negb (mem_eq _ _ _) = _ |- _ => rewrite data_as_sent in H by done
    | H : negb (bool_decide _) = false |- _ => apply negb_false_iff, bool_decide_eq_true in H
    | H : negb (bool_decide _) = true |- _ => apply negb_true_iff, bool_decide_eq_false in H
    end.
  all: autorewrite with zbool in *.
  all: try (left; eexists; split; [reflexivity|]; by destruct x4).
  all: try (right; right; eexists; split; [reflexivity|lia]).
  all: try (split; [done|]; split; [congruence|]; f_equal; lia).
  all: right; left; eexists; split; [reflexivity|]; intros [= Ez El]; first [lia|congruence].
Qed.

Lemma quiet_same X (c : te_call X) s x s' : quiet X c = true -> world X c s x s' -> s' = s.
Proof. intros Hc [_ ->]. by apply quiet_upd. Qed.

(** The last packet was not treated as specified. *)
Definition last_deviates (g : ghost) : Prop := exists o l, g_seen g = o :: l /\ deviates o.

Local Abbreviation judge := (jpost last_deviates).

(** A statement of which nothing is seen, and one on the locals. *)
Ltac j_step := first
  [ apply (j_quiet world quiet quiet_same last_deviates); [solve_only|by wp_go|intros ?]
  | apply j_modify ].

(** The setup: nothing of it is seen. *)
Lemma setup_judged L g :
  twp world (mac_setup iut_rpcs tst_rpcs iut_if tst_if iut_addr tst_addr tst_lladdr) L g (judge (fun _ s => s = g)).
Proof. unfold mac_setup, parse_templ. repeat j_step. done. Qed.

(** The interface, and the packets so far: the interface at the time and the destination. *)
Definition so_far (n : nic) (h : list (nic * list Z)) (g : ghost) : Prop :=
  g_nic g = n /\ map (fun o => (o_nic o, o_dst o)) (g_seen g) = h /\ Forall conforms (g_seen g).

Lemma so_far_nic f n h g : so_far n h g -> so_far (f n) h (on_nic f g).
Proof. intros (<- & Hh & Hc). by repeat split. Qed.

Lemma packet_judged n h captured dst exp stage L g :
  so_far n h g -> exp = delivers n dst -> captured = captures n dst ->
  twp world (at_now (fun l => send_recv_gen iut_rpcs tst_rpcs captured l dst exp stage)) L g
    (judge (fun _ => so_far n ((n, dst) :: h))).
Proof.
  intros (<- & Hh & Hc) -> ->. unfold at_now. apply twp_bind, twp_get, twp_lift.
  eapply wp_mono; [apply send_recv_judged|]. intros [[]|[]|w|] g' H; cbn; try done.
  - destruct H as (Hn & o & Ho & En & Ed & Hco). unfold so_far. rewrite Hn, Ho. cbn. rewrite En, Ed, Hh. auto.
  - destruct H as (o & Ho & _ & _ & Hd). by exists o, (g_seen g).
Qed.

Section tests.
Context (iut_alien_mac bcast_addr mcast_addr : list Z) (promisc allmulti : bool).

(** A unicast address of some other interface. *)
Definition alien (n : nic) (m : list Z) : Prop := m <> n_mac n /\ m <> broadcast /\ is_multicast m = false.

Lemma delivers_own n m : n_mac n = m -> delivers n m = true.
Proof. intros <-. unfold NicSpec.delivers. by rewrite bool_decide_true. Qed.
Lemma delivers_broadcast n : delivers n broadcast = true.
Proof. unfold NicSpec.delivers. rewrite (bool_decide_true _ (eq_refl broadcast)). by rewrite orb_true_r. Qed.
Lemma delivers_alien n m : alien n m -> delivers n m = false.
Proof. intros (H1 & H2 & H3). unfold NicSpec.delivers. by rewrite (bool_decide_false _ H1), (bool_decide_false _ H2), H3. Qed.
Lemma captures_promisc n m b d : n_promisc n = b -> d = delivers n m -> d || b = captures n m.
Proof. by intros <- ->. Qed.

Definition outcome (Q : ghost -> Prop) (r : result status) (g : ghost) : Prop :=
  match r with
  | Val (Left (VERDICT _)) => last_deviates g
  | Val (Left _) => True
  | Val _ => Q g
  | _ => False
  end.

Lemma mac_packet n h dst exp stage L g :
  so_far n h g -> n_promisc n = promisc -> exp = delivers n dst ->
  twp world (at_now (fun l => mac_send_recv_pkt iut_rpcs tst_rpcs promisc l dst exp stage)) L g
    (judge (fun _ => so_far n ((n, dst) :: h))).
Proof. intros. apply packet_judged; [done|done|]. by apply captures_promisc. Qed.

Lemma mode_packet n h dst exp stage L g :
  so_far n h g -> n_promisc n = promisc -> n_allmulti n = allmulti -> exp = delivers n dst ->
  twp world (at_now (fun l => mode_send_recv_pkt is_multicast iut_rpcs tst_rpcs promisc allmulti l dst exp stage)) L g
    (judge (fun _ => so_far n ((n, dst) :: h))).
Proof.
  intros Hg Hp Ha ->. apply packet_judged; [done|done|]. unfold NicSpec.captures, NicSpec.delivers. rewrite Hp, Ha.
  destruct promisc, allmulti, (is_multicast dst); cbn; rewrite ?orb_true_r, ?orb_false_r; done.
Qed.

Lemma set_mac_seen mac g :
  wp world (CHECK_RC (net_drv_set_check_mac (rpcs_ta iut_rpcs) iut_if mac)) g
    (fun r g' => match r with
      | Val _ => g' = on_nic (set_mac mac) g
      | Exc (VERDICT _) => last_deviates g'
      | Exc _ => True
      | _ => False
      end).
Proof.
  unfold net_drv_set_check_mac. wp_go; try done; cbn [upd] in *; unfold if_ok.
  all: by repeat match goal with H : (_ =? 0) = _ |- _ => rewrite H; clear H end.
Qed.

(** The test of changing the address passes only if every packet was treated as
    specified, and leaves with a verdict only if the last one was not. *)
Lemma mac_change_rx_judges n g :
  g_nic g = n -> g_seen g = [] -> n_mac n = iut_lladdr ->
  alien n iut_alien_mac -> iut_lladdr <> broadcast -> is_multicast iut_lladdr = false ->
  let before := set_promisc promisc n in
  let after := set_mac iut_alien_mac before in
  wp world (mac_change_rx_main iut_rpcs tst_rpcs iut_if tst_if iut_addr tst_addr tst_lladdr iut_lladdr iut_alien_mac promisc) g
    (outcome (so_far after [(after, iut_alien_mac); (after, iut_lladdr); (before, iut_alien_mac); (before, iut_lladdr)])).
Proof.
  intros Hn Hg Hm Ha Hb Hmc before after. unfold mac_change_rx_main.
  apply (judged_main world quiet quiet_same last_deviates);
    [|intros L; unfold mac_change_rx_cleanup, also, cleanup_close, cleanup_rc; solve_only
     |intros L; unfold mac_change_rx_cleanup, also, cleanup_close, cleanup_rc; solve_returns].
  assert (H0 : so_far n [] g) by (split; [done|]; rewrite Hg; by split).
  unfold mac_change_rx_body. apply j_check. intros g1 [_ ->]. cbn [upd if_ok Z.eqb].
  apply (so_far_nic (set_promisc promisc)) in H0. fold before in H0.
  eapply j_bind; [apply setup_judged|]. intros L1 g1 ->.
  eapply j_bind; [eapply mac_packet; [exact H0|done|by rewrite delivers_own]|]. clear H0 Hn Hg g. intros L2 g H0.
  eapply j_bind; [eapply mac_packet; [exact H0|done|by rewrite delivers_alien]|]. clear H0 g. intros L3 g H0.
  apply (j_call world last_deviates _ _ _ _ _ _ (set_mac_seen _ _)). intros _ g' ->.
  apply (so_far_nic (set_mac iut_alien_mac)) in H0. fold after in H0. revert H0. generalize (on_nic (set_mac iut_alien_mac) g).
  clear g. intros g H0.
  eapply j_bind; [eapply mac_packet; [exact H0|done|]|].
  { rewrite delivers_alien; [done|]. split; [|done]. cbn. destruct Ha as [Ha _]. congruence. }
  clear H0 g. intros L4 g H0.
  eapply mac_packet; [exact H0|done|]. by rewrite delivers_own.
Qed.

Lemma delivers_group n m : is_multicast m = true -> m ∈ n_groups n -> delivers n m = true.
Proof. intros H1 H2. unfold NicSpec.delivers. rewrite H1, (bool_decide_true _ H2), orb_true_r. apply orb_true_r. Qed.
Lemma delivers_mcast n m : is_multicast m = true -> m <> n_mac n -> m <> broadcast -> m ∉ n_groups n ->
  delivers n m = n_promisc n || n_allmulti n.
Proof.
  intros H1 H2 H3 H4. unfold NicSpec.delivers.
  rewrite (bool_decide_false _ H2), (bool_decide_false _ H3), (bool_decide_false _ H4), H1. cbn [orb andb]. by rewrite orb_false_r.
Qed.

Lemma mode_cleanup_quiet L :
  only quiet no_verdict (rx_mode_cleanup iut_rpcs tst_rpcs mcast_addr L) /\
  returns (rx_mode_cleanup iut_rpcs tst_rpcs mcast_addr L).
Proof. unfold rx_mode_cleanup, also, cleanup_close, cleanup_rc. split; [solve_only|solve_returns]. Qed.

(** C3. The test of receive modes against a specification of the filters of an
    interface.  It passes only if each of the five packets it sends (to the
    address of the interface, to the broadcast address, to an alien address, to a
    multicast address before and after that is added) was given to the socket,
    unchanged, exactly when the specified filter with the modes of the test
    delivers it, and was captured once when the filter delivers it or the
    interface is promiscuous, and not at all otherwise.  It leaves with a verdict
    only if the last packet sent was not treated like this, so an interface as
    specified passes unless a call fails. *)
Theorem rx_mode_judges n g :
  g_nic g = n -> g_seen g = [] -> n_mac n = iut_lladdr -> bcast_addr = broadcast -> alien n iut_alien_mac ->
  is_multicast mcast_addr = true -> mcast_addr <> iut_lladdr -> mcast_addr <> broadcast -> mcast_addr ∉ n_groups n ->
  let before := set_allmulti allmulti (set_promisc promisc n) in
  let after := add_group mcast_addr before in
  wp world (rx_mode_main is_multicast iut_rpcs tst_rpcs iut_if tst_if iut_addr tst_addr tst_lladdr iut_lladdr
              iut_alien_mac promisc allmulti bcast_addr mcast_addr) g
    (outcome (so_far after [(after, mcast_addr); (before, mcast_addr); (before, iut_alien_mac);
                            (before, bcast_addr); (before, iut_lladdr)])).
Proof.
  intros Hn Hg Hm Hb Ha Hmc Hm1 Hm2 Hm3 before after. unfold rx_mode_main.
  apply (judged_main world quiet quiet_same last_deviates); [|intros L; apply mode_cleanup_quiet..].
  assert (H0 : so_far n [] g) by (split; [done|]; rewrite Hg; by split).
  unfold rx_mode_body. do 2 (apply j_check; intros ? [_ ->]). cbn [upd if_ok Z.eqb].
  apply (so_far_nic (set_promisc promisc)), (so_far_nic (set_allmulti allmulti)) in H0. fold before in H0.
  revert H0. generalize (on_nic (set_allmulti allmulti) (on_nic (set_promisc promisc) g)). clear Hn Hg g. intros g H0.
  eapply j_bind; [apply setup_judged|]. intros L1 g1 ->.
  eapply j_bind; [eapply mode_packet; [exact H0|done|done|by rewrite delivers_own]|]. clear H0 g. intros L2 g H0.
  eapply j_bind; [eapply mode_packet; [exact H0|done|done|by rewrite Hb, delivers_broadcast]|]. clear H0 g. intros L3 g H0.
  eapply j_bind; [eapply mode_packet; [exact H0|done|done|by rewrite delivers_alien]|]. clear H0 g. intros L4 g H0.
  eapply j_bind; [eapply mode_packet; [exact H0|done|done|]|].
  { rewrite delivers_mcast; [done|done| |done|exact Hm3]. by rewrite <- Hm in Hm1. }
  clear H0 g. intros L5 g H0. apply j_modify. apply j_check. intros g' [_ ->]. cbn [upd if_ok Z.eqb].
  apply (so_far_nic (add_group mcast_addr)) in H0. fold after in H0. j_step.
  eapply mode_packet; [exact H0|done|done|]. rewrite delivers_group; [done|done|]. apply list_elem_of_here.
Qed.
End tests.
End judged.

(** ** The VLAN filter *)
Module VlanSpec.

(** What is seen of a packet: the VLANs of the interface when it was sent, its
    tag and how many packets were captured. *)
Record seen := Seen { o_vlans : list Z; o_tci : Z; o_count : option Z }.
(** The tag of the last template, the VLANs, the packets sent, the last one
    first, and the number of warnings. *)
Record ghost := Ghost { v_tci : Z; v_vlans : list Z; v_seen : list seen; v_warns : nat }.

Section filter.
Context (on : bool).

(** A packet with this tag, or without a tag, passes the filter. *)
Definition accepts (vlans : list Z) (tci : Z) : bool := (tci =? 0) || negb on || bool_decide (tci ∈ vlans).
Definition expected (o : seen) : Z := if accepts (o_vlans o) (o_tci o) then 1 else 0.
(** A packet the filter should stop, but which the test only warns of. *)
Definition lenient (o : seen) : Prop := on = true /\ o_vlans o = [] /\ o_tci o <> 0.
End filter.

Definition set_tci (t : Z) (g : ghost) : ghost := Ghost t (v_vlans g) (v_seen g) (v_warns g).
Definition on_vlans (f : list Z -> list Z) (g : ghost) : ghost := Ghost (v_tci g) (f (v_vlans g)) (v_seen g) (v_warns g).
Definition sent (g : ghost) : ghost := Ghost (v_tci g) (v_vlans g) (Seen (v_vlans g) (v_tci g) None :: v_seen g) (v_warns g).
Definition counted (n : Z) (g : ghost) : ghost :=
  Ghost (v_tci g) (v_vlans g)
    (match v_seen g with o :: l => Seen (o_vlans o) (o_tci o) (Some n) :: l | [] => [] end) (v_warns g).
Definition warned (g : ghost) : ghost := Ghost (v_tci g) (v_vlans g) (v_seen g) (S (v_warns g)).
Definition if_ok (rc : Z) (f : ghost -> ghost) (g : ghost) : ghost := if rc =? 0 then f g else g.

Definition upd X (c : te_call X) : X -> ghost -> ghost :=
  match c in te_call X return X -> ghost -> ghost with
  | asn_parse_value_text _ => fun x => if_ok (fst x) (set_tci 0)
  | tapi_ndn_pkt_inject_vlan_tag _ t => fun rc => if_ok rc (set_tci t)
  | tapi_tad_trsend_blocking _ _ _ => fun _ => sent
  | tapi_tad_trrecv_wait_pkts_get_num _ _ _ _ => fun x => if_ok (fst x) (counted (snd x))
  | tapi_cfg_base_if_add_vlan _ _ v => fun x => if_ok (fst x) (on_vlans (cons v))
  | tapi_cfg_base_if_del_vlan _ _ v => fun rc => if_ok rc (on_vlans (filter (fun w => w <> v)))
  | verdict WARN_V _ => fun _ => warned
  | _ => fun _ g => g
  end.

Definition ok X (c : te_call X) : ghost -> X -> Prop :=
  match c in te_call X return ghost -> X -> Prop with
  | rand_range lo hi => fun _ x => lo <= x <= hi
  | te_rand_range_exclude lo hi y => fun _ x => lo <= x <= hi /\ x <> y
  | tapi_tad_trrecv_wait_pkts_get_num _ _ _ _ => fun _ x => 0 <= snd x
  | _ => fun _ _ => True
  end.

Definition world : env te_call ghost := watch_if ok upd.

Definition quiet X (c : te_call X) : bool :=
  match c with
  | asn_parse_value_text _ | tapi_ndn_pkt_inject_vlan_tag _ _ | tapi_tad_trsend_blocking _ _ _
  | tapi_tad_trrecv_wait_pkts_get_num _ _ _ _ | tapi_cfg_base_if_add_vlan _ _ _ | tapi_cfg_base_if_del_vlan _ _ _
  | verdict WARN_V _ => false
  | _ => true
  end.
Lemma vlan_quiet X (c : te_call X) s x s' : quiet X c = true -> world X c s x s' -> s' = s.
Proof. intros Hc [_ ->]. destruct c; try done. by destruct l. Qed.

(** The last packet was not treated as specified. *)
Definition last_wrong (on : bool) (g : ghost) : Prop :=
  exists o l n, v_seen g = o :: l /\ o_count o = Some n /\ n <> expected on o.

(** The packets so far: their tags with the VLANs of the time; only lenient ones
    were let through, and as many as there were warnings. *)
Definition so_far (on : bool) (w : nat) (vlans : list Z) (h : list (list Z * Z)) (g : ghost) : Prop :=
  v_vlans g = vlans /\ map (fun o => (o_vlans o, o_tci o)) (v_seen g) = h /\
  Forall (fun o => o_count o = Some (expected on o) \/ lenient on o /\ o_count o = Some 1) (v_seen g) /\
  v_warns g = (w + length (filter (fun o => o_count o <> Some (expected on o)) (v_seen g)))%nat.
End VlanSpec.

Section vlan_judged.
Context {TE : Te} (iut_rpcs tst_rpcs : rcf_rpc_server) (iut_if tst_if : string) (iut_addr : sockaddr) (tst_lladdr iut_lladdr : list Z).
Context (on : bool).
Import VlanSpec.

Local Abbreviation judge := (jpost (last_wrong on)).

(** One more packet, as specified, let through with a warning, or wrong. *)
Lemma so_far_more w vlans h sn ws t tci n :
  so_far on w vlans h (Ghost t vlans sn ws) ->
  let o := Seen vlans tci (Some n) in
  let warn := if n =? expected on o then 0%nat else 1%nat in
  n = expected on o \/ lenient on o /\ n = 1 ->
  so_far on w vlans ((vlans, tci) :: h) (Ghost tci vlans (o :: sn) (warn + ws)).
Proof.
  intros (_ & Hh & Hc & Hw) o warn Ho. unfold so_far. cbn [v_vlans v_seen v_warns map] in Hh, Hc, Hw |- *. rewrite Hh.
  split; [done|]. split; [done|]. split.
  - constructor; [|done]. destruct Ho as [E|[Hl E]]; [left|right; split; [exact Hl|]]; exact (f_equal Some E).
  - clear Ho. unfold warn. rewrite filter_cons. cbn [o_count o]. destruct (Z.eqb_spec n (expected on o)) as [E|N].
    + rewrite decide_False by (rewrite E; auto). cbn. lia.
    + rewrite decide_True by congruence. cbn. lia.
Qed.

Lemma vlan_packet w vlans h af tci exp fail stage L g :
  so_far on w vlans h g -> exp = accepts on vlans tci ->
  fail = true \/ (exp = false /\ on = true /\ vlans = [] /\ tci <> 0) ->
  twp world (vlan_at_now (fun l => vlan_send_recv_pkt iut_rpcs tst_rpcs l af tci exp fail stage)) L g
    (judge (fun _ => so_far on w vlans ((vlans, tci) :: h))).
Proof.
  intros Hg -> Hf. unfold vlan_at_now. apply twp_bind, twp_get, twp_lift.
  destruct g as [t vl sn0 ws]. pose proof Hg as (Hv & _). cbn in Hv. subst vl.
  unfold vlan_send_recv_pkt, parse_templ, fail_or_warn, PKTS_NUM_WAIT. destruct (accepts on vlans tci) eqn:Ha; wp_go; try done;
    cbn [ok fst snd] in *; cbn [upd]; unfold if_ok; cbn [fst snd].
  all: repeat match goal with H : (_ =? 0) = true |- context [if (?x =? 0) then _ else _] => rewrite H end.
  all: autorewrite with zbool in *; subst.
  all: match goal with H : 0 <= ?n |- context [set_tci ?k _] =>
    pose proof (so_far_more w vlans h sn0 ws t k n Hg) as Hm;
    unfold expected in Hm; cbn [o_vlans o_tci] in Hm; rewrite Ha in Hm;
    first [ exists (Seen vlans k (Some n)), sn0, n; split; [reflexivity|]; split; [reflexivity|];
            unfold expected; cbn [o_vlans o_tci]; rewrite Ha; lia
          | idtac ]
    end.
  all: destruct Hf as [Hf|(Hx & Hon & Hvl & Ht)]; try discriminate; try done.
  all: try (assert (z0 = 1) as -> by lia).
  all: apply Hm; first [by left|right; split; [by split|done]].
Qed.

Lemma accepts_untagged vlans : accepts on vlans 0 = true.
Proof. done. Qed.
Lemma accepts_member vlans t : t ∈ vlans -> accepts on vlans t = true.
Proof. intros H. unfold accepts. by rewrite (bool_decide_true _ H), orb_true_r. Qed.
Lemma accepts_other vlans t : t <> 0 -> t ∉ vlans -> accepts on vlans t = negb on.
Proof. intros H1 H2. unfold accepts. rewrite (proj2 (Z.eqb_neq t 0) H1), (bool_decide_false _ H2). cbn. apply orb_false_r. Qed.

Ltac v_step := first
  [ apply (j_quiet world quiet vlan_quiet (last_wrong on)); [solve_only|by wp_go|intros ?]
  | apply j_modify ].

Lemma so_far_vlans f w vlans h g : so_far on w vlans h g -> so_far on w (f vlans) h (on_vlans f g).
Proof. by intros (<- & Hh & Hc & Hw). Qed.

Lemma vlan_added {St B} (f : string -> T St B) Q v w vlans h L g : so_far on w vlans h g ->
  (forall x g', so_far on w (v :: vlans) h g' -> twp world (f x) L g' (judge Q)) ->
  twp world (mbind f (lift (CHECK_OUT (call (tapi_cfg_base_if_add_vlan (rpcs_ta iut_rpcs) iut_if v))))) L g (judge Q).
Proof.
  intros Hg Hf. apply (j_call _ _ _ _ _ _ _ (fun _ => so_far on w (v :: vlans) h)); [|exact Hf].
  wp_go; [|done]. cbn [upd fst]. unfold if_ok. rewrite Heqb. by apply so_far_vlans.
Qed.

Lemma vlan_deleted {St B} (f : unit -> T St B) Q v w vlans h L g : so_far on w vlans h g ->
  (forall g', so_far on w (filter (fun x => x <> v) vlans) h g' -> twp world (f tt) L g' (judge Q)) ->
  twp world (mbind f (lift (CHECK_RC (call (tapi_cfg_base_if_del_vlan (rpcs_ta iut_rpcs) iut_if v))))) L g (judge Q).
Proof. intros Hg Hf. apply j_check. intros g' [_ ->]. apply Hf. by apply so_far_vlans. Qed.

(** The next packet, whose expected treatment is left to show. *)
Ltac next_packet H := eapply j_bind; [eapply vlan_packet; [exact H| |]|]; cycle 2; [clear H; intros ? ? H; cbn beta in H|..].

(** The history of a test that is over, the last packet first. *)
Definition vlan_history (a b : Z) : list (list Z * Z) :=
  [([], 0); ([], b); ([b], a); ([b], b); ([b; a], b); ([b; a], a); ([b; a], 0); ([], a); ([], 0)].

Definition vlan_outcome (w : nat) (r : result status) (g : ghost) : Prop :=
  match r with
  | Val (Left (VERDICT _)) => last_wrong on g
  | Val (Left _) => True
  | Val _ => exists a b, 1 <= a <= 4094 /\ 1 <= b <= 4094 /\ a <> b /\ so_far on w [] (vlan_history a b) g
  | _ => False
  end.

Lemma vlan_stages_judged w af L g : so_far on w [] [] g ->
  twp world (vlan_stages iut_rpcs tst_rpcs iut_if on af) L g
    (judge (fun _ g' => exists a b, 1 <= a <= 4094 /\ 1 <= b <= 4094 /\ a <> b /\ so_far on w [] (vlan_history a b) g')).
Proof.
  intros H. unfold vlan_stages.
  next_packet H; [|done|by left].
  eapply (j_call _ _ _ _ _ _ _ (fun a s => s = s' /\ 1 <= a <= 4094)); [by wp_go|]. intros a g' [-> Ha].
  assert (Hoff : negb on = true \/ (negb on = false /\ on = true)) by (destruct on; auto).
  next_packet H; [|by rewrite accepts_other; [|lia|apply not_elem_of_nil]|destruct Hoff as [|[]]; [by left|right; repeat split; auto; lia]].
  eapply vlan_added; [exact H|]. clear H. intros _ g1 H.
  eapply (j_call _ _ _ _ _ _ _ (fun b s => s = g1 /\ 1 <= b <= 4094 /\ b <> a)); [by wp_go|]. intros b g2 (-> & Hb & Hab).
  eapply vlan_added; [exact H|]. clear H. intros _ g2 H. v_step.
  next_packet H; [|done|by left].
  next_packet H; [|by rewrite accepts_member by (rewrite list_elem_of_In; cbn; lia)|by left].
  next_packet H; [|by rewrite accepts_member by (rewrite list_elem_of_In; cbn; lia)|by left].
  eapply vlan_deleted; [exact H|]. clear H. intros g3 H.
  assert (E : filter (fun x => x <> a) [b; a] = [b]) by (cbn; rewrite decide_True, decide_False by auto; done).
  rewrite E in H. clear E. v_step.
  next_packet H; [|by rewrite accepts_member by (rewrite list_elem_of_In; cbn; lia)|by left].
  next_packet H; [|by rewrite accepts_other by first [lia|rewrite list_elem_of_In; cbn; lia]|by left].
  eapply vlan_deleted; [exact H|]. clear H. intros g4 H.
  assert (E : filter (fun x => x <> b) [b] = []) by (cbn; rewrite decide_False by auto; done).
  rewrite E in H. clear E. v_step.
  next_packet H; [|by rewrite accepts_other; [|lia|apply not_elem_of_nil]|destruct Hoff as [|[]]; [by left|right; repeat split; auto; lia]].
  eapply twp_mono; [eapply vlan_packet; [exact H|done|by left]|].
  intros L9 [[]|[]] g9 H9; cbn in *; try done. exists a, b. repeat split; auto; try lia; apply H9.
Qed.

(** C10. The test of the VLAN filter against its specification.  When it passes,
    it sent an untagged packet and packets of two different VLANs before, while
    and after these were on the interface, each was captured once when it was
    untagged, its VLAN was on the interface at the time or the filter was off,
    and not captured otherwise; the only exceptions are packets of a VLAN at a
    time when the interface has none, with the filter on: each of these that was
    captured was reported with a warning, and nothing else was.  A verdict stops
    the test only when the last packet sent was not treated as specified. *)
Theorem vlan_filter_judges g :
  v_vlans g = [] -> v_seen g = [] ->
  wp world (vlan_filter_main iut_rpcs tst_rpcs iut_if tst_if iut_addr tst_lladdr iut_lladdr on) g
    (vlan_outcome (v_warns g)).
Proof.
  intros Hv Hs. unfold vlan_filter_main.
  apply (judged_main world quiet vlan_quiet (last_wrong on));
    [|intros L; unfold vlan_filter_cleanup, also, cleanup_rc; solve_only
     |intros L; unfold vlan_filter_cleanup, also, cleanup_rc; solve_returns].
  assert (H0 : so_far on (v_warns g) [] [] g) by (split; [done|]; rewrite Hs; repeat split; cbn; auto; lia).
  revert H0. generalize (v_warns g). intros w H0. unfold vlan_filter_body, net_drv_set_if_feature, net_drv_set_if_feature_gen.
  repeat first [v_step | match goal with |- context [match ?p with (_, _) => _ end] => destruct p end].
  by apply vlan_stages_judged.
Qed.
End vlan_judged.

(** ** What the tests give back *)
Section nic_releases.
Context {TE : Te} (te_sockaddr_is_multicast : list Z -> bool).
Context (iut_rpcs tst_rpcs : rcf_rpc_server) (iut_if tst_if : string) (iut_addr tst_addr : sockaddr).
Context (tst_lladdr iut_lladdr iut_alien_mac : list Z) (promisc allmulti : bool) (bcast_addr mcast_addr : list Z) (on : bool).

Definition mc_socks (l : mac_locals) : list (rcf_rpc_server * Z) := sock_at iut_rpcs (mc_iut_s l).
Definition mc_csaps (l : mac_locals) : list (string * Z) :=
  csap_at (rpcs_ta iut_rpcs) (mc_csap_iut l) ++ csap_at (rpcs_ta tst_rpcs) (mc_csap_tst l).
Local Abbreviation mc_holds := (holding mc_socks mc_csaps).

Lemma mac_setup_keeps L g : L = mc_start -> mc_holds L g ->
  wp h_world (mac_setup iut_rpcs tst_rpcs iut_if tst_if iut_addr tst_addr tst_lladdr L) g (ends mc_holds).
Proof.
  intros -> Hg. unfold mac_setup.
  apply st_free; [solve_only|done|]. clear g Hg. intros [] g Hg.
  apply st_socket; [exact Hg|]. clear g Hg. intros s g H0 Hs Hc. apply st_modify.
  assert (Hg : mc_holds (mc_set_s s mc_start) g).
  { split; [|exact Hc]. unfold mc_socks, sock_at. cbn. by rewrite (proj2 (Z.leb_le 0 s) H0). }
  clear Hs Hc. apply st_free; [solve_only|done|]. clear g Hg. intros _ g Hg.
  apply (st_take_csap _ _ _ (rpcs_ta iut_rpcs)); [done|by intros ? ?|exact Hg|]. clear g Hg. intros c1 g H1 Hs Hc. apply st_modify.
  assert (Hg : mc_holds (mc_set_iut c1 (mc_set_s s mc_start)) g).
  { split; [exact Hs|]. etrans; [exact Hc|]. unfold mc_csaps, csap_at. cbn. by rewrite Z.eqb_refl, (proj2 (Z.eqb_neq c1 _)). }
  clear Hs Hc. apply st_free; [solve_only|done|]. clear g Hg. intros _ g Hg.
  apply (st_take_csap _ _ _ (rpcs_ta tst_rpcs)); [done|by intros ? ?|exact Hg|]. clear g Hg. intros c2 g H2 Hs Hc. apply st_modify.
  set (L := mc_set_tst _ _).
  assert (Hg : mc_holds L g).
  { split; [exact Hs|]. etrans; [exact Hc|]. unfold mc_csaps, csap_at, L. cbn.
    rewrite Z.eqb_refl, (proj2 (Z.eqb_neq c1 _)), (proj2 (Z.eqb_neq c2 _)) by done. cbn. apply Permutation_submseteq, Permutation_swap. }
  clear Hs Hc. clearbody L. apply st_free; [unfold parse_templ; solve_only|done|]. clear g Hg. intros t g Hg. exact Hg.
Qed.

Lemma packet_keeps captured dst exp stage : tkeeps h_world mc_holds mc_holds
  (at_now (fun l => send_recv_gen iut_rpcs tst_rpcs captured l dst exp stage)).
Proof.
  intros L g Hg. unfold at_now. cbn [mbind T_bind get]. apply st_free_last; [|done]. unfold send_recv_gen. solve_only.
Qed.

Ltac packet_free L g H := eapply st_then; [by apply packet_keeps|]; clear H; try clear L g; intros _ L g H.

Lemma mac_change_rx_body_keeps : tkeeps h_world (fun L g => L = mc_start /\ mc_holds L g) mc_holds
  (mac_change_rx_body iut_rpcs tst_rpcs iut_if tst_if iut_addr tst_addr tst_lladdr iut_lladdr iut_alien_mac promisc).
Proof.
  intros L g [-> Hg]. unfold mac_change_rx_body, mac_send_recv_pkt.
  apply st_free; [solve_only|done|]. clear g Hg. intros _ g Hg.
  eapply st_then; [by apply mac_setup_keeps|]. clear g Hg. intros _ L g Hg.
  do 2 packet_free L g Hg. apply st_free; [unfold net_drv_set_check_mac; solve_only|done|]. clear g Hg. intros _ g Hg.
  packet_free L g Hg. by apply packet_keeps.
Qed.

Lemma rx_mode_body_keeps : tkeeps h_world (fun L g => L = mc_start /\ mc_holds L g) mc_holds
  (rx_mode_body te_sockaddr_is_multicast iut_rpcs tst_rpcs iut_if tst_if iut_addr tst_addr tst_lladdr iut_lladdr
     iut_alien_mac promisc allmulti bcast_addr mcast_addr).
Proof.
  intros L g [-> Hg]. unfold rx_mode_body, mode_send_recv_pkt.
  do 2 (apply st_free; [solve_only|done|]; clear g Hg; intros _ g Hg).
  eapply st_then; [by apply mac_setup_keeps|]. clear g Hg. intros _ L g Hg.
  do 4 packet_free L g Hg. apply st_modify.
  assert (Ho : mc_holds (mc_set_oid (if_oid iut_rpcs iut_if) L) g) by done. clear Hg. revert Ho.
  generalize (mc_set_oid (if_oid iut_rpcs iut_if) L). clear L. intros L Hg.
  do 2 (apply st_free; [solve_only|done|]; clear g Hg; intros _ g Hg). by apply packet_keeps.
Qed.

(** However the tests end, they have given back their socket and their CSAPs. *)
Lemma mac_change_rx_releases init :
  wp h_world (mac_change_rx_main iut_rpcs tst_rpcs iut_if tst_if iut_addr tst_addr tst_lladdr iut_lladdr iut_alien_mac promisc)
    (clean init) (fun r g => match r with Val _ => gave_back g | NoFuel => True | _ => False end).
Proof.
  eapply test_main_keeps; [|apply mac_change_rx_body_keeps|].
  - split; [done|]. split; apply submseteq_nil_l.
  - intros L g [Hs Hc]. unfold mac_change_rx_cleanup, also. wp_step.
    eapply close_held; [by rewrite app_nil_r|]. intros b1 g1 Hs1 E1. cbn [bpost]. do 2 wp_step.
    eapply csap_let_go; [rewrite E1; exact Hc|]. intros b2 g2 Hc2 E2. cbn [bpost]. wp_step.
    eapply csap_let_go; [by rewrite app_nil_r|]. intros b3 g3 Hc3 E3. wp_go.
    apply submseteq_nil_r in Hs1, Hc3. split; [congruence|done].
Qed.

Lemma rx_mode_releases init :
  wp h_world (rx_mode_main te_sockaddr_is_multicast iut_rpcs tst_rpcs iut_if tst_if iut_addr tst_addr tst_lladdr iut_lladdr
                iut_alien_mac promisc allmulti bcast_addr mcast_addr)
    (clean init) (fun r g => match r with Val _ => gave_back g | NoFuel => True | _ => False end).
Proof.
  eapply test_main_keeps; [|apply rx_mode_body_keeps|].
  - split; [done|]. split; apply submseteq_nil_l.
  - intros L g Hg. unfold rx_mode_cleanup, also. wp_step.
    eapply wp_mono; [apply (clean_free mc_socks mc_csaps); [unfold cleanup_rc; solve_only|unfold cleanup_rc; solve_returns|exact Hg]|].
    clear g Hg. intros [b0| | |] g H; try done. destruct H as [Hs Hc]. cbn [bpost]. do 2 wp_step.
    eapply close_held; [by rewrite app_nil_r|]. intros b1 g1 Hs1 E1. cbn [bpost]. do 2 wp_step.
    eapply csap_let_go; [rewrite E1; exact Hc|]. intros b2 g2 Hc2 E2. cbn [bpost]. do 2 wp_step.
    eapply csap_let_go; [by rewrite app_nil_r|]. intros b3 g3 Hc3 E3. wp_go. cbn [h_upd].
    apply submseteq_nil_r in Hs1, Hc3. split; [congruence|done].
Qed.

Definition vl_csaps (l : vlan_locals) : list (string * Z) :=
  csap_at (rpcs_ta iut_rpcs) (vl_csap_iut l) ++ csap_at (rpcs_ta tst_rpcs) (vl_csap_tst l).
Local Abbreviation vl_holds := (holding (fun _ => []) vl_csaps).

Lemma vlan_stages_keep af : tkeeps h_world vl_holds vl_holds (vlan_stages iut_rpcs tst_rpcs iut_if on af).
Proof.
  assert (Hp : forall tci exp fail stage, tkeeps h_world vl_holds vl_holds
            (vlan_at_now (fun l => vlan_send_recv_pkt iut_rpcs tst_rpcs l af tci exp fail stage))).
  { intros tci exp fail stage L g Hg. unfold vlan_at_now. cbn [mbind T_bind get]. apply st_free_last; [|done].
    unfold vlan_send_recv_pkt, parse_templ, fail_or_warn. solve_only. }
  intros L g Hg. unfold vlan_stages.
  repeat first [ eapply st_then; [by apply Hp|]; clear L g Hg; intros _ L g Hg
               | apply st_free; [solve_only|done|]; clear g Hg; intros ? g Hg ].
  by apply Hp.
Qed.

Lemma vlan_filter_releases init :
  wp h_world (vlan_filter_main iut_rpcs tst_rpcs iut_if tst_if iut_addr tst_lladdr iut_lladdr on)
    (clean init) (fun r g => match r with Val _ => gave_back g | NoFuel => True | _ => False end).
Proof.
  eapply (test_main_keeps _ (fun L g => L = vl_start /\ vl_holds L g)).
  - split; [done|]. split; apply submseteq_nil_l.
  - intros L g [-> Hg]. unfold vlan_filter_body.
    apply st_free; [unfold net_drv_set_if_feature, net_drv_set_if_feature_gen; solve_only|done|]. clear g Hg. intros _ g Hg.
    do 2 (apply st_free; [solve_only|done|]; clear g Hg; intros _ g Hg).
    apply st_free; [solve_only|done|]. clear g Hg. intros [[a1 a2] pfx] g Hg.
    apply (st_take_csap _ _ _ (rpcs_ta iut_rpcs)); [done|by intros ? ?|exact Hg|]. clear g Hg. intros c1 g H1 Hs Hc. apply st_modify.
    assert (Hg : vl_holds (vl_set_iut c1 vl_start) g).
    { split; [exact Hs|]. etrans; [exact Hc|]. unfold vl_csaps, csap_at. cbn. by rewrite Z.eqb_refl, (proj2 (Z.eqb_neq c1 _)). }
    clear Hs Hc. apply st_free; [solve_only|done|]. clear g Hg. intros _ g Hg.
    apply (st_take_csap _ _ _ (rpcs_ta tst_rpcs)); [done|by intros ? ?|exact Hg|]. clear g Hg. intros c2 g H2 Hs Hc. apply st_modify.
    apply vlan_stages_keep. split; [exact Hs|]. etrans; [exact Hc|]. unfold vl_csaps, csap_at. cbn.
    rewrite Z.eqb_refl, (proj2 (Z.eqb_neq c1 _)), (proj2 (Z.eqb_neq c2 _)) by done. cbn. apply Permutation_submseteq, Permutation_swap.
  - intros L g [Hs Hc]. unfold vlan_filter_cleanup, also. wp_step.
    eapply csap_let_go; [exact Hc|]. intros b2 g2 Hc2 E2. cbn [bpost]. wp_step.
    eapply csap_let_go; [by rewrite app_nil_r|]. intros b3 g3 Hc3 E3. wp_go.
    apply submseteq_nil_r in Hs, Hc3. split; [congruence|done].
Qed.
End nic_releases.

Module NicWitness.
Local Existing Instance te_ref.
Import NicSpec.

Definition is_multicast (m : list Z) : bool := Z.odd (hd 0 m).
Definition own : list Z := [2; 0; 0; 0; 0; 1].
Definition other : list Z := [2; 0; 0; 0; 0; 2].
Definition group : list Z := [1; 0; 94; 0; 0; 5].
Definition iut : rcf_rpc_server := RPCS "IUT" "Agt_A".
Definition tst : rcf_rpc_server := RPCS "TST" "Agt_B".
Definition addr : sockaddr := SA 2 [10; 0; 0; 1] 5000.
Definition start : ghost := Ghost (Nic own false false []) [] [] [].

Definition test (promisc allmulti : bool) : M status :=
  rx_mode_main is_multicast iut tst "eth1" "eth2" addr addr [2; 0; 0; 0; 0; 9] own other promisc allmulti broadcast group.

Lemma rx_mode_judges_witness :
  (g_seen start = [] /\ n_mac (g_nic start) = own /\ alien is_multicast (g_nic start) other /\ is_multicast group = true /\
   group <> own /\ group <> broadcast /\ group ∉ n_groups (g_nic start)) /\
  wp world (test true false) start (outcome is_multicast (fun g => length (g_seen g) = 5%nat)).
Proof.
  assert (Ha : alien is_multicast (g_nic start) other) by done.
  assert (Hg : group ∉ n_groups (g_nic start)) by apply not_elem_of_nil.
  split; [by repeat split|].
  unfold test.
  pose proof (rx_mode_judges is_multicast iut tst "eth1" "eth2" addr addr [2; 0; 0; 0; 0; 9] own other broadcast
                            group true false (g_nic start) start eq_refl eq_refl eq_refl eq_refl Ha eq_refl) as H.
  eapply wp_mono; [apply H; [done|done|exact Hg]|]. clear H.
  intros [[| |[]]| | |] g H; try exact H; destruct H as (_ & H & _); apply (f_equal length) in H; by rewrite length_map in H.
Defined.

(** An interface that filters as specified: the environment answers by it, and
    the test passes. *)
Definition filtering : handler te_call ghost := fun X c g =>
  let x : X := match c in te_call X return X with
    | rand_range lo _ => lo
    | te_fill_buf n => repeat 7 (Z.to_nat n)
    | rpc_readability _ _ _ => match g_seen g with o :: _ => delivers is_multicast (o_nic o) (o_dst o) | [] => false end
    | rpc_recv _ _ _ => match g_seen g with o :: _ => (Z.of_nat (length (o_payload o)), o_payload o, 0) | [] => (-1, [], 0) end
    | tapi_tad_trrecv_get_count _ _ =>
        (0, match g_seen g with o :: _ => if captures is_multicast (o_nic o) (o_dst o) then 1 else 0 | [] => 0 end)
    | tapi_udp_ip_eth_csap_create _ _ _ _ _ _ _ _ => (0, 1)
    | c => default_answer c
    end in (x, upd X c x g).

Example filtering_interface_passes promisc allmulti : fst (run filtering (test promisc allmulti) start) = Val Passed.
Proof. by destruct promisc, allmulti; vm_compute. Qed.

(** An interface that forgets to filter alien addresses is noticed. *)
Definition leaking : handler te_call ghost := fun X c g =>
  match c in te_call X return X * ghost with
  | tapi_tad_trrecv_get_count ta h => ((0, 1), upd _ (tapi_tad_trrecv_get_count ta h) (0, 1) g)
  | c => filtering _ c g
  end.

Example leaking_interface_noticed : fst (run leaking (test false false) start) =
  Val (Left (VERDICT (Msg "%s: CSAP on IUT captured the packet" [AS "Sending to the alien MAC address"]))).
Proof. by vm_compute. Qed.
End NicWitness.

Module VlanWitness.
Local Existing Instance te_ref.
Import VlanSpec.

Lemma vlan_filter_judges_witness :
  (v_vlans (Ghost 0 [] [] 0) = [] /\ v_seen (Ghost 0 [] [] 0) = []) /\
  wp world (vlan_filter_main NicWitness.iut NicWitness.tst "eth1" "eth2" NicWitness.addr [2; 0; 0; 0; 0; 9] NicWitness.own true)
    (Ghost 0 [] [] 0) (vlan_outcome true 0).
Proof. split; [done|]. by apply (vlan_filter_judges _ _ _ _ _ _ _ true (Ghost 0 [] [] 0)). Defined.
End VlanWitness.
