(* ===== verification/BasicTests.v ===== *)
(** Tests of the basic data path over a pair of sockets: basic/send_receive.c,
    basic/multicast.c, basic/set_if_down.c, basic/mac_change_tx.c and
    offload/simple_csum.c. *)
From S2P Require Import Prelude Prog Te Locals NetDrvTs Resources RxCommon Holding Judging.

Section basic_tests.
Context {TE : Te}.
Context (iut_rpcs tst_rpcs : rcf_rpc_server) (iut_if tst_if : string) (iut_addr tst_addr : sockaddr).
Local Abbreviation ta := (rpcs_ta iut_rpcs).

(** [CLEANUP_RPC_CLOSE] of both sockets. *)
Definition close_both (l : end_locals) : M bool :=
  also (cleanup_close iut_rpcs (en_iut_s l)) (cleanup_close tst_rpcs (en_tst_s l)).

(** [GEN_CONNECTION(iut_rpcs, tst_rpcs, ...)] *)
Definition connect (t : rpc_socket_type) : T end_locals unit :=
  '(iut_s, tst_s) ← lift (CHECK_OUT (call (GEN_CONNECTION iut_rpcs tst_rpcs t iut_addr tst_addr)));
  modify (en_set_socks iut_s tst_s).

(** ** basic/send_receive.c *)
Definition MAX_DATA_SIZE : Z := 1500.
Definition MAX_EXTRA_PKTS : Z := 5.

(** [GET_STATS_FIELD_DIFF]: a difference of [uint64_t] returned as an [int]. *)
Definition stats_field_diff (before after : Z) : Z := s32 (u64 (after - before)).
Definition get_errors_diff (stats_before stats_after : if_stats) (tx : bool) : Z :=
  if tx then stats_field_diff (out_errors stats_before) (out_errors stats_after)
  else stats_field_diff (in_errors stats_before) (in_errors stats_after).
Definition get_discards_diff (stats_before stats_after : if_stats) (tx : bool) : Z :=
  if tx then stats_field_diff (out_discards stats_before) (out_discards stats_after)
  else stats_field_diff (in_discards stats_before) (in_discards stats_after).
Definition get_ucast_pkts_diff (stats_before stats_after : if_stats) (tx : bool) : Z :=
  if tx then stats_field_diff (out_ucast_pkts stats_before) (out_ucast_pkts stats_after)
  else stats_field_diff (in_ucast_pkts stats_before) (in_ucast_pkts stats_after).

Definition CHECK_CONST_COUNTER (diff : Z) (name : string) : M unit :=
  if 0 <? diff then ERROR_VERDICT (name +:+ " counter increased") []
  else when (diff <? 0) (ERROR_VERDICT (name +:+ " counter decreased") []).

Section send_receive.
Context (RPC_IP_MTU : Z) (sock_type : rpc_socket_type) (tx : bool) (pkt_size pkts_num : Z).

(** [sender_rpcs] and [sender_s], [receiver_rpcs] and [receiver_s]. *)
Definition sr_sender (l : end_locals) : rcf_rpc_server * Z :=
  if tx then (iut_rpcs, en_iut_s l) else (tst_rpcs, en_tst_s l).
Definition sr_receiver (l : end_locals) : rcf_rpc_server * Z :=
  if tx then (tst_rpcs, en_tst_s l) else (iut_rpcs, en_iut_s l).

(** Interface statistics, after they are updated. *)
Definition sr_stats : M if_stats :=
  _ ← call (te_motivated_sleep 2);
  _ ← CHECK_RC (call (cfg_tree_print ("/agent:" +:+ ta +:+ "/interface:" +:+ iut_if +:+ "/stats:")));
  CHECK_OUT (call (tapi_cfg_stats_if_stats_get ta iut_if)).

Definition sr_max_size (sender : rcf_rpc_server * Z) : M Z :=
  let '(r, s) := sender in
  max_size ←
    (if decide (sock_type = RPC_SOCK_STREAM) then
       _ ← rpc_ok (rpc_setsockopt_int r s RPC_TCP_NODELAY 1);
       '(rc, max_size, _) ← call (rpc_getsockopt r s RPC_TCP_MAXSEG);
       if rc <? 0 then raise RPC_FAILED else mret max_size
     else
       '(rc, mtu, _) ← call (rpc_getsockopt r s RPC_IP_MTU);
       if rc <? 0 then raise RPC_FAILED else
       let max_size := mtu - (if sa_family iut_addr =? AF_INET then TAD_IP4_HDR_LEN else TAD_IP6_HDR_LEN) - TAD_UDP_HDR_LEN in
       if max_size <? 0 then TEST_FAIL "Reported MTU is too small" [] else mret max_size);
  mret (Z.min max_size MAX_DATA_SIZE).

(** One pass of the loop. *)
Definition sr_pass (sender receiver : rcf_rpc_server * Z) (max_size _ : Z) (_ : unit) : M (ctl unit Empty_set) :=
  let '(sender_rpcs, sender_s) := sender in
  let '(receiver_rpcs, receiver_s) := receiver in
  send_len ← (if 0 <? pkt_size then mret pkt_size else call (rand_range 1 max_size));
  if (send_len <? 0) || (MAX_DATA_SIZE <? send_len) then undef "send_buf is overrun" else
  send_buf ← call (te_fill_buf send_len);
  '(rc, err) ← call (rpc_send sender_rpcs sender_s send_buf);
  if rc <? 0 then
    TEST_VERDICT "Failed to send a packet from %s, errno is %r" [AS (rpcs_name sender_rpcs); AI err] else
  readable ← call (rpc_readability receiver_rpcs receiver_s TAPI_WAIT_NETWORK_DELAY);
  if negb readable then TEST_VERDICT "Receiving socket did not become readable" [] else
  '(rc, recv_buf, err) ← call (rpc_recv receiver_rpcs receiver_s MAX_DATA_SIZE);
  if rc <? 0 then
    TEST_VERDICT "Failed to receive a packet on %s, errno is %r" [AS (rpcs_name receiver_rpcs); AI err]
  else if negb (rc =? send_len) || negb (mem_eq send_buf recv_buf send_len) then
    TEST_VERDICT "Unexpected data was received" []
  else mret (Continue tt).

(** What is said of the statistics. *)
Definition sr_judge_stats (stats_before stats_after : if_stats) : M unit :=
  _ ← CHECK_CONST_COUNTER (get_errors_diff stats_before stats_after tx) "errors";
  _ ← CHECK_CONST_COUNTER (get_discards_diff stats_before stats_after tx) "discards";
  let new_packets := get_ucast_pkts_diff stats_before stats_after tx in
  _ ← when (new_packets <? 0) (ERROR_VERDICT "ucast_pkts counter decreased" []);
  if new_packets <? pkts_num then ERROR_VERDICT "ucast_pkts counter was updated by too small number" []
  else when (pkts_num + MAX_EXTRA_PKTS <? new_packets)
         (ERROR_VERDICT "ucast_pkts counter was updated by too big number" []).

Definition send_receive_body : T end_locals unit :=
  _ ← connect sock_type;
  l ← get;
  stats_before ← lift sr_stats;
  max_size ← lift (sr_max_size (sr_sender l));
  _ ← lift (for_n (Z.to_nat pkts_num) 0 tt (sr_pass (sr_sender l) (sr_receiver l) max_size));
  stats_after ← lift sr_stats;
  lift (sr_judge_stats stats_before stats_after).

Definition send_receive_main : M status := test_main en_start send_receive_body close_both.
End send_receive.

(** ** basic/multicast.c *)
Section multicast.
Context (fuel : nat) (TE_DIV_ROUND_UP : Z -> Z -> Z) (RPC_IP_MULTICAST_IF RPC_IPV6_MULTICAST_IF : Z).
Context (iut_if_index tst_if_index : Z) (mcast_addr : sockaddr) (tx : bool) (sends_num : Z).

Definition TEST_ALLOWED_PKT_LOSS : Z := TE_DIV_ROUND_UP 1000 TAPI_WAIT_NETWORK_DELAY.

(** The sockets of the sender and of the receiver. *)
Record mcast_locals := McastLocals { ml_sender_s : Z; ml_receiver_s : Z }.
Definition ml_set_sender (s : Z) (l : mcast_locals) : mcast_locals := McastLocals s (ml_receiver_s l).
Definition ml_set_receiver (s : Z) (l : mcast_locals) : mcast_locals := McastLocals (ml_sender_s l) s.

Definition ml_sender : rcf_rpc_server := if tx then iut_rpcs else tst_rpcs.
Definition ml_receiver : rcf_rpc_server := if tx then tst_rpcs else iut_rpcs.

(** One pass of the loop: the state is [total_len] and [lost]. *)
Definition mcast_pass (sender_s receiver_s : Z) (addr : sockaddr) (_ : Z) (st : Z * Z) : M (ctl (Z * Z) Empty_set) :=
  let '(total_len, lost) := st in
  len ← net_drv_sendto_recv_check_may_loss fuel ml_sender sender_s (Some addr) ml_receiver receiver_s
          (Some "Checking multicast sending"%string);
  if len =? 0 then
    if negb (total_len =? 0) then TEST_VERDICT "Sent multicast packet is not received" []
    else mret (Continue (total_len + len, lost + 1))
  else mret (Continue (total_len + len, lost)).

(** What is said of the packets lost. *)
Definition mcast_judge (st : Z * Z) : M unit :=
  let '(total_len, lost) := st in
  when (0 <? lost)
    (if (0 <? total_len) && (lost <=? TEST_ALLOWED_PKT_LOSS) then mret tt
     else TEST_VERDICT "Too many leading multicast packets are not received" []).

Definition multicast_body : T mcast_locals unit :=
  sender_s ← lift (rpc_ok (rpc_socket ml_sender));
  _ ← modify (ml_set_sender sender_s);
  _ ← lift (rpc_ok (rpc_bind ml_sender sender_s (if tx then iut_addr else tst_addr)));
  receiver_s ← lift (rpc_ok (rpc_socket ml_receiver));
  _ ← modify (ml_set_receiver receiver_s);
  addr ← lift (CHECK_OUT (call (tapi_sockaddr_clone ml_receiver mcast_addr)));
  _ ← lift (rpc_ok (rpc_bind ml_receiver receiver_s addr));
  let sender_if_index := if tx then iut_if_index else tst_if_index in
  _ ← lift (if sa_family addr =? AF_INET then
              rpc_ok (rpc_setsockopt_mreqn ml_sender sender_s RPC_IP_MULTICAST_IF sender_if_index)
            else rpc_ok (rpc_setsockopt_int ml_sender sender_s RPC_IPV6_MULTICAST_IF sender_if_index));
  _ ← lift (rpc_ok (rpc_mcast_join ml_receiver receiver_s addr (if tx then tst_if_index else iut_if_index)));
  st ← lift (for_n (Z.to_nat sends_num) 0 (0, 0) (mcast_pass sender_s receiver_s addr));
  lift (match st with inl st => mcast_judge st | inr e => match (e : Empty_set) with end end).

Definition multicast_cleanup (l : mcast_locals) : M bool :=
  also (cleanup_close ml_receiver (ml_receiver_s l)) (cleanup_close ml_sender (ml_sender_s l)).

Definition multicast_main : M status := test_main (McastLocals (-1) (-1)) multicast_body multicast_cleanup.
End multicast.

(** ** basic/set_if_down.c *)
Section set_if_down.
Context (fuel : nat) (check_socket : bool).

Definition PKT_SIZE : Z := 1024.

Definition check_send_receive_fail (sender_rpcs : rcf_rpc_server) (sender_s : Z)
    (receiver_rpcs : rcf_rpc_server) (receiver_s : Z) (receiver_name : string) : M unit :=
  buf ← call (te_fill_buf PKT_SIZE);
  '(rc, _) ← call (rpc_send sender_rpcs sender_s buf);
  when (0 <? rc)
    (readable ← call (rpc_readability receiver_rpcs receiver_s TAPI_WAIT_NETWORK_DELAY);
     when readable (TEST_VERDICT "%s receives data sent after IUT interface was set DOWN" [AS receiver_name])).

Definition if_node : string := "/agent:" +:+ ta +:+ "/interface:" +:+ iut_if.

Definition set_if_down_body : T end_locals unit :=
  _ ← twhen check_socket
        (_ ← connect RPC_SOCK_DGRAM;
         l ← get;
         lift (net_drv_conn_check fuel iut_rpcs (en_iut_s l) "IUT" tst_rpcs (en_tst_s l) "Tester"
                 "Checking connection before setting interface down"));
  _ ← lift (CHECK_RC (call (tapi_cfg_base_if_down ta iut_if)));
  _ ← lift (call CFG_WAIT_CHANGES);
  _ ← lift (CHECK_RC (call (cfg_synchronize if_node true)));
  if_status ← lift (CHECK_OUT (call (cfg_get_instance_int (if_node +:+ "/status:"))));
  _ ← lift (when (negb (if_status =? 0)) (TEST_VERDICT "Interface is still UP after bringing it DOWN" []));
  twhen check_socket
    (l ← get;
     lift (_ ← check_send_receive_fail iut_rpcs (en_iut_s l) tst_rpcs (en_tst_s l) "Tester";
           check_send_receive_fail tst_rpcs (en_tst_s l) iut_rpcs (en_iut_s l) "IUT")).

(** [NET_DRV_CLEANUP_SET_UP_WAIT]. *)
Definition NET_DRV_CLEANUP_SET_UP_WAIT (if_name : string) : M bool :=
  ok ← cleanup_rc (call (tapi_cfg_base_if_up ta if_name));
  _ ← call CFG_WAIT_CHANGES;
  _ ← net_drv_wait_up_gen ta if_name true;
  mret ok.

Definition set_if_down_cleanup (l : end_locals) : M bool :=
  also (NET_DRV_CLEANUP_SET_UP_WAIT iut_if) (close_both l).

Definition set_if_down_main : M status := test_main en_start set_if_down_body set_if_down_cleanup.
End set_if_down.

(** ** basic/mac_change_tx.c *)

(** [cb_args]. *)
Record mac_cb := MacCb {
  mb_old_src_mac : list Z; mb_exp_src_mac : list Z;
  mb_pkts_num : Z; mb_old_mac : bool; mb_unknown_mac : bool; mb_failed : bool }.
Definition mb_count (a : mac_cb) : mac_cb :=
  MacCb (mb_old_src_mac a) (mb_exp_src_mac a) (mb_pkts_num a + 1) (mb_old_mac a) (mb_unknown_mac a) (mb_failed a).
Definition mb_set_old (a : mac_cb) : mac_cb :=
  MacCb (mb_old_src_mac a) (mb_exp_src_mac a) (mb_pkts_num a) true (mb_unknown_mac a) (mb_failed a).
Definition mb_set_unknown (a : mac_cb) : mac_cb :=
  MacCb (mb_old_src_mac a) (mb_exp_src_mac a) (mb_pkts_num a) (mb_old_mac a) true (mb_failed a).
Definition mb_set_failed (a : mac_cb) : mac_cb :=
  MacCb (mb_old_src_mac a) (mb_exp_src_mac a) (mb_pkts_num a) (mb_old_mac a) (mb_unknown_mac a) true.

(** [process_pkts]; a packet whose source cannot be read is still counted. *)
Definition mac_process_pkt (pkt : tad_pkt) (args : mac_cb) : mac_cb :=
  let args := mb_count args in
  let '(rc, src_mac) := pk_eth_src pkt in
  if negb (rc =? 0) then mb_set_failed args
  else if negb (mem_eq (mb_exp_src_mac args) src_mac ETHER_ADDR_LEN) then
    if mem_eq (mb_old_src_mac args) src_mac ETHER_ADDR_LEN then mb_set_old args else mb_set_unknown args
  else args.

(** What [check_csap] says of the packets captured. *)
Definition mac_examine (exp_mac old_mac : list Z) (vpref : string) (pkts : list tad_pkt) : M unit :=
  pkts_data ← for_pkts (fun p a => mret (mac_process_pkt p a)) pkts (MacCb old_mac exp_mac 0 false false false);
  if mb_pkts_num pkts_data =? 0 then TEST_VERDICT "%s: CSAP captured no packets on Tester" [AS vpref]
  else if mb_failed pkts_data then
    TEST_VERDICT "%s: failed to process some of the packets captured on Tester" [AS vpref]
  else if mb_unknown_mac pkts_data then
    TEST_VERDICT "%s: IUT used unknown source MAC address for sending" [AS vpref]
  else when (mb_old_mac pkts_data) (TEST_VERDICT "%s: IUT used old source MAC address for sending" [AS vpref]).

Definition mac_check_csap (agent : string) (csap : Z) (exp_mac old_mac : list Z) (vpref : string) : M unit :=
  pkts ← CHECK_OUT (call (tapi_tad_trrecv_get agent csap));
  mac_examine exp_mac old_mac vpref pkts.

Section mac_change_tx.
Context (fuel : nat) (iut_lladdr iut_alien_mac : list Z) (if_down : bool).

(** Data sent and checked, then the source of the packets captured. *)
Definition mac_tx_check (check vpref : string) (exp_mac : list Z) : T end_locals unit :=
  l ← get;
  _ ← lift (net_drv_send_recv_check fuel iut_rpcs (en_iut_s l) tst_rpcs (en_tst_s l) (Some check));
  lift (mac_check_csap (rpcs_ta tst_rpcs) (en_csap l) exp_mac iut_lladdr vpref).

Definition mac_change_tx_body : T end_locals unit :=
  _ ← lift (when (if_down && (sa_family iut_addr =? AF_INET6))
        (CHECK_RC (call (tapi_cfg_sys_set_int ta 1 ("net/ipv6/conf:" +:+ iut_if +:+ "/keep_addr_on_down")))));
  csap_tst ← lift (CHECK_OUT (call (tapi_udp_ip_eth_csap_create (rpcs_ta tst_rpcs) tst_if TAD_ETH_RECV_HOST
               None None (sa_family iut_addr) tst_addr iut_addr)));
  _ ← modify (en_set_csap csap_tst);
  _ ← lift (CHECK_RC (call (tapi_tad_trrecv_start (rpcs_ta tst_rpcs) csap_tst)));
  _ ← connect RPC_SOCK_DGRAM;
  _ ← mac_tx_check "Checking before MAC address change" "Before MAC address change" iut_lladdr;
  _ ← lift (when if_down (_ ← CHECK_RC (call (tapi_cfg_base_if_down ta iut_if)); call CFG_WAIT_CHANGES));
  _ ← lift (CHECK_RC (net_drv_set_check_mac ta iut_if iut_alien_mac));
  _ ← lift (when if_down (_ ← CHECK_RC (call (tapi_cfg_base_if_up ta iut_if)); _ ← call CFG_WAIT_CHANGES;
                          net_drv_wait_up_gen ta iut_if false));
  mac_tx_check "Checking after MAC address change" "After MAC address change" iut_alien_mac.

Definition mac_change_tx_cleanup (l : end_locals) : M bool :=
  also (close_both l) (cleanup_rc (call (tapi_tad_csap_destroy (rpcs_ta tst_rpcs) (en_csap l)))).

Definition mac_change_tx_main : M status := test_main en_start mac_change_tx_body mac_change_tx_cleanup.
End mac_change_tx.

(** ** offload/simple_csum.c *)
Section simple_csum.
Context (fuel : nat) (sock_type : rpc_socket_type) (rx_csum : bool).

Definition csum_feature : M string :=
  if rx_csum then mret "rx-checksum"%string else
  let feature_name := if sa_family iut_addr =? AF_INET then "tx-checksum-ipv4"%string else "tx-checksum-ipv6"%string in
  configurable ← net_drv_req_if_feature_configurable ta iut_if feature_name;
  mret (if (configurable : bool) then feature_name else "tx-checksum-ip-generic"%string).

(** The feature set, or a verdict. *)
Definition csum_set (feature_name what : string) (v : Z) : M unit :=
  rc ← call (tapi_cfg_if_feature_set ta iut_if feature_name v);
  if negb (rc =? 0) then TEST_VERDICT ("Failed to " +:+ what +:+ " %s on IUT, rc=%r") [AS feature_name; AI rc]
  else call CFG_WAIT_CHANGES.

Definition csum_check (vpref : string) : T end_locals unit :=
  l ← get;
  _ ← lift (if rx_csum
            then net_drv_send_recv_check fuel tst_rpcs (en_tst_s l) iut_rpcs (en_iut_s l) (Some vpref)
            else net_drv_send_recv_check fuel iut_rpcs (en_iut_s l) tst_rpcs (en_tst_s l) (Some vpref));
  mret tt.

Definition simple_csum_body : T end_locals unit :=
  feature_name ← lift csum_feature;
  _ ← lift (net_drv_req_if_feature_change ta iut_if feature_name);
  _ ← connect sock_type;
  init_val ← lift (CHECK_OUT (call (tapi_cfg_if_feature_get ta iut_if feature_name)));
  _ ← lift (when (init_val =? 0) (csum_set feature_name "enable" 1));
  _ ← csum_check "Sending when checksum offload is enabled";
  _ ← lift (csum_set feature_name "disable" 0);
  _ ← csum_check "Sending when checksum offload is disabled";
  _ ← lift (csum_set feature_name "re-enable" 1);
  csum_check "Sending when checksum offload is re-enabled".

Definition simple_csum_main : M status := test_main en_start simple_csum_body close_both.
End simple_csum.
End basic_tests.

(** ** What the tests give back *)
Section basic_releases.
Context {TE : Te} (iut_rpcs tst_rpcs : rcf_rpc_server) (iut_if tst_if : string) (iut_addr tst_addr : sockaddr).

(** The CSAPs the locals name, if any. *)
Context (csaps : end_locals -> list (string * Z)) (csaps_socks : forall a b L, csaps (en_set_socks a b L) = csaps L).
Local Abbreviation inv := (holding (en_socks iut_rpcs tst_rpcs) csaps).
(** Not connected yet. *)
Definition no_socks (L : end_locals) : Prop := en_iut_s L = -1 /\ en_tst_s L = -1.

Lemma connect_keeps {B} (G : B -> end_locals -> held -> Prop) t (f : unit -> T end_locals B) L g :
  no_socks L -> inv L g -> (forall L' g', inv L' g' -> wp h_world (f tt L') g' (upto inv G)) ->
  wp h_world (mbind f (connect iut_rpcs tst_rpcs iut_addr tst_addr t) L) g (upto inv G).
Proof.
  intros [E1 E2] Hg Hf. apply st_bind. unfold connect. apply st_connect; [exact Hg|].
  intros s1 s2 g' H1 H2 Hs Hc. apply Hf. split; [|by rewrite csaps_socks]. unfold en_socks, sock_at in *. cbn.
  rewrite (proj2 (Z.leb_le 0 s1)), (proj2 (Z.leb_le 0 s2)) by done. by rewrite E1, E2 in Hs.
Qed.

Lemma close_both_wp L g : inv L g -> wp h_world (close_both iut_rpcs tst_rpcs L) g (fun r g' => match r with
  | Val _ => h_socks g' = [] /\ h_csaps g' ⊆+ csaps L | _ => False end).
Proof.
  intros [Hs Hc]. unfold close_both, also. wp_step.
  eapply close_held; [exact Hs|]. intros b1 g1 Hs1 E1. cbn [bpost]. wp_step.
  eapply close_held; [by rewrite app_nil_r|]. intros b2 g2 Hs2 E2. wp_go.
  apply submseteq_nil_r in Hs2. split; congruence.
Qed.
End basic_releases.

(** Tests that only connect. *)
Section sockets_only.
Context {TE : Te} (iut_rpcs tst_rpcs : rcf_rpc_server) (iut_if : string) (iut_addr tst_addr : sockaddr) (fuel : nat).

Local Abbreviation inv := (holding (en_socks iut_rpcs tst_rpcs) (fun _ : end_locals => [])).
Local Abbreviation returned := (fun r g => match r with Val _ => gave_back g | NoFuel => True | _ => False end).

Lemma nothing_held init : inv en_start (clean init).
Proof. split; apply submseteq_nil_l. Qed.

Lemma close_both_gives_back L g : inv L g ->
  wp h_world (close_both iut_rpcs tst_rpcs L) g (fun r g' => match r with Val _ => gave_back g' | _ => False end).
Proof.
  intros Hg. eapply wp_mono; [by apply (close_both_wp _ _ (fun _ => []))|]. intros [b| | |] g' H; try done.
  destruct H as [Hs Hc]. split; [done|]. by apply submseteq_nil_r in Hc.
Qed.

Lemma check_free rs s1 rr s2 v : only handle_free any_jump (net_drv_send_recv_check fuel rs s1 rr s2 v).
Proof. eapply only_mono; [apply neutral_handle_free| |apply data_check_neutral]. done. Qed.

Lemma sr_pass_free size s r max i u : 0 < size <= MAX_DATA_SIZE -> only handle_free any_jump (sr_pass size s r max i u).
Proof.
  intros Hz. destruct s, r, u. unfold sr_pass. rewrite (proj2 (Z.ltb_lt 0 size)) by lia.
  cbn [mbind prog_bind mret prog_ret bind lift_result].
  rewrite (proj2 (Z.ltb_ge size 0)), (proj2 (Z.ltb_ge MAX_DATA_SIZE size)) by lia. cbn [orb]. solve_only.
Qed.

(** However the tests end, they have given back their sockets. *)
Lemma send_receive_releases mtu t tx size n init : 0 < size <= MAX_DATA_SIZE ->
  wp h_world (send_receive_main iut_rpcs tst_rpcs iut_if iut_addr tst_addr mtu t tx size n) (clean init) returned.
Proof.
  intros Hz. unfold send_receive_main.
  eapply (test_main_keeps _ (fun L g => L = en_start /\ inv L g)); [by split; [|apply nothing_held]| |apply close_both_gives_back].
  intros L g [-> Hg]. unfold send_receive_body. apply connect_keeps; [done|done|exact Hg|]. clear g Hg. intros L g Hg.
  cbn [mbind T_bind get]. apply st_free; [unfold sr_stats; solve_only|done|]. clear g Hg. intros b g Hg.
  apply st_free; [unfold sr_max_size; solve_only|done|]. clear g Hg. intros m g Hg.
  apply st_free; [apply only_for_n; intros; by apply sr_pass_free|done|]. clear g Hg. intros r g Hg.
  apply st_free; [unfold sr_stats; solve_only|done|]. clear g Hg. intros a g Hg.
  apply st_free_last; [unfold sr_judge_stats, CHECK_CONST_COUNTER; solve_only|done].
Qed.

Lemma set_if_down_releases check init :
  wp h_world (set_if_down_main iut_rpcs tst_rpcs iut_if iut_addr tst_addr fuel check) (clean init) returned.
Proof.
  unfold set_if_down_main.
  eapply (test_main_keeps _ (fun L g => L = en_start /\ inv L g)); [by split; [|apply nothing_held]|..].
  - intros L g [-> Hg]. unfold set_if_down_body.
    assert (Hconn : wp h_world (twhen check (_ ← connect iut_rpcs tst_rpcs iut_addr tst_addr RPC_SOCK_DGRAM; l ← get;
        lift (net_drv_conn_check fuel iut_rpcs (en_iut_s l) "IUT" tst_rpcs (en_tst_s l) "Tester"
                 "Checking connection before setting interface down")) en_start) g (ends inv)).
    { unfold twhen. destruct check; [|exact Hg]. apply connect_keeps; [done|done|exact Hg|]. clear g Hg. intros L g Hg.
      cbn [mbind T_bind get]. apply st_free_last; [|done]. unfold net_drv_conn_check.
      repeat (apply only_bind; [apply check_free|intros ?]). done. }
    eapply st_then; [exact Hconn|]. clear g Hg Hconn. intros _ L g Hg.
    do 3 (apply st_free; [solve_only|done|]; clear g Hg; intros _ g Hg).
    do 2 (apply st_free; [solve_only|done|]; clear g Hg; intros ? g Hg).
    unfold twhen. destruct check; [|exact Hg]. cbn [mbind T_bind get]. apply st_free_last; [|done].
    unfold check_send_receive_fail. solve_only.
  - intros L g Hg. unfold set_if_down_cleanup, also. wp_step.
    eapply wp_mono; [apply (clean_free (en_socks iut_rpcs tst_rpcs) (fun _ => [])); [| |exact Hg]|].
    + unfold NET_DRV_CLEANUP_SET_UP_WAIT, cleanup_rc, net_drv_wait_up_gen. solve_only.
    + unfold NET_DRV_CLEANUP_SET_UP_WAIT, cleanup_rc, net_drv_wait_up_gen, ERROR_VERDICT. solve_returns.
    + clear g Hg. intros [b| | |] g Hg; try done. cbn [bpost]. wp_step.
      eapply wp_mono; [by apply close_both_gives_back|]. intros [b2| | |] g2 H; try done.
Qed.

Lemma simple_csum_releases t rx init :
  wp h_world (simple_csum_main iut_rpcs tst_rpcs iut_if iut_addr tst_addr fuel t rx) (clean init) returned.
Proof.
  unfold simple_csum_main.
  eapply (test_main_keeps _ (fun L g => L = en_start /\ inv L g)); [by split; [|apply nothing_held]| |apply close_both_gives_back].
  assert (Hcheck : forall v, tkeeps h_world inv inv (csum_check iut_rpcs tst_rpcs fuel rx v)).
  { intros v L g Hg. unfold csum_check. cbn [mbind T_bind get].
    apply st_free; [destruct rx; apply check_free|done|]. by intros ? ? ?. }
  intros L g [-> Hg]. unfold simple_csum_body.
  apply st_free; [unfold csum_feature, net_drv_req_if_feature_configurable; solve_only|done|]. clear g Hg. intros f g Hg.
  apply st_free; [unfold net_drv_req_if_feature_change; solve_only|done|]. clear g Hg. intros [] g Hg.
  apply connect_keeps; [done|done|exact Hg|]. clear g Hg. intros L g Hg.
  repeat first [ apply st_free; [unfold csum_set; solve_only|done|]; clear g Hg; intros ? g Hg
               | eapply st_then; [by apply Hcheck|]; clear L g Hg; intros _ L g Hg ].
  by apply Hcheck.
Qed.
End sockets_only.

(** A test with a CSAP on the tester, and one with sockets of its own. *)
Section more_releases.
Context {TE : Te} (iut_rpcs tst_rpcs : rcf_rpc_server) (iut_if tst_if : string) (iut_addr tst_addr : sockaddr) (fuel : nat).

Local Abbreviation inv := (en_holds iut_rpcs tst_rpcs (rpcs_ta tst_rpcs)).
Local Abbreviation returned := (fun r g => match r with Val _ => gave_back g | NoFuel => True | _ => False end).

Lemma for_pkts_free (f : tad_pkt -> mac_cb -> mac_cb) pkts a :
  for_pkts (fun p a => mret (f p a) : M mac_cb) pkts a = mret (fold_left (fun a p => f p a) pkts a).
Proof. revert a. induction pkts as [|p pkts IH]; intros a; [done|]. cbn. apply IH. Qed.

Lemma mac_tx_check_keeps lladdr check vpref exp : tkeeps h_world inv inv
  (mac_tx_check iut_rpcs tst_rpcs fuel lladdr check vpref exp).
Proof.
  intros L g Hg. unfold mac_tx_check. cbn [mbind T_bind get].
  apply st_free; [apply check_free|done|]. clear g Hg. intros r g Hg.
  apply st_free_last; [|done]. unfold mac_check_csap. apply only_bind; [solve_only|]. intros pkts. unfold mac_examine.
  rewrite for_pkts_free. cbn [mbind prog_bind mret prog_ret bind lift_result]. solve_only.
Qed.

Lemma mac_change_tx_releases lladdr alien down init :
  wp h_world (mac_change_tx_main iut_rpcs tst_rpcs iut_if tst_if iut_addr tst_addr fuel lladdr alien down) (clean init) returned.
Proof.
  unfold mac_change_tx_main.
  eapply (test_main_keeps _ (fun L g => L = en_start /\ inv L g)); [split; [done|apply ends_hold_nothing]|..].
  - intros L g [-> Hg]. unfold mac_change_tx_body.
    apply st_free; [solve_only|done|]. clear g Hg. intros [] g Hg.
    apply ends_take_csap; [done|by intros ? ?|done|exact Hg|]. clear g Hg. intros c g Hg. apply st_modify.
    apply st_free; [solve_only|done|]. clear g Hg. intros [] g Hg.
    apply connect_keeps; [done|done|exact Hg|]. clear g Hg. intros L g Hg.
    eapply st_then; [by apply mac_tx_check_keeps|]. clear L g Hg. intros _ L g Hg.
    apply st_free; [solve_only|done|]. clear g Hg. intros [] g Hg.
    apply st_free; [unfold net_drv_set_check_mac; solve_only|done|]. clear g Hg. intros [] g Hg.
    apply st_free; [unfold net_drv_wait_up_gen; solve_only|done|]. clear g Hg. intros [] g Hg.
    by apply mac_tx_check_keeps.
  - intros L g Hg. unfold mac_change_tx_cleanup, also. wp_step.
    eapply wp_mono; [apply (close_both_wp _ _ _ L g Hg)|]. intros [b| | |] g1 H; try done. destruct H as [Hs Hc].
    cbn [bpost]. wp_step. eapply csap_dropped; [exact Hc|]. intros b2 g2 Hc2 E2. wp_go. split; congruence.
Qed.

Definition ml_socks (tx : bool) (l : mcast_locals) : list (rcf_rpc_server * Z) :=
  sock_at (ml_sender iut_rpcs tst_rpcs tx) (ml_sender_s l) ++ sock_at (ml_receiver iut_rpcs tst_rpcs tx) (ml_receiver_s l).

Lemma mcast_pass_free s r addr tx i st : only handle_free any_jump (mcast_pass iut_rpcs tst_rpcs fuel tx s r addr i st).
Proof.
  destruct st. unfold mcast_pass. apply only_bind; [|intros len; solve_only].
  eapply only_mono; [| |apply data_check_only]; [|done]. intros X c Hc. by apply neutral_handle_free, data_neutral.
Qed.

Lemma multicast_releases div o4 o6 i1 i2 maddr tx n init :
  wp h_world (multicast_main iut_rpcs tst_rpcs iut_addr tst_addr fuel div o4 o6 i1 i2 maddr tx n) (clean init) returned.
Proof.
  unfold multicast_main. set (inv := holding (ml_socks tx) (fun _ => [])).
  eapply (test_main_keeps _ (fun L g => L = McastLocals (-1) (-1) /\ inv L g) inv).
  - split; [done|]. split; apply submseteq_nil_l.
  - intros L g [-> Hg]. unfold multicast_body.
    apply st_socket; [exact Hg|]. clear g Hg. intros s1 g H1 Hs Hc. apply st_modify.
    assert (Hg : inv (ml_set_sender s1 (McastLocals (-1) (-1))) g).
    { split; [|exact Hc]. unfold ml_socks, sock_at. cbn. by rewrite (proj2 (Z.leb_le 0 s1)). }
    clear Hs Hc. apply st_free; [solve_only|done|]. clear g Hg. intros _ g Hg.
    apply st_socket; [exact Hg|]. clear g Hg. intros s2 g H2 Hs Hc. apply st_modify.
    set (L := ml_set_receiver _ _). assert (Hg : inv L g).
    { split; [|exact Hc]. etrans; [exact Hs|]. unfold ml_socks, sock_at, L. cbn.
      rewrite (proj2 (Z.leb_le 0 s1)), (proj2 (Z.leb_le 0 s2)) by done. apply Permutation_submseteq, Permutation_swap. }
    clear Hs Hc. clearbody L.
    do 2 (apply st_free; [solve_only|done|]; clear g Hg; intros ? g Hg).
    do 2 (apply st_free; [destruct tx; solve_only|done|]; clear g Hg; intros ? g Hg).
    apply st_free; [apply only_for_n; intros; apply mcast_pass_free|done|]. clear g Hg. intros [st|[]] g Hg.
    apply st_free_last; [unfold mcast_judge; solve_only|done].
  - intros L g [Hs Hc]. unfold multicast_cleanup, also. wp_step.
    assert (Hs' : h_socks g ⊆+ sock_at (ml_receiver iut_rpcs tst_rpcs tx) (ml_receiver_s L) ++
                    sock_at (ml_sender iut_rpcs tst_rpcs tx) (ml_sender_s L))
      by (etrans; [exact Hs|]; apply Permutation_submseteq, Permutation_app_comm).
    eapply close_held; [exact Hs'|]. intros b1 g1 Hs1 E1. cbn [bpost]. wp_step.
    eapply close_held; [by rewrite app_nil_r|]. intros b2 g2 Hs2 E2. wp_go.
    apply submseteq_nil_r in Hs2. split; [done|]. rewrite E2, E1. by apply submseteq_nil_r in Hc.
Qed.
End more_releases.

(** ** Source addresses of the packets captured *)
Section mac_examined.
Context {TE : Te} (exp_mac old_mac : list Z) (vpref : string).

(** The source address of a packet, where it can be read. *)
Definition source (p : tad_pkt) (src : option (list Z)) : Prop :=
  match src with
  | Some m => pk_eth_src p = (0, m) /\ length m = 6%nat
  | None => fst (pk_eth_src p) <> 0
  end.

Lemma mem_eq_mac (a b : list Z) : length a = 6%nat -> length b = 6%nat -> mem_eq a b ETHER_ADDR_LEN = bool_decide (a = b).
Proof. intros Ha Hb. unfold mem_eq, ETHER_ADDR_LEN. by rewrite !firstn_all2 by (change (Z.to_nat 6) with 6%nat; lia). Qed.

Definition unread (s : option (list Z)) : bool := match s with Some _ => false | None => true end.
Definition with_mac (P : list Z -> bool) (s : option (list Z)) : bool := match s with Some m => P m | None => false end.
Definition is_old (m : list Z) : bool := negb (bool_decide (exp_mac = m)) && bool_decide (old_mac = m).
Definition is_unknown (m : list Z) : bool := negb (bool_decide (exp_mac = m)) && negb (bool_decide (old_mac = m)).

(** What the callback has noted, of the packets so far. *)
Definition noted (srcs : list (option (list Z))) (a : mac_cb) : Prop :=
  a = MacCb old_mac exp_mac (Z.of_nat (length srcs)) (existsb (with_mac is_old) srcs)
        (existsb (with_mac is_unknown) srcs) (existsb unread srcs).

Lemma process_pkt_noted p src srcs a :
  length exp_mac = 6%nat -> length old_mac = 6%nat -> source p src ->
  noted srcs a -> noted (srcs ++ [src]) (mac_process_pkt p a).
Proof.
  intros He Ho Hp ->. unfold noted, mac_process_pkt, mb_count. cbn [mb_old_src_mac mb_exp_src_mac mb_pkts_num mb_old_mac mb_unknown_mac mb_failed].
  rewrite !existsb_app, length_app. cbn [existsb length]. rewrite !orb_false_r.
  replace (Z.of_nat (length srcs + 1)) with (Z.of_nat (length srcs) + 1) by lia.
  unfold source in Hp. destruct (pk_eth_src p) as [rc m], src as [m'|]; cbn [fst unread with_mac] in *.
  - destruct Hp as [[= -> ->] Hl]. cbn [Z.eqb negb]. rewrite !mem_eq_mac by done. unfold is_old, is_unknown.
    do 2 case_bool_decide; cbn; by rewrite ?orb_false_r, ?orb_true_r.
  - rewrite (proj2 (Z.eqb_neq rc 0)) by done. cbn. by rewrite orb_true_r, !orb_false_r.
Qed.

Lemma mac_fold pkts srcs srcs0 a : length exp_mac = 6%nat -> length old_mac = 6%nat -> Forall2 source pkts srcs -> noted srcs0 a ->
  noted (srcs0 ++ srcs) (fold_left (fun a p => mac_process_pkt p a) pkts a).
Proof.
  intros He Ho H. revert srcs0 a. induction H as [|p src pkts srcs Hp _ IH]; intros srcs0 a Ha; cbn [fold_left].
  - by rewrite app_nil_r.
  - rewrite cons_middle, app_assoc. apply IH. by apply process_pkt_noted.
Qed.

(** The captured packets are accepted exactly when there are any and all come
    from the expected address. *)
Lemma mac_examine_correct {S} (E : env te_call S) pkts srcs s :
  length exp_mac = 6%nat -> length old_mac = 6%nat -> Forall2 source pkts srcs ->
  wp E (mac_examine exp_mac old_mac vpref pkts) s (fun r s' => s' = s /\ match r with
    | Val _ => srcs <> [] /\ Forall (fun src => src = Some exp_mac) srcs
    | Exc (VERDICT _) => ~ (srcs <> [] /\ Forall (fun src => src = Some exp_mac) srcs)
    | _ => False
    end).
Proof.
  intros He Ho H. unfold mac_examine. rewrite for_pkts_free. cbn [mbind prog_bind mret prog_ret bind lift_result].
  pose proof (mac_fold pkts srcs [] (MacCb old_mac exp_mac 0 false false false) He Ho H eq_refl) as Ha. revert Ha.
  generalize (fold_left (fun a p => mac_process_pkt p a) pkts (MacCb old_mac exp_mac 0 false false false)). intros a Ha. unfold noted in Ha. cbn [app] in Ha. subst a.
  cbn [mb_pkts_num mb_old_mac mb_unknown_mac mb_failed].
  destruct (Z.eqb_spec (Z.of_nat (length srcs)) 0) as [E0|E0].
  { cbn. split; [done|]. intros [N _]. apply N, length_zero_iff_nil. lia. }
  assert (Hwrong : forall src, src ∈ srcs -> src <> Some exp_mac -> ~ (srcs <> [] /\ Forall (fun src => src = Some exp_mac) srcs)).
  { intros src Hin Hne [_ Hall]. eapply Forall_forall in Hall; [|exact Hin]. done. }
  assert (Hex : forall P, existsb P srcs = true -> exists src, src ∈ srcs /\ P src = true).
  { intros P (src & Hin & HP)%existsb_exists. exists src. by rewrite list_elem_of_In. }
  destruct (existsb unread srcs) eqn:E1.
  { cbn. split; [done|]. destruct (Hex _ E1) as ([m|] & Hin & Hm); [done|]. by eapply Hwrong. }
  destruct (existsb (with_mac is_unknown) srcs) eqn:E2.
  { cbn. split; [done|]. destruct (Hex _ E2) as ([m|] & Hin & Hm); [|done]. cbn in Hm. unfold is_unknown in Hm.
    eapply Hwrong; [exact Hin|]. intros [= ->]. by rewrite bool_decide_true in Hm. }
  destruct (existsb (with_mac is_old) srcs) eqn:E3; cbn.
  { split; [done|]. destruct (Hex _ E3) as ([m|] & Hin & Hm); [|done]. cbn in Hm. unfold is_old in Hm.
    eapply Hwrong; [exact Hin|]. intros [= ->]. by rewrite bool_decide_true in Hm. }
  split; [done|]. split; [by intros ->|]. apply Forall_forall. intros src Hin.
  assert (Hno : forall P, existsb P srcs = false -> P src = false).
  { intros P HP. destruct (P src) eqn:Es; [|done]. rewrite <- HP. symmetry. apply existsb_exists. exists src. by rewrite <- list_elem_of_In. }
  pose proof (Hno _ E1) as N1. pose proof (Hno _ E2) as N2. pose proof (Hno _ E3) as N3.
  destruct src as [m|]; [|done]. cbn in N2, N3. unfold is_unknown, is_old in *.
  do 2 case_bool_decide; cbn in *; try done; by f_equal.
Qed.
End mac_examined.

(** ** Multicast packets *)
Module McastSpec.

(** The packets sent, the last one first: whether the receiver saw them. *)
Definition upd X (c : te_call X) : X -> list bool -> list bool :=
  match c in te_call X return X -> list bool -> list bool with
  | rpc_sendto _ _ _ _ => fun _ g => false :: g
  | rpc_readability _ _ _ => fun b g => if b then match g with _ :: g' => true :: g' | [] => [] end else g
  | _ => fun _ g => g
  end.
Definition ok X (c : te_call X) : list bool -> X -> Prop :=
  match c in te_call X return list bool -> X -> Prop with
  | rand_range lo hi => fun _ x => lo <= x <= hi
  | _ => fun _ _ => True
  end.
Definition world : env te_call (list bool) := watch_if ok upd.

(** [lost] packets were lost, then [m] arrived. *)
Definition trace (m lost : nat) : list bool := replicate m true ++ replicate lost false.

Definition quiet X (c : te_call X) : bool :=
  match c with rpc_sendto _ _ _ _ | rpc_readability _ _ _ => false | _ => true end.
Lemma mcast_quiet_keeps X (c : te_call X) s x s' : quiet X c = true -> world X c s x s' -> s' = s.
Proof. intros Hc [_ ->]. by destruct c. Qed.
End McastSpec.

Section multicast_correct.
Context {TE : Te} (iut_rpcs tst_rpcs : rcf_rpc_server) (iut_addr tst_addr : sockaddr) (fuel : nat).
Context (TE_DIV_ROUND_UP : Z -> Z -> Z) (opt4 opt6 iut_index tst_index : Z) (mcast_addr : sockaddr) (tx : bool) (sends_num : Z).
Import McastSpec.

Local Abbreviation allowed := (TEST_ALLOWED_PKT_LOSS TE_DIV_ROUND_UP).

(** The check returns zero exactly when the packet did not arrive. *)
Lemma arrival_checked rs s1 addr rr s2 v g :
  wp world (net_drv_sendto_recv_check_may_loss fuel rs s1 (Some addr) rr s2 v) g (fun r g' => match r with
    | Val n => 0 <= n /\ g' = negb (n =? 0) :: g
    | Undef _ => False
    | _ => True
    end).
Proof.
  unfold net_drv_sendto_recv_check_may_loss, net_drv_sendto_recv_check_gen. wp_go; try done; cbn [upd ok] in *.
  { by destruct x1. }
  destruct x1; [|done].
  eapply (wp_mono _ _ _ (fun r g' => match r with Val (inl _) => g' = true :: g | Val (inr _) | Undef _ => False | _ => True end /\ buf_held r)).
  - apply recv_loop_held, (wp_loop _ _ _ _ _ _ (fun _ _ g' => g' = true :: g)); [done| |done].
    intros n [total buf] s ->. unfold recv_pass. wp_go; try done; cbn [upd]. destruct x1; by wp_go.
  - intros [[[total buf]|]|j|w|] g' [Hr Hl]; cbn in *; try done. subst g'. wp_go; try done. autorewrite with zbool in *.
    apply memcmp_written_wp; [lia|]. intros same. wp_go; try done. split; [lia|]. by rewrite (proj2 (Z.eqb_neq x 0)) by lia.
Qed.

(** After [i] passes. *)
Definition mcast_inv (i : Z) (st : Z * Z) (g : list bool) : Prop :=
  exists m, g = trace m (Z.to_nat st.2) /\ 0 <= st.2 /\ i = Z.of_nat m + st.2 /\ 0 <= st.1 /\ (st.1 = 0 <-> m = 0%nat).

Lemma mcast_loop s r addr g : g = [] ->
  wp world (for_n (Z.to_nat sends_num) 0 (0, 0) (mcast_pass iut_rpcs tst_rpcs fuel tx s r addr)) g (fun res g' => match res with
    | Val (inl st) => mcast_inv (Z.of_nat (Z.to_nat sends_num)) st g'
    | Val (inr _) | Undef _ => False
    | _ => True
    end).
Proof.
  intros ->. apply (wp_for_n _ _ _ _ _ _ _ mcast_inv).
  - exists 0%nat. cbn. repeat split; lia.
  - intros i [total lost] g _ (m & -> & Hl & Hi & Ht & Hm). cbn [fst snd] in *. unfold mcast_pass. wp_step.
    eapply wp_mono; [apply arrival_checked|]. intros [len|j|w|] g' H; try done. destruct H as [Hlen ->]. cbn [bpost].
    destruct (Z.eqb_spec len 0) as [->|Hne]; cbn [negb].
    + destruct (Z.eqb_spec total 0) as [->|]; [|done]. cbn. exists 0%nat. assert (m = 0%nat) as -> by lia. cbn [fst snd].
      replace (Z.to_nat (lost + 1)) with (S (Z.to_nat lost)) by lia. repeat split; lia.
    + cbn. exists (S m). cbn [fst snd]. repeat split; try lia.
  - intros st g H. by rewrite Z.add_0_l in H.
Qed.

(** The test of multicast packets passes only if every packet was received but
    some of the first ones, as many as are allowed, and not all. *)
Lemma multicast_passes :
  wp world (multicast_main iut_rpcs tst_rpcs iut_addr tst_addr fuel TE_DIV_ROUND_UP opt4 opt6 iut_index tst_index mcast_addr tx sends_num)
    [] (fun r g => match r with
      | Val (Left _) | NoFuel => True
      | Val _ => exists m lost, g = trace m lost /\ (m + lost)%nat = Z.to_nat sends_num /\
          (lost = 0%nat \/ (0 < m)%nat /\ Z.of_nat lost <= allowed)
      | _ => False
      end).
Proof.
  unfold multicast_main. eapply test_main_passes.
  - unfold multicast_body.
    do 7 first [ apply (st_only _ _ _ quiet (fun g => g = [])); [try destruct tx; solve_only|intros; subst; by eapply mcast_quiet_keeps|done|done|intros ? ? ->]
               | apply st_modify ].
    apply st_call. eapply wp_mono; [by apply mcast_loop|]. intros [[[total lost]|[]]|j|w|] g H; try done.
    instantiate (1 := fun _ g => exists m lost, g = trace m lost /\ (m + lost)%nat = Z.to_nat sends_num /\
          (lost = 0%nat \/ (0 < m)%nat /\ Z.of_nat lost <= allowed)).
    destruct H as (m & -> & Hl & Hi & Ht & Hm). cbn [fst snd] in *.
    assert (Hmk : (m + Z.to_nat lost)%nat = Z.to_nat sends_num) by lia.
    unfold lift, mcast_judge, when. destruct (Z.ltb_spec 0 lost); [|cbn; exists m, (Z.to_nat lost); split; [done|]; split; [done|left; lia]].
    destruct (Z.ltb_spec 0 total); cbn [andb]; [|done]. destruct (Z.leb_spec lost allowed); [|done].
    cbn. exists m, (Z.to_nat lost). split; [done|]. split; [done|]. right. split; [lia|]. by rewrite Z2Nat.id.
  - intros L. unfold multicast_cleanup, also, cleanup_close. solve_returns.
  - intros L g HG. eapply wp_mono; [apply (wp_only quiet (fun _ => true) world (fun s => s = g)); [| |done]|].
    + unfold multicast_cleanup, also, cleanup_close. solve_only.
    + intros X c s x s' Hc -> Hx. by eapply mcast_quiet_keeps.
    + by intros r s [-> _].
Qed.
End multicast_correct.

(** ** The interface set down *)
Module DownSpec.

(** Whether the interface was set up last, and whether setting it up failed. *)
Record ghost := Ghost { d_up : bool; d_failed : bool }.
Definition upd X (c : te_call X) : X -> ghost -> ghost :=
  match c in te_call X return X -> ghost -> ghost with
  | tapi_cfg_base_if_down _ _ => fun rc g => if rc =? 0 then Ghost false (d_failed g) else g
  | tapi_cfg_base_if_up _ _ => fun rc g => if rc =? 0 then Ghost true (d_failed g) else Ghost (d_up g) true
  | _ => fun _ g => g
  end.
Definition world : env te_call ghost := watch upd.

Definition others X (c : te_call X) : bool :=
  match c with tapi_cfg_base_if_down _ _ | tapi_cfg_base_if_up _ _ => false | _ => true end.
Lemma others_keep X (c : te_call X) s x s' : others X c = true -> world X c s x s' -> s' = s.
Proof. intros Hc ->. by destruct c. Qed.
End DownSpec.

Section down_correct.
Context {TE : Te} (iut_rpcs tst_rpcs : rcf_rpc_server) (iut_if : string) (iut_addr tst_addr : sockaddr) (fuel : nat) (check_socket : bool).
Import DownSpec.

Lemma others_wp {A} (p : M A) g : only others (fun _ => true) p -> wp world p g (fun r g' => g' = g /\ match r with Undef _ => False | _ => True end).
Proof.
  intros H. eapply wp_mono; [apply (wp_only others (fun _ => true) world (fun s => s = g)); [exact H| |done]|].
  - intros X c s x s' Hc -> Hx. by eapply others_keep.
  - intros [a|j|w|] s' [-> Hr]; auto.
Qed.

Lemma down_body_fine : only (fun _ _ => true) (fun _ => false)
  (set_if_down_body iut_rpcs tst_rpcs iut_if iut_addr tst_addr fuel check_socket en_start).
Proof.
  assert (Hcheck : forall rs s1 rr s2 v, only (fun _ _ => true) (fun _ => true) (net_drv_send_recv_check fuel rs s1 rr s2 v)).
  { intros. eapply only_mono; [| |apply data_check_only]; done. }
  unfold set_if_down_body, connect. solve_locals.
  - destruct a. solve_locals.
  - unfold net_drv_conn_check. do 2 (apply only_bind; [apply Hcheck|intros ?]). done.
Qed.

Lemma down_cleanup_restores L g :
  wp world (set_if_down_cleanup iut_rpcs tst_rpcs iut_if L) g (fun r g' => match r with
    | Val ok => (d_up g' = true \/ d_failed g' = true) /\ (ok = true -> d_up g' = true)
    | _ => False
    end).
Proof.
  unfold set_if_down_cleanup, also, NET_DRV_CLEANUP_SET_UP_WAIT, net_drv_wait_up_gen, close_both, also, cleanup_close, cleanup_rc.
  wp_go; cbn [upd]; destruct (x =? 0); cbn; auto; split; auto; done.
Qed.

(** However the test ends, it has set the interface up again, unless that failed;
    then it has not passed. *)
Lemma set_if_down_restores g :
  wp world (set_if_down_main iut_rpcs tst_rpcs iut_if iut_addr tst_addr fuel check_socket) g (fun r g' => match r with
    | Val Passed => d_up g' = true
    | Val _ => d_up g' = true \/ d_failed g' = true
    | NoFuel => True
    | _ => False
    end).
Proof.
  unfold set_if_down_main, test_main. apply wp_bind.
  eapply wp_mono; [apply (wp_only _ _ world (fun _ => True) _ _ down_body_fine); done|].
  intros [[L r]|j|w|] g1 [_ H]; try done.
  - cbn [bpost]. apply wp_bind. eapply wp_mono; [apply down_cleanup_restores|].
    intros [ok|j|w|] g2 H2; try done. destruct H2 as [H2 H3]. cbn. destruct r as [[]|j]; [|done]. destruct ok; auto.
Qed.
End down_correct.

(** ** The feature of checksum offload *)
Module CsumSpec.

(** The value of the feature, and its value whenever data were sent. *)
Record ghost := Ghost { c_value : Z; c_sent : list Z }.
Definition upd X (c : te_call X) : X -> ghost -> ghost :=
  match c in te_call X return X -> ghost -> ghost with
  | tapi_cfg_if_feature_set _ _ _ v => fun rc g => if rc =? 0 then Ghost v (c_sent g) else g
  | rpc_send _ _ _ => fun _ g => Ghost (c_value g) (c_sent g ++ [c_value g])
  | _ => fun _ g => g
  end.
(** The value read is the one in force. *)
Definition ok X (c : te_call X) : ghost -> X -> Prop :=
  match c in te_call X return ghost -> X -> Prop with
  | tapi_cfg_if_feature_get _ _ _ => fun g x => fst x = 0 -> snd x = c_value g
  | _ => fun _ _ => True
  end.
Definition world : env te_call ghost := watch_if ok upd.

Definition quiet X (c : te_call X) : bool :=
  match c with tapi_cfg_if_feature_set _ _ _ _ | rpc_send _ _ _ => false | _ => true end.
Lemma csum_quiet X (c : te_call X) s x s' : quiet X c = true -> world X c s x s' -> s' = s.
Proof. intros Hc [_ ->]. by destruct c. Qed.
End CsumSpec.

Section csum_correct.
Context {TE : Te} (iut_rpcs tst_rpcs : rcf_rpc_server) (iut_if : string) (iut_addr tst_addr : sockaddr) (fuel : nat).
Context (sock_type : rpc_socket_type) (rx_csum : bool).
Import CsumSpec.

Local Abbreviation any := (fun (_ : end_locals) (_ : ghost) => True).
Local Abbreviation sends := (fun v l g => c_value g = v /\ c_sent g = l).

Lemma st_csum_quiet {B} {A} (p : M A) (f : A -> T end_locals B) G L g :
  only quiet (fun _ => true) p -> (forall a, wp world (f a L) g (upto any G)) ->
  wp world (mbind f (lift p) L) g (upto any G).
Proof.
  intros Ho Hf. apply (st_only _ _ _ quiet (fun s => s = g)); [exact Ho| |done|done|by intros a s ->].
  intros X c s x s' Hc -> Hx. by eapply csum_quiet.
Qed.

Lemma csum_sent rs s1 rr s2 v x l g : sends x l g ->
  wp world (net_drv_send_recv_check fuel rs s1 rr s2 v) g (fun r g' => match r with
    | Val _ => sends x (l ++ [x]) g' | Undef _ => False | _ => True end).
Proof.
  intros [Hv Hl]. unfold net_drv_send_recv_check, net_drv_send_recv_ext_check, net_drv_sendto_recv_check_gen.
  wp_go; try done; cbn [upd].
  eapply (wp_mono _ _ _ (fun r g' => (g' = Ghost x (l ++ [x]) /\ match r with Undef _ => False | _ => True end) /\ buf_held r)).
  - apply recv_loop_held. eapply wp_mono; [apply (wp_only quiet (fun _ => true) world (fun s => s = Ghost x (l ++ [x])))|].
    + apply only_loop. intros [total buf]. unfold recv_pass. solve_only.
    + intros X c s y s' Hc -> Hx. by eapply csum_quiet.
    + destruct g as [gv gl]. cbn in *. by subst.
    + intros [a|j|w|] s' [-> Hr]; done.
  - intros [[[total buf]|[]]|j|w|] g' [[-> Hr] Hh]; wp_go; try done. autorewrite with zbool in *.
    apply memcmp_written_wp; [cbn in Hh; lia|]. intros same. by wp_go.
Qed.

Lemma connect_quiet t L g : wp world (connect iut_rpcs tst_rpcs iut_addr tst_addr t L) g (upto any (fun _ _ g' => g' = g)).
Proof. unfold connect. apply st_csum_quiet; [solve_only|]. by intros [s1 s2]. Qed.

Lemma csum_check_sent v x l L g : sends x l g ->
  wp world (csum_check iut_rpcs tst_rpcs fuel rx_csum v L) g (upto any (fun _ _ => sends x (l ++ [x]))).
Proof.
  intros Hg. unfold csum_check. cbn [mbind T_bind get]. apply st_call.
  eapply (wp_mono _ _ _ (fun r g' => match r with Val _ => sends x (l ++ [x]) g' | Undef _ => False | _ => True end)).
  - destruct rx_csum; by apply csum_sent.
  - by intros [a|j|w|] s' H.
Qed.

Lemma csum_set_sent f what v x l g : sends x l g ->
  wp world (csum_set iut_rpcs iut_if f what v) g (fun r g' => match r with
    | Val _ => sends v l g' | Undef _ => False | _ => True end).
Proof.
  intros [Hv Hl]. unfold csum_set. wp_go; try done. cbn [upd]. apply negb_false_iff in Heqb. by rewrite Heqb.
Qed.

(** The test of checksum offload passes only when data were sent and checked with
    the feature on, with it off, and with it on again, and leaves it on. *)
Lemma simple_csum_passes g : c_sent g = [] ->
  wp world (simple_csum_main iut_rpcs tst_rpcs iut_if iut_addr tst_addr fuel sock_type rx_csum) g (fun r g' => match r with
    | Val (Left _) | NoFuel => True
    | Val _ => c_value g' = 1 /\ exists v, v <> 0 /\ c_sent g' = [v; 0; 1]
    | _ => False
    end).
Proof.
  intros Hg. unfold simple_csum_main. eapply test_main_passes.
  - unfold simple_csum_body.
    apply st_csum_quiet; [unfold csum_feature, net_drv_req_if_feature_configurable; solve_only|]. intros f.
    apply st_csum_quiet; [unfold net_drv_req_if_feature_change; solve_only|]. intros _.
    apply st_bind. eapply wp_mono; [apply connect_quiet|]. intros [[L1 [[]|j]]| | |] g1 H1; cbn [upto] in H1 |- *; try done. subst g1.
    apply st_call. unfold CHECK_OUT. wp_go; [|done]. cbn [ok upd fst snd] in *. autorewrite with zbool in Heqb.
    rewrite (H Heqb). clear H Heqb.
    apply st_call. eapply (wp_mono _ _ _ (fun r g' => match r with
      | Val _ => exists v, v <> 0 /\ sends v [] g' | Undef _ => False | _ => True end)).
    { destruct (Z.eqb_spec (c_value g) 0) as [E|E]; unfold when.
      - eapply wp_mono; [by apply (csum_set_sent _ _ 1 (c_value g) [])|]. intros [a|j|w|] g' H; try done. exists 1. by split.
      - cbn. exists (c_value g). by repeat split. }
    intros [[]|j|w|] g1 H; try done. destruct H as (v & Hv & H1).
    apply st_bind. eapply wp_mono; [by apply (csum_check_sent _ _ _ _ _ H1)|].
    intros [[L2 [[]|j]]| | |] g2 H2; cbn [upto app] in H2 |- *; try done. clear H1.
    apply st_call. eapply wp_mono; [by apply (csum_set_sent _ _ 0 _ _ _ H2)|]. intros [[]|j|w|] g3 H3; try done. clear H2.
    apply st_bind. eapply wp_mono; [by apply (csum_check_sent _ _ _ _ _ H3)|].
    intros [[L4 [[]|j]]| | |] g4 H4; cbn [upto app] in H4 |- *; try done. clear H3.
    apply st_call. eapply wp_mono; [by apply (csum_set_sent _ _ 1 _ _ _ H4)|]. intros [[]|j|w|] g5 H5; try done. clear H4.
    eapply wp_mono; [by apply (csum_check_sent _ _ _ _ _ H5)|].
    intros [[L6 [[]|j]]| | |] g6 H6; cbn [upto app] in H6 |- *; try done.
    instantiate (1 := fun _ g' => c_value g' = 1 /\ exists v, v <> 0 /\ c_sent g' = [v; 0; 1]). destruct H6. eauto.
  - intros L. unfold close_both, also, cleanup_close. solve_returns.
  - intros L s HG. eapply wp_mono; [apply (wp_only quiet (fun _ => true) world (fun s' => s' = s)); [| |done]|].
    + unfold close_both, also, cleanup_close. solve_only.
    + intros X c s1 x s' Hc -> Hx. by eapply csum_quiet.
    + by intros r s1 [-> _].
Qed.
End csum_correct.

(** ** Packets and statistics *)
Module SrSpec.

(** Payloads sent and received, statistics read, errors reported. *)
Record ghost := Ghost { s_sent : list (list Z); s_got : list (list Z); s_stats : list if_stats; s_said : list msg }.
Definition upd X (c : te_call X) : X -> ghost -> ghost :=
  match c in te_call X return X -> ghost -> ghost with
  | rpc_send _ _ buf => fun _ g => Ghost (s_sent g ++ [buf]) (s_got g) (s_stats g) (s_said g)
  | rpc_recv _ _ _ => fun x g => Ghost (s_sent g) (s_got g ++ [snd (fst x)]) (s_stats g) (s_said g)
  | tapi_cfg_stats_if_stats_get _ _ => fun x g => Ghost (s_sent g) (s_got g) (s_stats g ++ [snd x]) (s_said g)
  | verdict ERROR_V m => fun _ g => Ghost (s_sent g) (s_got g) (s_stats g) (s_said g ++ [m])
  | _ => fun _ g => g
  end.
(** Documented behaviour; the MTU of IP and the MSS of TCP are at least 68. *)
Definition ok X (c : te_call X) : ghost -> X -> Prop :=
  match c in te_call X return ghost -> X -> Prop with
  | rand_range lo hi => fun _ x => lo <= hi -> lo <= x <= hi
  | te_fill_buf len => fun _ b => Z.of_nat (length b) = len
  | rpc_getsockopt _ _ _ => fun _ x => 68 <= snd (fst x)
  | rpc_recv _ _ len => fun _ x => 0 <= fst (fst x) -> Z.of_nat (length (snd (fst x))) = fst (fst x) /\ fst (fst x) <= len
  | _ => fun _ _ => True
  end.
Definition world : env te_call ghost := watch_if ok upd.

Definition quiet X (c : te_call X) : bool :=
  match c with
  | rpc_send _ _ _ | rpc_recv _ _ _ | tapi_cfg_stats_if_stats_get _ _ | verdict ERROR_V _ => false
  | _ => true
  end.
Lemma sr_quiet X (c : te_call X) s x s' : quiet X c = true -> world X c s x s' -> s' = s.
Proof. intros Hc [_ ->]. destruct c; try done. by destruct l. Qed.

(** By how much a counter of the direction that is tested grew. *)
Definition grew (tx : bool) (out_c in_c : if_stats -> Z) (b a : if_stats) : Z := if tx then out_c a - out_c b else in_c a - in_c b.

(** The differences fit in an [int]. *)
Definition moderate (tx : bool) (b a : if_stats) : Prop :=
  let fits d := - 2 ^ 31 <= d < 2 ^ 31 in
  fits (grew tx out_errors in_errors b a) /\ fits (grew tx out_discards in_discards b a) /\
  fits (grew tx out_ucast_pkts in_ucast_pkts b a).

(** No errors, no discards, and about as many packets as were sent. *)
Definition as_expected (tx : bool) (n : Z) (b a : if_stats) : Prop :=
  grew tx out_errors in_errors b a = 0 /\ grew tx out_discards in_discards b a = 0 /\
  n <= grew tx out_ucast_pkts in_ucast_pkts b a <= n + 5.
End SrSpec.

Section sr_correct.
Context {TE : Te} (iut_rpcs tst_rpcs : rcf_rpc_server) (iut_if : string) (iut_addr tst_addr : sockaddr).
Context (RPC_IP_MTU : Z) (sock_type : rpc_socket_type) (tx : bool) (pkt_size pkts_num : Z).
Context (size_fits : pkt_size <= MAX_DATA_SIZE) (num_ok : 0 <= pkts_num).
Import SrSpec.

Local Abbreviation any := (fun (_ : end_locals) (_ : ghost) => True).

Lemma s32_u64_small d : - 2 ^ 31 <= d < 2 ^ 31 -> s32 (u64 d) = d.
Proof.
  intros Hd. rewrite <- (s32_id d) at 2 by done. unfold s32, sx, u64.
  by rewrite (Z.mod_mod_divide d (2 ^ 64) (2 ^ 32)) by (by exists (2 ^ 32)).
Qed.

(** The statistics are judged: nothing is said exactly when they are as expected. *)
Lemma moderate_stats_judged b a g : s_said g = [] -> moderate tx b a ->
  wp world (sr_judge_stats tx pkts_num b a) g (fun r g' => s_said g' = [] <-> as_expected tx pkts_num b a).
Proof.
  intros Hg (H1 & H2 & H3). unfold sr_judge_stats, CHECK_CONST_COUNTER, get_errors_diff, get_discards_diff, get_ucast_pkts_diff, stats_field_diff.
  unfold as_expected, MAX_EXTRA_PKTS. destruct g as [gs gg gst gsd]. cbn [s_said] in Hg. subst gsd. unfold grew in *.
  destruct tx; rewrite !s32_u64_small by assumption; wp_go; cbn; autorewrite with zbool in *; split; first [done|lia].
Qed.

Lemma stats_judged b a g : s_said g = [] ->
  wp world (sr_judge_stats tx pkts_num b a) g (fun r g' => match r with
    | Val _ => s_sent g' = s_sent g /\ s_got g' = s_got g /\ s_stats g' = s_stats g /\
               (moderate tx b a -> (s_said g' = [] <-> as_expected tx pkts_num b a))
    | _ => False
    end).
Proof.
  intros Hg.
  assert (Hk : wp world (sr_judge_stats tx pkts_num b a) g (fun r g' => (exists x, r = Val x) /\
            s_sent g' = s_sent g /\ s_got g' = s_got g /\ s_stats g' = s_stats g)).
  { eapply wp_mono; [apply wp_and; [apply (wp_only (fun X c => match c with verdict _ _ => true | _ => false end) (fun _ => false) world
       (fun s => s_sent s = s_sent g /\ s_got s = s_got g /\ s_stats s = s_stats g)); [| |done]|apply wp_returns]|].
    - unfold sr_judge_stats, CHECK_CONST_COUNTER. solve_only.
    - intros X c s x s' Hc Hs [_ ->]. destruct c; try done. by destruct l.
    - unfold sr_judge_stats, CHECK_CONST_COUNTER, ERROR_VERDICT. solve_returns.
    - intros r s [[Hs _] Hr]. by split. }
  assert (Hm : Decision (moderate tx b a)) by (unfold moderate; apply _). destruct (decide (moderate tx b a)) as [Hmod|Hmod].
  - eapply wp_mono; [apply wp_and; [exact Hk|by apply moderate_stats_judged]|]. intros r s [[[x ->] (E1 & E2 & E3)] H]. auto.
  - eapply wp_mono; [exact Hk|]. intros r s [[x ->] (E1 & E2 & E3)]. repeat split; [done..| |]; by intros ?.
Qed.

(** After [i] passes: every packet was received as it was sent. *)
Definition exchanged (st : list if_stats) (i : Z) (_ : unit) (g : ghost) : Prop :=
  s_got g = s_sent g /\ Z.of_nat (length (s_sent g)) = i /\ s_stats g = st /\ s_said g = [].

Lemma sr_pass_exchanges s r m st i u g : 1 <= m <= MAX_DATA_SIZE -> exchanged st i u g ->
  wp world (sr_pass pkt_size s r m i u) g (lpost (exchanged st (i + 1)) (fun r _ => match r with Exc _ => True | _ => False end)).
Proof.
  intros Hm (Hg & Hl & Hs & Hv). destruct s as [sr ss], r as [rr rs], u. unfold sr_pass.
  wp_step. eapply (wp_mono _ _ _ (fun r g' => g' = g /\ match r with Val len => 0 < len <= MAX_DATA_SIZE | _ => False end)).
  { destruct (Z.ltb_spec 0 pkt_size); [by split; [|lia]|]. wp_go. cbn [ok upd] in *. split; [done|lia]. }
  intros [len|j|w|] g' [-> H]; try done. cbn [bpost].
  rewrite (proj2 (Z.ltb_ge len 0)), (proj2 (Z.ltb_ge MAX_DATA_SIZE len)) by lia. cbn [orb]. wp_go; try done.
  cbn [ok upd fst snd] in *. autorewrite with zbool in *. subst. cbn [lpost]. unfold exchanged. cbn. rewrite Hg, length_app.
  destruct H3 as [H3 _]; [done|]. destruct Heqb2 as [Hz Hx].
  apply mem_eq_all in Hx; [|lia]. subst l. cbn. repeat split; first [done|lia].
Qed.

Lemma max_size_fits s g : wp world (sr_max_size iut_addr RPC_IP_MTU sock_type s) g (fun r g' => g' = g /\ match r with
  | Val m => 1 <= m <= MAX_DATA_SIZE | Undef _ | NoFuel => False | _ => True end).
Proof.
  pose proof te_hdr_lens as (H4 & H6 & _ & H8).
  destruct s as [r s]. unfold sr_max_size. unfold MAX_DATA_SIZE.
  destruct (decide _); wp_go; cbn [ok upd fst snd] in *; (split; [done|]); try done; try lia.
  all: repeat case_match; lia.
Qed.

(** The statistics are read, and nothing else is seen. *)
Lemma stats_read g : wp world (sr_stats iut_rpcs iut_if) g (fun r g' => match r with
  | Val st => g' = Ghost (s_sent g) (s_got g) (s_stats g ++ [st]) (s_said g) | Undef _ | NoFuel => False | _ => True end).
Proof. unfold sr_stats. wp_go; try done. Qed.

(** The test of sending and receiving passes only when every packet was received
    as it was sent; while the counters change by less than two to the 31, it
    reports errors unless those of errors and discards did not change and that of
    packets grew by the number of packets sent, or by up to five more. *)
Lemma send_receive_passes g : exchanged [] 0 tt g ->
  wp world (send_receive_main iut_rpcs tst_rpcs iut_if iut_addr tst_addr RPC_IP_MTU sock_type tx pkt_size pkts_num) g (fun r g' => match r with
    | Val (Left _) | NoFuel => True
    | Val _ => s_got g' = s_sent g' /\ Z.of_nat (length (s_sent g')) = pkts_num /\
        exists b a, s_stats g' = [b; a] /\ (moderate tx b a -> (s_said g' = [] <-> as_expected tx pkts_num b a))
    | _ => False
    end).
Proof.
  intros Hg. unfold send_receive_main.
  apply (test_main_passes _ _ _ _ _ (fun _ g' => s_got g' = s_sent g' /\ Z.of_nat (length (s_sent g')) = pkts_num /\
        exists b a, s_stats g' = [b; a] /\ (moderate tx b a -> (s_said g' = [] <-> as_expected tx pkts_num b a)))).
  - unfold send_receive_body, connect.
    apply st_bind, (st_only _ _ _ quiet (fun s => s = g)); [solve_only|intros X c s x s' Hc -> Hx; by eapply sr_quiet|done|done|].
    intros [s1 s2] g' ->. apply wp_ret. cbn [upto].
    generalize (en_set_socks s1 s2 en_start). intros L. apply st_get.
    apply st_call. eapply wp_mono; [apply stats_read|]. intros [b|j|w|] g1 H1; try done.
    apply st_call. eapply wp_mono; [apply max_size_fits|]. intros [m|j|w|] g2 [-> Hm]; try done.
    assert (H2 : exchanged [b] 0 tt g1) by (destruct Hg as (E1 & E2 & E3 & E4); rewrite H1; repeat split; cbn; [done|done|by rewrite E3|done]).
    clear H1. apply st_call.
    eapply (wp_mono _ _ _ (fun r g' => match r with Val _ => exchanged [b] pkts_num tt g' | Undef _ | NoFuel => False | _ => True end)).
    { apply (wp_for_n _ _ _ _ _ _ _ (exchanged [b])); [exact H2| |].
      - intros i [] s _ Hs. eapply wp_mono; [by apply sr_pass_exchanges|]. by intros [[[]|[]|[]]|j|w|] s'.
      - intros [] s Hs. rewrite Z.add_0_l, Z2Nat.id in Hs by exact num_ok. exact Hs. }
    intros [r|j|w|] g3 H3; try done. clear H2.
    apply st_call. eapply wp_mono; [apply stats_read|]. intros [a|j|w|] g4 H4; try done.
    destruct H3 as (E1 & E2 & E3 & E4). unfold lift. apply wp_bind, wp_attempt.
    eapply wp_mono; [apply stats_judged; by rewrite H4|]. rewrite H4. cbn [s_sent s_got s_stats s_said].
    intros [[]|j|w|] g5 H5; try done. destruct H5 as (F1 & F2 & F3 & F4). cbn.
    rewrite F1, F2, F3, E3. split; [done|]. split; [done|]. by exists b, a.
  - intros L. unfold close_both, also, cleanup_close. solve_returns.
  - intros L s HG. eapply wp_mono; [apply (wp_only quiet (fun _ => true) world (fun s' => s' = s)); [| |done]|].
    + unfold close_both, also, cleanup_close. solve_only.
    + intros X c s1 x s' Hc -> Hx. by eapply sr_quiet.
    + by intros r s1 [-> _].
Qed.
End sr_correct.
