(* ===== verification/EthtoolReset.v ===== *)
(** basic/ethtool_reset_nic.c: resetting a network interface, and what it does to
    the statistics. *)
From S2P Require Import Prelude Prog Te Locals NetDrvTs CString LibPtp Resources RxCommon Holding Judging BasicTests.

(** How many milliseconds to wait for the interface to be UP again. *)
Definition MAX_IF_WAIT : Z := 160000.
Definition MAX_PKTS_AFTER_RESET : Z := 50.
Definition MAX_BYTES_AFTER_RESET : Z := 5000.
Definition MIN_PKTS_BEFORE_RESET : Z := MAX_PKTS_AFTER_RESET * 3.
Definition MIN_BYTES_BEFORE_RESET : Z := MAX_BYTES_AFTER_RESET * 10.

Section ethtool_reset.
Context {TE : Te} (RPC_EINVAL : Z) (fuel : nat).
Context (iut_rpcs tst_rpcs : rcf_rpc_server) (iut_if tst_if : string) (iut_addr tst_addr : sockaddr).
Context (flag : Z) (sock_type : rpc_socket_type) (if_down : bool).
Local Abbreviation ta := (rpcs_ta iut_rpcs).

Definition stats_node : string := "/agent:" +:+ ta +:+ "/interface:" +:+ iut_if +:+ "/stats:".

Definition sync_print_if_stats : M unit :=
  _ ← call (te_motivated_sleep 2);
  _ ← CHECK_RC (call (cfg_synchronize stats_node true));
  CHECK_RC (call (cfg_tree_print stats_node)).

Definition skip_with_restore (if_up : bool) (message : string) : M unit :=
  _ ← when if_up (_ ← CHECK_RC (call (tapi_cfg_base_if_up ta iut_if)); net_drv_wait_up_gen ta iut_if false);
  TEST_SKIP "%s" [AS message].

(** Data sent before the reset: the state is [i], [sent] and [received]. *)
Definition enough (st : Z * Z * Z) : bool :=
  let '(i, sent, received) := st in
  negb ((i <? MIN_PKTS_BEFORE_RESET) || (sent <? MIN_BYTES_BEFORE_RESET) || (received <? MIN_BYTES_BEFORE_RESET)).

Definition before_pass (iut_s tst_s : Z) (st : Z * Z * Z) : M (ctl (Z * Z * Z) Empty_set) :=
  if enough st then mret (Break st) else
  let '(i, sent, received) := st in
  n ← net_drv_send_recv_check fuel iut_rpcs iut_s tst_rpcs tst_s (Some "Sending data from IUT before reset"%string);
  m ← net_drv_send_recv_check fuel tst_rpcs tst_s iut_rpcs iut_s (Some "Sending data from Tester before reset"%string);
  mret (Continue (i + 1, sent + n, received + m)).

(** The reset, and what is made of its result. *)
Definition reset_nic (iut_s : Z) : M unit :=
  '(rc, err, _) ← net_drv_ethtool_reset true iut_rpcs iut_s iut_if flag;
  let unsupported := skip_with_restore if_down "ETHTOOL_RESET is not supported" in
  if flag =? 0 then
    if 0 <=? rc then ERROR_VERDICT "ioctl() returned success after passing no reset flags" []
    else if err =? RPC_EOPNOTSUPP then unsupported
    else when (negb (err =? RPC_EINVAL)) (ERROR_VERDICT "ioctl() failed with unexpected errno %r" [AI err])
  else
    when (rc <? 0)
      (if err =? RPC_EOPNOTSUPP then unsupported
       else TEST_VERDICT "ETHTOOL_RESET command failed with errno %r" [AI err]).

(** One pass over the statistics: the state is [stats_zeroed]. *)
Definition stat_pass (hnd : cfg_handle) (stats_zeroed : bool) : M (ctl bool Empty_set) :=
  val ← CHECK_OUT (call (cfg_get_instance_uint64 hnd));
  if val =? 0 then mret (Continue stats_zeroed) else
  object ← CHECK_OUT (call (cfg_find_object_by_instance hnd));
  subid ← CHECK_OUT (call (cfg_get_subid object));
  let limit := if strstr_found subid "octets" then MAX_BYTES_AFTER_RESET else MAX_PKTS_AFTER_RESET in
  if limit <? val then
    _ ← when (negb (flag =? 0)) (ERROR_VERDICT "Interface statistic %s was not zeroed" [AS subid]);
    mret (Continue false)
  else mret (Continue stats_zeroed).

Definition check_stats (stats_hnd : list cfg_handle) : M unit :=
  r ← foreach stats_hnd true stat_pass;
  match r with
  | inl stats_zeroed =>
      when (stats_zeroed && negb if_down && (flag =? 0))
        (ERROR_VERDICT "Interface statistics was zeroed after ETHTOOL_RESET command with zero flags" [])
  | inr e => match (e : Empty_set) with end
  end.

Definition wait_up_or_verdict (agent ifn where_ : string) : M unit :=
  rc ← call (tapi_cfg_phy_state_wait_up agent ifn MAX_IF_WAIT);
  when (negb (rc =? 0))
    (TEST_VERDICT ("Failed to wait until interface on " +:+ where_ +:+ " becomes UP after reset, rc = %r") [AI rc]).

(** [fuel_before]: passes of the loop before the reset. *)
Definition ethtool_reset_body (fuel_before : nat) : T end_locals unit :=
  _ ← connect iut_rpcs tst_rpcs iut_addr tst_addr sock_type;
  l ← get;
  _ ← lift (loop fuel_before (0, 0, 0) (before_pass (en_iut_s l) (en_tst_s l)));
  _ ← lift sync_print_if_stats;
  _ ← lift (when (sa_family iut_addr =? AF_INET6)
        (CHECK_RC (call (tapi_cfg_sys_set_int ta 1 ("net/ipv6/conf:" +:+ iut_if +:+ "/keep_addr_on_down")))));
  _ ← lift (when if_down (CHECK_RC (call (tapi_cfg_base_if_down ta iut_if))));
  _ ← lift (call CFG_WAIT_CHANGES);
  _ ← lift (reset_nic (en_iut_s l));
  _ ← lift sync_print_if_stats;
  stats_hnd ← lift (CHECK_OUT (call (cfg_find_pattern (stats_node +:+ "/*:*"))));
  _ ← lift (check_stats stats_hnd);
  _ ← lift (when if_down (_ ← CHECK_RC (call (tapi_cfg_base_if_up ta iut_if)); call CFG_WAIT_CHANGES));
  _ ← lift (wait_up_or_verdict (rpcs_ta tst_rpcs) tst_if "Tester");
  _ ← lift (wait_up_or_verdict ta iut_if "IUT");
  lift (net_drv_conn_check fuel iut_rpcs (en_iut_s l) "IUT" tst_rpcs (en_tst_s l) "Tester" "Checking after reset").

Definition ethtool_reset_main (fuel_before : nat) : M status :=
  test_main en_start (ethtool_reset_body fuel_before) (close_both iut_rpcs tst_rpcs).
End ethtool_reset.

(** ** What the test does *)
Module ResetSpec.

(** Packets sent, the reset with its result and errno, errors reported. *)
Inductive event := Sent (rs : rcf_rpc_server) (s : Z) (len : Z) | Reset (rc err : Z) | Said (m : msg).

Section world.
Context {TE : Te}.
(** The statistics of the interface: their handles, values and names. *)
Context (handles : list cfg_handle) (value : cfg_handle -> Z) (object : cfg_handle -> cfg_handle) (name : cfg_handle -> string).

Definition upd X (c : te_call X) : X -> list event -> list event :=
  match c in te_call X return X -> list event -> list event with
  | rpc_send rs s buf => fun _ g => g ++ [Sent rs s (Z.of_nat (length buf))]
  | rpc_ioctl_reset _ _ _ _ => fun x g => g ++ [Reset (fst (fst x)) (snd x)]
  | verdict ERROR_V m => fun _ g => g ++ [Said m]
  | _ => fun _ g => g
  end.
Definition ok X (c : te_call X) : list event -> X -> Prop :=
  match c in te_call X return list event -> X -> Prop with
  | rand_range lo hi => fun _ x => lo <= hi -> lo <= x <= hi
  | te_fill_buf len => fun _ b => Z.of_nat (length b) = len
  | cfg_find_pattern _ => fun _ x => snd x = handles
  | cfg_get_instance_uint64 h => fun _ x => snd x = value h
  | cfg_find_object_by_instance h => fun _ x => snd x = object h
  | cfg_get_subid o => fun _ x => snd x = name o
  | _ => fun _ _ => True
  end.
Definition world : env te_call (list event) := watch_if ok upd.

Definition quiet X (c : te_call X) : bool :=
  match c with rpc_send _ _ _ | rpc_ioctl_reset _ _ _ _ | verdict ERROR_V _ => false | _ => true end.
Lemma reset_quiet X (c : te_call X) s x s' : quiet X c = true -> world X c s x s' -> s' = s.
Proof. intros Hc [_ ->]. destruct c; try done. by destruct l. Qed.

(** A statistic that is too large for one that was just reset. *)
Definition large (h : cfg_handle) : bool :=
  (if strstr_found (name (object h)) "octets" then MAX_BYTES_AFTER_RESET else MAX_PKTS_AFTER_RESET) <? value h.

(** The errors of the reset itself, and those of the statistics. *)
Definition reset_errors (RPC_EINVAL flag rc err : Z) : list msg :=
  if negb (flag =? 0) then [] else
  if 0 <=? rc then [Msg "ioctl() returned success after passing no reset flags" []]
  else if err =? RPC_EINVAL then [] else [Msg "ioctl() failed with unexpected errno %r" [AI err]].
Definition stats_errors (flag : Z) (if_down : bool) : list msg :=
  if flag =? 0 then
    if negb (existsb large handles) && negb if_down
    then [Msg "Interface statistics was zeroed after ETHTOOL_RESET command with zero flags" []] else []
  else map (fun h => Msg "Interface statistic %s was not zeroed" [AS (name (object h))]) (filter (fun h => large h) handles).
End world.

(** Packets sent in turns: their lengths. *)
Definition turns (iut : rcf_rpc_server) (iut_s : Z) (tst : rcf_rpc_server) (tst_s : Z) (l : list (Z * Z)) : list event :=
  flat_map (fun p => [Sent iut iut_s (fst p); Sent tst tst_s (snd p)]) l.
Definition total (l : list Z) : Z := foldr Z.add 0 l.
End ResetSpec.

Section reset_correct.
Context {TE : Te} (RPC_EINVAL : Z) (fuel : nat).
Context (iut_rpcs tst_rpcs : rcf_rpc_server) (iut_if tst_if : string) (iut_addr tst_addr : sockaddr).
Context (flag : Z) (sock_type : rpc_socket_type) (if_down : bool).
Context (handles : list cfg_handle) (value : cfg_handle -> Z) (object : cfg_handle -> cfg_handle) (name : cfg_handle -> string).
Import ResetSpec.
Local Abbreviation E := (world handles value object name).
Local Abbreviation large := (large value object name).

Lemma unseen_wp {A} (p : M A) g : only quiet (fun _ => true) p ->
  wp E p g (fun r g' => g' = g /\ match r with Undef _ => False | _ => True end).
Proof.
  intros H. eapply wp_mono; [apply (wp_only quiet (fun _ => true) E (fun s => s = g)); [exact H| |done]|].
  - intros X c s x s' Hc -> Hx. by eapply reset_quiet.
  - intros [a|j|w|] s' [-> Hr]; auto.
Qed.

(** One check sends one packet, of the length it returns. *)
Lemma check_sends rs s1 rr s2 v g :
  wp E (net_drv_send_recv_check fuel rs s1 rr s2 v) g (fun r g' => match r with
    | Val n => g' = g ++ [Sent rs s1 n] /\ 1 <= n
    | Undef _ => False
    | _ => True
    end).
Proof.
  unfold net_drv_send_recv_check, net_drv_send_recv_ext_check, net_drv_sendto_recv_check_gen. wp_go; try done.
  cbn [ok upd] in *.
  eapply (wp_mono _ _ _ (fun r g' => match r with
    | Val (inl _) => g' = g ++ [Sent rs s1 (Z.of_nat (length x0))] | Val (inr _) | Undef _ => False | _ => True end /\ buf_held r)).
  - apply recv_loop_held, (wp_loop _ _ _ _ _ _ (fun _ _ g' => g' = g ++ [Sent rs s1 (Z.of_nat (length x0))])); [done| |done].
    intros n [total buf] s ->. unfold recv_pass. wp_go; try done. by destruct x2.
  - intros [[[total buf]|]|j|w|] g' [Hr Hl]; cbn in *; try done. subst g'. wp_go; try done. autorewrite with zbool in *.
    apply memcmp_written_wp; [lia|]. intros same. wp_go; try done.
    rewrite <- H0 at 1. unfold MAX_PKT_LEN in *. by split; [|lia].
Qed.

(** After [fst (fst st)] passes. *)
Definition sent_before (iut_s tst_s : Z) (st : Z * Z * Z) (g : list event) : Prop :=
  exists l, g = turns iut_rpcs iut_s tst_rpcs tst_s l /\
    st = (Z.of_nat (length l), total (map fst l), total (map snd l)) /\ Forall (fun p => 1 <= fst p /\ 1 <= snd p) l.

Lemma len_total_snoc l x : total (l ++ [x]) = total l + x.
Proof. unfold total. induction l as [|y l IH]; cbn in *; lia. Qed.

Lemma turns_snoc a s b t l x : turns a s b t (l ++ [x]) = turns a s b t l ++ [Sent a s (fst x); Sent b t (snd x)].
Proof. unfold turns. by rewrite flat_map_app. Qed.

Lemma total_at_least l : Forall (fun x => 1 <= x) l -> Z.of_nat (length l) <= total l.
Proof. unfold total. induction 1; cbn in *; lia. Qed.

(** A pass goes on with more data sent, and only while there is too little of it. *)
Lemma before_pass_sends iut_s tst_s st g : sent_before iut_s tst_s st g ->
  wp E (before_pass fuel iut_rpcs tst_rpcs iut_s tst_s st) g (fun r g' => match r with
    | Val (Break st') => st' = st /\ g' = g /\ enough st = true
    | Val (Continue st') => enough st = false /\ sent_before iut_s tst_s st' g' /\ fst (fst st') = fst (fst st) + 1
    | Val (Return _) | Undef _ => False
    | _ => True
    end).
Proof.
  intros (l & -> & -> & Hl). unfold before_pass. destruct (enough _) eqn:Hen; [done|].
  wp_step. eapply wp_mono; [apply check_sends|]. intros [n|j|w|] g1 H1; try done. destruct H1 as [-> H1]. cbn [bpost].
  wp_step. eapply wp_mono; [apply check_sends|]. intros [m|j|w|] g2 H2; try done. destruct H2 as [-> H2]. cbn.
  split; [done|]. split; [|done]. exists (l ++ [(n, m)]).
  rewrite turns_snoc, !map_app, length_app, <- app_assoc. cbn [length fst snd map app]. rewrite !len_total_snoc.
  split; [done|]. split; [f_equal; f_equal; lia|]. apply Forall_app. by split; [|repeat constructor].
Qed.

(** When the loop is left enough was sent each way. *)
Lemma before_sends_enough n iut_s tst_s :
  wp E (loop n (0, 0, 0) (before_pass fuel iut_rpcs tst_rpcs iut_s tst_s)) [] (fun r g => match r with
    | Val (inl st) => sent_before iut_s tst_s st g /\ enough st = true
    | Val (inr _) | Undef _ => False
    | _ => True
    end).
Proof.
  apply (wp_loop _ _ _ _ _ _ (fun _ => sent_before iut_s tst_s)); [by exists []| |done].
  intros k st g Hs. eapply wp_mono; [by apply before_pass_sends|].
  intros [[st'|st'|[]]|j|w|] g' H; try done; cbn [lpost]; [by destruct H as (_ & H & _)|by destruct H as (-> & -> & H)].
Qed.

(** A pass for each of the bytes is fuel enough, when the checks end. *)
Lemma before_ends n iut_s tst_s : MIN_BYTES_BEFORE_RESET < Z.of_nat n ->
  (forall rs s1 rr s2 v g, wp E (net_drv_send_recv_check fuel rs s1 rr s2 v) g (fun r _ => r <> NoFuel)) ->
  wp E (loop n (0, 0, 0) (before_pass fuel iut_rpcs tst_rpcs iut_s tst_s)) [] (fun r _ => r <> NoFuel).
Proof.
  intros Hfuel Hc.
  apply (wp_loop _ _ _ _ _ _ (fun n st g => sent_before iut_s tst_s st g /\
    fst (fst st) <= MIN_BYTES_BEFORE_RESET < Z.of_nat n + fst (fst st))).
  - split; [by exists []|]. cbn [fst]. unfold MIN_BYTES_BEFORE_RESET, MAX_BYTES_AFTER_RESET in *. lia.
  - intros k st g (Hs & Hi & Hn).
    eapply wp_mono; [eapply (wp_and _ _ _ (fun r _ => r <> NoFuel)); [|by apply before_pass_sends]|].
    + unfold before_pass. destruct (enough st); [done|]. destruct st as [[i a] b].
      wp_step. eapply wp_mono; [apply Hc|]. intros [x|j|w|] s Hx; try done. cbn [bpost].
      wp_step. eapply wp_mono; [apply Hc|]. by intros [y|j|w|] s2 Hy.
    + intros [[st'|st'|[]]|j|w|] g' [H2 H]; try done. cbn [lpost]. destruct H as (He & Hs' & ->). split; [done|].
      destruct Hs as (l & _ & -> & Hl). cbn [fst snd] in *. cut (Z.of_nat (length l) < MIN_BYTES_BEFORE_RESET); [lia|].
      assert (H3 := total_at_least (map fst l)). assert (H4 := total_at_least (map snd l)).
      rewrite length_map in H3, H4. rewrite !Forall_map in *.
      assert (Z.of_nat (length l) <= total (map fst l)) by (apply H3; eapply Forall_impl; [exact Hl|]; by intros ? []).
      assert (Z.of_nat (length l) <= total (map snd l)) by (apply H4; eapply Forall_impl; [exact Hl|]; by intros ? []).
      unfold enough, MIN_PKTS_BEFORE_RESET, MIN_BYTES_BEFORE_RESET, MAX_PKTS_AFTER_RESET, MAX_BYTES_AFTER_RESET in *.
      autorewrite with zbool in *. lia.
  - intros st g (_ & Hi & Hn). lia.
Qed.

(** The reset: what is reported of its result, when the test goes on. *)
Lemma reset_reported iut_s g :
  wp E (reset_nic RPC_EINVAL iut_rpcs iut_if flag if_down iut_s) g (fun r g' => match r with
    | Val _ => exists rc err, g' = g ++ Reset rc err :: map Said (reset_errors RPC_EINVAL flag rc err) /\ (flag = 0 \/ 0 <= rc)
    | Undef _ | NoFuel => False
    | _ => True
    end).
Proof.
  unfold reset_nic, net_drv_ethtool_reset, skip_with_restore, net_drv_wait_up_gen. wp_go; try done; cbn [upd fst snd].
  all: exists z, t0; unfold reset_errors; rewrite <- ?app_assoc; split; [|autorewrite with zbool in *; lia].
  all: repeat match goal with H : _ = _ :> bool |- _ => rewrite ?H; revert H end; intros; cbn [negb] in *.
  all: by destruct (t0 =? RPC_EINVAL).
Qed.

(** One statistic: it is reported if it is large and was to be reset. *)
Lemma stat_pass_reports h zeroed g :
  wp E (stat_pass flag h zeroed) g (fun r g' => match r with
    | Val (Continue z) => z = zeroed && negb (large h) /\
        g' = g ++ (if large h && negb (flag =? 0) then [Said (Msg "Interface statistic %s was not zeroed" [AS (name (object h))])] else [])
    | Val _ | Undef _ | NoFuel => False
    | _ => True
    end).
Proof.
  unfold stat_pass, ResetSpec.large. wp_go; try done; cbn [ok upd fst snd] in *; subst.
  all: try match goal with H : (_ =? 0) = true |- context [_ && _] => apply Z.eqb_eq in H; rewrite H; match goal with |- context [strstr_found ?n ?o] => destruct (strstr_found n o) end; cbn; by rewrite andb_true_r, app_nil_r end.
  all: match goal with H : (_ <? _) = _ |- _ => rewrite H end; rewrite ?andb_false_r, ?andb_true_r; cbn [negb andb].
  all: try match goal with H : negb (_ =? 0) = _ |- _ => rewrite H end; by rewrite ?app_nil_r.
Qed.

Lemma stats_reported g :
  wp E (check_stats flag if_down handles) g (fun r g' => match r with
    | Val _ => g' = g ++ map Said (stats_errors handles value object name flag if_down)
    | Undef _ | NoFuel => False
    | _ => True
    end).
Proof.
  unfold check_stats. wp_step.
  apply (wp_foreach _ _ _ _ _ _ (fun pre _ z g' => z = negb (existsb large pre) /\
    g' = g ++ if flag =? 0 then [] else map Said (map (fun h => Msg "Interface statistic %s was not zeroed" [AS (name (object h))])
                                                     (filter (fun h => large h) pre)))).
  - split; [done|]. destruct (flag =? 0); by rewrite app_nil_r.
  - intros pre h post z s _ [-> ->]. eapply wp_mono; [apply stat_pass_reports|].
    intros [[z'|?|[]]|j|w|] g' H; try done. destruct H as [-> ->]. cbn [lpost].
    rewrite existsb_app, filter_app, !map_app. cbn [existsb]. rewrite orb_false_r, negb_orb. split; [done|].
    rewrite <- app_assoc. f_equal. rewrite filter_cons, filter_nil.
    destruct (flag =? 0); cbn [negb andb]; destruct (large h); cbn; by rewrite ?app_nil_r.
  - intros z s [-> ->]. cbn [bpost]. unfold stats_errors.
    destruct (flag =? 0); rewrite ?andb_true_r, ?andb_false_r; [|by wp_go].
    rewrite app_nil_r. destruct (negb (existsb _ _) && negb if_down); cbn [map]; wp_go; by rewrite ?app_nil_r.
Qed.

Lemma st_unseen {A B} (p : M A) (f : A -> T end_locals B) G L g : only quiet (fun _ => true) p ->
  (forall a, wp E (f a L) g (upto (fun _ _ => True) G)) -> wp E (mbind f (lift p) L) g (upto (fun _ _ => True) G).
Proof. intros Ho Hf. apply st_call. eapply wp_mono; [by apply unseen_wp|]. intros [a|j|w|] s [-> Hr]; auto. Qed.

(** The events of a test that passes. *)
Definition passed (iut_s tst_s : Z) (g : list event) : Prop := exists l rc err a b,
  g = turns iut_rpcs iut_s tst_rpcs tst_s l ++
      Reset rc err :: map Said (reset_errors RPC_EINVAL flag rc err ++ stats_errors handles value object name flag if_down) ++
      [Sent iut_rpcs iut_s a; Sent tst_rpcs tst_s b] /\
  150 <= Z.of_nat (length l) /\ 50000 <= total (map fst l) /\ 50000 <= total (map snd l) /\ (flag = 0 \/ 0 <= rc).

(** The test passes only when at least 150 packets and 50000 bytes were sent each
    way before the reset, the reset did not fail (unless no flags were passed), and
    data was sent each way after it; the errors it reports then are exactly those
    of the result of a reset without flags and those of the statistics: the large
    ones after a reset, or that none is large when nothing should have been reset. *)
Lemma ethtool_reset_passes n :
  wp E (ethtool_reset_main RPC_EINVAL fuel iut_rpcs tst_rpcs iut_if tst_if iut_addr tst_addr flag sock_type if_down n) [] (fun r g =>
    match r with
    | Val (Left _) | NoFuel => True
    | Val _ => exists iut_s tst_s, passed iut_s tst_s g
    | _ => False
    end).
Proof.
  unfold ethtool_reset_main. apply (test_main_passes _ _ _ _ _ (fun _ g => exists iut_s tst_s, passed iut_s tst_s g)).
  - unfold ethtool_reset_body, connect.
    apply st_bind, st_unseen; [solve_only|]. intros [s1 s2]. apply wp_ret. cbn [upto]. apply st_get.
    cbn [en_iut_s en_tst_s en_set_socks]. generalize (en_set_socks s1 s2 en_start). intros L.
    apply st_call. eapply wp_mono; [apply before_sends_enough|]. intros [[st|[]]|j|w|] g H; try done.
    destruct H as [(l & -> & -> & _) Hen].
    do 4 (apply st_unseen; [unfold sync_print_if_stats; solve_only|intros _]).
    apply st_call. eapply wp_mono; [apply reset_reported|]. intros [[]|j|w|] g H; try done. destruct H as (rc & err & -> & Hrc).
    apply st_unseen; [unfold sync_print_if_stats; solve_only|intros _].
    apply st_call. eapply (wp_mono _ _ _ (fun r g' => g' = _ /\ match r with Val h => h = handles | Undef _ | NoFuel => False | _ => True end)).
    { unfold CHECK_OUT. wp_go; cbn [ok upd snd] in *; done. }
    intros [hs|j|w|] g [-> H]; try done. subst hs.
    apply st_call. eapply wp_mono; [apply stats_reported|]. intros [[]|j|w|] g H; try done. subst g.
    do 3 (apply st_unseen; [unfold wait_up_or_verdict; solve_only|intros _]).
    unfold lift, net_drv_conn_check. apply wp_bind, wp_attempt.
    wp_step. eapply wp_mono; [apply check_sends|]. intros [a|j|w|] g H; try done. destruct H as [-> _]. cbn [bpost].
    wp_step. eapply wp_mono; [apply check_sends|]. intros [b|j|w|] g H; try done. destruct H as [-> _]. cbn.
    exists s1, s2, l, rc, err, a, b. rewrite map_app, <- !app_assoc. cbn [app]. split; [done|].
    unfold enough, MIN_PKTS_BEFORE_RESET, MIN_BYTES_BEFORE_RESET, MAX_PKTS_AFTER_RESET, MAX_BYTES_AFTER_RESET in Hen.
    autorewrite with zbool in Hen. destruct Hen as [[H1 H2] H3]. by repeat split.
  - intros L. unfold close_both, also, cleanup_close. solve_returns.
  - intros L g HG. eapply wp_mono; [apply unseen_wp; unfold close_both, also, cleanup_close; solve_only|]. by intros r s [-> _].
Qed.
End reset_correct.

(** However the test ends, it has given back its sockets. *)
Lemma ethtool_reset_releases {TE : Te} einval fuel iut_rpcs tst_rpcs iut_if tst_if iut_addr tst_addr flag t down n init :
  wp h_world (ethtool_reset_main einval fuel iut_rpcs tst_rpcs iut_if tst_if iut_addr tst_addr flag t down n) (clean init)
    (fun r g => match r with Val _ => gave_back g | NoFuel => True | _ => False end).
Proof.
  unfold ethtool_reset_main.
  eapply (test_main_keeps _ (fun L g => L = en_start /\ holding (en_socks iut_rpcs tst_rpcs) (fun _ => []) L g));
    [by split; [|apply nothing_held]| |apply close_both_gives_back].
  intros L g [-> Hg]. unfold ethtool_reset_body. apply connect_keeps; [done|done|exact Hg|]. clear g Hg. intros L g Hg.
  cbn [mbind T_bind get].
  apply st_free; [apply only_loop; intros [[i a] b]; unfold before_pass; destruct (enough _); [done|]; do 2 (apply only_bind; [apply check_free|intros ?]); done|done|]. clear g Hg. intros ? g Hg.
  repeat (apply st_free; [unfold sync_print_if_stats, reset_nic, net_drv_ethtool_reset, skip_with_restore, net_drv_wait_up_gen,
                                 check_stats, stat_pass, wait_up_or_verdict; solve_only|done|]; clear g Hg; intros ? g Hg).
  apply st_free_last; [|done]. unfold net_drv_conn_check. repeat (apply only_bind; [apply check_free|intros ?]). done.
Qed.
