(* ===== verification/PtpTests.v ===== *)
(** The tests of the clock of an interface: ptp/get_time.c, ptp/set_time.c,
    ptp/adj_setoffset.c, ptp/adj_frequency.c, ptp/clock_caps.c and
    ptp/sys_offset*.c. *)
From S2P Require Import Prelude Prog Te Locals CString Double NetDrvTs LibPtp Resources RxCommon Holding Judging BasicTests.

Definition NET_DRV_DEF_PTP_INACC : double := d_lit 1 10.
Definition EXP_MAX_ADJ : Z := 100000000.
Definition EXP_MAX_ADJ_X3 : Z := 49999999.

Section ptp_tests.
Context {TE : Te} (iut_rpcs : rcf_rpc_server) (iut_if : string).

(** The only variable the cleanups use is [fd]. *)
Definition open_fd : T Z unit :=
  fd ← lift (net_drv_open_ptp_fd iut_rpcs iut_if (Some ""%string));
  modify (fun _ => fd).
Definition fd_cleanup (fd : Z) : M bool := cleanup_close iut_rpcs fd.
Definition fd_main (body : T Z unit) : M status := test_main (-1) body fd_cleanup.
(** A test that opens the device and goes on with its descriptor. *)
Definition fd_test (p : Z -> M unit) : T Z unit := _ ← open_fd; fd ← get; lift (p fd).

Definition far (x y : double) : bool := d_gtb (d_abs (d_sub x y)) NET_DRV_DEF_PTP_INACC.

(** ** ptp/get_time.c *)
Section sleeping.
Context (min_sleep max_sleep : Z).

Definition get_time_steps (fd : Z) : M unit :=
  '(rc, ts1, err) ← call (rpc_clock_gettime iut_rpcs true fd);
  if rc <? 0 then TEST_VERDICT "The first clock_gettime() call failed with error %r" [AI err] else
  sleep_time ← call (rand_range min_sleep max_sleep);
  _ ← call (te_motivated_sleep sleep_time);
  '(rc, ts2, err) ← call (rpc_clock_gettime iut_rpcs true fd);
  if rc <? 0 then TEST_VERDICT "The second clock_gettime() call failed with error %r" [AI err] else
  let ts_diff := net_drv_timespec_diff ts2 ts1 in
  when (far ts_diff (d_of_Z sleep_time))
    (TEST_VERDICT "Duration measured with hardware clock differs too much from delay between clock_gettime() calls" []).
Definition get_time_main : M status := fd_main (fd_test get_time_steps).

(** ** ptp/set_time.c *)

(** [ts_set]; a [ts] that is no [int64_t] is undefined. *)
Definition time_to_set (ts : double) : M timespec :=
  if d_ltb ts (d_of_Z 0) then
    tv ← CHECK_OUT (call te_gettimeofday);
    mret (Timespec (tv_seconds tv) (tv_useconds tv * 1000))
  else
    match d_trunc64 ts with
    | None => undef "conversion of ts"
    | Some sec =>
        match d_trunc64 (d_mul (d_sub ts (d_of_Z sec)) (d_of_Z 1000000000)) with
        | None => undef "conversion of the fraction of ts"
        | Some nsec => mret (Timespec sec nsec)
        end
    end.

Definition set_time_steps (ts : double) (fd : Z) : M unit :=
  ts_set ← time_to_set ts;
  ts_init ← clock_gettime iut_rpcs true fd;
  '(rc, err) ← call (rpc_clock_settime iut_rpcs true fd ts_set);
  if rc <? 0 then TEST_VERDICT "clock_settime() call failed with error %r" [AI err] else
  ts_got ← clock_gettime iut_rpcs true fd;
  _ ← when (d_gtb (d_abs (net_drv_timespec_diff ts_got ts_set)) NET_DRV_DEF_PTP_INACC)
        (if d_ltb (d_abs (net_drv_timespec_diff ts_got ts_init)) NET_DRV_DEF_PTP_INACC
         then TEST_VERDICT "It seems clock_settime() had no effect" []
         else TEST_VERDICT "Timestamp obtained immediately after setting differs too much from the set one" []);
  sleep_time ← call (rand_range min_sleep max_sleep);
  _ ← call (te_motivated_sleep sleep_time);
  ts_got ← clock_gettime iut_rpcs true fd;
  when (far (net_drv_timespec_diff ts_got ts_set) (d_of_Z sleep_time))
    (TEST_VERDICT "Timestamp obtained after delay differs too much from the expected one" []).
Definition set_time_main (ts : double) : M status := fd_main (fd_test (set_time_steps ts)).

(** ** ptp/adj_setoffset.c *)

(** [None]: a conversion that is undefined. *)
Definition time_offset_to_timeval (time_offset : double) : option timeval :=
  let abs_offset := d_abs time_offset in
  let a := d_floor abs_offset in
  let b := d_sub abs_offset a in
  let '(a, b) :=
    if d_ltb time_offset (d_of_Z 0) then
      if d_gtb b (d_of_Z 0) then (d_opp (d_add a (d_of_Z 1)), d_sub (d_of_Z 1) b) else (d_opp a, b)
    else (a, b) in
  sec ← d_trunc64 a; usec ← d_trunc64 (d_mul b (d_of_Z 1000000)); Some (TV sec usec).

Section adjusting.
Context (RPC_ADJ_SETOFFSET RPC_ADJ_FREQUENCY : Z).

Definition adj_check_time (fd : Z) (time_offset : double) (stage : string) : M unit :=
  ts1 ← clock_gettime iut_rpcs true fd;
  match time_offset_to_timeval time_offset with
  | None => undef "conversion of time_offset"
  | Some time =>
      '(rc, _, err) ← call (rpc_clock_adjtime iut_rpcs true fd (Timex RPC_ADJ_SETOFFSET 0 time));
      if rc <? 0 then TEST_VERDICT "%s: clock_adjtime() failed unexpectedly with error %r" [AS stage; AI err] else
      ts2 ← clock_gettime iut_rpcs true fd;
      let ts_diff := net_drv_timespec_diff ts2 ts1 in
      _ ← when (far ts_diff time_offset)
            (if d_ltb (d_abs ts_diff) NET_DRV_DEF_PTP_INACC
             then TEST_VERDICT "%s: time did not change noticeably" [AS stage]
             else TEST_VERDICT "%s: time changed in unexpected way" [AS stage]);
      sleep_time ← call (rand_range min_sleep max_sleep);
      _ ← call (te_motivated_sleep sleep_time);
      ts2 ← clock_gettime iut_rpcs true fd;
      when (far (net_drv_timespec_diff ts2 ts1) (d_add time_offset (d_of_Z sleep_time)))
        (TEST_VERDICT "%s: after a delay timestamp does not match expectation" [AS stage])
  end.

Definition adj_setoffset_main (time_offset : double) : M status :=
  fd_main (fd_test (fun fd =>
    _ ← adj_check_time fd time_offset "Adding time offset";
    adj_check_time fd (d_opp time_offset) "Subtracting time offset")).

(** ** ptp/adj_frequency.c *)
Definition adj_check_freq (fd : Z) (freq : double) (stage : string) : M unit :=
  ts1 ← clock_gettime iut_rpcs true fd;
  match d_trunc64 (d_mul freq (d_of_Z 65536)) with
  | None => undef "conversion of freq"
  | Some adj_freq =>
      '(rc, _, err) ← call (rpc_clock_adjtime iut_rpcs true fd (Timex RPC_ADJ_FREQUENCY adj_freq (TV 0 0)));
      if rc <? 0 then TEST_VERDICT "%s: clock_adjtime() failed unexpectedly with error %r" [AS stage; AI err] else
      sleep_time ← call (rand_range (TE_SEC2MS min_sleep) (TE_SEC2MS max_sleep));
      _ ← call (te_motivated_msleep sleep_time);
      ts2 ← clock_gettime iut_rpcs true fd;
      let ts_diff := net_drv_timespec_diff ts2 ts1 in
      let no_change_diff := d_div (d_of_Z sleep_time) (d_of_Z 1000) in
      let exp_diff := d_mul no_change_diff (d_add (d_of_Z 1) (d_div freq (d_of_Z 1000000))) in
      when (far ts_diff exp_diff)
        (if d_ltb (d_abs (d_sub ts_diff no_change_diff)) NET_DRV_DEF_PTP_INACC
         then TEST_VERDICT "%s(): frequency offset has no significant effect" [AS stage]
         else TEST_VERDICT "%s: after a delay timestamp does not match expectation" [AS stage])
  end.

(** The variables the cleanup uses: [fd], [undo_change] and [adj_params]. *)
Record freq_locals := FreqLocals { fq_fd : Z; fq_undo : bool; fq_params : timex }.
Definition fq_set_fd (fd : Z) (l : freq_locals) : freq_locals := FreqLocals fd (fq_undo l) (fq_params l).
Definition fq_set_undo (b : bool) (l : freq_locals) : freq_locals := FreqLocals (fq_fd l) b (fq_params l).
Definition fq_set_params (p : timex) (l : freq_locals) : freq_locals := FreqLocals (fq_fd l) (fq_undo l) p.
Definition fq_start : freq_locals := FreqLocals (-1) false (Timex 0 0 (TV 0 0)).

Definition adj_frequency_body (freq : double) : T freq_locals unit :=
  fd ← lift (net_drv_open_ptp_fd iut_rpcs iut_if (Some ""%string));
  _ ← modify (fq_set_fd fd);
  '(rc, adj_params, err) ← lift (call (rpc_clock_adjtime iut_rpcs true fd (Timex 0 0 (TV 0 0))));
  _ ← lift (when (rc <? 0) (TEST_VERDICT "Initial clock_adjtime() call failed unexpectedly with error %r" [AI err]));
  _ ← modify (fq_set_params adj_params);
  _ ← lift (when (negb (tx_freq adj_params =? 0)) (WARN_VERDICT "Initial frequency offset is not zero" []));
  _ ← modify (fq_set_undo true);
  _ ← lift (adj_check_freq fd freq "Setting frequency offset");
  _ ← lift (adj_check_freq fd (d_of_Z (tx_freq adj_params)) "Restoring initial frequency");
  modify (fq_set_undo false).

(** The call is not preceded by [RPC_AWAIT_ERROR]: its failure leaves the cleanup. *)
Definition adj_frequency_cleanup (l : freq_locals) : M bool :=
  _ ← when (fq_undo l)
        ('(rc, _, _) ← call (rpc_clock_adjtime iut_rpcs true (fq_fd l) (Timex RPC_ADJ_FREQUENCY (tx_freq (fq_params l)) (tx_time (fq_params l))));
         if rc <? 0 then raise RPC_FAILED else mret tt);
  cleanup_close iut_rpcs (fq_fd l).
Definition adj_frequency_main (freq : double) : M status := test_main fq_start (adj_frequency_body freq) adj_frequency_cleanup.
End adjusting.
End sleeping.

(** ** ptp/clock_caps.c *)
Section requests.
Context (TE_ENOIOCTLCMD : Z).

(** Why a request failed; [opt] is for the two requests an optional one of which may be missing. *)
Definition ioctl_failed (request : string) (opt : bool) (err : te_errno) : M unit :=
  if (err =? TE_RC TE_TA_UNIX TE_ENOIOCTLCMD) || (opt && (err =? RPC_EOPNOTSUPP))
  then TEST_SKIP (request +:+ " request is not supported") []
  else TEST_VERDICT ("ioctl(" +:+ request +:+ ") unexpectedly failed with error %r") [AI err].

Definition clock_caps_steps (fd : Z) : M unit :=
  '(rc, caps, err) ← call (rpc_ioctl_ptp_clock_getcaps iut_rpcs fd);
  _ ← when (rc <? 0) (ioctl_failed "PTP_CLOCK_GETCAPS" false err);
  _ ← (if cap_max_adj caps =? 0 then WARN_VERDICT "No frequency adjustment is supported" []
       else if cap_max_adj caps <? EXP_MAX_ADJ_X3 then
         WARN_VERDICT "Frequency adjustment range is significantly less than expected" []
       else when (cap_max_adj caps <? EXP_MAX_ADJ) (WARN_VERDICT "Frequency adjustment range is less than expected" []));
  _ ← when (cap_n_ext_ts caps =? 0) (WARN_VERDICT "No external timestamp channels" []);
  when (cap_pps caps =? 0) (WARN_VERDICT "Pulse Per Second is not supported" []).
Definition clock_caps_main : M status := fd_main (fd_test clock_caps_steps).

(** ** ptp/sys_offset.c, ptp/sys_offset_extended.c, ptp/sys_offset_precise.c *)
Section offsets.
Context (RPC_CLOCK_REALTIME RPC_CLOCK_MONOTONIC_RAW : Z) (clock_id_rpc2str : Z -> string).

(** [diffs], [n] of them from the [i]-th; [None]: the array of time stamps is overrun. *)
Fixpoint pair_diffs (n : nat) (i : Z) (ts : list timespec) : option (list double) :=
  match n, ts with
  | O, _ => Some []
  | S n, a :: ((b :: _) as ts') =>
      let diff := net_drv_ptp_clock_time_diff a b in
      rest ← pair_diffs n (i + 1) ts';
      Some ((if i mod 2 =? 0 then d_opp diff else diff) :: rest)
  | _, _ => None
  end.
(** [avg_diff]: the sum in the order of the array, divided. *)
Definition average (diffs : list double) (n : Z) : double := d_div (fold_left d_add diffs (d_of_Z 0)) (d_of_Z n).

Definition check_offsets (fd n : Z) (diffs : option (list double)) : M unit :=
  match diffs with
  | None => undef "samples.ts is overrun"
  | Some diffs =>
      let avg_diff := average diffs n in
      _ ← net_drv_ptp_offs_check_dev_avg diffs avg_diff;
      net_drv_ptp_offs_check_dev_gettime iut_rpcs fd RPC_CLOCK_REALTIME (clock_id_rpc2str RPC_CLOCK_REALTIME) avg_diff
  end.

Definition sys_offset_steps (n_samples : Z) (fd : Z) : M unit :=
  '(rc, (n, ts), err) ← call (rpc_ioctl_ptp_sys_offset iut_rpcs fd n_samples);
  _ ← when (rc <? 0) (ioctl_failed "PTP_SYS_OFFSET" false err);
  _ ← when (negb (n =? n_samples)) (TEST_VERDICT "Returned number of samples does not match requested one" []);
  let n_diffs := u32 (2 * n_samples) in
  check_offsets fd n_diffs (pair_diffs (Z.to_nat n_diffs) 0 ts).
Definition sys_offset_main (n_samples : Z) : M status := fd_main (fd_test (sys_offset_steps n_samples)).

(** The difference of a sample. *)
Definition sample_diff (s : timespec * timespec * timespec) : double :=
  let '(phc, sys1, sys2) := s in
  d_div (d_add (net_drv_ptp_clock_time_diff phc sys1) (net_drv_ptp_clock_time_diff phc sys2)) (d_of_Z 2).
Definition sys_offset_extended_steps (n_samples : Z) (fd : Z) : M unit :=
  '(rc, (n, ts), err) ← call (rpc_ioctl_ptp_sys_offset_extended iut_rpcs fd n_samples);
  _ ← when (rc <? 0) (ioctl_failed "PTP_SYS_OFFSET_EXTENDED" true err);
  _ ← when (negb (n =? n_samples)) (TEST_VERDICT "Returned number of samples does not match requested one" []);
  check_offsets fd n_samples
    (if n_samples <=? Z.of_nat (length ts) then Some (map sample_diff (take (Z.to_nat n_samples) ts)) else None).
Definition sys_offset_extended_main (n_samples : Z) : M status := fd_main (fd_test (sys_offset_extended_steps n_samples)).

Definition sys_offset_precise_steps (fd : Z) : M unit :=
  '(rc, (device, sys_realtime, sys_monoraw), err) ← call (rpc_ioctl_ptp_sys_offset_precise iut_rpcs fd);
  _ ← when (rc <? 0) (ioctl_failed "PTP_SYS_OFFSET_PRECISE" true err);
  _ ← net_drv_ptp_offs_check_dev_gettime iut_rpcs fd RPC_CLOCK_REALTIME (clock_id_rpc2str RPC_CLOCK_REALTIME)
        (net_drv_ptp_clock_time_diff device sys_realtime);
  net_drv_ptp_offs_check_dev_gettime iut_rpcs fd RPC_CLOCK_MONOTONIC_RAW (clock_id_rpc2str RPC_CLOCK_MONOTONIC_RAW)
    (net_drv_ptp_clock_time_diff device sys_monoraw).
Definition sys_offset_precise_main : M status := fd_main (fd_test sys_offset_precise_steps).
End offsets.
End requests.
End ptp_tests.

(** ** What is opened is closed *)
Section releases.
Context {TE : Te} (iut_rpcs : rcf_rpc_server) (iut_if : string).

(** Opened and closed again. *)
Lemma close_opened x (g : held) l : h_socks g ⊆+ l -> h_socks (h_close x (h_open x g)) ⊆+ l.
Proof. intros H. cbn. apply drop_one_submseteq. rewrite Permutation_app_comm. by apply submseteq_skip. Qed.

(** The socket of the request is closed and the descriptor of the device is left. *)
Lemma open_ptp_held r ifn vpref l g : h_socks g ⊆+ l ->
  wp h_world (net_drv_open_ptp_fd r ifn vpref) g (fun res g' => match res with
    | Val fd => h_socks g' ⊆+ sock_at r fd ++ l /\ h_csaps g' = h_csaps g
    | Exc _ => h_socks g' ⊆+ l /\ h_csaps g' = h_csaps g
    | _ => False
    end).
Proof.
  intros Hl. unfold net_drv_open_ptp_fd, net_drv_get_ethtool_ts_info, net_drv_open_ptp_device, sock_at.
  assert (Hsk : forall (b : bool) x, h_socks g ⊆+ (if b then [x] else []) ++ l) by (intros [|] x; [by apply submseteq_cons|done]).
  wp_go; cbn [h_upd fst snd] in *; repeat match goal with H : (_ <? 0) = _ |- _ => rewrite ?H; revert H end; intros;
    try (split; [|done]); auto using close_opened.
  all: cbn [h_socks h_open]; autorewrite with zbool in *.
  all: try match goal with |- context [0 <=? ?z] => rewrite (proj2 (Z.leb_le 0 z)) by lia; cbn [app]; rewrite Permutation_app_comm; apply submseteq_skip end.
  all: try congruence; auto using close_opened.
Qed.

Definition fd_socks (fd : Z) : list (rcf_rpc_server * Z) := sock_at iut_rpcs fd.
Local Abbreviation fd_holds := (holding fd_socks (fun _ : Z => [])).

Lemma fd_cleanup_wp fd g : fd_holds fd g ->
  wp h_world (fd_cleanup iut_rpcs fd) g (fun r g' => match r with Val _ => gave_back g' | _ => False end).
Proof.
  intros [Hs Hc]. eapply (close_held iut_rpcs fd []); [by rewrite app_nil_r|].
  intros b g' Hs' Hc'. split; [by apply submseteq_nil_r|]. rewrite Hc'. by apply submseteq_nil_r.
Qed.

(** A test that opens the device and does not give it away. *)
Lemma fd_main_releases (p : Z -> M unit) init : (forall fd, only handle_free any_jump (p fd)) ->
  wp h_world (fd_main iut_rpcs (fd_test iut_rpcs iut_if p)) (clean init)
    (fun r g => match r with Val _ => gave_back g | NoFuel => True | _ => False end).
Proof.
  intros Hp. unfold fd_main.
  eapply (test_main_keeps _ (fun L g => L = -1 /\ h_socks g = [] /\ h_csaps g = []) fd_holds);
    [done| |intros L g; apply fd_cleanup_wp].
  intros L g (-> & Hs & Hc). unfold fd_test. apply st_bind. unfold open_fd. apply st_call.
  eapply wp_mono; [apply (open_ptp_held _ _ _ []); by rewrite Hs|]. intros [fd|j|w|] g' H; try done; destruct H as [H1 H2].
  - cbn. rewrite app_nil_r in H1. apply (st_free_last fd_socks); [apply Hp|]. split; [exact H1|by rewrite H2, Hc].
  - split; [etrans; [exact H1|apply submseteq_nil_l]|by rewrite H2, Hc].
Qed.

(** However these tests end, the descriptor of the device is closed. *)
Lemma get_time_releases lo hi init :
  wp h_world (get_time_main iut_rpcs iut_if lo hi) (clean init)
    (fun r g => match r with Val _ => gave_back g | NoFuel => True | _ => False end).
Proof. apply fd_main_releases. intros fd. unfold get_time_steps. solve_only. Qed.

Lemma clock_caps_releases e init :
  wp h_world (clock_caps_main iut_rpcs iut_if e) (clean init)
    (fun r g => match r with Val _ => gave_back g | NoFuel => True | _ => False end).
Proof. apply fd_main_releases. intros fd. unfold clock_caps_steps, ioctl_failed. solve_only. Qed.

Lemma sys_offset_precise_releases e rt mono name init :
  wp h_world (sys_offset_precise_main iut_rpcs iut_if e rt mono name) (clean init)
    (fun r g => match r with Val _ => gave_back g | NoFuel => True | _ => False end).
Proof.
  apply fd_main_releases. intros fd.
  unfold sys_offset_precise_steps, ioctl_failed, net_drv_ptp_offs_check_dev_gettime, clock_gettime. solve_only.
Qed.
End releases.

(** ** A clock that is read, set and shifted by whole seconds *)
Module ClockSpec.

(** What the clock should show, once it was read or set; whether it was waited
    for since; whether it showed something else, or a request failed. *)
Record clock := Clock { ck_due : option Z; ck_waited : bool; ck_wrong : bool }.

Definition shift (n : Z) (g : clock) : option Z := n' ← ck_due g; Some (n' + n).
Definition fails (g : clock) : clock := Clock (ck_due g) (ck_waited g) true.

(** The reading after a wait ends a check: the next one is the first again. *)
Definition reads (t : Z) (g : clock) : clock :=
  Clock (match ck_due g with None => Some t | Some d => if ck_waited g then None else Some d end) false
    (ck_wrong g || match ck_due g with None => false | Some d => negb (t =? d) end).

Definition upd X (c : te_call X) : X -> clock -> clock :=
  match c in te_call X return X -> clock -> clock with
  | rpc_open _ _ _ => fun x g => if fst x <? 0 then fails g else g
  | rpc_clock_gettime _ _ _ => fun x g => if fst (fst x) <? 0 then fails g else reads (tv_sec (snd (fst x))) g
  | rpc_clock_settime _ _ _ ts => fun x g =>
      if fst x <? 0 then fails g else Clock (Some (tv_sec ts)) false (ck_wrong g)
  | rpc_clock_adjtime _ _ _ p => fun x g =>
      if fst (fst x) <? 0 then fails g else Clock (shift (tv_seconds (tx_time p)) g) (ck_waited g) (ck_wrong g)
  | te_motivated_sleep n => fun _ g => Clock (shift n g) true (ck_wrong g)
  | _ => fun _ g => g
  end.

(** The clock shows whole seconds, a random number is in its range, and errno
    is set when a file cannot be opened. *)
Definition ok X (c : te_call X) : clock -> X -> Prop :=
  match c in te_call X return clock -> X -> Prop with
  | rpc_clock_gettime _ _ _ => fun _ x => 0 <= tv_sec (snd (fst x)) < 2 ^ 40 /\ tv_nsec (snd (fst x)) = 0
  | rand_range lo hi => fun _ x => lo <= x <= hi
  | rpc_open _ _ _ => fun _ x => fst x < 0 -> snd x <> 0
  | _ => fun _ _ => True
  end.

Definition world : env te_call clock := watch_if ok upd.

(** Calls that do not concern the clock. *)
Definition quiet X (c : te_call X) : bool :=
  match c with
  | rpc_open _ _ _ | rpc_clock_gettime _ _ _ | rpc_clock_settime _ _ _ _ | rpc_clock_adjtime _ _ _ _
  | te_motivated_sleep _ => false
  | _ => true
  end.

Lemma clock_quiet X (c : te_call X) g x g' : quiet X c = true -> world X c g x g' -> g' = g.
Proof. by destruct c; intros Hc [_ ->]. Qed.

Definition start : clock := Clock None false false.
Definition wrong (g : clock) : Prop := ck_wrong g = true.
(** All readings so far were what they should be. *)
Definition right (g : clock) : Prop := ck_wrong g = false.
End ClockSpec.

(** Differences of whole seconds. *)
Lemma timespec_diff_whole t u : exact (t - u) -> net_drv_timespec_diff (Timespec t 0) (Timespec u 0) = d_of_Z (t - u).
Proof.
  intros H. unfold net_drv_timespec_diff. cbn [tv_sec tv_nsec]. change (d_div (d_of_Z (0 - 0)) (d_of_Z 1000000000)) with (d_of_Z 0).
  rewrite d_add_exact; [by rewrite Z.add_0_r|done|done|by rewrite Z.add_0_r].
Qed.

Lemma far_whole x y : exact x -> exact y -> exact (x - y) -> far (d_of_Z x) (d_of_Z y) = negb (x =? y).
Proof.
  intros Hx Hy Hxy. unfold far, NET_DRV_DEF_PTP_INACC. rewrite d_sub_exact by done. destruct (tenth_whole (x - y) Hxy) as [-> _].
  f_equal. apply Bool.eq_iff_eq_true. rewrite !Z.eqb_eq. lia.
Qed.

(** The conversion of an offset of whole seconds is exact, of either sign. *)
Lemma time_offset_whole z : exact z -> time_offset_to_timeval (d_of_Z z) = Some (TV z 0).
Proof.
  intros Hz. assert (Ha : exact (Z.abs z)) by (unfold exact in *; by rewrite Z.abs_idemp).
  unfold time_offset_to_timeval. rewrite d_abs_Z, d_floor_Z, d_sub_exact, Z.sub_diag, d_ltb_0 by (done || by rewrite Z.sub_diag).
  change (d_gtb (d_of_Z 0) (d_of_Z 0)) with false. destruct (Z.ltb_spec z 0); cbn iota zeta.
  - rewrite d_opp_Z, Z.abs_neq, Z.opp_involutive, d_trunc64_Z by (done || lia). done.
  - rewrite Z.abs_eq, d_trunc64_Z by (done || lia). done.
Qed.

(** And some that are not whole: the seconds are rounded down, so that the
    microseconds are never negative. *)
Example time_offset_quarter : time_offset_to_timeval (d_lit 5 4) = Some (TV 1 250000).
Proof. vm_compute. reflexivity. Qed.
Example time_offset_minus_quarter : time_offset_to_timeval (d_opp (d_lit 5 4)) = Some (TV (-2) 750000).
Proof. vm_compute. reflexivity. Qed.
(** A tiny negative offset makes a million of microseconds, which is no time value. *)
Example time_offset_tiny : time_offset_to_timeval (d_opp (d_lit 1 100000000000000000000)) = Some (TV (-1) 1000000).
Proof. vm_compute. reflexivity. Qed.

Section clock_correct.
Context {TE : Te} (iut_rpcs : rcf_rpc_server) (iut_if : string) (min_sleep max_sleep : Z).
Context (Hmin : 0 <= min_sleep) (Hmax : max_sleep < 2 ^ 31).
Import ClockSpec.
Local Abbreviation E := world.

(** Passed: all was right; a verdict: something was wrong. *)
Definition judged {A} (r : result A) (g : clock) : Prop :=
  match r with Val _ => right g | Exc (VERDICT _) => wrong g | Exc _ => True | _ => False end.

Lemma open_ptp_judged :
  wp E (net_drv_open_ptp_fd iut_rpcs iut_if (Some ""%string)) start (fun r g => match r with
    | Val _ => ck_due g = None /\ right g
    | Exc (VERDICT _) => wrong g
    | Exc _ => True
    | _ => False
    end).
Proof.
  unfold net_drv_open_ptp_fd, net_drv_get_ethtool_ts_info, net_drv_open_ptp_device.
  wp_go; cbn [ok upd fst snd] in *; try done; autorewrite with zbool in *; subst.
  all: try match goal with |- context [?z <? 0] => destruct (Z.ltb_spec z 0); try done; try lia end.
  all: by exfalso; match goal with H : ?z < 0 -> _ |- _ => apply H end.
Qed.

Lemma fd_main_judges (p : Z -> M unit) :
  (forall fd g, ck_due g = None -> right g -> wp E (p fd) g judged) ->
  wp E (fd_main iut_rpcs (fd_test iut_rpcs iut_if p)) start (fun r g => match r with
    | Val (Left (VERDICT _)) => wrong g
    | Val (Left _) => True
    | Val _ => right g
    | _ => False
    end).
Proof.
  intros Hp. unfold fd_main. apply (judged_main E quiet clock_quiet wrong).
  - unfold fd_test, open_fd. do 2 apply twp_bind. apply twp_lift.
    eapply wp_mono; [apply open_ptp_judged|]. intros [fd|[]|w|] g H; cbn; try done. destruct H as [H1 H2].
    apply twp_lift. eapply wp_mono; [by apply Hp|]. by intros [[]|[]|w|] g' H.
  - intros fd. unfold fd_cleanup, cleanup_close. solve_only.
  - intros fd. unfold fd_cleanup, cleanup_close. solve_returns.
Qed.

(** What a reading of the clock shows. *)
Lemma clock_gettime_wp fd g :
  wp E (clock_gettime iut_rpcs true fd) g (fun r g' => match r with
    | Val ts => exists t, ts = Timespec t 0 /\ 0 <= t < 2 ^ 40 /\ g' = reads t g
    | Exc j => no_verdict j = true
    | _ => False
    end).
Proof.
  unfold clock_gettime. wp_go; [done|]. destruct t0 as [t0 n]. cbn [ok upd fst snd tv_sec tv_nsec] in *.
  destruct H as [Ht ->]. rewrite Heqb. by exists t0.
Qed.

(** The readings as whole seconds, and the conditions on them. *)
Ltac whole :=
  repeat match goal with t : timespec |- _ => destruct t end;
  cbn [ok upd fst snd tv_sec tv_nsec tx_time tv_seconds] in *;
  repeat match goal with H : _ /\ ?n = 0 |- _ => destruct H as [? ->] end;
  repeat match goal with
    | H : (_ <? 0) = _ |- _ => rewrite H in *; clear H
    | H : context [net_drv_timespec_diff (Timespec ?t 0) (Timespec ?u 0)] |- _ =>
        rewrite (timespec_diff_whole t u) in H by (unfold exact; lia)
    | H : context [d_add (d_of_Z ?x) (d_of_Z ?y)] |- _ => rewrite (d_add_exact x y) in H by (unfold exact; lia)
    | H : far (d_of_Z ?x) (d_of_Z ?y) = _ |- _ => rewrite (far_whole x y) in H by (unfold exact; lia)
    | H : d_gtb (d_abs (d_of_Z ?x)) NET_DRV_DEF_PTP_INACC = _ |- _ =>
        unfold NET_DRV_DEF_PTP_INACC in H at 1; rewrite (proj1 (tenth_whole x ltac:(unfold exact; lia))) in H
    end;
  cbn [reads fails shift judged right wrong ck_due ck_waited ck_wrong mbind option_bind orb] in *.

Lemma get_time_judges_steps fd g : ck_due g = None -> right g -> wp E (get_time_steps iut_rpcs min_sleep max_sleep fd) g judged.
Proof.
  destruct g as [d w wr]. unfold right. cbn [ck_due ck_wrong]. intros -> ->. unfold get_time_steps. wp_go; whole; try done.
  all: unfold right, wrong, reads; cbn [ck_due ck_waited ck_wrong orb]; lia.
Qed.

(** The test of reading the clock passes only when the clock advanced by the
    time waited, and leaves with a verdict only when it did not or a request
    failed. *)
Lemma get_time_judges :
  wp E (get_time_main iut_rpcs iut_if min_sleep max_sleep) start (fun r g => match r with
    | Val (Left (VERDICT _)) => wrong g
    | Val (Left _) => True
    | Val _ => right g
    | _ => False
    end).
Proof. apply fd_main_judges, get_time_judges_steps. Qed.

Lemma time_to_set_whole n g : 0 <= n < 2 ^ 40 ->
  wp E (time_to_set (d_of_Z n)) g (fun r g' => r = Val (Timespec n 0) /\ g' = g).
Proof.
  intros Hn. assert (He : exact n) by (unfold exact; lia). unfold time_to_set.
  rewrite d_ltb_0, (proj2 (Z.ltb_ge n 0)), d_trunc64_Z, d_sub_exact, Z.sub_diag by (done || lia || by rewrite Z.sub_diag).
  change (d_trunc64 (d_mul (d_of_Z 0) (d_of_Z 1000000000))) with (Some 0). by wp_go.
Qed.

(** The test of setting the clock passes only when the clock showed what it was
    set to at once, and that and the time waited afterwards. *)
Lemma set_time_judges n : 0 <= n < 2 ^ 40 ->
  wp E (set_time_main iut_rpcs iut_if min_sleep max_sleep (d_of_Z n)) start (fun r g => match r with
    | Val (Left (VERDICT _)) => wrong g
    | Val (Left _) => True
    | Val _ => right g
    | _ => False
    end).
Proof.
  intros Hn. apply fd_main_judges. intros fd [d w wr]. unfold right. cbn [ck_due ck_wrong]. intros -> ->.
  unfold set_time_steps. wp_step. eapply wp_mono; [by apply time_to_set_whole|]. intros r g [-> ->]. cbn [bpost].
  unfold clock_gettime. wp_go; whole; try done.
  all: unfold right, wrong, reads; cbn [ck_due ck_waited ck_wrong orb].
  all: lia.
Qed.

(** One stage: the time is shifted by [off], and goes on from there. *)
Lemma adj_check_judges mode off stage fd g : Z.abs off < 2 ^ 40 -> ck_due g = None -> right g ->
  wp E (adj_check_time iut_rpcs min_sleep max_sleep mode fd (d_of_Z off) stage) g (fun r g' => match r with
    | Val _ => ck_due g' = None /\ right g'
    | Exc (VERDICT _) => wrong g'
    | Exc _ => True
    | _ => False
    end).
Proof.
  intros Hoff. destruct g as [d w wr]. unfold right. cbn [ck_due ck_wrong]. intros -> ->. unfold adj_check_time.
  rewrite (time_offset_whole off) by (unfold exact; lia). unfold clock_gettime. wp_go; whole; try done.
  all: unfold right, wrong, reads; cbn [ck_due ck_waited ck_wrong orb]; try split; try done; lia.
Qed.

(** The test of shifting the clock passes only when each of the two offsets was
    seen at once and after the time waited, and leaves with a verdict only when
    one was not. *)
Lemma adj_setoffset_judges mode off : Z.abs off < 2 ^ 40 -> off <> 0 ->
  wp E (adj_setoffset_main iut_rpcs iut_if min_sleep max_sleep mode (d_of_Z off)) start (fun r g => match r with
    | Val (Left (VERDICT _)) => wrong g
    | Val (Left _) => True
    | Val _ => right g
    | _ => False
    end).
Proof.
  intros Hoff Hne. apply fd_main_judges. intros fd g Hd Hr. rewrite d_opp_Z by (done || unfold exact; lia).
  wp_step. eapply wp_mono; [by apply adj_check_judges|]. intros [[]|[]|w|] g' H; try done. destruct H as [H1 H2].
  eapply wp_mono; [apply adj_check_judges; [by rewrite Z.abs_opp|done|done]|]. intros [[]|[]|w|] g2 H; try done. by destruct H.
Qed.
End clock_correct.

(** ** The frequency that is left *)
Module FreqSpec.

(** The frequency offset of the clock, in the unit of the request (2^-16 parts
    per million), and whether a request failed. *)
Record freq := Freq { fr_now : Z; fr_failed : bool }.

Definition upd (mode : Z) X (c : te_call X) : X -> freq -> freq :=
  match c in te_call X return X -> freq -> freq with
  | rpc_clock_adjtime _ _ _ p => fun x g =>
      if fst (fst x) <? 0 then Freq (fr_now g) true
      else if tx_modes p =? mode then Freq (tx_freq p) (fr_failed g) else g
  | _ => fun _ g => g
  end.
(** Documented behaviour: without a mode the request reads the offset. *)
Definition ok X (c : te_call X) : freq -> X -> Prop :=
  match c in te_call X return freq -> X -> Prop with
  | rpc_clock_adjtime _ _ _ p => fun g x => tx_modes p = 0 -> 0 <= fst (fst x) -> tx_freq (snd (fst x)) = fr_now g
  | _ => fun _ _ => True
  end.
Definition world (mode : Z) : env te_call freq := watch_if ok (upd mode).
Definition quiet X (c : te_call X) : bool := match c with rpc_clock_adjtime _ _ _ _ => false | _ => true end.
Lemma freq_quiet mode X (c : te_call X) g x g' : quiet X c = true -> world mode X c g x g' -> g' = g.
Proof. by destruct c; intros Hc [_ ->]. Qed.
End FreqSpec.

Section frequency.
Context {TE : Te} (iut_rpcs : rcf_rpc_server) (iut_if : string) (min_sleep max_sleep : Z).
Context (RPC_ADJ_FREQUENCY : Z) (mode_ne : RPC_ADJ_FREQUENCY <> 0).
Import FreqSpec.
Local Abbreviation E := (world RPC_ADJ_FREQUENCY).

Lemma freq_quiet_wp {A} (p : M A) g : only quiet (fun _ => true) p ->
  wp E p g (fun r g' => g' = g /\ match r with Undef _ => False | _ => True end).
Proof.
  intros H. eapply wp_mono; [apply (wp_only quiet (fun _ => true) E (fun s => s = g)); [exact H| |done]|].
  - intros X c s x s' Hc -> Hx. by eapply freq_quiet.
  - intros [a|j|w|] s' [-> Hr]; auto.
Qed.

(** A stage leaves the clock with its frequency, [freq * 65536], or as it was
    when it is left by a jump before. *)
Lemma adj_check_freq_sets fd f n stage g : d_trunc64 (d_mul f (d_of_Z 65536)) = Some n ->
  wp E (adj_check_freq iut_rpcs min_sleep max_sleep RPC_ADJ_FREQUENCY fd f stage) g (fun r g' => match r with
    | Val _ => g' = Freq n (fr_failed g)
    | Undef _ => False
    | _ => True
    end).
Proof.
  intros Hn. unfold adj_check_freq. rewrite Hn. unfold clock_gettime.
  wp_go; try done; cbn [upd fst snd tx_modes tx_freq]; by rewrite Heqb0, Z.eqb_refl.
Qed.

(** C39. The test leaves the frequency as it was only when it does not pass.  When it
    passes, the frequency the clock had is multiplied by 65536 once more: the
    value read is in the unit of the request, and the second stage takes it for
    parts per million. *)
Lemma adj_frequency_leaves f n init :
  d_trunc64 (d_mul f (d_of_Z 65536)) = Some n -> exact (init * 65536) ->
  wp E (adj_frequency_main iut_rpcs iut_if min_sleep max_sleep RPC_ADJ_FREQUENCY f) (Freq init false) (fun r g => match r with
    | Val (Left _) => fr_now g = init \/ fr_failed g = true
    | Val _ => fr_now g = 65536 * init
    | Exc _ => fr_failed g = true (* restoring it failed *)
    | NoFuel => True
    | Undef _ => False
    end).
Proof.
  intros Hn Hx. unfold adj_frequency_main, test_main. wp_step.
  apply (wp_mono _ _ _ (upto (fun L g => if fq_undo L then tx_freq (fq_params L) = init else fr_now g = init \/ fr_failed g = true)
           (fun _ L g => fq_undo L = false /\ g = Freq (65536 * init) false))).
  - unfold adj_frequency_body.
    apply st_call. eapply wp_mono; [apply freq_quiet_wp; unfold net_drv_open_ptp_fd, net_drv_get_ethtool_ts_info, net_drv_open_ptp_device; solve_only|].
    intros [fd|j|w|] g [-> H]; try done; [|by left]. apply st_modify. apply st_call. wp_step. wp_answer.
    destruct x as [[rc p] err]. cbn [ok upd tx_modes fst snd fr_now fr_failed] in *.
    rewrite (proj2 (Z.eqb_neq 0 RPC_ADJ_FREQUENCY)) by done.
    destruct (Z.ltb_spec rc 0) as [Hrc|Hrc]; [apply st_call; wp_go; by right|].
    assert (Hp : tx_freq p = init) by (by apply H0). clear H0. rewrite Hp.
    apply st_call, wp_ret, st_modify, st_call.
    eapply wp_mono; [apply freq_quiet_wp; solve_only|]. intros [[]|j|w|] g [-> H1]; try done; [|by left].
    apply st_modify. assert (Hi : exact init) by (unfold exact in *; lia).
    apply st_call. eapply wp_mono; [by apply adj_check_freq_sets|]. intros [[]|j|w|] g Hg; try done. subst g.
    apply st_call. eapply wp_mono; [apply (adj_check_freq_sets _ _ (init * 65536))|].
    { rewrite d_mul_exact by done. by apply d_trunc64_Z. }
    intros [[]|j|w|] g Hg; try done. subst g. cbn. split; [done|]. by rewrite Z.mul_comm.
  - unfold adj_frequency_cleanup, cleanup_close.
    intros [[L [[]|j]]|j|w|] g H; cbn [upto bpost] in *; try done.
    + destruct H as [-> ->]. wp_go; cbn [upd fr_now]; try match goal with |- context [0 <=? ?z] => destruct (0 <=? z) end; done.
    + destruct (fq_undo L); wp_go; cbn [upd fst snd tx_modes tx_freq fr_now fr_failed];
        repeat match goal with H : (_ <? 0) = _ |- _ => rewrite ?H; revert H end; rewrite ?Z.eqb_refl; auto.
Qed.
End frequency.

(** ** Offsets of the system clock *)
Section offset_arrays.

(** The differences of [2n] pairs are read within [2n + 1] time stamps. *)
Lemma pair_diffs_in_bounds n i ts : (n < length ts)%nat -> exists l, pair_diffs n i ts = Some l /\ length l = n.
Proof.
  revert i ts. induction n as [|n IH]; intros i ts Hn; [by exists []|].
  destruct ts as [|a [|b ts]]; cbn [length] in *; [lia|lia|].
  destruct (IH (i + 1) (b :: ts)) as (l & Hl & E); [cbn; lia|]. cbn [pair_diffs]. rewrite Hl. eexists. split; [done|]. cbn. by rewrite E.
Qed.

(** Every difference is that of the device to the system, whichever comes first. *)
Lemma pair_diffs_signs n i ts l k a b : pair_diffs n i ts = Some l -> (k < n)%nat ->
  ts !! k = Some a -> ts !! S k = Some b ->
  l !! k = Some (if (i + Z.of_nat k) mod 2 =? 0 then d_opp (net_drv_ptp_clock_time_diff a b) else net_drv_ptp_clock_time_diff a b).
Proof.
  revert i ts l k. induction n as [|n IH]; intros i ts l k Hl Hk Ha Hb; [lia|].
  destruct ts as [|x [|y ts]]; [done|done|]. cbn [pair_diffs] in Hl.
  destruct (pair_diffs n (i + 1) (y :: ts)) as [l'|] eqn:E; [|done]. cbn in Hl. injection Hl as <-.
  destruct k as [|k]; cbn in Ha, Hb.
  - injection Ha as ->. injection Hb as ->. by rewrite Z.add_0_r.
  - cbn [lookup list_lookup]. change (l' !! k = Some (if (i + Z.of_nat (S k)) mod 2 =? 0 then d_opp (net_drv_ptp_clock_time_diff a b) else net_drv_ptp_clock_time_diff a b)).
    replace (i + Z.of_nat (S k)) with (i + 1 + Z.of_nat k) by lia. apply (IH _ (y :: ts)); [done|lia|done|done].
Qed.

Context {TE : Te} (iut_rpcs : rcf_rpc_server) (iut_if : string).
Context (TE_ENOIOCTLCMD RPC_CLOCK_REALTIME : Z) (clock_id_rpc2str : Z -> string).

(** Documented behaviour: for every sample there are two time stamps of the
    system, the last one shared. *)
Definition off_ok X (c : te_call X) : unit -> X -> Prop :=
  match c in te_call X return unit -> X -> Prop with
  | rpc_ioctl_ptp_sys_offset _ _ n => fun _ x =>
      0 <= fst (fst x) -> Z.of_nat (length (snd (snd (fst x)))) = 2 * fst (snd (fst x)) + 1
  | _ => fun _ _ => True
  end.
Definition off_world : env te_call unit := watch_if off_ok (fun _ _ _ s => s).

(** Then no time stamp beyond the last is read. *)
Lemma sys_offset_in_bounds n_samples fd g : 0 <= n_samples < 2 ^ 31 ->
  wp off_world (sys_offset_steps iut_rpcs TE_ENOIOCTLCMD RPC_CLOCK_REALTIME clock_id_rpc2str n_samples fd) g
    (fun r _ => match r with Val _ | Exc _ => True | _ => False end).
Proof.
  intros Hn. unfold sys_offset_steps, ioctl_failed.
  wp_go; try done. cbn [off_ok fst snd] in *. autorewrite with zbool in *.
  subst. specialize (H Heqb). unfold u32. rewrite Z.mod_small by lia.
  destruct (pair_diffs_in_bounds (Z.to_nat (2 * n_samples)) 0 l) as (d & -> & _); [lia|].
  unfold check_offsets, net_drv_ptp_offs_check_dev_avg, net_drv_ptp_offs_check_dev_gettime, clock_gettime. wp_go; done.
Qed.
End offset_arrays.

Module PtpWitness.
Local Existing Instance te_ref.
Definition iut : rcf_rpc_server := RPCS "pco_iut" "Agt_A".

(** A clock that keeps the time waited; its time and its frequency. *)
Definition ticking : handler te_call (Z * Z) := fun X c s =>
  match c in te_call X return X * (Z * Z) with
  | rpc_clock_gettime _ _ _ => (0, Timespec (fst s) 0, 0, s)
  | rpc_clock_adjtime _ _ _ p =>
      (0, Timex (tx_modes p) (if tx_modes p =? 0 then snd s else tx_freq p) (tx_time p), 0,
       (fst s, if tx_modes p =? 0 then snd s else tx_freq p))
  | rand_range lo _ => (lo, s)
  | te_motivated_msleep ms => (tt, (fst s + ms / 1000, snd s))
  | c => (default_answer c, s)
  end.

(** A test of 10 parts per million that passes, and the frequency before and after it. *)
Example adj_frequency_passes_and_breaks :
  run ticking (adj_frequency_main iut "eth0" 1 3 2 (d_of_Z 10)) (0, 5) = (Val Passed, (2, 327680)).
Proof. vm_compute. reflexivity. Qed.

Lemma adj_frequency_leaves_witness :
  wp (FreqSpec.world 2) (adj_frequency_main iut "eth0" 1 3 2 (d_of_Z 10)) (FreqSpec.Freq 5 false) (fun r g => match r with
    | Val (Left _) => FreqSpec.fr_now g = 5 \/ FreqSpec.fr_failed g = true
    | Val _ => FreqSpec.fr_now g = 327680
    | Exc _ => FreqSpec.fr_failed g = true
    | NoFuel => True
    | Undef _ => False
    end).
Proof.
  pose proof (fun H1 H2 H3 => adj_frequency_leaves iut "eth0" 1 3 2 H1 (d_of_Z 10) 655360 5 H2 H3) as H.
  apply H; [lia|vm_compute; reflexivity|unfold exact; lia].
Defined.
End PtpWitness.
