(* ===== verification/PtpTools.v ===== *)
(** The tests that run the programs of the PTP: ptp/ptp4l.c and ptp/sfptpd.c. *)
From Stdlib Require Import Ascii.
From S2P Require Import Prelude Prog Te Locals CString Double NetDrvTs LibPtp Resources RxCommon Holding Judging BasicTests PtpTests.

(** [atoi]: [strtol], whose value is limited to that of [long], converted to [int]. *)
Definition atoi (s : string) : Z :=
  let s1 := skip_spaces s in
  let '(neg, s2) := match s1 with
                    | String "-"%char s' => (true, s')
                    | String "+"%char s' => (false, s')
                    | _ => (false, s1)
                    end in
  let v := fst (scan_digits 0 s2) in
  let v := if neg : bool then - v else v in
  s32 (Z.max (- 2 ^ 63) (Z.min v (2 ^ 63 - 1))).

Section ptp_tools.
Context {TE : Te} (iut_rpcs tst_rpcs : rcf_rpc_server) (iut_if tst_if : string).

(** net_drv_ptp_ntpd_disable() of lib/net_drv_ptp.h. *)
Definition net_drv_ptp_ntpd_disable (rpcs : rcf_rpc_server) : M unit :=
  b ← call (tapi_ntpd_is_available rpcs);
  when b (_ ← call (tapi_ntpd_disable rpcs); mret tt).

(** ** ptp/ptp4l.c *)
Definition RUN_TIME : Z := 100.
Definition JOB_WAIT_TIMEOUT : Z := 100.
Definition MIN_SEC : Z := 0.
Definition MAX_SEC : Z := 1000000000.
Definition MIN_DIFF : Z := 2.
Definition MAX_DIFF_AFTER_RUN : double := d_lit 2 10.

Definition find_ptp4l (rpcs : rcf_rpc_server) (where_ : string) : M unit :=
  st ← call (rpc_system rpcs "which ptp4l");
  when (negb (ws_exited st) || negb (ws_value st =? 0)) (TEST_SKIP "Cannot find ptp4l on %s" [AS where_]).

Definition tx_timeout_str : string := "timed out while polling for tx timestamp".
Definition sync_without_ts_str : string := "received SYNC without timestamp".

(** What the messages up to the end of the stream are: [tx_timeout],
    [sync_without_ts] and [unknown]. *)
Fixpoint classify (bufs : list (bool * string)) (tx_timeout sync_without_ts unknown : bool) : bool * bool * bool :=
  match bufs with
  | [] => (tx_timeout, sync_without_ts, unknown)
  | (eos, data) :: bufs' =>
      if eos : bool then (tx_timeout, sync_without_ts, unknown)
      else if strstr_found data tx_timeout_str then classify bufs' true sync_without_ts unknown
      else if strstr_found data sync_without_ts_str then classify bufs' tx_timeout true unknown
      else classify bufs' tx_timeout sync_without_ts true
  end.

Definition check_errs (err_chan : handle) : M unit :=
  '(rc, bufs) ← call (tapi_job_receive_many err_chan);
  _ ← when (negb (rc =? 0)) (WARN_VERDICT "tapi_job_receive_many() returned %r when retrieving error messages" [AI rc]);
  let '(tx_timeout, sync_without_ts, unknown) := classify bufs false false false in
  _ ← when tx_timeout (WARN_VERDICT "Error on IUT: %s" [AS tx_timeout_str]);
  _ ← when sync_without_ts (WARN_VERDICT "Error on IUT: %s" [AS sync_without_ts_str]);
  when unknown (WARN_VERDICT "Unexpected error was logged on IUT" []).

Definition wait_ptp4l (job : handle) (where_ : string) : M unit :=
  st ← CHECK_OUT (call (tapi_job_wait job JOB_WAIT_TIMEOUT));
  if negb (js_exited st) then WARN_VERDICT "ptp4l terminated in unexpected way on %s" [AS where_]
  else when (negb (js_value st =? 0)) (WARN_VERDICT "ptp4l terminated with nonzero exit code on %s" [AS where_]).

(** The two clocks to set, drawn until they differ enough. *)
Definition draw_clocks : M (ctl (timespec * timespec) unit) :=
  s1 ← call (rand_range MIN_SEC MAX_SEC);
  n1 ← call (rand_range 0 999999999);
  s2 ← call (rand_range MIN_SEC MAX_SEC);
  n2 ← call (rand_range 0 999999999);
  let ts_iut := Timespec s1 n1 in
  let ts_tst := Timespec s2 n2 in
  mret (if SFleb (d_of_Z MIN_DIFF) (d_abs (net_drv_timespec_diff ts_iut ts_tst)) then Break (ts_iut, ts_tst)
        else Continue (ts_iut, ts_tst)).

Record p4_locals := P4Locals {
  p4_fd_iut : Z; p4_fd_tst : Z; p4_iut_factory : handle; p4_tst_factory : handle; p4_master : handle; p4_slave : handle }.
Definition p4_start : p4_locals := P4Locals (-1) (-1) 0 0 0 0.
Definition p4_set_fd_iut (x : Z) (l : p4_locals) : p4_locals :=
  P4Locals x (p4_fd_tst l) (p4_iut_factory l) (p4_tst_factory l) (p4_master l) (p4_slave l).
Definition p4_set_fd_tst (x : Z) (l : p4_locals) : p4_locals :=
  P4Locals (p4_fd_iut l) x (p4_iut_factory l) (p4_tst_factory l) (p4_master l) (p4_slave l).
Definition p4_set_iut_factory (x : handle) (l : p4_locals) : p4_locals :=
  P4Locals (p4_fd_iut l) (p4_fd_tst l) x (p4_tst_factory l) (p4_master l) (p4_slave l).
Definition p4_set_tst_factory (x : handle) (l : p4_locals) : p4_locals :=
  P4Locals (p4_fd_iut l) (p4_fd_tst l) (p4_iut_factory l) x (p4_master l) (p4_slave l).
Definition p4_set_master (x : handle) (l : p4_locals) : p4_locals :=
  P4Locals (p4_fd_iut l) (p4_fd_tst l) (p4_iut_factory l) (p4_tst_factory l) x (p4_slave l).
Definition p4_set_slave (x : handle) (l : p4_locals) : p4_locals :=
  P4Locals (p4_fd_iut l) (p4_fd_tst l) (p4_iut_factory l) (p4_tst_factory l) (p4_master l) x.

Section ptp4l.
Context (fuel : nat) (RPC_SIGINT : Z).

(** Filters on the channels of both jobs: that of the errors of the slave. *)
Definition attach_filters (master slave : handle) : M handle :=
  master_channels ← CHECK_OUT (call (tapi_job_alloc_output_channels master 2));
  slave_channels ← CHECK_OUT (call (tapi_job_alloc_output_channels slave 2));
  _ ← CHECK_OUT (call (tapi_job_attach_filter (nth 0 master_channels 0) "Master_stdout" false));
  _ ← CHECK_OUT (call (tapi_job_attach_filter (nth 1 master_channels 0) "Master_stderr" false));
  _ ← CHECK_OUT (call (tapi_job_attach_filter (nth 0 slave_channels 0) "Slave_stdout" false));
  CHECK_OUT (call (tapi_job_attach_filter (nth 1 slave_channels 0) "Slave_stderr" true)).

(** From the start of the jobs to the end of both. *)
Definition run_jobs (master slave err_filter : handle) : M unit :=
  _ ← CHECK_RC (call (tapi_job_start master));
  _ ← CHECK_RC (call (tapi_job_start slave));
  _ ← call (te_sleep RUN_TIME);
  _ ← CHECK_RC (call (tapi_job_kill master RPC_SIGINT));
  _ ← CHECK_RC (call (tapi_job_kill slave RPC_SIGINT));
  _ ← wait_ptp4l master "Tester";
  _ ← wait_ptp4l slave "IUT";
  check_errs err_filter.

Definition check_clocks (fd_iut fd_tst : Z) : M unit :=
  ts_iut ← clock_gettime iut_rpcs true fd_iut;
  ts_tst ← clock_gettime tst_rpcs true fd_tst;
  when (d_gtb (d_abs (net_drv_timespec_diff ts_iut ts_tst)) MAX_DIFF_AFTER_RUN)
    (TEST_VERDICT "ptp4l did not synchronize clocks well" []).

(** The tools are there, and no daemon of NTP; then the clocks are set. *)
Definition set_clocks (fd_iut fd_tst : Z) : M unit :=
  _ ← find_ptp4l iut_rpcs "IUT";
  _ ← find_ptp4l tst_rpcs "Tester";
  _ ← net_drv_ptp_ntpd_disable iut_rpcs;
  _ ← net_drv_ptp_ntpd_disable tst_rpcs;
  r ← loop fuel (Timespec 0 0, Timespec 0 0) (fun _ => draw_clocks);
  match r with
  | inr _ => mret tt
  | inl (ts_iut, ts_tst) =>
      _ ← rpc_ok (rpc_clock_settime iut_rpcs true fd_iut ts_iut);
      _ ← rpc_ok (rpc_clock_settime tst_rpcs true fd_tst ts_tst);
      mret tt
  end.

Definition ptp4l_body : T p4_locals unit :=
  fd_iut ← lift (net_drv_open_ptp_fd iut_rpcs iut_if (Some "IUT"%string));
  _ ← modify (p4_set_fd_iut fd_iut);
  fd_tst ← lift (net_drv_open_ptp_fd tst_rpcs tst_if (Some "Tester"%string));
  _ ← modify (p4_set_fd_tst fd_tst);
  _ ← lift (set_clocks fd_iut fd_tst);
  iut_factory ← lift (CHECK_OUT (call (tapi_job_factory_rpc_create iut_rpcs)));
  _ ← modify (p4_set_iut_factory iut_factory);
  tst_factory ← lift (CHECK_OUT (call (tapi_job_factory_rpc_create tst_rpcs)));
  _ ← modify (p4_set_tst_factory tst_factory);
  master ← lift (CHECK_OUT (call (tapi_job_create tst_factory "ptp4l" ["ptp4l"; "-m"; "-i"; tst_if]%string)));
  _ ← modify (p4_set_master master);
  slave ← lift (CHECK_OUT (call (tapi_job_create iut_factory "ptp4l" ["ptp4l"; "-m"; "-s"; "-i"; iut_if]%string)));
  _ ← modify (p4_set_slave slave);
  err_filter ← lift (attach_filters master slave);
  _ ← lift (run_jobs master slave err_filter);
  lift (check_clocks fd_iut fd_tst).

Definition ptp4l_cleanup (l : p4_locals) : M bool :=
  also (cleanup_close iut_rpcs (p4_fd_iut l))
 (also (cleanup_close tst_rpcs (p4_fd_tst l))
 (also (cleanup_rc (call (tapi_job_destroy (p4_master l))))
 (also (cleanup_rc (call (tapi_job_destroy (p4_slave l))))
       (_ ← call (tapi_job_factory_destroy (p4_iut_factory l));
        _ ← call (tapi_job_factory_destroy (p4_tst_factory l));
        mret true)))).
Definition ptp4l_main : M status := test_main p4_start ptp4l_body ptp4l_cleanup.
End ptp4l.

(** ** ptp/sfptpd.c *)
Definition MAX_SYNC_WAIT : Z := 1200.
Definition CHECK_WAIT : Z := 5.

Section sfptpd.
Context (te_strtoul : string -> te_errno * Z).

Definition config_sfptpd (ta if_name cfg : string) : M unit :=
  '(rc, sfptpd_path) ← call (cfg_get_instance_string "/local:/path:sfptpd");
  if negb (rc =? 0) || String.eqb sfptpd_path "" then
    TEST_SKIP "Path to sfptpd cannot be obtained from /local:/path:sfptpd" []
  else
    agt_dir ← CHECK_OUT (call (cfg_get_instance_string ("/agent:" +:+ ta +:+ "/dir:")));
    let rem_path := (agt_dir +:+ "/sfptpd")%string in
    _ ← CHECK_RC (call (rcf_ta_put_file ta sfptpd_path rem_path));
    _ ← CHECK_RC (call (cfg_set_instance_string rem_path ("/agent:" +:+ ta +:+ "/sfptpd:/path:")));
    _ ← CHECK_RC (call (cfg_set_instance_string if_name ("/agent:" +:+ ta +:+ "/sfptpd:/ifname:")));
    let rem_path := (agt_dir +:+ "/sfptpd.cfg")%string in
    _ ← CHECK_RC (call (rcf_ta_put_file ta cfg rem_path));
    CHECK_RC (call (cfg_set_instance_string rem_path ("/agent:" +:+ ta +:+ "/sfptpd:/config:"))).

(** The loop over the characters of the file: what follows a white space. *)
Fixpoint in_sync_of (s : string) : bool :=
  match s with
  | EmptyString => false
  | String c s' =>
      if is_space c && has_prefix "in-sync:" s' then
        negb (atoi (String.substring 8 (String.length s' - 8) s') =? 0)
      else in_sync_of s'
  end.

(** [fd], which the cleanup closes, is the local [set_fd] writes. *)
Definition get_sync_status {St} (rpcs : rcf_rpc_server) (path : string) (get_fd : St -> Z) (set_fd : Z -> St -> St) : T St bool :=
  _ ← lift (call (rpcs_set_silent rpcs true));
  '(fd, err) ← lift (call (rpc_open rpcs path RPC_O_RDONLY));
  _ ← modify (set_fd fd);
  if fd <? 0 then
    if err =? RPC_ENOENT then mret false
    else lift (TEST_VERDICT "Failed to open %s, errno=%r" [AS path; AI err])
  else
    '(rc, str, _) ← lift (call (rpc_read_fd2te_string rpcs fd));
    if rc <? 0 then throw RPC_FAILED else
    _ ← close_forget rpcs get_fd set_fd;
    mret (in_sync_of str).

(** The sum of the statistics that are left in the report. *)
Fixpoint ptp_sum (stats : list (string * string)) (sum : Z) : M Z :=
  match stats with
  | [] => mret sum
  | (key, value) :: stats' =>
      if has_prefix "ptp_" key then
        let '(rc, val) := te_strtoul value in
        if negb (rc =? 0) then raise (RC_FAILED rc) else ptp_sum stats' (u64 (sum + val))
      else ptp_sum stats' sum
  end.
Definition ptp_stats (stats : list (string * string)) : list (string * string) :=
  List.filter (fun kv => has_prefix "ptp_" (fst kv)) stats.

(** The value, and the statistics left in the report. *)
Definition get_ptp_stats_sum (factory : handle) (opts : ethtool_opt) (stage : string) : M (Z * list (string * string)) :=
  '(rc, report) ← call (tapi_ethtool factory opts);
  if negb (rc =? 0) then
    _ ← ERROR_VERDICT "%s: failed to process ethtool command, rc=%r" [AS stage; AI rc];
    mret (-1, [])
  else
    _ ← when (et_err_out report) (ERROR_VERDICT "%s: ethtool printed something to stderr" [AS stage]);
    sum ← ptp_sum (et_stats report) 0;
    mret (s64 sum, ptp_stats (et_stats report)).

(** The first statistic with a name, and the others. *)
Fixpoint take_stat (key : string) (stats : list (string * string)) : option (string * list (string * string)) :=
  match stats with
  | [] => None
  | (k, v) :: stats' =>
      if String.eqb k key then Some (v, stats')
      else '(v', rest) ← take_stat key stats'; Some (v', (k, v) :: rest)
  end.

(** The rows print_stats_diff() logs: the name, the value before, the value after. *)
Fixpoint print_stats_diff (before after : list (string * string)) : list (string * option string * option string) :=
  match before with
  | [] => map (fun kv => (fst kv, None, Some (snd kv))) after
  | (k, v) :: before' =>
      match take_stat k after with
      | Some (v', after') =>
          (if String.eqb v v' then [] else [(k, Some v, Some v')]) ++ print_stats_diff before' after'
      | None => (k, Some v, None) :: print_stats_diff before' after
      end
  end.

Record sf_locals := SfLocals {
  sf_ptp_fd : Z; sf_system_fd : Z; sf_ptp_in_sync : bool; sf_system_in_sync : bool; sf_factory : handle }.
Definition sf_start : sf_locals := SfLocals (-1) (-1) false false 0.
Definition sf_set_ptp_fd (x : Z) (l : sf_locals) : sf_locals :=
  SfLocals x (sf_system_fd l) (sf_ptp_in_sync l) (sf_system_in_sync l) (sf_factory l).
Definition sf_set_system_fd (x : Z) (l : sf_locals) : sf_locals :=
  SfLocals (sf_ptp_fd l) x (sf_ptp_in_sync l) (sf_system_in_sync l) (sf_factory l).
Definition sf_set_ptp (b : bool) (l : sf_locals) : sf_locals :=
  SfLocals (sf_ptp_fd l) (sf_system_fd l) b (sf_system_in_sync l) (sf_factory l).
Definition sf_set_system (b : bool) (l : sf_locals) : sf_locals :=
  SfLocals (sf_ptp_fd l) (sf_system_fd l) (sf_ptp_in_sync l) b (sf_factory l).
Definition sf_set_factory (h : handle) (l : sf_locals) : sf_locals :=
  SfLocals (sf_ptp_fd l) (sf_system_fd l) (sf_ptp_in_sync l) (sf_system_in_sync l) h.

(** A pass of the loop that waits for synchronisation: [Some] is [break]. *)
Definition sync_pass : T sf_locals (option unit) :=
  _ ← lift (call (te_sleep CHECK_WAIT));
  b ← get_sync_status iut_rpcs "/var/lib/sfptpd/state-ptp1" sf_ptp_fd sf_set_ptp_fd;
  _ ← modify (sf_set_ptp b);
  b ← get_sync_status iut_rpcs "/var/lib/sfptpd/state-system" sf_system_fd sf_set_system_fd;
  _ ← modify (sf_set_system b);
  l ← get;
  mret (if sf_system_in_sync l && sf_ptp_in_sync l then Some tt else None).

Definition sfptpd_opts : ethtool_opt := EthtoolOpt TAPI_ETHTOOL_CMD_STATS iut_if false None None.

(** The verdicts on the sums. *)
Definition check_sums (stats_before stats_after : Z) : M unit :=
  when ((0 <=? stats_after) && (0 <=? stats_before) && (stats_after <=? stats_before))
    (ERROR_VERDICT "Sum of PTP statistics after running sfptpd %s"
       [AS (if stats_after <? stats_before then "decreased" else "did not increase")]).

Definition sfptpd_body (master_cfg slave_cfg : string) : T sf_locals unit :=
  fd ← lift (net_drv_open_ptp_fd iut_rpcs iut_if (Some ""%string));
  _ ← lift (rpc_ok (rpc_close iut_rpcs fd));
  factory ← lift (CHECK_OUT (call (tapi_job_factory_rpc_create iut_rpcs)));
  _ ← modify (sf_set_factory factory);
  '(stats_before, _) ← lift (get_ptp_stats_sum factory sfptpd_opts "Before running sfptpd");
  _ ← lift (config_sfptpd (rpcs_ta iut_rpcs) iut_if slave_cfg);
  _ ← lift (config_sfptpd (rpcs_ta tst_rpcs) tst_if master_cfg);
  _ ← lift (net_drv_ptp_ntpd_disable iut_rpcs);
  _ ← lift (net_drv_ptp_ntpd_disable tst_rpcs);
  _ ← lift (call (tapi_sfptpd_enable (rpcs_ta iut_rpcs)));
  _ ← lift (call (tapi_sfptpd_enable (rpcs_ta tst_rpcs)));
  _ ← t_search (Z.to_nat (MAX_SYNC_WAIT / CHECK_WAIT + 1)) sync_pass;
  l ← get;
  _ ← lift (when (negb (sf_system_in_sync l)) (ERROR_VERDICT "Failed to wait until system clock becomes synchronized" []));
  _ ← lift (when (negb (sf_ptp_in_sync l)) (ERROR_VERDICT "Failed to wait until adapter clock becomes synchronized" []));
  '(stats_after, _) ← lift (get_ptp_stats_sum factory sfptpd_opts "After running sfptpd");
  _ ← lift (check_sums stats_before stats_after);
  if negb (sf_system_in_sync l) || negb (sf_ptp_in_sync l) then lift TEST_STOP else mret tt.

Definition sfptpd_cleanup (l : sf_locals) : M bool :=
  also (cleanup_close iut_rpcs (sf_ptp_fd l))
 (also (cleanup_close iut_rpcs (sf_system_fd l))
       (_ ← call (tapi_job_factory_destroy (sf_factory l)); mret true)).
Definition sfptpd_main (master_cfg slave_cfg : string) : M status :=
  test_main sf_start (sfptpd_body master_cfg slave_cfg) sfptpd_cleanup.
End sfptpd.
End ptp_tools.

(** ** The messages of ptp4l *)

(** Those before the end of the stream. *)
Fixpoint live (bufs : list (bool * string)) : list string :=
  match bufs with
  | [] => []
  | (eos, data) :: bufs' => if eos : bool then [] else data :: live bufs'
  end.
Definition timed_out (m : string) : bool := strstr_found m tx_timeout_str.
Definition unstamped (m : string) : bool := negb (timed_out m) && strstr_found m sync_without_ts_str.
Definition unexpected (m : string) : bool := negb (timed_out m) && negb (strstr_found m sync_without_ts_str).

(** Each flag says whether some message before the end of the stream is of its kind. *)
Lemma classify_correct bufs a b c : classify bufs a b c =
  (a || existsb timed_out (live bufs), b || existsb unstamped (live bufs), c || existsb unexpected (live bufs)).
Proof.
  revert a b c. induction bufs as [|[eos m] bufs IH]; intros a b c; cbn [classify live existsb]; [by rewrite !orb_false_r|].
  destruct eos; [cbn; by rewrite !orb_false_r|]. cbn [existsb].
  change (timed_out m) with (strstr_found m tx_timeout_str).
  unfold unstamped, unexpected, timed_out.
  destruct (strstr_found m tx_timeout_str), (strstr_found m sync_without_ts_str); rewrite IH; cbn [negb andb orb];
    by rewrite ?orb_true_r, ?orb_true_l.
Qed.

(** ** The clocks that are set *)

(** Whatever is drawn, clocks that are set differ by at least [MIN_DIFF]. *)
Lemma drawn_clocks_differ {TE : Te} {S} (E : env te_call S) fuel init g :
  wp E (loop fuel init (fun _ => draw_clocks)) g (fun r _ => match r with
    | Val (inl (a, b)) => SFleb (d_of_Z MIN_DIFF) (d_abs (net_drv_timespec_diff a b)) = true
    | NoFuel => True
    | _ => False
    end).
Proof.
  apply (wp_loop _ _ _ _ _ _ (fun _ _ _ => True)); [done| |done].
  intros n st s _. unfold draw_clocks. wp_go.
  match goal with |- context [if ?b then _ else _] => destruct b eqn:Hd end; [|done]. exact Hd.
Qed.

(** ** The state of the synchronisation *)

Lemma substring_all s : String.substring 0 (String.length s) s = s.
Proof. induction s as [|c s IH]; [done|]. cbn. by rewrite IH. Qed.

(** The file says that the clock is in sync only where "in-sync:" follows a
    white space and a number that is not zero follows it. *)
Lemma in_sync_says s : in_sync_of s = true ->
  exists before c rest, s = (before +:+ String c ("in-sync:" +:+ rest))%string /\ is_space c = true /\ atoi rest <> 0.
Proof.
  induction s as [|c s IH]; [done|]. cbn [in_sync_of]. destruct (is_space c && has_prefix "in-sync:" s) eqn:E.
  - apply andb_true_iff in E as [Hc Hp]. intros Hv.
    assert (exists rest, s = ("in-sync:" +:+ rest)%string) as (rest & ->).
    { unfold has_prefix in Hp. do 8 (destruct s as [|? s]; [done|]; cbn [String.prefix] in Hp; destruct (ascii_dec _ _) as [<-|]; [|done]).
      by exists s. }
    exists ""%string, c, rest. change (String.length ("in-sync:" +:+ rest) - 8)%nat with (String.length rest - 0)%nat in Hv.
    rewrite Nat.sub_0_r in Hv. change (String.substring 8 (String.length rest) ("in-sync:" +:+ rest)) with (String.substring 0 (String.length rest) rest) in Hv.
    rewrite substring_all in Hv. by apply negb_true_iff, Z.eqb_neq in Hv.
  - intros H. destruct (IH H) as (b & c' & rest & -> & H2). by exists (String c b), c', rest.
Qed.

(** What is said at the beginning of the file is not seen, and the first one counts. *)
Example in_sync_first_missed : in_sync_of "in-sync: 1" = false.
Proof. reflexivity. Qed.
Example in_sync_yes : in_sync_of (String.append "state: slave" (String (ascii_of_nat 10) "in-sync: 1")) = true.
Proof. vm_compute. reflexivity. Qed.
Example in_sync_no : in_sync_of " in-sync: 0 in-sync: 1" = false.
Proof. vm_compute. reflexivity. Qed.

(** ** Statistics *)

(** The sum of the statistics whose names begin with "ptp_", in the width of
    the counter, when all of them are numbers. *)
Lemma ptp_sum_correct {TE : Te} te_strtoul {S} (E : env te_call S) stats sum g :
  (forall k v, (k, v) ∈ ptp_stats stats -> fst (te_strtoul v) = 0) ->
  wp E (ptp_sum te_strtoul stats sum) g (fun r g' => g' = g /\
    match r with
    | Val n => exists total, n = total /\ total mod 2 ^ 64 = (sum + foldr Z.add 0 (map (fun kv => snd (te_strtoul (snd kv))) (ptp_stats stats))) mod 2 ^ 64
    | _ => False
    end).
Proof.
  revert sum. induction stats as [|[k v] stats IH]; intros sum H; cbn [ptp_sum ptp_stats List.filter fst].
  { split; [done|]. exists sum. split; [done|]. by rewrite Z.add_0_r. }
  unfold ptp_stats in H. cbn [List.filter fst] in H. destruct (has_prefix "ptp_" k); [|by apply IH].
  assert (Hv : fst (te_strtoul v) = 0) by (eapply H, list_elem_of_here).
  cbn [map foldr snd]. destruct (te_strtoul v) as [rc val]. cbn [fst snd] in *. subst rc. cbn [Z.eqb negb].
  eapply wp_mono; [apply IH; intros k' v' Hin; eapply H, list_elem_of_further, Hin|].
  intros [n| | |] g' [-> Hn]; try done. split; [done|]. destruct Hn as (t & -> & Ht). exists t. split; [done|].
  rewrite Ht. unfold u64, ptp_stats. rewrite Zplus_mod_idemp_l. f_equal. lia.
Qed.

(** The value of the first statistic with a name. *)
Definition stat_of (stats : list (string * string)) (k : string) : option string := list_to_map (M := gmap string string) stats !! k.

Lemma take_stat_spec k stats :
  match take_stat k stats with
  | Some (v, rest) => exists a b, stats = a ++ (k, v) :: b /\ rest = a ++ b /\ k ∉ a.*1
  | None => k ∉ stats.*1
  end.
Proof.
  induction stats as [|[k' v'] stats IH]; cbn [take_stat]; [cbn; set_solver|].
  destruct (String.eqb_spec k' k) as [->|Hk]; [exists [], stats; cbn; set_solver|].
  destruct (take_stat k stats) as [[v rest]|]; cbn.
  - destruct IH as (a & b & -> & -> & Ha). exists ((k', v') :: a), b. cbn. set_solver.
  - set_solver.
Qed.

Lemma list_to_map_drop (a b : list (string * string)) k v k' : k ∉ a.*1 -> k ∉ b.*1 ->
  list_to_map (M := gmap string string) (a ++ b) !! k' = if decide (k' = k) then None else list_to_map (M := gmap string string) (a ++ ((k, v) :: b)) !! k'.
Proof.
  intros Ha Hb. rewrite !list_to_map_app, list_to_map_cons. destruct (decide (k' = k)) as [->|Hne].
  - apply lookup_union_None. split; by apply not_elem_of_list_to_map_1.
  - rewrite !lookup_union. by rewrite lookup_insert_ne.
Qed.

(** The rows that are logged are exactly the statistics that changed, that are
    gone and that are new. *)
Lemma print_stats_diff_correct before after k ob oa :
  NoDup before.*1 -> NoDup after.*1 ->
  (k, ob, oa) ∈ print_stats_diff before after <-> ob = stat_of before k /\ oa = stat_of after k /\ ob <> oa.
Proof.
  revert after. induction before as [|[k0 v0] before IH]; intros after Hb Ha; unfold stat_of in *; cbn [print_stats_diff].
  - rewrite list_to_map_nil, lookup_empty. change (map ?f after) with (f <$> after). rewrite list_elem_of_fmap. split.
    + intros ([k' v'] & E & Hin). injection E as -> -> ->. split; [done|]. split; [|done].
      symmetry. by apply elem_of_list_to_map_1.
    + intros (-> & -> & Hne). destruct (list_to_map after !! k) as [v|] eqn:E; [|done].
      exists (k, v). split; [done|]. by apply elem_of_list_to_map_2.
  - rewrite list_to_map_cons. cbn in Hb. apply list.NoDup_cons in Hb as [Hk0 Hb]. pose proof (take_stat_spec k0 after) as Ht.
    destruct (take_stat k0 after) as [[v' after']|].
    + destruct Ht as (a & b & -> & -> & Hka).
      assert (Hkb : k0 ∉ b.*1 /\ NoDup (a ++ b).*1).
      { rewrite fmap_app, fmap_cons in *. cbn in Ha. apply NoDup_app in Ha as (H1 & H2 & H3). apply list.NoDup_cons in H3 as [H3 H4].
        split; [done|]. apply NoDup_app. split; [done|]. split; [|done]. intros x Hx Hx2. apply (H2 x Hx). by right. }
      destruct Hkb as [Hkb Hnd]. rewrite elem_of_app, (IH _ Hb Hnd), (list_to_map_drop a b k0 v' k Hka Hkb).
      destruct (decide (k = k0)) as [->|Hne].
      * rewrite lookup_insert_eq, (not_elem_of_list_to_map_1 before k0 Hk0).
        assert (Hv : list_to_map (M := gmap string string) (a ++ (k0, v') :: b) !! k0 = Some v').
        { rewrite list_to_map_app, list_to_map_cons, lookup_union, lookup_insert_eq, (not_elem_of_list_to_map_1 a k0 Hka). done. }
        rewrite Hv. destruct (String.eqb_spec v0 v') as [->|Hvv].
        -- split; [intros [[]%elem_of_nil|(-> & -> & ?)]; done|by intros (-> & -> & ?)].
        -- rewrite list_elem_of_singleton. split; [intros [E|(-> & -> & ?)]; [|done]; injection E as -> ->; split_and!; [done|done|congruence]|].
           intros (-> & -> & _). by left.
      * rewrite lookup_insert_ne by done. split; [|auto]. intros [Hin|H]; [|done].
        destruct (String.eqb v0 v'); [by apply elem_of_nil in Hin|]. apply list_elem_of_singleton in Hin. congruence.
    + rewrite elem_of_cons, (IH _ Hb Ha). destruct (decide (k = k0)) as [->|Hne].
      * rewrite lookup_insert_eq, (not_elem_of_list_to_map_1 before k0 Hk0), (not_elem_of_list_to_map_1 after k0 Ht).
        split; [intros [E|(-> & -> & ?)]; [|done]; injection E as -> ->; done|]. intros (-> & -> & _). by left.
      * rewrite lookup_insert_ne by done. split; [intros [E|H]; [congruence|done]|auto].
Qed.

(** Summing makes no call. *)
Lemma sum_only {TE : Te} (allowed : forall X, te_call X -> bool) te_strtoul stats sum : only allowed any_jump (ptp_sum te_strtoul stats sum).
Proof.
  revert sum. induction stats as [|[k v] stats IH]; intros sum; cbn; [done|]. destruct (has_prefix _ k); [|by auto].
  destruct (te_strtoul v) as [rc x]. by destruct (negb (rc =? 0)).
Qed.

(** ** What is opened is closed *)
Section tools_release.
Context {TE : Te} (iut_rpcs tst_rpcs : rcf_rpc_server) (iut_if tst_if : string).

Definition p4_socks (l : p4_locals) : list (rcf_rpc_server * Z) := sock_at iut_rpcs (p4_fd_iut l) ++ sock_at tst_rpcs (p4_fd_tst l).
Local Abbreviation p4_holds := (holding p4_socks (fun _ : p4_locals => [])).

(** Locals other than the descriptors. *)
Lemma p4_same L L' g : p4_fd_iut L' = p4_fd_iut L -> p4_fd_tst L' = p4_fd_tst L -> p4_holds L g -> p4_holds L' g.
Proof. intros E1 E2 H. unfold holding, p4_socks in *. by rewrite E1, E2. Qed.

(** However the test of ptp4l ends, both descriptors of devices are closed. *)
Lemma ptp4l_releases fuel sigint init :
  wp h_world (ptp4l_main iut_rpcs tst_rpcs iut_if tst_if fuel sigint) (clean init)
    (fun r g => match r with Val _ => gave_back g | NoFuel => True | _ => False end).
Proof.
  unfold ptp4l_main. eapply (test_main_keeps _ (fun L g => L = p4_start /\ p4_holds L g) p4_holds).
  - split; [done|]. split; apply submseteq_nil_l.
  - intros L g [-> [Hs Hc]]. unfold ptp4l_body.
    apply st_call. eapply wp_mono; [apply (open_ptp_held _ _ _ []), Hs|]. intros [fd1|j|w|] g1 H1; try done; destruct H1 as [H1 E1];
      [|split; [exact H1|by rewrite E1]]. apply st_modify.
    rewrite app_nil_r in H1. apply st_call. eapply wp_mono; [apply open_ptp_held, H1|].
    intros [fd2|j|w|] g2 H2; try done; destruct H2 as [H2 E2]; [|split; [by unfold p4_socks; cbn; rewrite app_nil_r|by rewrite E2, E1]].
    apply st_modify. assert (Hg : p4_holds (p4_set_fd_tst fd2 (p4_set_fd_iut fd1 p4_start)) g2).
    { split; [unfold p4_socks; cbn [p4_fd_iut p4_fd_tst p4_set_fd_iut p4_set_fd_tst]; by rewrite Permutation_app_comm|by rewrite E2, E1]. }
    clear -Hg. generalize dependent (p4_set_fd_tst fd2 (p4_set_fd_iut fd1 p4_start)). intros L Hg. rename g2 into g.
    apply st_free; [unfold set_clocks, find_ptp4l, net_drv_ptp_ntpd_disable, draw_clocks; solve_only|done|]. clear g Hg. intros _ g Hg.
    do 4 (apply st_free; [solve_only|done|]; clear g Hg; intros ? g Hg; apply st_modify;
          match goal with |- wp _ (_ ?L') _ _ => assert (Hg2 : p4_holds L' g) by (by apply (p4_same L)); clear Hg; rename Hg2 into Hg;
            revert Hg; generalize L'; clear L; intros L Hg end).
    do 2 (apply st_free; [unfold attach_filters, run_jobs, wait_ptp4l, check_errs; solve_only|done|]; clear g Hg; intros ? g Hg).
    apply st_free_last; [unfold check_clocks, clock_gettime; solve_only|done].
  - intros L g [Hs Hc]. unfold ptp4l_cleanup, also. wp_step. eapply close_held; [exact Hs|]. intros b1 g1 H1 E1. cbn [bpost].
    do 2 wp_step. eapply (close_held _ _ []); [by rewrite app_nil_r|]. intros b2 g2 H2 E2. cbn [bpost].
    do 2 wp_step. apply free_step; [done|]. intros b3 g3 E3 E3'. cbn [bpost]. do 2 wp_step. apply free_step; [done|].
    intros b4 g4 E4 E4'. cbn [bpost]. wp_go. cbn [h_upd]. split; [by rewrite E4, E3; apply submseteq_nil_r|].
    rewrite E4', E3', E2, E1. by apply submseteq_nil_r.
Qed.

Definition sf_socks (l : sf_locals) : list (rcf_rpc_server * Z) := sock_at iut_rpcs (sf_ptp_fd l) ++ sock_at iut_rpcs (sf_system_fd l).
Local Abbreviation sf_holds := (holding sf_socks (fun _ : sf_locals => [])).

(** No descriptor is open. *)
Definition idle (L : sf_locals) : Prop := sf_ptp_fd L < 0 /\ sf_system_fd L < 0.
Definition sf_idle (L : sf_locals) (g : held) : Prop := idle L /\ h_socks g = [] /\ h_csaps g = [].

Lemma idle_holds L g : sf_idle L g -> sf_holds L g.
Proof. intros (_ & H1 & H2). split; [rewrite H1|rewrite H2]; apply submseteq_nil_l. Qed.

(** A local that a state file is opened with. *)
Definition fd_local (get_fd : sf_locals -> Z) (set_fd : Z -> sf_locals -> sf_locals) : Prop :=
  (forall x L, get_fd (set_fd x L) = x) /\ (forall x y L, set_fd y (set_fd x L) = set_fd y L) /\
  (forall x L, idle L -> sf_socks (set_fd x L) = sock_at iut_rpcs x) /\
  (forall x L, idle L -> x < 0 -> idle (set_fd x L)).

Lemma not_open s : s < 0 -> sock_at iut_rpcs s = [].
Proof. intros H. unfold sock_at. by rewrite (proj2 (Z.leb_gt 0 s)). Qed.

Lemma ptp_fd_local : fd_local sf_ptp_fd sf_set_ptp_fd.
Proof. repeat split; try done; unfold sf_socks; cbn; [intros x L [_ H]; by rewrite (not_open _ H), app_nil_r|by destruct H]. Qed.
Lemma system_fd_local : fd_local sf_system_fd sf_set_system_fd.
Proof. repeat split; try done; unfold sf_socks; cbn; [intros x L [H _]; by rewrite (not_open _ H)|by destruct H]. Qed.

Lemma holds_idle L g : idle L -> sf_holds L g -> sf_idle L g.
Proof.
  intros HL [H1 H2]. split; [done|]. unfold sf_socks in H1. destruct HL as [E1 E2].
  rewrite (not_open _ E1), (not_open _ E2) in H1. split; by apply submseteq_nil_r.
Qed.

(** A state file is read and closed, or the local says that it is open. *)
Lemma get_sync_status_keeps path get_fd set_fd L g : fd_local get_fd set_fd -> sf_idle L g ->
  wp h_world (get_sync_status iut_rpcs path get_fd set_fd L) g (upto sf_holds (fun _ => sf_idle)).
Proof.
  intros (Hg & Hs & Ho & Hi) HL. pose proof HL as [Hidle _]. unfold get_sync_status.
  apply st_free; [solve_only|by apply idle_holds|]. intros _ g1 H1. apply holds_idle in H1; [|done]. destruct H1 as (_ & E1 & E2).
  apply st_call. wp_step. wp_answer. destruct x as [fd err]. cbn [h_upd fst snd]. clear H. apply st_modify.
  destruct (Z.ltb_spec fd 0) as [Hfd|Hfd].
  { assert (Hn : sf_idle (set_fd fd L) g1) by (split; [by apply Hi|done]).
    destruct (err =? RPC_ENOENT); [exact Hn|]. cbn. by apply idle_holds. }
  set (g2 := h_open (iut_rpcs, fd) g1). assert (H2 : sf_holds (set_fd fd L) g2).
  { split; [rewrite Ho by done; unfold sock_at, g2; cbn; rewrite (proj2 (Z.leb_le 0 fd)), E1 by done; done|].
    unfold g2. cbn. rewrite E2. done. }
  clearbody g2. apply st_free; [solve_only|done|]. intros [[rc str] err2] g3 H3.
  destruct (rc <? 0); [exact H3|].
  apply (st_close sf_socks (fun _ => [])); [exact H3| |done|].
  - intros l Hl. rewrite Hs, !Ho, Hg by done. rewrite Ho in Hl by done. unfold sock_at in Hl.
    rewrite (proj2 (Z.leb_le 0 fd)) in Hl by done. by apply drop_one_submseteq.
  - intros g4 H4. rewrite Hs in *. apply holds_idle; [|done]. by apply Hi.
Qed.

(** Locals other than the descriptors. *)
Lemma idle_same L L' g : sf_ptp_fd L' = sf_ptp_fd L -> sf_system_fd L' = sf_system_fd L -> sf_idle L g -> sf_idle L' g.
Proof. intros E1 E2 [[H1 H2] H]. split; [|done]. by rewrite <- E1, <- E2 in *. Qed.

Lemma sync_pass_keeps L g : sf_idle L g -> wp h_world (sync_pass iut_rpcs L) g (upto sf_holds (fun _ => sf_idle)).
Proof.
  intros HL. unfold sync_pass. apply st_free; [solve_only|by apply idle_holds|]. intros _ g1 H1. apply holds_idle in H1; [|by destruct HL].
  apply st_bind. eapply wp_mono; [apply get_sync_status_keeps; [apply ptp_fd_local|done]|].
  intros [[L2 [b|j]]| | |] g2 H2; try done. cbn [upto] in *. apply st_modify, st_bind.
  eapply wp_mono; [apply get_sync_status_keeps; [apply system_fd_local|by apply (idle_same L2)]|].
  by intros [[L3 [b3|j]]| | |] g3 H3.
Qed.

Lemma sfptpd_step_keeps {A B} (p : M A) (f : A -> T sf_locals B) G L g :
  only handle_free any_jump p -> sf_idle L g ->
  (forall a g', sf_idle L g' -> wp h_world (f a L) g' (upto sf_holds G)) -> wp h_world (mbind f (lift p) L) g (upto sf_holds G).
Proof.
  intros Ho HL Hf. apply st_free; [done|by apply idle_holds|]. intros a g' H. apply Hf, holds_idle; [by destruct HL|done].
Qed.

(** However the test of sfptpd ends, the files it opened are closed. *)
Lemma sfptpd_releases te_strtoul master_cfg slave_cfg init :
  wp h_world (sfptpd_main iut_rpcs tst_rpcs iut_if tst_if te_strtoul master_cfg slave_cfg) (clean init)
    (fun r g => match r with Val _ => gave_back g | NoFuel => True | _ => False end).
Proof.
  unfold sfptpd_main. eapply (test_main_keeps _ (fun L g => L = sf_start /\ h_socks g = [] /\ h_csaps g = []) sf_holds); [done| |].
  - intros L g (-> & Hs & Hc). unfold sfptpd_body.
    apply st_call. eapply wp_mono; [apply (open_ptp_held _ _ _ []); by rewrite Hs|]. intros [fd|j|w|] g1 H1; try done; destruct H1 as [H1 E1];
      [|apply idle_holds; split; [done|]; split; [by apply submseteq_nil_r|by rewrite E1, Hc]]. rewrite app_nil_r in H1.
    assert (Hd : drop_one (iut_rpcs, fd) (h_socks g1) = []).
    { apply submseteq_nil_r, drop_one_submseteq. etrans; [exact H1|]. unfold sock_at. by destruct (0 <=? fd); [|apply submseteq_cons]. }
    apply st_call. wp_go; cbn [h_upd].
    { apply idle_holds. split; [done|]. cbn. by rewrite Hd, E1, Hc. }
    assert (Hg : sf_idle sf_start (h_close (iut_rpcs, fd) g1)) by (split; [done|]; cbn; by rewrite Hd, E1, Hc).
    revert Hg. generalize (h_close (iut_rpcs, fd) g1). clear -TE. intros g Hg.
    apply sfptpd_step_keeps; [solve_only|done|]. clear g Hg. intros factory g Hg. apply st_modify.
    apply (idle_same _ (sf_set_factory factory sf_start)) in Hg; [|done|done]. revert Hg. generalize (sf_set_factory factory sf_start). intros L Hg.
    apply sfptpd_step_keeps; [unfold get_ptp_stats_sum; solve_only; apply sum_only|done|]. clear g Hg. intros [before l1] g Hg.
    do 6 (apply sfptpd_step_keeps; [unfold config_sfptpd, net_drv_ptp_ntpd_disable; solve_only|done|]; clear g Hg; intros ? g Hg).
    apply st_bind. eapply wp_mono; [apply (st_search _ sf_holds _ _ sf_idle (fun _ => sf_idle)); [exact Hg|]|].
    { intros L' g' H. eapply wp_mono; [by apply sync_pass_keeps|]. by intros [[L2 [[[]|]|j]]| | |] g2 H2. }
    clear L g Hg. intros [[L [r|j]]| | |] g Hg; try done. cbn [upto] in *. apply st_get.
    assert (Hg' : sf_idle L g) by (by destruct r). clear Hg. rename Hg' into Hg.
    do 2 (apply sfptpd_step_keeps; [solve_only|done|]; clear g Hg; intros ? g Hg).
    apply sfptpd_step_keeps; [unfold get_ptp_stats_sum; solve_only; apply sum_only|done|]. clear g Hg. intros [after l2] g Hg.
    apply sfptpd_step_keeps; [unfold check_sums; solve_only|done|]. clear g Hg. intros _ g Hg.
    destruct (negb _ || negb _); by apply idle_holds.
  - intros L g [Hs Hc]. unfold sfptpd_cleanup, also. wp_step. eapply close_held; [exact Hs|]. intros b1 g1 H1 E1. cbn [bpost].
    do 2 wp_step. eapply (close_held _ _ []); [by rewrite app_nil_r|]. intros b2 g2 H2 E2. cbn [bpost].
    wp_go. cbn [h_upd]. split; [by apply submseteq_nil_r|]. rewrite E2, E1. by apply submseteq_nil_r.
Qed.
End tools_release.

(** ** What it means that the test of sfptpd passes *)
Module SyncSpec.

(** The files that were last looked into, and what they held. *)
Record files := Files { fl_path : string; fl_text : string -> option string }.
Definition put (path : string) (t : option string) (g : files) : files :=
  Files path (fun p => if String.eqb p path then t else fl_text g p).
Definition upd X (c : te_call X) : X -> files -> files :=
  match c in te_call X return X -> files -> files with
  | rpc_open _ path _ => fun _ => put path None
  | rpc_read_fd2te_string _ _ => fun x g => put (fl_path g) (Some (snd (fst x))) g
  | _ => fun _ g => g
  end.
Definition world : env te_call files := watch upd.
Definition quiet X (c : te_call X) : bool :=
  match c with rpc_open _ _ _ | rpc_read_fd2te_string _ _ => false | _ => true end.
Lemma sync_quiet X (c : te_call X) g x g' : quiet X c = true -> world X c g x g' -> g' = g.
Proof. by destruct c; intros Hc ->. Qed.
(** The file was there and said that the clock is in sync. *)
Definition said (path : string) (g : files) : bool := match fl_text g path with Some t => in_sync_of t | None => false end.
End SyncSpec.

Section sync.
Context {TE : Te} (iut_rpcs tst_rpcs : rcf_rpc_server) (iut_if tst_if : string).
Import SyncSpec.
Local Abbreviation E := world.
Local Abbreviation ptp_path := "/var/lib/sfptpd/state-ptp1"%string.
Local Abbreviation system_path := "/var/lib/sfptpd/state-system"%string.

Lemma sync_unseen {A} (p : M A) g : only quiet (fun _ => true) p ->
  wp E p g (fun r g' => g' = g /\ match r with Undef _ => False | _ => True end).
Proof.
  intros H. eapply wp_mono; [apply (wp_only quiet (fun _ => true) E (fun s => s = g)); [exact H| |done]|].
  - intros X c s x s' Hc -> Hx. by eapply sync_quiet.
  - intros [a|j|w|] s' [-> Hr]; auto.
Qed.

(** What is returned is what the file said; nothing is learnt of the other. *)
Lemma get_sync_status_said path get_fd set_fd (L : sf_locals) g :
  (forall x L, sf_ptp_in_sync (set_fd x L) = sf_ptp_in_sync L /\ sf_system_in_sync (set_fd x L) = sf_system_in_sync L) ->
  wp E (get_sync_status iut_rpcs path get_fd set_fd L) g (upto (fun _ _ => True) (fun b L' g' =>
    b = said path g' /\ (forall p, p <> path -> said p g' = said p g) /\
    sf_ptp_in_sync L' = sf_ptp_in_sync L /\ sf_system_in_sync L' = sf_system_in_sync L)).
Proof.
  intros Hset. assert (Hp : forall t t' p, p <> path -> said p (put path t (put path t' g)) = said p g /\ said p (put path t g) = said p g).
  { intros t t' p Hp. unfold said, put. cbn. by rewrite (proj2 (String.eqb_neq p path)) by done. }
  assert (Hs : forall t g, said path (put path t g) = match t with Some x => in_sync_of x | None => false end).
  { intros t g'. unfold said, put. cbn. by rewrite String.eqb_refl. }
  unfold get_sync_status. apply st_call. wp_go. cbn [upd]. apply st_call. wp_go. cbn [upd].
  match goal with x : Z * te_errno |- _ => destruct x as [z t] end. apply st_modify. destruct (z <? 0).
  { destruct (t =? RPC_ENOENT); cbn; [|done]. split; [by rewrite Hs|]. split; [intros p Hne; by apply (Hp None None)|apply Hset]. }
  apply st_call. wp_go. cbn [upd fst snd fl_path].
  match goal with x : Z * string * te_errno |- _ => destruct x as [[rc str] err] end. cbn [fst snd]. destruct (rc <? 0); [done|].
  unfold close_forget. apply st_bind, st_gets, st_call. wp_go; [done|]. cbn [upd]. cbn. split; [by rewrite Hs|]. split; [intros p Hne; by apply Hp|].
  destruct (Hset (-1) (set_fd z L)) as [-> ->]. apply Hset.
Qed.

(** The flags are what the files said when they were last looked into. *)
Definition flags_true (L : sf_locals) (g : files) : Prop :=
  sf_ptp_in_sync L = said ptp_path g /\ sf_system_in_sync L = said system_path g.

Lemma sync_pass_flags L g : flags_true L g ->
  wp E (sync_pass iut_rpcs L) g (upto (fun _ _ => True) (fun _ => flags_true)).
Proof.
  intros [H1 H2]. unfold sync_pass. apply st_call. wp_go. cbn [upd].
  apply st_bind. eapply wp_mono; [by apply get_sync_status_said|].
  intros [[L2 [b|j]]| | |] g2 H; try done. destruct H as (-> & Ho & E1 & E2). apply st_modify, st_bind.
  eapply wp_mono; [by apply get_sync_status_said|].
  intros [[L3 [b|j]]| | |] g3 H; try done. destruct H as (-> & Ho3 & F1 & F2). cbn in F1, F2.
  split; cbn; [by rewrite F1, Ho3|done].
Qed.

(** No file of state was read. *)
Definition unread (g : files) : Prop := forall p, fl_text g p = None.
Definition no_read X (c : te_call X) : bool := match c with rpc_read_fd2te_string _ _ => false | _ => true end.

Lemma st_no_read {A B} (p : M A) (f : A -> T sf_locals B) G L g :
  only no_read (fun _ => true) p -> unread g ->
  (forall a g', unread g' -> wp E (f a L) g' (upto (fun _ _ => True) G)) -> wp E (mbind f (lift p) L) g (upto (fun _ _ => True) G).
Proof.
  intros Ho Hg Hf. apply (st_only _ _ _ no_read unread); [done| |done|done|done].
  intros X c s1 x s2 Hc H ->. destruct c; try done; intros p'; cbn; case_match; by try apply H.
Qed.

Lemma st_quiet_sync {A B} (p : M A) (f : A -> T sf_locals B) G L g :
  only quiet (fun _ => true) p ->
  (forall a, wp E (f a L) g (upto (fun _ _ => True) G)) -> wp E (mbind f (lift p) L) g (upto (fun _ _ => True) G).
Proof.
  intros Ho Hf. apply st_call. eapply wp_mono; [by apply sync_unseen|]. intros [a|j|w|] g' [-> H]; try done.
Qed.

(** The test of sfptpd passes only if, when the two files of state were last
    looked into, each of them was there and said that its clock is in sync. *)
Lemma sfptpd_passes te_strtoul master_cfg slave_cfg :
  wp E (sfptpd_main iut_rpcs tst_rpcs iut_if tst_if te_strtoul master_cfg slave_cfg) (Files "" (fun _ => None)) (fun r g =>
    match r with
    | Val (Left _) | NoFuel => True
    | Val _ => said ptp_path g = true /\ said system_path g = true
    | _ => False
    end).
Proof.
  unfold sfptpd_main. apply (test_main_passes _ _ _ _ _ (fun _ g => said ptp_path g = true /\ said system_path g = true)).
  - unfold sfptpd_body. assert (Hg : unread (Files "" (fun _ => None))) by done. revert Hg. generalize (Files "" (fun _ => None)). intros g Hg.
    do 3 (apply st_no_read; [unfold net_drv_open_ptp_fd, net_drv_get_ethtool_ts_info, net_drv_open_ptp_device; solve_only|done|]; clear g Hg; intros ? g Hg).
    apply st_modify. match goal with |- wp _ (_ ?L') _ _ => assert (HL : sf_ptp_in_sync L' = false /\ sf_system_in_sync L' = false) by done;
      revert HL; generalize L' end. intros L HL.
    apply st_no_read; [unfold get_ptp_stats_sum; solve_only; apply sum_only|done|]. clear g Hg. intros [before l1] g Hg.
    do 6 (apply st_no_read; [unfold config_sfptpd, net_drv_ptp_ntpd_disable; solve_only|done|]; clear g Hg; intros ? g Hg).
    assert (HF : flags_true L g) by (unfold flags_true, said; by rewrite !Hg).
    apply st_bind. eapply wp_mono; [apply (st_search _ (fun _ _ => True) _ _ flags_true (fun _ => flags_true)); [exact HF|]|].
    { intros L' g' H. eapply wp_mono; [by apply sync_pass_flags|]. by intros [[L2 [[[]|]|j]]| | |] g2 H2. }
    clear L g HF Hg HL. intros [[L [r|j]]| | |] g Hg; try done. cbn [upto] in *. apply st_get.
    assert (HF : flags_true L g) by (by destruct r). clear Hg. destruct HF as [E1 E2].
    do 2 (apply st_quiet_sync; [solve_only|intros ?]).
    apply st_quiet_sync; [unfold get_ptp_stats_sum; solve_only; apply sum_only|]. intros [after l2].
    apply st_quiet_sync; [unfold check_sums; solve_only|]. intros _. rewrite E1, E2.
    destruct (said system_path g) eqn:Hsy, (said ptp_path g) eqn:Hpt; done.
  - intros L. unfold sfptpd_cleanup, also, cleanup_close. solve_returns.
  - intros L g HG. eapply wp_mono; [apply sync_unseen; unfold sfptpd_cleanup, also, cleanup_close; solve_only|]. by intros r s [-> _].
Qed.
End sync.
