(* ===== verification/EthtoolRuns.v ===== *)
(** Tests that run the ethtool program and judge what TAPI read of its output:
    ethtool/check_ring.c, ethtool/dev_properties.c, ethtool/*_dump.c,
    ethtool/dump_module_eeprom.c, ethtool/show_*.c, ethtool/statistics.c and
    ethtool/pause_stats_increment.c; and ethtool/ts_info.c. *)
From S2P Require Import Prelude Prog Te Locals CString NetDrvTs Resources RxCommon Holding Judging BasicTests.

(** [tapi_ethtool_default_opt] with a command and an interface. *)
Definition ethtool_of (cmd : ethtool_cmd) (if_name : string) : ethtool_opt := EthtoolOpt cmd if_name false None None.

Section runs.
Context {TE : Te} (iut_rpcs tst_rpcs : rcf_rpc_server) (iut_if tst_if : string).

(** A test whose only variable the cleanup uses is [factory]. *)
Definition factory_main (p : handle -> M unit) (before_destroy : M bool) : M status :=
  test_main 0
    (factory ← lift (CHECK_OUT (call (tapi_job_factory_rpc_create iut_rpcs)));
     _ ← modify (fun _ => factory);
     lift (p factory))
    (fun factory => also before_destroy (_ ← call (tapi_job_factory_destroy factory); mret true)).

(** ** ethtool/check_ring.c *)
Definition check_ring_steps (factory : handle) : M unit :=
  '(rc, report) ← call (tapi_ethtool factory (ethtool_of TAPI_ETHTOOL_CMD_SHOW_RING iut_if));
  if negb (rc =? 0) then TEST_VERDICT "Failed to process ethtool command" [] else
  _ ← when (et_err_out report) (ERROR_VERDICT "ethtool printed something to stderr" []);
  _ ← RING_VERDICT "Current ring sizes RX: %i, TX: %i" [AI (rg_rx (et_ring report)); AI (rg_tx (et_ring report))];
  RING_VERDICT "Preset maximums RX: %i, TX: %i" [AI (rg_rx_max (et_ring report)); AI (rg_tx_max (et_ring report))].
Definition check_ring_main : M status := factory_main check_ring_steps (mret true).

(** ** ethtool/dev_properties.c *)
Definition dev_properties_steps (factory : handle) : M unit :=
  let opts := ethtool_of TAPI_ETHTOOL_CMD_NONE iut_if in
  '(rc, report) ← call (tapi_ethtool factory opts);
  if negb (rc =? 0) then TEST_VERDICT "Failed to process ethtool command, rc=%r" [AI rc] else
  _ ← when (et_err_out report) (ERROR_VERDICT "ethtool printed something to stderr" []);
  if negb (et_link report) then TEST_VERDICT "ethtool does not report interface as being UP" [] else
  _ ← CHECK_RC (call (tapi_cfg_base_if_down (rpcs_ta iut_rpcs) iut_if));
  '(rc, report) ← call (tapi_ethtool factory opts);
  if negb (rc =? 0) then TEST_VERDICT "Failed to process ethtool command after setting interface down, rc=%r" [AI rc] else
  _ ← when (et_err_out report) (ERROR_VERDICT "ethtool printed something to stderr after interface was set down" []);
  if et_link report then TEST_VERDICT "ethtool does not report interface as being DOWN" [] else mret tt.
Definition dev_properties_main : M status :=
  factory_main dev_properties_steps (NET_DRV_CLEANUP_SET_UP_WAIT iut_rpcs iut_if).

(** ** ethtool/register_dump.c, ethtool/eeprom_dump.c, ethtool/dump_module_eeprom.c *)
Section dumps.
Context (TE_ESHCMD : Z).

Definition dump_steps (opts : ethtool_opt) (what : string) (factory : handle) : M unit :=
  '(rc, report) ← call (tapi_ethtool factory opts);
  _ ← when (negb (rc =? 0))
        (if rc =? TE_RC TE_TAPI TE_ESHCMD then ERROR_VERDICT "Ethtool command did not terminate successfully" []
         else TEST_VERDICT "tapi_ethtool() returned unexpected error" []);
  _ ← when (et_err_out report)
        (if et_err_code report =? TE_EOPNOTSUPP then TEST_VERDICT ("Getting " +:+ what +:+ " is not supported") []
         else ERROR_VERDICT "ethtool printed something to stderr" []);
  if negb (et_out report) then TEST_VERDICT "Nothing was printed to stdout" [] else mret tt.

Definition register_dump_opts : ethtool_opt := ethtool_of TAPI_ETHTOOL_CMD_REG_DUMP iut_if.
Definition eeprom_dump_opts : ethtool_opt :=
  EthtoolOpt TAPI_ETHTOOL_CMD_EEPROM_DUMP iut_if false (Some (TE_SEC2MS 10)) (Some 1024).
Definition dump_module_eeprom_opts : ethtool_opt :=
  EthtoolOpt TAPI_ETHTOOL_CMD_DUMP_MODULE_EEPROM iut_if false (Some (TE_SEC2MS 10)) None.
Definition register_dump_main : M status := factory_main (dump_steps register_dump_opts "register dump") (mret true).
Definition eeprom_dump_main : M status := factory_main (dump_steps eeprom_dump_opts "EEPROM dump") (mret true).
Definition dump_module_eeprom_main : M status :=
  factory_main (dump_steps dump_module_eeprom_opts "module EEPROM dump") (mret true).
End dumps.

(** ** ethtool/show_eee.c, ethtool/show_fec.c, ethtool/show_module.c, ethtool/show_pause.c *)

(** The run, its status and what it printed to stderr. *)
Definition show_run (opts : ethtool_opt) (factory : handle) : M ethtool_report :=
  '(rc, report) ← call (tapi_ethtool factory opts);
  if negb (rc =? 0) then
    if et_err_code report =? TE_EOPNOTSUPP then TEST_SKIP "Ethtool command is not supported" []
    else TEST_VERDICT "Failed to process ethtool command" []
  else
    _ ← when (et_err_out report) (ERROR_VERDICT "ethtool printed something to stderr" []);
    mret report.
Definition show_steps (cmd : ethtool_cmd) (factory : handle) : M unit := _ ← show_run (ethtool_of cmd iut_if) factory; mret tt.
Definition show_eee_main : M status := factory_main (show_steps TAPI_ETHTOOL_CMD_SHOW_EEE) (mret true).
Definition show_fec_main : M status := factory_main (show_steps TAPI_ETHTOOL_CMD_SHOW_FEC) (mret true).
Definition show_module_main : M status := factory_main (show_steps TAPI_ETHTOOL_CMD_SHOW_MODULE) (mret true).

Definition pause_opts : ethtool_opt := EthtoolOpt TAPI_ETHTOOL_CMD_SHOW_PAUSE iut_if true None None.
Definition show_pause_steps (factory : handle) : M unit :=
  report ← show_run pause_opts factory;
  let p := et_pause report in
  _ ← when (negb (pr_autoneg p)) (RING_VERDICT "Pause autonegotiation is disabled" []);
  _ ← when (negb (pr_rx p)) (RING_VERDICT "Reception of pause frames is disabled" []);
  _ ← when (negb (pr_tx p)) (RING_VERDICT "Transmission of pause frames is disabled" []);
  _ ← when (bool_decide (pr_rx_pause_frames p = None)) (RING_VERDICT "Rx pause frames counter is not available" []);
  when (bool_decide (pr_tx_pause_frames p = None)) (RING_VERDICT "Tx pause frames counter is not available" []).
Definition show_pause_main : M status := factory_main show_pause_steps (mret true).

(** ** ethtool/statistics.c *)
Section statistics.
Context (te_strtoul : string -> te_errno * Z) (fuel : nat) (iut_addr tst_addr : sockaddr).

(** [strcmp_end]: the comparison begins [strlen (pattern)] bytes before the end
    of the string; [None] when that is before its beginning. *)
Definition strcmp_end (pattern str : string) : option bool :=
  if (String.length pattern <=? String.length str)%nat
  then Some (String.eqb (String.substring (String.length str - String.length pattern) (String.length pattern) str) pattern)
  else None.

(** The names of a single statistic, and the prefix of those of queues. *)
Definition total_names (tx : bool) : list string :=
  (if tx then ["tx_bytes"; "tx_octets"; "port_tx_bytes"; "port_tx_unicast"]
   else ["rx_bytes"; "rx_octets"; "port_rx_bytes"; "port_rx_unicast"])%string.
Definition queue_prefix (tx : bool) : string := (if tx then "tx_queue_" else "rx_queue_")%string.

Fixpoint get_stats (tx : bool) (stats : list (string * string)) (total : Z) : M Z :=
  match stats with
  | [] => mret total
  | (key, value) :: stats' =>
      if existsb (String.eqb key) (total_names tx) then
        let '(rc, val) := te_strtoul value in
        if negb (rc =? 0) then raise (RC_FAILED rc) else mret val
      else if has_prefix (queue_prefix tx) key then
        match strcmp_end "_bytes" key with
        | None => undef "strcmp_end"
        | Some false => get_stats tx stats' total
        | Some true =>
            let '(rc, val) := te_strtoul value in
            if negb (rc =? 0) then raise (RC_FAILED rc) else get_stats tx stats' (u64 (total + val))
        end
      else get_stats tx stats' total
  end.

Record stat_locals := StatLocals { sl_iut_s : Z; sl_tst_s : Z; sl_factory : handle }.
Definition sl_start : stat_locals := StatLocals (-1) (-1) 0.
Definition sl_set_socks (a b : Z) (l : stat_locals) : stat_locals := StatLocals a b (sl_factory l).
Definition sl_set_factory (f : handle) (l : stat_locals) : stat_locals := StatLocals (sl_iut_s l) (sl_tst_s l) f.

(** A run of ethtool, and both counters; [stage]: "before" or "after". *)
Definition bytes_now (factory : handle) (stage : string) : M (Z * Z) :=
  '(rc, report) ← call (tapi_ethtool factory (ethtool_of TAPI_ETHTOOL_CMD_STATS iut_if));
  if negb (rc =? 0) then TEST_VERDICT ("Failed to process ethtool command " +:+ stage +:+ " transmitting data, rc=%r") [AI rc] else
  _ ← when (et_err_out report) (ERROR_VERDICT ("ethtool printed something to stderr when run " +:+ stage +:+ " transmitting data") []);
  tx ← get_stats true (et_stats report) 0;
  rx ← get_stats false (et_stats report) 0;
  mret (tx, rx).

Definition judge_bytes (before after : Z * Z) : M unit :=
  _ ← when (fst after <=? fst before) (ERROR_VERDICT "Tx bytes counter did not increase" []);
  _ ← when (snd after <=? snd before) (ERROR_VERDICT "Rx bytes counter did not increase" []);
  if (fst after <=? fst before) || (snd after <=? snd before) then TEST_STOP else mret tt.

Definition statistics_body (sock_type : rpc_socket_type) : T stat_locals unit :=
  factory ← lift (CHECK_OUT (call (tapi_job_factory_rpc_create iut_rpcs)));
  _ ← modify (sl_set_factory factory);
  before ← lift (bytes_now factory "before");
  '(iut_s, tst_s) ← lift (CHECK_OUT (call (GEN_CONNECTION iut_rpcs tst_rpcs sock_type iut_addr tst_addr)));
  _ ← modify (sl_set_socks iut_s tst_s);
  _ ← lift (net_drv_conn_check fuel iut_rpcs iut_s "IUT" tst_rpcs tst_s "Tester" "Checking sending and receiving");
  _ ← lift (call (te_motivated_sleep 2));
  after ← lift (bytes_now factory "after");
  lift (judge_bytes before after).

Definition statistics_cleanup (l : stat_locals) : M bool :=
  also (cleanup_close iut_rpcs (sl_iut_s l))
 (also (cleanup_close tst_rpcs (sl_tst_s l)) (_ ← call (tapi_job_factory_destroy (sl_factory l)); mret true)).
Definition statistics_main (sock_type : rpc_socket_type) : M status :=
  test_main sl_start (statistics_body sock_type) statistics_cleanup.
End statistics.

(** ** ethtool/pause_stats_increment.c *)
Definition PAUSE_FRAMES_NUM : Z := 64.
Definition PAUSE_QUANTA : Z := 1.

Definition get_rx_pause_frames (factory : handle) (stage : string) : M Z :=
  '(rc, report) ← call (tapi_ethtool factory pause_opts);
  if negb (rc =? 0) then
    if et_err_code report =? TE_EOPNOTSUPP then TEST_SKIP "Ethtool command is not supported" []
    else TEST_VERDICT "%s: failed to process ethtool command, rc=%r" [AS stage; AI rc]
  else
    _ ← when (et_err_out report) (ERROR_VERDICT "%s: ethtool printed something to stderr" [AS stage]);
    if negb (pr_rx (et_pause report)) then TEST_SKIP "Reception of pause frames is disabled" [] else
    match pr_rx_pause_frames (et_pause report) with
    | None => TEST_SKIP "Rx pause frames counter is not available" []
    | Some value =>
        if 2 ^ 31 - 1 <? value then TEST_VERDICT "%s: Rx pause frames counter value is too big" [AS stage]
        else mret value
    end.

Definition enable_rx_pause (ta if_name : string) : M unit :=
  rc ← call (tapi_cfg_if_fc_set_rx ta if_name 1);
  let err := TE_RC_GET_ERROR rc in
  if (err =? TE_ENOENT) || (err =? TE_EOPNOTSUPP) then TEST_SKIP "Interface flow control parameters are not supported" []
  else if negb (err =? 0) then TEST_VERDICT "Failed to enable Rx pause handling on %s, rc=%r" [AS if_name; AI rc]
  else
    _ ← call CFG_WAIT_CHANGES;
    net_drv_wait_up_gen ta if_name false.

Definition send_pause_frames (ta if_name : string) (src_addr : list Z) : M unit :=
  csap ← CHECK_OUT (call (tapi_eth_csap_create_to_send ta if_name));
  tmpl ← CHECK_OUT (call (tapi_eth_add_pause_pdu src_addr PAUSE_QUANTA));
  _ ← CHECK_RC (call (tapi_tad_add_iterator_for tmpl 1 PAUSE_FRAMES_NUM 1));
  _ ← CHECK_RC (call (tapi_tad_trsend_blocking ta csap tmpl));
  _ ← call (asn_free_value tmpl);
  CHECK_RC (call (tapi_tad_csap_destroy ta csap)).

Definition pause_stats_steps (tst_lladdr : list Z) (factory : handle) : M unit :=
  _ ← enable_rx_pause (rpcs_ta iut_rpcs) iut_if;
  rx_pause_frames_before ← get_rx_pause_frames factory "before transmitting pause frames";
  _ ← send_pause_frames (rpcs_ta tst_rpcs) tst_if tst_lladdr;
  _ ← call (te_motivated_sleep 2);
  rx_pause_frames_after ← get_rx_pause_frames factory "after transmitting pause frames";
  _ ← when (rx_pause_frames_after <? rx_pause_frames_before)
        (TEST_VERDICT "Rx pause frames counter decreased from %d to %d" [AI rx_pause_frames_before; AI rx_pause_frames_after]);
  when (rx_pause_frames_after =? rx_pause_frames_before) (TEST_VERDICT "Rx pause frames counter did not increase" []).
Definition pause_stats_increment_main (tst_lladdr : list Z) : M status := factory_main (pause_stats_steps tst_lladdr) (mret true).

(** ** ethtool/ts_info.c *)
Section ts_info_test.
Context (TE_EBADRQC : Z).
Context (RPC_SOF_TIMESTAMPING_TX_HARDWARE RPC_SOF_TIMESTAMPING_RX_HARDWARE RPC_SOF_TIMESTAMPING_RAW_HARDWARE : Z).
Context (RPC_SOF_TIMESTAMPING_TX_SOFTWARE RPC_SOF_TIMESTAMPING_RX_SOFTWARE RPC_SOF_TIMESTAMPING_SOFTWARE : Z).
Context (RPC_SOF_TIMESTAMPING_SYS_HARDWARE : Z).
Context (RPC_HWTSTAMP_TX_OFF RPC_HWTSTAMP_TX_ON RPC_HWTSTAMP_FILTER_NONE RPC_HWTSTAMP_FILTER_ALL : Z).
Context (tx_types_str rx_filters_str : Z -> te_errno * string) (timestamping_flags_rpc2str : Z -> string).

Definition EXP_HW_TSTAMPS : Z :=
  Z.lor (Z.lor RPC_SOF_TIMESTAMPING_TX_HARDWARE RPC_SOF_TIMESTAMPING_RX_HARDWARE) RPC_SOF_TIMESTAMPING_RAW_HARDWARE.
Definition EXP_SW_TSTAMPS : Z :=
  Z.lor (Z.lor RPC_SOF_TIMESTAMPING_TX_SOFTWARE RPC_SOF_TIMESTAMPING_RX_SOFTWARE) RPC_SOF_TIMESTAMPING_SOFTWARE.
Definition EXP_TX_TYPES : Z := Z.lor (Z.shiftl 1 RPC_HWTSTAMP_TX_OFF) (Z.shiftl 1 RPC_HWTSTAMP_TX_ON).
Definition EXP_RX_FILTERS : Z := Z.lor (Z.shiftl 1 RPC_HWTSTAMP_FILTER_NONE) (Z.shiftl 1 RPC_HWTSTAMP_FILTER_ALL).

(** A field against what is expected: what is missing, what is more. *)
Definition missing (have want : Z) : Z := Z.land (Z.lnot have) want.
Definition extra (have want : Z) : Z := Z.land have (Z.lnot want).

(** A set of flags that is not empty is named in a verdict. *)
Definition say_flags (say : string -> list arg -> M unit) (fmt : string) (str : Z -> te_errno * string) (flags : Z) : M unit :=
  if negb (flags =? 0) then
    let '(rc, s) := str flags in
    if negb (rc =? 0) then raise (RC_FAILED rc) else say fmt [AS s]
  else mret tt.

Definition judge_ts_info (ti : ts_info) : M unit :=
  let so := ti_so_timestamping ti in
  let so_str flags := (0, timestamping_flags_rpc2str flags) in
  _ ← when (ti_phc_index ti <? 0) (WARN_VERDICT "No PHC device index is specified" []);
  _ ← say_flags WARN_VERDICT "Some of the expected TX types flags are not set: %s" tx_types_str (missing (ti_tx_types ti) EXP_TX_TYPES);
  _ ← say_flags RING_VERDICT "Additional TX types flags are reported: %s" tx_types_str (extra (ti_tx_types ti) EXP_TX_TYPES);
  _ ← say_flags WARN_VERDICT "Some of the expected RX filters flags are not set: %s" rx_filters_str (missing (ti_rx_filters ti) EXP_RX_FILTERS);
  _ ← say_flags RING_VERDICT "Additional RX filters flags are reported: %s" rx_filters_str (extra (ti_rx_filters ti) EXP_RX_FILTERS);
  _ ← say_flags WARN_VERDICT "Some of the expected harware timestamps flags are not set: %s" so_str (missing so EXP_HW_TSTAMPS);
  _ ← say_flags WARN_VERDICT "Some of the expected software timestamps flags are not set: %s" so_str (missing so EXP_SW_TSTAMPS);
  say_flags RING_VERDICT "NIC supports additional SO_TIMESTAMPING flags: %s" so_str
    (extra (extra (extra so EXP_HW_TSTAMPS) EXP_SW_TSTAMPS) RPC_SOF_TIMESTAMPING_SYS_HARDWARE).

(** [iut_s] has no value at first. *)
Definition ts_info_body : T (option Z) unit :=
  iut_s ← lift (rpc_ok (rpc_socket iut_rpcs));
  _ ← modify (fun _ => Some iut_s);
  '(rc, ti, err) ← lift (call (rpc_ioctl_get_ts_info iut_rpcs iut_s iut_if));
  if rc <? 0 then
    if err =? TE_RC TE_TA_UNIX TE_EBADRQC then lift (TEST_SKIP "ioctl(SIOCETHTOOL/ETHTOOL_GET_TS_INFO) is not supported" [])
    else lift (TEST_VERDICT "ioctl(SIOCETHTOOL/ETHTOOL_GET_TS_INFO) failed with error %r" [AI err])
  else lift (judge_ts_info ti).
Definition ts_info_cleanup (iut_s : option Z) : M bool :=
  match iut_s with
  | None => undef "iut_s is not initialised"
  | Some s => cleanup_close iut_rpcs s
  end.
Definition ts_info_main : M status := test_main None ts_info_body ts_info_cleanup.
End ts_info_test.
End runs.

(** ** What the tests see and do *)
Module RunsSpec.

(** A run of ethtool that succeeded, pause frames sent, the interface set down or up. *)
Inductive event := Ran (r : ethtool_report) | Frames | Down | Up.

Definition upd X (c : te_call X) : X -> list event -> list event :=
  match c in te_call X return X -> list event -> list event with
  | tapi_ethtool _ _ => fun x g => if fst x =? 0 then g ++ [Ran (snd x)] else g
  | tapi_tad_trsend_blocking _ _ _ => fun x g => if x =? 0 then g ++ [Frames] else g
  | tapi_cfg_base_if_down _ _ => fun x g => if x =? 0 then g ++ [Down] else g
  | tapi_cfg_base_if_up _ _ => fun _ g => g ++ [Up]
  | _ => fun _ g => g
  end.
Definition world : env te_call (list event) := watch upd.
Definition quiet X (c : te_call X) : bool :=
  match c with
  | tapi_ethtool _ _ | tapi_tad_trsend_blocking _ _ _ | tapi_cfg_base_if_down _ _ | tapi_cfg_base_if_up _ _ => false
  | _ => true
  end.
Lemma runs_quiet X (c : te_call X) g x g' : quiet X c = true -> world X c g x g' -> g' = g.
Proof. by destruct c; intros Hc ->. Qed.

Section counted.
Context (te_strtoul : string -> te_errno * Z).

(** The counter of bytes in a report: the statistic of the total, or the sum
    over the queues in the width of the counter. *)
Definition is_total (tx : bool) (kv : string * string) : bool := existsb (String.eqb (fst kv)) (total_names tx).
Definition is_queue (tx : bool) (kv : string * string) : bool :=
  has_prefix (queue_prefix tx) (fst kv) && bool_decide (strcmp_end "_bytes" (fst kv) = Some true).
Definition number (kv : string * string) : Z := snd (te_strtoul (snd kv)).
Definition counted (tx : bool) (stats : list (string * string)) : Z :=
  match List.find (is_total tx) stats with
  | Some kv => number kv
  | None => foldr Z.add 0 (map number (List.filter (is_queue tx) stats)) mod 2 ^ 64
  end.
End counted.
End RunsSpec.

Section runs_correct.
Context {TE : Te} (iut_rpcs tst_rpcs : rcf_rpc_server) (iut_if tst_if : string).
Import RunsSpec.
Local Abbreviation E := world.

Lemma runs_unseen {A} (p : M A) g : only quiet (fun _ => true) p ->
  wp E p g (fun r g' => g' = g /\ match r with Undef _ => False | _ => True end).
Proof.
  intros H. eapply wp_mono; [apply (wp_only quiet (fun _ => true) E (fun s => s = g)); [exact H| |done]|].
  - intros X c s x s' Hc -> Hx. by eapply runs_quiet.
  - intros [a|j|w|] s' [-> Hr]; auto.
Qed.

(** The end of a name is looked at within the name. *)
Lemma queue_name_long tx key : has_prefix (queue_prefix tx) key = true -> exists b, strcmp_end "_bytes" key = Some b.
Proof.
  intros H. unfold strcmp_end. assert (6 <= String.length key)%nat as Hl; [|cbn [String.length]; rewrite (proj2 (Nat.leb_le _ _)) by lia; eauto].
  unfold has_prefix in H. destruct tx; cbn in H;
    do 6 (destruct key as [|? key]; [done|]; cbn [String.prefix] in H; destruct (Ascii.ascii_dec _ _); [|done]); cbn [String.length]; lia.
Qed.

Lemma get_stats_from te_strtoul tx stats total g : 0 <= total < 2 ^ 64 ->
  wp E (get_stats te_strtoul tx stats total) g (fun r g' => g' = g /\ match r with
    | Val n => n = match List.find (is_total tx) stats with
                   | Some kv => number te_strtoul kv
                   | None => (total + foldr Z.add 0 (map (number te_strtoul) (List.filter (is_queue tx) stats))) mod 2 ^ 64
                   end
    | Exc j => exists rc, j = RC_FAILED rc
    | _ => False
    end).
Proof.
  revert total. induction stats as [|[key value] stats IH]; intros total Ht; cbn [get_stats List.find List.filter].
  { split; [done|]. rewrite Z.add_0_r. symmetry. by apply Z.mod_small. }
  unfold is_total at 1, is_queue at 1. cbn [fst]. destruct (existsb _ _).
  { unfold number. cbn [snd]. destruct (te_strtoul value) as [rc v]. destruct (rc =? 0); cbn; eauto. }
  destruct (has_prefix (queue_prefix tx) key) eqn:Hp; cbn [andb]; [|by apply IH].
  destruct (queue_name_long tx key Hp) as [b ->]. destruct b; [|by apply IH].
  rewrite bool_decide_eq_true_2 by done. destruct (te_strtoul value) as [rc v] eqn:Ev.
  destruct (Z.eqb_spec rc 0); cbn [negb]; [|cbn; eauto]. eapply wp_mono; [apply IH, u64_range|].
  intros [n|j|w|] g' [-> Hn]; try done. split; [done|]. rewrite Hn. destruct (List.find _ stats); [done|].
  cbn [map foldr]. unfold number at 2, u64. cbn [snd]. rewrite Ev. cbn [snd]. rewrite Zplus_mod_idemp_l. f_equal. lia.
Qed.

(** The counter is what is specified, and nothing beyond a name is read. *)
Lemma get_stats_correct te_strtoul tx stats g :
  wp E (get_stats te_strtoul tx stats 0) g (fun r g' => g' = g /\ match r with
    | Val n => n = counted te_strtoul tx stats
    | Exc j => exists rc, j = RC_FAILED rc
    | _ => False
    end).
Proof. apply get_stats_from. lia. Qed.

Lemma bytes_now_seen te_strtoul factory stage g :
  wp E (bytes_now iut_if te_strtoul factory stage) g (fun r g' => match r with
    | Val (tx, rx) => exists rep, g' = g ++ [Ran rep] /\ tx = counted te_strtoul true (et_stats rep) /\ rx = counted te_strtoul false (et_stats rep)
    | Undef _ => False
    | _ => True
    end).
Proof.
  unfold bytes_now. wp_step. wp_step. wp_answer. cbn [bpost]. destruct x as [rc rep]. cbn [upd fst snd]. destruct (rc =? 0); cbn [negb]; [|exact I].
  wp_step. eapply wp_mono; [apply runs_unseen; solve_only|]. intros [[]|j|w|] g' [-> Hr]; try done. cbn [bpost]. wp_step. eapply wp_mono; [apply get_stats_correct|]. intros [tx|j|w|] g' [-> H]; try done. cbn [bpost].
  wp_step. eapply wp_mono; [apply get_stats_correct|]. intros [rx|j|w|] g' [-> H']; try done. cbn. by exists rep.
Qed.

Lemma conn_check_unseen fuel r1 s1 n1 r2 s2 n2 v : only quiet (fun _ => true) (net_drv_conn_check fuel r1 s1 n1 r2 s2 n2 v).
Proof.
  assert (H : forall a x b y v, only quiet (fun _ => true) (net_drv_send_recv_check fuel a x b y v)).
  { intros a x b y u. eapply (only_mono is_data_call _ data_jump); [by intros X c; destruct c|done|apply data_check_only]. }
  unfold net_drv_conn_check. repeat (apply only_bind; [apply H|intros ?]). done.
Qed.

(** A statement that is not seen, in a test that passes. *)
Lemma st_runs_unseen {St A B} (p : M A) (f : A -> T St B) G L g : only quiet (fun _ => true) p ->
  (forall a, wp E (f a L) g (upto (fun _ _ => True) G)) -> wp E (mbind f (lift p) L) g (upto (fun _ _ => True) G).
Proof. intros Ho Hf. apply st_call. eapply wp_mono; [by apply runs_unseen|]. by intros [a|j|w|] s [-> Hr]. Qed.

(** The test of the statistics passes only if both counters of bytes are
    greater after data went both ways than before. *)
Lemma statistics_passes te_strtoul fuel a1 a2 t :
  wp E (statistics_main iut_rpcs tst_rpcs iut_if te_strtoul fuel a1 a2 t) [] (fun r g => match r with
    | Val (Left _) | NoFuel => True
    | Val _ => exists r1 r2, g = [Ran r1; Ran r2] /\ forall tx, counted te_strtoul tx (et_stats r1) < counted te_strtoul tx (et_stats r2)
    | _ => False
    end).
Proof.
  unfold statistics_main. apply (test_main_passes _ _ _ _ _ (fun _ g => exists r1 r2, g = [Ran r1; Ran r2] /\
    forall tx, counted te_strtoul tx (et_stats r1) < counted te_strtoul tx (et_stats r2))).
  - unfold statistics_body. apply st_runs_unseen; [solve_only|]. intros f. apply st_modify.
    apply st_call. eapply wp_mono; [apply bytes_now_seen|]. intros [[tx1 rx1]|j|w|] g H1; try done.
    destruct H1 as (r1 & -> & -> & ->). cbn [app]. apply st_runs_unseen; [solve_only|]. intros [s1 s2]. apply st_modify.
    apply st_runs_unseen; [apply conn_check_unseen|]. intros _. apply st_runs_unseen; [solve_only|]. intros _.
    apply st_call. eapply wp_mono; [apply bytes_now_seen|]. intros [[tx2 rx2]|j|w|] g H2; try done.
    destruct H2 as (r2 & -> & -> & ->). unfold lift. apply wp_bind, wp_attempt. unfold judge_bytes. cbn [fst snd].
    wp_go; try done. apply orb_false_iff in Heqb1 as [H1 H2]. autorewrite with zbool in *. cbn. exists r1, r2. split; [done|]. by intros [|].
  - intros L. unfold statistics_cleanup, also, cleanup_close. solve_returns.
  - intros L g HG. eapply wp_mono; [apply runs_unseen; unfold statistics_cleanup, also, cleanup_close; solve_only|]. by intros r s [-> _].
Qed.

(** ** Runs with a factory only *)

(** Tests that pass have seen what their steps have, and what the cleanup adds. *)
Lemma factory_main_passes (p : handle -> M unit) (c : M bool) g0 (Q : list event -> Prop) :
  (forall f, wp E (p f) g0 (fun r g => match r with
     | Val _ => wp E c g (fun _ => Q) | Undef _ => False | _ => True end)) -> returns c ->
  wp E (factory_main iut_rpcs p c) g0 (fun r g => match r with
    | Val (Left _) | NoFuel => True
    | Val _ => Q g
    | _ => False
    end).
Proof.
  intros Hp Hc. unfold factory_main. apply (test_main_passes _ _ _ _ _ (fun _ g => wp E c g (fun _ => Q))).
  - apply st_runs_unseen; [solve_only|]. intros f. apply st_modify. unfold lift. apply wp_bind, wp_attempt.
    eapply wp_mono; [apply Hp|]. by intros [[]|j|w|] g H.
  - intros f. unfold also. apply returns_bind; [exact Hc|]. intros b. solve_returns.
  - intros f g H. unfold also. wp_step. eapply wp_mono; [exact H|]. intros [b|j|w|] g' H'; cbn [bpost]; try exact H'. wp_go. exact H'.
Qed.

(** The test of the properties passes only if ethtool reported that the link is
    up, and that it is down once the interface was set down; the cleanup set it up. *)
Lemma dev_properties_passes :
  wp E (dev_properties_main iut_rpcs iut_if) [] (fun r g => match r with
    | Val (Left _) | NoFuel => True
    | Val _ => exists r1 r2, g = [Ran r1; Down; Ran r2; Up] /\ et_link r1 = true /\ et_link r2 = false
    | _ => False
    end).
Proof.
  apply factory_main_passes.
  - intros f. unfold dev_properties_steps.
    wp_go; try done; cbn [upd fst snd] in *; autorewrite with zbool in *; subst; cbn [Z.eqb app] in *.
    all: unfold NET_DRV_CLEANUP_SET_UP_WAIT, cleanup_rc, net_drv_wait_up_gen.
    all: wp_go; cbn [upd app]; eauto 10.
  - unfold NET_DRV_CLEANUP_SET_UP_WAIT, cleanup_rc, net_drv_wait_up_gen, ERROR_VERDICT. solve_returns.
Qed.

Lemma pause_frames_seen factory stage g :
  wp E (get_rx_pause_frames iut_if factory stage) g (fun r g' => match r with
    | Val n => exists rep, g' = g ++ [Ran rep] /\ pr_rx_pause_frames (et_pause rep) = Some n /\ n < 2 ^ 31
    | Undef _ => False
    | _ => True
    end).
Proof.
  unfold get_rx_pause_frames. wp_go; try done; cbn [upd fst snd] in *; autorewrite with zbool in *; subst; cbn [Z.eqb].
  all: destruct (pr_rx_pause_frames (et_pause e)) as [v|] eqn:Ev; [|done]; destruct (Z.ltb_spec (2 ^ 31 - 1) v); [done|].
  all: exists e; split; [done|]; split; [done|]; lia.
Qed.

Lemma pause_frames_sent ta ifn src g :
  wp E (send_pause_frames ta ifn src) g (fun r g' => match r with
    | Val _ => g' = g ++ [Frames]
    | Undef _ => False
    | _ => True
    end).
Proof.
  unfold send_pause_frames. wp_go; try done; cbn [upd] in *; autorewrite with zbool in *; subst; done.
Qed.

(** The test of the counter of pause frames passes only if the counter, that of
    an int each time, grew from before to after the frames were sent. *)
Lemma pause_stats_passes src :
  wp E (pause_stats_increment_main iut_rpcs tst_rpcs iut_if tst_if src) [] (fun r g => match r with
    | Val (Left _) | NoFuel => True
    | Val _ => exists r1 r2 a b, g = [Ran r1; Frames; Ran r2] /\ pr_rx_pause_frames (et_pause r1) = Some a /\
        pr_rx_pause_frames (et_pause r2) = Some b /\ a < b < 2 ^ 31
    | _ => False
    end).
Proof.
  apply factory_main_passes; [|done]. intros f. unfold pause_stats_steps.
  wp_step. eapply wp_mono; [apply runs_unseen; unfold enable_rx_pause, net_drv_wait_up_gen; solve_only|].
  intros [[]|j|w|] g [-> Hr]; try done. cbn [bpost].
  wp_step. eapply wp_mono; [apply pause_frames_seen|]. intros [a|j|w|] g H1; try done. destruct H1 as (r1 & -> & E1 & L1). cbn [bpost].
  wp_step. eapply wp_mono; [apply pause_frames_sent|]. intros [[]|j|w|] g H2; try done. subst g. cbn [bpost].
  wp_step. wp_step. wp_answer. cbn [bpost upd].
  wp_step. eapply wp_mono; [apply pause_frames_seen|]. intros [b|j|w|] g H3; try done. destruct H3 as (r2 & -> & E2 & L2). cbn [bpost].
  wp_go; try done. autorewrite with zbool in *. exists r1, r2, a, b. split; [done|]. split; [done|]. split; [done|]. lia.
Qed.
End runs_correct.

(** ** The CSAP of the pause frames *)
Section pause_leak.
Context {TE : Te}.

(** It is destroyed when the frames were sent; when a call fails before that it
    is left, since no cleanup knows it. *)
Lemma send_pause_frames_csap ta ifn src g :
  wp h_world (send_pause_frames ta ifn src) g (fun r g' => h_socks g' = h_socks g /\ match r with
    | Val _ => h_csaps g' ≡ₚ h_csaps g
    | Exc _ => h_csaps g' ⊆+ h_csaps g \/ exists c, h_csaps g' = h_csaps g ++ [(ta, c)]
    | _ => False
    end).
Proof.
  unfold send_pause_frames. wp_go; cbn [h_upd fst snd] in *; unfold when_ok; autorewrite with zbool in *; subst; cbn [Z.eqb];
    repeat match goal with |- context [if ?z =? 0 then _ else _] => rewrite (proj2 (Z.eqb_neq z 0)) by done end.
  all: split; [done|]; cbn [h_csaps h_csap h_uncsap].
  all: try (right; by eexists); try (by left).
  - apply (Permutation_cons_inv (a := (ta, z))). rewrite <- drop_one_perm by (apply elem_of_app; right; apply list_elem_of_here).
    by rewrite Permutation_app_comm.
  - left. apply drop_one_submseteq. by rewrite Permutation_app_comm.
Qed.
End pause_leak.

(** ** Factories *)
Module FactorySpec.
(** The factories that exist. *)
Definition upd X (c : te_call X) : X -> list handle -> list handle :=
  match c in te_call X return X -> list handle -> list handle with
  | tapi_job_factory_rpc_create _ => fun x g => if fst x =? 0 then snd x :: g else g
  | tapi_job_factory_destroy f => fun _ g => filter (fun h => h <> f) g
  | _ => fun _ g => g
  end.
(** Documented behaviour: a new factory is none that exists, and not NULL. *)
Definition ok X (c : te_call X) : list handle -> X -> Prop :=
  match c in te_call X return list handle -> X -> Prop with
  | tapi_job_factory_rpc_create _ => fun g x => fst x = 0 -> snd x <> 0 /\ snd x ∉ g
  | _ => fun _ _ => True
  end.
Definition world : env te_call (list handle) := watch_if ok upd.
Definition quiet X (c : te_call X) : bool :=
  match c with tapi_job_factory_rpc_create _ | tapi_job_factory_destroy _ => false | _ => true end.
Lemma factory_quiet X (c : te_call X) g x g' : quiet X c = true -> world X c g x g' -> g' = g.
Proof. by destruct c; intros Hc [_ ->]. Qed.
End FactorySpec.

Section factories.
Context {TE : Te} (iut_rpcs tst_rpcs : rcf_rpc_server) (iut_if tst_if : string).
Import FactorySpec.

(** However a test with a factory ends, the factory is destroyed. *)
Lemma factory_main_tidy (p : handle -> M unit) (c : M bool) :
  (forall f, only quiet any_jump (p f)) -> only quiet any_jump c -> returns c ->
  wp world (factory_main iut_rpcs p c) [] (fun r g => match r with Val _ => g = [] | NoFuel => True | _ => False end).
Proof.
  intros Hp Hc Hr. unfold factory_main.
  eapply (test_main_keeps _ (fun L g => L = 0 /\ g = []) (fun L g => g = [] \/ g = [L])); [done| |].
  - intros L g [-> ->]. apply st_call. unfold CHECK_OUT. wp_go; cbn [upd fst snd].
    + rewrite Heqb. apply st_modify. unfold lift. apply wp_bind, wp_attempt.
      eapply wp_mono; [apply (wp_only quiet any_jump world (fun s => s = [z])); [apply Hp| |done]|].
      * intros X c0 s x s' Hq -> Hx. by eapply factory_quiet.
      * intros [a|j|w|] s' [-> Hj]; cbn; auto.
    + rewrite Heqb. by left.
  - intros L g HL. unfold also. wp_step.
    eapply wp_mono; [apply wp_and; [apply (wp_only quiet any_jump world (fun s => s = g)); [exact Hc| |done]|by apply wp_returns]|].
    + intros X c0 s x s' Hq -> Hx. by eapply factory_quiet.
    + intros r s' [[-> _] [b ->]]. cbn [bpost]. wp_go. cbn [upd]. destruct HL as [-> | ->]; [done|].
      rewrite filter_cons_False by tauto. done.
Qed.

Lemma dev_properties_tidy :
  wp world (dev_properties_main iut_rpcs iut_if) [] (fun r g => match r with Val _ => g = [] | NoFuel => True | _ => False end).
Proof.
  apply factory_main_tidy; unfold dev_properties_steps, NET_DRV_CLEANUP_SET_UP_WAIT, cleanup_rc, net_drv_wait_up_gen, ERROR_VERDICT;
    [intros f; solve_only|solve_only|solve_returns].
Qed.

Lemma dump_tidy e opts what :
  wp world (factory_main iut_rpcs (dump_steps e opts what) (mret true)) [] (fun r g => match r with Val _ => g = [] | NoFuel => True | _ => False end).
Proof. apply factory_main_tidy; [|done|done]. intros f. unfold dump_steps. solve_only. Qed.

Lemma show_tidy cmd :
  wp world (factory_main iut_rpcs (show_steps iut_if cmd) (mret true)) [] (fun r g => match r with Val _ => g = [] | NoFuel => True | _ => False end).
Proof. apply factory_main_tidy; [|done|done]. intros f. unfold show_steps, show_run. solve_only. Qed.

Lemma show_pause_tidy :
  wp world (show_pause_main iut_rpcs iut_if) [] (fun r g => match r with Val _ => g = [] | NoFuel => True | _ => False end).
Proof. apply factory_main_tidy; [|done|done]. intros f. unfold show_pause_steps, show_run. solve_only. Qed.

Lemma pause_stats_tidy src :
  wp world (pause_stats_increment_main iut_rpcs tst_rpcs iut_if tst_if src) [] (fun r g => match r with Val _ => g = [] | NoFuel => True | _ => False end).
Proof.
  apply factory_main_tidy; [|done|done]. intros f.
  unfold pause_stats_steps, enable_rx_pause, net_drv_wait_up_gen, get_rx_pause_frames, send_pause_frames. solve_only.
Qed.
End factories.

(** ** Time stamping *)
Module TsSpec.
(** The verdicts that were given; whether the socket was created. *)
Record seen := Seen { ts_said : list msg; ts_socket : option bool }.
Definition upd X (c : te_call X) : X -> seen -> seen :=
  match c in te_call X return X -> seen -> seen with
  | verdict _ m => fun _ g => Seen (ts_said g ++ [m]) (ts_socket g)
  | rpc_socket _ => fun x g => Seen (ts_said g) (Some (0 <=? fst x))
  | _ => fun _ g => g
  end.
Definition world : env te_call seen := watch upd.
End TsSpec.

Lemma missing_none have want : missing have want = 0 <-> Z.land have want = want.
Proof.
  unfold missing. split; intros H.
  - apply Z.bits_inj'. intros i Hi. rewrite Z.land_spec. apply (f_equal (fun x => Z.testbit x i)) in H.
    rewrite Z.land_spec, Z.lnot_spec, Z.bits_0 in H by done. by destruct (Z.testbit have i), (Z.testbit want i).
  - apply Z.bits_inj'. intros i Hi. rewrite Z.land_spec, Z.lnot_spec, Z.bits_0 by done.
    apply (f_equal (fun x => Z.testbit x i)) in H. rewrite Z.land_spec in H. by destruct (Z.testbit have i), (Z.testbit want i).
Qed.

Lemma extra_none have want : extra have want = 0 <-> Z.land have want = have.
Proof.
  unfold extra. rewrite (Z.land_comm have want), (Z.land_comm have). apply missing_none.
Qed.

(** Nothing missing and nothing more: as expected. *)
Lemma flags_exact have want : missing have want = 0 /\ extra have want = 0 <-> have = want.
Proof. rewrite missing_none, extra_none. split; [intros [H1 H2]; congruence|intros ->; by rewrite Z.land_diag]. Qed.

Section ts_correct.
Context {TE : Te} (iut_rpcs : rcf_rpc_server) (iut_if : string).
Import TsSpec.
Local Abbreviation E := world.

(** What is said from here on is nothing exactly when [c]. *)
Definition says (c : Prop) (g : seen) (r : result unit) (g' : seen) : Prop :=
  match r with
  | Val _ => exists l, ts_said g' = ts_said g ++ l /\ (l = [] <-> c)
  | Exc _ => True
  | _ => False
  end.

Lemma says_bind (p : M unit) (f : unit -> M unit) c1 c2 c g : (c <-> c1 /\ c2) ->
  wp E p g (says c1 g) -> (forall g', wp E (f tt) g' (says c2 g')) -> wp E (mbind f p) g (says c g).
Proof.
  intros Hc Hp Hf. apply wp_bind. eapply wp_mono; [exact Hp|]. intros [[]|j|w|] g1 H1; try done. destruct H1 as (l1 & E1 & C1).
  eapply wp_mono; [apply Hf|]. intros [[]|j|w|] g2 H2; try done. destruct H2 as (l2 & E2 & C2).
  exists (l1 ++ l2). rewrite E2, E1, app_assoc. split; [done|]. rewrite Hc, <- C1, <- C2. split; [apply app_eq_nil|by intros [-> ->]].
Qed.

Lemma says_one (b : bool) (p : M unit) c g : (b = false <-> c) ->
  (forall g, wp E p g (fun r g' => match r with Val _ => exists m, ts_said g' = ts_said g ++ [m] | Exc _ => True | _ => False end)) ->
  wp E (if b then p else mret tt) g (says c g).
Proof.
  intros Hc Hp. destruct b.
  - eapply wp_mono; [apply Hp|]. intros [[]|j|w|] g' H; try done. destruct H as [m H]. exists [m]. split; [done|]. rewrite <- Hc. by split.
  - exists []. split; [by rewrite app_nil_r|]. by rewrite <- Hc.
Qed.

Section flags.
Context (TE_EBADRQC tx_hw rx_hw raw_hw tx_sw rx_sw sw sys_hw tx_off tx_on f_none f_all : Z).
Context (tx_types_str rx_filters_str : Z -> te_errno * string) (so_str : Z -> string).
Local Abbreviation hw := (EXP_HW_TSTAMPS tx_hw rx_hw raw_hw).
Local Abbreviation soft := (EXP_SW_TSTAMPS tx_sw rx_sw sw).

Lemma say_flags_says (l : verdict_level) fmt str flags g :
  wp E (say_flags (fun f a => call (verdict l (Msg f a))) fmt str flags) g (says (flags = 0) g).
Proof.
  unfold say_flags. apply says_one; [by rewrite negb_false_iff, Z.eqb_eq|]. intros g'. destruct (str flags) as [rc s].
  destruct (negb (rc =? 0)); [done|]. wp_go. cbn. eauto.
Qed.

(** The test gives no verdict exactly when there is a clock, each set of types
    and of filters is the one expected, and the flags of time stamping are those
    of hardware and software, the deprecated one apart. *)
Lemma judge_ts_info_silent ti g :
  wp E (judge_ts_info tx_hw rx_hw raw_hw tx_sw rx_sw sw sys_hw tx_off tx_on f_none f_all tx_types_str rx_filters_str so_str ti) g
    (says (0 <= ti_phc_index ti /\ ti_tx_types ti = EXP_TX_TYPES tx_off tx_on /\ ti_rx_filters ti = EXP_RX_FILTERS f_none f_all /\
           Z.land (ti_so_timestamping ti) hw = hw /\ Z.land (ti_so_timestamping ti) soft = soft /\
           Z.land (Z.land (Z.land (ti_so_timestamping ti) (Z.lnot hw)) (Z.lnot soft)) (Z.lnot sys_hw) = 0) g).
Proof.
  eapply wp_mono.
  - unfold judge_ts_info.
    eapply says_bind; [reflexivity|apply says_one; [reflexivity|]; intros g'; wp_go; cbn; eauto|intros g1].
    do 6 (eapply says_bind; [reflexivity|apply say_flags_says|intros ?]). apply say_flags_says.
  - intros [[]|j|w|] g' H; try done. destruct H as (l & El & Hl). exists l. split; [done|]. rewrite Hl, !missing_none.
    rewrite <- (flags_exact (ti_tx_types ti)), <- (flags_exact (ti_rx_filters ti)), <- !missing_none, Z.ltb_ge.
    unfold extra at 3 4 5. tauto.
Qed.

(** The variable of the socket is read without a value exactly when the socket
    could not be created. *)
Lemma ts_info_undefined_iff :
  wp E (ts_info_main iut_rpcs iut_if TE_EBADRQC tx_hw rx_hw raw_hw tx_sw rx_sw sw sys_hw tx_off tx_on f_none f_all
          tx_types_str rx_filters_str so_str) (Seen [] None) (fun r g => match r with
    | Undef _ => ts_socket g = Some false
    | NoFuel => True
    | _ => ts_socket g = Some true
    end).
Proof.
  unfold ts_info_main, test_main. wp_step.
  apply (wp_mono _ _ _ (upto (fun L g => ts_socket g = Some (bool_decide (L <> None)))
                             (fun _ L g => L <> None /\ ts_socket g = Some true))).
  - unfold ts_info_body. apply st_call. wp_go; cbn [upd fst snd]; cbn [ts_socket].
    + autorewrite with zbool in *. by rewrite (proj2 (Z.leb_gt 0 _)).
    + autorewrite with zbool in *. rewrite (proj2 (Z.leb_le 0 _)) by done. apply st_modify, st_call. wp_go. cbn [upd].
      match goal with x : _ * ts_info * te_errno |- _ => destruct x as [[rc ti] err] end.
      destruct (rc <? 0); [by destruct (err =? _)|]. unfold lift. apply wp_bind, wp_attempt.
      apply (wp_mono _ _ _ (fun r g => ts_socket g = Some true /\ match r with Val _ | Exc _ => True | _ => False end)).
      * unfold judge_ts_info, say_flags. wp_go; done.
      * by intros [[]|j|w|] g [Hg H].
  - intros [[L [[]|j]]|j|w|] g H; cbn [upto bpost] in *; try done.
    + destruct H as [HL H]. destruct L as [s|]; [|done]. unfold ts_info_cleanup, cleanup_close. wp_go; exact H.
    + destruct L as [s|]; cbn in H; unfold ts_info_cleanup, cleanup_close; wp_go; exact H.
Qed.
End flags.
End ts_correct.

(** ** Sockets *)
Lemma statistics_releases {TE : Te} iut tst ifn te_strtoul fuel a1 a2 t init :
  wp h_world (statistics_main iut tst ifn te_strtoul fuel a1 a2 t) (clean init)
    (fun r g => match r with Val _ => gave_back g | NoFuel => True | _ => False end).
Proof.
  pose (socks := fun l => sock_at iut (sl_iut_s l) ++ sock_at tst (sl_tst_s l)).
  assert (Hs : forall tx stats total, only handle_free any_jump (get_stats te_strtoul tx stats total)).
  { intros tx. induction stats as [|[k v] stats IH]; intros total; cbn [get_stats]; [done|]. destruct (existsb _ _).
    { destruct (te_strtoul v) as [rc x]. by destruct (rc =? 0). }
    destruct (has_prefix _ k) eqn:Hp; [|apply IH]. destruct (queue_name_long tx k Hp) as [[|] ->]; [|apply IH].
    destruct (te_strtoul v) as [rc x]. destruct (rc =? 0); [apply IH|done]. }
  unfold statistics_main. eapply (test_main_keeps _ (fun L g => L = sl_start /\ holding socks (fun _ => []) L g) (holding socks (fun _ => []))).
  - split; [done|]. split; apply submseteq_nil_l.
  - intros L g [-> Hg]. unfold statistics_body. apply st_free; [solve_only|done|]. clear g Hg. intros f g Hg. apply st_modify.
    assert (Hg' : holding socks (fun _ => []) (sl_set_factory f sl_start) g) by exact Hg. clear Hg. rename Hg' into Hg.
    apply st_free; [unfold bytes_now; solve_only; apply Hs|done|]. clear g Hg. intros before g Hg.
    eapply st_connect; [exact Hg|]. intros s1 s2 g' H1 H2 E1 E2. apply st_modify.
    assert (Hg' : holding socks (fun _ => []) (sl_set_socks s1 s2 (sl_set_factory f sl_start)) g').
    { split; [|exact E2]. unfold socks, sock_at. cbn. by rewrite (proj2 (Z.leb_le 0 s1)), (proj2 (Z.leb_le 0 s2)). }
    revert Hg'. generalize (sl_set_socks s1 s2 (sl_set_factory f sl_start)). clear -Hs. intros L Hg. rename g' into g.
    apply st_free; [unfold net_drv_conn_check; repeat (apply only_bind; [apply check_free|intros ?]); done|done|]. clear g Hg. intros _ g Hg.
    apply st_free; [solve_only|done|]. clear g Hg. intros _ g Hg.
    apply st_free; [unfold bytes_now; solve_only; apply Hs|done|]. clear g Hg. intros after g Hg.
    apply st_free_last; [unfold judge_bytes; solve_only|done].
  - intros L g [H1 H2]. unfold statistics_cleanup, also. wp_step. eapply close_held; [exact H1|]. intros b1 g1 E1 C1. cbn [bpost].
    do 2 wp_step. eapply (close_held _ _ []); [by rewrite app_nil_r|]. intros b2 g2 E2 C2. cbn [bpost].
    wp_go. cbn [h_upd]. split; [by apply submseteq_nil_r|]. rewrite C2, C1. by apply submseteq_nil_r.
Qed.
