(* ===== verification/EthtoolFeatures.v ===== *)
(** ethtool/loopback.c, ethtool/eee.c and ethtool/msglvl.c: tests of features
    that ethtool controls. *)
From S2P Require Import Prelude Prog Te Locals CString Double NetDrvTs Resources RxCommon Holding Judging BasicTests EthtoolRuns.

Section features.
Context {TE : Te} (iut_rpcs tst_rpcs : rcf_rpc_server) (iut_if tst_if : string).
Local Abbreviation iut_ta := (rpcs_ta iut_rpcs).
Local Abbreviation tst_ta := (rpcs_ta tst_rpcs).

(** ** ethtool/loopback.c *)
Section loopback.
(** The size of the payload, of TE. *)
Context (ETHER_DATA_LEN : Z).
Definition TEST_RECV_WAIT_MS : Z := 500.
Definition TEST_SEND_DELAY_MS : Z := 1000.

Record lb_locals := LbLocals { lb_iut_rx : Z; lb_tst_rx : Z; lb_ptrn : handle }.
Definition lb_start : lb_locals := LbLocals CSAP_INVALID_HANDLE CSAP_INVALID_HANDLE 0.
Definition lb_set_iut_rx (c : Z) (l : lb_locals) : lb_locals := LbLocals c (lb_tst_rx l) (lb_ptrn l).
Definition lb_set_tst_rx (c : Z) (l : lb_locals) : lb_locals := LbLocals (lb_iut_rx l) c (lb_ptrn l).
Definition lb_set_ptrn (p : handle) (l : lb_locals) : lb_locals := LbLocals (lb_iut_rx l) (lb_tst_rx l) p.

Definition disable_source_pruning : M unit :=
  '(rc, disabled) ← call (tapi_cfg_if_priv_flag_get iut_ta iut_if "disable-source-pruning");
  let err := TE_RC_GET_ERROR rc in
  if err =? 0 then
    when (negb disabled) (CHECK_RC (call (tapi_cfg_if_priv_flag_set iut_ta iut_if "disable-source-pruning" true)))
  else if err =? TE_ENOENT then mret tt
  else TEST_FAIL "Failed to get disable-source-pruning on IUT interface %s:: $r" [AS iut_if; AI rc].

(** The payload, and the pattern of the packet. *)
Definition loopback_pattern (tmpl : handle) : M handle :=
  _ ← CHECK_RC (call (tapi_ndn_subst_env tmpl));
  payload_len ← call (rand_range 0 ETHER_DATA_LEN);
  payload ← call (te_fill_buf payload_len);
  _ ← CHECK_RC (call (tapi_tad_tmpl_ptrn_set_payload_plain tmpl payload));
  CHECK_OUT (call (tapi_ndn_tmpl_to_ptrn tmpl)).

(** How many packets a CSAP received, however the waiting ended. *)
Definition wait_received (ta : string) (csap : Z) (where_ : string) : M Z :=
  '(rc, received) ← call (tapi_tad_trrecv_wait ta csap);
  if negb (rc =? 0) && negb (TE_RC_GET_ERROR rc =? TE_ETIMEDOUT) then
    TEST_FAIL ("Failed to wait for traffic receive on " +:+ where_ +:+ ": %r") [AI rc]
  else
    _ ← CHECK_OUT (call (tapi_tad_csap_get_no_match_pkts ta csap));
    mret received.

Definition loopback_judge (iut_rx tst_rx : Z) : M unit :=
  tst_received ← wait_received tst_ta tst_rx "Tester";
  _ ← when (negb (tst_received =? 0)) (ERROR_VERDICT "Sent packet is received on Tester regardless loopback" []);
  iut_received ← wait_received iut_ta iut_rx "IUT";
  _ ← when (iut_received =? 0) (ERROR_VERDICT "Sent packet is not received on IUT with loopback" []);
  _ ← when (1 <? iut_received) (ERROR_VERDICT "Duplicate sent packet are received on IUT with loopback" []);
  let fail := negb (tst_received =? 0) || (iut_received =? 0) || (1 <? iut_received) in
  if fail then TEST_STOP else mret tt.

Definition loopback_body (tmpl : handle) : T lb_locals unit :=
  _ ← lift disable_source_pruning;
  _ ← lift (net_drv_set_if_feature iut_ta iut_if "loopback" 1);
  ptrn ← lift (loopback_pattern tmpl);
  _ ← modify (lb_set_ptrn ptrn);
  _ ← lift (net_drv_wait_up_gen iut_ta iut_if false);
  iut_rx ← lift (CHECK_OUT (call (tapi_eth_based_csap_create_by_tmpl iut_ta iut_if TAD_ETH_RECV_DEF tmpl)));
  _ ← modify (lb_set_iut_rx iut_rx);
  _ ← lift (CHECK_RC (call (tapi_tad_trrecv_start_ptrn iut_ta iut_rx ptrn (TEST_SEND_DELAY_MS + TEST_RECV_WAIT_MS))));
  tst_rx ← lift (CHECK_OUT (call (tapi_eth_based_csap_create_by_tmpl tst_ta tst_if TAD_ETH_RECV_DEF tmpl)));
  _ ← modify (lb_set_tst_rx tst_rx);
  _ ← lift (CHECK_RC (call (tapi_tad_trrecv_start_ptrn tst_ta tst_rx ptrn (TEST_SEND_DELAY_MS + TEST_RECV_WAIT_MS))));
  _ ← lift (call (te_msleep TEST_SEND_DELAY_MS));
  _ ← lift (CHECK_RC (call (tapi_eth_gen_traffic_sniff_pattern iut_ta iut_if tmpl)));
  lift (loopback_judge iut_rx tst_rx).

Definition loopback_cleanup (tmpl : handle) (l : lb_locals) : M bool :=
  also (cleanup_rc (call (tapi_tad_csap_destroy iut_ta (lb_iut_rx l))))
 (also (cleanup_rc (call (tapi_tad_csap_destroy tst_ta (lb_tst_rx l))))
       (_ ← call (asn_free_value (lb_ptrn l)); _ ← call (asn_free_value tmpl); mret true)).
Definition loopback_main (tmpl : handle) : M status := test_main lb_start (loopback_body tmpl) (loopback_cleanup tmpl).
End loopback.

(** ** ethtool/eee.c *)
Section eee.
Context (fuel : nat) (iut_addr tst_addr : sockaddr).
(** [rc] of main(), which nothing assigns; the default options of ping. *)
Context (main_rc : Z).

Definition EEE_NEG_TIMEOUT : Z := 7.
Definition PING_TIME : Z := 3.
Definition PING_TIMEOUT : Z := TE_SEC2MS (PING_TIME + 2).
Definition PING_INTERVAL : double := d_lit 1 100.
Definition LPI_TIMER_LOW : Z := 10.
Definition LPI_TIMER_HIGH : Z := 30000.
Definition CMP_THRESHOLD : double := d_lit 5 100.

(** The two sides are compared with what EEE was set to. *)
Definition check_active (ta if_name where_ : string) (enable : bool) : M bool :=
  active ← CHECK_OUT (call (tapi_cfg_if_eee_active_get ta if_name));
  if negb (Bool.eqb active enable) then
    _ ← ERROR_VERDICT ("After %s EEE, it is%s active on " +:+ where_)
          [AS (if enable then "enabling" else "disabling"); AS (if active : bool then "" else " not")];
    mret false
  else mret true.

Definition check_eee_enable (iut_s tst_s : Z) (enable : bool) : M bool :=
  te_rc ← call (tapi_cfg_if_eee_enabled_set iut_ta iut_if enable);
  if negb (te_rc =? 0) then TEST_VERDICT "Failed to %s EEE on IUT" [AS (if enable then "enable" else "disable")] else
  _ ← call (te_motivated_sleep EEE_NEG_TIMEOUT);
  on_iut ← check_active iut_ta iut_if "IUT" enable;
  on_tst ← check_active tst_ta tst_if "Tester" enable;
  _ ← net_drv_conn_check fuel iut_rpcs iut_s "IUT socket" tst_rpcs tst_s "Tester socket"
        ("Checking connection when EEE is " +:+ (if enable then "enabled" else "disabled"))%string;
  mret (on_iut && on_tst).

(** [lpi_timer < 0]: it is left as it is. *)
Definition check_lpi_ping (iut_s tst_s : Z) (ping_app : handle) (lpi_enable : bool) (lpi_timer : Z) (vpref : string) : M double :=
  _ ← CHECK_RC (call (tapi_cfg_if_eee_enabled_set_local iut_ta iut_if true));
  _ ← CHECK_RC (call (tapi_cfg_if_eee_tx_lpi_enabled_set_local iut_ta iut_if lpi_enable));
  _ ← when (0 <=? lpi_timer) (CHECK_RC (call (tapi_cfg_if_eee_tx_lpi_timer_set_local iut_ta iut_if lpi_timer)));
  te_rc ← call (tapi_cfg_if_eee_commit iut_ta iut_if);
  if negb (te_rc =? 0) then TEST_VERDICT "%s: failed to change EEE state" [AS vpref] else
  _ ← call (te_motivated_sleep EEE_NEG_TIMEOUT);
  _ ← net_drv_conn_check fuel iut_rpcs iut_s "IUT socket" tst_rpcs tst_s "Tester socket" vpref;
  _ ← CHECK_RC (call (tapi_ping_start ping_app));
  _ ← CHECK_RC (call (tapi_ping_wait ping_app PING_TIMEOUT));
  report ← CHECK_OUT (call (tapi_ping_get_report ping_app));
  mret (pg_rtt_avg report).

(** [MAX (v1, v2)] is [v1 > v2 ? v1 : v2]. *)
Definition approx_cmp (v1 v2 : double) : Z :=
  if SFeqb v1 (d_of_Z 0) && SFeqb v2 (d_of_Z 0) then 0
  else
    let r_diff := d_div (d_sub v1 v2) (if d_gtb v1 v2 then v1 else v2) in
    if d_ltb (d_abs r_diff) CMP_THRESHOLD then 0
    else if d_ltb r_diff (d_of_Z 0) then -1 else 1.

Record eee_locals := EeeLocals { ee_iut_s : Z; ee_tst_s : Z; ee_factory : handle; ee_ping : handle }.
Definition ee_start : eee_locals := EeeLocals (-1) (-1) 0 0.
Definition ee_set_socks (a b : Z) (l : eee_locals) : eee_locals := EeeLocals a b (ee_factory l) (ee_ping l).
Definition ee_set_factory (f : handle) (l : eee_locals) : eee_locals := EeeLocals (ee_iut_s l) (ee_tst_s l) f (ee_ping l).
Definition ee_set_ping (p : handle) (l : eee_locals) : eee_locals := EeeLocals (ee_iut_s l) (ee_tst_s l) (ee_factory l) p.

(** [PING_TIME / PING_INTERVAL] as an unsigned integer. *)
Definition packet_count : Z := default 0 (d_trunc64 (d_div (d_of_Z PING_TIME) PING_INTERVAL)).

Definition eee_initial : M bool :=
  '(te_rc, active) ← call (tapi_cfg_if_eee_active_get tst_ta tst_if);
  if negb (te_rc =? 0) then
    if TE_RC_GET_ERROR te_rc =? TE_ENOENT then TEST_SKIP "EEE is not supported on Tester" []
    else TEST_VERDICT "Failed to get EEE active state on Tester: %r" [AI main_rc]
  else mret active.

(** EEE is enabled on the tester and switched twice on the IUT. *)
Definition eee_switch (iut_s tst_s : Z) (active : bool) : M unit :=
  te_rc ← call (tapi_cfg_if_eee_enabled_set tst_ta tst_if true);
  if negb (te_rc =? 0) then TEST_VERDICT "Failed to enable EEE on Tester" [] else
  success ← check_eee_enable iut_s tst_s (negb active);
  success ← (if success : bool then check_eee_enable iut_s tst_s active else mret false);
  if negb success then TEST_STOP else mret tt.

Definition ping_opts_of (dst_addr : string) : ping_opt := PingOpt packet_count (Some PING_INTERVAL) None iut_if dst_addr.

Definition compare_pings (disabled high low : double) : M unit :=
  _ ← when (approx_cmp high disabled <? 0) (WARN_VERDICT "Enabling LPI timer reduced RTT" []);
  let cmp_r := approx_cmp high low in
  if 0 <? cmp_r then WARN_VERDICT "Lower LPI timer delay resulted in smaller average RTT" []
  else when (cmp_r =? 0) (WARN_VERDICT "Bigger LPI timer delay did not reduce RTT" []).

Definition measure_lpi (iut_s tst_s : Z) (ping_app : handle) : M unit :=
  te_rc ← call (tapi_cfg_if_eee_tx_lpi_enabled_set tst_ta tst_if false);
  if negb (te_rc =? 0) then TEST_VERDICT "Failed to disable TX LPI on Tester" [] else
  disabled ← check_lpi_ping iut_s tst_s ping_app false (-1) "Disabled TX LPI";
  high ← check_lpi_ping iut_s tst_s ping_app true LPI_TIMER_HIGH "Enabled TX LPI with big timer delay";
  low ← check_lpi_ping iut_s tst_s ping_app true LPI_TIMER_LOW "Enabled TX LPI with small timer delay";
  compare_pings disabled high low.

Definition eee_body : T eee_locals unit :=
  active ← lift eee_initial;
  '(iut_s, tst_s) ← lift (CHECK_OUT (call (GEN_CONNECTION iut_rpcs tst_rpcs RPC_SOCK_DGRAM iut_addr tst_addr)));
  _ ← modify (ee_set_socks iut_s tst_s);
  _ ← lift (eee_switch iut_s tst_s active);
  dst_addr ← lift (CHECK_OUT (call (te_sockaddr_h2str tst_addr)));
  factory ← lift (CHECK_OUT (call (tapi_job_factory_rpc_create iut_rpcs)));
  _ ← modify (ee_set_factory factory);
  ping_app ← lift (CHECK_OUT (call (tapi_ping_create factory (ping_opts_of dst_addr))));
  _ ← modify (ee_set_ping ping_app);
  lift (measure_lpi iut_s tst_s ping_app).

Definition eee_cleanup (l : eee_locals) : M bool :=
  also (cleanup_close iut_rpcs (ee_iut_s l))
 (also (cleanup_close tst_rpcs (ee_tst_s l))
 (also (cleanup_rc (call (tapi_ping_destroy (ee_ping l))))
       (_ ← call (tapi_job_factory_destroy (ee_factory l)); mret true))).
Definition eee_main : M status := test_main ee_start eee_body eee_cleanup.
End eee.

(** ** ethtool/msglvl.c *)
Section msglvl.
Context (TAPI_NETIF_MSG_ALL : Z).
Definition CONSOLE_LOGLEVEL : Z := 8.
Definition WAIT_AFTER_IF_UP : M unit := call (te_motivated_sleep 1).
Definition WAIT_AFTER_LOGS_DISABLE : M unit := call (te_motivated_sleep 3).

(** [strstr (s, p) + strlen (p)]; [None]: [p] is not found, NULL is moved. *)
Fixpoint after_str (s p : string) : option string :=
  if String.prefix p s then Some (String.substring (String.length p) (String.length s - String.length p) s)
  else match s with EmptyString => None | String _ s' => after_str s' p end.

(** [id]: its agent and its name, as set_id() sets them. *)
Definition id_ta : string := "LogListener".
Definition id_name : string := "iut".

Definition set_parser (pname ppattern : string) : M unit :=
  rc ← call (tapi_serial_parser_event_add id_ta id_name pname);
  if negb (rc =? 0) then TEST_FAIL "Failed to add %s parser event, rc=%r" [AS pname; AI rc] else
  rc ← call (tapi_serial_parser_pattern_add id_ta id_name pname ppattern);
  if rc <? 0 then TEST_FAIL "Failed to add a parser pattern: %s" [AS ppattern] else mret tt.

Definition get_count (event : string) : M Z := CHECK_OUT (call (tapi_serial_parser_event_get_count id_ta id_name event)).

Definition down_up : M unit :=
  _ ← CHECK_RC (call (tapi_cfg_base_if_down_up iut_ta iut_if));
  _ ← net_drv_wait_up_gen iut_ta iut_if false;
  WAIT_AFTER_IF_UP.

(** With all messages; [evt_up_count] and [evt_down_count] are zero here. *)
Definition msglvl_enabled (evt_up_count evt_down_count : Z) : M unit :=
  rc ← call (tapi_cfg_if_msglvl_set iut_ta iut_if TAPI_NETIF_MSG_ALL);
  if negb (rc =? 0) then TEST_VERDICT "Failed to enable all flags in msglvl" [] else
  _ ← down_up;
  evt_count1 ← get_count "driver_log";
  if evt_count1 <=? 0 then
    TEST_VERDICT "No logs from the driver were detected when all flags in msglvl are switched on" []
  else
    _ ← when (0 <? evt_up_count) (RING_VERDICT "'Link is Up' log message from driver was obtained." []);
    when (0 <? evt_down_count) (RING_VERDICT "'Link is Down' log message from driver was obtained." []).

Definition msglvl_disabled (prefix : string) : M unit :=
  rc ← call (tapi_cfg_if_msglvl_set iut_ta iut_if 0);
  if negb (rc =? 0) then TEST_VERDICT "Failed to set msglvl to zero" [] else
  _ ← WAIT_AFTER_LOGS_DISABLE;
  evt_count1 ← get_count "driver_log";
  _ ← set_parser "link_up_log" (prefix +:+ " " +:+ iut_if +:+ ": Link is Up")%string;
  _ ← set_parser "link_down_log" (prefix +:+ " " +:+ iut_if +:+ ": Link is Down")%string;
  if evt_count1 <? 0 then TEST_FAIL "Negative event count" [] else
  _ ← down_up;
  evt_count2 ← get_count "driver_log";
  evt_up_count ← get_count "link_up_log";
  evt_down_count ← get_count "link_down_log";
  let count_diff := evt_count2 - evt_count1 in
  if count_diff <? 0 then TEST_FAIL "Event count decreased" [] else
  _ ← when (0 <? evt_up_count) (RING_VERDICT "'Link is Up' log message from driver was obtained when msglvl is set to zero" []);
  _ ← when (0 <? evt_down_count) (RING_VERDICT "'Link is Down' log message from driver was obtained when msglvl is set to zero" []);
  if evt_down_count + evt_up_count <? count_diff then
    TEST_VERDICT "Some logs from driver were detected when msglvl is set to zero" []
  else mret tt.

(** [drv_name]: printing NULL gives "(null)" in the library of TE. *)
Context (print_null : string).
Definition msglvl_body : M unit :=
  '(rc, pci_oid) ← call (tapi_cfg_pci_oid_by_net_if iut_ta iut_if);
  if negb (rc =? 0) then TEST_SKIP "Cannot find PCI device for the tested interface" [] else
  match after_str pci_oid "device:" with
  | None => undef "strstr() found no device:"
  | Some pci_bus_num =>
      drv_name ← net_drv_driver_name iut_ta;
      let prefix := (default print_null drv_name +:+ " " +:+ pci_bus_num)%string in
      _ ← CHECK_RC (call (tapi_cfg_set_loglevel iut_ta CONSOLE_LOGLEVEL));
      _ ← set_parser "driver_log" prefix;
      _ ← msglvl_enabled 0 0;
      msglvl_disabled prefix
  end.
Definition msglvl_main : M status := test_main tt (lift msglvl_body) (fun _ => mret true).
End msglvl.
End features.

(** ** What the tests see and do *)
Module FeatureSpec.

(** Packets a CSAP was waited for; EEE set, its state read; messages counted. *)
Inductive event :=
| Received (ta : string) (n : Z) | SetEee (ta : string) (b : bool) | Active (ta : string) (b : bool) | Counted (name : string) (n : Z).

Definition upd X (c : te_call X) : X -> list event -> list event :=
  match c in te_call X return X -> list event -> list event with
  | tapi_tad_trrecv_wait ta _ => fun x g => g ++ [Received ta (snd x)]
  | tapi_cfg_if_eee_enabled_set ta _ b => fun x g => if x =? 0 then g ++ [SetEee ta b] else g
  | tapi_cfg_if_eee_active_get ta _ => fun x g => if fst x =? 0 then g ++ [Active ta (snd x)] else g
  | tapi_serial_parser_event_get_count _ _ e => fun x g => if fst x =? 0 then g ++ [Counted e (snd x)] else g
  | _ => fun _ g => g
  end.
(** The number of packets is unsigned; the OID of a PCI device ends with its
    "device:" part; a driver that is found has a name. *)
Definition ok X (c : te_call X) : list event -> X -> Prop :=
  match c in te_call X return list event -> X -> Prop with
  | tapi_tad_trrecv_wait _ _ => fun _ x => 0 <= snd x
  | tapi_cfg_pci_oid_by_net_if _ _ => fun _ x => fst x = 0 -> is_Some (after_str (snd x) "device:")
  | tapi_cfg_pci_get_ta_driver _ => fun _ x => fst x = 0 -> is_Some (snd x)
  | _ => fun _ _ => True
  end.
Definition world : env te_call (list event) := watch_if ok upd.
Definition quiet X (c : te_call X) : bool :=
  match c with
  | tapi_tad_trrecv_wait _ _ | tapi_cfg_if_eee_enabled_set _ _ _ | tapi_cfg_if_eee_active_get _ _
  | tapi_serial_parser_event_get_count _ _ _ => false
  | _ => true
  end.
Lemma feature_quiet X (c : te_call X) g x g' : quiet X c = true -> world X c g x g' -> g' = g.
Proof. by destruct c; intros Hc [_ ->]. Qed.
End FeatureSpec.

Section features_correct.
Context {TE : Te} (iut_rpcs tst_rpcs : rcf_rpc_server) (iut_if tst_if : string).
Import FeatureSpec.
Local Abbreviation E := world.
Local Abbreviation iut_ta := (rpcs_ta iut_rpcs).
Local Abbreviation tst_ta := (rpcs_ta tst_rpcs).

Lemma features_unseen {A} (p : M A) g : only quiet (fun _ => true) p ->
  wp E p g (fun r g' => g' = g /\ match r with Undef _ => False | _ => True end).
Proof.
  intros H. eapply wp_mono; [apply (wp_only quiet (fun _ => true) E (fun s => s = g)); [exact H| |done]|].
  - intros X c s x s' Hc -> Hx. by eapply feature_quiet.
  - intros [a|j|w|] s' [-> Hr]; auto.
Qed.

Lemma st_features_unseen {St A B} (p : M A) (f : A -> T St B) G L g : only quiet (fun _ => true) p ->
  (forall a, wp E (f a L) g (upto (fun _ _ => True) G)) -> wp E (mbind f (lift p) L) g (upto (fun _ _ => True) G).
Proof. intros Ho Hf. apply st_call. eapply wp_mono; [by apply features_unseen|]. by intros [a|j|w|] s [-> Hr]. Qed.

Lemma conn_unseen fuel r1 s1 n1 r2 s2 n2 v : only quiet (fun _ => true) (net_drv_conn_check fuel r1 s1 n1 r2 s2 n2 v).
Proof.
  assert (H : forall a x b y v, only quiet (fun _ => true) (net_drv_send_recv_check fuel a x b y v)).
  { intros a x b y u. eapply (only_mono is_data_call _ data_jump); [by intros X c; destruct c|done|apply data_check_only]. }
  unfold net_drv_conn_check. repeat (apply only_bind; [apply H|intros ?]). done.
Qed.

(** What was waited for. *)
Lemma wait_received_seen ta csap w g :
  wp E (wait_received ta csap w) g (fun r g' => match r with
    | Val n => g' = g ++ [Received ta n] /\ 0 <= n
    | Undef _ => False
    | _ => True
    end).
Proof. unfold wait_received. wp_go; try done. Qed.

(** The test of the loopback passes only if the tester received no packet and
    the IUT received one. *)
Lemma loopback_passes LEN tmpl :
  wp E (loopback_main iut_rpcs tst_rpcs iut_if tst_if LEN tmpl) [] (fun r g => match r with
    | Val (Left _) | NoFuel => True
    | Val _ => g = [Received tst_ta 0; Received iut_ta 1]
    | _ => False
    end).
Proof.
  unfold loopback_main. apply (test_main_passes _ _ _ _ _ (fun _ g => g = [Received tst_ta 0; Received iut_ta 1])).
  - unfold loopback_body.
    apply st_features_unseen; [unfold disable_source_pruning; solve_only|intros _].
    apply st_features_unseen; [unfold net_drv_set_if_feature, net_drv_set_if_feature_gen; solve_only|intros _].
    apply st_features_unseen; [unfold loopback_pattern; solve_only|intros ptrn]. apply st_modify.
    apply st_features_unseen; [unfold net_drv_wait_up_gen; solve_only|intros _].
    apply st_features_unseen; [solve_only|intros c1]. apply st_modify. apply st_features_unseen; [solve_only|intros _].
    apply st_features_unseen; [solve_only|intros c2]. apply st_modify.
    do 3 (apply st_features_unseen; [solve_only|intros _]).
    unfold lift. apply wp_bind, wp_attempt. unfold loopback_judge.
    wp_step. eapply wp_mono; [apply wait_received_seen|]. intros [n|j|w|] g H1; try done. destruct H1 as [-> H1]. cbn [bpost app].
    wp_step. eapply wp_mono; [apply features_unseen; solve_only|]. intros [[]|j|w|] g [-> Hu]; try done; clear Hu. cbn [bpost].
    wp_step. eapply wp_mono; [apply wait_received_seen|]. intros [m|j|w|] g H2; try done. destruct H2 as [-> H2]. cbn [bpost app].
    do 2 (wp_step; eapply wp_mono; [apply features_unseen; solve_only|]; intros [[]|j|w|] g [-> Hu]; try done; clear Hu; cbn [bpost]).
    destruct (negb (n =? 0) || (m =? 0) || (1 <? m)) eqn:Hf; [done|]. apply orb_false_iff in Hf as [Hf H3]. apply orb_false_iff in Hf as [H4 H5].
    autorewrite with zbool in *. cbn. subst. do 2 f_equal. f_equal. lia.
  - intros L. unfold loopback_cleanup, also, cleanup_rc. solve_returns.
  - intros L g ->. eapply wp_mono; [apply features_unseen; unfold loopback_cleanup, also, cleanup_rc; solve_only|]. by intros r s [-> _].
Qed.

(** ** EEE *)
Lemma check_active_seen ta ifn w enable g :
  wp E (check_active ta ifn w enable) g (fun r g' => match r with
    | Val b => exists a, g' = g ++ [Active ta a] /\ b = Bool.eqb a enable
    | Undef _ => False
    | _ => True
    end).
Proof.
  unfold check_active. wp_go; try done; cbn [upd fst snd]; exists b; rewrite Heqb0; (split; [done|]).
  - symmetry. by apply negb_true_iff.
  - symmetry. by apply negb_false_iff.
Qed.

(** EEE set on the IUT and seen on both sides. *)
Definition switched (b : bool) : list event := [SetEee iut_ta b; Active iut_ta b; Active tst_ta b].

Lemma check_eee_seen fuel s1 s2 b g :
  wp E (check_eee_enable iut_rpcs tst_rpcs iut_if tst_if fuel s1 s2 b) g (fun r g' => match r with
    | Val true => g' = g ++ switched b
    | Undef _ => False
    | _ => True
    end).
Proof.
  unfold check_eee_enable. wp_step. wp_step. wp_answer. cbn [bpost upd]. destruct (x =? 0); cbn [negb]; [|done].
  wp_step. wp_step. wp_answer. cbn [bpost upd].
  wp_step. eapply wp_mono; [apply check_active_seen|]. intros [b1|j|w|] g1 H1; try done. destruct H1 as (a1 & -> & ->). cbn [bpost].
  wp_step. eapply wp_mono; [apply check_active_seen|]. intros [b2|j|w|] g2 H2; try done. destruct H2 as (a2 & -> & ->). cbn [bpost].
  wp_step. eapply wp_mono; [apply features_unseen, conn_unseen|]. intros [[]|j|w|] g3 [-> Hu]; try done. cbn.
  unfold switched. by destruct a1, a2, b; cbn; rewrite <- ?app_assoc.
Qed.

Lemma check_lpi_unseen fuel s1 s2 app b t v : only quiet (fun _ => true) (check_lpi_ping iut_rpcs tst_rpcs iut_if fuel s1 s2 app b t v).
Proof.
  unfold check_lpi_ping. do 3 (apply only_bind; [solve_only|intros _]). apply only_bind; [solve_only|intros rc].
  destruct (negb (rc =? 0)); [solve_only|].
  apply only_bind; [solve_only|intros _]. apply only_bind; [apply conn_unseen|intros _]. solve_only.
Qed.

(** The test of EEE passes only if EEE, enabled on the tester, was seen on both
    sides to be what it was set to on the IUT: first the opposite of what it had
    been at the start, then that. *)
Lemma eee_passes fuel a1 a2 rc0 :
  wp E (eee_main iut_rpcs tst_rpcs iut_if tst_if fuel a1 a2 rc0) [] (fun r g => match r with
    | Val (Left _) | NoFuel => True
    | Val _ => exists a, g = [Active tst_ta a; SetEee tst_ta true] ++ switched (negb a) ++ switched a
    | _ => False
    end).
Proof.
  unfold eee_main. apply (test_main_passes _ _ _ _ _ (fun _ g => exists a, g = [Active tst_ta a; SetEee tst_ta true] ++ switched (negb a) ++ switched a)).
  - unfold eee_body. apply st_call.
    apply (wp_mono _ _ _ (fun r g => match r with Val a => g = [Active tst_ta a] | Undef _ => False | _ => True end)).
    { unfold eee_initial. wp_go; try done. cbn [upd fst snd]. autorewrite with zbool in *. by subst. }
    intros [a|j|w|] g H; try done. subst g. apply st_features_unseen; [solve_only|intros [s1 s2]]. apply st_modify, st_call.
    apply (wp_mono _ _ _ (fun r g => match r with
      | Val _ => g = [Active tst_ta a; SetEee tst_ta true] ++ switched (negb a) ++ switched a | Undef _ => False | _ => True end)).
    { unfold eee_switch. wp_step. wp_step. wp_answer. cbn [bpost upd]. destruct (x =? 0); cbn [negb]; [|done].
      wp_step. eapply wp_mono; [apply check_eee_seen|]. intros [[|]|j|w|] g H1; try done. subst g.
      cbn [bpost]. wp_step. eapply wp_mono; [apply check_eee_seen|]. intros [[|]|j|w|] g H2; try done. }
    intros [[]|j|w|] g H; try done. subst g.
    do 2 (apply st_features_unseen; [solve_only|intros ?]). apply st_modify. apply st_features_unseen; [solve_only|intros ?]. apply st_modify.
    unfold lift. apply wp_bind, wp_attempt. eapply wp_mono; [apply features_unseen|].
    { unfold measure_lpi. apply only_bind; [solve_only|intros rc]. destruct (negb (rc =? 0)); [solve_only|].
      do 3 (apply only_bind; [apply check_lpi_unseen|intros ?]). unfold compare_pings. solve_only. }
    intros [[]|j|w|] g [-> Hu]; try done. by exists a.
  - intros L. unfold eee_cleanup, also, cleanup_close, cleanup_rc. solve_returns.
  - intros L g HG. eapply wp_mono; [apply features_unseen; unfold eee_cleanup, also, cleanup_close, cleanup_rc; solve_only|]. by intros r s [-> _].
Qed.

(** The comparison of ping times has three results. *)
Lemma approx_cmp_sign v1 v2 : approx_cmp v1 v2 = -1 \/ approx_cmp v1 v2 = 0 \/ approx_cmp v1 v2 = 1.
Proof. unfold approx_cmp. repeat case_match; auto. Qed.

(** Ping is asked for 300 packets. *)
Lemma packet_count_value : packet_count = 300.
Proof. by vm_compute. Qed.

(** ** Message levels *)
Section msglvl_correct.
Context (ALL : Z) (null : string).

Lemma driver_name_unseen ta g :
  wp E (net_drv_driver_name ta) g (fun r g' => match r with Val _ => g' = g | _ => False end).
Proof.
  unfold net_drv_driver_name. wp_step. wp_step. wp_answer. cbn [bpost upd]. destruct x as [rc n].
  destruct (rc =? 0) eqn:Hr; [|done]. autorewrite with zbool in Hr. destruct (H Hr) as [m Hm]. cbn in Hm |- *. subst n.
  by destruct (String.eqb m "virtio-pci").
Qed.

Lemma get_count_seen e g :
  wp E (get_count e) g (fun r g' => match r with
    | Val n => g' = g ++ [Counted e n]
    | Undef _ => False
    | _ => True
    end).
Proof. unfold get_count. wp_go; try done; cbn [upd fst snd]. by rewrite Heqb. Qed.

(** The counts tested after the first switch are the zeroes they start with, so
    no verdict on them is possible: the step is that of the two calls. *)
Lemma msglvl_enabled_seen g :
  wp E (msglvl_enabled iut_rpcs iut_if ALL 0 0) g (fun r g' => match r with
    | Val _ => exists n, g' = g ++ [Counted "driver_log" n] /\ 0 < n
    | Undef _ => False
    | _ => True
    end).
Proof.
  unfold msglvl_enabled. wp_step. wp_step. wp_answer. cbn [bpost upd]. destruct (negb (x =? 0)); [done|].
  wp_step. eapply wp_mono; [apply features_unseen; unfold down_up, net_drv_wait_up_gen, WAIT_AFTER_IF_UP; solve_only|].
  intros [[]|j|w|] g1 [-> Hu]; try done. cbn [bpost].
  wp_step. eapply wp_mono; [apply get_count_seen|]. intros [n|j|w|] g1 H1; try done. subst g1. cbn [bpost].
  destruct (n <=? 0) eqn:Hn; [done|]. autorewrite with zbool in Hn. cbn. by exists n.
Qed.

Lemma msglvl_disabled_seen prefix g :
  wp E (msglvl_disabled iut_rpcs iut_if prefix) g (fun r g' => match r with
    | Val _ => exists b c u d, g' = g ++ [Counted "driver_log" b; Counted "driver_log" c; Counted "link_up_log" u; Counted "link_down_log" d] /\
                 0 <= b <= c /\ c - b <= d + u
    | Undef _ => False
    | _ => True
    end).
Proof.
  unfold msglvl_disabled. wp_step. wp_step. wp_answer. cbn [bpost upd]. destruct (negb (x =? 0)); [done|].
  unfold WAIT_AFTER_LOGS_DISABLE. wp_step. wp_step. wp_answer. cbn [bpost upd].
  wp_step. eapply wp_mono; [apply get_count_seen|]. intros [b|j|w|] g1 H1; try done. subst g1. cbn [bpost].
  do 2 (wp_step; eapply wp_mono; [apply features_unseen; unfold set_parser; solve_only|]; intros [[]|j|w|] g1 [-> Hu]; try done; clear Hu; cbn [bpost]).
  destruct (b <? 0) eqn:Hb; [done|].
  wp_step. eapply wp_mono; [apply features_unseen; unfold down_up, net_drv_wait_up_gen, WAIT_AFTER_IF_UP; solve_only|].
  intros [[]|j|w|] g1 [-> Hu]; try done. clear Hu. cbn [bpost].
  wp_step. eapply wp_mono; [apply get_count_seen|]. intros [c|j|w|] g1 H1; try done. subst g1. cbn [bpost].
  wp_step. eapply wp_mono; [apply get_count_seen|]. intros [u|j|w|] g1 H1; try done. subst g1. cbn [bpost].
  wp_step. eapply wp_mono; [apply get_count_seen|]. intros [d|j|w|] g1 H1; try done. subst g1. cbn [bpost].
  destruct (c - b <? 0) eqn:Hc; [done|].
  do 2 (wp_step; eapply wp_mono; [apply features_unseen; solve_only|]; intros [[]|j|w|] g1 [-> Hu]; try done; clear Hu; cbn [bpost]).
  destruct (d + u <? c - b) eqn:Hd; [done|]. cbn. exists b, c, u, d. rewrite <- !app_assoc. autorewrite with zbool in *. split; [done|]. lia.
Qed.

(** The test of message levels passes only if the driver wrote messages at the
    full level and, at level zero, no more than its two link messages. *)
Lemma msglvl_passes :
  wp E (msglvl_main iut_rpcs iut_if ALL null) [] (fun r g => match r with
    | Val (Left _) | NoFuel => True
    | Val _ => exists a b c u d, 0 < a /\ 0 <= b <= c /\ c - b <= d + u /\
        g = [Counted "driver_log" a; Counted "driver_log" b; Counted "driver_log" c; Counted "link_up_log" u; Counted "link_down_log" d]
    | _ => False
    end).
Proof.
  unfold msglvl_main. apply (test_main_passes _ _ _ _ _ (fun _ g => exists a b c u d, 0 < a /\ 0 <= b <= c /\ c - b <= d + u /\
    g = [Counted "driver_log" a; Counted "driver_log" b; Counted "driver_log" c; Counted "link_up_log" u; Counted "link_down_log" d])).
  - unfold lift. apply wp_bind, wp_attempt. unfold msglvl_body.
    wp_step. wp_step. wp_answer. cbn [bpost upd]. destruct x as [rc oid]. destruct (negb (rc =? 0)) eqn:Hr; [done|].
    autorewrite with zbool in Hr. destruct (H Hr) as [bus Hb]. cbn [snd] in Hb. rewrite Hb. clear H Hb.
    wp_step. eapply wp_mono; [apply driver_name_unseen|]. intros [name|j|w|] g Hg; try done. subst g. cbn [bpost].
    do 2 (wp_step; eapply wp_mono; [apply features_unseen; unfold set_parser; solve_only|]; intros [[]|j|w|] g1 [-> Hu]; try done; clear Hu; cbn [bpost]).
    wp_step. eapply wp_mono; [apply msglvl_enabled_seen|]. intros [[]|j|w|] g H1; try done. destruct H1 as (a & -> & Ha). cbn [bpost].
    eapply wp_mono; [apply msglvl_disabled_seen|]. intros [[]|j|w|] g H1; try done. destruct H1 as (b & c & u & d & -> & Hb & Hc).
    by exists a, b, c, u, d.
  - done.
  - by intros L g HG.
Qed.
End msglvl_correct.
End features_correct.

(** ** What the tests give back *)
Section releases.
Context {TE : Te} (iut tst : rcf_rpc_server) (iut_if tst_if : string).

Definition lb_csaps (l : lb_locals) : list (string * Z) :=
  csap_at (rpcs_ta iut) (lb_iut_rx l) ++ csap_at (rpcs_ta tst) (lb_tst_rx l).

(** Both CSAPs of the loopback test are destroyed, however it ends. *)
Lemma loopback_releases LEN tmpl init :
  wp h_world (loopback_main iut tst iut_if tst_if LEN tmpl) (clean init)
    (fun r g => match r with Val _ => gave_back g | NoFuel => True | _ => False end).
Proof.
  pose (F := holding (fun _ : lb_locals => []) lb_csaps).
  unfold loopback_main. eapply (test_main_keeps _ (fun L g => L = lb_start /\ F L g) F).
  - split; [done|]. split; apply submseteq_nil_l.
  - intros L g [-> Hg]. unfold loopback_body.
    apply st_free; [unfold disable_source_pruning; solve_only|done|]. clear g Hg. intros _ g Hg.
    apply st_free; [unfold net_drv_set_if_feature, net_drv_set_if_feature_gen; solve_only|done|]. clear g Hg. intros _ g Hg.
    apply st_free; [unfold loopback_pattern; solve_only|done|]. clear g Hg. intros p g Hg. apply st_modify.
    assert (Hg' : F (lb_set_ptrn p lb_start) g) by exact Hg. clear Hg. rename Hg' into Hg.
    apply st_free; [unfold net_drv_wait_up_gen; solve_only|done|]. clear g Hg. intros _ g Hg.
    eapply (st_take_csap _ _ _ (rpcs_ta iut)); [done|by intros g' x H|exact Hg|]. clear g Hg. intros c1 g Hc1 Hs Hc. apply st_modify.
    assert (Hg : F (lb_set_iut_rx c1 (lb_set_ptrn p lb_start)) g).
    { split; [exact Hs|]. etrans; [exact Hc|]. unfold lb_csaps, csap_at. cbn. by rewrite (proj2 (Z.eqb_neq c1 _) Hc1), Z.eqb_refl. }
    clear Hs Hc. apply st_free; [solve_only|done|]. clear g Hg. intros _ g Hg.
    eapply (st_take_csap _ _ _ (rpcs_ta tst)); [done|by intros g' x H|exact Hg|]. clear g Hg. intros c2 g Hc2 Hs Hc. apply st_modify.
    assert (Hg : F (lb_set_tst_rx c2 (lb_set_iut_rx c1 (lb_set_ptrn p lb_start))) g).
    { split; [exact Hs|]. etrans; [exact Hc|]. unfold lb_csaps, csap_at. cbn.
      rewrite (proj2 (Z.eqb_neq c1 _) Hc1), (proj2 (Z.eqb_neq c2 _) Hc2), Z.eqb_refl. cbn. by rewrite Permutation_swap. }
    clear Hs Hc. do 3 (apply st_free; [solve_only|done|]; clear g Hg; intros _ g Hg).
    apply st_free_last; [unfold loopback_judge, wait_received; solve_only|done].
  - intros L g [H1 H2]. unfold loopback_cleanup, also. wp_step. eapply csap_let_go; [exact H2|]. intros b1 g1 E1 S1. cbn [bpost].
    do 2 wp_step. eapply (csap_let_go _ _ []); [by rewrite app_nil_r|]. intros b2 g2 E2 S2. cbn [bpost].
    wp_go. cbn [h_upd]. split; [|by apply submseteq_nil_r]. rewrite S2, S1. by apply submseteq_nil_r.
Qed.

Definition ee_socks (l : eee_locals) : list (rcf_rpc_server * Z) := sock_at iut (ee_iut_s l) ++ sock_at tst (ee_tst_s l).

(** So are the sockets of the EEE test. *)
Lemma eee_releases fuel a1 a2 rc0 init :
  wp h_world (eee_main iut tst iut_if tst_if fuel a1 a2 rc0) (clean init)
    (fun r g => match r with Val _ => gave_back g | NoFuel => True | _ => False end).
Proof.
  pose (F := holding ee_socks (fun _ => [])).
  assert (Hconn : forall r1 s1 n1 r2 s2 n2 v, only handle_free any_jump (net_drv_conn_check fuel r1 s1 n1 r2 s2 n2 v)).
  { intros. unfold net_drv_conn_check. repeat (apply only_bind; [apply check_free|intros ?]). done. }
  assert (Hping : forall s1 s2 app b t v, only handle_free any_jump (check_lpi_ping iut tst iut_if fuel s1 s2 app b t v)).
  { intros. unfold check_lpi_ping. do 3 (apply only_bind; [solve_only|intros _]). apply only_bind; [solve_only|intros rc].
    destruct (negb (rc =? 0)); [solve_only|]. apply only_bind; [solve_only|intros _]. apply only_bind; [apply Hconn|intros _]. solve_only. }
  assert (Hcheck : forall s1 s2 b, only handle_free any_jump (check_eee_enable iut tst iut_if tst_if fuel s1 s2 b)).
  { intros. unfold check_eee_enable. apply only_bind; [solve_only|intros rc]. destruct (negb (rc =? 0)); [solve_only|].
    apply only_bind; [solve_only|intros _]. do 2 (apply only_bind; [unfold check_active; solve_only|intros ?]).
    apply only_bind; [apply Hconn|intros _]. done. }
  unfold eee_main. eapply (test_main_keeps _ (fun L g => L = ee_start /\ F L g) F).
  - split; [done|]. split; apply submseteq_nil_l.
  - intros L g [-> Hg]. unfold eee_body. apply st_free; [unfold eee_initial; solve_only|done|]. clear g Hg. intros a g Hg.
    eapply st_connect; [exact Hg|]. clear g Hg. intros s1 s2 g H1 H2 E1 E2. apply st_modify.
    assert (Hg : F (ee_set_socks s1 s2 ee_start) g).
    { split; [|exact E2]. unfold ee_socks, sock_at. cbn. by rewrite (proj2 (Z.leb_le 0 s1)), (proj2 (Z.leb_le 0 s2)). }
    clear E1 E2. apply st_free; [|done|].
    { unfold eee_switch. apply only_bind; [solve_only|intros rc]. destruct (negb (rc =? 0)); [solve_only|].
      apply only_bind; [apply Hcheck|intros [|]]; [apply only_bind; [apply Hcheck|intros ?]; solve_only|solve_only]. }
    clear g Hg. intros _ g Hg. apply st_free; [solve_only|done|]. clear g Hg. intros dst g Hg.
    apply st_free; [solve_only|done|]. clear g Hg. intros f g Hg. apply st_modify.
    assert (Hg' : F (ee_set_factory f (ee_set_socks s1 s2 ee_start)) g) by exact Hg. clear Hg. rename Hg' into Hg.
    apply st_free; [solve_only|done|]. clear g Hg. intros app g Hg. apply st_modify. apply st_free_last; [|exact Hg].
    unfold measure_lpi. apply only_bind; [solve_only|intros rc]. destruct (negb (rc =? 0)); [solve_only|].
    do 3 (apply only_bind; [apply Hping|intros ?]). unfold compare_pings. solve_only.
  - intros L g [H1 H2]. unfold eee_cleanup, also. wp_step. eapply close_held; [exact H1|]. intros b1 g1 E1 C1. cbn [bpost].
    do 2 wp_step. eapply (close_held _ _ []); [by rewrite app_nil_r|]. intros b2 g2 E2 C2. cbn [bpost].
    do 2 wp_step. apply free_step; [done|]. intros b3 g3 E3 C3. cbn [bpost]. do 4 wp_step. wp_go. cbn [h_upd].
    split; [rewrite E3; by apply submseteq_nil_r|]. rewrite C3, C2, C1. by apply submseteq_nil_r.
Qed.
End releases.
