(* ===== verification/LinkModes.v ===== *)
(** ethtool/link_fixed_mode.c and ethtool/parallel_detect.c: the link with a
    fixed mode on both sides, and with one on the tester only. *)
From stdpp Require Import pretty.
From S2P Require Import Prelude Prog Te Locals NetDrvTs Phy Resources RxCommon Holding Judging AutonegAdvertise BasicTests.

Section modes.
Context {TE : Te}.

(** ** ethtool/link_fixed_mode.c: the modes to try *)
Fixpoint is_mode_pair_selected (modes : list net_drv_phy_mode_info) (mode : net_drv_phy_mode_info) : bool :=
  match modes with
  | [] => false
  | m :: modes' =>
      if (mi_speed m =? mi_speed mode) && (mi_duplex m =? mi_duplex mode) then true
      else is_mode_pair_selected modes' mode
  end.

(** One pass of the loop; the state is [found_modes]. *)
Definition add_candidate (tst_state : net_drv_phy_saved_state) (found_modes : list net_drv_phy_mode_info)
    (mode : net_drv_phy_mode_info) : list net_drv_phy_mode_info :=
  if negb (net_drv_phy_is_link_mode mode) then found_modes
  else match net_drv_phy_state_find_mode_by_name tst_state (mi_name mode) with
       | None => found_modes
       | Some peer_mode =>
           if negb (net_drv_phy_is_link_mode peer_mode) then found_modes
           else if is_mode_pair_selected found_modes mode then found_modes
           else found_modes ++ [mode]
       end.

(** It always returns zero. *)
Definition find_common_mode_candidates (iut_state tst_state : net_drv_phy_saved_state) : list net_drv_phy_mode_info :=
  fold_left (add_candidate tst_state) (ps_modes iut_state) [].

(** ** ethtool/parallel_detect.c: the mode to force *)
Record forced_mode_info := ForcedMode { full_mode_name : string; half_mode_name : string; speed : Z; duplex : Z }.

Definition check_tp_port_or_skip (TE_PHY_PORT_TP : Z) (who ta if_name : string) : M unit :=
  port ← CHECK_OUT (call (tapi_cfg_phy_port_get ta if_name));
  if negb (port =? TE_PHY_PORT_TP) then TEST_SKIP "Unsupported PHY for parallel detecting" [] else mret tt.

Definition forced_candidates : list forced_mode_info :=
  [ForcedMode "100baseT_Full" "100baseT_Half" 100 TE_PHY_DUPLEX_FULL;
   ForcedMode "10baseT_Full" "10baseT_Half" 10 TE_PHY_DUPLEX_FULL].

Definition has_mode (st : net_drv_phy_saved_state) (name : string) : bool :=
  match net_drv_phy_state_find_mode_by_name st name with Some _ => true | None => false end.

Definition find_common_forced_mode (iut_state tst_state : net_drv_phy_saved_state) : option forced_mode_info :=
  List.find (fun c => has_mode iut_state (half_mode_name c) && has_mode iut_state (full_mode_name c) &&
                      has_mode tst_state (full_mode_name c)) forced_candidates.
End modes.

(** ** The tests *)
Section tests.
Context {TE : Te} (iut tst : rcf_rpc_server) (iut_if tst_if : string) (iut_addr tst_addr : sockaddr) (fuel : nat).
Local Abbreviation iut_ta := (rpcs_ta iut).
Local Abbreviation tst_ta := (rpcs_ta tst).

(** The name of a duplex, and "(%d/%s)" of a mode. *)
Context (tapi_cfg_phy_duplex_id2str : Z -> string).
Definition mode_str (mode : net_drv_phy_mode_info) : string :=
  "(" +:+ pretty (mi_speed mode) +:+ "/" +:+ tapi_cfg_phy_duplex_id2str (mi_duplex mode) +:+ ")".

(** A mode that the driver does not let set is passed over. *)
Definition apply_or_continue (ta ifn who : string) (mode : net_drv_phy_mode_info) : M bool :=
  rc ← net_drv_phy_apply_fixed_mode ta ifn (mi_speed mode) (mi_duplex mode);
  if (TE_RC_GET_ERROR rc =? TE_EINVAL) || (TE_RC_GET_ERROR rc =? TE_EOPNOTSUPP) then mret false
  else if negb (rc =? 0) then TEST_FAIL ("Failed to apply fixed PHY mode on " +:+ who) [] else mret true.

(** What is looked at when both sides have the fixed mode. *)
Definition check_fixed (iut_s tst_s : Z) (mode : net_drv_phy_mode_info) : M unit :=
  let iut_where := "IUT, fixed mode " +:+ mode_str mode in
  let tst_where := "Tester, fixed mode " +:+ mode_str mode in
  _ ← NET_DRV_WAIT_PHY_CHANGE;
  _ ← net_drv_wait_up_gen iut_ta iut_if false;
  _ ← net_drv_wait_up_gen tst_ta tst_if false;
  _ ← net_drv_phy_check_autoneg_state iut_where iut_ta iut_if TE_PHY_AUTONEG_OFF;
  _ ← net_drv_phy_check_autoneg_state tst_where tst_ta tst_if TE_PHY_AUTONEG_OFF;
  _ ← net_drv_phy_check_lp_autoneg_state iut_where iut_ta iut_if TE_PHY_AUTONEG_OFF;
  _ ← net_drv_phy_check_lp_autoneg_state tst_where tst_ta tst_if TE_PHY_AUTONEG_OFF;
  _ ← net_drv_phy_check_oper_mode iut_where iut_ta iut_if (mi_speed mode) (mi_duplex mode);
  _ ← net_drv_phy_check_oper_mode tst_where tst_ta tst_if (mi_speed mode) (mi_duplex mode);
  net_drv_conn_check fuel iut iut_s "IUT socket" tst tst_s "Tester socket"
    ("Checking data flow with fixed mode " +:+ mi_name mode +:+ " " +:+ mode_str mode).

(** One pass of the loop over the candidates; the state is [tested_num]. *)
Definition fixed_mode_pass (iut_s tst_s : Z) (mode : net_drv_phy_mode_info) (tested_num : Z) : M (ctl Z unit) :=
  on_iut ← apply_or_continue iut_ta iut_if "IUT" mode;
  if negb on_iut then mret (Continue tested_num) else
  on_tst ← apply_or_continue tst_ta tst_if "Tester" mode;
  if negb on_tst then mret (Continue tested_num) else
  _ ← check_fixed iut_s tst_s mode;
  mret (Continue (tested_num + 1)).

Definition fixed_modes (iut_s tst_s : Z) (mode_candidates : list net_drv_phy_mode_info) : M unit :=
  r ← foreach mode_candidates 0 (fixed_mode_pass iut_s tst_s);
  match r with
  | inr tt => mret tt (* the body does not return *)
  | inl tested_num =>
      if tested_num <=? 1 then TEST_SKIP "Too few common PHY modes accepted fixed-mode switching" [] else mret tt
  end.

(** Both tests save the configuration of the two sides first. *)
Definition save_both : T adv_locals (net_drv_phy_saved_state * net_drv_phy_saved_state) :=
  iut_saved ← lift (net_drv_phy_state_save_or_skip "IUT" iut_ta iut_if);
  _ ← modify (ad_set_iut_saved iut_saved);
  tst_saved ← lift (net_drv_phy_state_save_or_skip "Tester" tst_ta tst_if);
  _ ← modify (ad_set_tst_saved tst_saved);
  mret (iut_saved, tst_saved).

Definition connect_both : T adv_locals (Z * Z) :=
  '(iut_s, tst_s) ← lift (CHECK_OUT (call (GEN_CONNECTION iut tst RPC_SOCK_DGRAM iut_addr tst_addr)));
  _ ← modify (ad_set_socks iut_s tst_s);
  mret (iut_s, tst_s).

Definition link_fixed_mode_body : T adv_locals unit :=
  '(iut_saved, tst_saved) ← save_both;
  let mode_candidates := find_common_mode_candidates iut_saved tst_saved in
  _ ← lift (match mode_candidates with [] => TEST_SKIP "No common supported PHY modes found" [] | _ => mret tt end);
  '(iut_s, tst_s) ← connect_both;
  lift (fixed_modes iut_s tst_s mode_candidates).

(** The cleanup of both tests. *)
Definition link_cleanup (l : adv_locals) : M bool :=
  also (restore_saved iut_ta iut_if (ad_iut_saved l))
 (also (restore_saved tst_ta tst_if (ad_tst_saved l))
 (also (cleanup_close iut (ad_iut_s l))
 (also (cleanup_close tst (ad_tst_s l))
       (if ps_saved (ad_iut_saved l) || ps_saved (ad_tst_saved l) then
          _ ← net_drv_wait_up_gen iut_ta iut_if true;
          _ ← net_drv_wait_up_gen tst_ta tst_if true;
          mret true
        else mret true)))).
Definition link_fixed_mode_main : M status := test_main ad_start link_fixed_mode_body link_cleanup.

Context (TE_PHY_PORT_TP : Z).

Definition force_mode (iut_saved : net_drv_phy_saved_state) (m : forced_mode_info) : M unit :=
  _ ← CHECK_RC (net_drv_phy_apply_autoneg_modes iut_ta iut_if iut_saved (full_mode_name m) (Some (half_mode_name m)));
  _ ← CHECK_RC (net_drv_phy_apply_fixed_mode tst_ta tst_if (speed m) (duplex m));
  NET_DRV_WAIT_PHY_CHANGE.

Definition check_detected (iut_s tst_s : Z) (m : forced_mode_info) : M unit :=
  _ ← net_drv_wait_up_gen iut_ta iut_if false;
  _ ← net_drv_wait_up_gen tst_ta tst_if false;
  _ ← net_drv_phy_check_autoneg_state "IUT" iut_ta iut_if TE_PHY_AUTONEG_ON;
  _ ← net_drv_phy_check_autoneg_state "Tester" tst_ta tst_if TE_PHY_AUTONEG_OFF;
  _ ← net_drv_phy_check_lp_autoneg_state "IUT" iut_ta iut_if TE_PHY_AUTONEG_OFF;
  _ ← net_drv_phy_check_oper_mode "IUT" iut_ta iut_if (speed m) TE_PHY_DUPLEX_HALF;
  _ ← net_drv_phy_check_oper_mode "Tester" tst_ta tst_if (speed m) (duplex m);
  net_drv_conn_check fuel iut iut_s "IUT socket" tst tst_s "Tester socket" "Checking data flow after parallel detect".

Definition parallel_detect_body : T adv_locals unit :=
  '(iut_saved, tst_saved) ← save_both;
  _ ← lift (check_tp_port_or_skip TE_PHY_PORT_TP "IUT" iut_ta iut_if);
  _ ← lift (check_tp_port_or_skip TE_PHY_PORT_TP "Tester" tst_ta tst_if);
  forced_mode ← lift (match find_common_forced_mode iut_saved tst_saved with
                      | None => TEST_SKIP "Parallel detect requires common 10/100 PHY modes" []
                      | Some m => mret m
                      end);
  '(iut_s, tst_s) ← connect_both;
  _ ← lift (force_mode iut_saved forced_mode);
  lift (check_detected iut_s tst_s forced_mode).
Definition parallel_detect_main : M status := test_main ad_start parallel_detect_body link_cleanup.
End tests.

(** ** The candidates *)
Section candidates.
Context {TE : Te} (tst_state : net_drv_phy_saved_state).

(** A link mode that the tester has too. *)
Definition shared_mode (m : net_drv_phy_mode_info) : bool :=
  net_drv_phy_is_link_mode m &&
  match net_drv_phy_state_find_mode_by_name tst_state (mi_name m) with
  | Some peer => net_drv_phy_is_link_mode peer
  | None => false
  end.
Definition pair_of (m : net_drv_phy_mode_info) : Z * Z := (mi_speed m, mi_duplex m).

Lemma selected_spec l m : is_mode_pair_selected l m = true <-> pair_of m ∈ map pair_of l.
Proof.
  induction l as [|x l IH]; cbn [is_mode_pair_selected map]; [split; [done|by intros ?%elem_of_nil]|].
  rewrite elem_of_cons, <- IH. destruct ((mi_speed x =? mi_speed m) && (mi_duplex x =? mi_duplex m)) eqn:E.
  - apply andb_true_iff in E as [E1 E2]. autorewrite with zbool in *. split; [|done]. left. unfold pair_of. congruence.
  - split; [by right|]. intros [H|H]; [|done]. exfalso. unfold pair_of in H. injection H as H1 H2.
    rewrite H1, H2, !Z.eqb_refl in E. done.
Qed.

(** The candidates are shared modes in the order of the IUT, of different
    speeds or duplexes, and every shared mode has the speed and the duplex of
    one of them. *)
Lemma find_candidates_correct iut_state :
  let found := find_common_mode_candidates iut_state tst_state in
  sublist found (List.filter shared_mode (ps_modes iut_state)) /\
  NoDup (map pair_of found) /\
  forall m, m ∈ ps_modes iut_state -> shared_mode m = true -> pair_of m ∈ map pair_of found.
Proof.
  unfold find_common_mode_candidates. generalize (ps_modes iut_state). intros l.
  induction l as [|m l (IH1 & IH2 & IH3)] using rev_ind; [split_all; [done|apply NoDup_nil_2|by intros m ?%elem_of_nil]|].
  rewrite fold_left_app, List.filter_app. cbn [fold_left List.filter]. set (found := fold_left _ l []) in *.
  assert (Ha : add_candidate tst_state found m =
    if shared_mode m && negb (is_mode_pair_selected found m) then found ++ [m] else found).
  { unfold add_candidate, shared_mode. destruct (net_drv_phy_is_link_mode m); [|done]. cbn [negb andb].
    destruct (net_drv_phy_state_find_mode_by_name _ _) as [p|]; [|done].
    destruct (net_drv_phy_is_link_mode p); [|done]. cbn. by destruct (is_mode_pair_selected found m). }
  rewrite Ha. destruct (shared_mode m) eqn:Hm; cbn [andb].
  - destruct (is_mode_pair_selected found m) eqn:Hs; cbn [negb].
    + split_all; [by apply sublist_inserts_r|done|]. intros x [Hx| ->%list_elem_of_singleton]%elem_of_app Hxs; [auto|].
      by apply selected_spec.
    + split_all; [by apply sublist_app| |].
      * rewrite map_app. apply NoDup_app. split_all; [done| |apply NoDup_singleton].
        intros p Hp ->%list_elem_of_singleton. apply selected_spec in Hp. congruence.
      * intros x [Hx| ->%list_elem_of_singleton]%elem_of_app Hxs; rewrite map_app; apply elem_of_app; [left; auto|].
        right. apply list_elem_of_here.
  - rewrite app_nil_r. split_all; try done. intros x [Hx| ->%list_elem_of_singleton]%elem_of_app Hxs; [auto|congruence].
Qed.

(** The mode forced is the first the IUT has with both duplexes and the tester
    with the full one. *)
Lemma forced_mode_correct iut_state m : find_common_forced_mode iut_state tst_state = Some m ->
  has_mode iut_state (half_mode_name m) = true /\ has_mode iut_state (full_mode_name m) = true /\
  has_mode tst_state (full_mode_name m) = true /\ duplex m = TE_PHY_DUPLEX_FULL /\ (speed m = 100 \/ speed m = 10).
Proof.
  unfold find_common_forced_mode. intros H. apply List.find_some in H as [Hin H]. rewrite !andb_true_iff in H.
  destruct H as [[H1 H2] H3]. destruct Hin as [<-|[<-|[]]]; cbn in *; auto 10.
Qed.
End candidates.

(** ** What the tests see *)
Module LinkSpec.
(** The operational modes read, in order, and whether an error was reported. *)
Record obs := Obs { o_modes : list (string * Z * Z); o_bad : bool }.
Definition obs0 : obs := Obs [] false.

Definition upd X (c : te_call X) : X -> obs -> obs :=
  match c in te_call X return X -> obs -> obs with
  | tapi_cfg_phy_mode_oper_get ta _ => fun x g => if fst x =? 0 then Obs (o_modes g ++ [(ta, fst (snd x), snd (snd x))]) (o_bad g) else g
  | verdict ERROR_V _ => fun _ g => Obs (o_modes g) true
  | _ => fun _ g => g
  end.
Definition world : env te_call obs := watch_if (fun _ _ _ _ => True) upd.

(** No operational mode is read. *)
Definition quiet X (c : te_call X) : bool :=
  match c with tapi_cfg_phy_mode_oper_get _ _ => false | _ => true end.

(** Unless an error was reported, these were read. *)
Definition reads (l : list (string * Z * Z)) (g g' : obs) : Prop :=
  o_bad g' = true \/ (o_modes g' = o_modes g ++ l /\ o_bad g' = o_bad g).

Lemma reads_refl g : reads [] g g.
Proof. right. by rewrite app_nil_r. Qed.
Lemma reads_trans l1 l2 g1 g2 g3 : reads l1 g1 g2 -> reads l2 g2 g3 -> reads (l1 ++ l2) g1 g3.
Proof.
  intros H1 [H2|[H2 E2]]; [by left|]. destruct H1 as [H1|[H1 E1]]; [left; congruence|].
  right. rewrite H2, H1, app_assoc. split; congruence.
Qed.
Lemma quiet_reads X (c : te_call X) g1 g2 x g3 : quiet X c = true -> reads [] g1 g2 -> world X c g2 x g3 -> reads [] g1 g3.
Proof.
  intros Hc H [_ ->]. destruct c; try done. cbn. destruct l; try done. by left.
Qed.
End LinkSpec.

Section link_correct.
Context {TE : Te} (iut tst : rcf_rpc_server) (iut_if tst_if : string) (a1 a2 : sockaddr) (fuel : nat) (id2str : Z -> string).
Import LinkSpec.
Local Abbreviation E := LinkSpec.world.
Local Abbreviation iut_ta := (rpcs_ta iut).
Local Abbreviation tst_ta := (rpcs_ta tst).

(** A program that reads [l] when it returns. *)
Definition reading {A} (p : M A) (l : A -> list (string * Z * Z)) : Prop := forall g,
  wp E p g (fun r g' => match r with Val a => reads (l a) g g' | Undef _ => False | _ => True end).

Lemma reading_quiet {A} (p : M A) : only quiet any_jump p -> reading p (fun _ => []).
Proof.
  intros Ho g. eapply wp_mono; [apply (wp_only quiet any_jump E (reads [] g)); [exact Ho| |apply reads_refl]|].
  - intros X c s x s' Hc Hs Hx. by eapply quiet_reads.
  - intros [a|j|w|] s' [H Hr]; done.
Qed.

Lemma reading_bind {A B} (p : M A) (f : A -> M B) l k m :
  reading p l -> (forall a, reading (f a) (k a)) -> (forall a b, l a ++ k a b = m b) -> reading (mbind f p) m.
Proof.
  intros Hp Hf Hm g. apply wp_bind. eapply wp_mono; [apply Hp|]. intros [a|j|w|] g1 H1; try done. cbn [bpost].
  eapply wp_mono; [apply Hf|]. intros [b|j|w|] g2 H2; try done. rewrite <- (Hm a). by eapply reads_trans.
Qed.

Lemma reading_then {A B} (p : M A) (f : A -> M B) m :
  only quiet any_jump p -> (forall a, reading (f a) m) -> reading (mbind f p) m.
Proof. intros Hp Hf. by eapply reading_bind; [apply reading_quiet|exact Hf|]. Qed.

Lemma st_reading {St A B} (p : M A) l (f : A -> T St B) G L g :
  reading p l -> (forall a g', reads (l a) g g' -> wp E (f a L) g' (upto (fun _ _ => True) G)) ->
  wp E (mbind f (lift p) L) g (upto (fun _ _ => True) G).
Proof.
  intros Hp Hf. apply st_call. eapply wp_mono; [apply Hp|]. intros [a|j|w|] g' H; try done. by apply Hf.
Qed.

(** The operational mode is as expected, or an error is reported. *)
Lemma check_oper_reading w ta ifn s d : reading (net_drv_phy_check_oper_mode w ta ifn s d) (fun _ => [(ta, s, d)]).
Proof.
  intros g. unfold net_drv_phy_check_oper_mode. wp_go; try done; cbn [upd fst snd]; try by left.
  rewrite Heqb. apply orb_false_iff in Heqb0 as [H1 H2]. autorewrite with zbool in *. subst. by right.
Qed.

Lemma phy_waits_unseen ta ifn : only quiet any_jump (net_drv_wait_up_gen ta ifn false).
Proof. unfold net_drv_wait_up_gen. solve_only. Qed.
Lemma autoneg_unseen w ta ifn x : only quiet any_jump (net_drv_phy_check_autoneg_state w ta ifn x).
Proof. unfold net_drv_phy_check_autoneg_state. solve_only. Qed.
Lemma lp_autoneg_unseen w ta ifn x : only quiet any_jump (net_drv_phy_check_lp_autoneg_state w ta ifn x).
Proof. unfold net_drv_phy_check_lp_autoneg_state, net_drv_phy_lp_tree_is_exposed, net_drv_phy_sync_tree. solve_only. Qed.
Lemma link_conn_unseen r1 s1 n1 r2 s2 n2 v : only quiet any_jump (net_drv_conn_check fuel r1 s1 n1 r2 s2 n2 v).
Proof.
  assert (H : forall a x b y v, only quiet any_jump (net_drv_send_recv_check fuel a x b y v)).
  { intros a x b y u. eapply (only_mono is_data_call _ data_jump); [by intros X c; destruct c|done|apply data_check_only]. }
  unfold net_drv_conn_check. repeat (apply only_bind; [apply H|intros ?]). done.
Qed.
Lemma fixed_unseen ta ifn s d : only quiet any_jump (net_drv_phy_apply_fixed_mode ta ifn s d).
Proof. unfold net_drv_phy_apply_fixed_mode, set_if_differs. solve_only. Qed.
Lemma save_unseen who ta ifn : only quiet any_jump (net_drv_phy_state_save_or_skip who ta ifn).
Proof.
  unfold net_drv_phy_state_save_or_skip. apply only_bind; [|intros [rc st]; solve_only]. unfold net_drv_phy_state_save.
  repeat (apply only_bind; [by split|]; intros [? ?]; case_match; [done|]).
  apply only_bind; [apply only_foreach; intros; unfold save_mode; solve_only|]. intros [[? ?]|[]]; [case_match|]; done.
Qed.
Lemma autoneg_modes_unseen ta ifn st m1 m2 : only quiet any_jump (net_drv_phy_apply_autoneg_modes ta ifn st m1 m2).
Proof.
  unfold net_drv_phy_apply_autoneg_modes. apply only_bind; [by split|]. intros [rc cur]. case_match; [|done].
  apply only_bind; [apply only_foreach; intros; unfold mode_differs; solve_only|]. intros [hc|rc2]; [|done]. destruct (negb hc); [done|].
  apply only_bind; [apply only_foreach; intros; unfold mode_set; solve_only|]. intros [[]|rc2]; [|done]. solve_only.
Qed.
Lemma restore_unseen ta ifn st : only quiet any_jump (restore_saved ta ifn st).
Proof.
  unfold restore_saved, cleanup_rc. destruct (ps_saved st); [|done]. apply only_bind; [|done]. unfold net_drv_phy_state_restore, net_drv_phy_sync_tree.
  apply only_bind; [by split|]. intros rc. destruct (rc =? 0); [|done].
  apply only_bind; [by split|]. intros [rc2 cur]. destruct (rc2 =? 0); [|done].
  apply only_bind; [solve_only|]. intros [hc|rc3]; [|done].
  apply only_bind; [apply only_foreach; intros; unfold mode_differs; solve_only|]. intros [hc2|rc4]; [|done]. destruct (negb hc2); [done|].
  apply only_bind; [by split|]. intros rc5. destruct (rc5 =? 0); [|done].
  apply only_bind; [solve_only|]. intros rc6. destruct (negb (rc6 =? 0)); [done|].
  apply only_bind; [apply only_foreach; intros; unfold mode_set; solve_only|]. intros [[]|rc7]; [solve_only|done].
Qed.

(** A mode on both sides. *)
Definition on_both (m : net_drv_phy_mode_info) : list (string * Z * Z) :=
  [(iut_ta, mi_speed m, mi_duplex m); (tst_ta, mi_speed m, mi_duplex m)].

Lemma check_fixed_reading s1 s2 m : reading (check_fixed iut tst iut_if tst_if fuel id2str s1 s2 m) (fun _ => on_both m).
Proof.
  unfold check_fixed. apply reading_then; [unfold NET_DRV_WAIT_PHY_CHANGE; solve_only|intros _].
  do 2 (apply reading_then; [apply phy_waits_unseen|intros _]). do 2 (apply reading_then; [apply autoneg_unseen|intros _]).
  do 2 (apply reading_then; [apply lp_autoneg_unseen|intros _]).
  eapply (reading_bind _ _ _ (fun _ _ => [(tst_ta, mi_speed m, mi_duplex m)])); [apply check_oper_reading|intros _|done].
  eapply (reading_bind _ _ _ (fun _ _ => [])); [apply check_oper_reading|intros _; apply reading_quiet, link_conn_unseen|done].
Qed.

Lemma apply_unseen ta ifn who m : only quiet any_jump (apply_or_continue ta ifn who m).
Proof. unfold apply_or_continue. apply only_bind; [apply fixed_unseen|intros rc; solve_only]. Qed.

(** What is read when modes are tried one after the other: those that both
    sides take, and as many as are counted. *)
Lemma fixed_loop_reads s1 s2 cands : forall n g,
  wp E (foreach cands n (fixed_mode_pass iut tst iut_if tst_if fuel id2str s1 s2)) g (fun r g' => match r with
    | Val (inl n') => exists tested, sublist tested cands /\ n' = n + Z.of_nat (length tested) /\ reads (flat_map on_both tested) g g'
    | Val (inr _) | Undef _ => False
    | _ => True
    end).
Proof.
  induction cands as [|m cands IH]; intros n g; cbn [foreach].
  { exists []. split_all; [done|cbn; lia|apply reads_refl]. }
  assert (Hskip : forall g', reads [] g g' ->
    wp E (foreach cands n (fixed_mode_pass iut tst iut_if tst_if fuel id2str s1 s2)) g' (fun r g' => match r with
      | Val (inl n') => exists tested, sublist tested (m :: cands) /\ n' = n + Z.of_nat (length tested) /\ reads (flat_map on_both tested) g g'
      | Val (inr _) | Undef _ => False | _ => True end)).
  { intros g' Hg'. eapply wp_mono; [apply IH|]. intros [[n'|u]|j|w|] g2; try done. intros (tested & Hsub & Hn & Hr).
    exists tested. split_all; [by apply sublist_cons|done|]. by eapply (reads_trans []). }
  apply wp_bind. unfold fixed_mode_pass at 1. apply wp_bind. eapply wp_mono; [apply reading_quiet, apply_unseen|].
  intros [[|]|j|w|] g1 H1; try done; cbn [bpost negb]; [|by apply Hskip].
  apply wp_bind. eapply wp_mono; [apply reading_quiet, apply_unseen|].
  intros [[|]|j|w|] g2 H2; try done; cbn [bpost negb]; [|apply Hskip; by eapply (reads_trans [] [])].
  apply wp_bind. eapply wp_mono; [apply check_fixed_reading|]. intros [[]|j|w|] g3 H3; try done. cbn [bpost]. apply wp_ret. cbn [bpost].
  eapply wp_mono; [apply IH|]. intros [[n'|u]|j|w|] g4; try done. intros (tested & Hsub & Hn & Hr).
  exists (m :: tested). split_all; [by apply sublist_skip|cbn [length]; lia|]. cbn [flat_map].
  eapply reads_trans; [|exact Hr]. eapply (reads_trans []); [exact H1|]. by eapply (reads_trans []).
Qed.

Lemma also_unseen p q : only quiet any_jump p -> only quiet any_jump q -> only quiet any_jump (also p q).
Proof. intros Hp Hq. unfold also. apply only_bind; [exact Hp|intros ?]. by apply only_bind. Qed.

Lemma link_cleanup_unseen L : only quiet any_jump (link_cleanup iut tst iut_if tst_if L).
Proof.
  unfold link_cleanup. do 2 (apply also_unseen; [apply restore_unseen|]).
  do 2 (apply also_unseen; [unfold cleanup_close; solve_only|]). unfold net_drv_wait_up_gen. solve_only.
Qed.

Lemma link_cleanup_returns L : returns (link_cleanup iut tst iut_if tst_if L).
Proof.
  unfold link_cleanup, also, cleanup_close, net_drv_wait_up_gen.
  repeat first [apply phy_restore_returns | apply returns_bind; [|intros ?] | progress solve_returns].
Qed.

Lemma link_cleanup_reads L g (Q : obs -> Prop) :
  (forall g', reads [] g g' -> Q g') -> wp E (link_cleanup iut tst iut_if tst_if L) g (fun _ g' => Q g').
Proof.
  intros HQ. eapply wp_mono; [apply wp_and; [apply reading_quiet, link_cleanup_unseen|apply wp_returns, link_cleanup_returns]|].
  intros r g' [H [b ->]]. by apply HQ.
Qed.

(** What both tests begin with. *)
Lemma save_both_reads {B} (f : net_drv_phy_saved_state * net_drv_phy_saved_state -> T adv_locals B) G L g :
  (forall st1 st2 L' g', reads [] g g' -> wp E (f (st1, st2) L') g' (upto (fun _ _ => True) G)) ->
  wp E (mbind f (save_both iut tst iut_if tst_if) L) g (upto (fun _ _ => True) G).
Proof.
  intros Hf. apply st_bind. unfold save_both.
  eapply st_reading; [apply reading_quiet, save_unseen|]. intros st1 g1 H1. apply st_modify.
  eapply st_reading; [apply reading_quiet, save_unseen|]. intros st2 g2 H2. apply st_modify. apply wp_ret. cbn.
  apply Hf. by eapply (reads_trans [] []).
Qed.

Lemma connect_both_reads {B} (f : Z * Z -> T adv_locals B) G L g :
  (forall s1 s2 L' g', reads [] g g' -> wp E (f (s1, s2) L') g' (upto (fun _ _ => True) G)) ->
  wp E (mbind f (connect_both iut tst a1 a2) L) g (upto (fun _ _ => True) G).
Proof.
  intros Hf. apply st_bind. unfold connect_both.
  eapply st_reading; [apply reading_quiet; solve_only|]. intros [s1 s2] g1 H1. apply st_modify. apply wp_ret. cbn. by apply Hf.
Qed.

(** The test of fixed modes passes only after two modes at least, of different
    speeds or duplexes: unless an error is reported, both sides were seen to
    run in each. *)
Lemma link_fixed_mode_passes :
  wp E (link_fixed_mode_main iut tst iut_if tst_if a1 a2 fuel id2str) obs0 (fun r g => match r with
    | Val (Left _) | NoFuel => True
    | Val _ => o_bad g = true \/ exists tested, o_modes g = flat_map on_both tested /\ (2 <= length tested)%nat /\ NoDup (map pair_of tested)
    | _ => False
    end).
Proof.
  pose (G := fun g : obs => exists tested, reads (flat_map on_both tested) obs0 g /\ (2 <= length tested)%nat /\ NoDup (map pair_of tested)).
  eapply wp_mono; [apply (test_main_passes _ _ _ _ _ (fun _ g => G g) G)|].
  - unfold link_fixed_mode_body. apply save_both_reads. intros st1 st2 L g0 H0. set (cands := find_common_mode_candidates st1 st2).
    eapply (st_reading _ (fun _ => [])); [apply reading_quiet; by destruct cands|]. intros _ g1 H1.
    apply connect_both_reads. intros s1 s2 L' g2 H2. unfold lift. apply wp_bind, wp_attempt. unfold fixed_modes. apply wp_bind.
    eapply wp_mono; [apply fixed_loop_reads|]. intros [[n|[]]|j|w|] g3 H3; try done; cbn [bpost].
    destruct H3 as (tested & Hsub & -> & Hr). destruct (_ <=? 1) eqn:Hn; [done|]. autorewrite with zbool in Hn. apply wp_ret, wp_ret.
    exists tested. split_all; [|lia|].
    + eapply (reads_trans []); [exact H0|]. eapply (reads_trans []); [exact H1|]. by eapply (reads_trans []).
    + destruct (find_candidates_correct st2 st1) as (_ & Hnd & _). eapply sublist_NoDup; [exact Hnd|by apply (fmap_sublist pair_of)].
  - apply link_cleanup_returns.
  - intros L g (tested & Hr & Hl). apply link_cleanup_reads. intros g' Hg'. exists tested. split; [|done].
    rewrite <- (app_nil_r (flat_map _ _)). by eapply reads_trans.
  - intros [[]|j|w|] g H; try done; destruct H as (tested & [Hb|[Hm _]] & Hl & Hnd); first [by left|by right; exists tested].
Qed.

Lemma check_detected_reading s1 s2 m :
  reading (check_detected iut tst iut_if tst_if fuel s1 s2 m) (fun _ => [(iut_ta, speed m, TE_PHY_DUPLEX_HALF); (tst_ta, speed m, duplex m)]).
Proof.
  unfold check_detected. do 2 (apply reading_then; [apply phy_waits_unseen|intros _]).
  do 2 (apply reading_then; [apply autoneg_unseen|intros _]). apply reading_then; [apply lp_autoneg_unseen|intros _].
  eapply (reading_bind _ _ _ (fun _ _ => [(tst_ta, speed m, duplex m)])); [apply check_oper_reading|intros _|done].
  eapply (reading_bind _ _ _ (fun _ _ => [])); [apply check_oper_reading|intros _; apply reading_quiet, link_conn_unseen|done].
Qed.

(** The test of parallel detection passes, unless an error is reported, only if
    the IUT was seen in half duplex and the tester in full, at one speed. *)
Lemma parallel_detect_passes TP :
  wp E (parallel_detect_main iut tst iut_if tst_if a1 a2 fuel TP) obs0 (fun r g => match r with
    | Val (Left _) | NoFuel => True
    | Val _ => o_bad g = true \/ exists s, (s = 100 \/ s = 10) /\ o_modes g = [(iut_ta, s, TE_PHY_DUPLEX_HALF); (tst_ta, s, TE_PHY_DUPLEX_FULL)]
    | _ => False
    end).
Proof.
  pose (G := fun g : obs => exists s, reads [(iut_ta, s, TE_PHY_DUPLEX_HALF); (tst_ta, s, TE_PHY_DUPLEX_FULL)] obs0 g /\ (s = 100 \/ s = 10)).
  eapply wp_mono; [apply (test_main_passes _ _ _ _ _ (fun _ g => G g) G)|].
  - unfold parallel_detect_body. apply save_both_reads. intros st1 st2 L g0 H0.
    eapply st_reading; [apply reading_quiet; unfold check_tp_port_or_skip; solve_only|]. intros ? g1 H1.
    eapply st_reading; [apply reading_quiet; unfold check_tp_port_or_skip; solve_only|]. intros ? g2 H2.
    destruct (find_common_forced_mode st1 st2) as [m|] eqn:Hm; [|done]. destruct (forced_mode_correct _ _ _ Hm) as (_ & _ & _ & Hd & Hs).
    apply st_call, wp_ret. apply connect_both_reads. intros s1 s2 L' g4 H4.
    eapply (st_reading _ (fun _ => [])).
    { unfold force_mode. apply reading_then; [apply only_bind; [apply autoneg_modes_unseen|intros; solve_only]|intros _].
      apply reading_then; [apply only_bind; [apply fixed_unseen|intros; solve_only]|intros _].
      apply reading_quiet. unfold NET_DRV_WAIT_PHY_CHANGE. solve_only. }
    intros ? g5 H5. unfold lift. apply wp_bind, wp_attempt. eapply wp_mono; [apply check_detected_reading|].
    intros [[]|j|w|] g6 H6; try done. apply wp_ret. exists (speed m). rewrite <- Hd. split; [|done].
    do 5 (eapply (reads_trans []); [eassumption|]). exact H6.
  - apply link_cleanup_returns.
  - intros L g (s & Hr & Hs). apply link_cleanup_reads. intros g' Hg'. exists s. split; [|done].
    rewrite <- (app_nil_r [_; _]). by eapply reads_trans.
  - intros [[]|j|w|] g H; try done; destruct H as (s & [Hb|[Hm _]] & Hs); first [by left|by right; exists s].
Qed.
End link_correct.

(** ** What the tests give back *)
Section releases.
Context {TE : Te} (iut tst : rcf_rpc_server) (iut_if tst_if : string) (a1 a2 : sockaddr) (fuel : nat) (id2str : Z -> string).
Local Abbreviation inv := (holding (ad_socks iut tst) (fun _ => [])).

Lemma fixed_free ta ifn s d : only handle_free any_jump (net_drv_phy_apply_fixed_mode ta ifn s d).
Proof. unfold net_drv_phy_apply_fixed_mode, set_if_differs. solve_only. Qed.

Lemma waits_free ta ifn : only handle_free any_jump (net_drv_wait_up_gen ta ifn false).
Proof. unfold net_drv_wait_up_gen. solve_only. Qed.
Lemma autoneg_free w ta ifn x : only handle_free any_jump (net_drv_phy_check_autoneg_state w ta ifn x).
Proof. unfold net_drv_phy_check_autoneg_state. solve_only. Qed.
Lemma lp_autoneg_free w ta ifn x : only handle_free any_jump (net_drv_phy_check_lp_autoneg_state w ta ifn x).
Proof. unfold net_drv_phy_check_lp_autoneg_state, net_drv_phy_lp_tree_is_exposed, net_drv_phy_sync_tree. solve_only. Qed.
Lemma oper_free w ta ifn s d : only handle_free any_jump (net_drv_phy_check_oper_mode w ta ifn s d).
Proof. unfold net_drv_phy_check_oper_mode. solve_only. Qed.

(** What both tests begin with. *)
Lemma link_start_held {B} (f : net_drv_phy_saved_state * net_drv_phy_saved_state -> T adv_locals B) G g :
  inv ad_start g -> (forall st1 st2 L' g', ad_iut_s L' = -1 -> ad_tst_s L' = -1 -> inv L' g' -> wp h_world (f (st1, st2) L') g' (upto inv G)) ->
  wp h_world (mbind f (save_both iut tst iut_if tst_if) ad_start) g (upto inv G).
Proof.
  intros Hg Hf. apply st_bind. unfold save_both.
  apply st_free; [apply phy_save_free|exact Hg|]. clear g Hg. intros st1 g Hg. apply st_modify.
  apply st_free; [apply phy_save_free|exact Hg|]. clear g Hg. intros st2 g Hg. apply st_modify. apply wp_ret. cbn [upto]. by apply Hf.
Qed.

Lemma link_connect_held {B} (f : Z * Z -> T adv_locals B) G L g :
  ad_iut_s L = -1 -> ad_tst_s L = -1 -> inv L g ->
  (forall s1 s2 L' g', inv L' g' -> wp h_world (f (s1, s2) L') g' (upto inv G)) ->
  wp h_world (mbind f (connect_both iut tst a1 a2) L) g (upto inv G).
Proof.
  intros E1 E2 Hg Hf. apply st_bind. unfold connect_both. eapply st_connect; [exact Hg|]. clear g Hg. intros a b g Ha Hb Hs Hc.
  apply st_modify. apply wp_ret. cbn [upto]. apply Hf. split; [|exact Hc]. etrans; [exact Hs|].
  unfold ad_socks, sock_at. rewrite E1, E2. cbn. by rewrite (proj2 (Z.leb_le 0 a)), (proj2 (Z.leb_le 0 b)).
Qed.

Lemma link_cleanup_gives L g :
  inv L g -> wp h_world (link_cleanup iut tst iut_if tst_if L) g (fun r g' => match r with Val _ => gave_back g' | _ => False end).
Proof.
  intros Hg. unfold link_cleanup.
  do 2 (apply (wp_also h_world _ _ g (inv L));
    [apply clean_free; [apply phy_restore_free|apply phy_restore_returns|exact Hg]|clear g Hg; intros g Hg]).
  destruct Hg as [Hs Hc]. apply submseteq_nil_r in Hc. unfold also at 1. wp_step.
  eapply close_held; [exact Hs|]. intros b1 g1 Hs1 E1. cbn [bpost]. unfold also. do 2 wp_step.
  eapply close_held; [by rewrite app_nil_r|]. intros b2 g2 Hs2 E2. cbn [bpost]. wp_step.
  eapply wp_mono; [apply (clean_free (fun _ => []) (fun _ => []) _ L)|].
  - destruct (_ || _); unfold net_drv_wait_up_gen; solve_only.
  - destruct (_ || _); unfold net_drv_wait_up_gen, ERROR_VERDICT; solve_returns.
  - split; [exact Hs2|]. by rewrite E2, E1, Hc.
  - intros [b3| | |] g3 H3; try done. do 2 wp_step. destruct H3 as [H3 H4]. apply submseteq_nil_r in H3, H4. done.
Qed.

(** Both tests close their sockets, however they end. *)
Lemma link_fixed_mode_releases init :
  wp h_world (link_fixed_mode_main iut tst iut_if tst_if a1 a2 fuel id2str) (clean init)
    (fun r g => match r with Val _ => gave_back g | NoFuel => True | _ => False end).
Proof.
  unfold link_fixed_mode_main. eapply (test_main_keeps _ (fun L g => L = ad_start /\ inv L g) inv);
    [split; [done|split; apply submseteq_nil_l]| |apply link_cleanup_gives].
  intros L g [-> Hg]. unfold link_fixed_mode_body. apply link_start_held; [exact Hg|]. clear g Hg. intros st1 st2 L g E1 E2 Hg.
  apply st_free; [by destruct (find_common_mode_candidates st1 st2)|exact Hg|]. clear g Hg. intros _ g Hg.
  apply link_connect_held; [done..|]. clear L g E1 E2 Hg. intros s1 s2 L g Hg. apply st_free_last; [|exact Hg].
  unfold fixed_modes. apply only_bind; [apply only_foreach; intros m n; unfold fixed_mode_pass|intros [n|[]]; solve_only].
  assert (Ha : forall ta ifn who, only handle_free any_jump (apply_or_continue ta ifn who m)).
  { intros. unfold apply_or_continue. apply only_bind; [apply fixed_free|intros rc; solve_only]. }
  do 2 (apply only_bind; [apply Ha|]; intros [|]; [cbn [negb]|done]). apply only_bind; [|done]. unfold check_fixed.
  apply only_bind; [unfold NET_DRV_WAIT_PHY_CHANGE; solve_only|intros _].
  do 8 (apply only_bind; [first [apply waits_free|apply autoneg_free|apply lp_autoneg_free|apply oper_free]|intros _]). apply conn_check_free.
Qed.

Lemma parallel_detect_releases TP init :
  wp h_world (parallel_detect_main iut tst iut_if tst_if a1 a2 fuel TP) (clean init)
    (fun r g => match r with Val _ => gave_back g | NoFuel => True | _ => False end).
Proof.
  unfold parallel_detect_main. eapply (test_main_keeps _ (fun L g => L = ad_start /\ inv L g) inv);
    [split; [done|split; apply submseteq_nil_l]| |apply link_cleanup_gives].
  intros L g [-> Hg]. unfold parallel_detect_body. apply link_start_held; [exact Hg|]. clear g Hg. intros st1 st2 L g E1 E2 Hg.
  do 2 (apply st_free; [unfold check_tp_port_or_skip; solve_only|exact Hg|]; clear g Hg; intros _ g Hg).
  apply st_free; [by destruct (find_common_forced_mode st1 st2)|exact Hg|]. clear g Hg. intros m g Hg.
  apply link_connect_held; [done..|]. clear L g E1 E2 Hg. intros s1 s2 L g Hg. apply st_free; [|exact Hg|].
  { unfold force_mode, net_drv_phy_apply_autoneg_modes. apply only_bind; [apply only_bind|]; [|intros; solve_only|].
    - apply only_bind; [by split|]. intros [rc cur]. case_match; [|done].
      apply only_bind; [apply phy_modes_free|]. intros [hc|rc2]; [|done]. destruct (negb hc); [done|].
      apply only_bind; [apply (phy_modes_free _ _ _ _ true)|]. intros [[]|rc2]; [|done]. solve_only.
    - intros _. apply only_bind; [apply only_bind; [apply fixed_free|intros; solve_only]|intros _].
      unfold NET_DRV_WAIT_PHY_CHANGE. solve_only. }
  clear g Hg. intros _ g Hg. apply st_free_last; [|exact Hg].
  unfold check_detected. do 7 (apply only_bind; [first [apply waits_free|apply autoneg_free|apply lp_autoneg_free|apply oper_free]|intros _]). apply conn_check_free.
Qed.
End releases.
