(* ===== verification/BasicRuns.v ===== *)
(** basic/ping.c, basic/driver_info.c, basic/read_sysfs.c and
    perf/fwd_prologue.c. *)
From Stdlib Require Import Ascii.
From S2P Require Import Prelude Prog Te Prologue Locals Double NetDrvTs Resources RxCommon Holding Judging EthtoolRuns.

(** ** The ping tool in a test *)
Record ping_locals := PingLocals { pl_factory : handle; pl_app : handle; pl_logger : handle }.
Definition ping_start : ping_locals := PingLocals 0 0 0.
Definition pl_set_factory (f : handle) (l : ping_locals) : ping_locals := PingLocals f (pl_app l) (pl_logger l).
Definition pl_set_app (a : handle) (l : ping_locals) : ping_locals := PingLocals (pl_factory l) a (pl_logger l).
Definition pl_set_logger (m : handle) (l : ping_locals) : ping_locals := PingLocals (pl_factory l) (pl_app l) m.

Section runs.
Context {TE : Te} (iut_rpcs : rcf_rpc_server) (iut_if : string).
Local Abbreviation iut_ta := (rpcs_ta iut_rpcs).

(** The factory, the tool, its run and its report: the same in basic/ping.c and
    devlink/ct_thresh.c. *)
Definition run_ping (timeout_ms : Z) (opts : ping_opt) : T ping_locals ping_report :=
  factory ← lift (CHECK_OUT (call (tapi_job_factory_rpc_create iut_rpcs)));
  _ ← modify (pl_set_factory factory);
  app ← lift (CHECK_OUT (call (tapi_ping_create factory opts)));
  _ ← modify (pl_set_app app);
  _ ← lift (CHECK_RC (call (tapi_ping_start app)));
  _ ← lift (CHECK_RC (call (tapi_ping_wait app timeout_ms)));
  lift (CHECK_OUT (call (tapi_ping_get_report app))).

(** ** basic/ping.c *)
Definition PING_TIMEOUT : Z := 120000.

Definition check_ping (packets : Z) (report : ping_report) : M unit :=
  if negb (pg_transmitted report =? pg_received report) then
    TEST_VERDICT "Number of transmitted packets does not match number of received packets" []
  else if negb (pg_transmitted report =? packets) then TEST_VERDICT "ping sent unexpected number of packets" []
  else mret tt.

Definition ping_body (tst_addr : sockaddr) (packets data_size : Z) (interval : double) : T ping_locals unit :=
  dst_addr ← lift (CHECK_OUT (call (te_sockaddr_h2str tst_addr)));
  logger ← lift (CHECK_OUT (call (te_mi_logger_meas_create "ping")));
  _ ← modify (pl_set_logger logger);
  report ← run_ping PING_TIMEOUT
    (PingOpt packets (Some interval) (if 0 <? data_size then Some data_size else None) iut_if dst_addr);
  _ ← lift (call (tapi_ping_report_mi_log logger report));
  _ ← lift (CHECK_RC (call (te_mi_logger_flush logger)));
  lift (check_ping packets report).

Definition ping_cleanup (l : ping_locals) : M bool :=
  also (cleanup_rc (call (tapi_ping_destroy (pl_app l))))
       (_ ← call (tapi_job_factory_destroy (pl_factory l)); _ ← call (te_mi_logger_destroy (pl_logger l)); mret true).
Definition ping_main (tst_addr : sockaddr) (packets data_size : Z) (interval : double) : M status :=
  test_main ping_start (ping_body tst_addr packets data_size interval) ping_cleanup.

(** ** basic/driver_info.c *)
Definition check_driver_version (exp_drv_name : string) (mod_version : option string) (drv_version : string) : M unit :=
  match mod_version with
  | Some v => if negb (String.eqb v drv_version) then
                TEST_VERDICT "Driver version reported for the interface does not match driver module version" []
              else mret tt
  | None => mret tt
  end.

Definition driver_info_body (ta : string) : M unit :=
  drv ← net_drv_driver_name ta;
  match drv with
  | None => raise IS_NULL
  | Some exp_drv_name =>
      drv_name ← CHECK_OUT (call (tapi_cfg_if_deviceinfo_drivername_get ta iut_if));
      if negb (String.eqb drv_name exp_drv_name) then TEST_VERDICT "Unexpected driver name" [] else
      '(rc, version) ← call (tapi_cfg_module_version_get ta exp_drv_name);
      mod_version ← (if rc =? TE_RC TE_CS TE_ENOENT then
                       _ ← WARN_VERDICT "Module %s has no version information" [AS exp_drv_name]; mret None
                     else if negb (rc =? 0) then TEST_VERDICT "Failed to get module version, rc=%r" [AI rc]
                     else mret (Some version));
      drv_version ← CHECK_OUT (call (tapi_cfg_if_deviceinfo_driverversion_get ta iut_if));
      check_driver_version exp_drv_name mod_version drv_version
  end.
Definition driver_info_main (ta : string) : M status := test_main tt (lift (driver_info_body ta)) (fun _ => mret true).

(** ** basic/read_sysfs.c *)
Section sysfs.
(** [bdf_buf]: what the memory of the array holds at first. *)
Context (PATH_MAX : Z) (te_basename : string -> string) (bdf_buf : list Z).
Definition LOG_TIMEOUT : Z := 100.
Definition NET_DRV_IONIC_DRIVER_NAME : string := "ionic".

(** The string that begins an array. *)
Fixpoint c_string (l : list Z) : string :=
  match l with
  | [] => EmptyString
  | c :: l' => if c =? 0 then EmptyString else String (ascii_of_N (Z.to_N c)) (c_string l')
  end.

(** [bdf_buf] after readlink() wrote [target] and the end of the string was put
    at [ret + 1]; [None]: the write is past the array. *)
Definition end_string (target : list Z) : option (list Z) :=
  let ret := Z.of_nat (length target) in
  if ret + 1 <? PATH_MAX then Some (<[Z.to_nat (ret + 1) := 0]> (target ++ drop (length target) bdf_buf)) else None.

(** A call that fails leaves the test: [ret] is not -1. *)
Definition device_bdf : M string :=
  '(ret, target, err) ← call (rpc_readlink iut_rpcs ("/sys/class/net/" +:+ iut_if +:+ "/device") PATH_MAX);
  if ret <? 0 then raise RPC_FAILED
  else if ret =? PATH_MAX then TEST_FAIL "Device symlink contents may have been truncated" []
  else match end_string target with
       | None => undef "bdf_buf is written past its end"
       | Some buf => mret (te_basename (c_string buf))
       end.

(** The directory can be opened; it is closed again. *)
Definition check_dir (path what root : string) : M unit :=
  '(pdir, _) ← call (rpc_opendir iut_rpcs path);
  if pdir =? RPC_NULL then TEST_VERDICT (what +:+ " subdirectory cannot be opened in " +:+ root) []
  else _ ← rpc_ok (rpc_closedir iut_rpcs pdir); mret tt.

Definition read_sysfs_body : M unit :=
  drv ← net_drv_driver_name iut_ta;
  match drv with
  | None => raise IS_NULL
  | Some iut_drv_name =>
      path ← (if String.eqb iut_drv_name NET_DRV_X3_DRIVER_NAME || String.eqb iut_drv_name NET_DRV_IONIC_DRIVER_NAME then
                bdf ← device_bdf;
                mret ("/sys/kernel/debug/" +:+ iut_drv_name +:+ "/" +:+ bdf +:+ "/")
              else mret ("/sys/kernel/debug/" +:+ iut_drv_name +:+ "/nic_" +:+ iut_if +:+ "/"));
      _ ← check_dir path "driver/interface" "/sys/kernel/debug/";
      rc ← net_drv_cat_all_files iut_rpcs (TE_SEC2MS LOG_TIMEOUT) path;
      if negb (rc =? 0) then TEST_VERDICT "Failed to read files from /sys/kernel/debug/" [] else
      let path := ("/sys/module/" +:+ iut_drv_name +:+ "/")%string in
      _ ← check_dir path "driver" "/sys/module/";
      rc ← net_drv_cat_all_files iut_rpcs 0 path;
      if negb (rc =? 0) then TEST_VERDICT "Failed to read files from /sys/kernel/module/" [] else mret tt
  end.
Definition read_sysfs_main : M status := test_main tt (lift read_sysfs_body) (fun _ => mret true).
End sysfs.
End runs.

(** ** perf/fwd_prologue.c *)
Section fwd_prologue.
Context {TE : Te} (iut_ta tst_ta iut_if0 iut_if1 : string) (tst_if1 : handle).

(** The addresses of one version of IP on the two links. *)
Record link_addrs := LinkAddrs { iut_addr0 : sockaddr; tst_addr0 : sockaddr; iut_addr1 : sockaddr; tst_addr1 : sockaddr }.

(** Each end of the forwarded traffic reaches the other through the IUT. *)
Definition add_routes (tst_ta_ns1 : string) (prefix : Z) (a : link_addrs) : M unit :=
  _ ← CHECK_RC (call (tapi_cfg_add_route_simple tst_ta (tst_addr1 a) prefix (iut_addr0 a)));
  CHECK_RC (call (tapi_cfg_add_route_simple tst_ta_ns1 (tst_addr0 a) prefix (iut_addr1 a))).

Definition fwd_prologue_body (a4 a6 : link_addrs) : M unit :=
  node ← call (tapi_env_get_if_net_node tst_if1);
  match node with
  | None => raise IS_NULL
  | Some tst_if1_node =>
      tst_ta_ns1 ← CHECK_OUT (call (tapi_cfg_net_node_to_netns tst_if1_node "ns1"));
      _ ← CHECK_RC (call (tapi_cfg_base_ipv4_fw iut_ta true));
      _ ← CHECK_RC (call (tapi_cfg_ipv4_fw_enable iut_ta iut_if0));
      _ ← CHECK_RC (call (tapi_cfg_ipv4_fw_enable iut_ta iut_if1));
      _ ← CHECK_RC (call (cfg_set_instance_bool true ("/agent:" +:+ iut_ta +:+ "/ip6_fw:")));
      _ ← CHECK_RC (call (tapi_cfg_ipv6_fw_enable iut_ta iut_if0));
      _ ← CHECK_RC (call (tapi_cfg_ipv6_fw_enable iut_ta iut_if1));
      _ ← add_routes tst_ta_ns1 32 a4;
      _ ← add_routes tst_ta_ns1 128 a6;
      _ ← CHECK_RC (call (cfg_synchronize "/:" true));
      CHECK_RC (call (cfg_tree_print "/:"))
  end.
Definition fwd_prologue_main (a4 a6 : link_addrs) : M status :=
  test_main tt (lift (fwd_prologue_body a4 a6)) (fun _ => mret true).
End fwd_prologue.

(** ** The ping tool *)
Module PingSpec.
(** The reports that were read. *)
Definition upd X (c : te_call X) : X -> list ping_report -> list ping_report :=
  match c in te_call X return X -> list ping_report -> list ping_report with
  | tapi_ping_get_report _ => fun x g => if fst x =? 0 then g ++ [snd x] else g
  | _ => fun _ g => g
  end.
Definition world : env te_call (list ping_report) := watch upd.
Definition quiet X (c : te_call X) : bool := match c with tapi_ping_get_report _ => false | _ => true end.
Lemma ping_quiet X (c : te_call X) g x g' : quiet X c = true -> world X c g x g' -> g' = g.
Proof. by destruct c; intros Hc ->. Qed.
End PingSpec.

Section ping_correct.
Context {TE : Te} (iut_rpcs : rcf_rpc_server) (iut_if : string).
Import PingSpec.
Local Abbreviation E := PingSpec.world.

Lemma ping_unseen {A} (p : M A) g : only quiet any_jump p ->
  wp E p g (fun r g' => g' = g /\ match r with Undef _ => False | _ => True end).
Proof.
  intros H. eapply wp_mono; [apply (wp_only quiet any_jump E (fun s => s = g)); [exact H| |done]|].
  - intros X c s x s' Hc -> Hx. by eapply ping_quiet.
  - intros [a|j|w|] s' [-> Hr]; auto.
Qed.

Lemma st_ping_unseen {St A B} (p : M A) (f : A -> T St B) G L g : only quiet any_jump p ->
  (forall a, wp E (f a L) g (upto (fun _ _ => True) G)) -> wp E (mbind f (lift p) L) g (upto (fun _ _ => True) G).
Proof. intros Ho Hf. apply st_call. eapply wp_mono; [by apply ping_unseen|]. by intros [a|j|w|] s [-> Hr]. Qed.

Lemma run_ping_reports {B} ms o (f : ping_report -> T ping_locals B) G L :
  (forall r L', wp E (f r L') [r] (upto (fun _ _ => True) G)) ->
  wp E (mbind f (run_ping iut_rpcs ms o) L) [] (upto (fun _ _ => True) G).
Proof.
  intros Hf. apply st_bind. unfold run_ping. do 2 (apply st_ping_unseen; [solve_only|intros ?]; apply st_modify).
  do 2 (apply st_ping_unseen; [solve_only|intros _]). unfold lift. apply wp_bind, wp_attempt.
  wp_go; cbn [upd fst snd]; try done. rewrite Heqb. cbn. apply Hf.
Qed.

(** The test of ping passes exactly when every packet asked for was sent and received. *)
Lemma ping_passes a packets size interval :
  wp E (ping_main iut_rpcs iut_if a packets size interval) [] (fun r g => match r with
    | Val (Left _) | NoFuel => True
    | Val _ => exists rep, g = [rep] /\ pg_transmitted rep = packets /\ pg_received rep = packets
    | _ => False
    end).
Proof.
  unfold ping_main.
  apply (test_main_passes _ _ _ _ _ (fun _ g => exists rep, g = [rep] /\ pg_transmitted rep = packets /\ pg_received rep = packets)).
  - unfold ping_body. do 2 (apply st_ping_unseen; [solve_only|intros ?]). apply st_modify. apply run_ping_reports. intros rep L.
    do 2 (apply st_ping_unseen; [solve_only|intros ?]). unfold lift. apply wp_bind, wp_attempt. unfold check_ping.
    destruct (Z.eqb_spec (pg_transmitted rep) (pg_received rep)) as [H1|H1]; [|done].
    destruct (Z.eqb_spec (pg_transmitted rep) packets) as [H2|H2]; [|done]. cbn. exists rep. split_all; congruence.
  - intros L. unfold ping_cleanup, also, cleanup_rc. solve_returns.
  - intros L g HG. eapply wp_mono; [apply ping_unseen; unfold ping_cleanup, also, cleanup_rc; solve_only|]. by intros r s [-> _].
Qed.
End ping_correct.

(** ** Names and versions of a driver *)
Module DriverSpec.
(** What the host says of the driver of the interface: the name TE has for it,
    the name and the version the interface reports, the version of the module. *)
Record driver := Driver { dr_ta_name : string; dr_name : string; dr_version : string; dr_mod_version : te_errno * string }.

Definition ok (d : driver) X (c : te_call X) : unit -> X -> Prop :=
  match c in te_call X return unit -> X -> Prop with
  | tapi_cfg_pci_get_ta_driver _ => fun _ x => fst x = 0 -> snd x = Some (dr_ta_name d)
  | tapi_cfg_if_deviceinfo_drivername_get _ _ => fun _ x => fst x = 0 -> snd x = dr_name d
  | tapi_cfg_if_deviceinfo_driverversion_get _ _ => fun _ x => fst x = 0 -> snd x = dr_version d
  | tapi_cfg_module_version_get _ _ => fun _ x => x = dr_mod_version d
  | _ => fun _ _ => True
  end.
Definition world (d : driver) : env te_call unit := watch_if (ok d) (fun _ _ _ g => g).

(** The name expected of it. *)
Definition exp_name (d : driver) : string := if String.eqb (dr_ta_name d) "virtio-pci" then "virtio_net" else dr_ta_name d.

Section agrees.
Context {TE : Te}.
(** The name is that one, and the versions agree, where the module has one. *)
Definition agrees (d : driver) : Prop :=
  dr_name d = exp_name d /\
  (fst (dr_mod_version d) = TE_RC TE_CS TE_ENOENT \/ dr_mod_version d = (0, dr_version d)).
End agrees.
End DriverSpec.

Section driver_correct.
Context {TE : Te} (iut_if : string).
Import DriverSpec.

Lemma exp_name_wp d ta :
  wp (DriverSpec.world d) (net_drv_driver_name ta) tt (fun r _ => match r with
    | Val (Some n) => n = exp_name d
    | Val None => True
    | _ => False
    end).
Proof.
  unfold net_drv_driver_name, exp_name. wp_step. wp_step. wp_answer. cbn [bpost]. destruct x as [rc n]. cbn in H.
  destruct (Z.eqb_spec rc 0) as [->|]; [|done]. rewrite (H eq_refl). by destruct (String.eqb _ _).
Qed.

(** The test passes for drivers whose names and versions agree, and gives a
    verdict for others only. *)
Lemma driver_info_judges d ta :
  wp (DriverSpec.world d) (driver_info_body iut_if ta) tt (fun r _ => match r with
    | Val _ => agrees d
    | Exc (VERDICT _) => ~ agrees d
    | Exc _ => True
    | _ => False
    end).
Proof.
  assert (H0 : TE_RC TE_CS TE_ENOENT <> 0) by auto with te.
  unfold driver_info_body. wp_step. eapply wp_mono; [apply exp_name_wp|]. intros [[exp|]|j|w|] [] Hn; try done. subst exp. cbn [bpost].
  unfold CHECK_OUT, WARN_VERDICT. do 3 wp_step. wp_answer. destruct x as [rc name]. cbn [bpost]. destruct (Z.eqb_spec rc 0) as [->|]; [|done]. cbn in H.
  rewrite (H eq_refl). clear H. apply wp_ret. cbn [bpost]. destruct (String.eqb_spec (dr_name d) (exp_name d)) as [En|En]; cbn [negb]; [|by intros [? _]].
  wp_step. wp_step. wp_answer. cbn in H. subst x. cbn [bpost]. unfold agrees. destruct (dr_mod_version d) as [rc v] eqn:Ev. cbn [fst].
  wp_step. destruct (Z.eqb_spec rc (TE_RC TE_CS TE_ENOENT)) as [Er|Er].
  - wp_step. wp_step. wp_answer. cbn [bpost]. apply wp_ret. cbn [bpost]. do 3 wp_step. wp_answer. destruct x0 as [rc2 dv]. cbn [bpost].
    destruct (rc2 =? 0); [|done]. apply wp_ret. cbn. auto.
  - destruct (Z.eqb_spec rc 0) as [->|E0]; cbn [negb]; [|intros [_ [?|?]]; [done|congruence]]. apply wp_ret. cbn [bpost].
    do 3 wp_step. wp_answer. destruct x as [rc2 dv]. cbn [bpost]. cbn in H. destruct (Z.eqb_spec rc2 0) as [->|]; [|done].
    apply wp_ret. cbn [bpost]. rewrite (H eq_refl). unfold check_driver_version.
    destruct (String.eqb_spec v (dr_version d)) as [->|Hv]; cbn; [by auto|]. intros [_ [?|?]]; congruence.
Qed.
End driver_correct.

(** ** The name of a device *)
Lemma c_string_app l k : Forall (fun c => c <> 0) l -> c_string (l ++ k) = (c_string l +:+ c_string k)%string.
Proof.
  induction 1 as [|c l Hc Hl IH]; [done|]. cbn. rewrite (proj2 (Z.eqb_neq c 0) Hc). cbn. by rewrite IH.
Qed.

(** The name read from a link carries one more character, that which the memory
    after it held: the end of the string is put one too far.  It is the target
    of the link only when that character was zero. *)
Lemma end_string_correct PATH_MAX bdf_buf target c : Z.of_nat (length bdf_buf) = PATH_MAX ->
  Z.of_nat (length target) + 1 < PATH_MAX -> bdf_buf !! length target = Some c -> Forall (fun c => c <> 0) target ->
  exists buf, end_string PATH_MAX bdf_buf target = Some buf /\ length buf = length bdf_buf /\
    c_string buf = c_string (target ++ [c]) /\ (c_string buf = c_string target <-> c = 0).
Proof.
  intros HP Hlt Hc Ht. unfold end_string. rewrite (proj2 (Z.ltb_lt _ _)) by done. eexists; split; [done|].
  assert (E : drop (length target) bdf_buf = c :: drop (S (length target)) bdf_buf) by (by apply drop_S).
  set (tail := drop (S (length target)) bdf_buf) in E.
  assert (Hlen : length tail = (length bdf_buf - S (length target))%nat) by (by unfold tail; rewrite length_drop).
  destruct tail as [|t0 tail]; [cbn in Hlen; lia|]. rewrite E.
  replace (Z.to_nat (Z.of_nat (length target) + 1)) with (length target + 1)%nat by lia.
  rewrite insert_app_r. cbn [list_insert]. change (<[1%nat:=0]> (c :: t0 :: tail)) with (c :: 0 :: tail).
  split; [rewrite length_app; cbn [length] in *; lia|]. rewrite !c_string_app by done. split; [cbn; by destruct (c =? 0)|].
  pose proof (c_string_app target [] Ht) as En. rewrite app_nil_r in En. cbn [c_string] in *.
  destruct (Z.eqb_spec c 0) as [->|H0]; [done|]. split; [|done]. intros H. rewrite En in H at 2. by apply (inj (String.append _)) in H.
Qed.

(** A target that fills all but one byte of the array makes the test write past it. *)
Lemma end_string_overflow PATH_MAX bdf_buf target : end_string PATH_MAX bdf_buf target = None <-> PATH_MAX <= Z.of_nat (length target) + 1.
Proof. unfold end_string. destruct (Z.ltb_spec (Z.of_nat (length target) + 1) PATH_MAX); split; try done; lia. Qed.

(** ** Factories *)
Section factories.
Context {TE : Te} (iut_rpcs : rcf_rpc_server) (iut_if : string).
Import FactorySpec.
Local Abbreviation E := FactorySpec.world.

(** The factory of the test is the one that exists. *)
Definition own_factory (L : ping_locals) (g : list handle) : Prop := g = [] \/ g = [pl_factory L].

Lemma st_factory_quiet {A B} (p : M A) (f : A -> T ping_locals B) G L g : only quiet any_jump p -> own_factory L g ->
  (forall a, wp E (f a L) g (upto own_factory G)) -> wp E (mbind f (lift p) L) g (upto own_factory G).
Proof.
  intros Ho HL Hf. apply st_call.
  eapply wp_mono; [apply (wp_only quiet any_jump E (fun s => s = g)); [exact Ho| |done]|].
  - intros X c0 s x s' Hq -> Hx. by eapply factory_quiet.
  - intros [a|j|w|] s' [-> Hj]; cbn; auto.
Qed.

Lemma run_ping_tidy {B} ms o (f : ping_report -> T ping_locals B) G L :
  (forall r L' g', own_factory L' g' -> wp E (f r L') g' (upto own_factory G)) ->
  wp E (mbind f (run_ping iut_rpcs ms o) L) [] (upto own_factory G).
Proof.
  intros Hf. apply st_bind. unfold run_ping. apply st_call. unfold CHECK_OUT. wp_go; cbn [upd fst snd]; [|by rewrite Heqb; left].
  rewrite Heqb. apply st_modify.
  apply st_factory_quiet; [solve_only|by right|intros app]. apply st_modify.
  do 2 (apply st_factory_quiet; [solve_only|by right|intros _]). unfold lift. apply wp_bind, wp_attempt.
  eapply wp_mono; [apply (wp_only quiet any_jump E (fun s => s = [z])); [solve_only| |done]|].
  - intros X c0 s x s' Hq -> Hx. by eapply factory_quiet.
  - intros [r|j|w|] s' [-> Hj]; cbn; try done; [apply Hf; by right|by right].
Qed.

(** A cleanup that destroys the factory between quiet calls. *)
Lemma ping_factory_destroyed {A} (p : M A) L g (Q : result A -> list handle -> Prop) : own_factory L g ->
  wp E p [] Q -> wp E (_ ← call (tapi_job_factory_destroy (pl_factory L)); p) g Q.
Proof.
  intros HL Hp. wp_step. wp_step. wp_answer. cbn [bpost upd]. destruct HL as [-> | ->]; [done|].
  rewrite filter_cons_False by tauto. done.
Qed.

Lemma ping_tidy a packets size interval :
  wp E (ping_main iut_rpcs iut_if a packets size interval) [] (fun r g => match r with Val _ => g = [] | NoFuel => True | _ => False end).
Proof.
  unfold ping_main. eapply (test_main_keeps _ (fun L g => g = []) own_factory); [done| |].
  - intros L g ->. unfold ping_body. apply st_factory_quiet; [solve_only|by left|intros dst].
    apply st_factory_quiet; [solve_only|by left|intros lg]. apply st_modify. apply run_ping_tidy. intros rep L' g' Hg.
    do 2 (apply st_factory_quiet; [solve_only|done|intros _]). unfold lift. apply wp_bind, wp_attempt. unfold check_ping.
    destruct (negb _); [done|]. by destruct (negb _).
  - intros L g HL. unfold ping_cleanup, also, cleanup_rc. wp_step. wp_step. wp_step. wp_answer. apply wp_ret. cbn [bpost upd].
    wp_step. apply ping_factory_destroyed; [done|]. by wp_go.
Qed.
End factories.

(** ** Forwarding *)
Module FwdSpec.
(** Forwarding enabled on a host, or on one of its interfaces; routes. *)
Inductive event :=
| Fw4 (ta : string) | Fw4_if (ta ifn : string) | Fw6 (oid : string) | Fw6_if (ta ifn : string)
| Netns (ta : string) | Route (ta : string) (dst : sockaddr) (prefix : Z) (gw : sockaddr).
Definition upd X (c : te_call X) : X -> list event -> list event :=
  match c in te_call X return X -> list event -> list event with
  | tapi_cfg_base_ipv4_fw ta true => fun x g => if x =? 0 then g ++ [Fw4 ta] else g
  | tapi_cfg_ipv4_fw_enable ta ifn => fun x g => if x =? 0 then g ++ [Fw4_if ta ifn] else g
  | cfg_set_instance_bool true oid => fun x g => if x =? 0 then g ++ [Fw6 oid] else g
  | tapi_cfg_ipv6_fw_enable ta ifn => fun x g => if x =? 0 then g ++ [Fw6_if ta ifn] else g
  | tapi_cfg_net_node_to_netns _ _ => fun x g => if fst x =? 0 then g ++ [Netns (snd x)] else g
  | tapi_cfg_add_route_simple ta d p gw => fun x g => if x =? 0 then g ++ [Route ta d p gw] else g
  | _ => fun _ g => g
  end.
Definition world : env te_call (list event) := watch upd.
End FwdSpec.

Section fwd_correct.
Context {TE : Te} (iut_ta tst_ta iut_if0 iut_if1 : string) (tst_if1 : handle).
Import FwdSpec.

Definition forwarded (ns : string) (a4 a6 : link_addrs) : list event :=
  [Netns ns; Fw4 iut_ta; Fw4_if iut_ta iut_if0; Fw4_if iut_ta iut_if1;
   Fw6 ("/agent:" +:+ iut_ta +:+ "/ip6_fw:"); Fw6_if iut_ta iut_if0; Fw6_if iut_ta iut_if1;
   Route tst_ta (tst_addr1 a4) 32 (iut_addr0 a4); Route ns (tst_addr0 a4) 32 (iut_addr1 a4);
   Route tst_ta (tst_addr1 a6) 128 (iut_addr0 a6); Route ns (tst_addr0 a6) 128 (iut_addr1 a6)].

(** When the prologue passes, both versions of IP are forwarded on both
    interfaces of the IUT, and each of the tester's two ends, of which the
    second is in a namespace of its own, reaches the other through it. *)
Lemma fwd_prologue_passes a4 a6 :
  wp FwdSpec.world (fwd_prologue_main iut_ta tst_ta iut_if0 iut_if1 tst_if1 a4 a6) [] (fun r g => match r with
    | Val (Left _) | NoFuel => True
    | Val _ => exists ns, g = forwarded ns a4 a6
    | _ => False
    end).
Proof.
  unfold fwd_prologue_main. apply (test_main_passes _ _ _ _ _ (fun _ g => exists ns, g = forwarded ns a4 a6)).
  - unfold lift. apply wp_bind, wp_attempt. unfold fwd_prologue_body, add_routes. wp_step. wp_step. wp_answer. cbn [bpost].
    destruct x as [node|]; [|done]. wp_go; try done. cbn [upd fst snd].
    repeat match goal with H : (_ =? 0) = true |- _ => rewrite H; clear H end. by eexists.
  - done.
  - by intros L g HG.
Qed.
End fwd_correct.
