(* ===== verification/Devlink.v ===== *)
(** devlink/ct_thresh.c, devlink/dist_layout.c, devlink/separated_cpu.c and
    devlink/serialno.c: parameters of the PCI device of an interface. *)
From S2P Require Import Prelude Prog Te Locals NetDrvTs Resources RxCommon Holding Judging EthtoolRuns BasicRuns.

Section devlink.
Context {TE : Te} (TAPI_CFG_PCI_PARAM_RUNTIME : pci_param_cmode).
Context (iut_rpcs : rcf_rpc_server) (iut_if : string).
Local Abbreviation iut_ta := (rpcs_ta iut_rpcs).

Definition pci_device : M string :=
  '(rc, pci_oid) ← call (tapi_cfg_pci_oid_by_net_if iut_ta iut_if);
  if negb (rc =? 0) then TEST_SKIP "Cannot find PCI device for the tested interface" [] else mret pci_oid.

(** The value of a parameter; the test is skipped when it is absent. *)
Definition get_param_or_skip (pci_oid param absent : string) : M Z :=
  '(rc, v) ← call (tapi_cfg_pci_get_param_uint pci_oid param TAPI_CFG_PCI_PARAM_RUNTIME);
  if rc =? TE_RC TE_CS TE_ENOENT then TEST_SKIP absent []
  else if negb (rc =? 0) then TEST_VERDICT ("Failed to retrieve " +:+ param +:+ " parameter, rc = %r") [AI rc]
  else mret v.

Definition param_present_or_skip (pci_oid param : string) : M unit :=
  present ← CHECK_OUT (call (tapi_cfg_pci_param_is_present pci_oid param));
  if negb present then TEST_SKIP (param +:+ " parameter is not present") [] else mret tt.

(** [if (if_down)]: the device is read again, since the interface is not what
    it depends on for the configurator. *)
Definition set_down_first (if_down : bool) (pci_oid : string) : M unit :=
  when if_down
    (_ ← CHECK_RC (call (tapi_cfg_base_if_down iut_ta iut_if));
     _ ← call CFG_WAIT_CHANGES;
     CHECK_RC (call (cfg_synchronize pci_oid true))).

(** ** devlink/ct_thresh.c *)
Definition PING_TIMEOUT : Z := 120000.
Definition MIN_CT_THRESH : Z := 64.
Definition PING_PKTS : Z := 60.

(** The new [*prev_val]. *)
Definition check_param_change (pci_oid : string) (prev_val : Z) (when_ : string) : M Z :=
  _ ← CHECK_RC (call (cfg_synchronize pci_oid true));
  cur_val ← CHECK_OUT (call (tapi_cfg_pci_get_param_uint pci_oid "ct_thresh" TAPI_CFG_PCI_PARAM_RUNTIME));
  if negb (cur_val =? prev_val) then
    _ ← WARN_VERDICT "Value of ct_thresh parameter changed %s" [AS when_]; mret cur_val
  else mret prev_val.

(** A multiple of 64 next to the value. *)
Definition new_ct_thresh (prev_val : Z) : Z :=
  if MIN_CT_THRESH <? prev_val then u64 (prev_val - MIN_CT_THRESH) else u64 (prev_val + MIN_CT_THRESH).

Definition judge_report (report : ping_report) : M unit :=
  _ ← when (pg_transmitted report =? 0) (ERROR_VERDICT "No packets were transmitted when pinging" []);
  when (pg_received report =? 0) (ERROR_VERDICT "No packets were received when pinging" []).

(** After ping, with the interface down and up again; then the parameter is changed. *)
Definition watch_ct_thresh (pci_oid : string) (prev_val : Z) : M unit :=
  prev_val ← check_param_change pci_oid prev_val "after running ping";
  _ ← CHECK_RC (call (tapi_cfg_base_if_down iut_ta iut_if));
  _ ← call CFG_WAIT_CHANGES;
  prev_val ← check_param_change pci_oid prev_val "after setting interface down";
  _ ← CHECK_RC (call (tapi_cfg_base_if_up iut_ta iut_if));
  _ ← call CFG_WAIT_CHANGES;
  prev_val ← check_param_change pci_oid prev_val "after setting interface up";
  net_drv_set_pci_param_uint pci_oid "ct_thresh" TAPI_CFG_PCI_PARAM_RUNTIME (new_ct_thresh prev_val) "Changing parameter value".

Definition ct_thresh_body (tst_addr : sockaddr) : T ping_locals unit :=
  pci_oid ← lift pci_device;
  prev_val ← lift (get_param_or_skip pci_oid "ct_thresh" "ct_thresh parameter is not present");
  dst_addr ← lift (CHECK_OUT (call (te_sockaddr_h2str tst_addr)));
  report ← run_ping iut_rpcs PING_TIMEOUT (PingOpt PING_PKTS None None iut_if dst_addr);
  _ ← lift (judge_report report);
  lift (watch_ct_thresh pci_oid prev_val).

Definition ct_thresh_cleanup (l : ping_locals) : M bool :=
  also (cleanup_rc (call (tapi_ping_destroy (pl_app l))))
       (_ ← call (tapi_job_factory_destroy (pl_factory l)); mret true).
Definition ct_thresh_main (tst_addr : sockaddr) : M status := test_main ping_start (ct_thresh_body tst_addr) ct_thresh_cleanup.

(** ** devlink/dist_layout.c *)
Definition dist_layout_body (if_down : bool) : M unit :=
  pci_oid ← pci_device;
  _ ← param_present_or_skip pci_oid "dist_layout";
  _ ← set_down_first if_down pci_oid;
  _ ← get_param_or_skip pci_oid "dist_layout" "dist_layout parameter is absent";
  _ ← net_drv_set_pci_param_uint pci_oid "dist_layout" TAPI_CFG_PCI_PARAM_RUNTIME 1 "Checking value 1";
  net_drv_set_pci_param_uint pci_oid "dist_layout" TAPI_CFG_PCI_PARAM_RUNTIME 0 "Checking value 0".
Definition dist_layout_main (if_down : bool) : M status := test_main tt (lift (dist_layout_body if_down)) (fun _ => mret true).

(** ** devlink/separated_cpu.c *)
(** [do { new_val = rand_range (0, cpu_num - 1); } while (new_val == param_val);] *)
Definition draw_other (fuel : nat) (cpu_num param_val : Z) : M Z :=
  r ← loop fuel tt (fun _ =>
        new_val ← call (rand_range 0 (cpu_num - 1));
        mret (if u64 new_val =? param_val then Continue tt else Return (u64 new_val)));
  match r with inr v => mret v | inl tt => mret param_val (* the body does not break *) end.

Definition separated_cpu_body (fuel : nat) (if_down : bool) : M unit :=
  pci_oid ← pci_device;
  _ ← param_present_or_skip pci_oid "separated_cpu";
  _ ← set_down_first if_down pci_oid;
  '(rc, param_val) ← call (tapi_cfg_pci_get_param_uint pci_oid "separated_cpu" TAPI_CFG_PCI_PARAM_RUNTIME);
  if negb (rc =? 0) then TEST_VERDICT "Failed to retrieve separated_cpu parameter, rc = %r" [AI rc] else
  cpus ← CHECK_OUT (call (cfg_find_pattern ("/agent:" +:+ iut_ta +:+ "/hardware:*/node:*/cpu:*/core:*/thread:*")));
  let cpu_num := Z.of_nat (length cpus) in
  if cpu_num <=? 1 then TEST_SKIP "Host does not have multiple CPUs, so cannot test separated_cpu change" [] else
  _ ← net_drv_set_pci_param_uint pci_oid "dist_layout" TAPI_CFG_PCI_PARAM_RUNTIME 1 "Setting dist_layout to 1";
  new_val ← draw_other fuel cpu_num param_val;
  net_drv_set_pci_param_uint pci_oid "separated_cpu" TAPI_CFG_PCI_PARAM_RUNTIME new_val "Changing separated_cpu".
Definition separated_cpu_main (fuel : nat) (if_down : bool) : M status :=
  test_main tt (lift (separated_cpu_body fuel if_down)) (fun _ => mret true).

(** ** devlink/serialno.c *)
Definition serialno_body : M unit :=
  pci_oid ← pci_device;
  '(rc, val_str) ← call (cfg_get_string (pci_oid +:+ "/serialno:"));
  if negb (rc =? 0) then TEST_VERDICT "Cannot get serial number" []
  else match val_str with
       | None | Some EmptyString => TEST_VERDICT "Serial number is absent" []
       | Some _ => mret tt
       end.
Definition serialno_main : M status := test_main tt (lift serialno_body) (fun _ => mret true).
End devlink.

(** The value the parameter is changed to differs from the old one by 64, is a
    multiple of 64 when that is, and never zero. *)
Lemma new_ct_thresh_correct v : 0 <= v < 2 ^ 64 - 64 ->
  0 < new_ct_thresh v < 2 ^ 64 /\ Z.abs (new_ct_thresh v - v) = 64 /\ (v mod 64 = 0 -> new_ct_thresh v mod 64 = 0).
Proof.
  intros Hv. unfold new_ct_thresh, MIN_CT_THRESH.
  destruct (Z.ltb_spec 64 v); rewrite u64_id by lia; split_all; try lia; intros Hm.
  - rewrite Zminus_mod, Hm. done.
  - rewrite Zplus_mod, Hm. done.
Qed.

(** ** What the tests do to the parameters *)
Module ParamSpec.
(** A parameter read or set; the processors counted. *)
Inductive event := Got (param : string) (v : Z) | Put (param : string) (v : Z) | Cpus (n : Z).
Definition upd X (c : te_call X) : X -> list event -> list event :=
  match c in te_call X return X -> list event -> list event with
  | tapi_cfg_pci_get_param_uint _ p _ => fun x g => if fst x =? 0 then g ++ [Got p (snd x)] else g
  | tapi_cfg_pci_set_param_uint _ p _ v => fun x g => if x =? 0 then g ++ [Put p v] else g
  | cfg_find_pattern _ => fun x g => if fst x =? 0 then g ++ [Cpus (Z.of_nat (length (snd x)))] else g
  | _ => fun _ g => g
  end.
(** A random number is of its range, and of the type [int]. *)
Definition ok X (c : te_call X) : list event -> X -> Prop :=
  match c in te_call X return list event -> X -> Prop with
  | rand_range lo hi => fun _ x => lo <= x <= hi /\ x <= INT_MAX
  | _ => fun _ _ => True
  end.
Definition world : env te_call (list event) := watch_if ok upd.
Definition quiet X (c : te_call X) : bool :=
  match c with tapi_cfg_pci_get_param_uint _ _ _ | tapi_cfg_pci_set_param_uint _ _ _ _ | cfg_find_pattern _ => false | _ => true end.
Lemma param_quiet X (c : te_call X) g x g' : quiet X c = true -> world X c g x g' -> g' = g.
Proof. by destruct c; intros Hc [_ ->]. Qed.
End ParamSpec.

Section devlink_correct.
Context {TE : Te} (cm : pci_param_cmode) (iut_rpcs : rcf_rpc_server) (iut_if : string).
Import ParamSpec.
Local Abbreviation E := ParamSpec.world.

(** A program that does [l] when it returns. *)
Definition doing {A} (p : M A) (l : A -> list event -> Prop) : Prop := forall g,
  wp E p g (fun r g' => match r with Val a => exists k, g' = g ++ k /\ l a k | Undef _ => False | _ => True end).

Lemma doing_quiet {A} (p : M A) : only quiet any_jump p -> doing p (fun _ k => k = []).
Proof.
  intros H g. eapply wp_mono; [apply (wp_only quiet any_jump E (fun s => s = g)); [exact H| |done]|].
  - intros X c s x s' Hc -> Hx. by eapply param_quiet.
  - intros [a|j|w|] s' [-> Hr]; try done. exists []. by rewrite app_nil_r.
Qed.

Lemma doing_bind {A B} (p : M A) (f : A -> M B) l k (m : B -> list event -> Prop) :
  doing p l -> (forall a, doing (f a) (k a)) -> (forall a b x y, l a x -> k a b y -> m b (x ++ y)) -> doing (mbind f p) m.
Proof.
  intros Hp Hf Hm g. apply wp_bind. eapply wp_mono; [apply Hp|]. intros [a|j|w|] g1 H1; try done. destruct H1 as (x & -> & Hx). cbn [bpost].
  eapply wp_mono; [apply Hf|]. intros [b|j|w|] g2 H2; try done. destruct H2 as (y & -> & Hy). exists (x ++ y). rewrite app_assoc. eauto.
Qed.

Lemma doing_then {A B} (p : M A) (f : A -> M B) m : only quiet any_jump p -> (forall a, doing (f a) m) -> doing (mbind f p) m.
Proof. intros Hp Hf. eapply doing_bind; [by apply doing_quiet|exact Hf|]. by intros a b x y ->. Qed.

Lemma set_param_does oid p v w : doing (net_drv_set_pci_param_uint oid p cm v w) (fun _ k => k = [Put p v; Got p v]).
Proof.
  intros g. unfold net_drv_set_pci_param_uint. wp_go; try done; cbn [upd fst snd]; autorewrite with zbool in *; subst; cbn [Z.eqb].
  eexists. by rewrite <- app_assoc.
Qed.

Lemma get_param_does oid p a : doing (get_param_or_skip cm oid p a) (fun v k => k = [Got p v]).
Proof.
  intros g. unfold get_param_or_skip. wp_go; try done; cbn [upd fst snd]; autorewrite with zbool in *; subst; cbn [Z.eqb]. by eexists.
Qed.

Lemma check_change_does oid v w : doing (check_param_change cm oid v w) (fun v' k => k = [Got "ct_thresh" v']).
Proof.
  intros g. unfold check_param_change. wp_go; try done; cbn [upd fst snd]; autorewrite with zbool in *; subst; cbn [Z.eqb]; by eexists.
Qed.

Lemma draw_loop fuel n v g :
  wp E (loop fuel tt (fun _ => x ← call (rand_range 0 (n - 1)); mret (if u64 x =? v then Continue tt else Return (u64 x)))) g (fun r g' => match r with
    | Val (inr w) => g' = g /\ w <> v /\ 0 <= w < n
    | NoFuel => True
    | _ => False
    end).
Proof.
  induction fuel as [|fuel IH]; [done|]. cbn [loop]. apply wp_bind. wp_step. wp_step. wp_answer. cbn [bpost]. apply wp_ret.
  cbn in H. unfold INT_MAX in H. rewrite u64_id by lia. destruct (Z.eqb_spec x v); cbn [bpost]; [exact IH|]. apply wp_ret. split_all; try done; lia.
Qed.

(** It draws another processor than the one before. *)
Lemma draw_other_does fuel n v : doing (draw_other fuel n v) (fun w k => k = [] /\ w <> v /\ 0 <= w < n).
Proof.
  intros g. unfold draw_other. apply wp_bind. eapply wp_mono; [apply draw_loop|]. intros [[[]|w]|j|w|] g1 H; try done.
  destruct H as (-> & Hw). exists []. by rewrite app_nil_r.
Qed.

(** A test that passes has done [l]. *)
Lemma main_did (p : M unit) l :
  doing p (fun _ => l) ->
  wp E (test_main tt (lift p) (fun _ => mret true)) [] (fun r g => match r with
    | Val (Left _) | NoFuel => True
    | Val _ => l g
    | _ => False
    end).
Proof.
  intros Hp. apply (test_main_passes _ _ _ _ _ (fun _ g => l g)); [|done|by intros L g HG].
  unfold lift. apply wp_bind, wp_attempt. eapply wp_mono; [apply Hp|]. intros [a|j|w|] g H; try done. by destruct H as (k & -> & Hk).
Qed.

Lemma two_sets oid p1 v1 w1 p2 v2 w2 :
  doing (_ ← net_drv_set_pci_param_uint oid p1 cm v1 w1; net_drv_set_pci_param_uint oid p2 cm v2 w2)
    (fun _ k => k = [Put p1 v1; Got p1 v1; Put p2 v2; Got p2 v2]).
Proof. eapply (doing_bind _ _ _ (fun _ _ k => k = [Put p2 v2; Got p2 v2])); [apply set_param_does|intros _; apply set_param_does|]. by intros a b x y -> ->. Qed.

(** The distribution layout was read, set to 1 and to 0, and read back as set. *)
Lemma dist_layout_passes down :
  wp E (dist_layout_main cm iut_rpcs iut_if down) [] (fun r g => match r with
    | Val (Left _) | NoFuel => True
    | Val _ => exists v, g = [Got "dist_layout" v; Put "dist_layout" 1; Got "dist_layout" 1; Put "dist_layout" 0; Got "dist_layout" 0]
    | _ => False
    end).
Proof.
  apply main_did. unfold dist_layout_body. apply doing_then; [unfold pci_device; solve_only|intros oid].
  apply doing_then; [unfold param_present_or_skip; solve_only|intros _]. apply doing_then; [unfold set_down_first; solve_only|intros _].
  eapply doing_bind; [apply get_param_does| |].
  - intros v. by apply two_sets.
  - intros v b x y -> ->. by exists v.
Qed.

(** The processor of the receive queues was read and set to another one of the host. *)
Lemma separated_cpu_passes fuel down :
  wp E (separated_cpu_main cm iut_rpcs iut_if fuel down) [] (fun r g => match r with
    | Val (Left _) | NoFuel => True
    | Val _ => exists v n w, w <> v /\ 0 <= w < n /\
        g = [Got "separated_cpu" v; Cpus n; Put "dist_layout" 1; Got "dist_layout" 1; Put "separated_cpu" w; Got "separated_cpu" w]
    | _ => False
    end).
Proof.
  apply main_did. unfold separated_cpu_body. apply doing_then; [unfold pci_device; solve_only|intros oid].
  apply doing_then; [unfold param_present_or_skip; solve_only|intros _]. apply doing_then; [unfold set_down_first; solve_only|intros _].
  intros g. wp_step. wp_step. wp_answer. destruct x as [rc v]. cbn [bpost upd fst snd]. destruct (rc =? 0); cbn [negb]; [|done].
  unfold CHECK_OUT. wp_step. wp_step. wp_step. wp_answer. destruct x as [rc2 cpus]. cbn [bpost upd fst snd]. destruct (rc2 =? 0); [|done]. apply wp_ret. cbn [bpost].
  set (n := Z.of_nat (length cpus)). destruct (n <=? 1); [done|].
  assert (Hd : doing (_ ← net_drv_set_pci_param_uint oid "dist_layout" cm 1 "Setting dist_layout to 1";
      new_val ← draw_other fuel n v; net_drv_set_pci_param_uint oid "separated_cpu" cm new_val "Changing separated_cpu")
    (fun _ k => exists w, w <> v /\ 0 <= w < n /\ k = [Put "dist_layout" 1; Got "dist_layout" 1; Put "separated_cpu" w; Got "separated_cpu" w])).
  { eapply (doing_bind _ _ _ (fun _ _ k => exists w, w <> v /\ 0 <= w < n /\ k = [Put "separated_cpu" w; Got "separated_cpu" w])); [apply set_param_does|intros _|].
    - eapply doing_bind; [apply draw_other_does|intros w; apply set_param_does|]. intros w b x y (-> & H1 & H2) ->. by exists w.
    - intros a b x y -> (w & H1 & H2 & ->). by exists w. }
  eapply wp_mono; [apply Hd|]. intros [a|j|u|] g1 H1; try done. destruct H1 as (k & -> & w & H1 & H2 & ->).
  eexists. rewrite <- !app_assoc. split; [done|]. by exists v, n, w.
Qed.

Lemma st_param_unseen {St A B} (p : M A) (f : A -> T St B) G L g : only quiet any_jump p ->
  (forall a, wp E (f a L) g (upto (fun _ _ => True) G)) -> wp E (mbind f (lift p) L) g (upto (fun _ _ => True) G).
Proof.
  intros Ho Hf. apply st_call. eapply wp_mono; [by apply doing_quiet|]. intros [a|j|w|] s H; try done.
  destruct H as (k & -> & ->). rewrite app_nil_r. apply Hf.
Qed.

Lemma run_ping_unseen {B} ms o (f : ping_report -> T ping_locals B) G L g :
  (forall r L', wp E (f r L') g (upto (fun _ _ => True) G)) -> wp E (mbind f (run_ping iut_rpcs ms o) L) g (upto (fun _ _ => True) G).
Proof.
  intros Hf. apply st_bind. unfold run_ping. do 2 (apply st_param_unseen; [solve_only|intros ?]; apply st_modify).
  do 2 (apply st_param_unseen; [solve_only|intros _]). unfold lift. apply wp_bind, wp_attempt.
  eapply wp_mono; [apply doing_quiet; solve_only|]. intros [r|j|w|] s H; try done. destruct H as (k & -> & ->). rewrite app_nil_r. apply Hf.
Qed.

Lemma watch_does oid v1 : doing (watch_ct_thresh cm iut_rpcs iut_if oid v1)
  (fun _ k => exists v2 v3 v4, k = [Got "ct_thresh" v2; Got "ct_thresh" v3; Got "ct_thresh" v4;
     Put "ct_thresh" (new_ct_thresh v4); Got "ct_thresh" (new_ct_thresh v4)]).
Proof.
  unfold watch_ct_thresh. eapply (doing_bind _ _ _ (fun _ _ k => exists v3 v4, k = [Got "ct_thresh" v3; Got "ct_thresh" v4;
     Put "ct_thresh" (new_ct_thresh v4); Got "ct_thresh" (new_ct_thresh v4)])); [apply check_change_does|intros v2|].
  - do 2 (apply doing_then; [solve_only|intros _]).
    eapply (doing_bind _ _ _ (fun _ _ k => exists v4, k = [Got "ct_thresh" v4; Put "ct_thresh" (new_ct_thresh v4); Got "ct_thresh" (new_ct_thresh v4)]));
      [apply check_change_does|intros v3|].
    + do 2 (apply doing_then; [solve_only|intros _]). eapply doing_bind; [apply check_change_does|intros v4; apply set_param_does|].
      intros v4 b x y -> ->. by exists v4.
    + intros v3 b x y -> (v4 & ->). by exists v3, v4.
  - intros v2 b x y -> (v3 & v4 & ->). by exists v2, v3, v4.
Qed.

(** The threshold was read four times, and then set to its new value. *)
Lemma ct_thresh_passes a :
  wp E (ct_thresh_main cm iut_rpcs iut_if a) [] (fun r g => match r with
    | Val (Left _) | NoFuel => True
    | Val _ => exists v1 v2 v3 v4, g = [Got "ct_thresh" v1; Got "ct_thresh" v2; Got "ct_thresh" v3; Got "ct_thresh" v4;
        Put "ct_thresh" (new_ct_thresh v4); Got "ct_thresh" (new_ct_thresh v4)]
    | _ => False
    end).
Proof.
  pose (G := fun g => exists v1 v2 v3 v4, g = [Got "ct_thresh" v1; Got "ct_thresh" v2; Got "ct_thresh" v3; Got "ct_thresh" v4;
        Put "ct_thresh" (new_ct_thresh v4); Got "ct_thresh" (new_ct_thresh v4)]).
  unfold ct_thresh_main. apply (test_main_passes _ _ _ _ _ (fun _ g => G g)).
  - unfold ct_thresh_body. apply st_param_unseen; [unfold pci_device; solve_only|intros oid].
    apply st_call. eapply wp_mono; [apply get_param_does|]. intros [v1|j|u|] g1 H1; try done. destruct H1 as (k & -> & ->). cbn [app].
    apply st_param_unseen; [solve_only|intros dst]. apply run_ping_unseen. intros rep L.
    apply st_param_unseen; [unfold judge_report; solve_only|intros _].
    unfold lift. apply wp_bind, wp_attempt. eapply wp_mono; [apply watch_does|]. intros [b|j|u|] g2 H2; try done.
    destruct H2 as (k & -> & v2 & v3 & v4 & ->). apply wp_ret. by exists v1, v2, v3, v4.
  - intros L. unfold ct_thresh_cleanup, also, cleanup_rc. solve_returns.
  - intros L g HG. unfold ct_thresh_cleanup, also, cleanup_rc. by wp_go.
Qed.
End devlink_correct.

(** The factory of the ping tool is destroyed, however the test ends. *)
Lemma ct_thresh_tidy {TE : Te} cm iut_rpcs iut_if a :
  wp FactorySpec.world (ct_thresh_main cm iut_rpcs iut_if a) [] (fun r g => match r with Val _ => g = [] | NoFuel => True | _ => False end).
Proof.
  unfold ct_thresh_main. eapply (test_main_keeps _ (fun L g => g = []) own_factory); [done| |].
  - intros L g ->. unfold ct_thresh_body. apply st_factory_quiet; [unfold pci_device; solve_only|by left|intros oid].
    apply st_factory_quiet; [unfold get_param_or_skip; solve_only|by left|intros v].
    apply st_factory_quiet; [solve_only|by left|intros dst]. apply run_ping_tidy. intros rep L' g' Hg.
    apply st_factory_quiet; [unfold judge_report; solve_only|done|intros _]. unfold lift. apply wp_bind, wp_attempt.
    eapply wp_mono; [apply (wp_only FactorySpec.quiet any_jump FactorySpec.world (fun s => s = g'))|].
    + unfold watch_ct_thresh, check_param_change, net_drv_set_pci_param_uint. solve_only.
    + intros X c0 s x s' Hq -> Hx. by eapply FactorySpec.factory_quiet.
    + done.
    + intros [r|j|w|] s' [-> Hj]; done.
  - intros L g HL. unfold ct_thresh_cleanup, also, cleanup_rc. wp_step. wp_step. wp_step. wp_answer. apply wp_ret. cbn [bpost FactorySpec.upd].
    wp_step. apply ping_factory_destroyed; [done|]. by wp_go.
Qed.
