(* ===== verification/RxHeadroom.v ===== *)
(** basic/set_rx_headroom.c: the interface in a bridge with a VXLAN tunnel. *)
From S2P Require Import Prelude Prog Te Locals NetDrvTs Resources RxCommon Holding Judging NicFilter BasicTests.

Section set_rx_headroom.
Context {TE : Te} (TAPI_NETIF_MSG_ALL : Z).
Context (iut_rpcs tst_rpcs : rcf_rpc_server) (iut_if tst_if : string) (iut_addr tst_addr : sockaddr).
Context (tst_lladdr iut_lladdr : list Z) (if_down_up : bool).
Local Abbreviation iut_ta := (rpcs_ta iut_rpcs).
Local Abbreviation tst_ta := (rpcs_ta tst_rpcs).

Definition TAP_NAME : string := "tap0".
Definition BRIDGE_NAME : string := "bridge0".
Definition VXLAN_VNI_MAX : Z := 0xFFFFFF.
Definition VXLAN_TNL_NAME : string := "vxlan0".
Definition VXLAN_PORT : Z := 4789.
Definition CONSOLE_LOGLEVEL : Z := 8.

Definition judge_captured (rx_pkts_num : Z) (exp_receive : bool) (stage : string) : M unit :=
  if PKTS_NUM_WAIT <? rx_pkts_num then TEST_VERDICT "%s: CSAP on IUT captured more than one packet" [AS stage]
  else if exp_receive then
    when (rx_pkts_num =? 0) (TEST_VERDICT "%s: CSAP on IUT did not capture the packet" [AS stage])
  else when (negb (rx_pkts_num =? 0)) (TEST_VERDICT "%s: CSAP on IUT captured the packet" [AS stage]).

(** [free()] gives back the root of the template only. *)
Definition send_recv_pkt (csap_iut csap_tst af : Z) (exp_receive : bool) (stage : string) : M unit :=
  pkt_templ ← parse_templ af;
  send_len ← call (rand_range 1 MAX_PKT_LEN);
  send_buf ← call (te_fill_buf send_len);
  _ ← CHECK_RC (call (asn_write_value_field pkt_templ (ASN_OCTETS send_buf) "payload.#bytes"));
  _ ← CHECK_RC (call (tapi_tad_trsend_blocking tst_ta csap_tst pkt_templ));
  rx_pkts_num ← CHECK_OUT (call (tapi_tad_trrecv_wait_pkts_get_num iut_ta csap_iut PKTS_NUM_WAIT TAPI_WAIT_NETWORK_DELAY));
  _ ← judge_captured rx_pkts_num exp_receive stage;
  call (free pkt_templ).

(** The parser of the console and the messages of the driver. *)
Definition watch_console : M unit :=
  _ ← CHECK_RC (call (tapi_cfg_set_loglevel iut_ta CONSOLE_LOGLEVEL));
  _ ← CHECK_RC (call (tapi_serial_parser_event_add "LogListener" "iut" "headroom_log"));
  rc ← call (tapi_serial_parser_pattern_add "LogListener" "iut" "headroom_log" "Rx headroom");
  if rc <? 0 then TEST_FAIL "Failed to add a parser pattern" [] else
  rc ← call (tapi_cfg_if_msglvl_set iut_ta iut_if TAPI_NETIF_MSG_ALL);
  when (negb (rc =? 0)) (RING_VERDICT "Failed to enable all flags in msglvl" []).

Definition make_tap : M unit :=
  rc ← call (tapi_cfg_tap_add iut_ta TAP_NAME);
  let err := TE_RC_GET_ERROR rc in
  if (err =? TE_ENOENT) || (err =? RPC_ENODEV) || (err =? RPC_EOPNOTSUPP) then TEST_SKIP "TUN/TAP is unavailable" [] else
  _ ← CHECK_RC (mret rc);
  _ ← CHECK_RC (call (tapi_cfg_base_if_up iut_ta TAP_NAME));
  call CFG_WAIT_CHANGES.

Definition make_tunnel (tunnel_vni : Z) : M unit :=
  '(iut_addr2, tst_addr2, _) ← CHECK_OUT (call (tapi_cfg_alloc_af_net_addr_pair (sa_family iut_addr)));
  let tunnel_config := CfgTunnel VXLAN_TNL_NAME TAP_NAME iut_addr2 tst_addr2 tunnel_vni VXLAN_PORT in
  _ ← CHECK_RC (call (tapi_cfg_tunnel_add iut_ta tunnel_config));
  _ ← CHECK_RC (call (tapi_cfg_tunnel_enable iut_ta tunnel_config));
  call CFG_WAIT_CHANGES.

Definition make_bridge : M unit :=
  _ ← CHECK_RC (call (tapi_cfg_bridge_add iut_ta BRIDGE_NAME));
  _ ← CHECK_RC (call (tapi_cfg_base_if_up iut_ta BRIDGE_NAME));
  _ ← CHECK_RC (call (tapi_cfg_bridge_port_add iut_ta BRIDGE_NAME iut_if));
  _ ← CHECK_RC (call (tapi_cfg_bridge_port_add iut_ta BRIDGE_NAME VXLAN_TNL_NAME));
  call CFG_WAIT_CHANGES.

Definition restart_if : M unit :=
  when if_down_up
    (_ ← CHECK_RC (call (tapi_cfg_base_if_down_up iut_ta iut_if));
     net_drv_wait_up_gen iut_ta iut_if false).

Definition report_logs : M unit :=
  logs_nb ← CHECK_OUT (call (tapi_serial_parser_event_get_count "LogListener" "iut" "headroom_log"));
  when (0 <? logs_nb) (RING_VERDICT "Headroom changing logs from the driver were detected" []).

Definition set_rx_headroom_body (tunnel_vni : Z) : T vlan_locals unit :=
  _ ← lift watch_console;
  _ ← lift make_tap;
  _ ← lift (make_tunnel tunnel_vni);
  _ ← lift make_bridge;
  _ ← lift restart_if;
  csap_iut ← lift (CHECK_OUT (call (tapi_udp_ip_eth_csap_create iut_ta iut_if TAD_ETH_RECV_DEF
               (Some iut_lladdr) (Some tst_lladdr) (sa_family iut_addr) iut_addr tst_addr)));
  _ ← modify (vl_set_iut csap_iut);
  _ ← lift (CHECK_RC (call (tapi_tad_trrecv_start_count iut_ta csap_iut)));
  csap_tst ← lift (CHECK_OUT (call (tapi_udp_ip_eth_csap_create tst_ta tst_if TAD_ETH_RECV_NO
               (Some tst_lladdr) (Some iut_lladdr) (sa_family iut_addr) tst_addr iut_addr)));
  _ ← modify (vl_set_tst csap_tst);
  _ ← lift (send_recv_pkt csap_iut csap_tst (sa_family iut_addr) true "Sending packet");
  lift report_logs.

Definition set_rx_headroom_cleanup (l : vlan_locals) : M bool :=
  also (cleanup_rc (call (tapi_tad_csap_destroy iut_ta (vl_csap_iut l))))
       (cleanup_rc (call (tapi_tad_csap_destroy tst_ta (vl_csap_tst l)))).

(** [tunnel_vni] is drawn before the test starts. *)
Definition set_rx_headroom_main : M status :=
  tunnel_vni ← call (rand_range 1 VXLAN_VNI_MAX);
  test_main vl_start (set_rx_headroom_body tunnel_vni) set_rx_headroom_cleanup.
End set_rx_headroom.

(** ** What the test does *)
Module HeadroomSpec.
(** Interfaces made and joined, packets sent, packets counted. *)
Inductive event :=
| Tap (ta name : string) | Tunnel (ta : string) (t : cfg_tunnel) | Enabled (ta : string) (t : cfg_tunnel)
| Bridge (ta name : string) | Port (ta bridge port : string) | Sent (ta : string) (csap : Z) | Counted (ta : string) (csap n : Z).

Definition upd X (c : te_call X) : X -> list event -> list event :=
  match c in te_call X return X -> list event -> list event with
  | tapi_cfg_tap_add ta n => fun x g => if x =? 0 then g ++ [Tap ta n] else g
  | tapi_cfg_tunnel_add ta t => fun x g => if x =? 0 then g ++ [Tunnel ta t] else g
  | tapi_cfg_tunnel_enable ta t => fun x g => if x =? 0 then g ++ [Enabled ta t] else g
  | tapi_cfg_bridge_add ta n => fun x g => if x =? 0 then g ++ [Bridge ta n] else g
  | tapi_cfg_bridge_port_add ta b p => fun x g => if x =? 0 then g ++ [Port ta b p] else g
  | tapi_tad_trsend_blocking ta c _ => fun x g => if x =? 0 then g ++ [Sent ta c] else g
  | tapi_tad_trrecv_wait_pkts_get_num ta c _ _ => fun x g => if fst x =? 0 then g ++ [Counted ta c (snd x)] else g
  | _ => fun _ g => g
  end.
(** A random number is of its range; packets are counted from zero. *)
Definition ok X (c : te_call X) : list event -> X -> Prop :=
  match c in te_call X return list event -> X -> Prop with
  | rand_range lo hi => fun _ x => lo <= x <= hi
  | tapi_tad_trrecv_wait_pkts_get_num _ _ _ _ => fun _ x => 0 <= snd x
  | _ => fun _ _ => True
  end.
Definition world : env te_call (list event) := watch_if ok upd.
Definition quiet X (c : te_call X) : bool :=
  match c with
  | tapi_cfg_tap_add _ _ | tapi_cfg_tunnel_add _ _ | tapi_cfg_tunnel_enable _ _ | tapi_cfg_bridge_add _ _
  | tapi_cfg_bridge_port_add _ _ _ | tapi_tad_trsend_blocking _ _ _ | tapi_tad_trrecv_wait_pkts_get_num _ _ _ _ => false
  | _ => true
  end.
Lemma headroom_quiet X (c : te_call X) g x g' : quiet X c = true -> world X c g x g' -> g' = g.
Proof. by destruct c; intros Hc [_ ->]. Qed.
End HeadroomSpec.

Section headroom_correct.
Context {TE : Te} (ALL : Z).
Context (iut_rpcs tst_rpcs : rcf_rpc_server) (iut_if tst_if : string) (iut_addr tst_addr : sockaddr).
Context (tst_lladdr iut_lladdr : list Z) (if_down_up : bool).
Import HeadroomSpec.
Local Abbreviation E := HeadroomSpec.world.
Local Abbreviation iut_ta := (rpcs_ta iut_rpcs).
Local Abbreviation tst_ta := (rpcs_ta tst_rpcs).
Local Abbreviation the_main := (set_rx_headroom_main ALL iut_rpcs tst_rpcs iut_if tst_if iut_addr tst_addr tst_lladdr iut_lladdr if_down_up).

(** A program that does what [l] says when it returns. *)
Definition acts {A} (p : M A) (l : list event -> Prop) : Prop := forall g,
  wp E p g (fun r g' => match r with Val _ => exists k, g' = g ++ k /\ l k | Undef _ => False | _ => True end).

Lemma acts_not {A} (p : M A) : only quiet any_jump p -> acts p (fun k => k = []).
Proof.
  intros H g. eapply wp_mono; [apply (wp_only quiet any_jump E (fun s => s = g)); [exact H| |done]|].
  - intros X c s x s' Hc -> Hx. by eapply headroom_quiet.
  - intros [a|j|w|] s' [-> Hr]; try done. exists []. by rewrite app_nil_r.
Qed.

Lemma st_acts {St A B} (p : M A) l (f : A -> T St B) G L g : acts p l ->
  (forall a k, l k -> wp E (f a L) (g ++ k) (upto (fun _ _ => True) G)) -> wp E (mbind f (lift p) L) g (upto (fun _ _ => True) G).
Proof.
  intros Hp Hf. apply st_call. eapply wp_mono; [by apply Hp|]. intros [a|j|w|] s H; try done. destruct H as (k & -> & Hk). by apply Hf.
Qed.

Lemma tap_acts : acts (make_tap iut_rpcs) (fun k => k = [Tap iut_ta TAP_NAME]).
Proof.
  intros g. unfold make_tap. wp_go; try done; cbn [upd fst snd].
  all: repeat match goal with H : (_ =? 0) = true |- _ => rewrite H; clear H end; by eexists.
Qed.

(** A tunnel through the TAP interface with the number that was drawn. *)
Definition tunnel_of (vni : Z) (t : cfg_tunnel) : Prop :=
  tn_name t = VXLAN_TNL_NAME /\ tn_if_name t = TAP_NAME /\ tn_vni t = vni /\ tn_port t = VXLAN_PORT.

Lemma tunnel_acts vni : acts (make_tunnel iut_rpcs iut_addr vni) (fun k => exists t, k = [Tunnel iut_ta t; Enabled iut_ta t] /\ tunnel_of vni t).
Proof.
  intros g. unfold make_tunnel. wp_go; try done; cbn [upd fst snd].
  all: repeat match goal with H : (_ =? 0) = true |- _ => rewrite H; clear H end; eexists; rewrite <- app_assoc; split; [done|]; by eexists.
Qed.

Lemma bridge_acts : acts (make_bridge iut_rpcs iut_if) (fun k => k =
  [Bridge iut_ta BRIDGE_NAME; Port iut_ta BRIDGE_NAME iut_if; Port iut_ta BRIDGE_NAME VXLAN_TNL_NAME]).
Proof.
  intros g. unfold make_bridge. wp_go; try done; cbn [upd fst snd].
  all: repeat match goal with H : (_ =? 0) = true |- _ => rewrite H; clear H end; eexists; rewrite <- !app_assoc; done.
Qed.

(** One packet is sent, and exactly one is counted. *)
Lemma packet_acts c1 c2 af w : acts (send_recv_pkt iut_rpcs tst_rpcs c1 c2 af true w) (fun k => k = [Sent tst_ta c2; Counted iut_ta c1 1]).
Proof.
  intros g. unfold send_recv_pkt. wp_step. eapply wp_mono; [apply acts_not; unfold parse_templ; solve_only|].
  intros [t|j|u|] g1 H1; try done. destruct H1 as (k & -> & ->). rewrite app_nil_r. cbn [bpost]. unfold judge_captured.
  wp_go; try done; cbn [upd fst snd]; unfold PKTS_NUM_WAIT in *.
  rewrite Heqb0, Heqb1. eexists. rewrite <- app_assoc. split; [done|]. cbn in H3. autorewrite with zbool in *. by assert (z = 1) as -> by lia.
Qed.

(** What a run that passes has done. *)
Definition passed (vni c1 c2 : Z) (g : list event) : Prop := exists t, tunnel_of vni t /\
  g = [Tap iut_ta TAP_NAME; Tunnel iut_ta t; Enabled iut_ta t; Bridge iut_ta BRIDGE_NAME; Port iut_ta BRIDGE_NAME iut_if;
       Port iut_ta BRIDGE_NAME VXLAN_TNL_NAME; Sent tst_ta c2; Counted iut_ta c1 1].

(** The test passes only if a packet sent to the interface, which is in a bridge
    with a tunnel of a valid number, was captured there exactly once. *)
Lemma set_rx_headroom_passes :
  wp E the_main [] (fun r g => match r with
    | Val (Left _) | NoFuel => True
    | Val _ => exists vni c1 c2, 1 <= vni < 2 ^ 24 /\ passed vni c1 c2 g
    | _ => False
    end).
Proof.
  unfold set_rx_headroom_main. wp_step. wp_step. wp_answer. cbn [bpost upd]. cbn in H. rename x into vni.
  apply (test_main_passes _ _ _ _ _ (fun _ g => exists vni c1 c2, 1 <= vni < 2 ^ 24 /\ passed vni c1 c2 g)).
  - unfold set_rx_headroom_body. eapply st_acts; [apply acts_not; unfold watch_console; solve_only|intros _ k ->].
    eapply st_acts; [apply tap_acts|intros _ k ->]. eapply st_acts; [apply tunnel_acts|intros _ k (t & -> & Ht)].
    eapply st_acts; [apply bridge_acts|intros _ k ->].
    eapply st_acts; [apply acts_not; unfold restart_if, net_drv_wait_up_gen; solve_only|intros _ k ->].
    eapply st_acts; [apply acts_not; solve_only|intros c1 k ->]. apply st_modify.
    eapply st_acts; [apply acts_not; solve_only|intros _ k ->].
    eapply st_acts; [apply acts_not; solve_only|intros c2 k ->]. apply st_modify.
    eapply st_acts; [apply packet_acts|intros _ k ->].
    unfold lift. apply wp_bind, wp_attempt. eapply wp_mono; [apply acts_not; unfold report_logs; solve_only|].
    intros [[]|j|w|] g1 H1; try done. destruct H1 as (k & -> & ->). apply wp_ret. exists vni, c1, c2.
    split; [unfold VXLAN_VNI_MAX in H; lia|]. exists t. split; [done|]. cbn. done.
  - intros L. unfold set_rx_headroom_cleanup, also, cleanup_rc. solve_returns.
  - intros L g HG. unfold set_rx_headroom_cleanup, also, cleanup_rc. by wp_go.
Qed.

(** The CSAPs are destroyed, however it ends. *)
Lemma set_rx_headroom_releases init :
  wp h_world the_main (clean init) (fun r g => match r with Val _ => gave_back g | NoFuel => True | _ => False end).
Proof.
  unfold set_rx_headroom_main. wp_step. wp_step. wp_answer. cbn [bpost h_upd]. rename x into vni.
  eapply (test_main_keeps _ (fun L g => L = vl_start /\ holding (fun _ => []) (vl_csaps iut_rpcs tst_rpcs) L g)).
  - split; [done|]. split; apply submseteq_nil_l.
  - intros L g [-> Hg]. unfold set_rx_headroom_body.
    apply st_free; [unfold watch_console; solve_only|done|]. clear g Hg. intros _ g Hg.
    apply st_free; [unfold make_tap; solve_only|done|]. clear g Hg. intros _ g Hg.
    apply st_free; [unfold make_tunnel; solve_only|done|]. clear g Hg. intros _ g Hg.
    apply st_free; [unfold make_bridge; solve_only|done|]. clear g Hg. intros _ g Hg.
    apply st_free; [unfold restart_if, net_drv_wait_up_gen; solve_only|done|]. clear g Hg. intros _ g Hg.
    apply (st_take_csap _ _ _ (rpcs_ta iut_rpcs)); [done|by intros ? ?|exact Hg|]. clear g Hg. intros c1 g H1 Hs Hc. apply st_modify.
    assert (Hg : holding (fun _ => []) (vl_csaps iut_rpcs tst_rpcs) (vl_set_iut c1 vl_start) g).
    { split; [exact Hs|]. etrans; [exact Hc|]. unfold vl_csaps, csap_at. cbn. by rewrite Z.eqb_refl, (proj2 (Z.eqb_neq c1 _)). }
    clear Hs Hc. apply st_free; [solve_only|done|]. clear g Hg. intros _ g Hg.
    apply (st_take_csap _ _ _ (rpcs_ta tst_rpcs)); [done|by intros ? ?|exact Hg|]. clear g Hg. intros c2 g H2 Hs Hc. apply st_modify.
    assert (Hg : holding (fun _ => []) (vl_csaps iut_rpcs tst_rpcs) (vl_set_tst c2 (vl_set_iut c1 vl_start)) g).
    { split; [exact Hs|]. etrans; [exact Hc|]. unfold vl_csaps, csap_at. cbn.
      rewrite Z.eqb_refl, (proj2 (Z.eqb_neq c1 _)), (proj2 (Z.eqb_neq c2 _)) by done. cbn. apply Permutation_submseteq, Permutation_swap. }
    clear Hs Hc. apply st_free; [unfold send_recv_pkt, parse_templ, judge_captured; solve_only|done|]. clear g Hg. intros _ g Hg.
    apply st_free_last; [unfold report_logs; solve_only|done].
  - intros L g [Hs Hc]. unfold set_rx_headroom_cleanup, also. wp_step.
    eapply csap_let_go; [exact Hc|]. intros b2 g2 Hc2 E2. cbn [bpost]. wp_step.
    eapply csap_let_go; [by rewrite app_nil_r|]. intros b3 g3 Hc3 E3. wp_go.
    apply submseteq_nil_r in Hs, Hc3. split; [congruence|done].
Qed.
End headroom_correct.
